(* ===== verification/_CoqProject ===== *)
-Q . S2P
Prelude.v
DataStreams.v
BooleanStreams.v
Wire.v
BaseMarshaller.v
PrimitiveTypes.v
Support.v
Commands.v
Layouts.v
Destinations.v
MarshallerBase.v
IdMarshallers.v
ConnectionMarshallers.v
ResponseMarshallers.v
MessageMarshallers.v
Registry.v
OpenWire.v
MessageBodies.v
DispatchChannels.v
StringOrder.v
Identifiers.v
StateTracker.v
TrackerLaws.v
TrackerRestore.v
TrackerRegistry.v
TrackerReplay.v
TrackerFacts.v
Uris.v
Failover.v
FailoverLaws.v
FailoverSending.v
FailoverInvariant.v
FailoverFacts.v
BitSets.v
BitSetLaws.v
HashMaps.v
HashMapLaws.v
HashMapIterators.v
LinkedHashMaps.v
LinkedLaws.v
LinkedRefinement.v
LinkedCaches.v
MessageAudit.v
MessageAuditLaws.v
Correlator.v
CorrelatorLaws.v
CorrelatorFacts.v
Consumer.v
ConsumerLaws.v
ConsumerFacts.v
ConsumerRollback.v
ConsumerDeviations.v
Numbers.v
StompFrames.v
Stomp.v
StompLaws.v
StompFacts.v
StompRequests.v
BufferedStreams.v
BufferedOutput.v
Inactivity.v
InactivityFacts.v
InactivityTimed.v
Negotiator.v
Heaps.v
Timers.v
TimerLaws.v
TimerFacts.v
PriorityQueues.v
PriorityQueueFacts.v
