(* ===== verification/Prelude.v ===== *)
(** * ActiveMQ-CPP: a verification library

    ActiveMQ-CPP is a C++ client of the ActiveMQ message broker.  Its sources are
    under src/activemq-cpp/src/main: decaf/ (a class library in the style of the
    Java runtime: streams, strings, collections, threads, sockets), cms/ (the
    interfaces applications program against) and activemq/ (the client).  A command
    of the client goes down a chain of transports to a wire format, which encodes
    it, and the commands of the broker come back the same way, are correlated with
    the requests that wait for them or queued for the consumers of a session.

    The library follows a command from the bytes up.  Paths below are relative to
    src/activemq-cpp/src/main.

    ** Files

    - Prelude.v (this file): results, exceptions and the state monad [M] of the
      code, machine integers and their conversions, byte strings, shared lemmas,
      tactics and hint databases.
    - DataStreams.v: decaf/io DataInputStream, DataOutputStream and
      ByteArrayInputStream.  [InputStream] is the interface of a stream,
      [InputStreamLaws] what its clients rely on: any fragmentation is allowed.
    - BooleanStreams.v: activemq/wireformat/openwire/utils/BooleanStream, the flags
      of the tight encoding, against a queue of booleans.
    - Wire.v: layouts, a declarative description of the tight and the loose form of
      a command, and what it means that code writes or reads a layout.
    - BaseMarshaller.v: activemq/wireformat/openwire/marshal/BaseDataStreamMarshaller,
      the encoding of single fields.
    - PrimitiveTypes.v: activemq/util PrimitiveValueNode and PrimitiveMap,
      activemq/wireformat/openwire/marshal/PrimitiveTypesMarshaller: property maps.
    - Support.v: decaf/lang Integer and Character, decaf/util/StringTokenizer,
      activemq/util/URISupport, the searches of std::string.
    - Commands.v: activemq/commands, a record per class with the defaults of its
      constructor, the sum [DataStructure] of all of them, destination names, the
      marshalling hooks of messages and of WireFormatInfo.
    - Layouts.v: the layout of every command for every protocol version.
    - Destinations.v: the names of destinations.
    - MarshallerBase.v: nested and cached objects, arrays of objects; [WireFormat]
      is what a marshaller calls of the wire format and [WireFormatLaws] what it
      relies on.
    - IdMarshallers.v, ConnectionMarshallers.v, ResponseMarshallers.v,
      MessageMarshallers.v: the classes of
      activemq/wireformat/openwire/marshal/generated, a module per class with its
      five functions, each proved to implement the layout of its command.
    - Registry.v: DataStreamMarshaller.h and MarshallerFactory.cpp, the table of the
      marshallers.
    - OpenWire.v: activemq/wireformat/openwire/OpenWireFormat, options, negotiation,
      marshal and unmarshal.
    - MessageBodies.v: the bodies of text and map messages between two clients.
    - DispatchChannels.v: activemq/core MessageDispatchChannel and its two
      implementations, against a queue ordered by rank.
    - StringOrder.v: decaf/internal/util/StringUtils, the natural order of strings,
      against the lexicographic order of keys.
    - Identifiers.v: the orders of the identifiers of activemq/commands
      ([Comparator], [ComparatorLaws]) and decaf/util/concurrent/ConcurrentStlMap.
    - StateTracker.v: activemq/state, what a failover replays.  TrackerLaws.v: its
      invariant.  TrackerRestore.v: what [restore] sends.  TrackerRegistry.v:
      [track] refines a registry.  TrackerReplay.v: a snapshot rebuilds the
      registry.  TrackerFacts.v: transactions and the tracker's deviations.
    - Uris.v: decaf/net/URI (comparing and printing) and
      activemq/transport/failover/URIPool.
    - Failover.v: activemq/transport/failover/FailoverTransport with its listener,
      its backups and its tasks, and the loop of activemq/threads/CompositeTaskRunner.
      [Network] is what it uses of the transports below, whose state is a parameter;
      what other threads do while [oneway] waits is an argument of it.
      FailoverLaws.v: connecting and giving up.  FailoverSending.v: [oneway].
      FailoverInvariant.v: the operations as a transition system, and its invariant.
      FailoverFacts.v: corner cases.
    - BitSets.v: decaf/util/BitSet, on an array of 64-bit words.  BitSetLaws.v: its
      operations against those of the natural numbers' bits.
    - HashMaps.v: decaf/util HashCode and HashMap, the table with its chains, its
      rehashing and its iterators.  HashMapLaws.v: the table against a finite map.
      HashMapIterators.v: what an iterator visits.
    - LinkedHashMaps.v: decaf/util LinkedHashMap, whose entries are also linked in a
      list, and LRUCache.  LinkedLaws.v: the linked list, segment by segment.
      LinkedRefinement.v: each operation against an association list.
      LinkedCaches.v: sequences of operations, iteration, the bound of a cache.
    - MessageAudit.v: activemq/core ActiveMQMessageAudit and ConnectionAudit, and
      what they use of activemq/util/IdGenerator: the detection of duplicates.
      MessageAuditLaws.v: against the sets of the sequence numbers seen.
    - Correlator.v: activemq/transport ResponseCorrelator, TransportFilter and
      FutureResponse, every call a thread whose atomic actions interleave with those
      of the others.  CorrelatorLaws.v: the invariant of its configurations.
      CorrelatorFacts.v: what a caller can rely on.
    - Consumer.v: activemq/core/kernels/ActiveMQConsumerKernel (reception,
      acknowledgement, redelivery, rollback), the delivery of a session's
      messages (activemq/core/ActiveMQSessionExecutor), the local transactions of
      activemq/core/ActiveMQTransactionContext, the acknowledgements
      (activemq/commands/MessageAck) and the redelivery policy, for a session with
      one consumer.  [Surroundings] is what the consumer uses of its connection.
      ConsumerLaws.v: the operations, step by step, with the acknowledgements as
      windows of messages.  ConsumerFacts.v: acknowledgement.  ConsumerRollback.v:
      redelivery and transactions.  ConsumerDeviations.v: corner cases.
    - Numbers.v: decaf/lang Integer and Long, to text and back;
      activemq/util/PrimitiveValueConverter.
    - StompFrames.v: activemq/wireformat/stomp/StompFrame, written and read.
      Stomp.v: StompHelper, StompWireFormat and its factory.  StompLaws.v: headers,
      identifiers and destinations, converted and back.  StompFacts.v: messages
      from client to client.  StompRequests.v: receipts, and headers that come back.
    - BufferedStreams.v: decaf/io/BufferedInputStream, an input stream over an input
      stream, and its marks.  BufferedOutput.v: BufferedOutputStream, and the two of
      them on a connection.
    - Inactivity.v: activemq/transport/inactivity (InactivityMonitor, ReadChecker,
      WriteChecker), with the threads that call it as steps; a thread that stops the
      monitor waits for the task runner.  InactivityFacts.v: what it detects and
      reports.  InactivityTimed.v: two monitors with clocks.
    - Negotiator.v: activemq/wireformat/openwire/OpenWireFormatNegotiator, which holds
      commands back until the wire formats are settled.
    - Heaps.v: the loops of a binary heap over any ordering, and when taking an element
      out of it keeps its order.  Timers.v: decaf/util/TimerTask, TimerTaskHeap and
      Timer, with the thread of the timer as steps.  TimerLaws.v: the invariant of a
      timer.  TimerFacts.v: when it runs what.  The inactivity monitor is written
      against the two calls of a timer it makes (CheckTimer in Inactivity.v), which
      [serves_schedule] and [serves_cancel] show of the timer.
    - PriorityQueues.v: decaf/util/PriorityQueue, in an array that grows.
      PriorityQueueFacts.v: it answers as a bag that gives the least.

    ** Conventions

    A stateful C++ method is a computation of the monad [M S], a function from the
    state to [Ok] of a value and a new state or to the exception that is thrown, or,
    where the state is used after an exception, of the monad [X S], which keeps it;
    where the C++ standard leaves a behaviour undefined the result is [Undefined].
    Integers are in Z with the conversions of the code ([to_s32] and the like)
    written out; a byte is a number from 0 to 255 and a std::string a list of bytes.
    A Pointer that may be NULL is an option.  Code outside the repository is a
    parameter: the environment and zlib's compressor are the fields of [Platform],
    the decompressor is an argument, and what is assumed of them (decompression
    inverts compression) is a hypothesis of the theorems that use it.

    ** Fuel

    A marshaller calls the wire format for a nested object and the wire format calls
    a marshaller, so the model of the wire format takes fuel.  The layout of a
    nested object is at least two fields shorter than that of the object that refers
    to it, so the number of fields of a command's layout is enough fuel; the
    theorems are for any fuel from that number on, so none of them is about a run
    that stopped early.  The loops over streams and strings take the length of their
    input, which is shown to be enough in the lemmas about them, and those over a heap
    its size.

    ** What the theorems show

    - Encoding: [openwire_roundtrip] (any sendable command, both encodings, every
      version, any fragmentation), built on [primitive_map_roundtrip],
      [boolean_stream_roundtrip] and [data_roundtrip]; [read_truncated] and
      [unknown_type_rejected] for input that is not a command;
      [registry_consistent] for the table of marshallers.
    - Negotiation: [negotiation_agrees], [version_supported]; [handshake_agrees] and
      [commands_wait_for_format] for the filter that does it on a connection.
    - Messages: [text_message_delivered], [map_message_delivered].
    - Dispatch: [priority_channel_refines], [fifo_channel_refines],
      [priority_dequeue_waits], [priority_delivery_order].
    - Failover: [tracker_invariant], [tracker_refines_registry],
      [restore_sends_snapshot], [restore_replays] (together: what a broker is sent
      makes it know what the client knew), [transactions_restored];
      [iterate_reconnects] and [oneway_survives_failure] put the tracker and the
      transport together, with [oneway_sends_once], [runner_gives_up] and
      [transport_invariant]; [compareIgnoreCase_order] for the order the maps are
      built on.  [iterate_reconnects], [oneway_survives_failure] and [runner_gives_up]
      are over [Brokers.network]: making a transport does not connect, starting it
      does, and fails when the broker cannot be reached.
    - Collections: [bitset_refines], [hashmap_refines], [iterator_visits_once],
      [linked_refines], [linked_iteration], [lru_bounded].
    - Duplicates: [audit_refines].
    - Requests: [own_response], [callback_once], [disposed_all_return].
    - Consumers: [client_acknowledge_covers], [auto_acknowledges_each],
      [commit_consumes], [rollback_redelivers], [transaction_rolls_back],
      [rollback_poisons].
    - Stomp: [stomp_frames_roundtrip], [frame_reading_ends], and over them
      [stomp_text_delivered], [stomp_bytes_delivered], [stomp_requests_answered].
    - Buffers: [buffers_transparent], [marked_bytes_return].
    - Inactivity: [keep_alives_prevent_alarm] (two ends that are up never take each
      other for dead) and [silence_detected] (an end that falls silent is found out);
      [failure_reported_once].
    - Timers: [timer_catches_up], [earliest_first] and [never_oversleeps] of a timer
      that is never purged; [purge_keeps_order]; [fixed_rate_exact] of any; [priority_queue_refines] and
      [remove_value_order] of the queues with the same heap.
    - Names and numbers: [plain_destination_sendable], [temp_destination_parts],
      [parseInt_decimal], [toArray_segments], [splitComponents_join].
    - Behaviour that differs from what the code means to do, stated as it is:
      [unread_map_message_loses_body], [producerInfo_size_overstated],
      [long_ascii_string_lost], [marshal_vector_drops_last],
      [readFully_offset_throws], [received_empty_string_not_resendable],
      [advisory_by_first_letter], [createQueryString_empty],
      [priority_clear_keeps_count], [compare_whitespace_overread],
      [stalled_consumers_kept], [removed_destination_tracked],
      [xa_transaction_refused], [send_after_shutdown_spins],
      [rebalance_ends_task_thread], [priority_backup_never_settles],
      [or_keeps_old_size], [copied_remove_undefined],
      [late_sequence_taken_for_duplicate], [adjust_keeps_all],
      [failed_ack_silences], [late_listener_poisons],
      [failover_redelivery_unrecognised], [wait_for_redeliveries_gives_up],
      [failed_commit_keeps_messages], [connection_overrides_options],
      [forwarded_message_returns], [unescaped_header_smuggles],
      [transactionId_truncated], [remote_temp_in],
      [close_drops_waiting], [growing_buffer_loses_marked],
      [blocked_keepalive_hides_silence], [restart_refused], [invalid_magic_dropped],
      [cancelled_task_ends_thread], [purged_timer_oversleeps],
      [polls_out_of_order], [iterator_removes_next], [assignment_copies].

    ** What is not modelled, and why

    Threads, sockets, TLS, logging, the thread pool, the locks and the operating
    system layer of decaf are left out: they are wrappers around system services;
    what a component does under its own locks is a step of the model.  zlib is
    third-party code.  cmsutil, the CMS interfaces and the mock and discovery
    transports hold no logic of the protocol.  Of the command classes, toString,
    equals, copyDataStructure (but for what the state tracker clones) and the
    visitors are left out.  Of the consumer, message transformers, the timer of
    optimized acknowledgements and XA transactions are left out, and a session has
    one consumer; the producer, session and connection kernels appear only with the
    functions that the consumer calls.  Floating point numbers are their bits. *)

From Stdlib Require Export ZArith Lia.
From stdpp Require Export base list option strings numbers.

Declare Scope amq_scope.
Delimit Scope amq_scope with amq.
#[global] Open Scope Z_scope.
#[global] Open Scope amq_scope.
#[export] Set Warnings "-register-all".

(** ** Exceptions, undefined behaviour and results

    The exception classes the modelled code throws.  [EOFException] and
    [UTFDataFormatException] derive from [IOException] in decaf; the last five are
    the classes of cms, of which the others derive from [CMSException]. *)
Inductive exn : Set :=
| IOException
| EOFException
| UTFDataFormatException
| NullPointerException
| IndexOutOfBoundsException
| IllegalArgumentException
| IllegalStateException
| NumberFormatException
| NoSuchElementException
| ClassCastException
| ConcurrentModificationException
| NegativeArraySizeException
| UnsupportedOperationException
| ActiveMQException
| CMSException
| CMSIllegalStateException
| InvalidDestinationException
| TransactionInProgressException
| TransactionRolledBackException.

#[global] Instance exn_eq_dec : EqDecision exn.
Proof. solve_decision. Defined.

(** How a C++ call can fail to return: an exception, undefined behaviour (an
    access outside a [std::vector], a null dereference), or the exhaustion of
    the fuel that bounds a loop of the model. *)
Inductive failure : Set :=
| Throw (e : exn)
| Undefined
| NoFuel.

#[global] Instance failure_eq_dec : EqDecision failure.
Proof. solve_decision. Defined.

Inductive result (A : Type) : Type :=
| Ok (a : A)
| Err (f : failure).
Arguments Ok {A} a.
Arguments Err {A} f.

#[global] Instance result_eq_dec {A} `{EqDecision A} : EqDecision (result A).
Proof. solve_decision. Defined.

Definition is_Ok {A} (r : result A) : bool :=
  match r with Ok _ => true | Err _ => false end.

(** The classes caught by [catch (IOException&)]. *)
Definition is_IOException (e : exn) : bool :=
  match e with
  | IOException | EOFException | UTFDataFormatException => true
  | _ => false
  end.

Definition throw {A} (e : exn) : result A := Err (Throw e).

Definition rbind {A B} (r : result A) (k : A -> result B) : result B :=
  match r with
  | Ok a => k a
  | Err f => Err f
  end.

Notation "'let!' x := r 'in' k" := (rbind r (fun x => k))
  (at level 10, x name, r at level 100, k at level 200) : amq_scope.

(** ** The state and exception monad of the stream code

    A computation on a state [S]; the state at the point of a throw is not
    observed by any of the modelled callers of the stream code. *)
Definition M (S A : Type) : Type := S -> result (A * S).

Definition ret {S A} (a : A) : M S A := fun s => Ok (a, s).
Definition bind {S A B} (m : M S A) (k : A -> M S B) : M S B :=
  fun s => match m s with
           | Ok (a, s') => k a s'
           | Err f => Err f
           end.
Definition raise {S A} (e : exn) : M S A := fun _ => Err (Throw e).
Definition undef {S A} : M S A := fun _ => Err Undefined.

Notation "'let*' x := m 'in' k" := (bind m (fun x => k))
  (at level 10, x name, m at level 100, k at level 200) : amq_scope.
Notation "'let*' ' pat := m 'in' k" := (bind m (fun x => match x with pat => k end))
  (at level 10, pat strict pattern, m at level 100, k at level 200) : amq_scope.
Notation "m ;;; k" := (bind m (fun _ => k))
  (at level 100, right associativity) : amq_scope.

(** The macros [AMQ_CATCH_RETHROW(IOException)],
    [AMQ_CATCH_EXCEPTION_CONVERT(Exception, IOException)] and
    [AMQ_CATCHALL_THROW(IOException)] that close a function body: every
    exception outside the [IOException] family leaves as an [IOException]. *)
Definition catch_io {S A} (m : M S A) : M S A :=
  fun s => match m s with
           | Err (Throw e) => Err (Throw (if is_IOException e then e else IOException))
           | r => r
           end.

(** ** Computations that keep their state when they throw

    [X S A] is used for the objects whose state is observed after an exception. *)
Definition X (S A : Type) : Type := S -> result A * S.

Definition xret {S A} (a : A) : X S A := fun s => (Ok a, s).
Definition xbind {S A B} (m : X S A) (k : A -> X S B) : X S B :=
  fun s => match m s with
           | (Ok a, s') => k a s'
           | (Err f, s') => (Err f, s')
           end.
Definition xlift {S A} (r : result A) : X S A := fun s => (r, s).
Definition xget {S} : X S S := fun s => (Ok s, s).
Definition xmodify {S} (f : S -> S) : X S unit := fun s => (Ok tt, f s).

Notation "'let+' x := m 'in' k" := (xbind m (fun x => k))
  (at level 10, x name, m at level 100, k at level 200) : amq_scope.
Notation "m ;+ k" := (xbind m (fun _ => k))
  (at level 100, right associativity) : amq_scope.

(** Exceptions change their class on the way out. *)
Definition xcatch {S A} (f : exn -> exn) (m : X S A) : X S A :=
  fun s => match m s with
           | (Err (Throw e), s') => (Err (Throw (f e)), s')
           | r => r
           end.
(** [AMQ_CATCH_RETHROW(C)], [AMQ_CATCH_EXCEPTION_CONVERT(Exception, C)] and
    [AMQ_CATCHALL_THROW(C)] for the classes ActiveMQException and IOException. *)
Definition to_amq (e : exn) : exn := ActiveMQException.
Definition is_cms (e : exn) : bool :=
  match e with
  | CMSException | CMSIllegalStateException | InvalidDestinationException | TransactionInProgressException | TransactionRolledBackException => true
  | _ => false
  end.
(** [AMQ_CATCH_ALL_THROW_CMSEXCEPTION]. *)
Definition to_cms (e : exn) : exn := if is_cms e then e else CMSException.
Definition to_io (e : exn) : exn := if is_IOException e then e else IOException.

(** The body of a loop over a collection. *)
Fixpoint xfor {S A} (l : list A) (f : A -> X S unit) : X S unit :=
  match l with
  | [] => xret tt
  | x :: l => f x ;+ xfor l f
  end.

(** Run a computation [n] times, collecting the results in order. *)
Fixpoint repeatM {S A} (n : nat) (m : M S A) : M S (list A) :=
  match n with
  | O => ret []
  | S n => let* x := m in let* xs := repeatM n m in ret (x :: xs)
  end.

(** Run a computation on every element of a list, collecting the results. *)
Fixpoint mapM {S A B} (f : A -> M S B) (l : list A) : M S (list B) :=
  match l with
  | [] => ret []
  | x :: l => let* y := f x in let* ys := mapM f l in ret (y :: ys)
  end.

(** ** Total-correctness triples

    [exec P m v Q]: from every state satisfying [P] the computation returns
    [v] (it neither throws, nor is undefined, nor runs out of fuel) in a
    state satisfying [Q]. *)
Definition exec {S A} (P : S -> Prop) (m : M S A) (v : A) (Q : S -> Prop) : Prop :=
  forall s, P s -> exists s', m s = Ok (v, s') /\ Q s'.

(** *** Equations of the computations that keep their state *)
Lemma xbind_ok {S A B} (m : X S A) (k : A -> X S B) s a s' : m s = (Ok a, s') -> xbind m k s = k a s'.
Proof. intros E. unfold xbind. by rewrite E. Qed.
Lemma xcatch_ok {S A} f (m : X S A) s a s' : m s = (Ok a, s') -> xcatch f m s = (Ok a, s').
Proof. intros E. unfold xcatch. by rewrite E. Qed.
Lemma bind_assoc {S A B D} (m : X S A) (f : A -> X S B) (k : B -> X S D) w :
  xbind (xbind m f) k w = xbind m (fun a => xbind (f a) k) w.
Proof. unfold xbind. by destruct (m w) as [[?|?] ?]. Qed.
Lemma bind_ret {S A B} (a : A) (k : A -> X S B) w : xbind (xret a) k w = k a w. Proof. done. Qed.
Lemma bind_lift {S A B} (a : A) (k : A -> X S B) w : xbind (xlift (Ok a)) k w = k a w. Proof. done. Qed.

Section Exec.
Context {St : Type}.
Implicit Types P Q R : St -> Prop.

Lemma exec_ret {A} P (v : A) : exec P (ret v) v P.
Proof. intros s Hs. exists s. split; [reflexivity | exact Hs]. Qed.

Lemma exec_bind {A B} P R Q (m : M St A) (k : A -> M St B) a v :
  exec P m a R -> exec R (k a) v Q -> exec P (bind m k) v Q.
Proof.
  intros Hm Hk s Hs. destruct (Hm s Hs) as (s1 & E & Hs1).
  destruct (Hk s1 Hs1) as (s2 & E2 & Hs2). exists s2.
  unfold bind. by rewrite E.
Qed.

Lemma exec_conseq {A} P P' Q Q' (m : M St A) v :
  (forall s, P s -> P' s) -> (forall s, Q' s -> Q s) ->
  exec P' m v Q' -> exec P m v Q.
Proof.
  intros HP HQ Hm s Hs. destruct (Hm s (HP s Hs)) as (s' & E & Hs'); eauto.
Qed.

Lemma exec_catch_io {A} P Q (m : M St A) v :
  exec P m v Q -> exec P (catch_io m) v Q.
Proof.
  intros Hm s Hs. destruct (Hm s Hs) as (s' & E & Hs').
  exists s'. unfold catch_io. by rewrite E.
Qed.

Lemma catch_io_only_io {A} (m : M St A) s e :
  catch_io m s = Err (Throw e) -> is_IOException e = true.
Proof.
  unfold catch_io. destruct (m s) as [|[e'| |]]; intros [=]; subst.
  by destruct (is_IOException e') eqn:E; rewrite ?E.
Qed.
End Exec.

(** ** Machine integers

    A [w]-bit integer is a [Z]; [uwrap] and [swrap] are the conversions to
    the unsigned and to the two's complement type of that width. *)
Definition uwrap (w z : Z) : Z := z mod 2 ^ w.
Definition swrap (w z : Z) : Z := (z + 2 ^ (w - 1)) mod 2 ^ w - 2 ^ (w - 1).

Abbreviation to_u8 := (uwrap 8).
Abbreviation to_u16 := (uwrap 16).
Abbreviation to_u32 := (uwrap 32).
Abbreviation to_u64 := (uwrap 64).
Abbreviation to_s8 := (swrap 8).
Abbreviation to_s16 := (swrap 16).
Abbreviation to_s32 := (swrap 32).
Abbreviation to_s64 := (swrap 64).

Definition is_u (w z : Z) : bool := (0 <=? z) && (z <? 2 ^ w).
Definition is_s (w z : Z) : bool := (- 2 ^ (w - 1) <=? z) && (z <? 2 ^ (w - 1)).

(** Bytes, byte vectors and [std::string]s are lists of values in 0..255. *)
Abbreviation is_byte := (is_u 8).
Definition is_bytes (l : list Z) : bool := forallb is_byte l.

(** A string literal as the bytes of the [std::string]. *)
Fixpoint str (s : string) : list Z :=
  match s with
  | EmptyString => []
  | String a s => Z.of_N (Ascii.N_of_ascii a) :: str s
  end.

(** The length of a vector as an integer. *)
Definition zlen {A} (l : list A) : Z := Z.of_nat (length l).
Lemma nonempty_zlen {A} (c : list A) : c <> [] -> 0 < zlen c.
Proof. destruct c; [done |]. intros _. unfold zlen. cbn. lia. Qed.

Lemma is_u_spec w z : is_u w z = true <-> 0 <= z < 2 ^ w.
Proof. unfold is_u. rewrite andb_true_iff, Z.leb_le, Z.ltb_lt. tauto. Qed.

Lemma is_s_spec w z : is_s w z = true <-> - 2 ^ (w - 1) <= z < 2 ^ (w - 1).
Proof. unfold is_s. rewrite andb_true_iff, Z.leb_le, Z.ltb_lt. tauto. Qed.

Lemma is_bytes_spec l : is_bytes l = true <-> Forall (fun b => 0 <= b < 256) l.
Proof.
  induction l as [|x l IH]; [split; [constructor | done] |].
  unfold is_bytes in *. simpl. rewrite andb_true_iff, is_u_spec, IH. symmetry.
  apply List.Forall_cons_iff.
Qed.

Lemma is_bytes_app l1 l2 : is_bytes (l1 ++ l2) = is_bytes l1 && is_bytes l2.
Proof. apply forallb_app. Qed.

Lemma uwrap_small w z : 0 <= z < 2 ^ w -> uwrap w z = z.
Proof. apply Z.mod_small. Qed.

Lemma uwrap_bound w z : 0 <= w -> 0 <= uwrap w z < 2 ^ w.
Proof. intros. apply Z.mod_pos_bound. lia. Qed.

Lemma pow2_double w : 0 < w -> 2 ^ w = 2 * 2 ^ (w - 1).
Proof. intros. rewrite <- Z.pow_succ_r by lia. f_equal. lia. Qed.

Lemma swrap_small w z : 0 < w -> - 2 ^ (w - 1) <= z < 2 ^ (w - 1) -> swrap w z = z.
Proof.
  intros Hw Hz. pose proof (pow2_double w Hw). unfold swrap.
  rewrite Z.mod_small; lia.
Qed.

Lemma swrap_bound w z : 0 < w -> - 2 ^ (w - 1) <= swrap w z < 2 ^ (w - 1).
Proof.
  intros Hw. pose proof (pow2_double w Hw). unfold swrap.
  pose proof (Z.mod_pos_bound (z + 2 ^ (w - 1)) (2 ^ w)). lia.
Qed.

(** A two's complement value is recovered from its unsigned image. *)
Lemma swrap_uwrap w z : swrap w (uwrap w z) = swrap w z.
Proof. unfold swrap, uwrap. by rewrite Zplus_mod_idemp_l. Qed.

Lemma uwrap_swrap w z : 0 < w -> uwrap w (swrap w z) = uwrap w z.
Proof.
  intros. unfold swrap, uwrap. rewrite Zminus_mod_idemp_l. f_equal. lia.
Qed.

Lemma uwrap_add_l w a b : uwrap w (uwrap w a + b) = uwrap w (a + b).
Proof. unfold uwrap. apply Zplus_mod_idemp_l. Qed.

Lemma zlen_app {A} (l1 l2 : list A) : zlen (l1 ++ l2) = zlen l1 + zlen l2.
Proof. unfold zlen. rewrite length_app. lia. Qed.

Lemma zlen_cons {A} (x : A) l : zlen (x :: l) = 1 + zlen l.
Proof. unfold zlen. simpl length. lia. Qed.

Lemma zlen_nil {A} : zlen (@nil A) = 0.
Proof. reflexivity. Qed.

Lemma zlen_nonneg {A} (l : list A) : 0 <= zlen l.
Proof. unfold zlen. lia. Qed.

Create Rewrite HintDb zlen.
#[export] Hint Rewrite @zlen_app @zlen_cons @zlen_nil : zlen.

(** Normalise lengths, make every one of them non-negative and call [lia]. *)
Ltac len :=
  autorewrite with zlen in *;
  repeat match goal with
  | |- context [zlen ?l] => lazymatch goal with
      | _ : 0 <= zlen l |- _ => fail
      | _ => pose proof (zlen_nonneg l) end
  | _ : context [zlen ?l] |- _ => lazymatch goal with
      | _ : 0 <= zlen l |- _ => fail
      | _ => pose proof (zlen_nonneg l) end
  end; lia.

(** ** Bit operations *)

(** A disjunction of values that share no bit position is a sum. *)
Lemma lor_add_low k x y :
  0 <= k -> x mod 2 ^ k = 0 -> 0 <= y < 2 ^ k -> Z.lor x y = x + y.
Proof.
  intros Hk Hx Hy. enough (Hland : Z.land x y = 0).
  { by rewrite <- Z.lxor_lor, Z.add_nocarry_lxor. }
  apply Z.bits_inj'. intros n Hn. rewrite Z.land_spec, Z.bits_0.
  destruct (Z.lt_ge_cases n k) as [Hl | Hl].
  - replace (Z.testbit x n) with false; [done |].
    symmetry. by rewrite <- (Z.mod_pow2_bits_low x k n), Hx, Z.bits_0.
  - destruct (Z.eq_dec y 0) as [-> | Hne]; [by rewrite Z.bits_0, andb_false_r |].
    rewrite (Z.bits_above_log2 y n), andb_false_r; [done | lia |].
    apply Z.log2_lt_pow2; [lia |]. pose proof (Z.pow_le_mono_r 2 k n). lia.
Qed.
