(* ===== verification/DataStreams.v ===== *)
(** * Byte streams: decaf::io

    [InputStream] is the interface of decaf::io::InputStream as the data layer
    uses it and [InputStreamLaws] what an implementation promises; the
    component [ByteArrayInputStream] discharges it.  [DataInputStream] and
    [DataOutputStream] are the big-endian primitive readers and writers, the
    first of them over any [InputStream].  A sink is the list of the bytes
    written to it. *)

From S2P Require Import Prelude.

(** ** The interface of an input stream

    [read size offset length] is [read(buffer, size, offset, length)]: it
    answers [None] for the result -1 and [Some c] when the bytes [c] were
    stored at [buffer + offset]. *)
Class InputStream (St : Type) := {
  is_readByte : M St (option Z);
  is_read : Z -> Z -> Z -> M St (option (list Z));
  is_skip : Z -> M St Z
}.

(** What a client relies on.  [stream_at s l]: the stream is in a valid state
    and the bytes it will still deliver are [l].  A read inside the bounds of
    the caller's buffer delivers a non-empty prefix of them, of any length up
    to the one asked for, or reports the end; outside those bounds it throws. *)
Class InputStreamLaws (St : Type) `{InputStream St} := {
  stream_at : St -> list Z -> Prop;
  readByte_law s l : stream_at s l ->
    exists s', is_readByte s = Ok (head l, s') /\ stream_at s' (tail l);
  read_law s l size off len : stream_at s l ->
    0 <= off -> 0 < len <= size - off ->
    (l = [] /\ exists s', is_read size off len s = Ok (None, s') /\ stream_at s' []) \/
    (exists c l' s', l = c ++ l' /\ c <> [] /\ zlen c <= len /\
       is_read size off len s = Ok (Some c, s') /\ stream_at s' l');
  read_bounds s l size off len : stream_at s l ->
    0 <= size -> 0 <= off -> 0 < len -> size - off < len ->
    is_read size off len s = Err (Throw IndexOutOfBoundsException);
  skip_law s l n : stream_at s l -> 0 < n ->
    exists k s', 0 <= k <= n /\ k <= zlen l /\ (k = 0 -> l = []) /\
      is_skip n s = Ok (k, s') /\ stream_at s' (drop (Z.to_nat k) l)
}.

(** ** ByteArrayInputStream *)
Module ByteArrayInputStream.

Record t := mk {
  buffer : list Z;
  size : Z;
  count : Z;
  pos : Z;
  markpos : Z
}.

(** [setByteArray(buffer, bufferSize, offset, length)]; [None] is NULL. *)
Definition setByteArray (buf : option (list Z)) (bufferSize offset length : Z) : result t :=
  match buf with
  | None => throw NullPointerException
  | Some b =>
    if bufferSize <? 0 then throw IllegalArgumentException
    else if offset <? 0 then throw IllegalArgumentException
    else if length <? 0 then throw IllegalArgumentException
    else Ok {| buffer := b; size := bufferSize; pos := offset; markpos := offset;
               count := if bufferSize <? offset + length then bufferSize else offset + length |}
  end.

Definition available (s : t) : Z := count s - pos s.

Definition set_pos (s : t) (p : Z) : t :=
  {| buffer := buffer s; size := size s; count := count s; pos := p; markpos := markpos s |}.

Definition mark (s : t) : t :=
  {| buffer := buffer s; size := size s; count := count s; pos := pos s; markpos := pos s |}.

Definition reset (s : t) : t := set_pos s (markpos s).

Definition doReadByte : M t (option Z) := fun s =>
  if pos s <? count s
  then match buffer s !! Z.to_nat (pos s) with
       | Some b => Ok (Some b, set_pos s (pos s + 1))
       | None => Err Undefined
       end
  else Ok (None, s).

Definition doReadArrayBounded (size offset length : Z) : M t (option (list Z)) := fun s =>
  if length =? 0 then Ok (Some [], s)
  else if size <? 0 then throw IndexOutOfBoundsException
  else if (size <? offset) || (offset <? 0) then throw IndexOutOfBoundsException
  else if (length <? 0) || (size - offset <? length) then throw IndexOutOfBoundsException
  else if count s <=? pos s then Ok (None, s)
  else
    let copylen := if count s - pos s <? length then count s - pos s else length in
    Ok (Some (take (Z.to_nat copylen) (drop (Z.to_nat (pos s)) (buffer s))),
        set_pos s (pos s + copylen)).

Definition skip (num : Z) : M t Z := fun s =>
  if num <=? 0 then Ok (0, s)
  else
    let temp := pos s in
    let p := if count s - pos s <? num then count s else pos s + num in
    Ok (p - temp, set_pos s p).

#[global] Instance stream : InputStream t := {
  is_readByte := doReadByte;
  is_read := doReadArrayBounded;
  is_skip := skip
}.

(** The bytes a stream in a valid state still delivers. *)
Definition at_ (s : t) (l : list Z) : Prop :=
  0 <= pos s <= count s /\ count s <= zlen (buffer s) /\
  l = take (Z.to_nat (count s - pos s)) (drop (Z.to_nat (pos s)) (buffer s)).

Lemma at_zlen s l : at_ s l -> zlen l = count s - pos s.
Proof.
  intros (Hp & Hc & ->). unfold zlen in *. rewrite length_take, length_drop. lia.
Qed.

Lemma at_advance s l k :
  at_ s l -> 0 <= k <= zlen l -> at_ (set_pos s (pos s + k)) (drop (Z.to_nat k) l).
Proof.
  intros Hat Hk. rewrite (at_zlen _ _ Hat) in Hk. destruct Hat as (Hp & Hc & ->).
  unfold at_; simpl. split; [lia |]. split; [done |].
  rewrite skipn_firstn_comm, drop_drop. f_equal; [lia |]. f_equal. lia.
Qed.

Lemma at_take s l k :
  at_ s l -> 0 <= k <= zlen l ->
  take (Z.to_nat k) (drop (Z.to_nat (pos s)) (buffer s)) = take (Z.to_nat k) l.
Proof.
  intros Hat Hk. rewrite (at_zlen _ _ Hat) in Hk. destruct Hat as (Hp & Hc & ->).
  rewrite take_take. f_equal. lia.
Qed.

Lemma at_lookup s l :
  at_ s l -> pos s < count s -> buffer s !! Z.to_nat (pos s) = head l.
Proof.
  intros (Hp & Hc & ->) Hlt. rewrite head_lookup.
  rewrite lookup_take_lt, lookup_drop by lia. f_equal. lia.
Qed.

#[global] Program Instance laws : InputStreamLaws t := { stream_at := at_ }.
Next Obligation.
  intros s l Hat. pose proof (at_zlen _ _ Hat) as Hz. simpl. unfold doReadByte.
  destruct (Z.ltb_spec (pos s) (count s)).
  - rewrite (at_lookup _ _ Hat) by lia. destruct l as [|b l]; [rewrite zlen_nil in Hz; lia |].
    eexists. split; [done |]. apply (at_advance _ _ 1 Hat). len.
  - destruct l as [|b l]; [by exists s | len].
Qed.
Next Obligation.
  intros s l sz off len Hat Hoff Hlen. pose proof (at_zlen _ _ Hat) as Hz. simpl.
  unfold doReadArrayBounded.
  repeat (match goal with |- context [Z.eqb ?a ?b] => destruct (Z.eqb_spec a b)
    | |- context [Z.ltb ?a ?b] => destruct (Z.ltb_spec a b)
    | |- context [Z.leb ?a ?b] => destruct (Z.leb_spec a b) end; try (exfalso; lia)); simpl.
  all: try (left; destruct l; [by split; [|exists s] | len]).
  all: right; set (k := Z.to_nat _); exists (take k l), (drop k l); eexists.
  all: (split; [by rewrite take_drop |]; subst k).
  all: rewrite (at_take s l) by (done || lia).
  all: (split; [intros E%(f_equal zlen); unfold zlen in *; rewrite length_take in E; simpl in E; lia |]).
  all: (split; [unfold zlen; rewrite length_take; lia |]).
  all: (split; [done |]; apply at_advance; [done | lia]).
Qed.
Next Obligation.
  intros s l sz off len Hat Hs Hoff Hlen Hb. simpl. unfold doReadArrayBounded.
  destruct (Z.eqb_spec len 0); [lia |]. destruct (Z.ltb_spec sz 0); [lia |].
  destruct (Z.ltb_spec sz off); [done |]. destruct (Z.ltb_spec off 0); [done |]. simpl.
  destruct (Z.ltb_spec len 0); [done |]. by destruct (Z.ltb_spec (sz - off) len); [| lia].
Qed.
Next Obligation.
  intros s l n Hat Hn. pose proof (at_zlen _ _ Hat) as Hz. pose proof Hat as (Hp & _).
  simpl. unfold skip. destruct (Z.leb_spec n 0); [lia |].
  assert (Hnil : zlen l = 0 -> l = []) by (destruct l; [done | intros; len]).
  destruct (Z.ltb_spec (count s - pos s) n);
    [exists (count s - pos s) | exists (pos s + n - pos s)]; eexists.
  all: (split; [lia | split; [lia | split; [intros Hk; apply Hnil; lia | split; [done |]]]]).
  - replace (count s) with (pos s + zlen l) at 1 by lia.
    replace (count s - pos s) with (zlen l) by lia. apply (at_advance _ _ _ Hat); lia.
  - replace (pos s + n - pos s) with n by lia. apply (at_advance _ _ _ Hat). lia.
Qed.

(** A fresh stream over a whole buffer. *)
Definition over (l : list Z) : t := mk l (zlen l) (zlen l) 0 0.
Lemma over_at l : stream_at (over l) l.
Proof.
  pose proof (zlen_nonneg l). split; [cbn; lia |]. split; [cbn; lia |].
  cbn. rewrite Z.sub_0_r. unfold zlen. by rewrite Nat2Z.id, firstn_all.
Qed.
End ByteArrayInputStream.

(** ** DataInputStream

    The readers over an arbitrary input stream.  A loop of the source that
    calls [read] until it has all its bytes makes progress at every call, so
    the number of bytes asked for bounds its iterations. *)
Module DataInputStream.
Section Readers.
Context {St : Type} `{InputStream St}.

(** The do-while loop of [readAllData(buffer, length)]. *)
Fixpoint readAllData_loop (fuel : nat) (length n : Z) (buffer : list Z) : M St (list Z) :=
  match fuel with
  | O => fun _ => Err NoFuel
  | S fuel =>
    let* count := is_read length n (length - n) in
    match count with
    | None => raise EOFException
    | Some c =>
      let n := n + zlen c in
      if n <? length then readAllData_loop fuel length n (buffer ++ c)
      else ret (buffer ++ c)
    end
  end.

Definition readAllData (length : Z) : M St (list Z) :=
  catch_io (readAllData_loop (S (Z.to_nat length)) length 0 []).

(** The while loop of [readFully(buffer, size, offset, length)], which passes
    [length] for the size of the buffer. *)
Fixpoint readFully_loop (fuel : nat) (offset length n : Z) (buffer : list Z) : M St (list Z) :=
  match fuel with
  | O => fun _ => Err NoFuel
  | S fuel =>
    if n <? length then
      let* count := is_read length (offset + n) (length - n) in
      match count with
      | None => raise EOFException
      | Some c => readFully_loop fuel offset length (n + zlen c) (buffer ++ c)
      end
    else ret buffer
  end.

(** The bytes stored from [buffer + offset] on. *)
Definition readFully_at (size offset length : Z) : M St (list Z) :=
  if length =? 0 then ret []
  else if size <? 0 then raise IndexOutOfBoundsException
  else if (size <? offset) || (offset <? 0) then raise IndexOutOfBoundsException
  else if (length <? 0) || (size - offset <? length) then raise IndexOutOfBoundsException
  else readFully_loop (S (Z.to_nat length)) offset length 0 [].

Definition readFully (size : Z) : M St (list Z) :=
  if size =? 0 then ret [] else readFully_at size 0 size.

Definition readBoolean : M St bool :=
  let* b := readAllData 1 in ret (negb (nth 0 b 0 =? 0)).

Definition readByte : M St Z :=
  let* b := readAllData 1 in ret (to_s8 (nth 0 b 0)).

Definition readUnsignedByte : M St Z :=
  let* b := readAllData 1 in ret (nth 0 b 0).

Definition readChar : M St Z :=
  let* b := readAllData 1 in ret (to_s8 (nth 0 b 0)).

Definition readShort : M St Z :=
  let* b := readAllData 2 in
  ret (to_s16 (Z.lor (Z.shiftl (nth 0 b 0) 8) (Z.shiftl (nth 1 b 0) 0))).

Definition readUnsignedShort : M St Z :=
  let* b := readAllData 2 in
  ret (to_u16 (Z.lor (Z.shiftl (nth 0 b 0) 8) (Z.shiftl (nth 1 b 0) 0))).

Definition readInt : M St Z :=
  let* b := readAllData 4 in
  ret (to_s32 (to_u32
    (Z.lor (Z.lor (Z.lor (Z.shiftl (nth 0 b 0) 24) (Z.shiftl (nth 1 b 0) 16))
                  (Z.shiftl (nth 2 b 0) 8)) (Z.shiftl (nth 3 b 0) 0)))).

Definition readLong : M St Z :=
  let* b := readAllData 8 in
  let byte i := Z.land (nth i b 0) 0xFF in
  ret (to_s64 (to_u64
    (Z.lor (Z.lor (Z.lor (Z.lor (Z.lor (Z.lor (Z.lor
      (Z.shiftl (byte 0%nat) 56) (Z.shiftl (byte 1%nat) 48)) (Z.shiftl (byte 2%nat) 40))
      (Z.shiftl (byte 3%nat) 32)) (Z.shiftl (byte 4%nat) 24)) (Z.shiftl (byte 5%nat) 16))
      (Z.shiftl (byte 6%nat) 8)) (Z.shiftl (byte 7%nat) 0)))).

(** [readFloat] and [readDouble] reinterpret the bits of the integer read;
    a floating point value is represented by its bit pattern. *)
Definition readFloat : M St Z := let* lvalue := readInt in ret (to_u32 lvalue).
Definition readDouble : M St Z := let* lvalue := readLong in ret (to_u64 lvalue).

(** [readString]: bytes up to a NUL, one [read] each. *)
Fixpoint readString_loop (fuel : nat) (size pos : Z) (buffer : list Z) : M St (list Z) :=
  match fuel with
  | O => fun _ => Err NoFuel
  | S fuel =>
    let* r := is_read size pos 1 in
    match r with
    | None => raise EOFException
    | Some c =>
      if nth 0 c 0 =? 0 then ret buffer
      else
        let pos := pos + 1 in
        readString_loop fuel (if size <=? pos then size * 2 else size) pos (buffer ++ c)
    end
  end.

Definition readString (fuel : nat) : M St (list Z) :=
  catch_io (readString_loop fuel 1024 0 []).

(** The decoding loop of [readUTF] over the bytes of the buffer. *)
Fixpoint utf_decode (buffer : list Z) : result (list Z) :=
  match buffer with
  | [] => Ok []
  | a :: buffer =>
    if a <? 0x80 then rbind (utf_decode buffer) (fun r => Ok (a :: r))
    else if Z.land a 0xE0 =? 0xC0 then
      match buffer with
      | [] => throw UTFDataFormatException
      | b :: buffer =>
        if negb (Z.land b 0xC0 =? 0x80) then throw UTFDataFormatException
        else if negb (Z.land a 0x1C =? 0) then throw UTFDataFormatException
        else rbind (utf_decode buffer) (fun r =>
               Ok (to_u8 (Z.lor (Z.shiftl (Z.land a 0x1F) 6) (Z.land b 0x3F)) :: r))
      end
    else throw UTFDataFormatException
  end.

Definition readUTF : M St (list Z) :=
  catch_io (
    let* utfLength := readUnsignedShort in
    if utfLength =? 0 then ret []
    else
      let* buffer := readFully utfLength in
      fun s => rbind (utf_decode buffer) (fun r => Ok (r, s))).

Fixpoint skipBytes_loop (fuel : nat) (num total : Z) : M St Z :=
  match fuel with
  | O => fun _ => Err NoFuel
  | S fuel =>
    if total <? num then
      let* cur := is_skip (num - total) in
      if 0 <? cur then skipBytes_loop fuel num (total + cur) else ret total
    else ret total
  end.

Definition skipBytes (num : Z) : M St Z :=
  catch_io (skipBytes_loop (S (Z.to_nat num)) num 0).

End Readers.
End DataInputStream.

(** ** DataOutputStream

    A writer maps the bytes already sent to the base stream to the bytes sent
    after the call. *)
Module DataOutputStream.

Definition write (value : Z) : M (list Z) unit := fun out => Ok (tt, out ++ [to_u8 value]).
Definition writeByte (value : Z) : M (list Z) unit := write value.
Definition writeChar (value : Z) : M (list Z) unit := write value.

Definition writeBoolean (value : bool) : M (list Z) unit :=
  write (if value then 1 else 0).

(** [write(buffer, size, offset, length)] of FilterOutputStream, through
    [doWriteArrayBounded]. *)
Definition writeArray (buffer : list Z) (size offset length : Z) : M (list Z) unit :=
  fun out =>
  if length =? 0 then Ok (tt, out)
  else if size <? 0 then throw IndexOutOfBoundsException
  else if (size <? offset) || (offset <? 0) then throw IndexOutOfBoundsException
  else if (length <? 0) || (size - offset <? length) then throw IndexOutOfBoundsException
  else Ok (tt, out ++ take (Z.to_nat length) (drop (Z.to_nat offset) buffer)).

Definition writeShort (value : Z) : M (list Z) unit := fun out =>
  Ok (tt, out ++ [to_u8 (Z.shiftr (Z.land value 0xFF00) 8);
                  to_u8 (Z.shiftr (Z.land value 0x00FF) 0)]).

Definition writeUnsignedShort (value : Z) : M (list Z) unit := fun out =>
  Ok (tt, out ++ [to_u8 (Z.shiftr (Z.land value 0xFF00) 8);
                  to_u8 (Z.shiftr (Z.land value 0x00FF) 0)]).

Definition writeInt (value : Z) : M (list Z) unit := fun out =>
  Ok (tt, out ++ [to_u8 (Z.shiftr (Z.land value 0xFF000000) 24);
                  to_u8 (Z.shiftr (Z.land value 0x00FF0000) 16);
                  to_u8 (Z.shiftr (Z.land value 0x0000FF00) 8);
                  to_u8 (Z.shiftr (Z.land value 0x000000FF) 0)]).

Definition writeLong (value : Z) : M (list Z) unit := fun out =>
  Ok (tt, out ++ [to_u8 (Z.shiftr (Z.land value 0xFF00000000000000) 56);
                  to_u8 (Z.shiftr (Z.land value 0x00FF000000000000) 48);
                  to_u8 (Z.shiftr (Z.land value 0x0000FF0000000000) 40);
                  to_u8 (Z.shiftr (Z.land value 0x000000FF00000000) 32);
                  to_u8 (Z.shiftr (Z.land value 0x00000000FF000000) 24);
                  to_u8 (Z.shiftr (Z.land value 0x0000000000FF0000) 16);
                  to_u8 (Z.shiftr (Z.land value 0x000000000000FF00) 8);
                  to_u8 (Z.shiftr (Z.land value 0x00000000000000FF) 0)]).

(** Floating point values are given by their bit patterns. *)
Definition writeFloat (value : Z) : M (list Z) unit := writeInt value.
Definition writeDouble (value : Z) : M (list Z) unit := writeLong value.

Definition writeBytes (value : list Z) : M (list Z) unit :=
  if zlen value =? 0 then ret () else writeArray value (zlen value) 0 (zlen value).

(** [writeChars] also writes the terminating NUL of [c_str()]. *)
Definition writeChars (value : list Z) : M (list Z) unit :=
  if zlen value =? 0 then ret ()
  else writeArray (value ++ [0]) (zlen value + 1) 0 (zlen value + 1).

Definition countUTFLength (value : list Z) : Z :=
  fold_left (fun utfCount charValue =>
    if (0 <? charValue) && (charValue <=? 127) then to_u32 (utfCount + 1)
    else if charValue <=? 2047 then to_u32 (utfCount + 2)
    else to_u32 (utfCount + 3)) value 0.

(** The bytes the encoding loop of [writeUTF] stores for one character; the
    loop writes them to a vector of [utfLength] bytes. *)
Definition utf_char (charValue : Z) : list Z :=
  if (0 <? charValue) && (charValue <=? 127) then [to_u8 charValue]
  else if charValue <=? 2047 then
    [to_u8 (Z.lor 0xC0 (Z.land 0x1F (Z.shiftr charValue 6)));
     to_u8 (Z.lor 0x80 (Z.land 0x3F charValue))]
  else
    [to_u8 (Z.lor 0xE0 (Z.land 0x0F (Z.shiftr charValue 12)));
     to_u8 (Z.lor 0x80 (Z.land 0x3F (Z.shiftr charValue 6)));
     to_u8 (Z.lor 0x80 (Z.land 0x3F charValue))].

Definition utf_encode (value : list Z) : list Z := flat_map utf_char value.

Definition writeUTF (value : list Z) : M (list Z) unit :=
  catch_io (
    let utfLength := countUTFLength value in
    if 65535 <? utfLength then raise UTFDataFormatException
    else
      let utfBytes := utf_encode value in
      (if utfLength <? zlen utfBytes then undef else ret ()) ;;;
      writeUnsignedShort utfLength ;;;
      if 0 <? utfLength then writeArray utfBytes (zlen utfBytes) 0 (zlen utfBytes) else ret ()).

End DataOutputStream.

(** ** The big-endian encoding *)
Fixpoint be (n : nat) (v : Z) : list Z :=
  match n with
  | O => []
  | S n => (v / 2 ^ (8 * Z.of_nat n)) mod 256 :: be n v
  end.

Fixpoint be_val (l : list Z) : Z :=
  match l with
  | [] => 0
  | b :: l => b * 2 ^ (8 * zlen l) + be_val l
  end.

Lemma length_be n v : length (be n v) = n.
Proof. induction n; simpl; congruence. Qed.

Lemma zlen_be n v : zlen (be n v) = Z.of_nat n.
Proof. unfold zlen. by rewrite length_be. Qed.
#[export] Hint Rewrite @zlen_be : zlen.

Lemma be_bytes n v : Forall (fun b => 0 <= b < 256) (be n v).
Proof.
  induction n; simpl; constructor; [|done]. by apply Z.mod_pos_bound.
Qed.

Lemma be_val_be n v : be_val (be n v) = v mod 2 ^ (8 * Z.of_nat n).
Proof.
  induction n as [|n IH]; [simpl; by rewrite Z.mod_1_r |].
  cbn [be be_val]. rewrite zlen_be, IH, (Nat2Z.inj_succ n).
  replace (8 * Z.succ (Z.of_nat n)) with (8 * Z.of_nat n + 8) by lia.
  rewrite Z.pow_add_r by lia. rewrite (Z.rem_mul_r v) by lia. change (2 ^ 8) with 256. lia.
Qed.

(** The encoding of an integer depends on its low bytes only. *)
Lemma be_congr n a b : a mod 2 ^ (8 * Z.of_nat n) = b mod 2 ^ (8 * Z.of_nat n) -> be n a = be n b.
Proof.
  induction n as [|n IH]; [done |]. cbn [be]. rewrite Nat2Z.inj_succ.
  replace (8 * Z.succ (Z.of_nat n)) with (8 * Z.of_nat n + 8) by lia.
  rewrite Z.pow_add_r by lia. change (2 ^ 8) with 256. set (p := 2 ^ (8 * Z.of_nat n)) in *.
  assert (Hp : 0 < p) by (subst p; lia). intros E.
  assert (E' : a mod p = b mod p).
  { rewrite <- (Z.mod_mod_divide a (p * 256) p), <- (Z.mod_mod_divide b (p * 256) p), E by (exists 256; lia).
    done. }
  rewrite IH by done. f_equal. rewrite !Z.rem_mul_r, E' in E by lia. nia.
Qed.

Lemma be_swrap n w v : 0 < w -> w = 8 * Z.of_nat n -> be n (swrap w v) = be n v.
Proof.
  intros Hw E. apply be_congr. rewrite <- E. apply (uwrap_swrap w v Hw).
Qed.

(** One byte of an integer, as the writers extract it. *)
Lemma byte_at v k :
  0 <= k -> to_u8 (Z.shiftr (Z.land v (Z.shiftl 255 k)) k) = (v / 2 ^ k) mod 256.
Proof.
  intros Hk. rewrite Z.shiftr_land, Z.shiftr_shiftl_l, Z.sub_diag, Z.shiftl_0_r by lia.
  change 255 with (Z.ones 8). rewrite Z.land_ones, Z.shiftr_div_pow2 by lia.
  apply uwrap_small. by apply Z.mod_pos_bound.
Qed.

Lemma writeShort_be v out :
  DataOutputStream.writeShort v out = Ok (tt, out ++ be 2 v).
Proof.
  unfold DataOutputStream.writeShort. change 0xFF00 with (Z.shiftl 255 8).
  change 0x00FF with (Z.shiftl 255 0). by rewrite !byte_at by lia.
Qed.

Lemma writeUnsignedShort_be v out :
  DataOutputStream.writeUnsignedShort v out = Ok (tt, out ++ be 2 v).
Proof. apply writeShort_be. Qed.

Lemma writeInt_be v out : DataOutputStream.writeInt v out = Ok (tt, out ++ be 4 v).
Proof.
  unfold DataOutputStream.writeInt.
  change 0xFF000000 with (Z.shiftl 255 24). change 0x00FF0000 with (Z.shiftl 255 16).
  change 0x0000FF00 with (Z.shiftl 255 8). change 0x000000FF with (Z.shiftl 255 0).
  by rewrite !byte_at by lia.
Qed.

Lemma writeLong_be v out : DataOutputStream.writeLong v out = Ok (tt, out ++ be 8 v).
Proof.
  unfold DataOutputStream.writeLong.
  change 0xFF00000000000000 with (Z.shiftl 255 56). change 0x00FF000000000000 with (Z.shiftl 255 48).
  change 0x0000FF0000000000 with (Z.shiftl 255 40). change 0x000000FF00000000 with (Z.shiftl 255 32).
  change 0x00000000FF000000 with (Z.shiftl 255 24). change 0x0000000000FF0000 with (Z.shiftl 255 16).
  change 0x000000000000FF00 with (Z.shiftl 255 8). change 0x00000000000000FF with (Z.shiftl 255 0).
  by rewrite !byte_at by lia.
Qed.

(** The disjunctions of shifted bytes the readers compute. *)
Lemma lor_shiftl_step a b j k :
  0 <= k -> j = k + 8 -> 0 <= b < 256 ->
  Z.lor (Z.shiftl a j) (Z.shiftl b k) = Z.shiftl (a * 256 + b) k.
Proof.
  intros Hk -> Hb. rewrite Z.add_comm, <- Z.shiftl_shiftl, <- Z.shiftl_lor by lia.
  f_equal. rewrite (lor_add_low 8 _ b), Z.shiftl_mul_pow2; try lia.
  rewrite Z.shiftl_mul_pow2 by lia. by apply Z.mod_mul.
Qed.

Ltac lor_to_be :=
  repeat match goal with
  | |- context [Z.lor (Z.shiftl ?a ?j) (Z.shiftl ?b ?k)] =>
    rewrite (lor_shiftl_step a b j k) by lia
  end;
  rewrite Z.shiftl_0_r; cbn [be_val]; unfold zlen; cbn [length];
  repeat match goal with
  | |- context [2 ^ (8 * Z.of_nat ?n)] =>
    let c := eval vm_compute in (2 ^ (8 * Z.of_nat n)) in change (2 ^ (8 * Z.of_nat n)) with c
  end; lia.

Lemma lor_bytes2 b0 b1 : 0 <= b0 < 256 -> 0 <= b1 < 256 ->
  Z.lor (Z.shiftl b0 8) (Z.shiftl b1 0) = be_val [b0; b1].
Proof. intros. lor_to_be. Qed.

Lemma lor_bytes4 b0 b1 b2 b3 :
  0 <= b0 < 256 -> 0 <= b1 < 256 -> 0 <= b2 < 256 -> 0 <= b3 < 256 ->
  Z.lor (Z.lor (Z.lor (Z.shiftl b0 24) (Z.shiftl b1 16)) (Z.shiftl b2 8)) (Z.shiftl b3 0)
  = be_val [b0; b1; b2; b3].
Proof. intros. lor_to_be. Qed.

Lemma lor_bytes8 b0 b1 b2 b3 b4 b5 b6 b7 :
  0 <= b0 < 256 -> 0 <= b1 < 256 -> 0 <= b2 < 256 -> 0 <= b3 < 256 ->
  0 <= b4 < 256 -> 0 <= b5 < 256 -> 0 <= b6 < 256 -> 0 <= b7 < 256 ->
  Z.lor (Z.lor (Z.lor (Z.lor (Z.lor (Z.lor (Z.lor
    (Z.shiftl b0 56) (Z.shiftl b1 48)) (Z.shiftl b2 40)) (Z.shiftl b3 32))
    (Z.shiftl b4 24)) (Z.shiftl b5 16)) (Z.shiftl b6 8)) (Z.shiftl b7 0)
  = be_val [b0; b1; b2; b3; b4; b5; b6; b7].
Proof. intros. lor_to_be. Qed.

(** ** What the readers deliver, over any lawful stream *)
Section ReaderLaws.
Context {St : Type} `{InputStreamLaws St}.
Import DataInputStream.

(** [m] consumes exactly the bytes [bs] and returns [v]. *)
Definition reads {A} (m : M St A) (bs : list Z) (v : A) : Prop :=
  forall rest, exec (fun s => stream_at s (bs ++ rest)) m v (fun s => stream_at s rest).

Lemma reads_ret {A} (v : A) : reads (ret v) [] v.
Proof. intros rest. apply exec_ret. Qed.

Lemma reads_bind {A B} (m : M St A) (k : A -> M St B) b1 b2 a v :
  reads m b1 a -> reads (k a) b2 v -> reads (bind m k) (b1 ++ b2) v.
Proof. intros Hm Hk rest. rewrite <- app_assoc. eapply exec_bind; [apply Hm | apply Hk]. Qed.

Lemma reads_catch {A} (m : M St A) bs v : reads m bs v -> reads (catch_io m) bs v.
Proof. intros Hm rest. apply exec_catch_io, Hm. Qed.

(** A reader followed by a pure function of its result. *)
Lemma reads_map {A B} (m : M St A) (f : A -> B) bs a v :
  reads m bs a -> f a = v -> reads (let* x := m in ret (f x)) bs v.
Proof.
  intros Hm Hv. rewrite <- (app_nil_r bs). eapply reads_bind; [exact Hm |].
  rewrite Hv. apply reads_ret.
Qed.

(** A prefix read that does not go past [bs]. *)
Lemma prefix_split (c l' bs rest : list Z) :
  c ++ l' = bs ++ rest -> zlen c <= zlen bs -> exists bs', bs = c ++ bs' /\ l' = bs' ++ rest.
Proof.
  intros E Hle. exists (drop (length c) bs).
  assert (Hc : c = take (length c) bs).
  { rewrite <- (take_app_le bs rest), <- E, take_app_length; [done | unfold zlen in *; lia]. }
  split; [by rewrite Hc at 1; rewrite take_drop |].
  rewrite <- drop_app_le by (unfold zlen in *; lia). by rewrite <- E, drop_app_length.
Qed.

Lemma readAllData_loop_exec fuel : forall length n buf bs rest,
  zlen bs = length - n -> 0 < zlen bs -> 0 <= n -> (Z.to_nat (zlen bs) < fuel)%nat ->
  exec (fun s => stream_at s (bs ++ rest)) (readAllData_loop fuel length n buf) (buf ++ bs)
       (fun s => stream_at s rest).
Proof.
  induction fuel as [|fuel IH]; intros length n buf bs rest Hz Hpos Hn Hf s Hs; [lia |].
  cbn [readAllData_loop]. unfold bind at 1.
  destruct (read_law s _ length n (length - n) Hs) as [[E _]|(c & l' & s' & E & Hne & Hc & -> & Hs')];
    [lia | lia | by destruct bs |].
  apply nonempty_zlen in Hne.
  destruct (prefix_split c l' bs rest) as (bs' & -> & ->); [done | lia |].
  rewrite zlen_app in *. destruct (Z.ltb_spec (n + zlen c) length).
  - rewrite app_assoc. apply IH; [lia | lia | lia | lia | done].
  - destruct bs' as [|]; [|len]. rewrite app_nil_r. by exists s'.
Qed.

Lemma readAllData_reads bs : 0 < zlen bs -> reads (readAllData (zlen bs)) bs bs.
Proof.
  intros Hpos rest. apply exec_catch_io, (readAllData_loop_exec _ _ 0 []); lia.
Qed.

(** Fewer bytes than asked for: the end of the stream is an [EOFException]. *)
Lemma readAllData_loop_eof fuel : forall length n buf l s,
  stream_at s l -> zlen l < length - n -> 0 <= n -> (Z.to_nat (zlen l) < fuel)%nat ->
  readAllData_loop fuel length n buf s = Err (Throw EOFException).
Proof.
  induction fuel as [|fuel IH]; intros length n buf l s Hs Hl Hn Hf; [lia |].
  pose proof (zlen_nonneg l).
  cbn [readAllData_loop]. unfold bind at 1.
  destruct (read_law s _ length n (length - n) Hs)
    as [[-> (s' & -> & Hs')]|(c & l' & s' & -> & Hne & Hc & -> & Hs')]; [lia | lia | done |].
  apply nonempty_zlen in Hne. rewrite zlen_app in *.
  pose proof (zlen_nonneg l'). destruct (Z.ltb_spec (n + zlen c) length); [|lia].
  apply (IH _ _ _ l'); [done | lia | lia | lia].
Qed.

Lemma readAllData_eof n l s :
  stream_at s l -> zlen l < n -> readAllData n s = Err (Throw EOFException).
Proof.
  intros Hs Hl. unfold readAllData, catch_io.
  by rewrite (readAllData_loop_eof _ _ _ _ l) by (done || pose proof (zlen_nonneg l); lia).
Qed.

Lemma readFully_loop_exec fuel : forall length n buf bs rest,
  zlen bs = length - n -> 0 <= n -> (Z.to_nat (zlen bs) < fuel)%nat ->
  exec (fun s => stream_at s (bs ++ rest)) (readFully_loop fuel 0 length n buf) (buf ++ bs)
       (fun s => stream_at s rest).
Proof.
  induction fuel as [|fuel IH]; intros length n buf bs rest Hz Hn Hf s Hs; [lia |].
  cbn [readFully_loop]. destruct (Z.ltb_spec n length) as [Hlt | Hge].
  - unfold bind at 1. rewrite Z.add_0_l.
    destruct (read_law s _ length n (length - n) Hs) as [[E _]|(c & l' & s' & E & Hne & Hc & -> & Hs')];
      [lia | lia | apply app_eq_nil in E as [-> _]; change (0 = length - n) in Hz; lia |].
    apply nonempty_zlen in Hne.
    destruct (prefix_split c l' bs rest) as (bs' & -> & ->); [done | lia |].
    pose proof (zlen_nonneg bs'). rewrite zlen_app in *. rewrite app_assoc.
    apply IH; [lia | lia | lia | done].
  - destruct bs as [|]; [|len]. rewrite app_nil_r. by exists s.
Qed.

Lemma readFully_reads bs : reads (readFully (zlen bs)) bs bs.
Proof.
  intros rest. unfold readFully, readFully_at. pose proof (zlen_nonneg bs).
  destruct (Z.eqb_spec (zlen bs) 0).
  - destruct bs; [apply exec_ret | len].
  - destruct (Z.ltb_spec (zlen bs) 0); [lia |]. change (0 <? 0) with false. cbn [orb].
    destruct (Z.ltb_spec (zlen bs - 0) (zlen bs)); [lia |].
    apply (readFully_loop_exec _ _ 0 []); lia.
Qed.

(** Reading [n] bytes, with the length given separately. *)
Lemma readAllData_reads_n n bs : zlen bs = n -> 0 < n -> reads (readAllData n) bs bs.
Proof. intros <- Hn. by apply readAllData_reads. Qed.

Lemma readFully_reads_n n bs : zlen bs = n -> reads (readFully n) bs bs.
Proof. intros <-. apply readFully_reads. Qed.

Lemma be_explicit2 v : exists b0 b1, be 2 v = [b0; b1] /\ 0 <= b0 < 256 /\ 0 <= b1 < 256.
Proof. pose proof (be_bytes 2 v) as Hb. simpl in *. decompose_Forall_hyps. eauto 10. Qed.

Lemma be_explicit4 v : exists b0 b1 b2 b3, be 4 v = [b0; b1; b2; b3] /\
  0 <= b0 < 256 /\ 0 <= b1 < 256 /\ 0 <= b2 < 256 /\ 0 <= b3 < 256.
Proof. pose proof (be_bytes 4 v) as Hb. simpl in *. decompose_Forall_hyps. do 4 eexists. eauto. Qed.

Lemma be_explicit8 v : exists b0 b1 b2 b3 b4 b5 b6 b7, be 8 v = [b0; b1; b2; b3; b4; b5; b6; b7] /\
  0 <= b0 < 256 /\ 0 <= b1 < 256 /\ 0 <= b2 < 256 /\ 0 <= b3 < 256 /\
  0 <= b4 < 256 /\ 0 <= b5 < 256 /\ 0 <= b6 < 256 /\ 0 <= b7 < 256.
Proof.
  pose proof (be_bytes 8 v) as Hb. simpl in *. decompose_Forall_hyps. do 8 eexists.
  split; [done |]. done.
Qed.

Lemma readShort_reads v : is_s 16 v = true -> reads readShort (be 2 v) v.
Proof.
  rewrite is_s_spec. intros Hv. eapply reads_map; [apply readAllData_reads_n; [len | lia] |].
  pose proof (be_val_be 2 v) as Hval.
  destruct (be_explicit2 v) as (b0 & b1 & E & H0' & H1'). rewrite E in *. cbn [nth].
  rewrite lor_bytes2, Hval by done. change (8 * Z.of_nat 2) with 16.
  change (v mod 2 ^ 16) with (uwrap 16 v). rewrite swrap_uwrap. apply swrap_small; [lia | done].
Qed.

Lemma readUnsignedShort_reads v : is_u 16 v = true -> reads readUnsignedShort (be 2 v) v.
Proof.
  rewrite is_u_spec. intros Hv. eapply reads_map; [apply readAllData_reads_n; [len | lia] |].
  pose proof (be_val_be 2 v) as Hval.
  destruct (be_explicit2 v) as (b0 & b1 & E & H0' & H1'). rewrite E in *. cbn [nth].
  rewrite lor_bytes2, Hval by done. change (8 * Z.of_nat 2) with 16.
  rewrite (Z.mod_small v) by done. by apply uwrap_small.
Qed.

Lemma readInt_reads v : is_s 32 v = true -> reads readInt (be 4 v) v.
Proof.
  rewrite is_s_spec. intros Hv. eapply reads_map; [apply readAllData_reads_n; [len | lia] |].
  pose proof (be_val_be 4 v) as Hval.
  destruct (be_explicit4 v) as (b0 & b1 & b2 & b3 & E & ?). rewrite E in *. cbn [nth].
  rewrite lor_bytes4, Hval by tauto. change (8 * Z.of_nat 4) with 32.
  change (v mod 2 ^ 32) with (uwrap 32 v). rewrite !swrap_uwrap. apply swrap_small; [lia | done].
Qed.

Lemma readInt_reads_wrap v : reads readInt (be 4 v) (to_s32 v).
Proof.
  rewrite <- (be_swrap 4 32 v) by lia. apply readInt_reads, is_s_spec, swrap_bound. lia.
Qed.

Lemma land_ff b : 0 <= b < 256 -> Z.land b 0xFF = b.
Proof. intros. change 0xFF with (Z.ones 8). rewrite Z.land_ones by lia. by apply Z.mod_small. Qed.

Lemma readLong_reads v : is_s 64 v = true -> reads readLong (be 8 v) v.
Proof.
  rewrite is_s_spec. intros Hv. eapply reads_map; [apply readAllData_reads_n; [len | lia] |].
  pose proof (be_val_be 8 v) as Hval.
  destruct (be_explicit8 v) as (b0 & b1 & b2 & b3 & b4 & b5 & b6 & b7 & E & ?).
  rewrite E in *. cbn [nth]. rewrite !land_ff by tauto.
  rewrite lor_bytes8, Hval by tauto. change (8 * Z.of_nat 8) with 64.
  change (v mod 2 ^ 64) with (uwrap 64 v). rewrite !swrap_uwrap. apply swrap_small; [lia | done].
Qed.

Lemma readLong_reads_wrap v : reads readLong (be 8 v) (to_s64 v).
Proof.
  rewrite <- (be_swrap 8 64 v) by lia. apply readLong_reads, is_s_spec, swrap_bound. lia.
Qed.

Lemma readFloat_reads v : is_u 32 v = true -> reads readFloat (be 4 v) v.
Proof.
  intros Hv%is_u_spec. eapply reads_map; [apply readInt_reads_wrap |].
  rewrite uwrap_swrap by lia. by apply uwrap_small.
Qed.

Lemma readDouble_reads v : is_u 64 v = true -> reads readDouble (be 8 v) v.
Proof.
  intros Hv%is_u_spec. eapply reads_map; [apply readLong_reads_wrap |].
  rewrite uwrap_swrap by lia. by apply uwrap_small.
Qed.

Lemma readBoolean_reads (b : bool) : reads readBoolean [if b then 1 else 0] b.
Proof. eapply reads_map; [by apply readAllData_reads_n |]. by destruct b. Qed.

Lemma readByte_reads b : reads readByte [b] (to_s8 b).
Proof. eapply reads_map; [by apply readAllData_reads_n |]. done. Qed.

Lemma readChar_reads b : reads readChar [b] (to_s8 b).
Proof. eapply reads_map; [by apply readAllData_reads_n |]. done. Qed.

End ReaderLaws.

(** ** Modified UTF-8 *)

(** Every byte value decodes from what [writeUTF] stores for it. *)
Lemma utf_char_decodes c rest :
  0 <= c < 256 ->
  DataInputStream.utf_decode (DataOutputStream.utf_char c ++ rest)
  = rbind (DataInputStream.utf_decode rest) (fun r => Ok (c :: r)).
Proof.
  intros Hc. unfold DataOutputStream.utf_char.
  destruct ((0 <? c) && (c <=? 127)) eqn:E1.
  - rewrite andb_true_iff, Z.ltb_lt, Z.leb_le in E1.
    rewrite uwrap_small by lia. cbn [app DataInputStream.utf_decode].
    by destruct (Z.ltb_spec c 128); [|lia].
  - destruct (Z.leb_spec c 2047); [|lia].
    cbn [app DataInputStream.utf_decode].
    set (a := to_u8 (Z.lor 0xC0 _)). set (b := to_u8 (Z.lor 0x80 _)).
    assert (Hab : (a <? 0x80) = false /\ (Z.land a 0xE0 =? 0xC0) = true
      /\ (Z.land b 0xC0 =? 0x80) = true /\ (Z.land a 0x1C =? 0) = true
      /\ to_u8 (Z.lor (Z.shiftl (Z.land a 0x1F) 6) (Z.land b 0x3F)) = c); [|].
    2: { destruct Hab as (-> & -> & -> & -> & ->). done. }
    subst a b. clear -Hc.
    set (P c := let a := to_u8 (Z.lor 0xC0 (Z.land 0x1F (Z.shiftr c 6))) in
                let b := to_u8 (Z.lor 0x80 (Z.land 0x3F c)) in
      negb (a <? 0x80) && (Z.land a 0xE0 =? 0xC0) && (Z.land b 0xC0 =? 0x80)
      && (Z.land a 0x1C =? 0)
      && (to_u8 (Z.lor (Z.shiftl (Z.land a 0x1F) 6) (Z.land b 0x3F)) =? c)).
    assert (HP : P c = true).
    { assert (Hall : forallb P (seqZ 0 256) = true) by by vm_compute.
      rewrite forallb_forall in Hall. apply Hall, list_elem_of_In, elem_of_seqZ. lia. }
    unfold P in HP. rewrite !andb_true_iff, negb_true_iff, Z.eqb_eq in HP.
    rewrite !Z.eqb_eq in HP. rewrite !Z.eqb_eq. tauto.
Qed.

Lemma utf_decode_encode l :
  is_bytes l = true -> DataInputStream.utf_decode (DataOutputStream.utf_encode l) = Ok l.
Proof.
  rewrite is_bytes_spec. induction 1 as [|c l Hc _ IH]; [done |].
  unfold DataOutputStream.utf_encode in *. cbn [flat_map].
  by rewrite utf_char_decodes, IH by done.
Qed.

Lemma zlen_utf_char c :
  zlen (DataOutputStream.utf_char c)
  = if (0 <? c) && (c <=? 127) then 1 else if c <=? 2047 then 2 else 3.
Proof. unfold DataOutputStream.utf_char. by repeat case_match. Qed.

Lemma countUTFLength_spec l :
  DataOutputStream.countUTFLength l = to_u32 (zlen (DataOutputStream.utf_encode l)).
Proof.
  unfold DataOutputStream.countUTFLength. set (f := fun _ _ => _).
  enough (Hgen : forall acc, fold_left f l (to_u32 (zlen acc))
    = to_u32 (zlen (acc ++ DataOutputStream.utf_encode l))) by apply (Hgen []).
  induction l as [|c l IH]; intros acc; [by rewrite app_nil_r |].
  unfold DataOutputStream.utf_encode in *. cbn [fold_left flat_map].
  rewrite app_assoc, <- IH. f_equal. unfold f. rewrite zlen_app, zlen_utf_char.
  by repeat case_match; rewrite uwrap_add_l.
Qed.

(** [m] appends exactly [bs] to the sink. *)
Definition writes (m : M (list Z) unit) (bs : list Z) : Prop :=
  forall out, m out = Ok (tt, out ++ bs).

Lemma writes_ret : writes (ret ()) [].
Proof. intros out. unfold ret. by rewrite app_nil_r. Qed.

Lemma writes_seq m k b1 b2 : writes m b1 -> writes k b2 -> writes (m ;;; k) (b1 ++ b2).
Proof. intros Hm Hk out. unfold bind. by rewrite Hm, Hk, app_assoc. Qed.

Lemma writes_catch m bs : writes m bs -> writes (catch_io m) bs.
Proof. intros Hm out. unfold catch_io. by rewrite Hm. Qed.

Lemma writeArray_all l : writes (DataOutputStream.writeArray l (zlen l) 0 (zlen l)) l.
Proof.
  intros out. unfold DataOutputStream.writeArray. pose proof (zlen_nonneg l).
  destruct (Z.eqb_spec (zlen l) 0); [destruct l; [by rewrite app_nil_r | len] |].
  destruct (Z.ltb_spec (zlen l) 0); [lia |]. cbn [orb].
  destruct (Z.ltb_spec (zlen l - 0) (zlen l)); [lia |].
  unfold zlen. cbn [Z.ltb Z.compare Z.to_nat drop]. by rewrite Nat2Z.id, firstn_all.
Qed.

Lemma writeBytes_writes l : writes (DataOutputStream.writeBytes l) l.
Proof.
  unfold DataOutputStream.writeBytes. destruct (Z.eqb_spec (zlen l) 0).
  - destruct l; [apply writes_ret | len].
  - apply writeArray_all.
Qed.

(** The encoding of a string: the length of its UTF-8 form, then the form. *)
Definition utf_form (l : list Z) : list Z :=
  be 2 (zlen (DataOutputStream.utf_encode l)) ++ DataOutputStream.utf_encode l.

Lemma writeUTF_writes l :
  zlen (DataOutputStream.utf_encode l) <= 65535 -> writes (DataOutputStream.writeUTF l) (utf_form l).
Proof.
  intros Hl. unfold DataOutputStream.writeUTF, utf_form. rewrite countUTFLength_spec.
  pose proof (zlen_nonneg (DataOutputStream.utf_encode l)).
  rewrite uwrap_small by lia. destruct (Z.ltb_spec 65535 (zlen (DataOutputStream.utf_encode l))); [lia |].
  rewrite Z.ltb_irrefl. apply writes_catch. rewrite <- (app_nil_l (be 2 _ ++ _)).
  apply writes_seq; [apply writes_ret |].
  apply writes_seq; [intros out; apply writeUnsignedShort_be |].
  destruct (Z.ltb_spec 0 (zlen (DataOutputStream.utf_encode l))); [apply writeArray_all |].
  destruct (DataOutputStream.utf_encode l); [apply writes_ret | len].
Qed.

Lemma readUTF_reads {St} `{InputStreamLaws St} l :
  is_bytes l = true -> zlen (DataOutputStream.utf_encode l) <= 65535 ->
  reads DataInputStream.readUTF (utf_form l) l.
Proof.
  intros Hb Hl. pose proof (zlen_nonneg (DataOutputStream.utf_encode l)).
  apply reads_catch. eapply reads_bind; [apply readUnsignedShort_reads, is_u_spec; lia |].
  pose proof (utf_decode_encode l Hb) as Hd.
  destruct (Z.eqb_spec (zlen (DataOutputStream.utf_encode l)) 0) as [E|E].
  - destruct (DataOutputStream.utf_encode l); [|len]. injection Hd as <-. apply reads_ret.
  - rewrite <- (app_nil_r (DataOutputStream.utf_encode l)).
    eapply reads_bind; [rewrite app_nil_r; apply readFully_reads |]. rewrite Hd.
    apply (reads_ret l).
Qed.

(** ** Sequences of typed values

    The calls a client makes on the two streams: a typed value to write, the
    kind of the value to read. *)
Inductive kind := KBoolean | KByte | KShort | KUnsignedShort | KInt | KLong | KUTF.

Inductive datum :=
| DBoolean (b : bool)
| DByte (v : Z)
| DShort (v : Z)
| DUnsignedShort (v : Z)
| DInt (v : Z)
| DLong (v : Z)
| DUTF (v : list Z).

Definition datum_kind (d : datum) : kind :=
  match d with
  | DBoolean _ => KBoolean | DByte _ => KByte | DShort _ => KShort
  | DUnsignedShort _ => KUnsignedShort | DInt _ => KInt | DLong _ => KLong | DUTF _ => KUTF
  end.

Definition write_datum (d : datum) : M (list Z) unit :=
  match d with
  | DBoolean b => DataOutputStream.writeBoolean b
  | DByte v => DataOutputStream.writeByte v
  | DShort v => DataOutputStream.writeShort v
  | DUnsignedShort v => DataOutputStream.writeUnsignedShort v
  | DInt v => DataOutputStream.writeInt v
  | DLong v => DataOutputStream.writeLong v
  | DUTF v => DataOutputStream.writeUTF v
  end.

Definition read_datum {St} `{InputStream St} (k : kind) : M St datum :=
  match k with
  | KBoolean => let* b := DataInputStream.readBoolean in ret (DBoolean b)
  | KByte => let* v := DataInputStream.readByte in ret (DByte v)
  | KShort => let* v := DataInputStream.readShort in ret (DShort v)
  | KUnsignedShort => let* v := DataInputStream.readUnsignedShort in ret (DUnsignedShort v)
  | KInt => let* v := DataInputStream.readInt in ret (DInt v)
  | KLong => let* v := DataInputStream.readLong in ret (DLong v)
  | KUTF => let* v := DataInputStream.readUTF in ret (DUTF v)
  end.

(** The value is in the range of its C++ type; a string fits [writeUTF]. *)
Definition datum_ok (d : datum) : bool :=
  match d with
  | DBoolean _ => true
  | DByte v => is_s 8 v
  | DShort v => is_s 16 v
  | DUnsignedShort v => is_u 16 v
  | DInt v => is_s 32 v
  | DLong v => is_s 64 v
  | DUTF v => is_bytes v && (zlen (DataOutputStream.utf_encode v) <=? 65535)
  end.

Definition datum_form (d : datum) : list Z :=
  match d with
  | DBoolean b => [if b then 1 else 0]
  | DByte v => [to_u8 v]
  | DShort v | DUnsignedShort v => be 2 v
  | DInt v => be 4 v
  | DLong v => be 8 v
  | DUTF v => utf_form v
  end.

Lemma write_datum_writes d : datum_ok d = true -> writes (write_datum d) (datum_form d).
Proof.
  destruct d; cbn [datum_ok write_datum datum_form]; intros Hok out.
  - by destruct b.
  - done.
  - apply writeShort_be.
  - apply writeUnsignedShort_be.
  - apply writeInt_be.
  - apply writeLong_be.
  - apply andb_true_iff in Hok as [_ Hl%Z.leb_le]. by apply writeUTF_writes.
Qed.

Lemma read_datum_reads {St} `{InputStreamLaws St} d :
  datum_ok d = true -> reads (read_datum (datum_kind d)) (datum_form d) d.
Proof.
  destruct d; cbn [datum_ok read_datum datum_kind datum_form]; intros Hok.
  - eapply reads_map; [apply readBoolean_reads | done].
  - eapply reads_map; [apply readByte_reads |]. rewrite swrap_uwrap.
    f_equal. apply swrap_small; [lia |]. by apply is_s_spec.
  - eapply reads_map; [by apply readShort_reads | done].
  - eapply reads_map; [by apply readUnsignedShort_reads | done].
  - eapply reads_map; [by apply readInt_reads | done].
  - eapply reads_map; [by apply readLong_reads | done].
  - apply andb_true_iff in Hok as [Hb Hl%Z.leb_le].
    eapply reads_map; [by apply readUTF_reads | done].
Qed.

(**  Whatever sequence of booleans, bytes, shorts, ints, longs and strings
    DataOutputStream writes, DataInputStream reads the same sequence back, from
    any input stream that delivers those bytes, however [read] fragments them,
    and leaves the bytes that follow untouched. *)
Theorem data_roundtrip (ds : list datum) :
  forallb datum_ok ds = true ->
  exists bs, mapM write_datum ds [] = Ok (repeat tt (length ds), bs) /\
    forall St (I : InputStream St) (L : InputStreamLaws St) (s : St) rest,
      stream_at s (bs ++ rest) ->
      exists s', mapM read_datum (map datum_kind ds) s = Ok (ds, s') /\ stream_at s' rest.
Proof.
  intros Hok. exists (flat_map datum_form ds). split.
  - rewrite <- (app_nil_l (flat_map _ _)). generalize (@nil Z) as out.
    induction ds as [|d ds IH]; intros out; cbn in *; [by rewrite app_nil_r |].
    apply andb_true_iff in Hok as [Hd Hds]. unfold bind.
    rewrite (write_datum_writes d Hd out), (IH Hds). by rewrite app_assoc.
  - intros St I L s rest. revert s.
    induction ds as [|d ds IH]; [intros s Hs; by exists s |].
    cbn in Hok. apply andb_true_iff in Hok as [Hd Hds]. cbn [map flat_map mapM].
    rewrite <- app_assoc. intros s Hs.
    eapply exec_bind; [apply (read_datum_reads d Hd) | | exact Hs].
    eapply exec_bind; [exact (IH Hds) | apply exec_ret].
Qed.

(** A stream that ends inside the bytes asked for. *)
Lemma readFully_loop_eof {St} `{InputStreamLaws St} fuel : forall length n buf l s,
  stream_at s l -> zlen l < length - n -> 0 <= n -> (Z.to_nat (zlen l) < fuel)%nat ->
  DataInputStream.readFully_loop fuel 0 length n buf s = Err (Throw EOFException).
Proof.
  induction fuel as [|fuel IH]; intros length n buf l s Hs Hl Hn Hf; [lia |].
  pose proof (zlen_nonneg l). cbn [DataInputStream.readFully_loop].
  destruct (Z.ltb_spec n length); [|lia]. unfold bind at 1. rewrite Z.add_0_l.
  destruct (read_law s _ length n (length - n) Hs)
    as [[-> (s' & -> & Hs')]|(c & l' & s' & -> & Hne & Hc & -> & Hs')]; [lia | lia | done |].
  apply nonempty_zlen in Hne. rewrite zlen_app in *. pose proof (zlen_nonneg l').
  apply (IH _ _ _ l'); [done | lia | lia | lia].
Qed.

Lemma readFully_eof {St} `{InputStreamLaws St} n l s :
  stream_at s l -> zlen l < n -> DataInputStream.readFully n s = Err (Throw EOFException).
Proof.
  intros Hs Hl. pose proof (zlen_nonneg l).
  unfold DataInputStream.readFully, DataInputStream.readFully_at.
  destruct (Z.eqb_spec n 0); [lia |]. destruct (Z.ltb_spec n 0); [lia |].
  change (0 <? 0) with false. cbn [orb]. destruct (Z.ltb_spec (n - 0) n); [lia |].
  by apply (readFully_loop_eof _ _ _ _ l); [done | lia | lia | lia].
Qed.

Lemma read_fixed_eof {St A} `{InputStreamLaws St} n (f : list Z -> A) (g : A -> datum) l s :
  stream_at s l -> zlen l < n ->
  (let* v := let* b := DataInputStream.readAllData n in ret (f b) in ret (g v)) s
  = Err (Throw EOFException).
Proof. intros Hs Hl. unfold bind. by rewrite (readAllData_eof n l s Hs Hl). Qed.

Lemma readUTF_truncated {St} `{InputStreamLaws St} v l c s :
  zlen (DataOutputStream.utf_encode v) <= 65535 ->
  utf_form v = l ++ c -> c <> [] -> stream_at s l ->
  DataInputStream.readUTF s = Err (Throw EOFException).
Proof.
  intros Hv E Hc Hs. apply nonempty_zlen in Hc. unfold utf_form in E.
  pose proof (zlen_nonneg (DataOutputStream.utf_encode v)).
  unfold DataInputStream.readUTF, catch_io.
  destruct (Z.lt_ge_cases (zlen l) 2) as [Hl | Hl].
  { unfold bind, DataInputStream.readUnsignedShort, bind at 1.
    by rewrite (readAllData_eof 2 l s Hs Hl). }
  symmetry in E.
  destruct (prefix_split (be 2 (zlen (DataOutputStream.utf_encode v)))
    (DataOutputStream.utf_encode v) l c) as (l' & -> & E'); [done | len |].
  assert (Hlt : zlen l' < zlen (DataOutputStream.utf_encode v)) by (rewrite E'; len).
  destruct (readUnsignedShort_reads (zlen (DataOutputStream.utf_encode v))
    ltac:(apply is_u_spec; lia) l' s Hs) as (s1 & E1 & Hs1).
  unfold bind at 1. rewrite E1.
  destruct (Z.eqb_spec (zlen (DataOutputStream.utf_encode v)) 0); [pose proof (zlen_nonneg l'); lia |].
  unfold bind. by rewrite (readFully_eof _ l' s1).
Qed.

(**  A stream that ends in the middle of an encoded value makes the reader
    of that value throw EOFException: it never returns a value and never waits
    for bytes in a loop. *)
Theorem read_truncated {St} (I : InputStream St) (L : InputStreamLaws St) d l c (s : St) :
  datum_ok d = true -> datum_form d = l ++ c -> c <> [] -> stream_at s l ->
  read_datum (datum_kind d) s = Err (Throw EOFException).
Proof.
  intros Hok E Hc Hs. pose proof (nonempty_zlen c Hc) as Hc'.
  assert (Hz : zlen l + zlen c = zlen (datum_form d)) by (rewrite E; len).
  destruct d; cbn [datum_form datum_kind read_datum] in *;
    try (apply (read_fixed_eof _ _ _ l s Hs); len).
  apply andb_true_iff in Hok as [_ Hl%Z.leb_le].
  unfold bind. by rewrite (readUTF_truncated v l c s).
Qed.

(**  [readFully(buffer, size, offset, length)] hands [length] to the base
    stream as the size of the buffer, so every call with a positive offset that
    is within the bounds of the buffer is refused by the base stream. *)
Theorem readFully_offset_throws {St} (I : InputStream St) (L : InputStreamLaws St)
    size offset length l (s : St) :
  stream_at s l -> 0 < offset -> 0 < length -> offset + length <= size ->
  DataInputStream.readFully_at size offset length s = Err (Throw IndexOutOfBoundsException).
Proof.
  intros Hs Hoff Hlen Hsize. unfold DataInputStream.readFully_at.
  destruct (Z.eqb_spec length 0); [lia |]. destruct (Z.ltb_spec size 0); [lia |].
  destruct (Z.ltb_spec size offset); [lia |]. destruct (Z.ltb_spec offset 0); [lia |]. cbn [orb].
  destruct (Z.ltb_spec length 0); [lia |]. destruct (Z.ltb_spec (size - offset) length); [lia |].
  cbn [orb DataInputStream.readFully_loop]. destruct (Z.ltb_spec 0 length); [|lia].
  unfold bind. by rewrite (read_bounds s l) by (done || lia).
Qed.

(** ** Instances *)
Lemma data_roundtrip_witness :
  exists bs, mapM write_datum [DBoolean true; DInt (-5); DLong 4294967296; DUTF [65; 233]] [] = Ok ([tt; tt; tt; tt], bs) /\
    forall St (I : InputStream St) (L : InputStreamLaws St) (s : St) rest, stream_at s (bs ++ rest) ->
      exists s', mapM read_datum [KBoolean; KInt; KLong; KUTF] s
        = Ok ([DBoolean true; DInt (-5); DLong 4294967296; DUTF [65; 233]], s') /\ stream_at s' rest.
Proof. exact (data_roundtrip [DBoolean true; DInt (-5); DLong 4294967296; DUTF [65; 233]] eq_refl). Defined.

Lemma read_truncated_witness : read_datum KInt (ByteArrayInputStream.over [1; 2]) = Err (Throw EOFException).
Proof.
  exact (read_truncated _ _ (DInt 16909060) [1; 2] [3; 4] _ eq_refl eq_refl ltac:(discriminate)
    (ByteArrayInputStream.over_at [1; 2])).
Defined.

Lemma readFully_offset_throws_witness :
  DataInputStream.readFully_at 8 2 3 (ByteArrayInputStream.over [1; 2; 3]) = Err (Throw IndexOutOfBoundsException).
Proof.
  exact (readFully_offset_throws _ _ 8 2 3 [1; 2; 3] _ (ByteArrayInputStream.over_at _)
    ltac:(lia) ltac:(lia) ltac:(lia)).
Defined.
