(* ===== verification/BooleanStreams.v ===== *)
(** * The boolean stream of the tight OpenWire encoding

    activemq/wireformat/openwire/utils/BooleanStream: the flags of a tightly
    encoded command, packed eight to a byte and sent in front of its body.
    The file models the class and proves that it implements a queue of
    booleans: [writing] and [reading] relate its state to the booleans written
    so far and to the booleans still to be read. *)

From S2P Require Import Prelude DataStreams.

#[local] Ltac Zify.zify_post_hook ::= Z.div_mod_to_equations.

Module BooleanStream.

Record t := mk {
  data : list Z;          (* std::vector<unsigned char> *)
  arrayLimit : Z;         (* short *)
  arrayPos : Z;           (* short *)
  bytePos : Z             (* unsigned char *)
}.

(** The constructor: 1000 zero bytes. *)
Definition init : t :=
  {| data := replicate 1000 0; arrayLimit := 0; arrayPos := 0; bytePos := 0 |}.

(** [data[i]] of a [std::vector], undefined outside it. *)
Definition at_index (l : list Z) (i : Z) : option Z :=
  if i <? 0 then None else l !! Z.to_nat i.

(** The increment of [bytePos] that ends [readBoolean] and [writeBoolean]. *)
Definition next_bit (s : t) : t :=
  let bp := to_u8 (bytePos s + 1) in
  if 8 <=? bp
  then {| data := data s; arrayLimit := arrayLimit s;
          arrayPos := to_s16 (arrayPos s + 1); bytePos := 0 |}
  else {| data := data s; arrayLimit := arrayLimit s; arrayPos := arrayPos s; bytePos := bp |}.

Definition readBoolean : M t bool := fun s =>
  match at_index (data s) (arrayPos s) with
  | None => Err Undefined
  | Some b => Ok (negb (Z.land (Z.shiftr b (bytePos s)) 0x01 =? 0), next_bit s)
  end.

(** [arrayLimit++] and the growth of the vector at the start of a byte. *)
Definition grow (s : t) : t :=
  if bytePos s =? 0 then
    let limit := to_s16 (arrayLimit s + 1) in
    {| data := if zlen (data s) <=? to_u64 limit
               then data s ++ replicate (length (data s)) 0 else data s;
       arrayLimit := limit; arrayPos := arrayPos s; bytePos := bytePos s |}
  else s.

Definition writeBoolean (value : bool) : M t unit := fun s =>
  let s := grow s in
  if value then
    match at_index (data s) (arrayPos s) with
    | None => Err Undefined
    | Some b =>
      Ok (tt, next_bit {| data := <[Z.to_nat (arrayPos s) := Z.lor b (to_u8 (Z.shiftl 0x01 (bytePos s)))]> (data s);
                          arrayLimit := arrayLimit s; arrayPos := arrayPos s; bytePos := bytePos s |})
    end
  else Ok (tt, next_bit s).

Definition clear (s : t) : t :=
  {| data := data s; arrayLimit := arrayLimit s; arrayPos := 0; bytePos := 0 |}.

Definition marshalledSize (s : t) : Z :=
  if arrayLimit s <? 64 then 1 + arrayLimit s
  else if arrayLimit s <? 256 then 2 + arrayLimit s
  else 3 + arrayLimit s.

(** [marshal(DataOutputStream* )]: the size field, the bytes, then [clear()]. *)
Definition marshal (s : t) : M (list Z) t :=
  catch_io (
    (if arrayLimit s <? 64 then DataOutputStream.writeByte (to_u8 (arrayLimit s))
     else if arrayLimit s <? 256 then
       DataOutputStream.writeByte 0xC0 ;;; DataOutputStream.writeByte (to_u8 (arrayLimit s))
     else DataOutputStream.writeByte 0x80 ;;; DataOutputStream.writeShort (arrayLimit s)) ;;;
    DataOutputStream.writeArray (data s) (zlen (data s)) 0 (arrayLimit s) ;;;
    ret (clear s)).

(** [marshal(std::vector<unsigned char>&)]; the range inserted ends before
    [&data[arrayLimit - 1]]. *)
Definition marshal_vector (s : t) : M (list Z) unit := fun dataOut =>
  let header :=
    if arrayLimit s <? 64 then [to_u8 (arrayLimit s)]
    else if arrayLimit s <? 256 then [0xC0; to_u8 (arrayLimit s)]
    else [0x80; to_u8 (Z.shiftr (arrayLimit s) 8); to_u8 (Z.land (arrayLimit s) 0xFF)] in
  if (arrayLimit s - 1 <? 0) || (zlen (data s) <=? arrayLimit s - 1) then Err Undefined
  else Ok (tt, dataOut ++ header ++ take (Z.to_nat (arrayLimit s - 1)) (data s)).

(** [unmarshal(DataInputStream* )]: a negative size makes [data.resize] throw
    [std::length_error], which leaves as an IOException. *)
Definition unmarshal {St} `{InputStream St} : M St t :=
  catch_io (
    let* b := DataInputStream.readByte in
    let limit := to_s16 (Z.land b 0xFF) in
    let* limit :=
      (if limit =? 0xC0 then
         let* b := DataInputStream.readByte in ret (to_s16 (Z.land b 0xFF))
       else if limit =? 0x80 then DataInputStream.readShort
       else ret limit) in
    if limit <? 0 then raise IOException
    else
      let* bytes := DataInputStream.readFully_at limit 0 limit in
      ret (clear {| data := bytes; arrayLimit := limit; arrayPos := 0; bytePos := 0 |})).

End BooleanStream.

(** ** The booleans a vector holds *)
Definition byte_bits (b : Z) : list bool := map (Z.testbit b) (seqZ 0 8).
Definition bits_of (data : list Z) : list bool := flat_map byte_bits data.

Lemma length_byte_bits b : length (byte_bits b) = 8%nat.
Proof. reflexivity. Qed.

Lemma length_bits_of data : length (bits_of data) = (8 * length data)%nat.
Proof.
  induction data as [|b data IH]; [done |]. unfold bits_of in *. cbn [flat_map].
  rewrite length_app, IH, length_byte_bits. simpl length. lia.
Qed.

Lemma bits_of_app d1 d2 : bits_of (d1 ++ d2) = bits_of d1 ++ bits_of d2.
Proof. apply flat_map_app. Qed.

Lemma bits_of_zeros n : bits_of (replicate n 0) = replicate (8 * n) false.
Proof.
  induction n as [|n IH]; [done |]. cbn [replicate bits_of flat_map].
  fold (bits_of (replicate n 0)). rewrite IH.
  replace (8 * S n)%nat with (8 + 8 * n)%nat by lia. by rewrite replicate_add.
Qed.

Lemma byte_bits_lookup b j : (j < 8)%nat -> byte_bits b !! j = Some (Z.testbit b (Z.of_nat j)).
Proof.
  intros Hj. unfold byte_bits. rewrite list_lookup_fmap.
  by rewrite lookup_seqZ_lt by lia.
Qed.

Lemma bits_of_lookup data i j b :
  data !! i = Some b -> (j < 8)%nat -> bits_of data !! (8 * i + j)%nat = Some (Z.testbit b (Z.of_nat j)).
Proof.
  revert i. induction data as [|x data IH]; intros [|i] Hi Hj; cbn in Hi; try done.
  - injection Hi as ->. cbn [bits_of flat_map]. rewrite lookup_app_l by (rewrite length_byte_bits; lia).
    by apply byte_bits_lookup.
  - cbn [bits_of flat_map]. rewrite lookup_app_r by (rewrite length_byte_bits; lia).
    rewrite length_byte_bits. replace (8 * S i + j - 8)%nat with (8 * i + j)%nat by lia. by apply IH.
Qed.

(** Setting one bit of a byte, as [writeBoolean] does. *)
Lemma byte_bits_set b j :
  (j < 8)%nat -> byte_bits (Z.lor b (to_u8 (Z.shiftl 1 (Z.of_nat j)))) = <[j := true]> (byte_bits b).
Proof.
  intros Hj. apply list_eq_same_length with 8%nat; [by rewrite length_insert | done |].
  intros k x y Hk Hx Hy. rewrite byte_bits_lookup in Hx by done. injection Hx as <-.
  rewrite uwrap_small, Z.shiftl_mul_pow2, Z.mul_1_l in *; try lia.
  2: { rewrite Z.shiftl_mul_pow2 by lia. split; [lia |].
       rewrite Z.mul_1_l. apply Z.pow_lt_mono_r; lia. }
  rewrite Z.lor_spec, Z.pow2_bits_eqb by lia.
  destruct (decide (j = k)) as [-> | Hne].
  - rewrite list_lookup_insert_eq in Hy by (rewrite length_byte_bits; lia). injection Hy as <-.
    by rewrite Z.eqb_refl, orb_true_r.
  - rewrite list_lookup_insert_ne, byte_bits_lookup in Hy by done. injection Hy as <-.
    destruct (Z.eqb_spec (Z.of_nat j) (Z.of_nat k)); [lia |]. by rewrite orb_false_r.
Qed.

Lemma bits_of_set data i j b :
  data !! i = Some b -> (j < 8)%nat ->
  bits_of (<[i := Z.lor b (to_u8 (Z.shiftl 1 (Z.of_nat j)))]> data)
  = <[(8 * i + j)%nat := true]> (bits_of data).
Proof.
  revert i. induction data as [|x data IH]; intros [|i] Hi Hj; cbn in Hi; try done.
  - injection Hi as ->. cbn [insert list_insert bits_of flat_map].
    rewrite byte_bits_set by done. rewrite insert_app_l by (rewrite length_byte_bits; lia). done.
  - replace (8 * S i + j)%nat with (length (byte_bits x) + (8 * i + j))%nat
      by (rewrite length_byte_bits; lia).
    cbn [insert list_insert bits_of flat_map]. rewrite insert_app_r. f_equal. by apply IH.
Qed.

(** ** The abstract queue

    The limit of a stream is a [short], so it holds at most 8 * 32767 booleans. *)
Definition max_bits : Z := 8 * 32767.

(** Exactly the booleans [l] have been written since construction. *)
Definition writing (s : BooleanStream.t) (l : list bool) : Prop :=
  is_bytes (BooleanStream.data s) = true /\
  BooleanStream.arrayPos s = zlen l / 8 /\ BooleanStream.bytePos s = zlen l mod 8 /\
  BooleanStream.arrayLimit s = (zlen l + 7) / 8 /\
  BooleanStream.arrayLimit s < zlen (BooleanStream.data s) /\
  zlen l <= max_bits /\
  exists k, bits_of (BooleanStream.data s) = l ++ replicate k false.

(** The next booleans to be read are [l]; padding may follow them. *)
Definition reading (s : BooleanStream.t) (l : list bool) : Prop :=
  0 <= BooleanStream.bytePos s < 8 /\ 0 <= BooleanStream.arrayPos s /\
  8 * BooleanStream.arrayPos s + BooleanStream.bytePos s + zlen l <= max_bits /\
  exists pre post, bits_of (BooleanStream.data s) = pre ++ l ++ post /\
    zlen pre = 8 * BooleanStream.arrayPos s + BooleanStream.bytePos s.

Section BooleanStreamLaws.
Import BooleanStream.
Local Open Scope Z_scope.

Lemma zlen_bits_of d : zlen (bits_of d) = 8 * zlen d.
Proof. unfold zlen. rewrite length_bits_of. lia. Qed.

Lemma writing_init : writing init [].
Proof.
  unfold writing. cbn [data arrayPos bytePos arrayLimit init].
  repeat split; try (vm_compute; congruence). exists (8 * 1000)%nat. apply bits_of_zeros.
Qed.

(** The position after one more boolean. *)
Lemma next_bit_pos s n :
  arrayPos s = n / 8 -> bytePos s = n mod 8 -> 0 <= n < max_bits ->
  arrayPos (next_bit s) = (n + 1) / 8 /\ bytePos (next_bit s) = (n + 1) mod 8 /\
  data (next_bit s) = data s /\ arrayLimit (next_bit s) = arrayLimit s.
Proof.
  unfold max_bits. intros Ha Hb Hn. unfold next_bit. rewrite uwrap_small by lia.
  destruct (Z.leb_spec 8 (bytePos s + 1)); cbn [arrayPos bytePos data arrayLimit].
  - rewrite swrap_small by lia. repeat split; lia.
  - repeat split; lia.
Qed.

Lemma grow_writing s l :
  writing s l -> zlen l < max_bits ->
  arrayPos (grow s) = zlen l / 8 /\ bytePos (grow s) = zlen l mod 8 /\
  is_bytes (data (grow s)) = true /\
  arrayLimit (grow s) = (zlen l + 1 + 7) / 8 /\ arrayLimit (grow s) < zlen (data (grow s)) /\
  exists k, bits_of (data (grow s)) = l ++ replicate k false.
Proof.
  intros (Hb & Hp & Hbp & Hl & Hsz & _ & k & Hk) Hmax. pose proof (zlen_nonneg l).
  unfold max_bits in *. unfold grow. destruct (Z.eqb_spec (bytePos s) 0) as [E|E].
  - rewrite swrap_small by lia. cbn [data arrayLimit arrayPos bytePos].
    destruct (Z.leb_spec (zlen (data s)) (to_u64 (arrayLimit s + 1))) as [Hg|Hg];
      rewrite uwrap_small in Hg by lia.
    + split; [done |]. split; [done |]. split.
      { rewrite is_bytes_app, Hb. apply is_bytes_spec. by apply Forall_replicate. }
      split; [lia |]. split; [unfold zlen in *; rewrite length_app, length_replicate; lia |].
      exists (k + 8 * length (data s))%nat.
      by rewrite bits_of_app, bits_of_zeros, Hk, <- app_assoc, replicate_add.
    + repeat split; try done; [lia |]. by exists k.
  - repeat split; try done; [lia |]. by exists k.
Qed.

Lemma lor_byte b j : 0 <= b < 256 -> (j < 8)%nat ->
  0 <= Z.lor b (to_u8 (Z.shiftl 1 (Z.of_nat j))) < 256.
Proof.
  intros Hb Hj. pose proof (uwrap_bound 8 (Z.shiftl 1 (Z.of_nat j))) as Hw.
  split; [apply Z.lor_nonneg; lia |].
  destruct (Z.eq_dec (Z.lor b (to_u8 (Z.shiftl 1 (Z.of_nat j)))) 0) as [-> | Hne]; [lia |].
  change 256 with (2 ^ 8). apply Z.log2_lt_pow2; [pose proof (Z.lor_nonneg b (to_u8 (Z.shiftl 1 (Z.of_nat j)))); lia |].
  rewrite Z.log2_lor by lia. apply Z.max_lub_lt.
  all: match goal with |- Z.log2 ?x < 8 => destruct (Z.eq_dec x 0) as [-> | ?]; [done |];
    apply Z.log2_lt_pow2; lia end.
Qed.

Lemma writing_write s l b :
  writing s l -> zlen l < max_bits ->
  exists s', writeBoolean b s = Ok (tt, s') /\ writing s' (l ++ [b]).
Proof.
  intros Hw Hmax. destruct (grow_writing s l Hw Hmax) as (Hp & Hbp & Hb & Hl & Hsz & k & Hk).
  pose proof (zlen_nonneg l). unfold writeBoolean. set (g := grow s) in *.
  assert (Hk' : k = S (pred k)).
  { apply (f_equal zlen) in Hk. rewrite zlen_bits_of, zlen_app in Hk.
    unfold zlen in Hk at 3. rewrite length_replicate in Hk. lia. }
  rewrite Hk' in Hk. cbn [replicate] in Hk.
  destruct b.
  - destruct (lookup_lt_is_Some_2 (data g) (Z.to_nat (arrayPos g))) as [b Hbyte].
    { unfold zlen in *. lia. }
    unfold at_index. destruct (Z.ltb_spec (arrayPos g) 0); [lia |]. rewrite Hbyte.
    eexists. split; [done |].
    assert (Hj : (Z.to_nat (bytePos g) < 8)%nat) by lia.
    replace (bytePos g) with (Z.of_nat (Z.to_nat (bytePos g))) by lia.
    set (g' := mk _ _ _ _).
    destruct (next_bit_pos g' (zlen l)) as (Hp' & Hbp' & Hd' & Hl'); [done | cbn; lia | lia |].
    unfold writing. rewrite Hp', Hbp', Hd', Hl'. cbn [g' data arrayLimit].
    rewrite (zlen_app l), zlen_cons, zlen_nil. repeat split; try lia.
    + apply is_bytes_spec in Hb. apply is_bytes_spec, Forall_insert; [done |].
      apply lor_byte; [|done]. by eapply Forall_lookup_1 in Hb.
    + unfold zlen. rewrite length_insert. apply Hsz.
    + exists (pred k). rewrite bits_of_set, Hk by done.
      replace (8 * Z.to_nat (arrayPos g) + Z.to_nat (bytePos g))%nat with (length l + 0)%nat
        by (unfold zlen in *; lia).
      rewrite insert_app_r. cbn. by rewrite <- app_assoc.
  - destruct (next_bit_pos g (zlen l)) as (Hp' & Hbp' & Hd' & Hl'); [done | done | lia |].
    eexists. split; [done |]. unfold writing. rewrite Hp', Hbp', Hd', Hl'.
    rewrite (zlen_app l), zlen_cons, zlen_nil. repeat split; try (done || lia).
    exists (pred k). by rewrite Hk, <- app_assoc.
Qed.

(** [clear()] turns the writer into a reader of what was written. *)
Lemma writing_clear s l : writing s l -> reading (clear s) l.
Proof.
  intros (_ & _ & _ & _ & _ & Hmax & k & Hk). unfold reading. cbn [bytePos arrayPos data clear].
  repeat split; try lia. exists [], (replicate k false). done.
Qed.

Lemma reading_read s b l :
  reading s (b :: l) -> exists s', readBoolean s = Ok (b, s') /\ reading s' l.
Proof.
  intros (Hbp & Hp & Hmax & pre & post & Hbits & Hpre). rewrite zlen_cons in Hmax.
  pose proof (zlen_nonneg l). unfold readBoolean, at_index.
  assert (Hlt : (Z.to_nat (arrayPos s) < length (data s))%nat).
  { apply (f_equal zlen) in Hbits. rewrite zlen_bits_of in Hbits.
    rewrite zlen_app, zlen_app, zlen_cons in Hbits. pose proof (zlen_nonneg post).
    unfold zlen in *. lia. }
  destruct (lookup_lt_is_Some_2 _ _ Hlt) as [x Hx].
  destruct (Z.ltb_spec (arrayPos s) 0); [lia |]. rewrite Hx.
  pose proof (bits_of_lookup (data s) (Z.to_nat (arrayPos s)) (Z.to_nat (bytePos s)) x Hx ltac:(lia)) as Hbit.
  rewrite Hbits, lookup_app_r in Hbit by (unfold zlen in *; lia).
  replace (8 * Z.to_nat (arrayPos s) + Z.to_nat (bytePos s) - length pre)%nat with O in Hbit
    by (unfold zlen in *; lia).
  injection Hbit as ->. eexists. split.
  - f_equal. f_equal. change 1 with (Z.ones 1). rewrite Z.land_ones, <- Z.bit0_mod by lia.
    rewrite Z.shiftr_spec by lia. rewrite Z.add_0_l, Z2Nat.id by lia.
    by destruct (Z.testbit x (bytePos s)).
  - destruct (next_bit_pos s (8 * arrayPos s + bytePos s)) as (Hp' & Hbp' & Hd' & _);
      [lia | lia | unfold max_bits in *; lia |].
    unfold reading. rewrite Hp', Hbp', Hd'. repeat split; try lia.
    exists (pre ++ [Z.testbit x (Z.of_nat (Z.to_nat (bytePos s)))]), post.
    split; [by rewrite Hbits, <- app_assoc |]. rewrite zlen_app, zlen_cons, zlen_nil. lia.
Qed.

(** The bytes [marshal] writes: the size field, then the used bytes. *)
Definition size_field (limit : Z) : list Z :=
  if limit <? 64 then [limit] else if limit <? 256 then [0xC0; limit] else 0x80 :: be 2 limit.

Definition marshal_form (s : t) : list Z :=
  size_field (arrayLimit s) ++ take (Z.to_nat (arrayLimit s)) (data s).

Lemma writing_limit s l :
  writing s l -> 0 <= arrayLimit s <= 32767 /\ 8 * arrayLimit s < zlen l + 8 /\ zlen l <= 8 * arrayLimit s
    /\ arrayLimit s < zlen (data s).
Proof.
  intros (_ & _ & _ & Hl & Hsz & Hmax & _). pose proof (zlen_nonneg l). unfold max_bits in *. lia.
Qed.

Lemma marshal_writes s l out :
  writing s l -> marshal s out = Ok (clear s, out ++ marshal_form s).
Proof.
  intros Hw. destruct (writing_limit s l Hw) as (Hl & _ & _ & Hsz).
  unfold marshal, marshal_form, catch_io, size_field, DataOutputStream.writeByte, DataOutputStream.write.
  assert (Harr : forall o, DataOutputStream.writeArray (data s) (zlen (data s)) 0 (arrayLimit s) o
    = Ok (tt, o ++ take (Z.to_nat (arrayLimit s)) (data s))).
  { intros o. unfold DataOutputStream.writeArray.
    destruct (Z.eqb_spec (arrayLimit s) 0) as [-> | ?]; [by rewrite app_nil_r |].
    destruct (Z.ltb_spec (zlen (data s)) 0); [lia |]. cbn [orb].
    destruct (Z.ltb_spec (arrayLimit s) 0); [lia |].
    by destruct (Z.ltb_spec (zlen (data s) - 0) (arrayLimit s)); [lia |]. }
  unfold bind. destruct (Z.ltb_spec (arrayLimit s) 64).
  - rewrite Harr, !uwrap_small, <- !app_assoc by (rewrite ?uwrap_small by lia; lia). done.
  - destruct (Z.ltb_spec (arrayLimit s) 256).
    + rewrite Harr, (uwrap_small 8 (to_u8 (arrayLimit s))), !uwrap_small, <- !app_assoc
        by (rewrite ?uwrap_small by lia; lia). done.
    + rewrite writeShort_be, Harr, uwrap_small, <- !app_assoc by lia. done.
Qed.

Lemma zlen_marshal_form s l : writing s l -> zlen (marshal_form s) = marshalledSize s.
Proof.
  intros Hw. destruct (writing_limit s l Hw) as (Hl & _ & _ & Hsz).
  unfold marshal_form, marshalledSize, size_field. rewrite zlen_app.
  assert (Ht : zlen (take (Z.to_nat (arrayLimit s)) (data s)) = arrayLimit s).
  { unfold zlen in *. rewrite length_take. lia. }
  rewrite Ht. destruct (Z.ltb_spec (arrayLimit s) 64); [len |].
  destruct (Z.ltb_spec (arrayLimit s) 256); len.
Qed.

Lemma land_to_s8 b : 0 <= b < 256 -> Z.land (to_s8 b) 0xFF = b.
Proof.
  intros Hb. change 0xFF with (Z.ones 8). rewrite Z.land_ones by lia.
  change (to_s8 b mod 2 ^ 8) with (uwrap 8 (swrap 8 b)). rewrite uwrap_swrap by lia. by apply uwrap_small.
Qed.

Lemma is_bytes_marshal_form s l : writing s l -> is_bytes (marshal_form s) = true.
Proof.
  intros Hw. destruct (writing_limit s l Hw) as (Hl & _). destruct Hw as (Hb & _).
  unfold marshal_form. rewrite is_bytes_app, andb_true_iff, !is_bytes_spec. split.
  - unfold size_field. repeat case_match; rewrite ?Z.ltb_lt, ?Z.ltb_ge in *.
    + repeat constructor; lia.
    + repeat constructor; lia.
    + constructor; [lia | apply be_bytes].
  - by apply Forall_take, is_bytes_spec.
Qed.

Lemma unmarshal_reads {St} `{InputStreamLaws St} s l :
  writing s l ->
  exists s', reads unmarshal (marshal_form s) s' /\ reading s' l.
Proof.
  intros Hw. destruct (writing_limit s l Hw) as (Hl & Hlow & Hhigh & Hsz).
  destruct Hw as (Hb & _ & _ & _ & _ & Hmax & k & Hk).
  set (bytes := take (Z.to_nat (arrayLimit s)) (data s)).
  assert (Hbytes : zlen bytes = arrayLimit s) by (unfold bytes, zlen in *; rewrite length_take; lia).
  exists (mk bytes (arrayLimit s) 0 0). split.
  - apply reads_catch. unfold marshal_form. fold bytes.
    assert (Htail : reads (if arrayLimit s <? 0 then raise IOException
      else let* b := DataInputStream.readFully_at (arrayLimit s) 0 (arrayLimit s) in
           ret (clear (mk b (arrayLimit s) 0 0))) bytes (mk bytes (arrayLimit s) 0 0)).
    { destruct (Z.ltb_spec (arrayLimit s) 0); [lia |].
      eapply (reads_map _ (fun b => clear (mk b (arrayLimit s) 0 0))); [|done].
      pose proof (readFully_reads_n (arrayLimit s) bytes Hbytes) as Hr.
      unfold DataInputStream.readFully in Hr. destruct (Z.eqb_spec (arrayLimit s) 0) as [E|]; [|done].
      unfold DataInputStream.readFully_at.
      by destruct (Z.eqb_spec (arrayLimit s) 0). }
    unfold size_field. destruct (Z.ltb_spec (arrayLimit s) 64) as [H64|H64].
    + eapply (reads_bind _ _ [arrayLimit s]); [apply readByte_reads |]. cbv beta zeta.
      rewrite land_to_s8, swrap_small by lia.
      destruct (Z.eqb_spec (arrayLimit s) 0xC0); [lia |]. destruct (Z.eqb_spec (arrayLimit s) 0x80); [lia |].
      eapply (reads_bind _ _ []); [apply reads_ret | apply Htail].
    + destruct (Z.ltb_spec (arrayLimit s) 256) as [H256|H256].
      * eapply (reads_bind _ _ [0xC0] ([arrayLimit s] ++ bytes)); [apply readByte_reads |]. cbv beta zeta.
        change (to_s16 (Z.land (to_s8 0xC0) 0xFF) =? 0xC0) with true. cbv iota.
        apply (reads_bind _ _ [arrayLimit s] bytes (arrayLimit s)); [|apply Htail].
        eapply reads_map; [apply readByte_reads |]. by rewrite land_to_s8, swrap_small by lia.
      * eapply (reads_bind _ _ [0x80] (be 2 (arrayLimit s) ++ bytes)); [apply readByte_reads |]. cbv beta zeta.
        change (to_s16 (Z.land (to_s8 0x80) 0xFF) =? 0xC0) with false.
        change (to_s16 (Z.land (to_s8 0x80) 0xFF) =? 0x80) with true. cbv iota.
        eapply reads_bind; [apply readShort_reads, is_s_spec; lia | apply Htail].
  - unfold reading. cbn [data bytePos arrayPos]. repeat split; try lia.
    exists [], (drop (length l) (bits_of bytes)). split; [|done]. cbn [app].
    rewrite <- (take_drop (length l) (bits_of bytes)) at 1. f_equal.
    rewrite <- (take_drop (Z.to_nat (arrayLimit s)) (data s)), bits_of_app in Hk. fold bytes in Hk.
    apply (f_equal (take (length l))) in Hk.
    rewrite take_app_length, take_app_le in Hk; [done |].
    rewrite length_bits_of. unfold zlen in *. lia.
Qed.
End BooleanStreamLaws.

(** Writing and reading a whole list of booleans. *)
Definition writeAll (l : list bool) : M BooleanStream.t (list unit) := mapM BooleanStream.writeBoolean l.
Definition readAll (n : nat) : M BooleanStream.t (list bool) := repeatM n BooleanStream.readBoolean.

Lemma writeAll_writing l : forall s pre,
  writing s pre -> zlen pre + zlen l <= max_bits ->
  exists s', writeAll l s = Ok (repeat tt (length l), s') /\ writing s' (pre ++ l).
Proof.
  induction l as [|b l IH]; intros s pre Hs Hz; [exists s; by rewrite app_nil_r |].
  rewrite zlen_cons in Hz. pose proof (zlen_nonneg l).
  destruct (writing_write s pre b Hs) as (s1 & E1 & Hs1); [lia |].
  destruct (IH s1 (pre ++ [b]) Hs1) as (s2 & E2 & Hs2); [len |].
  exists s2. cbn. unfold bind. rewrite E1. unfold writeAll in E2. rewrite E2.
  by rewrite <- app_assoc in Hs2.
Qed.

Lemma readAll_reading l : forall s,
  reading s l -> exists s', readAll (length l) s = Ok (l, s') /\ reading s' [].
Proof.
  induction l as [|b l IH]; intros s Hs; [by exists s |].
  destruct (reading_read s b l Hs) as (s1 & E1 & Hs1). destruct (IH s1 Hs1) as (s2 & E2 & Hs2).
  exists s2. cbn. unfold bind. rewrite E1. unfold readAll in E2. by rewrite E2.
Qed.

(**  The boolean stream is a lossless queue: booleans written to a fresh
    stream, sent with [marshal] and received with [unmarshal] over any input
    stream are read back in order; [marshal] writes exactly [marshalledSize]
    bytes and leaves the stream ready to be read by the second pass. *)
Theorem boolean_stream_roundtrip (l : list bool) :
  zlen l <= max_bits ->
  exists s, writeAll l BooleanStream.init = Ok (repeat tt (length l), s) /\
    exists bytes, BooleanStream.marshal s [] = Ok (BooleanStream.clear s, bytes) /\
      zlen bytes = BooleanStream.marshalledSize s /\ is_bytes bytes = true /\
      (exists s', readAll (length l) (BooleanStream.clear s) = Ok (l, s')) /\
      forall St (I : InputStream St) (L : InputStreamLaws St) (i : St) rest,
        stream_at i (bytes ++ rest) ->
        exists s1 i' s2, BooleanStream.unmarshal i = Ok (s1, i') /\ stream_at i' rest /\
          readAll (length l) s1 = Ok (l, s2).
Proof.
  intros Hl. destruct (writeAll_writing l BooleanStream.init [] writing_init) as (s & E & Hs); [len |].
  exists s. split; [done |]. exists (marshal_form s).
  split; [by rewrite (marshal_writes s l) |]. split; [by eapply zlen_marshal_form |].
  split; [by eapply is_bytes_marshal_form |]. split.
  { destruct (readAll_reading l _ (writing_clear s l Hs)) as (s' & E' & _). by exists s'. }
  intros St I L i rest Hi. destruct (unmarshal_reads s l Hs) as (s1 & Hr & Hrd).
  destruct (Hr rest i Hi) as (i' & E1 & Hi').
  destruct (readAll_reading l s1 Hrd) as (s2 & E2 & _). by exists s1, i', s2.
Qed.

(**  The overload of [marshal] that appends to a vector drops the last byte
    of flags: for every non-empty stream it appends one byte less than
    [marshalledSize], and on an empty one it forms a pointer before the data. *)
Theorem marshal_vector_drops_last (l : list bool) s out :
  writing s l ->
  (l = [] -> BooleanStream.marshal_vector s out = Err Undefined) /\
  (l <> [] -> exists bytes, BooleanStream.marshal_vector s out = Ok (tt, out ++ bytes) /\
     zlen bytes = BooleanStream.marshalledSize s - 1 /\
     exists last, marshal_form s = bytes ++ [last]).
Proof.
  intros Hw. destruct (writing_limit s l Hw) as (Hl & Hlow & Hhigh & Hsz).
  unfold BooleanStream.marshal_vector. split; intros Hne.
  - subst l. rewrite zlen_nil in Hlow. destruct (Z.ltb_spec (BooleanStream.arrayLimit s - 1) 0); [done | lia].
  - apply nonempty_zlen in Hne.
    destruct (Z.ltb_spec (BooleanStream.arrayLimit s - 1) 0); [lia |].
    destruct (Z.leb_spec (zlen (BooleanStream.data s)) (BooleanStream.arrayLimit s - 1)); [lia |]. cbn [orb].
    destruct (lookup_lt_is_Some_2 (BooleanStream.data s) (Z.to_nat (BooleanStream.arrayLimit s - 1)))
      as [last Hlast]; [unfold zlen in *; lia |].
    set (bytes := take (Z.to_nat (BooleanStream.arrayLimit s - 1)) (BooleanStream.data s)).
    assert (Hform : marshal_form s = (size_field (BooleanStream.arrayLimit s) ++ bytes) ++ [last]).
    { unfold marshal_form. rewrite <- app_assoc. f_equal.
      replace (Z.to_nat (BooleanStream.arrayLimit s)) with (S (Z.to_nat (BooleanStream.arrayLimit s - 1))) by lia.
      by rewrite (take_S_r _ _ last). }
    exists (size_field (BooleanStream.arrayLimit s) ++ bytes). split; [|split].
    + do 3 f_equal. unfold size_field. destruct (Z.ltb_spec (BooleanStream.arrayLimit s) 64); [by rewrite uwrap_small by lia |].
      destruct (Z.ltb_spec (BooleanStream.arrayLimit s) 256); [by rewrite uwrap_small by lia |].
      cbn [be]. change 0xFF with (Z.ones 8). unfold uwrap.
      rewrite Z.shiftr_div_pow2, Z.land_ones, Z.mod_mod by lia.
      change (8 * Z.of_nat 1) with 8. change (8 * Z.of_nat 0) with 0. by rewrite Z.pow_0_r, Z.div_1_r.
    + rewrite <- (zlen_marshal_form s l Hw), Hform. len.
    + by exists last.
Qed.

(** ** Instances *)
Lemma boolean_stream_roundtrip_witness :
  exists s, writeAll [true; false; true] BooleanStream.init = Ok ([tt; tt; tt], s) /\
    exists s', readAll 3 (BooleanStream.clear s) = Ok ([true; false; true], s').
Proof.
  destruct (boolean_stream_roundtrip [true; false; true] ltac:(vm_compute; discriminate))
    as (s & Hw & bytes & _ & _ & _ & Hr & _).
  exists s. split; [exact Hw | exact Hr].
Defined.

(** Nine flags in two bytes. *)
Definition nine_flags : BooleanStream.t :=
  BooleanStream.mk (255 :: 1 :: replicate 998 0) 2 1 1.
Lemma nine_flags_writing : writing nine_flags (replicate 9 true).
Proof.
  unfold writing. cbn [BooleanStream.data BooleanStream.arrayPos BooleanStream.bytePos BooleanStream.arrayLimit nine_flags].
  repeat split; try (vm_compute; congruence). exists (8 * 998 + 7)%nat. vm_compute. reflexivity.
Qed.
Lemma marshal_vector_drops_last_witness :
  exists bytes, BooleanStream.marshal_vector nine_flags [] = Ok (tt, bytes) /\
    zlen bytes = BooleanStream.marshalledSize nine_flags - 1.
Proof.
  destruct (marshal_vector_drops_last (replicate 9 true) nine_flags [] nine_flags_writing) as [_ H].
  destruct (H ltac:(discriminate)) as (bytes & E & Hz & _). exists bytes. split; [exact E | exact Hz].
Defined.
