(* ===== verification/Wire.v ===== *)
(** * The wire layout of OpenWire commands

    A declarative description of what a command looks like on the wire, and
    what it means for the marshalling code to implement it.

    The state the marshallers work on is [io]: the input stream, the bytes
    written and the boolean stream.  A command is described by a flat list of
    [wfield]s; [wbits] and [wbody] give its tight form (the flags of the
    boolean stream, the body that follows it) and [wloose] its loose form.
    [marks], [emits] and [parses] say that a computation is the first pass of
    the tight marshaller, its second pass, or the tight unmarshaller of a
    layout; [emitsL] and [parsesL] are their loose counterparts.  All five are
    total-correctness statements and compose along the sequence of a layout. *)

From S2P Require Import Prelude DataStreams BooleanStreams.

Record io (St : Type) := Io {
  ins : St;
  outs : list Z;
  bstream : BooleanStream.t
}.
Arguments Io {St} _ _ _.
Arguments ins {St} _.
Arguments outs {St} _.
Arguments bstream {St} _.

(** [dataIn->f(...)], [dataOut->f(...)] and [bs->f(...)]. *)
Definition dataIn {St A} (m : M St A) : M (io St) A := fun s =>
  match m (ins s) with
  | Ok (a, i) => Ok (a, Io i (outs s) (bstream s))
  | Err f => Err f
  end.
Definition dataOut {St A} (m : M (list Z) A) : M (io St) A := fun s =>
  match m (outs s) with
  | Ok (a, o) => Ok (a, Io (ins s) o (bstream s))
  | Err f => Err f
  end.
Definition bs {St A} (m : M BooleanStream.t A) : M (io St) A := fun s =>
  match m (bstream s) with
  | Ok (a, b) => Ok (a, Io (ins s) (outs s) b)
  | Err f => Err f
  end.

(** ** Layouts

    [FBool] is a flag: a bit of the boolean stream in the tight form, a byte
    in the loose one.  [FTightBit] is a flag of the tight form only.  [FReq]
    has no encoding: it is a requirement on the command, such as a field that
    the negotiated version does not send having its default value. *)
Inductive wfield :=
| FBool (b : bool)
| FTightBit (b : bool)
| FByte (v : Z)
| FShort (v : Z)
| FInt (v : Z)
| FLong (v : Z)
| FString (v : list Z)
| FRaw (v : list Z)
| FReq (b : bool).

(** A string all of whose characters are ASCII and none of them NUL. *)
Definition is_ascii (v : list Z) : bool := forallb (fun c => (1 <=? c) && (c <=? 127)) v.

Definition nonempty {A} (l : list A) : bool := match l with [] => false | _ => true end.

(** The two flags of a long: how many bytes follow. *)
Definition long_bits (v : Z) : list bool :=
  if v =? 0 then [false; false]
  else if is_u 16 v then [false; true]
  else if is_u 32 v then [true; false]
  else [true; true].
Definition long_body (v : Z) : list Z :=
  if v =? 0 then [] else if is_u 16 v then be 2 v else if is_u 32 v then be 4 v else be 8 v.

Definition fbits (f : wfield) : list bool :=
  match f with
  | FBool b | FTightBit b => [b]
  | FLong v => long_bits v
  | FString v => if nonempty v then [true; is_ascii v] else [false]
  | _ => []
  end.

Definition fbody (f : wfield) : list Z :=
  match f with
  | FBool _ | FTightBit _ | FReq _ => []
  | FByte v => [v]
  | FShort v => be 2 v
  | FInt v => be 4 v
  | FLong v => long_body v
  | FString v => if nonempty v then utf_form v else []
  | FRaw v => v
  end.

Definition floose (f : wfield) : list Z :=
  match f with
  | FBool b => [if b then 1 else 0]
  | FTightBit _ | FReq _ => []
  | FByte v => [v]
  | FShort v => be 2 v
  | FInt v => be 4 v
  | FLong v => be 8 v
  | FString v => if nonempty v then 1 :: utf_form v else [0]
  | FRaw v => v
  end.

(** A value its encoding can carry.  An ASCII string goes out with a 16 bit
    length that the reader takes as a signed short; other strings are limited
    by the unsigned length of [writeUTF]. *)
Definition fok (f : wfield) : bool :=
  match f with
  | FBool _ | FTightBit _ => true
  | FByte v => is_u 8 v
  | FShort v => is_s 16 v
  | FInt v => is_s 32 v
  | FLong v => is_s 64 v
  | FString v => is_bytes v && (zlen (DataOutputStream.utf_encode v) <=? 65535)
                 && implb (is_ascii v) (zlen v <=? 32767)
  | FRaw v => is_bytes v
  | FReq b => b
  end.

Abbreviation layout := (list wfield).
Definition wbits (fs : layout) : list bool := flat_map fbits fs.
Definition wbody (fs : layout) : list Z := flat_map fbody fs.
Definition wloose (fs : layout) : list Z := flat_map floose fs.
Definition wok (fs : layout) : bool := forallb fok fs.

Lemma wbits_app f1 f2 : wbits (f1 ++ f2) = wbits f1 ++ wbits f2.
Proof. apply flat_map_app. Qed.
Lemma wbody_app f1 f2 : wbody (f1 ++ f2) = wbody f1 ++ wbody f2.
Proof. apply flat_map_app. Qed.
Lemma wloose_app f1 f2 : wloose (f1 ++ f2) = wloose f1 ++ wloose f2.
Proof. apply flat_map_app. Qed.
Lemma wok_app f1 f2 : wok (f1 ++ f2) = wok f1 && wok f2.
Proof. apply forallb_app. Qed.
Lemma wok_cons f fs : wok (f :: fs) = fok f && wok fs.
Proof. done. Qed.

(** ** The states of the three passes and of the loose codec *)
Section Passes.
Context {St : Type} `{InputStreamLaws St}.

Definition WR (inp : list Z) (l : list bool) (out : list Z) (s : io St) : Prop :=
  stream_at (ins s) inp /\ writing (bstream s) l /\ outs s = out.
Definition RD (inp : list Z) (l : list bool) (out : list Z) (s : io St) : Prop :=
  stream_at (ins s) inp /\ reading (bstream s) l /\ outs s = out.
Definition LS (inp out : list Z) (s : io St) : Prop :=
  stream_at (ins s) inp /\ outs s = out.

(** First pass: appends the flags of the layout, returns [v]. *)
Definition marks {A} (fs : layout) (m : M (io St) A) (v : A) : Prop :=
  forall inp l out, zlen l + zlen (wbits fs) <= max_bits ->
    exec (WR inp l out) m v (WR inp (l ++ wbits fs) out).
(** Second pass: consumes the flags, writes the body. *)
Definition emits {A} (fs : layout) (m : M (io St) A) (v : A) : Prop :=
  forall inp r out, exec (RD inp (wbits fs ++ r) out) m v (RD inp r (out ++ wbody fs)).
(** Unmarshalling: consumes the flags and the body, returns the value. *)
Definition parses {A} (fs : layout) (m : M (io St) A) (v : A) : Prop :=
  forall rest r out, exec (RD (wbody fs ++ rest) (wbits fs ++ r) out) m v (RD rest r out).
(** The loose marshaller and unmarshaller. *)
Definition emitsL {A} (fs : layout) (m : M (io St) A) (v : A) : Prop :=
  forall inp out, exec (LS inp out) m v (LS inp (out ++ wloose fs)).
Definition parsesL {A} (fs : layout) (m : M (io St) A) (v : A) : Prop :=
  forall rest out, exec (LS (wloose fs ++ rest) out) m v (LS rest out).

(** *** Sequencing along a layout given as a concatenation *)
Lemma marks_bind {A B} f1 f2 (m : M (io St) A) (k : A -> M (io St) B) a v :
  marks f1 m a -> marks f2 (k a) v -> marks (f1 ++ f2) (bind m k) v.
Proof.
  intros Hm Hk inp l out Hl. rewrite wbits_app in *. rewrite app_assoc.
  eapply exec_bind; [apply Hm; len |]. apply Hk. len.
Qed.
Lemma emits_bind {A B} f1 f2 (m : M (io St) A) (k : A -> M (io St) B) a v :
  emits f1 m a -> emits f2 (k a) v -> emits (f1 ++ f2) (bind m k) v.
Proof.
  intros Hm Hk inp r out. rewrite wbits_app, wbody_app, <- (app_assoc (wbits f1)), (app_assoc out).
  eapply exec_bind; [apply Hm | apply Hk].
Qed.
Lemma parses_bind {A B} f1 f2 (m : M (io St) A) (k : A -> M (io St) B) a v :
  parses f1 m a -> parses f2 (k a) v -> parses (f1 ++ f2) (bind m k) v.
Proof.
  intros Hm Hk rest r out. rewrite wbits_app, wbody_app, <- !app_assoc.
  eapply exec_bind; [apply Hm | apply Hk].
Qed.
Lemma emitsL_bind {A B} f1 f2 (m : M (io St) A) (k : A -> M (io St) B) a v :
  emitsL f1 m a -> emitsL f2 (k a) v -> emitsL (f1 ++ f2) (bind m k) v.
Proof.
  intros Hm Hk inp out. rewrite wloose_app, app_assoc.
  eapply exec_bind; [apply Hm | apply Hk].
Qed.
Lemma parsesL_bind {A B} f1 f2 (m : M (io St) A) (k : A -> M (io St) B) a v :
  parsesL f1 m a -> parsesL f2 (k a) v -> parsesL (f1 ++ f2) (bind m k) v.
Proof.
  intros Hm Hk rest out. rewrite wloose_app, <- app_assoc.
  eapply exec_bind; [apply Hm | apply Hk].
Qed.

Lemma marks_ret {A} (v : A) : marks [] (ret v) v.
Proof. intros inp l out _. rewrite app_nil_r. apply exec_ret. Qed.
Lemma emits_ret {A} (v : A) : emits [] (ret v) v.
Proof. intros inp r out. rewrite app_nil_r. apply exec_ret. Qed.
Lemma parses_ret {A} (v : A) : parses [] (ret v) v.
Proof. intros rest r out. apply exec_ret. Qed.
Lemma emitsL_ret {A} (v : A) : emitsL [] (ret v) v.
Proof. intros inp out. rewrite app_nil_r. apply exec_ret. Qed.
Lemma parsesL_ret {A} (v : A) : parsesL [] (ret v) v.
Proof. intros rest out. apply exec_ret. Qed.

Lemma marks_catch {A} fs (m : M (io St) A) v : marks fs m v -> marks fs (catch_io m) v.
Proof. intros Hm inp l out Hl. by apply exec_catch_io, Hm. Qed.
Lemma emits_catch {A} fs (m : M (io St) A) v : emits fs m v -> emits fs (catch_io m) v.
Proof. intros Hm inp r out. apply exec_catch_io, Hm. Qed.
Lemma parses_catch {A} fs (m : M (io St) A) v : parses fs m v -> parses fs (catch_io m) v.
Proof. intros Hm rest r out. apply exec_catch_io, Hm. Qed.
Lemma emitsL_catch {A} fs (m : M (io St) A) v : emitsL fs m v -> emitsL fs (catch_io m) v.
Proof. intros Hm inp out. apply exec_catch_io, Hm. Qed.
Lemma parsesL_catch {A} fs (m : M (io St) A) v : parsesL fs m v -> parsesL fs (catch_io m) v.
Proof. intros Hm rest out. apply exec_catch_io, Hm. Qed.

(** *** What the five passes have in common

    [Codec R]: the relation [R] between a layout, a computation and its result
    follows the structure of the code.  The lemmas below it are shared by the
    five passes. *)
Class Codec (R : forall A, layout -> M (io St) A -> A -> Prop) := {
  codec_ret A (v : A) : R A [] (ret v) v;
  codec_bind A B f1 f2 (m : M (io St) A) (k : A -> M (io St) B) a v :
    R A f1 m a -> R B f2 (k a) v -> R B (f1 ++ f2) (bind m k) v;
  codec_catch A fs (m : M (io St) A) v : R A fs m v -> R A fs (catch_io m) v;
  codec_req A b fs (m : M (io St) A) v : R A fs m v -> R A (FReq b :: fs) m v
}.

#[export] Instance marks_codec : Codec (@marks).
Proof. split; [exact @marks_ret | exact @marks_bind | exact @marks_catch | done]. Qed.
#[export] Instance emits_codec : Codec (@emits).
Proof. split; [exact @emits_ret | exact @emits_bind | exact @emits_catch | done]. Qed.
#[export] Instance parses_codec : Codec (@parses).
Proof. split; [exact @parses_ret | exact @parses_bind | exact @parses_catch | done]. Qed.
#[export] Instance emitsL_codec : Codec (@emitsL).
Proof. split; [exact @emitsL_ret | exact @emitsL_bind | exact @emitsL_catch | done]. Qed.
#[export] Instance parsesL_codec : Codec (@parsesL).
Proof. split; [exact @parsesL_ret | exact @parsesL_bind | exact @parsesL_catch | done]. Qed.

Section Generic.
Context (R : forall A, layout -> M (io St) A -> A -> Prop) `{!Codec R}.
Arguments R {A} _ _ _.

(** A last call, whose result is transformed. *)
Lemma codec_map {A B} fs (m : M (io St) A) (k : A -> B) a v :
  R fs m a -> k a = v -> R fs (bind m (fun x => ret (k x))) v.
Proof.
  intros Hm <-. rewrite <- (app_nil_r fs). eapply codec_bind; [exact Hm | apply codec_ret].
Qed.

Lemma codec_mapM {A B} (lay : A -> layout) (f : A -> M (io St) B) (g : A -> B) l :
  Forall (fun x => R (lay x) (f x) (g x)) l -> R (flat_map lay l) (mapM f l) (map g l).
Proof.
  induction 1 as [|x l Hx _ IH]; [apply codec_ret |]. cbn [flat_map mapM map].
  eapply codec_bind; [exact Hx |]. by eapply codec_map; [exact IH |].
Qed.

Lemma codec_repeatM {A} (lay : A -> layout) (m : M (io St) A) l :
  Forall (fun x => R (lay x) m x) l -> R (flat_map lay l) (repeatM (length l) m) l.
Proof.
  induction 1 as [|x l Hx _ IH]; [apply codec_ret |]. cbn [flat_map length repeatM].
  eapply codec_bind; [exact Hx |]. by eapply codec_map; [exact IH |].
Qed.

(** Fields that exist from a version on: an older version carries nothing,
    and the field must have its default value. *)
Lemma codec_since {A} n v fs (d : bool) (m m' : M (io St) A) x :
  ((n <=? v) = true -> R fs m x) -> ((n <=? v) = false -> R [] m' x) ->
  R (if n <=? v then fs else [FReq d]) (if n <=? v then m else m') x.
Proof. intros Ht Hf. destruct (n <=? v); [by apply Ht |]. by apply codec_req, Hf. Qed.
End Generic.

(** Fields without flags do not concern the first pass. *)
Lemma marks_skip {A} f1 f2 (m : M (io St) A) v :
  wbits f1 = [] -> marks f2 m v -> marks (f1 ++ f2) m v.
Proof. intros E Hm inp l out. rewrite wbits_app, E. apply Hm. Qed.

(** *** Lifting the stream operations *)
Lemma exec_dataIn {A} (m : M St A) b v inp l out :
  reads m b v -> exec (RD (b ++ inp) l out) (dataIn m) v (RD inp l out).
Proof.
  intros Hm s (Hi & Hb & Ho). destruct (Hm inp (ins s) Hi) as (i & E & Hi').
  eexists. split; [unfold dataIn; by rewrite E |]. done.
Qed.
Lemma exec_dataIn_L {A} (m : M St A) b v inp out :
  reads m b v -> exec (LS (b ++ inp) out) (dataIn m) v (LS inp out).
Proof.
  intros Hm s (Hi & Ho). destruct (Hm inp (ins s) Hi) as (i & E & Hi').
  eexists. split; [unfold dataIn; by rewrite E |]. done.
Qed.
Lemma exec_dataOut (m : M (list Z) unit) b inp l out :
  writes m b -> exec (RD inp l out) (dataOut m) tt (RD inp l (out ++ b)).
Proof.
  intros Hm s (Hi & Hb & <-). eexists. split; [unfold dataOut; by rewrite Hm |]. done.
Qed.
Lemma exec_dataOut_L (m : M (list Z) unit) b inp out :
  writes m b -> exec (LS inp out) (dataOut m) tt (LS inp (out ++ b)).
Proof.
  intros Hm s (Hi & <-). eexists. split; [unfold dataOut; by rewrite Hm |]. done.
Qed.
Lemma exec_bs_read inp b l out :
  exec (RD inp (b :: l) out) (bs BooleanStream.readBoolean) b (RD inp l out).
Proof.
  intros s (Hi & Hb & Ho). destruct (reading_read _ _ _ Hb) as (b' & E & Hb').
  eexists. split; [unfold bs; by rewrite E |]. done.
Qed.
Lemma exec_bs_write inp b l out :
  zlen l < max_bits ->
  exec (WR inp l out) (bs (BooleanStream.writeBoolean b)) tt (WR inp (l ++ [b]) out).
Proof.
  intros Hl s (Hi & Hb & Ho). destruct (writing_write _ _ b Hb Hl) as (b' & E & Hb').
  eexists. split; [unfold bs; by rewrite E |]. done.
Qed.

Lemma parses_dataIn {A} f (m : M St A) v :
  fbits f = [] -> reads m (fbody f) v -> parses [f] (dataIn m) v.
Proof.
  intros E Hm rest r out. unfold wbits, wbody. cbn [flat_map]. rewrite E, !app_nil_r.
  by apply exec_dataIn.
Qed.
Lemma parsesL_dataIn {A} f (m : M St A) v : reads m (floose f) v -> parsesL [f] (dataIn m) v.
Proof.
  intros Hm rest out. unfold wloose. cbn [flat_map]. rewrite app_nil_r. by apply exec_dataIn_L.
Qed.
Lemma emits_dataOut f (m : M (list Z) unit) :
  fbits f = [] -> writes m (fbody f) -> emits [f] (dataOut m) tt.
Proof.
  intros E Hm inp r out. unfold wbits, wbody. cbn [flat_map]. rewrite E, !app_nil_r.
  by apply exec_dataOut.
Qed.
Lemma emitsL_dataOut f (m : M (list Z) unit) : writes m (floose f) -> emitsL [f] (dataOut m) tt.
Proof.
  intros Hm inp out. unfold wloose. cbn [flat_map]. rewrite app_nil_r. by apply exec_dataOut_L.
Qed.

Lemma marks_flag b : marks [FBool b] (bs (BooleanStream.writeBoolean b)) tt.
Proof. intros inp l out Hl. cbn in *. apply exec_bs_write. len. Qed.
Lemma emits_flag b : emits [FBool b] (bs BooleanStream.readBoolean) b.
Proof. intros inp r out. cbn. rewrite app_nil_r. apply exec_bs_read. Qed.
Lemma parses_flag b : parses [FBool b] (bs BooleanStream.readBoolean) b.
Proof. intros rest r out. apply exec_bs_read. Qed.
Lemma marks_tbit b : marks [FTightBit b] (bs (BooleanStream.writeBoolean b)) tt.
Proof. intros inp l out Hl. cbn in *. apply exec_bs_write. len. Qed.
Lemma emits_tbit b : emits [FTightBit b] (bs BooleanStream.readBoolean) b.
Proof. intros inp r out. cbn. rewrite app_nil_r. apply exec_bs_read. Qed.
Lemma parses_tbit b : parses [FTightBit b] (bs BooleanStream.readBoolean) b.
Proof. intros rest r out. apply exec_bs_read. Qed.
End Passes.
