(* ===== verification/BaseMarshaller.v ===== *)
(** * The field marshallers: BaseDataStreamMarshaller

    activemq/wireformat/openwire/marshal/BaseDataStreamMarshaller: how strings,
    longs, byte arrays and broker errors are written in the two passes of the
    tight encoding and in the loose encoding, and how they are read back.  Each
    operation is shown to implement the layout of its field (Wire.v). *)

From S2P Require Import Prelude DataStreams BooleanStreams Wire.

(** commands/BrokerError *)
Module BrokerError.
Record StackTraceElement := mkElement {
  ClassName : list Z;
  FileName : list Z;
  MethodName : list Z;
  LineNumber : Z
}.

Inductive t := mk {
  exceptionClass : list Z;
  message : list Z;
  stackTraceElements : list StackTraceElement;
  cause : option t
}.
End BrokerError.

Module BaseDataStreamMarshaller.
Import BrokerError.
Section Fields.
Context {St : Type} `{InputStream St}.
Abbreviation IO := (M (io St)).

Definition readAsciiString : IO (list Z) :=
  catch_io (
    let* size := dataIn DataInputStream.readShort in
    if 0 <? size then dataIn (DataInputStream.readFully size) else ret []).

Definition tightUnmarshalString : IO (list Z) :=
  catch_io (
    let* present := bs BooleanStream.readBoolean in
    if present then
      let* ascii := bs BooleanStream.readBoolean in
      if ascii then readAsciiString else dataIn DataInputStream.readUTF
    else ret []).

(** The scan of [tightMarshalString1]: [utflen] and [isOnlyAscii]; a char is
    signed. *)
Definition scan_string (value : list Z) : Z * bool :=
  fold_left (fun '(utflen, isOnlyAscii) ch =>
    let c := to_s8 ch in
    if (0x0001 <=? c) && (c <=? 0x007F) then (utflen + 1, isOnlyAscii)
    else if 0x07FF <? c then (utflen + 3, false)
    else (utflen + 2, false)) value (0, true).

Definition tightMarshalString1 (value : list Z) : IO Z :=
  catch_io (
    bs (BooleanStream.writeBoolean (nonempty value)) ;;;
    if nonempty value then
      let '(utflen, isOnlyAscii) := scan_string value in
      if 0x10000 <=? utflen then raise IOException
      else
        bs (BooleanStream.writeBoolean isOnlyAscii) ;;;
        ret (utflen + 2)
    else ret 0).

Definition tightMarshalString2 (value : list Z) : IO unit :=
  catch_io (
    let* present := bs BooleanStream.readBoolean in
    if present then
      let* ascii := bs BooleanStream.readBoolean in
      if ascii then
        dataOut (DataOutputStream.writeShort (to_s16 (zlen value))) ;;;
        dataOut (DataOutputStream.writeBytes value)
      else dataOut (DataOutputStream.writeUTF value)
    else ret ()).

Definition looseMarshalString (value : list Z) : IO unit :=
  catch_io (
    dataOut (DataOutputStream.writeBoolean (nonempty value)) ;;;
    if nonempty value then dataOut (DataOutputStream.writeUTF value) else ret ()).

Definition looseUnmarshalString : IO (list Z) :=
  catch_io (
    let* present := dataIn DataInputStream.readBoolean in
    if present then dataIn DataInputStream.readUTF else ret []).

Definition tightMarshalLong1 (value : Z) : IO Z :=
  catch_io (
    if value =? 0 then
      bs (BooleanStream.writeBoolean false) ;;; bs (BooleanStream.writeBoolean false) ;;; ret 0
    else
      let ul := to_u64 value in
      if Z.land ul 0xFFFFFFFFFFFF0000 =? 0 then
        bs (BooleanStream.writeBoolean false) ;;; bs (BooleanStream.writeBoolean true) ;;; ret 2
      else if Z.land ul 0xFFFFFFFF00000000 =? 0 then
        bs (BooleanStream.writeBoolean true) ;;; bs (BooleanStream.writeBoolean false) ;;; ret 4
      else
        bs (BooleanStream.writeBoolean true) ;;; bs (BooleanStream.writeBoolean true) ;;; ret 8).

Definition tightMarshalLong2 (value : Z) : IO unit :=
  catch_io (
    let* b1 := bs BooleanStream.readBoolean in
    if b1 then
      let* b2 := bs BooleanStream.readBoolean in
      if b2 then dataOut (DataOutputStream.writeLong value)
      else dataOut (DataOutputStream.writeInt (to_s32 value))
    else
      let* b2 := bs BooleanStream.readBoolean in
      if b2 then dataOut (DataOutputStream.writeShort (to_s16 value)) else ret ()).

Definition tightUnmarshalLong : IO Z :=
  catch_io (
    let* b1 := bs BooleanStream.readBoolean in
    if b1 then
      let* b2 := bs BooleanStream.readBoolean in
      if b2 then dataIn DataInputStream.readLong
      else let* v := dataIn DataInputStream.readInt in ret (to_u32 v)
    else
      let* b2 := bs BooleanStream.readBoolean in
      if b2 then dataIn DataInputStream.readUnsignedShort else ret 0).

Definition looseMarshalLong (value : Z) : IO unit :=
  catch_io (dataOut (DataOutputStream.writeLong value)).

Definition looseUnmarshalLong : IO Z := catch_io (dataIn DataInputStream.readLong).

(** [data.resize(size)] and [readFully(&data[0], data.size())] for a positive
    size, as the byte array readers have it. *)
Definition readSized (size : Z) : IO (list Z) :=
  if 0 <? size then dataIn (DataInputStream.readFully size) else ret [].

Definition tightUnmarshalByteArray : IO (list Z) :=
  catch_io (
    let* present := bs BooleanStream.readBoolean in
    if present then let* size := dataIn DataInputStream.readInt in readSized size
    else ret []).

Definition looseUnmarshalByteArray : IO (list Z) :=
  catch_io (
    let* present := dataIn DataInputStream.readBoolean in
    if present then let* size := dataIn DataInputStream.readInt in readSized size
    else ret []).

Definition tightUnmarshalConstByteArray (size : Z) : IO (list Z) := catch_io (readSized size).
Definition looseUnmarshalConstByteArray (size : Z) : IO (list Z) := catch_io (readSized size).

(** *** Broker errors; a NULL pointer is [None] *)
Definition marshalElement1 (e : StackTraceElement) : IO Z :=
  let* a := tightMarshalString1 (ClassName e) in
  let* b := tightMarshalString1 (MethodName e) in
  let* c := tightMarshalString1 (FileName e) in
  ret (a + b + c + 4).

Definition tightMarshalBrokerError1_ (self : t -> IO Z) (data : option t) : IO Z :=
  catch_io (
    match data with
    | None => bs (BooleanStream.writeBoolean false) ;;; ret 0
    | Some error => self error
    end).

Fixpoint tightMarshalBrokerError1_obj (stackTraceEnabled : bool) (error : t) : IO Z :=
  bs (BooleanStream.writeBoolean true) ;;;
  let* a := tightMarshalString1 (exceptionClass error) in
  let* b := tightMarshalString1 (message error) in
  let rc := a + b in
  if stackTraceEnabled then
    let rc := rc + 2 in
    let* elems := mapM marshalElement1 (stackTraceElements error) in
    let rc := rc + fold_right Z.add 0 elems in
    let* c := tightMarshalBrokerError1_ (tightMarshalBrokerError1_obj stackTraceEnabled) (cause error) in
    ret (rc + c)
  else ret rc.

Definition tightMarshalBrokerError1 (stackTraceEnabled : bool) (data : option t) : IO Z :=
  tightMarshalBrokerError1_ (tightMarshalBrokerError1_obj stackTraceEnabled) data.

Definition marshalElement2 (e : StackTraceElement) : IO unit :=
  tightMarshalString2 (ClassName e) ;;;
  tightMarshalString2 (MethodName e) ;;;
  tightMarshalString2 (FileName e) ;;;
  dataOut (DataOutputStream.writeInt (LineNumber e)).

Definition tightMarshalBrokerError2_ (self : t -> IO unit) (data : option t) : IO unit :=
  catch_io (
    let* present := bs BooleanStream.readBoolean in
    if present then
      match data with
      | None => undef
      | Some error => self error
      end
    else ret ()).

Fixpoint tightMarshalBrokerError2_obj (stackTraceEnabled : bool) (error : t) : IO unit :=
  tightMarshalString2 (exceptionClass error) ;;;
  tightMarshalString2 (message error) ;;;
  if stackTraceEnabled then
    let length := to_s16 (zlen (stackTraceElements error)) in
    dataOut (DataOutputStream.writeShort length) ;;;
    mapM marshalElement2 (take (Z.to_nat length) (stackTraceElements error)) ;;;
    tightMarshalBrokerError2_ (tightMarshalBrokerError2_obj stackTraceEnabled) (cause error)
  else ret ().

Definition tightMarshalBrokerError2 (stackTraceEnabled : bool) (data : option t) : IO unit :=
  tightMarshalBrokerError2_ (tightMarshalBrokerError2_obj stackTraceEnabled) data.

Definition tightUnmarshalElement : IO StackTraceElement :=
  let* className := tightUnmarshalString in
  let* methodName := tightUnmarshalString in
  let* fileName := tightUnmarshalString in
  let* lineNumber := dataIn DataInputStream.readInt in
  ret (mkElement className fileName methodName lineNumber).

(** The recursion follows the chain of causes in the input. *)
Fixpoint tightUnmarshalBrokerError (fuel : nat) (stackTraceEnabled : bool) : IO (option t) :=
  match fuel with
  | O => fun _ => Err NoFuel
  | S fuel =>
    catch_io (
      let* present := bs BooleanStream.readBoolean in
      if present then
        let* cls := tightUnmarshalString in
        let* msg := tightUnmarshalString in
        if stackTraceEnabled then
          let* length := dataIn DataInputStream.readShort in
          let* stackTrace := repeatM (Z.to_nat length) tightUnmarshalElement in
          let* cause := tightUnmarshalBrokerError fuel stackTraceEnabled in
          ret (Some (mk cls msg stackTrace cause))
        else ret (Some (mk cls msg [] None))
      else ret None)
  end.

Definition looseMarshalElement (e : StackTraceElement) : IO unit :=
  looseMarshalString (ClassName e) ;;;
  looseMarshalString (MethodName e) ;;;
  looseMarshalString (FileName e) ;;;
  dataOut (DataOutputStream.writeInt (LineNumber e)).

Definition looseMarshalBrokerError_ (self : t -> IO unit) (data : option t) : IO unit :=
  catch_io (
    dataOut (DataOutputStream.write (if bool_decide (is_Some data) then 1 else 0)) ;;;
    match data with
    | None => ret ()
    | Some error => self error
    end).

Fixpoint looseMarshalBrokerError_obj (stackTraceEnabled : bool) (error : t) : IO unit :=
  looseMarshalString (exceptionClass error) ;;;
  looseMarshalString (message error) ;;;
  if stackTraceEnabled then
    dataOut (DataOutputStream.writeShort (to_s16 (zlen (stackTraceElements error)))) ;;;
    mapM looseMarshalElement (stackTraceElements error) ;;;
    looseMarshalBrokerError_ (looseMarshalBrokerError_obj stackTraceEnabled) (cause error)
  else ret ().

Definition looseMarshalBrokerError (stackTraceEnabled : bool) (data : option t) : IO unit :=
  looseMarshalBrokerError_ (looseMarshalBrokerError_obj stackTraceEnabled) data.

Definition looseUnmarshalElement : IO StackTraceElement :=
  let* className := looseUnmarshalString in
  let* methodName := looseUnmarshalString in
  let* fileName := looseUnmarshalString in
  let* lineNumber := dataIn DataInputStream.readInt in
  ret (mkElement className fileName methodName lineNumber).

Fixpoint looseUnmarshalBrokerError (fuel : nat) (stackTraceEnabled : bool) : IO (option t) :=
  match fuel with
  | O => fun _ => Err NoFuel
  | S fuel =>
    catch_io (
      let* present := dataIn DataInputStream.readBoolean in
      if present then
        let* cls := looseUnmarshalString in
        let* msg := looseUnmarshalString in
        if stackTraceEnabled then
          let* length := dataIn DataInputStream.readShort in
          let* stackTrace := repeatM (Z.to_nat length) looseUnmarshalElement in
          let* cause := looseUnmarshalBrokerError fuel stackTraceEnabled in
          ret (Some (mk cls msg stackTrace cause))
        else ret (Some (mk cls msg [] None))
      else ret None)
  end.
End Fields.
End BaseDataStreamMarshaller.

(** ** The layouts of the fields *)

(** A marshaller's first pass answers the size of the body of its layout. *)
Definition sizes {St} `{InputStreamLaws St} (fs : layout) (m : M (io St) Z) : Prop :=
  marks fs m (zlen (wbody fs)).

(** A flag, then the contents if it is set. *)
Definition bytes_layout (l : list Z) : layout :=
  FBool (nonempty l) :: if nonempty l then [FInt (zlen l); FRaw l] else [].

Section ElementLayout.
Import BrokerError.
Definition element_layout (e : StackTraceElement) : layout :=
  [FString (ClassName e); FString (MethodName e); FString (FileName e); FInt (LineNumber e)].

(** Without stack traces only the class and the message travel. *)
Fixpoint error_layout (enabled : bool) (e : t) : layout :=
  [FBool true; FString (exceptionClass e); FString (message e)] ++
  if enabled then
    FReq (zlen (stackTraceElements e) <=? 32767) :: FShort (zlen (stackTraceElements e)) ::
    flat_map element_layout (stackTraceElements e) ++
    match cause e with Some c => error_layout enabled c | None => [FBool false] end
  else [FReq (negb (nonempty (stackTraceElements e))); FReq (bool_decide (cause e = None))].

Definition broker_error_layout (enabled : bool) (e : option t) : layout :=
  match e with Some e => error_layout enabled e | None => [FBool false] end.
End ElementLayout.

Section FieldLaws.
Context {St : Type} `{InputStreamLaws St}.
Import BrokerError BaseDataStreamMarshaller.


(** *** Strings *)
Lemma scan_string_spec v : is_bytes v = true ->
  scan_string v = (zlen (DataOutputStream.utf_encode v), is_ascii v).
Proof.
  intros Hb. unfold scan_string.
  match goal with |- fold_left ?g _ _ = _ => set (f := g) end.
  enough (Hgen : forall n b, fold_left f v (n, b)
    = (n + zlen (DataOutputStream.utf_encode v), b && is_ascii v)) by apply Hgen.
  apply is_bytes_spec in Hb. induction Hb as [|c v Hc _ IH]; intros n b.
  { cbn. by rewrite andb_true_r, Z.add_0_r. }
  cbn [fold_left]. unfold DataOutputStream.utf_encode, is_ascii in *. cbn [flat_map forallb].
  rewrite zlen_app, zlen_utf_char. unfold f at 2. cbv beta iota zeta.
  assert (Hs : to_s8 c = if c <? 128 then c else c - 256).
  { destruct (Z.ltb_spec c 128); [apply swrap_small; lia |].
    rewrite <- (swrap_small 8 (c - 256)) by lia. rewrite <- (swrap_uwrap 8 c), <- (swrap_uwrap 8 (c - 256)).
    f_equal. unfold uwrap. by rewrite <- (Z.mod_add c (-1) (2 ^ 8)). }
  rewrite Hs. replace (0 <? c) with (1 <=? c) by lia. destruct (Z.ltb_spec c 128).
  - destruct (Z.leb_spec 1 c), (Z.leb_spec c 127); try lia; cbn [andb].
    + rewrite IH. f_equal. lia.
    + destruct (Z.ltb_spec 2047 c), (Z.leb_spec c 2047); try lia. rewrite IH, andb_false_r. f_equal. lia.
  - destruct (Z.leb_spec 1 (c - 256)), (Z.leb_spec c 127), (Z.ltb_spec 2047 (c - 256)), (Z.leb_spec c 2047),
      (Z.leb_spec 1 c); try lia. cbn [andb]. rewrite IH, andb_false_r. f_equal. lia.
Qed.

(** An ASCII string is its own UTF-8 form. *)
Lemma ascii_utf_encode v : is_ascii v = true -> DataOutputStream.utf_encode v = v.
Proof.
  unfold is_ascii, DataOutputStream.utf_encode. induction v as [|c v IH]; [done |].
  cbn [forallb flat_map]. rewrite !andb_true_iff, !Z.leb_le. intros [Hc Hv].
  rewrite IH by done. unfold DataOutputStream.utf_char.
  destruct (Z.ltb_spec 0 c), (Z.leb_spec c 127); try lia. cbn. by rewrite uwrap_small by lia.
Qed.

Lemma ascii_utf_form v : is_ascii v = true -> utf_form v = be 2 (zlen v) ++ v.
Proof. intros Ha. unfold utf_form. by rewrite ascii_utf_encode. Qed.

Lemma fok_string v : fok (FString v) = true ->
  is_bytes v = true /\ zlen (DataOutputStream.utf_encode v) <= 65535
  /\ (is_ascii v = true -> zlen v <= 32767).
Proof.
  cbn [fok]. rewrite !andb_true_iff, Z.leb_le. intros [[Hb Hu] Ha].
  split; [done |]. split; [done |]. intros E. rewrite E in Ha. by apply Z.leb_le.
Qed.

(** The two passes of the writer accept every string of up to 65535 bytes. *)
Definition writable (v : list Z) : Prop :=
  is_bytes v = true /\ zlen (DataOutputStream.utf_encode v) <= 65535.

Lemma tightMarshalString1_writable v : writable v -> sizes [FString v] (tightMarshalString1 v).
Proof.
  intros (Hb & Hu). apply marks_catch. intros inp l out.
  unfold sizes, wbits, wbody. cbn [flat_map fbits fbody]. rewrite !app_nil_r.
  destruct (nonempty v) eqn:Hv; intros Hl.
  - rewrite scan_string_spec by done.
    eapply exec_bind; [apply exec_bs_write; len |].
    destruct (Z.leb_spec 0x10000 (zlen (DataOutputStream.utf_encode v))); [lia |].
    eapply exec_bind; [apply exec_bs_write; len |]. rewrite <- app_assoc.
    unfold utf_form. rewrite zlen_app, zlen_be, Z.add_comm. apply exec_ret.
  - eapply exec_bind; [apply exec_bs_write; len | apply exec_ret].
Qed.

Lemma tightMarshalString2_writable v : writable v -> emits [FString v] (tightMarshalString2 v) tt.
Proof.
  intros (Hb & Hu). apply emits_catch. intros inp r out.
  unfold wbits, wbody. cbn [flat_map fbits fbody]. rewrite !app_nil_r.
  destruct (nonempty v) eqn:Hv; (eapply exec_bind; [apply exec_bs_read |]);
    [|rewrite app_nil_r; apply exec_ret].
  eapply exec_bind; [apply exec_bs_read |]. destruct (is_ascii v) eqn:E.
  - rewrite ascii_utf_form, <- (be_swrap 2 16), app_assoc by (done || lia).
    eapply exec_bind; [eapply exec_dataOut; intros o; apply writeShort_be |].
    apply exec_dataOut, writeBytes_writes.
  - by apply exec_dataOut, writeUTF_writes.
Qed.

Lemma tightMarshalString1_sizes v :
  fok (FString v) = true -> sizes [FString v] (tightMarshalString1 v).
Proof. intros (? & ? & _)%fok_string. by apply tightMarshalString1_writable. Qed.

Lemma tightMarshalString2_emits v :
  fok (FString v) = true -> emits [FString v] (tightMarshalString2 v) tt.
Proof. intros (? & ? & _)%fok_string. by apply tightMarshalString2_writable. Qed.

Lemma readAscii_exec v r out rest :
  v <> [] -> zlen v <= 32767 ->
  exec (RD (be 2 (zlen v) ++ v ++ rest) r out) readAsciiString v (RD rest r out).
Proof.
  intros Hne Hl. apply nonempty_zlen in Hne. apply exec_catch_io.
  eapply exec_bind; [apply exec_dataIn, readShort_reads, is_s_spec; lia |].
  destruct (Z.ltb_spec 0 (zlen v)); [|lia]. apply exec_dataIn, readFully_reads.
Qed.

Lemma nonempty_true {A} (l : list A) : nonempty l = true <-> l <> [].
Proof. by destruct l. Qed.
Lemma nonempty_false {A} (l : list A) : nonempty l = false <-> l = [].
Proof. by destruct l. Qed.

Lemma tightUnmarshalString_parses v :
  fok (FString v) = true -> parses [FString v] tightUnmarshalString v.
Proof.
  intros (Hb & Hu & Ha)%fok_string. apply parses_catch. intros rest r out.
  unfold wbits, wbody. cbn [flat_map fbits fbody]. rewrite !app_nil_r.
  destruct (nonempty v) eqn:Hv; (eapply exec_bind; [apply exec_bs_read |]).
  - eapply exec_bind; [apply exec_bs_read |]. apply nonempty_true in Hv. destruct (is_ascii v) eqn:E.
    + rewrite ascii_utf_form, <- app_assoc by done. apply readAscii_exec; auto.
    + by apply exec_dataIn, readUTF_reads.
  - apply nonempty_false in Hv as ->. apply exec_ret.
Qed.

Lemma looseMarshalString_emits v :
  fok (FString v) = true -> emitsL [FString v] (looseMarshalString v) tt.
Proof.
  intros (Hb & Hu & Ha)%fok_string. apply emitsL_catch. intros inp out.
  unfold wloose. cbn [flat_map floose]. rewrite app_nil_r.
  destruct (nonempty v) eqn:Hv.
  - change (1 :: utf_form v) with ([1] ++ utf_form v). rewrite app_assoc.
    eapply exec_bind; [eapply exec_dataOut_L; intros o; reflexivity |].
    by apply exec_dataOut_L, writeUTF_writes.
  - eapply exec_bind; [eapply exec_dataOut_L; intros o; reflexivity | apply exec_ret].
Qed.

Lemma exec_readBoolean_L (b : bool) inp out :
  exec (LS ((if b then 1 else 0) :: inp) out) (dataIn DataInputStream.readBoolean) b (LS inp out).
Proof. apply (exec_dataIn_L _ [if b then 1 else 0]), readBoolean_reads. Qed.

Lemma looseUnmarshalString_parses v :
  fok (FString v) = true -> parsesL [FString v] looseUnmarshalString v.
Proof.
  intros (Hb & Hu & Ha)%fok_string. apply parsesL_catch. intros rest out.
  unfold wloose. cbn [flat_map floose]. rewrite app_nil_r.
  destruct (nonempty v) eqn:Hv.
  - eapply exec_bind; [apply (exec_readBoolean_L true) |]. by apply exec_dataIn_L, readUTF_reads.
  - eapply exec_bind; [apply (exec_readBoolean_L false) |].
    apply nonempty_false in Hv as ->. apply exec_ret.
Qed.

(** *** Longs *)
Lemma high_mask_zero ul j k :
  0 <= j -> 0 <= k -> 0 <= ul < 2 ^ (j + k) ->
  (Z.land ul (Z.shiftl (Z.ones k) j) =? 0) = (ul <? 2 ^ j).
Proof.
  intros Hj Hk Hu. rewrite Z.pow_add_r in Hu by lia.
  assert (E : Z.land ul (Z.shiftl (Z.ones k) j) = (ul / 2 ^ j) * 2 ^ j).
  { rewrite <- (Z.shiftl_mul_pow2 (ul / 2 ^ j) j), <- Z.shiftr_div_pow2 by lia. apply Z.bits_inj'. intros i Hi.
    rewrite Z.land_spec, !Z.shiftl_spec by lia. destruct (Z.lt_ge_cases i j).
    - rewrite !(Z.testbit_neg_r _ (i - j)) by lia. apply andb_false_r.
    - rewrite Z.shiftr_spec by lia. replace (i - j + j) with i by lia.
      destruct (Z.lt_ge_cases (i - j) k).
      + rewrite Z.ones_spec_low by lia. apply andb_true_r.
      + rewrite Z.ones_spec_high, andb_false_r by lia. symmetry.
        destruct (Z.eq_dec ul 0) as [-> | Hne]; [apply Z.bits_0 |].
        apply Z.bits_above_log2; [lia |]. apply Z.log2_lt_pow2; [lia |].
        pose proof (Z.pow_le_mono_r 2 (j + k) i). rewrite Z.pow_add_r in *; lia. }
  rewrite E. apply Bool.eq_iff_eq_true. rewrite Z.eqb_eq, Z.ltb_lt.
  split; [|intros; rewrite Z.div_small; lia].
  intros [Hq|Hq]%Z.mul_eq_0; [|lia]. pose proof (Z.div_small_iff ul (2 ^ j)). lia.
Qed.

Lemma to_u64_range v : is_s 64 v = true ->
  0 <= to_u64 v < 2 ^ 64 /\ to_u64 v = if v <? 0 then v + 2 ^ 64 else v.
Proof.
  rewrite is_s_spec. intros Hv. split; [by apply uwrap_bound |]. destruct (Z.ltb_spec v 0).
  - rewrite <- (uwrap_small 64 (v + 2 ^ 64)) by lia. unfold uwrap.
    by rewrite <- (Z.mod_add v 1 (2 ^ 64)), Z.mul_1_l.
  - apply uwrap_small. lia.
Qed.

Lemma long_class v : is_s 64 v = true ->
  (Z.land (to_u64 v) 0xFFFFFFFFFFFF0000 =? 0) = is_u 16 v /\
  (Z.land (to_u64 v) 0xFFFFFFFF00000000 =? 0) = is_u 32 v.
Proof.
  intros Hv. destruct (to_u64_range v Hv) as [Hr E]. apply is_s_spec in Hv.
  change 0xFFFFFFFFFFFF0000 with (Z.shiftl (Z.ones 48) 16).
  change 0xFFFFFFFF00000000 with (Z.shiftl (Z.ones 32) 32).
  rewrite !high_mask_zero by lia. unfold is_u. split; destruct (Z.ltb_spec v 0); lia.
Qed.

Lemma tightMarshalLong1_sizes v : fok (FLong v) = true -> sizes [FLong v] (tightMarshalLong1 v).
Proof.
  intros Hv. apply marks_catch. destruct (long_class v Hv) as [E16 E32].
  cbv zeta. rewrite E16, E32.
  unfold wbody. cbn [flat_map fbody]. rewrite app_nil_r.
  intros inp l out. unfold wbits, long_body, long_bits. cbn [flat_map fbits].
  unfold long_bits. rewrite app_nil_r. intros Hl.
  destruct (v =? 0), (is_u 16 v), (is_u 32 v); rewrite ?zlen_be; cbn in Hl;
    (eapply exec_bind; [apply exec_bs_write; len |]);
    (eapply exec_bind; [apply exec_bs_write; len |]);
    rewrite <- app_assoc; apply exec_ret.
Qed.

Lemma tightMarshalLong2_emits v : fok (FLong v) = true -> emits [FLong v] (tightMarshalLong2 v) tt.
Proof.
  intros _. apply emits_catch. intros inp r out.
  unfold wbits, wbody. cbn [flat_map fbody fbits]. unfold long_body, long_bits. rewrite !app_nil_r.
  destruct (v =? 0), (is_u 16 v), (is_u 32 v);
    repeat (eapply exec_bind; [apply exec_bs_read |]); cbv beta iota;
    rewrite ?app_nil_r; try apply exec_ret; apply exec_dataOut; intros o;
    rewrite ?writeShort_be, ?writeInt_be, ?writeLong_be, ?be_swrap; done.
Qed.

Lemma tightUnmarshalLong_parses v : fok (FLong v) = true -> parses [FLong v] tightUnmarshalLong v.
Proof.
  intros Hv. apply parses_catch. intros rest r out.
  unfold wbits, wbody. cbn [flat_map fbody fbits]. unfold long_body, long_bits. rewrite !app_nil_r.
  destruct (Z.eqb_spec v 0) as [-> | Hne];
    [repeat (eapply exec_bind; [apply exec_bs_read |]); apply exec_ret |].
  destruct (is_u 16 v) eqn:E16, (is_u 32 v) eqn:E32;
    repeat (eapply exec_bind; [apply exec_bs_read |]); cbv beta iota;
    try by apply exec_dataIn; (apply readUnsignedShort_reads || apply readLong_reads).
  eapply exec_bind; [apply exec_dataIn, readInt_reads_wrap |].
  rewrite uwrap_swrap, uwrap_small by (lia || by apply is_u_spec). apply exec_ret.
Qed.

Lemma looseMarshalLong_emits v : emitsL [FLong v] (looseMarshalLong v) tt.
Proof. apply emitsL_catch, emitsL_dataOut. intros o. apply writeLong_be. Qed.

Lemma looseUnmarshalLong_parses v : fok (FLong v) = true -> parsesL [FLong v] looseUnmarshalLong v.
Proof. intros Hv. by apply parsesL_catch, parsesL_dataIn, readLong_reads. Qed.

(** *** Integers and flags of fixed size *)
Lemma writeInt_emits v : emits [FInt v] (dataOut (DataOutputStream.writeInt v)) tt.
Proof. apply emits_dataOut; [done |]. intros o. apply writeInt_be. Qed.
Lemma writeInt_emitsL v : emitsL [FInt v] (dataOut (DataOutputStream.writeInt v)) tt.
Proof. apply emitsL_dataOut. intros o. apply writeInt_be. Qed.
Lemma readInt_parses v : fok (FInt v) = true -> parses [FInt v] (dataIn DataInputStream.readInt) v.
Proof. intros Hv. apply parses_dataIn; [done |]. by apply readInt_reads. Qed.
Lemma readInt_parsesL v : fok (FInt v) = true -> parsesL [FInt v] (dataIn DataInputStream.readInt) v.
Proof. intros Hv. by apply parsesL_dataIn, readInt_reads. Qed.

Lemma writeShort_emits v : emits [FShort v] (dataOut (DataOutputStream.writeShort v)) tt.
Proof. apply emits_dataOut; [done |]. intros o. apply writeShort_be. Qed.
Lemma writeShort_emitsL v : emitsL [FShort v] (dataOut (DataOutputStream.writeShort v)) tt.
Proof. apply emitsL_dataOut. intros o. apply writeShort_be. Qed.
Lemma readShort_parses v :
  fok (FShort v) = true -> parses [FShort v] (dataIn DataInputStream.readShort) v.
Proof. intros Hv. apply parses_dataIn; [done |]. by apply readShort_reads. Qed.
Lemma readShort_parsesL v :
  fok (FShort v) = true -> parsesL [FShort v] (dataIn DataInputStream.readShort) v.
Proof. intros Hv. by apply parsesL_dataIn, readShort_reads. Qed.

Lemma write_writes v : fok (FByte v) = true -> writes (DataOutputStream.write v) [v].
Proof. intros Hv o. unfold DataOutputStream.write. rewrite uwrap_small; [done |]. by apply is_u_spec. Qed.
Lemma write_emits v : fok (FByte v) = true -> emits [FByte v] (dataOut (DataOutputStream.write v)) tt.
Proof. intros Hv. apply emits_dataOut; [done |]. by apply write_writes. Qed.
Lemma write_emitsL v : fok (FByte v) = true -> emitsL [FByte v] (dataOut (DataOutputStream.write v)) tt.
Proof. intros Hv. by apply emitsL_dataOut, write_writes. Qed.

(** A byte read into an [unsigned char]. *)
Lemma to_u8_s8 v : fok (FByte v) = true -> to_u8 (to_s8 v) = v.
Proof. intros Hv. rewrite uwrap_swrap by lia. apply uwrap_small. by apply is_u_spec. Qed.
Lemma readByte_parses v :
  fok (FByte v) = true ->
  parses [FByte v] (let* b := dataIn DataInputStream.readByte in ret (to_u8 b)) v.
Proof.
  intros Hv. eapply (codec_map (@parses _ _ _)); [|by apply to_u8_s8].
  apply parses_dataIn; [done |]. apply readByte_reads.
Qed.
Lemma readByte_parsesL v :
  fok (FByte v) = true ->
  parsesL [FByte v] (let* b := dataIn DataInputStream.readByte in ret (to_u8 b)) v.
Proof.
  intros Hv. eapply (codec_map (@parsesL _ _ _)); [|by apply to_u8_s8].
  apply parsesL_dataIn, readByte_reads.
Qed.

Lemma writeBoolean_emitsL b : emitsL [FBool b] (dataOut (DataOutputStream.writeBoolean b)) tt.
Proof. apply emitsL_dataOut. intros o. by destruct b. Qed.
Lemma readBoolean_parsesL b : parsesL [FBool b] (dataIn DataInputStream.readBoolean) b.
Proof. apply parsesL_dataIn, readBoolean_reads. Qed.

Lemma writeArray_emits l :
  emits [FRaw l] (dataOut (DataOutputStream.writeArray l (zlen l) 0 (zlen l))) tt.
Proof. apply emits_dataOut; [done |]. apply writeArray_all. Qed.
Lemma writeArray_emitsL l :
  emitsL [FRaw l] (dataOut (DataOutputStream.writeArray l (zlen l) 0 (zlen l))) tt.
Proof. apply emitsL_dataOut, writeArray_all. Qed.

(** *** Byte arrays *)
Lemma readSized_parses l : parses [FRaw l] (readSized (zlen l)) l.
Proof.
  unfold readSized. destruct (Z.ltb_spec 0 (zlen l)).
  - apply parses_dataIn; [done |]. apply readFully_reads.
  - destruct l; [apply parses_ret | len].
Qed.
Lemma readSized_parsesL l : parsesL [FRaw l] (readSized (zlen l)) l.
Proof.
  unfold readSized. destruct (Z.ltb_spec 0 (zlen l)).
  - apply parsesL_dataIn, readFully_reads.
  - destruct l; [apply parsesL_ret | len].
Qed.

Lemma wok_bytes l : wok (bytes_layout l) = true -> nonempty l = true -> fok (FInt (zlen l)) = true.
Proof.
  unfold bytes_layout. intros Hok E. rewrite E in Hok. cbn [wok forallb] in Hok.
  by apply andb_true_iff in Hok as [_ [? _]%andb_true_iff].
Qed.

Lemma tightUnmarshalByteArray_parses l :
  wok (bytes_layout l) = true -> parses (bytes_layout l) tightUnmarshalByteArray l.
Proof.
  intros Hok. pose proof (wok_bytes l Hok) as Hn. apply parses_catch. unfold bytes_layout.
  eapply (parses_bind [_]); [apply parses_flag |]. destruct (nonempty l) eqn:E.
  - eapply (parses_bind [_]); [by apply readInt_parses, Hn | apply readSized_parses].
  - apply nonempty_false in E as ->. apply parses_ret.
Qed.
Lemma looseUnmarshalByteArray_parses l :
  wok (bytes_layout l) = true -> parsesL (bytes_layout l) looseUnmarshalByteArray l.
Proof.
  intros Hok. pose proof (wok_bytes l Hok) as Hn. apply parsesL_catch. unfold bytes_layout.
  eapply (parsesL_bind [_]); [apply readBoolean_parsesL |]. destruct (nonempty l) eqn:E.
  - eapply (parsesL_bind [_]); [by apply readInt_parsesL, Hn | apply readSized_parsesL].
  - apply nonempty_false in E as ->. apply parsesL_ret.
Qed.
Lemma tightUnmarshalConstByteArray_parses n l :
  zlen l = n -> parses [FRaw l] (tightUnmarshalConstByteArray n) l.
Proof. intros <-. apply parses_catch, readSized_parses. Qed.
Lemma looseUnmarshalConstByteArray_parses n l :
  zlen l = n -> parsesL [FRaw l] (looseUnmarshalConstByteArray n) l.
Proof. intros <-. apply parsesL_catch, readSized_parsesL. Qed.

(** *** Broker errors *)
Lemma error_ind (P : t -> Prop) :
  (forall cls msg els c, (forall e, c = Some e -> P e) -> P (mk cls msg els c)) -> forall e, P e.
Proof.
  intros HP. fix IH 1. intros [cls msg els c]. apply HP. intros e He.
  destruct c as [e'|]; [|discriminate]. injection He as <-. apply IH.
Qed.

(** Accumulating the sizes of the first pass. *)
Lemma sizes_bind {A} f1 f2 (m : M (io St) Z) (k : Z -> M (io St) A) v :
  sizes f1 m -> marks f2 (k (zlen (wbody f1))) v -> marks (f1 ++ f2) (bind m k) v.
Proof. apply marks_bind. Qed.
Lemma marks_value {A} fs (m : M (io St) A) v v' : marks fs m v -> v = v' -> marks fs m v'.
Proof. by intros ? <-. Qed.

Lemma zlen_wbody_app f1 f2 : zlen (wbody (f1 ++ f2)) = zlen (wbody f1) + zlen (wbody f2).
Proof. by rewrite wbody_app, zlen_app. Qed.

Lemma wok_element e : wok (element_layout e) = true ->
  fok (FString (ClassName e)) = true /\ fok (FString (MethodName e)) = true /\
  fok (FString (FileName e)) = true /\ fok (FInt (LineNumber e)) = true.
Proof. unfold element_layout. rewrite !wok_cons, !andb_true_iff. tauto. Qed.

Lemma marshalElement1_sizes e :
  wok (element_layout e) = true -> sizes (element_layout e) (marshalElement1 e).
Proof.
  intros (H1 & H2 & H3 & _)%wok_element. unfold sizes, element_layout, marshalElement1.
  eapply (sizes_bind [_]); [by apply tightMarshalString1_sizes |].
  eapply (sizes_bind [_]); [by apply tightMarshalString1_sizes |].
  eapply (sizes_bind [_]); [by apply tightMarshalString1_sizes |].
  eapply marks_value; [apply (marks_skip [_] []); [done | apply marks_ret] |].
  unfold wbody. cbn [flat_map]. autorewrite with zlen. cbn [fbody]. autorewrite with zlen. lia.
Qed.

Lemma marshalElement2_emits e :
  wok (element_layout e) = true -> emits (element_layout e) (marshalElement2 e) tt.
Proof.
  intros (H1 & H2 & H3 & _)%wok_element.
  do 3 (eapply (emits_bind [_]); [by apply tightMarshalString2_emits |]). apply writeInt_emits.
Qed.

Lemma tightUnmarshalElement_parses e :
  wok (element_layout e) = true -> parses (element_layout e) tightUnmarshalElement e.
Proof.
  intros (H1 & H2 & H3 & H4)%wok_element.
  do 3 (eapply (parses_bind [_]); [by apply tightUnmarshalString_parses |]).
  eapply (codec_map (@parses _ _ _)); [by apply readInt_parses | by destruct e].
Qed.

Lemma looseMarshalElement_emits e :
  wok (element_layout e) = true -> emitsL (element_layout e) (looseMarshalElement e) tt.
Proof.
  intros (H1 & H2 & H3 & _)%wok_element.
  do 3 (eapply (emitsL_bind [_]); [by apply looseMarshalString_emits |]). apply writeInt_emitsL.
Qed.

Lemma looseUnmarshalElement_parses e :
  wok (element_layout e) = true -> parsesL (element_layout e) looseUnmarshalElement e.
Proof.
  intros (H1 & H2 & H3 & H4)%wok_element.
  do 3 (eapply (parsesL_bind [_]); [by apply looseUnmarshalString_parses |]).
  eapply (codec_map (@parsesL _ _ _)); [by apply readInt_parsesL | by destruct e].
Qed.

Lemma wok_flat_map {A} (lay : A -> layout) l :
  wok (flat_map lay l) = true <-> Forall (fun x => wok (lay x) = true) l.
Proof.
  induction l as [|x l IH]; [by split; [constructor |] |]. cbn [flat_map].
  rewrite wok_app, andb_true_iff, IH. symmetry. apply List.Forall_cons_iff.
Qed.

(** What a well formed error layout says of its parts. *)
Lemma wok_error en cls msg els c : wok (error_layout en (mk cls msg els c)) = true ->
  fok (FString cls) = true /\ fok (FString msg) = true /\
  (en = true -> zlen els <= 32767 /\ Forall (fun x => wok (element_layout x) = true) els
                /\ wok (broker_error_layout en c) = true) /\
  (en = false -> els = [] /\ c = None).
Proof.
  cbn [error_layout exceptionClass message stackTraceElements cause app].
  rewrite !wok_cons, !andb_true_iff. intros (_ & Hc & Hm & Hrest). split; [done |]. split; [done |].
  destruct en; (split; [intros E|intros E]); try done.
  - rewrite !wok_cons, !andb_true_iff, wok_app, andb_true_iff, wok_flat_map in Hrest.
    destruct Hrest as (Hr & _ & He & Hc'). split; [by apply Z.leb_le |]. split; [done |].
    by destruct c.
  - rewrite !wok_cons, !andb_true_iff in Hrest. destruct Hrest as (Hr & Hd & _). cbn in Hr, Hd.
    split; [|by apply bool_decide_eq_true in Hd]. destruct els; done.
Qed.

Lemma sum_sizes {A} (lay : A -> layout) l :
  fold_right Z.add 0 (map (fun x => zlen (wbody (lay x))) l) = zlen (wbody (flat_map lay l)).
Proof.
  induction l as [|x l IH]; [done |]. cbn [map fold_right flat_map]. by rewrite IH, zlen_wbody_app.
Qed.

Lemma tightMarshalBrokerError1_sizes en e :
  wok (broker_error_layout en e) = true ->
  sizes (broker_error_layout en e) (tightMarshalBrokerError1 en e).
Proof.
  intros Hok. apply marks_catch. destruct e as [e|];
    [|eapply (marks_bind [_] []); [apply marks_flag | apply marks_ret]].
  cbn [broker_error_layout] in *. induction e as [cls msg els c IH] using error_ind.
  apply wok_error in Hok as (Hc & Hm & Hen & Hdis).
  cbn [error_layout tightMarshalBrokerError1_obj exceptionClass message stackTraceElements cause app].
  eapply (marks_bind [_]); [apply marks_flag |].
  eapply (sizes_bind [_]); [by apply tightMarshalString1_sizes |].
  eapply (sizes_bind [_]); [by apply tightMarshalString1_sizes |]. destruct en.
  - destruct (Hen eq_refl) as (Hl & Hel & Hcause). apply codec_req.
    apply (marks_skip [_]); [done |].
    eapply (marks_bind (flat_map _ _)).
    { apply (codec_mapM (@marks _ _ _) element_layout marshalElement1 (fun x => zlen (wbody (element_layout x)))).
      eapply Forall_impl; [exact marshalElement1_sizes | exact Hel]. }
    cbv zeta. rewrite sum_sizes. rewrite <- (app_nil_r (match c with Some _ => _ | None => _ end)).
    eapply (sizes_bind (broker_error_layout true c)).
    { apply marks_catch. destruct c as [e|]; [by apply IH |].
      eapply (marks_bind [_] []); [apply marks_flag | apply marks_ret]. }
    eapply marks_value; [apply marks_ret |]. rewrite app_nil_r. unfold wbody. cbn [flat_map].
    rewrite !flat_map_app. autorewrite with zlen. cbn [fbody].
    autorewrite with zlen. destruct c; cbn [broker_error_layout]; lia.
  - do 2 apply codec_req. eapply marks_value; [apply marks_ret |].
    unfold wbody. cbn [flat_map fbody]. autorewrite with zlen. lia.
Qed.

Lemma tightMarshalBrokerError2_emits en e :
  wok (broker_error_layout en e) = true ->
  emits (broker_error_layout en e) (tightMarshalBrokerError2 en e) tt.
Proof.
  intros Hok. apply emits_catch. destruct e as [e|];
    [|eapply (emits_bind [_] []); [apply emits_flag | apply emits_ret]].
  cbn [broker_error_layout] in *. induction e as [cls msg els c IH] using error_ind.
  apply wok_error in Hok as (Hc & Hm & Hen & Hdis).
  cbn [error_layout tightMarshalBrokerError2_obj exceptionClass message stackTraceElements cause app].
  eapply (emits_bind [_]); [apply emits_flag |]. cbv iota.
  do 2 (eapply (emits_bind [_]); [by apply tightMarshalString2_emits |]). destruct en.
  - destruct (Hen eq_refl) as (Hl & Hel & Hcause). apply codec_req. pose proof (zlen_nonneg els).
    rewrite swrap_small by lia. eapply (emits_bind [_]); [apply writeShort_emits |].
    unfold zlen. rewrite Nat2Z.id, firstn_all.
    eapply (emits_bind (flat_map _ _)).
    { apply (codec_mapM (@emits _ _ _) element_layout marshalElement2 (fun _ => tt)).
      eapply Forall_impl; [exact marshalElement2_emits | exact Hel]. }
    apply emits_catch. destruct c as [e|]; [by apply IH |].
    eapply (emits_bind [_] []); [apply emits_flag | apply emits_ret].
  - do 2 apply codec_req. apply emits_ret.
Qed.

Lemma tightUnmarshalBrokerError_parses fuel : forall en e,
  wok (broker_error_layout en e) = true -> (length (broker_error_layout en e) <= fuel)%nat ->
  parses (broker_error_layout en e) (tightUnmarshalBrokerError fuel en) e.
Proof.
  induction fuel as [|fuel IH]; intros en e Hok Hf; [by destruct e as [[]|]; cbn in Hf; lia |].
  apply parses_catch. destruct e as [[cls msg els c]|];
    [|eapply (parses_bind [_] []); [apply parses_flag | apply parses_ret]].
  cbn [broker_error_layout] in *. apply wok_error in Hok as (Hc & Hm & Hen & Hdis).
  cbn [error_layout exceptionClass message stackTraceElements cause app] in *.
  eapply (parses_bind [_]); [apply parses_flag |]. cbv iota.
  do 2 (eapply (parses_bind [_]); [by apply tightUnmarshalString_parses |]). destruct en.
  - destruct (Hen eq_refl) as (Hl & Hel & Hcause). apply codec_req. pose proof (zlen_nonneg els).
    eapply (parses_bind [_]); [apply readShort_parses, is_s_spec; lia |].
    unfold zlen. rewrite Nat2Z.id. eapply (parses_bind (flat_map _ _)).
    { apply (codec_repeatM (@parses _ _ _)).
      eapply Forall_impl; [exact tightUnmarshalElement_parses | exact Hel]. }
    eapply (codec_map (@parses _ _ _)); [|done].
    apply (IH true c Hcause). cbn [length] in Hf. rewrite length_app in Hf.
    unfold broker_error_layout. lia.
  - do 2 apply codec_req. destruct (Hdis eq_refl) as [-> ->]. apply parses_ret.
Qed.

Lemma looseMarshalBrokerError_emits en e :
  wok (broker_error_layout en e) = true ->
  emitsL (broker_error_layout en e) (looseMarshalBrokerError en e) tt.
Proof.
  intros Hok. apply emitsL_catch. destruct e as [e|];
    [|eapply (emitsL_bind [_] []); [apply (writeBoolean_emitsL false) | apply emitsL_ret]].
  cbn [broker_error_layout] in *. induction e as [cls msg els c IH] using error_ind.
  apply wok_error in Hok as (Hc & Hm & Hen & Hdis).
  cbn [error_layout looseMarshalBrokerError_obj exceptionClass message stackTraceElements cause app].
  eapply (emitsL_bind [_]); [apply (writeBoolean_emitsL true) |]. cbv iota.
  do 2 (eapply (emitsL_bind [_]); [by apply looseMarshalString_emits |]). destruct en.
  - destruct (Hen eq_refl) as (Hl & Hel & Hcause). apply codec_req. pose proof (zlen_nonneg els).
    rewrite swrap_small by lia. eapply (emitsL_bind [_]); [apply writeShort_emitsL |].
    eapply (emitsL_bind (flat_map _ _)).
    { apply (codec_mapM (@emitsL _ _ _) element_layout looseMarshalElement (fun _ => tt)).
      eapply Forall_impl; [exact looseMarshalElement_emits | exact Hel]. }
    apply emitsL_catch. destruct c as [e|]; [by apply IH |].
    eapply (emitsL_bind [_] []); [apply (writeBoolean_emitsL false) | apply emitsL_ret].
  - do 2 apply codec_req. apply emitsL_ret.
Qed.

Lemma looseUnmarshalBrokerError_parses fuel : forall en e,
  wok (broker_error_layout en e) = true -> (length (broker_error_layout en e) <= fuel)%nat ->
  parsesL (broker_error_layout en e) (looseUnmarshalBrokerError fuel en) e.
Proof.
  induction fuel as [|fuel IH]; intros en e Hok Hf; [by destruct e as [[]|]; cbn in Hf; lia |].
  apply parsesL_catch. destruct e as [[cls msg els c]|];
    [|eapply (parsesL_bind [_] []); [apply readBoolean_parsesL | apply parsesL_ret]].
  cbn [broker_error_layout] in *. apply wok_error in Hok as (Hc & Hm & Hen & Hdis).
  cbn [error_layout exceptionClass message stackTraceElements cause app] in *.
  eapply (parsesL_bind [_]); [apply readBoolean_parsesL |]. cbv iota.
  do 2 (eapply (parsesL_bind [_]); [by apply looseUnmarshalString_parses |]). destruct en.
  - destruct (Hen eq_refl) as (Hl & Hel & Hcause). apply codec_req. pose proof (zlen_nonneg els).
    eapply (parsesL_bind [_]); [apply readShort_parsesL, is_s_spec; lia |].
    unfold zlen. rewrite Nat2Z.id. eapply (parsesL_bind (flat_map _ _)).
    { apply (codec_repeatM (@parsesL _ _ _)).
      eapply Forall_impl; [exact looseUnmarshalElement_parses | exact Hel]. }
    eapply (codec_map (@parsesL _ _ _)); [|done].
    apply (IH true c Hcause). cbn [length] in Hf. rewrite length_app in Hf.
    unfold broker_error_layout. lia.
  - do 2 apply codec_req. destruct (Hdis eq_refl) as [-> ->]. apply parsesL_ret.
Qed.
End FieldLaws.

(** An ASCII string as long as its length read as a short is negative. *)
Lemma readAscii_negative {St} `{InputStreamLaws St} n r out rest :
  32767 < n <= 65535 ->
  exec (RD (be 2 n ++ rest) r out) BaseDataStreamMarshaller.readAsciiString [] (RD rest r out).
Proof.
  intros Hn. apply exec_catch_io. rewrite <- (be_swrap 2 16) by lia.
  pose proof (swrap_bound 16 n).
  eapply exec_bind; [apply exec_dataIn, readShort_reads, is_s_spec; lia |].
  assert (E : to_s16 n = n - 65536).
  { rewrite <- (swrap_small 16 (n - 65536)), <- (swrap_uwrap 16 n), <- (swrap_uwrap 16 (n - 65536)) by lia.
    f_equal. unfold uwrap. by rewrite <- (Z.mod_add n (-1) (2 ^ 16)). }
  destruct (Z.ltb_spec 0 (to_s16 n)); [lia | apply exec_ret].
Qed.

(**  An ASCII string of 32768 to 65535 characters passes both passes of the
    tight marshaller, but [readAsciiString] reads its length as a signed short:
    the string comes back empty and its characters stay in the stream, where
    the next field is read from. *)
Theorem long_ascii_string_lost {St} (I : InputStream St) (L : InputStreamLaws St) v rest r out :
  is_ascii v = true -> 32767 < zlen v <= 65535 ->
  sizes [FString v] (BaseDataStreamMarshaller.tightMarshalString1 (St := St) v) /\
  emits [FString v] (BaseDataStreamMarshaller.tightMarshalString2 (St := St) v) tt /\
  exec (RD (wbody [FString v] ++ rest) (wbits [FString v] ++ r) out)
       BaseDataStreamMarshaller.tightUnmarshalString [] (RD (v ++ rest) r out).
Proof.
  intros Ha Hl.
  assert (Hw : writable v).
  { split; [|rewrite ascii_utf_encode by done; lia]. unfold is_ascii, is_bytes in *.
    rewrite forallb_forall in *. intros c Hc. specialize (Ha c Hc). unfold is_u. lia. }
  split; [by apply tightMarshalString1_writable |]. split; [by apply tightMarshalString2_writable |].
  assert (Hne : nonempty v = true) by (destruct v; [rewrite zlen_nil in Hl; lia | done]).
  unfold wbits, wbody. cbn [flat_map fbits fbody]. rewrite !app_nil_r, Hne, Ha.
  apply exec_catch_io. do 2 (eapply exec_bind; [apply exec_bs_read |]).
  rewrite ascii_utf_form, <- app_assoc by done. by apply readAscii_negative.
Qed.

(** ** Instance: a string of forty thousand letters *)
Lemma long_ascii_string_lost_witness :
  exec (RD (wbody [FString (replicate (Z.to_nat 40000) 65)] ++ []) (wbits [FString (replicate (Z.to_nat 40000) 65)] ++ []) [])
    (BaseDataStreamMarshaller.tightUnmarshalString (St := ByteArrayInputStream.t)) [] (RD (replicate (Z.to_nat 40000) 65 ++ []) [] []).
Proof.
  refine (proj2 (proj2 (long_ascii_string_lost _ _ (replicate (Z.to_nat 40000) 65) [] [] [] _ _))).
  - vm_compute. reflexivity.
  - vm_compute. split; [reflexivity | discriminate].
Defined.
