(* ===== verification/PrimitiveTypes.v ===== *)
(** * Primitive values, maps and their encoding

    activemq/util/PrimitiveValueNode and PrimitiveMap: the tagged values of
    message properties, of map messages and of the wire format options;
    activemq/wireformat/openwire/marshal/PrimitiveTypesMarshaller: their
    encoding.  The file proves that what the marshaller writes reads back, and
    what becomes of the two values that do not survive it. *)

From S2P Require Import Prelude DataStreams.

(** ** PrimitiveValueNode

    A node with its tag; the constructors carry the value in the range of the
    member of the union, floating point members by their bit patterns.  A
    string map is a [std::map], kept as its entries in key order. *)
Inductive PrimitiveValueNode :=
| NULL_TYPE
| BOOLEAN_TYPE (boolValue : bool)
| BYTE_TYPE (byteValue : Z)
| CHAR_TYPE (charValue : Z)
| SHORT_TYPE (shortValue : Z)
| INTEGER_TYPE (intValue : Z)
| LONG_TYPE (longValue : Z)
| DOUBLE_TYPE (doubleValue : Z)
| FLOAT_TYPE (floatValue : Z)
| STRING_TYPE (stringValue : list Z)
| BYTE_ARRAY_TYPE (byteArrayValue : list Z)
| MAP_TYPE (mapValue : list (list Z * PrimitiveValueNode))
| LIST_TYPE (listValue : list PrimitiveValueNode).

(** The numbers of the enumeration [PrimitiveType]. *)
Definition type_code (v : PrimitiveValueNode) : Z :=
  match v with
  | NULL_TYPE => 0 | BOOLEAN_TYPE _ => 1 | BYTE_TYPE _ => 2 | CHAR_TYPE _ => 3
  | SHORT_TYPE _ => 4 | INTEGER_TYPE _ => 5 | LONG_TYPE _ => 6 | DOUBLE_TYPE _ => 7
  | FLOAT_TYPE _ => 8 | STRING_TYPE _ => 9 | BYTE_ARRAY_TYPE _ => 10 | MAP_TYPE _ => 11
  | LIST_TYPE _ => 12
  end.
Definition BIG_STRING_CODE : Z := 13.

(** ** StlMap<std::string, V>: entries in the order of [std::less] *)
Module StlMap.
Section Map.
Context {V : Type}.
Abbreviation t := (list (list Z * V)).

(** The order of [std::string]: lexicographic on unsigned bytes. *)
Fixpoint compare (a b : list Z) : comparison :=
  match a, b with
  | [], [] => Eq
  | [], _ :: _ => Lt
  | _ :: _, [] => Gt
  | x :: a, y :: b => match Z.compare x y with Eq => compare a b | c => c end
  end.

Fixpoint put (key : list Z) (value : V) (m : t) : t :=
  match m with
  | [] => [(key, value)]
  | (k, v) :: m' =>
    match compare key k with
    | Lt => (key, value) :: m
    | Eq => (key, value) :: m'
    | Gt => (k, v) :: put key value m'
    end
  end.

Fixpoint find (key : list Z) (m : t) : option V :=
  match m with
  | [] => None
  | (k, v) :: m => match compare key k with Eq => Some v | _ => find key m end
  end.

(** [get] throws for a key that is not in the map. *)
Definition get (key : list Z) (m : t) : result V :=
  match find key m with Some v => Ok v | None => throw NoSuchElementException end.

Definition containsKey (key : list Z) (m : t) : bool :=
  match find key m with Some _ => true | None => false end.
Definition isEmpty (m : t) : bool := match m with [] => true | _ => false end.
Definition size (m : t) : Z := zlen m.

Fixpoint remove (key : list Z) (m : t) : t :=
  match m with
  | [] => []
  | (k, v) :: m => match compare key k with Eq => m | _ => (k, v) :: remove key m end
  end.

(** The invariant of the container: keys strictly increasing. *)
Definition below (key : list Z) (m : t) : bool :=
  forallb (fun kv => match compare key (fst kv) with Lt => true | _ => false end) m.
Fixpoint sorted (m : t) : bool :=
  match m with
  | [] => true
  | (k, _) :: m => below k m && sorted m
  end.

Lemma compare_refl a : compare a a = Eq.
Proof. induction a as [|x a IH]; cbn; [done |]. by rewrite Z.compare_refl. Qed.

Lemma compare_eq a : forall b, compare a b = Eq -> a = b.
Proof.
  induction a as [|x a IH]; intros [|y b]; cbn; try done.
  destruct (Z.compare_spec x y); [|done..]. intros E. f_equal; [done | by apply IH].
Qed.

Lemma compare_antisym a : forall b, compare b a = CompOpp (compare a b).
Proof.
  induction a as [|x a IH]; intros [|y b]; cbn; try done.
  rewrite (Z.compare_antisym x y). destruct (Z.compare x y); cbn; auto.
Qed.

Lemma compare_lt_trans a : forall b c, compare a b = Lt -> compare b c = Lt -> compare a c = Lt.
Proof.
  induction a as [|x a IH]; intros [|y b] [|z c]; cbn; try done.
  destruct (Z.compare_spec x y), (Z.compare_spec y z), (Z.compare_spec x z); try (lia || done).
  apply IH.
Qed.

Lemma below_trans k k' m : compare k k' = Lt -> below k' m = true -> below k m = true.
Proof.
  intros Hk. unfold below. rewrite !forallb_forall. intros Hb kv Hin. specialize (Hb kv Hin).
  destruct (compare k' (fst kv)) eqn:E; try done. by rewrite (compare_lt_trans _ _ _ Hk E).
Qed.

Lemma below_put k key value m :
  compare k key = Lt -> below k m = true -> below k (put key value m) = true.
Proof.
  intros Hk. induction m as [|[k' v'] m IH]; cbn; [by rewrite Hk |].
  rewrite andb_true_iff. intros [H1 H2]. destruct (compare key k'); cbn; rewrite ?Hk, ?H1; auto.
Qed.

(** [put] keeps the container sorted. *)
Lemma put_sorted key value m : sorted m = true -> sorted (put key value m) = true.
Proof.
  induction m as [|[k v] m IH]; [done |]. cbn [sorted put]. rewrite andb_true_iff. intros [Hb Hs].
  destruct (compare key k) eqn:E; cbn [sorted].
  - apply compare_eq in E as ->. by rewrite Hb, Hs.
  - rewrite Hb, Hs. unfold below. cbn [forallb fst]. rewrite E. fold (below key m).
    by rewrite (below_trans key k m E Hb).
  - rewrite IH, andb_true_r by done. apply below_put; [|done]. by rewrite compare_antisym, E.
Qed.

Lemma below_find k m : below k m = true -> find k m = None.
Proof.
  induction m as [|[k' v] m IH]; [done |]. cbn. rewrite andb_true_iff. intros [H1 H2].
  destruct (compare k k'); try done. by apply IH.
Qed.

(** Lookup after insertion. *)
Lemma find_put key key' value m :
  sorted m = true ->
  find key' (put key value m) = if bool_decide (key' = key) then Some value else find key' m.
Proof.
  induction m as [|[k v] m IH]; intros Hs; cbn.
  - case_bool_decide as E; [subst; by rewrite compare_refl |].
    destruct (compare key' key) eqn:E'; [by apply compare_eq in E' |done..].
  - cbn in Hs. apply andb_true_iff in Hs as [Hb Hs]. destruct (compare key k) eqn:E; cbn.
    + apply compare_eq in E as ->. case_bool_decide as E; [subst; by rewrite compare_refl |].
      destruct (compare key' k) eqn:E'; [by apply compare_eq in E' |done..].
    + case_bool_decide as E1; [subst; by rewrite compare_refl |].
      destruct (compare key' key) eqn:E'; [by apply compare_eq in E' |done..].
    + rewrite IH by done. case_bool_decide as E1; [subst |]; [by rewrite E |done].
Qed.

(** Inserting keys in increasing order appends them. *)
Lemma put_last key value m :
  forallb (fun kv => match compare (fst kv) key with Lt => true | _ => false end) m = true ->
  put key value m = m ++ [(key, value)].
Proof.
  induction m as [|[k v] m IH]; [done |]. cbn. rewrite andb_true_iff. intros [H1 H2].
  rewrite compare_antisym. destruct (compare k key); try done. cbn. by rewrite IH.
Qed.
End Map.
End StlMap.

Abbreviation PrimitiveMap := (list (list Z * PrimitiveValueNode)).
Abbreviation PrimitiveList := (list PrimitiveValueNode).

(** ** PrimitiveTypesMarshaller *)
Module PrimitiveTypesMarshaller.
Import DataOutputStream.

Fixpoint each {A S} (f : A -> M S unit) (l : list A) : M S unit :=
  match l with
  | [] => ret ()
  | x :: l => f x ;;; each f l
  end.

(** [dataOut.write(buffer, size)] of a whole vector. *)
Definition writeAll (data : list Z) : M (list Z) unit :=
  writeArray data (zlen data) 0 (zlen data).

(** The marshaller of a list and of a map, given the one of their values.
    Iterating over the key set and looking each key up visits the entries. *)
Definition marshalPrimitiveList_ (self : PrimitiveValueNode -> M (list Z) unit)
    (list_ : PrimitiveList) : M (list Z) unit :=
  catch_io (writeInt (to_s32 (zlen list_)) ;;; each self list_).
Definition marshalPrimitiveMap_ (self : PrimitiveValueNode -> M (list Z) unit)
    (map : PrimitiveMap) : M (list Z) unit :=
  catch_io (writeInt (to_s32 (zlen map)) ;;;
            each (fun kv => writeUTF (fst kv) ;;; self (snd kv)) map).

Fixpoint marshalPrimitive (value : PrimitiveValueNode) : M (list Z) unit :=
  catch_io (
    match value with
    | BOOLEAN_TYPE b => writeByte 1 ;;; writeBoolean b
    | BYTE_TYPE v => writeByte 2 ;;; writeByte v
    | CHAR_TYPE v => writeByte 3 ;;; writeChar 0 ;;; writeChar v
    | SHORT_TYPE v => writeByte 4 ;;; writeShort v
    | INTEGER_TYPE v => writeByte 5 ;;; writeInt v
    | LONG_TYPE v => writeByte 6 ;;; writeLong v
    | FLOAT_TYPE v => writeByte 8 ;;; writeFloat v
    | DOUBLE_TYPE v => writeByte 7 ;;; writeDouble v
    | BYTE_ARRAY_TYPE data =>
      writeByte 10 ;;; writeInt (to_s32 (zlen data)) ;;;
      match data with [] => ret () | _ => writeAll data end
    | STRING_TYPE data =>
      let size := to_s32 (zlen data) in
      if size =? 0 then writeByte 9 ;;; writeShort (to_s16 size)
      else if 32767 / 4 <? size then
        writeByte BIG_STRING_CODE ;;; writeInt size ;;; writeArray data size 0 size
      else writeByte 9 ;;; writeShort (to_s16 size) ;;; writeArray data size 0 size
    | LIST_TYPE l => writeByte 12 ;;; marshalPrimitiveList_ marshalPrimitive l
    | MAP_TYPE m => writeByte 11 ;;; marshalPrimitiveMap_ marshalPrimitive m
    | NULL_TYPE => raise IOException
    end).

Definition marshalPrimitiveList (l : PrimitiveList) : M (list Z) unit :=
  marshalPrimitiveList_ marshalPrimitive l.
Definition marshalPrimitiveMap (m : PrimitiveMap) : M (list Z) unit :=
  marshalPrimitiveMap_ marshalPrimitive m.

Definition marshalMap (m : option PrimitiveMap) : M (list Z) unit :=
  match m with None => writeInt (-1) | Some m => marshalPrimitiveMap m end.
Definition marshalList (l : option PrimitiveList) : M (list Z) unit :=
  match l with None => writeInt (-1) | Some l => marshalPrimitiveList l end.

(** [marshal(map, buffer)] inserts what was written in front of [buffer]. *)
Definition marshal (m : option PrimitiveMap) (buffer : list Z) : result (list Z) :=
  rbind (marshalMap m []) (fun '(_, bytes) => Ok (bytes ++ buffer)).
Definition marshal_list (l : option PrimitiveList) (buffer : list Z) : result (list Z) :=
  rbind (marshalList l []) (fun '(_, bytes) => Ok (bytes ++ buffer)).

Section Readers.
Context {St : Type} `{InputStream St}.
Import DataInputStream.

Fixpoint read_entries (n : nat) (value : M St PrimitiveValueNode) (map : PrimitiveMap)
    : M St PrimitiveMap :=
  match n with
  | O => ret map
  | S n =>
    let* key := readUTF in
    let* v := value in
    read_entries n value (StlMap.put key v map)
  end.

Definition unmarshalPrimitiveMap_ (value : M St PrimitiveValueNode) (map : PrimitiveMap)
    : M St PrimitiveMap :=
  catch_io (let* size := readInt in read_entries (Z.to_nat size) value map).
Definition unmarshalPrimitiveList_ (value : M St PrimitiveValueNode) (list_ : PrimitiveList)
    : M St PrimitiveList :=
  catch_io (
    let* size := readInt in
    let* added := repeatM (Z.to_nat size) value in
    ret (list_ ++ added)).

(** The two string cases: an empty string leaves the node without a value. *)
Definition readString_ (utfLength : Z) : M St PrimitiveValueNode :=
  if 0 <? utfLength then
    let* buffer := readFully utfLength in ret (STRING_TYPE buffer)
  else ret NULL_TYPE.

(** The switch on the type; [self] reads the values of a list or of a map. *)
Definition unmarshalCase (self : M St PrimitiveValueNode) (type : Z) : M St PrimitiveValueNode :=
  if type =? 0 then ret NULL_TYPE
  else if type =? 2 then let* v := readByte in ret (BYTE_TYPE (to_u8 v))
  else if type =? 1 then let* v := readBoolean in ret (BOOLEAN_TYPE v)
  else if type =? 3 then readByte ;;; let* v := readChar in ret (CHAR_TYPE v)
  else if type =? 4 then let* v := readShort in ret (SHORT_TYPE v)
  else if type =? 5 then let* v := readInt in ret (INTEGER_TYPE v)
  else if type =? 6 then let* v := readLong in ret (LONG_TYPE v)
  else if type =? 8 then let* v := readFloat in ret (FLOAT_TYPE v)
  else if type =? 7 then let* v := readDouble in ret (DOUBLE_TYPE v)
  else if type =? 10 then
    let* size := readInt in
    if 0 <? size then let* data := readFully size in ret (BYTE_ARRAY_TYPE data)
    else ret (BYTE_ARRAY_TYPE [])
  else if type =? 9 then let* utfLength := readShort in readString_ utfLength
  else if type =? BIG_STRING_CODE then let* utfLength := readInt in readString_ utfLength
  else if type =? 12 then
    let* l := unmarshalPrimitiveList_ self [] in ret (LIST_TYPE l)
  else if type =? 11 then
    let* m := unmarshalPrimitiveMap_ self [] in ret (MAP_TYPE m)
  else raise IOException.

(** The recursion follows the nesting of lists and maps in the input. *)
Fixpoint unmarshalPrimitive (fuel : nat) : M St PrimitiveValueNode :=
  match fuel with
  | O => fun _ => Err NoFuel
  | S fuel =>
    catch_io (
      let* b := readByte in
      unmarshalCase (unmarshalPrimitive fuel) (to_u8 b))
  end.

Definition unmarshalPrimitiveMap (fuel : nat) : PrimitiveMap -> M St PrimitiveMap :=
  unmarshalPrimitiveMap_ (unmarshalPrimitive fuel).
Definition unmarshalPrimitiveList (fuel : nat) : PrimitiveList -> M St PrimitiveList :=
  unmarshalPrimitiveList_ (unmarshalPrimitive fuel).
Definition unmarshalMap (fuel : nat) : M St PrimitiveMap := unmarshalPrimitiveMap fuel [].
Definition unmarshalList (fuel : nat) : M St PrimitiveList := unmarshalPrimitiveList fuel [].
End Readers.

(** [unmarshal(map, buffer)]: an empty buffer leaves the map alone.  A value
    takes at least a byte, so the nesting is bounded by the buffer. *)
Definition unmarshal (map : PrimitiveMap) (buffer : list Z) : result PrimitiveMap :=
  match buffer with
  | [] => Ok map
  | _ =>
    rbind (ByteArrayInputStream.setByteArray (Some buffer) (to_s32 (zlen buffer)) 0 (to_s32 (zlen buffer))) (fun bytesIn =>
    rbind (unmarshalPrimitiveMap (S (length buffer)) [] bytesIn) (fun '(m, _) => Ok m))
  end.
Definition unmarshal_list (l : PrimitiveList) (buffer : list Z) : result PrimitiveList :=
  match buffer with
  | [] => Ok l
  | _ =>
    rbind (ByteArrayInputStream.setByteArray (Some buffer) (to_s32 (zlen buffer)) 0 (to_s32 (zlen buffer))) (fun bytesIn =>
    rbind (unmarshalPrimitiveList (S (length buffer)) [] bytesIn) (fun '(m, _) => Ok m))
  end.
End PrimitiveTypesMarshaller.

(** ** The encoding *)
Section Form.
Fixpoint prim_form (v : PrimitiveValueNode) : list Z :=
  match v with
  | NULL_TYPE => []
  | BOOLEAN_TYPE b => [1; if b then 1 else 0]
  | BYTE_TYPE v => [2; v]
  | CHAR_TYPE v => [3; 0; to_u8 v]
  | SHORT_TYPE v => 4 :: be 2 v
  | INTEGER_TYPE v => 5 :: be 4 v
  | LONG_TYPE v => 6 :: be 8 v
  | DOUBLE_TYPE v => 7 :: be 8 v
  | FLOAT_TYPE v => 8 :: be 4 v
  | STRING_TYPE d =>
    if zlen d <=? 8191 then 9 :: be 2 (zlen d) ++ d else BIG_STRING_CODE :: be 4 (zlen d) ++ d
  | BYTE_ARRAY_TYPE d => 10 :: be 4 (zlen d) ++ d
  | MAP_TYPE m =>
    11 :: be 4 (zlen m) ++ flat_map (fun kv => utf_form (fst kv) ++ prim_form (snd kv)) m
  | LIST_TYPE l => 12 :: be 4 (zlen l) ++ flat_map prim_form l
  end.

Definition key_ok (k : list Z) : bool :=
  is_bytes k && (zlen (DataOutputStream.utf_encode k) <=? 65535).

(** A value the marshaller accepts: no null, members in range, sizes that fit
    an int and keys that fit [writeUTF]. *)
Fixpoint prim_ok (v : PrimitiveValueNode) : bool :=
  match v with
  | NULL_TYPE => false
  | BOOLEAN_TYPE _ => true
  | BYTE_TYPE v => is_u 8 v
  | CHAR_TYPE v => is_s 8 v
  | SHORT_TYPE v => is_s 16 v
  | INTEGER_TYPE v => is_s 32 v
  | LONG_TYPE v => is_s 64 v
  | DOUBLE_TYPE v => is_u 64 v
  | FLOAT_TYPE v => is_u 32 v
  | STRING_TYPE d | BYTE_ARRAY_TYPE d => is_bytes d && is_s 32 (zlen d)
  | MAP_TYPE m => StlMap.sorted m && is_s 32 (zlen m)
                  && forallb (fun kv => key_ok (fst kv) && prim_ok (snd kv)) m
  | LIST_TYPE l => is_s 32 (zlen l) && forallb prim_ok l
  end.

(** What a value reads back as: an empty string comes back as a null. *)
Fixpoint received (v : PrimitiveValueNode) : PrimitiveValueNode :=
  match v with
  | STRING_TYPE [] => NULL_TYPE
  | MAP_TYPE m => MAP_TYPE (map (fun kv => (fst kv, received (snd kv))) m)
  | LIST_TYPE l => LIST_TYPE (map received l)
  | v => v
  end.
Definition received_map (m : PrimitiveMap) : PrimitiveMap :=
  map (fun kv => (fst kv, received (snd kv))) m.
Definition map_ok (m : PrimitiveMap) : bool :=
  StlMap.sorted m && is_s 32 (zlen m) && forallb (fun kv => key_ok (fst kv) && prim_ok (snd kv)) m.
Definition map_form (m : PrimitiveMap) : list Z :=
  be 4 (zlen m) ++ flat_map (fun kv => utf_form (fst kv) ++ prim_form (snd kv)) m.
End Form.

(** Induction through the lists and maps of a value. *)
Lemma prim_ind (P : PrimitiveValueNode -> Prop) :
  (forall v, match v with MAP_TYPE _ | LIST_TYPE _ => False | _ => True end -> P v) ->
  (forall m, Forall (fun kv => P (snd kv)) m -> P (MAP_TYPE m)) ->
  (forall l, Forall P l -> P (LIST_TYPE l)) -> forall v, P v.
Proof.
  intros Hb Hm Hl. fix IH 1. intros v.
  destruct v; try (apply Hb; exact I); [apply Hm | apply Hl].
  - induction mapValue as [|[k v] m IHm]; constructor; [apply IH | exact IHm].
  - induction listValue as [|v l IHl]; constructor; [apply IH | exact IHl].
Qed.

Section Writing.
Import PrimitiveTypesMarshaller.

Lemma each_writes {A} (f : A -> M (list Z) unit) (form : A -> list Z) l :
  Forall (fun x => writes (f x) (form x)) l -> writes (each f l) (flat_map form l).
Proof.
  induction 1 as [|x l Hx _ IH]; [apply writes_ret |]. cbn [each flat_map]. by apply writes_seq.
Qed.

Lemma writeByte_writes t : 0 <= t < 256 -> writes (DataOutputStream.writeByte t) [t].
Proof. intros Ht o. unfold DataOutputStream.writeByte, DataOutputStream.write. by rewrite uwrap_small. Qed.

Lemma marshalPrimitive_writes v : prim_ok v = true -> writes (marshalPrimitive v) (prim_form v).
Proof.
  induction v as [v Hv | m IH | l IH] using prim_ind; intros Hok.
  - destruct v; cbn [prim_ok prim_form] in *; try done; apply writes_catch;
      try (eapply (writes_seq _ _ [_]); [by apply writeByte_writes |]).
    + intros o. by destruct boolValue.
    + apply is_u_spec in Hok. by apply writeByte_writes.
    + eapply (writes_seq _ _ [_]); [by apply writeByte_writes |]. done.
    + intros o. apply writeShort_be.
    + intros o. apply writeInt_be.
    + intros o. apply writeLong_be.
    + intros o. apply writeLong_be.
    + intros o. apply writeInt_be.
    + apply andb_true_iff in Hok as [_ Hl%is_s_spec]. pose proof (zlen_nonneg stringValue) as Hz.
      cbv zeta. rewrite swrap_small by lia. change (32767 / 4) with 8191.
      destruct (Z.leb_spec (zlen stringValue) 8191), (Z.ltb_spec 8191 (zlen stringValue)); try lia.
      * rewrite swrap_small by lia. destruct (Z.eqb_spec (zlen stringValue) 0) as [E|E].
        -- eapply (writes_seq _ _ [_]); [by apply writeByte_writes |].
           destruct stringValue; [|len]. intros o. apply writeShort_be.
        -- eapply (writes_seq _ _ [_]); [by apply writeByte_writes |].
           apply writes_seq; [intros o; apply writeShort_be | apply writeArray_all].
      * destruct (Z.eqb_spec (zlen stringValue) 0); [lia |].
        eapply (writes_seq _ _ [_]); [by apply writeByte_writes |].
        apply writes_seq; [intros o; apply writeInt_be | apply writeArray_all].
    + apply andb_true_iff in Hok as [_ Hl%is_s_spec]. rewrite swrap_small by lia.
      apply writes_seq; [intros o; apply writeInt_be |].
      destruct byteArrayValue; [apply writes_ret | apply writeArray_all].
  - cbn [prim_ok] in Hok. rewrite !andb_true_iff, forallb_forall in Hok.
    destruct Hok as [[_ Hl%is_s_spec] Hall].
    apply writes_catch, (writes_seq _ _ [_]); [by apply writeByte_writes |]. apply writes_catch.
    rewrite swrap_small by lia. apply writes_seq; [intros o; apply writeInt_be |].
    apply each_writes. rewrite Forall_forall in IH |- *. intros kv Hin.
    specialize (Hall kv Hin). apply andb_true_iff in Hall as [Hk Hv].
    apply andb_true_iff in Hk as [_ Hk%Z.leb_le].
    apply writes_seq; [by apply writeUTF_writes | by apply IH].
  - cbn [prim_ok] in Hok. rewrite !andb_true_iff, forallb_forall in Hok.
    destruct Hok as [Hl%is_s_spec Hall].
    apply writes_catch, (writes_seq _ _ [_]); [by apply writeByte_writes |]. apply writes_catch.
    rewrite swrap_small by lia. apply writes_seq; [intros o; apply writeInt_be |].
    apply each_writes. rewrite Forall_forall in IH |- *. intros x Hin.
    apply IH; [done |]. by apply Hall.
Qed.
End Writing.

Section Reading.
Context {St : Type} `{InputStreamLaws St}.
Import PrimitiveTypesMarshaller.

(** The first byte of a value selects its case. *)
Lemma read_type t (k : Z -> M St PrimitiveValueNode) bs v :
  0 <= t < 256 -> reads (k t) bs v ->
  reads (let* b := DataInputStream.readByte in k (to_u8 b)) (t :: bs) v.
Proof.
  intros Ht Hk. eapply (reads_bind _ _ [t]); [apply readByte_reads |].
  by rewrite uwrap_swrap, uwrap_small by lia.
Qed.

Lemma repeatM_reads {A B} (form : A -> list Z) (g : A -> B) (m : M St B) l :
  Forall (fun x => reads m (form x) (g x)) l ->
  reads (repeatM (length l) m) (flat_map form l) (map g l).
Proof.
  induction 1 as [|x l Hx _ IH]; [apply reads_ret |]. cbn [flat_map length repeatM map].
  eapply reads_bind; [exact Hx |]. by eapply reads_map; [exact IH |].
Qed.

Lemma fold_below (m : PrimitiveMap) k v (acc : PrimitiveMap) :
  StlMap.below k m = true ->
  forallb (fun kv => match StlMap.compare (fst kv) k with Lt => true | _ => false end) acc = true ->
  forall kv, In kv m ->
  forallb (fun kv' => match StlMap.compare (fst kv') (fst kv) with Lt => true | _ => false end)
    (acc ++ [(k, v)]) = true.
Proof.
  unfold StlMap.below. rewrite !forallb_forall. intros Hb Ha kv Hin.
  rewrite forallb_forall. specialize (Hb kv Hin). intros kv' [Hin'|[<-|[]]]%in_app_iff; [|done].
  specialize (Ha kv' Hin'). destruct (StlMap.compare (fst kv') k) eqn:E1; try done.
  destruct (StlMap.compare k (fst kv)) eqn:E2; try done.
  by rewrite (StlMap.compare_lt_trans _ _ _ E1 E2).
Qed.

(** Reading the entries of a sorted map rebuilds it. *)
Lemma read_entries_reads value m : forall acc,
  StlMap.sorted m = true ->
  Forall (fun kv => key_ok (fst kv) = true /\ reads value (prim_form (snd kv)) (received (snd kv))) m ->
  (forall kv, In kv m ->
    forallb (fun kv' => match StlMap.compare (fst kv') (fst kv) with Lt => true | _ => false end) acc = true) ->
  reads (read_entries (length m) value acc)
    (flat_map (fun kv => utf_form (fst kv) ++ prim_form (snd kv)) m) (acc ++ received_map m).
Proof.
  induction m as [|[k v] m IH]; intros acc Hs Hall Hacc.
  - cbn. rewrite app_nil_r. apply reads_ret.
  - apply List.Forall_cons_iff in Hall as [[Hk Hv] Hall]. cbn [StlMap.sorted] in Hs.
    apply andb_true_iff in Hs as [Hb Hs]. apply andb_true_iff in Hk as [Hkb Hkl%Z.leb_le].
    pose proof (Hacc (k, v) (or_introl eq_refl)) as Ha. cbn [fst] in Ha.
    cbn [length read_entries flat_map fst snd]. rewrite <- app_assoc.
    eapply reads_bind; [by apply readUTF_reads |]. eapply reads_bind; [exact Hv |].
    cbn [snd]. rewrite StlMap.put_last by done.
    replace (acc ++ received_map ((k, v) :: m)) with ((acc ++ [(k, received v)]) ++ received_map m)
      by (by rewrite <- app_assoc).
    apply IH; [done | done |]. intros kv Hin. by eapply fold_below.
Qed.

Lemma length_flat_map_elem {A} (f : A -> list Z) x l :
  In x l -> (length (f x) <= length (flat_map f l))%nat.
Proof.
  induction l as [|y l IH]; [done |]. cbn [flat_map]. rewrite length_app.
  intros [-> | Hin]; [lia |]. specialize (IH Hin). lia.
Qed.

Lemma unmarshalPrimitiveMap_reads value m acc :
  map_ok m = true ->
  (forall v, prim_ok v = true -> (length (prim_form v) <= length (map_form m))%nat ->
     reads value (prim_form v) (received v)) ->
  acc = [] ->
  reads (unmarshalPrimitiveMap_ value acc) (map_form m) (received_map m).
Proof.
  unfold map_ok, map_form. rewrite !andb_true_iff, forallb_forall. intros [[Hs Hl] Hall] Hv ->.
  apply reads_catch. eapply reads_bind; [by apply readInt_reads |].
  unfold zlen at 1. rewrite Nat2Z.id. apply (read_entries_reads value m []); [done | | done].
  apply Forall_forall. intros kv Hin. specialize (Hall kv Hin). apply andb_true_iff in Hall as [Hk Hp].
  split; [done |]. apply Hv; [done |].
  pose proof (length_flat_map_elem (fun kv => utf_form (fst kv) ++ prim_form (snd kv)) kv m Hin) as Hle.
  cbv beta in Hle. rewrite length_app in *. lia.
Qed.

Lemma unmarshalPrimitive_reads fuel : forall v,
  prim_ok v = true -> (length (prim_form v) <= fuel)%nat ->
  reads (unmarshalPrimitive fuel) (prim_form v) (received v).
Proof.
  induction fuel as [|fuel IH]; intros v Hok Hf.
  { destruct v; cbn in Hf; try lia; [done |]. by destruct (_ <=? _); cbn in Hf; lia. }
  apply reads_catch.
  destruct v; cbn [prim_ok prim_form received] in *; try done.
  - apply read_type; [lia |]. eapply reads_map; [apply readBoolean_reads | done].
  - apply read_type; [lia |]. eapply reads_map; [apply readByte_reads |].
    rewrite uwrap_swrap, uwrap_small by (lia || by apply is_u_spec). done.
  - apply read_type; [lia |]. eapply (reads_bind _ _ [_]); [apply readByte_reads |].
    eapply reads_map; [apply readChar_reads |]. rewrite swrap_uwrap, swrap_small; [done | lia |].
    by apply is_s_spec.
  - apply read_type; [lia |]. eapply reads_map; [by apply readShort_reads | done].
  - apply read_type; [lia |]. eapply reads_map; [by apply readInt_reads | done].
  - apply read_type; [lia |]. eapply reads_map; [by apply readLong_reads | done].
  - apply read_type; [lia |]. eapply reads_map; [by apply readDouble_reads | done].
  - apply read_type; [lia |]. eapply reads_map; [by apply readFloat_reads | done].
  - apply andb_true_iff in Hok as [_ Hl]. pose proof (zlen_nonneg stringValue) as Hz.
    assert (Hs : reads (readString_ (zlen stringValue)) stringValue (received (STRING_TYPE stringValue))).
    { unfold readString_. destruct (Z.ltb_spec 0 (zlen stringValue)).
      - eapply reads_map; [apply readFully_reads |]. by destruct stringValue.
      - destruct stringValue; [apply reads_ret | len]. }
    destruct (Z.leb_spec (zlen stringValue) 8191).
    + apply read_type; [lia |]. eapply reads_bind; [apply readShort_reads, is_s_spec; lia | exact Hs].
    + apply read_type; [unfold BIG_STRING_CODE; lia |].
      eapply reads_bind; [by apply readInt_reads | exact Hs].
  - apply andb_true_iff in Hok as [_ Hl]. apply read_type; [lia |].
    eapply reads_bind; [by apply readInt_reads |].
    destruct (Z.ltb_spec 0 (zlen byteArrayValue)).
    + eapply reads_map; [apply readFully_reads | done].
    + destruct byteArrayValue; [apply reads_ret | len].
  - apply read_type; [lia |]. eapply reads_map; [|done].
    apply unmarshalPrimitiveMap_reads; [exact Hok | | done].
    intros v Hv Hle. apply IH; [done |]. unfold map_form in Hle. cbn [length] in Hf. lia.
  - apply andb_true_iff in Hok as [Hl Hall]. rewrite forallb_forall in Hall.
    apply read_type; [lia |]. eapply reads_map; [|done]. apply reads_catch.
    eapply reads_bind; [by apply readInt_reads |]. eapply reads_map; [|by rewrite app_nil_l].
    unfold zlen at 1. rewrite Nat2Z.id. apply repeatM_reads, Forall_forall.
    intros v Hin. apply IH; [by apply Hall |].
    pose proof (length_flat_map_elem prim_form v listValue Hin). cbn [length] in Hf.
    rewrite length_app in Hf. lia.
Qed.
End Reading.

Lemma marshalPrimitiveMap_writes m :
  map_ok m = true -> writes (PrimitiveTypesMarshaller.marshalPrimitiveMap m) (map_form m).
Proof.
  intros Hok. assert (Hp : prim_ok (MAP_TYPE m) = true) by exact Hok.
  unfold map_ok in Hok. rewrite !andb_true_iff, forallb_forall in Hok. destruct Hok as [[_ Hl%is_s_spec] Hall].
  apply writes_catch. rewrite swrap_small by lia.
  apply writes_seq; [intros o; apply writeInt_be |]. apply each_writes, Forall_forall. intros kv Hin.
  specialize (Hall kv Hin). apply andb_true_iff in Hall as [Hk Hv].
  apply andb_true_iff in Hk as [_ Hk%Z.leb_le].
  apply writes_seq; [by apply writeUTF_writes | by apply marshalPrimitive_writes].
Qed.

(** A byte array stream opened on a whole buffer. *)
Lemma setByteArray_all buffer :
  zlen buffer < 2 ^ 31 ->
  exists s, ByteArrayInputStream.setByteArray (Some buffer) (to_s32 (zlen buffer)) 0 (to_s32 (zlen buffer)) = Ok s
    /\ stream_at s (buffer ++ []).
Proof.
  intros Hl. pose proof (zlen_nonneg buffer). rewrite swrap_small by lia. rewrite app_nil_r.
  unfold ByteArrayInputStream.setByteArray. destruct (Z.ltb_spec (zlen buffer) 0); [lia |].
  change (0 <? 0) with false. cbv iota. eexists. split; [done |].
  unfold stream_at, ByteArrayInputStream.laws, ByteArrayInputStream.at_. cbn.
  rewrite Z.ltb_irrefl. split; [lia |]. split; [lia |].
  rewrite Z.sub_0_r, Z.add_0_l. unfold zlen. rewrite Nat2Z.id. by rewrite firstn_all.
Qed.

Lemma marshal_map_form m : map_ok m = true -> PrimitiveTypesMarshaller.marshal (Some m) [] = Ok (map_form m).
Proof.
  intros Hok. unfold PrimitiveTypesMarshaller.marshal. cbn. rewrite (marshalPrimitiveMap_writes m Hok []). cbn.
  by rewrite app_nil_r.
Qed.
Lemma unmarshalMap_form {St} `{InputStreamLaws St} m fuel : map_ok m = true -> (length (map_form m) <= fuel)%nat ->
  reads (PrimitiveTypesMarshaller.unmarshalMap fuel) (map_form m) (received_map m).
Proof.
  intros Hok Hf. apply (unmarshalPrimitiveMap_reads (PrimitiveTypesMarshaller.unmarshalPrimitive fuel) m []); [done | | done].
  intros v Hv Hle. apply unmarshalPrimitive_reads; [done | lia].
Qed.
Lemma unmarshal_map_form m old : map_ok m = true -> zlen (map_form m) < 2 ^ 31 ->
  PrimitiveTypesMarshaller.unmarshal old (map_form m) = Ok (received_map m).
Proof.
  intros Hok Hl. destruct (setByteArray_all (map_form m) Hl) as (s & Es & Hs).
  unfold PrimitiveTypesMarshaller.unmarshal. destruct (map_form m) eqn:E; [by destruct m |].
  rewrite <- E in *. rewrite Es. cbn [rbind].
  destruct (unmarshalMap_form m (S (length (map_form m))) Hok ltac:(lia)) with (rest := @nil Z) (s := s) as (s' & E' & _); [done |].
  unfold PrimitiveTypesMarshaller.unmarshalMap in E'. by rewrite E'.
Qed.

(** C34.  A property map survives the encoding: unmarshalling what was marshalled
    gives the same keys in the same order with the same values, empty strings
    excepted, which come back as nulls.  The nesting of lists and maps is not
    bounded. *)
Theorem primitive_map_roundtrip m old :
  map_ok m = true -> zlen (map_form m) < 2 ^ 31 ->
  PrimitiveTypesMarshaller.marshal (Some m) [] = Ok (map_form m) /\
  PrimitiveTypesMarshaller.unmarshal old (map_form m) = Ok (received_map m).
Proof. intros Hok Hl. split; [by apply marshal_map_form | by apply unmarshal_map_form]. Qed.

(**  A received map that held an empty string cannot be sent on: the null the
    string became is refused by the marshaller with an IOException. *)
Theorem received_empty_string_not_resendable m1 k m2 :
  map_ok (m1 ++ (k, STRING_TYPE []) :: m2) = true -> received_map m1 = m1 ->
  PrimitiveTypesMarshaller.marshal (Some (received_map (m1 ++ (k, STRING_TYPE []) :: m2))) []
  = Err (Throw IOException).
Proof.
  intros Hok Hm1. unfold received_map in *. rewrite map_app, Hm1. cbn [map fst snd received].
  unfold map_ok in Hok. rewrite !andb_true_iff, forallb_app, andb_true_iff in Hok.
  destruct Hok as [_ [H1 H2]]. cbn [forallb fst snd] in H2. rewrite !andb_true_iff in H2.
  destruct H2 as [[Hk _] _]. apply andb_true_iff in Hk as [_ Hk%Z.leb_le].
  unfold PrimitiveTypesMarshaller.marshal, PrimitiveTypesMarshaller.marshalMap,
    PrimitiveTypesMarshaller.marshalPrimitiveMap, PrimitiveTypesMarshaller.marshalPrimitiveMap_, catch_io, bind at 1.
  rewrite writeInt_be. generalize ([] ++ be 4 (to_s32 (zlen (m1 ++ (k, NULL_TYPE) ::
    map (fun kv => (fst kv, received (snd kv))) m2)))) as out.
  enough (Hgen : forall out m2', PrimitiveTypesMarshaller.each
    (fun kv => DataOutputStream.writeUTF (fst kv) ;;; PrimitiveTypesMarshaller.marshalPrimitive (snd kv))
    (m1 ++ (k, NULL_TYPE) :: m2') out = Err (Throw IOException)) by (intros out; by rewrite Hgen).
  clear Hm1. intros out m2'. revert out. induction m1 as [|[k1 v1] m1 IH]; intros out.
  - cbn [app PrimitiveTypesMarshaller.each fst snd]. unfold bind. by rewrite (writeUTF_writes k Hk out).
  - cbn [forallb fst snd] in H1. rewrite !andb_true_iff in H1.
    destruct H1 as [[Hk1 Hv1] H1]. apply andb_true_iff in Hk1 as [_ Hk1%Z.leb_le].
    cbn [app PrimitiveTypesMarshaller.each fst snd]. unfold bind.
    rewrite (writeUTF_writes k1 Hk1 out), (marshalPrimitive_writes v1 Hv1). by apply IH.
Qed.

(** ** Instances *)
Lemma primitive_map_roundtrip_witness :
  let m := [(str "a", LIST_TYPE [INTEGER_TYPE (-7); STRING_TYPE (str "x")]); (str "b", MAP_TYPE [(str "c", BOOLEAN_TYPE true)])] in
  PrimitiveTypesMarshaller.marshal (Some m) [] = Ok (map_form m) /\
  PrimitiveTypesMarshaller.unmarshal [] (map_form m) = Ok m.
Proof.
  exact (primitive_map_roundtrip
    [(str "a", LIST_TYPE [INTEGER_TYPE (-7); STRING_TYPE (str "x")]); (str "b", MAP_TYPE [(str "c", BOOLEAN_TYPE true)])]
    [] eq_refl eq_refl).
Defined.

Lemma received_empty_string_not_resendable_witness :
  PrimitiveTypesMarshaller.marshal (Some (received_map [(str "a", INTEGER_TYPE 1); (str "k", STRING_TYPE [])])) []
  = Err (Throw IOException).
Proof.
  exact (received_empty_string_not_resendable [(str "a", INTEGER_TYPE 1)] (str "k") [] eq_refl eq_refl).
Defined.
