(* ===== verification/Support.v ===== *)
(** * Strings, numbers and URIs

    The string handling the commands and the transports rest on: the searches
    of [std::string], decaf/lang/Integer and Character (parsing of decimal
    numbers), decaf/util/StringTokenizer, and activemq/util/URISupport (queries
    and composite URIs).  The file shows that the tokenizer splits a string
    into its maximal delimiter-free segments, that parsing an int accepts
    exactly the decimal forms of the 32-bit range and that the components of a
    composite URI are the parts between its top level commas. *)

From S2P Require Import Prelude DataStreams PrimitiveTypes.

(** ** std::string; [None] is [std::string::npos] *)
Definition elem (c : Z) (l : list Z) : bool := existsb (Z.eqb c) l.

Fixpoint find_index (p : Z -> bool) (s : list Z) : option nat :=
  match s with
  | [] => None
  | c :: s => if p c then Some O else S <$> find_index p s
  end.

Definition find_from (p : Z -> bool) (s : list Z) (pos : option nat) : option nat :=
  match pos with
  | None => None
  | Some i => (fun j => (i + j)%nat) <$> find_index p (drop i s)
  end.
Definition find_first_of (s chars : list Z) (pos : option nat) : option nat :=
  find_from (fun c => elem c chars) s pos.
Definition find_first_not_of (s chars : list Z) (pos : option nat) : option nat :=
  find_from (fun c => negb (elem c chars)) s pos.

(** [find_last_of] of a single character. *)
Fixpoint find_last (c : Z) (s : list Z) : option nat :=
  match s with
  | [] => None
  | x :: s => match find_last c s with
              | Some i => Some (S i)
              | None => if x =? c then Some O else None
              end
  end.

(** [substr(pos, n)]; [None] for the count is [npos].  A position past the end
    throws [std::out_of_range]. *)
Definition substr (s : list Z) (pos : nat) (n : option nat) : result (list Z) :=
  if (length s <? pos)%nat then throw IndexOutOfBoundsException
  else Ok (match n with None => drop pos s | Some n => take n (drop pos s) end).

(** ** Character and Integer *)
Module Character.
Definition digit (c radix : Z) : Z :=
  if (2 <=? radix) && (radix <=? 36) then
    let c := to_s8 c in
    let result :=
      if (48 <=? c) && (c <=? 57) then c - 48
      else if (97 <=? c) && (c <=? 122) then c - (97 - 10)
      else if (65 <=? c) && (c <=? 90) then c - (65 - 10)
      else -1 in
    if result <? radix then result else -1
  else -1.
End Character.

Module Integer.
Definition MIN_VALUE : Z := - 2 ^ 31.

(** The accumulation is on the negative side; int arithmetic wraps. *)
Fixpoint parse_loop (value : list Z) (radix max result : Z) : Prelude.result Z :=
  match value with
  | [] => Ok result
  | c :: value =>
    let digit := Character.digit c radix in
    if digit =? -1 then throw NumberFormatException
    else if result <? max then throw NumberFormatException
    else
      let next := to_s32 (result * radix - digit) in
      if result <? next then throw NumberFormatException
      else parse_loop value radix max next
  end.

Definition parse (value : list Z) (offset : nat) (radix : Z) (negative : bool) : Prelude.result Z :=
  let max := Z.quot MIN_VALUE radix in
  rbind (parse_loop (drop offset value) radix max 0) (fun result =>
  if negative then Ok result
  else
    let result := to_s32 (- result) in
    if result <? 0 then throw NumberFormatException else Ok result).

Definition parseInt_radix (value : list Z) (radix : Z) : Prelude.result Z :=
  if (radix <? 2) || (36 <? radix) then throw NumberFormatException
  else
    match value with
    | [] => throw NumberFormatException
    | c :: rest =>
      let negative := c =? 45 in
      if negative then
        match rest with
        | [] => throw NumberFormatException
        | _ => parse value 1 radix true
        end
      else parse value 0 radix false
    end.
Definition parseInt (value : list Z) : Prelude.result Z := parseInt_radix value 10.
End Integer.

(** decaf::lang::Long: the same on 64 bits. *)
Module Long.
Definition MIN_VALUE : Z := - 2 ^ 63.

Fixpoint parse_loop (value : list Z) (radix max result : Z) : Prelude.result Z :=
  match value with
  | [] => Ok result
  | c :: value =>
    let digit := Character.digit c radix in
    if digit =? -1 then throw NumberFormatException
    else if result <? max then throw NumberFormatException
    else
      let next := to_s64 (result * radix - digit) in
      if result <? next then throw NumberFormatException
      else parse_loop value radix max next
  end.

Definition parse (value : list Z) (offset : nat) (radix : Z) (negative : bool) : Prelude.result Z :=
  let max := Z.quot MIN_VALUE radix in
  rbind (parse_loop (drop offset value) radix max 0) (fun result =>
  if negative then Ok result
  else
    let result := to_s64 (- result) in
    if result <? 0 then throw NumberFormatException else Ok result).

Definition parseLong_radix (value : list Z) (radix : Z) : Prelude.result Z :=
  if (radix <? 2) || (36 <? radix) then throw NumberFormatException
  else
    match value with
    | [] => throw NumberFormatException
    | c :: rest =>
      let negative := c =? 45 in
      if negative then
        match rest with
        | [] => throw NumberFormatException
        | _ => parse value 1 radix true
        end
      else parse value 0 radix false
    end.
Definition parseLong (value : list Z) : Prelude.result Z := parseLong_radix value 10.
End Long.

(** ** StringTokenizer, without the [returnDelims] mode *)
Module StringTokenizer.
Record t := mk { str : list Z; delim : list Z; pos : option nat }.

Definition init (s d : list Z) : t := {| str := s; delim := d; pos := Some O |}.

(** The loop of [countTokens]: each round but the last moves on. *)
Fixpoint count_loop (fuel : nat) (s d : list Z) (localPos : option nat) : Z :=
  match fuel, localPos with
  | S fuel, Some _ =>
    let lastPos := find_first_not_of s d localPos in
    let localPos := find_first_of s d lastPos in
    (if lastPos is Some _ then 1 else 0) + count_loop fuel s d localPos
  | _, _ => 0
  end.
Definition countTokens (s : t) : Z := count_loop (S (length (str s))) (str s) (delim s) (pos s).

Definition hasMoreTokens (s : t) : bool :=
  match find_first_not_of (str s) (delim s) (pos s) with Some _ => true | None => false end.

Definition nextToken : M t (list Z) := fun s =>
  match pos s with
  | None => throw NoSuchElementException
  | Some _ =>
    let lastPos := find_first_not_of (str s) (delim s) (pos s) in
    let pos' := find_first_of (str s) (delim s) lastPos in
    match lastPos with
    | None => throw NoSuchElementException
    | Some l =>
      rbind (substr (str s) l (option_map (fun p => (p - l)%nat) pos')) (fun tok =>
      Ok (tok, {| str := str s; delim := delim s; pos := pos' |}))
    end
  end.

(** [toArray]: every token takes at least a character. *)
Fixpoint array_loop (fuel : nat) : M t (list (list Z)) := fun s =>
  match fuel with
  | O => Err NoFuel
  | S fuel =>
    if hasMoreTokens s
    then (let* tok := nextToken in let* rest := array_loop fuel in ret (tok :: rest)) s
    else Ok ([], s)
  end.
Definition toArray : M t (list (list Z)) := fun s => array_loop (S (length (str s))) s.

(** [reset(str, delim)]: an empty argument keeps the old value. *)
Definition reset (s : t) (str' delim' : list Z) : t :=
  {| str := match str' with [] => str s | _ => str' end;
     delim := match delim' with [] => delim s | _ => delim' end;
     pos := Some O |}.
End StringTokenizer.

(** ** URISupport *)
Module URISupport.
Section Env.
(** [System::getenv], which throws where the variable is not set. *)
Context (getenv : list Z -> result (list Z)).

(** Every failure leaves as an IllegalArgumentException. *)
Definition as_illegal {A} (r : result A) : result A :=
  match r with Err (Throw _) => throw IllegalArgumentException | r => r end.

Definition replaceEnvValues (value : list Z) : result (list Z) :=
  as_illegal (
    match value with
    | [] => throw IndexOutOfBoundsException
    | c :: _ =>
      if c =? 36 then
        if (3 <? zlen value) && negb (nth 1 value 0 =? 123)
           && negb (nth (length value - 1) value 0 =? 125) then throw IllegalArgumentException
        else
          rbind (substr value 2 (if 3 <=? zlen value then Some (length value - 3)%nat else None)) (fun var =>
          rbind (getenv var) (fun var =>
          match var with [] => throw IllegalArgumentException | _ => Ok var end))
      else Ok value
    end).

(** One option of a query: a key and a value. *)
Definition parseOption (tokenizer : StringTokenizer.t) : result (list Z * list Z) :=
  if negb (StringTokenizer.countTokens tokenizer =? 2) then throw IllegalArgumentException
  else
    rbind (StringTokenizer.nextToken tokenizer) (fun '(key, tokenizer) =>
    rbind (StringTokenizer.nextToken tokenizer) (fun '(v, _) =>
    rbind (replaceEnvValues v) (fun value => Ok (key, value)))).

Fixpoint parseOptions (tokenizer : StringTokenizer.t) (options : list (list Z))
    (properties : list (list Z * list Z)) : result (list (list Z * list Z)) :=
  match options with
  | [] => Ok properties
  | o :: options =>
    let tokenizer := StringTokenizer.reset tokenizer o (str "=") in
    rbind (parseOption tokenizer) (fun '(key, value) =>
    parseOptions tokenizer options (StlMap.put key value properties))
  end.

Definition parseQuery (query : list Z) (properties : list (list Z * list Z))
    : result (list (list Z * list Z)) :=
  as_illegal (
    let query := match find_first_of query (str "?") (Some O) with
                 | Some pos => drop (pos + 1) query
                 | None => query
                 end in
    rbind (StringTokenizer.toArray (StringTokenizer.init query (str "&"))) (fun '(options, tokenizer) =>
    parseOptions tokenizer options properties)).
End Env.

(** [createQueryString], over the encoder of URLs: the condition on
    [options.isEmpty()] is the one of the source. *)
Definition createQueryString (encode : list Z -> list Z) (options : list (list Z * list Z)) : list Z :=
  if StlMap.isEmpty options then
    snd (fold_left (fun '(first, rc) '(k, v) =>
      (false, rc ++ (if (first : bool) then [] else str "&") ++ encode k ++ str "=" ++ encode v))
      options (true, []))
  else [].

Definition checkParenthesis (s : list Z) : bool :=
  match s with
  | [] => true
  | _ =>
    let '(open, closed) := fold_left (fun '(open, closed) c =>
      if c =? 40 then (open + 1, closed) else if c =? 41 then (open, closed + 1) else (open, closed))
      s (0, 0) in
    open =? closed
  end.

(** The scan of [splitComponents]: [cur] is what was read since [last]. *)
Fixpoint split_loop (s : list Z) (depth : Z) (cur : list Z) : list (list Z) :=
  match s with
  | [] => match cur with [] => [] | _ => [cur] end
  | c :: s =>
    if c =? 40 then split_loop s (depth + 1) (cur ++ [c])
    else if c =? 41 then split_loop s (depth - 1) (cur ++ [c])
    else if (c =? 44) && (depth =? 0) then cur :: split_loop s depth []
    else split_loop s depth (cur ++ [c])
  end.
Definition splitComponents (s : list Z) : list (list Z) := split_loop s 0 [].

Definition stripPrefix (value prefix : list Z) : list Z :=
  if bool_decide (take (length prefix) value = prefix) then drop (length prefix) value else value.
End URISupport.

(** ** The tokenizer splits at delimiters *)
Fixpoint split (d s : list Z) : list (list Z) :=
  match s with
  | [] => [[]]
  | c :: s =>
    if elem c d then [] :: split d s
    else match split d s with t :: ts => (c :: t) :: ts | [] => [[c]] end
  end.
Definition segments (d s : list Z) : list (list Z) :=
  List.filter (fun t => match t with [] => false | _ => true end) (split d s).

Lemma split_nonnil d s : split d s <> [].
Proof. destruct s as [|c s]; [done |]. cbn. by destruct (elem c d), (split d s). Qed.

Lemma find_index_None p s : find_index p s = None -> forallb (fun c => negb (p c)) s = true.
Proof.
  induction s as [|c s IH]; [done |]. cbn. destruct (p c); [done |].
  destruct (find_index p s); [done |]. auto.
Qed.

Lemma find_index_Some p s i : find_index p s = Some i ->
  (i < length s)%nat /\ forallb (fun c => negb (p c)) (take i s) = true /\
  exists c r, drop i s = c :: r /\ p c = true.
Proof.
  revert i. induction s as [|c s IH]; intros i; [done |]. cbn.
  destruct (p c) eqn:E; [intros [= <-]; cbn; split; [lia |]; eauto |].
  destruct (find_index p s) as [j|]; [|done]. intros [= <-].
  destruct (IH j eq_refl) as (Hl & Ht & c' & r & Hd & Hp).
  split; [lia |]. cbn. rewrite E. split; [done |]. eauto.
Qed.

(** Leading delimiters do not matter. *)
Lemma segments_skip d t s : forallb (fun c => elem c d) t = true -> segments d (t ++ s) = segments d s.
Proof.
  induction t as [|c t IH]; [done |]. cbn [forallb app]. rewrite andb_true_iff. intros [Hc Ht].
  unfold segments in *. cbn [split]. rewrite Hc. cbn. auto.
Qed.

(** A delimiter-free prefix followed by a delimiter is the first segment. *)
Lemma split_token d t s :
  forallb (fun c => negb (elem c d)) t = true -> split d (t ++ s) =
  match split d s with x :: xs => (t ++ x) :: xs | [] => [] end.
Proof.
  induction t as [|c t IH]; intros Ht.
  - cbn [app]. pose proof (split_nonnil d s). by destruct (split d s).
  - cbn [forallb] in Ht. apply andb_true_iff in Ht as [Hc Ht]. cbn [app split].
    apply negb_true_iff in Hc. rewrite Hc, IH by done. pose proof (split_nonnil d s).
    by destruct (split d s).
Qed.

Lemma segments_token d t s :
  forallb (fun c => negb (elem c d)) t = true -> t <> [] ->
  match s with [] => True | c :: _ => elem c d = true end ->
  segments d (t ++ s) = t :: segments d s.
Proof.
  intros Ht Hne Hs. unfold segments. rewrite split_token by done.
  destruct s as [|c s].
  - cbn. rewrite app_nil_r. by destruct t.
  - cbn [split]. rewrite Hs. cbn [List.filter]. rewrite app_nil_r. by destruct t.
Qed.

Lemma segments_delims d s : forallb (fun c => elem c d) s = true -> segments d s = [].
Proof. intros Hs. rewrite <- (app_nil_r s), segments_skip by done. done. Qed.

Lemma array_loop_segments fuel : forall s d p,
  (length (drop p s) < fuel)%nat ->
  exists st', StringTokenizer.array_loop fuel {| StringTokenizer.str := s; StringTokenizer.delim := d; StringTokenizer.pos := Some p |}
    = Ok (segments d (drop p s), st').
Proof.
  induction fuel as [|fuel IH]; intros s d p Hf; [lia |]. cbn [StringTokenizer.array_loop].
  unfold StringTokenizer.hasMoreTokens, find_first_not_of, find_from.
  cbn [StringTokenizer.str StringTokenizer.delim StringTokenizer.pos].
  destruct (find_index (fun c => negb (elem c d)) (drop p s)) as [j|] eqn:Ej; cbn [fmap option_fmap option_map].
  2: { apply find_index_None in Ej. rewrite segments_delims; [eauto |].
       rewrite forallb_forall in *. intros c Hc. specialize (Ej c Hc). by apply negb_true_iff, negb_false_iff in Ej. }
  destruct (find_index_Some _ _ _ Ej) as (Hj & Hskip & c & r & Hd & Hc).
  unfold bind at 1, StringTokenizer.nextToken, find_first_of, find_first_not_of, find_from.
  cbn [StringTokenizer.str StringTokenizer.delim StringTokenizer.pos]. rewrite Ej.
  cbn [fmap option_fmap option_map]. rewrite drop_drop in Hd.
  assert (Hseg : segments d (drop p s) = segments d (drop (p + j) s)).
  { rewrite <- (take_drop j (drop p s)), drop_drop. apply segments_skip.
    rewrite forallb_forall in *. intros x Hx. specialize (Hskip x Hx). by destruct (elem x d). }
  assert (Hlen : (p + j < length s)%nat) by (rewrite length_drop in Hj; lia).
  unfold substr. destruct (Nat.ltb_spec (length s) (p + j)); [lia |]. cbn [rbind].
  destruct (find_index (fun c => elem c d) (drop (p + j) s)) as [k|] eqn:Ek; cbn [fmap option_fmap option_map].
  - destruct (find_index_Some _ _ _ Ek) as (Hk & Htok & c' & r' & Hd' & Hc').
    assert (Hk0 : (0 < k)%nat).
    { destruct k; [|lia]. rewrite Hd in Hd'. cbn in Hd'. injection Hd' as <- _.
      rewrite Hc' in Hc. done. }
    replace (p + j + k - (p + j))%nat with k by lia. rewrite length_drop in Hk, Hj, Hf.
    destruct (IH s d (p + j + k)%nat) as (st' & E).
    { rewrite length_drop. lia. }
    exists st'. unfold bind. rewrite E. unfold ret. repeat f_equal.
    rewrite Hseg, <- (drop_drop s k (p + j)).
    transitivity (segments d (take k (drop (p + j) s) ++ drop k (drop (p + j) s)));
      [symmetry | by rewrite take_drop].
    apply segments_token; [done | | by rewrite Hd'].
    intros E'. apply (f_equal length) in E'. rewrite length_take, length_drop in E'. cbn in E'. lia.
  - exists {| StringTokenizer.str := s; StringTokenizer.delim := d; StringTokenizer.pos := None |}.
    destruct fuel as [|fuel]; [rewrite length_drop in Hj, Hf; lia |].
    apply find_index_None in Ek. pose proof (segments_token d (drop (p + j) s) []) as Ht.
    rewrite app_nil_r in Ht. rewrite Hseg, Ht by (done || by rewrite Hd). done.
Qed.

(**  [StringTokenizer::toArray] returns, for every string and every set of
    delimiters, the non-empty segments between delimiters, in order. *)
Theorem toArray_segments s d :
  exists st', StringTokenizer.toArray (StringTokenizer.init s d) = Ok (segments d s, st').
Proof. apply (array_loop_segments _ s d 0), Nat.lt_succ_diag_r. Qed.

(** ** Decimal numbers *)
Definition is_digit (c : Z) : bool := (48 <=? c) && (c <=? 57).
Definition decimal (l : list Z) : Z := fold_left (fun a c => a * 10 + (c - 48)) l 0.

Definition neg_acc (l : list Z) (r : Z) : Z := fold_left (fun r c => r * 10 - (c - 48)) l r.

Lemma digit_decimal c : is_digit c = true -> Character.digit c 10 = c - 48.
Proof.
  unfold is_digit. rewrite andb_true_iff, !Z.leb_le. intros Hc. unfold Character.digit. cbn [andb Z.leb Z.compare Pos.compare].
  change ((2 <=? 10) && (10 <=? 36)) with true. cbv iota zeta. rewrite swrap_small by lia.
  destruct (Z.leb_spec 48 c), (Z.leb_spec c 57); try lia. cbn [andb].
  destruct (Z.ltb_spec (c - 48) 10); lia.
Qed.

Lemma neg_acc_le l : forall r, forallb is_digit l = true -> r <= 0 -> neg_acc l r <= r.
Proof.
  unfold neg_acc. induction l as [|c l IH]; intros r Hl Hr; cbn [fold_left]; [lia |].
  cbn [forallb] in Hl. apply andb_true_iff in Hl as [Hc Hl]. unfold is_digit in Hc.
  rewrite andb_true_iff, !Z.leb_le in Hc. specialize (IH (r * 10 - (c - 48)) Hl). lia.
Qed.

Lemma parse_loop_decimal l : forall r,
  forallb is_digit l = true -> - 2 ^ 31 <= r <= 0 ->
  Integer.parse_loop l 10 (Z.quot Integer.MIN_VALUE 10) r
  = if - 2 ^ 31 <=? neg_acc l r then Ok (neg_acc l r) else throw NumberFormatException.
Proof.
  change (Z.quot Integer.MIN_VALUE 10) with (-214748364).
  induction l as [|c l IH]; intros r Hl Hr.
  { change (neg_acc [] r) with r. by destruct (Z.leb_spec (- 2 ^ 31) r); [|lia]. }
  cbn [forallb] in Hl. apply andb_true_iff in Hl as [Hc Hl].
  cbn [Integer.parse_loop]. rewrite digit_decimal by done.
  unfold is_digit in Hc. rewrite andb_true_iff, !Z.leb_le in Hc.
  destruct (Z.eqb_spec (c - 48) (-1)); [lia |].
  pose proof (neg_acc_le l (r * 10 - (c - 48)) Hl ltac:(lia)) as Hle.
  change (neg_acc (c :: l) r) with (neg_acc l (r * 10 - (c - 48))).
  destruct (Z.ltb_spec r (-214748364)); [destruct (Z.leb_spec (- 2 ^ 31) (neg_acc l (r * 10 - (c - 48)))); [lia | done] |].
  destruct (Z.le_gt_cases (- 2 ^ 31) (r * 10 - (c - 48))) as [Hin | Hout].
  - cbv zeta. rewrite swrap_small by lia. destruct (Z.ltb_spec r (r * 10 - (c - 48))); [lia |].
    apply IH; [done | lia].
  - destruct (Z.leb_spec (- 2 ^ 31) (neg_acc l (r * 10 - (c - 48)))); [lia |].
    cbv zeta. replace (r * 10 - (c - 48)) with (- 2 ^ 31 - 1) by lia.
    change (to_s32 (- 2 ^ 31 - 1)) with (2 ^ 31 - 1). by destruct (Z.ltb_spec r (2 ^ 31 - 1)); [|lia].
Qed.

Lemma neg_acc_decimal l : forall r, neg_acc l (- r) = - fold_left (fun a c => a * 10 + (c - 48)) l r.
Proof.
  unfold neg_acc. induction l as [|c l IH]; intros r; [done |]. cbn [fold_left].
  rewrite <- IH. f_equal. lia.
Qed.

Lemma parseInt_value (negative : bool) l :
  l <> [] -> forallb is_digit l = true ->
  let v := if negative then - decimal l else decimal l in
  Integer.parseInt (if negative then 45 :: l else l)
  = if is_s 32 v then Ok v else throw NumberFormatException.
Proof.
  intros Hne Hl v. unfold Integer.parseInt, Integer.parseInt_radix.
  change ((10 <? 2) || (36 <? 10)) with false. cbv iota.
  pose proof (neg_acc_decimal l 0) as Hacc. change (- 0) with 0 in Hacc. fold (decimal l) in Hacc.
  pose proof (neg_acc_le l 0 Hl ltac:(lia)) as Hle.
  assert (Hp : Integer.parse_loop l 10 (Z.quot Integer.MIN_VALUE 10) 0
    = if - 2 ^ 31 <=? - decimal l then Ok (- decimal l) else throw NumberFormatException).
  { rewrite parse_loop_decimal, Hacc by (done || lia). done. }
  destruct negative; cbn [Z.eqb Pos.eqb].
  - destruct l as [|c l']; [done |]. unfold Integer.parse. cbn [drop]. cbv zeta. rewrite Hp. subst v.
    unfold is_s. destruct (Z.leb_spec (- 2 ^ 31) (- decimal (c :: l'))); cbn [rbind];
      destruct (Z.leb_spec (- 2 ^ (32 - 1)) (- decimal (c :: l'))), (Z.ltb_spec (- decimal (c :: l')) (2 ^ (32 - 1)));
      cbn [andb]; try lia; done.
  - destruct l as [|c l']; [done |]. destruct (Z.eqb_spec c 45) as [->|_]; [by cbn in Hl |].
    unfold Integer.parse. cbn [drop]. cbv zeta. rewrite Hp. subst v. set (n := decimal (c :: l')) in *.
    unfold is_s. destruct (Z.leb_spec (- 2 ^ 31) (- n)); cbn [rbind].
    + rewrite Z.opp_involutive. destruct (Z.eq_dec n (2 ^ 31)) as [-> | Hn]; [done |].
      rewrite swrap_small by lia. destruct (Z.ltb_spec n 0); [lia |].
      destruct (Z.leb_spec (- 2 ^ (32 - 1)) n), (Z.ltb_spec n (2 ^ (32 - 1))); cbn [andb]; try lia; done.
    + destruct (Z.leb_spec (- 2 ^ (32 - 1)) n), (Z.ltb_spec n (2 ^ (32 - 1))); cbn [andb]; try lia; done.
Qed.

(** Parsing ends: it answers a number or throws. *)
Lemma parse_loop_cases value radix max : forall r,
  (exists n, Integer.parse_loop value radix max r = Ok n) \/ Integer.parse_loop value radix max r = throw NumberFormatException.
Proof.
  induction value as [|c value IH]; intros r; cbn [Integer.parse_loop]; [by left; exists r |].
  destruct (_ =? -1); [by right |]. destruct (_ <? max); [by right |]. destruct (_ <? _); [by right | apply IH].
Qed.
Lemma parse_cases value offset radix negative :
  (exists n, Integer.parse value offset radix negative = Ok n) \/ Integer.parse value offset radix negative = throw NumberFormatException.
Proof.
  unfold Integer.parse. destruct (parse_loop_cases (drop offset value) radix (Z.quot Integer.MIN_VALUE radix) 0) as [[n ->]| ->]; [|by right].
  cbn [rbind]. destruct negative; [by left; exists n |]. cbv zeta. destruct (_ <? 0); [by right | by left; eexists].
Qed.
Lemma parseInt_cases value : (exists n, Integer.parseInt value = Ok n) \/ Integer.parseInt value = throw NumberFormatException.
Proof.
  unfold Integer.parseInt, Integer.parseInt_radix. change ((10 <? 2) || (36 <? 10)) with false. cbv iota.
  destruct value as [|c rest]; [by right |]. cbv zeta. destruct (c =? 45); [destruct rest; [by right |] |]; apply parse_cases.
Qed.

(**  [Integer::parseInt] of a decimal numeral, with or without a minus sign,
    is its value when that fits an int and a NumberFormatException otherwise;
    the wrap-around of the accumulation never goes unnoticed. *)
Theorem parseInt_decimal (negative : bool) l :
  l <> [] -> forallb is_digit l = true ->
  let v := if negative then - decimal l else decimal l in
  Integer.parseInt (if negative then 45 :: l else l)
  = if is_s 32 v then Ok v else throw NumberFormatException.
Proof. apply parseInt_value. Qed.

(** ** Composite URIs *)
Fixpoint join (l : list (list Z)) : list Z :=
  match l with
  | [] => []
  | [x] => x
  | x :: l => x ++ 44 :: join l
  end.

Lemma join_cons x l : l <> [] -> join (x :: l) = x ++ 44 :: join l.
Proof. by destruct l. Qed.

Lemma snoc_app {A} (l : list A) x r : l ++ x :: r = (l ++ [x]) ++ r.
Proof. by rewrite <- app_assoc. Qed.

Lemma split_loop_join s : forall depth cur,
  URISupport.split_loop s depth cur <> [] ->
  let r := join (URISupport.split_loop s depth cur) in
  r = cur ++ s \/ r ++ [44] = cur ++ s.
Proof.
  induction s as [|c s IH]; intros depth cur Hne; cbn [URISupport.split_loop] in *.
  { left. rewrite app_nil_r. by destruct cur. }
  destruct (c =? 40); [|destruct (c =? 41)].
  1, 2: rewrite (snoc_app cur c s); by apply IH.
  destruct (Z.eqb_spec c 44) as [->|]; cbn [andb].
  - destruct (depth =? 0); [|rewrite (snoc_app cur 44 s); by apply IH].
    destruct (URISupport.split_loop s depth []) as [|x l] eqn:E.
    + right. cbn. destruct s as [|c' s']; [done |]. exfalso. clear -E. 
      enough (Hg : forall s d cur, cur <> [] \/ s <> [] -> URISupport.split_loop s d cur <> []).
      { by apply (Hg (c' :: s') depth []); [right |]. }
      induction s as [|y s IH]; intros d cur Hor; cbn [URISupport.split_loop].
      * destruct Hor as [Hc|Hc]; [by destruct cur | done].
      * destruct (y =? 40); [|destruct (y =? 41); [|destruct ((y =? 44) && (d =? 0))]]; try done;
          apply IH; left; by destruct cur.
    + cbv zeta. rewrite join_cons by done. destruct (IH depth []) as [Hj | Hj]; rewrite ?E in *; [done | left | right].
      * cbn [app] in Hj. by rewrite Hj.
      * rewrite <- app_assoc. cbn [app] in Hj |- *. by rewrite Hj.
  - rewrite (snoc_app cur c s). by apply IH.
Qed.

(**  The components [splitComponents] finds, put together with commas again,
    are the string it was given; only a trailing comma gets lost. *)
Theorem splitComponents_join s :
  URISupport.splitComponents s <> [] ->
  join (URISupport.splitComponents s) = s \/ join (URISupport.splitComponents s) ++ [44] = s.
Proof. apply (split_loop_join s 0 []). Qed.

(**  [createQueryString] tests its condition the wrong way round: it returns
    the empty string for every set of options. *)
Theorem createQueryString_empty encode options :
  URISupport.createQueryString encode options = [].
Proof. by destruct options. Qed.

(** ** Instances *)
Lemma parseInt_decimal_witness : Integer.parseInt (str "-2147483648") = Ok (- 2 ^ 31).
Proof.
  exact (parseInt_decimal true (str "2147483648") ltac:(discriminate) eq_refl).
Defined.

Lemma splitComponents_join_witness :
  join (URISupport.splitComponents (str "tcp://a:1,tcp://b:2")) = str "tcp://a:1,tcp://b:2" \/
  join (URISupport.splitComponents (str "tcp://a:1,tcp://b:2")) ++ [44] = str "tcp://a:1,tcp://b:2".
Proof.
  exact (splitComponents_join (str "tcp://a:1,tcp://b:2") ltac:(vm_compute; discriminate)).
Defined.
