(* ===== verification/Commands.v ===== *)
(** * The OpenWire commands

    The classes of activemq/commands as records, a module per class: the fields
    that travel, in the order of their marshaller, with the values the
    constructor gives them ([default]).  A [Pointer] field is an option, [None]
    being NULL.  The members that only cache something derived from the others
    (the key of a MessageId, the parent ids, the hash code of a destination) or
    that never leave the client (the ack mode of a SessionInfo, the rollback
    cause of a MessageDispatch) are left out.

    A class that holds an arbitrary [DataStructure] takes that type as its
    parameter [D]; [DataStructure], the sum of the concrete classes, ties the
    knot at the end of the file.  Messages come with the hooks that run around
    their marshalling. *)

From S2P Require Import Prelude DataStreams PrimitiveTypes Support BaseMarshaller.

(** What the code asks of the platform: the environment, and the compressor of
    zlib for a compression level. *)
Class Platform := {
  getenv : list Z -> result (list Z);
  deflate : Z -> list Z -> list Z
}.

(** ** Identifiers *)
Module BaseCommand.
Record t := mk {
  commandId : Z;
  responseRequired : bool
}.
Definition default : t := {| commandId := 0; responseRequired := false |}.
End BaseCommand.

Module BrokerId.
Record t := mk {
  value : list Z
}.
Definition default : t := {| value := [] |}.
End BrokerId.

Module ConnectionId.
Record t := mk {
  value : list Z
}.
Definition default : t := {| value := [] |}.
End ConnectionId.

Module SessionId.
Record t := mk {
  connectionId : list Z;
  value : Z
}.
Definition default : t := {| connectionId := []; value := 0 |}.
End SessionId.

Module ConsumerId.
Record t := mk {
  connectionId : list Z;
  sessionId : Z;
  value : Z
}.
Definition default : t := {| connectionId := []; sessionId := 0; value := 0 |}.
End ConsumerId.

Module ProducerId.
Record t := mk {
  connectionId : list Z;
  value : Z;
  sessionId : Z
}.
Definition default : t := {| connectionId := []; value := 0; sessionId := 0 |}.
End ProducerId.

Module MessageId.
Record t := mk {
  textView : list Z;
  producerId : option ProducerId.t;
  producerSequenceId : Z;
  brokerSequenceId : Z
}.
Definition default : t := {| textView := []; producerId := None; producerSequenceId := 0;
    brokerSequenceId := 0 |}.
End MessageId.

Module LocalTransactionId.
Record t := mk {
  value : Z;
  connectionId : option ConnectionId.t
}.
Definition default : t := {| value := 0; connectionId := None |}.
End LocalTransactionId.

Module XATransactionId.
Record t := mk {
  formatId : Z;
  globalTransactionId : list Z;
  branchQualifier : list Z
}.
Definition default : t := {| formatId := 0; globalTransactionId := []; branchQualifier := [] |}.
End XATransactionId.

Module TransactionId.
Inductive t :=
| LocalTransactionId (id : LocalTransactionId.t)
| XATransactionId (id : XATransactionId.t).
End TransactionId.

(** No class of the library derives from BooleanExpression, which is abstract. *)
Module BooleanExpression.
Inductive t := .
End BooleanExpression.

(** ** Destinations

    The four concrete destinations differ in their kind; [connectionId] and
    [sequenceId] are members of the temporary ones. *)
Module ActiveMQDestination.
Inductive kind := Queue | Topic | TempQueue | TempTopic.

Record t := mk {
  destinationType : kind;
  physicalName : list Z;
  advisory : bool;
  options : list (list Z * list Z);
  connectionId : list Z;
  sequenceId : Z
}.

Definition default (k : kind) : t :=
  {| destinationType := k; physicalName := []; advisory := false; options := [];
     connectionId := []; sequenceId := 0 |}.

#[global] Instance kind_eq_dec : EqDecision kind.
Proof. solve_decision. Defined.
#[global] Instance t_eq_dec : EqDecision t.
Proof. solve_decision. Defined.

Definition isTemporary (k : kind) : bool :=
  match k with TempQueue | TempTopic => true | _ => false end.

Definition ADVISORY_TOPIC_PREFIX : list Z := str "ActiveMQ.Advisory.".

Section Names.
Context `{Platform}.

(** [find_first_of(ADVISORY_TOPIC_PREFIX) == 0] looks for any of the characters
    of the prefix. *)
Definition setPhysicalName_base (d : t) (name : list Z) : result t :=
  let pos := find_first_of name (str "?") (Some O) in
  rbind (match pos with
         | None => Ok (name, options d)
         | Some pos =>
           rbind (URISupport.parseQuery getenv (drop (pos + 1) name) (options d)) (fun opts =>
           Ok (take pos name, opts))
         end) (fun '(physical, opts) =>
  Ok {| destinationType := destinationType d; physicalName := physical;
        advisory := bool_decide (find_first_of name ADVISORY_TOPIC_PREFIX (Some O) = Some O);
        options := opts; connectionId := connectionId d; sequenceId := sequenceId d |}).

(** The override of the temporary destinations. *)
Definition setPhysicalName_temp (d : t) (name : list Z) : result t :=
  rbind (setPhysicalName_base d name) (fun d =>
  let '(conn, seq) :=
    match find_last 58 name with
    | None => ([], 0)
    | Some pos =>
      match drop (pos + 1) name with
      | [] => ([], 0)
      | seqStr => (take pos name, match Integer.parseInt seqStr with Ok n => n | Err _ => 0 end)
      end
    end in
  Ok {| destinationType := destinationType d; physicalName := physicalName d;
        advisory := advisory d; options := options d; connectionId := conn; sequenceId := seq |}).

Definition setPhysicalName (d : t) (name : list Z) : result t :=
  if isTemporary (destinationType d) then setPhysicalName_temp d name
  else setPhysicalName_base d name.
End Names.
End ActiveMQDestination.

(** ** Messages *)
Module Message.

(** What a message takes from the connection that sends it. *)
Record Connection := mkConnection { useCompression : bool; compressionLevel : Z }.

(** The concrete message classes with the members of their own that matter to
    marshalling. *)
Inductive kind :=
| ActiveMQMessage
| ActiveMQBytesMessage
| ActiveMQMapMessage (map : option PrimitiveMap)
| ActiveMQObjectMessage
| ActiveMQStreamMessage
| ActiveMQTextMessage (text : option (list Z))
| ActiveMQBlobMessage (remoteBlobUrl mimeType : list Z) (deletedByBroker : bool).

Record t {D : Type} := mk {
  messageKind : kind;
  base : BaseCommand.t;
  producerId : option ProducerId.t;
  destination : option ActiveMQDestination.t;
  transactionId : option TransactionId.t;
  originalDestination : option ActiveMQDestination.t;
  messageId : option MessageId.t;
  originalTransactionId : option TransactionId.t;
  groupID : list Z;
  groupSequence : Z;
  correlationId : list Z;
  persistent : bool;
  expiration : Z;
  priority : Z;
  replyTo : option ActiveMQDestination.t;
  timestamp : Z;
  type : list Z;
  content : list Z;
  marshalledProperties : list Z;
  dataStructure : option D;
  targetConsumerId : option ConsumerId.t;
  compressed : bool;
  redeliveryCounter : Z;
  brokerPath : list (option BrokerId.t);
  arrival : Z;
  userID : list Z;
  recievedByDFBridge : bool;
  droppable : bool;
  cluster : list (option BrokerId.t);
  brokerInTime : Z;
  brokerOutTime : Z;
  jMSXGroupFirstForConsumer : bool;
  properties : PrimitiveMap;
  readOnlyBody : bool;
  connection : option Connection
}.
Arguments t D : clear implicits.

Definition default {D} (k : kind) : t D := {| messageKind := k; base := BaseCommand.default;
    producerId := None; destination := None; transactionId := None; originalDestination := None;
    messageId := None; originalTransactionId := None; groupID := []; groupSequence := 0;
    correlationId := []; persistent := false; expiration := 0; priority := 0; replyTo := None;
    timestamp := 0; type := []; content := []; marshalledProperties := []; dataStructure := None;
    targetConsumerId := None; compressed := false; redeliveryCounter := 0; brokerPath := [];
    arrival := 0; userID := []; recievedByDFBridge := false; droppable := false; cluster := [];
    brokerInTime := 0; brokerOutTime := 0; jMSXGroupFirstForConsumer := false; properties := [];
    readOnlyBody := false; connection := None |}.

Definition set_body {D} (m : t D) (k : kind) (c : list Z) (z r : bool) : t D := {| messageKind :=
    k; base := base m; producerId := producerId m; destination := destination m; transactionId :=
    transactionId m; originalDestination := originalDestination m; messageId := messageId m;
    originalTransactionId := originalTransactionId m; groupID := groupID m; groupSequence :=
    groupSequence m; correlationId := correlationId m; persistent := persistent m; expiration :=
    expiration m; priority := priority m; replyTo := replyTo m; timestamp := timestamp m; type :=
    type m; content := c; marshalledProperties := marshalledProperties m; dataStructure :=
    dataStructure m; targetConsumerId := targetConsumerId m; compressed := z; redeliveryCounter :=
    redeliveryCounter m; brokerPath := brokerPath m; arrival := arrival m; userID := userID m;
    recievedByDFBridge := recievedByDFBridge m; droppable := droppable m; cluster := cluster m;
    brokerInTime := brokerInTime m; brokerOutTime := brokerOutTime m; jMSXGroupFirstForConsumer :=
    jMSXGroupFirstForConsumer m; properties := properties m; readOnlyBody := r; connection :=
    connection m |}.
Definition set_marshalledProperties {D} (m : t D) (l : list Z) : t D := {| messageKind :=
    messageKind m; base := base m; producerId := producerId m; destination := destination m;
    transactionId := transactionId m; originalDestination := originalDestination m; messageId :=
    messageId m; originalTransactionId := originalTransactionId m; groupID := groupID m;
    groupSequence := groupSequence m; correlationId := correlationId m; persistent := persistent
    m; expiration := expiration m; priority := priority m; replyTo := replyTo m; timestamp :=
    timestamp m; type := type m; content := content m; marshalledProperties := l; dataStructure :=
    dataStructure m; targetConsumerId := targetConsumerId m; compressed := compressed m;
    redeliveryCounter := redeliveryCounter m; brokerPath := brokerPath m; arrival := arrival m;
    userID := userID m; recievedByDFBridge := recievedByDFBridge m; droppable := droppable m;
    cluster := cluster m; brokerInTime := brokerInTime m; brokerOutTime := brokerOutTime m;
    jMSXGroupFirstForConsumer := jMSXGroupFirstForConsumer m; properties := properties m;
    readOnlyBody := readOnlyBody m; connection := connection m |}.
Definition set_properties {D} (m : t D) (p : PrimitiveMap) : t D := {| messageKind := messageKind
    m; base := base m; producerId := producerId m; destination := destination m; transactionId :=
    transactionId m; originalDestination := originalDestination m; messageId := messageId m;
    originalTransactionId := originalTransactionId m; groupID := groupID m; groupSequence :=
    groupSequence m; correlationId := correlationId m; persistent := persistent m; expiration :=
    expiration m; priority := priority m; replyTo := replyTo m; timestamp := timestamp m; type :=
    type m; content := content m; marshalledProperties := marshalledProperties m; dataStructure :=
    dataStructure m; targetConsumerId := targetConsumerId m; compressed := compressed m;
    redeliveryCounter := redeliveryCounter m; brokerPath := brokerPath m; arrival := arrival m;
    userID := userID m; recievedByDFBridge := recievedByDFBridge m; droppable := droppable m;
    cluster := cluster m; brokerInTime := brokerInTime m; brokerOutTime := brokerOutTime m;
    jMSXGroupFirstForConsumer := jMSXGroupFirstForConsumer m; properties := p; readOnlyBody :=
    readOnlyBody m; connection := connection m |}.
Definition set_dataStructure {D} (m : t D) (o : option D) : t D := {| messageKind := messageKind
    m; base := base m; producerId := producerId m; destination := destination m; transactionId :=
    transactionId m; originalDestination := originalDestination m; messageId := messageId m;
    originalTransactionId := originalTransactionId m; groupID := groupID m; groupSequence :=
    groupSequence m; correlationId := correlationId m; persistent := persistent m; expiration :=
    expiration m; priority := priority m; replyTo := replyTo m; timestamp := timestamp m; type :=
    type m; content := content m; marshalledProperties := marshalledProperties m; dataStructure :=
    o; targetConsumerId := targetConsumerId m; compressed := compressed m; redeliveryCounter :=
    redeliveryCounter m; brokerPath := brokerPath m; arrival := arrival m; userID := userID m;
    recievedByDFBridge := recievedByDFBridge m; droppable := droppable m; cluster := cluster m;
    brokerInTime := brokerInTime m; brokerOutTime := brokerOutTime m; jMSXGroupFirstForConsumer :=
    jMSXGroupFirstForConsumer m; properties := properties m; readOnlyBody := readOnlyBody m;
    connection := connection m |}.

Definition BINARY_MIME_TYPE : list Z := str "application/octet-stream".

(** [createObject] of the seven marshallers. *)
Definition fresh (k : kind) : kind :=
  match k with
  | ActiveMQMapMessage _ => ActiveMQMapMessage None
  | ActiveMQTextMessage _ => ActiveMQTextMessage None
  | ActiveMQBlobMessage _ _ _ => ActiveMQBlobMessage [] BINARY_MIME_TYPE false
  | k => k
  end.

Definition getDataStructureType {D} (m : t D) : Z :=
  match messageKind m with
  | ActiveMQMessage => 23 | ActiveMQBytesMessage => 24 | ActiveMQMapMessage _ => 25
  | ActiveMQObjectMessage => 26 | ActiveMQStreamMessage => 27 | ActiveMQTextMessage _ => 28
  | ActiveMQBlobMessage _ _ _ => 29
  end.

(** The exceptions that leave a hook. *)
Definition as_io {A} (r : result A) : result A :=
  match r with
  | Err (Throw e) => throw (if is_IOException e then e else IOException)
  | r => r
  end.

(** [Message::beforeMarshal] *)
Definition beforeMarshal_base {D} (m : t D) : result (t D) :=
  as_io (
    if StlMap.isEmpty (properties m) then Ok (set_marshalledProperties m [])
    else rbind (PrimitiveTypesMarshaller.marshal (Some (properties m)) []) (fun bytes =>
         Ok (set_marshalledProperties m bytes))).

(** [Message::afterUnmarshal] *)
Definition afterUnmarshal {D} (m : t D) : result (t D) :=
  as_io (
    rbind (PrimitiveTypesMarshaller.unmarshal (properties m) (marshalledProperties m)) (fun p =>
    Ok (set_properties m p))).

(** MarshallingSupport::writeString32 *)
Definition writeString32 (value : list Z) : M (list Z) unit :=
  catch_io (
    let strSize := to_s32 (zlen value) in
    DataOutputStream.writeInt strSize ;;;
    if 0 <? strSize then DataOutputStream.writeArray value strSize 0 strSize else ret ()).

(** MarshallingSupport::readString32 *)
Definition readString32 {St} `{InputStream St} : M St (list Z) :=
  catch_io (
    let* utfLength := DataInputStream.readInt in
    if 0 <? utfLength then DataInputStream.readFully utfLength else ret []).

Section Hooks.
Context `{Platform}.

(** The body goes through a DeflaterOutputStream when the connection asks for
    compression; the flag of the message is set then and never reset. *)
Definition store_body {D} (m : t D) (k : kind) (bytes : list Z) : t D :=
  match connection m with
  | Some c => if useCompression c
              then set_body m k (deflate (compressionLevel c) bytes) true (readOnlyBody m)
              else set_body m k bytes (compressed m) (readOnlyBody m)
  | None => set_body m k bytes (compressed m) (readOnlyBody m)
  end.

(** [ActiveMQTextMessage::beforeMarshal] *)
Definition beforeMarshal_text {D} (m : t D) (text : option (list Z)) : result (t D) :=
  rbind (beforeMarshal_base m) (fun m =>
  match text with
  | None => Ok m
  | Some text =>
    rbind (writeString32 text []) (fun '(_, bytes) =>
    Ok (store_body m (ActiveMQTextMessage None) bytes))
  end).

(** [ActiveMQMapMessage::beforeMarshal]: without entries the body is cleared,
    which leaves an empty map behind. *)
Definition beforeMarshal_map {D} (m : t D) (map : option PrimitiveMap) : result (t D) :=
  as_io (
    rbind (beforeMarshal_base m) (fun m =>
    match map with
    | Some ((_ :: _) as p) =>
      rbind (PrimitiveTypesMarshaller.marshalMap (Some p) []) (fun '(_, bytes) =>
      Ok (store_body m (ActiveMQMapMessage map) bytes))
    | _ => Ok (set_body m (ActiveMQMapMessage (Some [])) [] (compressed m) false)
    end)).

(** The virtual [beforeMarshal]; the marshaller of blob messages never calls it. *)
Definition beforeMarshal {D} (m : t D) : result (t D) :=
  match messageKind m with
  | ActiveMQTextMessage text => beforeMarshal_text m text
  | ActiveMQMapMessage map => beforeMarshal_map m map
  | _ => beforeMarshal_base m
  end.
End Hooks.
End Message.

(** ** The wire format command *)
Module WireFormatInfo.
Record t := mk {
  base : BaseCommand.t;
  magic : list Z;
  version : Z;
  marshalledProperties : list Z;
  properties : PrimitiveMap
}.
Definition default : t :=
  {| base := BaseCommand.default; magic := str "ActiveMQ"; version := 5;
     marshalledProperties := []; properties := [] |}.

Definition set_marshalledProperties (i : t) (l : list Z) : t :=
  {| base := base i; magic := magic i; version := version i; marshalledProperties := l;
     properties := properties i |}.
Definition set_properties (i : t) (p : PrimitiveMap) : t :=
  {| base := base i; magic := magic i; version := version i;
     marshalledProperties := marshalledProperties i; properties := p |}.

Definition isValid (i : t) : bool := bool_decide (magic i = str "ActiveMQ").

Definition beforeMarshal (i : t) : result t :=
  Message.as_io (
    if StlMap.isEmpty (properties i) then Ok (set_marshalledProperties i [])
    else rbind (PrimitiveTypesMarshaller.marshal (Some (properties i)) []) (fun bytes =>
         Ok (set_marshalledProperties i bytes))).

Definition afterUnmarshal (i : t) : result t :=
  Message.as_io (
    rbind (PrimitiveTypesMarshaller.unmarshal (properties i) (marshalledProperties i)) (fun p =>
    Ok (set_properties i p))).

(** [Boolean::parseBoolean]: the C string compared without regard to case. *)
Fixpoint c_str (s : list Z) : list Z :=
  match s with [] => [] | c :: s => if c =? 0 then [] else c :: c_str s end.
Definition parseBoolean (s : list Z) : bool :=
  bool_decide (map (fun c => if (65 <=? c) && (c <=? 90) then c + 32 else c) (c_str s) = str "true").

(** The options; a getter answers the default where the key is missing or its
    value is of another type.  [PrimitiveMap::getBool] and its like, with the
    conversions of PrimitiveValueConverter from the integral types. *)
Definition getBool (i : t) (key : list Z) : bool :=
  match StlMap.find key (properties i) with
  | Some (BOOLEAN_TYPE b) => b
  | Some (STRING_TYPE s) => parseBoolean s
  | _ => false
  end.
Definition getInt (i : t) (key : list Z) : Z :=
  match StlMap.find key (properties i) with
  | Some (BYTE_TYPE v) | Some (SHORT_TYPE v) | Some (INTEGER_TYPE v) => v
  | Some (STRING_TYPE s) => match Integer.parseInt s with Ok v => v | Err _ => 0 end
  | _ => 0
  end.
Definition getLong (i : t) (key : list Z) : Z :=
  match StlMap.find key (properties i) with
  | Some (BYTE_TYPE v) | Some (SHORT_TYPE v) | Some (INTEGER_TYPE v) | Some (LONG_TYPE v) => v
  | Some (STRING_TYPE s) => match Long.parseLong s with Ok v => v | Err _ => 0 end
  | _ => 0
  end.
Definition setBool (i : t) (key : list Z) (b : bool) : t :=
  set_properties i (StlMap.put key (BOOLEAN_TYPE b) (properties i)).
Definition isStackTraceEnabled (i : t) : bool := getBool i (str "StackTraceEnabled").
Definition isTcpNoDelayEnabled (i : t) : bool := getBool i (str "TcpNoDelayEnabled").
Definition isCacheEnabled (i : t) : bool := false.
Definition isTightEncodingEnabled (i : t) : bool := getBool i (str "TightEncodingEnabled").
Definition isSizePrefixDisabled (i : t) : bool := getBool i (str "SizePrefixDisabled").
Definition getCacheSize (i : t) : Z := getInt i (str "CacheSize").
Definition getMaxInactivityDuration (i : t) : Z := getLong i (str "MaxInactivityDuration").
Definition getMaxInactivityDurationInitalDelay (i : t) : Z := getLong i (str "MaxInactivityDurationInitalDelay").
End WireFormatInfo.

(** ** The other commands *)
Module BrokerInfo.
Inductive t := mk {
  base : BaseCommand.t;
  brokerId : option BrokerId.t;
  brokerURL : list Z;
  peerBrokerInfos : list (option t);
  brokerName : list Z;
  slaveBroker : bool;
  masterBroker : bool;
  faultTolerantConfiguration : bool;
  duplexConnection : bool;
  networkConnection : bool;
  connectionId : Z;
  brokerUploadUrl : list Z;
  networkProperties : list Z
}.
Definition default : t := {| base := BaseCommand.default; brokerId := None; brokerURL := [];
    peerBrokerInfos := []; brokerName := []; slaveBroker := false; masterBroker := false;
    faultTolerantConfiguration := false; duplexConnection := false; networkConnection := false;
    connectionId := 0; brokerUploadUrl := []; networkProperties := [] |}.
End BrokerInfo.

Module MessageAck.
Record t := mk {
  base : BaseCommand.t;
  destination : option ActiveMQDestination.t;
  transactionId : option TransactionId.t;
  consumerId : option ConsumerId.t;
  ackType : Z;
  firstMessageId : option MessageId.t;
  lastMessageId : option MessageId.t;
  messageCount : Z;
  poisonCause : option BrokerError.t
}.
Definition default : t := {| base := BaseCommand.default; destination := None; transactionId :=
    None; consumerId := None; ackType := 0; firstMessageId := None; lastMessageId := None;
    messageCount := 0; poisonCause := None |}.
End MessageAck.

Module PartialCommand.
Record t := mk {
  commandId : Z;
  data : list Z
}.
Definition default : t := {| commandId := 0; data := [] |}.
End PartialCommand.

Module Response.
Record t := mk {
  base : BaseCommand.t;
  correlationId : Z
}.
Definition default : t := {| base := BaseCommand.default; correlationId := 0 |}.
End Response.

Module ConnectionControl.
Record t := mk {
  base : BaseCommand.t;
  close : bool;
  exit : bool;
  faultTolerant : bool;
  resume : bool;
  suspend : bool;
  connectedBrokers : list Z;
  reconnectTo : list Z;
  rebalanceConnection : bool;
  token : list Z
}.
Definition default : t := {| base := BaseCommand.default; close := false; exit := false;
    faultTolerant := false; resume := false; suspend := false; connectedBrokers := []; reconnectTo
    := []; rebalanceConnection := false; token := [] |}.
End ConnectionControl.

Module ConnectionError.
Record t := mk {
  base : BaseCommand.t;
  exception : option BrokerError.t;
  connectionId : option ConnectionId.t
}.
Definition default : t := {| base := BaseCommand.default; exception := None; connectionId := None
    |}.
End ConnectionError.

Module ConnectionInfo.
Record t := mk {
  base : BaseCommand.t;
  connectionId : option ConnectionId.t;
  clientId : list Z;
  password : list Z;
  userName : list Z;
  brokerPath : list (option BrokerId.t);
  brokerMasterConnector : bool;
  manageable : bool;
  clientMaster : bool;
  faultTolerant : bool;
  failoverReconnect : bool;
  clientIp : list Z
}.
Definition default : t := {| base := BaseCommand.default; connectionId := None; clientId := [];
    password := []; userName := []; brokerPath := []; brokerMasterConnector := false; manageable
    := false; clientMaster := false; faultTolerant := false; failoverReconnect := false; clientIp
    := [] |}.
End ConnectionInfo.

Module ConsumerControl.
Record t := mk {
  base : BaseCommand.t;
  destination : option ActiveMQDestination.t;
  close : bool;
  consumerId : option ConsumerId.t;
  prefetch : Z;
  flush : bool;
  start : bool;
  stop : bool
}.
Definition default : t := {| base := BaseCommand.default; destination := None; close := false;
    consumerId := None; prefetch := 0; flush := false; start := false; stop := false |}.
End ConsumerControl.

Module ConsumerInfo.
Record t := mk {
  base : BaseCommand.t;
  consumerId : option ConsumerId.t;
  browser : bool;
  destination : option ActiveMQDestination.t;
  prefetchSize : Z;
  maximumPendingMessageLimit : Z;
  dispatchAsync : bool;
  selector : list Z;
  clientId : list Z;
  subscriptionName : list Z;
  noLocal : bool;
  exclusive : bool;
  retroactive : bool;
  priority : Z;
  brokerPath : list (option BrokerId.t);
  additionalPredicate : option BooleanExpression.t;
  networkSubscription : bool;
  optimizedAcknowledge : bool;
  noRangeAcks : bool;
  networkConsumerPath : list (option ConsumerId.t)
}.
Definition default : t := {| base := BaseCommand.default; consumerId := None; browser := false;
    destination := None; prefetchSize := 0; maximumPendingMessageLimit := 0; dispatchAsync :=
    false; selector := []; clientId := []; subscriptionName := []; noLocal := false; exclusive :=
    false; retroactive := false; priority := 0; brokerPath := []; additionalPredicate := None;
    networkSubscription := false; optimizedAcknowledge := false; noRangeAcks := false;
    networkConsumerPath := [] |}.
End ConsumerInfo.

Module ControlCommand.
Record t := mk {
  base : BaseCommand.t;
  command : list Z
}.
Definition default : t := {| base := BaseCommand.default; command := [] |}.
End ControlCommand.

Module DataArrayResponse.
Record t {D : Type} := mk {
  base : Response.t;
  data : list (option D)
}.
Arguments t D : clear implicits.
Definition default {D} : t D := {| base := Response.default; data := [] |}.
End DataArrayResponse.

Module DataResponse.
Record t {D : Type} := mk {
  base : Response.t;
  data : option D
}.
Arguments t D : clear implicits.
Definition default {D} : t D := {| base := Response.default; data := None |}.
End DataResponse.

Module DestinationInfo.
Record t := mk {
  base : BaseCommand.t;
  connectionId : option ConnectionId.t;
  destination : option ActiveMQDestination.t;
  operationType : Z;
  timeout : Z;
  brokerPath : list (option BrokerId.t)
}.
Definition default : t := {| base := BaseCommand.default; connectionId := None; destination :=
    None; operationType := 0; timeout := 0; brokerPath := [] |}.
End DestinationInfo.

Module DiscoveryEvent.
Record t := mk {
  serviceName : list Z;
  brokerName : list Z
}.
Definition default : t := {| serviceName := []; brokerName := [] |}.
End DiscoveryEvent.

Module ExceptionResponse.
Record t := mk {
  base : Response.t;
  exception : option BrokerError.t
}.
Definition default : t := {| base := Response.default; exception := None |}.
End ExceptionResponse.

Module FlushCommand.
Record t := mk {
  base : BaseCommand.t
}.
Definition default : t := {| base := BaseCommand.default |}.
End FlushCommand.

Module IntegerResponse.
Record t := mk {
  base : Response.t;
  result : Z
}.
Definition default : t := {| base := Response.default; result := 0 |}.
End IntegerResponse.

Module JournalQueueAck.
Record t := mk {
  destination : option ActiveMQDestination.t;
  messageAck : option MessageAck.t
}.
Definition default : t := {| destination := None; messageAck := None |}.
End JournalQueueAck.

Module JournalTopicAck.
Record t := mk {
  destination : option ActiveMQDestination.t;
  messageId : option MessageId.t;
  messageSequenceId : Z;
  subscritionName : list Z;
  clientId : list Z;
  transactionId : option TransactionId.t
}.
Definition default : t := {| destination := None; messageId := None; messageSequenceId := 0;
    subscritionName := []; clientId := []; transactionId := None |}.
End JournalTopicAck.

Module JournalTrace.
Record t := mk {
  message : list Z
}.
Definition default : t := {| message := [] |}.
End JournalTrace.

Module JournalTransaction.
Record t := mk {
  transactionId : option TransactionId.t;
  type : Z;
  wasPrepared : bool
}.
Definition default : t := {| transactionId := None; type := 0; wasPrepared := false |}.
End JournalTransaction.

Module KeepAliveInfo.
Record t := mk {
  base : BaseCommand.t
}.
Definition default : t := {| base := BaseCommand.default |}.
End KeepAliveInfo.

Module LastPartialCommand.
Record t := mk {
  base : PartialCommand.t
}.
Definition default : t := {| base := PartialCommand.default |}.
End LastPartialCommand.

Module MessageDispatch.
Record t {D : Type} := mk {
  base : BaseCommand.t;
  consumerId : option ConsumerId.t;
  destination : option ActiveMQDestination.t;
  message : option (Message.t D);
  redeliveryCounter : Z
}.
Arguments t D : clear implicits.
Definition default {D} : t D := {| base := BaseCommand.default; consumerId := None; destination :=
    None; message := None; redeliveryCounter := 0 |}.
End MessageDispatch.

Module MessageDispatchNotification.
Record t := mk {
  base : BaseCommand.t;
  consumerId : option ConsumerId.t;
  destination : option ActiveMQDestination.t;
  deliverySequenceId : Z;
  messageId : option MessageId.t
}.
Definition default : t := {| base := BaseCommand.default; consumerId := None; destination := None;
    deliverySequenceId := 0; messageId := None |}.
End MessageDispatchNotification.

Module MessagePull.
Record t := mk {
  base : BaseCommand.t;
  consumerId : option ConsumerId.t;
  destination : option ActiveMQDestination.t;
  timeout : Z;
  correlationId : list Z;
  messageId : option MessageId.t
}.
Definition default : t := {| base := BaseCommand.default; consumerId := None; destination := None;
    timeout := 0; correlationId := []; messageId := None |}.
End MessagePull.

Module NetworkBridgeFilter.
Record t := mk {
  networkBrokerId : option BrokerId.t;
  messageTTL : Z;
  consumerTTL : Z
}.
Definition default : t := {| networkBrokerId := None; messageTTL := 0; consumerTTL := 0 |}.
End NetworkBridgeFilter.

Module ProducerAck.
Record t := mk {
  base : BaseCommand.t;
  producerId : option ProducerId.t;
  size : Z
}.
Definition default : t := {| base := BaseCommand.default; producerId := None; size := 0 |}.
End ProducerAck.

Module ProducerInfo.
Record t := mk {
  base : BaseCommand.t;
  producerId : option ProducerId.t;
  destination : option ActiveMQDestination.t;
  brokerPath : list (option BrokerId.t);
  dispatchAsync : bool;
  windowSize : Z
}.
Definition default : t := {| base := BaseCommand.default; producerId := None; destination := None;
    brokerPath := []; dispatchAsync := false; windowSize := 0 |}.
End ProducerInfo.

Module RemoveInfo.
Record t {D : Type} := mk {
  base : BaseCommand.t;
  objectId : option D;
  lastDeliveredSequenceId : Z
}.
Arguments t D : clear implicits.
Definition default {D} : t D := {| base := BaseCommand.default; objectId := None;
    lastDeliveredSequenceId := 0 |}.
End RemoveInfo.

Module RemoveSubscriptionInfo.
Record t := mk {
  base : BaseCommand.t;
  connectionId : option ConnectionId.t;
  subcriptionName : list Z;
  clientId : list Z
}.
Definition default : t := {| base := BaseCommand.default; connectionId := None; subcriptionName :=
    []; clientId := [] |}.
End RemoveSubscriptionInfo.

Module ReplayCommand.
Record t := mk {
  base : BaseCommand.t;
  firstNakNumber : Z;
  lastNakNumber : Z
}.
Definition default : t := {| base := BaseCommand.default; firstNakNumber := 0; lastNakNumber := 0
    |}.
End ReplayCommand.

Module SessionInfo.
Record t := mk {
  base : BaseCommand.t;
  sessionId : option SessionId.t
}.
Definition default : t := {| base := BaseCommand.default; sessionId := None |}.
End SessionInfo.

Module ShutdownInfo.
Record t := mk {
  base : BaseCommand.t
}.
Definition default : t := {| base := BaseCommand.default |}.
End ShutdownInfo.

Module SubscriptionInfo.
Record t := mk {
  clientId : list Z;
  destination : option ActiveMQDestination.t;
  selector : list Z;
  subcriptionName : list Z;
  subscribedDestination : option ActiveMQDestination.t;
  noLocal : bool
}.
Definition default : t := {| clientId := []; destination := None; selector := []; subcriptionName
    := []; subscribedDestination := None; noLocal := false |}.
End SubscriptionInfo.

Module TransactionInfo.
Record t := mk {
  base : BaseCommand.t;
  connectionId : option ConnectionId.t;
  transactionId : option TransactionId.t;
  type : Z
}.
Definition default : t := {| base := BaseCommand.default; connectionId := None; transactionId :=
    None; type := 0 |}.
End TransactionInfo.

(** ** Data structures *)
Inductive DataStructure :=
| DDestination (d : ActiveMQDestination.t)
| DTransactionId (t : TransactionId.t)
| DMessage (m : Message.t DataStructure)
| DBrokerId (i : BrokerId.t)
| DBrokerInfo (i : BrokerInfo.t)
| DConnectionControl (i : ConnectionControl.t)
| DConnectionError (i : ConnectionError.t)
| DConnectionId (i : ConnectionId.t)
| DConnectionInfo (i : ConnectionInfo.t)
| DConsumerControl (i : ConsumerControl.t)
| DConsumerId (i : ConsumerId.t)
| DConsumerInfo (i : ConsumerInfo.t)
| DControlCommand (i : ControlCommand.t)
| DDataArrayResponse (i : DataArrayResponse.t DataStructure)
| DDataResponse (i : DataResponse.t DataStructure)
| DDestinationInfo (i : DestinationInfo.t)
| DDiscoveryEvent (i : DiscoveryEvent.t)
| DExceptionResponse (i : ExceptionResponse.t)
| DFlushCommand (i : FlushCommand.t)
| DIntegerResponse (i : IntegerResponse.t)
| DJournalQueueAck (i : JournalQueueAck.t)
| DJournalTopicAck (i : JournalTopicAck.t)
| DJournalTrace (i : JournalTrace.t)
| DJournalTransaction (i : JournalTransaction.t)
| DKeepAliveInfo (i : KeepAliveInfo.t)
| DLastPartialCommand (i : LastPartialCommand.t)
| DMessageAck (i : MessageAck.t)
| DMessageDispatch (i : MessageDispatch.t DataStructure)
| DMessageDispatchNotification (i : MessageDispatchNotification.t)
| DMessageId (i : MessageId.t)
| DMessagePull (i : MessagePull.t)
| DNetworkBridgeFilter (i : NetworkBridgeFilter.t)
| DPartialCommand (i : PartialCommand.t)
| DProducerAck (i : ProducerAck.t)
| DProducerId (i : ProducerId.t)
| DProducerInfo (i : ProducerInfo.t)
| DRemoveInfo (i : RemoveInfo.t DataStructure)
| DRemoveSubscriptionInfo (i : RemoveSubscriptionInfo.t)
| DReplayCommand (i : ReplayCommand.t)
| DResponse (i : Response.t)
| DSessionId (i : SessionId.t)
| DSessionInfo (i : SessionInfo.t)
| DShutdownInfo (i : ShutdownInfo.t)
| DSubscriptionInfo (i : SubscriptionInfo.t)
| DTransactionInfo (i : TransactionInfo.t)
| DWireFormatInfo (i : WireFormatInfo.t).

Definition destination_type (k : ActiveMQDestination.kind) : Z :=
  match k with
  | ActiveMQDestination.Queue => 100 | ActiveMQDestination.Topic => 101
  | ActiveMQDestination.TempQueue => 102 | ActiveMQDestination.TempTopic => 103
  end.

Definition transaction_type (t : TransactionId.t) : Z :=
  match t with TransactionId.LocalTransactionId _ => 111 | TransactionId.XATransactionId _ => 112 end.

(** [getDataStructureType] *)
Definition getDataStructureType (d : DataStructure) : Z :=
  match d with
  | DDestination d => destination_type (ActiveMQDestination.destinationType d)
  | DTransactionId t => transaction_type t
  | DMessage m => Message.getDataStructureType m
  | DBrokerId _ => 124
  | DBrokerInfo _ => 2
  | DConnectionControl _ => 18
  | DConnectionError _ => 16
  | DConnectionId _ => 120
  | DConnectionInfo _ => 3
  | DConsumerControl _ => 17
  | DConsumerId _ => 122
  | DConsumerInfo _ => 5
  | DControlCommand _ => 14
  | DDataArrayResponse _ => 33
  | DDataResponse _ => 32
  | DDestinationInfo _ => 8
  | DDiscoveryEvent _ => 40
  | DExceptionResponse _ => 31
  | DFlushCommand _ => 15
  | DIntegerResponse _ => 34
  | DJournalQueueAck _ => 52
  | DJournalTopicAck _ => 50
  | DJournalTrace _ => 53
  | DJournalTransaction _ => 54
  | DKeepAliveInfo _ => 10
  | DLastPartialCommand _ => 61
  | DMessageAck _ => 22
  | DMessageDispatch _ => 21
  | DMessageDispatchNotification _ => 90
  | DMessageId _ => 110
  | DMessagePull _ => 20
  | DNetworkBridgeFilter _ => 91
  | DPartialCommand _ => 60
  | DProducerAck _ => 19
  | DProducerId _ => 123
  | DProducerInfo _ => 6
  | DRemoveInfo _ => 12
  | DRemoveSubscriptionInfo _ => 9
  | DReplayCommand _ => 65
  | DResponse _ => 30
  | DSessionId _ => 121
  | DSessionInfo _ => 4
  | DShutdownInfo _ => 11
  | DSubscriptionInfo _ => 55
  | DTransactionInfo _ => 7
  | DWireFormatInfo _ => 1
  end.

(** [isMarshalAware]: the messages and the wire format command. *)
Definition isMarshalAware (d : DataStructure) : bool :=
  match d with DMessage _ | DWireFormatInfo _ => true | _ => false end.

(** The classes derived from Command. *)
Definition isCommand (d : DataStructure) : bool :=
  match d with
  | DDestination _ | DTransactionId _
  | DBrokerId _
  | DConnectionId _
  | DConsumerId _
  | DDiscoveryEvent _
  | DJournalQueueAck _
  | DJournalTopicAck _
  | DJournalTrace _
  | DJournalTransaction _
  | DLastPartialCommand _
  | DMessageId _
  | DNetworkBridgeFilter _
  | DPartialCommand _
  | DProducerId _
  | DSessionId _
  | DSubscriptionInfo _ => false
  | _ => true
  end.

(** [dynamic_cast] to a class. *)
Definition as_DataStructure (d : DataStructure) : option DataStructure := Some d.
Definition as_ActiveMQDestination (d : DataStructure) : option ActiveMQDestination.t :=
  match d with DDestination x => Some x | _ => None end.
Definition as_TransactionId (d : DataStructure) : option TransactionId.t :=
  match d with DTransactionId x => Some x | _ => None end.
Definition as_Message (d : DataStructure) : option (Message.t DataStructure) :=
  match d with DMessage x => Some x | _ => None end.
Definition as_BooleanExpression (d : DataStructure) : option BooleanExpression.t := None.
Definition DBooleanExpression (b : BooleanExpression.t) : DataStructure := match b with end.
Definition as_BrokerId (d : DataStructure) : option BrokerId.t :=
  match d with DBrokerId x => Some x | _ => None end.
Definition as_BrokerInfo (d : DataStructure) : option BrokerInfo.t :=
  match d with DBrokerInfo x => Some x | _ => None end.
Definition as_ConnectionControl (d : DataStructure) : option ConnectionControl.t :=
  match d with DConnectionControl x => Some x | _ => None end.
Definition as_ConnectionError (d : DataStructure) : option ConnectionError.t :=
  match d with DConnectionError x => Some x | _ => None end.
Definition as_ConnectionId (d : DataStructure) : option ConnectionId.t :=
  match d with DConnectionId x => Some x | _ => None end.
Definition as_ConnectionInfo (d : DataStructure) : option ConnectionInfo.t :=
  match d with DConnectionInfo x => Some x | _ => None end.
Definition as_ConsumerControl (d : DataStructure) : option ConsumerControl.t :=
  match d with DConsumerControl x => Some x | _ => None end.
Definition as_ConsumerId (d : DataStructure) : option ConsumerId.t :=
  match d with DConsumerId x => Some x | _ => None end.
Definition as_ConsumerInfo (d : DataStructure) : option ConsumerInfo.t :=
  match d with DConsumerInfo x => Some x | _ => None end.
Definition as_ControlCommand (d : DataStructure) : option ControlCommand.t :=
  match d with DControlCommand x => Some x | _ => None end.
Definition as_DataArrayResponse (d : DataStructure) : option (DataArrayResponse.t DataStructure) :=
  match d with DDataArrayResponse x => Some x | _ => None end.
Definition as_DataResponse (d : DataStructure) : option (DataResponse.t DataStructure) :=
  match d with DDataResponse x => Some x | _ => None end.
Definition as_DestinationInfo (d : DataStructure) : option DestinationInfo.t :=
  match d with DDestinationInfo x => Some x | _ => None end.
Definition as_DiscoveryEvent (d : DataStructure) : option DiscoveryEvent.t :=
  match d with DDiscoveryEvent x => Some x | _ => None end.
Definition as_ExceptionResponse (d : DataStructure) : option ExceptionResponse.t :=
  match d with DExceptionResponse x => Some x | _ => None end.
Definition as_FlushCommand (d : DataStructure) : option FlushCommand.t :=
  match d with DFlushCommand x => Some x | _ => None end.
Definition as_IntegerResponse (d : DataStructure) : option IntegerResponse.t :=
  match d with DIntegerResponse x => Some x | _ => None end.
Definition as_JournalQueueAck (d : DataStructure) : option JournalQueueAck.t :=
  match d with DJournalQueueAck x => Some x | _ => None end.
Definition as_JournalTopicAck (d : DataStructure) : option JournalTopicAck.t :=
  match d with DJournalTopicAck x => Some x | _ => None end.
Definition as_JournalTrace (d : DataStructure) : option JournalTrace.t :=
  match d with DJournalTrace x => Some x | _ => None end.
Definition as_JournalTransaction (d : DataStructure) : option JournalTransaction.t :=
  match d with DJournalTransaction x => Some x | _ => None end.
Definition as_KeepAliveInfo (d : DataStructure) : option KeepAliveInfo.t :=
  match d with DKeepAliveInfo x => Some x | _ => None end.
Definition as_LastPartialCommand (d : DataStructure) : option LastPartialCommand.t :=
  match d with DLastPartialCommand x => Some x | _ => None end.
Definition as_MessageAck (d : DataStructure) : option MessageAck.t :=
  match d with DMessageAck x => Some x | _ => None end.
Definition as_MessageDispatch (d : DataStructure) : option (MessageDispatch.t DataStructure) :=
  match d with DMessageDispatch x => Some x | _ => None end.
Definition as_MessageDispatchNotification (d : DataStructure) : option MessageDispatchNotification.t :=
  match d with DMessageDispatchNotification x => Some x | _ => None end.
Definition as_MessageId (d : DataStructure) : option MessageId.t :=
  match d with DMessageId x => Some x | _ => None end.
Definition as_MessagePull (d : DataStructure) : option MessagePull.t :=
  match d with DMessagePull x => Some x | _ => None end.
Definition as_NetworkBridgeFilter (d : DataStructure) : option NetworkBridgeFilter.t :=
  match d with DNetworkBridgeFilter x => Some x | _ => None end.
Definition as_PartialCommand (d : DataStructure) : option PartialCommand.t :=
  match d with DPartialCommand x => Some x | _ => None end.
Definition as_ProducerAck (d : DataStructure) : option ProducerAck.t :=
  match d with DProducerAck x => Some x | _ => None end.
Definition as_ProducerId (d : DataStructure) : option ProducerId.t :=
  match d with DProducerId x => Some x | _ => None end.
Definition as_ProducerInfo (d : DataStructure) : option ProducerInfo.t :=
  match d with DProducerInfo x => Some x | _ => None end.
Definition as_RemoveInfo (d : DataStructure) : option (RemoveInfo.t DataStructure) :=
  match d with DRemoveInfo x => Some x | _ => None end.
Definition as_RemoveSubscriptionInfo (d : DataStructure) : option RemoveSubscriptionInfo.t :=
  match d with DRemoveSubscriptionInfo x => Some x | _ => None end.
Definition as_ReplayCommand (d : DataStructure) : option ReplayCommand.t :=
  match d with DReplayCommand x => Some x | _ => None end.
Definition as_Response (d : DataStructure) : option Response.t :=
  match d with DResponse x => Some x | _ => None end.
Definition as_SessionId (d : DataStructure) : option SessionId.t :=
  match d with DSessionId x => Some x | _ => None end.
Definition as_SessionInfo (d : DataStructure) : option SessionInfo.t :=
  match d with DSessionInfo x => Some x | _ => None end.
Definition as_ShutdownInfo (d : DataStructure) : option ShutdownInfo.t :=
  match d with DShutdownInfo x => Some x | _ => None end.
Definition as_SubscriptionInfo (d : DataStructure) : option SubscriptionInfo.t :=
  match d with DSubscriptionInfo x => Some x | _ => None end.
Definition as_TransactionInfo (d : DataStructure) : option TransactionInfo.t :=
  match d with DTransactionInfo x => Some x | _ => None end.
Definition as_WireFormatInfo (d : DataStructure) : option WireFormatInfo.t :=
  match d with DWireFormatInfo x => Some x | _ => None end.
