(* ===== verification/Layouts.v ===== *)
(** * The layouts of the commands

    What every command looks like on the wire for a version of the protocol
    and for stack traces enabled or not ([WireOptions]): a layout (Wire.v) per
    class, and [wire] for an arbitrary data structure.  These are the
    specification the marshallers are proved against.

    A pointer to an object is laid out by [obj]: a flag, then its type, then
    (for the classes that cache a marshalled form) an unset tight flag, then the
    object.  A field that exists from a version on is absent before it, and the
    layout then requires the field to have its default value.

    [mutate] is what the marshalling hooks make of the object that is sent and
    [arrived] what the receiver makes of the fields it is given. *)

From S2P Require Import Prelude DataStreams PrimitiveTypes Support BooleanStreams Wire BaseMarshaller Commands.

(** What was negotiated with the broker: [getVersion] and [isStackTraceEnabled]
    of the wire format. *)
Class WireOptions := {
  wireVersion : Z;
  stackTraceEnabled : bool
}.

Definition obj {X} (type : X -> Z) (aware : X -> bool) (lay : X -> layout) (o : option X) : layout :=
  match o with
  | None => [FBool false]
  | Some x => FBool true :: FByte (type x) :: (if aware x then [FTightBit false] else []) ++ lay x
  end.

Definition arr {X} (f : option X -> layout) (l : list (option X)) : layout :=
  match l with
  | [] => [FBool false]
  | _ => FBool true :: FReq (zlen l <=? 32767) :: FShort (zlen l) :: flat_map f l
  end.

Section Layouts.
Context `{Platform} `{WireOptions}.

Definition BaseCommand_layout (i : BaseCommand.t) : layout :=
  [FInt (BaseCommand.commandId i)] ++
  [FBool (BaseCommand.responseRequired i)].
Definition BrokerId_layout (i : BrokerId.t) : layout :=
  [FString (BrokerId.value i)].
Definition obj_BrokerId : option BrokerId.t -> layout := obj (fun _ => 124) (fun _ => false) BrokerId_layout.

Definition ConnectionId_layout (i : ConnectionId.t) : layout :=
  [FString (ConnectionId.value i)].
Definition obj_ConnectionId : option ConnectionId.t -> layout := obj (fun _ => 120) (fun _ => false) ConnectionId_layout.

Definition SessionId_layout (i : SessionId.t) : layout :=
  [FString (SessionId.connectionId i)] ++
  [FLong (SessionId.value i)].
Definition obj_SessionId : option SessionId.t -> layout := obj (fun _ => 121) (fun _ => false) SessionId_layout.

Definition ConsumerId_layout (i : ConsumerId.t) : layout :=
  [FString (ConsumerId.connectionId i)] ++
  [FLong (ConsumerId.sessionId i)] ++
  [FLong (ConsumerId.value i)].
Definition obj_ConsumerId : option ConsumerId.t -> layout := obj (fun _ => 122) (fun _ => false) ConsumerId_layout.

Definition ProducerId_layout (i : ProducerId.t) : layout :=
  [FString (ProducerId.connectionId i)] ++
  [FLong (ProducerId.value i)] ++
  [FLong (ProducerId.sessionId i)].
Definition obj_ProducerId : option ProducerId.t -> layout := obj (fun _ => 123) (fun _ => false) ProducerId_layout.

Definition MessageId_layout (i : MessageId.t) : layout :=
  (if 10 <=? wireVersion then [FString (MessageId.textView i)] else [FReq (bool_decide (MessageId.textView i = []))]) ++
  obj_ProducerId (MessageId.producerId i) ++
  [FLong (MessageId.producerSequenceId i)] ++
  [FLong (MessageId.brokerSequenceId i)].
Definition obj_MessageId : option MessageId.t -> layout := obj (fun _ => 110) (fun _ => false) MessageId_layout.

Definition LocalTransactionId_layout (i : LocalTransactionId.t) : layout :=
  [FLong (LocalTransactionId.value i)] ++
  obj_ConnectionId (LocalTransactionId.connectionId i).
Definition XATransactionId_layout (i : XATransactionId.t) : layout :=
  [FInt (XATransactionId.formatId i)] ++
  bytes_layout (XATransactionId.globalTransactionId i) ++
  bytes_layout (XATransactionId.branchQualifier i).
Definition TransactionId_layout (t : TransactionId.t) : layout :=
  match t with
  | TransactionId.LocalTransactionId i => LocalTransactionId_layout i
  | TransactionId.XATransactionId i => XATransactionId_layout i
  end.
(** There is no object of this class. *)
Definition obj_BooleanExpression (o : option BooleanExpression.t) : layout := [FBool false].
Definition obj_TransactionId : option TransactionId.t -> layout :=
  obj transaction_type (fun _ => false) TransactionId_layout.

(** The name is all that travels: the rest of a destination is what
    [setPhysicalName] makes of it. *)
Definition destination_ok (d : ActiveMQDestination.t) : bool :=
  bool_decide (ActiveMQDestination.setPhysicalName
    (ActiveMQDestination.default (ActiveMQDestination.destinationType d))
    (ActiveMQDestination.physicalName d) = Ok d).
Definition ActiveMQDestination_layout (d : ActiveMQDestination.t) : layout :=
  [FReq (destination_ok d)] ++ [FString (ActiveMQDestination.physicalName d)].
Definition obj_ActiveMQDestination : option ActiveMQDestination.t -> layout :=
  obj (fun d => destination_type (ActiveMQDestination.destinationType d)) (fun _ => false)
    ActiveMQDestination_layout.

(** Properties the receiver can read. *)
Definition properties_ok (l : list Z) : bool := is_Ok (PrimitiveTypesMarshaller.unmarshal [] l).

Definition MessageFields_layout {D} (nestD : option D -> layout) (i : Message.t D) : layout :=
  BaseCommand_layout (Message.base i) ++
  obj_ProducerId (Message.producerId i) ++
  obj_ActiveMQDestination (Message.destination i) ++
  obj_TransactionId (Message.transactionId i) ++
  obj_ActiveMQDestination (Message.originalDestination i) ++
  obj_MessageId (Message.messageId i) ++
  obj_TransactionId (Message.originalTransactionId i) ++
  [FString (Message.groupID i)] ++
  [FInt (Message.groupSequence i)] ++
  [FString (Message.correlationId i)] ++
  [FBool (Message.persistent i)] ++
  [FLong (Message.expiration i)] ++
  [FByte (Message.priority i)] ++
  obj_ActiveMQDestination (Message.replyTo i) ++
  [FLong (Message.timestamp i)] ++
  [FString (Message.type i)] ++
  bytes_layout (Message.content i) ++
  bytes_layout (Message.marshalledProperties i) ++
  nestD (Message.dataStructure i) ++
  obj_ConsumerId (Message.targetConsumerId i) ++
  [FBool (Message.compressed i)] ++
  [FInt (Message.redeliveryCounter i)] ++
  arr obj_BrokerId (Message.brokerPath i) ++
  [FLong (Message.arrival i)] ++
  [FString (Message.userID i)] ++
  [FBool (Message.recievedByDFBridge i)] ++
  (if 2 <=? wireVersion then [FBool (Message.droppable i)] else [FReq (bool_decide (Message.droppable i = false))]) ++
  (if 3 <=? wireVersion then arr obj_BrokerId (Message.cluster i) else [FReq (bool_decide (Message.cluster i = []))]) ++
  (if 3 <=? wireVersion then [FLong (Message.brokerInTime i)] else [FReq (bool_decide (Message.brokerInTime i = 0))]) ++
  (if 3 <=? wireVersion then [FLong (Message.brokerOutTime i)] else [FReq (bool_decide (Message.brokerOutTime i = 0))]) ++
  (if 10 <=? wireVersion then [FBool (Message.jMSXGroupFirstForConsumer i)] else [FReq (bool_decide (Message.jMSXGroupFirstForConsumer i = false))]).

Definition Message_layout {D} (nestD : option D -> layout) (i : Message.t D) : layout :=
  MessageFields_layout nestD i ++
  match Message.messageKind i with
  | Message.ActiveMQBlobMessage url mime deleted =>
    (if 3 <=? wireVersion then [FString url] else [FReq (bool_decide (url = []))]) ++
    (if 3 <=? wireVersion then [FString mime] else [FReq (bool_decide (mime = Message.BINARY_MIME_TYPE))]) ++
    (if 3 <=? wireVersion then [FBool deleted] else [FReq (bool_decide (deleted = false))])
  | _ => [FReq (properties_ok (Message.marshalledProperties i))]
  end.

Definition WireFormatInfo_layout (i : WireFormatInfo.t) : layout :=
  [FReq (zlen (WireFormatInfo.magic i) =? 8)] ++ [FRaw (WireFormatInfo.magic i)] ++
  [FInt (WireFormatInfo.version i)] ++
  bytes_layout (WireFormatInfo.marshalledProperties i) ++
  [FReq (properties_ok (WireFormatInfo.marshalledProperties i))].

Fixpoint BrokerInfo_layout (i : BrokerInfo.t) : layout :=
  BaseCommand_layout (BrokerInfo.base i) ++
  obj_BrokerId (BrokerInfo.brokerId i) ++
  [FString (BrokerInfo.brokerURL i)] ++
  arr (obj (fun _ => 2) (fun _ => false) BrokerInfo_layout) (BrokerInfo.peerBrokerInfos i) ++
  [FString (BrokerInfo.brokerName i)] ++
  [FBool (BrokerInfo.slaveBroker i)] ++
  [FBool (BrokerInfo.masterBroker i)] ++
  [FBool (BrokerInfo.faultTolerantConfiguration i)] ++
  (if 2 <=? wireVersion then [FBool (BrokerInfo.duplexConnection i)] else [FReq (bool_decide (BrokerInfo.duplexConnection i = false))]) ++
  (if 2 <=? wireVersion then [FBool (BrokerInfo.networkConnection i)] else [FReq (bool_decide (BrokerInfo.networkConnection i = false))]) ++
  (if 2 <=? wireVersion then [FLong (BrokerInfo.connectionId i)] else [FReq (bool_decide (BrokerInfo.connectionId i = 0))]) ++
  (if 3 <=? wireVersion then [FString (BrokerInfo.brokerUploadUrl i)] else [FReq (bool_decide (BrokerInfo.brokerUploadUrl i = []))]) ++
  (if 3 <=? wireVersion then [FString (BrokerInfo.networkProperties i)] else [FReq (bool_decide (BrokerInfo.networkProperties i = []))]).

Definition MessageAck_layout (i : MessageAck.t) : layout :=
  BaseCommand_layout (MessageAck.base i) ++
  obj_ActiveMQDestination (MessageAck.destination i) ++
  obj_TransactionId (MessageAck.transactionId i) ++
  obj_ConsumerId (MessageAck.consumerId i) ++
  [FByte (MessageAck.ackType i)] ++
  obj_MessageId (MessageAck.firstMessageId i) ++
  obj_MessageId (MessageAck.lastMessageId i) ++
  [FInt (MessageAck.messageCount i)] ++
  (if 7 <=? wireVersion then broker_error_layout stackTraceEnabled (MessageAck.poisonCause i) else [FReq (bool_decide (MessageAck.poisonCause i = None))]).
Definition obj_MessageAck : option MessageAck.t -> layout := obj (fun _ => 22) (fun _ => false) MessageAck_layout.

Definition PartialCommand_layout (i : PartialCommand.t) : layout :=
  [FInt (PartialCommand.commandId i)] ++
  bytes_layout (PartialCommand.data i).

Definition Response_layout (i : Response.t) : layout :=
  BaseCommand_layout (Response.base i) ++
  [FInt (Response.correlationId i)].

Definition ConnectionControl_layout (i : ConnectionControl.t) : layout :=
  BaseCommand_layout (ConnectionControl.base i) ++
  [FBool (ConnectionControl.close i)] ++
  [FBool (ConnectionControl.exit i)] ++
  [FBool (ConnectionControl.faultTolerant i)] ++
  [FBool (ConnectionControl.resume i)] ++
  [FBool (ConnectionControl.suspend i)] ++
  (if 6 <=? wireVersion then [FString (ConnectionControl.connectedBrokers i)] else [FReq (bool_decide (ConnectionControl.connectedBrokers i = []))]) ++
  (if 6 <=? wireVersion then [FString (ConnectionControl.reconnectTo i)] else [FReq (bool_decide (ConnectionControl.reconnectTo i = []))]) ++
  (if 6 <=? wireVersion then [FBool (ConnectionControl.rebalanceConnection i)] else [FReq (bool_decide (ConnectionControl.rebalanceConnection i = false))]) ++
  (if 8 <=? wireVersion then bytes_layout (ConnectionControl.token i) else [FReq (bool_decide (ConnectionControl.token i = []))]).

Definition ConnectionError_layout (i : ConnectionError.t) : layout :=
  BaseCommand_layout (ConnectionError.base i) ++
  broker_error_layout stackTraceEnabled (ConnectionError.exception i) ++
  obj_ConnectionId (ConnectionError.connectionId i).

Definition ConnectionInfo_layout (i : ConnectionInfo.t) : layout :=
  BaseCommand_layout (ConnectionInfo.base i) ++
  obj_ConnectionId (ConnectionInfo.connectionId i) ++
  [FString (ConnectionInfo.clientId i)] ++
  [FString (ConnectionInfo.password i)] ++
  [FString (ConnectionInfo.userName i)] ++
  arr obj_BrokerId (ConnectionInfo.brokerPath i) ++
  [FBool (ConnectionInfo.brokerMasterConnector i)] ++
  [FBool (ConnectionInfo.manageable i)] ++
  (if 2 <=? wireVersion then [FBool (ConnectionInfo.clientMaster i)] else [FReq (bool_decide (ConnectionInfo.clientMaster i = false))]) ++
  (if 6 <=? wireVersion then [FBool (ConnectionInfo.faultTolerant i)] else [FReq (bool_decide (ConnectionInfo.faultTolerant i = false))]) ++
  (if 6 <=? wireVersion then [FBool (ConnectionInfo.failoverReconnect i)] else [FReq (bool_decide (ConnectionInfo.failoverReconnect i = false))]) ++
  (if 8 <=? wireVersion then [FString (ConnectionInfo.clientIp i)] else [FReq (bool_decide (ConnectionInfo.clientIp i = []))]).

Definition ConsumerControl_layout (i : ConsumerControl.t) : layout :=
  BaseCommand_layout (ConsumerControl.base i) ++
  (if 6 <=? wireVersion then obj_ActiveMQDestination (ConsumerControl.destination i) else [FReq (bool_decide (ConsumerControl.destination i = None))]) ++
  [FBool (ConsumerControl.close i)] ++
  obj_ConsumerId (ConsumerControl.consumerId i) ++
  [FInt (ConsumerControl.prefetch i)] ++
  (if 2 <=? wireVersion then [FBool (ConsumerControl.flush i)] else [FReq (bool_decide (ConsumerControl.flush i = false))]) ++
  (if 2 <=? wireVersion then [FBool (ConsumerControl.start i)] else [FReq (bool_decide (ConsumerControl.start i = false))]) ++
  (if 2 <=? wireVersion then [FBool (ConsumerControl.stop i)] else [FReq (bool_decide (ConsumerControl.stop i = false))]).

Definition ConsumerInfo_layout (i : ConsumerInfo.t) : layout :=
  BaseCommand_layout (ConsumerInfo.base i) ++
  obj_ConsumerId (ConsumerInfo.consumerId i) ++
  [FBool (ConsumerInfo.browser i)] ++
  obj_ActiveMQDestination (ConsumerInfo.destination i) ++
  [FInt (ConsumerInfo.prefetchSize i)] ++
  [FInt (ConsumerInfo.maximumPendingMessageLimit i)] ++
  [FBool (ConsumerInfo.dispatchAsync i)] ++
  [FString (ConsumerInfo.selector i)] ++
  (if 10 <=? wireVersion then [FString (ConsumerInfo.clientId i)] else [FReq (bool_decide (ConsumerInfo.clientId i = []))]) ++
  [FString (ConsumerInfo.subscriptionName i)] ++
  [FBool (ConsumerInfo.noLocal i)] ++
  [FBool (ConsumerInfo.exclusive i)] ++
  [FBool (ConsumerInfo.retroactive i)] ++
  [FByte (ConsumerInfo.priority i)] ++
  arr obj_BrokerId (ConsumerInfo.brokerPath i) ++
  obj_BooleanExpression (ConsumerInfo.additionalPredicate i) ++
  [FBool (ConsumerInfo.networkSubscription i)] ++
  [FBool (ConsumerInfo.optimizedAcknowledge i)] ++
  [FBool (ConsumerInfo.noRangeAcks i)] ++
  (if 4 <=? wireVersion then arr obj_ConsumerId (ConsumerInfo.networkConsumerPath i) else [FReq (bool_decide (ConsumerInfo.networkConsumerPath i = []))]).

Definition ControlCommand_layout (i : ControlCommand.t) : layout :=
  BaseCommand_layout (ControlCommand.base i) ++
  [FString (ControlCommand.command i)].

Definition DataArrayResponse_layout {D} (nestD : option D -> layout) (i : DataArrayResponse.t D) : layout :=
  Response_layout (DataArrayResponse.base i) ++
  arr nestD (DataArrayResponse.data i).

Definition DataResponse_layout {D} (nestD : option D -> layout) (i : DataResponse.t D) : layout :=
  Response_layout (DataResponse.base i) ++
  nestD (DataResponse.data i).

Definition DestinationInfo_layout (i : DestinationInfo.t) : layout :=
  BaseCommand_layout (DestinationInfo.base i) ++
  obj_ConnectionId (DestinationInfo.connectionId i) ++
  obj_ActiveMQDestination (DestinationInfo.destination i) ++
  [FByte (DestinationInfo.operationType i)] ++
  [FLong (DestinationInfo.timeout i)] ++
  arr obj_BrokerId (DestinationInfo.brokerPath i).

Definition DiscoveryEvent_layout (i : DiscoveryEvent.t) : layout :=
  [FString (DiscoveryEvent.serviceName i)] ++
  [FString (DiscoveryEvent.brokerName i)].

Definition ExceptionResponse_layout (i : ExceptionResponse.t) : layout :=
  Response_layout (ExceptionResponse.base i) ++
  broker_error_layout stackTraceEnabled (ExceptionResponse.exception i).

Definition FlushCommand_layout (i : FlushCommand.t) : layout :=
  BaseCommand_layout (FlushCommand.base i).

Definition IntegerResponse_layout (i : IntegerResponse.t) : layout :=
  Response_layout (IntegerResponse.base i) ++
  [FInt (IntegerResponse.result i)].

Definition JournalQueueAck_layout (i : JournalQueueAck.t) : layout :=
  obj_ActiveMQDestination (JournalQueueAck.destination i) ++
  obj_MessageAck (JournalQueueAck.messageAck i).

Definition JournalTopicAck_layout (i : JournalTopicAck.t) : layout :=
  obj_ActiveMQDestination (JournalTopicAck.destination i) ++
  obj_MessageId (JournalTopicAck.messageId i) ++
  [FLong (JournalTopicAck.messageSequenceId i)] ++
  [FString (JournalTopicAck.subscritionName i)] ++
  [FString (JournalTopicAck.clientId i)] ++
  obj_TransactionId (JournalTopicAck.transactionId i).

Definition JournalTrace_layout (i : JournalTrace.t) : layout :=
  [FString (JournalTrace.message i)].

Definition JournalTransaction_layout (i : JournalTransaction.t) : layout :=
  obj_TransactionId (JournalTransaction.transactionId i) ++
  [FByte (JournalTransaction.type i)] ++
  [FBool (JournalTransaction.wasPrepared i)].

Definition KeepAliveInfo_layout (i : KeepAliveInfo.t) : layout :=
  BaseCommand_layout (KeepAliveInfo.base i).

Definition LastPartialCommand_layout (i : LastPartialCommand.t) : layout :=
  PartialCommand_layout (LastPartialCommand.base i).

Definition MessageDispatch_layout {D} (nestD : option D -> layout) (i : MessageDispatch.t D) : layout :=
  BaseCommand_layout (MessageDispatch.base i) ++
  obj_ConsumerId (MessageDispatch.consumerId i) ++
  obj_ActiveMQDestination (MessageDispatch.destination i) ++
  obj Message.getDataStructureType (fun _ => true) (Message_layout nestD) (MessageDispatch.message i) ++
  [FInt (MessageDispatch.redeliveryCounter i)].

Definition MessageDispatchNotification_layout (i : MessageDispatchNotification.t) : layout :=
  BaseCommand_layout (MessageDispatchNotification.base i) ++
  obj_ConsumerId (MessageDispatchNotification.consumerId i) ++
  obj_ActiveMQDestination (MessageDispatchNotification.destination i) ++
  [FLong (MessageDispatchNotification.deliverySequenceId i)] ++
  obj_MessageId (MessageDispatchNotification.messageId i).

Definition MessagePull_layout (i : MessagePull.t) : layout :=
  BaseCommand_layout (MessagePull.base i) ++
  obj_ConsumerId (MessagePull.consumerId i) ++
  obj_ActiveMQDestination (MessagePull.destination i) ++
  [FLong (MessagePull.timeout i)] ++
  (if 3 <=? wireVersion then [FString (MessagePull.correlationId i)] else [FReq (bool_decide (MessagePull.correlationId i = []))]) ++
  (if 3 <=? wireVersion then obj_MessageId (MessagePull.messageId i) else [FReq (bool_decide (MessagePull.messageId i = None))]).

(** The first pass counts the integers of this class in every version. *)
Definition NetworkBridgeFilter_layout (i : NetworkBridgeFilter.t) : layout :=
  obj_BrokerId (NetworkBridgeFilter.networkBrokerId i) ++
  (if 10 <=? wireVersion then [FInt (NetworkBridgeFilter.messageTTL i)] else [FReq (bool_decide (NetworkBridgeFilter.messageTTL i = 0))]) ++
  (if 10 <=? wireVersion then [FInt (NetworkBridgeFilter.consumerTTL i)] else [FReq (bool_decide (NetworkBridgeFilter.consumerTTL i = 0))]) ++
  [FReq (10 <=? wireVersion)].

(** The first pass counts the integers of this class in every version. *)
Definition ProducerAck_layout (i : ProducerAck.t) : layout :=
  BaseCommand_layout (ProducerAck.base i) ++
  (if 3 <=? wireVersion then obj_ProducerId (ProducerAck.producerId i) else [FReq (bool_decide (ProducerAck.producerId i = None))]) ++
  (if 3 <=? wireVersion then [FInt (ProducerAck.size i)] else [FReq (bool_decide (ProducerAck.size i = 0))]) ++
  [FReq (3 <=? wireVersion)].

(** The first pass counts the integers of this class in every version. *)
Definition ProducerInfo_layout (i : ProducerInfo.t) : layout :=
  BaseCommand_layout (ProducerInfo.base i) ++
  obj_ProducerId (ProducerInfo.producerId i) ++
  obj_ActiveMQDestination (ProducerInfo.destination i) ++
  arr obj_BrokerId (ProducerInfo.brokerPath i) ++
  (if 2 <=? wireVersion then [FBool (ProducerInfo.dispatchAsync i)] else [FReq (bool_decide (ProducerInfo.dispatchAsync i = false))]) ++
  (if 3 <=? wireVersion then [FInt (ProducerInfo.windowSize i)] else [FReq (bool_decide (ProducerInfo.windowSize i = 0))]) ++
  [FReq (3 <=? wireVersion)].

Definition RemoveInfo_layout {D} (nestD : option D -> layout) (i : RemoveInfo.t D) : layout :=
  BaseCommand_layout (RemoveInfo.base i) ++
  nestD (RemoveInfo.objectId i) ++
  (if 5 <=? wireVersion then [FLong (RemoveInfo.lastDeliveredSequenceId i)] else [FReq (bool_decide (RemoveInfo.lastDeliveredSequenceId i = 0))]).

Definition RemoveSubscriptionInfo_layout (i : RemoveSubscriptionInfo.t) : layout :=
  BaseCommand_layout (RemoveSubscriptionInfo.base i) ++
  obj_ConnectionId (RemoveSubscriptionInfo.connectionId i) ++
  [FString (RemoveSubscriptionInfo.subcriptionName i)] ++
  [FString (RemoveSubscriptionInfo.clientId i)].

Definition ReplayCommand_layout (i : ReplayCommand.t) : layout :=
  BaseCommand_layout (ReplayCommand.base i) ++
  [FInt (ReplayCommand.firstNakNumber i)] ++
  [FInt (ReplayCommand.lastNakNumber i)].

Definition SessionInfo_layout (i : SessionInfo.t) : layout :=
  BaseCommand_layout (SessionInfo.base i) ++
  obj_SessionId (SessionInfo.sessionId i).

Definition ShutdownInfo_layout (i : ShutdownInfo.t) : layout :=
  BaseCommand_layout (ShutdownInfo.base i).

Definition SubscriptionInfo_layout (i : SubscriptionInfo.t) : layout :=
  [FString (SubscriptionInfo.clientId i)] ++
  obj_ActiveMQDestination (SubscriptionInfo.destination i) ++
  [FString (SubscriptionInfo.selector i)] ++
  [FString (SubscriptionInfo.subcriptionName i)] ++
  (if 3 <=? wireVersion then obj_ActiveMQDestination (SubscriptionInfo.subscribedDestination i) else [FReq (bool_decide (SubscriptionInfo.subscribedDestination i = None))]) ++
  (if 11 <=? wireVersion then [FBool (SubscriptionInfo.noLocal i)] else [FReq (bool_decide (SubscriptionInfo.noLocal i = false))]).

Definition TransactionInfo_layout (i : TransactionInfo.t) : layout :=
  BaseCommand_layout (TransactionInfo.base i) ++
  obj_ConnectionId (TransactionInfo.connectionId i) ++
  obj_TransactionId (TransactionInfo.transactionId i) ++
  [FByte (TransactionInfo.type i)].

(** ** Any data structure *)
Fixpoint wire (d : DataStructure) : layout :=
  match d with
  | DDestination d => ActiveMQDestination_layout d
  | DTransactionId t => TransactionId_layout t
  | DMessage m => Message_layout (obj getDataStructureType isMarshalAware wire) m
  | DBrokerId i => BrokerId_layout i
  | DBrokerInfo i => BrokerInfo_layout i
  | DConnectionControl i => ConnectionControl_layout i
  | DConnectionError i => ConnectionError_layout i
  | DConnectionId i => ConnectionId_layout i
  | DConnectionInfo i => ConnectionInfo_layout i
  | DConsumerControl i => ConsumerControl_layout i
  | DConsumerId i => ConsumerId_layout i
  | DConsumerInfo i => ConsumerInfo_layout i
  | DControlCommand i => ControlCommand_layout i
  | DDataArrayResponse i => DataArrayResponse_layout (obj getDataStructureType isMarshalAware wire) i
  | DDataResponse i => DataResponse_layout (obj getDataStructureType isMarshalAware wire) i
  | DDestinationInfo i => DestinationInfo_layout i
  | DDiscoveryEvent i => DiscoveryEvent_layout i
  | DExceptionResponse i => ExceptionResponse_layout i
  | DFlushCommand i => FlushCommand_layout i
  | DIntegerResponse i => IntegerResponse_layout i
  | DJournalQueueAck i => JournalQueueAck_layout i
  | DJournalTopicAck i => JournalTopicAck_layout i
  | DJournalTrace i => JournalTrace_layout i
  | DJournalTransaction i => JournalTransaction_layout i
  | DKeepAliveInfo i => KeepAliveInfo_layout i
  | DLastPartialCommand i => LastPartialCommand_layout i
  | DMessageAck i => MessageAck_layout i
  | DMessageDispatch i => MessageDispatch_layout (obj getDataStructureType isMarshalAware wire) i
  | DMessageDispatchNotification i => MessageDispatchNotification_layout i
  | DMessageId i => MessageId_layout i
  | DMessagePull i => MessagePull_layout i
  | DNetworkBridgeFilter i => NetworkBridgeFilter_layout i
  | DPartialCommand i => PartialCommand_layout i
  | DProducerAck i => ProducerAck_layout i
  | DProducerId i => ProducerId_layout i
  | DProducerInfo i => ProducerInfo_layout i
  | DRemoveInfo i => RemoveInfo_layout (obj getDataStructureType isMarshalAware wire) i
  | DRemoveSubscriptionInfo i => RemoveSubscriptionInfo_layout i
  | DReplayCommand i => ReplayCommand_layout i
  | DResponse i => Response_layout i
  | DSessionId i => SessionId_layout i
  | DSessionInfo i => SessionInfo_layout i
  | DShutdownInfo i => ShutdownInfo_layout i
  | DSubscriptionInfo i => SubscriptionInfo_layout i
  | DTransactionInfo i => TransactionInfo_layout i
  | DWireFormatInfo i => WireFormatInfo_layout i
  end.
Definition nest : option DataStructure -> layout := obj getDataStructureType isMarshalAware wire.

End Layouts.

(** ** The hooks over the tree of a data structure *)
Section Hooks.
Context `{Platform}.

(** A nested object that may be absent, and a list of them. *)
Definition mutate_option {X} (f : X -> result X) (o : option X) : result (option X) :=
  match o with None => Ok None | Some x => rbind (f x) (fun x => Ok (Some x)) end.
Fixpoint mutate_list {X} (f : X -> result X) (l : list (option X)) : result (list (option X)) :=
  match l with
  | [] => Ok []
  | o :: l => rbind (mutate_option f o) (fun o => rbind (mutate_list f l) (fun l => Ok (o :: l)))
  end.

(** A message, given what becomes of its nested object: the marshallers of all
    kinds but blob messages run the hook. *)
Definition mutate_message {D} (f : D -> result D) (m : Message.t D) : result (Message.t D) :=
  rbind (mutate_option f (Message.dataStructure m)) (fun o =>
  rbind (match Message.messageKind m with
         | Message.ActiveMQBlobMessage _ _ _ => Ok m
         | _ => Message.beforeMarshal m
         end) (fun m => Ok (Message.set_dataStructure m o))).

(** The object after the first pass, or after a loose marshaller, has seen it. *)
Fixpoint mutate (d : DataStructure) : result DataStructure :=
  match d with
  | DMessage m => rbind (mutate_message mutate m) (fun m => Ok (DMessage m))
  | DWireFormatInfo i => rbind (WireFormatInfo.beforeMarshal i) (fun i => Ok (DWireFormatInfo i))
  | DMessageDispatch i =>
    rbind (mutate_option (mutate_message mutate) (MessageDispatch.message i)) (fun m =>
    Ok (DMessageDispatch {| MessageDispatch.base := MessageDispatch.base i;
          MessageDispatch.consumerId := MessageDispatch.consumerId i;
          MessageDispatch.destination := MessageDispatch.destination i;
          MessageDispatch.message := m;
          MessageDispatch.redeliveryCounter := MessageDispatch.redeliveryCounter i |}))
  | DDataResponse i =>
    rbind (mutate_option mutate (DataResponse.data i)) (fun o =>
    Ok (DDataResponse {| DataResponse.base := DataResponse.base i; DataResponse.data := o |}))
  | DDataArrayResponse i =>
    rbind (mutate_list mutate (DataArrayResponse.data i)) (fun l =>
    Ok (DDataArrayResponse {| DataArrayResponse.base := DataArrayResponse.base i; DataArrayResponse.data := l |}))
  | DRemoveInfo i =>
    rbind (mutate_option mutate (RemoveInfo.objectId i)) (fun o =>
    Ok (DRemoveInfo {| RemoveInfo.base := RemoveInfo.base i; RemoveInfo.objectId := o;
          RemoveInfo.lastDeliveredSequenceId := RemoveInfo.lastDeliveredSequenceId i |}))
  | d => Ok d
  end.

(** The properties the receiver reads from their marshalled form. *)
Definition arrived_properties (l : list Z) : PrimitiveMap :=
  match PrimitiveTypesMarshaller.unmarshal [] l with Ok p => p | Err _ => [] end.

(** A message as the receiver has it: no connection, a writable body that is not
    unpacked yet, the properties read (not for a blob message, whose marshaller
    runs no hook). *)
Definition arrived_message {D} (f : D -> D) (m : Message.t D) : Message.t D :=
  let k := match Message.messageKind m with
           | Message.ActiveMQBlobMessage _ _ _ as k => k
           | k => Message.fresh k
           end in
  {| Message.messageKind := k;
     Message.base := Message.base m;
     Message.producerId := Message.producerId m;
     Message.destination := Message.destination m;
     Message.transactionId := Message.transactionId m;
     Message.originalDestination := Message.originalDestination m;
     Message.messageId := Message.messageId m;
     Message.originalTransactionId := Message.originalTransactionId m;
     Message.groupID := Message.groupID m;
     Message.groupSequence := Message.groupSequence m;
     Message.correlationId := Message.correlationId m;
     Message.persistent := Message.persistent m;
     Message.expiration := Message.expiration m;
     Message.priority := Message.priority m;
     Message.replyTo := Message.replyTo m;
     Message.timestamp := Message.timestamp m;
     Message.type := Message.type m;
     Message.content := Message.content m;
     Message.marshalledProperties := Message.marshalledProperties m;
     Message.dataStructure := option_map f (Message.dataStructure m);
     Message.targetConsumerId := Message.targetConsumerId m;
     Message.compressed := Message.compressed m;
     Message.redeliveryCounter := Message.redeliveryCounter m;
     Message.brokerPath := Message.brokerPath m;
     Message.arrival := Message.arrival m;
     Message.userID := Message.userID m;
     Message.recievedByDFBridge := Message.recievedByDFBridge m;
     Message.droppable := Message.droppable m;
     Message.cluster := Message.cluster m;
     Message.brokerInTime := Message.brokerInTime m;
     Message.brokerOutTime := Message.brokerOutTime m;
     Message.jMSXGroupFirstForConsumer := Message.jMSXGroupFirstForConsumer m;
     Message.properties := match k with Message.ActiveMQBlobMessage _ _ _ => [] | _ => arrived_properties (Message.marshalledProperties m) end;
     Message.readOnlyBody := false;
     Message.connection := None |}.

Fixpoint arrived (d : DataStructure) : DataStructure :=
  match d with
  | DMessage m => DMessage (arrived_message arrived m)
  | DWireFormatInfo i =>
    DWireFormatInfo {| WireFormatInfo.base := BaseCommand.default; WireFormatInfo.magic := WireFormatInfo.magic i;
      WireFormatInfo.version := WireFormatInfo.version i;
      WireFormatInfo.marshalledProperties := WireFormatInfo.marshalledProperties i;
      WireFormatInfo.properties := arrived_properties (WireFormatInfo.marshalledProperties i) |}
  | DMessageDispatch i =>
    DMessageDispatch {| MessageDispatch.base := MessageDispatch.base i;
      MessageDispatch.consumerId := MessageDispatch.consumerId i;
      MessageDispatch.destination := MessageDispatch.destination i;
      MessageDispatch.message := option_map (arrived_message arrived) (MessageDispatch.message i);
      MessageDispatch.redeliveryCounter := MessageDispatch.redeliveryCounter i |}
  | DDataResponse i =>
    DDataResponse {| DataResponse.base := DataResponse.base i;
      DataResponse.data := option_map arrived (DataResponse.data i) |}
  | DDataArrayResponse i =>
    DDataArrayResponse {| DataArrayResponse.base := DataArrayResponse.base i;
      DataArrayResponse.data := map (option_map arrived) (DataArrayResponse.data i) |}
  | DRemoveInfo i =>
    DRemoveInfo {| RemoveInfo.base := RemoveInfo.base i;
      RemoveInfo.objectId := option_map arrived (RemoveInfo.objectId i);
      RemoveInfo.lastDeliveredSequenceId := RemoveInfo.lastDeliveredSequenceId i |}
  | d => d
  end.
End Hooks.
