(* ===== verification/Destinations.v ===== *)
(** * The names of destinations

    activemq/commands/ActiveMQDestination.cpp and ActiveMQTempDestination.cpp:
    what [setPhysicalName] makes of a name (the operations themselves are in
    Commands.v), and that a destination named without options is one the wire
    can carry. *)

From S2P Require Import Prelude DataStreams PrimitiveTypes Support BooleanStreams Wire BaseMarshaller Commands Layouts.

Section Names.
Context `{Platform}.
Import ActiveMQDestination.

Lemma find_index_none p s : forallb (fun c => negb (p c)) s = true -> find_index p s = None.
Proof.
  induction s as [|c s IH]; [done |]. cbn [forallb find_index]. intros [Hc Hs]%andb_true_iff.
  apply negb_true_iff in Hc as ->. by rewrite IH.
Qed.
Lemma find_last_none c s : forallb (fun x => negb (x =? c)) s = true -> find_last c s = None.
Proof.
  induction s as [|x s IH]; [done |]. cbn [forallb find_last]. intros [Hx Hs]%andb_true_iff.
  apply negb_true_iff in Hx. by rewrite IH, Hx.
Qed.
Lemma find_last_app c s t : find_last c t = None -> find_last c (s ++ c :: t) = Some (length s).
Proof.
  intros Ht. induction s as [|x s IH]; cbn [app find_last length]; [by rewrite Ht, Z.eqb_refl | by rewrite IH].
Qed.

Lemma decimal_nonneg l : forall r, 0 <= r -> forallb is_digit l = true ->
  0 <= fold_left (fun a c => a * 10 + (c - 48)) l r.
Proof.
  induction l as [|c l IH]; intros r Hr; [done |]. cbn [forallb fold_left]. intros [Hc Hl]%andb_true_iff.
  unfold is_digit in Hc. rewrite andb_true_iff, !Z.leb_le in Hc. apply IH; [lia | done].
Qed.

Lemma digits_avoid c l : 57 < c -> forallb is_digit l = true -> forallb (fun x => negb (x =? c)) l = true.
Proof.
  intros Hc. rewrite !forallb_forall. intros Hd x Hin. specialize (Hd x Hin).
  unfold is_digit in Hd. rewrite andb_true_iff, !Z.leb_le in Hd. apply negb_true_iff, Z.eqb_neq. lia.
Qed.

(** A name without a question mark carries no options. *)
Definition plain_name (name : list Z) : bool := forallb (fun c => negb (c =? 63)) name.

Lemma plain_no_options name : plain_name name = true -> find_first_of name (str "?") (Some O) = None.
Proof.
  intros Hn. unfold find_first_of, find_from. cbn [drop]. rewrite find_index_none; [done |].
  revert Hn. unfold plain_name. rewrite !forallb_forall. intros Hn c Hc. cbn. rewrite orb_false_r. by apply Hn.
Qed.

Lemma setPhysicalName_base_plain d name : plain_name name = true ->
  setPhysicalName_base d name =
  Ok {| destinationType := destinationType d; physicalName := name;
        advisory := bool_decide (find_first_of name ADVISORY_TOPIC_PREFIX (Some O) = Some O);
        options := options d; connectionId := connectionId d; sequenceId := sequenceId d |}.
Proof. intros Hn. unfold setPhysicalName_base. by rewrite plain_no_options. Qed.

(**  A destination created from a name without options keeps that name, has no
    options and is one the wire can carry: the receiver, given the name alone,
    makes the same destination of it. *)
Theorem plain_destination_sendable k name : plain_name name = true ->
  exists d, setPhysicalName (default k) name = Ok d /\ destinationType d = k /\ physicalName d = name /\
    options d = [] /\ destination_ok d = true.
Proof.
  intros Hn.
  assert (Hd : exists d, setPhysicalName (default k) name = Ok d /\ destinationType d = k /\ physicalName d = name /\ options d = []).
  { unfold setPhysicalName, setPhysicalName_temp. rewrite setPhysicalName_base_plain by done.
    cbn [destinationType default]. destruct (isTemporary k); [|by eexists]. cbn [rbind].
    destruct (find_last 58 name); [|by eexists]. destruct (drop _ name); by eexists. }
  destruct Hd as (d & E & Hk & Hp & Ho). exists d. do 4 (split; [done |]).
  unfold destination_ok. apply bool_decide_eq_true. by rewrite Hk, Hp.
Qed.

(**  The name of a temporary destination is taken apart at its last colon into
    the connection that owns it and its sequence number. *)
Theorem temp_destination_parts k conn digits : isTemporary k = true -> plain_name conn = true ->
  digits <> [] -> forallb is_digit digits = true -> decimal digits < 2 ^ 31 ->
  exists d, setPhysicalName (default k) (conn ++ 58 :: digits) = Ok d /\
    connectionId d = conn /\ sequenceId d = decimal digits.
Proof.
  intros Hk Hc Hne Hd Hl. assert (Hplain : plain_name (conn ++ 58 :: digits) = true).
  { unfold plain_name in *. rewrite forallb_app, Hc. apply (digits_avoid 63 digits); [lia | done]. }
  assert (Hcolon : find_last 58 digits = None) by (apply find_last_none, digits_avoid; [lia | done]).
  pose proof (decimal_nonneg digits 0 ltac:(lia) Hd) as Hpos. fold (decimal digits) in Hpos.
  pose proof (parseInt_value false digits Hne Hd) as Hp. cbv zeta iota in Hp.
  rewrite (proj2 (is_s_spec 32 (decimal digits))) in Hp by lia.
  unfold setPhysicalName, setPhysicalName_temp. cbn [destinationType default]. rewrite Hk.
  rewrite setPhysicalName_base_plain by done. cbn [rbind]. rewrite find_last_app by done.
  assert (Edrop : drop (length conn + 1) (conn ++ 58 :: digits) = digits) by (rewrite drop_app_ge, Nat.add_sub_swap, Nat.sub_diag by lia; done).
  assert (Etake : take (length conn) (conn ++ 58 :: digits) = conn) by apply take_app_length.
  rewrite Edrop, Etake. destruct digits as [|c digits]; [done |]. rewrite Hp.
  by eexists.
Qed.

(**  The test for advisory topics looks for any character of the prefix: every
    destination whose name starts with one of the letters of "ActiveMQ.Advisory."
    is taken for an advisory one. *)
Theorem advisory_by_first_letter d c name d' :
  elem c ADVISORY_TOPIC_PREFIX = true -> setPhysicalName_base d (c :: name) = Ok d' -> advisory d' = true.
Proof.
  intros Hc. unfold setPhysicalName_base.
  assert (E : find_first_of (c :: name) ADVISORY_TOPIC_PREFIX (Some O) = Some O).
  { unfold find_first_of, find_from. cbn [drop find_index]. by rewrite Hc. }
  rewrite E. destruct (match find_first_of _ (str "?") _ with None => _ | Some pos => _ end) as [[physical opts]|]; [|done].
  by intros [= <-].
Qed.
End Names.

(** ** Instances *)
Definition no_environment : Platform := {| getenv := fun _ => Ok []; deflate := fun _ b => b |}.

Lemma plain_destination_sendable_witness :
  exists d, ActiveMQDestination.setPhysicalName (H := no_environment) (ActiveMQDestination.default ActiveMQDestination.Queue) (str "orders.new") = Ok d /\
    ActiveMQDestination.physicalName d = str "orders.new" /\ destination_ok (H := no_environment) d = true.
Proof.
  destruct (@plain_destination_sendable no_environment ActiveMQDestination.Queue (str "orders.new") eq_refl)
    as (d & E & _ & Hp & _ & Hd).
  exists d. split; [exact E | split; [exact Hp | exact Hd]].
Defined.

Lemma temp_destination_parts_witness :
  exists d, ActiveMQDestination.setPhysicalName (H := no_environment) (ActiveMQDestination.default ActiveMQDestination.TempQueue)
      (str "ID:host-1:17") = Ok d /\
    ActiveMQDestination.connectionId d = str "ID:host-1" /\ ActiveMQDestination.sequenceId d = 17.
Proof.
  exact (@temp_destination_parts no_environment ActiveMQDestination.TempQueue (str "ID:host-1") (str "17")
    eq_refl eq_refl ltac:(discriminate) eq_refl eq_refl).
Defined.

Lemma advisory_by_first_letter_witness :
  exists d, ActiveMQDestination.setPhysicalName_base (H := no_environment) (ActiveMQDestination.default ActiveMQDestination.Queue) (str "test") = Ok d /\
    ActiveMQDestination.advisory d = true.
Proof.
  eexists. split; [vm_compute; reflexivity |].
  exact (@advisory_by_first_letter no_environment (ActiveMQDestination.default ActiveMQDestination.Queue) 116 (str "est") _ eq_refl eq_refl).
Defined.
