(* ===== verification/MarshallerBase.v ===== *)
(** * Nested objects: the interface between the marshallers and the wire format

    A marshaller writes the objects its command refers to through the wire
    format, which picks the marshaller of the object and calls it in turn.
    [WireFormat] is the part of OpenWireFormat the marshallers call;
    [WireFormatLaws n] is what they rely on, for objects whose layout has at
    most [n] fields.  The marshallers are proved against the laws, and
    OpenWire.v discharges them by induction on [n].

    The file also has the operations of BaseDataStreamMarshaller on nested and
    cached objects and on arrays of them, and the automation with which the
    marshaller of a class is shown to implement its layout. *)

From S2P Require Import Prelude DataStreams PrimitiveTypes Support BooleanStreams Wire BaseMarshaller Commands Layouts.

(** [wf_fuel] bounds the chain of causes a broker error is followed along. *)
Class WireFormat (St : Type) := {
  wf_fuel : nat;
  wf_tightMarshalNestedObject1 : option DataStructure -> M (io St) Z;
  wf_tightMarshalNestedObject2 : option DataStructure -> M (io St) unit;
  wf_tightUnmarshalNestedObject : M (io St) (option DataStructure);
  wf_looseMarshalNestedObject : option DataStructure -> M (io St) unit;
  wf_looseUnmarshalNestedObject : M (io St) (option DataStructure)
}.

(** A result inside the marshalling code. *)
Definition lift {S A} (r : result A) : M S A := fun s => rbind r (fun a => Ok (a, s)).

Module NestedObjects.
Section Code.
Context {St : Type} `{InputStream St} `{!WireFormat St}.
Abbreviation IO := (M (io St)).

(** BaseDataStreamMarshaller::tightMarshal1, which has nothing to write. *)
Definition tightMarshal1 : IO Z := ret 0.

(** [rc += ...] *)
Definition add_rc (rc : Z) (m : IO Z) : IO Z := let* n := m in ret (rc + n).

(** The cache of the protocol is not used: a cached object is a nested one. *)
Definition tightUnmarshalCachedObject : IO (option DataStructure) := catch_io wf_tightUnmarshalNestedObject.
Definition tightMarshalCachedObject1 (o : option DataStructure) : IO Z := catch_io (wf_tightMarshalNestedObject1 o).
Definition tightMarshalCachedObject2 (o : option DataStructure) : IO unit := catch_io (wf_tightMarshalNestedObject2 o).
Definition looseMarshalCachedObject (o : option DataStructure) : IO unit := catch_io (wf_looseMarshalNestedObject o).
Definition looseUnmarshalCachedObject : IO (option DataStructure) := catch_io wf_looseUnmarshalNestedObject.
Definition tightMarshalNestedObject1 (o : option DataStructure) : IO Z := catch_io (wf_tightMarshalNestedObject1 o).
Definition tightMarshalNestedObject2 (o : option DataStructure) : IO unit := catch_io (wf_tightMarshalNestedObject2 o).
Definition tightUnmarshalNestedObject : IO (option DataStructure) := catch_io wf_tightUnmarshalNestedObject.
Definition looseUnmarshalNestedObject : IO (option DataStructure) := catch_io wf_looseUnmarshalNestedObject.
Definition looseMarshalNestedObject (o : option DataStructure) : IO unit := catch_io (wf_looseMarshalNestedObject o).

(** [Pointer<T>(dynamic_cast<T*>(...))] *)
Definition cast {T} (as_T : DataStructure -> option T) (m : IO (option DataStructure)) : IO (option T) :=
  let* o := m in ret (match o with Some d => as_T d | None => None end).

Definition tightMarshalObjectArray1 (objects : list (option DataStructure)) : IO Z :=
  catch_io (
    match objects with
    | [] => bs (BooleanStream.writeBoolean false) ;;; ret 0
    | _ =>
      bs (BooleanStream.writeBoolean true) ;;;
      let* sizes := mapM tightMarshalNestedObject1 objects in
      ret (2 + fold_right Z.add 0 sizes)
    end).
Definition tightMarshalObjectArray2 (objects : list (option DataStructure)) : IO unit :=
  catch_io (
    let* present := bs BooleanStream.readBoolean in
    if present then
      dataOut (DataOutputStream.writeShort (to_s16 (zlen objects))) ;;;
      mapM tightMarshalNestedObject2 objects ;;;
      ret ()
    else ret ()).
Definition looseMarshalObjectArray (objects : list (option DataStructure)) : IO unit :=
  catch_io (
    dataOut (DataOutputStream.writeBoolean (nonempty objects)) ;;;
    if nonempty objects then
      dataOut (DataOutputStream.writeShort (to_s16 (zlen objects))) ;;;
      mapM looseMarshalNestedObject objects ;;;
      ret ()
    else ret ()).

(** The array readers the marshallers have in line: a negative size makes
    [reserve] throw [std::length_error]. *)
Definition readArray {T} (readFlag : IO bool) (element : IO (option T)) : IO (list (option T)) :=
  let* present := readFlag in
  if present then
    let* size := dataIn DataInputStream.readShort in
    if size <? 0 then raise IOException else repeatM (Z.to_nat size) element
  else ret [].
Definition tightUnmarshalObjectArray {T} (as_T : DataStructure -> option T) : IO (list (option T)) :=
  readArray (bs BooleanStream.readBoolean) (cast as_T tightUnmarshalNestedObject).
Definition looseUnmarshalObjectArray {T} (as_T : DataStructure -> option T) : IO (list (option T)) :=
  readArray (dataIn DataInputStream.readBoolean) (cast as_T looseUnmarshalNestedObject).

(** The byte array writers the marshallers have in line. *)
Definition marshalByteArray1 (data : list Z) : IO Z :=
  bs (BooleanStream.writeBoolean (nonempty data)) ;;;
  ret (if zlen data =? 0 then 0 else zlen data + 4).
Definition writeByteArray (data : list Z) : IO unit :=
  dataOut (DataOutputStream.writeInt (to_s32 (zlen data))) ;;;
  dataOut (DataOutputStream.writeArray data (to_s32 (zlen data)) 0 (to_s32 (zlen data))).
Definition marshalByteArray2 (data : list Z) : IO unit :=
  let* present := bs BooleanStream.readBoolean in
  if present then writeByteArray data else ret ().
Definition looseMarshalByteArray (data : list Z) : IO unit :=
  dataOut (DataOutputStream.write (if nonempty data then 1 else 0)) ;;;
  if nonempty data then writeByteArray data else ret ().

(** [dataOut->write(&data[0], 8, 0, 8)] reads eight bytes of the vector. *)
Definition writeConst8 (data : list Z) : IO unit :=
  if zlen data <? 8 then undef else dataOut (DataOutputStream.writeArray data 8 0 8).

(** [info->setX(dataIn->readByte())] for an [unsigned char] member. *)
Definition readUByte : IO Z := let* b := dataIn DataInputStream.readByte in ret (to_u8 b).
End Code.
End NestedObjects.

(** ** Layouts of bounded size

    [within n fs]: the layout's requirements hold and it has at most [n] fields.
    [guarded n R] is [R] for layouts within [n]; it follows the structure of
    the code when [R] does. *)
Definition within (n : nat) (fs : layout) : Prop := wok fs = true /\ (length fs <= n)%nat.

Lemma within_app n f1 f2 : within n (f1 ++ f2) -> within n f1 /\ within n f2.
Proof. unfold within. rewrite wok_app, andb_true_iff, length_app. intros [[? ?] ?]. split; split; done || lia. Qed.
Lemma within_cons n f fs : within n (f :: fs) -> fok f = true /\ within n fs.
Proof. unfold within. rewrite wok_cons, andb_true_iff. cbn [length]. intros [[? ?] ?]. split; [done |]. split; [done | lia]. Qed.
Lemma within_fok n f : within n [f] -> fok f = true.
Proof. by intros [? _]%within_cons. Qed.

Section Guarded.
Context {St : Type} `{InputStreamLaws St} (n : nat).

Definition guarded (R : forall A, layout -> M (io St) A -> A -> Prop) A fs m v : Prop :=
  within n fs -> R A fs m v.

#[export] Instance guarded_codec R `{!Codec R} : Codec (guarded R).
Proof.
  split; unfold guarded.
  - intros. apply codec_ret.
  - intros A B f1 f2 m k a v Hm Hk [H1 H2]%within_app. eapply codec_bind; eauto.
  - intros. apply codec_catch; auto.
  - intros A b fs m v Hm [_ Hw]%within_cons. apply codec_req; auto.
Qed.

Abbreviation gmarks := (guarded (@marks St _ _) _).
Abbreviation gemits := (guarded (@emits St _ _) _).
Abbreviation gparses := (guarded (@parses St _ _) _).
Abbreviation gemitsL := (guarded (@emitsL St _ _) _).
Abbreviation gparsesL := (guarded (@parsesL St _ _) _).
Definition gsizes (fs : layout) (m : M (io St) Z) : Prop := gmarks fs m (zlen (wbody fs)).

(** An object the hooks have seen. *)
Definition prepared `{Platform} (o : option DataStructure) : Prop :=
  exists o0, mutate_option mutate o0 = Ok o.

(** The laws of the interface. *)
Class WireFormatLaws `{Platform} `{WireOptions} `{!WireFormat St} := {
  law_fuel : (n <= wf_fuel)%nat;
  law_nested1 o0 o : mutate_option mutate o0 = Ok o -> gsizes (nest o) (wf_tightMarshalNestedObject1 o0);
  law_nested2 o : prepared o -> gemits (nest o) (wf_tightMarshalNestedObject2 o) tt;
  law_unmarshal o : prepared o -> gparses (nest o) wf_tightUnmarshalNestedObject (option_map arrived o);
  law_looseMarshal o0 o : mutate_option mutate o0 = Ok o -> gemitsL (nest o) (wf_looseMarshalNestedObject o0) tt;
  law_looseUnmarshal o : prepared o -> gparsesL (nest o) wf_looseUnmarshalNestedObject (option_map arrived o)
}.
End Guarded.
Arguments WireFormatLaws {St _ _} n {_ _ _}.

(** ** The fields under [guarded] *)
Section Fields.
Context {St : Type} `{InputStreamLaws St} (n : nat).
Context `{Platform} `{WireOptions} `{!WireFormat St} `{!WireFormatLaws n}.
Import BaseDataStreamMarshaller NestedObjects.

Abbreviation gmarks := (guarded n (@marks St _ _) _).
Abbreviation gemits := (guarded n (@emits St _ _) _).
Abbreviation gparses := (guarded n (@parses St _ _) _).
Abbreviation gemitsL := (guarded n (@emitsL St _ _) _).
Abbreviation gparsesL := (guarded n (@parsesL St _ _) _).
Abbreviation gsizes := (gsizes n).

(** *** First pass *)
Lemma g_add fs rc m : gsizes fs m -> gmarks fs (add_rc rc m) (rc + zlen (wbody fs)).
Proof. intros Hm. by eapply (codec_map (guarded n (@marks St _ _))); [exact Hm |]. Qed.
Lemma g_skip {A} f1 f2 (m : M (io St) A) v : wbits f1 = [] -> gmarks f2 m v -> gmarks (f1 ++ f2) m v.
Proof. intros E Hm [_ Hw]%within_app. apply marks_skip; auto. Qed.
Lemma g_done {A} fs (v v' : A) : wbits fs = [] -> v = v' -> gmarks fs (ret v) v'.
Proof.
  intros E <- _. rewrite <- (app_nil_r fs). apply marks_skip; [done | apply marks_ret].
Qed.
Lemma g1_bool b : gmarks [FBool b] (bs (BooleanStream.writeBoolean b)) tt.
Proof. intros _. apply marks_flag. Qed.
Lemma g1_string v : gsizes [FString v] (tightMarshalString1 v).
Proof. intros Hf%within_fok. by apply tightMarshalString1_sizes. Qed.
Lemma g1_long v : gsizes [FLong v] (tightMarshalLong1 v).
Proof. intros Hf%within_fok. by apply tightMarshalLong1_sizes. Qed.
Lemma g1_error en e : gsizes (broker_error_layout en e) (tightMarshalBrokerError1 en e).
Proof. intros [Hok _]. by apply tightMarshalBrokerError1_sizes. Qed.
Lemma g1_bytes l : gsizes (bytes_layout l) (marshalByteArray1 l).
Proof.
  intros _. unfold bytes_layout. eapply (marks_bind [_]); [apply marks_flag |].
  destruct (nonempty l) eqn:E.
  - apply nonempty_true, nonempty_zlen in E. destruct (Z.eqb_spec (zlen l) 0); [lia |].
    eapply marks_value; [apply (marks_skip [_; _] []); [done | apply marks_ret] |].
    unfold wbody. cbn [flat_map fbody]. len.
  - apply nonempty_false in E as ->. apply marks_ret.
Qed.
Lemma g1_nested o0 o fs :
  nest o = fs -> mutate_option mutate o0 = Ok o -> gsizes fs (tightMarshalNestedObject1 o0).
Proof. intros <- Hm Hw. apply marks_catch. exact (law_nested1 n o0 o Hm Hw). Qed.
Lemma g1_since k v fs d rc m :
  gsizes fs m ->
  gmarks (if k <=? v then fs else [FReq d]) (if k <=? v then add_rc rc m else ret rc)
    (rc + zlen (wbody (if k <=? v then fs else [FReq d]))).
Proof.
  intros Hm. destruct (k <=? v); [by apply g_add |]. intros _. rewrite Z.add_0_r. apply codec_req, marks_ret.
Qed.
Lemma g1_since_bool k v b d :
  gmarks (if k <=? v then [FBool b] else [FReq d])
    (if k <=? v then bs (BooleanStream.writeBoolean b) else ret ()) tt.
Proof. destruct (k <=? v); [apply g1_bool |]. intros _. apply codec_req, marks_ret. Qed.

Lemma mutate_list_cons {X} (f : X -> result X) l0 l : mutate_list f l0 = Ok l ->
  Forall2 (fun o0 o => mutate_option f o0 = Ok o) l0 l.
Proof.
  revert l. induction l0 as [|o0 l0 IH]; intros l; cbn.
  - intros [= <-]. constructor.
  - destruct (mutate_option f o0) as [o|] eqn:Eo; [|done]. cbn.
    destruct (mutate_list f l0) as [l'|]; [|done]. intros [= <-]. constructor; auto.
Qed.

Lemma prepared_list l0 l : mutate_list mutate l0 = Ok l -> Forall prepared l.
Proof.
  intros Hm%mutate_list_cons. induction Hm as [|o0 o l0 l Ho _ IH]; constructor; [by exists o0 | exact IH].
Qed.

Lemma within_flat_map {X} (f : X -> layout) l :
  within n (flat_map f l) -> Forall (fun x => within n (f x)) l.
Proof.
  induction l as [|x l IH]; [constructor |]. cbn [flat_map]. intros [Hx Hl]%within_app. constructor; auto.
Qed.

(** The elements of an array that is written. *)
Lemma arr_cons {X} (f : option X -> layout) o l :
  arr f (o :: l) = FBool true :: FReq (zlen (o :: l) <=? 32767) :: FShort (zlen (o :: l)) :: flat_map f (o :: l).
Proof. done. Qed.
Lemma within_arr {X} (f : option X -> layout) o l : within n (arr f (o :: l)) ->
  zlen (o :: l) <= 32767 /\ within n (flat_map f (o :: l)).
Proof.
  rewrite arr_cons. intros [_ [Hl [_ Hw]%within_cons]%within_cons]%within_cons.
  split; [by apply Z.leb_le | done].
Qed.

Lemma g1_array l0 l :
  mutate_list mutate l0 = Ok l -> gsizes (arr nest l) (tightMarshalObjectArray1 l0).
Proof.
  intros Hm%mutate_list_cons. apply codec_catch. destruct Hm as [|o0 o l0 l Ho Hl].
  { intros _. eapply (marks_bind [_] []); [apply marks_flag | apply marks_ret]. }
  intros [Hlen Hw]%within_arr. rewrite arr_cons. eapply (marks_bind [_]); [apply marks_flag |].
  apply codec_req. apply (marks_skip [_]); [done |].
  assert (Hall : Forall2 (fun o0 o => mutate_option mutate o0 = Ok o) (o0 :: l0) (o :: l)) by by constructor.
  clear Ho Hl. revert Hw Hall. generalize (o0 :: l0) (o :: l). clear Hlen. intros L0 L Hw Hall.
  rewrite <- (app_nil_r (flat_map nest L)).
  eapply (marks_bind _ _ _ _ (map (fun o => zlen (wbody (nest o))) L)).
  - induction Hall as [|x0 x L0 L Hx HL IH]; [apply marks_ret |].
    cbn [flat_map] in *. apply within_app in Hw as [Hwx HwL]. cbn [mapM map].
    eapply marks_bind; [by eapply g1_nested |]. by eapply (codec_map (@marks St _ _)); [apply IH |].
  - rewrite sum_sizes. eapply marks_value; [apply marks_ret |]. rewrite app_nil_r.
    unfold wbody. cbn [flat_map fbody]. len.
Qed.

(** *** Second pass *)
Lemma g2_bool b : gemits [FBool b] (bs BooleanStream.readBoolean) b.
Proof. intros _. apply emits_flag. Qed.
Lemma g2_int v : gemits [FInt v] (dataOut (DataOutputStream.writeInt v)) tt.
Proof. intros _. apply writeInt_emits. Qed.
Lemma g2_byte v : gemits [FByte v] (dataOut (DataOutputStream.write v)) tt.
Proof. intros Hf%within_fok. by apply write_emits. Qed.
Lemma g2_string v : gemits [FString v] (tightMarshalString2 v) tt.
Proof. intros Hf%within_fok. by apply tightMarshalString2_emits. Qed.
Lemma g2_long v : gemits [FLong v] (tightMarshalLong2 v) tt.
Proof. intros Hf%within_fok. by apply tightMarshalLong2_emits. Qed.
Lemma g2_error en e : gemits (broker_error_layout en e) (tightMarshalBrokerError2 en e) tt.
Proof. intros [Hok _]. by apply tightMarshalBrokerError2_emits. Qed.
Lemma bytes_s32 l : within n (bytes_layout l) -> nonempty l = true -> to_s32 (zlen l) = zlen l.
Proof. intros [Hok _] E. apply swrap_small; [lia |]. apply is_s_spec. by apply (wok_bytes l). Qed.
Lemma g2_bytes l : gemits (bytes_layout l) (marshalByteArray2 l) tt.
Proof.
  intros Hw. pose proof (bytes_s32 l Hw) as Hs. unfold bytes_layout, marshalByteArray2, writeByteArray.
  eapply (emits_bind [_]); [apply emits_flag |]. destruct (nonempty l); [|apply emits_ret].
  rewrite Hs by done. eapply (emits_bind [_]); [apply writeInt_emits | apply writeArray_emits].
Qed.
Lemma g2_const l : gemits ([FReq (zlen l =? 8)] ++ [FRaw l]) (writeConst8 l) tt.
Proof.
  intros [Hl%Z.eqb_eq _]%within_cons. apply codec_req. unfold writeConst8. rewrite Hl.
  change (8 <? 8) with false. cbv iota. rewrite <- Hl. apply writeArray_emits.
Qed.
Lemma g2_nested o fs : nest o = fs -> prepared o -> gemits fs (tightMarshalNestedObject2 o) tt.
Proof. intros <- Hp Hw. apply emits_catch. exact (law_nested2 n o Hp Hw). Qed.
Lemma g_since {R : forall A, layout -> M (io St) A -> A -> Prop} `{!Codec R} k v fs d (m : M (io St) unit) :
  guarded n R _ fs m tt -> guarded n R _ (if k <=? v then fs else [FReq d]) (if k <=? v then m else ret ()) tt.
Proof. intros Hm. destruct (k <=? v); [done |]. apply codec_req, codec_ret. Qed.
(** The flags the second pass reads and ignores. *)
Lemma g2_since_bool k v b d :
  gemits (if k <=? v then [FBool b] else [FReq d])
    (if k <=? v then bs BooleanStream.readBoolean ;;; ret () else ret ()) tt.
Proof. apply g_since. eapply (codec_map (guarded n (@emits St _ _))); [apply g2_bool | done]. Qed.

Lemma g2_array l : Forall prepared l -> gemits (arr nest l) (tightMarshalObjectArray2 l) tt.
Proof.
  intros Hp. apply codec_catch. destruct l as [|o l].
  { intros _. eapply (emits_bind [_] []); [apply emits_flag | apply emits_ret]. }
  intros [Hlen Hw]%within_arr. rewrite arr_cons. eapply (emits_bind [_]); [apply emits_flag |].
  apply codec_req. pose proof (zlen_nonneg (o :: l)). rewrite swrap_small by lia.
  eapply (emits_bind [_]); [apply writeShort_emits |].
  eapply (codec_map (@emits St _ _)); [|done].
  apply (codec_mapM (@emits St _ _) nest tightMarshalNestedObject2 (fun _ => tt)).
  apply within_flat_map in Hw. revert Hp Hw. rewrite !List.Forall_forall. intros Hp Hw x Hx.
  apply (g2_nested x _ eq_refl (Hp x Hx)), Hw, Hx.
Qed.

(** *** The loose marshaller *)
Lemma gl_bool b : gemitsL [FBool b] (dataOut (DataOutputStream.writeBoolean b)) tt.
Proof. intros _. apply writeBoolean_emitsL. Qed.
Lemma gl_int v : gemitsL [FInt v] (dataOut (DataOutputStream.writeInt v)) tt.
Proof. intros _. apply writeInt_emitsL. Qed.
Lemma gl_byte v : gemitsL [FByte v] (dataOut (DataOutputStream.write v)) tt.
Proof. intros Hf%within_fok. by apply write_emitsL. Qed.
Lemma gl_string v : gemitsL [FString v] (looseMarshalString v) tt.
Proof. intros Hf%within_fok. by apply looseMarshalString_emits. Qed.
Lemma gl_long v : gemitsL [FLong v] (looseMarshalLong v) tt.
Proof. intros _. apply looseMarshalLong_emits. Qed.
Lemma gl_error en e : gemitsL (broker_error_layout en e) (looseMarshalBrokerError en e) tt.
Proof. intros [Hok _]. by apply looseMarshalBrokerError_emits. Qed.
Lemma gl_bytes l : gemitsL (bytes_layout l) (looseMarshalByteArray l) tt.
Proof.
  intros Hw. pose proof (bytes_s32 l Hw) as Hs. unfold bytes_layout, looseMarshalByteArray, writeByteArray.
  destruct (nonempty l) eqn:E.
  - eapply (emitsL_bind [_]); [apply (writeBoolean_emitsL true) |].
    rewrite Hs by done. eapply (emitsL_bind [_]); [apply writeInt_emitsL | apply writeArray_emitsL].
  - eapply (emitsL_bind [_]); [apply (writeBoolean_emitsL false) | apply emitsL_ret].
Qed.
Lemma gl_const l : gemitsL ([FReq (zlen l =? 8)] ++ [FRaw l]) (writeConst8 l) tt.
Proof.
  intros [Hl%Z.eqb_eq _]%within_cons. apply codec_req. unfold writeConst8. rewrite Hl.
  change (8 <? 8) with false. cbv iota. rewrite <- Hl. apply writeArray_emitsL.
Qed.
Lemma gl_nested o0 o fs :
  nest o = fs -> mutate_option mutate o0 = Ok o -> gemitsL fs (looseMarshalNestedObject o0) tt.
Proof. intros <- Hm Hw. apply emitsL_catch. exact (law_looseMarshal n o0 o Hm Hw). Qed.
Lemma gl_array l0 l :
  mutate_list mutate l0 = Ok l -> gemitsL (arr nest l) (looseMarshalObjectArray l0) tt.
Proof.
  intros Hm%mutate_list_cons. apply codec_catch. destruct Hm as [|o0 o l0 l Ho Hl].
  { intros _. eapply (emitsL_bind [_] []); [apply (writeBoolean_emitsL false) | apply emitsL_ret]. }
  intros [Hlen Hw]%within_arr. rewrite arr_cons. eapply (emitsL_bind [_]); [apply (writeBoolean_emitsL true) |].
  assert (Hall : Forall2 (fun o0 o => mutate_option mutate o0 = Ok o) (o0 :: l0) (o :: l)) by by constructor.
  apply codec_req. cbn [nonempty]. replace (zlen (o0 :: l0)) with (zlen (o :: l))
    by (unfold zlen; by rewrite (Forall2_length Hall)).
  rewrite swrap_small by len. eapply (emitsL_bind [_]); [apply writeShort_emitsL |].
  clear Ho Hl Hlen. revert Hw Hall. generalize (o0 :: l0) (o :: l). intros L0 L Hw Hall.
  eapply (codec_map (@emitsL St _ _) _ _ _ (map (fun _ => tt) L)); [|done].
  induction Hall as [|x0 x L0 L Hx HL IH]; [apply emitsL_ret |].
  cbn [flat_map] in *. apply within_app in Hw as [Hwx HwL]. cbn [mapM map].
  eapply emitsL_bind; [by eapply gl_nested |]. by eapply (codec_map (@emitsL St _ _)); [apply IH |].
Qed.

(** *** Unmarshalling *)
Lemma gp_bool b : gparses [FBool b] (bs BooleanStream.readBoolean) b.
Proof. intros _. apply parses_flag. Qed.
Lemma gp_int v : gparses [FInt v] (dataIn DataInputStream.readInt) v.
Proof. intros Hf%within_fok. by apply readInt_parses. Qed.
Lemma gp_byte v : gparses [FByte v] readUByte v.
Proof. intros Hf%within_fok. by apply readByte_parses. Qed.
Lemma gp_string v : gparses [FString v] tightUnmarshalString v.
Proof. intros Hf%within_fok. by apply tightUnmarshalString_parses. Qed.
Lemma gp_long v : gparses [FLong v] tightUnmarshalLong v.
Proof. intros Hf%within_fok. by apply tightUnmarshalLong_parses. Qed.
Lemma gp_error en e : gparses (broker_error_layout en e) (tightUnmarshalBrokerError wf_fuel en) e.
Proof.
  intros [Hok Hl]. apply tightUnmarshalBrokerError_parses; [done |].
  pose proof (law_fuel n) as Hfuel. lia.
Qed.
Lemma gp_bytes l : gparses (bytes_layout l) tightUnmarshalByteArray l.
Proof. intros [Hok _]. by apply tightUnmarshalByteArray_parses. Qed.
Lemma gp_const l : gparses ([FReq (zlen l =? 8)] ++ [FRaw l]) (tightUnmarshalConstByteArray 8) l.
Proof. intros [Hl%Z.eqb_eq _]%within_cons. apply codec_req. by apply tightUnmarshalConstByteArray_parses. Qed.

Lemma gq_bool b : gparsesL [FBool b] (dataIn DataInputStream.readBoolean) b.
Proof. intros _. apply readBoolean_parsesL. Qed.
Lemma gq_int v : gparsesL [FInt v] (dataIn DataInputStream.readInt) v.
Proof. intros Hf%within_fok. by apply readInt_parsesL. Qed.
Lemma gq_byte v : gparsesL [FByte v] readUByte v.
Proof. intros Hf%within_fok. by apply readByte_parsesL. Qed.
Lemma gq_string v : gparsesL [FString v] looseUnmarshalString v.
Proof. intros Hf%within_fok. by apply looseUnmarshalString_parses. Qed.
Lemma gq_long v : gparsesL [FLong v] looseUnmarshalLong v.
Proof. intros Hf%within_fok. by apply looseUnmarshalLong_parses. Qed.
Lemma gq_error en e : gparsesL (broker_error_layout en e) (looseUnmarshalBrokerError wf_fuel en) e.
Proof.
  intros [Hok Hl]. apply looseUnmarshalBrokerError_parses; [done |].
  pose proof (law_fuel n) as Hfuel. lia.
Qed.
Lemma gq_bytes l : gparsesL (bytes_layout l) looseUnmarshalByteArray l.
Proof. intros [Hok _]. by apply looseUnmarshalByteArray_parses. Qed.
Lemma gq_const l : gparsesL ([FReq (zlen l =? 8)] ++ [FRaw l]) (looseUnmarshalConstByteArray 8) l.
Proof. intros [Hl%Z.eqb_eq _]%within_cons. apply codec_req. by apply looseUnmarshalConstByteArray_parses. Qed.

(** A field that is absent keeps the value of the object it is read into. *)
Lemma g_absent {R : forall A, layout -> M (io St) A -> A -> Prop} `{!Codec R} {A} k v fs (x d : A) (m : M (io St) A)
    `{!Decision (x = d)} :
  guarded n R _ fs m x ->
  guarded n R _ (if k <=? v then fs else [FReq (bool_decide (x = d))]) (if k <=? v then m else ret d) x.
Proof.
  intros Hm. destruct (k <=? v); [done |].
  intros [Hx _]%within_cons. cbn [fok] in Hx. apply bool_decide_eq_true in Hx as ->.
  apply codec_req, codec_ret.
Qed.

Definition cast_value {T} (as_T : DataStructure -> option T) (o : option DataStructure) : option T :=
  match option_map arrived o with Some d => as_T d | None => None end.
Lemma gp_nested {T} (as_T : DataStructure -> option T) o fs x :
  nest o = fs -> prepared o -> cast_value as_T o = x -> gparses fs (cast as_T tightUnmarshalNestedObject) x.
Proof.
  intros <- Hp <- Hw. eapply (codec_map (@parses St _ _)); [|done]. apply parses_catch. exact (law_unmarshal n o Hp Hw).
Qed.
Lemma gq_nested {T} (as_T : DataStructure -> option T) o fs x :
  nest o = fs -> prepared o -> cast_value as_T o = x -> gparsesL fs (cast as_T looseUnmarshalNestedObject) x.
Proof.
  intros <- Hp <- Hw. eapply (codec_map (@parsesL St _ _)); [|done]. apply parsesL_catch. exact (law_looseUnmarshal n o Hp Hw).
Qed.

Lemma g_array_read (R : forall A, layout -> M (io St) A -> A -> Prop) `{!Codec R} {T} f (g : option DataStructure -> option T)
    (l : list (option DataStructure)) (flag : M (io St) bool) (element : M (io St) (option T)) :
  (forall b, guarded n R _ [FBool b] flag b) ->
  (forall v, fok (FShort v) = true -> R _ [FShort v] (dataIn DataInputStream.readShort) v) ->
  Forall (fun o => guarded n R _ (f o) element (g o)) l ->
  guarded n R _ (arr f l) (readArray flag element) (map g l).
Proof.
  intros Hflag Hshort Hel. destruct l as [|o l].
  { intros Hw. unfold arr. eapply (codec_bind _ _ [_] []); [by apply Hflag | apply codec_ret]. }
  intros Hw. assert (Hf : within n [FBool true]).
  { destruct Hw as [_ Hw]. split; [done |]. rewrite arr_cons in Hw. cbn [length] in Hw |- *. lia. }
  apply within_arr in Hw as [Hlen Hw]. rewrite arr_cons.
  eapply (codec_bind _ _ [_]); [by apply Hflag |]. cbv iota. apply codec_req. pose proof (zlen_nonneg (o :: l)).
  eapply (codec_bind _ _ [_]); [apply Hshort, is_s_spec; lia |].
  destruct (Z.ltb_spec (zlen (o :: l)) 0); [lia |]. unfold zlen. rewrite Nat2Z.id.
  apply within_flat_map in Hw. revert Hw Hel. clear -Codec0. generalize (o :: l). intros L.
  induction 1 as [|x L Hx _ IH]; [intros _; apply codec_ret |]. intros [Hel HL]%List.Forall_cons_iff.
  cbn [flat_map length repeatM map]. eapply codec_bind; [by apply Hel |]. by eapply (codec_map R); [exact (IH HL) |].
Qed.
Lemma gp_array {T} (as_T : DataStructure -> option T) l : Forall prepared l ->
  gparses (arr nest l) (tightUnmarshalObjectArray as_T) (map (cast_value as_T) l).
Proof.
  intros Hp. apply (g_array_read (@parses St _ _)); [apply gp_bool | apply readShort_parses |].
  revert Hp. apply Forall_impl. intros o Hp. by eapply gp_nested.
Qed.
Lemma gq_array {T} (as_T : DataStructure -> option T) l : Forall prepared l ->
  gparsesL (arr nest l) (looseUnmarshalObjectArray as_T) (map (cast_value as_T) l).
Proof.
  intros Hp. apply (g_array_read (@parsesL St _ _)); [apply gq_bool | apply readShort_parsesL |].
  revert Hp. apply Forall_impl. intros o Hp. by eapply gq_nested.
Qed.

(** Objects of any class. *)
Lemma cast_value_any o : cast_value as_DataStructure o = option_map arrived o.
Proof. by destruct o. Qed.
Lemma gp_any o : prepared o ->
  gparses (nest o) (cast as_DataStructure tightUnmarshalNestedObject) (option_map arrived o).
Proof. intros Hp. exact (gp_nested _ o _ _ eq_refl Hp (cast_value_any o)). Qed.
Lemma gq_any o : prepared o ->
  gparsesL (nest o) (cast as_DataStructure looseUnmarshalNestedObject) (option_map arrived o).
Proof. intros Hp. exact (gq_nested _ o _ _ eq_refl Hp (cast_value_any o)). Qed.
Lemma gp_any_array l : Forall prepared l ->
  gparses (arr nest l) (tightUnmarshalObjectArray as_DataStructure) (map (option_map arrived) l).
Proof. intros Hp. rewrite <- (map_ext _ _ cast_value_any). by apply gp_array. Qed.
Lemma gq_any_array l : Forall prepared l ->
  gparsesL (arr nest l) (looseUnmarshalObjectArray as_DataStructure) (map (option_map arrived) l).
Proof. intros Hp. rewrite <- (map_ext _ _ cast_value_any). by apply gq_array. Qed.
End Fields.

(** ** Objects of a known class

    [up] is the constructor of the class in [DataStructure]; the marshalling
    hooks leave such an object as it is. *)
Section Typed.
Context {St : Type} `{HI : InputStreamLaws St} (n : nat).
Context `{Platform} `{WireOptions} `{!WireFormat St} `{HL : !WireFormatLaws n}.
Import NestedObjects.
Context {X : Type} (up : X -> DataStructure) (down : DataStructure -> option X) (f : option X -> layout).
Context (Hnest : forall o, nest (option_map up o) = f o).
Context (Hmutate : forall x, mutate (up x) = Ok (up x)).
Context (Hcast : forall x, down (arrived (up x)) = Some x).

Lemma mutate_up o : mutate_option mutate (option_map up o) = Ok (option_map up o).
Proof using Hmutate. destruct o; cbn; by rewrite ?Hmutate. Qed.
Lemma mutate_list_up l : mutate_list mutate (map (option_map up) l) = Ok (map (option_map up) l).
Proof using Hmutate. induction l as [|o l IH]; [done |]. cbn [map mutate_list]. rewrite mutate_up. cbn. by rewrite IH. Qed.
Lemma prepared_up o : prepared (option_map up o).
Proof using Hmutate. exists (option_map up o). apply mutate_up. Qed.
Lemma prepared_list_up l : Forall prepared (map (option_map up) l).
Proof using Hmutate. induction l as [|o l IH]; constructor; [apply prepared_up | exact IH]. Qed.
Lemma arr_up l : arr nest (map (option_map up) l) = arr f l.
Proof using Hnest.
  destruct l as [|o l]; [done |]. cbn [map]. rewrite !arr_cons, <- !map_cons.
  unfold zlen. rewrite length_map. do 3 f_equal. generalize (o :: l) as L.
  induction L as [|x L IH]; [done |]. cbn [map flat_map]. by rewrite IH, Hnest.
Qed.
Lemma cast_up o : cast_value down (option_map up o) = o.
Proof using Hcast. destruct o; [apply Hcast | done]. Qed.
Lemma cast_map_up l : map (cast_value down) (map (option_map up) l) = l.
Proof using Hcast. induction l as [|o l IH]; [done |]. cbn [map]. by rewrite IH, cast_up. Qed.

Lemma g1_typed o : gsizes n (f o) (tightMarshalNestedObject1 (option_map up o)).
Proof using HI HL Hnest Hmutate. exact (g1_nested n _ _ _ (Hnest o) (mutate_up o)). Qed.
Lemma g2_typed o : guarded n (@emits St _ _) _ (f o) (tightMarshalNestedObject2 (option_map up o)) tt.
Proof using HI HL Hnest Hmutate. exact (g2_nested n _ _ (Hnest o) (prepared_up o)). Qed.
Lemma gl_typed o : guarded n (@emitsL St _ _) _ (f o) (looseMarshalNestedObject (option_map up o)) tt.
Proof using HI HL Hnest Hmutate. exact (gl_nested n _ _ _ (Hnest o) (mutate_up o)). Qed.
Lemma gp_typed o : guarded n (@parses St _ _) _ (f o) (cast down tightUnmarshalNestedObject) o.
Proof using HI HL Hnest Hmutate Hcast. exact (gp_nested n _ _ _ _ (Hnest o) (prepared_up o) (cast_up o)). Qed.
Lemma gq_typed o : guarded n (@parsesL St _ _) _ (f o) (cast down looseUnmarshalNestedObject) o.
Proof using HI HL Hnest Hmutate Hcast. exact (gq_nested n _ _ _ _ (Hnest o) (prepared_up o) (cast_up o)). Qed.

Lemma g1_typed_array l : gsizes n (arr f l) (tightMarshalObjectArray1 (map (option_map up) l)).
Proof using HI HL Hnest Hmutate. rewrite <- arr_up. exact (g1_array n _ _ (mutate_list_up l)). Qed.
Lemma g2_typed_array l :
  guarded n (@emits St _ _) _ (arr f l) (tightMarshalObjectArray2 (map (option_map up) l)) tt.
Proof using HI HL Hnest Hmutate. rewrite <- arr_up. exact (g2_array n _ (prepared_list_up l)). Qed.
Lemma gl_typed_array l :
  guarded n (@emitsL St _ _) _ (arr f l) (looseMarshalObjectArray (map (option_map up) l)) tt.
Proof using HI HL Hnest Hmutate. rewrite <- arr_up. exact (gl_array n _ _ (mutate_list_up l)). Qed.
Lemma gp_typed_array l : guarded n (@parses St _ _) _ (arr f l) (tightUnmarshalObjectArray down) l.
Proof using HI HL Hnest Hmutate Hcast. rewrite <- arr_up. rewrite <- (cast_map_up l) at 2. exact (gp_array n _ _ (prepared_list_up l)). Qed.
Lemma gq_typed_array l : guarded n (@parsesL St _ _) _ (arr f l) (looseUnmarshalObjectArray down) l.
Proof using HI HL Hnest Hmutate Hcast. rewrite <- arr_up. rewrite <- (cast_map_up l) at 2. exact (gq_array n _ _ (prepared_list_up l)). Qed.
End Typed.

(** The constructor of the class a cast aims at. *)
Ltac upcast_of as_T :=
  lazymatch as_T with
  | as_BrokerId => constr:(DBrokerId)
  | as_ConnectionId => constr:(DConnectionId)
  | as_SessionId => constr:(DSessionId)
  | as_ConsumerId => constr:(DConsumerId)
  | as_ProducerId => constr:(DProducerId)
  | as_MessageId => constr:(DMessageId)
  | as_TransactionId => constr:(DTransactionId)
  | as_ActiveMQDestination => constr:(DDestination)
  | as_MessageAck => constr:(DMessageAck)
  | as_BrokerInfo => constr:(DBrokerInfo)
  | as_BooleanExpression => constr:(DBooleanExpression)
  end.
Ltac prepared_side := first [eapply prepared_list; eassumption | eexists; eassumption].
Ltac typed_side := solve [intros []; reflexivity | intros [[]|]; reflexivity | reflexivity].

(** ** A class implements its layout *)
Section Implements.
Context {St : Type} `{InputStreamLaws St} (n : nat).

(** The five functions of a marshaller: [info0] is the object handed to the
    first pass and to the loose marshaller, [info] what their hooks make of it
    and [info'] what the receiver gets. *)
Record implements {X} (fs : layout) (info' : X) (t1 : M (io St) Z) (t2 : M (io St) unit)
    (tu : M (io St) X) (lm : M (io St) unit) (lu : M (io St) X) : Prop := {
  impl_t1 : gsizes n fs t1;
  impl_t2 : guarded n (@emits St _ _) _ fs t2 tt;
  impl_tu : guarded n (@parses St _ _) _ fs tu info';
  impl_lm : guarded n (@emitsL St _ _) _ fs lm tt;
  impl_lu : guarded n (@parsesL St _ _) _ fs lu info'
}.

Lemma g_pad {R : forall A, layout -> M (io St) A -> A -> Prop} {A} fs (m : M (io St) A) v :
  guarded n R _ (fs ++ []) m v -> guarded n R _ fs m v.
Proof. by rewrite app_nil_r. Qed.
Lemma g_ret {R : forall A, layout -> M (io St) A -> A -> Prop} `{!Codec R} {A} (v v' : A) :
  v = v' -> guarded n R _ [] (ret v) v'.
Proof. intros <-. apply codec_ret. Qed.
Lemma implements_void {X} fs (x : X) t1 t2 tu lm lu : wok fs = false -> implements fs x t1 t2 tu lm lu.
Proof. intros E. split; intros [Hok _]; congruence. Qed.
Lemma g_noop {R : forall A, layout -> M (io St) A -> A -> Prop} {A B} (x : A) m fs (k : A -> M (io St) B) v :
  m = ret x -> guarded n R _ fs (k x) v -> guarded n R _ fs (bind m k) v.
Proof. by intros ->. Qed.
Lemma g_lift {R : forall A, layout -> M (io St) A -> A -> Prop} `{!Codec R} {A} (r : result A) v :
  r = Ok v -> guarded n R _ [] (lift r) v.
Proof. intros ->. apply codec_ret. Qed.
End Implements.

(** Sizes of the fields whose size is known. *)
Lemma size_int v : zlen (wbody [FInt v]) = 4. Proof. done. Qed.
Lemma size_byte v : zlen (wbody [FByte v]) = 1. Proof. done. Qed.
Lemma size_bool b : zlen (wbody [FBool b]) = 0. Proof. done. Qed.
Lemma size_req b : zlen (wbody [FReq b]) = 0. Proof. done. Qed.
Lemma size_nil : zlen (wbody []) = 0. Proof. done. Qed.
Lemma size_since_bool (c b d : bool) : zlen (wbody (if c then [FBool b] else [FReq d])) = 0.
Proof. by destruct c. Qed.
Create Rewrite HintDb wsize.
#[export] Hint Rewrite zlen_wbody_app size_int size_byte size_bool size_req size_nil size_since_bool : wsize.

(** The lemmas of the base classes' marshallers. *)
Create HintDb marshal.

Ltac size_field :=
  lazymatch goal with
  | |- gsizes _ _ (BaseDataStreamMarshaller.tightMarshalString1 _) => apply g1_string
  | |- gsizes _ _ (BaseDataStreamMarshaller.tightMarshalLong1 _) => apply g1_long
  | |- gsizes _ _ (BaseDataStreamMarshaller.tightMarshalBrokerError1 _ _) => apply g1_error
  | |- gsizes _ _ (NestedObjects.marshalByteArray1 _) => apply g1_bytes
  | |- gsizes _ _ (NestedObjects.tightMarshalObjectArray1 (map (option_map ?C) _)) =>
    apply (g1_typed_array _ C); typed_side
  | |- gsizes _ _ (NestedObjects.tightMarshalObjectArray1 _) => refine (g1_array _ _ _ _); eassumption
  | |- gsizes _ _ (_ (option_map ?C _)) => apply (g1_typed _ C); typed_side
  | |- gsizes _ (nest _) _ => refine (g1_nested _ _ _ _ eq_refl _); eassumption
  end.

Ltac pass_field :=
  lazymatch goal with
  | |- guarded _ (@marks _ _ _) _ _ ?m _ =>
    lazymatch m with
    | bs (BooleanStream.writeBoolean _) => apply g1_bool
    | NestedObjects.add_rc _ _ => apply g_add; size_field
    | if _ then NestedObjects.add_rc _ _ else _ => apply g1_since; size_field
    | if _ then bs _ else _ => apply g1_since_bool
    | _ => solve [eauto with marshal nocore]
    end
  | |- guarded _ (@emits _ _ _) _ _ ?m _ =>
    lazymatch m with
    | bs BooleanStream.readBoolean => apply g2_bool
    | dataOut (DataOutputStream.writeInt _) => apply g2_int
    | dataOut (DataOutputStream.write _) => apply g2_byte
    | BaseDataStreamMarshaller.tightMarshalString2 _ => apply g2_string
    | BaseDataStreamMarshaller.tightMarshalLong2 _ => apply g2_long
    | BaseDataStreamMarshaller.tightMarshalBrokerError2 _ _ => apply g2_error
    | NestedObjects.marshalByteArray2 _ => apply g2_bytes
    | NestedObjects.writeConst8 _ => apply g2_const
    | NestedObjects.tightMarshalObjectArray2 (map (option_map ?C) _) => apply (g2_typed_array _ C); typed_side
    | if _ then bs _ ;;; ret () else _ => apply g2_since_bool
    | if _ then _ else _ => refine (g_since _ _ _ _ _ _ _); pass_field
    | _ (option_map ?C _) => apply (g2_typed _ C); typed_side
    | NestedObjects.tightMarshalObjectArray2 _ => refine (g2_array _ _ _); prepared_side
    | NestedObjects.tightMarshalNestedObject2 _ => refine (g2_nested _ _ _ eq_refl _); prepared_side
    | NestedObjects.tightMarshalCachedObject2 _ => refine (g2_nested _ _ _ eq_refl _); prepared_side
    | _ => solve [eauto with marshal nocore]
    end
  | |- guarded _ (@emitsL _ _ _) _ _ ?m _ =>
    lazymatch m with
    | dataOut (DataOutputStream.writeBoolean _) => apply gl_bool
    | dataOut (DataOutputStream.writeInt _) => apply gl_int
    | dataOut (DataOutputStream.write _) => apply gl_byte
    | BaseDataStreamMarshaller.looseMarshalString _ => apply gl_string
    | BaseDataStreamMarshaller.looseMarshalLong _ => apply gl_long
    | BaseDataStreamMarshaller.looseMarshalBrokerError _ _ => apply gl_error
    | NestedObjects.looseMarshalByteArray _ => apply gl_bytes
    | NestedObjects.writeConst8 _ => apply gl_const
    | NestedObjects.looseMarshalObjectArray (map (option_map ?C) _) => apply (gl_typed_array _ C); typed_side
    | if _ then _ else _ => refine (g_since _ _ _ _ _ _ _); pass_field
    | _ (option_map ?C _) => apply (gl_typed _ C); typed_side
    | NestedObjects.looseMarshalObjectArray _ => refine (gl_array _ _ _ _); eassumption
    | NestedObjects.looseMarshalNestedObject _ => refine (gl_nested _ _ _ _ eq_refl _); eassumption
    | NestedObjects.looseMarshalCachedObject _ => refine (gl_nested _ _ _ _ eq_refl _); eassumption
    | _ => solve [eauto with marshal nocore]
    end
  | |- guarded _ (@parses _ _ _) _ _ ?m _ =>
    lazymatch m with
    | bs BooleanStream.readBoolean => apply gp_bool
    | dataIn DataInputStream.readInt => apply gp_int
    | NestedObjects.readUByte => apply gp_byte
    | BaseDataStreamMarshaller.tightUnmarshalString => apply gp_string
    | BaseDataStreamMarshaller.tightUnmarshalLong => apply gp_long
    | BaseDataStreamMarshaller.tightUnmarshalBrokerError _ _ => refine (gp_error _ _ _)
    | BaseDataStreamMarshaller.tightUnmarshalByteArray => apply gp_bytes
    | BaseDataStreamMarshaller.tightUnmarshalConstByteArray _ => apply gp_const
    | NestedObjects.tightUnmarshalObjectArray as_DataStructure => refine (gp_any_array _ _ _); prepared_side
    | NestedObjects.cast as_DataStructure _ => refine (gp_any _ _ _); prepared_side
    | NestedObjects.tightUnmarshalObjectArray ?a => let C := upcast_of a in apply (gp_typed_array _ C); typed_side
    | NestedObjects.cast ?a _ => let C := upcast_of a in apply (gp_typed _ C); typed_side
    | if _ then _ else _ => refine (g_absent _ _ _ _ _ _ _ _); pass_field
    | _ => solve [eauto with marshal nocore]
    end
  | |- guarded _ (@parsesL _ _ _) _ _ ?m _ =>
    lazymatch m with
    | dataIn DataInputStream.readBoolean => apply gq_bool
    | dataIn DataInputStream.readInt => apply gq_int
    | NestedObjects.readUByte => apply gq_byte
    | BaseDataStreamMarshaller.looseUnmarshalString => apply gq_string
    | BaseDataStreamMarshaller.looseUnmarshalLong => apply gq_long
    | BaseDataStreamMarshaller.looseUnmarshalBrokerError _ _ => refine (gq_error _ _ _)
    | BaseDataStreamMarshaller.looseUnmarshalByteArray => apply gq_bytes
    | BaseDataStreamMarshaller.looseUnmarshalConstByteArray _ => apply gq_const
    | NestedObjects.looseUnmarshalObjectArray as_DataStructure => refine (gq_any_array _ _ _); prepared_side
    | NestedObjects.cast as_DataStructure _ => refine (gq_any _ _ _); prepared_side
    | NestedObjects.looseUnmarshalObjectArray ?a => let C := upcast_of a in apply (gq_typed_array _ C); typed_side
    | NestedObjects.cast ?a _ => let C := upcast_of a in apply (gq_typed _ C); typed_side
    | if _ then _ else _ => refine (g_absent _ _ _ _ _ _ _ _); pass_field
    | _ => solve [eauto with marshal nocore]
    end
  end.

(** Fields the first pass does not visit. *)
Ltac skip_field :=
  lazymatch goal with
  | |- guarded _ (@marks _ _ _) _ ([FInt _] ++ _) _ _ => apply g_skip; [reflexivity |]
  | |- guarded _ (@marks _ _ _) _ ([FByte _] ++ _) _ _ => apply g_skip; [reflexivity |]
  | |- guarded _ (@marks _ _ _) _ (([FReq _] ++ [FRaw _]) ++ _) _ _ => apply g_skip; [reflexivity |]
  | |- guarded _ (@marks _ _ _) _ ([FReq _] ++ [FRaw _] ++ _) _ _ => apply (g_skip _ [_]); [reflexivity |]
  | |- guarded _ (@marks _ _ _) _ ([FRaw _] ++ _) _ _ => apply (g_skip _ [_]); [reflexivity |]
  end.

(** One statement after the other, down to the final [ret]. *)
Ltac statements :=
  repeat first
  [ lazymatch goal with
    | |- guarded ?n ?R ?A ?fs (bind NestedObjects.tightMarshal1 ?k) ?v =>
      change (guarded n R A fs (k 0) v); cbv beta
    end
  | skip_field
  | lazymatch goal with
    | |- guarded _ _ _ (_ ++ _) (bind _ _) _ => eapply codec_bind; [pass_field |]; cbv beta
    | |- guarded _ _ _ [] _ _ => fail
    | |- guarded _ _ _ _ (bind _ _) _ => apply g_pad
    end ].

(** A call of a base class that does nothing. *)
Ltac base_noop :=
  idtac;
  lazymatch goal with
  | |- guarded _ _ _ _ (bind ?m ?k) _ =>
    first [apply (g_noop _ tt m _ k) | apply (g_noop _ 0 m _ k)]; [reflexivity |]; cbv beta
  end.

Ltac size_sum := autorewrite with wsize; lia.
Ltac implement_after first_step eq :=
  split; [red | | | |]; apply codec_catch; first_step; statements;
  [ first [apply g_done; [reflexivity | size_sum]]
  | repeat apply codec_req; refine (g_ret _ _ _ _); reflexivity
  | repeat apply codec_req; refine (g_ret _ _ _ _); eq
  | repeat apply codec_req; refine (g_ret _ _ _ _); reflexivity
  | repeat apply codec_req; refine (g_ret _ _ _ _); eq ].
Ltac implement_with eq := implement_after idtac eq.

(** A class whose first pass counts versioned integers in every version. *)
Ltac implement_from_version v eq :=
  destruct (v <=? wireVersion);
  [ implement_with eq
  | apply implements_void; rewrite !wok_app; change (wok [FReq false]) with false;
    rewrite !andb_false_r; reflexivity ].
