(* ===== verification/IdMarshallers.v ===== *)
(** * The marshallers of identifiers and destinations

    activemq/wireformat/openwire/marshal/generated: the marshallers of the base
    command, of the identifier classes, of transaction ids and of destinations.
    [X_implements] says that the five functions of the marshaller of [X]
    implement the layout of [X]. *)

From S2P Require Import Prelude DataStreams PrimitiveTypes Support BooleanStreams Wire BaseMarshaller Commands Layouts MarshallerBase.

Module BaseCommandMarshaller.
Section Code.
Context `{Platform} `{WireOptions} {St : Type} `{InputStream St} `{!WireFormat St}.
Import BaseDataStreamMarshaller NestedObjects.

Definition tightUnmarshal (info : BaseCommand.t) : M (io St) (BaseCommand.t) :=
  catch_io (
    let* commandId := dataIn DataInputStream.readInt in
    let* responseRequired := bs BooleanStream.readBoolean in
    ret {| BaseCommand.commandId := commandId; BaseCommand.responseRequired :=
      responseRequired |}).

Definition looseUnmarshal (info : BaseCommand.t) : M (io St) (BaseCommand.t) :=
  catch_io (
    let* commandId := dataIn DataInputStream.readInt in
    let* responseRequired := dataIn DataInputStream.readBoolean in
    ret {| BaseCommand.commandId := commandId; BaseCommand.responseRequired :=
      responseRequired |}).

Definition tightMarshal1 (info : BaseCommand.t) : M (io St) Z :=
  catch_io (
    let* rc := NestedObjects.tightMarshal1 in
    bs (BooleanStream.writeBoolean (BaseCommand.responseRequired info)) ;;;
    ret (rc + 4)).

Definition tightMarshal2 (info : BaseCommand.t) : M (io St) unit :=
  catch_io (
    dataOut (DataOutputStream.writeInt (BaseCommand.commandId info)) ;;;
    bs BooleanStream.readBoolean ;;;
    ret ()).

Definition looseMarshal (info : BaseCommand.t) : M (io St) unit :=
  catch_io (
    dataOut (DataOutputStream.writeInt (BaseCommand.commandId info)) ;;;
    dataOut (DataOutputStream.writeBoolean (BaseCommand.responseRequired info)) ;;;
    ret ()).

End Code.
End BaseCommandMarshaller.

Section Laws.
Context {St : Type} `{InputStreamLaws St} (n : nat).
Context `{Platform} `{WireOptions} `{!WireFormat St} `{!WireFormatLaws n}.
Lemma BaseCommand_t1 b : guarded n (@marks St _ _) _ (BaseCommand_layout b) (BaseCommandMarshaller.tightMarshal1 b) (zlen (wbody (BaseCommand_layout b))).
Proof. unfold BaseCommand_layout. apply codec_catch. statements. apply g_done; [reflexivity | size_sum]. Qed.
Lemma BaseCommand_t2 b : guarded n (@emits St _ _) _ (BaseCommand_layout b) (BaseCommandMarshaller.tightMarshal2 b) tt.
Proof. unfold BaseCommand_layout. apply codec_catch. statements. by refine (g_ret _ _ _ _). Qed.
Lemma BaseCommand_tu b b0 : guarded n (@parses St _ _) _ (BaseCommand_layout b) (BaseCommandMarshaller.tightUnmarshal b0) b.
Proof. unfold BaseCommand_layout. apply codec_catch. statements. refine (g_ret _ _ _ _). by destruct b. Qed.
Lemma BaseCommand_lm b : guarded n (@emitsL St _ _) _ (BaseCommand_layout b) (BaseCommandMarshaller.looseMarshal b) tt.
Proof. unfold BaseCommand_layout. apply codec_catch. statements. by refine (g_ret _ _ _ _). Qed.
Lemma BaseCommand_lu b b0 : guarded n (@parsesL St _ _) _ (BaseCommand_layout b) (BaseCommandMarshaller.looseUnmarshal b0) b.
Proof. unfold BaseCommand_layout. apply codec_catch. statements. refine (g_ret _ _ _ _). by destruct b. Qed.
End Laws.
#[export] Hint Resolve BaseCommand_t1 BaseCommand_t2 BaseCommand_tu BaseCommand_lm BaseCommand_lu : marshal.

Module BrokerIdMarshaller.
Section Code.
Context `{Platform} `{WireOptions} {St : Type} `{InputStream St} `{!WireFormat St}.
Import BaseDataStreamMarshaller NestedObjects.

Definition tightUnmarshal (info : BrokerId.t) : M (io St) (BrokerId.t) :=
  catch_io (
    let* value := tightUnmarshalString in
    ret {| BrokerId.value := value |}).

Definition looseUnmarshal (info : BrokerId.t) : M (io St) (BrokerId.t) :=
  catch_io (
    let* value := looseUnmarshalString in
    ret {| BrokerId.value := value |}).

Definition tightMarshal1 (info : BrokerId.t) : M (io St) Z :=
  catch_io (
    let* rc := NestedObjects.tightMarshal1 in
    let* rc := add_rc rc (tightMarshalString1 (BrokerId.value info)) in
    ret (rc + 0)).

Definition tightMarshal2 (info : BrokerId.t) : M (io St) unit :=
  catch_io (
    tightMarshalString2 (BrokerId.value info) ;;;
    ret ()).

Definition looseMarshal (info : BrokerId.t) : M (io St) unit :=
  catch_io (
    looseMarshalString (BrokerId.value info) ;;;
    ret ()).

End Code.
End BrokerIdMarshaller.

Module ConnectionIdMarshaller.
Section Code.
Context `{Platform} `{WireOptions} {St : Type} `{InputStream St} `{!WireFormat St}.
Import BaseDataStreamMarshaller NestedObjects.

Definition tightUnmarshal (info : ConnectionId.t) : M (io St) (ConnectionId.t) :=
  catch_io (
    let* value := tightUnmarshalString in
    ret {| ConnectionId.value := value |}).

Definition looseUnmarshal (info : ConnectionId.t) : M (io St) (ConnectionId.t) :=
  catch_io (
    let* value := looseUnmarshalString in
    ret {| ConnectionId.value := value |}).

Definition tightMarshal1 (info : ConnectionId.t) : M (io St) Z :=
  catch_io (
    let* rc := NestedObjects.tightMarshal1 in
    let* rc := add_rc rc (tightMarshalString1 (ConnectionId.value info)) in
    ret (rc + 0)).

Definition tightMarshal2 (info : ConnectionId.t) : M (io St) unit :=
  catch_io (
    tightMarshalString2 (ConnectionId.value info) ;;;
    ret ()).

Definition looseMarshal (info : ConnectionId.t) : M (io St) unit :=
  catch_io (
    looseMarshalString (ConnectionId.value info) ;;;
    ret ()).

End Code.
End ConnectionIdMarshaller.

Module SessionIdMarshaller.
Section Code.
Context `{Platform} `{WireOptions} {St : Type} `{InputStream St} `{!WireFormat St}.
Import BaseDataStreamMarshaller NestedObjects.

Definition tightUnmarshal (info : SessionId.t) : M (io St) (SessionId.t) :=
  catch_io (
    let* connectionId := tightUnmarshalString in
    let* value := tightUnmarshalLong in
    ret {| SessionId.connectionId := connectionId; SessionId.value := value |}).

Definition looseUnmarshal (info : SessionId.t) : M (io St) (SessionId.t) :=
  catch_io (
    let* connectionId := looseUnmarshalString in
    let* value := looseUnmarshalLong in
    ret {| SessionId.connectionId := connectionId; SessionId.value := value |}).

Definition tightMarshal1 (info : SessionId.t) : M (io St) Z :=
  catch_io (
    let* rc := NestedObjects.tightMarshal1 in
    let* rc := add_rc rc (tightMarshalString1 (SessionId.connectionId info)) in
    let* rc := add_rc rc (tightMarshalLong1 (SessionId.value info)) in
    ret (rc + 0)).

Definition tightMarshal2 (info : SessionId.t) : M (io St) unit :=
  catch_io (
    tightMarshalString2 (SessionId.connectionId info) ;;;
    tightMarshalLong2 (SessionId.value info) ;;;
    ret ()).

Definition looseMarshal (info : SessionId.t) : M (io St) unit :=
  catch_io (
    looseMarshalString (SessionId.connectionId info) ;;;
    looseMarshalLong (SessionId.value info) ;;;
    ret ()).

End Code.
End SessionIdMarshaller.

Module ConsumerIdMarshaller.
Section Code.
Context `{Platform} `{WireOptions} {St : Type} `{InputStream St} `{!WireFormat St}.
Import BaseDataStreamMarshaller NestedObjects.

Definition tightUnmarshal (info : ConsumerId.t) : M (io St) (ConsumerId.t) :=
  catch_io (
    let* connectionId := tightUnmarshalString in
    let* sessionId := tightUnmarshalLong in
    let* value := tightUnmarshalLong in
    ret {| ConsumerId.connectionId := connectionId; ConsumerId.sessionId := sessionId;
      ConsumerId.value := value |}).

Definition looseUnmarshal (info : ConsumerId.t) : M (io St) (ConsumerId.t) :=
  catch_io (
    let* connectionId := looseUnmarshalString in
    let* sessionId := looseUnmarshalLong in
    let* value := looseUnmarshalLong in
    ret {| ConsumerId.connectionId := connectionId; ConsumerId.sessionId := sessionId;
      ConsumerId.value := value |}).

Definition tightMarshal1 (info : ConsumerId.t) : M (io St) Z :=
  catch_io (
    let* rc := NestedObjects.tightMarshal1 in
    let* rc := add_rc rc (tightMarshalString1 (ConsumerId.connectionId info)) in
    let* rc := add_rc rc (tightMarshalLong1 (ConsumerId.sessionId info)) in
    let* rc := add_rc rc (tightMarshalLong1 (ConsumerId.value info)) in
    ret (rc + 0)).

Definition tightMarshal2 (info : ConsumerId.t) : M (io St) unit :=
  catch_io (
    tightMarshalString2 (ConsumerId.connectionId info) ;;;
    tightMarshalLong2 (ConsumerId.sessionId info) ;;;
    tightMarshalLong2 (ConsumerId.value info) ;;;
    ret ()).

Definition looseMarshal (info : ConsumerId.t) : M (io St) unit :=
  catch_io (
    looseMarshalString (ConsumerId.connectionId info) ;;;
    looseMarshalLong (ConsumerId.sessionId info) ;;;
    looseMarshalLong (ConsumerId.value info) ;;;
    ret ()).

End Code.
End ConsumerIdMarshaller.

Module ProducerIdMarshaller.
Section Code.
Context `{Platform} `{WireOptions} {St : Type} `{InputStream St} `{!WireFormat St}.
Import BaseDataStreamMarshaller NestedObjects.

Definition tightUnmarshal (info : ProducerId.t) : M (io St) (ProducerId.t) :=
  catch_io (
    let* connectionId := tightUnmarshalString in
    let* value := tightUnmarshalLong in
    let* sessionId := tightUnmarshalLong in
    ret {| ProducerId.connectionId := connectionId; ProducerId.value := value;
      ProducerId.sessionId := sessionId |}).

Definition looseUnmarshal (info : ProducerId.t) : M (io St) (ProducerId.t) :=
  catch_io (
    let* connectionId := looseUnmarshalString in
    let* value := looseUnmarshalLong in
    let* sessionId := looseUnmarshalLong in
    ret {| ProducerId.connectionId := connectionId; ProducerId.value := value;
      ProducerId.sessionId := sessionId |}).

Definition tightMarshal1 (info : ProducerId.t) : M (io St) Z :=
  catch_io (
    let* rc := NestedObjects.tightMarshal1 in
    let* rc := add_rc rc (tightMarshalString1 (ProducerId.connectionId info)) in
    let* rc := add_rc rc (tightMarshalLong1 (ProducerId.value info)) in
    let* rc := add_rc rc (tightMarshalLong1 (ProducerId.sessionId info)) in
    ret (rc + 0)).

Definition tightMarshal2 (info : ProducerId.t) : M (io St) unit :=
  catch_io (
    tightMarshalString2 (ProducerId.connectionId info) ;;;
    tightMarshalLong2 (ProducerId.value info) ;;;
    tightMarshalLong2 (ProducerId.sessionId info) ;;;
    ret ()).

Definition looseMarshal (info : ProducerId.t) : M (io St) unit :=
  catch_io (
    looseMarshalString (ProducerId.connectionId info) ;;;
    looseMarshalLong (ProducerId.value info) ;;;
    looseMarshalLong (ProducerId.sessionId info) ;;;
    ret ()).

End Code.
End ProducerIdMarshaller.

Module MessageIdMarshaller.
Section Code.
Context `{Platform} `{WireOptions} {St : Type} `{InputStream St} `{!WireFormat St}.
Import BaseDataStreamMarshaller NestedObjects.

Definition tightUnmarshal (info : MessageId.t) : M (io St) (MessageId.t) :=
  catch_io (
    let* textView := (if 10 <=? wireVersion then tightUnmarshalString else ret (MessageId.textView info)) in
    let* producerId := cast as_ProducerId tightUnmarshalCachedObject in
    let* producerSequenceId := tightUnmarshalLong in
    let* brokerSequenceId := tightUnmarshalLong in
    ret {| MessageId.textView := textView; MessageId.producerId := producerId;
      MessageId.producerSequenceId := producerSequenceId; MessageId.brokerSequenceId :=
      brokerSequenceId |}).

Definition looseUnmarshal (info : MessageId.t) : M (io St) (MessageId.t) :=
  catch_io (
    let* textView := (if 10 <=? wireVersion then looseUnmarshalString else ret (MessageId.textView info)) in
    let* producerId := cast as_ProducerId looseUnmarshalCachedObject in
    let* producerSequenceId := looseUnmarshalLong in
    let* brokerSequenceId := looseUnmarshalLong in
    ret {| MessageId.textView := textView; MessageId.producerId := producerId;
      MessageId.producerSequenceId := producerSequenceId; MessageId.brokerSequenceId :=
      brokerSequenceId |}).

Definition tightMarshal1 (info : MessageId.t) : M (io St) Z :=
  catch_io (
    let* rc := NestedObjects.tightMarshal1 in
    let* rc := (if 10 <=? wireVersion then add_rc rc (tightMarshalString1 (MessageId.textView info)) else ret rc) in
    let* rc := add_rc rc (tightMarshalCachedObject1 (option_map DProducerId (MessageId.producerId info))) in
    let* rc := add_rc rc (tightMarshalLong1 (MessageId.producerSequenceId info)) in
    let* rc := add_rc rc (tightMarshalLong1 (MessageId.brokerSequenceId info)) in
    ret (rc + 0)).

Definition tightMarshal2 (info : MessageId.t) : M (io St) unit :=
  catch_io (
    (if 10 <=? wireVersion then tightMarshalString2 (MessageId.textView info) else ret ()) ;;;
    tightMarshalCachedObject2 (option_map DProducerId (MessageId.producerId info)) ;;;
    tightMarshalLong2 (MessageId.producerSequenceId info) ;;;
    tightMarshalLong2 (MessageId.brokerSequenceId info) ;;;
    ret ()).

Definition looseMarshal (info : MessageId.t) : M (io St) unit :=
  catch_io (
    (if 10 <=? wireVersion then looseMarshalString (MessageId.textView info) else ret ()) ;;;
    looseMarshalCachedObject (option_map DProducerId (MessageId.producerId info)) ;;;
    looseMarshalLong (MessageId.producerSequenceId info) ;;;
    looseMarshalLong (MessageId.brokerSequenceId info) ;;;
    ret ()).

End Code.
End MessageIdMarshaller.

(** TransactionId, the abstract base of the two transaction ids, has no field. *)
Module TransactionIdMarshaller.
Section Code.
Context {St : Type} `{InputStream St}.

Definition tightUnmarshal : M (io St) unit := catch_io (ret ()).
Definition looseUnmarshal : M (io St) unit := catch_io (ret ()).
Definition tightMarshal1 : M (io St) Z := catch_io (let* rc := NestedObjects.tightMarshal1 in ret (rc + 0)).
Definition tightMarshal2 : M (io St) unit := catch_io (ret ()).
Definition looseMarshal : M (io St) unit := catch_io (ret ()).
End Code.
End TransactionIdMarshaller.

Module LocalTransactionIdMarshaller.
Section Code.
Context `{Platform} `{WireOptions} {St : Type} `{InputStream St} `{!WireFormat St}.
Import BaseDataStreamMarshaller NestedObjects.

Definition tightUnmarshal (info : LocalTransactionId.t) : M (io St) (LocalTransactionId.t) :=
  catch_io (
    TransactionIdMarshaller.tightUnmarshal ;;;
    let* value := tightUnmarshalLong in
    let* connectionId := cast as_ConnectionId tightUnmarshalCachedObject in
    ret {| LocalTransactionId.value := value; LocalTransactionId.connectionId :=
      connectionId |}).

Definition looseUnmarshal (info : LocalTransactionId.t) : M (io St) (LocalTransactionId.t) :=
  catch_io (
    TransactionIdMarshaller.looseUnmarshal ;;;
    let* value := looseUnmarshalLong in
    let* connectionId := cast as_ConnectionId looseUnmarshalCachedObject in
    ret {| LocalTransactionId.value := value; LocalTransactionId.connectionId :=
      connectionId |}).

Definition tightMarshal1 (info : LocalTransactionId.t) : M (io St) Z :=
  catch_io (
    let* rc := TransactionIdMarshaller.tightMarshal1 in
    let* rc := add_rc rc (tightMarshalLong1 (LocalTransactionId.value info)) in
    let* rc := add_rc rc (tightMarshalCachedObject1 (option_map DConnectionId (LocalTransactionId.connectionId info))) in
    ret (rc + 0)).

Definition tightMarshal2 (info : LocalTransactionId.t) : M (io St) unit :=
  catch_io (
    TransactionIdMarshaller.tightMarshal2 ;;;
    tightMarshalLong2 (LocalTransactionId.value info) ;;;
    tightMarshalCachedObject2 (option_map DConnectionId (LocalTransactionId.connectionId info)) ;;;
    ret ()).

Definition looseMarshal (info : LocalTransactionId.t) : M (io St) unit :=
  catch_io (
    TransactionIdMarshaller.looseMarshal ;;;
    looseMarshalLong (LocalTransactionId.value info) ;;;
    looseMarshalCachedObject (option_map DConnectionId (LocalTransactionId.connectionId info)) ;;;
    ret ()).

End Code.
End LocalTransactionIdMarshaller.

Module XATransactionIdMarshaller.
Section Code.
Context `{Platform} `{WireOptions} {St : Type} `{InputStream St} `{!WireFormat St}.
Import BaseDataStreamMarshaller NestedObjects.

Definition tightUnmarshal (info : XATransactionId.t) : M (io St) (XATransactionId.t) :=
  catch_io (
    TransactionIdMarshaller.tightUnmarshal ;;;
    let* formatId := dataIn DataInputStream.readInt in
    let* globalTransactionId := tightUnmarshalByteArray in
    let* branchQualifier := tightUnmarshalByteArray in
    ret {| XATransactionId.formatId := formatId; XATransactionId.globalTransactionId :=
      globalTransactionId; XATransactionId.branchQualifier := branchQualifier |}).

Definition looseUnmarshal (info : XATransactionId.t) : M (io St) (XATransactionId.t) :=
  catch_io (
    TransactionIdMarshaller.looseUnmarshal ;;;
    let* formatId := dataIn DataInputStream.readInt in
    let* globalTransactionId := looseUnmarshalByteArray in
    let* branchQualifier := looseUnmarshalByteArray in
    ret {| XATransactionId.formatId := formatId; XATransactionId.globalTransactionId :=
      globalTransactionId; XATransactionId.branchQualifier := branchQualifier |}).

Definition tightMarshal1 (info : XATransactionId.t) : M (io St) Z :=
  catch_io (
    let* rc := TransactionIdMarshaller.tightMarshal1 in
    let* rc := add_rc rc (marshalByteArray1 (XATransactionId.globalTransactionId info)) in
    let* rc := add_rc rc (marshalByteArray1 (XATransactionId.branchQualifier info)) in
    ret (rc + 4)).

Definition tightMarshal2 (info : XATransactionId.t) : M (io St) unit :=
  catch_io (
    TransactionIdMarshaller.tightMarshal2 ;;;
    dataOut (DataOutputStream.writeInt (XATransactionId.formatId info)) ;;;
    marshalByteArray2 (XATransactionId.globalTransactionId info) ;;;
    marshalByteArray2 (XATransactionId.branchQualifier info) ;;;
    ret ()).

Definition looseMarshal (info : XATransactionId.t) : M (io St) unit :=
  catch_io (
    TransactionIdMarshaller.looseMarshal ;;;
    dataOut (DataOutputStream.writeInt (XATransactionId.formatId info)) ;;;
    looseMarshalByteArray (XATransactionId.globalTransactionId info) ;;;
    looseMarshalByteArray (XATransactionId.branchQualifier info) ;;;
    ret ()).

End Code.
End XATransactionIdMarshaller.

Module NetworkBridgeFilterMarshaller.
Section Code.
Context `{Platform} `{WireOptions} {St : Type} `{InputStream St} `{!WireFormat St}.
Import BaseDataStreamMarshaller NestedObjects.

Definition tightUnmarshal (info : NetworkBridgeFilter.t) : M (io St) (NetworkBridgeFilter.t) :=
  catch_io (
    let* networkBrokerId := cast as_BrokerId tightUnmarshalCachedObject in
    let* messageTTL := (if 10 <=? wireVersion then dataIn DataInputStream.readInt else ret (NetworkBridgeFilter.messageTTL info)) in
    let* consumerTTL := (if 10 <=? wireVersion then dataIn DataInputStream.readInt else ret (NetworkBridgeFilter.consumerTTL info)) in
    ret {| NetworkBridgeFilter.networkBrokerId := networkBrokerId;
      NetworkBridgeFilter.messageTTL := messageTTL; NetworkBridgeFilter.consumerTTL :=
      consumerTTL |}).

Definition looseUnmarshal (info : NetworkBridgeFilter.t) : M (io St) (NetworkBridgeFilter.t) :=
  catch_io (
    let* networkBrokerId := cast as_BrokerId looseUnmarshalCachedObject in
    let* messageTTL := (if 10 <=? wireVersion then dataIn DataInputStream.readInt else ret (NetworkBridgeFilter.messageTTL info)) in
    let* consumerTTL := (if 10 <=? wireVersion then dataIn DataInputStream.readInt else ret (NetworkBridgeFilter.consumerTTL info)) in
    ret {| NetworkBridgeFilter.networkBrokerId := networkBrokerId;
      NetworkBridgeFilter.messageTTL := messageTTL; NetworkBridgeFilter.consumerTTL :=
      consumerTTL |}).

Definition tightMarshal1 (info : NetworkBridgeFilter.t) : M (io St) Z :=
  catch_io (
    let* rc := NestedObjects.tightMarshal1 in
    let* rc := add_rc rc (tightMarshalCachedObject1 (option_map DBrokerId (NetworkBridgeFilter.networkBrokerId info))) in
    ret (rc + 8)).

Definition tightMarshal2 (info : NetworkBridgeFilter.t) : M (io St) unit :=
  catch_io (
    tightMarshalCachedObject2 (option_map DBrokerId (NetworkBridgeFilter.networkBrokerId info)) ;;;
    (if 10 <=? wireVersion then dataOut (DataOutputStream.writeInt (NetworkBridgeFilter.messageTTL info)) else ret ()) ;;;
    (if 10 <=? wireVersion then dataOut (DataOutputStream.writeInt (NetworkBridgeFilter.consumerTTL info)) else ret ()) ;;;
    ret ()).

Definition looseMarshal (info : NetworkBridgeFilter.t) : M (io St) unit :=
  catch_io (
    looseMarshalCachedObject (option_map DBrokerId (NetworkBridgeFilter.networkBrokerId info)) ;;;
    (if 10 <=? wireVersion then dataOut (DataOutputStream.writeInt (NetworkBridgeFilter.messageTTL info)) else ret ()) ;;;
    (if 10 <=? wireVersion then dataOut (DataOutputStream.writeInt (NetworkBridgeFilter.consumerTTL info)) else ret ()) ;;;
    ret ()).

End Code.
End NetworkBridgeFilterMarshaller.

(** The name of a destination; the virtual [setPhysicalName] does the rest. *)
Module ActiveMQDestinationMarshaller.
Section Code.
Context `{Platform} {St : Type} `{InputStream St}.
Import BaseDataStreamMarshaller NestedObjects.

Definition tightUnmarshal (info : ActiveMQDestination.t) : M (io St) ActiveMQDestination.t :=
  catch_io (
    let* physicalName := tightUnmarshalString in
    lift (ActiveMQDestination.setPhysicalName info physicalName)).

Definition looseUnmarshal (info : ActiveMQDestination.t) : M (io St) ActiveMQDestination.t :=
  catch_io (
    let* physicalName := looseUnmarshalString in
    lift (ActiveMQDestination.setPhysicalName info physicalName)).

Definition tightMarshal1 (info : ActiveMQDestination.t) : M (io St) Z :=
  catch_io (
    let* rc := NestedObjects.tightMarshal1 in
    let* rc := add_rc rc (tightMarshalString1 (ActiveMQDestination.physicalName info)) in
    ret (rc + 0)).

Definition tightMarshal2 (info : ActiveMQDestination.t) : M (io St) unit :=
  catch_io (tightMarshalString2 (ActiveMQDestination.physicalName info) ;;; ret ()).

Definition looseMarshal (info : ActiveMQDestination.t) : M (io St) unit :=
  catch_io (looseMarshalString (ActiveMQDestination.physicalName info) ;;; ret ()).
End Code.
End ActiveMQDestinationMarshaller.

Module ActiveMQTempDestinationMarshaller.
Section Code.
Context `{Platform} {St : Type} `{InputStream St}.

Definition tightUnmarshal (info : ActiveMQDestination.t) : M (io St) ActiveMQDestination.t :=
  catch_io (ActiveMQDestinationMarshaller.tightUnmarshal info).
Definition looseUnmarshal (info : ActiveMQDestination.t) : M (io St) ActiveMQDestination.t :=
  catch_io (ActiveMQDestinationMarshaller.looseUnmarshal info).
Definition tightMarshal1 (info : ActiveMQDestination.t) : M (io St) Z :=
  catch_io (let* rc := ActiveMQDestinationMarshaller.tightMarshal1 info in ret (rc + 0)).
Definition tightMarshal2 (info : ActiveMQDestination.t) : M (io St) unit :=
  catch_io (ActiveMQDestinationMarshaller.tightMarshal2 info).
Definition looseMarshal (info : ActiveMQDestination.t) : M (io St) unit :=
  catch_io (ActiveMQDestinationMarshaller.looseMarshal info).
End Code.
End ActiveMQTempDestinationMarshaller.

Module ActiveMQQueueMarshaller.
Section Code.
Context `{Platform} {St : Type} `{InputStream St}.

Definition tightUnmarshal (info : ActiveMQDestination.t) : M (io St) ActiveMQDestination.t :=
  catch_io (ActiveMQDestinationMarshaller.tightUnmarshal info).
Definition looseUnmarshal (info : ActiveMQDestination.t) : M (io St) ActiveMQDestination.t :=
  catch_io (ActiveMQDestinationMarshaller.looseUnmarshal info).
Definition tightMarshal1 (info : ActiveMQDestination.t) : M (io St) Z :=
  catch_io (let* rc := ActiveMQDestinationMarshaller.tightMarshal1 info in ret (rc + 0)).
Definition tightMarshal2 (info : ActiveMQDestination.t) : M (io St) unit :=
  catch_io (ActiveMQDestinationMarshaller.tightMarshal2 info).
Definition looseMarshal (info : ActiveMQDestination.t) : M (io St) unit :=
  catch_io (ActiveMQDestinationMarshaller.looseMarshal info).
End Code.
End ActiveMQQueueMarshaller.

Module ActiveMQTopicMarshaller.
Section Code.
Context `{Platform} {St : Type} `{InputStream St}.

Definition tightUnmarshal (info : ActiveMQDestination.t) : M (io St) ActiveMQDestination.t :=
  catch_io (ActiveMQDestinationMarshaller.tightUnmarshal info).
Definition looseUnmarshal (info : ActiveMQDestination.t) : M (io St) ActiveMQDestination.t :=
  catch_io (ActiveMQDestinationMarshaller.looseUnmarshal info).
Definition tightMarshal1 (info : ActiveMQDestination.t) : M (io St) Z :=
  catch_io (let* rc := ActiveMQDestinationMarshaller.tightMarshal1 info in ret (rc + 0)).
Definition tightMarshal2 (info : ActiveMQDestination.t) : M (io St) unit :=
  catch_io (ActiveMQDestinationMarshaller.tightMarshal2 info).
Definition looseMarshal (info : ActiveMQDestination.t) : M (io St) unit :=
  catch_io (ActiveMQDestinationMarshaller.looseMarshal info).
End Code.
End ActiveMQTopicMarshaller.

Module ActiveMQTempQueueMarshaller.
Section Code.
Context `{Platform} {St : Type} `{InputStream St}.

Definition tightUnmarshal (info : ActiveMQDestination.t) : M (io St) ActiveMQDestination.t :=
  catch_io (ActiveMQTempDestinationMarshaller.tightUnmarshal info).
Definition looseUnmarshal (info : ActiveMQDestination.t) : M (io St) ActiveMQDestination.t :=
  catch_io (ActiveMQTempDestinationMarshaller.looseUnmarshal info).
Definition tightMarshal1 (info : ActiveMQDestination.t) : M (io St) Z :=
  catch_io (let* rc := ActiveMQTempDestinationMarshaller.tightMarshal1 info in ret (rc + 0)).
Definition tightMarshal2 (info : ActiveMQDestination.t) : M (io St) unit :=
  catch_io (ActiveMQTempDestinationMarshaller.tightMarshal2 info).
Definition looseMarshal (info : ActiveMQDestination.t) : M (io St) unit :=
  catch_io (ActiveMQTempDestinationMarshaller.looseMarshal info).
End Code.
End ActiveMQTempQueueMarshaller.

Module ActiveMQTempTopicMarshaller.
Section Code.
Context `{Platform} {St : Type} `{InputStream St}.

Definition tightUnmarshal (info : ActiveMQDestination.t) : M (io St) ActiveMQDestination.t :=
  catch_io (ActiveMQTempDestinationMarshaller.tightUnmarshal info).
Definition looseUnmarshal (info : ActiveMQDestination.t) : M (io St) ActiveMQDestination.t :=
  catch_io (ActiveMQTempDestinationMarshaller.looseUnmarshal info).
Definition tightMarshal1 (info : ActiveMQDestination.t) : M (io St) Z :=
  catch_io (let* rc := ActiveMQTempDestinationMarshaller.tightMarshal1 info in ret (rc + 0)).
Definition tightMarshal2 (info : ActiveMQDestination.t) : M (io St) unit :=
  catch_io (ActiveMQTempDestinationMarshaller.tightMarshal2 info).
Definition looseMarshal (info : ActiveMQDestination.t) : M (io St) unit :=
  catch_io (ActiveMQTempDestinationMarshaller.looseMarshal info).
End Code.
End ActiveMQTempTopicMarshaller.

(** ** The laws *)
Section Laws.
Context {St : Type} `{InputStreamLaws St} (n : nat).
Context `{Platform} `{WireOptions} `{!WireFormat St} `{!WireFormatLaws n}.
Lemma BrokerId_implements info :
  implements n (BrokerId_layout info) info (BrokerIdMarshaller.tightMarshal1 info) (BrokerIdMarshaller.tightMarshal2 info)
    (BrokerIdMarshaller.tightUnmarshal BrokerId.default) (BrokerIdMarshaller.looseMarshal info) (BrokerIdMarshaller.looseUnmarshal BrokerId.default).
Proof. unfold BrokerId_layout. implement_with ltac:(by destruct info). Qed.

Lemma ConnectionId_implements info :
  implements n (ConnectionId_layout info) info (ConnectionIdMarshaller.tightMarshal1 info) (ConnectionIdMarshaller.tightMarshal2 info)
    (ConnectionIdMarshaller.tightUnmarshal ConnectionId.default) (ConnectionIdMarshaller.looseMarshal info) (ConnectionIdMarshaller.looseUnmarshal ConnectionId.default).
Proof. unfold ConnectionId_layout. implement_with ltac:(by destruct info). Qed.

Lemma SessionId_implements info :
  implements n (SessionId_layout info) info (SessionIdMarshaller.tightMarshal1 info) (SessionIdMarshaller.tightMarshal2 info)
    (SessionIdMarshaller.tightUnmarshal SessionId.default) (SessionIdMarshaller.looseMarshal info) (SessionIdMarshaller.looseUnmarshal SessionId.default).
Proof. unfold SessionId_layout. implement_with ltac:(by destruct info). Qed.

Lemma ConsumerId_implements info :
  implements n (ConsumerId_layout info) info (ConsumerIdMarshaller.tightMarshal1 info) (ConsumerIdMarshaller.tightMarshal2 info)
    (ConsumerIdMarshaller.tightUnmarshal ConsumerId.default) (ConsumerIdMarshaller.looseMarshal info) (ConsumerIdMarshaller.looseUnmarshal ConsumerId.default).
Proof. unfold ConsumerId_layout. implement_with ltac:(by destruct info). Qed.

Lemma ProducerId_implements info :
  implements n (ProducerId_layout info) info (ProducerIdMarshaller.tightMarshal1 info) (ProducerIdMarshaller.tightMarshal2 info)
    (ProducerIdMarshaller.tightUnmarshal ProducerId.default) (ProducerIdMarshaller.looseMarshal info) (ProducerIdMarshaller.looseUnmarshal ProducerId.default).
Proof. unfold ProducerId_layout. implement_with ltac:(by destruct info). Qed.

Lemma MessageId_implements info :
  implements n (MessageId_layout info) info (MessageIdMarshaller.tightMarshal1 info) (MessageIdMarshaller.tightMarshal2 info)
    (MessageIdMarshaller.tightUnmarshal MessageId.default) (MessageIdMarshaller.looseMarshal info) (MessageIdMarshaller.looseUnmarshal MessageId.default).
Proof. unfold MessageId_layout. implement_with ltac:(by destruct info). Qed.

Lemma LocalTransactionId_implements info :
  implements n (LocalTransactionId_layout info) info (LocalTransactionIdMarshaller.tightMarshal1 info) (LocalTransactionIdMarshaller.tightMarshal2 info)
    (LocalTransactionIdMarshaller.tightUnmarshal LocalTransactionId.default) (LocalTransactionIdMarshaller.looseMarshal info) (LocalTransactionIdMarshaller.looseUnmarshal LocalTransactionId.default).
Proof. unfold LocalTransactionId_layout. implement_after ltac:(base_noop) ltac:(by destruct info). Qed.

Lemma XATransactionId_implements info :
  implements n (XATransactionId_layout info) info (XATransactionIdMarshaller.tightMarshal1 info) (XATransactionIdMarshaller.tightMarshal2 info)
    (XATransactionIdMarshaller.tightUnmarshal XATransactionId.default) (XATransactionIdMarshaller.looseMarshal info) (XATransactionIdMarshaller.looseUnmarshal XATransactionId.default).
Proof. unfold XATransactionId_layout. implement_after ltac:(base_noop) ltac:(by destruct info). Qed.

Lemma NetworkBridgeFilter_implements info :
  implements n (NetworkBridgeFilter_layout info) info (NetworkBridgeFilterMarshaller.tightMarshal1 info) (NetworkBridgeFilterMarshaller.tightMarshal2 info)
    (NetworkBridgeFilterMarshaller.tightUnmarshal NetworkBridgeFilter.default) (NetworkBridgeFilterMarshaller.looseMarshal info) (NetworkBridgeFilterMarshaller.looseUnmarshal NetworkBridgeFilter.default).
Proof. unfold NetworkBridgeFilter_layout, NetworkBridgeFilterMarshaller.tightMarshal1, NetworkBridgeFilterMarshaller.tightMarshal2, NetworkBridgeFilterMarshaller.tightUnmarshal, NetworkBridgeFilterMarshaller.looseMarshal, NetworkBridgeFilterMarshaller.looseUnmarshal.
  implement_from_version 10 ltac:(by destruct info). Qed.

(** The marshaller of a class without fields of its own forwards to its base class. *)
Lemma implements_inherited {X} fs (x : X) t1 t2 tu lm lu :
  implements n fs x t1 t2 tu lm lu ->
  implements n fs x (catch_io (let* rc := t1 in ret (rc + 0))) (catch_io t2) (catch_io tu) (catch_io lm) (catch_io lu).
Proof.
  intros []. split; [red | | | |]; apply codec_catch; try done.
  eapply (codec_map (guarded n (@marks St _ _))); [eassumption | apply Z.add_0_r].
Qed.

Lemma ActiveMQDestination_implements d :
  implements n (ActiveMQDestination_layout d) d (ActiveMQDestinationMarshaller.tightMarshal1 d)
    (ActiveMQDestinationMarshaller.tightMarshal2 d)
    (ActiveMQDestinationMarshaller.tightUnmarshal (ActiveMQDestination.default (ActiveMQDestination.destinationType d)))
    (ActiveMQDestinationMarshaller.looseMarshal d)
    (ActiveMQDestinationMarshaller.looseUnmarshal (ActiveMQDestination.default (ActiveMQDestination.destinationType d))).
Proof.
  unfold ActiveMQDestination_layout.
  assert (Hreq : forall R A (m : M (io St) A) v, Codec R ->
    (destination_ok d = true -> guarded n R _ [FString (ActiveMQDestination.physicalName d)] m v) ->
    guarded n R _ ([FReq (destination_ok d)] ++ [FString (ActiveMQDestination.physicalName d)]) m v).
  { intros R A m v HR Hm Hw. apply codec_req. apply within_cons in Hw as [Hd Hw]. by apply Hm. }
  split; [red | | | |]; (refine (Hreq _ _ _ _ _ _)); intros Hd; apply codec_catch; statements;
    [ apply g_done; [reflexivity | size_sum] | by refine (g_ret _ _ _ _) | | by refine (g_ret _ _ _ _) | ];
    refine (g_lift _ _ _ _); by apply bool_decide_eq_true in Hd.
Qed.

Lemma ActiveMQQueue_implements d :
  implements n (ActiveMQDestination_layout d) d (ActiveMQQueueMarshaller.tightMarshal1 d) (ActiveMQQueueMarshaller.tightMarshal2 d)
    (ActiveMQQueueMarshaller.tightUnmarshal (ActiveMQDestination.default (ActiveMQDestination.destinationType d)))
    (ActiveMQQueueMarshaller.looseMarshal d)
    (ActiveMQQueueMarshaller.looseUnmarshal (ActiveMQDestination.default (ActiveMQDestination.destinationType d))).
Proof. apply implements_inherited, ActiveMQDestination_implements. Qed.

Lemma ActiveMQTopic_implements d :
  implements n (ActiveMQDestination_layout d) d (ActiveMQTopicMarshaller.tightMarshal1 d) (ActiveMQTopicMarshaller.tightMarshal2 d)
    (ActiveMQTopicMarshaller.tightUnmarshal (ActiveMQDestination.default (ActiveMQDestination.destinationType d)))
    (ActiveMQTopicMarshaller.looseMarshal d)
    (ActiveMQTopicMarshaller.looseUnmarshal (ActiveMQDestination.default (ActiveMQDestination.destinationType d))).
Proof. apply implements_inherited, ActiveMQDestination_implements. Qed.

Lemma ActiveMQTempQueue_implements d :
  implements n (ActiveMQDestination_layout d) d (ActiveMQTempQueueMarshaller.tightMarshal1 d) (ActiveMQTempQueueMarshaller.tightMarshal2 d)
    (ActiveMQTempQueueMarshaller.tightUnmarshal (ActiveMQDestination.default (ActiveMQDestination.destinationType d)))
    (ActiveMQTempQueueMarshaller.looseMarshal d)
    (ActiveMQTempQueueMarshaller.looseUnmarshal (ActiveMQDestination.default (ActiveMQDestination.destinationType d))).
Proof. apply implements_inherited, implements_inherited, ActiveMQDestination_implements. Qed.

Lemma ActiveMQTempTopic_implements d :
  implements n (ActiveMQDestination_layout d) d (ActiveMQTempTopicMarshaller.tightMarshal1 d) (ActiveMQTempTopicMarshaller.tightMarshal2 d)
    (ActiveMQTempTopicMarshaller.tightUnmarshal (ActiveMQDestination.default (ActiveMQDestination.destinationType d)))
    (ActiveMQTempTopicMarshaller.looseMarshal d)
    (ActiveMQTempTopicMarshaller.looseUnmarshal (ActiveMQDestination.default (ActiveMQDestination.destinationType d))).
Proof. apply implements_inherited, implements_inherited, ActiveMQDestination_implements. Qed.
End Laws.
