(* ===== verification/ConnectionMarshallers.v ===== *)
(** * The marshallers of connections and their parts

    activemq/wireformat/openwire/marshal/generated: the marshallers of the
    commands that announce, control and remove brokers, connections, sessions,
    consumers, producers, destinations and transactions. *)

From S2P Require Import Prelude DataStreams PrimitiveTypes Support BooleanStreams Wire BaseMarshaller Commands Layouts MarshallerBase IdMarshallers.

Module BrokerInfoMarshaller.
Section Code.
Context `{Platform} `{WireOptions} {St : Type} `{InputStream St} `{!WireFormat St}.
Import BaseDataStreamMarshaller NestedObjects.

Definition tightUnmarshal (info : BrokerInfo.t) : M (io St) (BrokerInfo.t) :=
  catch_io (
    let* base := BaseCommandMarshaller.tightUnmarshal (BrokerInfo.base info) in
    let* brokerId := cast as_BrokerId tightUnmarshalCachedObject in
    let* brokerURL := tightUnmarshalString in
    let* peerBrokerInfos := tightUnmarshalObjectArray as_BrokerInfo in
    let* brokerName := tightUnmarshalString in
    let* slaveBroker := bs BooleanStream.readBoolean in
    let* masterBroker := bs BooleanStream.readBoolean in
    let* faultTolerantConfiguration := bs BooleanStream.readBoolean in
    let* duplexConnection := (if 2 <=? wireVersion then bs BooleanStream.readBoolean else ret (BrokerInfo.duplexConnection info)) in
    let* networkConnection := (if 2 <=? wireVersion then bs BooleanStream.readBoolean else ret (BrokerInfo.networkConnection info)) in
    let* connectionId := (if 2 <=? wireVersion then tightUnmarshalLong else ret (BrokerInfo.connectionId info)) in
    let* brokerUploadUrl := (if 3 <=? wireVersion then tightUnmarshalString else ret (BrokerInfo.brokerUploadUrl info)) in
    let* networkProperties := (if 3 <=? wireVersion then tightUnmarshalString else ret (BrokerInfo.networkProperties info)) in
    ret {| BrokerInfo.base := base; BrokerInfo.brokerId := brokerId; BrokerInfo.brokerURL :=
      brokerURL; BrokerInfo.peerBrokerInfos := peerBrokerInfos; BrokerInfo.brokerName :=
      brokerName; BrokerInfo.slaveBroker := slaveBroker; BrokerInfo.masterBroker :=
      masterBroker; BrokerInfo.faultTolerantConfiguration := faultTolerantConfiguration;
      BrokerInfo.duplexConnection := duplexConnection; BrokerInfo.networkConnection :=
      networkConnection; BrokerInfo.connectionId := connectionId; BrokerInfo.brokerUploadUrl
      := brokerUploadUrl; BrokerInfo.networkProperties := networkProperties |}).

Definition looseUnmarshal (info : BrokerInfo.t) : M (io St) (BrokerInfo.t) :=
  catch_io (
    let* base := BaseCommandMarshaller.looseUnmarshal (BrokerInfo.base info) in
    let* brokerId := cast as_BrokerId looseUnmarshalCachedObject in
    let* brokerURL := looseUnmarshalString in
    let* peerBrokerInfos := looseUnmarshalObjectArray as_BrokerInfo in
    let* brokerName := looseUnmarshalString in
    let* slaveBroker := dataIn DataInputStream.readBoolean in
    let* masterBroker := dataIn DataInputStream.readBoolean in
    let* faultTolerantConfiguration := dataIn DataInputStream.readBoolean in
    let* duplexConnection := (if 2 <=? wireVersion then dataIn DataInputStream.readBoolean else ret (BrokerInfo.duplexConnection info)) in
    let* networkConnection := (if 2 <=? wireVersion then dataIn DataInputStream.readBoolean else ret (BrokerInfo.networkConnection info)) in
    let* connectionId := (if 2 <=? wireVersion then looseUnmarshalLong else ret (BrokerInfo.connectionId info)) in
    let* brokerUploadUrl := (if 3 <=? wireVersion then looseUnmarshalString else ret (BrokerInfo.brokerUploadUrl info)) in
    let* networkProperties := (if 3 <=? wireVersion then looseUnmarshalString else ret (BrokerInfo.networkProperties info)) in
    ret {| BrokerInfo.base := base; BrokerInfo.brokerId := brokerId; BrokerInfo.brokerURL :=
      brokerURL; BrokerInfo.peerBrokerInfos := peerBrokerInfos; BrokerInfo.brokerName :=
      brokerName; BrokerInfo.slaveBroker := slaveBroker; BrokerInfo.masterBroker :=
      masterBroker; BrokerInfo.faultTolerantConfiguration := faultTolerantConfiguration;
      BrokerInfo.duplexConnection := duplexConnection; BrokerInfo.networkConnection :=
      networkConnection; BrokerInfo.connectionId := connectionId; BrokerInfo.brokerUploadUrl
      := brokerUploadUrl; BrokerInfo.networkProperties := networkProperties |}).

Definition tightMarshal1 (info : BrokerInfo.t) : M (io St) Z :=
  catch_io (
    let* rc := BaseCommandMarshaller.tightMarshal1 (BrokerInfo.base info) in
    let* rc := add_rc rc (tightMarshalCachedObject1 (option_map DBrokerId (BrokerInfo.brokerId info))) in
    let* rc := add_rc rc (tightMarshalString1 (BrokerInfo.brokerURL info)) in
    let* rc := add_rc rc (tightMarshalObjectArray1 (map (option_map DBrokerInfo) (BrokerInfo.peerBrokerInfos info))) in
    let* rc := add_rc rc (tightMarshalString1 (BrokerInfo.brokerName info)) in
    bs (BooleanStream.writeBoolean (BrokerInfo.slaveBroker info)) ;;;
    bs (BooleanStream.writeBoolean (BrokerInfo.masterBroker info)) ;;;
    bs (BooleanStream.writeBoolean (BrokerInfo.faultTolerantConfiguration info)) ;;;
    (if 2 <=? wireVersion then bs (BooleanStream.writeBoolean (BrokerInfo.duplexConnection info)) else ret ()) ;;;
    (if 2 <=? wireVersion then bs (BooleanStream.writeBoolean (BrokerInfo.networkConnection info)) else ret ()) ;;;
    let* rc := (if 2 <=? wireVersion then add_rc rc (tightMarshalLong1 (BrokerInfo.connectionId info)) else ret rc) in
    let* rc := (if 3 <=? wireVersion then add_rc rc (tightMarshalString1 (BrokerInfo.brokerUploadUrl info)) else ret rc) in
    let* rc := (if 3 <=? wireVersion then add_rc rc (tightMarshalString1 (BrokerInfo.networkProperties info)) else ret rc) in
    ret (rc + 0)).

Definition tightMarshal2 (info : BrokerInfo.t) : M (io St) unit :=
  catch_io (
    BaseCommandMarshaller.tightMarshal2 (BrokerInfo.base info) ;;;
    tightMarshalCachedObject2 (option_map DBrokerId (BrokerInfo.brokerId info)) ;;;
    tightMarshalString2 (BrokerInfo.brokerURL info) ;;;
    tightMarshalObjectArray2 (map (option_map DBrokerInfo) (BrokerInfo.peerBrokerInfos info)) ;;;
    tightMarshalString2 (BrokerInfo.brokerName info) ;;;
    bs BooleanStream.readBoolean ;;;
    bs BooleanStream.readBoolean ;;;
    bs BooleanStream.readBoolean ;;;
    (if 2 <=? wireVersion then bs BooleanStream.readBoolean ;;; ret () else ret ()) ;;;
    (if 2 <=? wireVersion then bs BooleanStream.readBoolean ;;; ret () else ret ()) ;;;
    (if 2 <=? wireVersion then tightMarshalLong2 (BrokerInfo.connectionId info) else ret ()) ;;;
    (if 3 <=? wireVersion then tightMarshalString2 (BrokerInfo.brokerUploadUrl info) else ret ()) ;;;
    (if 3 <=? wireVersion then tightMarshalString2 (BrokerInfo.networkProperties info) else ret ()) ;;;
    ret ()).

Definition looseMarshal (info : BrokerInfo.t) : M (io St) unit :=
  catch_io (
    BaseCommandMarshaller.looseMarshal (BrokerInfo.base info) ;;;
    looseMarshalCachedObject (option_map DBrokerId (BrokerInfo.brokerId info)) ;;;
    looseMarshalString (BrokerInfo.brokerURL info) ;;;
    looseMarshalObjectArray (map (option_map DBrokerInfo) (BrokerInfo.peerBrokerInfos info)) ;;;
    looseMarshalString (BrokerInfo.brokerName info) ;;;
    dataOut (DataOutputStream.writeBoolean (BrokerInfo.slaveBroker info)) ;;;
    dataOut (DataOutputStream.writeBoolean (BrokerInfo.masterBroker info)) ;;;
    dataOut (DataOutputStream.writeBoolean (BrokerInfo.faultTolerantConfiguration info)) ;;;
    (if 2 <=? wireVersion then dataOut (DataOutputStream.writeBoolean (BrokerInfo.duplexConnection info)) else ret ()) ;;;
    (if 2 <=? wireVersion then dataOut (DataOutputStream.writeBoolean (BrokerInfo.networkConnection info)) else ret ()) ;;;
    (if 2 <=? wireVersion then looseMarshalLong (BrokerInfo.connectionId info) else ret ()) ;;;
    (if 3 <=? wireVersion then looseMarshalString (BrokerInfo.brokerUploadUrl info) else ret ()) ;;;
    (if 3 <=? wireVersion then looseMarshalString (BrokerInfo.networkProperties info) else ret ()) ;;;
    ret ()).

End Code.
End BrokerInfoMarshaller.

Module ConnectionControlMarshaller.
Section Code.
Context `{Platform} `{WireOptions} {St : Type} `{InputStream St} `{!WireFormat St}.
Import BaseDataStreamMarshaller NestedObjects.

Definition tightUnmarshal (info : ConnectionControl.t) : M (io St) (ConnectionControl.t) :=
  catch_io (
    let* base := BaseCommandMarshaller.tightUnmarshal (ConnectionControl.base info) in
    let* close := bs BooleanStream.readBoolean in
    let* exit := bs BooleanStream.readBoolean in
    let* faultTolerant := bs BooleanStream.readBoolean in
    let* resume := bs BooleanStream.readBoolean in
    let* suspend := bs BooleanStream.readBoolean in
    let* connectedBrokers := (if 6 <=? wireVersion then tightUnmarshalString else ret (ConnectionControl.connectedBrokers info)) in
    let* reconnectTo := (if 6 <=? wireVersion then tightUnmarshalString else ret (ConnectionControl.reconnectTo info)) in
    let* rebalanceConnection := (if 6 <=? wireVersion then bs BooleanStream.readBoolean else ret (ConnectionControl.rebalanceConnection info)) in
    let* token := (if 8 <=? wireVersion then tightUnmarshalByteArray else ret (ConnectionControl.token info)) in
    ret {| ConnectionControl.base := base; ConnectionControl.close := close;
      ConnectionControl.exit := exit; ConnectionControl.faultTolerant := faultTolerant;
      ConnectionControl.resume := resume; ConnectionControl.suspend := suspend;
      ConnectionControl.connectedBrokers := connectedBrokers; ConnectionControl.reconnectTo :=
      reconnectTo; ConnectionControl.rebalanceConnection := rebalanceConnection;
      ConnectionControl.token := token |}).

Definition looseUnmarshal (info : ConnectionControl.t) : M (io St) (ConnectionControl.t) :=
  catch_io (
    let* base := BaseCommandMarshaller.looseUnmarshal (ConnectionControl.base info) in
    let* close := dataIn DataInputStream.readBoolean in
    let* exit := dataIn DataInputStream.readBoolean in
    let* faultTolerant := dataIn DataInputStream.readBoolean in
    let* resume := dataIn DataInputStream.readBoolean in
    let* suspend := dataIn DataInputStream.readBoolean in
    let* connectedBrokers := (if 6 <=? wireVersion then looseUnmarshalString else ret (ConnectionControl.connectedBrokers info)) in
    let* reconnectTo := (if 6 <=? wireVersion then looseUnmarshalString else ret (ConnectionControl.reconnectTo info)) in
    let* rebalanceConnection := (if 6 <=? wireVersion then dataIn DataInputStream.readBoolean else ret (ConnectionControl.rebalanceConnection info)) in
    let* token := (if 8 <=? wireVersion then looseUnmarshalByteArray else ret (ConnectionControl.token info)) in
    ret {| ConnectionControl.base := base; ConnectionControl.close := close;
      ConnectionControl.exit := exit; ConnectionControl.faultTolerant := faultTolerant;
      ConnectionControl.resume := resume; ConnectionControl.suspend := suspend;
      ConnectionControl.connectedBrokers := connectedBrokers; ConnectionControl.reconnectTo :=
      reconnectTo; ConnectionControl.rebalanceConnection := rebalanceConnection;
      ConnectionControl.token := token |}).

Definition tightMarshal1 (info : ConnectionControl.t) : M (io St) Z :=
  catch_io (
    let* rc := BaseCommandMarshaller.tightMarshal1 (ConnectionControl.base info) in
    bs (BooleanStream.writeBoolean (ConnectionControl.close info)) ;;;
    bs (BooleanStream.writeBoolean (ConnectionControl.exit info)) ;;;
    bs (BooleanStream.writeBoolean (ConnectionControl.faultTolerant info)) ;;;
    bs (BooleanStream.writeBoolean (ConnectionControl.resume info)) ;;;
    bs (BooleanStream.writeBoolean (ConnectionControl.suspend info)) ;;;
    let* rc := (if 6 <=? wireVersion then add_rc rc (tightMarshalString1 (ConnectionControl.connectedBrokers info)) else ret rc) in
    let* rc := (if 6 <=? wireVersion then add_rc rc (tightMarshalString1 (ConnectionControl.reconnectTo info)) else ret rc) in
    (if 6 <=? wireVersion then bs (BooleanStream.writeBoolean (ConnectionControl.rebalanceConnection info)) else ret ()) ;;;
    let* rc := (if 8 <=? wireVersion then add_rc rc (marshalByteArray1 (ConnectionControl.token info)) else ret rc) in
    ret (rc + 0)).

Definition tightMarshal2 (info : ConnectionControl.t) : M (io St) unit :=
  catch_io (
    BaseCommandMarshaller.tightMarshal2 (ConnectionControl.base info) ;;;
    bs BooleanStream.readBoolean ;;;
    bs BooleanStream.readBoolean ;;;
    bs BooleanStream.readBoolean ;;;
    bs BooleanStream.readBoolean ;;;
    bs BooleanStream.readBoolean ;;;
    (if 6 <=? wireVersion then tightMarshalString2 (ConnectionControl.connectedBrokers info) else ret ()) ;;;
    (if 6 <=? wireVersion then tightMarshalString2 (ConnectionControl.reconnectTo info) else ret ()) ;;;
    (if 6 <=? wireVersion then bs BooleanStream.readBoolean ;;; ret () else ret ()) ;;;
    (if 8 <=? wireVersion then marshalByteArray2 (ConnectionControl.token info) else ret ()) ;;;
    ret ()).

Definition looseMarshal (info : ConnectionControl.t) : M (io St) unit :=
  catch_io (
    BaseCommandMarshaller.looseMarshal (ConnectionControl.base info) ;;;
    dataOut (DataOutputStream.writeBoolean (ConnectionControl.close info)) ;;;
    dataOut (DataOutputStream.writeBoolean (ConnectionControl.exit info)) ;;;
    dataOut (DataOutputStream.writeBoolean (ConnectionControl.faultTolerant info)) ;;;
    dataOut (DataOutputStream.writeBoolean (ConnectionControl.resume info)) ;;;
    dataOut (DataOutputStream.writeBoolean (ConnectionControl.suspend info)) ;;;
    (if 6 <=? wireVersion then looseMarshalString (ConnectionControl.connectedBrokers info) else ret ()) ;;;
    (if 6 <=? wireVersion then looseMarshalString (ConnectionControl.reconnectTo info) else ret ()) ;;;
    (if 6 <=? wireVersion then dataOut (DataOutputStream.writeBoolean (ConnectionControl.rebalanceConnection info)) else ret ()) ;;;
    (if 8 <=? wireVersion then looseMarshalByteArray (ConnectionControl.token info) else ret ()) ;;;
    ret ()).

End Code.
End ConnectionControlMarshaller.

Module ConnectionErrorMarshaller.
Section Code.
Context `{Platform} `{WireOptions} {St : Type} `{InputStream St} `{!WireFormat St}.
Import BaseDataStreamMarshaller NestedObjects.

Definition tightUnmarshal (info : ConnectionError.t) : M (io St) (ConnectionError.t) :=
  catch_io (
    let* base := BaseCommandMarshaller.tightUnmarshal (ConnectionError.base info) in
    let* exception := tightUnmarshalBrokerError wf_fuel stackTraceEnabled in
    let* connectionId := cast as_ConnectionId tightUnmarshalNestedObject in
    ret {| ConnectionError.base := base; ConnectionError.exception := exception;
      ConnectionError.connectionId := connectionId |}).

Definition looseUnmarshal (info : ConnectionError.t) : M (io St) (ConnectionError.t) :=
  catch_io (
    let* base := BaseCommandMarshaller.looseUnmarshal (ConnectionError.base info) in
    let* exception := looseUnmarshalBrokerError wf_fuel stackTraceEnabled in
    let* connectionId := cast as_ConnectionId looseUnmarshalNestedObject in
    ret {| ConnectionError.base := base; ConnectionError.exception := exception;
      ConnectionError.connectionId := connectionId |}).

Definition tightMarshal1 (info : ConnectionError.t) : M (io St) Z :=
  catch_io (
    let* rc := BaseCommandMarshaller.tightMarshal1 (ConnectionError.base info) in
    let* rc := add_rc rc (tightMarshalBrokerError1 stackTraceEnabled (ConnectionError.exception info)) in
    let* rc := add_rc rc (tightMarshalNestedObject1 (option_map DConnectionId (ConnectionError.connectionId info))) in
    ret (rc + 0)).

Definition tightMarshal2 (info : ConnectionError.t) : M (io St) unit :=
  catch_io (
    BaseCommandMarshaller.tightMarshal2 (ConnectionError.base info) ;;;
    tightMarshalBrokerError2 stackTraceEnabled (ConnectionError.exception info) ;;;
    tightMarshalNestedObject2 (option_map DConnectionId (ConnectionError.connectionId info)) ;;;
    ret ()).

Definition looseMarshal (info : ConnectionError.t) : M (io St) unit :=
  catch_io (
    BaseCommandMarshaller.looseMarshal (ConnectionError.base info) ;;;
    looseMarshalBrokerError stackTraceEnabled (ConnectionError.exception info) ;;;
    looseMarshalNestedObject (option_map DConnectionId (ConnectionError.connectionId info)) ;;;
    ret ()).

End Code.
End ConnectionErrorMarshaller.

Module ConnectionInfoMarshaller.
Section Code.
Context `{Platform} `{WireOptions} {St : Type} `{InputStream St} `{!WireFormat St}.
Import BaseDataStreamMarshaller NestedObjects.

Definition tightUnmarshal (info : ConnectionInfo.t) : M (io St) (ConnectionInfo.t) :=
  catch_io (
    let* base := BaseCommandMarshaller.tightUnmarshal (ConnectionInfo.base info) in
    let* connectionId := cast as_ConnectionId tightUnmarshalCachedObject in
    let* clientId := tightUnmarshalString in
    let* password := tightUnmarshalString in
    let* userName := tightUnmarshalString in
    let* brokerPath := tightUnmarshalObjectArray as_BrokerId in
    let* brokerMasterConnector := bs BooleanStream.readBoolean in
    let* manageable := bs BooleanStream.readBoolean in
    let* clientMaster := (if 2 <=? wireVersion then bs BooleanStream.readBoolean else ret (ConnectionInfo.clientMaster info)) in
    let* faultTolerant := (if 6 <=? wireVersion then bs BooleanStream.readBoolean else ret (ConnectionInfo.faultTolerant info)) in
    let* failoverReconnect := (if 6 <=? wireVersion then bs BooleanStream.readBoolean else ret (ConnectionInfo.failoverReconnect info)) in
    let* clientIp := (if 8 <=? wireVersion then tightUnmarshalString else ret (ConnectionInfo.clientIp info)) in
    ret {| ConnectionInfo.base := base; ConnectionInfo.connectionId := connectionId;
      ConnectionInfo.clientId := clientId; ConnectionInfo.password := password;
      ConnectionInfo.userName := userName; ConnectionInfo.brokerPath := brokerPath;
      ConnectionInfo.brokerMasterConnector := brokerMasterConnector; ConnectionInfo.manageable
      := manageable; ConnectionInfo.clientMaster := clientMaster; ConnectionInfo.faultTolerant
      := faultTolerant; ConnectionInfo.failoverReconnect := failoverReconnect;
      ConnectionInfo.clientIp := clientIp |}).

Definition looseUnmarshal (info : ConnectionInfo.t) : M (io St) (ConnectionInfo.t) :=
  catch_io (
    let* base := BaseCommandMarshaller.looseUnmarshal (ConnectionInfo.base info) in
    let* connectionId := cast as_ConnectionId looseUnmarshalCachedObject in
    let* clientId := looseUnmarshalString in
    let* password := looseUnmarshalString in
    let* userName := looseUnmarshalString in
    let* brokerPath := looseUnmarshalObjectArray as_BrokerId in
    let* brokerMasterConnector := dataIn DataInputStream.readBoolean in
    let* manageable := dataIn DataInputStream.readBoolean in
    let* clientMaster := (if 2 <=? wireVersion then dataIn DataInputStream.readBoolean else ret (ConnectionInfo.clientMaster info)) in
    let* faultTolerant := (if 6 <=? wireVersion then dataIn DataInputStream.readBoolean else ret (ConnectionInfo.faultTolerant info)) in
    let* failoverReconnect := (if 6 <=? wireVersion then dataIn DataInputStream.readBoolean else ret (ConnectionInfo.failoverReconnect info)) in
    let* clientIp := (if 8 <=? wireVersion then looseUnmarshalString else ret (ConnectionInfo.clientIp info)) in
    ret {| ConnectionInfo.base := base; ConnectionInfo.connectionId := connectionId;
      ConnectionInfo.clientId := clientId; ConnectionInfo.password := password;
      ConnectionInfo.userName := userName; ConnectionInfo.brokerPath := brokerPath;
      ConnectionInfo.brokerMasterConnector := brokerMasterConnector; ConnectionInfo.manageable
      := manageable; ConnectionInfo.clientMaster := clientMaster; ConnectionInfo.faultTolerant
      := faultTolerant; ConnectionInfo.failoverReconnect := failoverReconnect;
      ConnectionInfo.clientIp := clientIp |}).

Definition tightMarshal1 (info : ConnectionInfo.t) : M (io St) Z :=
  catch_io (
    let* rc := BaseCommandMarshaller.tightMarshal1 (ConnectionInfo.base info) in
    let* rc := add_rc rc (tightMarshalCachedObject1 (option_map DConnectionId (ConnectionInfo.connectionId info))) in
    let* rc := add_rc rc (tightMarshalString1 (ConnectionInfo.clientId info)) in
    let* rc := add_rc rc (tightMarshalString1 (ConnectionInfo.password info)) in
    let* rc := add_rc rc (tightMarshalString1 (ConnectionInfo.userName info)) in
    let* rc := add_rc rc (tightMarshalObjectArray1 (map (option_map DBrokerId) (ConnectionInfo.brokerPath info))) in
    bs (BooleanStream.writeBoolean (ConnectionInfo.brokerMasterConnector info)) ;;;
    bs (BooleanStream.writeBoolean (ConnectionInfo.manageable info)) ;;;
    (if 2 <=? wireVersion then bs (BooleanStream.writeBoolean (ConnectionInfo.clientMaster info)) else ret ()) ;;;
    (if 6 <=? wireVersion then bs (BooleanStream.writeBoolean (ConnectionInfo.faultTolerant info)) else ret ()) ;;;
    (if 6 <=? wireVersion then bs (BooleanStream.writeBoolean (ConnectionInfo.failoverReconnect info)) else ret ()) ;;;
    let* rc := (if 8 <=? wireVersion then add_rc rc (tightMarshalString1 (ConnectionInfo.clientIp info)) else ret rc) in
    ret (rc + 0)).

Definition tightMarshal2 (info : ConnectionInfo.t) : M (io St) unit :=
  catch_io (
    BaseCommandMarshaller.tightMarshal2 (ConnectionInfo.base info) ;;;
    tightMarshalCachedObject2 (option_map DConnectionId (ConnectionInfo.connectionId info)) ;;;
    tightMarshalString2 (ConnectionInfo.clientId info) ;;;
    tightMarshalString2 (ConnectionInfo.password info) ;;;
    tightMarshalString2 (ConnectionInfo.userName info) ;;;
    tightMarshalObjectArray2 (map (option_map DBrokerId) (ConnectionInfo.brokerPath info)) ;;;
    bs BooleanStream.readBoolean ;;;
    bs BooleanStream.readBoolean ;;;
    (if 2 <=? wireVersion then bs BooleanStream.readBoolean ;;; ret () else ret ()) ;;;
    (if 6 <=? wireVersion then bs BooleanStream.readBoolean ;;; ret () else ret ()) ;;;
    (if 6 <=? wireVersion then bs BooleanStream.readBoolean ;;; ret () else ret ()) ;;;
    (if 8 <=? wireVersion then tightMarshalString2 (ConnectionInfo.clientIp info) else ret ()) ;;;
    ret ()).

Definition looseMarshal (info : ConnectionInfo.t) : M (io St) unit :=
  catch_io (
    BaseCommandMarshaller.looseMarshal (ConnectionInfo.base info) ;;;
    looseMarshalCachedObject (option_map DConnectionId (ConnectionInfo.connectionId info)) ;;;
    looseMarshalString (ConnectionInfo.clientId info) ;;;
    looseMarshalString (ConnectionInfo.password info) ;;;
    looseMarshalString (ConnectionInfo.userName info) ;;;
    looseMarshalObjectArray (map (option_map DBrokerId) (ConnectionInfo.brokerPath info)) ;;;
    dataOut (DataOutputStream.writeBoolean (ConnectionInfo.brokerMasterConnector info)) ;;;
    dataOut (DataOutputStream.writeBoolean (ConnectionInfo.manageable info)) ;;;
    (if 2 <=? wireVersion then dataOut (DataOutputStream.writeBoolean (ConnectionInfo.clientMaster info)) else ret ()) ;;;
    (if 6 <=? wireVersion then dataOut (DataOutputStream.writeBoolean (ConnectionInfo.faultTolerant info)) else ret ()) ;;;
    (if 6 <=? wireVersion then dataOut (DataOutputStream.writeBoolean (ConnectionInfo.failoverReconnect info)) else ret ()) ;;;
    (if 8 <=? wireVersion then looseMarshalString (ConnectionInfo.clientIp info) else ret ()) ;;;
    ret ()).

End Code.
End ConnectionInfoMarshaller.

Module ConsumerControlMarshaller.
Section Code.
Context `{Platform} `{WireOptions} {St : Type} `{InputStream St} `{!WireFormat St}.
Import BaseDataStreamMarshaller NestedObjects.

Definition tightUnmarshal (info : ConsumerControl.t) : M (io St) (ConsumerControl.t) :=
  catch_io (
    let* base := BaseCommandMarshaller.tightUnmarshal (ConsumerControl.base info) in
    let* destination := (if 6 <=? wireVersion then cast as_ActiveMQDestination tightUnmarshalNestedObject else ret (ConsumerControl.destination info)) in
    let* close := bs BooleanStream.readBoolean in
    let* consumerId := cast as_ConsumerId tightUnmarshalNestedObject in
    let* prefetch := dataIn DataInputStream.readInt in
    let* flush := (if 2 <=? wireVersion then bs BooleanStream.readBoolean else ret (ConsumerControl.flush info)) in
    let* start := (if 2 <=? wireVersion then bs BooleanStream.readBoolean else ret (ConsumerControl.start info)) in
    let* stop := (if 2 <=? wireVersion then bs BooleanStream.readBoolean else ret (ConsumerControl.stop info)) in
    ret {| ConsumerControl.base := base; ConsumerControl.destination := destination;
      ConsumerControl.close := close; ConsumerControl.consumerId := consumerId;
      ConsumerControl.prefetch := prefetch; ConsumerControl.flush := flush;
      ConsumerControl.start := start; ConsumerControl.stop := stop |}).

Definition looseUnmarshal (info : ConsumerControl.t) : M (io St) (ConsumerControl.t) :=
  catch_io (
    let* base := BaseCommandMarshaller.looseUnmarshal (ConsumerControl.base info) in
    let* destination := (if 6 <=? wireVersion then cast as_ActiveMQDestination looseUnmarshalNestedObject else ret (ConsumerControl.destination info)) in
    let* close := dataIn DataInputStream.readBoolean in
    let* consumerId := cast as_ConsumerId looseUnmarshalNestedObject in
    let* prefetch := dataIn DataInputStream.readInt in
    let* flush := (if 2 <=? wireVersion then dataIn DataInputStream.readBoolean else ret (ConsumerControl.flush info)) in
    let* start := (if 2 <=? wireVersion then dataIn DataInputStream.readBoolean else ret (ConsumerControl.start info)) in
    let* stop := (if 2 <=? wireVersion then dataIn DataInputStream.readBoolean else ret (ConsumerControl.stop info)) in
    ret {| ConsumerControl.base := base; ConsumerControl.destination := destination;
      ConsumerControl.close := close; ConsumerControl.consumerId := consumerId;
      ConsumerControl.prefetch := prefetch; ConsumerControl.flush := flush;
      ConsumerControl.start := start; ConsumerControl.stop := stop |}).

Definition tightMarshal1 (info : ConsumerControl.t) : M (io St) Z :=
  catch_io (
    let* rc := BaseCommandMarshaller.tightMarshal1 (ConsumerControl.base info) in
    let* rc := (if 6 <=? wireVersion then add_rc rc (tightMarshalNestedObject1 (option_map DDestination (ConsumerControl.destination info))) else ret rc) in
    bs (BooleanStream.writeBoolean (ConsumerControl.close info)) ;;;
    let* rc := add_rc rc (tightMarshalNestedObject1 (option_map DConsumerId (ConsumerControl.consumerId info))) in
    (if 2 <=? wireVersion then bs (BooleanStream.writeBoolean (ConsumerControl.flush info)) else ret ()) ;;;
    (if 2 <=? wireVersion then bs (BooleanStream.writeBoolean (ConsumerControl.start info)) else ret ()) ;;;
    (if 2 <=? wireVersion then bs (BooleanStream.writeBoolean (ConsumerControl.stop info)) else ret ()) ;;;
    ret (rc + 4)).

Definition tightMarshal2 (info : ConsumerControl.t) : M (io St) unit :=
  catch_io (
    BaseCommandMarshaller.tightMarshal2 (ConsumerControl.base info) ;;;
    (if 6 <=? wireVersion then tightMarshalNestedObject2 (option_map DDestination (ConsumerControl.destination info)) else ret ()) ;;;
    bs BooleanStream.readBoolean ;;;
    tightMarshalNestedObject2 (option_map DConsumerId (ConsumerControl.consumerId info)) ;;;
    dataOut (DataOutputStream.writeInt (ConsumerControl.prefetch info)) ;;;
    (if 2 <=? wireVersion then bs BooleanStream.readBoolean ;;; ret () else ret ()) ;;;
    (if 2 <=? wireVersion then bs BooleanStream.readBoolean ;;; ret () else ret ()) ;;;
    (if 2 <=? wireVersion then bs BooleanStream.readBoolean ;;; ret () else ret ()) ;;;
    ret ()).

Definition looseMarshal (info : ConsumerControl.t) : M (io St) unit :=
  catch_io (
    BaseCommandMarshaller.looseMarshal (ConsumerControl.base info) ;;;
    (if 6 <=? wireVersion then looseMarshalNestedObject (option_map DDestination (ConsumerControl.destination info)) else ret ()) ;;;
    dataOut (DataOutputStream.writeBoolean (ConsumerControl.close info)) ;;;
    looseMarshalNestedObject (option_map DConsumerId (ConsumerControl.consumerId info)) ;;;
    dataOut (DataOutputStream.writeInt (ConsumerControl.prefetch info)) ;;;
    (if 2 <=? wireVersion then dataOut (DataOutputStream.writeBoolean (ConsumerControl.flush info)) else ret ()) ;;;
    (if 2 <=? wireVersion then dataOut (DataOutputStream.writeBoolean (ConsumerControl.start info)) else ret ()) ;;;
    (if 2 <=? wireVersion then dataOut (DataOutputStream.writeBoolean (ConsumerControl.stop info)) else ret ()) ;;;
    ret ()).

End Code.
End ConsumerControlMarshaller.

Module ConsumerInfoMarshaller.
Section Code.
Context `{Platform} `{WireOptions} {St : Type} `{InputStream St} `{!WireFormat St}.
Import BaseDataStreamMarshaller NestedObjects.

Definition tightUnmarshal (info : ConsumerInfo.t) : M (io St) (ConsumerInfo.t) :=
  catch_io (
    let* base := BaseCommandMarshaller.tightUnmarshal (ConsumerInfo.base info) in
    let* consumerId := cast as_ConsumerId tightUnmarshalCachedObject in
    let* browser := bs BooleanStream.readBoolean in
    let* destination := cast as_ActiveMQDestination tightUnmarshalCachedObject in
    let* prefetchSize := dataIn DataInputStream.readInt in
    let* maximumPendingMessageLimit := dataIn DataInputStream.readInt in
    let* dispatchAsync := bs BooleanStream.readBoolean in
    let* selector := tightUnmarshalString in
    let* clientId := (if 10 <=? wireVersion then tightUnmarshalString else ret (ConsumerInfo.clientId info)) in
    let* subscriptionName := tightUnmarshalString in
    let* noLocal := bs BooleanStream.readBoolean in
    let* exclusive := bs BooleanStream.readBoolean in
    let* retroactive := bs BooleanStream.readBoolean in
    let* priority := readUByte in
    let* brokerPath := tightUnmarshalObjectArray as_BrokerId in
    let* additionalPredicate := cast as_BooleanExpression tightUnmarshalNestedObject in
    let* networkSubscription := bs BooleanStream.readBoolean in
    let* optimizedAcknowledge := bs BooleanStream.readBoolean in
    let* noRangeAcks := bs BooleanStream.readBoolean in
    let* networkConsumerPath := (if 4 <=? wireVersion then tightUnmarshalObjectArray as_ConsumerId else ret (ConsumerInfo.networkConsumerPath info)) in
    ret {| ConsumerInfo.base := base; ConsumerInfo.consumerId := consumerId;
      ConsumerInfo.browser := browser; ConsumerInfo.destination := destination;
      ConsumerInfo.prefetchSize := prefetchSize; ConsumerInfo.maximumPendingMessageLimit :=
      maximumPendingMessageLimit; ConsumerInfo.dispatchAsync := dispatchAsync;
      ConsumerInfo.selector := selector; ConsumerInfo.clientId := clientId;
      ConsumerInfo.subscriptionName := subscriptionName; ConsumerInfo.noLocal := noLocal;
      ConsumerInfo.exclusive := exclusive; ConsumerInfo.retroactive := retroactive;
      ConsumerInfo.priority := priority; ConsumerInfo.brokerPath := brokerPath;
      ConsumerInfo.additionalPredicate := additionalPredicate;
      ConsumerInfo.networkSubscription := networkSubscription;
      ConsumerInfo.optimizedAcknowledge := optimizedAcknowledge; ConsumerInfo.noRangeAcks :=
      noRangeAcks; ConsumerInfo.networkConsumerPath := networkConsumerPath |}).

Definition looseUnmarshal (info : ConsumerInfo.t) : M (io St) (ConsumerInfo.t) :=
  catch_io (
    let* base := BaseCommandMarshaller.looseUnmarshal (ConsumerInfo.base info) in
    let* consumerId := cast as_ConsumerId looseUnmarshalCachedObject in
    let* browser := dataIn DataInputStream.readBoolean in
    let* destination := cast as_ActiveMQDestination looseUnmarshalCachedObject in
    let* prefetchSize := dataIn DataInputStream.readInt in
    let* maximumPendingMessageLimit := dataIn DataInputStream.readInt in
    let* dispatchAsync := dataIn DataInputStream.readBoolean in
    let* selector := looseUnmarshalString in
    let* clientId := (if 10 <=? wireVersion then looseUnmarshalString else ret (ConsumerInfo.clientId info)) in
    let* subscriptionName := looseUnmarshalString in
    let* noLocal := dataIn DataInputStream.readBoolean in
    let* exclusive := dataIn DataInputStream.readBoolean in
    let* retroactive := dataIn DataInputStream.readBoolean in
    let* priority := readUByte in
    let* brokerPath := looseUnmarshalObjectArray as_BrokerId in
    let* additionalPredicate := cast as_BooleanExpression looseUnmarshalNestedObject in
    let* networkSubscription := dataIn DataInputStream.readBoolean in
    let* optimizedAcknowledge := dataIn DataInputStream.readBoolean in
    let* noRangeAcks := dataIn DataInputStream.readBoolean in
    let* networkConsumerPath := (if 4 <=? wireVersion then looseUnmarshalObjectArray as_ConsumerId else ret (ConsumerInfo.networkConsumerPath info)) in
    ret {| ConsumerInfo.base := base; ConsumerInfo.consumerId := consumerId;
      ConsumerInfo.browser := browser; ConsumerInfo.destination := destination;
      ConsumerInfo.prefetchSize := prefetchSize; ConsumerInfo.maximumPendingMessageLimit :=
      maximumPendingMessageLimit; ConsumerInfo.dispatchAsync := dispatchAsync;
      ConsumerInfo.selector := selector; ConsumerInfo.clientId := clientId;
      ConsumerInfo.subscriptionName := subscriptionName; ConsumerInfo.noLocal := noLocal;
      ConsumerInfo.exclusive := exclusive; ConsumerInfo.retroactive := retroactive;
      ConsumerInfo.priority := priority; ConsumerInfo.brokerPath := brokerPath;
      ConsumerInfo.additionalPredicate := additionalPredicate;
      ConsumerInfo.networkSubscription := networkSubscription;
      ConsumerInfo.optimizedAcknowledge := optimizedAcknowledge; ConsumerInfo.noRangeAcks :=
      noRangeAcks; ConsumerInfo.networkConsumerPath := networkConsumerPath |}).

Definition tightMarshal1 (info : ConsumerInfo.t) : M (io St) Z :=
  catch_io (
    let* rc := BaseCommandMarshaller.tightMarshal1 (ConsumerInfo.base info) in
    let* rc := add_rc rc (tightMarshalCachedObject1 (option_map DConsumerId (ConsumerInfo.consumerId info))) in
    bs (BooleanStream.writeBoolean (ConsumerInfo.browser info)) ;;;
    let* rc := add_rc rc (tightMarshalCachedObject1 (option_map DDestination (ConsumerInfo.destination info))) in
    bs (BooleanStream.writeBoolean (ConsumerInfo.dispatchAsync info)) ;;;
    let* rc := add_rc rc (tightMarshalString1 (ConsumerInfo.selector info)) in
    let* rc := (if 10 <=? wireVersion then add_rc rc (tightMarshalString1 (ConsumerInfo.clientId info)) else ret rc) in
    let* rc := add_rc rc (tightMarshalString1 (ConsumerInfo.subscriptionName info)) in
    bs (BooleanStream.writeBoolean (ConsumerInfo.noLocal info)) ;;;
    bs (BooleanStream.writeBoolean (ConsumerInfo.exclusive info)) ;;;
    bs (BooleanStream.writeBoolean (ConsumerInfo.retroactive info)) ;;;
    let* rc := add_rc rc (tightMarshalObjectArray1 (map (option_map DBrokerId) (ConsumerInfo.brokerPath info))) in
    let* rc := add_rc rc (tightMarshalNestedObject1 (option_map DBooleanExpression (ConsumerInfo.additionalPredicate info))) in
    bs (BooleanStream.writeBoolean (ConsumerInfo.networkSubscription info)) ;;;
    bs (BooleanStream.writeBoolean (ConsumerInfo.optimizedAcknowledge info)) ;;;
    bs (BooleanStream.writeBoolean (ConsumerInfo.noRangeAcks info)) ;;;
    let* rc := (if 4 <=? wireVersion then add_rc rc (tightMarshalObjectArray1 (map (option_map DConsumerId) (ConsumerInfo.networkConsumerPath info))) else ret rc) in
    ret (rc + 9)).

Definition tightMarshal2 (info : ConsumerInfo.t) : M (io St) unit :=
  catch_io (
    BaseCommandMarshaller.tightMarshal2 (ConsumerInfo.base info) ;;;
    tightMarshalCachedObject2 (option_map DConsumerId (ConsumerInfo.consumerId info)) ;;;
    bs BooleanStream.readBoolean ;;;
    tightMarshalCachedObject2 (option_map DDestination (ConsumerInfo.destination info)) ;;;
    dataOut (DataOutputStream.writeInt (ConsumerInfo.prefetchSize info)) ;;;
    dataOut (DataOutputStream.writeInt (ConsumerInfo.maximumPendingMessageLimit info)) ;;;
    bs BooleanStream.readBoolean ;;;
    tightMarshalString2 (ConsumerInfo.selector info) ;;;
    (if 10 <=? wireVersion then tightMarshalString2 (ConsumerInfo.clientId info) else ret ()) ;;;
    tightMarshalString2 (ConsumerInfo.subscriptionName info) ;;;
    bs BooleanStream.readBoolean ;;;
    bs BooleanStream.readBoolean ;;;
    bs BooleanStream.readBoolean ;;;
    dataOut (DataOutputStream.write (ConsumerInfo.priority info)) ;;;
    tightMarshalObjectArray2 (map (option_map DBrokerId) (ConsumerInfo.brokerPath info)) ;;;
    tightMarshalNestedObject2 (option_map DBooleanExpression (ConsumerInfo.additionalPredicate info)) ;;;
    bs BooleanStream.readBoolean ;;;
    bs BooleanStream.readBoolean ;;;
    bs BooleanStream.readBoolean ;;;
    (if 4 <=? wireVersion then tightMarshalObjectArray2 (map (option_map DConsumerId) (ConsumerInfo.networkConsumerPath info)) else ret ()) ;;;
    ret ()).

Definition looseMarshal (info : ConsumerInfo.t) : M (io St) unit :=
  catch_io (
    BaseCommandMarshaller.looseMarshal (ConsumerInfo.base info) ;;;
    looseMarshalCachedObject (option_map DConsumerId (ConsumerInfo.consumerId info)) ;;;
    dataOut (DataOutputStream.writeBoolean (ConsumerInfo.browser info)) ;;;
    looseMarshalCachedObject (option_map DDestination (ConsumerInfo.destination info)) ;;;
    dataOut (DataOutputStream.writeInt (ConsumerInfo.prefetchSize info)) ;;;
    dataOut (DataOutputStream.writeInt (ConsumerInfo.maximumPendingMessageLimit info)) ;;;
    dataOut (DataOutputStream.writeBoolean (ConsumerInfo.dispatchAsync info)) ;;;
    looseMarshalString (ConsumerInfo.selector info) ;;;
    (if 10 <=? wireVersion then looseMarshalString (ConsumerInfo.clientId info) else ret ()) ;;;
    looseMarshalString (ConsumerInfo.subscriptionName info) ;;;
    dataOut (DataOutputStream.writeBoolean (ConsumerInfo.noLocal info)) ;;;
    dataOut (DataOutputStream.writeBoolean (ConsumerInfo.exclusive info)) ;;;
    dataOut (DataOutputStream.writeBoolean (ConsumerInfo.retroactive info)) ;;;
    dataOut (DataOutputStream.write (ConsumerInfo.priority info)) ;;;
    looseMarshalObjectArray (map (option_map DBrokerId) (ConsumerInfo.brokerPath info)) ;;;
    looseMarshalNestedObject (option_map DBooleanExpression (ConsumerInfo.additionalPredicate info)) ;;;
    dataOut (DataOutputStream.writeBoolean (ConsumerInfo.networkSubscription info)) ;;;
    dataOut (DataOutputStream.writeBoolean (ConsumerInfo.optimizedAcknowledge info)) ;;;
    dataOut (DataOutputStream.writeBoolean (ConsumerInfo.noRangeAcks info)) ;;;
    (if 4 <=? wireVersion then looseMarshalObjectArray (map (option_map DConsumerId) (ConsumerInfo.networkConsumerPath info)) else ret ()) ;;;
    ret ()).

End Code.
End ConsumerInfoMarshaller.

Module ControlCommandMarshaller.
Section Code.
Context `{Platform} `{WireOptions} {St : Type} `{InputStream St} `{!WireFormat St}.
Import BaseDataStreamMarshaller NestedObjects.

Definition tightUnmarshal (info : ControlCommand.t) : M (io St) (ControlCommand.t) :=
  catch_io (
    let* base := BaseCommandMarshaller.tightUnmarshal (ControlCommand.base info) in
    let* command := tightUnmarshalString in
    ret {| ControlCommand.base := base; ControlCommand.command := command |}).

Definition looseUnmarshal (info : ControlCommand.t) : M (io St) (ControlCommand.t) :=
  catch_io (
    let* base := BaseCommandMarshaller.looseUnmarshal (ControlCommand.base info) in
    let* command := looseUnmarshalString in
    ret {| ControlCommand.base := base; ControlCommand.command := command |}).

Definition tightMarshal1 (info : ControlCommand.t) : M (io St) Z :=
  catch_io (
    let* rc := BaseCommandMarshaller.tightMarshal1 (ControlCommand.base info) in
    let* rc := add_rc rc (tightMarshalString1 (ControlCommand.command info)) in
    ret (rc + 0)).

Definition tightMarshal2 (info : ControlCommand.t) : M (io St) unit :=
  catch_io (
    BaseCommandMarshaller.tightMarshal2 (ControlCommand.base info) ;;;
    tightMarshalString2 (ControlCommand.command info) ;;;
    ret ()).

Definition looseMarshal (info : ControlCommand.t) : M (io St) unit :=
  catch_io (
    BaseCommandMarshaller.looseMarshal (ControlCommand.base info) ;;;
    looseMarshalString (ControlCommand.command info) ;;;
    ret ()).

End Code.
End ControlCommandMarshaller.

Module DestinationInfoMarshaller.
Section Code.
Context `{Platform} `{WireOptions} {St : Type} `{InputStream St} `{!WireFormat St}.
Import BaseDataStreamMarshaller NestedObjects.

Definition tightUnmarshal (info : DestinationInfo.t) : M (io St) (DestinationInfo.t) :=
  catch_io (
    let* base := BaseCommandMarshaller.tightUnmarshal (DestinationInfo.base info) in
    let* connectionId := cast as_ConnectionId tightUnmarshalCachedObject in
    let* destination := cast as_ActiveMQDestination tightUnmarshalCachedObject in
    let* operationType := readUByte in
    let* timeout := tightUnmarshalLong in
    let* brokerPath := tightUnmarshalObjectArray as_BrokerId in
    ret {| DestinationInfo.base := base; DestinationInfo.connectionId := connectionId;
      DestinationInfo.destination := destination; DestinationInfo.operationType :=
      operationType; DestinationInfo.timeout := timeout; DestinationInfo.brokerPath :=
      brokerPath |}).

Definition looseUnmarshal (info : DestinationInfo.t) : M (io St) (DestinationInfo.t) :=
  catch_io (
    let* base := BaseCommandMarshaller.looseUnmarshal (DestinationInfo.base info) in
    let* connectionId := cast as_ConnectionId looseUnmarshalCachedObject in
    let* destination := cast as_ActiveMQDestination looseUnmarshalCachedObject in
    let* operationType := readUByte in
    let* timeout := looseUnmarshalLong in
    let* brokerPath := looseUnmarshalObjectArray as_BrokerId in
    ret {| DestinationInfo.base := base; DestinationInfo.connectionId := connectionId;
      DestinationInfo.destination := destination; DestinationInfo.operationType :=
      operationType; DestinationInfo.timeout := timeout; DestinationInfo.brokerPath :=
      brokerPath |}).

Definition tightMarshal1 (info : DestinationInfo.t) : M (io St) Z :=
  catch_io (
    let* rc := BaseCommandMarshaller.tightMarshal1 (DestinationInfo.base info) in
    let* rc := add_rc rc (tightMarshalCachedObject1 (option_map DConnectionId (DestinationInfo.connectionId info))) in
    let* rc := add_rc rc (tightMarshalCachedObject1 (option_map DDestination (DestinationInfo.destination info))) in
    let* rc := add_rc rc (tightMarshalLong1 (DestinationInfo.timeout info)) in
    let* rc := add_rc rc (tightMarshalObjectArray1 (map (option_map DBrokerId) (DestinationInfo.brokerPath info))) in
    ret (rc + 1)).

Definition tightMarshal2 (info : DestinationInfo.t) : M (io St) unit :=
  catch_io (
    BaseCommandMarshaller.tightMarshal2 (DestinationInfo.base info) ;;;
    tightMarshalCachedObject2 (option_map DConnectionId (DestinationInfo.connectionId info)) ;;;
    tightMarshalCachedObject2 (option_map DDestination (DestinationInfo.destination info)) ;;;
    dataOut (DataOutputStream.write (DestinationInfo.operationType info)) ;;;
    tightMarshalLong2 (DestinationInfo.timeout info) ;;;
    tightMarshalObjectArray2 (map (option_map DBrokerId) (DestinationInfo.brokerPath info)) ;;;
    ret ()).

Definition looseMarshal (info : DestinationInfo.t) : M (io St) unit :=
  catch_io (
    BaseCommandMarshaller.looseMarshal (DestinationInfo.base info) ;;;
    looseMarshalCachedObject (option_map DConnectionId (DestinationInfo.connectionId info)) ;;;
    looseMarshalCachedObject (option_map DDestination (DestinationInfo.destination info)) ;;;
    dataOut (DataOutputStream.write (DestinationInfo.operationType info)) ;;;
    looseMarshalLong (DestinationInfo.timeout info) ;;;
    looseMarshalObjectArray (map (option_map DBrokerId) (DestinationInfo.brokerPath info)) ;;;
    ret ()).

End Code.
End DestinationInfoMarshaller.

Module DiscoveryEventMarshaller.
Section Code.
Context `{Platform} `{WireOptions} {St : Type} `{InputStream St} `{!WireFormat St}.
Import BaseDataStreamMarshaller NestedObjects.

Definition tightUnmarshal (info : DiscoveryEvent.t) : M (io St) (DiscoveryEvent.t) :=
  catch_io (
    let* serviceName := tightUnmarshalString in
    let* brokerName := tightUnmarshalString in
    ret {| DiscoveryEvent.serviceName := serviceName; DiscoveryEvent.brokerName :=
      brokerName |}).

Definition looseUnmarshal (info : DiscoveryEvent.t) : M (io St) (DiscoveryEvent.t) :=
  catch_io (
    let* serviceName := looseUnmarshalString in
    let* brokerName := looseUnmarshalString in
    ret {| DiscoveryEvent.serviceName := serviceName; DiscoveryEvent.brokerName :=
      brokerName |}).

Definition tightMarshal1 (info : DiscoveryEvent.t) : M (io St) Z :=
  catch_io (
    let* rc := NestedObjects.tightMarshal1 in
    let* rc := add_rc rc (tightMarshalString1 (DiscoveryEvent.serviceName info)) in
    let* rc := add_rc rc (tightMarshalString1 (DiscoveryEvent.brokerName info)) in
    ret (rc + 0)).

Definition tightMarshal2 (info : DiscoveryEvent.t) : M (io St) unit :=
  catch_io (
    tightMarshalString2 (DiscoveryEvent.serviceName info) ;;;
    tightMarshalString2 (DiscoveryEvent.brokerName info) ;;;
    ret ()).

Definition looseMarshal (info : DiscoveryEvent.t) : M (io St) unit :=
  catch_io (
    looseMarshalString (DiscoveryEvent.serviceName info) ;;;
    looseMarshalString (DiscoveryEvent.brokerName info) ;;;
    ret ()).

End Code.
End DiscoveryEventMarshaller.

Module FlushCommandMarshaller.
Section Code.
Context `{Platform} `{WireOptions} {St : Type} `{InputStream St} `{!WireFormat St}.
Import BaseDataStreamMarshaller NestedObjects.

Definition tightUnmarshal (info : FlushCommand.t) : M (io St) (FlushCommand.t) :=
  catch_io (
    let* base := BaseCommandMarshaller.tightUnmarshal (FlushCommand.base info) in
    ret {| FlushCommand.base := base |}).

Definition looseUnmarshal (info : FlushCommand.t) : M (io St) (FlushCommand.t) :=
  catch_io (
    let* base := BaseCommandMarshaller.looseUnmarshal (FlushCommand.base info) in
    ret {| FlushCommand.base := base |}).

Definition tightMarshal1 (info : FlushCommand.t) : M (io St) Z :=
  catch_io (
    let* rc := BaseCommandMarshaller.tightMarshal1 (FlushCommand.base info) in
    ret (rc + 0)).

Definition tightMarshal2 (info : FlushCommand.t) : M (io St) unit :=
  catch_io (
    BaseCommandMarshaller.tightMarshal2 (FlushCommand.base info) ;;;
    ret ()).

Definition looseMarshal (info : FlushCommand.t) : M (io St) unit :=
  catch_io (
    BaseCommandMarshaller.looseMarshal (FlushCommand.base info) ;;;
    ret ()).

End Code.
End FlushCommandMarshaller.

Module KeepAliveInfoMarshaller.
Section Code.
Context `{Platform} `{WireOptions} {St : Type} `{InputStream St} `{!WireFormat St}.
Import BaseDataStreamMarshaller NestedObjects.

Definition tightUnmarshal (info : KeepAliveInfo.t) : M (io St) (KeepAliveInfo.t) :=
  catch_io (
    let* base := BaseCommandMarshaller.tightUnmarshal (KeepAliveInfo.base info) in
    ret {| KeepAliveInfo.base := base |}).

Definition looseUnmarshal (info : KeepAliveInfo.t) : M (io St) (KeepAliveInfo.t) :=
  catch_io (
    let* base := BaseCommandMarshaller.looseUnmarshal (KeepAliveInfo.base info) in
    ret {| KeepAliveInfo.base := base |}).

Definition tightMarshal1 (info : KeepAliveInfo.t) : M (io St) Z :=
  catch_io (
    let* rc := BaseCommandMarshaller.tightMarshal1 (KeepAliveInfo.base info) in
    ret (rc + 0)).

Definition tightMarshal2 (info : KeepAliveInfo.t) : M (io St) unit :=
  catch_io (
    BaseCommandMarshaller.tightMarshal2 (KeepAliveInfo.base info) ;;;
    ret ()).

Definition looseMarshal (info : KeepAliveInfo.t) : M (io St) unit :=
  catch_io (
    BaseCommandMarshaller.looseMarshal (KeepAliveInfo.base info) ;;;
    ret ()).

End Code.
End KeepAliveInfoMarshaller.

Module ProducerAckMarshaller.
Section Code.
Context `{Platform} `{WireOptions} {St : Type} `{InputStream St} `{!WireFormat St}.
Import BaseDataStreamMarshaller NestedObjects.

Definition tightUnmarshal (info : ProducerAck.t) : M (io St) (ProducerAck.t) :=
  catch_io (
    let* base := BaseCommandMarshaller.tightUnmarshal (ProducerAck.base info) in
    let* producerId := (if 3 <=? wireVersion then cast as_ProducerId tightUnmarshalNestedObject else ret (ProducerAck.producerId info)) in
    let* size := (if 3 <=? wireVersion then dataIn DataInputStream.readInt else ret (ProducerAck.size info)) in
    ret {| ProducerAck.base := base; ProducerAck.producerId := producerId; ProducerAck.size
      := size |}).

Definition looseUnmarshal (info : ProducerAck.t) : M (io St) (ProducerAck.t) :=
  catch_io (
    let* base := BaseCommandMarshaller.looseUnmarshal (ProducerAck.base info) in
    let* producerId := (if 3 <=? wireVersion then cast as_ProducerId looseUnmarshalNestedObject else ret (ProducerAck.producerId info)) in
    let* size := (if 3 <=? wireVersion then dataIn DataInputStream.readInt else ret (ProducerAck.size info)) in
    ret {| ProducerAck.base := base; ProducerAck.producerId := producerId; ProducerAck.size
      := size |}).

Definition tightMarshal1 (info : ProducerAck.t) : M (io St) Z :=
  catch_io (
    let* rc := BaseCommandMarshaller.tightMarshal1 (ProducerAck.base info) in
    let* rc := (if 3 <=? wireVersion then add_rc rc (tightMarshalNestedObject1 (option_map DProducerId (ProducerAck.producerId info))) else ret rc) in
    ret (rc + 4)).

Definition tightMarshal2 (info : ProducerAck.t) : M (io St) unit :=
  catch_io (
    BaseCommandMarshaller.tightMarshal2 (ProducerAck.base info) ;;;
    (if 3 <=? wireVersion then tightMarshalNestedObject2 (option_map DProducerId (ProducerAck.producerId info)) else ret ()) ;;;
    (if 3 <=? wireVersion then dataOut (DataOutputStream.writeInt (ProducerAck.size info)) else ret ()) ;;;
    ret ()).

Definition looseMarshal (info : ProducerAck.t) : M (io St) unit :=
  catch_io (
    BaseCommandMarshaller.looseMarshal (ProducerAck.base info) ;;;
    (if 3 <=? wireVersion then looseMarshalNestedObject (option_map DProducerId (ProducerAck.producerId info)) else ret ()) ;;;
    (if 3 <=? wireVersion then dataOut (DataOutputStream.writeInt (ProducerAck.size info)) else ret ()) ;;;
    ret ()).

End Code.
End ProducerAckMarshaller.

Module ProducerInfoMarshaller.
Section Code.
Context `{Platform} `{WireOptions} {St : Type} `{InputStream St} `{!WireFormat St}.
Import BaseDataStreamMarshaller NestedObjects.

Definition tightUnmarshal (info : ProducerInfo.t) : M (io St) (ProducerInfo.t) :=
  catch_io (
    let* base := BaseCommandMarshaller.tightUnmarshal (ProducerInfo.base info) in
    let* producerId := cast as_ProducerId tightUnmarshalCachedObject in
    let* destination := cast as_ActiveMQDestination tightUnmarshalCachedObject in
    let* brokerPath := tightUnmarshalObjectArray as_BrokerId in
    let* dispatchAsync := (if 2 <=? wireVersion then bs BooleanStream.readBoolean else ret (ProducerInfo.dispatchAsync info)) in
    let* windowSize := (if 3 <=? wireVersion then dataIn DataInputStream.readInt else ret (ProducerInfo.windowSize info)) in
    ret {| ProducerInfo.base := base; ProducerInfo.producerId := producerId;
      ProducerInfo.destination := destination; ProducerInfo.brokerPath := brokerPath;
      ProducerInfo.dispatchAsync := dispatchAsync; ProducerInfo.windowSize := windowSize |}).

Definition looseUnmarshal (info : ProducerInfo.t) : M (io St) (ProducerInfo.t) :=
  catch_io (
    let* base := BaseCommandMarshaller.looseUnmarshal (ProducerInfo.base info) in
    let* producerId := cast as_ProducerId looseUnmarshalCachedObject in
    let* destination := cast as_ActiveMQDestination looseUnmarshalCachedObject in
    let* brokerPath := looseUnmarshalObjectArray as_BrokerId in
    let* dispatchAsync := (if 2 <=? wireVersion then dataIn DataInputStream.readBoolean else ret (ProducerInfo.dispatchAsync info)) in
    let* windowSize := (if 3 <=? wireVersion then dataIn DataInputStream.readInt else ret (ProducerInfo.windowSize info)) in
    ret {| ProducerInfo.base := base; ProducerInfo.producerId := producerId;
      ProducerInfo.destination := destination; ProducerInfo.brokerPath := brokerPath;
      ProducerInfo.dispatchAsync := dispatchAsync; ProducerInfo.windowSize := windowSize |}).

Definition tightMarshal1 (info : ProducerInfo.t) : M (io St) Z :=
  catch_io (
    let* rc := BaseCommandMarshaller.tightMarshal1 (ProducerInfo.base info) in
    let* rc := add_rc rc (tightMarshalCachedObject1 (option_map DProducerId (ProducerInfo.producerId info))) in
    let* rc := add_rc rc (tightMarshalCachedObject1 (option_map DDestination (ProducerInfo.destination info))) in
    let* rc := add_rc rc (tightMarshalObjectArray1 (map (option_map DBrokerId) (ProducerInfo.brokerPath info))) in
    (if 2 <=? wireVersion then bs (BooleanStream.writeBoolean (ProducerInfo.dispatchAsync info)) else ret ()) ;;;
    ret (rc + 4)).

Definition tightMarshal2 (info : ProducerInfo.t) : M (io St) unit :=
  catch_io (
    BaseCommandMarshaller.tightMarshal2 (ProducerInfo.base info) ;;;
    tightMarshalCachedObject2 (option_map DProducerId (ProducerInfo.producerId info)) ;;;
    tightMarshalCachedObject2 (option_map DDestination (ProducerInfo.destination info)) ;;;
    tightMarshalObjectArray2 (map (option_map DBrokerId) (ProducerInfo.brokerPath info)) ;;;
    (if 2 <=? wireVersion then bs BooleanStream.readBoolean ;;; ret () else ret ()) ;;;
    (if 3 <=? wireVersion then dataOut (DataOutputStream.writeInt (ProducerInfo.windowSize info)) else ret ()) ;;;
    ret ()).

Definition looseMarshal (info : ProducerInfo.t) : M (io St) unit :=
  catch_io (
    BaseCommandMarshaller.looseMarshal (ProducerInfo.base info) ;;;
    looseMarshalCachedObject (option_map DProducerId (ProducerInfo.producerId info)) ;;;
    looseMarshalCachedObject (option_map DDestination (ProducerInfo.destination info)) ;;;
    looseMarshalObjectArray (map (option_map DBrokerId) (ProducerInfo.brokerPath info)) ;;;
    (if 2 <=? wireVersion then dataOut (DataOutputStream.writeBoolean (ProducerInfo.dispatchAsync info)) else ret ()) ;;;
    (if 3 <=? wireVersion then dataOut (DataOutputStream.writeInt (ProducerInfo.windowSize info)) else ret ()) ;;;
    ret ()).

End Code.
End ProducerInfoMarshaller.

Module RemoveSubscriptionInfoMarshaller.
Section Code.
Context `{Platform} `{WireOptions} {St : Type} `{InputStream St} `{!WireFormat St}.
Import BaseDataStreamMarshaller NestedObjects.

Definition tightUnmarshal (info : RemoveSubscriptionInfo.t) : M (io St) (RemoveSubscriptionInfo.t) :=
  catch_io (
    let* base := BaseCommandMarshaller.tightUnmarshal (RemoveSubscriptionInfo.base info) in
    let* connectionId := cast as_ConnectionId tightUnmarshalCachedObject in
    let* subcriptionName := tightUnmarshalString in
    let* clientId := tightUnmarshalString in
    ret {| RemoveSubscriptionInfo.base := base; RemoveSubscriptionInfo.connectionId :=
      connectionId; RemoveSubscriptionInfo.subcriptionName := subcriptionName;
      RemoveSubscriptionInfo.clientId := clientId |}).

Definition looseUnmarshal (info : RemoveSubscriptionInfo.t) : M (io St) (RemoveSubscriptionInfo.t) :=
  catch_io (
    let* base := BaseCommandMarshaller.looseUnmarshal (RemoveSubscriptionInfo.base info) in
    let* connectionId := cast as_ConnectionId looseUnmarshalCachedObject in
    let* subcriptionName := looseUnmarshalString in
    let* clientId := looseUnmarshalString in
    ret {| RemoveSubscriptionInfo.base := base; RemoveSubscriptionInfo.connectionId :=
      connectionId; RemoveSubscriptionInfo.subcriptionName := subcriptionName;
      RemoveSubscriptionInfo.clientId := clientId |}).

Definition tightMarshal1 (info : RemoveSubscriptionInfo.t) : M (io St) Z :=
  catch_io (
    let* rc := BaseCommandMarshaller.tightMarshal1 (RemoveSubscriptionInfo.base info) in
    let* rc := add_rc rc (tightMarshalCachedObject1 (option_map DConnectionId (RemoveSubscriptionInfo.connectionId info))) in
    let* rc := add_rc rc (tightMarshalString1 (RemoveSubscriptionInfo.subcriptionName info)) in
    let* rc := add_rc rc (tightMarshalString1 (RemoveSubscriptionInfo.clientId info)) in
    ret (rc + 0)).

Definition tightMarshal2 (info : RemoveSubscriptionInfo.t) : M (io St) unit :=
  catch_io (
    BaseCommandMarshaller.tightMarshal2 (RemoveSubscriptionInfo.base info) ;;;
    tightMarshalCachedObject2 (option_map DConnectionId (RemoveSubscriptionInfo.connectionId info)) ;;;
    tightMarshalString2 (RemoveSubscriptionInfo.subcriptionName info) ;;;
    tightMarshalString2 (RemoveSubscriptionInfo.clientId info) ;;;
    ret ()).

Definition looseMarshal (info : RemoveSubscriptionInfo.t) : M (io St) unit :=
  catch_io (
    BaseCommandMarshaller.looseMarshal (RemoveSubscriptionInfo.base info) ;;;
    looseMarshalCachedObject (option_map DConnectionId (RemoveSubscriptionInfo.connectionId info)) ;;;
    looseMarshalString (RemoveSubscriptionInfo.subcriptionName info) ;;;
    looseMarshalString (RemoveSubscriptionInfo.clientId info) ;;;
    ret ()).

End Code.
End RemoveSubscriptionInfoMarshaller.

Module ReplayCommandMarshaller.
Section Code.
Context `{Platform} `{WireOptions} {St : Type} `{InputStream St} `{!WireFormat St}.
Import BaseDataStreamMarshaller NestedObjects.

Definition tightUnmarshal (info : ReplayCommand.t) : M (io St) (ReplayCommand.t) :=
  catch_io (
    let* base := BaseCommandMarshaller.tightUnmarshal (ReplayCommand.base info) in
    let* firstNakNumber := dataIn DataInputStream.readInt in
    let* lastNakNumber := dataIn DataInputStream.readInt in
    ret {| ReplayCommand.base := base; ReplayCommand.firstNakNumber := firstNakNumber;
      ReplayCommand.lastNakNumber := lastNakNumber |}).

Definition looseUnmarshal (info : ReplayCommand.t) : M (io St) (ReplayCommand.t) :=
  catch_io (
    let* base := BaseCommandMarshaller.looseUnmarshal (ReplayCommand.base info) in
    let* firstNakNumber := dataIn DataInputStream.readInt in
    let* lastNakNumber := dataIn DataInputStream.readInt in
    ret {| ReplayCommand.base := base; ReplayCommand.firstNakNumber := firstNakNumber;
      ReplayCommand.lastNakNumber := lastNakNumber |}).

Definition tightMarshal1 (info : ReplayCommand.t) : M (io St) Z :=
  catch_io (
    let* rc := BaseCommandMarshaller.tightMarshal1 (ReplayCommand.base info) in
    ret (rc + 8)).

Definition tightMarshal2 (info : ReplayCommand.t) : M (io St) unit :=
  catch_io (
    BaseCommandMarshaller.tightMarshal2 (ReplayCommand.base info) ;;;
    dataOut (DataOutputStream.writeInt (ReplayCommand.firstNakNumber info)) ;;;
    dataOut (DataOutputStream.writeInt (ReplayCommand.lastNakNumber info)) ;;;
    ret ()).

Definition looseMarshal (info : ReplayCommand.t) : M (io St) unit :=
  catch_io (
    BaseCommandMarshaller.looseMarshal (ReplayCommand.base info) ;;;
    dataOut (DataOutputStream.writeInt (ReplayCommand.firstNakNumber info)) ;;;
    dataOut (DataOutputStream.writeInt (ReplayCommand.lastNakNumber info)) ;;;
    ret ()).

End Code.
End ReplayCommandMarshaller.

Module SessionInfoMarshaller.
Section Code.
Context `{Platform} `{WireOptions} {St : Type} `{InputStream St} `{!WireFormat St}.
Import BaseDataStreamMarshaller NestedObjects.

Definition tightUnmarshal (info : SessionInfo.t) : M (io St) (SessionInfo.t) :=
  catch_io (
    let* base := BaseCommandMarshaller.tightUnmarshal (SessionInfo.base info) in
    let* sessionId := cast as_SessionId tightUnmarshalCachedObject in
    ret {| SessionInfo.base := base; SessionInfo.sessionId := sessionId |}).

Definition looseUnmarshal (info : SessionInfo.t) : M (io St) (SessionInfo.t) :=
  catch_io (
    let* base := BaseCommandMarshaller.looseUnmarshal (SessionInfo.base info) in
    let* sessionId := cast as_SessionId looseUnmarshalCachedObject in
    ret {| SessionInfo.base := base; SessionInfo.sessionId := sessionId |}).

Definition tightMarshal1 (info : SessionInfo.t) : M (io St) Z :=
  catch_io (
    let* rc := BaseCommandMarshaller.tightMarshal1 (SessionInfo.base info) in
    let* rc := add_rc rc (tightMarshalCachedObject1 (option_map DSessionId (SessionInfo.sessionId info))) in
    ret (rc + 0)).

Definition tightMarshal2 (info : SessionInfo.t) : M (io St) unit :=
  catch_io (
    BaseCommandMarshaller.tightMarshal2 (SessionInfo.base info) ;;;
    tightMarshalCachedObject2 (option_map DSessionId (SessionInfo.sessionId info)) ;;;
    ret ()).

Definition looseMarshal (info : SessionInfo.t) : M (io St) unit :=
  catch_io (
    BaseCommandMarshaller.looseMarshal (SessionInfo.base info) ;;;
    looseMarshalCachedObject (option_map DSessionId (SessionInfo.sessionId info)) ;;;
    ret ()).

End Code.
End SessionInfoMarshaller.

Module ShutdownInfoMarshaller.
Section Code.
Context `{Platform} `{WireOptions} {St : Type} `{InputStream St} `{!WireFormat St}.
Import BaseDataStreamMarshaller NestedObjects.

Definition tightUnmarshal (info : ShutdownInfo.t) : M (io St) (ShutdownInfo.t) :=
  catch_io (
    let* base := BaseCommandMarshaller.tightUnmarshal (ShutdownInfo.base info) in
    ret {| ShutdownInfo.base := base |}).

Definition looseUnmarshal (info : ShutdownInfo.t) : M (io St) (ShutdownInfo.t) :=
  catch_io (
    let* base := BaseCommandMarshaller.looseUnmarshal (ShutdownInfo.base info) in
    ret {| ShutdownInfo.base := base |}).

Definition tightMarshal1 (info : ShutdownInfo.t) : M (io St) Z :=
  catch_io (
    let* rc := BaseCommandMarshaller.tightMarshal1 (ShutdownInfo.base info) in
    ret (rc + 0)).

Definition tightMarshal2 (info : ShutdownInfo.t) : M (io St) unit :=
  catch_io (
    BaseCommandMarshaller.tightMarshal2 (ShutdownInfo.base info) ;;;
    ret ()).

Definition looseMarshal (info : ShutdownInfo.t) : M (io St) unit :=
  catch_io (
    BaseCommandMarshaller.looseMarshal (ShutdownInfo.base info) ;;;
    ret ()).

End Code.
End ShutdownInfoMarshaller.

Module SubscriptionInfoMarshaller.
Section Code.
Context `{Platform} `{WireOptions} {St : Type} `{InputStream St} `{!WireFormat St}.
Import BaseDataStreamMarshaller NestedObjects.

Definition tightUnmarshal (info : SubscriptionInfo.t) : M (io St) (SubscriptionInfo.t) :=
  catch_io (
    let* clientId := tightUnmarshalString in
    let* destination := cast as_ActiveMQDestination tightUnmarshalCachedObject in
    let* selector := tightUnmarshalString in
    let* subcriptionName := tightUnmarshalString in
    let* subscribedDestination := (if 3 <=? wireVersion then cast as_ActiveMQDestination tightUnmarshalNestedObject else ret (SubscriptionInfo.subscribedDestination info)) in
    let* noLocal := (if 11 <=? wireVersion then bs BooleanStream.readBoolean else ret (SubscriptionInfo.noLocal info)) in
    ret {| SubscriptionInfo.clientId := clientId; SubscriptionInfo.destination :=
      destination; SubscriptionInfo.selector := selector; SubscriptionInfo.subcriptionName :=
      subcriptionName; SubscriptionInfo.subscribedDestination := subscribedDestination;
      SubscriptionInfo.noLocal := noLocal |}).

Definition looseUnmarshal (info : SubscriptionInfo.t) : M (io St) (SubscriptionInfo.t) :=
  catch_io (
    let* clientId := looseUnmarshalString in
    let* destination := cast as_ActiveMQDestination looseUnmarshalCachedObject in
    let* selector := looseUnmarshalString in
    let* subcriptionName := looseUnmarshalString in
    let* subscribedDestination := (if 3 <=? wireVersion then cast as_ActiveMQDestination looseUnmarshalNestedObject else ret (SubscriptionInfo.subscribedDestination info)) in
    let* noLocal := (if 11 <=? wireVersion then dataIn DataInputStream.readBoolean else ret (SubscriptionInfo.noLocal info)) in
    ret {| SubscriptionInfo.clientId := clientId; SubscriptionInfo.destination :=
      destination; SubscriptionInfo.selector := selector; SubscriptionInfo.subcriptionName :=
      subcriptionName; SubscriptionInfo.subscribedDestination := subscribedDestination;
      SubscriptionInfo.noLocal := noLocal |}).

Definition tightMarshal1 (info : SubscriptionInfo.t) : M (io St) Z :=
  catch_io (
    let* rc := NestedObjects.tightMarshal1 in
    let* rc := add_rc rc (tightMarshalString1 (SubscriptionInfo.clientId info)) in
    let* rc := add_rc rc (tightMarshalCachedObject1 (option_map DDestination (SubscriptionInfo.destination info))) in
    let* rc := add_rc rc (tightMarshalString1 (SubscriptionInfo.selector info)) in
    let* rc := add_rc rc (tightMarshalString1 (SubscriptionInfo.subcriptionName info)) in
    let* rc := (if 3 <=? wireVersion then add_rc rc (tightMarshalNestedObject1 (option_map DDestination (SubscriptionInfo.subscribedDestination info))) else ret rc) in
    (if 11 <=? wireVersion then bs (BooleanStream.writeBoolean (SubscriptionInfo.noLocal info)) else ret ()) ;;;
    ret (rc + 0)).

Definition tightMarshal2 (info : SubscriptionInfo.t) : M (io St) unit :=
  catch_io (
    tightMarshalString2 (SubscriptionInfo.clientId info) ;;;
    tightMarshalCachedObject2 (option_map DDestination (SubscriptionInfo.destination info)) ;;;
    tightMarshalString2 (SubscriptionInfo.selector info) ;;;
    tightMarshalString2 (SubscriptionInfo.subcriptionName info) ;;;
    (if 3 <=? wireVersion then tightMarshalNestedObject2 (option_map DDestination (SubscriptionInfo.subscribedDestination info)) else ret ()) ;;;
    (if 11 <=? wireVersion then bs BooleanStream.readBoolean ;;; ret () else ret ()) ;;;
    ret ()).

Definition looseMarshal (info : SubscriptionInfo.t) : M (io St) unit :=
  catch_io (
    looseMarshalString (SubscriptionInfo.clientId info) ;;;
    looseMarshalCachedObject (option_map DDestination (SubscriptionInfo.destination info)) ;;;
    looseMarshalString (SubscriptionInfo.selector info) ;;;
    looseMarshalString (SubscriptionInfo.subcriptionName info) ;;;
    (if 3 <=? wireVersion then looseMarshalNestedObject (option_map DDestination (SubscriptionInfo.subscribedDestination info)) else ret ()) ;;;
    (if 11 <=? wireVersion then dataOut (DataOutputStream.writeBoolean (SubscriptionInfo.noLocal info)) else ret ()) ;;;
    ret ()).

End Code.
End SubscriptionInfoMarshaller.

Module TransactionInfoMarshaller.
Section Code.
Context `{Platform} `{WireOptions} {St : Type} `{InputStream St} `{!WireFormat St}.
Import BaseDataStreamMarshaller NestedObjects.

Definition tightUnmarshal (info : TransactionInfo.t) : M (io St) (TransactionInfo.t) :=
  catch_io (
    let* base := BaseCommandMarshaller.tightUnmarshal (TransactionInfo.base info) in
    let* connectionId := cast as_ConnectionId tightUnmarshalCachedObject in
    let* transactionId := cast as_TransactionId tightUnmarshalCachedObject in
    let* type := readUByte in
    ret {| TransactionInfo.base := base; TransactionInfo.connectionId := connectionId;
      TransactionInfo.transactionId := transactionId; TransactionInfo.type := type |}).

Definition looseUnmarshal (info : TransactionInfo.t) : M (io St) (TransactionInfo.t) :=
  catch_io (
    let* base := BaseCommandMarshaller.looseUnmarshal (TransactionInfo.base info) in
    let* connectionId := cast as_ConnectionId looseUnmarshalCachedObject in
    let* transactionId := cast as_TransactionId looseUnmarshalCachedObject in
    let* type := readUByte in
    ret {| TransactionInfo.base := base; TransactionInfo.connectionId := connectionId;
      TransactionInfo.transactionId := transactionId; TransactionInfo.type := type |}).

Definition tightMarshal1 (info : TransactionInfo.t) : M (io St) Z :=
  catch_io (
    let* rc := BaseCommandMarshaller.tightMarshal1 (TransactionInfo.base info) in
    let* rc := add_rc rc (tightMarshalCachedObject1 (option_map DConnectionId (TransactionInfo.connectionId info))) in
    let* rc := add_rc rc (tightMarshalCachedObject1 (option_map DTransactionId (TransactionInfo.transactionId info))) in
    ret (rc + 1)).

Definition tightMarshal2 (info : TransactionInfo.t) : M (io St) unit :=
  catch_io (
    BaseCommandMarshaller.tightMarshal2 (TransactionInfo.base info) ;;;
    tightMarshalCachedObject2 (option_map DConnectionId (TransactionInfo.connectionId info)) ;;;
    tightMarshalCachedObject2 (option_map DTransactionId (TransactionInfo.transactionId info)) ;;;
    dataOut (DataOutputStream.write (TransactionInfo.type info)) ;;;
    ret ()).

Definition looseMarshal (info : TransactionInfo.t) : M (io St) unit :=
  catch_io (
    BaseCommandMarshaller.looseMarshal (TransactionInfo.base info) ;;;
    looseMarshalCachedObject (option_map DConnectionId (TransactionInfo.connectionId info)) ;;;
    looseMarshalCachedObject (option_map DTransactionId (TransactionInfo.transactionId info)) ;;;
    dataOut (DataOutputStream.write (TransactionInfo.type info)) ;;;
    ret ()).

End Code.
End TransactionInfoMarshaller.

(** ** The laws *)
Section Laws.
Context {St : Type} `{InputStreamLaws St} (n : nat).
Context `{Platform} `{WireOptions} `{!WireFormat St} `{!WireFormatLaws n}.
Lemma BrokerInfo_layout_unfold i : BrokerInfo_layout i =
  BaseCommand_layout (BrokerInfo.base i) ++
  obj_BrokerId (BrokerInfo.brokerId i) ++
  [FString (BrokerInfo.brokerURL i)] ++
  arr (obj (fun _ => 2) (fun _ => false) BrokerInfo_layout) (BrokerInfo.peerBrokerInfos i) ++
  [FString (BrokerInfo.brokerName i)] ++
  [FBool (BrokerInfo.slaveBroker i)] ++
  [FBool (BrokerInfo.masterBroker i)] ++
  [FBool (BrokerInfo.faultTolerantConfiguration i)] ++
  (if 2 <=? wireVersion then [FBool (BrokerInfo.duplexConnection i)] else [FReq (bool_decide (BrokerInfo.duplexConnection i = false))]) ++
  (if 2 <=? wireVersion then [FBool (BrokerInfo.networkConnection i)] else [FReq (bool_decide (BrokerInfo.networkConnection i = false))]) ++
  (if 2 <=? wireVersion then [FLong (BrokerInfo.connectionId i)] else [FReq (bool_decide (BrokerInfo.connectionId i = 0))]) ++
  (if 3 <=? wireVersion then [FString (BrokerInfo.brokerUploadUrl i)] else [FReq (bool_decide (BrokerInfo.brokerUploadUrl i = []))]) ++
  (if 3 <=? wireVersion then [FString (BrokerInfo.networkProperties i)] else [FReq (bool_decide (BrokerInfo.networkProperties i = []))]).
Proof. by destruct i. Qed.
Lemma BrokerInfo_implements info :
  implements n (BrokerInfo_layout info) info (BrokerInfoMarshaller.tightMarshal1 info) (BrokerInfoMarshaller.tightMarshal2 info)
    (BrokerInfoMarshaller.tightUnmarshal BrokerInfo.default) (BrokerInfoMarshaller.looseMarshal info) (BrokerInfoMarshaller.looseUnmarshal BrokerInfo.default).
Proof. rewrite BrokerInfo_layout_unfold. implement_with ltac:(by destruct info). Qed.

Lemma ConnectionControl_implements info :
  implements n (ConnectionControl_layout info) info (ConnectionControlMarshaller.tightMarshal1 info) (ConnectionControlMarshaller.tightMarshal2 info)
    (ConnectionControlMarshaller.tightUnmarshal ConnectionControl.default) (ConnectionControlMarshaller.looseMarshal info) (ConnectionControlMarshaller.looseUnmarshal ConnectionControl.default).
Proof. unfold ConnectionControl_layout. implement_with ltac:(by destruct info). Qed.

Lemma ConnectionError_implements info :
  implements n (ConnectionError_layout info) info (ConnectionErrorMarshaller.tightMarshal1 info) (ConnectionErrorMarshaller.tightMarshal2 info)
    (ConnectionErrorMarshaller.tightUnmarshal ConnectionError.default) (ConnectionErrorMarshaller.looseMarshal info) (ConnectionErrorMarshaller.looseUnmarshal ConnectionError.default).
Proof. unfold ConnectionError_layout. implement_with ltac:(by destruct info). Qed.

Lemma ConnectionInfo_implements info :
  implements n (ConnectionInfo_layout info) info (ConnectionInfoMarshaller.tightMarshal1 info) (ConnectionInfoMarshaller.tightMarshal2 info)
    (ConnectionInfoMarshaller.tightUnmarshal ConnectionInfo.default) (ConnectionInfoMarshaller.looseMarshal info) (ConnectionInfoMarshaller.looseUnmarshal ConnectionInfo.default).
Proof. unfold ConnectionInfo_layout. implement_with ltac:(by destruct info). Qed.

Lemma ConsumerControl_implements info :
  implements n (ConsumerControl_layout info) info (ConsumerControlMarshaller.tightMarshal1 info) (ConsumerControlMarshaller.tightMarshal2 info)
    (ConsumerControlMarshaller.tightUnmarshal ConsumerControl.default) (ConsumerControlMarshaller.looseMarshal info) (ConsumerControlMarshaller.looseUnmarshal ConsumerControl.default).
Proof. unfold ConsumerControl_layout. implement_with ltac:(by destruct info). Qed.

Lemma ConsumerInfo_implements info :
  implements n (ConsumerInfo_layout info) info (ConsumerInfoMarshaller.tightMarshal1 info) (ConsumerInfoMarshaller.tightMarshal2 info)
    (ConsumerInfoMarshaller.tightUnmarshal ConsumerInfo.default) (ConsumerInfoMarshaller.looseMarshal info) (ConsumerInfoMarshaller.looseUnmarshal ConsumerInfo.default).
Proof. unfold ConsumerInfo_layout. implement_with ltac:(by destruct info). Qed.

Lemma ControlCommand_implements info :
  implements n (ControlCommand_layout info) info (ControlCommandMarshaller.tightMarshal1 info) (ControlCommandMarshaller.tightMarshal2 info)
    (ControlCommandMarshaller.tightUnmarshal ControlCommand.default) (ControlCommandMarshaller.looseMarshal info) (ControlCommandMarshaller.looseUnmarshal ControlCommand.default).
Proof. unfold ControlCommand_layout. implement_with ltac:(by destruct info). Qed.

Lemma DestinationInfo_implements info :
  implements n (DestinationInfo_layout info) info (DestinationInfoMarshaller.tightMarshal1 info) (DestinationInfoMarshaller.tightMarshal2 info)
    (DestinationInfoMarshaller.tightUnmarshal DestinationInfo.default) (DestinationInfoMarshaller.looseMarshal info) (DestinationInfoMarshaller.looseUnmarshal DestinationInfo.default).
Proof. unfold DestinationInfo_layout. implement_with ltac:(by destruct info). Qed.

Lemma DiscoveryEvent_implements info :
  implements n (DiscoveryEvent_layout info) info (DiscoveryEventMarshaller.tightMarshal1 info) (DiscoveryEventMarshaller.tightMarshal2 info)
    (DiscoveryEventMarshaller.tightUnmarshal DiscoveryEvent.default) (DiscoveryEventMarshaller.looseMarshal info) (DiscoveryEventMarshaller.looseUnmarshal DiscoveryEvent.default).
Proof. unfold DiscoveryEvent_layout. implement_with ltac:(by destruct info). Qed.

Lemma FlushCommand_implements info :
  implements n (FlushCommand_layout info) info (FlushCommandMarshaller.tightMarshal1 info) (FlushCommandMarshaller.tightMarshal2 info)
    (FlushCommandMarshaller.tightUnmarshal FlushCommand.default) (FlushCommandMarshaller.looseMarshal info) (FlushCommandMarshaller.looseUnmarshal FlushCommand.default).
Proof. unfold FlushCommand_layout. implement_with ltac:(by destruct info). Qed.

Lemma KeepAliveInfo_implements info :
  implements n (KeepAliveInfo_layout info) info (KeepAliveInfoMarshaller.tightMarshal1 info) (KeepAliveInfoMarshaller.tightMarshal2 info)
    (KeepAliveInfoMarshaller.tightUnmarshal KeepAliveInfo.default) (KeepAliveInfoMarshaller.looseMarshal info) (KeepAliveInfoMarshaller.looseUnmarshal KeepAliveInfo.default).
Proof. unfold KeepAliveInfo_layout. implement_with ltac:(by destruct info). Qed.

Lemma ProducerAck_implements info :
  implements n (ProducerAck_layout info) info (ProducerAckMarshaller.tightMarshal1 info) (ProducerAckMarshaller.tightMarshal2 info)
    (ProducerAckMarshaller.tightUnmarshal ProducerAck.default) (ProducerAckMarshaller.looseMarshal info) (ProducerAckMarshaller.looseUnmarshal ProducerAck.default).
Proof. unfold ProducerAck_layout, ProducerAckMarshaller.tightMarshal1, ProducerAckMarshaller.tightMarshal2, ProducerAckMarshaller.tightUnmarshal, ProducerAckMarshaller.looseMarshal, ProducerAckMarshaller.looseUnmarshal.
  implement_from_version 3 ltac:(by destruct info). Qed.

Lemma ProducerInfo_implements info :
  implements n (ProducerInfo_layout info) info (ProducerInfoMarshaller.tightMarshal1 info) (ProducerInfoMarshaller.tightMarshal2 info)
    (ProducerInfoMarshaller.tightUnmarshal ProducerInfo.default) (ProducerInfoMarshaller.looseMarshal info) (ProducerInfoMarshaller.looseUnmarshal ProducerInfo.default).
Proof. unfold ProducerInfo_layout, ProducerInfoMarshaller.tightMarshal1, ProducerInfoMarshaller.tightMarshal2, ProducerInfoMarshaller.tightUnmarshal, ProducerInfoMarshaller.looseMarshal, ProducerInfoMarshaller.looseUnmarshal.
  implement_from_version 3 ltac:(by destruct info). Qed.

Lemma RemoveSubscriptionInfo_implements info :
  implements n (RemoveSubscriptionInfo_layout info) info (RemoveSubscriptionInfoMarshaller.tightMarshal1 info) (RemoveSubscriptionInfoMarshaller.tightMarshal2 info)
    (RemoveSubscriptionInfoMarshaller.tightUnmarshal RemoveSubscriptionInfo.default) (RemoveSubscriptionInfoMarshaller.looseMarshal info) (RemoveSubscriptionInfoMarshaller.looseUnmarshal RemoveSubscriptionInfo.default).
Proof. unfold RemoveSubscriptionInfo_layout. implement_with ltac:(by destruct info). Qed.

Lemma ReplayCommand_implements info :
  implements n (ReplayCommand_layout info) info (ReplayCommandMarshaller.tightMarshal1 info) (ReplayCommandMarshaller.tightMarshal2 info)
    (ReplayCommandMarshaller.tightUnmarshal ReplayCommand.default) (ReplayCommandMarshaller.looseMarshal info) (ReplayCommandMarshaller.looseUnmarshal ReplayCommand.default).
Proof. unfold ReplayCommand_layout. implement_with ltac:(by destruct info). Qed.

Lemma SessionInfo_implements info :
  implements n (SessionInfo_layout info) info (SessionInfoMarshaller.tightMarshal1 info) (SessionInfoMarshaller.tightMarshal2 info)
    (SessionInfoMarshaller.tightUnmarshal SessionInfo.default) (SessionInfoMarshaller.looseMarshal info) (SessionInfoMarshaller.looseUnmarshal SessionInfo.default).
Proof. unfold SessionInfo_layout. implement_with ltac:(by destruct info). Qed.

Lemma ShutdownInfo_implements info :
  implements n (ShutdownInfo_layout info) info (ShutdownInfoMarshaller.tightMarshal1 info) (ShutdownInfoMarshaller.tightMarshal2 info)
    (ShutdownInfoMarshaller.tightUnmarshal ShutdownInfo.default) (ShutdownInfoMarshaller.looseMarshal info) (ShutdownInfoMarshaller.looseUnmarshal ShutdownInfo.default).
Proof. unfold ShutdownInfo_layout. implement_with ltac:(by destruct info). Qed.

Lemma SubscriptionInfo_implements info :
  implements n (SubscriptionInfo_layout info) info (SubscriptionInfoMarshaller.tightMarshal1 info) (SubscriptionInfoMarshaller.tightMarshal2 info)
    (SubscriptionInfoMarshaller.tightUnmarshal SubscriptionInfo.default) (SubscriptionInfoMarshaller.looseMarshal info) (SubscriptionInfoMarshaller.looseUnmarshal SubscriptionInfo.default).
Proof. unfold SubscriptionInfo_layout. implement_with ltac:(by destruct info). Qed.

Lemma TransactionInfo_implements info :
  implements n (TransactionInfo_layout info) info (TransactionInfoMarshaller.tightMarshal1 info) (TransactionInfoMarshaller.tightMarshal2 info)
    (TransactionInfoMarshaller.tightUnmarshal TransactionInfo.default) (TransactionInfoMarshaller.looseMarshal info) (TransactionInfoMarshaller.looseUnmarshal TransactionInfo.default).
Proof. unfold TransactionInfo_layout. implement_with ltac:(by destruct info). Qed.

End Laws.
