(* ===== verification/ResponseMarshallers.v ===== *)
(** * The marshallers of responses, acknowledgements and journal records

    activemq/wireformat/openwire/marshal/generated: the marshallers of responses,
    partial commands, acknowledgements, pulls and journal commands, and of the
    removal of an object. *)

From S2P Require Import Prelude DataStreams PrimitiveTypes Support BooleanStreams Wire BaseMarshaller Commands Layouts MarshallerBase IdMarshallers.

Module ResponseMarshaller.
Section Code.
Context `{Platform} `{WireOptions} {St : Type} `{InputStream St} `{!WireFormat St}.
Import BaseDataStreamMarshaller NestedObjects.

Definition tightUnmarshal (info : Response.t) : M (io St) (Response.t) :=
  catch_io (
    let* base := BaseCommandMarshaller.tightUnmarshal (Response.base info) in
    let* correlationId := dataIn DataInputStream.readInt in
    ret {| Response.base := base; Response.correlationId := correlationId |}).

Definition looseUnmarshal (info : Response.t) : M (io St) (Response.t) :=
  catch_io (
    let* base := BaseCommandMarshaller.looseUnmarshal (Response.base info) in
    let* correlationId := dataIn DataInputStream.readInt in
    ret {| Response.base := base; Response.correlationId := correlationId |}).

Definition tightMarshal1 (info : Response.t) : M (io St) Z :=
  catch_io (
    let* rc := BaseCommandMarshaller.tightMarshal1 (Response.base info) in
    ret (rc + 4)).

Definition tightMarshal2 (info : Response.t) : M (io St) unit :=
  catch_io (
    BaseCommandMarshaller.tightMarshal2 (Response.base info) ;;;
    dataOut (DataOutputStream.writeInt (Response.correlationId info)) ;;;
    ret ()).

Definition looseMarshal (info : Response.t) : M (io St) unit :=
  catch_io (
    BaseCommandMarshaller.looseMarshal (Response.base info) ;;;
    dataOut (DataOutputStream.writeInt (Response.correlationId info)) ;;;
    ret ()).

End Code.
End ResponseMarshaller.

Section ResponseLaws.
Context {St : Type} `{InputStreamLaws St} (n : nat).
Context `{Platform} `{WireOptions} `{!WireFormat St} `{!WireFormatLaws n}.
Lemma Response_t1 b : guarded n (@marks St _ _) _ (Response_layout b) (ResponseMarshaller.tightMarshal1 b) (zlen (wbody (Response_layout b))).
Proof. unfold Response_layout. apply codec_catch. statements. apply g_done; [reflexivity | size_sum]. Qed.
Lemma Response_t2 b : guarded n (@emits St _ _) _ (Response_layout b) (ResponseMarshaller.tightMarshal2 b) tt.
Proof. unfold Response_layout. apply codec_catch. statements. by refine (g_ret _ _ _ _). Qed.
Lemma Response_tu b b0 : guarded n (@parses St _ _) _ (Response_layout b) (ResponseMarshaller.tightUnmarshal b0) b.
Proof. unfold Response_layout. apply codec_catch. statements. refine (g_ret _ _ _ _). by destruct b. Qed.
Lemma Response_lm b : guarded n (@emitsL St _ _) _ (Response_layout b) (ResponseMarshaller.looseMarshal b) tt.
Proof. unfold Response_layout. apply codec_catch. statements. by refine (g_ret _ _ _ _). Qed.
Lemma Response_lu b b0 : guarded n (@parsesL St _ _) _ (Response_layout b) (ResponseMarshaller.looseUnmarshal b0) b.
Proof. unfold Response_layout. apply codec_catch. statements. refine (g_ret _ _ _ _). by destruct b. Qed.
End ResponseLaws.
#[export] Hint Resolve Response_t1 Response_t2 Response_tu Response_lm Response_lu : marshal.

Module DataArrayResponseMarshaller.
Section Code.
Context `{Platform} `{WireOptions} {St : Type} `{InputStream St} `{!WireFormat St}.
Import BaseDataStreamMarshaller NestedObjects.

Definition tightUnmarshal (info : DataArrayResponse.t DataStructure) : M (io St) (DataArrayResponse.t DataStructure) :=
  catch_io (
    let* base := ResponseMarshaller.tightUnmarshal (DataArrayResponse.base info) in
    let* data := tightUnmarshalObjectArray as_DataStructure in
    ret {| DataArrayResponse.base := base; DataArrayResponse.data := data |}).

Definition looseUnmarshal (info : DataArrayResponse.t DataStructure) : M (io St) (DataArrayResponse.t DataStructure) :=
  catch_io (
    let* base := ResponseMarshaller.looseUnmarshal (DataArrayResponse.base info) in
    let* data := looseUnmarshalObjectArray as_DataStructure in
    ret {| DataArrayResponse.base := base; DataArrayResponse.data := data |}).

Definition tightMarshal1 (info : DataArrayResponse.t DataStructure) : M (io St) Z :=
  catch_io (
    let* rc := ResponseMarshaller.tightMarshal1 (DataArrayResponse.base info) in
    let* rc := add_rc rc (tightMarshalObjectArray1 (DataArrayResponse.data info)) in
    ret (rc + 0)).

Definition tightMarshal2 (info : DataArrayResponse.t DataStructure) : M (io St) unit :=
  catch_io (
    ResponseMarshaller.tightMarshal2 (DataArrayResponse.base info) ;;;
    tightMarshalObjectArray2 (DataArrayResponse.data info) ;;;
    ret ()).

Definition looseMarshal (info : DataArrayResponse.t DataStructure) : M (io St) unit :=
  catch_io (
    ResponseMarshaller.looseMarshal (DataArrayResponse.base info) ;;;
    looseMarshalObjectArray (DataArrayResponse.data info) ;;;
    ret ()).

End Code.
End DataArrayResponseMarshaller.

Module DataResponseMarshaller.
Section Code.
Context `{Platform} `{WireOptions} {St : Type} `{InputStream St} `{!WireFormat St}.
Import BaseDataStreamMarshaller NestedObjects.

Definition tightUnmarshal (info : DataResponse.t DataStructure) : M (io St) (DataResponse.t DataStructure) :=
  catch_io (
    let* base := ResponseMarshaller.tightUnmarshal (DataResponse.base info) in
    let* data := cast as_DataStructure tightUnmarshalNestedObject in
    ret {| DataResponse.base := base; DataResponse.data := data |}).

Definition looseUnmarshal (info : DataResponse.t DataStructure) : M (io St) (DataResponse.t DataStructure) :=
  catch_io (
    let* base := ResponseMarshaller.looseUnmarshal (DataResponse.base info) in
    let* data := cast as_DataStructure looseUnmarshalNestedObject in
    ret {| DataResponse.base := base; DataResponse.data := data |}).

Definition tightMarshal1 (info : DataResponse.t DataStructure) : M (io St) Z :=
  catch_io (
    let* rc := ResponseMarshaller.tightMarshal1 (DataResponse.base info) in
    let* rc := add_rc rc (tightMarshalNestedObject1 (DataResponse.data info)) in
    ret (rc + 0)).

Definition tightMarshal2 (info : DataResponse.t DataStructure) : M (io St) unit :=
  catch_io (
    ResponseMarshaller.tightMarshal2 (DataResponse.base info) ;;;
    tightMarshalNestedObject2 (DataResponse.data info) ;;;
    ret ()).

Definition looseMarshal (info : DataResponse.t DataStructure) : M (io St) unit :=
  catch_io (
    ResponseMarshaller.looseMarshal (DataResponse.base info) ;;;
    looseMarshalNestedObject (DataResponse.data info) ;;;
    ret ()).

End Code.
End DataResponseMarshaller.

Module ExceptionResponseMarshaller.
Section Code.
Context `{Platform} `{WireOptions} {St : Type} `{InputStream St} `{!WireFormat St}.
Import BaseDataStreamMarshaller NestedObjects.

Definition tightUnmarshal (info : ExceptionResponse.t) : M (io St) (ExceptionResponse.t) :=
  catch_io (
    let* base := ResponseMarshaller.tightUnmarshal (ExceptionResponse.base info) in
    let* exception := tightUnmarshalBrokerError wf_fuel stackTraceEnabled in
    ret {| ExceptionResponse.base := base; ExceptionResponse.exception := exception |}).

Definition looseUnmarshal (info : ExceptionResponse.t) : M (io St) (ExceptionResponse.t) :=
  catch_io (
    let* base := ResponseMarshaller.looseUnmarshal (ExceptionResponse.base info) in
    let* exception := looseUnmarshalBrokerError wf_fuel stackTraceEnabled in
    ret {| ExceptionResponse.base := base; ExceptionResponse.exception := exception |}).

Definition tightMarshal1 (info : ExceptionResponse.t) : M (io St) Z :=
  catch_io (
    let* rc := ResponseMarshaller.tightMarshal1 (ExceptionResponse.base info) in
    let* rc := add_rc rc (tightMarshalBrokerError1 stackTraceEnabled (ExceptionResponse.exception info)) in
    ret (rc + 0)).

Definition tightMarshal2 (info : ExceptionResponse.t) : M (io St) unit :=
  catch_io (
    ResponseMarshaller.tightMarshal2 (ExceptionResponse.base info) ;;;
    tightMarshalBrokerError2 stackTraceEnabled (ExceptionResponse.exception info) ;;;
    ret ()).

Definition looseMarshal (info : ExceptionResponse.t) : M (io St) unit :=
  catch_io (
    ResponseMarshaller.looseMarshal (ExceptionResponse.base info) ;;;
    looseMarshalBrokerError stackTraceEnabled (ExceptionResponse.exception info) ;;;
    ret ()).

End Code.
End ExceptionResponseMarshaller.

Module IntegerResponseMarshaller.
Section Code.
Context `{Platform} `{WireOptions} {St : Type} `{InputStream St} `{!WireFormat St}.
Import BaseDataStreamMarshaller NestedObjects.

Definition tightUnmarshal (info : IntegerResponse.t) : M (io St) (IntegerResponse.t) :=
  catch_io (
    let* base := ResponseMarshaller.tightUnmarshal (IntegerResponse.base info) in
    let* result := dataIn DataInputStream.readInt in
    ret {| IntegerResponse.base := base; IntegerResponse.result := result |}).

Definition looseUnmarshal (info : IntegerResponse.t) : M (io St) (IntegerResponse.t) :=
  catch_io (
    let* base := ResponseMarshaller.looseUnmarshal (IntegerResponse.base info) in
    let* result := dataIn DataInputStream.readInt in
    ret {| IntegerResponse.base := base; IntegerResponse.result := result |}).

Definition tightMarshal1 (info : IntegerResponse.t) : M (io St) Z :=
  catch_io (
    let* rc := ResponseMarshaller.tightMarshal1 (IntegerResponse.base info) in
    ret (rc + 4)).

Definition tightMarshal2 (info : IntegerResponse.t) : M (io St) unit :=
  catch_io (
    ResponseMarshaller.tightMarshal2 (IntegerResponse.base info) ;;;
    dataOut (DataOutputStream.writeInt (IntegerResponse.result info)) ;;;
    ret ()).

Definition looseMarshal (info : IntegerResponse.t) : M (io St) unit :=
  catch_io (
    ResponseMarshaller.looseMarshal (IntegerResponse.base info) ;;;
    dataOut (DataOutputStream.writeInt (IntegerResponse.result info)) ;;;
    ret ()).

End Code.
End IntegerResponseMarshaller.

Module PartialCommandMarshaller.
Section Code.
Context `{Platform} `{WireOptions} {St : Type} `{InputStream St} `{!WireFormat St}.
Import BaseDataStreamMarshaller NestedObjects.

Definition tightUnmarshal (info : PartialCommand.t) : M (io St) (PartialCommand.t) :=
  catch_io (
    let* commandId := dataIn DataInputStream.readInt in
    let* data := tightUnmarshalByteArray in
    ret {| PartialCommand.commandId := commandId; PartialCommand.data := data |}).

Definition looseUnmarshal (info : PartialCommand.t) : M (io St) (PartialCommand.t) :=
  catch_io (
    let* commandId := dataIn DataInputStream.readInt in
    let* data := looseUnmarshalByteArray in
    ret {| PartialCommand.commandId := commandId; PartialCommand.data := data |}).

Definition tightMarshal1 (info : PartialCommand.t) : M (io St) Z :=
  catch_io (
    let* rc := NestedObjects.tightMarshal1 in
    let* rc := add_rc rc (marshalByteArray1 (PartialCommand.data info)) in
    ret (rc + 4)).

Definition tightMarshal2 (info : PartialCommand.t) : M (io St) unit :=
  catch_io (
    dataOut (DataOutputStream.writeInt (PartialCommand.commandId info)) ;;;
    marshalByteArray2 (PartialCommand.data info) ;;;
    ret ()).

Definition looseMarshal (info : PartialCommand.t) : M (io St) unit :=
  catch_io (
    dataOut (DataOutputStream.writeInt (PartialCommand.commandId info)) ;;;
    looseMarshalByteArray (PartialCommand.data info) ;;;
    ret ()).

End Code.
End PartialCommandMarshaller.

Section PartialCommandLaws.
Context {St : Type} `{InputStreamLaws St} (n : nat).
Context `{Platform} `{WireOptions} `{!WireFormat St} `{!WireFormatLaws n}.
Lemma PartialCommand_t1 b : guarded n (@marks St _ _) _ (PartialCommand_layout b) (PartialCommandMarshaller.tightMarshal1 b) (zlen (wbody (PartialCommand_layout b))).
Proof. unfold PartialCommand_layout. apply codec_catch. statements. apply g_done; [reflexivity | size_sum]. Qed.
Lemma PartialCommand_t2 b : guarded n (@emits St _ _) _ (PartialCommand_layout b) (PartialCommandMarshaller.tightMarshal2 b) tt.
Proof. unfold PartialCommand_layout. apply codec_catch. statements. by refine (g_ret _ _ _ _). Qed.
Lemma PartialCommand_tu b b0 : guarded n (@parses St _ _) _ (PartialCommand_layout b) (PartialCommandMarshaller.tightUnmarshal b0) b.
Proof. unfold PartialCommand_layout. apply codec_catch. statements. refine (g_ret _ _ _ _). by destruct b. Qed.
Lemma PartialCommand_lm b : guarded n (@emitsL St _ _) _ (PartialCommand_layout b) (PartialCommandMarshaller.looseMarshal b) tt.
Proof. unfold PartialCommand_layout. apply codec_catch. statements. by refine (g_ret _ _ _ _). Qed.
Lemma PartialCommand_lu b b0 : guarded n (@parsesL St _ _) _ (PartialCommand_layout b) (PartialCommandMarshaller.looseUnmarshal b0) b.
Proof. unfold PartialCommand_layout. apply codec_catch. statements. refine (g_ret _ _ _ _). by destruct b. Qed.
End PartialCommandLaws.
#[export] Hint Resolve PartialCommand_t1 PartialCommand_t2 PartialCommand_tu PartialCommand_lm PartialCommand_lu : marshal.

Module LastPartialCommandMarshaller.
Section Code.
Context `{Platform} `{WireOptions} {St : Type} `{InputStream St} `{!WireFormat St}.
Import BaseDataStreamMarshaller NestedObjects.

Definition tightUnmarshal (info : LastPartialCommand.t) : M (io St) (LastPartialCommand.t) :=
  catch_io (
    let* base := PartialCommandMarshaller.tightUnmarshal (LastPartialCommand.base info) in
    ret {| LastPartialCommand.base := base |}).

Definition looseUnmarshal (info : LastPartialCommand.t) : M (io St) (LastPartialCommand.t) :=
  catch_io (
    let* base := PartialCommandMarshaller.looseUnmarshal (LastPartialCommand.base info) in
    ret {| LastPartialCommand.base := base |}).

Definition tightMarshal1 (info : LastPartialCommand.t) : M (io St) Z :=
  catch_io (
    let* rc := PartialCommandMarshaller.tightMarshal1 (LastPartialCommand.base info) in
    ret (rc + 0)).

Definition tightMarshal2 (info : LastPartialCommand.t) : M (io St) unit :=
  catch_io (
    PartialCommandMarshaller.tightMarshal2 (LastPartialCommand.base info) ;;;
    ret ()).

Definition looseMarshal (info : LastPartialCommand.t) : M (io St) unit :=
  catch_io (
    PartialCommandMarshaller.looseMarshal (LastPartialCommand.base info) ;;;
    ret ()).

End Code.
End LastPartialCommandMarshaller.

Module MessageAckMarshaller.
Section Code.
Context `{Platform} `{WireOptions} {St : Type} `{InputStream St} `{!WireFormat St}.
Import BaseDataStreamMarshaller NestedObjects.

Definition tightUnmarshal (info : MessageAck.t) : M (io St) (MessageAck.t) :=
  catch_io (
    let* base := BaseCommandMarshaller.tightUnmarshal (MessageAck.base info) in
    let* destination := cast as_ActiveMQDestination tightUnmarshalCachedObject in
    let* transactionId := cast as_TransactionId tightUnmarshalCachedObject in
    let* consumerId := cast as_ConsumerId tightUnmarshalCachedObject in
    let* ackType := readUByte in
    let* firstMessageId := cast as_MessageId tightUnmarshalNestedObject in
    let* lastMessageId := cast as_MessageId tightUnmarshalNestedObject in
    let* messageCount := dataIn DataInputStream.readInt in
    let* poisonCause := (if 7 <=? wireVersion then tightUnmarshalBrokerError wf_fuel stackTraceEnabled else ret (MessageAck.poisonCause info)) in
    ret {| MessageAck.base := base; MessageAck.destination := destination;
      MessageAck.transactionId := transactionId; MessageAck.consumerId := consumerId;
      MessageAck.ackType := ackType; MessageAck.firstMessageId := firstMessageId;
      MessageAck.lastMessageId := lastMessageId; MessageAck.messageCount := messageCount;
      MessageAck.poisonCause := poisonCause |}).

Definition looseUnmarshal (info : MessageAck.t) : M (io St) (MessageAck.t) :=
  catch_io (
    let* base := BaseCommandMarshaller.looseUnmarshal (MessageAck.base info) in
    let* destination := cast as_ActiveMQDestination looseUnmarshalCachedObject in
    let* transactionId := cast as_TransactionId looseUnmarshalCachedObject in
    let* consumerId := cast as_ConsumerId looseUnmarshalCachedObject in
    let* ackType := readUByte in
    let* firstMessageId := cast as_MessageId looseUnmarshalNestedObject in
    let* lastMessageId := cast as_MessageId looseUnmarshalNestedObject in
    let* messageCount := dataIn DataInputStream.readInt in
    let* poisonCause := (if 7 <=? wireVersion then looseUnmarshalBrokerError wf_fuel stackTraceEnabled else ret (MessageAck.poisonCause info)) in
    ret {| MessageAck.base := base; MessageAck.destination := destination;
      MessageAck.transactionId := transactionId; MessageAck.consumerId := consumerId;
      MessageAck.ackType := ackType; MessageAck.firstMessageId := firstMessageId;
      MessageAck.lastMessageId := lastMessageId; MessageAck.messageCount := messageCount;
      MessageAck.poisonCause := poisonCause |}).

Definition tightMarshal1 (info : MessageAck.t) : M (io St) Z :=
  catch_io (
    let* rc := BaseCommandMarshaller.tightMarshal1 (MessageAck.base info) in
    let* rc := add_rc rc (tightMarshalCachedObject1 (option_map DDestination (MessageAck.destination info))) in
    let* rc := add_rc rc (tightMarshalCachedObject1 (option_map DTransactionId (MessageAck.transactionId info))) in
    let* rc := add_rc rc (tightMarshalCachedObject1 (option_map DConsumerId (MessageAck.consumerId info))) in
    let* rc := add_rc rc (tightMarshalNestedObject1 (option_map DMessageId (MessageAck.firstMessageId info))) in
    let* rc := add_rc rc (tightMarshalNestedObject1 (option_map DMessageId (MessageAck.lastMessageId info))) in
    let* rc := (if 7 <=? wireVersion then add_rc rc (tightMarshalBrokerError1 stackTraceEnabled (MessageAck.poisonCause info)) else ret rc) in
    ret (rc + 5)).

Definition tightMarshal2 (info : MessageAck.t) : M (io St) unit :=
  catch_io (
    BaseCommandMarshaller.tightMarshal2 (MessageAck.base info) ;;;
    tightMarshalCachedObject2 (option_map DDestination (MessageAck.destination info)) ;;;
    tightMarshalCachedObject2 (option_map DTransactionId (MessageAck.transactionId info)) ;;;
    tightMarshalCachedObject2 (option_map DConsumerId (MessageAck.consumerId info)) ;;;
    dataOut (DataOutputStream.write (MessageAck.ackType info)) ;;;
    tightMarshalNestedObject2 (option_map DMessageId (MessageAck.firstMessageId info)) ;;;
    tightMarshalNestedObject2 (option_map DMessageId (MessageAck.lastMessageId info)) ;;;
    dataOut (DataOutputStream.writeInt (MessageAck.messageCount info)) ;;;
    (if 7 <=? wireVersion then tightMarshalBrokerError2 stackTraceEnabled (MessageAck.poisonCause info) else ret ()) ;;;
    ret ()).

Definition looseMarshal (info : MessageAck.t) : M (io St) unit :=
  catch_io (
    BaseCommandMarshaller.looseMarshal (MessageAck.base info) ;;;
    looseMarshalCachedObject (option_map DDestination (MessageAck.destination info)) ;;;
    looseMarshalCachedObject (option_map DTransactionId (MessageAck.transactionId info)) ;;;
    looseMarshalCachedObject (option_map DConsumerId (MessageAck.consumerId info)) ;;;
    dataOut (DataOutputStream.write (MessageAck.ackType info)) ;;;
    looseMarshalNestedObject (option_map DMessageId (MessageAck.firstMessageId info)) ;;;
    looseMarshalNestedObject (option_map DMessageId (MessageAck.lastMessageId info)) ;;;
    dataOut (DataOutputStream.writeInt (MessageAck.messageCount info)) ;;;
    (if 7 <=? wireVersion then looseMarshalBrokerError stackTraceEnabled (MessageAck.poisonCause info) else ret ()) ;;;
    ret ()).

End Code.
End MessageAckMarshaller.

Module MessageDispatchNotificationMarshaller.
Section Code.
Context `{Platform} `{WireOptions} {St : Type} `{InputStream St} `{!WireFormat St}.
Import BaseDataStreamMarshaller NestedObjects.

Definition tightUnmarshal (info : MessageDispatchNotification.t) : M (io St) (MessageDispatchNotification.t) :=
  catch_io (
    let* base := BaseCommandMarshaller.tightUnmarshal (MessageDispatchNotification.base info) in
    let* consumerId := cast as_ConsumerId tightUnmarshalCachedObject in
    let* destination := cast as_ActiveMQDestination tightUnmarshalCachedObject in
    let* deliverySequenceId := tightUnmarshalLong in
    let* messageId := cast as_MessageId tightUnmarshalNestedObject in
    ret {| MessageDispatchNotification.base := base; MessageDispatchNotification.consumerId
      := consumerId; MessageDispatchNotification.destination := destination;
      MessageDispatchNotification.deliverySequenceId := deliverySequenceId;
      MessageDispatchNotification.messageId := messageId |}).

Definition looseUnmarshal (info : MessageDispatchNotification.t) : M (io St) (MessageDispatchNotification.t) :=
  catch_io (
    let* base := BaseCommandMarshaller.looseUnmarshal (MessageDispatchNotification.base info) in
    let* consumerId := cast as_ConsumerId looseUnmarshalCachedObject in
    let* destination := cast as_ActiveMQDestination looseUnmarshalCachedObject in
    let* deliverySequenceId := looseUnmarshalLong in
    let* messageId := cast as_MessageId looseUnmarshalNestedObject in
    ret {| MessageDispatchNotification.base := base; MessageDispatchNotification.consumerId
      := consumerId; MessageDispatchNotification.destination := destination;
      MessageDispatchNotification.deliverySequenceId := deliverySequenceId;
      MessageDispatchNotification.messageId := messageId |}).

Definition tightMarshal1 (info : MessageDispatchNotification.t) : M (io St) Z :=
  catch_io (
    let* rc := BaseCommandMarshaller.tightMarshal1 (MessageDispatchNotification.base info) in
    let* rc := add_rc rc (tightMarshalCachedObject1 (option_map DConsumerId (MessageDispatchNotification.consumerId info))) in
    let* rc := add_rc rc (tightMarshalCachedObject1 (option_map DDestination (MessageDispatchNotification.destination info))) in
    let* rc := add_rc rc (tightMarshalLong1 (MessageDispatchNotification.deliverySequenceId info)) in
    let* rc := add_rc rc (tightMarshalNestedObject1 (option_map DMessageId (MessageDispatchNotification.messageId info))) in
    ret (rc + 0)).

Definition tightMarshal2 (info : MessageDispatchNotification.t) : M (io St) unit :=
  catch_io (
    BaseCommandMarshaller.tightMarshal2 (MessageDispatchNotification.base info) ;;;
    tightMarshalCachedObject2 (option_map DConsumerId (MessageDispatchNotification.consumerId info)) ;;;
    tightMarshalCachedObject2 (option_map DDestination (MessageDispatchNotification.destination info)) ;;;
    tightMarshalLong2 (MessageDispatchNotification.deliverySequenceId info) ;;;
    tightMarshalNestedObject2 (option_map DMessageId (MessageDispatchNotification.messageId info)) ;;;
    ret ()).

Definition looseMarshal (info : MessageDispatchNotification.t) : M (io St) unit :=
  catch_io (
    BaseCommandMarshaller.looseMarshal (MessageDispatchNotification.base info) ;;;
    looseMarshalCachedObject (option_map DConsumerId (MessageDispatchNotification.consumerId info)) ;;;
    looseMarshalCachedObject (option_map DDestination (MessageDispatchNotification.destination info)) ;;;
    looseMarshalLong (MessageDispatchNotification.deliverySequenceId info) ;;;
    looseMarshalNestedObject (option_map DMessageId (MessageDispatchNotification.messageId info)) ;;;
    ret ()).

End Code.
End MessageDispatchNotificationMarshaller.

Module MessagePullMarshaller.
Section Code.
Context `{Platform} `{WireOptions} {St : Type} `{InputStream St} `{!WireFormat St}.
Import BaseDataStreamMarshaller NestedObjects.

Definition tightUnmarshal (info : MessagePull.t) : M (io St) (MessagePull.t) :=
  catch_io (
    let* base := BaseCommandMarshaller.tightUnmarshal (MessagePull.base info) in
    let* consumerId := cast as_ConsumerId tightUnmarshalCachedObject in
    let* destination := cast as_ActiveMQDestination tightUnmarshalCachedObject in
    let* timeout := tightUnmarshalLong in
    let* correlationId := (if 3 <=? wireVersion then tightUnmarshalString else ret (MessagePull.correlationId info)) in
    let* messageId := (if 3 <=? wireVersion then cast as_MessageId tightUnmarshalNestedObject else ret (MessagePull.messageId info)) in
    ret {| MessagePull.base := base; MessagePull.consumerId := consumerId;
      MessagePull.destination := destination; MessagePull.timeout := timeout;
      MessagePull.correlationId := correlationId; MessagePull.messageId := messageId |}).

Definition looseUnmarshal (info : MessagePull.t) : M (io St) (MessagePull.t) :=
  catch_io (
    let* base := BaseCommandMarshaller.looseUnmarshal (MessagePull.base info) in
    let* consumerId := cast as_ConsumerId looseUnmarshalCachedObject in
    let* destination := cast as_ActiveMQDestination looseUnmarshalCachedObject in
    let* timeout := looseUnmarshalLong in
    let* correlationId := (if 3 <=? wireVersion then looseUnmarshalString else ret (MessagePull.correlationId info)) in
    let* messageId := (if 3 <=? wireVersion then cast as_MessageId looseUnmarshalNestedObject else ret (MessagePull.messageId info)) in
    ret {| MessagePull.base := base; MessagePull.consumerId := consumerId;
      MessagePull.destination := destination; MessagePull.timeout := timeout;
      MessagePull.correlationId := correlationId; MessagePull.messageId := messageId |}).

Definition tightMarshal1 (info : MessagePull.t) : M (io St) Z :=
  catch_io (
    let* rc := BaseCommandMarshaller.tightMarshal1 (MessagePull.base info) in
    let* rc := add_rc rc (tightMarshalCachedObject1 (option_map DConsumerId (MessagePull.consumerId info))) in
    let* rc := add_rc rc (tightMarshalCachedObject1 (option_map DDestination (MessagePull.destination info))) in
    let* rc := add_rc rc (tightMarshalLong1 (MessagePull.timeout info)) in
    let* rc := (if 3 <=? wireVersion then add_rc rc (tightMarshalString1 (MessagePull.correlationId info)) else ret rc) in
    let* rc := (if 3 <=? wireVersion then add_rc rc (tightMarshalNestedObject1 (option_map DMessageId (MessagePull.messageId info))) else ret rc) in
    ret (rc + 0)).

Definition tightMarshal2 (info : MessagePull.t) : M (io St) unit :=
  catch_io (
    BaseCommandMarshaller.tightMarshal2 (MessagePull.base info) ;;;
    tightMarshalCachedObject2 (option_map DConsumerId (MessagePull.consumerId info)) ;;;
    tightMarshalCachedObject2 (option_map DDestination (MessagePull.destination info)) ;;;
    tightMarshalLong2 (MessagePull.timeout info) ;;;
    (if 3 <=? wireVersion then tightMarshalString2 (MessagePull.correlationId info) else ret ()) ;;;
    (if 3 <=? wireVersion then tightMarshalNestedObject2 (option_map DMessageId (MessagePull.messageId info)) else ret ()) ;;;
    ret ()).

Definition looseMarshal (info : MessagePull.t) : M (io St) unit :=
  catch_io (
    BaseCommandMarshaller.looseMarshal (MessagePull.base info) ;;;
    looseMarshalCachedObject (option_map DConsumerId (MessagePull.consumerId info)) ;;;
    looseMarshalCachedObject (option_map DDestination (MessagePull.destination info)) ;;;
    looseMarshalLong (MessagePull.timeout info) ;;;
    (if 3 <=? wireVersion then looseMarshalString (MessagePull.correlationId info) else ret ()) ;;;
    (if 3 <=? wireVersion then looseMarshalNestedObject (option_map DMessageId (MessagePull.messageId info)) else ret ()) ;;;
    ret ()).

End Code.
End MessagePullMarshaller.

Module JournalQueueAckMarshaller.
Section Code.
Context `{Platform} `{WireOptions} {St : Type} `{InputStream St} `{!WireFormat St}.
Import BaseDataStreamMarshaller NestedObjects.

Definition tightUnmarshal (info : JournalQueueAck.t) : M (io St) (JournalQueueAck.t) :=
  catch_io (
    let* destination := cast as_ActiveMQDestination tightUnmarshalNestedObject in
    let* messageAck := cast as_MessageAck tightUnmarshalNestedObject in
    ret {| JournalQueueAck.destination := destination; JournalQueueAck.messageAck :=
      messageAck |}).

Definition looseUnmarshal (info : JournalQueueAck.t) : M (io St) (JournalQueueAck.t) :=
  catch_io (
    let* destination := cast as_ActiveMQDestination looseUnmarshalNestedObject in
    let* messageAck := cast as_MessageAck looseUnmarshalNestedObject in
    ret {| JournalQueueAck.destination := destination; JournalQueueAck.messageAck :=
      messageAck |}).

Definition tightMarshal1 (info : JournalQueueAck.t) : M (io St) Z :=
  catch_io (
    let* rc := NestedObjects.tightMarshal1 in
    let* rc := add_rc rc (tightMarshalNestedObject1 (option_map DDestination (JournalQueueAck.destination info))) in
    let* rc := add_rc rc (tightMarshalNestedObject1 (option_map DMessageAck (JournalQueueAck.messageAck info))) in
    ret (rc + 0)).

Definition tightMarshal2 (info : JournalQueueAck.t) : M (io St) unit :=
  catch_io (
    tightMarshalNestedObject2 (option_map DDestination (JournalQueueAck.destination info)) ;;;
    tightMarshalNestedObject2 (option_map DMessageAck (JournalQueueAck.messageAck info)) ;;;
    ret ()).

Definition looseMarshal (info : JournalQueueAck.t) : M (io St) unit :=
  catch_io (
    looseMarshalNestedObject (option_map DDestination (JournalQueueAck.destination info)) ;;;
    looseMarshalNestedObject (option_map DMessageAck (JournalQueueAck.messageAck info)) ;;;
    ret ()).

End Code.
End JournalQueueAckMarshaller.

Module JournalTopicAckMarshaller.
Section Code.
Context `{Platform} `{WireOptions} {St : Type} `{InputStream St} `{!WireFormat St}.
Import BaseDataStreamMarshaller NestedObjects.

Definition tightUnmarshal (info : JournalTopicAck.t) : M (io St) (JournalTopicAck.t) :=
  catch_io (
    let* destination := cast as_ActiveMQDestination tightUnmarshalNestedObject in
    let* messageId := cast as_MessageId tightUnmarshalNestedObject in
    let* messageSequenceId := tightUnmarshalLong in
    let* subscritionName := tightUnmarshalString in
    let* clientId := tightUnmarshalString in
    let* transactionId := cast as_TransactionId tightUnmarshalNestedObject in
    ret {| JournalTopicAck.destination := destination; JournalTopicAck.messageId :=
      messageId; JournalTopicAck.messageSequenceId := messageSequenceId;
      JournalTopicAck.subscritionName := subscritionName; JournalTopicAck.clientId :=
      clientId; JournalTopicAck.transactionId := transactionId |}).

Definition looseUnmarshal (info : JournalTopicAck.t) : M (io St) (JournalTopicAck.t) :=
  catch_io (
    let* destination := cast as_ActiveMQDestination looseUnmarshalNestedObject in
    let* messageId := cast as_MessageId looseUnmarshalNestedObject in
    let* messageSequenceId := looseUnmarshalLong in
    let* subscritionName := looseUnmarshalString in
    let* clientId := looseUnmarshalString in
    let* transactionId := cast as_TransactionId looseUnmarshalNestedObject in
    ret {| JournalTopicAck.destination := destination; JournalTopicAck.messageId :=
      messageId; JournalTopicAck.messageSequenceId := messageSequenceId;
      JournalTopicAck.subscritionName := subscritionName; JournalTopicAck.clientId :=
      clientId; JournalTopicAck.transactionId := transactionId |}).

Definition tightMarshal1 (info : JournalTopicAck.t) : M (io St) Z :=
  catch_io (
    let* rc := NestedObjects.tightMarshal1 in
    let* rc := add_rc rc (tightMarshalNestedObject1 (option_map DDestination (JournalTopicAck.destination info))) in
    let* rc := add_rc rc (tightMarshalNestedObject1 (option_map DMessageId (JournalTopicAck.messageId info))) in
    let* rc := add_rc rc (tightMarshalLong1 (JournalTopicAck.messageSequenceId info)) in
    let* rc := add_rc rc (tightMarshalString1 (JournalTopicAck.subscritionName info)) in
    let* rc := add_rc rc (tightMarshalString1 (JournalTopicAck.clientId info)) in
    let* rc := add_rc rc (tightMarshalNestedObject1 (option_map DTransactionId (JournalTopicAck.transactionId info))) in
    ret (rc + 0)).

Definition tightMarshal2 (info : JournalTopicAck.t) : M (io St) unit :=
  catch_io (
    tightMarshalNestedObject2 (option_map DDestination (JournalTopicAck.destination info)) ;;;
    tightMarshalNestedObject2 (option_map DMessageId (JournalTopicAck.messageId info)) ;;;
    tightMarshalLong2 (JournalTopicAck.messageSequenceId info) ;;;
    tightMarshalString2 (JournalTopicAck.subscritionName info) ;;;
    tightMarshalString2 (JournalTopicAck.clientId info) ;;;
    tightMarshalNestedObject2 (option_map DTransactionId (JournalTopicAck.transactionId info)) ;;;
    ret ()).

Definition looseMarshal (info : JournalTopicAck.t) : M (io St) unit :=
  catch_io (
    looseMarshalNestedObject (option_map DDestination (JournalTopicAck.destination info)) ;;;
    looseMarshalNestedObject (option_map DMessageId (JournalTopicAck.messageId info)) ;;;
    looseMarshalLong (JournalTopicAck.messageSequenceId info) ;;;
    looseMarshalString (JournalTopicAck.subscritionName info) ;;;
    looseMarshalString (JournalTopicAck.clientId info) ;;;
    looseMarshalNestedObject (option_map DTransactionId (JournalTopicAck.transactionId info)) ;;;
    ret ()).

End Code.
End JournalTopicAckMarshaller.

Module JournalTraceMarshaller.
Section Code.
Context `{Platform} `{WireOptions} {St : Type} `{InputStream St} `{!WireFormat St}.
Import BaseDataStreamMarshaller NestedObjects.

Definition tightUnmarshal (info : JournalTrace.t) : M (io St) (JournalTrace.t) :=
  catch_io (
    let* message := tightUnmarshalString in
    ret {| JournalTrace.message := message |}).

Definition looseUnmarshal (info : JournalTrace.t) : M (io St) (JournalTrace.t) :=
  catch_io (
    let* message := looseUnmarshalString in
    ret {| JournalTrace.message := message |}).

Definition tightMarshal1 (info : JournalTrace.t) : M (io St) Z :=
  catch_io (
    let* rc := NestedObjects.tightMarshal1 in
    let* rc := add_rc rc (tightMarshalString1 (JournalTrace.message info)) in
    ret (rc + 0)).

Definition tightMarshal2 (info : JournalTrace.t) : M (io St) unit :=
  catch_io (
    tightMarshalString2 (JournalTrace.message info) ;;;
    ret ()).

Definition looseMarshal (info : JournalTrace.t) : M (io St) unit :=
  catch_io (
    looseMarshalString (JournalTrace.message info) ;;;
    ret ()).

End Code.
End JournalTraceMarshaller.

Module JournalTransactionMarshaller.
Section Code.
Context `{Platform} `{WireOptions} {St : Type} `{InputStream St} `{!WireFormat St}.
Import BaseDataStreamMarshaller NestedObjects.

Definition tightUnmarshal (info : JournalTransaction.t) : M (io St) (JournalTransaction.t) :=
  catch_io (
    let* transactionId := cast as_TransactionId tightUnmarshalNestedObject in
    let* type := readUByte in
    let* wasPrepared := bs BooleanStream.readBoolean in
    ret {| JournalTransaction.transactionId := transactionId; JournalTransaction.type :=
      type; JournalTransaction.wasPrepared := wasPrepared |}).

Definition looseUnmarshal (info : JournalTransaction.t) : M (io St) (JournalTransaction.t) :=
  catch_io (
    let* transactionId := cast as_TransactionId looseUnmarshalNestedObject in
    let* type := readUByte in
    let* wasPrepared := dataIn DataInputStream.readBoolean in
    ret {| JournalTransaction.transactionId := transactionId; JournalTransaction.type :=
      type; JournalTransaction.wasPrepared := wasPrepared |}).

Definition tightMarshal1 (info : JournalTransaction.t) : M (io St) Z :=
  catch_io (
    let* rc := NestedObjects.tightMarshal1 in
    let* rc := add_rc rc (tightMarshalNestedObject1 (option_map DTransactionId (JournalTransaction.transactionId info))) in
    bs (BooleanStream.writeBoolean (JournalTransaction.wasPrepared info)) ;;;
    ret (rc + 1)).

Definition tightMarshal2 (info : JournalTransaction.t) : M (io St) unit :=
  catch_io (
    tightMarshalNestedObject2 (option_map DTransactionId (JournalTransaction.transactionId info)) ;;;
    dataOut (DataOutputStream.write (JournalTransaction.type info)) ;;;
    bs BooleanStream.readBoolean ;;;
    ret ()).

Definition looseMarshal (info : JournalTransaction.t) : M (io St) unit :=
  catch_io (
    looseMarshalNestedObject (option_map DTransactionId (JournalTransaction.transactionId info)) ;;;
    dataOut (DataOutputStream.write (JournalTransaction.type info)) ;;;
    dataOut (DataOutputStream.writeBoolean (JournalTransaction.wasPrepared info)) ;;;
    ret ()).

End Code.
End JournalTransactionMarshaller.

Module RemoveInfoMarshaller.
Section Code.
Context `{Platform} `{WireOptions} {St : Type} `{InputStream St} `{!WireFormat St}.
Import BaseDataStreamMarshaller NestedObjects.

Definition tightUnmarshal (info : RemoveInfo.t DataStructure) : M (io St) (RemoveInfo.t DataStructure) :=
  catch_io (
    let* base := BaseCommandMarshaller.tightUnmarshal (RemoveInfo.base info) in
    let* objectId := cast as_DataStructure tightUnmarshalCachedObject in
    let* lastDeliveredSequenceId := (if 5 <=? wireVersion then tightUnmarshalLong else ret (RemoveInfo.lastDeliveredSequenceId info)) in
    ret {| RemoveInfo.base := base; RemoveInfo.objectId := objectId;
      RemoveInfo.lastDeliveredSequenceId := lastDeliveredSequenceId |}).

Definition looseUnmarshal (info : RemoveInfo.t DataStructure) : M (io St) (RemoveInfo.t DataStructure) :=
  catch_io (
    let* base := BaseCommandMarshaller.looseUnmarshal (RemoveInfo.base info) in
    let* objectId := cast as_DataStructure looseUnmarshalCachedObject in
    let* lastDeliveredSequenceId := (if 5 <=? wireVersion then looseUnmarshalLong else ret (RemoveInfo.lastDeliveredSequenceId info)) in
    ret {| RemoveInfo.base := base; RemoveInfo.objectId := objectId;
      RemoveInfo.lastDeliveredSequenceId := lastDeliveredSequenceId |}).

Definition tightMarshal1 (info : RemoveInfo.t DataStructure) : M (io St) Z :=
  catch_io (
    let* rc := BaseCommandMarshaller.tightMarshal1 (RemoveInfo.base info) in
    let* rc := add_rc rc (tightMarshalCachedObject1 (RemoveInfo.objectId info)) in
    let* rc := (if 5 <=? wireVersion then add_rc rc (tightMarshalLong1 (RemoveInfo.lastDeliveredSequenceId info)) else ret rc) in
    ret (rc + 0)).

Definition tightMarshal2 (info : RemoveInfo.t DataStructure) : M (io St) unit :=
  catch_io (
    BaseCommandMarshaller.tightMarshal2 (RemoveInfo.base info) ;;;
    tightMarshalCachedObject2 (RemoveInfo.objectId info) ;;;
    (if 5 <=? wireVersion then tightMarshalLong2 (RemoveInfo.lastDeliveredSequenceId info) else ret ()) ;;;
    ret ()).

Definition looseMarshal (info : RemoveInfo.t DataStructure) : M (io St) unit :=
  catch_io (
    BaseCommandMarshaller.looseMarshal (RemoveInfo.base info) ;;;
    looseMarshalCachedObject (RemoveInfo.objectId info) ;;;
    (if 5 <=? wireVersion then looseMarshalLong (RemoveInfo.lastDeliveredSequenceId info) else ret ()) ;;;
    ret ()).

End Code.
End RemoveInfoMarshaller.

(** ** The laws *)
Section Laws.
Context {St : Type} `{InputStreamLaws St} (n : nat).
Context `{Platform} `{WireOptions} `{!WireFormat St} `{!WireFormatLaws n}.
Lemma Response_implements info :
  implements n (Response_layout info) info (ResponseMarshaller.tightMarshal1 info) (ResponseMarshaller.tightMarshal2 info)
    (ResponseMarshaller.tightUnmarshal Response.default) (ResponseMarshaller.looseMarshal info) (ResponseMarshaller.looseUnmarshal Response.default).
Proof. unfold Response_layout. implement_with ltac:(by destruct info). Qed.

Lemma DataArrayResponse_implements info o : mutate_list mutate (DataArrayResponse.data info) = Ok o ->
  let info' := {| DataArrayResponse.base := DataArrayResponse.base info; DataArrayResponse.data := o |} in
  implements n (DataArrayResponse_layout nest info') {| DataArrayResponse.base := DataArrayResponse.base info; DataArrayResponse.data := map (option_map arrived) o |}
    (DataArrayResponseMarshaller.tightMarshal1 info) (DataArrayResponseMarshaller.tightMarshal2 info')
    (DataArrayResponseMarshaller.tightUnmarshal DataArrayResponse.default) (DataArrayResponseMarshaller.looseMarshal info) (DataArrayResponseMarshaller.looseUnmarshal DataArrayResponse.default).
Proof. intros Ho. unfold DataArrayResponse_layout. cbn [DataArrayResponse.base DataArrayResponse.data]. implement_with ltac:(reflexivity). Qed.

Lemma DataResponse_implements info o : mutate_option mutate (DataResponse.data info) = Ok o ->
  let info' := {| DataResponse.base := DataResponse.base info; DataResponse.data := o |} in
  implements n (DataResponse_layout nest info') {| DataResponse.base := DataResponse.base info; DataResponse.data := option_map arrived o |}
    (DataResponseMarshaller.tightMarshal1 info) (DataResponseMarshaller.tightMarshal2 info')
    (DataResponseMarshaller.tightUnmarshal DataResponse.default) (DataResponseMarshaller.looseMarshal info) (DataResponseMarshaller.looseUnmarshal DataResponse.default).
Proof. intros Ho. unfold DataResponse_layout. cbn [DataResponse.base DataResponse.data]. implement_with ltac:(reflexivity). Qed.

Lemma ExceptionResponse_implements info :
  implements n (ExceptionResponse_layout info) info (ExceptionResponseMarshaller.tightMarshal1 info) (ExceptionResponseMarshaller.tightMarshal2 info)
    (ExceptionResponseMarshaller.tightUnmarshal ExceptionResponse.default) (ExceptionResponseMarshaller.looseMarshal info) (ExceptionResponseMarshaller.looseUnmarshal ExceptionResponse.default).
Proof. unfold ExceptionResponse_layout. implement_with ltac:(by destruct info). Qed.

Lemma IntegerResponse_implements info :
  implements n (IntegerResponse_layout info) info (IntegerResponseMarshaller.tightMarshal1 info) (IntegerResponseMarshaller.tightMarshal2 info)
    (IntegerResponseMarshaller.tightUnmarshal IntegerResponse.default) (IntegerResponseMarshaller.looseMarshal info) (IntegerResponseMarshaller.looseUnmarshal IntegerResponse.default).
Proof. unfold IntegerResponse_layout. implement_with ltac:(by destruct info). Qed.

Lemma PartialCommand_implements info :
  implements n (PartialCommand_layout info) info (PartialCommandMarshaller.tightMarshal1 info) (PartialCommandMarshaller.tightMarshal2 info)
    (PartialCommandMarshaller.tightUnmarshal PartialCommand.default) (PartialCommandMarshaller.looseMarshal info) (PartialCommandMarshaller.looseUnmarshal PartialCommand.default).
Proof. unfold PartialCommand_layout. implement_with ltac:(by destruct info). Qed.

Lemma LastPartialCommand_implements info :
  implements n (LastPartialCommand_layout info) info (LastPartialCommandMarshaller.tightMarshal1 info) (LastPartialCommandMarshaller.tightMarshal2 info)
    (LastPartialCommandMarshaller.tightUnmarshal LastPartialCommand.default) (LastPartialCommandMarshaller.looseMarshal info) (LastPartialCommandMarshaller.looseUnmarshal LastPartialCommand.default).
Proof. unfold LastPartialCommand_layout. implement_with ltac:(by destruct info). Qed.

Lemma MessageAck_implements info :
  implements n (MessageAck_layout info) info (MessageAckMarshaller.tightMarshal1 info) (MessageAckMarshaller.tightMarshal2 info)
    (MessageAckMarshaller.tightUnmarshal MessageAck.default) (MessageAckMarshaller.looseMarshal info) (MessageAckMarshaller.looseUnmarshal MessageAck.default).
Proof. unfold MessageAck_layout. implement_with ltac:(by destruct info). Qed.

Lemma MessageDispatchNotification_implements info :
  implements n (MessageDispatchNotification_layout info) info (MessageDispatchNotificationMarshaller.tightMarshal1 info) (MessageDispatchNotificationMarshaller.tightMarshal2 info)
    (MessageDispatchNotificationMarshaller.tightUnmarshal MessageDispatchNotification.default) (MessageDispatchNotificationMarshaller.looseMarshal info) (MessageDispatchNotificationMarshaller.looseUnmarshal MessageDispatchNotification.default).
Proof. unfold MessageDispatchNotification_layout. implement_with ltac:(by destruct info). Qed.

Lemma MessagePull_implements info :
  implements n (MessagePull_layout info) info (MessagePullMarshaller.tightMarshal1 info) (MessagePullMarshaller.tightMarshal2 info)
    (MessagePullMarshaller.tightUnmarshal MessagePull.default) (MessagePullMarshaller.looseMarshal info) (MessagePullMarshaller.looseUnmarshal MessagePull.default).
Proof. unfold MessagePull_layout. implement_with ltac:(by destruct info). Qed.

Lemma JournalQueueAck_implements info :
  implements n (JournalQueueAck_layout info) info (JournalQueueAckMarshaller.tightMarshal1 info) (JournalQueueAckMarshaller.tightMarshal2 info)
    (JournalQueueAckMarshaller.tightUnmarshal JournalQueueAck.default) (JournalQueueAckMarshaller.looseMarshal info) (JournalQueueAckMarshaller.looseUnmarshal JournalQueueAck.default).
Proof. unfold JournalQueueAck_layout. implement_with ltac:(by destruct info). Qed.

Lemma JournalTopicAck_implements info :
  implements n (JournalTopicAck_layout info) info (JournalTopicAckMarshaller.tightMarshal1 info) (JournalTopicAckMarshaller.tightMarshal2 info)
    (JournalTopicAckMarshaller.tightUnmarshal JournalTopicAck.default) (JournalTopicAckMarshaller.looseMarshal info) (JournalTopicAckMarshaller.looseUnmarshal JournalTopicAck.default).
Proof. unfold JournalTopicAck_layout. implement_with ltac:(by destruct info). Qed.

Lemma JournalTrace_implements info :
  implements n (JournalTrace_layout info) info (JournalTraceMarshaller.tightMarshal1 info) (JournalTraceMarshaller.tightMarshal2 info)
    (JournalTraceMarshaller.tightUnmarshal JournalTrace.default) (JournalTraceMarshaller.looseMarshal info) (JournalTraceMarshaller.looseUnmarshal JournalTrace.default).
Proof. unfold JournalTrace_layout. implement_with ltac:(by destruct info). Qed.

Lemma JournalTransaction_implements info :
  implements n (JournalTransaction_layout info) info (JournalTransactionMarshaller.tightMarshal1 info) (JournalTransactionMarshaller.tightMarshal2 info)
    (JournalTransactionMarshaller.tightUnmarshal JournalTransaction.default) (JournalTransactionMarshaller.looseMarshal info) (JournalTransactionMarshaller.looseUnmarshal JournalTransaction.default).
Proof. unfold JournalTransaction_layout. implement_with ltac:(by destruct info). Qed.

Lemma RemoveInfo_implements info o : mutate_option mutate (RemoveInfo.objectId info) = Ok o ->
  let info' := {| RemoveInfo.base := RemoveInfo.base info; RemoveInfo.objectId := o; RemoveInfo.lastDeliveredSequenceId := RemoveInfo.lastDeliveredSequenceId info |} in
  implements n (RemoveInfo_layout nest info') {| RemoveInfo.base := RemoveInfo.base info; RemoveInfo.objectId := option_map arrived o; RemoveInfo.lastDeliveredSequenceId := RemoveInfo.lastDeliveredSequenceId info |}
    (RemoveInfoMarshaller.tightMarshal1 info) (RemoveInfoMarshaller.tightMarshal2 info')
    (RemoveInfoMarshaller.tightUnmarshal RemoveInfo.default) (RemoveInfoMarshaller.looseMarshal info) (RemoveInfoMarshaller.looseUnmarshal RemoveInfo.default).
Proof. intros Ho. unfold RemoveInfo_layout. cbn [RemoveInfo.base RemoveInfo.objectId RemoveInfo.lastDeliveredSequenceId]. implement_with ltac:(reflexivity). Qed.

End Laws.
