(* ===== verification/MessageMarshallers.v ===== *)
(** * The marshallers of messages and of wire format information

    activemq/wireformat/openwire/marshal/generated: MessageMarshaller and the
    marshallers of the seven concrete message classes, MessageDispatchMarshaller
    and WireFormatInfoMarshaller.  They run the marshalling hooks of the objects:
    [X_implements] relates the object that is handed in with what the hooks make
    of it ([mutate]) and with what the receiver gets ([arrived]). *)

From S2P Require Import Prelude DataStreams PrimitiveTypes Support BooleanStreams Wire BaseMarshaller Commands Layouts MarshallerBase IdMarshallers.

Module MessageMarshaller.
Section Code.
Context `{Platform} `{WireOptions} {St : Type} `{InputStream St} `{!WireFormat St}.
Import BaseDataStreamMarshaller NestedObjects.

Definition tightUnmarshal (info : Message.t DataStructure) : M (io St) (Message.t DataStructure) :=
  catch_io (
    let* base := BaseCommandMarshaller.tightUnmarshal (Message.base info) in
    let* producerId := cast as_ProducerId tightUnmarshalCachedObject in
    let* destination := cast as_ActiveMQDestination tightUnmarshalCachedObject in
    let* transactionId := cast as_TransactionId tightUnmarshalCachedObject in
    let* originalDestination := cast as_ActiveMQDestination tightUnmarshalCachedObject in
    let* messageId := cast as_MessageId tightUnmarshalNestedObject in
    let* originalTransactionId := cast as_TransactionId tightUnmarshalCachedObject in
    let* groupID := tightUnmarshalString in
    let* groupSequence := dataIn DataInputStream.readInt in
    let* correlationId := tightUnmarshalString in
    let* persistent := bs BooleanStream.readBoolean in
    let* expiration := tightUnmarshalLong in
    let* priority := readUByte in
    let* replyTo := cast as_ActiveMQDestination tightUnmarshalNestedObject in
    let* timestamp := tightUnmarshalLong in
    let* type := tightUnmarshalString in
    let* content := tightUnmarshalByteArray in
    let* marshalledProperties := tightUnmarshalByteArray in
    let* dataStructure := cast as_DataStructure tightUnmarshalNestedObject in
    let* targetConsumerId := cast as_ConsumerId tightUnmarshalCachedObject in
    let* compressed := bs BooleanStream.readBoolean in
    let* redeliveryCounter := dataIn DataInputStream.readInt in
    let* brokerPath := tightUnmarshalObjectArray as_BrokerId in
    let* arrival := tightUnmarshalLong in
    let* userID := tightUnmarshalString in
    let* recievedByDFBridge := bs BooleanStream.readBoolean in
    let* droppable := (if 2 <=? wireVersion then bs BooleanStream.readBoolean else ret (Message.droppable info)) in
    let* cluster := (if 3 <=? wireVersion then tightUnmarshalObjectArray as_BrokerId else ret (Message.cluster info)) in
    let* brokerInTime := (if 3 <=? wireVersion then tightUnmarshalLong else ret (Message.brokerInTime info)) in
    let* brokerOutTime := (if 3 <=? wireVersion then tightUnmarshalLong else ret (Message.brokerOutTime info)) in
    let* jMSXGroupFirstForConsumer := (if 10 <=? wireVersion then bs BooleanStream.readBoolean else ret (Message.jMSXGroupFirstForConsumer info)) in
    ret {| Message.messageKind := Message.messageKind info; Message.base := base;
      Message.producerId := producerId; Message.destination := destination;
      Message.transactionId := transactionId; Message.originalDestination :=
      originalDestination; Message.messageId := messageId; Message.originalTransactionId :=
      originalTransactionId; Message.groupID := groupID; Message.groupSequence :=
      groupSequence; Message.correlationId := correlationId; Message.persistent := persistent;
      Message.expiration := expiration; Message.priority := priority; Message.replyTo :=
      replyTo; Message.timestamp := timestamp; Message.type := type; Message.content :=
      content; Message.marshalledProperties := marshalledProperties; Message.dataStructure :=
      dataStructure; Message.targetConsumerId := targetConsumerId; Message.compressed :=
      compressed; Message.redeliveryCounter := redeliveryCounter; Message.brokerPath :=
      brokerPath; Message.arrival := arrival; Message.userID := userID;
      Message.recievedByDFBridge := recievedByDFBridge; Message.droppable := droppable;
      Message.cluster := cluster; Message.brokerInTime := brokerInTime; Message.brokerOutTime
      := brokerOutTime; Message.jMSXGroupFirstForConsumer := jMSXGroupFirstForConsumer;
      Message.properties := Message.properties info; Message.readOnlyBody :=
      Message.readOnlyBody info; Message.connection := Message.connection info |}).

Definition looseUnmarshal (info : Message.t DataStructure) : M (io St) (Message.t DataStructure) :=
  catch_io (
    let* base := BaseCommandMarshaller.looseUnmarshal (Message.base info) in
    let* producerId := cast as_ProducerId looseUnmarshalCachedObject in
    let* destination := cast as_ActiveMQDestination looseUnmarshalCachedObject in
    let* transactionId := cast as_TransactionId looseUnmarshalCachedObject in
    let* originalDestination := cast as_ActiveMQDestination looseUnmarshalCachedObject in
    let* messageId := cast as_MessageId looseUnmarshalNestedObject in
    let* originalTransactionId := cast as_TransactionId looseUnmarshalCachedObject in
    let* groupID := looseUnmarshalString in
    let* groupSequence := dataIn DataInputStream.readInt in
    let* correlationId := looseUnmarshalString in
    let* persistent := dataIn DataInputStream.readBoolean in
    let* expiration := looseUnmarshalLong in
    let* priority := readUByte in
    let* replyTo := cast as_ActiveMQDestination looseUnmarshalNestedObject in
    let* timestamp := looseUnmarshalLong in
    let* type := looseUnmarshalString in
    let* content := looseUnmarshalByteArray in
    let* marshalledProperties := looseUnmarshalByteArray in
    let* dataStructure := cast as_DataStructure looseUnmarshalNestedObject in
    let* targetConsumerId := cast as_ConsumerId looseUnmarshalCachedObject in
    let* compressed := dataIn DataInputStream.readBoolean in
    let* redeliveryCounter := dataIn DataInputStream.readInt in
    let* brokerPath := looseUnmarshalObjectArray as_BrokerId in
    let* arrival := looseUnmarshalLong in
    let* userID := looseUnmarshalString in
    let* recievedByDFBridge := dataIn DataInputStream.readBoolean in
    let* droppable := (if 2 <=? wireVersion then dataIn DataInputStream.readBoolean else ret (Message.droppable info)) in
    let* cluster := (if 3 <=? wireVersion then looseUnmarshalObjectArray as_BrokerId else ret (Message.cluster info)) in
    let* brokerInTime := (if 3 <=? wireVersion then looseUnmarshalLong else ret (Message.brokerInTime info)) in
    let* brokerOutTime := (if 3 <=? wireVersion then looseUnmarshalLong else ret (Message.brokerOutTime info)) in
    let* jMSXGroupFirstForConsumer := (if 10 <=? wireVersion then dataIn DataInputStream.readBoolean else ret (Message.jMSXGroupFirstForConsumer info)) in
    ret {| Message.messageKind := Message.messageKind info; Message.base := base;
      Message.producerId := producerId; Message.destination := destination;
      Message.transactionId := transactionId; Message.originalDestination :=
      originalDestination; Message.messageId := messageId; Message.originalTransactionId :=
      originalTransactionId; Message.groupID := groupID; Message.groupSequence :=
      groupSequence; Message.correlationId := correlationId; Message.persistent := persistent;
      Message.expiration := expiration; Message.priority := priority; Message.replyTo :=
      replyTo; Message.timestamp := timestamp; Message.type := type; Message.content :=
      content; Message.marshalledProperties := marshalledProperties; Message.dataStructure :=
      dataStructure; Message.targetConsumerId := targetConsumerId; Message.compressed :=
      compressed; Message.redeliveryCounter := redeliveryCounter; Message.brokerPath :=
      brokerPath; Message.arrival := arrival; Message.userID := userID;
      Message.recievedByDFBridge := recievedByDFBridge; Message.droppable := droppable;
      Message.cluster := cluster; Message.brokerInTime := brokerInTime; Message.brokerOutTime
      := brokerOutTime; Message.jMSXGroupFirstForConsumer := jMSXGroupFirstForConsumer;
      Message.properties := Message.properties info; Message.readOnlyBody :=
      Message.readOnlyBody info; Message.connection := Message.connection info |}).

Definition tightMarshal1 (info : Message.t DataStructure) : M (io St) Z :=
  catch_io (
    let* rc := BaseCommandMarshaller.tightMarshal1 (Message.base info) in
    let* rc := add_rc rc (tightMarshalCachedObject1 (option_map DProducerId (Message.producerId info))) in
    let* rc := add_rc rc (tightMarshalCachedObject1 (option_map DDestination (Message.destination info))) in
    let* rc := add_rc rc (tightMarshalCachedObject1 (option_map DTransactionId (Message.transactionId info))) in
    let* rc := add_rc rc (tightMarshalCachedObject1 (option_map DDestination (Message.originalDestination info))) in
    let* rc := add_rc rc (tightMarshalNestedObject1 (option_map DMessageId (Message.messageId info))) in
    let* rc := add_rc rc (tightMarshalCachedObject1 (option_map DTransactionId (Message.originalTransactionId info))) in
    let* rc := add_rc rc (tightMarshalString1 (Message.groupID info)) in
    let* rc := add_rc rc (tightMarshalString1 (Message.correlationId info)) in
    bs (BooleanStream.writeBoolean (Message.persistent info)) ;;;
    let* rc := add_rc rc (tightMarshalLong1 (Message.expiration info)) in
    let* rc := add_rc rc (tightMarshalNestedObject1 (option_map DDestination (Message.replyTo info))) in
    let* rc := add_rc rc (tightMarshalLong1 (Message.timestamp info)) in
    let* rc := add_rc rc (tightMarshalString1 (Message.type info)) in
    let* rc := add_rc rc (marshalByteArray1 (Message.content info)) in
    let* rc := add_rc rc (marshalByteArray1 (Message.marshalledProperties info)) in
    let* rc := add_rc rc (tightMarshalNestedObject1 (Message.dataStructure info)) in
    let* rc := add_rc rc (tightMarshalCachedObject1 (option_map DConsumerId (Message.targetConsumerId info))) in
    bs (BooleanStream.writeBoolean (Message.compressed info)) ;;;
    let* rc := add_rc rc (tightMarshalObjectArray1 (map (option_map DBrokerId) (Message.brokerPath info))) in
    let* rc := add_rc rc (tightMarshalLong1 (Message.arrival info)) in
    let* rc := add_rc rc (tightMarshalString1 (Message.userID info)) in
    bs (BooleanStream.writeBoolean (Message.recievedByDFBridge info)) ;;;
    (if 2 <=? wireVersion then bs (BooleanStream.writeBoolean (Message.droppable info)) else ret ()) ;;;
    let* rc := (if 3 <=? wireVersion then add_rc rc (tightMarshalObjectArray1 (map (option_map DBrokerId) (Message.cluster info))) else ret rc) in
    let* rc := (if 3 <=? wireVersion then add_rc rc (tightMarshalLong1 (Message.brokerInTime info)) else ret rc) in
    let* rc := (if 3 <=? wireVersion then add_rc rc (tightMarshalLong1 (Message.brokerOutTime info)) else ret rc) in
    (if 10 <=? wireVersion then bs (BooleanStream.writeBoolean (Message.jMSXGroupFirstForConsumer info)) else ret ()) ;;;
    ret (rc + 9)).

Definition tightMarshal2 (info : Message.t DataStructure) : M (io St) unit :=
  catch_io (
    BaseCommandMarshaller.tightMarshal2 (Message.base info) ;;;
    tightMarshalCachedObject2 (option_map DProducerId (Message.producerId info)) ;;;
    tightMarshalCachedObject2 (option_map DDestination (Message.destination info)) ;;;
    tightMarshalCachedObject2 (option_map DTransactionId (Message.transactionId info)) ;;;
    tightMarshalCachedObject2 (option_map DDestination (Message.originalDestination info)) ;;;
    tightMarshalNestedObject2 (option_map DMessageId (Message.messageId info)) ;;;
    tightMarshalCachedObject2 (option_map DTransactionId (Message.originalTransactionId info)) ;;;
    tightMarshalString2 (Message.groupID info) ;;;
    dataOut (DataOutputStream.writeInt (Message.groupSequence info)) ;;;
    tightMarshalString2 (Message.correlationId info) ;;;
    bs BooleanStream.readBoolean ;;;
    tightMarshalLong2 (Message.expiration info) ;;;
    dataOut (DataOutputStream.write (Message.priority info)) ;;;
    tightMarshalNestedObject2 (option_map DDestination (Message.replyTo info)) ;;;
    tightMarshalLong2 (Message.timestamp info) ;;;
    tightMarshalString2 (Message.type info) ;;;
    marshalByteArray2 (Message.content info) ;;;
    marshalByteArray2 (Message.marshalledProperties info) ;;;
    tightMarshalNestedObject2 (Message.dataStructure info) ;;;
    tightMarshalCachedObject2 (option_map DConsumerId (Message.targetConsumerId info)) ;;;
    bs BooleanStream.readBoolean ;;;
    dataOut (DataOutputStream.writeInt (Message.redeliveryCounter info)) ;;;
    tightMarshalObjectArray2 (map (option_map DBrokerId) (Message.brokerPath info)) ;;;
    tightMarshalLong2 (Message.arrival info) ;;;
    tightMarshalString2 (Message.userID info) ;;;
    bs BooleanStream.readBoolean ;;;
    (if 2 <=? wireVersion then bs BooleanStream.readBoolean ;;; ret () else ret ()) ;;;
    (if 3 <=? wireVersion then tightMarshalObjectArray2 (map (option_map DBrokerId) (Message.cluster info)) else ret ()) ;;;
    (if 3 <=? wireVersion then tightMarshalLong2 (Message.brokerInTime info) else ret ()) ;;;
    (if 3 <=? wireVersion then tightMarshalLong2 (Message.brokerOutTime info) else ret ()) ;;;
    (if 10 <=? wireVersion then bs BooleanStream.readBoolean ;;; ret () else ret ()) ;;;
    ret ()).

Definition looseMarshal (info : Message.t DataStructure) : M (io St) unit :=
  catch_io (
    BaseCommandMarshaller.looseMarshal (Message.base info) ;;;
    looseMarshalCachedObject (option_map DProducerId (Message.producerId info)) ;;;
    looseMarshalCachedObject (option_map DDestination (Message.destination info)) ;;;
    looseMarshalCachedObject (option_map DTransactionId (Message.transactionId info)) ;;;
    looseMarshalCachedObject (option_map DDestination (Message.originalDestination info)) ;;;
    looseMarshalNestedObject (option_map DMessageId (Message.messageId info)) ;;;
    looseMarshalCachedObject (option_map DTransactionId (Message.originalTransactionId info)) ;;;
    looseMarshalString (Message.groupID info) ;;;
    dataOut (DataOutputStream.writeInt (Message.groupSequence info)) ;;;
    looseMarshalString (Message.correlationId info) ;;;
    dataOut (DataOutputStream.writeBoolean (Message.persistent info)) ;;;
    looseMarshalLong (Message.expiration info) ;;;
    dataOut (DataOutputStream.write (Message.priority info)) ;;;
    looseMarshalNestedObject (option_map DDestination (Message.replyTo info)) ;;;
    looseMarshalLong (Message.timestamp info) ;;;
    looseMarshalString (Message.type info) ;;;
    looseMarshalByteArray (Message.content info) ;;;
    looseMarshalByteArray (Message.marshalledProperties info) ;;;
    looseMarshalNestedObject (Message.dataStructure info) ;;;
    looseMarshalCachedObject (option_map DConsumerId (Message.targetConsumerId info)) ;;;
    dataOut (DataOutputStream.writeBoolean (Message.compressed info)) ;;;
    dataOut (DataOutputStream.writeInt (Message.redeliveryCounter info)) ;;;
    looseMarshalObjectArray (map (option_map DBrokerId) (Message.brokerPath info)) ;;;
    looseMarshalLong (Message.arrival info) ;;;
    looseMarshalString (Message.userID info) ;;;
    dataOut (DataOutputStream.writeBoolean (Message.recievedByDFBridge info)) ;;;
    (if 2 <=? wireVersion then dataOut (DataOutputStream.writeBoolean (Message.droppable info)) else ret ()) ;;;
    (if 3 <=? wireVersion then looseMarshalObjectArray (map (option_map DBrokerId) (Message.cluster info)) else ret ()) ;;;
    (if 3 <=? wireVersion then looseMarshalLong (Message.brokerInTime info) else ret ()) ;;;
    (if 3 <=? wireVersion then looseMarshalLong (Message.brokerOutTime info) else ret ()) ;;;
    (if 10 <=? wireVersion then dataOut (DataOutputStream.writeBoolean (Message.jMSXGroupFirstForConsumer info)) else ret ()) ;;;
    ret ()).

End Code.
End MessageMarshaller.

Module ActiveMQMessageMarshaller.
Section Code.
Context `{Platform} `{WireOptions} {St : Type} `{InputStream St} `{!WireFormat St}.

Definition tightUnmarshal (info : Message.t DataStructure) : M (io St) (Message.t DataStructure) :=
  catch_io (
    let* info := MessageMarshaller.tightUnmarshal info in
    lift (Message.afterUnmarshal info)).
Definition looseUnmarshal (info : Message.t DataStructure) : M (io St) (Message.t DataStructure) :=
  catch_io (
    let* info := MessageMarshaller.looseUnmarshal info in
    lift (Message.afterUnmarshal info)).
Definition tightMarshal1 (info : Message.t DataStructure) : M (io St) Z :=
  catch_io (
    let* info := lift (Message.beforeMarshal info) in
    let* rc := MessageMarshaller.tightMarshal1 info in
    ret (rc + 0)).
Definition tightMarshal2 (info : Message.t DataStructure) : M (io St) unit :=
  catch_io (MessageMarshaller.tightMarshal2 info ;;; ret ()).
Definition looseMarshal (info : Message.t DataStructure) : M (io St) unit :=
  catch_io (
    let* info := lift (Message.beforeMarshal info) in
    MessageMarshaller.looseMarshal info ;;;
    ret ()).
End Code.
End ActiveMQMessageMarshaller.

Module ActiveMQBytesMessageMarshaller.
Section Code.
Context `{Platform} `{WireOptions} {St : Type} `{InputStream St} `{!WireFormat St}.

Definition tightUnmarshal (info : Message.t DataStructure) : M (io St) (Message.t DataStructure) :=
  catch_io (
    let* info := MessageMarshaller.tightUnmarshal info in
    lift (Message.afterUnmarshal info)).
Definition looseUnmarshal (info : Message.t DataStructure) : M (io St) (Message.t DataStructure) :=
  catch_io (
    let* info := MessageMarshaller.looseUnmarshal info in
    lift (Message.afterUnmarshal info)).
Definition tightMarshal1 (info : Message.t DataStructure) : M (io St) Z :=
  catch_io (
    let* info := lift (Message.beforeMarshal info) in
    let* rc := MessageMarshaller.tightMarshal1 info in
    ret (rc + 0)).
Definition tightMarshal2 (info : Message.t DataStructure) : M (io St) unit :=
  catch_io (MessageMarshaller.tightMarshal2 info ;;; ret ()).
Definition looseMarshal (info : Message.t DataStructure) : M (io St) unit :=
  catch_io (
    let* info := lift (Message.beforeMarshal info) in
    MessageMarshaller.looseMarshal info ;;;
    ret ()).
End Code.
End ActiveMQBytesMessageMarshaller.

Module ActiveMQMapMessageMarshaller.
Section Code.
Context `{Platform} `{WireOptions} {St : Type} `{InputStream St} `{!WireFormat St}.

Definition tightUnmarshal (info : Message.t DataStructure) : M (io St) (Message.t DataStructure) :=
  catch_io (
    let* info := MessageMarshaller.tightUnmarshal info in
    lift (Message.afterUnmarshal info)).
Definition looseUnmarshal (info : Message.t DataStructure) : M (io St) (Message.t DataStructure) :=
  catch_io (
    let* info := MessageMarshaller.looseUnmarshal info in
    lift (Message.afterUnmarshal info)).
Definition tightMarshal1 (info : Message.t DataStructure) : M (io St) Z :=
  catch_io (
    let* info := lift (Message.beforeMarshal info) in
    let* rc := MessageMarshaller.tightMarshal1 info in
    ret (rc + 0)).
Definition tightMarshal2 (info : Message.t DataStructure) : M (io St) unit :=
  catch_io (MessageMarshaller.tightMarshal2 info ;;; ret ()).
Definition looseMarshal (info : Message.t DataStructure) : M (io St) unit :=
  catch_io (
    let* info := lift (Message.beforeMarshal info) in
    MessageMarshaller.looseMarshal info ;;;
    ret ()).
End Code.
End ActiveMQMapMessageMarshaller.

Module ActiveMQObjectMessageMarshaller.
Section Code.
Context `{Platform} `{WireOptions} {St : Type} `{InputStream St} `{!WireFormat St}.

Definition tightUnmarshal (info : Message.t DataStructure) : M (io St) (Message.t DataStructure) :=
  catch_io (
    let* info := MessageMarshaller.tightUnmarshal info in
    lift (Message.afterUnmarshal info)).
Definition looseUnmarshal (info : Message.t DataStructure) : M (io St) (Message.t DataStructure) :=
  catch_io (
    let* info := MessageMarshaller.looseUnmarshal info in
    lift (Message.afterUnmarshal info)).
Definition tightMarshal1 (info : Message.t DataStructure) : M (io St) Z :=
  catch_io (
    let* info := lift (Message.beforeMarshal info) in
    let* rc := MessageMarshaller.tightMarshal1 info in
    ret (rc + 0)).
Definition tightMarshal2 (info : Message.t DataStructure) : M (io St) unit :=
  catch_io (MessageMarshaller.tightMarshal2 info ;;; ret ()).
Definition looseMarshal (info : Message.t DataStructure) : M (io St) unit :=
  catch_io (
    let* info := lift (Message.beforeMarshal info) in
    MessageMarshaller.looseMarshal info ;;;
    ret ()).
End Code.
End ActiveMQObjectMessageMarshaller.

Module ActiveMQStreamMessageMarshaller.
Section Code.
Context `{Platform} `{WireOptions} {St : Type} `{InputStream St} `{!WireFormat St}.

Definition tightUnmarshal (info : Message.t DataStructure) : M (io St) (Message.t DataStructure) :=
  catch_io (
    let* info := MessageMarshaller.tightUnmarshal info in
    lift (Message.afterUnmarshal info)).
Definition looseUnmarshal (info : Message.t DataStructure) : M (io St) (Message.t DataStructure) :=
  catch_io (
    let* info := MessageMarshaller.looseUnmarshal info in
    lift (Message.afterUnmarshal info)).
Definition tightMarshal1 (info : Message.t DataStructure) : M (io St) Z :=
  catch_io (
    let* info := lift (Message.beforeMarshal info) in
    let* rc := MessageMarshaller.tightMarshal1 info in
    ret (rc + 0)).
Definition tightMarshal2 (info : Message.t DataStructure) : M (io St) unit :=
  catch_io (MessageMarshaller.tightMarshal2 info ;;; ret ()).
Definition looseMarshal (info : Message.t DataStructure) : M (io St) unit :=
  catch_io (
    let* info := lift (Message.beforeMarshal info) in
    MessageMarshaller.looseMarshal info ;;;
    ret ()).
End Code.
End ActiveMQStreamMessageMarshaller.

Module ActiveMQTextMessageMarshaller.
Section Code.
Context `{Platform} `{WireOptions} {St : Type} `{InputStream St} `{!WireFormat St}.

Definition tightUnmarshal (info : Message.t DataStructure) : M (io St) (Message.t DataStructure) :=
  catch_io (
    let* info := MessageMarshaller.tightUnmarshal info in
    lift (Message.afterUnmarshal info)).
Definition looseUnmarshal (info : Message.t DataStructure) : M (io St) (Message.t DataStructure) :=
  catch_io (
    let* info := MessageMarshaller.looseUnmarshal info in
    lift (Message.afterUnmarshal info)).
Definition tightMarshal1 (info : Message.t DataStructure) : M (io St) Z :=
  catch_io (
    let* info := lift (Message.beforeMarshal info) in
    let* rc := MessageMarshaller.tightMarshal1 info in
    ret (rc + 0)).
Definition tightMarshal2 (info : Message.t DataStructure) : M (io St) unit :=
  catch_io (MessageMarshaller.tightMarshal2 info ;;; ret ()).
Definition looseMarshal (info : Message.t DataStructure) : M (io St) unit :=
  catch_io (
    let* info := lift (Message.beforeMarshal info) in
    MessageMarshaller.looseMarshal info ;;;
    ret ()).
End Code.
End ActiveMQTextMessageMarshaller.

(** The fields of a blob message; the hooks are not run. *)
Module ActiveMQBlobMessageMarshaller.
Section Code.
Context `{Platform} `{WireOptions} {St : Type} `{InputStream St} `{!WireFormat St}.
Import BaseDataStreamMarshaller NestedObjects.

Definition getRemoteBlobUrl (info : Message.t DataStructure) : list Z :=
  match Message.messageKind info with Message.ActiveMQBlobMessage url _ _ => url | _ => [] end.
Definition getMimeType (info : Message.t DataStructure) : list Z :=
  match Message.messageKind info with Message.ActiveMQBlobMessage _ mime _ => mime | _ => [] end.
Definition isDeletedByBroker (info : Message.t DataStructure) : bool :=
  match Message.messageKind info with Message.ActiveMQBlobMessage _ _ deleted => deleted | _ => false end.
Definition set_blob (info : Message.t DataStructure) (url mime : list Z) (deleted : bool) : Message.t DataStructure :=
  Message.set_body info (Message.ActiveMQBlobMessage url mime deleted) (Message.content info)
    (Message.compressed info) (Message.readOnlyBody info).

Definition tightUnmarshal (info : Message.t DataStructure) : M (io St) (Message.t DataStructure) :=
  catch_io (
    let* info := MessageMarshaller.tightUnmarshal info in
    let* remoteBlobUrl := (if 3 <=? wireVersion then tightUnmarshalString else ret (getRemoteBlobUrl info)) in
    let* mimeType := (if 3 <=? wireVersion then tightUnmarshalString else ret (getMimeType info)) in
    let* deletedByBroker := (if 3 <=? wireVersion then bs BooleanStream.readBoolean else ret (isDeletedByBroker info)) in
    ret (set_blob info remoteBlobUrl mimeType deletedByBroker)).
Definition looseUnmarshal (info : Message.t DataStructure) : M (io St) (Message.t DataStructure) :=
  catch_io (
    let* info := MessageMarshaller.looseUnmarshal info in
    let* remoteBlobUrl := (if 3 <=? wireVersion then looseUnmarshalString else ret (getRemoteBlobUrl info)) in
    let* mimeType := (if 3 <=? wireVersion then looseUnmarshalString else ret (getMimeType info)) in
    let* deletedByBroker := (if 3 <=? wireVersion then dataIn DataInputStream.readBoolean else ret (isDeletedByBroker info)) in
    ret (set_blob info remoteBlobUrl mimeType deletedByBroker)).
Definition tightMarshal1 (info : Message.t DataStructure) : M (io St) Z :=
  catch_io (
    let* rc := MessageMarshaller.tightMarshal1 info in
    let* rc := (if 3 <=? wireVersion then add_rc rc (tightMarshalString1 (getRemoteBlobUrl info)) else ret rc) in
    let* rc := (if 3 <=? wireVersion then add_rc rc (tightMarshalString1 (getMimeType info)) else ret rc) in
    (if 3 <=? wireVersion then bs (BooleanStream.writeBoolean (isDeletedByBroker info)) else ret ()) ;;;
    ret (rc + 0)).
Definition tightMarshal2 (info : Message.t DataStructure) : M (io St) unit :=
  catch_io (
    MessageMarshaller.tightMarshal2 info ;;;
    (if 3 <=? wireVersion then tightMarshalString2 (getRemoteBlobUrl info) else ret ()) ;;;
    (if 3 <=? wireVersion then tightMarshalString2 (getMimeType info) else ret ()) ;;;
    (if 3 <=? wireVersion then bs BooleanStream.readBoolean ;;; ret () else ret ()) ;;;
    ret ()).
Definition looseMarshal (info : Message.t DataStructure) : M (io St) unit :=
  catch_io (
    MessageMarshaller.looseMarshal info ;;;
    (if 3 <=? wireVersion then looseMarshalString (getRemoteBlobUrl info) else ret ()) ;;;
    (if 3 <=? wireVersion then looseMarshalString (getMimeType info) else ret ()) ;;;
    (if 3 <=? wireVersion then dataOut (DataOutputStream.writeBoolean (isDeletedByBroker info)) else ret ()) ;;;
    ret ()).
End Code.
End ActiveMQBlobMessageMarshaller.

Module MessageDispatchMarshaller.
Section Code.
Context `{Platform} `{WireOptions} {St : Type} `{InputStream St} `{!WireFormat St}.
Import BaseDataStreamMarshaller NestedObjects.

Definition tightUnmarshal (info : MessageDispatch.t DataStructure) : M (io St) (MessageDispatch.t DataStructure) :=
  catch_io (
    let* base := BaseCommandMarshaller.tightUnmarshal (MessageDispatch.base info) in
    let* consumerId := cast as_ConsumerId tightUnmarshalCachedObject in
    let* destination := cast as_ActiveMQDestination tightUnmarshalCachedObject in
    let* message := cast as_Message tightUnmarshalNestedObject in
    let* redeliveryCounter := dataIn DataInputStream.readInt in
    ret {| MessageDispatch.base := base; MessageDispatch.consumerId := consumerId;
      MessageDispatch.destination := destination; MessageDispatch.message := message;
      MessageDispatch.redeliveryCounter := redeliveryCounter |}).

Definition looseUnmarshal (info : MessageDispatch.t DataStructure) : M (io St) (MessageDispatch.t DataStructure) :=
  catch_io (
    let* base := BaseCommandMarshaller.looseUnmarshal (MessageDispatch.base info) in
    let* consumerId := cast as_ConsumerId looseUnmarshalCachedObject in
    let* destination := cast as_ActiveMQDestination looseUnmarshalCachedObject in
    let* message := cast as_Message looseUnmarshalNestedObject in
    let* redeliveryCounter := dataIn DataInputStream.readInt in
    ret {| MessageDispatch.base := base; MessageDispatch.consumerId := consumerId;
      MessageDispatch.destination := destination; MessageDispatch.message := message;
      MessageDispatch.redeliveryCounter := redeliveryCounter |}).

Definition tightMarshal1 (info : MessageDispatch.t DataStructure) : M (io St) Z :=
  catch_io (
    let* rc := BaseCommandMarshaller.tightMarshal1 (MessageDispatch.base info) in
    let* rc := add_rc rc (tightMarshalCachedObject1 (option_map DConsumerId (MessageDispatch.consumerId info))) in
    let* rc := add_rc rc (tightMarshalCachedObject1 (option_map DDestination (MessageDispatch.destination info))) in
    let* rc := add_rc rc (tightMarshalNestedObject1 (option_map DMessage (MessageDispatch.message info))) in
    ret (rc + 4)).

Definition tightMarshal2 (info : MessageDispatch.t DataStructure) : M (io St) unit :=
  catch_io (
    BaseCommandMarshaller.tightMarshal2 (MessageDispatch.base info) ;;;
    tightMarshalCachedObject2 (option_map DConsumerId (MessageDispatch.consumerId info)) ;;;
    tightMarshalCachedObject2 (option_map DDestination (MessageDispatch.destination info)) ;;;
    tightMarshalNestedObject2 (option_map DMessage (MessageDispatch.message info)) ;;;
    dataOut (DataOutputStream.writeInt (MessageDispatch.redeliveryCounter info)) ;;;
    ret ()).

Definition looseMarshal (info : MessageDispatch.t DataStructure) : M (io St) unit :=
  catch_io (
    BaseCommandMarshaller.looseMarshal (MessageDispatch.base info) ;;;
    looseMarshalCachedObject (option_map DConsumerId (MessageDispatch.consumerId info)) ;;;
    looseMarshalCachedObject (option_map DDestination (MessageDispatch.destination info)) ;;;
    looseMarshalNestedObject (option_map DMessage (MessageDispatch.message info)) ;;;
    dataOut (DataOutputStream.writeInt (MessageDispatch.redeliveryCounter info)) ;;;
    ret ()).

End Code.
End MessageDispatchMarshaller.

Module WireFormatInfoMarshaller.
Section Code.
Context `{Platform} `{WireOptions} {St : Type} `{InputStream St} `{!WireFormat St}.
Import BaseDataStreamMarshaller NestedObjects.

Definition tightUnmarshal (info : WireFormatInfo.t) : M (io St) (WireFormatInfo.t) :=
  catch_io (
    let* magic := tightUnmarshalConstByteArray 8 in
    let* version := dataIn DataInputStream.readInt in
    let* marshalledProperties := tightUnmarshalByteArray in
    lift (WireFormatInfo.afterUnmarshal {| WireFormatInfo.base := WireFormatInfo.base info;
      WireFormatInfo.magic := magic; WireFormatInfo.version := version;
      WireFormatInfo.marshalledProperties := marshalledProperties; WireFormatInfo.properties
      := WireFormatInfo.properties info |})).

Definition looseUnmarshal (info : WireFormatInfo.t) : M (io St) (WireFormatInfo.t) :=
  catch_io (
    let* magic := looseUnmarshalConstByteArray 8 in
    let* version := dataIn DataInputStream.readInt in
    let* marshalledProperties := looseUnmarshalByteArray in
    lift (WireFormatInfo.afterUnmarshal {| WireFormatInfo.base := WireFormatInfo.base info;
      WireFormatInfo.magic := magic; WireFormatInfo.version := version;
      WireFormatInfo.marshalledProperties := marshalledProperties; WireFormatInfo.properties
      := WireFormatInfo.properties info |})).

Definition tightMarshal1 (info : WireFormatInfo.t) : M (io St) Z :=
  catch_io (
    let* info := lift (WireFormatInfo.beforeMarshal info) in
    let* rc := NestedObjects.tightMarshal1 in
    let* rc := add_rc rc (marshalByteArray1 (WireFormatInfo.marshalledProperties info)) in
    ret (rc + 12)).

Definition tightMarshal2 (info : WireFormatInfo.t) : M (io St) unit :=
  catch_io (
    writeConst8 (WireFormatInfo.magic info) ;;;
    dataOut (DataOutputStream.writeInt (WireFormatInfo.version info)) ;;;
    marshalByteArray2 (WireFormatInfo.marshalledProperties info) ;;;
    ret ()).

Definition looseMarshal (info : WireFormatInfo.t) : M (io St) unit :=
  catch_io (
    let* info := lift (WireFormatInfo.beforeMarshal info) in
    writeConst8 (WireFormatInfo.magic info) ;;;
    dataOut (DataOutputStream.writeInt (WireFormatInfo.version info)) ;;;
    looseMarshalByteArray (WireFormatInfo.marshalledProperties info) ;;;
    ret ()).

End Code.
End WireFormatInfoMarshaller.

(** ** The fields all messages share *)

(** What a fresh message of kind [k] holds after the fields of [m] were read. *)
Definition received_fields `{Platform} (k : Message.kind) (m : Message.t DataStructure) : Message.t DataStructure :=
  {| Message.messageKind := k; Message.base := Message.base m; Message.producerId :=
    Message.producerId m; Message.destination := Message.destination m; Message.transactionId :=
    Message.transactionId m; Message.originalDestination := Message.originalDestination m;
    Message.messageId := Message.messageId m; Message.originalTransactionId :=
    Message.originalTransactionId m; Message.groupID := Message.groupID m; Message.groupSequence
    := Message.groupSequence m; Message.correlationId := Message.correlationId m;
    Message.persistent := Message.persistent m; Message.expiration := Message.expiration m;
    Message.priority := Message.priority m; Message.replyTo := Message.replyTo m;
    Message.timestamp := Message.timestamp m; Message.type := Message.type m; Message.content :=
    Message.content m; Message.marshalledProperties := Message.marshalledProperties m;
    Message.dataStructure := option_map arrived (Message.dataStructure m);
    Message.targetConsumerId := Message.targetConsumerId m; Message.compressed :=
    Message.compressed m; Message.redeliveryCounter := Message.redeliveryCounter m;
    Message.brokerPath := Message.brokerPath m; Message.arrival := Message.arrival m;
    Message.userID := Message.userID m; Message.recievedByDFBridge := Message.recievedByDFBridge
    m; Message.droppable := Message.droppable m; Message.cluster := Message.cluster m;
    Message.brokerInTime := Message.brokerInTime m; Message.brokerOutTime :=
    Message.brokerOutTime m; Message.jMSXGroupFirstForConsumer :=
    Message.jMSXGroupFirstForConsumer m; Message.properties := []; Message.readOnlyBody :=
    false; Message.connection := None |}.

Section Laws.
Context {St : Type} `{InputStreamLaws St} (n : nat).
Context `{Platform} `{WireOptions} `{!WireFormat St} `{!WireFormatLaws n}.

Lemma MessageFields_implements m o k : mutate_option mutate (Message.dataStructure m) = Ok o ->
  let m' := Message.set_dataStructure m o in
  implements n (MessageFields_layout nest m') (received_fields k m')
    (MessageMarshaller.tightMarshal1 m) (MessageMarshaller.tightMarshal2 m')
    (MessageMarshaller.tightUnmarshal (Message.default k)) (MessageMarshaller.looseMarshal m)
    (MessageMarshaller.looseUnmarshal (Message.default k)).
Proof.
  intros Ho. unfold MessageFields_layout, Message.set_dataStructure, received_fields.
  cbn [Message.messageKind Message.base Message.producerId Message.destination
    Message.transactionId Message.originalDestination Message.messageId
    Message.originalTransactionId Message.groupID Message.groupSequence Message.correlationId
    Message.persistent Message.expiration Message.priority Message.replyTo Message.timestamp
    Message.type Message.content Message.marshalledProperties Message.dataStructure
    Message.targetConsumerId Message.compressed Message.redeliveryCounter Message.brokerPath
    Message.arrival Message.userID Message.recievedByDFBridge Message.droppable Message.cluster
    Message.brokerInTime Message.brokerOutTime Message.jMSXGroupFirstForConsumer
    Message.properties Message.readOnlyBody Message.connection].
  implement_with ltac:(reflexivity).
Qed.

(** ** The hooks *)
Lemma as_io_Ok {A} (r : result A) a : Message.as_io r = Ok a -> r = Ok a.
Proof. destruct r as [|[]]; done. Qed.
Lemma beforeMarshal_base_keeps {D} (m m' : Message.t D) : Message.beforeMarshal_base m = Ok m' ->
  Message.messageKind m' = Message.messageKind m /\ Message.dataStructure m' = Message.dataStructure m.
Proof.
  intros E%as_io_Ok. destruct (StlMap.isEmpty _); [by injection E as <- |].
  destruct (PrimitiveTypesMarshaller.marshal _ _); [by injection E as <- | done].
Qed.
Lemma store_body_keeps {D} (m : Message.t D) k bytes :
  Message.messageKind (Message.store_body m k bytes) = k /\
  Message.dataStructure (Message.store_body m k bytes) = Message.dataStructure m.
Proof. unfold Message.store_body. by destruct (Message.connection m) as [[[] ?]|]. Qed.

(** A hook changes neither the class of a message nor its nested object. *)
Lemma beforeMarshal_keeps {D} (m m' : Message.t D) : Message.beforeMarshal m = Ok m' ->
  Message.fresh (Message.messageKind m') = Message.fresh (Message.messageKind m) /\
  Message.dataStructure m' = Message.dataStructure m.
Proof.
  unfold Message.beforeMarshal. destruct (Message.messageKind m) as [| |map| | |text|] eqn:Ek;
    try (intros [-> ->]%beforeMarshal_base_keeps; by rewrite Ek).
  - intros E%as_io_Ok. destruct (Message.beforeMarshal_base m) as [m1|] eqn:Eb; [|done].
    apply beforeMarshal_base_keeps in Eb as [_ <-]. destruct map as [[|e map]|]; cbn in E; try by injection E as <-.
    destruct (PrimitiveTypesMarshaller.marshalPrimitiveMap _ _) as [[? bytes]|]; [|done]. injection E as <-.
    destruct (store_body_keeps m1 (Message.ActiveMQMapMessage (Some (e :: map))) bytes) as [-> ->]. done.
  - unfold Message.beforeMarshal_text. intros E. destruct (Message.beforeMarshal_base m) as [m1|] eqn:Eb; [|done].
    apply beforeMarshal_base_keeps in Eb as [Ek1 <-]. rewrite Ek in Ek1. destruct text as [text|]; cbn in E.
    + destruct (Message.writeString32 text []) as [[? bytes]|]; [|done]. injection E as <-.
      destruct (store_body_keeps m1 (Message.ActiveMQTextMessage None) bytes) as [-> ->]. done.
    + injection E as <-. by rewrite Ek1.
Qed.

Definition is_blob (k : Message.kind) : bool :=
  match k with Message.ActiveMQBlobMessage _ _ _ => true | _ => false end.
Lemma fresh_blob k : is_blob (Message.fresh k) = is_blob k.
Proof. by destruct k. Qed.

Lemma mutate_message_hooked (m m' : Message.t DataStructure) : is_blob (Message.messageKind m) = false ->
  mutate_message mutate m = Ok m' ->
  exists m1 o, Message.beforeMarshal m = Ok m1 /\ mutate_option mutate (Message.dataStructure m1) = Ok o /\
    m' = Message.set_dataStructure m1 o.
Proof.
  intros Hk. unfold mutate_message. destruct (mutate_option mutate _) as [o|] eqn:Eo; [|done]. cbn.
  assert ((match Message.messageKind m with
           | Message.ActiveMQBlobMessage _ _ _ => Ok m | _ => Message.beforeMarshal m end) = Message.beforeMarshal m)
    as -> by by destruct (Message.messageKind m).
  destruct (Message.beforeMarshal m) as [m1|] eqn:Em; [|done]. intros [= <-].
  exists m1, o. split; [done |]. split; [|done]. apply beforeMarshal_keeps in Em as [_ ->]. done.
Qed.

Lemma mutate_message_fresh (m m' : Message.t DataStructure) : mutate_message mutate m = Ok m' ->
  Message.fresh (Message.messageKind m') = Message.fresh (Message.messageKind m).
Proof.
  destruct (is_blob (Message.messageKind m)) eqn:Hk.
  - unfold mutate_message. destruct (mutate_option _ _); [|done]. cbn.
    destruct (Message.messageKind m) eqn:Ek; try done. intros [= <-]. cbn. by rewrite Ek.
  - intros (m1 & o & [Em _]%beforeMarshal_keeps & _ & ->)%mutate_message_hooked; done.
Qed.

Lemma arrived_hooked m : is_blob (Message.messageKind m) = false ->
  arrived_message arrived m =
  Message.set_properties (received_fields (Message.fresh (Message.messageKind m)) m)
    (arrived_properties (Message.marshalledProperties m)).
Proof. unfold arrived_message, received_fields. by destruct (Message.messageKind m). Qed.

Lemma afterUnmarshal_received k m : properties_ok (Message.marshalledProperties m) = true ->
  Message.afterUnmarshal (received_fields k m) =
  Ok (Message.set_properties (received_fields k m) (arrived_properties (Message.marshalledProperties m))).
Proof.
  unfold properties_ok, Message.afterUnmarshal, arrived_properties, received_fields.
  cbn [Message.properties Message.marshalledProperties].
  by destruct (PrimitiveTypesMarshaller.unmarshal [] _).
Qed.

Lemma g_hook {R : forall A, layout -> M (io St) A -> A -> Prop} {A B} (x : A) r fs (k : A -> M (io St) B) v :
  r = Ok x -> guarded n R _ fs (k x) v -> guarded n R _ fs (bind (lift r) k) v.
Proof. by intros ->. Qed.
Lemma g_require {R : forall A, layout -> M (io St) A -> A -> Prop} `{!Codec R} {A} b (m : M (io St) A) v :
  (b = true -> guarded n R _ [] m v) -> guarded n R _ [FReq b] m v.
Proof. intros Hm [Hb Hw]%within_cons. by apply codec_req, Hm. Qed.

(** The six classes whose marshallers run the hooks share their code. *)
Lemma ActiveMQMessage_implements m m' : is_blob (Message.messageKind m) = false ->
  mutate_message mutate m = Ok m' ->
  implements n (Message_layout nest m') (arrived_message arrived m')
    (ActiveMQMessageMarshaller.tightMarshal1 m) (ActiveMQMessageMarshaller.tightMarshal2 m')
    (ActiveMQMessageMarshaller.tightUnmarshal (Message.default (Message.fresh (Message.messageKind m))))
    (ActiveMQMessageMarshaller.looseMarshal m)
    (ActiveMQMessageMarshaller.looseUnmarshal (Message.default (Message.fresh (Message.messageKind m)))).
Proof.
  intros Hk Hm. pose proof (mutate_message_fresh _ _ Hm) as Hf.
  assert (Hk' : is_blob (Message.messageKind m') = false) by (rewrite <- fresh_blob, Hf, fresh_blob; done).
  assert (El : Message_layout nest m' =
    MessageFields_layout nest m' ++ [FReq (properties_ok (Message.marshalledProperties m'))]).
  { unfold Message_layout. by destruct (Message.messageKind m'). }
  rewrite El, (arrived_hooked m' Hk'), Hf.
  destruct (mutate_message_hooked _ _ Hk Hm) as (m1 & o & Eb & Eo & ->).
  destruct (MessageFields_implements m1 o (Message.fresh (Message.messageKind m)) Eo) as [F1 F2 F3 F4 F5].
  split; [red | | | |]; apply codec_catch.
  - apply (g_hook m1); [done |]. eapply codec_bind; [exact F1 |]. apply g_done; [done | size_sum].
  - eapply codec_bind; [exact F2 |]. refine (g_require _ _ _ _). intros _. by refine (g_ret _ _ _ _).
  - eapply codec_bind; [exact F3 |]. refine (g_require _ _ _ _). intros Hp.
    refine (g_lift _ _ _ _). by apply afterUnmarshal_received.
  - apply (g_hook m1); [done |]. eapply codec_bind; [exact F4 |]. refine (g_require _ _ _ _). intros _.
    by refine (g_ret _ _ _ _).
  - eapply codec_bind; [exact F5 |]. refine (g_require _ _ _ _). intros Hp.
    refine (g_lift _ _ _ _). by apply afterUnmarshal_received.
Qed.

Lemma ActiveMQBlobMessage_implements m m' : is_blob (Message.messageKind m) = true ->
  mutate_message mutate m = Ok m' ->
  implements n (Message_layout nest m') (arrived_message arrived m')
    (ActiveMQBlobMessageMarshaller.tightMarshal1 m) (ActiveMQBlobMessageMarshaller.tightMarshal2 m')
    (ActiveMQBlobMessageMarshaller.tightUnmarshal (Message.default (Message.fresh (Message.messageKind m))))
    (ActiveMQBlobMessageMarshaller.looseMarshal m)
    (ActiveMQBlobMessageMarshaller.looseUnmarshal (Message.default (Message.fresh (Message.messageKind m)))).
Proof.
  intros Hk. destruct (Message.messageKind m) as [| | | | | |url mime deleted] eqn:Ek; try done.
  unfold mutate_message. rewrite Ek. destruct (mutate_option _ _) as [o|] eqn:Eo; [|done]. intros [= <-].
  unfold Message_layout. cbn [Message.messageKind Message.set_dataStructure]. rewrite Ek.
  destruct (MessageFields_implements m o (Message.ActiveMQBlobMessage [] Message.BINARY_MIME_TYPE false) Eo)
    as [F1 F2 F3 F4 F5].
  assert (Eg : ActiveMQBlobMessageMarshaller.getRemoteBlobUrl m = url /\
    ActiveMQBlobMessageMarshaller.getMimeType m = mime /\
    ActiveMQBlobMessageMarshaller.isDeletedByBroker m = deleted).
  { unfold ActiveMQBlobMessageMarshaller.getRemoteBlobUrl, ActiveMQBlobMessageMarshaller.getMimeType,
      ActiveMQBlobMessageMarshaller.isDeletedByBroker. by rewrite Ek. }
  destruct Eg as (Eu & Em & Ed).
  split; [red | | | |]; apply codec_catch.
  - eapply codec_bind; [exact F1 |]. rewrite Eu, Em, Ed. statements. apply g_done; [reflexivity | size_sum].
  - eapply codec_bind; [exact F2 |]. cbv beta.
    change (ActiveMQBlobMessageMarshaller.getRemoteBlobUrl _) with (ActiveMQBlobMessageMarshaller.getRemoteBlobUrl m).
    change (ActiveMQBlobMessageMarshaller.getMimeType _) with (ActiveMQBlobMessageMarshaller.getMimeType m).
    rewrite Eu, Em. statements. by refine (g_ret _ _ _ _).
  - eapply codec_bind; [exact F3 |]. cbn [ActiveMQBlobMessageMarshaller.getRemoteBlobUrl]. statements.
    refine (g_ret _ _ _ _). unfold arrived_message. cbn [Message.messageKind Message.set_dataStructure]. by rewrite Ek.
  - eapply codec_bind; [exact F4 |]. rewrite Eu, Em, Ed. statements. by refine (g_ret _ _ _ _).
  - eapply codec_bind; [exact F5 |]. statements.
    refine (g_ret _ _ _ _). unfold arrived_message. cbn [Message.messageKind Message.set_dataStructure]. by rewrite Ek.
Qed.

Lemma wireformat_afterUnmarshal (info : WireFormatInfo.t) :
  properties_ok (WireFormatInfo.marshalledProperties info) = true ->
  WireFormatInfo.afterUnmarshal
    {| WireFormatInfo.base := BaseCommand.default; WireFormatInfo.magic := WireFormatInfo.magic info;
       WireFormatInfo.version := WireFormatInfo.version info;
       WireFormatInfo.marshalledProperties := WireFormatInfo.marshalledProperties info;
       WireFormatInfo.properties := [] |} =
  Ok {| WireFormatInfo.base := BaseCommand.default; WireFormatInfo.magic := WireFormatInfo.magic info;
        WireFormatInfo.version := WireFormatInfo.version info;
        WireFormatInfo.marshalledProperties := WireFormatInfo.marshalledProperties info;
        WireFormatInfo.properties := arrived_properties (WireFormatInfo.marshalledProperties info) |}.
Proof.
  unfold properties_ok, WireFormatInfo.afterUnmarshal, arrived_properties.
  cbn [WireFormatInfo.properties WireFormatInfo.marshalledProperties].
  by destruct (PrimitiveTypesMarshaller.unmarshal [] _).
Qed.
Lemma size_raw l : zlen (wbody [FRaw l]) = zlen l.
Proof. unfold wbody. cbn [flat_map fbody]. by rewrite app_nil_r. Qed.

Lemma WireFormatInfo_implements info info' : WireFormatInfo.beforeMarshal info = Ok info' ->
  implements n (WireFormatInfo_layout info')
    {| WireFormatInfo.base := BaseCommand.default; WireFormatInfo.magic := WireFormatInfo.magic info';
       WireFormatInfo.version := WireFormatInfo.version info';
       WireFormatInfo.marshalledProperties := WireFormatInfo.marshalledProperties info';
       WireFormatInfo.properties := arrived_properties (WireFormatInfo.marshalledProperties info') |}
    (WireFormatInfoMarshaller.tightMarshal1 info) (WireFormatInfoMarshaller.tightMarshal2 info')
    (WireFormatInfoMarshaller.tightUnmarshal WireFormatInfo.default) (WireFormatInfoMarshaller.looseMarshal info)
    (WireFormatInfoMarshaller.looseUnmarshal WireFormatInfo.default).
Proof.
  intros E. unfold WireFormatInfo_layout. rewrite (app_assoc [FReq (zlen _ =? 8)]).
  destruct (decide (zlen (WireFormatInfo.magic info') = 8)) as [Hm|Hm].
  2: { apply implements_void. rewrite wok_app. by apply Z.eqb_neq in Hm as E8; unfold wok; cbn [app forallb fok]; rewrite E8. }
  pose proof (wireformat_afterUnmarshal info') as Hu.
  split; [red | | | |]; apply codec_catch; try (apply (g_hook info'); [done |]).
  - statements. apply g_done; [reflexivity |]. autorewrite with wsize. rewrite size_raw. lia.
  - eapply codec_bind; [refine (g2_const _ _) |]. statements.
    refine (g_require _ _ _ _). intros _. by refine (g_ret _ _ _ _).
  - eapply codec_bind; [refine (gp_const _ _) |]. statements.
    refine (g_require _ _ _ _). intros Hp. by refine (g_lift _ _ _ (Hu Hp)).
  - eapply codec_bind; [refine (gl_const _ _) |]. statements.
    refine (g_require _ _ _ _). intros _. by refine (g_ret _ _ _ _).
  - eapply codec_bind; [refine (gq_const _ _) |]. statements.
    refine (g_require _ _ _ _). intros Hp. by refine (g_lift _ _ _ (Hu Hp)).
Qed.

Lemma mutate_dispatch (m m' : option (Message.t DataStructure)) :
  mutate_option (mutate_message mutate) m = Ok m' ->
  mutate_option mutate (option_map DMessage m) = Ok (option_map DMessage m').
Proof.
  destruct m as [m|]; cbn; [|by intros [= <-]].
  destruct (mutate_message mutate m); cbn; [by intros [= <-] | done].
Qed.
Lemma nest_message o : nest (option_map DMessage o) =
  obj Message.getDataStructureType (fun _ => true) (Message_layout nest) o.
Proof. by destruct o. Qed.

Lemma MessageDispatch_implements info o : mutate_option (mutate_message mutate) (MessageDispatch.message info) = Ok o ->
  let info' := {| MessageDispatch.base := MessageDispatch.base info;
    MessageDispatch.consumerId := MessageDispatch.consumerId info;
    MessageDispatch.destination := MessageDispatch.destination info; MessageDispatch.message := o;
    MessageDispatch.redeliveryCounter := MessageDispatch.redeliveryCounter info |} in
  implements n (MessageDispatch_layout nest info')
    {| MessageDispatch.base := MessageDispatch.base info;
       MessageDispatch.consumerId := MessageDispatch.consumerId info;
       MessageDispatch.destination := MessageDispatch.destination info;
       MessageDispatch.message := option_map (arrived_message arrived) o;
       MessageDispatch.redeliveryCounter := MessageDispatch.redeliveryCounter info |}
    (MessageDispatchMarshaller.tightMarshal1 info) (MessageDispatchMarshaller.tightMarshal2 info')
    (MessageDispatchMarshaller.tightUnmarshal MessageDispatch.default) (MessageDispatchMarshaller.looseMarshal info)
    (MessageDispatchMarshaller.looseUnmarshal MessageDispatch.default).
Proof.
  intros Ho%mutate_dispatch. unfold MessageDispatch_layout.
  cbn [MessageDispatch.base MessageDispatch.consumerId MessageDispatch.destination MessageDispatch.message
    MessageDispatch.redeliveryCounter]. rewrite <- nest_message.
  assert (Hc : cast_value as_Message (option_map DMessage o) = option_map (arrived_message arrived) o) by by destruct o.
  assert (Hp : prepared (option_map DMessage o)) by by eexists.
  split; [red | | | |]; apply codec_catch; statements.
  - eapply codec_bind; [apply g_add; exact (g1_nested _ _ _ _ eq_refl Ho) |]. statements.
    apply g_done; [reflexivity | size_sum].
  - eapply codec_bind; [exact (g2_nested _ _ _ eq_refl Hp) |]. statements. by refine (g_ret _ _ _ _).
  - eapply codec_bind; [exact (gp_nested _ _ _ _ _ eq_refl Hp Hc) |]. statements. by refine (g_ret _ _ _ _).
  - eapply codec_bind; [exact (gl_nested _ _ _ _ eq_refl Ho) |]. statements. by refine (g_ret _ _ _ _).
  - eapply codec_bind; [exact (gq_nested _ _ _ _ _ eq_refl Hp Hc) |]. statements. by refine (g_ret _ _ _ _).
Qed.
End Laws.
