(* ===== verification/Registry.v ===== *)
(** * The registry of marshallers

    activemq/wireformat/openwire/marshal/DataStreamMarshaller.h: the interface
    the wire format calls a marshaller through, and
    marshal/generated/MarshallerFactory.cpp: the table of all marshallers by data
    structure type.  [dispatch] says that the marshaller found for an object
    implements the object's layout. *)

From S2P Require Import Prelude DataStreams PrimitiveTypes Support BooleanStreams Wire BaseMarshaller Commands Layouts MarshallerBase.
From S2P Require Import IdMarshallers ConnectionMarshallers ResponseMarshallers MessageMarshallers.

(** The virtual functions of a marshaller; an unmarshaller fills in the object
    it is given. *)
Record DataStreamMarshaller (St : Type) := {
  createObject : DataStructure;
  m_getDataStructureType : Z;
  m_tightUnmarshal : DataStructure -> M (io St) DataStructure;
  m_tightMarshal1 : DataStructure -> M (io St) Z;
  m_tightMarshal2 : DataStructure -> M (io St) unit;
  m_looseUnmarshal : DataStructure -> M (io St) DataStructure;
  m_looseMarshal : DataStructure -> M (io St) unit
}.
Arguments createObject {St} _.
Arguments m_getDataStructureType {St} _.
Arguments m_tightUnmarshal {St} _ _.
Arguments m_tightMarshal1 {St} _ _.
Arguments m_tightMarshal2 {St} _ _.
Arguments m_looseUnmarshal {St} _ _.
Arguments m_looseMarshal {St} _ _.

Definition as_LocalTransactionId (d : DataStructure) : option LocalTransactionId.t :=
  match d with DTransactionId (TransactionId.LocalTransactionId i) => Some i | _ => None end.
Definition as_XATransactionId (d : DataStructure) : option XATransactionId.t :=
  match d with DTransactionId (TransactionId.XATransactionId i) => Some i | _ => None end.

(** A marshaller starts with [dynamic_cast<X*>(dataStructure)] and uses the
    result without a test. *)
Definition on_class {St X A} (down : DataStructure -> option X) (f : X -> M (io St) A) (d : DataStructure) : M (io St) A :=
  match down d with Some x => f x | None => undef end.
Definition marshaller_of {St X} (type : Z) (up : X -> DataStructure) (down : DataStructure -> option X) (object : X)
    (tu : X -> M (io St) X) (t1 : X -> M (io St) Z) (t2 : X -> M (io St) unit)
    (lu : X -> M (io St) X) (lm : X -> M (io St) unit) : DataStreamMarshaller St :=
  {| createObject := up object;
     m_getDataStructureType := type;
     m_tightUnmarshal := on_class down (fun x => let* x := tu x in ret (up x));
     m_tightMarshal1 := on_class down t1;
     m_tightMarshal2 := on_class down t2;
     m_looseUnmarshal := on_class down (fun x => let* x := lu x in ret (up x));
     m_looseMarshal := on_class down lm |}.

Section Registry.
Context `{Platform} `{WireOptions} {St : Type} `{InputStream St} `{!WireFormat St}.

(** [OpenWireFormat::addMarshaller] *)
Definition addMarshaller (dataMarshallers : list (option (DataStreamMarshaller St)))
    (marshaller : DataStreamMarshaller St) : list (option (DataStreamMarshaller St)) :=
  <[Z.to_nat (Z.land (m_getDataStructureType marshaller) 0xFF) := Some marshaller]> dataMarshallers.

(** The marshallers in the order they are added in. *)
Definition marshallers : list (DataStreamMarshaller St) :=
  [
    marshaller_of 29 DMessage as_Message (Message.default (Message.ActiveMQBlobMessage [] Message.BINARY_MIME_TYPE false))
      ActiveMQBlobMessageMarshaller.tightUnmarshal ActiveMQBlobMessageMarshaller.tightMarshal1 ActiveMQBlobMessageMarshaller.tightMarshal2 ActiveMQBlobMessageMarshaller.looseUnmarshal ActiveMQBlobMessageMarshaller.looseMarshal;
    marshaller_of 24 DMessage as_Message (Message.default Message.ActiveMQBytesMessage)
      ActiveMQBytesMessageMarshaller.tightUnmarshal ActiveMQBytesMessageMarshaller.tightMarshal1 ActiveMQBytesMessageMarshaller.tightMarshal2 ActiveMQBytesMessageMarshaller.looseUnmarshal ActiveMQBytesMessageMarshaller.looseMarshal;
    marshaller_of 25 DMessage as_Message (Message.default (Message.ActiveMQMapMessage None))
      ActiveMQMapMessageMarshaller.tightUnmarshal ActiveMQMapMessageMarshaller.tightMarshal1 ActiveMQMapMessageMarshaller.tightMarshal2 ActiveMQMapMessageMarshaller.looseUnmarshal ActiveMQMapMessageMarshaller.looseMarshal;
    marshaller_of 23 DMessage as_Message (Message.default Message.ActiveMQMessage)
      ActiveMQMessageMarshaller.tightUnmarshal ActiveMQMessageMarshaller.tightMarshal1 ActiveMQMessageMarshaller.tightMarshal2 ActiveMQMessageMarshaller.looseUnmarshal ActiveMQMessageMarshaller.looseMarshal;
    marshaller_of 26 DMessage as_Message (Message.default Message.ActiveMQObjectMessage)
      ActiveMQObjectMessageMarshaller.tightUnmarshal ActiveMQObjectMessageMarshaller.tightMarshal1 ActiveMQObjectMessageMarshaller.tightMarshal2 ActiveMQObjectMessageMarshaller.looseUnmarshal ActiveMQObjectMessageMarshaller.looseMarshal;
    marshaller_of 100 DDestination as_ActiveMQDestination (ActiveMQDestination.default ActiveMQDestination.Queue)
      ActiveMQQueueMarshaller.tightUnmarshal ActiveMQQueueMarshaller.tightMarshal1 ActiveMQQueueMarshaller.tightMarshal2 ActiveMQQueueMarshaller.looseUnmarshal ActiveMQQueueMarshaller.looseMarshal;
    marshaller_of 27 DMessage as_Message (Message.default Message.ActiveMQStreamMessage)
      ActiveMQStreamMessageMarshaller.tightUnmarshal ActiveMQStreamMessageMarshaller.tightMarshal1 ActiveMQStreamMessageMarshaller.tightMarshal2 ActiveMQStreamMessageMarshaller.looseUnmarshal ActiveMQStreamMessageMarshaller.looseMarshal;
    marshaller_of 102 DDestination as_ActiveMQDestination (ActiveMQDestination.default ActiveMQDestination.TempQueue)
      ActiveMQTempQueueMarshaller.tightUnmarshal ActiveMQTempQueueMarshaller.tightMarshal1 ActiveMQTempQueueMarshaller.tightMarshal2 ActiveMQTempQueueMarshaller.looseUnmarshal ActiveMQTempQueueMarshaller.looseMarshal;
    marshaller_of 103 DDestination as_ActiveMQDestination (ActiveMQDestination.default ActiveMQDestination.TempTopic)
      ActiveMQTempTopicMarshaller.tightUnmarshal ActiveMQTempTopicMarshaller.tightMarshal1 ActiveMQTempTopicMarshaller.tightMarshal2 ActiveMQTempTopicMarshaller.looseUnmarshal ActiveMQTempTopicMarshaller.looseMarshal;
    marshaller_of 28 DMessage as_Message (Message.default (Message.ActiveMQTextMessage None))
      ActiveMQTextMessageMarshaller.tightUnmarshal ActiveMQTextMessageMarshaller.tightMarshal1 ActiveMQTextMessageMarshaller.tightMarshal2 ActiveMQTextMessageMarshaller.looseUnmarshal ActiveMQTextMessageMarshaller.looseMarshal;
    marshaller_of 101 DDestination as_ActiveMQDestination (ActiveMQDestination.default ActiveMQDestination.Topic)
      ActiveMQTopicMarshaller.tightUnmarshal ActiveMQTopicMarshaller.tightMarshal1 ActiveMQTopicMarshaller.tightMarshal2 ActiveMQTopicMarshaller.looseUnmarshal ActiveMQTopicMarshaller.looseMarshal;
    marshaller_of 124 DBrokerId as_BrokerId BrokerId.default
      BrokerIdMarshaller.tightUnmarshal BrokerIdMarshaller.tightMarshal1 BrokerIdMarshaller.tightMarshal2 BrokerIdMarshaller.looseUnmarshal BrokerIdMarshaller.looseMarshal;
    marshaller_of 2 DBrokerInfo as_BrokerInfo BrokerInfo.default
      BrokerInfoMarshaller.tightUnmarshal BrokerInfoMarshaller.tightMarshal1 BrokerInfoMarshaller.tightMarshal2 BrokerInfoMarshaller.looseUnmarshal BrokerInfoMarshaller.looseMarshal;
    marshaller_of 18 DConnectionControl as_ConnectionControl ConnectionControl.default
      ConnectionControlMarshaller.tightUnmarshal ConnectionControlMarshaller.tightMarshal1 ConnectionControlMarshaller.tightMarshal2 ConnectionControlMarshaller.looseUnmarshal ConnectionControlMarshaller.looseMarshal;
    marshaller_of 16 DConnectionError as_ConnectionError ConnectionError.default
      ConnectionErrorMarshaller.tightUnmarshal ConnectionErrorMarshaller.tightMarshal1 ConnectionErrorMarshaller.tightMarshal2 ConnectionErrorMarshaller.looseUnmarshal ConnectionErrorMarshaller.looseMarshal;
    marshaller_of 120 DConnectionId as_ConnectionId ConnectionId.default
      ConnectionIdMarshaller.tightUnmarshal ConnectionIdMarshaller.tightMarshal1 ConnectionIdMarshaller.tightMarshal2 ConnectionIdMarshaller.looseUnmarshal ConnectionIdMarshaller.looseMarshal;
    marshaller_of 3 DConnectionInfo as_ConnectionInfo ConnectionInfo.default
      ConnectionInfoMarshaller.tightUnmarshal ConnectionInfoMarshaller.tightMarshal1 ConnectionInfoMarshaller.tightMarshal2 ConnectionInfoMarshaller.looseUnmarshal ConnectionInfoMarshaller.looseMarshal;
    marshaller_of 17 DConsumerControl as_ConsumerControl ConsumerControl.default
      ConsumerControlMarshaller.tightUnmarshal ConsumerControlMarshaller.tightMarshal1 ConsumerControlMarshaller.tightMarshal2 ConsumerControlMarshaller.looseUnmarshal ConsumerControlMarshaller.looseMarshal;
    marshaller_of 122 DConsumerId as_ConsumerId ConsumerId.default
      ConsumerIdMarshaller.tightUnmarshal ConsumerIdMarshaller.tightMarshal1 ConsumerIdMarshaller.tightMarshal2 ConsumerIdMarshaller.looseUnmarshal ConsumerIdMarshaller.looseMarshal;
    marshaller_of 5 DConsumerInfo as_ConsumerInfo ConsumerInfo.default
      ConsumerInfoMarshaller.tightUnmarshal ConsumerInfoMarshaller.tightMarshal1 ConsumerInfoMarshaller.tightMarshal2 ConsumerInfoMarshaller.looseUnmarshal ConsumerInfoMarshaller.looseMarshal;
    marshaller_of 14 DControlCommand as_ControlCommand ControlCommand.default
      ControlCommandMarshaller.tightUnmarshal ControlCommandMarshaller.tightMarshal1 ControlCommandMarshaller.tightMarshal2 ControlCommandMarshaller.looseUnmarshal ControlCommandMarshaller.looseMarshal;
    marshaller_of 33 DDataArrayResponse as_DataArrayResponse DataArrayResponse.default
      DataArrayResponseMarshaller.tightUnmarshal DataArrayResponseMarshaller.tightMarshal1 DataArrayResponseMarshaller.tightMarshal2 DataArrayResponseMarshaller.looseUnmarshal DataArrayResponseMarshaller.looseMarshal;
    marshaller_of 32 DDataResponse as_DataResponse DataResponse.default
      DataResponseMarshaller.tightUnmarshal DataResponseMarshaller.tightMarshal1 DataResponseMarshaller.tightMarshal2 DataResponseMarshaller.looseUnmarshal DataResponseMarshaller.looseMarshal;
    marshaller_of 8 DDestinationInfo as_DestinationInfo DestinationInfo.default
      DestinationInfoMarshaller.tightUnmarshal DestinationInfoMarshaller.tightMarshal1 DestinationInfoMarshaller.tightMarshal2 DestinationInfoMarshaller.looseUnmarshal DestinationInfoMarshaller.looseMarshal;
    marshaller_of 40 DDiscoveryEvent as_DiscoveryEvent DiscoveryEvent.default
      DiscoveryEventMarshaller.tightUnmarshal DiscoveryEventMarshaller.tightMarshal1 DiscoveryEventMarshaller.tightMarshal2 DiscoveryEventMarshaller.looseUnmarshal DiscoveryEventMarshaller.looseMarshal;
    marshaller_of 31 DExceptionResponse as_ExceptionResponse ExceptionResponse.default
      ExceptionResponseMarshaller.tightUnmarshal ExceptionResponseMarshaller.tightMarshal1 ExceptionResponseMarshaller.tightMarshal2 ExceptionResponseMarshaller.looseUnmarshal ExceptionResponseMarshaller.looseMarshal;
    marshaller_of 15 DFlushCommand as_FlushCommand FlushCommand.default
      FlushCommandMarshaller.tightUnmarshal FlushCommandMarshaller.tightMarshal1 FlushCommandMarshaller.tightMarshal2 FlushCommandMarshaller.looseUnmarshal FlushCommandMarshaller.looseMarshal;
    marshaller_of 34 DIntegerResponse as_IntegerResponse IntegerResponse.default
      IntegerResponseMarshaller.tightUnmarshal IntegerResponseMarshaller.tightMarshal1 IntegerResponseMarshaller.tightMarshal2 IntegerResponseMarshaller.looseUnmarshal IntegerResponseMarshaller.looseMarshal;
    marshaller_of 52 DJournalQueueAck as_JournalQueueAck JournalQueueAck.default
      JournalQueueAckMarshaller.tightUnmarshal JournalQueueAckMarshaller.tightMarshal1 JournalQueueAckMarshaller.tightMarshal2 JournalQueueAckMarshaller.looseUnmarshal JournalQueueAckMarshaller.looseMarshal;
    marshaller_of 50 DJournalTopicAck as_JournalTopicAck JournalTopicAck.default
      JournalTopicAckMarshaller.tightUnmarshal JournalTopicAckMarshaller.tightMarshal1 JournalTopicAckMarshaller.tightMarshal2 JournalTopicAckMarshaller.looseUnmarshal JournalTopicAckMarshaller.looseMarshal;
    marshaller_of 53 DJournalTrace as_JournalTrace JournalTrace.default
      JournalTraceMarshaller.tightUnmarshal JournalTraceMarshaller.tightMarshal1 JournalTraceMarshaller.tightMarshal2 JournalTraceMarshaller.looseUnmarshal JournalTraceMarshaller.looseMarshal;
    marshaller_of 54 DJournalTransaction as_JournalTransaction JournalTransaction.default
      JournalTransactionMarshaller.tightUnmarshal JournalTransactionMarshaller.tightMarshal1 JournalTransactionMarshaller.tightMarshal2 JournalTransactionMarshaller.looseUnmarshal JournalTransactionMarshaller.looseMarshal;
    marshaller_of 10 DKeepAliveInfo as_KeepAliveInfo KeepAliveInfo.default
      KeepAliveInfoMarshaller.tightUnmarshal KeepAliveInfoMarshaller.tightMarshal1 KeepAliveInfoMarshaller.tightMarshal2 KeepAliveInfoMarshaller.looseUnmarshal KeepAliveInfoMarshaller.looseMarshal;
    marshaller_of 61 DLastPartialCommand as_LastPartialCommand LastPartialCommand.default
      LastPartialCommandMarshaller.tightUnmarshal LastPartialCommandMarshaller.tightMarshal1 LastPartialCommandMarshaller.tightMarshal2 LastPartialCommandMarshaller.looseUnmarshal LastPartialCommandMarshaller.looseMarshal;
    marshaller_of 111 (fun i => DTransactionId (TransactionId.LocalTransactionId i)) as_LocalTransactionId LocalTransactionId.default
      LocalTransactionIdMarshaller.tightUnmarshal LocalTransactionIdMarshaller.tightMarshal1 LocalTransactionIdMarshaller.tightMarshal2 LocalTransactionIdMarshaller.looseUnmarshal LocalTransactionIdMarshaller.looseMarshal;
    marshaller_of 22 DMessageAck as_MessageAck MessageAck.default
      MessageAckMarshaller.tightUnmarshal MessageAckMarshaller.tightMarshal1 MessageAckMarshaller.tightMarshal2 MessageAckMarshaller.looseUnmarshal MessageAckMarshaller.looseMarshal;
    marshaller_of 21 DMessageDispatch as_MessageDispatch MessageDispatch.default
      MessageDispatchMarshaller.tightUnmarshal MessageDispatchMarshaller.tightMarshal1 MessageDispatchMarshaller.tightMarshal2 MessageDispatchMarshaller.looseUnmarshal MessageDispatchMarshaller.looseMarshal;
    marshaller_of 90 DMessageDispatchNotification as_MessageDispatchNotification MessageDispatchNotification.default
      MessageDispatchNotificationMarshaller.tightUnmarshal MessageDispatchNotificationMarshaller.tightMarshal1 MessageDispatchNotificationMarshaller.tightMarshal2 MessageDispatchNotificationMarshaller.looseUnmarshal MessageDispatchNotificationMarshaller.looseMarshal;
    marshaller_of 110 DMessageId as_MessageId MessageId.default
      MessageIdMarshaller.tightUnmarshal MessageIdMarshaller.tightMarshal1 MessageIdMarshaller.tightMarshal2 MessageIdMarshaller.looseUnmarshal MessageIdMarshaller.looseMarshal;
    marshaller_of 20 DMessagePull as_MessagePull MessagePull.default
      MessagePullMarshaller.tightUnmarshal MessagePullMarshaller.tightMarshal1 MessagePullMarshaller.tightMarshal2 MessagePullMarshaller.looseUnmarshal MessagePullMarshaller.looseMarshal;
    marshaller_of 91 DNetworkBridgeFilter as_NetworkBridgeFilter NetworkBridgeFilter.default
      NetworkBridgeFilterMarshaller.tightUnmarshal NetworkBridgeFilterMarshaller.tightMarshal1 NetworkBridgeFilterMarshaller.tightMarshal2 NetworkBridgeFilterMarshaller.looseUnmarshal NetworkBridgeFilterMarshaller.looseMarshal;
    marshaller_of 60 DPartialCommand as_PartialCommand PartialCommand.default
      PartialCommandMarshaller.tightUnmarshal PartialCommandMarshaller.tightMarshal1 PartialCommandMarshaller.tightMarshal2 PartialCommandMarshaller.looseUnmarshal PartialCommandMarshaller.looseMarshal;
    marshaller_of 19 DProducerAck as_ProducerAck ProducerAck.default
      ProducerAckMarshaller.tightUnmarshal ProducerAckMarshaller.tightMarshal1 ProducerAckMarshaller.tightMarshal2 ProducerAckMarshaller.looseUnmarshal ProducerAckMarshaller.looseMarshal;
    marshaller_of 123 DProducerId as_ProducerId ProducerId.default
      ProducerIdMarshaller.tightUnmarshal ProducerIdMarshaller.tightMarshal1 ProducerIdMarshaller.tightMarshal2 ProducerIdMarshaller.looseUnmarshal ProducerIdMarshaller.looseMarshal;
    marshaller_of 6 DProducerInfo as_ProducerInfo ProducerInfo.default
      ProducerInfoMarshaller.tightUnmarshal ProducerInfoMarshaller.tightMarshal1 ProducerInfoMarshaller.tightMarshal2 ProducerInfoMarshaller.looseUnmarshal ProducerInfoMarshaller.looseMarshal;
    marshaller_of 12 DRemoveInfo as_RemoveInfo RemoveInfo.default
      RemoveInfoMarshaller.tightUnmarshal RemoveInfoMarshaller.tightMarshal1 RemoveInfoMarshaller.tightMarshal2 RemoveInfoMarshaller.looseUnmarshal RemoveInfoMarshaller.looseMarshal;
    marshaller_of 9 DRemoveSubscriptionInfo as_RemoveSubscriptionInfo RemoveSubscriptionInfo.default
      RemoveSubscriptionInfoMarshaller.tightUnmarshal RemoveSubscriptionInfoMarshaller.tightMarshal1 RemoveSubscriptionInfoMarshaller.tightMarshal2 RemoveSubscriptionInfoMarshaller.looseUnmarshal RemoveSubscriptionInfoMarshaller.looseMarshal;
    marshaller_of 65 DReplayCommand as_ReplayCommand ReplayCommand.default
      ReplayCommandMarshaller.tightUnmarshal ReplayCommandMarshaller.tightMarshal1 ReplayCommandMarshaller.tightMarshal2 ReplayCommandMarshaller.looseUnmarshal ReplayCommandMarshaller.looseMarshal;
    marshaller_of 30 DResponse as_Response Response.default
      ResponseMarshaller.tightUnmarshal ResponseMarshaller.tightMarshal1 ResponseMarshaller.tightMarshal2 ResponseMarshaller.looseUnmarshal ResponseMarshaller.looseMarshal;
    marshaller_of 121 DSessionId as_SessionId SessionId.default
      SessionIdMarshaller.tightUnmarshal SessionIdMarshaller.tightMarshal1 SessionIdMarshaller.tightMarshal2 SessionIdMarshaller.looseUnmarshal SessionIdMarshaller.looseMarshal;
    marshaller_of 4 DSessionInfo as_SessionInfo SessionInfo.default
      SessionInfoMarshaller.tightUnmarshal SessionInfoMarshaller.tightMarshal1 SessionInfoMarshaller.tightMarshal2 SessionInfoMarshaller.looseUnmarshal SessionInfoMarshaller.looseMarshal;
    marshaller_of 11 DShutdownInfo as_ShutdownInfo ShutdownInfo.default
      ShutdownInfoMarshaller.tightUnmarshal ShutdownInfoMarshaller.tightMarshal1 ShutdownInfoMarshaller.tightMarshal2 ShutdownInfoMarshaller.looseUnmarshal ShutdownInfoMarshaller.looseMarshal;
    marshaller_of 55 DSubscriptionInfo as_SubscriptionInfo SubscriptionInfo.default
      SubscriptionInfoMarshaller.tightUnmarshal SubscriptionInfoMarshaller.tightMarshal1 SubscriptionInfoMarshaller.tightMarshal2 SubscriptionInfoMarshaller.looseUnmarshal SubscriptionInfoMarshaller.looseMarshal;
    marshaller_of 7 DTransactionInfo as_TransactionInfo TransactionInfo.default
      TransactionInfoMarshaller.tightUnmarshal TransactionInfoMarshaller.tightMarshal1 TransactionInfoMarshaller.tightMarshal2 TransactionInfoMarshaller.looseUnmarshal TransactionInfoMarshaller.looseMarshal;
    marshaller_of 1 DWireFormatInfo as_WireFormatInfo WireFormatInfo.default
      WireFormatInfoMarshaller.tightUnmarshal WireFormatInfoMarshaller.tightMarshal1 WireFormatInfoMarshaller.tightMarshal2 WireFormatInfoMarshaller.looseUnmarshal WireFormatInfoMarshaller.looseMarshal;
    marshaller_of 112 (fun i => DTransactionId (TransactionId.XATransactionId i)) as_XATransactionId XATransactionId.default
      XATransactionIdMarshaller.tightUnmarshal XATransactionIdMarshaller.tightMarshal1 XATransactionIdMarshaller.tightMarshal2 XATransactionIdMarshaller.looseUnmarshal XATransactionIdMarshaller.looseMarshal
  ].

(** [MarshallerFactory::configure] on a table of 256 null pointers. *)
Definition configure : list (option (DataStreamMarshaller St)) :=
  fold_left addMarshaller marshallers (replicate 256 None).

(** [dataMarshallers[type & 0xFF]] *)
Definition dataMarshaller (type : Z) : option (DataStreamMarshaller St) :=
  mjoin (configure !! Z.to_nat (Z.land type 0xFF)).
End Registry.

(** ** Dispatch *)
Section Dispatch.
Context {St : Type} `{InputStreamLaws St} (n : nat).
Context `{Platform} `{WireOptions} `{!WireFormat St} `{!WireFormatLaws n}.

Lemma registered_all : Forall (fun m => dataMarshaller (m_getDataStructureType m) = Some m) (marshallers (St := St)).
Proof. repeat (constructor; [reflexivity |]). constructor. Qed.
Lemma registered k (m : DataStreamMarshaller St) : marshallers !! k = Some m ->
  dataMarshaller (m_getDataStructureType m) = Some m.
Proof. intros E. apply (proj1 (List.Forall_forall _ _) registered_all). by eapply list_elem_of_In, list_elem_of_lookup_2. Qed.

(** The table has a marshaller for [d0] that implements the layout of [d], what
    the hooks make of [d0]. *)
Definition served (d0 d : DataStructure) : Prop :=
  exists m, dataMarshaller (getDataStructureType d0) = Some m /\
    isMarshalAware (createObject m) = isMarshalAware d /\
    implements n (wire d) (arrived d) (m_tightMarshal1 m d0) (m_tightMarshal2 m d)
      (m_tightUnmarshal m (createObject m)) (m_looseMarshal m d0) (m_looseUnmarshal m (createObject m)).

Lemma served_by k {X} (up : X -> DataStructure) type down object tu t1 t2 lu lm x0 x x' :
  marshallers !! k = Some (marshaller_of type up down object tu t1 t2 lu lm) ->
  getDataStructureType (up x0) = type -> arrived (up x) = up x' ->
  (forall y, isMarshalAware (up y) = isMarshalAware (up x)) -> (forall y, down (up y) = Some y) ->
  implements n (wire (up x)) x' (t1 x0) (t2 x) (tu object) (lm x0) (lu object) ->
  served (up x0) (up x).
Proof.
  intros Hk Ht Ha Haware Hdown [H1' H2' Hu Hl Hlu]. exists (marshaller_of type up down object tu t1 t2 lu lm).
  split; [rewrite Ht; exact (registered _ _ Hk) |]. split; [apply Haware |].
  rewrite Ha. unfold marshaller_of. cbn [m_tightMarshal1 m_tightMarshal2 m_tightUnmarshal m_looseMarshal m_looseUnmarshal createObject].
  unfold on_class. rewrite !Hdown.
  split; try done.
  - by eapply (codec_map (guarded n (@parses St _ _))); [exact Hu |].
  - by eapply (codec_map (guarded n (@parsesL St _ _))); [exact Hlu |].
Qed.

Ltac serve k up type impl :=
  eapply (served_by k up); [reflexivity | type | reflexivity | by intros [] | by intros [] | impl].
Lemma dispatch d0 d : mutate d0 = Ok d -> served d0 d.
Proof.
  revert d. destruct d0; intros d'.
  - intros [= <-]. destruct (ActiveMQDestination.destinationType d) eqn:Ek.
    + serve 5%nat DDestination ltac:(cbn; by rewrite Ek) ltac:(rewrite <- Ek; refine (ActiveMQQueue_implements _ _)).
    + serve 10%nat DDestination ltac:(cbn; by rewrite Ek) ltac:(rewrite <- Ek; refine (ActiveMQTopic_implements _ _)).
    + serve 7%nat DDestination ltac:(cbn; by rewrite Ek) ltac:(rewrite <- Ek; refine (ActiveMQTempQueue_implements _ _)).
    + serve 8%nat DDestination ltac:(cbn; by rewrite Ek) ltac:(rewrite <- Ek; refine (ActiveMQTempTopic_implements _ _)).
  - intros [= <-]. destruct t as [i|i].
    + serve 34%nat (fun i => DTransactionId (TransactionId.LocalTransactionId i)) ltac:(done) ltac:(refine (LocalTransactionId_implements _ _)).
    + serve 55%nat (fun i => DTransactionId (TransactionId.XATransactionId i)) ltac:(done) ltac:(refine (XATransactionId_implements _ _)).
  - cbn [mutate]. destruct (mutate_message mutate m) as [m'|] eqn:Em; [|done]. intros [= <-].
    pose proof (ActiveMQMessage_implements n m m') as Hm. pose proof (ActiveMQBlobMessage_implements n m m') as Hb.
    destruct (Message.messageKind m) eqn:Ek; cbn [is_blob Message.fresh] in Hm, Hb.
    + serve 3%nat DMessage ltac:(cbn; unfold Message.getDataStructureType; by rewrite Ek) ltac:(exact (Hm eq_refl Em)).
    + serve 1%nat DMessage ltac:(cbn; unfold Message.getDataStructureType; by rewrite Ek) ltac:(exact (Hm eq_refl Em)).
    + serve 2%nat DMessage ltac:(cbn; unfold Message.getDataStructureType; by rewrite Ek) ltac:(exact (Hm eq_refl Em)).
    + serve 4%nat DMessage ltac:(cbn; unfold Message.getDataStructureType; by rewrite Ek) ltac:(exact (Hm eq_refl Em)).
    + serve 6%nat DMessage ltac:(cbn; unfold Message.getDataStructureType; by rewrite Ek) ltac:(exact (Hm eq_refl Em)).
    + serve 9%nat DMessage ltac:(cbn; unfold Message.getDataStructureType; by rewrite Ek) ltac:(exact (Hm eq_refl Em)).
    + serve 0%nat DMessage ltac:(cbn; unfold Message.getDataStructureType; by rewrite Ek) ltac:(exact (Hb eq_refl Em)).
  - intros [= <-]. serve 11%nat DBrokerId ltac:(done) ltac:(refine (BrokerId_implements _ _)).
  - intros [= <-]. serve 12%nat DBrokerInfo ltac:(done) ltac:(refine (BrokerInfo_implements _ _)).
  - intros [= <-]. serve 13%nat DConnectionControl ltac:(done) ltac:(refine (ConnectionControl_implements _ _)).
  - intros [= <-]. serve 14%nat DConnectionError ltac:(done) ltac:(refine (ConnectionError_implements _ _)).
  - intros [= <-]. serve 15%nat DConnectionId ltac:(done) ltac:(refine (ConnectionId_implements _ _)).
  - intros [= <-]. serve 16%nat DConnectionInfo ltac:(done) ltac:(refine (ConnectionInfo_implements _ _)).
  - intros [= <-]. serve 17%nat DConsumerControl ltac:(done) ltac:(refine (ConsumerControl_implements _ _)).
  - intros [= <-]. serve 18%nat DConsumerId ltac:(done) ltac:(refine (ConsumerId_implements _ _)).
  - intros [= <-]. serve 19%nat DConsumerInfo ltac:(done) ltac:(refine (ConsumerInfo_implements _ _)).
  - intros [= <-]. serve 20%nat DControlCommand ltac:(done) ltac:(refine (ControlCommand_implements _ _)).
  - cbn [mutate]. destruct (mutate_list mutate (DataArrayResponse.data i)) as [o|] eqn:Eo; [|done]. intros [= <-].
    serve 21%nat DDataArrayResponse ltac:(done) ltac:(exact (DataArrayResponse_implements n i o Eo)).
  - cbn [mutate]. destruct (mutate_option mutate (DataResponse.data i)) as [o|] eqn:Eo; [|done]. intros [= <-].
    serve 22%nat DDataResponse ltac:(done) ltac:(exact (DataResponse_implements n i o Eo)).
  - intros [= <-]. serve 23%nat DDestinationInfo ltac:(done) ltac:(refine (DestinationInfo_implements _ _)).
  - intros [= <-]. serve 24%nat DDiscoveryEvent ltac:(done) ltac:(refine (DiscoveryEvent_implements _ _)).
  - intros [= <-]. serve 25%nat DExceptionResponse ltac:(done) ltac:(refine (ExceptionResponse_implements _ _)).
  - intros [= <-]. serve 26%nat DFlushCommand ltac:(done) ltac:(refine (FlushCommand_implements _ _)).
  - intros [= <-]. serve 27%nat DIntegerResponse ltac:(done) ltac:(refine (IntegerResponse_implements _ _)).
  - intros [= <-]. serve 28%nat DJournalQueueAck ltac:(done) ltac:(refine (JournalQueueAck_implements _ _)).
  - intros [= <-]. serve 29%nat DJournalTopicAck ltac:(done) ltac:(refine (JournalTopicAck_implements _ _)).
  - intros [= <-]. serve 30%nat DJournalTrace ltac:(done) ltac:(refine (JournalTrace_implements _ _)).
  - intros [= <-]. serve 31%nat DJournalTransaction ltac:(done) ltac:(refine (JournalTransaction_implements _ _)).
  - intros [= <-]. serve 32%nat DKeepAliveInfo ltac:(done) ltac:(refine (KeepAliveInfo_implements _ _)).
  - intros [= <-]. serve 33%nat DLastPartialCommand ltac:(done) ltac:(refine (LastPartialCommand_implements _ _)).
  - intros [= <-]. serve 35%nat DMessageAck ltac:(done) ltac:(refine (MessageAck_implements _ _)).
  - cbn [mutate]. destruct (mutate_option (mutate_message mutate) (MessageDispatch.message i)) as [o|] eqn:Eo; [|done]. intros [= <-].
    serve 36%nat DMessageDispatch ltac:(done) ltac:(exact (MessageDispatch_implements n i o Eo)).
  - intros [= <-]. serve 37%nat DMessageDispatchNotification ltac:(done) ltac:(refine (MessageDispatchNotification_implements _ _)).
  - intros [= <-]. serve 38%nat DMessageId ltac:(done) ltac:(refine (MessageId_implements _ _)).
  - intros [= <-]. serve 39%nat DMessagePull ltac:(done) ltac:(refine (MessagePull_implements _ _)).
  - intros [= <-]. serve 40%nat DNetworkBridgeFilter ltac:(done) ltac:(refine (NetworkBridgeFilter_implements _ _)).
  - intros [= <-]. serve 41%nat DPartialCommand ltac:(done) ltac:(refine (PartialCommand_implements _ _)).
  - intros [= <-]. serve 42%nat DProducerAck ltac:(done) ltac:(refine (ProducerAck_implements _ _)).
  - intros [= <-]. serve 43%nat DProducerId ltac:(done) ltac:(refine (ProducerId_implements _ _)).
  - intros [= <-]. serve 44%nat DProducerInfo ltac:(done) ltac:(refine (ProducerInfo_implements _ _)).
  - cbn [mutate]. destruct (mutate_option mutate (RemoveInfo.objectId i)) as [o|] eqn:Eo; [|done]. intros [= <-].
    serve 45%nat DRemoveInfo ltac:(done) ltac:(exact (RemoveInfo_implements n i o Eo)).
  - intros [= <-]. serve 46%nat DRemoveSubscriptionInfo ltac:(done) ltac:(refine (RemoveSubscriptionInfo_implements _ _)).
  - intros [= <-]. serve 47%nat DReplayCommand ltac:(done) ltac:(refine (ReplayCommand_implements _ _)).
  - intros [= <-]. serve 48%nat DResponse ltac:(done) ltac:(refine (Response_implements _ _)).
  - intros [= <-]. serve 49%nat DSessionId ltac:(done) ltac:(refine (SessionId_implements _ _)).
  - intros [= <-]. serve 50%nat DSessionInfo ltac:(done) ltac:(refine (SessionInfo_implements _ _)).
  - intros [= <-]. serve 51%nat DShutdownInfo ltac:(done) ltac:(refine (ShutdownInfo_implements _ _)).
  - intros [= <-]. serve 52%nat DSubscriptionInfo ltac:(done) ltac:(refine (SubscriptionInfo_implements _ _)).
  - intros [= <-]. serve 53%nat DTransactionInfo ltac:(done) ltac:(refine (TransactionInfo_implements _ _)).
  - cbn [mutate]. destruct (WireFormatInfo.beforeMarshal i) as [i'|] eqn:Ei; [|done]. intros [= <-].
    serve 54%nat DWireFormatInfo ltac:(done) ltac:(by refine (WireFormatInfo_implements _ _ _ _)).
Qed.
End Dispatch.
