(* ===== verification/OpenWire.v ===== *)
(** * OpenWireFormat

    activemq/wireformat/openwire/OpenWireFormat.cpp: the negotiated options, the
    marshalling of nested objects, and [marshal]/[unmarshal] of a command.

    Objects nest and a marshaller calls back into the wire format, so the
    recursion is bounded by [fuel]; [wireFormat fuel] is the wire format whose
    nested calls may go that deep.  A nested object has at least two fields more
    than the objects it refers to, so the number of fields of a command is
    enough: the laws of [WireFormat] are discharged by induction on it.

    The first pass and the loose marshaller run the marshalling hooks of the
    objects they visit; [mutate] is what this leaves in the object the second
    pass is called with. *)

From S2P Require Import Prelude DataStreams PrimitiveTypes Support BooleanStreams Wire BaseMarshaller Commands Layouts MarshallerBase.
From S2P Require Import IdMarshallers ConnectionMarshallers ResponseMarshallers MessageMarshallers Registry.

(** A boolean stream, or an output buffer, of its own for part of the code. *)
Definition local_bs {St A} (b : BooleanStream.t) (m : M (io St) A) : M (io St) A := fun s =>
  match m (Io (ins s) (outs s) b) with
  | Ok (a, s') => Ok (a, Io (ins s') (outs s') (bstream s))
  | Err f => Err f
  end.
Definition local_out {St A} (m : M (io St) A) : M (io St) (A * list Z) := fun s =>
  match m (Io (ins s) [] (bstream s)) with
  | Ok (a, s') => Ok ((a, outs s'), Io (ins s') (outs s) (bstream s'))
  | Err f => Err f
  end.
(** [bs.marshal(dataOut)] and [bs.marshalledSize()] *)
Definition marshal_bs {St} : M (io St) unit := fun s =>
  match BooleanStream.marshal (bstream s) (outs s) with
  | Ok (b, o) => Ok (tt, Io (ins s) o b)
  | Err f => Err f
  end.
Definition bs_size {St} : M (io St) Z := fun s => Ok (BooleanStream.marshalledSize (bstream s), s).

Module OpenWireFormat.

(** ** Nested objects *)
Section Nested.
Context `{Platform} `{WireOptions} {St : Type} `{InputStream St} `{!WireFormat St}.

(** BaseDataStructure::getMarshaledForm; no class of the library overrides it. *)
Definition getMarshaledForm (object : DataStructure) : list Z := [].

Definition tightMarshalNestedObject1 (object : option DataStructure) : M (io St) Z :=
  catch_io (
    bs (BooleanStream.writeBoolean (bool_decide (is_Some object))) ;;;
    match object with
    | None => ret 0
    | Some object =>
      let body :=
        let type := getDataStructureType object in
        if type =? 0 then raise IOException
        else match dataMarshaller type with
             | None => raise IOException
             | Some dsm => let* n := m_tightMarshal1 dsm object in ret (1 + n)
             end in
      if isMarshalAware object then
        let sequence := getMarshaledForm object in
        bs (BooleanStream.writeBoolean (nonempty sequence)) ;;;
        if nonempty sequence then ret (1 + zlen sequence) else body
      else body
    end).

Definition tightMarshalNestedObject2 (o : option DataStructure) : M (io St) unit :=
  catch_io (
    let* present := bs BooleanStream.readBoolean in
    if present then
      match o with
      | None => undef
      | Some o =>
        let type := getDataStructureType o in
        dataOut (DataOutputStream.writeByte type) ;;;
        let* sequenced := (if isMarshalAware o then bs BooleanStream.readBoolean else ret false) in
        if sequenced then
          match getMarshaledForm o with
          | [] => undef
          | sequence => dataOut (DataOutputStream.writeArray sequence (to_s32 (zlen sequence)) 0 (to_s32 (zlen sequence)))
          end
        else
          match dataMarshaller type with
          | None => raise IOException
          | Some dsm => m_tightMarshal2 dsm o
          end
      end
    else ret ()).

Definition tightUnmarshalNestedObject : M (io St) (option DataStructure) :=
  catch_io (
    let* present := bs BooleanStream.readBoolean in
    if present then
      let* dataType := NestedObjects.readUByte in
      match dataMarshaller dataType with
      | None => raise IOException
      | Some dsm =>
        let data := createObject dsm in
        let* sequenced := (if isMarshalAware data then bs BooleanStream.readBoolean else ret false) in
        let* data :=
          (if sequenced then
             dataIn DataInputStream.readInt ;;;
             dataIn DataInputStream.readByte ;;;
             let* bs2 := dataIn BooleanStream.unmarshal in
             local_bs bs2 (m_tightUnmarshal dsm data)
           else m_tightUnmarshal dsm data) in
        ret (Some data)
      end
    else ret None).

Definition looseUnmarshalNestedObject : M (io St) (option DataStructure) :=
  catch_io (
    let* present := dataIn DataInputStream.readBoolean in
    if present then
      let* dataType := NestedObjects.readUByte in
      match dataMarshaller dataType with
      | None => raise IOException
      | Some dsm => let* data := m_looseUnmarshal dsm (createObject dsm) in ret (Some data)
      end
    else ret None).

Definition looseMarshalNestedObject (o : option DataStructure) : M (io St) unit :=
  catch_io (
    dataOut (DataOutputStream.writeBoolean (bool_decide (is_Some o))) ;;;
    match o with
    | None => ret ()
    | Some o =>
      let dataType := getDataStructureType o in
      dataOut (DataOutputStream.writeByte dataType) ;;;
      match dataMarshaller dataType with
      | None => raise IOException
      | Some dsm => m_looseMarshal dsm o
      end
    end).
End Nested.

Fixpoint wireFormat `{Platform} `{WireOptions} {St : Type} `{InputStream St} (fuel : nat) : WireFormat St :=
  match fuel with
  | O =>
    {| wf_fuel := O;
       wf_tightMarshalNestedObject1 := fun _ _ => Err NoFuel;
       wf_tightMarshalNestedObject2 := fun _ _ => Err NoFuel;
       wf_tightUnmarshalNestedObject := fun _ => Err NoFuel;
       wf_looseMarshalNestedObject := fun _ _ => Err NoFuel;
       wf_looseUnmarshalNestedObject := fun _ => Err NoFuel |}
  | S fuel' =>
    {| wf_fuel := fuel;
       wf_tightMarshalNestedObject1 := tightMarshalNestedObject1 (WireFormat0 := wireFormat fuel');
       wf_tightMarshalNestedObject2 := tightMarshalNestedObject2 (WireFormat0 := wireFormat fuel');
       wf_tightUnmarshalNestedObject := tightUnmarshalNestedObject (WireFormat0 := wireFormat fuel');
       wf_looseMarshalNestedObject := looseMarshalNestedObject (WireFormat0 := wireFormat fuel');
       wf_looseUnmarshalNestedObject := looseUnmarshalNestedObject (WireFormat0 := wireFormat fuel') |}
  end.

(** ** The options and their negotiation *)
Record t := mk {
  version : Z;
  stackTraceEnabled : bool;
  tcpNoDelayEnabled : bool;
  cacheEnabled : bool;
  cacheSize : Z;
  tightEncodingEnabled : bool;
  sizePrefixDisabled : bool;
  maxInactivityDuration : Z;
  maxInactivityDurationInitialDelay : Z;
  preferedWireFormatInfo : option WireFormatInfo.t
}.

Definition NULL_TYPE : Z := 0.
Definition DEFAULT_VERSION : Z := 1.
Definition MAX_SUPPORTED_VERSION : Z := 11.

Definition set_version (w : t) (v : Z) : t :=
  {| version := v; stackTraceEnabled := stackTraceEnabled w; tcpNoDelayEnabled := tcpNoDelayEnabled w;
     cacheEnabled := cacheEnabled w; cacheSize := cacheSize w; tightEncodingEnabled := tightEncodingEnabled w;
     sizePrefixDisabled := sizePrefixDisabled w; maxInactivityDuration := maxInactivityDuration w;
     maxInactivityDurationInitialDelay := maxInactivityDurationInitialDelay w;
     preferedWireFormatInfo := preferedWireFormatInfo w |}.
Definition setPreferedWireFormatInfo (w : t) (info : option WireFormatInfo.t) : t :=
  {| version := version w; stackTraceEnabled := stackTraceEnabled w; tcpNoDelayEnabled := tcpNoDelayEnabled w;
     cacheEnabled := cacheEnabled w; cacheSize := cacheSize w; tightEncodingEnabled := tightEncodingEnabled w;
     sizePrefixDisabled := sizePrefixDisabled w; maxInactivityDuration := maxInactivityDuration w;
     maxInactivityDurationInitialDelay := maxInactivityDurationInitialDelay w;
     preferedWireFormatInfo := info |}.

(** The exceptions of [setVersion] are IllegalArgumentExceptions already. *)
Definition setVersion (w : t) (v : Z) : result t :=
  if v =? version w then Ok w
  else if MAX_SUPPORTED_VERSION <? v then throw IllegalArgumentException
  else Ok (set_version w v).

(** The constructor. *)
Definition init : t :=
  set_version
    {| version := 0; stackTraceEnabled := true; tcpNoDelayEnabled := true; cacheEnabled := true;
       cacheSize := 1024; tightEncodingEnabled := false; sizePrefixDisabled := false;
       maxInactivityDuration := 30000; maxInactivityDurationInitialDelay := 10000;
       preferedWireFormatInfo := None |}
    DEFAULT_VERSION.

Definition renegotiateWireFormat (w : t) (info : WireFormatInfo.t) : result t :=
  match preferedWireFormatInfo w with
  | None => throw IllegalStateException
  | Some prefered =>
    rbind (setVersion w (Z.min (WireFormatInfo.version prefered) (WireFormatInfo.version info))) (fun w =>
    Ok {| version := version w;
          stackTraceEnabled := WireFormatInfo.isStackTraceEnabled info && WireFormatInfo.isStackTraceEnabled prefered;
          tcpNoDelayEnabled := WireFormatInfo.isTcpNoDelayEnabled info && WireFormatInfo.isTcpNoDelayEnabled prefered;
          cacheEnabled := WireFormatInfo.isCacheEnabled info && WireFormatInfo.isCacheEnabled prefered;
          cacheSize := Z.min (WireFormatInfo.getCacheSize info) (WireFormatInfo.getCacheSize prefered);
          tightEncodingEnabled :=
            WireFormatInfo.isTightEncodingEnabled info && WireFormatInfo.isTightEncodingEnabled prefered;
          sizePrefixDisabled :=
            WireFormatInfo.isSizePrefixDisabled info && WireFormatInfo.isSizePrefixDisabled prefered;
          maxInactivityDuration :=
            Z.min (WireFormatInfo.getMaxInactivityDuration info) (WireFormatInfo.getMaxInactivityDuration prefered);
          maxInactivityDurationInitialDelay :=
            Z.min (WireFormatInfo.getMaxInactivityDurationInitalDelay info)
              (WireFormatInfo.getMaxInactivityDurationInitalDelay prefered);
          preferedWireFormatInfo := preferedWireFormatInfo w |})
  end.

(** ** Commands *)
Section Commands.
Context `{Platform} {St : Type} `{InputStream St}.

Definition options (w : t) : WireOptions :=
  {| wireVersion := version w; Layouts.stackTraceEnabled := stackTraceEnabled w |}.

Definition marshal (w : t) (fuel : nat) (command : option DataStructure) : M (io St) unit :=
  let _ := options w in
  let _ := wireFormat (St := St) fuel in
  catch_io (
    match command with
    | None =>
      dataOut (DataOutputStream.writeInt 1) ;;;
      dataOut (DataOutputStream.writeByte NULL_TYPE)
    | Some dataStructure =>
      let type := getDataStructureType dataStructure in
      match dataMarshaller type with
      | None => raise IOException
      | Some dsm =>
        if tightEncodingEnabled w then
          local_bs BooleanStream.init (
            let* n := m_tightMarshal1 dsm dataStructure in
            let* dataStructure := lift (mutate dataStructure) in
            let* m := bs_size in
            (if sizePrefixDisabled w then ret ()
             else dataOut (DataOutputStream.writeInt (to_s32 (1 + n + m)))) ;;;
            dataOut (DataOutputStream.writeByte type) ;;;
            marshal_bs ;;;
            m_tightMarshal2 dsm dataStructure)
        else if sizePrefixDisabled w then
          dataOut (DataOutputStream.writeByte type) ;;;
          m_looseMarshal dsm dataStructure
        else
          let* '(_, baos) := local_out (
            dataOut (DataOutputStream.writeByte type) ;;;
            m_looseMarshal dsm dataStructure) in
          dataOut (DataOutputStream.writeInt (to_s32 (zlen baos))) ;;;
          if 0 <? zlen baos
          then dataOut (DataOutputStream.writeArray baos (to_s32 (zlen baos)) 0 (to_s32 (zlen baos)))
          else ret ()
      end
    end).

Definition doUnmarshal (w : t) (fuel : nat) : M (io St) (option DataStructure) :=
  let _ := options w in
  let _ := wireFormat (St := St) fuel in
  catch_io (
    let* dataType := NestedObjects.readUByte in
    if dataType =? NULL_TYPE then ret None
    else
      match dataMarshaller dataType with
      | None => raise IOException
      | Some dsm =>
        let data := createObject dsm in
        let* data :=
          (if tightEncodingEnabled w then
             let* b := dataIn BooleanStream.unmarshal in
             local_bs b (m_tightUnmarshal dsm data)
           else m_looseUnmarshal dsm data) in
        ret (Some data)
      end).

Definition unmarshal (w : t) (fuel : nat) : M (io St) DataStructure :=
  catch_io (
    (if sizePrefixDisabled w then ret tt
     else dataIn DataInputStream.readInt ;;; ret tt) ;;;
    let* data := doUnmarshal w fuel in
    match data with
    | None => raise IOException
    | Some data => if isCommand data then ret data else raise ClassCastException
    end).
End Commands.
End OpenWireFormat.

(** ** The laws of the interface *)
Lemma mutate_keeps `{Platform} d0 d : mutate d0 = Ok d ->
  getDataStructureType d = getDataStructureType d0 /\ isMarshalAware d = isMarshalAware d0.
Proof.
  destruct d0; cbn [mutate]; try (by intros [= <-]);
    (unfold rbind; case_match eqn:E; [|done]; intros [= <-]; split; [|done]); try done.
  apply mutate_message_fresh in E. cbn. unfold Message.getDataStructureType.
  by destruct (Message.messageKind m), (Message.messageKind a).
Qed.
Lemma type_range d : 0 < getDataStructureType d < 256.
Proof.
  destruct d; cbn; try lia; unfold destination_type, transaction_type, Message.getDataStructureType;
    case_match; lia.
Qed.

Section Laws.
Context `{Platform} `{WireOptions} {St : Type} `{InputStreamLaws St}.
Import OpenWireFormat.

(** A nested object, split into its header and its body. *)
Lemma nest_some d :
  nest (Some d) = [FBool true] ++ [FByte (getDataStructureType d)] ++
    (if isMarshalAware d then [FTightBit false] else []) ++ wire d.
Proof. done. Qed.
Lemma within_nest n d : within (S n) (nest (Some d)) -> within n (wire d).
Proof.
  rewrite nest_some. intros [Hw Hl]. rewrite !wok_app, !andb_true_iff in Hw. rewrite !length_app in Hl.
  split; [tauto | cbn in Hl; lia].
Qed.
Lemma size_nest d : zlen (wbody (nest (Some d))) = 1 + zlen (wbody (wire d)).
Proof. rewrite nest_some, !zlen_wbody_app. by destruct (isMarshalAware d). Qed.

Section Step.
Context (n : nat) `{!WireFormat St} `{!WireFormatLaws n}.

Lemma nested1_law o0 o : mutate_option mutate o0 = Ok o ->
  gsizes (S n) (nest o) (tightMarshalNestedObject1 o0).
Proof.
  intros Hm Hw. apply marks_catch. destruct o0 as [d0|].
  2: { injection Hm as <-. eapply (marks_bind [_] []); [apply marks_flag | apply marks_ret]. }
  unfold mutate_option in Hm. destruct (mutate d0) as [d|] eqn:Ed; [|done]. injection Hm as <-.
  destruct (dispatch n d0 d Ed) as (m & Hk & _ & [Hi _ _ _ _]).
  destruct (mutate_keeps _ _ Ed) as [Et Ea]. pose proof (type_range d0).
  specialize (Hi (within_nest _ _ Hw)). rewrite size_nest. rewrite nest_some.
  eapply (marks_bind [_]); [apply marks_flag |]. apply (marks_skip [_]); [done |].
  cbv zeta. destruct (Z.eqb_spec (getDataStructureType d0) 0); [lia |]. rewrite Hk, Ea.
  assert (Hb : marks (wire d) (let* n := m_tightMarshal1 m d0 in ret (1 + n)) (1 + zlen (wbody (wire d)))).
  { by eapply (codec_map (@marks St _ _)); [exact Hi |]. }
  destruct (isMarshalAware d0); [|done]. by eapply (marks_bind [_]); [apply marks_tbit |].
Qed.

Lemma nested2_law o : prepared o -> guarded (S n) (@emits St _ _) _ (nest o) (tightMarshalNestedObject2 o) tt.
Proof.
  intros [o0 Hm] Hw. apply emits_catch. destruct o0 as [d0|].
  2: { injection Hm as <-. eapply (emits_bind [_] []); [apply emits_flag | apply emits_ret]. }
  unfold mutate_option in Hm. destruct (mutate d0) as [d|] eqn:Ed; [|done]. injection Hm as <-.
  destruct (dispatch n d0 d Ed) as (m & Hk & _ & [_ Hi _ _ _]).
  destruct (mutate_keeps _ _ Ed) as [Et Ea].
  specialize (Hi (within_nest _ _ Hw)). rewrite nest_some. pose proof (type_range d) as Ht.
  eapply (emits_bind [_]); [apply emits_flag |].
  eapply (emits_bind [_]); [by apply write_emits, is_u_spec; lia |].
  destruct (isMarshalAware d).
  - eapply (emits_bind [_]); [apply emits_tbit |]. cbv iota. by rewrite Et, Hk.
  - eapply (emits_bind []); [apply emits_ret |]. cbv iota. by rewrite Et, Hk.
Qed.

(** The type of an object is read back. *)
Lemma type_parses d : parses [FByte (getDataStructureType d)] NestedObjects.readUByte (getDataStructureType d).
Proof. pose proof (type_range d). apply (gp_byte 1%nat). split; [|done]. unfold wok. cbn. by rewrite (proj2 (is_u_spec 8 _)) by lia. Qed.
Lemma type_parsesL d : parsesL [FByte (getDataStructureType d)] NestedObjects.readUByte (getDataStructureType d).
Proof. pose proof (type_range d). apply (gq_byte 1%nat). split; [|done]. unfold wok. cbn. by rewrite (proj2 (is_u_spec 8 _)) by lia. Qed.
Lemma type_emits d : emits [FByte (getDataStructureType d)] (dataOut (DataOutputStream.writeByte (getDataStructureType d))) tt.
Proof. apply write_emits, is_u_spec. pose proof (type_range d). lia. Qed.
Lemma type_emitsL d : emitsL [FByte (getDataStructureType d)] (dataOut (DataOutputStream.writeByte (getDataStructureType d))) tt.
Proof. apply write_emitsL, is_u_spec. pose proof (type_range d). lia. Qed.

Lemma nested_unmarshal_law o : prepared o ->
  guarded (S n) (@parses St _ _) _ (nest o) tightUnmarshalNestedObject (option_map arrived o).
Proof.
  intros [o0 Hm] Hw. apply parses_catch. destruct o0 as [d0|].
  2: { injection Hm as <-. eapply (parses_bind [_] []); [apply parses_flag | apply parses_ret]. }
  unfold mutate_option in Hm. destruct (mutate d0) as [d|] eqn:Ed; [|done]. injection Hm as <-.
  destruct (dispatch n d0 d Ed) as (m & Hk & Haw & [_ _ Hi _ _]).
  destruct (mutate_keeps _ _ Ed) as [Et _].
  specialize (Hi (within_nest _ _ Hw)). rewrite nest_some.
  eapply (parses_bind [_]); [apply parses_flag |].
  eapply (parses_bind [_]); [apply type_parses |]. rewrite Et, Hk. cbv zeta iota. rewrite Haw.
  destruct (isMarshalAware d);
    (eapply parses_bind; [apply parses_tbit || apply parses_ret |]); cbv iota;
    by eapply (codec_map (@parses St _ _)); [exact Hi |].
Qed.

Lemma nested_looseMarshal_law o0 o : mutate_option mutate o0 = Ok o ->
  guarded (S n) (@emitsL St _ _) _ (nest o) (looseMarshalNestedObject o0) tt.
Proof.
  intros Hm Hw. apply emitsL_catch. destruct o0 as [d0|].
  2: { injection Hm as <-. eapply (emitsL_bind [_] []); [apply writeBoolean_emitsL | apply emitsL_ret]. }
  unfold mutate_option in Hm. destruct (mutate d0) as [d|] eqn:Ed; [|done]. injection Hm as <-.
  destruct (dispatch n d0 d Ed) as (m & Hk & _ & [_ _ _ Hi _]).
  destruct (mutate_keeps _ _ Ed) as [Et _].
  specialize (Hi (within_nest _ _ Hw)). rewrite nest_some, Et.
  eapply (emitsL_bind [_]); [apply writeBoolean_emitsL |].
  eapply (emitsL_bind [_]); [apply type_emitsL |]. rewrite Hk.
  destruct (isMarshalAware d); exact Hi.
Qed.

Lemma nested_looseUnmarshal_law o : prepared o ->
  guarded (S n) (@parsesL St _ _) _ (nest o) looseUnmarshalNestedObject (option_map arrived o).
Proof.
  intros [o0 Hm] Hw. apply parsesL_catch. destruct o0 as [d0|].
  2: { injection Hm as <-. eapply (parsesL_bind [_] []); [apply readBoolean_parsesL | apply parsesL_ret]. }
  unfold mutate_option in Hm. destruct (mutate d0) as [d|] eqn:Ed; [|done]. injection Hm as <-.
  destruct (dispatch n d0 d Ed) as (m & Hk & _ & [_ _ _ _ Hi]).
  destruct (mutate_keeps _ _ Ed) as [Et _].
  specialize (Hi (within_nest _ _ Hw)). rewrite nest_some.
  eapply (parsesL_bind [_]); [apply readBoolean_parsesL |].
  eapply (parsesL_bind [_]); [apply type_parsesL |]. rewrite Et, Hk.
  eapply (codec_map (@parsesL St _ _)); [|done]. destruct (isMarshalAware d); exact Hi.
Qed.
End Step.

(** The wire format with fuel [n] keeps its promises for layouts of [n] fields. *)
Lemma wireFormat_laws n : WireFormatLaws n (WireFormat0 := wireFormat n) (St := St).
Proof.
  induction n as [|n IH].
  { assert (Hno : forall o, ~ within 0 (nest o)).
    { intros o [_ Hl]. destruct o; cbn in Hl; lia. }
    split; [done | ..]; intros; intros Hw; by apply Hno in Hw. }
  split; [done | ..].
  - exact (nested1_law n).
  - exact (nested2_law n).
  - exact (nested_unmarshal_law n).
  - exact (nested_looseMarshal_law n).
  - exact (nested_looseUnmarshal_law n).
Qed.
End Laws.

(** ** Commands over the wire *)
Section RoundTrip.
Context `{Platform} {St : Type} `{InputStreamLaws St}.
Import OpenWireFormat.

Lemma exec_local_bs {A} (P Q : io St -> Prop) inp out inp' out' b (m : M (io St) A) v :
  exec P m v Q -> (forall s, LS inp out s -> P (Io (ins s) (outs s) b)) ->
  (forall s, Q s -> LS inp' out' s) -> exec (LS inp out) (local_bs b m) v (LS inp' out').
Proof.
  intros Hm HP HQ s Hs. destruct (Hm _ (HP s Hs)) as (s' & E & Hs'). apply HQ in Hs' as [Hi Ho].
  eexists. split; [unfold local_bs; by rewrite E |]. done.
Qed.

(** The layout of a command under the negotiated options, and the frame of its
    encoding [form]. *)
Definition command_layout (w : t) (d : DataStructure) : layout := @wire _ (options w) d.
Definition frame (w : t) (form : list Z) : list Z :=
  (if sizePrefixDisabled w then [] else be 4 (zlen form)) ++ form.

(** What the protocol can carry: a command whose fields satisfy the requirements
    of the layout, whose flags fit the boolean stream and whose size fits an int. *)
Definition sendable (w : t) (d : DataStructure) : bool :=
  let fs := command_layout w d in
  isCommand d && wok fs && (zlen (wbits fs) <=? max_bits) &&
  (zlen (if tightEncodingEnabled w then wbody fs else wloose fs) <? 2 ^ 31 - 32771).

Lemma isCommand_arrived d : isCommand (arrived d) = isCommand d.
Proof. by destruct d. Qed.

(** The marshaller both ends use for the command. *)
Lemma served_command w fuel d0 d : mutate d0 = Ok d -> sendable w d = true ->
  (length (command_layout w d) <= fuel)%nat ->
  exists m, @dataMarshaller _ (options w) St _ (@wireFormat _ (options w) St _ fuel) (getDataStructureType d0) = Some m /\
    marks (command_layout w d) (m_tightMarshal1 m d0) (zlen (wbody (command_layout w d))) /\
    emits (command_layout w d) (m_tightMarshal2 m d) tt /\
    parses (command_layout w d) (m_tightUnmarshal m (createObject m)) (arrived d) /\
    emitsL (command_layout w d) (m_looseMarshal m d0) tt /\
    parsesL (command_layout w d) (m_looseUnmarshal m (createObject m)) (arrived d).
Proof.
  intros Hm Hs Hf. unfold sendable in Hs. rewrite !andb_true_iff in Hs.
  assert (Hw : within fuel (command_layout w d)) by (split; [tauto | done]).
  destruct (@dispatch St _ _ fuel _ (options w) _ (@wireFormat_laws _ (options w) St _ _ fuel) d0 d Hm)
    as (m & Hk & _ & [I1 I2 I3 I4 I5]).
  exists m. split; [done |]. repeat split; auto.
Qed.

Lemma prefix_written w (form : list Z) (s : io St) {A} (k : M (io St) A) :
  ((if sizePrefixDisabled w then ret () else dataOut (DataOutputStream.writeInt (to_s32 (zlen form)))) ;;; k) s =
  k (Io (ins s) (outs s ++ (if sizePrefixDisabled w then [] else be 4 (zlen form))) (bstream s)).
Proof.
  unfold bind. destruct (sizePrefixDisabled w).
  - unfold ret. rewrite app_nil_r. by destruct s.
  - unfold dataOut. rewrite writeInt_be, (be_swrap 4 32) by lia. done.
Qed.
Lemma type_uwrap d : to_u8 (getDataStructureType d) = getDataStructureType d.
Proof. apply uwrap_small. pose proof (type_range d). lia. Qed.

Lemma tight_written w fuel d0 d inp out s : tightEncodingEnabled w = true ->
  mutate d0 = Ok d -> sendable w d = true -> (length (command_layout w d) <= fuel)%nat -> LS inp out s ->
  exists b s', marshal w fuel (Some d0) s = Ok (tt, s') /\ writing b (wbits (command_layout w d)) /\
    LS inp (out ++ frame w (getDataStructureType d0 :: marshal_form b ++ wbody (command_layout w d))) s'.
Proof.
  intros Ht Hm Hs Hf [Hi Ho]. destruct (served_command w fuel d0 d Hm Hs Hf) as (m & Hk & H1' & H2' & _).
  unfold sendable in Hs. rewrite !andb_true_iff, Z.leb_le, Ht, Z.ltb_lt in Hs.
  set (fs := command_layout w d) in *.
  destruct (H1' inp [] out ltac:(cbn; tauto) (Io (ins s) (outs s) BooleanStream.init)) as (s1 & E1 & Hi1 & Hb1 & Ho1).
  { split; [done | split; [apply writing_init | done]]. }
  pose proof (zlen_marshal_form _ _ Hb1) as Hsz.
  destruct (writing_limit _ _ Hb1) as (Hlim & _).
  exists (bstream s1). unfold marshal. cbv zeta iota beta. rewrite Hk, Ht.
  unfold catch_io, local_bs, bind at 1. rewrite E1. unfold bind at 1, lift. rewrite Hm. cbn [rbind].
  unfold bind at 1, bs_size. set (form := getDataStructureType d0 :: marshal_form (bstream s1) ++ wbody fs).
  assert (Hform : zlen form = 1 + zlen (wbody fs) + BooleanStream.marshalledSize (bstream s1)) by (unfold form; len).
  destruct (H2' inp [] (out ++ (if sizePrefixDisabled w then [] else be 4 (zlen form)) ++ [getDataStructureType d0] ++ marshal_form (bstream s1))
    (Io (ins s1) (out ++ (if sizePrefixDisabled w then [] else be 4 (zlen form)) ++ [getDataStructureType d0] ++ marshal_form (bstream s1)) (BooleanStream.clear (bstream s1))))
    as (s2 & E2 & Hi2 & _ & Ho2).
  { split; [done |]. split; [|done]. rewrite app_nil_r. by apply writing_clear. }
  rewrite <- Hform, (prefix_written w form s1).
  unfold bind at 1, dataOut, DataOutputStream.writeByte, DataOutputStream.write. cbn [ins outs bstream].
  rewrite type_uwrap. unfold bind at 1, marshal_bs. cbn [ins outs bstream].
  rewrite (marshal_writes _ _ _ Hb1), Ho1, <- !app_assoc, E2.
  eexists. split; [reflexivity |]. split; [done |]. split; [done |]. cbn [outs]. rewrite Ho2. unfold frame, form.
  by rewrite <- !app_assoc.
Qed.

(** The size prefix and the type of the command are read back. *)
Lemma prefix_read w (form rest : list Z) out :
  exec (LS (frame w form ++ rest) out)
    ((if sizePrefixDisabled w then ret tt else dataIn DataInputStream.readInt ;;; ret tt) : M (io St) unit) tt
    (LS (form ++ rest) out).
Proof.
  unfold frame. destruct (sizePrefixDisabled w); [apply exec_ret |]. rewrite <- app_assoc.
  eapply exec_bind; [apply exec_dataIn_L, readInt_reads_wrap | apply exec_ret].
Qed.
Lemma type_read d rest out :
  exec (LS (getDataStructureType d :: rest) out) NestedObjects.readUByte (getDataStructureType d) (LS (St := St) rest out).
Proof. exact (type_parsesL d rest out). Qed.

Lemma unmarshal_read w fuel d0 d m body rest out : isCommand d = true ->
  @dataMarshaller _ (options w) St _ (@wireFormat _ (options w) St _ fuel) (getDataStructureType d0) = Some m ->
  exec (LS (body ++ rest) out)
    (if tightEncodingEnabled w then
       let* b := dataIn BooleanStream.unmarshal in local_bs b (m_tightUnmarshal m (createObject m))
     else m_looseUnmarshal m (createObject m)) (arrived d) (LS rest out) ->
  exec (LS (frame w (getDataStructureType d0 :: body) ++ rest) out) (unmarshal w fuel) (arrived d) (LS rest out).
Proof.
  intros Hc Hk Hbody. pose proof (type_range d0). apply exec_catch_io.
  eapply exec_bind; [apply prefix_read |]. eapply (exec_bind _ _ _ _ _ (Some (arrived d))).
  2: { rewrite isCommand_arrived, Hc. apply exec_ret. }
  apply exec_catch_io. eapply exec_bind; [apply type_read |].
  destruct (Z.eqb_spec (getDataStructureType d0) NULL_TYPE) as [E|_]; [unfold NULL_TYPE in E; lia |].
  cbv zeta. rewrite Hk. eapply exec_bind; [exact Hbody | apply exec_ret].
Qed.

Lemma tight_read w fuel d0 d b rest out : tightEncodingEnabled w = true ->
  mutate d0 = Ok d -> sendable w d = true -> (length (command_layout w d) <= fuel)%nat ->
  writing b (wbits (command_layout w d)) ->
  exec (LS (frame w (getDataStructureType d0 :: marshal_form b ++ wbody (command_layout w d)) ++ rest) out)
    (unmarshal w fuel) (arrived d) (LS (St := St) rest out).
Proof.
  intros Ht Hm Hs Hf Hb. destruct (served_command w fuel d0 d Hm Hs Hf) as (m & Hk & _ & _ & Hu & _).
  unfold sendable in Hs. rewrite !andb_true_iff in Hs.
  apply (unmarshal_read w fuel d0 d m); [tauto | done |]. rewrite Ht, <- app_assoc.
  destruct (unmarshal_reads b _ Hb) as (b' & Hr & Hb').
  eapply exec_bind; [by apply exec_dataIn_L |].
  eapply exec_local_bs; [apply (Hu rest [] out) | |].
  - intros s [Hi Ho]. split; [done |]. by rewrite app_nil_r.
  - intros s (Hi & _ & Ho). done.
Qed.

Lemma loose_written w fuel d0 d inp out : tightEncodingEnabled w = false ->
  mutate d0 = Ok d -> sendable w d = true -> (length (command_layout w d) <= fuel)%nat ->
  exec (LS (St := St) inp out) (marshal w fuel (Some d0)) tt
    (LS inp (out ++ frame w (getDataStructureType d0 :: wloose (command_layout w d)))).
Proof.
  intros Ht Hm Hs Hf. destruct (served_command w fuel d0 d Hm Hs Hf) as (m & Hk & _ & _ & _ & Hl & _).
  unfold sendable in Hs. rewrite !andb_true_iff, Ht, Z.ltb_lt in Hs. set (fs := command_layout w d) in *.
  assert (Hbody : forall o, exec (LS inp o)
    (dataOut (DataOutputStream.writeByte (getDataStructureType d0)) ;;; m_looseMarshal m d0) tt
    (LS inp (o ++ getDataStructureType d0 :: wloose fs))).
  { intros o. eapply exec_bind; [apply (type_emitsL d0) |]. change (wloose [_]) with [getDataStructureType d0].
    replace (o ++ _ :: wloose fs) with ((o ++ [getDataStructureType d0]) ++ wloose fs) by by rewrite <- app_assoc.
    apply Hl. }
  apply exec_catch_io. cbv zeta. rewrite Hk, Ht. unfold frame. destruct (sizePrefixDisabled w); [apply Hbody |].
  set (form := getDataStructureType d0 :: wloose fs) in *.
  eapply (exec_bind _ (LS inp out) _ _ _ (tt, form)).
  { intros s [Hi Ho]. destruct (Hbody [] (Io (ins s) [] (bstream s))) as (s' & E & Hi' & Ho'); [done |].
    eexists. split; [unfold local_out; rewrite E; cbn in Ho'; rewrite Ho'; reflexivity |]. done. }
  cbv beta iota. assert (Hz : 0 < zlen form < 2 ^ 31) by (unfold form; len).
  destruct (Z.ltb_spec 0 (zlen form)); [|lia]. rewrite app_assoc, swrap_small by lia.
  eapply exec_bind; apply exec_dataOut_L; [intros o; apply writeInt_be | apply writeArray_all].
Qed.

Lemma loose_read w fuel d0 d rest out : tightEncodingEnabled w = false ->
  mutate d0 = Ok d -> sendable w d = true -> (length (command_layout w d) <= fuel)%nat ->
  exec (LS (frame w (getDataStructureType d0 :: wloose (command_layout w d)) ++ rest) out)
    (unmarshal w fuel) (arrived d) (LS (St := St) rest out).
Proof.
  intros Ht Hm Hs Hf. destruct (served_command w fuel d0 d Hm Hs Hf) as (m & Hk & _ & _ & _ & _ & Hu).
  unfold sendable in Hs. rewrite !andb_true_iff in Hs.
  apply (unmarshal_read w fuel d0 d m); [tauto | done |]. rewrite Ht. apply Hu.
Qed.

(** C1.  Whatever command [marshal] is given, in the tight or the loose encoding,
    with or without a size prefix and under any negotiated version, if its fields
    fit the protocol then [marshal] succeeds; the size prefix is the number of
    bytes that follow it, the first of them being the type of the command; and
    [unmarshal] reads exactly these bytes back, whatever follows them and however
    the input stream is fragmented, and returns the command as the marshalling
    hooks left it. *)
Theorem openwire_roundtrip w fuel d0 d inp out (s : io St) :
  mutate d0 = Ok d -> sendable w d = true -> (length (command_layout w d) <= fuel)%nat ->
  stream_at (ins s) inp -> outs s = out ->
  exists form s',
    marshal w fuel (Some d0) s = Ok (tt, s') /\
    outs s' = out ++ (if sizePrefixDisabled w then [] else be 4 (zlen form)) ++ form /\
    head form = Some (getDataStructureType d) /\ zlen form < 2 ^ 31 /\
    forall rest (r : io St), stream_at (ins r) (frame w form ++ rest) ->
      exists r', unmarshal w fuel r = Ok (arrived d, r') /\ stream_at (ins r') rest.
Proof.
  intros Hm Hs Hf Hi Ho. destruct (mutate_keeps _ _ Hm) as [-> _].
  destruct (tightEncodingEnabled w) eqn:Ht.
  - destruct (tight_written w fuel d0 d inp out s Ht Hm Hs Hf (conj Hi Ho)) as (b & s' & E & Hb & _ & Ho').
    do 2 eexists. split; [exact E |]. split; [exact Ho' |]. split; [done |]. split.
    + unfold sendable in Hs. rewrite !andb_true_iff, Ht, Z.ltb_lt in Hs.
      pose proof (zlen_marshal_form _ _ Hb) as Hz. destruct (writing_limit _ _ Hb) as (Hlim & _).
      unfold BooleanStream.marshalledSize in Hz. repeat case_match; len.
    + intros rest r Hr. destruct (tight_read w fuel d0 d b rest (outs r) Ht Hm Hs Hf Hb r) as (r' & Er & Hi' & _);
        [done | by exists r'].
  - destruct (loose_written w fuel d0 d inp out Ht Hm Hs Hf s (conj Hi Ho)) as (s' & E & _ & Ho').
    do 2 eexists. split; [exact E |]. split; [exact Ho' |]. split; [done |]. split.
    + unfold sendable in Hs. rewrite !andb_true_iff, Ht, Z.ltb_lt in Hs. len.
    + intros rest r Hr. destruct (loose_read w fuel d0 d rest (outs r) Ht Hm Hs Hf r) as (r' & Er & Hi' & _);
        [done | by exists r'].
Qed.
End RoundTrip.

(** ** The registry *)
Section RegistryLaws.
Context `{Platform} `{WireOptions} {St : Type} `{InputStream St} `{!WireFormat St}.

Lemma configure_types :
  map (option_map (fun m : DataStreamMarshaller St => getDataStructureType (createObject m))) configure =
  map (option_map m_getDataStructureType) (configure (St := St)).
Proof. reflexivity. Qed.
Lemma configure_index k (m : DataStreamMarshaller St) : configure !! k = Some (Some m) ->
  m_getDataStructureType m = Z.of_nat k.
Proof.
  intros Hk. assert (Hall : map (option_map m_getDataStructureType) (configure (St := St)) =
    imap (fun i o => option_map (fun _ => Z.of_nat i) o) (map (option_map m_getDataStructureType) (configure (St := St))))
    by reflexivity.
  apply (f_equal (fun l => l !! k)) in Hall. rewrite list_lookup_imap, !list_lookup_fmap, Hk in Hall. cbn in Hall. congruence.
Qed.

(**  The table of marshallers is consistent: the marshaller found for a data
    type creates objects of that very type. *)
Theorem registry_consistent type (m : DataStreamMarshaller St) :
  dataMarshaller type = Some m -> getDataStructureType (createObject m) = Z.land type 0xFF.
Proof.
  unfold dataMarshaller. intros Hm.
  destruct (configure !! Z.to_nat (Z.land type 255)) as [o|] eqn:Hk; [|done]. cbn in Hm. subst o.
  pose proof configure_types as Ht. apply (f_equal (fun l => l !! Z.to_nat (Z.land type 255))) in Ht.
  rewrite !list_lookup_fmap, Hk in Ht. cbn in Ht. injection Ht as ->.
  rewrite (configure_index _ _ Hk). apply Z2Nat.id, Z.land_nonneg. lia.
Qed.
End RegistryLaws.

(** ** Negotiation *)
Section Negotiation.
Import OpenWireFormat.

Lemma setVersion_spec w v w' : setVersion w v = Ok w' -> version w' = v /\ (version w <= 11 -> version w' <= 11) /\
  preferedWireFormatInfo w' = preferedWireFormatInfo w.
Proof.
  unfold setVersion, MAX_SUPPORTED_VERSION. destruct (Z.eqb_spec v (version w)); [by intros [= <-] |].
  destruct (Z.ltb_spec 11 v); [done |]. by intros [= <-].
Qed.

(**  Two peers that renegotiate, each with the other's preferences, end up with
    the same options, so that what one marshals the other can unmarshal: the older
    of the two versions and the conjunction of their flags. *)
Theorem negotiation_agrees wa wb pa pb wa' wb' :
  preferedWireFormatInfo wa = Some pa -> preferedWireFormatInfo wb = Some pb ->
  renegotiateWireFormat wa pb = Ok wa' -> renegotiateWireFormat wb pa = Ok wb' ->
  setPreferedWireFormatInfo wa' None = setPreferedWireFormatInfo wb' None /\
  version wa' = Z.min (WireFormatInfo.version pa) (WireFormatInfo.version pb) /\
  tightEncodingEnabled wa' =
    WireFormatInfo.isTightEncodingEnabled pa && WireFormatInfo.isTightEncodingEnabled pb.
Proof.
  unfold renegotiateWireFormat. intros -> -> Ha Hb.
  destruct (setVersion wa _) as [wa1|] eqn:Ea in Ha; [|done]. destruct (setVersion wb _) as [wb1|] eqn:Eb in Hb; [|done].
  apply setVersion_spec in Ea as [Ea _], Eb as [Eb _]. injection Ha as <-. injection Hb as <-.
  unfold setPreferedWireFormatInfo. cbn. rewrite Ea, Eb. split; [|split; [done | apply andb_comm]].
  f_equal; first [apply andb_comm | apply Z.min_comm].
Qed.

(** The states of a wire format: constructed, then configured and renegotiated any
    number of times. *)
Inductive reachable : t -> Prop :=
| reach_init : reachable init
| reach_prefer w info : reachable w -> reachable (setPreferedWireFormatInfo w info)
| reach_setVersion w v w' : reachable w -> setVersion w v = Ok w' -> reachable w'
| reach_renegotiate w info w' : reachable w -> renegotiateWireFormat w info = Ok w' -> reachable w'.

(**  The version in use is never one the library does not support. *)
Theorem version_supported w : reachable w -> version w <= MAX_SUPPORTED_VERSION.
Proof.
  unfold MAX_SUPPORTED_VERSION. induction 1 as [|w info _ IH|w v w' _ IH E|w info w' _ IH E]; [done | done | |].
  - by apply setVersion_spec in E as (_ & E & _); apply E.
  - unfold renegotiateWireFormat in E. destruct (preferedWireFormatInfo w) as [p|]; [|done].
    destruct (setVersion w _) as [w1|] eqn:E1; [|done]. apply setVersion_spec in E1 as (_ & E1 & _).
    injection E as <-. by apply E1.
Qed.
End Negotiation.

(** ** Frames that are refused *)
Section Refused.
Context `{Platform} {St : Type} `{InputStreamLaws St}.
Import OpenWireFormat.

(**  A frame whose type byte no marshaller is registered for, the null type
    among them, is refused with an IOException, whatever it contains. *)
Theorem unknown_type_rejected w fuel type body (s : io St) :
  0 <= type < 256 ->
  @dataMarshaller _ (options w) St _ (@wireFormat _ (options w) St _ fuel) type = None ->
  stream_at (ins s) (frame w (type :: body)) ->
  unmarshal w fuel s = Err (Throw IOException).
Proof.
  intros Ht Hk Hs. unfold unmarshal, catch_io at 1, bind at 1.
  destruct (prefix_read w (type :: body) [] (outs s) s) as (s1 & E1 & Hi & Ho); [by rewrite app_nil_r |].
  rewrite E1, app_nil_r in *.
  assert (Hr : exec (LS (type :: body) (outs s)) NestedObjects.readUByte type (LS body (outs s))).
  { apply (gq_byte 1%nat). split; [|done]. unfold wok. cbn. by rewrite (proj2 (is_u_spec 8 _)) by lia. }
  destruct (Hr s1) as (s2 & E2 & _); [done |].
  unfold bind at 1, doUnmarshal, catch_io, bind at 1. rewrite E2.
  destruct (type =? NULL_TYPE); [done |]. cbv zeta. by rewrite Hk.
Qed.
End Refused.

(** ** A size prefix that is wrong *)
Section Overstated.
Context `{Platform} `{WireOptions} {St : Type} `{InputStreamLaws St}.

(**  Before version 3 the size the first pass computes for a ProducerInfo,
    and with it the size prefix of its frame, exceeds the bytes the second pass
    writes by four: the integer of a field that is not sent is counted. *)
Theorem producerInfo_size_overstated n info fs :
  ProducerInfo_layout info = fs ++ [FReq (3 <=? wireVersion)] ->
  wireVersion < 3 -> wok fs = true -> (length fs <= n)%nat ->
  let _ := OpenWireFormat.wireFormat (St := St) n in
  marks fs (ProducerInfoMarshaller.tightMarshal1 info) (zlen (wbody fs) + 4) /\
  emits fs (ProducerInfoMarshaller.tightMarshal2 info) tt.
Proof.
  unfold ProducerInfo_layout. rewrite !app_assoc. intros Hfs%app_inv_tail Hv Hok Hl. rewrite <- !app_assoc in Hfs.
  pose (F := OpenWireFormat.wireFormat (St := St) n). pose proof (wireFormat_laws (St := St) n : WireFormatLaws n).
  assert (Hw : within n fs) by done. cbv zeta. fold F. clear Hok Hl.
  assert (Hlow : (3 <=? wireVersion) = false) by by apply Z.leb_gt.
  unfold ProducerInfoMarshaller.tightMarshal2. rewrite Hlow in *. subst fs.
  enough (guarded n (@marks St _ _) _ _ (ProducerInfoMarshaller.tightMarshal1 info) _ /\ guarded n (@emits St _ _) _ _ _ tt)
    as [G1 G2] by (split; [exact (G1 Hw) | exact (G2 Hw)]).
  split; apply codec_catch; statements.
  - apply g_done; [reflexivity | size_sum].
  - apply g_pad, codec_req. by refine (g_ret _ _ _ _).
Qed.
End Overstated.

(** ** Instances *)
Definition plain_platform : Platform := {| getenv := fun _ => Ok []; deflate := fun _ b => b |}.

(** A tight encoding of version 9 with a size prefix, and a connection that is
    announced over it. *)
Definition tight9 : OpenWireFormat.t :=
  {| OpenWireFormat.version := 9; OpenWireFormat.stackTraceEnabled := true; OpenWireFormat.tcpNoDelayEnabled := true;
     OpenWireFormat.cacheEnabled := false; OpenWireFormat.cacheSize := 1024; OpenWireFormat.tightEncodingEnabled := true;
     OpenWireFormat.sizePrefixDisabled := false; OpenWireFormat.maxInactivityDuration := 30000;
     OpenWireFormat.maxInactivityDurationInitialDelay := 10000; OpenWireFormat.preferedWireFormatInfo := None |}.
Definition connection_error : DataStructure :=
  DConnectionError {| ConnectionError.base := {| BaseCommand.commandId := 7; BaseCommand.responseRequired := true |};
    ConnectionError.exception := None;
    ConnectionError.connectionId := Some {| ConnectionId.value := str "ID:host-1" |} |}.
Definition idle : io ByteArrayInputStream.t := Io (ByteArrayInputStream.over []) [] BooleanStream.init.

Lemma openwire_roundtrip_witness :
  exists form s',
    @OpenWireFormat.marshal plain_platform _ _ tight9 20 (Some connection_error) idle = Ok (tt, s') /\
    outs s' = be 4 (zlen form) ++ form /\
    forall rest (r : io ByteArrayInputStream.t), stream_at (ins r) (frame tight9 form ++ rest) ->
      exists r', @OpenWireFormat.unmarshal plain_platform _ _ tight9 20 r = Ok (connection_error, r') /\
        stream_at (ins r') rest.
Proof.
  destruct (@openwire_roundtrip plain_platform ByteArrayInputStream.t _ _ tight9 20 connection_error connection_error
    [] [] idle eq_refl ltac:(vm_compute; reflexivity) ltac:(vm_compute; lia) (ByteArrayInputStream.over_at []) eq_refl)
    as (form & s' & E & Ho & _ & _ & Hr).
  exists form, s'. split; [exact E | split; [exact Ho | exact Hr]].
Defined.

Lemma registry_consistent_witness :
  exists m : DataStreamMarshaller ByteArrayInputStream.t,
    @dataMarshaller plain_platform (OpenWireFormat.options tight9) _ _
      (@OpenWireFormat.wireFormat plain_platform (OpenWireFormat.options tight9) _ _ 1) 124 = Some m /\
    getDataStructureType (createObject m) = 124.
Proof.
  eexists. split; [reflexivity |].
  exact (@registry_consistent plain_platform (OpenWireFormat.options tight9) ByteArrayInputStream.t _
    (@OpenWireFormat.wireFormat plain_platform (OpenWireFormat.options tight9) _ _ 1) 124 _ eq_refl).
Defined.

(** Preferences for a tight encoding, in two versions. *)
Definition preferences (v : Z) : WireFormatInfo.t :=
  WireFormatInfo.setBool
    {| WireFormatInfo.base := BaseCommand.default; WireFormatInfo.magic := str "ActiveMQ";
       WireFormatInfo.version := v; WireFormatInfo.marshalledProperties := []; WireFormatInfo.properties := [] |}
    (str "TightEncodingEnabled") true.
Definition peer (v : Z) : OpenWireFormat.t :=
  OpenWireFormat.setPreferedWireFormatInfo OpenWireFormat.init (Some (preferences v)).
Lemma negotiation_agrees_witness :
  exists wa wb, OpenWireFormat.renegotiateWireFormat (peer 11) (preferences 9) = Ok wa /\
    OpenWireFormat.renegotiateWireFormat (peer 9) (preferences 11) = Ok wb /\
    OpenWireFormat.version wa = 9 /\ OpenWireFormat.tightEncodingEnabled wa = true.
Proof.
  do 2 eexists. split; [vm_compute; reflexivity |]. split; [vm_compute; reflexivity |].
  exact (proj2 (negotiation_agrees (peer 11) (peer 9) (preferences 11) (preferences 9) _ _ eq_refl eq_refl eq_refl eq_refl)).
Defined.

Lemma version_supported_witness : OpenWireFormat.version OpenWireFormat.init <= OpenWireFormat.MAX_SUPPORTED_VERSION.
Proof. exact (version_supported OpenWireFormat.init reach_init). Defined.

Lemma unknown_type_rejected_witness :
  @OpenWireFormat.unmarshal plain_platform _ _ tight9 5
    (Io (ByteArrayInputStream.over [0; 0; 0; 2; 200; 1]) [] BooleanStream.init) = Err (Throw IOException).
Proof.
  exact (@unknown_type_rejected plain_platform ByteArrayInputStream.t _ _ tight9 5 200 [1]
    (Io (ByteArrayInputStream.over [0; 0; 0; 2; 200; 1]) [] BooleanStream.init)
    ltac:(lia) ltac:(vm_compute; reflexivity) (ByteArrayInputStream.over_at _)).
Defined.

(** A producer announced in version 1. *)
Definition version1 : WireOptions := {| wireVersion := 1; stackTraceEnabled := true |}.
Definition producer1 : ProducerInfo.t :=
  {| ProducerInfo.base := BaseCommand.default; ProducerInfo.producerId := None; ProducerInfo.destination := None;
     ProducerInfo.brokerPath := []; ProducerInfo.dispatchAsync := false; ProducerInfo.windowSize := 0 |}.
Definition producer1_fields : layout :=
  [FInt 0; FBool false; FBool false; FBool false; FBool false; FReq true; FReq true].
Lemma producerInfo_size_overstated_witness :
  let _ := version1 in
  let _ := @OpenWireFormat.wireFormat plain_platform version1 ByteArrayInputStream.t _ 7 in
  marks producer1_fields (ProducerInfoMarshaller.tightMarshal1 producer1) (4 + 4).
Proof.
  exact (proj1 (@producerInfo_size_overstated plain_platform version1 ByteArrayInputStream.t _ _ 7%nat producer1 producer1_fields
    eq_refl eq_refl eq_refl (le_n 7))).
Defined.
