(* ===== verification/MessageBodies.v ===== *)
(** * The bodies of text and map messages, from the sender to the receiver

    activemq/commands/ActiveMQTextMessage.cpp and ActiveMQMapMessage.cpp: the
    body is encoded by [beforeMarshal] (Commands.v), possibly compressed, and
    decoded when the application asks for it.  The compressor and the
    decompressor are those of zlib: [deflate] of [Platform] and [inflate]. *)

From S2P Require Import Prelude DataStreams PrimitiveTypes Support BooleanStreams Wire BaseMarshaller Commands Layouts.
From S2P Require Import MarshallerBase IdMarshallers MessageMarshallers.

Section Bodies.
Context `{Platform} (inflate : list Z -> result (list Z)).

(** The bytes the body is read from. *)
Definition body {D} (m : Message.t D) : result (list Z) :=
  if Message.compressed m then inflate (Message.content m) else Ok (Message.content m).

(** A reader run on a ByteArrayInputStream over the bytes. *)
Definition read_all {A} (r : M ByteArrayInputStream.t A) (bytes : list Z) : result A :=
  rbind (ByteArrayInputStream.setByteArray (Some bytes) (to_s32 (zlen bytes)) 0 (to_s32 (zlen bytes))) (fun s =>
  rbind (r s) (fun '(a, _) => Ok a)).

(** [ActiveMQTextMessage::getText] *)
Definition getText {D} (m : Message.t D) : result (list Z) :=
  match Message.messageKind m with
  | Message.ActiveMQTextMessage (Some text) => Ok text
  | Message.ActiveMQTextMessage None =>
    if zlen (Message.content m) <=? 4 then Ok []
    else rbind (body m) (read_all Message.readString32)
  | _ => Err Undefined
  end.

(** [ActiveMQMapMessage::getMap], with [checkMapIsUnmarshalled] *)
Definition getMap {D} (m : Message.t D) : result PrimitiveMap :=
  match Message.messageKind m with
  | Message.ActiveMQMapMessage (Some map) => Ok map
  | Message.ActiveMQMapMessage None =>
    if nonempty (Message.content m)
    then rbind (body m) (fun bytes => read_all (PrimitiveTypesMarshaller.unmarshalMap (S (length bytes))) bytes)
    else Ok []
  | _ => Err Undefined
  end.

(** The properties of a message that can be sent. *)
Definition properties_sendable (p : PrimitiveMap) : bool := map_ok p && (zlen (map_form p) <? 2 ^ 31).

Lemma read_all_reads {A} (r : M ByteArrayInputStream.t A) bytes v :
  zlen bytes < 2 ^ 31 -> reads r bytes v -> read_all r bytes = Ok v.
Proof.
  intros Hl Hr. destruct (setByteArray_all bytes Hl) as (s & Es & Hs). unfold read_all. rewrite Es. cbn [rbind].
  destruct (Hr [] s Hs) as (s' & E & _). by rewrite E.
Qed.

Lemma writeString32_writes text : zlen text < 2 ^ 31 ->
  writes (Message.writeString32 text) (be 4 (zlen text) ++ text).
Proof.
  intros Hl. apply writes_catch. pose proof (zlen_nonneg text). rewrite swrap_small by lia.
  apply writes_seq; [intros o; apply writeInt_be |].
  destruct (Z.ltb_spec 0 (zlen text)); [apply writeArray_all |].
  destruct text; [apply writes_ret | len].
Qed.
Lemma readString32_reads {St} `{InputStreamLaws St} text : zlen text < 2 ^ 31 ->
  reads Message.readString32 (be 4 (zlen text) ++ text) text.
Proof.
  intros Hl. apply reads_catch. pose proof (zlen_nonneg text).
  eapply reads_bind; [apply readInt_reads, is_s_spec; lia |].
  destruct (Z.ltb_spec 0 (zlen text)); [apply readFully_reads |].
  destruct text; [apply reads_ret | len].
Qed.

(** The hook on the properties, and what the receiver reads from them. *)
Lemma beforeMarshal_base_properties {D} (m : Message.t D) : properties_sendable (Message.properties m) = true ->
  exists bytes, Message.beforeMarshal_base m = Ok (Message.set_marshalledProperties m bytes) /\
    arrived_properties bytes = received_map (Message.properties m).
Proof.
  unfold properties_sendable. rewrite andb_true_iff, Z.ltb_lt. intros [Hok Hl].
  unfold Message.beforeMarshal_base. destruct (Message.properties m) as [|e p] eqn:Ep.
  { exists []. done. }
  exists (map_form (e :: p)). cbn [StlMap.isEmpty]. rewrite marshal_map_form by done. split; [done |].
  unfold arrived_properties. by rewrite unmarshal_map_form.
Qed.

(** The content [store_body] leaves is what the body is read from. *)
Lemma body_store {D} (f : D -> D) (m : Message.t D) k o bytes :
  (forall level b, inflate (deflate level b) = Ok b) -> Message.compressed m = false ->
  body (arrived_message f (Message.set_dataStructure (Message.store_body m k bytes) o)) = Ok bytes.
Proof.
  intros Hinfl Hc. unfold body, arrived_message, Message.store_body.
  destruct (Message.connection m) as [[[] level]|]; cbn; rewrite ?Hc; auto.
Qed.
Lemma content_store {D} (f : D -> D) (m : Message.t D) k o bytes :
  (forall level b, 4 < zlen (deflate level b)) -> 4 < zlen bytes ->
  4 < zlen (Message.content (arrived_message f (Message.set_dataStructure (Message.store_body m k bytes) o))).
Proof.
  intros Hsize Hb. unfold arrived_message, Message.store_body.
  destruct (Message.connection m) as [[[] level]|]; cbn; auto.
Qed.
Lemma arrived_kind {D} (f : D -> D) (m : Message.t D) o :
  is_blob (Message.messageKind m) = false ->
  Message.messageKind (arrived_message f (Message.set_dataStructure m o)) = Message.fresh (Message.messageKind m).
Proof. unfold arrived_message. cbn. by destruct (Message.messageKind m). Qed.
Lemma arrived_props {D} (f : D -> D) (m : Message.t D) o :
  is_blob (Message.messageKind m) = false ->
  Message.properties (arrived_message f (Message.set_dataStructure m o)) =
  arrived_properties (Message.marshalledProperties m).
Proof. unfold arrived_message. cbn. by destruct (Message.messageKind m). Qed.
Lemma store_body_marshalledProperties {D} (m : Message.t D) k bytes :
  Message.marshalledProperties (Message.store_body m k bytes) = Message.marshalledProperties m.
Proof. unfold Message.store_body. by destruct (Message.connection m) as [[[] ?]|]. Qed.

Lemma mutate_message_eq (m m1 : Message.t DataStructure) o : is_blob (Message.messageKind m) = false ->
  mutate_option mutate (Message.dataStructure m) = Ok o -> Message.beforeMarshal m = Ok m1 ->
  mutate (DMessage m) = Ok (DMessage (Message.set_dataStructure m1 o)).
Proof.
  intros Hk Ho Hb. cbn [mutate]. unfold mutate_message. rewrite Ho. cbn [rbind].
  destruct (Message.messageKind m); try done; by rewrite Hb.
Qed.

(** Whether the connection compresses what it sends, and the body it sends then. *)
Definition compresses {D} (m : Message.t D) : bool :=
  match Message.connection m with Some c => Message.useCompression c | None => false end.
Definition sent_body {D} (m : Message.t D) (bytes : list Z) : list Z :=
  match Message.connection m with
  | Some c => if Message.useCompression c then deflate (Message.compressionLevel c) bytes else bytes
  | None => bytes
  end.
Lemma store_body_sent {D} (m : Message.t D) k bytes :
  Message.content (Message.store_body m k bytes) = sent_body m bytes /\
  Message.compressed (Message.store_body m k bytes) = compresses m || Message.compressed m.
Proof. unfold Message.store_body, sent_body, compresses. by destruct (Message.connection m) as [[[] level]|]. Qed.
Lemma sent_body_plain {D} (m : Message.t D) bytes : compresses m = false -> sent_body m bytes = bytes.
Proof. unfold compresses, sent_body. by destruct (Message.connection m) as [[[] level]|]. Qed.

(** The encoding of a text, and what [getText] makes of a body that arrived. *)
Definition text_form (text : list Z) : list Z := be 4 (zlen text) ++ text.
Lemma zlen_text_form text : zlen (text_form text) = 4 + zlen text.
Proof. unfold text_form. rewrite zlen_app, zlen_be; lia. Qed.
Lemma getText_arrived {D} (m : Message.t D) : Message.messageKind m = Message.ActiveMQTextMessage None ->
  4 < zlen (Message.content m) -> getText m = rbind (body m) (read_all Message.readString32).
Proof. intros Hk Hc. unfold getText. rewrite Hk. case_match eqn:E; [by apply Z.leb_le in E; lia | done]. Qed.
Lemma getText_form {D} (m : Message.t D) text : Message.messageKind m = Message.ActiveMQTextMessage None ->
  zlen text < 2 ^ 31 - 4 -> body m = Ok (text_form text) ->
  (text = [] \/ 4 < zlen (Message.content m)) -> getText m = Ok text.
Proof.
  intros Hk Hl Hb Hc. pose proof (zlen_text_form text).
  assert (Hr : read_all Message.readString32 (text_form text) = Ok text)
    by (apply read_all_reads; [lia | apply readString32_reads; lia]).
  unfold getText. rewrite Hk, Hb. cbn [rbind]. rewrite Hr.
  case_match eqn:E; [| done]. apply Z.leb_le in E. destruct Hc as [->|Hc]; [done | lia].
Qed.


Section Delivery.
Context (Hinflate : forall level b, inflate (deflate level b) = Ok b).
Context (Hdeflate : forall level b, 4 < zlen (deflate level b)).

(**  Likewise for the entries of a map message. *)
Theorem map_message_delivered (m : Message.t DataStructure) map o :
  Message.messageKind m = Message.ActiveMQMapMessage (Some map) -> map <> [] ->
  mutate_option mutate (Message.dataStructure m) = Ok o ->
  Message.compressed m = false -> properties_sendable (Message.properties m) = true ->
  properties_sendable map = true ->
  exists m', mutate (DMessage m) = Ok (DMessage m') /\
    getMap (arrived_message arrived m') = Ok (received_map map) /\
    Message.properties (arrived_message arrived m') = received_map (Message.properties m).
Proof using Hinflate Hdeflate.
  intros Hk Hne Ho Hc Hp Hmap. destruct (beforeMarshal_base_properties m Hp) as (bytes & Eb & Ep).
  set (m1 := Message.set_marshalledProperties m bytes) in *.
  unfold properties_sendable in Hmap. rewrite andb_true_iff, Z.ltb_lt in Hmap. destruct Hmap as [Hok Hl].
  destruct map as [|e map]; [done |].
  exists (Message.set_dataStructure (Message.store_body m1 (Message.ActiveMQMapMessage (Some (e :: map))) (map_form (e :: map))) o). split.
  { apply mutate_message_eq; [by rewrite Hk | exact Ho |]. unfold Message.beforeMarshal, Message.beforeMarshal_map.
    rewrite Hk, Eb. cbn [rbind]. unfold PrimitiveTypesMarshaller.marshalMap.
    rewrite (marshalPrimitiveMap_writes _ Hok []). cbn [app]. reflexivity. }
  destruct (store_body_keeps m1 (Message.ActiveMQMapMessage (Some (e :: map))) (map_form (e :: map))) as [Ek _].
  rewrite arrived_props, store_body_marshalledProperties by by rewrite Ek. split; [|exact Ep].
  unfold getMap. rewrite arrived_kind, Ek by by rewrite Ek. cbn [Message.fresh].
  rewrite body_store by done. cbn [rbind].
  rewrite (read_all_reads _ _ (received_map (e :: map))); [|lia|apply unmarshalMap_form; [done | lia]].
  assert (Hz : 4 < zlen (map_form (e :: map))) by (unfold map_form; cbn [flat_map]; unfold utf_form; rewrite !zlen_app, !zlen_be; len).
  pose proof (content_store arrived m1 (Message.ActiveMQMapMessage (Some (e :: map))) o (map_form (e :: map)) Hdeflate Hz) as Hcontent.
  match type of Hcontent with 4 < zlen ?c => destruct c; [len | done] end.
Qed.
End Delivery.

(**  A map message that was received and is sent on before its map was looked
    at loses its body. *)
Theorem unread_map_message_loses_body (m : Message.t DataStructure) o :
  Message.messageKind m = Message.ActiveMQMapMessage None ->
  mutate_option mutate (Message.dataStructure m) = Ok o -> properties_sendable (Message.properties m) = true ->
  exists m', mutate (DMessage m) = Ok (DMessage m') /\ Message.content m' = [] /\
    getMap (arrived_message arrived m') = Ok [].
Proof.
  intros Hk Ho Hp. destruct (beforeMarshal_base_properties m Hp) as (bytes & Eb & _).
  eexists. split.
  { apply mutate_message_eq; [by rewrite Hk | exact Ho |]. unfold Message.beforeMarshal, Message.beforeMarshal_map.
    rewrite Hk, Eb. reflexivity. }
  done.
Qed.
End Bodies.

(** ** Instances: a compressor that puts five bytes in front *)
Definition padding_platform : Platform :=
  {| getenv := fun _ => Ok []; deflate := fun _ b => [0; 0; 0; 0; 0] ++ b |}.
Definition unpad (b : list Z) : result (list Z) := Ok (drop 5 b).
Definition text_message : Message.t DataStructure :=
  Message.set_properties (Message.default (Message.ActiveMQTextMessage (Some (str "hello")))) [(str "n", INTEGER_TYPE 3)].
Definition map_message (map : option PrimitiveMap) : Message.t DataStructure :=
  Message.default (Message.ActiveMQMapMessage map).

Lemma unpad_pad (level : Z) b : unpad (deflate (Platform := padding_platform) level b) = Ok b.
Proof. done. Qed.
Lemma pad_size (level : Z) b : 4 < zlen (deflate (Platform := padding_platform) level b).
Proof. cbn. len. Qed.

(** A message of a connection. *)
Definition on_connection {D} (m : Message.t D) (c : option Message.Connection) : Message.t D :=
  Message.mk D (Message.messageKind m) (Message.base m) (Message.producerId m) (Message.destination m)
  (Message.transactionId m) (Message.originalDestination m) (Message.messageId m) (Message.originalTransactionId
  m) (Message.groupID m) (Message.groupSequence m) (Message.correlationId m) (Message.persistent m)
  (Message.expiration m) (Message.priority m) (Message.replyTo m) (Message.timestamp m) (Message.type m)
  (Message.content m) (Message.marshalledProperties m) (Message.dataStructure m) (Message.targetConsumerId m)
  (Message.compressed m) (Message.redeliveryCounter m) (Message.brokerPath m) (Message.arrival m)
  (Message.userID m) (Message.recievedByDFBridge m) (Message.droppable m) (Message.cluster m)
  (Message.brokerInTime m) (Message.brokerOutTime m) (Message.jMSXGroupFirstForConsumer m) (Message.properties
  m) (Message.readOnlyBody m) c.
Definition compressing_message : Message.t DataStructure := on_connection text_message (Some (Message.mkConnection true 6)).

Lemma map_message_delivered_witness :
  exists m', @mutate padding_platform (DMessage (map_message (Some [(str "k", LONG_TYPE 9)]))) = Ok (DMessage m') /\
    getMap unpad (arrived_message arrived m') = Ok [(str "k", LONG_TYPE 9)].
Proof.
  destruct (@map_message_delivered padding_platform unpad unpad_pad pad_size
    (map_message (Some [(str "k", LONG_TYPE 9)])) [(str "k", LONG_TYPE 9)] None
    eq_refl ltac:(discriminate) eq_refl eq_refl eq_refl eq_refl) as (m' & E & Hm & _).
  exists m'. split; [exact E | exact Hm].
Defined.

Lemma unread_map_message_loses_body_witness :
  exists m', @mutate padding_platform (DMessage (map_message None)) = Ok (DMessage m') /\ Message.content m' = [].
Proof.
  destruct (@unread_map_message_loses_body padding_platform unpad (map_message None) None eq_refl eq_refl eq_refl)
    as (m' & E & Hc & _).
  exists m'. split; [exact E | exact Hc].
Defined.
