(* ===== verification/DispatchChannels.v ===== *)
(** * The channels messages wait in before they are delivered

    activemq/core/MessageDispatchChannel.h and its two implementations,
    FifoMessageDispatchChannel.cpp and SimplePriorityMessageDispatchChannel.cpp.

    [MessageDispatchChannel] is the interface; [Spec] is what it promises, a
    queue in delivery order; [ChannelLaws] relates an implementation to it by an
    abstraction function on the states that satisfy an invariant.  Both channels
    are refinements for the operations that keep the invariant; [clear] of the
    priority channel does not keep it.

    Every operation runs under the monitor of the channel, so it is one step;
    [dequeue] waits, and is given what the other threads do to the channel during each
    wait. *)

From stdpp Require Import sets.
From S2P Require Import Prelude DataStreams PrimitiveTypes Support BooleanStreams Wire BaseMarshaller Commands.

(** A Pointer<MessageDispatch>: the object and its address, which is what pointers are
    compared by.  [rollbackCause] is the message of the exception in the member of
    that name, which is not sent. *)
Record Dispatch := mkDispatch { address : nat; body : MessageDispatch.t DataStructure; rollbackCause : list Z }.

Class MessageDispatchChannel (C : Type) := {
  ch_new : C;
  ch_enqueue : Dispatch -> C -> C;
  ch_enqueueFirst : Dispatch -> C -> C;
  ch_isEmpty : C -> bool;
  ch_isClosed : C -> bool;
  ch_isRunning : C -> bool;
  ch_dequeueNoWait : C -> option Dispatch * C;
  ch_peek : C -> option Dispatch;
  ch_start : C -> C;
  ch_stop : C -> C;
  ch_close : C -> C;
  ch_clear : C -> C;
  ch_size : C -> Z;
  ch_removeAll : C -> list Dispatch * C
}.

(** What a wait ends in. *)
Inductive outcome (C : Type) :=
| Blocked (c : C)
| Returned (m : option Dispatch) (c : C).
Arguments Blocked {C} _.
Arguments Returned {C} _ _.

(** [dequeue(timeout)], the code of both channels: [wakeups] says, for each time a call
    of [wait] returns, what the other threads did to the channel in the meantime, and
    what they got; a wait that is still on has [Blocked]. *)
Fixpoint ch_dequeue {C A} `{MessageDispatchChannel C} (timeout : Z) (c : C) (wakeups : list (C -> A * C)) :
    list A * outcome C :=
  if negb (timeout =? 0) && negb (ch_isClosed c) && (ch_isEmpty c || negb (ch_isRunning c)) then
    match wakeups with
    | [] => ([], Blocked c)
    | others :: wakeups =>
      let '(a, c') := others c in
      if timeout =? -1 then let '(l, o) := ch_dequeue timeout c' wakeups in (a :: l, o)
      else let '(m, c'') := ch_dequeueNoWait c' in ([a], Returned m c'')
    end
  else let '(m, c') := ch_dequeueNoWait c in ([], Returned m c').

(** ** FifoMessageDispatchChannel *)
Module FifoMessageDispatchChannel.
Record t := mk { closed : bool; running : bool; channel : list Dispatch }.

Definition new : t := mk false false [].
Definition enqueue (m : Dispatch) (c : t) : t := mk (closed c) (running c) (channel c ++ [m]).
Definition enqueueFirst (m : Dispatch) (c : t) : t := mk (closed c) (running c) (m :: channel c).
Definition isEmpty (c : t) : bool := match channel c with [] => true | _ => false end.
Definition dequeueNoWait (c : t) : option Dispatch * t :=
  if closed c || negb (running c) || isEmpty c then (None, c)
  else (head (channel c), mk (closed c) (running c) (tail (channel c))).
Definition peek (c : t) : option Dispatch :=
  if closed c || negb (running c) || isEmpty c then None else head (channel c).
Definition start (c : t) : t := if closed c then c else mk (closed c) true (channel c).
Definition stop (c : t) : t := mk (closed c) false (channel c).
Definition close (c : t) : t := if closed c then c else mk true false (channel c).
Definition clear (c : t) : t := mk (closed c) (running c) [].
Definition size (c : t) : Z := zlen (channel c).
Definition removeAll (c : t) : list Dispatch * t := (channel c, clear c).

#[global] Instance interface : MessageDispatchChannel t := {
  ch_new := new; ch_enqueue := enqueue; ch_enqueueFirst := enqueueFirst; ch_isEmpty := isEmpty;
  ch_isClosed := closed; ch_isRunning := running; ch_dequeueNoWait := dequeueNoWait; ch_peek := peek;
  ch_start := start; ch_stop := stop; ch_close := close; ch_clear := clear; ch_size := size;
  ch_removeAll := removeAll
}.
End FifoMessageDispatchChannel.

(** ** SimplePriorityMessageDispatchChannel *)
Module SimplePriorityMessageDispatchChannel.
Definition MAX_PRIORITIES : nat := 10.
Definition DEFAULT_MSG_PRIORITY : Z := 4.

Record t := mk { closed : bool; running : bool; channels : list (list Dispatch); enqueued : Z }.

Definition new : t := mk false false (replicate MAX_PRIORITIES []) 0.

(** [getChannel]: the result of [max] is overwritten by that of [min]; the priority
    is an [unsigned char], so that it is an index all the same. *)
Definition getChannel (m : Dispatch) : nat :=
  Z.to_nat (match MessageDispatch.message (body m) with
            | None => DEFAULT_MSG_PRIORITY
            | Some msg => Z.min (Message.priority msg) 9
            end).

Definition enqueue (m : Dispatch) (c : t) : t :=
  mk (closed c) (running c) (alter (fun l => l ++ [m]) (getChannel m) (channels c)) (enqueued c + 1).
Definition enqueueFirst (m : Dispatch) (c : t) : t :=
  mk (closed c) (running c) (alter (cons m) (getChannel m) (channels c)) (enqueued c + 1).
Definition isEmpty (c : t) : bool := enqueued c =? 0.

(** The loops of [removeFirst] and [getFirst], from channel [i - 1] down to 0. *)
Fixpoint removeFirst_loop (i : nat) (c : t) : option Dispatch * t :=
  match i with
  | O => (None, c)
  | S i =>
    match channels c !! i with
    | Some (m :: l) => (Some m, mk (closed c) (running c) (<[i := l]> (channels c)) (enqueued c - 1))
    | _ => removeFirst_loop i c
    end
  end.
Definition removeFirst (c : t) : option Dispatch * t :=
  if 0 <? enqueued c then removeFirst_loop MAX_PRIORITIES c else (None, c).
Fixpoint getFirst_loop (i : nat) (c : t) : option Dispatch :=
  match i with
  | O => None
  | S i => match channels c !! i with Some (m :: _) => Some m | _ => getFirst_loop i c end
  end.
Definition getFirst (c : t) : option Dispatch :=
  if 0 <? enqueued c then getFirst_loop MAX_PRIORITIES c else None.

Definition dequeueNoWait (c : t) : option Dispatch * t :=
  if closed c || negb (running c) || isEmpty c then (None, c) else removeFirst c.
Definition peek (c : t) : option Dispatch :=
  if closed c || negb (running c) || isEmpty c then None else getFirst c.
Definition start (c : t) : t := if closed c then c else mk (closed c) true (channels c) (enqueued c).
Definition stop (c : t) : t := mk (closed c) false (channels c) (enqueued c).
Definition close (c : t) : t := if closed c then c else mk true false (channels c) (enqueued c).
Definition clear (c : t) : t :=
  mk (closed c) (running c) (map (fun _ => []) (channels c)) (enqueued c).
Definition size (c : t) : Z := enqueued c.

Fixpoint removeAll_loop (i : nat) (result : list Dispatch) (c : t) : list Dispatch * t :=
  match i with
  | O => (result, c)
  | S i =>
    let temp := default [] (channels c !! i) in
    removeAll_loop i (result ++ temp)
      (mk (closed c) (running c) (<[i := []]> (channels c)) (enqueued c - zlen temp))
  end.
Definition removeAll (c : t) : list Dispatch * t := removeAll_loop MAX_PRIORITIES [] c.

#[global] Instance interface : MessageDispatchChannel t := {
  ch_new := new; ch_enqueue := enqueue; ch_enqueueFirst := enqueueFirst; ch_isEmpty := isEmpty;
  ch_isClosed := closed; ch_isRunning := running; ch_dequeueNoWait := dequeueNoWait; ch_peek := peek;
  ch_start := start; ch_stop := stop; ch_close := close; ch_clear := clear; ch_size := size;
  ch_removeAll := removeAll
}.
End SimplePriorityMessageDispatchChannel.

(** ** What a channel promises

    The messages in delivery order, with where [enqueue] and [enqueueFirst] put a
    new one, under a [rank] of the messages: behind, or in front of, the messages
    of its rank, after those of higher rank and before those of lower rank. *)
Module Spec.
Section Rank.
Context (rank : Dispatch -> nat).
Record t := mk { closed : bool; running : bool; queue : list Dispatch }.

Definition insert (m : Dispatch) (l : list Dispatch) : list Dispatch :=
  filter (fun x => rank m <= rank x)%nat l ++ m :: filter (fun x => rank x < rank m)%nat l.
Definition insertFirst (m : Dispatch) (l : list Dispatch) : list Dispatch :=
  filter (fun x => rank m < rank x)%nat l ++ m :: filter (fun x => rank x <= rank m)%nat l.
Definition ready (s : t) : bool := negb (closed s) && running s.
Definition available (s : t) : bool := closed s || ready s && bool_decide (queue s <> []).
Definition first (s : t) : option Dispatch := if ready s then head (queue s) else None.
Definition rest (s : t) : t := if ready s then mk (closed s) (running s) (tail (queue s)) else s.
End Rank.
End Spec.
#[local] Arguments Spec.insert : simpl never.
#[local] Arguments Spec.insertFirst : simpl never.

(** How a message ranks: by the priority of the message, which JMS has from 0 to 9, a
    higher one counting as 9; a dispatch without a message counts as one of the default
    priority 4. *)
Definition delivery_rank (m : Dispatch) : nat :=
  match MessageDispatch.message (body m) with
  | None => 4
  | Some msg =>
    if Message.priority msg <=? 0 then 0
    else if 9 <=? Message.priority msg then 9
    else Z.to_nat (Message.priority msg)
  end.

Class ChannelLaws (C : Type) `{MessageDispatchChannel C} := {
  cl_rank : Dispatch -> nat;
  cl_ok : C -> Prop;
  cl_abs : C -> Spec.t;
  cl_new : cl_ok ch_new /\ cl_abs ch_new = Spec.mk false false [];
  cl_enqueue c m : cl_ok c -> cl_ok (ch_enqueue m c) /\
    cl_abs (ch_enqueue m c) =
      Spec.mk (ch_isClosed c) (ch_isRunning c) (Spec.insert cl_rank m (Spec.queue (cl_abs c)));
  cl_enqueueFirst c m : cl_ok c -> cl_ok (ch_enqueueFirst m c) /\
    cl_abs (ch_enqueueFirst m c) =
      Spec.mk (ch_isClosed c) (ch_isRunning c) (Spec.insertFirst cl_rank m (Spec.queue (cl_abs c)));
  cl_observers c : cl_ok c -> ch_isClosed c = Spec.closed (cl_abs c) /\ ch_isRunning c = Spec.running (cl_abs c) /\
    ch_size c = zlen (Spec.queue (cl_abs c)) /\ ch_isEmpty c = bool_decide (Spec.queue (cl_abs c) = []) /\
    ch_peek c = Spec.first (cl_abs c);
  cl_dequeue c : cl_ok c -> let '(m, c') := ch_dequeueNoWait c in
    cl_ok c' /\ m = Spec.first (cl_abs c) /\ cl_abs c' = Spec.rest (cl_abs c);
  cl_switch c : cl_ok c -> cl_ok (ch_start c) /\ cl_ok (ch_stop c) /\ cl_ok (ch_close c) /\
    cl_abs (ch_start c) = Spec.mk (ch_isClosed c) (negb (ch_isClosed c) || ch_isRunning c) (Spec.queue (cl_abs c)) /\
    cl_abs (ch_stop c) = Spec.mk (ch_isClosed c) false (Spec.queue (cl_abs c)) /\
    cl_abs (ch_close c) = Spec.mk true (ch_isClosed c && ch_isRunning c) (Spec.queue (cl_abs c));
  cl_removeAll c : cl_ok c -> let '(l, c') := ch_removeAll c in
    cl_ok c' /\ l = Spec.queue (cl_abs c) /\ cl_abs c' = Spec.mk (ch_isClosed c) (ch_isRunning c) []
}.

(** ** Both channels keep the promise *)
Lemma filter_all {A} (P : A -> Prop) `{forall x, Decision (P x)} (l : list A) : (forall x, x ∈ l -> P x) -> filter P l = l.
Proof.
  intros HP. induction l as [|x l IH]; [done |]. rewrite filter_cons_True by (apply HP; set_solver).
  f_equal. apply IH. set_solver.
Qed.
Lemma filter_none {A} (P : A -> Prop) `{forall x, Decision (P x)} (l : list A) : (forall x, x ∈ l -> ~ P x) -> filter P l = [].
Proof.
  intros HP. induction l as [|x l IH]; [done |]. rewrite filter_cons_False by (apply HP; set_solver).
  apply IH. set_solver.
Qed.

Section Fifo.
Import FifoMessageDispatchChannel.
#[global] Program Instance fifo_laws : ChannelLaws FifoMessageDispatchChannel.t := {
  cl_rank := fun _ => O;
  cl_ok := fun _ => True;
  cl_abs := fun c => Spec.mk (closed c) (running c) (channel c)
}.
Next Obligation. done. Qed.
Next Obligation.
  intros c m _. split; [done |]. cbn. unfold Spec.insert, enqueue. cbn.
  rewrite filter_all, filter_none by (intros; lia). done.
Qed.
Next Obligation.
  intros c m _. split; [done |]. cbn. unfold Spec.insertFirst, enqueueFirst. cbn.
  rewrite filter_none, filter_all by (intros; lia). done.
Qed.
Next Obligation.
  intros [cl r l] _. cbn. repeat split; [by destruct l |].
  unfold peek, Spec.first, Spec.ready, isEmpty. by destruct cl, r, l.
Qed.
Next Obligation.
  intros [cl r l] _. cbn. unfold dequeueNoWait, Spec.first, Spec.rest, Spec.ready, isEmpty. by destruct cl, r, l.
Qed.
Next Obligation. intros [cl r l] _. repeat split; by destruct cl, r. Qed.
Next Obligation. done. Qed.
End Fifo.

Section Priority.
Import SimplePriorityMessageDispatchChannel.

(** Every message is in the channel of its priority and the counter is right. *)
Definition sorted_channels (chs : list (list Dispatch)) : Prop :=
  forall i l m, chs !! i = Some l -> m ∈ l -> getChannel m = i.
Definition contents (chs : list (list Dispatch)) : list Dispatch := concat (rev chs).
#[local] Arguments contents : simpl never.
Definition priority_ok (c : t) : Prop :=
  length (channels c) = MAX_PRIORITIES /\ sorted_channels (channels c) /\ enqueued c = zlen (contents (channels c)).

Lemma contents_snoc chs l : contents (chs ++ [l]) = l ++ contents chs.
Proof. unfold contents. by rewrite rev_app_distr. Qed.
Lemma sorted_snoc chs l : sorted_channels (chs ++ [l]) ->
  sorted_channels chs /\ forall m, m ∈ l -> getChannel m = length chs.
Proof.
  intros Hs. split.
  - intros i l' m Hi. apply (Hs i). by apply lookup_app_l_Some.
  - intros m Hm. apply (Hs _ l m); [by rewrite lookup_app_r, Nat.sub_diag by lia | done].
Qed.

(** The messages from a priority on are those of the channels from it on. *)
Lemma filter_from p chs : sorted_channels chs ->
  filter (fun m => p <= getChannel m)%nat (contents chs) = contents (drop p chs) /\
  filter (fun m => getChannel m < p)%nat (contents chs) = contents (take p chs).
Proof.
  induction chs as [|l chs IH] using rev_ind; [by rewrite drop_nil, take_nil |].
  intros [Hs Hl]%sorted_snoc. specialize (IH Hs) as [IH1 IH2].
  rewrite contents_snoc, !list.filter_app, IH1, IH2.
  destruct (decide (p <= length chs)%nat) as [Hp|Hp].
  - rewrite (filter_all (fun m => p <= _)%nat), (filter_none (fun m => _ < p)%nat)
      by (intros m Hm; rewrite (Hl m Hm); lia).
    rewrite drop_app_le, take_app_le, contents_snoc by done. done.
  - rewrite (filter_none (fun m => p <= _)%nat), (filter_all (fun m => _ < p)%nat)
      by (intros m Hm; rewrite (Hl m Hm); lia).
    rewrite !drop_ge, !take_ge, contents_snoc by (rewrite ?length_app; cbn; lia). done.
Qed.

Lemma contents_app c1 c2 : contents (c1 ++ c2) = contents c2 ++ contents c1.
Proof. unfold contents. by rewrite rev_app_distr, concat_app. Qed.

(** A channel that is changed, seen from the contents. *)
Lemma contents_middle chs i l : chs !! i = Some l ->
  contents chs = contents (drop (S i) chs) ++ l ++ contents (take i chs).
Proof.
  intros Hi. rewrite <- (take_drop_middle chs i l Hi) at 1. rewrite contents_app.
  change (l :: drop (S i) chs) with ([l] ++ drop (S i) chs). rewrite contents_app, <- app_assoc.
  unfold contents at 2. cbn. by rewrite app_nil_r.
Qed.
Lemma contents_insert chs i l : (i < length chs)%nat ->
  contents (<[i := l]> chs) = contents (drop (S i) chs) ++ l ++ contents (take i chs).
Proof.
  intros Hi. rewrite (contents_middle _ i l) by by apply list_lookup_insert_eq.
  by rewrite drop_insert_lt, take_insert_ge by lia.
Qed.
Lemma getChannel_lt m : (getChannel m < MAX_PRIORITIES)%nat.
Proof. unfold getChannel, MAX_PRIORITIES, DEFAULT_MSG_PRIORITY. destruct (MessageDispatch.message (body m)); lia. Qed.
Lemma getChannel_rank m : getChannel m = delivery_rank m.
Proof.
  unfold getChannel, delivery_rank, DEFAULT_MSG_PRIORITY. destruct (MessageDispatch.message (body m)); [| done].
  destruct (Z.leb_spec (Message.priority t0) 0); [lia |]. destruct (Z.leb_spec 9 (Message.priority t0)); lia.
Qed.
Lemma drop_contents chs i l : chs !! i = Some l -> contents (drop i chs) = contents (drop (S i) chs) ++ l.
Proof.
  intros Hi. rewrite (drop_S chs l i Hi). change (l :: ?x) with ([l] ++ x). rewrite contents_app.
  unfold contents at 2. cbn. by rewrite app_nil_r.
Qed.
Lemma take_contents chs i l : chs !! i = Some l -> contents (take (S i) chs) = l ++ contents (take i chs).
Proof. intros Hi. rewrite (take_S_r chs i l Hi). apply contents_snoc. Qed.

Lemma sorted_insert chs i l : sorted_channels chs -> (forall m, m ∈ l -> getChannel m = i) ->
  sorted_channels (<[i := l]> chs).
Proof.
  intros Hs Hl j l' m Hj Hm. destruct (decide (i = j)) as [<-|Hne].
  - destruct (decide (i < length chs)%nat) as [Hi|Hi].
    + rewrite list_lookup_insert_eq in Hj by done. injection Hj as <-. by apply Hl.
    + rewrite list_insert_ge in Hj by lia. by apply (Hs i l').
  - rewrite list_lookup_insert_ne in Hj by done. by apply (Hs j l').
Qed.

(** Replacing one channel by messages of its priority, with the counter adjusted,
    keeps the invariant. *)
Lemma priority_ok_update cl r c i l l' : priority_ok c -> channels c !! i = Some l ->
  (forall m, m ∈ l' -> getChannel m = i) ->
  priority_ok (mk cl r (<[i := l']> (channels c)) (enqueued c + zlen l' - zlen l)).
Proof.
  intros (Hlen & Hs & Hn) Hi Hl'. split_and!; cbn [channels enqueued].
  - by rewrite length_insert.
  - by apply sorted_insert.
  - rewrite Hn, (contents_middle _ i l Hi), contents_insert by (apply lookup_lt_Some in Hi; done).
    unfold zlen. rewrite !length_app. lia.
Qed.
Lemma priority_channel c m : priority_ok c -> exists l, channels c !! getChannel m = Some l.
Proof. intros (Hlen & _). apply lookup_lt_is_Some. rewrite Hlen. apply getChannel_lt. Qed.
Lemma list_alter_Some {A} (f : A -> A) (i : nat) (l : list A) x : l !! i = Some x -> alter f i l = <[i := f x]> l.
Proof. revert i. induction l as [|y l IH]; intros [|i] H; try done; cbn in *; [by injection H as -> | f_equal; by apply IH]. Qed.
Lemma sorted_channel_elem c i l m : priority_ok c -> channels c !! i = Some l -> m ∈ l -> getChannel m = i.
Proof. intros (_ & Hs & _). apply Hs. Qed.

(** The two ways in, from the contents. *)
Lemma insert_contents c m l : priority_ok c -> channels c !! getChannel m = Some l ->
  Spec.insert getChannel m (contents (channels c)) = contents (<[getChannel m := l ++ [m]]> (channels c)) /\
  Spec.insertFirst getChannel m (contents (channels c)) = contents (<[getChannel m := m :: l]> (channels c)).
Proof.
  intros Hok Hi. destruct Hok as (Hlen & Hs & _). pose proof (lookup_lt_Some _ _ _ Hi) as Hlt.
  unfold Spec.insert, Spec.insertFirst. rewrite !contents_insert by done. split.
  - destruct (filter_from (getChannel m) _ Hs) as [-> ->].
    by rewrite (drop_contents _ _ _ Hi), <- !app_assoc.
  - destruct (filter_from (S (getChannel m)) _ Hs) as [H1 H2].
    rewrite (take_contents _ _ _ Hi) in H2. f_equal; [| cbn; f_equal]; [rewrite <- H1 | rewrite <- H2];
      apply list_filter_iff; intros; lia.
Qed.

(** The loops find the head of the contents. *)
Lemma first_loop i c : getFirst_loop i c = head (contents (take i (channels c))).
Proof.
  induction i as [|i IH]; [done |]. cbn. destruct (channels c !! i) as [l|] eqn:Hi.
  - rewrite (take_contents _ _ _ Hi). by destruct l.
  - rewrite IH. apply lookup_ge_None in Hi. by rewrite !take_ge by lia.
Qed.
Lemma remove_loop i c : contents (drop i (channels c)) = [] ->
  contents (channels c) = [] /\ removeFirst_loop i c = (None, c) \/
  exists j m l, channels c !! j = Some (m :: l) /\ contents (channels c) = m :: contents (<[j := l]> (channels c)) /\
    removeFirst_loop i c = (Some m, mk (closed c) (running c) (<[j := l]> (channels c)) (enqueued c - 1)).
Proof.
  induction i as [|i IH]; intros Hd; [by left |]. cbn. destruct (channels c !! i) as [[|m l]|] eqn:Hi.
  - apply IH. rewrite (drop_contents _ _ _ Hi), Hd. done.
  - right. exists i, m, l. split_and!; [done | | done].
    rewrite (contents_middle _ i _ Hi), contents_insert, Hd by by apply lookup_lt_Some in Hi. done.
  - apply IH. apply lookup_ge_None in Hi. by rewrite drop_ge by done.
Qed.

(** [removeAll] empties the channels from the top. *)
Lemma removeAll_loop_spec i acc c : (i <= length (channels c))%nat ->
  removeAll_loop i acc c =
    (acc ++ contents (take i (channels c)),
     mk (closed c) (running c) (replicate i [] ++ drop i (channels c)) (enqueued c - zlen (contents (take i (channels c))))).
Proof.
  revert acc c. induction i as [|i IH]; intros acc c Hi.
  - cbn. rewrite app_nil_r, drop_0, Z.sub_0_r. by destruct c.
  - destruct (lookup_lt_is_Some_2 (channels c) i) as [l Hl]; [lia |].
    cbn [removeAll_loop]. rewrite Hl. cbn [from_option id]. rewrite IH by (cbn [channels]; rewrite length_insert; lia).
    cbn [channels closed running enqueued]. rewrite (take_contents _ _ _ Hl), take_insert_ge, <- app_assoc by lia.
    f_equal. f_equal.
    + rewrite drop_insert_ge, Nat.sub_diag, (drop_S _ _ _ Hl), replicate_S_end, <- app_assoc by lia. done.
    + unfold zlen. rewrite length_app. lia.
Qed.
Lemma contents_replicate n : contents (replicate n []) = [].
Proof. induction n as [|n IH]; [done |]. rewrite replicate_S_end, contents_snoc. done. Qed.
Lemma sorted_replicate n : sorted_channels (replicate n []).
Proof. intros i l m [-> _]%lookup_replicate Hm. by apply not_elem_of_nil in Hm. Qed.

Lemma priority_count c : priority_ok c ->
  (0 <? enqueued c) = negb (isEmpty c) /\ isEmpty c = bool_decide (contents (channels c) = []).
Proof.
  intros (_ & _ & Hn). unfold isEmpty. rewrite Hn. by destruct (contents (channels c)).
Qed.
Lemma removeFirst_spec c : priority_ok c -> let '(m, c') := removeFirst c in
  priority_ok c' /\ m = head (contents (channels c)) /\ closed c' = closed c /\ running c' = running c /\
  contents (channels c') = tail (contents (channels c)).
Proof.
  intros Hok. pose proof Hok as (Hlen & _). destruct (priority_count c Hok) as [Hp He]. unfold removeFirst.
  rewrite Hp, He. destruct (remove_loop MAX_PRIORITIES c) as [[Hc ->]|(j & m & l & Hj & Hc & ->)].
  - by rewrite drop_ge by lia.
  - case_bool_decide; by rewrite Hc.
  - case_bool_decide as Hb; [by rewrite Hc in Hb |]. cbn. rewrite Hc. split_and!; try done.
    replace (enqueued c - 1) with (enqueued c + zlen l - zlen (m :: l)) by (unfold zlen; cbn; lia).
    apply priority_ok_update; [done.. |]. intros x Hx. apply (sorted_channel_elem c j _ x Hok Hj). by right.
Qed.

Lemma insert_rank m l : Spec.insert delivery_rank m l = Spec.insert getChannel m l /\
  Spec.insertFirst delivery_rank m l = Spec.insertFirst getChannel m l.
Proof.
  unfold Spec.insert, Spec.insertFirst.
  split; (f_equal; [| f_equal]); apply list_filter_iff; intros x; by rewrite !getChannel_rank.
Qed.

#[global] Program Instance priority_laws : ChannelLaws SimplePriorityMessageDispatchChannel.t := {
  cl_rank := delivery_rank;
  cl_ok := priority_ok;
  cl_abs := fun c => Spec.mk (closed c) (running c) (contents (channels c))
}.
Next Obligation. split; [| done]. split_and!; [done | apply sorted_replicate | done]. Qed.
Next Obligation.
  intros c m Hok. destruct (priority_channel c m Hok) as [l Hl]. cbn. unfold enqueue.
  rewrite (list_alter_Some _ _ _ _ Hl), (proj1 (insert_rank m _)), (proj1 (insert_contents c m l Hok Hl)). split; [| done].
  replace (enqueued c + 1) with (enqueued c + zlen (l ++ [m]) - zlen l) by (unfold zlen; rewrite length_app; cbn; lia).
  apply priority_ok_update; [done.. |]. intros x [Hx|Hx]%elem_of_app; [| by apply list_elem_of_singleton in Hx as ->].
  by apply (sorted_channel_elem c _ l).
Qed.
Next Obligation.
  intros c m Hok. destruct (priority_channel c m Hok) as [l Hl]. cbn. unfold enqueueFirst.
  rewrite (list_alter_Some _ _ _ _ Hl), (proj2 (insert_rank m _)), (proj2 (insert_contents c m l Hok Hl)). split; [| done].
  replace (enqueued c + 1) with (enqueued c + zlen (m :: l) - zlen l) by (unfold zlen; cbn; lia).
  apply priority_ok_update; [done.. |]. intros x [->|Hx]%elem_of_cons; [done |].
  by apply (sorted_channel_elem c _ l).
Qed.
Next Obligation.
  intros c Hok. pose proof Hok as (Hlen & _ & Hn). destruct (priority_count c Hok) as [Hp He]. cbn.
  split_and!; [done.. | ]. unfold peek, getFirst, Spec.first, Spec.ready. rewrite Hp, first_loop, He.
  rewrite take_ge by lia. cbn. case_bool_decide as Hb; [rewrite Hb |]; by destruct (closed c), (running c).
Qed.
Next Obligation.
  intros c Hok. cbn. unfold dequeueNoWait, Spec.first, Spec.rest, Spec.ready. cbn.
  destruct (closed c) eqn:Hc, (running c) eqn:Hr; cbn; rewrite ?Hc, ?Hr; try done.
  pose proof (removeFirst_spec c Hok) as Hrm. destruct (isEmpty c) eqn:He.
  - rewrite (proj2 (priority_count c Hok)) in He. apply bool_decide_eq_true in He. by rewrite Hc, Hr, He.
  - destruct (removeFirst c) as [m c']. destruct Hrm as (Hok' & -> & Hc' & Hr' & Hq). by rewrite Hc', Hr', Hq, Hc, Hr.
Qed.
Next Obligation. intros [cl r l n] Hok. split_and!; by destruct cl, r. Qed.
Next Obligation.
  intros c (Hlen & Hs & Hn). unfold ch_removeAll, interface, removeAll. rewrite removeAll_loop_spec by lia.
  rewrite take_ge, drop_ge, app_nil_r by lia. split_and!; [| done..]. split_and!.
  - done.
  - apply (sorted_replicate MAX_PRIORITIES).
  - cbn [enqueued]. rewrite Hn, Z.sub_diag. done.
Qed.
End Priority.

(** ** Runs of a channel

    The calls a session makes on a channel, and what they return. *)
Inductive call :=
| Enqueue (m : Dispatch) | EnqueueFirst (m : Dispatch) | DequeueNoWait | Peek
| Start | Stop | Close | RemoveAll | Size | IsEmpty.
Inductive answer :=
| Done | Message (m : option Dispatch) | Messages (l : list Dispatch) | Count (n : Z) | Answer (b : bool).

Definition ch_call {C} `{MessageDispatchChannel C} (o : call) (c : C) : answer * C :=
  match o with
  | Enqueue m => (Done, ch_enqueue m c)
  | EnqueueFirst m => (Done, ch_enqueueFirst m c)
  | DequeueNoWait => let '(m, c') := ch_dequeueNoWait c in (Message m, c')
  | Peek => (Message (ch_peek c), c)
  | Start => (Done, ch_start c)
  | Stop => (Done, ch_stop c)
  | Close => (Done, ch_close c)
  | RemoveAll => let '(l, c') := ch_removeAll c in (Messages l, c')
  | Size => (Count (ch_size c), c)
  | IsEmpty => (Answer (ch_isEmpty c), c)
  end.

(** The same calls on the specification. *)
Definition spec_call (rank : Dispatch -> nat) (o : call) (s : Spec.t) : answer * Spec.t :=
  let '(Spec.mk cl r q) := s in
  match o with
  | Enqueue m => (Done, Spec.mk cl r (Spec.insert rank m q))
  | EnqueueFirst m => (Done, Spec.mk cl r (Spec.insertFirst rank m q))
  | DequeueNoWait => (Message (Spec.first s), Spec.rest s)
  | Peek => (Message (Spec.first s), s)
  | Start => (Done, Spec.mk cl (negb cl || r) q)
  | Stop => (Done, Spec.mk cl false q)
  | Close => (Done, Spec.mk true (cl && r) q)
  | RemoveAll => (Messages q, Spec.mk cl r [])
  | Size => (Count (zlen q), s)
  | IsEmpty => (Answer (bool_decide (q = [])), s)
  end.

Fixpoint run {O A S} (step : O -> S -> A * S) (os : list O) (s : S) : list A * S :=
  match os with
  | [] => ([], s)
  | o :: os => let '(a, s) := step o s in let '(l, s) := run step os s in (a :: l, s)
  end.

(** A thread that is about to call [dequeue(timeout)]: the others make the calls of the
    first list of [meanwhile] during its first wait, of the second during the next. *)
Inductive request :=
| Call (o : call)
| Dequeue (timeout : Z) (meanwhile : list (list call)).
(** What was returned; a [dequeue] that still waits has returned nothing. *)
Inductive reply :=
| Answered (a : answer)
| Dequeued (others : list (list answer)) (m : option (option Dispatch)).

Definition ch_request {C} `{MessageDispatchChannel C} (q : request) (c : C) : reply * C :=
  match q with
  | Call o => let '(a, c) := ch_call o c in (Answered a, c)
  | Dequeue timeout meanwhile =>
    match ch_dequeue timeout c (map (run ch_call) meanwhile) with
    | (l, Returned m c) => (Dequeued l (Some m), c)
    | (l, Blocked c) => (Dequeued l None, c)
    end
  end.

(** [dequeue] of the specification: the first message, once there is one to be had or the
    queue is closed; after one wait in any case when the time is limited, and without a
    wait when it is 0. *)
Fixpoint spec_dequeue (rank : Dispatch -> nat) (timeout : Z) (meanwhile : list (list call)) (s : Spec.t) : reply * Spec.t :=
  if (timeout =? 0) || Spec.available s then (Dequeued [] (Some (Spec.first s)), Spec.rest s)
  else match meanwhile with
  | [] => (Dequeued [] None, s)
  | os :: meanwhile =>
    let '(l, s1) := run (spec_call rank) os s in
    if timeout =? -1 then
      match spec_dequeue rank timeout meanwhile s1 with
      | (Dequeued ls m, s2) => (Dequeued (l :: ls) m, s2)
      | (r, s2) => (r, s2)
      end
    else (Dequeued [l] (Some (Spec.first s1)), Spec.rest s1)
  end.
Definition spec_request (rank : Dispatch -> nat) (q : request) (s : Spec.t) : reply * Spec.t :=
  match q with
  | Call o => let '(a, s) := spec_call rank o s in (Answered a, s)
  | Dequeue timeout meanwhile => spec_dequeue rank timeout meanwhile s
  end.

Section Simulation.
Context {C} `{Laws : ChannelLaws C}.

Lemma call_simulated o c : cl_ok c -> let '(a, c') := ch_call o c in
  cl_ok c' /\ spec_call cl_rank o (cl_abs c) = (a, cl_abs c').
Proof.
  intros Hok. destruct (cl_observers c Hok) as (Hc & Hr & Hsz & He & Hp).
  pose proof (cl_enqueue c) as H1. pose proof (cl_enqueueFirst c) as H2. pose proof (cl_dequeue c Hok) as H3.
  pose proof (cl_switch c Hok) as (H4 & H5 & H6 & H7 & H8 & H9). pose proof (cl_removeAll c Hok) as H10.
  destruct (cl_abs c) as [cl r q] eqn:Habs. cbn in *.
  destruct o as [m|m| | | | | | | |]; cbn.
  - destruct (H1 m Hok) as [? ->]. by rewrite Hc, Hr.
  - destruct (H2 m Hok) as [? ->]. by rewrite Hc, Hr.
  - destruct (ch_dequeueNoWait c). destruct H3 as (? & -> & ->). done.
  - by rewrite Hp, Habs.
  - by rewrite H7, Hc, Hr.
  - by rewrite H8, Hc.
  - by rewrite H9, Hc, Hr.
  - destruct (ch_removeAll c). destruct H10 as (? & -> & ->). by rewrite Hc, Hr.
  - by rewrite Hsz, Habs.
  - by rewrite He, Habs.
Qed.
Lemma run_simulated os c : cl_ok c -> let '(l, c') := run ch_call os c in
  cl_ok c' /\ run (spec_call cl_rank) os (cl_abs c) = (l, cl_abs c').
Proof.
  revert c. induction os as [|o os IH]; intros c Hok; [done |]. cbn.
  pose proof (call_simulated o c Hok) as Ho. destruct (ch_call o c) as [a c1]. destruct Ho as [Hok1 ->].
  specialize (IH c1 Hok1). destruct (run ch_call os c1) as [l c2]. destruct IH as [Hok2 ->]. done.
Qed.

(** What a wait with no time limit comes to. *)
Definition awake (c : C) : bool := ch_isClosed c || negb (ch_isEmpty c) && ch_isRunning c.
Lemma wait_guard timeout c :
  negb (timeout =? 0) && negb (ch_isClosed c) && (ch_isEmpty c || negb (ch_isRunning c)) =
  negb ((timeout =? 0) || awake c).
Proof. unfold awake. by destruct (timeout =? 0), (ch_isClosed c), (ch_isEmpty c), (ch_isRunning c). Qed.
Lemma awake_available c : cl_ok c -> awake c = Spec.available (cl_abs c).
Proof.
  intros Hok. destruct (cl_observers c Hok) as (Hc & Hr & _ & He & _). unfold awake, Spec.available, Spec.ready.
  rewrite Hc, Hr, He. by destruct (Spec.closed _), (Spec.running _), (Spec.queue _).
Qed.
Lemma dequeue_simulated timeout meanwhile c : cl_ok c ->
  let '(a, c') := ch_request (Dequeue timeout meanwhile) c in
  cl_ok c' /\ spec_dequeue cl_rank timeout meanwhile (cl_abs c) = (a, cl_abs c').
Proof.
  revert c. induction meanwhile as [|os meanwhile IH]; intros c Hok; cbn [ch_request map ch_dequeue spec_dequeue];
    rewrite wait_guard, <- awake_available by done; destruct (_ || _); cbn [negb].
  1,3: pose proof (cl_dequeue c Hok) as H1; destruct (ch_dequeueNoWait c); by destruct H1 as (? & -> & ->).
  - done.
  - pose proof (run_simulated os c Hok) as H1. destruct (run ch_call os c) as [l c1]. destruct H1 as [Hok1 ->].
    destruct (timeout =? -1).
    + specialize (IH c1 Hok1). cbn [ch_request] in IH. destruct (ch_dequeue timeout c1 _) as [ls [c2|m c2]];
        destruct IH as [? ->]; done.
    + pose proof (cl_dequeue c1 Hok1) as H1. destruct (ch_dequeueNoWait c1); by destruct H1 as (? & -> & ->).
Qed.
Lemma requests_simulated qs c : cl_ok c -> let '(l, c') := run ch_request qs c in
  cl_ok c' /\ run (spec_request cl_rank) qs (cl_abs c) = (l, cl_abs c').
Proof.
  revert c. induction qs as [|q qs IH]; intros c Hok; [done |]. cbn [run].
  assert (Hq : let '(a, c') := ch_request q c in cl_ok c' /\ spec_request cl_rank q (cl_abs c) = (a, cl_abs c')).
  { destruct q as [o|timeout meanwhile]; [| by apply dequeue_simulated]. cbn. pose proof (call_simulated o c Hok) as Ho.
    destruct (ch_call o c). by destruct Ho as [? ->]. }
  destruct (ch_request q c) as [a c1]. destruct Hq as [Hok1 ->].
  specialize (IH c1 Hok1). destruct (run ch_request qs c1) as [l c2]. by destruct IH as [? ->].
Qed.
Lemma run_refines qs : fst (run ch_request qs ch_new) = fst (run (spec_request cl_rank) qs (Spec.mk false false [])).
Proof.
  destruct cl_new as [Hok Habs]. pose proof (requests_simulated qs ch_new Hok) as Hr. rewrite Habs in Hr.
  destruct (run ch_request qs ch_new) as [l c']. by destruct Hr as [_ ->].
Qed.

Lemma dequeue_awake c : cl_ok c -> awake c = true -> let '(m, c') := ch_dequeueNoWait c in
  m = Spec.first (cl_abs c) /\ cl_ok c' /\ (m = None <-> ch_isClosed c = true).
Proof.
  intros Hok Ha. destruct (cl_observers c Hok) as (Hc & Hr & _ & He & _). pose proof (cl_dequeue c Hok) as Hd.
  destruct (ch_dequeueNoWait c) as [m c']. destruct Hd as (Hok' & -> & _). split_and!; try done.
  unfold awake in Ha. unfold Spec.first, Spec.ready. rewrite Hc, Hr, He in *.
  destruct (Spec.closed _), (Spec.running _), (Spec.queue _); done.
Qed.
(** A channel the wait wakes up to. *)
Definition found (c' : C) (c : C) : unit * C := (tt, c').
Lemma dequeue_forever c ws : Forall cl_ok (c :: ws) ->
  match snd (ch_dequeue (-1) c (map found ws)) with
  | Blocked _ => Forall (fun s => awake s = false) (c :: ws)
  | Returned m c' => exists l s l', c :: ws = l ++ s :: l' /\ Forall (fun s => awake s = false) l /\
      awake s = true /\ ch_dequeueNoWait s = (m, c') /\ m = Spec.first (cl_abs s) /\ cl_ok c' /\
      (m = None <-> ch_isClosed s = true)
  end.
Proof.
  revert c. induction ws as [|c1 ws IH]; intros c [Hok Hws]%Forall_cons_1; cbn [ch_dequeue map];
    rewrite wait_guard; destruct (awake c) eqn:Ha; cbn [negb orb Z.eqb].
  1,3: pose proof (dequeue_awake c Hok Ha) as Hd; destruct (ch_dequeueNoWait c) as [m c'] eqn:Hdq;
    destruct Hd as (Hm & Hok' & Hn); exists [], c; eexists; split_and!; done.
  - by constructor.
  - specialize (IH c1 Hws). unfold found at 1. change (-1 =? -1) with true. cbn iota.
    destruct (ch_dequeue (-1) c1 _) as [us [c2|m c']]; [by constructor |].
    destruct IH as (l & s & l' & -> & Hl & Hs). exists (c :: l), s, l'. split; [done |]. split; [by constructor | done].
Qed.
End Simulation.

(** Runs compose. *)
Lemma run_app {O A S} (step : O -> S -> A * S) os1 os2 s :
  run step (os1 ++ os2) s =
    let '(l1, s1) := run step os1 s in let '(l2, s2) := run step os2 s1 in (l1 ++ l2, s2).
Proof.
  revert s. induction os1 as [|o os1 IH]; intros s; cbn; [by destruct (run step os2 s) |].
  destruct (step o s) as [a s1]. rewrite IH. destruct (run step os1 s1) as [l1 s2].
  by destruct (run step os2 s2).
Qed.
Lemma spec_drain rank q : run (spec_call rank) (replicate (length q) DequeueNoWait) (Spec.mk false true q) =
  (map (fun m => Message (Some m)) q, Spec.mk false true []).
Proof. induction q as [|m q IH]; [done |]. cbn in *. by rewrite IH. Qed.

(** The messages of each priority, lowest first. *)
Definition bands (ms : list Dispatch) : list (list Dispatch) :=
  map (fun p => filter (fun m => SimplePriorityMessageDispatchChannel.getChannel m = p) ms) (seq 0 10).
Lemma bands_snoc ms m :
  alter (fun l => l ++ [m]) (SimplePriorityMessageDispatchChannel.getChannel m) (bands ms) = bands (ms ++ [m]).
Proof.
  apply list_eq. intros i. unfold bands. destruct (decide (SimplePriorityMessageDispatchChannel.getChannel m = i)) as [<-|Hne].
  - rewrite list_lookup_alter_eq, !list_lookup_fmap. destruct (seq 0 10 !! _) as [p|] eqn:Hp; [| done]. cbn.
    apply lookup_seq in Hp as [-> _]. rewrite list.filter_app. by rewrite (filter_cons_True _ m).
  - rewrite list_lookup_alter_ne, !list_lookup_fmap by done. destruct (seq 0 10 !! i) as [p|] eqn:Hp; [| done]. cbn.
    apply lookup_seq in Hp as [-> _]. rewrite list.filter_app, (filter_cons_False _ m) by done. by rewrite filter_nil, app_nil_r.
Qed.
Lemma run_enqueue ms pre n :
  run ch_call (map Enqueue ms) (SimplePriorityMessageDispatchChannel.mk false true (bands pre) n) =
    (replicate (length ms) Done, SimplePriorityMessageDispatchChannel.mk false true (bands (pre ++ ms)) (n + zlen ms)).
Proof.
  revert pre n. induction ms as [|m ms IH]; intros pre n; cbn [map run].
  - by rewrite app_nil_r, Z.add_0_r.
  - change (ch_call (Enqueue m) ?c) with (Done, SimplePriorityMessageDispatchChannel.enqueue m c).
    unfold SimplePriorityMessageDispatchChannel.enqueue.
    cbn [SimplePriorityMessageDispatchChannel.channels SimplePriorityMessageDispatchChannel.closed
         SimplePriorityMessageDispatchChannel.running SimplePriorityMessageDispatchChannel.enqueued].
    rewrite bands_snoc, IH, <- app_assoc. cbn. f_equal. f_equal. unfold zlen. cbn. lia.
Qed.

(** ** The channels *)

(** Any sequence of calls on a new FIFO channel returns what the queue of the
    specification returns, where every message has the same rank: messages leave in
    the order they came in. *)
Theorem fifo_channel_refines qs :
  fst (run ch_request qs FifoMessageDispatchChannel.new) = fst (run (spec_request (fun _ => O)) qs (Spec.mk false false [])).
Proof. exact (run_refines (C := FifoMessageDispatchChannel.t) qs). Qed.

(** C38. Any sequence of calls, [clear] apart, on a new priority channel returns what
    the queue of the specification returns when messages rank by [delivery_rank], their
    priority between 0 and 9: those of a higher priority leave first, those of one
    priority in the order they came in, those put in first with [enqueueFirst] in front
    of their priority.  The calls include [dequeue] with any time limit and whatever
    other threads call while it waits; a wait ends exactly when the specification says. *)
Theorem priority_channel_refines qs :
  fst (run ch_request qs SimplePriorityMessageDispatchChannel.new) =
  fst (run (spec_request delivery_rank) qs (Spec.mk false false [])).
Proof. exact (run_refines (C := SimplePriorityMessageDispatchChannel.t) qs). Qed.

(** A [dequeue(-1)] on a priority channel returns at the first wake up at which
    the channel is closed, or runs and holds a message, and at no other; it takes the
    first message of the highest priority there is, and returns NULL only when the
    channel is closed. *)
Theorem priority_dequeue_waits c ws : Forall priority_ok (c :: ws) ->
  match snd (ch_dequeue (-1) c (map found ws)) with
  | Blocked _ => Forall (fun s => awake s = false) (c :: ws)
  | Returned m c' => exists l s l', c :: ws = l ++ s :: l' /\ Forall (fun s => awake s = false) l /\
      awake s = true /\ ch_dequeueNoWait s = (m, c') /\ m = Spec.first (cl_abs s) /\ cl_ok c' /\
      (m = None <-> ch_isClosed s = true)
  end.
Proof. exact (dequeue_forever (C := SimplePriorityMessageDispatchChannel.t) c ws). Qed.

(** Messages put in a new priority channel that was started come out by
    priority, the highest first, and in the order they went in within a priority. *)
Theorem priority_delivery_order ms :
  fst (run ch_call (Start :: map Enqueue ms ++ replicate (length ms) DequeueNoWait) SimplePriorityMessageDispatchChannel.new) =
  Done :: replicate (length ms) Done ++ map (fun m => Message (Some m)) (concat (rev (bands ms))).
Proof.
  change (Start :: ?l ++ ?r) with ((Start :: l) ++ r). rewrite run_app.
  pose proof (run_simulated (Start :: map Enqueue ms) SimplePriorityMessageDispatchChannel.new (proj1 cl_new)) as Hok.
  pose proof (run_enqueue ms [] 0) as He.
  change (run ch_call (Start :: map Enqueue ms) SimplePriorityMessageDispatchChannel.new)
    with (let '(l, c) := run ch_call (map Enqueue ms) (SimplePriorityMessageDispatchChannel.mk false true (bands []) 0) in
          (Done :: l, c)) in *.
  rewrite He in *. cbn [app] in *. destruct Hok as [Hok _]. pose proof Hok as (_ & _ & Hn).
  assert (Hlen : replicate (length ms) DequeueNoWait = replicate (length (concat (rev (bands ms)))) DequeueNoWait).
  { f_equal. unfold contents, zlen in Hn. cbn [SimplePriorityMessageDispatchChannel.enqueued
      SimplePriorityMessageDispatchChannel.channels] in Hn. lia. }
  rewrite Hlen. pose proof (run_simulated (replicate (length (concat (rev (bands ms)))) DequeueNoWait) _ Hok) as Hd.
  change (run (spec_call cl_rank) ?os (cl_abs ?c))
    with (run (spec_call delivery_rank) os (Spec.mk false true (concat (rev (bands ms))))) in Hd.
  rewrite spec_drain in Hd. destruct (run ch_call (replicate _ DequeueNoWait) _) as [l c].
  destruct Hd as [_ [= <- _]]. done.
Qed.

(** [clear] of the priority channel empties the queues and leaves the counter
    of the messages: the channel still reports the size it had and is not empty, so
    a [dequeue] with no time limit does not wait and returns NULL, although the
    channel is open and running. *)
Theorem priority_clear_keeps_count c : priority_ok c ->
  SimplePriorityMessageDispatchChannel.closed c = false -> SimplePriorityMessageDispatchChannel.running c = true ->
  SimplePriorityMessageDispatchChannel.isEmpty c = false ->
  contents (SimplePriorityMessageDispatchChannel.channels (SimplePriorityMessageDispatchChannel.clear c)) = [] /\
  SimplePriorityMessageDispatchChannel.size (SimplePriorityMessageDispatchChannel.clear c) =
    SimplePriorityMessageDispatchChannel.size c /\
  SimplePriorityMessageDispatchChannel.isEmpty (SimplePriorityMessageDispatchChannel.clear c) = false /\
  ch_dequeue (A := unit) (-1) (SimplePriorityMessageDispatchChannel.clear c) [] =
    ([], Returned None (SimplePriorityMessageDispatchChannel.clear c)).
Proof.
  intros Hok Hc Hr He. 
  assert (Hcl : contents (SimplePriorityMessageDispatchChannel.channels (SimplePriorityMessageDispatchChannel.clear c)) = []).
  { destruct c as [cl r chs n]. cbn. clear. induction chs as [|l chs IH]; [done |].
    unfold contents in *. cbn. by rewrite concat_app, IH. }
  split_and!; [done.. |]. destruct (remove_loop 10 (SimplePriorityMessageDispatchChannel.clear c)) as [[_ Hrm]|(j & m & l & _ & Hm & _)].
  - destruct Hok as (Hlen & _). rewrite drop_ge; [done |].
    unfold SimplePriorityMessageDispatchChannel.clear. cbn. by rewrite length_map, Hlen.
  - cbn [ch_dequeue]. rewrite wait_guard.
    replace (awake (SimplePriorityMessageDispatchChannel.clear c)) with true
      by (unfold awake; cbn; rewrite Hc, Hr; unfold SimplePriorityMessageDispatchChannel.isEmpty in *; cbn; by rewrite He).
    change (ch_dequeueNoWait ?c) with (SimplePriorityMessageDispatchChannel.dequeueNoWait c). cbn [negb orb Z.eqb].
    unfold SimplePriorityMessageDispatchChannel.dequeueNoWait, SimplePriorityMessageDispatchChannel.removeFirst.
    unfold SimplePriorityMessageDispatchChannel.MAX_PRIORITIES. rewrite Hrm.
    destruct (_ || _ || _); [done |]. by destruct (0 <? _).
  - by rewrite Hcl in Hm.
Qed.

(** ** Instances *)
Definition nothing : Dispatch := mkDispatch 0 MessageDispatch.default [].
Definition waiting : SimplePriorityMessageDispatchChannel.t :=
  SimplePriorityMessageDispatchChannel.start SimplePriorityMessageDispatchChannel.new.
Definition holding : SimplePriorityMessageDispatchChannel.t :=
  SimplePriorityMessageDispatchChannel.enqueue nothing waiting.
Lemma waiting_ok : priority_ok waiting.
Proof. exact (proj1 (cl_switch SimplePriorityMessageDispatchChannel.new (proj1 cl_new))). Qed.
Lemma holding_ok : priority_ok holding.
Proof. exact (proj1 (cl_enqueue waiting nothing waiting_ok)). Qed.

Lemma priority_dequeue_waits_witness :
  snd (ch_dequeue (-1) waiting (map found [waiting; holding])) =
    Returned (Some nothing) (snd (SimplePriorityMessageDispatchChannel.dequeueNoWait holding)) /\
  exists l s l', [waiting; waiting; holding] = l ++ s :: l' /\ Forall (fun s => awake s = false) l /\ awake s = true.
Proof.
  split; [reflexivity |].
  destruct (priority_dequeue_waits waiting [waiting; holding]
    (Forall_cons_2 _ _ _ waiting_ok (Forall_cons_2 _ _ _ waiting_ok (Forall_cons_2 _ _ _ holding_ok (Forall_nil_2 _)))))
    as (l & s & l' & H1 & H2 & H3 & _).
  exists l, s, l'. exact (conj H1 (conj H2 H3)).
Defined.

Lemma priority_clear_keeps_count_witness :
  SimplePriorityMessageDispatchChannel.size (SimplePriorityMessageDispatchChannel.clear holding) = 1 /\
  ch_dequeue (A := unit) (-1) (SimplePriorityMessageDispatchChannel.clear holding) [] =
    ([], Returned None (SimplePriorityMessageDispatchChannel.clear holding)).
Proof.
  destruct (priority_clear_keeps_count holding holding_ok eq_refl eq_refl eq_refl) as (_ & H1 & _ & H2).
  exact (conj H1 H2).
Defined.
