(* ===== verification/StringOrder.v ===== *)
(** * The order of strings

    decaf/internal/util/StringUtils.cpp: the comparison under which the client
    keeps connections, sessions, producers and consumers in its maps, with the
    character tests of decaf/lang/Character.h.

    The comparison reads a run of digits as a number.  On strings without white
    space it is shown to be the lexicographic order of keys ([keys]), hence a strict
    weak order, which is what the maps require of it.  On strings with white space
    it is not: the loop that skips the white space of the right operand reads the
    left one. *)

From S2P Require Import Prelude DataStreams PrimitiveTypes Support BooleanStreams Wire BaseMarshaller Commands.

Module Chars.
Definition isWhitespace (c : Z) : bool := (c =? 10) || (c =? 9) || (c =? 13) || (c =? 12) || (c =? 32).
Definition isDigit (c : Z) : bool := (48 <=? c) && (c <=? 57).
Definition toUpperCase (c : Z) : Z := if (97 <=? c) && (c <=? 122) then to_s8 (c - (97 - 65)) else c.
End Chars.

Module StringUtils.
Import Chars.

(** A [char const*] is the list of the characters up to the end of the string,
    where the terminating NUL is read. *)
Definition deref (p : list Z) : Z := match p with [] => 0 | b :: _ => to_s8 b end.

(** [compareRight]: the longer run of digits, else the greater at the first
    difference. *)
Fixpoint compareRight (left right : list Z) (bias : Z) : Z :=
  match left, right with
  | l :: left', r :: right' =>
    let cl := to_s8 l in let cr := to_s8 r in
    if negb (isDigit cl) && negb (isDigit cr) then bias
    else if negb (isDigit cl) then -1
    else if negb (isDigit cr) then 1
    else compareRight left' right'
           (if cl <? cr then (if bias =? 0 then -1 else bias)
            else if cr <? cl then (if bias =? 0 then 1 else bias)
            else bias)
  | _, _ =>
    if negb (isDigit (deref left)) && negb (isDigit (deref right)) then bias
    else if negb (isDigit (deref left)) then -1 else 1
  end.

(** [compareLeft]: the first difference. *)
Fixpoint compareLeft (left right : list Z) : Z :=
  match left, right with
  | l :: left', r :: right' =>
    let cl := to_s8 l in let cr := to_s8 r in
    if negb (isDigit cl) && negb (isDigit cr) then 0
    else if negb (isDigit cl) then -1
    else if negb (isDigit cr) then 1
    else if cl <? cr then -1 else if cr <? cl then 1
    else compareLeft left' right'
  | _, _ =>
    if negb (isDigit (deref left)) && negb (isDigit (deref right)) then 0
    else if negb (isDigit (deref left)) then -1 else 1
  end.

(** [s[i]]: the NUL at the end can be read, nothing behind it. *)
Definition char_at (s : list Z) (i : nat) : result Z :=
  match s !! i with
  | Some b => Ok (to_s8 b)
  | None => if (i =? length s)%nat then Ok 0 else Err Undefined
  end.

(** [while (isWhitespace(cur)) cur = s[++index]] *)
Fixpoint skip (s : list Z) (fuel : nat) (cur : Z) (index : nat) : result (Z * nat) :=
  if isWhitespace cur then
    match fuel with
    | O => Err NoFuel
    | S fuel => rbind (char_at s (S index)) (fun cur => skip s fuel cur (S index))
    end
  else Ok (cur, index).

(** The loop of [doCompare]; the second [skip] reads [left], as the code does. *)
Fixpoint doCompare_loop (left right : list Z) (ignoreCase : bool) (fuel : nat) (lIndex rIndex : nat) : result Z :=
  match fuel with
  | O => Err NoFuel
  | S fuel =>
    rbind (char_at left lIndex) (fun curLeft =>
    rbind (char_at right rIndex) (fun curRight =>
    rbind (skip left (S (length left)) curLeft lIndex) (fun '(curLeft, lIndex) =>
    rbind (skip left (S (length left)) curRight rIndex) (fun '(curRight, rIndex) =>
    rbind (if isDigit curLeft && isDigit curRight then
             if (length right <? rIndex)%nat then Err Undefined
             else if (curLeft =? 48) || (curRight =? 48)
             then Ok (compareLeft (drop lIndex left) (drop rIndex right))
             else Ok (compareRight (drop lIndex left) (drop rIndex right) 0)
           else Ok 0) (fun result =>
    if negb (result =? 0) then Ok result
    else if (curLeft =? 0) && (curRight =? 0) then Ok 0
    else
      let curLeft := if ignoreCase then toUpperCase curLeft else curLeft in
      let curRight := if ignoreCase then toUpperCase curRight else curRight in
      if curLeft <? curRight then Ok (-1)
      else if curRight <? curLeft then Ok 1
      else doCompare_loop left right ignoreCase fuel (S lIndex) (S rIndex))))))
  end.

Definition doCompare (left right : list Z) (ignoreCase : bool) : result Z :=
  doCompare_loop left right ignoreCase (S (length left)) 0 0.

Definition compareIgnoreCase (left right : list Z) : result Z := doCompare left right true.
Definition compare (left right : list Z) : result Z := doCompare left right false.
End StringUtils.

(** ** The order on strings without white space *)
Module NaturalOrder.
Import Chars StringUtils.

Definition of_comparison (c : comparison) : Z := match c with Lt => -1 | Eq => 0 | Gt => 1 end.
Definition thenc (c d : comparison) : comparison := match c with Eq => d | _ => c end.

(** The lexicographic order of lists of lists. *)
Fixpoint lex (a b : list (list Z)) : comparison :=
  match a, b with
  | [], [] => Eq
  | [], _ :: _ => Lt
  | _ :: _, [] => Gt
  | x :: a, y :: b => thenc (StlMap.compare x y) (lex a b)
  end.
Lemma lex_eq a : forall b, lex a b = Eq <-> a = b.
Proof.
  induction a as [|x a IH]; intros [|y b]; cbn; try done. split.
  - destruct (StlMap.compare x y) eqn:E; try done. intros <-%IH. by apply StlMap.compare_eq in E as ->.
  - intros [= <- <-]. rewrite StlMap.compare_refl. by apply IH.
Qed.
Lemma lex_antisym a : forall b, lex b a = CompOpp (lex a b).
Proof.
  induction a as [|x a IH]; intros [|y b]; cbn; try done.
  rewrite (StlMap.compare_antisym x y). destruct (StlMap.compare x y); cbn; auto.
Qed.
Lemma lex_trans a : forall b c, lex a b = Lt -> lex b c = Lt -> lex a c = Lt.
Proof.
  induction a as [|x a IH]; intros [|y b] [|z c]; cbn; try done.
  destruct (StlMap.compare x y) eqn:E1, (StlMap.compare y z) eqn:E2; cbn; try done.
  - apply StlMap.compare_eq in E1 as ->, E2 as ->. rewrite StlMap.compare_refl. apply IH.
  - apply StlMap.compare_eq in E1 as ->. by rewrite E2.
  - apply StlMap.compare_eq in E2 as ->. by rewrite E1.
  - by rewrite (StlMap.compare_lt_trans _ _ _ E1 E2).
Qed.

(** The digits a string starts with. *)
Fixpoint run (s : list Z) : list Z :=
  match s with
  | [] => []
  | b :: s => if isDigit (to_s8 b) then to_s8 b :: run s else []
  end.

Lemma compareLeft_run a : forall b, compareLeft a b = of_comparison (StlMap.compare (run a) (run b)).
Proof.
  induction a as [|x a IH]; intros [|y b]; cbn; try done.
  - by destruct (isDigit (to_s8 y)).
  - by destruct (isDigit (to_s8 x)).
  - destruct (isDigit (to_s8 x)), (isDigit (to_s8 y)); cbn; try done. rewrite IH.
    destruct (Z.compare_spec (to_s8 x) (to_s8 y)) as [->|H|H].
    + by rewrite Z.ltb_irrefl.
    + by rewrite (proj2 (Z.ltb_lt _ _) H).
    + by rewrite (proj2 (Z.ltb_ge _ _) (Z.lt_le_incl _ _ H)), (proj2 (Z.ltb_lt _ _) H).
Qed.

Lemma compareRight_run a : forall b c, compareRight a b (of_comparison c) =
  of_comparison (thenc (Nat.compare (length (run a)) (length (run b))) (thenc c (StlMap.compare (run a) (run b)))).
Proof.
  induction a as [|x a IH]; intros [|y b] c; cbn.
  - by destruct c.
  - destruct (isDigit (to_s8 y)); cbn; [done | by destruct c].
  - destruct (isDigit (to_s8 x)); cbn; [done | by destruct c].
  - destruct (isDigit (to_s8 x)), (isDigit (to_s8 y)); cbn; try done; [| by destruct c].
    destruct (Z.compare_spec (to_s8 x) (to_s8 y)) as [->|H|H].
    + rewrite Z.ltb_irrefl. apply IH.
    + rewrite (proj2 (Z.ltb_lt _ _) H). destruct c; [apply (IH b Lt) | apply (IH b Lt) | apply (IH b Gt)].
    + rewrite (proj2 (Z.ltb_ge _ _) (Z.lt_le_incl _ _ H)), (proj2 (Z.ltb_lt _ _) H).
      destruct c; [apply (IH b Gt) | apply (IH b Lt) | apply (IH b Gt)].
Qed.

Section Keys.
Context (ignoreCase : bool).
Definition fold_case (c : Z) : Z := if ignoreCase then toUpperCase c else c.

(** What a position counts for: a character, or the number that starts there.
    Numbers that start with a zero come before the others and are ordered as
    strings; the others are ordered by length first. *)
Definition key (s : list Z) : list Z :=
  if isDigit (deref s) then 48 :: (if deref s =? 48 then 0 else zlen (run s)) :: run s
  else [fold_case (deref s)].
Fixpoint keys (s : list Z) : list (list Z) :=
  key s :: match s with [] => [] | _ :: s => keys s end.

(** Neither white space nor NUL. *)
Definition clean (s : list Z) : bool := forallb (fun b => negb (isWhitespace (to_s8 b)) && negb (to_s8 b =? 0)) s.

Lemma fold_case_digit c : - 128 <= c < 128 -> isDigit c = false -> isDigit (fold_case c) = false.
Proof.
  unfold fold_case, toUpperCase, isDigit, swrap. intros Hc Hd. destruct ignoreCase; [| done].
  destruct ((97 <=? c) && (c <=? 122)) eqn:E; [| done]. rewrite Z.mod_small; lia.
Qed.
Lemma deref_range s : - 128 <= deref s < 128.
Proof. destruct s as [|b s]; cbn; [lia |]. unfold swrap. pose proof (Z.mod_pos_bound (b + 2 ^ (8 - 1)) (2 ^ 8)). lia. Qed.

(** Two numbers compare as their keys. *)
Lemma number_key a b : isDigit (deref a) = true -> isDigit (deref b) = true ->
  (if (deref a =? 48) || (deref b =? 48) then compareLeft a b else compareRight a b 0) =
  of_comparison (StlMap.compare (key a) (key b)).
Proof.
  intros Ha Hb. unfold key. rewrite Ha, Hb. cbn. destruct a as [|x a], b as [|y b]; try done. cbn in Ha, Hb. cbn [deref].
  destruct (to_s8 x =? 48) eqn:Ex, (to_s8 y =? 48) eqn:Ey; cbn [orb].
  - by rewrite compareLeft_run.
  - rewrite compareLeft_run. cbn. rewrite Ha, Hb. cbn. unfold isDigit in *.
    rewrite (proj2 (Z.compare_lt_iff (to_s8 x) (to_s8 y))) by lia. done.
  - rewrite compareLeft_run. cbn. rewrite Ha, Hb. cbn. unfold isDigit in *.
    rewrite (proj2 (Z.compare_gt_iff (to_s8 x) (to_s8 y))) by lia. done.
  - change 0 with (of_comparison Eq). rewrite compareRight_run. unfold zlen. rewrite Nat2Z.inj_compare. unfold thenc.
    by destruct (length (run (x :: a)) ?= length (run (y :: b)))%nat.
Qed.
(** One that is no number compares by its characters. *)
Lemma character_key a b : isDigit (deref a) && isDigit (deref b) = false ->
  StlMap.compare (key a) (key b) = Z.compare (fold_case (deref a)) (fold_case (deref b)).
Proof.
  pose proof (deref_range a) as Ra. pose proof (deref_range b) as Rb.
  pose proof (fold_case_digit _ Ra) as Fa. pose proof (fold_case_digit _ Rb) as Fb. unfold key.
  assert (Hdig : forall c, isDigit c = true -> fold_case c = c).
  { intros c. unfold fold_case, toUpperCase, isDigit. destruct ignoreCase; [| done].
    destruct ((97 <=? c) && (c <=? 122)) eqn:E; [lia | done]. }
  destruct (isDigit (deref a)) eqn:Ha, (isDigit (deref b)) eqn:Hb; try done; intros _.
  - rewrite (Hdig _ Ha). specialize (Fb eq_refl). unfold isDigit in *. cbn -[Z.compare].
    destruct (Z.compare_spec 48 (fold_case (deref b))), (Z.compare_spec (deref a) (fold_case (deref b))); done || lia.
  - rewrite (Hdig _ Hb). specialize (Fa eq_refl). unfold isDigit in *. cbn -[Z.compare].
    destruct (Z.compare_spec (fold_case (deref a)) 48), (Z.compare_spec (fold_case (deref a)) (deref b)); done || lia.
  - cbn. match goal with |- context [?n ?= ?m] => by destruct (n ?= m) end.
Qed.

Lemma fold_case_zero c : - 128 <= c < 128 -> fold_case c = 0 <-> c = 0.
Proof.
  intros Hc. unfold fold_case, toUpperCase. destruct ignoreCase; [| done].
  destruct ((97 <=? c) && (c <=? 122)) eqn:E; [| done]. unfold swrap. rewrite Z.mod_small; lia.
Qed.
(** Equal keys have equal characters. *)
Lemma key_character a b : StlMap.compare (key a) (key b) = Eq ->
  Z.compare (fold_case (deref a)) (fold_case (deref b)) = Eq.
Proof.
  destruct (isDigit (deref a) && isDigit (deref b)) eqn:Ed; [| by rewrite character_key].
  intros E%StlMap.compare_eq. apply andb_true_iff in Ed as [Da Db]. unfold key in E. rewrite Da, Db in E.
  destruct a as [|x a], b as [|y b]; try done. cbn in *. rewrite Da, Db in E.
  injection E as _ -> _. apply Z.compare_refl.
Qed.

Lemma clean_at s i : clean s = true -> (i <= length s)%nat ->
  char_at s i = Ok (deref (drop i s)) /\ isWhitespace (deref (drop i s)) = false.
Proof.
  intros Hs Hi. unfold char_at. destruct (s !! i) as [b|] eqn:Hb.
  - rewrite (drop_S s b i Hb). cbn. split; [done |]. unfold clean in Hs. rewrite forallb_forall in Hs.
    specialize (Hs b (proj1 (list_elem_of_In _ _) (list_elem_of_lookup_2 _ _ _ Hb))). cbn in Hs.
    by destruct (isWhitespace (to_s8 b)).
  - apply lookup_ge_None in Hb. replace i with (length s) by lia. by rewrite Nat.eqb_refl, drop_ge.
Qed.
Lemma clean_deref s i : clean s = true -> (i <= length s)%nat -> deref (drop i s) = 0 -> i = length s.
Proof.
  intros Hs Hi. destruct (s !! i) as [b|] eqn:Hb; [| apply lookup_ge_None in Hb; lia].
  rewrite (drop_S s b i Hb). cbn. unfold clean in Hs. rewrite forallb_forall in Hs.
  specialize (Hs b (proj1 (list_elem_of_In _ _) (list_elem_of_lookup_2 _ _ _ Hb))). cbn in Hs. intros H0. rewrite H0 in Hs.
  by rewrite andb_false_r in Hs.
Qed.
Lemma keys_drop s i : keys (drop i s) = key (drop i s) :: (if (i <? length s)%nat then keys (drop (S i) s) else []).
Proof.
  destruct (s !! i) as [b|] eqn:Hb.
  - pose proof (lookup_lt_Some _ _ _ Hb) as Hlt. by rewrite (proj2 (Nat.ltb_lt _ _) Hlt), (drop_S s b i Hb).
  - apply lookup_ge_None in Hb. by rewrite (proj2 (Nat.ltb_ge _ _) Hb), drop_ge.
Qed.

(** A turn of the loop on two positions that are not different numbers. *)
Lemma character_step left right i c (k : result Z) :
  clean left = true -> clean right = true -> (i <= length left)%nat -> (i <= length right)%nat ->
  let a := deref (drop i left) in let b := deref (drop i right) in
  Z.compare (fold_case a) (fold_case b) = c ->
  ((i < length left)%nat -> (i < length right)%nat ->
    k = Ok (of_comparison (lex (keys (drop (S i) left)) (keys (drop (S i) right))))) ->
  (if (a =? 0) && (b =? 0) then Ok 0
   else if fold_case a <? fold_case b then Ok (-1) else if fold_case b <? fold_case a then Ok 1 else k) =
  Ok (of_comparison (thenc c (lex (if (i <? length left)%nat then keys (drop (S i) left) else [])
                                  (if (i <? length right)%nat then keys (drop (S i) right) else [])))).
Proof.
  intros Hl Hr Hil Hir a b <- Hk. pose proof (fold_case_zero a (deref_range _)) as Za.
  pose proof (fold_case_zero b (deref_range _)) as Zb.
  assert (Ea : a = 0 <-> i = length left).
  { split; [by apply clean_deref |]. intros Hi. unfold a. by rewrite drop_ge by lia. }
  assert (Eb : b = 0 <-> i = length right).
  { split; [by apply clean_deref |]. intros Hi. unfold b. by rewrite drop_ge by lia. }
  destruct (Z.compare_spec (fold_case a) (fold_case b)) as [H|H|H]; cbn [thenc].
  - rewrite H, Z.ltb_irrefl. destruct (a =? 0) eqn:Ha.
    + assert (b = 0) as Hb by lia. rewrite (proj2 (Z.eqb_eq b 0) Hb). cbn [andb].
      rewrite (proj2 (Nat.ltb_ge i (length left))), (proj2 (Nat.ltb_ge i (length right))) by lia. done.
    + cbn [andb]. rewrite (proj2 (Nat.ltb_lt i (length left))), (proj2 (Nat.ltb_lt i (length right))) by lia.
      apply Hk; lia.
  - rewrite (proj2 (Z.ltb_lt _ _) H). destruct ((a =? 0) && (b =? 0)) eqn:E; [lia | done].
  - rewrite (proj2 (Z.ltb_ge _ _) (Z.lt_le_incl _ _ H)), (proj2 (Z.ltb_lt _ _) H).
    destruct ((a =? 0) && (b =? 0)) eqn:E; [lia | done].
Qed.
Lemma skip_none s c k : isWhitespace c = false -> skip s (S (length s)) c k = Ok (c, k).
Proof. intros H. cbn. by rewrite H. Qed.

(** The loop compares keys, and ends before its fuel does. *)
Lemma doCompare_keys left right : clean left = true -> clean right = true -> forall fuel i,
  (i <= length left)%nat -> (i <= length right)%nat -> (length left - i < fuel)%nat ->
  doCompare_loop left right ignoreCase fuel i i = Ok (of_comparison (lex (keys (drop i left)) (keys (drop i right)))).
Proof.
  intros Hl Hr. induction fuel as [|fuel IH]; intros i Hil Hir Hf; [lia |].
  destruct (clean_at left i Hl Hil) as [El Wl], (clean_at right i Hr Hir) as [Er Wr].
  cbn [doCompare_loop]. rewrite El, Er. cbn [rbind]. rewrite !skip_none by done. cbn [rbind].
  rewrite (proj2 (Nat.ltb_ge _ _) Hir), (keys_drop left i), (keys_drop right i). cbn [lex].
  pose proof (fun c H => character_step left right i c (doCompare_loop left right ignoreCase fuel (S i) (S i)) Hl Hr Hil Hir H
    (fun H1 H2 => IH (S i) ltac:(lia) ltac:(lia) ltac:(lia))) as Hstep. cbn in Hstep.
  destruct (isDigit (deref (drop i left)) && isDigit (deref (drop i right))) eqn:Ed.
  - apply andb_true_iff in Ed as [Da Db]. pose proof (number_key _ _ Da Db) as Hn.
    match goal with |- rbind ?x _ = _ => replace x with (Ok (A := Z) (of_comparison (StlMap.compare (key (drop i left)) (key (drop i right))))) by (rewrite <- Hn; by case_match) end.
    cbn [rbind]. destruct (StlMap.compare (key (drop i left)) (key (drop i right))) eqn:Ek; try done.
    apply (Hstep Eq). by apply key_character.
  - cbn [rbind Z.eqb negb]. rewrite character_key by done. by apply Hstep.
Qed.
End Keys.

Lemma doCompare_clean ignoreCase a b : clean a = true -> clean b = true ->
  doCompare a b ignoreCase = Ok (of_comparison (lex (keys ignoreCase a) (keys ignoreCase b))).
Proof. intros Ha Hb. unfold doCompare. rewrite doCompare_keys by (done || lia). by rewrite !drop_0. Qed.

(** Strings with the same keys are the same up to case. *)
Lemma keys_fold ignoreCase a : forall b, clean a = true -> clean b = true -> keys ignoreCase a = keys ignoreCase b ->
  map (fun c => fold_case ignoreCase (to_s8 c)) a = map (fun c => fold_case ignoreCase (to_s8 c)) b.
Proof.
  induction a as [|x a IH]; intros b Ha Hb Hk.
  all: pose proof (f_equal head Hk) as H0; destruct b as [|y b]; cbn in Hk, Ha, Hb; try done.
  all: cbn [keys head] in H0; injection H0 as H0; rewrite ?andb_true_iff in Ha, Hb.
  all: assert (Hc : StlMap.compare (key ignoreCase _) (key ignoreCase _) = Eq) by (rewrite H0; apply StlMap.compare_refl).
  all: apply key_character, Z.compare_eq in Hc.
  - injection Hk as _ Hk. by destruct b.
  - injection Hk as _ Hk. by destruct a.
  - cbn in Hc. cbn. f_equal; [done |]. apply IH; [tauto.. |]. by injection Hk.
Qed.
End NaturalOrder.

(** ** Orders *)
Record order {K} (c : K -> K -> comparison) : Prop := {
  order_refl a : c a a = Eq;
  order_antisym a b : c b a = CompOpp (c a b);
  order_trans a b d : c a b = Lt -> c b d = Lt -> c a d = Lt;
  order_eq a b d : c a b = Eq -> c a d = c b d
}.

Lemma order_lex : order NaturalOrder.lex.
Proof.
  split; [intros a; by apply NaturalOrder.lex_eq | intros a; apply NaturalOrder.lex_antisym | intros a; apply NaturalOrder.lex_trans |].
  intros a b d E. apply NaturalOrder.lex_eq in E. by subst.
Qed.
Lemma order_Z : order Z.compare.
Proof.
  split; [exact Z.compare_refl | | | intros a b d E; apply Z.compare_eq in E; by subst].
  - intros a b. apply Z.compare_antisym.
  - intros a b d. rewrite !Z.compare_lt_iff. lia.
Qed.
Lemma order_map {K L} (f : K -> L) c : order c -> order (fun a b => c (f a) (f b)).
Proof.
  intros [H1 H2 H3 H4]. split; intros; [apply H1 | apply H2 | by apply (H3 _ (f b)) | by apply H4].
Qed.
Lemma order_then {K} (c d : K -> K -> comparison) : order c -> order d -> order (fun a b => NaturalOrder.thenc (c a b) (d a b)).
Proof.
  intros [C1 C2 C3 C4] [D1 D2 D3 D4]. split.
  - intros a. by rewrite C1, D1.
  - intros a b. rewrite (C2 a b), (D2 a b). by destruct (c a b).
  - intros a b e. destruct (c a b) eqn:E1; cbn; try done.
    + rewrite (C4 a b e E1). destruct (c b e); cbn; try done. apply D3.
    + intros _. destruct (c b e) eqn:E2; cbn; try done.
      * intros _. rewrite (C2 e a), (C4 e b a), <- C2, E1; [done |]. by rewrite (C2 b e), E2.
      * intros _. by rewrite (C3 a b e).
  - intros a b e E. destruct (c a b) eqn:E1; try done. cbn in E. rewrite (C4 a b e E1).
    by rewrite (D4 a b e E).
Qed.

(** On strings without white space and NUL, [StringUtils::compareIgnoreCase]
    always answers, is a strict weak order, as the maps of the client require, and
    takes two strings for equal only if they are the same up to case. *)
Theorem compareIgnoreCase_order a b c : NaturalOrder.clean a = true -> NaturalOrder.clean b = true ->
  NaturalOrder.clean c = true ->
  exists x y z, StringUtils.compareIgnoreCase a b = Ok x /\ StringUtils.compareIgnoreCase b c = Ok y /\
    StringUtils.compareIgnoreCase a c = Ok z /\ StringUtils.compareIgnoreCase b a = Ok (- x) /\
    StringUtils.compareIgnoreCase a a = Ok 0 /\
    (x < 0 -> y < 0 -> z < 0) /\ (x = 0 -> z = y) /\
    (x = 0 -> map (fun c => Chars.toUpperCase (to_s8 c)) a = map (fun c => Chars.toUpperCase (to_s8 c)) b).
Proof.
  intros Ha Hb Hc. unfold StringUtils.compareIgnoreCase. rewrite !NaturalOrder.doCompare_clean by done.
  destruct order_lex as [H1 H2 H3 H4].
  set (ka := NaturalOrder.keys true a). set (kb := NaturalOrder.keys true b). set (kc := NaturalOrder.keys true c).
  do 3 eexists. do 3 (split; [reflexivity |]). rewrite (H2 ka kb), (H1 ka). split; [by destruct (NaturalOrder.lex ka kb) |].
  split; [done |]. split; [| split].
  - destruct (NaturalOrder.lex ka kb) eqn:E1, (NaturalOrder.lex kb kc) eqn:E2; cbn; try lia. by rewrite (H3 _ _ _ E1 E2).
  - destruct (NaturalOrder.lex ka kb) eqn:E1; cbn; try lia. intros _. by rewrite (H4 _ _ kc E1).
  - destruct (NaturalOrder.lex ka kb) eqn:E1; cbn; try lia. intros _. apply NaturalOrder.lex_eq in E1.
    exact (NaturalOrder.keys_fold true a b Ha Hb E1).
Qed.

(** The loop that skips the white space of the right operand reads the left
    one: comparing a string that starts with a letter twice with a single space reads
    the right operand behind its end, and comparing a string with itself behind a
    space depends on the order of the operands. *)
Theorem compare_whitespace_overread c rest : Chars.isWhitespace (to_s8 c) = false ->
  Chars.isDigit (to_s8 c) = false -> to_s8 c <> 0 ->
  StringUtils.compareIgnoreCase (c :: c :: rest) [32] = Err Undefined /\
  StringUtils.compareIgnoreCase (str "ab") (str " ab") = Ok (-1) /\
  StringUtils.compareIgnoreCase (str " ab") (str "ab") = Ok 0.
Proof.
  intros Hw Hd H0. split; [| done]. unfold StringUtils.compareIgnoreCase, StringUtils.doCompare.
  apply Z.eqb_neq in H0. cbn -[swrap Chars.isWhitespace Chars.isDigit Chars.toUpperCase]. rewrite !Hw.
  change (Chars.isWhitespace (to_s8 32)) with true. cbn -[swrap Chars.isWhitespace Chars.isDigit Chars.toUpperCase].
  by rewrite !Hd, !H0, Z.ltb_irrefl.
Qed.

(** ** Instances *)
Lemma compareIgnoreCase_order_witness :
  exists x y z, StringUtils.compareIgnoreCase (str "ID:host-9") (str "ID:host-10") = Ok x /\
    StringUtils.compareIgnoreCase (str "ID:host-10") (str "id:HOST-12") = Ok y /\
    StringUtils.compareIgnoreCase (str "ID:host-9") (str "id:HOST-12") = Ok z /\ (x < 0 -> y < 0 -> z < 0).
Proof.
  destruct (compareIgnoreCase_order (str "ID:host-9") (str "ID:host-10") (str "id:HOST-12") eq_refl eq_refl eq_refl)
    as (x & y & z & H1 & H2 & H3 & _ & _ & H4 & _).
  exists x, y, z. exact (conj H1 (conj H2 (conj H3 H4))).
Defined.
Lemma compare_whitespace_overread_witness : StringUtils.compareIgnoreCase (str "aab") [32] = Err Undefined.
Proof. exact (proj1 (compare_whitespace_overread 97 (str "b") eq_refl eq_refl ltac:(discriminate))). Defined.
