(* ===== verification/Identifiers.v ===== *)
(** * Identifiers and the maps they are keys of

    The [compareTo] and [getParentId] of the identifier classes of
    activemq/commands, and decaf/util/concurrent/ConcurrentStlMap.h (and StlMap.h),
    a std::map whose comparator is that order.

    [Comparator] is what the map calls, [ComparatorLaws] what it relies on: on the
    keys that are [key_ok] the comparison answers and is a strict weak order.  The
    identifiers satisfy the laws where their strings have no white space. *)

From S2P Require Import Prelude DataStreams PrimitiveTypes Support BooleanStreams Wire BaseMarshaller Commands.
From S2P Require Import StringOrder.
Import NaturalOrder.

Class Comparator (K : Type) := compareTo : K -> K -> result Z.

Class ComparatorLaws (K : Type) `{Comparator K} := {
  key_ok : K -> bool;
  key_cmp : K -> K -> comparison;
  key_order : order key_cmp;
  compareTo_ok a b : key_ok a = true -> key_ok b = true -> compareTo a b = Ok (of_comparison (key_cmp a b))
}.

(** ** compareTo

    The test for the same object at the start of each is left out: objects are
    values here. *)

(** [if (a > b) return 1; else if (a < b) return -1;] and on. *)
Definition compare_number (a b : Z) (k : result Z) : result Z :=
  if b <? a then Ok 1 else if a <? b then Ok (-1) else k.
(** [int comp = ...; if (comp != 0) return comp;] and on. *)
Definition compare_first (c : result Z) (k : result Z) : result Z :=
  rbind c (fun comp => if negb (comp =? 0) then Ok comp else k).

Definition ConnectionId_compareTo (a b : ConnectionId.t) : result Z :=
  compare_first (StringUtils.compareIgnoreCase (ConnectionId.value a) (ConnectionId.value b)) (Ok 0).
Definition SessionId_compareTo (a b : SessionId.t) : result Z :=
  compare_first (StringUtils.compareIgnoreCase (SessionId.connectionId a) (SessionId.connectionId b))
  (compare_number (SessionId.value a) (SessionId.value b) (Ok 0)).
Definition ProducerId_compareTo (a b : ProducerId.t) : result Z :=
  compare_first (StringUtils.compareIgnoreCase (ProducerId.connectionId a) (ProducerId.connectionId b))
  (compare_number (ProducerId.value a) (ProducerId.value b)
  (compare_number (ProducerId.sessionId a) (ProducerId.sessionId b) (Ok 0))).
Definition ConsumerId_compareTo (a b : ConsumerId.t) : result Z :=
  compare_first (StringUtils.compareIgnoreCase (ConsumerId.connectionId a) (ConsumerId.connectionId b))
  (compare_number (ConsumerId.sessionId a) (ConsumerId.sessionId b)
  (compare_number (ConsumerId.value a) (ConsumerId.value b) (Ok 0))).

(** A NULL pointer is dereferenced by a Pointer, which throws. *)
Definition pointer_compareTo {K} (f : K -> K -> result Z) (a b : option K) : result Z :=
  match a, b with
  | Some a, Some b => f a b
  | _, _ => throw NullPointerException
  end.
Definition LocalTransactionId_compareTo (a b : LocalTransactionId.t) : result Z :=
  compare_number (LocalTransactionId.value a) (LocalTransactionId.value b)
  (compare_first
    (pointer_compareTo ConnectionId_compareTo (LocalTransactionId.connectionId a) (LocalTransactionId.connectionId b))
  (Ok 0)).

(** The comparators of the maps, on pointers. *)
#[global] Instance ConnectionId_comparator : Comparator (option ConnectionId.t) := pointer_compareTo ConnectionId_compareTo.
#[global] Instance SessionId_comparator : Comparator (option SessionId.t) := pointer_compareTo SessionId_compareTo.
#[global] Instance ProducerId_comparator : Comparator (option ProducerId.t) := pointer_compareTo ProducerId_compareTo.
#[global] Instance ConsumerId_comparator : Comparator (option ConsumerId.t) := pointer_compareTo ConsumerId_compareTo.
#[global] Instance LocalTransactionId_comparator : Comparator (option LocalTransactionId.t) :=
  pointer_compareTo LocalTransactionId_compareTo.

(** ** getParentId *)
Definition SessionId_getParentId (i : SessionId.t) : ConnectionId.t := ConnectionId.mk (SessionId.connectionId i).
Definition ProducerId_getParentId (i : ProducerId.t) : SessionId.t :=
  SessionId.mk (ProducerId.connectionId i) (ProducerId.sessionId i).
Definition ConsumerId_getParentId (i : ConsumerId.t) : SessionId.t :=
  SessionId.mk (ConsumerId.connectionId i) (ConsumerId.sessionId i).

(** ** The orders *)
Lemma compare_number_ok a b c : compare_number a b (Ok (of_comparison c)) = Ok (of_comparison (thenc (Z.compare a b) c)).
Proof.
  unfold compare_number. destruct (Z.compare_spec a b) as [->|H|H]; cbn.
  - by rewrite Z.ltb_irrefl.
  - by rewrite (proj2 (Z.ltb_ge _ _) (Z.lt_le_incl _ _ H)), (proj2 (Z.ltb_lt _ _) H).
  - by rewrite (proj2 (Z.ltb_lt _ _) H).
Qed.
Lemma compare_first_ok c d : compare_first (Ok (of_comparison c)) (Ok (of_comparison d)) = Ok (of_comparison (thenc c d)).
Proof. by destruct c. Qed.
Lemma compare_string_ok a b : clean a = true -> clean b = true ->
  StringUtils.compareIgnoreCase a b = Ok (of_comparison (lex (keys true a) (keys true b))).
Proof. apply doCompare_clean. Qed.

Definition ConnectionId_cmp (a b : ConnectionId.t) : comparison :=
  thenc (lex (keys true (ConnectionId.value a)) (keys true (ConnectionId.value b))) Eq.
Definition SessionId_cmp (a b : SessionId.t) : comparison :=
  thenc (lex (keys true (SessionId.connectionId a)) (keys true (SessionId.connectionId b)))
  (thenc (Z.compare (SessionId.value a) (SessionId.value b)) Eq).
Definition ProducerId_cmp (a b : ProducerId.t) : comparison :=
  thenc (lex (keys true (ProducerId.connectionId a)) (keys true (ProducerId.connectionId b)))
  (thenc (Z.compare (ProducerId.value a) (ProducerId.value b))
  (thenc (Z.compare (ProducerId.sessionId a) (ProducerId.sessionId b)) Eq)).
Definition ConsumerId_cmp (a b : ConsumerId.t) : comparison :=
  thenc (lex (keys true (ConsumerId.connectionId a)) (keys true (ConsumerId.connectionId b)))
  (thenc (Z.compare (ConsumerId.sessionId a) (ConsumerId.sessionId b))
  (thenc (Z.compare (ConsumerId.value a) (ConsumerId.value b)) Eq)).

Definition ConnectionId_ok (i : ConnectionId.t) : bool := clean (ConnectionId.value i).
Definition SessionId_ok (i : SessionId.t) : bool := clean (SessionId.connectionId i).
Definition ProducerId_ok (i : ProducerId.t) : bool := clean (ProducerId.connectionId i).
Definition ConsumerId_ok (i : ConsumerId.t) : bool := clean (ConsumerId.connectionId i).
Definition LocalTransactionId_ok (i : LocalTransactionId.t) : bool :=
  match LocalTransactionId.connectionId i with Some c => ConnectionId_ok c | None => false end.
Definition LocalTransactionId_cmp (a b : LocalTransactionId.t) : comparison :=
  thenc (Z.compare (LocalTransactionId.value a) (LocalTransactionId.value b))
  (thenc (ConnectionId_cmp (default ConnectionId.default (LocalTransactionId.connectionId a))
                           (default ConnectionId.default (LocalTransactionId.connectionId b))) Eq).

Lemma order_const {K} : order (fun _ _ : K => Eq).
Proof. split; done. Qed.
Create HintDb orders.
#[local] Hint Resolve order_lex order_Z order_const order_then : orders.
#[local] Hint Extern 1 (order (fun a b => lex (keys true (?f a)) (keys true (?f b)))) =>
  exact (order_map (fun a => keys true (f a)) _ order_lex) : orders.
#[local] Hint Extern 1 (order (fun a b => Z.compare (?f a) (?f b))) => exact (order_map f _ order_Z) : orders.
#[local] Hint Extern 2 (order (fun a b => thenc _ _)) => apply order_then : orders.
Lemma ConnectionId_order : order ConnectionId_cmp.
Proof. unfold ConnectionId_cmp. auto with orders. Qed.
Lemma SessionId_order : order SessionId_cmp.
Proof. unfold SessionId_cmp. auto with orders. Qed.
Lemma ProducerId_order : order ProducerId_cmp.
Proof. unfold ProducerId_cmp. auto 8 with orders. Qed.
Lemma ConsumerId_order : order ConsumerId_cmp.
Proof. unfold ConsumerId_cmp. auto 8 with orders. Qed.
Lemma LocalTransactionId_order : order LocalTransactionId_cmp.
Proof.
  unfold LocalTransactionId_cmp. apply order_then; [auto with orders |]. apply order_then; [| auto with orders].
  exact (order_map (fun i => default ConnectionId.default (LocalTransactionId.connectionId i)) _ ConnectionId_order).
Qed.

(** On pointers a NULL is put in front; it is not [key_ok]. *)
Definition pointer_cmp {K} (c : K -> K -> comparison) (a b : option K) : comparison :=
  match a, b with
  | None, None => Eq | None, Some _ => Lt | Some _, None => Gt
  | Some a, Some b => c a b
  end.
Lemma pointer_order {K} (c : K -> K -> comparison) : order c -> order (pointer_cmp c).
Proof.
  intros [H1 H2 H3 H4]. split.
  - intros [a|]; cbn; auto.
  - intros [a|] [b|]; cbn; auto.
  - intros [a|] [b|] [d|]; cbn; try done. apply H3.
  - intros [a|] [b|] [d|]; cbn; try done. apply H4.
Qed.
Definition pointer_ok {K} (ok : K -> bool) (a : option K) : bool := match a with Some a => ok a | None => false end.

#[global] Program Instance ConnectionId_laws : ComparatorLaws (option ConnectionId.t) :=
  {| key_ok := pointer_ok ConnectionId_ok; key_cmp := pointer_cmp ConnectionId_cmp; key_order := pointer_order _ ConnectionId_order |}.
Next Obligation.
  intros [a|] [b|] Ha Hb; try done. cbn in *. unfold compareTo, ConnectionId_comparator, pointer_compareTo, ConnectionId_compareTo.
  rewrite compare_string_ok by done. apply (compare_first_ok _ Eq).
Qed.
#[global] Program Instance SessionId_laws : ComparatorLaws (option SessionId.t) :=
  {| key_ok := pointer_ok SessionId_ok; key_cmp := pointer_cmp SessionId_cmp; key_order := pointer_order _ SessionId_order |}.
Next Obligation.
  intros [a|] [b|] Ha Hb; try done. cbn in *. unfold compareTo, SessionId_comparator, pointer_compareTo, SessionId_compareTo.
  rewrite compare_string_ok, (compare_number_ok _ _ Eq) by done. apply compare_first_ok.
Qed.
#[global] Program Instance ProducerId_laws : ComparatorLaws (option ProducerId.t) :=
  {| key_ok := pointer_ok ProducerId_ok; key_cmp := pointer_cmp ProducerId_cmp; key_order := pointer_order _ ProducerId_order |}.
Next Obligation.
  intros [a|] [b|] Ha Hb; try done. cbn in *. unfold compareTo, ProducerId_comparator, pointer_compareTo, ProducerId_compareTo.
  rewrite compare_string_ok, (compare_number_ok _ _ Eq), compare_number_ok by done. apply compare_first_ok.
Qed.
#[global] Program Instance ConsumerId_laws : ComparatorLaws (option ConsumerId.t) :=
  {| key_ok := pointer_ok ConsumerId_ok; key_cmp := pointer_cmp ConsumerId_cmp; key_order := pointer_order _ ConsumerId_order |}.
Next Obligation.
  intros [a|] [b|] Ha Hb; try done. cbn in *. unfold compareTo, ConsumerId_comparator, pointer_compareTo, ConsumerId_compareTo.
  rewrite compare_string_ok, (compare_number_ok _ _ Eq), compare_number_ok by done. apply compare_first_ok.
Qed.
#[global] Program Instance LocalTransactionId_laws : ComparatorLaws (option LocalTransactionId.t) :=
  {| key_ok := pointer_ok LocalTransactionId_ok; key_cmp := pointer_cmp LocalTransactionId_cmp;
     key_order := pointer_order _ LocalTransactionId_order |}.
Next Obligation.
  intros [a|] [b|] Ha Hb; try done. cbn in *.
  unfold compareTo, LocalTransactionId_comparator, pointer_compareTo, LocalTransactionId_compareTo, LocalTransactionId_ok,
    LocalTransactionId_cmp in *.
  destruct (LocalTransactionId.connectionId a) as [ca|], (LocalTransactionId.connectionId b) as [cb|]; try done. cbn.
  pose proof (compareTo_ok (Some ca) (Some cb) Ha Hb) as E. cbn in E. unfold compareTo, ConnectionId_comparator, pointer_compareTo in E.
  rewrite E, (compare_first_ok _ Eq). apply compare_number_ok.
Qed.

(** ** ConcurrentStlMap

    The entries in the order of the comparator.  Every operation compares the key
    with all the keys of the map: where a comparison throws, so does the operation,
    whether or not the tree of std::map comes to that comparison. *)
Module ConcurrentStlMap.
Section Map.
Context {K V : Type} `{Comparator K}.
Abbreviation t := (list (K * V)).

Definition less (a b : K) : bool := match compareTo a b with Ok z => z <? 0 | Err _ => false end.
Definition equivalent (a b : K) : bool := negb (less a b) && negb (less b a).

Fixpoint check (key : K) (m : t) : result unit :=
  match m with
  | [] => Ok tt
  | (k, _) :: m => rbind (compareTo key k) (fun _ => rbind (compareTo k key) (fun _ => check key m))
  end.

Fixpoint lookup (key : K) (m : t) : option V :=
  match m with
  | [] => None
  | (k, v) :: m => if equivalent key k then Some v else lookup key m
  end.
(** An entry that is there keeps its key. *)
Fixpoint insert (key : K) (value : V) (m : t) : t :=
  match m with
  | [] => [(key, value)]
  | (k, v) :: m' =>
    if less key k then (key, value) :: m
    else if less k key then (k, v) :: insert key value m'
    else (k, value) :: m'
  end.
Fixpoint erase (key : K) (m : t) : t :=
  match m with
  | [] => []
  | (k, v) :: m => if equivalent key k then m else (k, v) :: erase key m
  end.

Definition get (key : K) (m : t) : result V :=
  rbind (check key m) (fun _ => match lookup key m with Some v => Ok v | None => throw NoSuchElementException end).
Definition put (key : K) (value : V) (m : t) : result t := rbind (check key m) (fun _ => Ok (insert key value m)).
(** The value that was removed, or the default of its type. *)
Definition remove (key : K) (m : t) : result (option V * t) :=
  rbind (check key m) (fun _ => Ok (lookup key m, erase key m)).
Definition values (m : t) : list V := map snd m.
End Map.

Section Laws.
Context {K V : Type} `{ComparatorLaws K}.
Implicit Types m : list (K * V).

Definition keys_ok m : bool := forallb (fun kv => key_ok (fst kv)) m.
Fixpoint sorted m : Prop :=
  match m with
  | [] => True
  | (k, _) :: m => Forall (fun kv => key_cmp k (fst kv) = Lt) m /\ sorted m
  end.
Definition map_ok m : Prop := keys_ok m = true /\ sorted m.

Lemma less_ok a b : key_ok a = true -> key_ok b = true -> less a b = match key_cmp a b with Lt => true | _ => false end.
Proof. intros Ha Hb. unfold less. rewrite compareTo_ok by done. by destruct (key_cmp a b). Qed.
Lemma equivalent_ok a b : key_ok a = true -> key_ok b = true ->
  equivalent a b = match key_cmp a b with Eq => true | _ => false end.
Proof.
  intros Ha Hb. unfold equivalent. rewrite !less_ok by done. destruct key_order as [_ Ho _ _].
  rewrite (Ho a b). by destruct (key_cmp a b).
Qed.
Lemma check_ok key m : key_ok key = true -> keys_ok m = true -> check key m = Ok tt.
Proof.
  intros Hk. induction m as [|[k v] m IH]; [done |]. cbn. rewrite andb_true_iff. intros [Hk' Hm].
  rewrite !compareTo_ok by done. cbn. by apply IH.
Qed.
Lemma get_ok key m : key_ok key = true -> map_ok m ->
  get key m = match lookup key m with Some v => Ok v | None => throw NoSuchElementException end.
Proof. intros Hk [Hm _]. unfold get. by rewrite check_ok. Qed.
Lemma put_ok key value m : key_ok key = true -> map_ok m -> put key value m = Ok (insert key value m).
Proof. intros Hk [Hm _]. unfold put. by rewrite check_ok. Qed.
Lemma remove_ok key m : key_ok key = true -> map_ok m -> remove key m = Ok (lookup key m, erase key m).
Proof. intros Hk [Hm _]. unfold remove. by rewrite check_ok. Qed.

Lemma map_ok_cons k v m : map_ok ((k, v) :: m) <->
  key_ok k = true /\ Forall (fun kv => key_cmp k (fst kv) = Lt) m /\ map_ok m.
Proof. unfold map_ok, keys_ok. cbn. rewrite andb_true_iff. tauto. Qed.
Lemma key_below_trans k k' m : key_cmp k k' = Lt -> Forall (fun kv => key_cmp k' (fst kv) = Lt) m ->
  Forall (fun kv => key_cmp k (fst kv) = Lt) m.
Proof. intros Hk. apply Forall_impl. intros kv. by apply (order_trans _ key_order k k'). Qed.
Lemma below_insert k key value m : key_ok key = true -> keys_ok m = true -> key_cmp k key = Lt ->
  Forall (fun kv => key_cmp k (fst kv) = Lt) m -> Forall (fun kv => key_cmp k (fst kv) = Lt) (insert key value m).
Proof.
  intros Hk Hm Hlt. induction m as [|[k' v'] m IH]; [by repeat constructor |].
  cbn in *. apply andb_true_iff in Hm as [Hk' Hm]. intros [H1 H2]%Forall_cons_1. cbn in H1.
  destruct (less key k'), (less k' key); repeat constructor; cbn; auto.
Qed.
Lemma insert_ok key value m : key_ok key = true -> map_ok m -> map_ok (insert key value m).
Proof.
  intros Hk. induction m as [|[k v] m IH]; intros Hm; [by repeat split; cbn; rewrite ?Hk |].
  apply map_ok_cons in Hm as (Hk' & Hb & Hm). cbn [insert]. rewrite !less_ok by done.
  pose proof (order_antisym _ key_order key k) as Ha. destruct (key_cmp key k) eqn:E; cbn in Ha; rewrite ?Ha.
  - by apply map_ok_cons.
  - apply map_ok_cons. split; [done |]. split; [constructor; [done | by apply (key_below_trans _ k)] | by apply map_ok_cons].
  - apply map_ok_cons. split; [done |]. split; [apply below_insert; [done | apply Hm | done..] | by apply IH].
Qed.

Lemma insert_insert key v1 v2 m : key_ok key = true -> keys_ok m = true ->
  insert key v2 (insert key v1 m) = insert key v2 m.
Proof.
  intros Hk. assert (Hkk : less key key = false) by (by rewrite less_ok, (order_refl _ key_order) by done).
  induction m as [|[k v] m IH]; cbn; [by rewrite Hkk |]. intros [Hk' Hm]%andb_true_iff.
  destruct (less key k) eqn:E1; cbn; [by rewrite Hkk |]. destruct (less k key) eqn:E2; cbn; rewrite E1, E2; [| done].
  by rewrite IH.
Qed.

(** Lookup, insertion and removal, seen through the order of the keys. *)
Lemma lookup_insert key key' value m : key_ok key = true -> key_ok key' = true -> map_ok m ->
  lookup key' (insert key value m) = match key_cmp key' key with Eq => Some value | _ => lookup key' m end.
Proof.
  intros Hk Hk'. induction m as [|[k v] m IH]; intros Hm; cbn.
  - rewrite equivalent_ok by done. by destruct (key_cmp key' key).
  - apply map_ok_cons in Hm as (Hk2 & Hb & Hm). rewrite !less_ok by done. destruct key_order as [O1 O2 O3 O4].
    rewrite (O2 key k). destruct (key_cmp key k) eqn:E; cbn.
    + rewrite !equivalent_ok by done. rewrite (O2 k key'), (O2 key key'), (O4 key k key' E). by destruct (key_cmp k key').
    + rewrite (equivalent_ok key' key) by done. by destruct (key_cmp key' key).
    + rewrite !equivalent_ok, IH by done. destruct (key_cmp key' k) eqn:E2, (key_cmp key' key) eqn:E3; try done.
      exfalso. rewrite (O4 _ _ k E3), E in E2. done.
Qed.
Lemma lookup_below k m : key_ok k = true -> keys_ok m = true -> Forall (fun kv => key_cmp k (fst kv) = Lt) m -> lookup k m = None.
Proof.
  intros Hk. induction m as [|[k' v] m IH]; [done |]. cbn. rewrite andb_true_iff. intros [H1 H2] [Hlt Hb]%Forall_cons_1.
  rewrite equivalent_ok by done. cbn in Hlt. rewrite Hlt. by apply IH.
Qed.
Lemma erase_Forall (P : K * V -> Prop) key m : Forall P m -> Forall P (erase key m).
Proof. induction 1 as [|[k v] m Hx Hm IH]; cbn; [done |]. case_match; [done | by constructor]. Qed.
Lemma erase_ok key m : map_ok m -> map_ok (erase key m).
Proof.
  induction m as [|[k v] m IH]; [done |]. intros (Hk & Hb & Hm)%map_ok_cons. cbn. case_match; [done |].
  apply map_ok_cons. split; [done |]. split; [by apply erase_Forall | by apply IH].
Qed.
Lemma lookup_erase key key' m : key_ok key = true -> key_ok key' = true -> map_ok m ->
  lookup key' (erase key m) = match key_cmp key' key with Eq => None | _ => lookup key' m end.
Proof.
  intros Hk Hk'. induction m as [|[k v] m IH]; intros Hm; cbn; [by destruct (key_cmp key' key) |].
  apply map_ok_cons in Hm as (Hk2 & Hb & Hm). rewrite !equivalent_ok by done. destruct key_order as [O1 O2 O3 O4].
  assert (Hrest : key_cmp key k <> Eq ->
    (match key_cmp key' k with Eq => Some v | _ => lookup key' (erase key m) end) =
    match key_cmp key' key with Eq => None | _ => match key_cmp key' k with Eq => Some v | _ => lookup key' m end end).
  { intros Hne. rewrite IH by done. destruct (key_cmp key' key) eqn:E3; [| by destruct (key_cmp key' k)..].
    rewrite (O4 _ _ k E3). by destruct (key_cmp key k). }
  destruct (key_cmp key k) eqn:E; cbn; rewrite ?equivalent_ok by done; [| specialize (Hrest ltac:(done)); by destruct (key_cmp key' k)..].
  rewrite (O2 k key'), (O2 key key'), (O4 key k key' E). destruct (key_cmp k key') eqn:E2; cbn; try done.
  apply lookup_below; [done | apply Hm |]. revert Hb. apply Forall_impl. intros kv Hlt.
  by rewrite <- (O4 _ _ (fst kv) E2).
Qed.
(** A new entry that is taken out again. *)
Lemma erase_insert key value m : key_ok key = true -> keys_ok m = true -> lookup key m = None -> erase key (insert key value m) = m.
Proof.
  intros Hk. assert (Hkk : equivalent key key = true) by (by rewrite equivalent_ok, (order_refl _ key_order) by done).
  induction m as [|[k v] m IH]; cbn; [by rewrite Hkk |]. intros [Hk' Hm]%andb_true_iff. destruct (equivalent key k) eqn:E; [done |].
  intros Hl. destruct (less key k) eqn:E1; cbn; [by rewrite Hkk |].
  destruct (less k key) eqn:E2; cbn; rewrite E; [by rewrite IH |]. unfold equivalent in E. by rewrite E1, E2 in E.
Qed.
End Laws.
End ConcurrentStlMap.
