(* ===== verification/StateTracker.v ===== *)
(** * What a failover replays: the connection state tracker

    activemq/state: ConnectionStateTracker.cpp, with ConnectionState, SessionState,
    TransactionState, ProducerState and the dispatch of CommandVisitorAdapter.cpp.

    The failover transport shows every command it sends to [track], and after it
    has connected to another broker calls [restore], which sends what the new broker
    must know.  Transactions are shared between the connection and the producers that
    took part in them, so they live in a heap and are referred to by their index.

    A handler is a computation of [X] (Prelude.v): its state is kept when it throws,
    as the tracker goes on after an exception. *)

From stdpp Require Import pretty.
From S2P Require Import Prelude DataStreams PrimitiveTypes Support BooleanStreams Wire BaseMarshaller Commands.
From S2P Require Import StringOrder Identifiers.
Import NaturalOrder.

(** ** The states of the parts *)
Module ProducerState.
Record t := mk { info : ProducerInfo.t; transactionState : option nat }.
End ProducerState.

Module TransactionState.
Record t := mk {
  commands : list DataStructure;
  id : option TransactionId.t;
  disposed : bool;
  producers : list (option ProducerId.t * ProducerState.t)
}.
Definition new (id : option TransactionId.t) : t := mk [] id false [].
Definition clear (s : t) : t := mk [] (id s) (disposed s) [].
Definition shutdown (s : t) : t := clear (mk (commands s) (id s) true (producers s)).
Definition addCommand (operation : DataStructure) (s : t) : result t :=
  if disposed s then throw IllegalStateException
  else Ok (mk (commands s ++ [operation]) (id s) (disposed s) (producers s)).
Definition addProducerState (p : ProducerState.t) (s : t) : result t :=
  let p := ProducerState.mk (ProducerState.info p) None in
  rbind (ConcurrentStlMap.put (ProducerInfo.producerId (ProducerState.info p)) p (producers s)) (fun m =>
  Ok (mk (commands s) (id s) (disposed s) m)).
End TransactionState.

Module SessionState.
Record t := mk {
  info : SessionInfo.t;
  producers : list (option ProducerId.t * ProducerState.t);
  consumers : list (option ConsumerId.t * ConsumerInfo.t);
  disposed : bool
}.
Definition new (info : SessionInfo.t) : t := mk info [] [] false.
Definition shutdown (s : t) : t := mk (info s) [] [] true.
Definition addProducer (p : ProducerInfo.t) (s : t) : result t :=
  if disposed s then throw IllegalStateException
  else rbind (ConcurrentStlMap.put (ProducerInfo.producerId p) (ProducerState.mk p None) (producers s)) (fun m =>
       Ok (mk (info s) m (consumers s) (disposed s))).
Definition addConsumer (c : ConsumerInfo.t) (s : t) : result t :=
  if disposed s then throw IllegalStateException
  else rbind (ConcurrentStlMap.put (ConsumerInfo.consumerId c) c (consumers s)) (fun m =>
       Ok (mk (info s) (producers s) m (disposed s))).
Definition removeConsumer (id : option ConsumerId.t) (s : t) : result (option ConsumerInfo.t * t) :=
  rbind (ConcurrentStlMap.remove id (consumers s)) (fun '(c, m) =>
  Ok (c, mk (info s) (producers s) m (disposed s))).
(** The part of [removeProducer] on the session; its transaction is the caller's. *)
Definition removeProducer (id : option ProducerId.t) (s : t) : result (option ProducerState.t * t) :=
  rbind (ConcurrentStlMap.remove id (producers s)) (fun '(p, m) =>
  Ok (p, mk (info s) m (consumers s) (disposed s))).
Definition setProducerState (id : option ProducerId.t) (p : ProducerState.t) (s : t) : t :=
  mk (info s) (ConcurrentStlMap.insert id p (producers s)) (consumers s) (disposed s).
End SessionState.

Module ConnectionState.
Record t := mk {
  info : ConnectionInfo.t;
  transactions : list (option LocalTransactionId.t * nat);
  sessions : list (option SessionId.t * SessionState.t);
  tempDestinations : list DestinationInfo.t;
  disposed : bool;
  connectionInterruptProcessingComplete : bool;
  recoveringPullConsumers : list (option ConsumerId.t * ConsumerInfo.t)
}.

Definition checkShutdown (s : t) : result unit := if disposed s then throw IllegalStateException else Ok tt.
Definition set_sessions (s : t) (m : list (option SessionId.t * SessionState.t)) : t :=
  mk (info s) (transactions s) m (tempDestinations s) (disposed s) (connectionInterruptProcessingComplete s)
     (recoveringPullConsumers s).
Definition set_transactions (s : t) (m : list (option LocalTransactionId.t * nat)) : t :=
  mk (info s) m (sessions s) (tempDestinations s) (disposed s) (connectionInterruptProcessingComplete s)
     (recoveringPullConsumers s).
Definition set_tempDestinations (s : t) (l : list DestinationInfo.t) : t :=
  mk (info s) (transactions s) (sessions s) l (disposed s) (connectionInterruptProcessingComplete s)
     (recoveringPullConsumers s).
Definition set_recoveringPullConsumers (s : t) (m : list (option ConsumerId.t * ConsumerInfo.t)) : t :=
  mk (info s) (transactions s) (sessions s) (tempDestinations s) (disposed s)
     (connectionInterruptProcessingComplete s) m.
Definition setConnectionInterruptProcessingComplete (b : bool) (s : t) : t :=
  mk (info s) (transactions s) (sessions s) (tempDestinations s) (disposed s) b (recoveringPullConsumers s).
Definition set_info (s : t) (i : ConnectionInfo.t) : t :=
  mk i (transactions s) (sessions s) (tempDestinations s) (disposed s) (connectionInterruptProcessingComplete s)
     (recoveringPullConsumers s).

Definition addSession (i : SessionInfo.t) (s : t) : result t :=
  rbind (checkShutdown s) (fun _ =>
  rbind (ConcurrentStlMap.put (SessionInfo.sessionId i) (SessionState.new i) (sessions s)) (fun m =>
  Ok (set_sessions s m))).
(** The constructor adds the default session; it reads the connection id. *)
Definition new (i : ConnectionInfo.t) : result t :=
  match ConnectionInfo.connectionId i with
  | None => Err Undefined
  | Some c =>
    addSession (SessionInfo.mk BaseCommand.default (Some (SessionId.mk (ConnectionId.value c) (-1))))
      (mk i [] [] [] false true [])
  end.
(** [reset] leaves the connection without its default session. *)
Definition reset (i : ConnectionInfo.t) (s : t) : t :=
  mk i [] [] [] false (connectionInterruptProcessingComplete s) (recoveringPullConsumers s).
Definition shutdown (s : t) : t :=
  if disposed s then s
  else mk (info s) (transactions s) (map (fun '(k, ss) => (k, SessionState.shutdown ss)) (sessions s)) (tempDestinations s) true
         (connectionInterruptProcessingComplete s) (recoveringPullConsumers s).
Definition removeSession (id : option SessionId.t) (s : t) : result t :=
  rbind (ConcurrentStlMap.remove id (sessions s)) (fun '(_, m) => Ok (set_sessions s m)).
Definition getSessionState (id : option SessionId.t) (s : t) : result SessionState.t :=
  ConcurrentStlMap.get id (sessions s).
Definition setSessionState (id : option SessionId.t) (ss : SessionState.t) (s : t) : t :=
  set_sessions s (ConcurrentStlMap.insert id ss (sessions s)).

Definition addTempDestination (i : DestinationInfo.t) (s : t) : result t :=
  rbind (checkShutdown s) (fun _ => Ok (set_tempDestinations s (tempDestinations s ++ [i]))).
(** [equals] of the destinations compares their names; [di->getDestination()] is
    dereferenced. *)
Fixpoint remove_destination (d : ActiveMQDestination.t) (l : list DestinationInfo.t) : result (list DestinationInfo.t) :=
  match l with
  | [] => Ok []
  | i :: l =>
    match DestinationInfo.destination i with
    | None => throw NullPointerException
    | Some d' =>
      rbind (remove_destination d l) (fun l =>
      Ok (if bool_decide (ActiveMQDestination.physicalName d' = ActiveMQDestination.physicalName d) then l else i :: l))
    end
  end.
Definition removeTempDestination (d : ActiveMQDestination.t) (s : t) : result t :=
  rbind (remove_destination d (tempDestinations s)) (fun l => Ok (set_tempDestinations s l)).

(** [id.dynamicCast<LocalTransactionId>()] *)
Definition local_id (id : option TransactionId.t) : result (option LocalTransactionId.t) :=
  match id with
  | Some (TransactionId.LocalTransactionId i) => Ok (Some i)
  | _ => throw ClassCastException
  end.
Definition getTransactionState (id : option TransactionId.t) (s : t) : result nat :=
  rbind (local_id id) (fun id => ConcurrentStlMap.get id (transactions s)).
End ConnectionState.

(** The result of [track]: the marker, or a command that waits for its response to
    remove a transaction. *)
Inductive Tracked :=
| TRACKED_RESPONSE_MARKER
| RemoveTransactionAction (info : TransactionInfo.t).

(** ** The transport a tracker is restored to *)
Class Transport (T : Type) := {
  tr_oneway : DataStructure -> T -> result unit * T;
  tr_onCommand : DataStructure -> T -> T;
  tr_getVersion : T -> Z
}.

(** [cloneDataStructure] of a message: a copy, but of the members of its own an
    ActiveMQBlobMessage copies none. *)
Definition cloneMessage (m : Message.t DataStructure) : Message.t DataStructure :=
  match Message.messageKind m with
  | Message.ActiveMQBlobMessage _ _ _ =>
    Message.set_body m (Message.ActiveMQBlobMessage [] (str "application/octet-stream") false)
      (Message.content m) (Message.compressed m) (Message.readOnlyBody m)
  | _ => m
  end.
(** [Message::getSize] *)
Definition message_size (m : Message.t DataStructure) : Z :=
  to_u32 (1024 + zlen (Message.content m) + zlen (Message.marshalledProperties m)).

Definition destination_toString (d : ActiveMQDestination.t) : list Z :=
  match ActiveMQDestination.destinationType d with
  | ActiveMQDestination.Topic => str "topic://"
  | ActiveMQDestination.TempTopic => str "temp-topic://"
  | ActiveMQDestination.TempQueue => str "temp-queue://"
  | ActiveMQDestination.Queue => str "queue://"
  end ++ ActiveMQDestination.physicalName d.
Definition ConsumerId_toString (i : ConsumerId.t) : list Z :=
  ConsumerId.connectionId i ++ str ":" ++ str (pretty (ConsumerId.sessionId i)) ++ str ":" ++ str (pretty (ConsumerId.value i)).
Definition LocalTransactionId_toString (i : LocalTransactionId.t) : result (list Z) :=
  match LocalTransactionId.connectionId i with
  | None => throw NullPointerException
  | Some c => Ok (str "TX:" ++ ConnectionId.value c ++ str ":" ++ str (pretty (LocalTransactionId.value i)))
  end.

Module ConnectionStateTracker.
(** The options, the heap of the transactions, and the maps.  A key of the message
    cache is the address of the message id. *)
Record t := mk {
  trackTransactions : bool;
  restoreSessions : bool;
  restoreConsumers : bool;
  restoreProducers : bool;
  restoreTransaction : bool;
  trackMessages : bool;
  trackTransactionProducers : bool;
  maxMessageCacheSize : Z;
  maxMessagePullCacheSize : Z;
  heap : list TransactionState.t;
  connectionStates : list (option ConnectionId.t * ConnectionState.t);
  messageCache : list (Z * Message.t DataStructure);
  currentCacheSize : Z;
  messagePullCache : list (list Z * MessagePull.t)
}.

Definition new : t := mk false true true true true true true (128 * 1024) 10 [] [] [] 0 [].

Definition set_connectionStates (s : t) (m : list (option ConnectionId.t * ConnectionState.t)) : t :=
  mk (trackTransactions s) (restoreSessions s) (restoreConsumers s) (restoreProducers s) (restoreTransaction s)
     (trackMessages s) (trackTransactionProducers s) (maxMessageCacheSize s) (maxMessagePullCacheSize s)
     (heap s) m (messageCache s) (currentCacheSize s) (messagePullCache s).
Definition set_heap (s : t) (h : list TransactionState.t) : t :=
  mk (trackTransactions s) (restoreSessions s) (restoreConsumers s) (restoreProducers s) (restoreTransaction s)
     (trackMessages s) (trackTransactionProducers s) (maxMessageCacheSize s) (maxMessagePullCacheSize s)
     h (connectionStates s) (messageCache s) (currentCacheSize s) (messagePullCache s).
Definition set_messageCache (s : t) (c : list (Z * Message.t DataStructure)) (n : Z) : t :=
  mk (trackTransactions s) (restoreSessions s) (restoreConsumers s) (restoreProducers s) (restoreTransaction s)
     (trackMessages s) (trackTransactionProducers s) (maxMessageCacheSize s) (maxMessagePullCacheSize s)
     (heap s) (connectionStates s) c n (messagePullCache s).
Definition set_messagePullCache (s : t) (c : list (list Z * MessagePull.t)) : t :=
  mk (trackTransactions s) (restoreSessions s) (restoreConsumers s) (restoreProducers s) (restoreTransaction s)
     (trackMessages s) (trackTransactionProducers s) (maxMessageCacheSize s) (maxMessagePullCacheSize s)
     (heap s) (connectionStates s) (messageCache s) (currentCacheSize s) c.

(** The setters of the options. *)
Inductive setter :=
| setTrackTransactions (b : bool) | setRestoreSessions (b : bool) | setRestoreConsumers (b : bool)
| setRestoreProducers (b : bool) | setRestoreTransaction (b : bool) | setTrackMessages (b : bool)
| setTrackTransactionProducers (b : bool) | setMaxMessageCacheSize (n : Z) | setMaxMessagePullCacheSize (n : Z).
Definition configure (o : setter) (s : t) : t := mk
  (match o with setTrackTransactions b => b | _ => trackTransactions s end)
  (match o with setRestoreSessions b => b | _ => restoreSessions s end)
  (match o with setRestoreConsumers b => b | _ => restoreConsumers s end)
  (match o with setRestoreProducers b => b | _ => restoreProducers s end)
  (match o with setRestoreTransaction b => b | _ => restoreTransaction s end)
  (match o with setTrackMessages b => b | _ => trackMessages s end)
  (match o with setTrackTransactionProducers b => b | _ => trackTransactionProducers s end)
  (match o with setMaxMessageCacheSize n => n | _ => maxMessageCacheSize s end)
  (match o with setMaxMessagePullCacheSize n => n | _ => maxMessagePullCacheSize s end)
  (heap s) (connectionStates s) (messageCache s) (currentCacheSize s) (messagePullCache s).

(** Access to a connection; the map holds pointers, so what a handler changes of one
    is there afterwards. *)
Definition getConnection (id : option ConnectionId.t) : X t ConnectionState.t :=
  fun s => (ConcurrentStlMap.get id (connectionStates s), s).
Definition setConnection (id : option ConnectionId.t) (cs : ConnectionState.t) : X t unit :=
  xmodify (fun s => set_connectionStates s (ConcurrentStlMap.insert id cs (connectionStates s))).

(** A change to the connection that a map entry points to. *)
Definition updateConnection (id : option ConnectionId.t) (f : ConnectionState.t -> ConnectionState.t) : X t unit :=
  xmodify (fun s => set_connectionStates s
    (map (fun '(k, cs) => (k, if ConcurrentStlMap.equivalent id k then f cs else cs)) (connectionStates s))).

(** Access to the heap. *)
Definition getTransaction (r : nat) : X t TransactionState.t :=
  fun s => (match heap s !! r with Some x => Ok x | None => Err Undefined end, s).
Definition setTransaction (r : nat) (x : TransactionState.t) : X t unit :=
  xmodify (fun s => set_heap s (<[r := x]> (heap s))).
Definition allocTransaction (x : TransactionState.t) : X t nat :=
  fun s => (Ok (length (heap s)), set_heap s (heap s ++ [x])).
Definition addTransactionCommand (r : nat) (c : DataStructure) : X t unit :=
  let+ x := getTransaction r in let+ x := xlift (TransactionState.addCommand c x) in setTransaction r x.

(** ** The handlers *)
Definition processDestinationInfo (info : DestinationInfo.t) : X t (option Tracked) :=
  xcatch to_amq (
  let+ cs := getConnection (DestinationInfo.connectionId info) in
  match DestinationInfo.destination info with
  | None => xlift (throw NullPointerException)
  | Some d =>
    (if ActiveMQDestination.isTemporary (ActiveMQDestination.destinationType d) then
       let+ cs := xlift (ConnectionState.addTempDestination info cs) in
       setConnection (DestinationInfo.connectionId info) cs
     else xret tt) ;+
    xret (Some TRACKED_RESPONSE_MARKER)
  end).

Definition processRemoveDestination (info : DestinationInfo.t) : X t (option Tracked) :=
  xcatch to_amq (
  let+ cs := getConnection (DestinationInfo.connectionId info) in
  match DestinationInfo.destination info with
  | None => xlift (throw NullPointerException)
  | Some d =>
    (if ActiveMQDestination.isTemporary (ActiveMQDestination.destinationType d) then
       let+ cs := xlift (ConnectionState.removeTempDestination d cs) in
       setConnection (DestinationInfo.connectionId info) cs
     else xret tt) ;+
    xret (Some TRACKED_RESPONSE_MARKER)
  end).

Definition processProducerInfo (info : ProducerInfo.t) : X t (option Tracked) :=
  xcatch to_amq (
  match ProducerInfo.producerId info with
  | None => xret (Some TRACKED_RESPONSE_MARKER)
  | Some id =>
    let sessionId := ProducerId_getParentId id in
    let connectionId := SessionId_getParentId sessionId in
    let+ cs := getConnection (Some connectionId) in
    let+ ss := xlift (ConnectionState.getSessionState (Some sessionId) cs) in
    let+ ss := xlift (SessionState.addProducer info ss) in
    setConnection (Some connectionId) (ConnectionState.setSessionState (Some sessionId) ss cs) ;+
    xret (Some TRACKED_RESPONSE_MARKER)
  end).

Definition processRemoveProducer (id : ProducerId.t) : X t (option Tracked) :=
  xcatch to_amq (
  let sessionId := ProducerId_getParentId id in
  let connectionId := SessionId_getParentId sessionId in
  let+ cs := getConnection (Some connectionId) in
  let+ ss := xlift (ConnectionState.getSessionState (Some sessionId) cs) in
  let+ r := xlift (SessionState.removeProducer (Some id) ss) in
  let '(p, ss) := r in
  setConnection (Some connectionId) (ConnectionState.setSessionState (Some sessionId) ss cs) ;+
  match p with
  | Some p =>
    match ProducerState.transactionState p with
    | Some r =>
      let+ x := getTransaction r in
      let+ x := xlift (TransactionState.addProducerState p x) in
      setTransaction r x
    | None => xret tt
    end
  | None => xret tt
  end ;+
  xret (Some TRACKED_RESPONSE_MARKER)).

Definition processConsumerInfo (info : ConsumerInfo.t) : X t (option Tracked) :=
  xcatch to_amq (
  match ConsumerInfo.consumerId info with
  | None => xlift (throw NullPointerException)
  | Some id =>
    let sessionId := ConsumerId_getParentId id in
    let connectionId := SessionId_getParentId sessionId in
    let+ cs := getConnection (Some connectionId) in
    let+ ss := xlift (ConnectionState.getSessionState (Some sessionId) cs) in
    let+ ss := xlift (SessionState.addConsumer info ss) in
    setConnection (Some connectionId) (ConnectionState.setSessionState (Some sessionId) ss cs) ;+
    xret (Some TRACKED_RESPONSE_MARKER)
  end).

(** [recoveringPullConsumers] is a StlMap, whose [remove] throws when the key is not
    there; the exception is caught. *)
Definition processRemoveConsumer (id : ConsumerId.t) : X t (option Tracked) :=
  xcatch to_amq (
  let sessionId := ConsumerId_getParentId id in
  let connectionId := SessionId_getParentId sessionId in
  let+ cs := getConnection (Some connectionId) in
  let+ ss := xlift (ConnectionState.getSessionState (Some sessionId) cs) in
  let+ r := xlift (SessionState.removeConsumer (Some id) ss) in
  let cs := ConnectionState.setSessionState (Some sessionId) (snd r) cs in
  setConnection (Some connectionId) cs ;+
  let+ r := xlift (ConcurrentStlMap.remove (Some id) (ConnectionState.recoveringPullConsumers cs)) in
  setConnection (Some connectionId) (ConnectionState.set_recoveringPullConsumers cs (snd r)) ;+
  xret (Some TRACKED_RESPONSE_MARKER)).

Definition processSessionInfo (info : SessionInfo.t) : X t (option Tracked) :=
  xcatch to_amq (
  match SessionInfo.sessionId info with
  | None => xlift (throw NullPointerException)
  | Some id =>
    let connectionId := SessionId_getParentId id in
    let+ cs := getConnection (Some connectionId) in
    let+ cs := xlift (ConnectionState.addSession info cs) in
    setConnection (Some connectionId) cs ;+
    xret (Some TRACKED_RESPONSE_MARKER)
  end).

Definition processRemoveSession (id : SessionId.t) : X t (option Tracked) :=
  xcatch to_amq (
  let connectionId := SessionId_getParentId id in
  let+ cs := getConnection (Some connectionId) in
  let+ cs := xlift (ConnectionState.removeSession (Some id) cs) in
  setConnection (Some connectionId) cs ;+
  xret (Some TRACKED_RESPONSE_MARKER)).

Definition processConnectionInfo (info : ConnectionInfo.t) : X t (option Tracked) :=
  xcatch to_amq (
  let+ cs := xlift (ConnectionState.new info) in
  let+ s := xget in
  let+ m := xlift (ConcurrentStlMap.put (ConnectionInfo.connectionId info) cs (connectionStates s)) in
  xmodify (fun s => set_connectionStates s m) ;+
  xret (Some TRACKED_RESPONSE_MARKER)).

Definition processRemoveConnection (id : ConnectionId.t) : X t (option Tracked) :=
  xcatch to_amq (
  let+ s := xget in
  let+ r := xlift (ConcurrentStlMap.remove (Some id) (connectionStates s)) in
  xmodify (fun s => set_connectionStates s (snd r)) ;+
  xret (Some TRACKED_RESPONSE_MARKER)).

(** LinkedHashMap::putImpl without access order: an entry keeps its place. *)
Fixpoint linked_put {K V} (eqb : K -> K -> bool) (key : K) (value : V) (m : list (K * V)) : list (K * V) :=
  match m with
  | [] => [(key, value)]
  | (k, v) :: m => if eqb key k then (k, value) :: m else (k, v) :: linked_put eqb key value m
  end.
(** [put] of the message cache, with its [removeEldestEntry]. *)
Definition cacheMessage (address : Z) (m : Message.t DataStructure) : X t unit :=
  xmodify (fun s =>
    let cache := linked_put Z.eqb address m (messageCache s) in
    match cache with
    | (_, eldest) :: rest =>
      if maxMessageCacheSize s <? currentCacheSize s
      then set_messageCache s rest (to_s32 (currentCacheSize s - message_size eldest))
      else set_messageCache s cache (currentCacheSize s)
    | [] => s
    end).
(** [put] of the cache of pull commands. *)
Definition cachePull (key : list Z) (p : MessagePull.t) : X t unit :=
  xmodify (fun s =>
    let cache := linked_put (fun a b => bool_decide (a = b)) key p (messagePullCache s) in
    set_messagePullCache s (if maxMessagePullCacheSize s <? zlen cache then tail cache else cache)).

Definition processMessage (address : Z) (message : Message.t DataStructure) : X t (option Tracked) :=
  xcatch to_amq (
  let+ s := xget in
  match Message.transactionId message with
  | Some tx =>
    if trackTransactions s then
      match Message.producerId message with
      | None => xlift (throw NullPointerException)
      | Some producerId =>
        let sessionId := ProducerId_getParentId producerId in
        let connectionId := SessionId_getParentId sessionId in
        let+ cs := getConnection (Some connectionId) in
        let+ r := xlift (ConnectionState.getTransactionState (Some tx) cs) in
        addTransactionCommand r (DMessage (cloneMessage message)) ;+
        (if trackTransactionProducers s then
           let+ ss := xlift (ConnectionState.getSessionState (Some sessionId) cs) in
           let+ p := xlift (ConcurrentStlMap.get (Some producerId) (SessionState.producers ss)) in
           let p := ProducerState.mk (ProducerState.info p) (Some r) in
           setConnection (Some connectionId)
             (ConnectionState.setSessionState (Some sessionId) (SessionState.setProducerState (Some producerId) p ss) cs)
         else xret tt) ;+
        xret (Some TRACKED_RESPONSE_MARKER)
      end
    else (if trackMessages s then cacheMessage address (cloneMessage message) else xret tt) ;+ xret None
  | None => (if trackMessages s then cacheMessage address (cloneMessage message) else xret tt) ;+ xret None
  end).

Definition processBeginTransaction (info : TransactionInfo.t) : X t (option Tracked) :=
  xcatch to_amq (
  let+ s := xget in
  if trackTransactions s then
    match TransactionInfo.connectionId info with
    | Some id =>
      let+ cs := getConnection (Some id) in
      let+ _ := xlift (ConnectionState.checkShutdown cs) in
      let+ key := xlift (ConnectionState.local_id (TransactionInfo.transactionId info)) in
      let+ r := allocTransaction (TransactionState.new (TransactionInfo.transactionId info)) in
      let+ m := xlift (ConcurrentStlMap.put key r (ConnectionState.transactions cs)) in
      setConnection (Some id) (ConnectionState.set_transactions cs m) ;+
      let+ r := xlift (ConnectionState.getTransactionState (TransactionInfo.transactionId info)
                         (ConnectionState.set_transactions cs m)) in
      addTransactionCommand r (DTransactionInfo info)
    | None => xret tt
    end ;+
    xret (Some TRACKED_RESPONSE_MARKER)
  else xret None).

(** [processPrepareTransaction] and [processEndTransaction] are the same code. *)
Definition processPrepareTransaction (info : TransactionInfo.t) : X t (option Tracked) :=
  xcatch to_amq (
  let+ s := xget in
  if trackTransactions s then
    match TransactionInfo.connectionId info with
    | Some id =>
      let+ cs := getConnection (Some id) in
      let+ r := xlift (ConnectionState.getTransactionState (TransactionInfo.transactionId info) cs) in
      addTransactionCommand r (DTransactionInfo info)
    | None => xret tt
    end ;+
    xret (Some TRACKED_RESPONSE_MARKER)
  else xret None).
Definition processEndTransaction (info : TransactionInfo.t) : X t (option Tracked) := processPrepareTransaction info.

(** The two commits and the rollback are the same code. *)
Definition processCommitTransactionOnePhase (info : TransactionInfo.t) : X t (option Tracked) :=
  xcatch to_amq (
  let+ s := xget in
  if trackTransactions s then
    match TransactionInfo.connectionId info with
    | Some id =>
      let+ cs := getConnection (Some id) in
      let+ r := xlift (ConnectionState.getTransactionState (TransactionInfo.transactionId info) cs) in
      addTransactionCommand r (DTransactionInfo info) ;+
      xret (Some (RemoveTransactionAction info))
    | None => xret None
    end
  else xret None).
Definition processCommitTransactionTwoPhase (info : TransactionInfo.t) : X t (option Tracked) :=
  processCommitTransactionOnePhase info.
Definition processRollbackTransaction (info : TransactionInfo.t) : X t (option Tracked) :=
  processCommitTransactionOnePhase info.

Definition processMessagePull (pull : MessagePull.t) : X t (option Tracked) :=
  match MessagePull.destination pull, MessagePull.consumerId pull with
  | Some d, Some c => cachePull (destination_toString d ++ str "::" ++ ConsumerId_toString c) pull ;+ xret None
  | _, _ => xret None
  end.

Definition processTransactionInfo (info : TransactionInfo.t) : X t (option Tracked) :=
  let type := TransactionInfo.type info in
  if type =? 0 then processBeginTransaction info
  else if type =? 2 then processCommitTransactionOnePhase info
  else if type =? 3 then processCommitTransactionTwoPhase info
  else if type =? 7 then processEndTransaction info
  else if type =? 6 then xret None
  else if type =? 1 then processPrepareTransaction info
  else if type =? 5 then xret None
  else if type =? 4 then processRollbackTransaction info
  else xlift (throw ActiveMQException).

Definition processRemoveInfo (info : RemoveInfo.t DataStructure) : X t (option Tracked) :=
  match RemoveInfo.objectId info with
  | None => xlift (throw NullPointerException)
  | Some (DConnectionId id) => processRemoveConnection id
  | Some (DSessionId id) => processRemoveSession id
  | Some (DConsumerId id) => processRemoveConsumer id
  | Some (DProducerId id) => processRemoveProducer id
  | Some _ => xlift (throw ActiveMQException)
  end.

(** [command->visit(this)]: a DestinationInfo is visited as an added destination
    whatever its operation is. *)
Definition visit (address : Z) (command : DataStructure) : X t (option Tracked) :=
  match command with
  | DDestinationInfo i => processDestinationInfo i
  | DProducerInfo i => processProducerInfo i
  | DConsumerInfo i => processConsumerInfo i
  | DSessionInfo i => processSessionInfo i
  | DConnectionInfo i => processConnectionInfo i
  | DRemoveInfo i => processRemoveInfo i
  | DMessage m => processMessage address m
  | DMessagePull p => processMessagePull p
  | DTransactionInfo i => processTransactionInfo i
  | _ => xret None
  end.
Definition track (address : Z) (command : DataStructure) : X t (option Tracked) := xcatch to_io (visit address command).

Definition trackBack (command : DataStructure) : X t unit :=
  xmodify (fun s =>
    match command with
    | DMessage m =>
      if trackMessages s && bool_decide (Message.transactionId m = None)
      then set_messageCache s (messageCache s) (to_s32 (currentCacheSize s + message_size m))
      else s
    | _ => s
    end).

(** [Tracked::onResponse]: the action of a completed transaction, run once. *)
Definition onResponse (tracked : Tracked) : X t unit :=
  match tracked with
  | TRACKED_RESPONSE_MARKER => xret tt
  | RemoveTransactionAction info =>
    xcatch to_amq (
    let id := TransactionInfo.connectionId info in
    let+ cs := getConnection id in
    let+ key := xlift (ConnectionState.local_id (TransactionInfo.transactionId info)) in
    let+ r := xlift (ConcurrentStlMap.remove key (ConnectionState.transactions cs)) in
    setConnection id (ConnectionState.set_transactions cs (snd r)) ;+
    match fst r with
    | Some r => let+ x := getTransaction r in setTransaction r (TransactionState.clear x)
    | None => xret tt
    end)
  end.

(** ** Restoring *)
Section Restore.
Context {T : Type} `{Transport T}.

Definition oneway (c : DataStructure) : X (t * T) unit :=
  fun '(s, tr) => let '(r, tr') := tr_oneway c tr in (r, (s, tr')).
Definition onCommand (c : DataStructure) : X (t * T) unit := xmodify (fun '(s, tr) => (s, tr_onCommand c tr)).
Definition tracker {A} (m : X t A) : X (t * T) A := fun '(s, tr) => let '(r, s') := m s in (r, (s', tr)).
Definition when (b : bool) (m : X (t * T) unit) : X (t * T) unit := if b then m else xret tt.

Definition set_prefetchSize (i : ConsumerInfo.t) (n : Z) : ConsumerInfo.t :=
  {| ConsumerInfo.base := ConsumerInfo.base i; ConsumerInfo.consumerId := ConsumerInfo.consumerId i;
     ConsumerInfo.browser := ConsumerInfo.browser i; ConsumerInfo.destination := ConsumerInfo.destination i;
     ConsumerInfo.prefetchSize := n; ConsumerInfo.maximumPendingMessageLimit := ConsumerInfo.maximumPendingMessageLimit i;
     ConsumerInfo.dispatchAsync := ConsumerInfo.dispatchAsync i; ConsumerInfo.selector := ConsumerInfo.selector i;
     ConsumerInfo.clientId := ConsumerInfo.clientId i; ConsumerInfo.subscriptionName := ConsumerInfo.subscriptionName i;
     ConsumerInfo.noLocal := ConsumerInfo.noLocal i; ConsumerInfo.exclusive := ConsumerInfo.exclusive i;
     ConsumerInfo.retroactive := ConsumerInfo.retroactive i; ConsumerInfo.priority := ConsumerInfo.priority i;
     ConsumerInfo.brokerPath := ConsumerInfo.brokerPath i;
     ConsumerInfo.additionalPredicate := ConsumerInfo.additionalPredicate i;
     ConsumerInfo.networkSubscription := ConsumerInfo.networkSubscription i;
     ConsumerInfo.optimizedAcknowledge := ConsumerInfo.optimizedAcknowledge i;
     ConsumerInfo.noRangeAcks := ConsumerInfo.noRangeAcks i;
     ConsumerInfo.networkConsumerPath := ConsumerInfo.networkConsumerPath i |}.
Definition set_failoverReconnect (i : ConnectionInfo.t) : ConnectionInfo.t :=
  {| ConnectionInfo.base := ConnectionInfo.base i; ConnectionInfo.connectionId := ConnectionInfo.connectionId i;
     ConnectionInfo.clientId := ConnectionInfo.clientId i; ConnectionInfo.password := ConnectionInfo.password i;
     ConnectionInfo.userName := ConnectionInfo.userName i; ConnectionInfo.brokerPath := ConnectionInfo.brokerPath i;
     ConnectionInfo.brokerMasterConnector := ConnectionInfo.brokerMasterConnector i;
     ConnectionInfo.manageable := ConnectionInfo.manageable i; ConnectionInfo.clientMaster := ConnectionInfo.clientMaster i;
     ConnectionInfo.faultTolerant := ConnectionInfo.faultTolerant i; ConnectionInfo.failoverReconnect := true;
     ConnectionInfo.clientIp := ConnectionInfo.clientIp i |}.

Definition doRestoreTempDestinations (cs : ConnectionState.t) : X (t * T) unit :=
  xcatch to_io (xfor (ConnectionState.tempDestinations cs) (fun i => oneway (DDestinationInfo i))).
Definition doRestoreProducers (ss : SessionState.t) : X (t * T) unit :=
  xcatch to_io (xfor (ConcurrentStlMap.values (SessionState.producers ss)) (fun p => oneway (DProducerInfo (ProducerState.info p)))).

(** A consumer is restored as a pull consumer while the interruption is handled. *)
Definition doRestoreConsumers (ss : SessionState.t) : X (t * T) unit :=
  xcatch to_io (
  match SessionInfo.sessionId (SessionState.info ss) with
  | None => xlift (throw NullPointerException)
  | Some id =>
    let connectionId := Some (SessionId_getParentId id) in
    let+ cs := tracker (getConnection connectionId) in
    let complete := ConnectionState.connectionInterruptProcessingComplete cs in
    xfor (ConcurrentStlMap.values (SessionState.consumers ss)) (fun info =>
      let+ st := xget in
      if negb complete && (0 <? ConsumerInfo.prefetchSize info) && (5 <? tr_getVersion (snd st)) then
        let+ cs := tracker (getConnection connectionId) in
        let+ m := xlift (ConcurrentStlMap.put (ConsumerInfo.consumerId info) info (ConnectionState.recoveringPullConsumers cs)) in
        tracker (setConnection connectionId (ConnectionState.set_recoveringPullConsumers cs m)) ;+
        oneway (DConsumerInfo (set_prefetchSize info 0))
      else oneway (DConsumerInfo info))
  end).

Definition doRestoreSessions (cs : ConnectionState.t) : X (t * T) unit :=
  xcatch to_io (
  let+ st := xget in
  xfor (ConcurrentStlMap.values (ConnectionState.sessions cs)) (fun ss =>
    oneway (DSessionInfo (SessionState.info ss)) ;+
    when (restoreProducers (fst st)) (doRestoreProducers ss) ;+
    when (restoreConsumers (fst st)) (doRestoreConsumers ss))).

(** The response that fails a commit whose outcome is in doubt; the id of a tracked
    transaction is a local one ([local_id]). *)
Definition rollback_response (info : TransactionInfo.t) : result DataStructure :=
  match TransactionInfo.transactionId info with
  | Some (TransactionId.LocalTransactionId i) =>
    rbind (LocalTransactionId_toString i) (fun text =>
    Ok (DExceptionResponse (ExceptionResponse.mk
      (Response.mk BaseCommand.default (BaseCommand.commandId (TransactionInfo.base info)))
      (Some (BrokerError.mk (str "TransactionRolledBackException")
        (str "Transaction completion in doubt due to failover. Forcing rollback of " ++ text) [] None)))))
  | _ => throw NullPointerException
  end.

(** One transaction: those whose commit was sent are kept for the rollback. *)
Definition restoreTransactionState (r : nat) : X (t * T) (list TransactionInfo.t) :=
  let+ x := tracker (getTransaction r) in
  match list.last (TransactionState.commands x) with
  | None => xlift (throw NoSuchElementException)
  | Some lastCommand =>
    let replay : X (t * T) (list TransactionInfo.t) :=
      xfor (ConcurrentStlMap.values (TransactionState.producers x)) (fun p => oneway (DProducerInfo (ProducerState.info p))) ;+
      xfor (TransactionState.commands x) oneway ;+
      xfor (ConcurrentStlMap.values (TransactionState.producers x)) (fun p =>
        let i := ProducerState.info p in
        oneway (DRemoveInfo (RemoveInfo.mk _
          (BaseCommand.mk 0 (BaseCommand.responseRequired (ProducerInfo.base i)))
          (option_map DProducerId (ProducerInfo.producerId i)) 0))) ;+
      xret [] in
    match lastCommand with
    | DTransactionInfo i => if TransactionInfo.type i =? 2 then xret [i] else replay
    | _ => replay
    end
  end.
Fixpoint restoreTransactionStates (rs : list nat) : X (t * T) (list TransactionInfo.t) :=
  match rs with
  | [] => xret []
  | r :: rs =>
    let+ l := restoreTransactionState r in
    let+ l' := restoreTransactionStates rs in
    xret (l ++ l')
  end.
Definition doRestoreTransactions (cs : ConnectionState.t) : X (t * T) unit :=
  xcatch to_io (
  let+ toRollback := restoreTransactionStates (ConcurrentStlMap.values (ConnectionState.transactions cs)) in
  xfor toRollback (fun info => let+ response := xlift (rollback_response info) in onCommand response)).

Definition restore : X (t * T) unit :=
  xcatch to_io (
  let+ st := xget in
  let s := fst st in
  xfor (connectionStates s) (fun '(id, cs) =>
    let info := set_failoverReconnect (ConnectionState.info cs) in
    tracker (updateConnection id (fun cs => ConnectionState.set_info cs (set_failoverReconnect (ConnectionState.info cs)))) ;+
    oneway (DConnectionInfo info) ;+
    doRestoreTempDestinations cs ;+
    when (restoreSessions s) (doRestoreSessions cs) ;+
    when (restoreTransaction s) (doRestoreTransactions cs)) ;+
  xfor (map snd (messageCache s)) (fun m => oneway (DMessage m)) ;+
  xfor (map snd (messagePullCache s)) (fun p => oneway (DMessagePull p))).

(** The map of the stalled consumers that is cleared at the end is a copy. *)
Definition connectionInterruptProcessingComplete (id : option ConnectionId.t) : X (t * T) unit :=
  let+ cs := tracker (getConnection id) in
  tracker (setConnection id (ConnectionState.setConnectionInterruptProcessingComplete true cs)) ;+
  xfor (ConnectionState.recoveringPullConsumers cs) (fun '(key, info) =>
    let control := ConsumerControl.mk BaseCommand.default (ConsumerInfo.destination info) false key
      (ConsumerInfo.prefetchSize info) false false false in
    fun st => match oneway (DConsumerControl control) st with
              | (Err (Throw _), st') => (Ok tt, st')
              | r => r
              end).
End Restore.

Definition transportInterrupted : X t unit :=
  xmodify (fun s => set_connectionStates s
    (map (fun '(id, cs) => (id, ConnectionState.setConnectionInterruptProcessingComplete false cs)) (connectionStates s))).
End ConnectionStateTracker.

(** A transport that keeps what it was given. *)
Module LoggingTransport.
Record t := mk { sent : list DataStructure; received : list DataStructure; version : Z }.
#[global] Instance transport : Transport t := {|
  tr_oneway c tr := (Ok tt, mk (sent tr ++ [c]) (received tr) (version tr));
  tr_onCommand c tr := mk (sent tr) (received tr ++ [c]) (version tr);
  tr_getVersion := version
|}.
End LoggingTransport.

(** A connection with a session, a producer and a consumer. *)
Module Sample.
Definition host : list Z := str "ID:host-1".
Definition connectionId : ConnectionId.t := ConnectionId.mk host.
Definition connection : ConnectionInfo.t :=
  ConnectionInfo.mk BaseCommand.default (Some connectionId) [] [] [] [] false false false false false [].
Definition sessionId : SessionId.t := SessionId.mk host 1.
Definition session : SessionInfo.t := SessionInfo.mk BaseCommand.default (Some sessionId).
Definition producerId : ProducerId.t := ProducerId.mk host 1 1.
Definition producer : ProducerInfo.t := ProducerInfo.mk BaseCommand.default (Some producerId) None [] false 0.
Definition consumerId : ConsumerId.t := ConsumerId.mk host 1 1.
Definition consumer : ConsumerInfo.t := ConnectionStateTracker.set_prefetchSize
  (ConsumerInfo.mk BaseCommand.default (Some consumerId) false None 0 0 false [] [] [] false false false 0 [] None false false false []) 100.
Definition transactionId : TransactionId.t := TransactionId.LocalTransactionId (LocalTransactionId.mk 7 (Some connectionId)).
Definition transaction (type : Z) : TransactionInfo.t :=
  TransactionInfo.mk (BaseCommand.mk 42 false) (Some connectionId) (Some transactionId) type.
Definition temporaryQueue : ActiveMQDestination.t :=
  ActiveMQDestination.mk ActiveMQDestination.TempQueue (str "ID:host-1:1") false [] host 1.
Definition temporary (operation : Z) : DestinationInfo.t :=
  DestinationInfo.mk BaseCommand.default (Some connectionId)
    (Some temporaryQueue) operation 0 [].

(** The state after commands were shown to a tracker. *)
Fixpoint shown (cs : list DataStructure) (s : ConnectionStateTracker.t) : ConnectionStateTracker.t :=
  match cs with
  | [] => s
  | c :: cs => shown cs (snd (ConnectionStateTracker.track 0 c s))
  end.
Definition commands : list DataStructure :=
  [DConnectionInfo connection; DSessionInfo session; DProducerInfo producer; DConsumerInfo consumer].
Definition tracker : ConnectionStateTracker.t := shown commands ConnectionStateTracker.new.
(** The same while an interruption is handled, and with a transaction. *)
Definition interrupted : ConnectionStateTracker.t := snd (ConnectionStateTracker.transportInterrupted tracker).
Definition transacted (type : Z) : ConnectionStateTracker.t :=
  shown (commands ++ [DTransactionInfo (transaction 0); DTransactionInfo (transaction type)])
    (ConnectionStateTracker.configure (ConnectionStateTracker.setTrackTransactions true) ConnectionStateTracker.new).
Definition transport : LoggingTransport.t := LoggingTransport.mk [] [] 10.
End Sample.
