(* ===== verification/TrackerLaws.v ===== *)
(** * The state tracker keeps what a broker must be told

    Theorems about StateTracker.v.  [tracker_ok] is the invariant of the tracker:
    every map is sorted, every session is filed under its connection, every producer
    and consumer under its session, every reference to a transaction is in the heap.
    [step] are the calls the failover transport makes, and the invariant holds of
    every state they reach.

    [snapshot] is what the state says of the connections, and [restore] is shown to
    send exactly that; a tracker that is shown a snapshot comes to the same
    connections, sessions, producers and consumers. *)

From Stdlib Require Import Relations.Relation_Operators.
From S2P Require Import Prelude DataStreams PrimitiveTypes Support BooleanStreams Wire BaseMarshaller Commands.
From S2P Require Import StringOrder Identifiers StateTracker.
Import NaturalOrder ConnectionStateTracker.

(** ** Maps whose entries satisfy a predicate *)
Section Entries.
Context {K V : Type} `{ComparatorLaws K}.
Implicit Types (P : K -> V -> Prop) (m : list (K * V)).

Definition keyed P : Prop := forall k k' v, key_cmp k k' = Eq -> P k v -> P k' v.
Definition minv P m : Prop :=
  ConcurrentStlMap.map_ok m /\
  forall k v, key_ok k = true -> ConcurrentStlMap.lookup k m = Some v -> P k v.

Lemma minv_nil P : minv P [].
Proof. split; [by split | done]. Qed.
Lemma minv_insert P k v m : keyed P -> minv P m -> key_ok k = true -> P k v -> minv P (ConcurrentStlMap.insert k v m).
Proof.
  intros HP [Hm HPm] Hk Hv. split; [by apply ConcurrentStlMap.insert_ok |].
  intros k' v' Hk'. rewrite ConcurrentStlMap.lookup_insert by done.
  pose proof (order_antisym _ key_order k k') as Ha. destruct (key_cmp k' k) eqn:E; [| by apply HPm..].
  intros [= <-]. apply (HP k); [| done]. rewrite (order_antisym _ key_order k' k), E. done.
Qed.
Lemma minv_erase P k m : key_ok k = true -> minv P m -> minv P (ConcurrentStlMap.erase k m).
Proof.
  intros Hk [Hm HPm]. split; [by apply ConcurrentStlMap.erase_ok |].
  intros k' v' Hk'. rewrite ConcurrentStlMap.lookup_erase by done. destruct (key_cmp k' k); [done | by apply HPm..].
Qed.
Lemma minv_impl P Q m : (forall k v, P k v -> Q k v) -> minv P m -> minv Q m.
Proof. intros HPQ [Hm HPm]. split; [done |]. intros k v Hk Hl. by apply HPQ, HPm. Qed.
Lemma get_Ok k m v : ConcurrentStlMap.get k m = Ok v -> ConcurrentStlMap.lookup k m = Some v.
Proof. unfold ConcurrentStlMap.get. destruct (ConcurrentStlMap.check k m); cbn; [| done]. case_match; by intros [= ->]. Qed.
Lemma put_Ok k v m m' : ConcurrentStlMap.put k v m = Ok m' -> m' = ConcurrentStlMap.insert k v m.
Proof. unfold ConcurrentStlMap.put. destruct (ConcurrentStlMap.check k m); cbn; [by intros [= <-] | done]. Qed.
Lemma remove_Ok k m r : ConcurrentStlMap.remove k m = Ok r -> r = (ConcurrentStlMap.lookup k m, ConcurrentStlMap.erase k m).
Proof. unfold ConcurrentStlMap.remove. destruct (ConcurrentStlMap.check k m); cbn; [by intros [= <-] | done]. Qed.
Lemma minv_get P k m v : minv P m -> key_ok k = true -> ConcurrentStlMap.get k m = Ok v -> P k v.
Proof. intros [_ HPm] Hk Hg%get_Ok. by apply HPm. Qed.

(** An entry is found under its key. *)
Lemma lookup_entry k v m : ConcurrentStlMap.map_ok m -> (k, v) ∈ m -> ConcurrentStlMap.lookup k m = Some v /\ key_ok k = true.
Proof.
  induction m as [|[k' v'] m IH]; intros Hm Hin; [by apply not_elem_of_nil in Hin |].
  apply ConcurrentStlMap.map_ok_cons in Hm as (Hk' & Hb & Hm). cbn. apply elem_of_cons in Hin as [[= <- <-]|Hin].
  - rewrite ConcurrentStlMap.equivalent_ok by done. by rewrite (order_refl _ key_order).
  - destruct (IH Hm Hin) as [Hl Hk]. split; [| done]. rewrite ConcurrentStlMap.equivalent_ok by done.
    pose proof (proj1 (list.Forall_forall _ _) Hb _ Hin) as Hlt. cbn in Hlt.
    by rewrite (order_antisym _ key_order k' k), Hlt.
Qed.
Lemma minv_entry P k v m : minv P m -> (k, v) ∈ m -> P k v.
Proof. intros [Hm HPm] Hin. destruct (lookup_entry k v m Hm Hin) as [Hl Hk]. by apply HPm. Qed.
Lemma lookup_found k v m : ConcurrentStlMap.map_ok m -> key_ok k = true -> ConcurrentStlMap.lookup k m = Some v ->
  exists k', (k', v) ∈ m /\ key_cmp k' k = Eq /\ key_ok k' = true.
Proof.
  intros Hm Hk. induction m as [|[k' v'] m IH]; [done |]. apply ConcurrentStlMap.map_ok_cons in Hm as (Hk' & Hb & Hm). cbn.
  rewrite ConcurrentStlMap.equivalent_ok by done. destruct (key_cmp k k') eqn:E.
  - intros [= ->]. exists k'. rewrite (order_antisym _ key_order k k'), E. split_and!; [by left | done | done].
  - intros Hl. destruct (IH Hm Hl) as (k2 & H1 & H2 & H3). exists k2. split_and!; [by right | done | done].
  - intros Hl. destruct (IH Hm Hl) as (k2 & H1 & H2 & H3). exists k2. split_and!; [by right | done | done].
Qed.
(** A change of the values keeps the order and what the keys find. *)
Lemma map_values_ok (f : K -> V -> V) m : ConcurrentStlMap.map_ok m ->
  ConcurrentStlMap.map_ok (map (fun '(k, v) => (k, f k v)) m).
Proof.
  induction m as [|[k v] m IH]; [done |]. intros (Hk & Hb & Hm)%ConcurrentStlMap.map_ok_cons. cbn.
  apply ConcurrentStlMap.map_ok_cons. split; [done |]. split; [| by apply IH]. clear IH Hm.
  induction Hb as [|[k' v'] m' Hx Hm' IH]; cbn; [constructor | by constructor].
Qed.
Lemma lookup_map_values (f : K -> V -> V) k m :
  ConcurrentStlMap.lookup k (map (fun '(k, v) => (k, f k v)) m) =
  match List.find (fun '(k', _) => ConcurrentStlMap.equivalent k k') m with Some (k', v) => Some (f k' v) | None => None end.
Proof. induction m as [|[k' v] m IH]; cbn; [done |]. by destruct (ConcurrentStlMap.equivalent k k'). Qed.
Lemma lookup_find k m : ConcurrentStlMap.lookup k m =
  option_map snd (List.find (fun '(k', _) => ConcurrentStlMap.equivalent k k') m).
Proof. induction m as [|[k' v] m IH]; cbn; [done |]. by destruct (ConcurrentStlMap.equivalent k k'). Qed.
Lemma minv_map P (f : K -> V -> V) m : keyed P -> minv P m -> (forall k v, P k v -> P k (f k v)) ->
  minv P (map (fun '(k, v) => (k, f k v)) m).
Proof.
  intros HP [Hm HPm] Hf. split; [by apply map_values_ok |]. intros k v Hk.
  rewrite lookup_map_values. pose proof (lookup_find k m) as Hl.
  destruct (List.find _ m) as [[k' v']|] eqn:E; [| done]. intros [= <-]. cbn in Hl.
  apply List.find_some in E as [Hin E]. apply list_elem_of_In in Hin. destruct (lookup_entry _ _ _ Hm Hin) as [_ Hk'].
  rewrite ConcurrentStlMap.equivalent_ok in E by done. destruct (key_cmp k k') eqn:Ek; try done.
  apply (HP k'); [by rewrite (order_antisym _ key_order k k'), Ek |]. apply Hf. by apply (HP k), HPm.
Qed.
(** Equivalent keys find the same entry. *)
Lemma lookup_equivalent k k' m : ConcurrentStlMap.map_ok m -> key_ok k = true -> key_ok k' = true -> key_cmp k k' = Eq ->
  ConcurrentStlMap.lookup k m = ConcurrentStlMap.lookup k' m.
Proof.
  intros [Hm _] Hk Hk' E. unfold ConcurrentStlMap.keys_ok in Hm. induction m as [|[k2 v] m IH]; [done |]. cbn in *.
  apply andb_true_iff in Hm as [H1 H2]. rewrite !ConcurrentStlMap.equivalent_ok by done.
  rewrite (order_eq _ key_order k k' k2 E). case_match; [done | by apply IH..].
Qed.
End Entries.

(** ** Equivalent identifiers have equivalent parents *)
Lemma thenc_eq c d : thenc c d = Eq <-> c = Eq /\ d = Eq.
Proof. destruct c; cbn; intuition congruence. Qed.
Lemma session_parent a b : SessionId_cmp a b = Eq -> ConnectionId_cmp (SessionId_getParentId a) (SessionId_getParentId b) = Eq.
Proof. unfold SessionId_cmp, ConnectionId_cmp. rewrite !thenc_eq. by intros [? ?]. Qed.
Lemma producer_parent a b : ProducerId_cmp a b = Eq -> SessionId_cmp (ProducerId_getParentId a) (ProducerId_getParentId b) = Eq.
Proof. unfold SessionId_cmp, ProducerId_cmp. rewrite !thenc_eq. tauto. Qed.
Lemma consumer_parent a b : ConsumerId_cmp a b = Eq -> SessionId_cmp (ConsumerId_getParentId a) (ConsumerId_getParentId b) = Eq.
Proof. unfold SessionId_cmp, ConsumerId_cmp. rewrite !thenc_eq. tauto. Qed.

(** ** The invariant *)
Definition ref_ok (h : list TransactionState.t) (r : option nat) : Prop :=
  match r with Some r => (r < length h)%nat | None => True end.

Definition producer_ok (h : list TransactionState.t) (sid : SessionId.t) (k : option ProducerId.t) (p : ProducerState.t) : Prop :=
  exists id, ProducerInfo.producerId (ProducerState.info p) = Some id /\ key_cmp k (Some id) = Eq /\ ProducerId_ok id = true /\
    SessionId_cmp sid (ProducerId_getParentId id) = Eq /\ ref_ok h (ProducerState.transactionState p).
Definition consumer_ok (sid : SessionId.t) (k : option ConsumerId.t) (i : ConsumerInfo.t) : Prop :=
  exists id, ConsumerInfo.consumerId i = Some id /\ key_cmp k (Some id) = Eq /\ ConsumerId_ok id = true /\
    SessionId_cmp sid (ConsumerId_getParentId id) = Eq.
Definition session_ok (h : list TransactionState.t) (cid : ConnectionId.t) (k : option SessionId.t) (ss : SessionState.t) : Prop :=
  exists id, SessionInfo.sessionId (SessionState.info ss) = Some id /\ key_cmp k (Some id) = Eq /\ SessionId_ok id = true /\
    ConnectionId_cmp cid (SessionId_getParentId id) = Eq /\ SessionState.disposed ss = false /\
    minv (producer_ok h id) (SessionState.producers ss) /\ minv (consumer_ok id) (SessionState.consumers ss).
Definition temp_ok (cid : ConnectionId.t) (i : DestinationInfo.t) : Prop :=
  exists id d, DestinationInfo.connectionId i = Some id /\ ConnectionId_ok id = true /\ ConnectionId_cmp cid id = Eq /\
    DestinationInfo.destination i = Some d /\ ActiveMQDestination.isTemporary (ActiveMQDestination.destinationType d) = true.
Definition connection_ok (h : list TransactionState.t) (k : option ConnectionId.t) (cs : ConnectionState.t) : Prop :=
  exists id, ConnectionInfo.connectionId (ConnectionState.info cs) = Some id /\ key_cmp k (Some id) = Eq /\ ConnectionId_ok id = true /\
    ConnectionState.disposed cs = false /\
    minv (session_ok h id) (ConnectionState.sessions cs) /\
    minv (fun _ r => (r < length h)%nat) (ConnectionState.transactions cs) /\
    ConcurrentStlMap.map_ok (ConnectionState.recoveringPullConsumers cs) /\
    Forall (temp_ok id) (ConnectionState.tempDestinations cs).

Definition transaction_ok (x : TransactionState.t) : Prop :=
  TransactionState.disposed x = false /\ ConcurrentStlMap.map_ok (TransactionState.producers x).

Definition tracker_ok (s : t) : Prop :=
  minv (connection_ok (heap s)) (connectionStates s) /\ Forall transaction_ok (heap s).

Lemma producer_keyed h sid : keyed (producer_ok h sid).
Proof.
  intros k k' p Hk (id & H1 & H2 & H3). exists id. split; [done |]. split; [| done].
  by rewrite <- (order_eq _ key_order k k' (Some id) Hk).
Qed.
Lemma consumer_keyed sid : keyed (consumer_ok sid).
Proof.
  intros k k' p Hk (id & H1 & H2 & H3). exists id. split; [done |]. split; [| done].
  by rewrite <- (order_eq _ key_order k k' (Some id) Hk).
Qed.
Lemma session_keyed h cid : keyed (session_ok h cid).
Proof.
  intros k k' p Hk (id & H1 & H2 & H3). exists id. split; [done |]. split; [| done].
  by rewrite <- (order_eq _ key_order k k' (Some id) Hk).
Qed.
Lemma connection_keyed h : keyed (connection_ok h).
Proof.
  intros k k' p Hk (id & H1 & H2 & H3). exists id. split; [done |]. split; [| done].
  by rewrite <- (order_eq _ key_order k k' (Some id) Hk).
Qed.
Lemma any_keyed {K V} `{ComparatorLaws K} (P : V -> Prop) : keyed (fun (_ : K) v => P v).
Proof. by intros k k' v _. Qed.
Create HintDb tracker.
#[export] Hint Resolve producer_keyed consumer_keyed session_keyed connection_keyed any_keyed minv_nil minv_insert minv_erase : tracker.

(** A heap that grows keeps its references. *)
Lemma connection_ok_heap h h' k cs : (length h <= length h')%nat -> connection_ok h k cs -> connection_ok h' k cs.
Proof.
  intros Hh (id & H1 & H2 & H3 & H4 & H5 & H6 & H7 & H8). exists id. split_and!; try done.
  - revert H5. apply minv_impl. intros sk ss (sid & S1 & S2 & S3 & S4 & S5 & S6 & S7). exists sid. split_and!; try done.
    revert S6. apply minv_impl. intros pk p (pid & P1 & P2 & P3 & P4 & P5). exists pid. split_and!; try done.
    destruct (ProducerState.transactionState p); cbn in *; [lia | done].
  - revert H6. apply minv_impl. intros; cbn in *; lia.
Qed.
Lemma tracker_ok_heap s h : tracker_ok s -> (length (heap s) <= length h)%nat ->
  Forall transaction_ok h -> tracker_ok (set_heap s h).
Proof.
  intros [Hc _] Hl Hh. split; [| done]. cbn. revert Hc. apply minv_impl. intros k cs. by apply connection_ok_heap.
Qed.
Lemma tracker_ok_connection s k cs : tracker_ok s -> key_ok k = true -> connection_ok (heap s) k cs ->
  tracker_ok (set_connectionStates s (ConcurrentStlMap.insert k cs (connectionStates s))).
Proof. intros [Hc Hh] Hk Hcs. split; [| done]. cbn. auto with tracker. Qed.

(** ** Commands with proper identifiers *)
Definition transaction_id_ok (o : option TransactionId.t) : bool :=
  match o with Some (TransactionId.LocalTransactionId i) => LocalTransactionId_ok i | _ => true end.
Definition maybe {A} (f : A -> bool) (o : option A) : bool := match o with Some a => f a | None => true end.
Definition command_ok (c : DataStructure) : bool :=
  match c with
  | DConnectionInfo i => pointer_ok ConnectionId_ok (ConnectionInfo.connectionId i)
  | DSessionInfo i => maybe SessionId_ok (SessionInfo.sessionId i)
  | DProducerInfo i => maybe ProducerId_ok (ProducerInfo.producerId i)
  | DConsumerInfo i => maybe ConsumerId_ok (ConsumerInfo.consumerId i)
  | DDestinationInfo i => pointer_ok ConnectionId_ok (DestinationInfo.connectionId i)
  | DRemoveInfo i =>
    match RemoveInfo.objectId i with
    | Some (DConnectionId c) => ConnectionId_ok c
    | Some (DSessionId c) => SessionId_ok c
    | Some (DProducerId c) => ProducerId_ok c
    | Some (DConsumerId c) => ConsumerId_ok c
    | _ => true
    end
  | DMessage m => maybe ProducerId_ok (Message.producerId m) && transaction_id_ok (Message.transactionId m)
  | DTransactionInfo i =>
    maybe ConnectionId_ok (TransactionInfo.connectionId i) && transaction_id_ok (TransactionInfo.transactionId i)
  | _ => true
  end.

(** ** Preservation

    [preserves m]: whatever the outcome, the invariant holds afterwards;
    [preserves_to m Q]: and [Q] of the result when there is one. *)
Definition preserves_to {A} (m : X t A) (s : t) (Q : A -> t -> Prop) : Prop :=
  tracker_ok (snd (m s)) /\ forall a, fst (m s) = Ok a -> Q a (snd (m s)).

Lemma keep_ret {A} (a : A) s (Q : A -> t -> Prop) : tracker_ok s -> Q a s -> preserves_to (xret a) s Q.
Proof. intros Hs HQ. split; [done |]. by intros ? [= <-]. Qed.
Lemma keep_lift {A} (r : result A) s (Q : A -> t -> Prop) :
  tracker_ok s -> (forall a, r = Ok a -> Q a s) -> preserves_to (xlift r) s Q.
Proof. intros Hs HQ. by split. Qed.
Lemma keep_bind {A B} (m : X t A) (k : A -> X t B) s R Q :
  preserves_to m s R -> (forall a s', tracker_ok s' -> R a s' -> preserves_to (k a) s' Q) -> preserves_to (xbind m k) s Q.
Proof.
  intros [Hs Hm] Hk. unfold xbind, preserves_to in *. destruct (m s) as [[a|f] s']; cbn in *; [| by split].
  by apply Hk, Hm.
Qed.
Lemma keep_catch {A} f (m : X t A) s Q : preserves_to m s Q -> preserves_to (xcatch f m) s Q.
Proof. intros [Hs Hm]. unfold preserves_to, xcatch in *. destruct (m s) as [[a|[]] s']; by split. Qed.
Lemma keep_get s (Q : t -> t -> Prop) : tracker_ok s -> Q s s -> preserves_to xget s Q.
Proof. intros Hs HQ. split; [done |]. by intros ? [= <-]. Qed.
Lemma keep_modify f s (Q : unit -> t -> Prop) : tracker_ok (f s) -> Q tt (f s) -> preserves_to (xmodify f) s Q.
Proof. intros Hs HQ. split; [done |]. by intros [] _. Qed.
Lemma keep_conseq {A} (m : X t A) s (Q R : A -> t -> Prop) :
  (forall a s', Q a s' -> R a s') -> preserves_to m s Q -> preserves_to m s R.
Proof. intros HQR [Hs Hm]. split; [done |]. intros a Ha. by apply HQR, Hm. Qed.

Lemma keep_getConnection id s : key_ok id = true -> tracker_ok s ->
  preserves_to (getConnection id) s (fun cs s' => s' = s /\ connection_ok (heap s) id cs).
Proof. intros Hk Hs. split; [done |]. intros cs Hcs. split; [done |]. by apply (minv_get _ _ _ _ (proj1 Hs)). Qed.
Lemma keep_setConnection id cs s : key_ok id = true -> tracker_ok s -> connection_ok (heap s) id cs ->
  preserves_to (setConnection id cs) s (fun _ s' => heap s' = heap s).
Proof. intros. apply keep_modify; [by apply tracker_ok_connection | done]. Qed.

(** ** The parts of a connection *)
Lemma connection_session h k cs sid ss : connection_ok h k cs -> SessionId_ok sid = true ->
  ConnectionState.getSessionState (Some sid) cs = Ok ss ->
  exists cid, ConnectionInfo.connectionId (ConnectionState.info cs) = Some cid /\ session_ok h cid (Some sid) ss.
Proof.
  intros (cid & H1 & H2 & H3 & H4 & H5 & _) Hk Hg. exists cid. split; [done |]. by apply (minv_get _ _ _ _ H5).
Qed.
Lemma connection_set_session h k cs sid ss cid : connection_ok h k cs -> SessionId_ok sid = true ->
  ConnectionInfo.connectionId (ConnectionState.info cs) = Some cid -> session_ok h cid (Some sid) ss ->
  connection_ok h k (ConnectionState.setSessionState (Some sid) ss cs).
Proof.
  intros (cid' & H1 & H2 & H3 & H4 & H5 & H6) Hk Hc Hss. rewrite H1 in Hc. injection Hc as ->.
  exists cid. split_and!; try done; try apply H6. cbn. apply minv_insert; auto with tracker.
Qed.
Lemma session_cmp_sym a b : SessionId_cmp a b = Eq -> SessionId_cmp b a = Eq.
Proof. intros E. by rewrite (order_antisym _ SessionId_order a b), E. Qed.
Lemma session_cmp_trans a b c : SessionId_cmp a b = Eq -> SessionId_cmp b c = Eq -> SessionId_cmp a c = Eq.
Proof. intros E F. by rewrite (order_eq _ SessionId_order a b c E). Qed.
Lemma connection_cmp_sym a b : ConnectionId_cmp a b = Eq -> ConnectionId_cmp b a = Eq.
Proof. intros E. by rewrite (order_antisym _ ConnectionId_order a b), E. Qed.
Lemma connection_cmp_trans a b c : ConnectionId_cmp a b = Eq -> ConnectionId_cmp b c = Eq -> ConnectionId_cmp a c = Eq.
Proof. intros E F. by rewrite (order_eq _ ConnectionId_order a b c E). Qed.

Lemma session_addProducer h cid info id ss ss' : ProducerInfo.producerId info = Some id -> ProducerId_ok id = true ->
  session_ok h cid (Some (ProducerId_getParentId id)) ss -> SessionState.addProducer info ss = Ok ss' ->
  session_ok h cid (Some (ProducerId_getParentId id)) ss'.
Proof.
  intros Hi Hid (sid & H1 & H2 & H3 & H4 & H5 & H6 & H7). unfold SessionState.addProducer. rewrite H5.
  destruct (ConcurrentStlMap.put _ _ _) as [m|] eqn:E; cbn; [| done]. intros [= <-]. apply put_Ok in E as ->.
  exists sid. split_and!; try done. cbn. rewrite Hi. apply minv_insert; auto with tracker.
  exists id. split_and!; try done; [apply (order_refl _ ProducerId_order) | by apply session_cmp_sym].
Qed.
Lemma session_addConsumer h cid info id ss ss' : ConsumerInfo.consumerId info = Some id -> ConsumerId_ok id = true ->
  session_ok h cid (Some (ConsumerId_getParentId id)) ss -> SessionState.addConsumer info ss = Ok ss' ->
  session_ok h cid (Some (ConsumerId_getParentId id)) ss'.
Proof.
  intros Hi Hid (sid & H1 & H2 & H3 & H4 & H5 & H6 & H7). unfold SessionState.addConsumer. rewrite H5.
  destruct (ConcurrentStlMap.put _ _ _) as [m|] eqn:E; cbn; [| done]. intros [= <-]. apply put_Ok in E as ->.
  exists sid. split_and!; try done. cbn. rewrite Hi. apply minv_insert; auto with tracker.
  exists id. split_and!; try done; [apply (order_refl _ ConsumerId_order) | by apply session_cmp_sym].
Qed.
Lemma session_removeProducer h cid k id ss r : ProducerId_ok id = true -> session_ok h cid k ss ->
  SessionState.removeProducer (Some id) ss = Ok r ->
  session_ok h cid k (snd r) /\ (forall p, fst r = Some p -> ref_ok h (ProducerState.transactionState p) /\
    pointer_ok ProducerId_ok (ProducerInfo.producerId (ProducerState.info p)) = true).
Proof.
  intros Hid (sid & H1 & H2 & H3 & H4 & H5 & H6 & H7). unfold SessionState.removeProducer.
  destruct (ConcurrentStlMap.remove _ _) as [[p m]|] eqn:E; cbn; [| done]. intros [= <-]. apply remove_Ok in E as [= -> ->].
  split; [exists sid; split_and!; try done; cbn; by apply minv_erase |].
  intros p Hp. cbn in Hp. destruct (proj2 H6 (Some id) p Hid Hp) as (pid & -> & _ & Hpid & _ & Hr). done.
Qed.
Lemma session_removeConsumer h cid k id ss r : ConsumerId_ok id = true -> session_ok h cid k ss ->
  SessionState.removeConsumer (Some id) ss = Ok r -> session_ok h cid k (snd r).
Proof.
  intros Hid (sid & H1 & H2 & H3 & H4 & H5 & H6 & H7). unfold SessionState.removeConsumer.
  destruct (ConcurrentStlMap.remove _ _) as [[p m]|] eqn:E; cbn; [| done]. intros [= <-]. apply remove_Ok in E as [= -> ->].
  exists sid. split_and!; try done. cbn. by apply minv_erase.
Qed.
Lemma connection_addSession h k cs cs' i sid : SessionInfo.sessionId i = Some sid -> SessionId_ok sid = true ->
  key_cmp k (Some (SessionId_getParentId sid)) = Eq -> connection_ok h k cs ->
  ConnectionState.addSession i cs = Ok cs' -> connection_ok h k cs'.
Proof.
  intros Hi Hsid Hp (cid & H1 & H2 & H3 & H4 & H5 & H6). unfold ConnectionState.addSession, ConnectionState.checkShutdown.
  rewrite H4. cbn. destruct (ConcurrentStlMap.put _ _ _) as [m|] eqn:E; cbn; [| done]. intros [= <-]. apply put_Ok in E as ->.
  exists cid. split_and!; try done; try apply H6. cbn. rewrite Hi. apply minv_insert; auto with tracker.
  exists sid. split; [done |]. split; [apply (order_refl _ SessionId_order) |]. split; [done |].
  split; [| split; [done | split; apply minv_nil]].
  destruct k as [k|]; [| done]. cbn in H2, Hp. by apply (connection_cmp_trans _ k); [apply connection_cmp_sym |].
Qed.
Lemma connection_new h i cid cs : ConnectionInfo.connectionId i = Some cid -> ConnectionId_ok cid = true ->
  ConnectionState.new i = Ok cs -> connection_ok h (Some cid) cs.
Proof.
  intros Hi Hok. unfold ConnectionState.new. rewrite Hi. intros Hn.
  apply (connection_addSession h (Some cid) _ cs _ (SessionId.mk (ConnectionId.value cid) (-1))) in Hn; try done.
  - cbn. destruct cid. apply (order_refl _ ConnectionId_order).
  - exists cid. split; [done |]. split; [apply (order_refl _ ConnectionId_order) |]. split_and!; try done; apply minv_nil.
Qed.

(** ** The handlers preserve the invariant *)
Abbreviation preserves m s := (preserves_to m s (fun _ _ => True)).

Lemma keep_bind_lift {A B} (r : result A) (k : A -> X t B) s Q : tracker_ok s ->
  (forall a, r = Ok a -> preserves_to (k a) s Q) -> preserves_to (xbind (xlift r) k) s Q.
Proof.
  intros Hs Hk. apply (keep_bind _ _ _ (fun a s' => s' = s /\ r = Ok a)); [by apply keep_lift | intros a s' _ [-> H]; auto].
Qed.
Lemma keep_bind_get {B} (k : t -> X t B) s Q : tracker_ok s -> preserves_to (k s) s Q -> preserves_to (xbind xget k) s Q.
Proof.
  intros Hs Hk. apply (keep_bind _ _ _ (fun a s' => a = s /\ s' = s)); [by apply keep_get | by intros a s' _ [-> ->]].
Qed.
Lemma keep_bind_getConnection {B} id (k : ConnectionState.t -> X t B) s Q : key_ok id = true -> tracker_ok s ->
  (forall cs, connection_ok (heap s) id cs -> preserves_to (k cs) s Q) -> preserves_to (xbind (getConnection id) k) s Q.
Proof.
  intros Hid Hs Hk. eapply keep_bind; [by apply keep_getConnection | intros cs s' _ [-> Hcs]; auto].
Qed.
Lemma keep_bind_setConnection {B} id cs (k : unit -> X t B) s Q : key_ok id = true -> tracker_ok s ->
  connection_ok (heap s) id cs -> (forall s', tracker_ok s' -> heap s' = heap s -> preserves_to (k tt) s' Q) ->
  preserves_to (xbind (setConnection id cs) k) s Q.
Proof.
  intros Hid Hs Hcs Hk. eapply keep_bind; [by apply keep_setConnection | intros [] s' Hs' Hh; auto].
Qed.

(** The steps all handlers share. *)
Ltac keep_step :=
  match goal with
  | |- preserves_to (xcatch _ _) _ _ => apply keep_catch
  | |- preserves_to (xret _) _ _ => apply keep_ret; [done | done]
  | |- preserves_to (xlift (throw _)) _ _ => apply keep_lift; [done | done]
  | |- preserves_to (xbind (xlift ?r) _) _ _ => apply keep_bind_lift; [done | intros]
  | |- preserves_to (xbind xget _) _ _ => apply keep_bind_get; [done |]
  | |- preserves_to (xbind (getConnection _) _) _ _ => apply keep_bind_getConnection; [done | done | intros]
  | |- preserves_to (xbind (setConnection _ _) _) _ _ => apply keep_bind_setConnection; [done | done | | intros]
  | |- preserves_to (setConnection _ _) _ _ =>
      eapply keep_conseq; [| apply keep_setConnection; [done | done |]]; [done |]
  end.
(** A session that was found, changed and is put back. *)
Ltac put_session :=
  match goal with
  | Hc : connection_ok _ _ ?cs, Hg : ConnectionState.getSessionState (Some ?sid) ?cs = Ok ?ss |- connection_ok _ _ _ =>
    let cid := fresh "cid" in let Hss := fresh "Hss" in
    destruct (connection_session _ _ _ sid ss Hc ltac:(done) Hg) as (cid & ? & Hss);
    eapply connection_set_session; [done | done | done |]
  end.

Lemma processProducerInfo_ok i s : command_ok (DProducerInfo i) = true -> tracker_ok s -> preserves (processProducerInfo i) s.
Proof.
  cbn. intros Hi Hs. unfold processProducerInfo. keep_step. destruct (ProducerInfo.producerId i) as [id|] eqn:E; [| by repeat keep_step].
  do 4 keep_step; [put_session; by eapply session_addProducer | keep_step].
Qed.
Lemma processConsumerInfo_ok i s : command_ok (DConsumerInfo i) = true -> tracker_ok s -> preserves (processConsumerInfo i) s.
Proof.
  cbn. intros Hi Hs. unfold processConsumerInfo. keep_step. destruct (ConsumerInfo.consumerId i) as [id|] eqn:E; [| by repeat keep_step].
  do 4 keep_step; [put_session; by eapply session_addConsumer | keep_step].
Qed.
Lemma processSessionInfo_ok i s : command_ok (DSessionInfo i) = true -> tracker_ok s -> preserves (processSessionInfo i) s.
Proof.
  cbn. intros Hi Hs. unfold processSessionInfo. keep_step. destruct (SessionInfo.sessionId i) as [id|] eqn:E; [| by repeat keep_step].
  do 3 keep_step; [| keep_step]. eapply connection_addSession; [done | done | | done | done].
  apply (order_refl _ ConnectionId_order).
Qed.
Lemma processConnectionInfo_ok i s : command_ok (DConnectionInfo i) = true -> tracker_ok s -> preserves (processConnectionInfo i) s.
Proof.
  cbn. intros Hi Hs. unfold processConnectionInfo. do 4 keep_step.
  destruct (ConnectionInfo.connectionId i) as [id|] eqn:E; [| done]. rewrite (put_Ok _ _ _ _ H0).
  eapply (keep_bind _ _ _ (fun _ _ => True)); [| intros; keep_step].
  apply keep_modify; [| done]. apply tracker_ok_connection; [done | done |]. by eapply connection_new.
Qed.
Lemma keep_setTransaction r x s : tracker_ok s -> transaction_ok x ->
  preserves_to (setTransaction r x) s (fun _ s' => length (heap s') = length (heap s)).
Proof.
  intros Hs Hx. apply keep_modify; [| cbn; by rewrite length_insert].
  apply tracker_ok_heap; [done | by rewrite length_insert |]. by apply Forall_insert; [apply Hs |].
Qed.
Lemma keep_bind_getTransaction {B} r (k : TransactionState.t -> X t B) s Q : tracker_ok s ->
  (forall x, transaction_ok x -> preserves_to (k x) s Q) -> preserves_to (xbind (getTransaction r) k) s Q.
Proof.
  intros Hs Hk. apply (keep_bind _ _ _ (fun x s' => s' = s /\ transaction_ok x)); [| intros x s' _ [-> H]; auto].
  split; [done |]. cbn. intros x. destruct (heap s !! r) as [y|] eqn:E; [| done]. intros [= ->]. split; [done |].
  exact (Forall_lookup_1 _ _ _ _ (proj2 Hs) E).
Qed.
Lemma keep_addTransactionCommand r c s : tracker_ok s ->
  preserves_to (addTransactionCommand r c) s (fun _ s' => length (heap s') = length (heap s)).
Proof.
  intros Hs. apply keep_bind_getTransaction; [done |]. intros x Hx. apply keep_bind_lift; [done |]. intros x' Hx'.
  apply keep_setTransaction; [done |]. destruct Hx as [Hd Hp]. unfold TransactionState.addCommand in Hx'. rewrite Hd in Hx'.
  by injection Hx' as <-.
Qed.

Lemma processRemoveProducer_ok id s : ProducerId_ok id = true -> tracker_ok s -> preserves (processRemoveProducer id) s.
Proof.
  intros Hid Hs. unfold processRemoveProducer. do 4 keep_step. destruct a0 as [p ss'].
  destruct (connection_session _ _ _ (ProducerId_getParentId id) _ H Hid H0) as (cid & Hcid & Hss).
  destruct (session_removeProducer _ _ _ _ _ _ Hid Hss H1) as [Hss' Hp].
  keep_step; [by eapply connection_set_session |].
  eapply (keep_bind _ _ _ (fun _ _ => True)); [| intros; keep_step].
  destruct p as [p|]; [| keep_step]. destruct (Hp p eq_refl) as [_ Hpid].
  destruct (ProducerState.transactionState p) as [r|]; [| keep_step].
  apply keep_bind_getTransaction; [done |]. intros x [Hd Hx]. keep_step.
  eapply keep_conseq; [| apply keep_setTransaction]; [done | done |].
  unfold TransactionState.addProducerState in H4. destruct (ConcurrentStlMap.put _ _ _) as [m|] eqn:E; cbn in H4; [| done].
  injection H4 as <-. apply put_Ok in E as ->. split; [done |]. by apply ConcurrentStlMap.insert_ok.
Qed.
Lemma processRemoveConsumer_ok id s : ConsumerId_ok id = true -> tracker_ok s -> preserves (processRemoveConsumer id) s.
Proof.
  intros Hid Hs. unfold processRemoveConsumer. do 4 keep_step.
  assert (Hcs : connection_ok (heap s) (Some (SessionId_getParentId (ConsumerId_getParentId id)))
    (ConnectionState.setSessionState (Some (ConsumerId_getParentId id)) (snd a0) cs))
    by (put_session; by apply (session_removeConsumer _ _ _ _ _ _ Hid Hss H1)).
  keep_step; [done |]. keep_step. keep_step; [| keep_step]. rewrite H3. apply remove_Ok in H4 as ->.
  destruct Hcs as (cid & C1 & C2 & C3 & C4 & C5 & C6 & C7 & C8). exists cid. split_and!; try done.
  by apply ConcurrentStlMap.erase_ok.
Qed.
Lemma processRemoveSession_ok id s : SessionId_ok id = true -> tracker_ok s -> preserves (processRemoveSession id) s.
Proof.
  intros Hid Hs. unfold processRemoveSession. do 3 keep_step. keep_step; [| keep_step].
  unfold ConnectionState.removeSession in H0. destruct (ConcurrentStlMap.remove _ _) as [[x m]|] eqn:E; cbn in H0; [| done].
  injection H0 as <-. apply remove_Ok in E as [= -> ->].
  destruct H as (cid & C1 & C2 & C3 & C4 & C5 & C6). exists cid. split_and!; try done; try apply C6. cbn. by apply minv_erase.
Qed.
Lemma processRemoveConnection_ok id s : ConnectionId_ok id = true -> tracker_ok s -> preserves (processRemoveConnection id) s.
Proof.
  intros Hid Hs. unfold processRemoveConnection. do 3 keep_step. apply remove_Ok in H as ->.
  eapply (keep_bind _ _ _ (fun _ _ => True)); [| intros; keep_step].
  apply keep_modify; [| done]. destruct Hs as [Hc Hh]. split; [| done]. cbn. by apply minv_erase.
Qed.
Lemma processDestinationInfo_ok i s : command_ok (DDestinationInfo i) = true -> tracker_ok s -> preserves (processDestinationInfo i) s.
Proof.
  cbn. intros Hi Hs. unfold processDestinationInfo. do 2 keep_step.
  destruct (DestinationInfo.destination i) as [d|] eqn:Ed; [| keep_step].
  eapply (keep_bind _ _ _ (fun _ _ => True)); [| intros; keep_step].
  destruct (ActiveMQDestination.isTemporary _) eqn:Et; [| keep_step]. do 2 keep_step.
  destruct H as (cid & C1 & C2 & C3 & C4 & C5 & C6 & C7 & C8).
  unfold ConnectionState.addTempDestination, ConnectionState.checkShutdown in H0. rewrite C4 in H0. injection H0 as <-.
  destruct (DestinationInfo.connectionId i) as [id|] eqn:Ei; [| done].
  exists cid. split_and!; try done. cbn. apply Forall_app. split; [done |]. constructor; [| constructor].
  exists id, d. split_and!; try done. by apply connection_cmp_sym.
Qed.
Lemma tracker_ok_caches s c n p : tracker_ok s ->
  tracker_ok (set_messageCache s c n) /\ tracker_ok (set_messagePullCache s p).
Proof. intros Hs. split; exact Hs. Qed.
Lemma cacheMessage_ok a m s : tracker_ok s -> preserves (cacheMessage a m) s.
Proof.
  intros Hs. apply keep_modify; [| done]. destruct (linked_put _ _ _ _) as [|[k e] rest]; [done |]. by case_match.
Qed.
(** Looking up a transaction by a proper id. *)
Lemma connection_transaction h k cs id r : connection_ok h k cs -> transaction_id_ok id = true ->
  ConnectionState.getTransactionState id cs = Ok r -> (r < length h)%nat.
Proof.
  intros (cid & C1 & C2 & C3 & C4 & C5 & C6 & C7) Hid. unfold ConnectionState.getTransactionState, ConnectionState.local_id.
  destruct id as [[i|]|]; try done. intros Hg. cbn in Hg. by apply (minv_get _ _ _ _ C6) in Hg.
Qed.
Lemma processMessage_ok a m s : command_ok (DMessage m) = true -> tracker_ok s -> preserves (processMessage a m) s.
Proof.
  cbn. intros [Hp Htx]%andb_true_iff Hs. unfold processMessage. do 2 keep_step.
  assert (Hcache : preserves ((if trackMessages s then cacheMessage a (cloneMessage m) else xret tt) ;+ xret (A := option Tracked) None) s).
  { eapply (keep_bind _ _ _ (fun _ _ => True)); [| intros; keep_step]. destruct (trackMessages s); [by apply cacheMessage_ok | keep_step]. }
  destruct (Message.transactionId m) as [tx|] eqn:Etx; [| done]. destruct (trackTransactions s); [| done].
  destruct (Message.producerId m) as [pid|] eqn:Ep; [| keep_step]. do 2 keep_step.
  pose proof (connection_transaction _ _ _ _ _ H Htx H0) as Hr.
  eapply keep_bind; [by apply keep_addTransactionCommand | intros [] s' Hs' Hh].
  assert (Hcs : connection_ok (heap s') (Some (SessionId_getParentId (ProducerId_getParentId pid))) cs)
    by (by apply (connection_ok_heap (heap s)); [lia |]).
  eapply (keep_bind _ _ _ (fun _ _ => True)); [| intros; keep_step].
  destruct (trackTransactionProducers s); [| keep_step]. do 2 keep_step. cbv zeta. keep_step. put_session.
  destruct Hss as (sid & S1 & S2 & S3 & S4 & S5 & S6 & S7). exists sid. split_and!; try done. cbn.
  destruct (minv_get _ (Some pid) _ _ S6 Hp H2) as (id & P1 & P2 & P3 & P4 & _).
  apply minv_insert; auto with tracker. exists id. split_and!; try done. cbn. lia.
Qed.
Lemma processPrepareTransaction_ok i s : command_ok (DTransactionInfo i) = true -> tracker_ok s -> preserves (processPrepareTransaction i) s.
Proof.
  cbn. intros [Hc Htx]%andb_true_iff Hs. unfold processPrepareTransaction. do 2 keep_step. destruct (trackTransactions s); [| keep_step].
  eapply (keep_bind _ _ _ (fun _ _ => True)); [| intros; keep_step].
  destruct (TransactionInfo.connectionId i) as [id|]; [| keep_step]. do 2 keep_step.
  eapply keep_conseq; [| by apply keep_addTransactionCommand]. done.
Qed.
Lemma processCommitTransactionOnePhase_ok i s : command_ok (DTransactionInfo i) = true -> tracker_ok s ->
  preserves (processCommitTransactionOnePhase i) s.
Proof.
  cbn. intros [Hc Htx]%andb_true_iff Hs. unfold processCommitTransactionOnePhase. do 2 keep_step. destruct (trackTransactions s); [| keep_step].
  destruct (TransactionInfo.connectionId i) as [id|]; [| keep_step]. do 2 keep_step.
  eapply keep_bind; [by apply keep_addTransactionCommand | intros; keep_step].
Qed.
Lemma processBeginTransaction_ok i s : command_ok (DTransactionInfo i) = true -> tracker_ok s -> preserves (processBeginTransaction i) s.
Proof.
  cbn. intros [Hc Htx]%andb_true_iff Hs. unfold processBeginTransaction. do 2 keep_step. destruct (trackTransactions s); [| keep_step].
  eapply (keep_bind _ _ _ (fun _ _ => True)); [| intros; keep_step].
  destruct (TransactionInfo.connectionId i) as [id|]; [| keep_step]. do 3 keep_step.
  eapply (keep_bind _ _ _ (fun r s' => length (heap s') = S (length (heap s)) /\ r = length (heap s))).
  { split; cbn; [| intros r [= <-]; rewrite length_app; cbn; split; [lia | done]].
    apply tracker_ok_heap; [done | rewrite length_app; lia |]. apply Forall_app. split; [apply Hs | by repeat constructor]. }
  intros r s' Hs' [Hh ->]. keep_step.
  assert (Hcs : connection_ok (heap s') (Some id) (ConnectionState.set_transactions cs a1)).
  { apply (connection_ok_heap _ (heap s')) in H as (cid & C1 & C2 & C3 & C4 & C5 & C6 & C7); [| lia].
    exists cid. split_and!; try done; try apply C7. cbn. rewrite (put_Ok _ _ _ _ H2).
    unfold ConnectionState.local_id in H1. destruct (TransactionInfo.transactionId i) as [[ti|]|]; try done. injection H1 as <-.
    apply minv_insert; auto with tracker. lia. }
  keep_step; [done |]. keep_step. eapply keep_conseq; [| by apply keep_addTransactionCommand]. done.
Qed.

(** Every command with proper identifiers. *)
Lemma visit_ok a c s : command_ok c = true -> tracker_ok s -> preserves (visit a c) s.
Proof.
  intros Hc Hs. destruct c; cbn [visit]; try (by apply keep_ret).
  - by apply processMessage_ok.
  - by apply processConnectionInfo_ok.
  - by apply processConsumerInfo_ok.
  - by apply processDestinationInfo_ok.
  - unfold processMessagePull. destruct (MessagePull.destination i), (MessagePull.consumerId i); try keep_step.
    eapply (keep_bind _ _ _ (fun _ _ => True)); [| intros; keep_step]. apply keep_modify; [exact Hs | done].
  - by apply processProducerInfo_ok.
  - cbn in Hc. unfold processRemoveInfo. destruct (RemoveInfo.objectId i) as [[]|]; try keep_step;
      [by apply processRemoveConnection_ok | by apply processRemoveConsumer_ok | by apply processRemoveProducer_ok
      | by apply processRemoveSession_ok].
  - by apply processSessionInfo_ok.
  - unfold processTransactionInfo, processCommitTransactionTwoPhase, processRollbackTransaction, processEndTransaction.
    repeat case_match; try keep_step; (by apply processBeginTransaction_ok) || (by apply processCommitTransactionOnePhase_ok)
      || by apply processPrepareTransaction_ok.
Qed.

(** ** The calls of the failover transport *)
Lemma onResponse_ok i s : pointer_ok ConnectionId_ok (TransactionInfo.connectionId i) = true ->
  transaction_id_ok (TransactionInfo.transactionId i) = true -> tracker_ok s -> preserves (onResponse (RemoveTransactionAction i)) s.
Proof.
  intros Hc Htx Hs. unfold onResponse. do 5 keep_step.
  - destruct H as (cid & C1 & C2 & C3 & C4 & C5 & C6 & C7). exists cid. split_and!; try done; try apply C7. cbn.
    rewrite (remove_Ok _ _ _ H1). cbn. unfold ConnectionState.local_id in H0.
    destruct (TransactionInfo.transactionId i) as [[ti|]|]; try done. injection H0 as <-. by apply minv_erase.
  - destruct (fst a0) as [r|]; [| keep_step]. apply keep_bind_getTransaction; [done |]. intros x Hx.
    eapply keep_conseq; [| apply keep_setTransaction; [done |]]; [done |]. split; [apply Hx | by split].
Qed.
Lemma updateConnection_ok f id s : (forall k cs, connection_ok (heap s) k cs -> connection_ok (heap s) k (f cs)) ->
  tracker_ok s -> preserves (updateConnection id f) s.
Proof.
  intros Hf [Hc Hh]. apply keep_modify; [| done]. split; [| done]. cbn.
  apply (minv_map _ (fun k cs => if ConcurrentStlMap.equivalent id k then f cs else cs)); [auto with tracker | done |].
  intros k cs Hcs. case_match; auto.
Qed.
Lemma transportInterrupted_ok s : tracker_ok s -> preserves transportInterrupted s.
Proof.
  intros [Hc Hh]. apply keep_modify; [| done]. split; [| done]. cbn.
  by apply (minv_map _ (fun _ cs => ConnectionState.setConnectionInterruptProcessingComplete false cs)); [auto with tracker | |].
Qed.

Section RestorePreserves.
Context {T : Type} `{Transport T}.
Definition safe {A} (m : X (t * T) A) : Prop := forall st, tracker_ok (fst st) -> tracker_ok (fst (snd (m st))).

Lemma safe_ret {A} (a : A) : safe (xret a).
Proof. by intros st. Qed.
Lemma safe_lift {A} (r : result A) : safe (xlift r).
Proof. by intros st. Qed.
Lemma safe_bind {A B} (m : X (t * T) A) (k : A -> X (t * T) B) : safe m -> (forall a, safe (k a)) -> safe (xbind m k).
Proof.
  intros Hm Hk st Hst. specialize (Hm st Hst). unfold xbind. destruct (m st) as [[a|f] st']; [by apply Hk | done].
Qed.
Lemma safe_catch {A} f (m : X (t * T) A) : safe m -> safe (xcatch f m).
Proof. intros Hm st Hst. specialize (Hm st Hst). unfold xcatch. by destruct (m st) as [[a|[]] st']. Qed.
Lemma safe_for {A} (l : list A) f : (forall x, x ∈ l -> safe (f x)) -> safe (xfor l f).
Proof.
  induction l as [|x l IH]; intros Hf; [apply safe_ret |]. apply safe_bind; [apply Hf; by left |].
  intros _. apply IH. intros y Hy. apply Hf. by right.
Qed.
Lemma safe_when b m : safe m -> safe (when b m).
Proof. destruct b; [done | intros _; apply safe_ret]. Qed.
Lemma safe_oneway c : safe (oneway c).
Proof. intros [s tr] Hs. cbn. by destruct (tr_oneway c tr). Qed.
Lemma safe_tracker {A} (m : X t A) : (forall s, tracker_ok s -> preserves m s) -> safe (tracker m).
Proof. intros Hm [s tr] Hs. cbn. destruct (Hm s Hs) as [Hk _]. by destruct (m s). Qed.
Lemma safe_getConnection id k : key_ok id = true -> (forall cs s tr, tracker_ok s -> connection_ok (heap s) id cs -> tracker_ok (fst (snd (k cs (s, tr))))) ->
  safe (xbind (tracker (getConnection id)) k : X (t * T) unit).
Proof.
  intros Hid Hk [s tr] Hs. unfold xbind, tracker, getConnection. cbn in Hs. destruct (ConcurrentStlMap.get _ _) as [cs|] eqn:E; [| done].
  apply Hk; [done |]. by apply (minv_get _ _ _ _ (proj1 Hs)).
Qed.
Create HintDb safe.
#[local] Hint Resolve safe_ret safe_lift safe_bind safe_catch safe_for safe_when safe_oneway : safe.

Lemma safe_doRestoreConsumers ss : pointer_ok SessionId_ok (SessionInfo.sessionId (SessionState.info ss)) = true ->
  (forall k i, (k, i) ∈ SessionState.consumers ss -> pointer_ok ConsumerId_ok (ConsumerInfo.consumerId i) = true) -> safe (doRestoreConsumers ss).
Proof.
  intros Hid Hc. apply safe_catch. destruct (SessionInfo.sessionId (SessionState.info ss)) as [id|]; [| apply safe_lift].
  apply safe_getConnection; [done |]. intros cs s tr Hs Hcs. apply safe_for; [| done]. intros i Hi.
  apply list_elem_of_fmap in Hi as ([k i'] & -> & Hi). specialize (Hc _ _ Hi). cbn in Hc |- *.
  intros st Hst. unfold xbind at 1, xget. cbn [fst snd].
  destruct (negb _ && _ && _); [| by apply safe_oneway]. revert st Hst. apply safe_getConnection; [done |].
  intros cs' s' tr' Hs' Hcs'. unfold xbind at 1, xlift. destruct (ConcurrentStlMap.put _ _ _) as [m|] eqn:E; [| done].
  apply put_Ok in E as ->.
  apply (safe_oneway _ (_, tr')). cbn. apply tracker_ok_connection; [done | done |].
  destruct Hcs' as (cid & C1 & C2 & C3 & C4 & C5 & C6 & C7 & C8). exists cid. split_and!; try done.
  by apply ConcurrentStlMap.insert_ok.
Qed.
Lemma session_entry_ids h cid k ss : session_ok h cid k ss ->
  pointer_ok SessionId_ok (SessionInfo.sessionId (SessionState.info ss)) = true /\
  (forall k i, (k, i) ∈ SessionState.consumers ss -> pointer_ok ConsumerId_ok (ConsumerInfo.consumerId i) = true).
Proof.
  intros (id & S1 & S2 & S3 & S4 & S5 & S6 & S7). split; [by rewrite S1 |]. intros k' i Hi.
  destruct (minv_entry _ _ _ _ S7 Hi) as (cid' & K1 & _ & K3 & _). by rewrite K1.
Qed.
Lemma safe_restoreTransactionStates rs : safe (restoreTransactionStates rs).
Proof.
  induction rs as [|r rs IH]; [apply safe_ret |]. apply safe_bind; [| intros; apply safe_bind; auto with safe].
  apply safe_bind.
  - apply safe_tracker. intros s Hs. split; [done | done].
  - intros x. destruct (list.last _) as [c|]; [| apply safe_lift].
    assert (Hreplay : safe (xfor (ConcurrentStlMap.values (TransactionState.producers x))
        (fun p => oneway (DProducerInfo (ProducerState.info p))) ;+
      xfor (TransactionState.commands x) oneway ;+
      xfor (ConcurrentStlMap.values (TransactionState.producers x)) (fun p =>
        let i := ProducerState.info p in
        oneway (DRemoveInfo (RemoveInfo.mk _
          (BaseCommand.mk 0 (BaseCommand.responseRequired (ProducerInfo.base i)))
          (option_map DProducerId (ProducerInfo.producerId i)) 0))) ;+
      xret (A := list TransactionInfo.t) [])) by auto 10 with safe.
    destruct c; try exact Hreplay. case_match; [apply safe_ret | exact Hreplay].
Qed.
Lemma safe_restore : safe restore.
Proof.
  intros st Hst. unfold restore. apply safe_catch; [| done]. clear st Hst. intros st Hst. unfold xbind at 1, xget.
  revert st Hst. intros st Hst. apply (safe_bind _ (fun _ => _)); [| intros; auto with safe | done]. apply safe_for. intros [id cs] Hin.
  destruct (minv_entry _ _ _ _ (proj1 Hst) Hin) as (cid & C1 & C2 & C3 & C4 & C5 & C6 & C7 & C8).
  apply safe_bind; [apply safe_tracker; intros s Hs; by apply updateConnection_ok |]. intros _.
  apply safe_bind; [apply safe_oneway |]. intros _.
  apply safe_bind; [unfold doRestoreTempDestinations; auto with safe |]. intros _.
  apply safe_bind; [apply safe_when, safe_catch | intros _; apply safe_when, safe_catch].
  - intros st' Hst'. unfold xbind at 1, xget. revert Hst'. apply safe_for. intros ss Hss.
    apply list_elem_of_fmap in Hss as ([k ss'] & -> & Hss). cbn.
    destruct (session_entry_ids _ _ _ _ (minv_entry _ _ _ _ C5 Hss)) as [H1 H2].
    apply safe_bind; [apply safe_oneway |]. intros _. apply safe_bind; [unfold doRestoreProducers; auto with safe |].
    intros _. by apply safe_when, safe_doRestoreConsumers.
  - apply safe_bind; [apply safe_restoreTransactionStates |]. intros l. apply safe_for. intros i _.
    apply safe_bind; [apply safe_lift |]. intros r [s tr]. done.
Qed.
Lemma safe_complete id : pointer_ok ConnectionId_ok id = true -> safe (connectionInterruptProcessingComplete id).
Proof.
  intros Hid. apply safe_getConnection; [done |]. intros cs s tr Hs Hcs.
  unfold xbind at 1, tracker, setConnection, xmodify. apply safe_for.
  - intros [k i] Hin st Hst. pose proof (fun c => safe_oneway c st Hst) as Ho.
    match goal with |- context [oneway ?c st] => specialize (Ho c); by destruct (oneway c st) as [[|[]] st'] end.
  - cbn. apply tracker_ok_connection; [done | done |].
    destruct Hcs as (cid & C1 & C2 & C3 & C4 & C5 & C6 & C7 & C8). exists cid. by split_and!.
Qed.
End RestorePreserves.

(** The calls the failover transport makes on its tracker, for any transports. *)
Inductive step : t -> t -> Prop :=
| step_configure o s : step s (configure o s)
| step_track a c s : command_ok c = true -> step s (snd (track a c s))
| step_trackBack c s : step s (snd (trackBack c s))
| step_response i s : pointer_ok ConnectionId_ok (TransactionInfo.connectionId i) = true ->
    transaction_id_ok (TransactionInfo.transactionId i) = true -> step s (snd (onResponse (RemoveTransactionAction i) s))
| step_interrupted s : step s (snd (transportInterrupted s))
| step_restore (T : Type) (H : Transport T) (tr : T) s : step s (fst (snd (restore (s, tr))))
| step_complete (T : Type) (H : Transport T) (tr : T) id s : pointer_ok ConnectionId_ok id = true ->
    step s (fst (snd (connectionInterruptProcessingComplete id (s, tr)))).

Lemma step_ok s s' : step s s' -> tracker_ok s -> tracker_ok s'.
Proof.
  destruct 1 as [o s|a c s Hc|c s|i s Hc Htx|s|T HT tr s|T HT tr id s Hid]; intros Hs.
  - exact Hs.
  - exact (proj1 (keep_catch to_io _ _ _ (visit_ok a c s Hc Hs))).
  - destruct c; try exact Hs. unfold trackBack, xmodify. cbn. case_match; exact Hs.
  - exact (proj1 (onResponse_ok i s Hc Htx Hs)).
  - exact (proj1 (transportInterrupted_ok s Hs)).
  - by apply safe_restore.
  - by apply safe_complete.
Qed.

Lemma new_ok : tracker_ok new.
Proof. split; [apply minv_nil | constructor]. Qed.
Lemma shown_ok cs s : forallb command_ok cs = true -> tracker_ok s -> tracker_ok (Sample.shown cs s).
Proof.
  revert s. induction cs as [|c cs IH]; cbn; [done |]. intros s [Hc Hcs]%andb_true_iff Hs.
  by apply IH, (step_ok s), Hs; [| apply step_track].
Qed.
#[export] Hint Resolve new_ok shown_ok : tracker.

(** C30. Every state a tracker reaches from a new one, by settings, commands whose identifiers
    have no white space, responses, interruptions and restorations, satisfies the
    invariant: the maps are sorted, sessions are filed under their connection,
    producers and consumers under their session, and every reference to a
    transaction is valid. *)
Theorem tracker_invariant s : Relation_Operators.clos_refl_trans_1n _ step new s -> tracker_ok s.
Proof. revert s. generalize new_ok. generalize new. intros s0 Hs0 s Hr. induction Hr as [|x y z Hxy _ IH]; [done |]. by apply IH, (step_ok x). Qed.
Lemma tracker_invariant_witness : tracker_ok Sample.interrupted.
Proof.
  apply tracker_invariant.
  apply (rt1n_trans _ _ _ (snd (track 0 (DConnectionInfo Sample.connection) new))); [by apply step_track |].
  apply (rt1n_trans _ _ _ (Sample.shown [DConnectionInfo Sample.connection; DSessionInfo Sample.session] new)); [by apply step_track |].
  apply (rt1n_trans _ _ _ (Sample.shown [DConnectionInfo Sample.connection; DSessionInfo Sample.session; DProducerInfo Sample.producer] new)); [by apply step_track |].
  apply (rt1n_trans _ _ _ Sample.tracker); [by apply (step_track 0 (DConsumerInfo Sample.consumer)) |].
  apply (rt1n_trans _ _ _ Sample.interrupted); [by apply step_interrupted | apply rt1n_refl].
Defined.
