(* ===== verification/TrackerRestore.v ===== *)
(** * What restoring sends

    [snapshot]: the commands that describe the connections a tracker knows, and the
    theorems that [restore] sends it (StateTracker.v, TrackerLaws.v), that a tracker
    shown a snapshot learns the same sessions, producers and consumers, and on the
    parts of the tracker whose behaviour is not what they are for. *)

From S2P Require Import Prelude DataStreams PrimitiveTypes Support BooleanStreams Wire BaseMarshaller Commands.
From S2P Require Import StringOrder Identifiers StateTracker TrackerLaws.
Import NaturalOrder ConnectionStateTracker.

(** ** The snapshot of a tracker *)
Definition recovering (version : Z) (complete : bool) (i : ConsumerInfo.t) : bool :=
  negb complete && (0 <? ConsumerInfo.prefetchSize i) && (5 <? version).
Definition snapshot_consumer (version : Z) (complete : bool) (i : ConsumerInfo.t) : DataStructure :=
  DConsumerInfo (if recovering version complete i then set_prefetchSize i 0 else i).
Definition snapshot_session (s : t) (version : Z) (complete : bool) (ss : SessionState.t) : list DataStructure :=
  DSessionInfo (SessionState.info ss) ::
  (if restoreProducers s then map (fun p => DProducerInfo (ProducerState.info p)) (ConcurrentStlMap.values (SessionState.producers ss)) else []) ++
  (if restoreConsumers s then map (snapshot_consumer version complete) (ConcurrentStlMap.values (SessionState.consumers ss)) else []).
Definition snapshot_connection (s : t) (version : Z) (cs : ConnectionState.t) : list DataStructure :=
  DConnectionInfo (set_failoverReconnect (ConnectionState.info cs)) ::
  map DDestinationInfo (ConnectionState.tempDestinations cs) ++
  (if restoreSessions s then
     concat (map (snapshot_session s version (ConnectionState.connectionInterruptProcessingComplete cs))
                 (ConcurrentStlMap.values (ConnectionState.sessions cs)))
   else []).
Definition snapshot_connections (s : t) (version : Z) : list DataStructure :=
  concat (map (fun kcs => snapshot_connection s version (snd kcs)) (connectionStates s)).
Definition snapshot (s : t) (version : Z) : list DataStructure :=
  snapshot_connections s version ++
  map DMessage (map snd (messageCache s)) ++ map DMessagePull (map snd (messagePullCache s)).

(** No transaction is open. *)
Definition quiet (s : t) : bool :=
  forallb (fun kcs => match ConnectionState.transactions (snd kcs) with [] => true | _ => false end) (connectionStates s).

(** ** Transports that take everything

    [at_log log]: the transport when it has taken the commands of [log]. *)
Class Accepts {T : Type} `{Transport T} (at_log : list DataStructure -> T) (version : Z) : Prop := {
  accepts_oneway c log : tr_oneway c (at_log log) = (Ok tt, at_log (log ++ [c]));
  accepts_version log : tr_getVersion (at_log log) = version
}.
#[global] Instance logging_accepts received version : Accepts (fun log => LoggingTransport.mk log received version) version.
Proof. by split. Qed.

(** ** What a part of [restore] sends *)
Section Sends.
Context (s : t) {T : Type} `{HT : Transport T} (at_log : list DataStructure -> T) (version : Z) `{!Accepts at_log version}.

(** The states [restore] goes through: the connections and their flags stay. *)
Definition flag (k : option ConnectionId.t) (s : t) : option bool :=
  option_map ConnectionState.connectionInterruptProcessingComplete (ConcurrentStlMap.lookup k (connectionStates s)).
Definition same (s' : t) : Prop :=
  tracker_ok s' /\ (forall k, key_ok k = true -> flag k s' = flag k s) /\
  restoreProducers s' = restoreProducers s /\ restoreConsumers s' = restoreConsumers s /\ trackMessages s' = trackMessages s.

Definition sends {A} (m : X (t * T) A) (a : A) (l : list DataStructure) : Prop :=
  forall s1 log, same s1 ->
    exists s2, m (s1, at_log log) = (Ok a, (s2, at_log (log ++ l))) /\ same s2.

Lemma sends_ret {A} (a : A) : sends (xret a) a [].
Proof. intros s1 log H. exists s1. by rewrite app_nil_r. Qed.
Lemma sends_bind {A B} (m : X _ A) (k : A -> X _ B) a b l1 l2 : sends m a l1 -> sends (k a) b l2 -> sends (xbind m k) b (l1 ++ l2).
Proof.
  intros Hm Hk s1 log Hs. destruct (Hm s1 log Hs) as (s2 & E & Hs2). destruct (Hk s2 (log ++ l1) Hs2) as (s3 & E3 & Hs3).
  exists s3. unfold xbind. rewrite E, E3. by rewrite app_assoc.
Qed.
Lemma sends_catch {A} f (m : X _ A) a l : sends m a l -> sends (xcatch f m) a l.
Proof. intros Hm s1 log Hs. destruct (Hm s1 log Hs) as (s2 & E & Hs2). exists s2. unfold xcatch. by rewrite E. Qed.
Lemma sends_oneway c : sends (oneway c) tt [c].
Proof. intros s1 log Hs. exists s1. unfold oneway. by rewrite accepts_oneway. Qed.
Lemma sends_for {A} (xs : list A) (f : A -> X _ unit) g : (forall x, x ∈ xs -> sends (f x) tt (g x)) ->
  sends (xfor xs f) tt (concat (map g xs)).
Proof.
  induction xs as [|x xs IH]; intros Hf; [apply sends_ret |]. apply (sends_bind _ _ tt).
  - apply Hf. by left.
  - apply IH. intros y Hy. apply Hf. by right.
Qed.
Lemma sends_each {A} (xs : list A) (f : A -> DataStructure) : sends (xfor xs (fun x => oneway (f x))) tt (map f xs).
Proof.
  replace (map f xs) with (concat (map (fun x => [f x]) xs)) by (induction xs; cbn; congruence).
  apply sends_for. intros. apply sends_oneway.
Qed.
Lemma sends_when b m l : sends m tt l -> sends (when b m) tt (if b then l else []).
Proof. destruct b; [done | intros _; apply sends_ret]. Qed.
Lemma sends_tracker (f : t -> t) : (forall s1, same s1 -> same (f s1)) -> sends (tracker (xmodify f)) tt [].
Proof. intros Hf s1 log Hs. exists (f s1). rewrite app_nil_r. split; [done | auto]. Qed.
Lemma sends_get {B} (k : t * T -> X _ B) b l :
  (forall s1 log, same s1 -> exists s2, k (s1, at_log log) (s1, at_log log) =
     (Ok b, (s2, at_log (log ++ l))) /\ same s2) -> sends (xbind xget k) b l.
Proof. intros Hk s1 log Hs. by apply Hk. Qed.

(** A change of a connection that leaves its flag alone. *)
Lemma same_setConnection k cs s1 : key_ok k = true -> same s1 ->
  ConcurrentStlMap.get k (connectionStates s1) = Ok cs -> forall cs',
  ConnectionState.connectionInterruptProcessingComplete cs' = ConnectionState.connectionInterruptProcessingComplete cs ->
  connection_ok (heap s1) k cs' ->
  same (set_connectionStates s1 (ConcurrentStlMap.insert k cs' (connectionStates s1))).
Proof.
  intros Hk (Hs & Hf & Hp & Hc & Hm) Hg cs' Hcs' Hok. split_and!; [by apply tracker_ok_connection | | done..].
  intros k' Hk'. rewrite <- Hf by done. unfold flag. cbn. rewrite ConcurrentStlMap.lookup_insert by (done || apply Hs).
  destruct (key_cmp k' k) eqn:E; [| done..]. cbn. rewrite Hcs'.
  assert (Hl : ConcurrentStlMap.lookup k' (connectionStates s1) = ConcurrentStlMap.lookup k (connectionStates s1))
    by (apply lookup_equivalent; [apply Hs | done..]).
  by rewrite Hl, (get_Ok _ _ _ Hg).
Qed.

(** A connection that is there is found. *)
Lemma same_get k b s1 : key_ok k = true -> same s1 -> flag k s = Some b ->
  exists cs, getConnection k s1 = (Ok cs, s1) /\ ConcurrentStlMap.get k (connectionStates s1) = Ok cs /\
    ConnectionState.connectionInterruptProcessingComplete cs = b /\ connection_ok (heap s1) k cs.
Proof.
  intros Hk (Hs & Hf & _) Hb. rewrite <- Hf in Hb by done. unfold flag in Hb.
  destruct (ConcurrentStlMap.lookup k (connectionStates s1)) as [cs|] eqn:E; [| done]. injection Hb as <-. exists cs.
  assert (Hg : ConcurrentStlMap.get k (connectionStates s1) = Ok cs) by (by rewrite ConcurrentStlMap.get_ok, E by (done || exact (proj1 (proj1 Hs)))).
  split_and!; [unfold getConnection; by rewrite Hg | done | done | by apply (proj2 (proj1 Hs))].
Qed.
Lemma connection_recovering h k cs m : connection_ok h k cs -> ConcurrentStlMap.map_ok m ->
  connection_ok h k (ConnectionState.set_recoveringPullConsumers cs m).
Proof. intros (cid & C1 & C2 & C3 & C4 & C5 & C6 & C7 & C8) Hm. exists cid. by split_and!. Qed.

Lemma sends_doRestoreConsumers cid k ss b sid : session_ok (heap s) cid k ss ->
  SessionInfo.sessionId (SessionState.info ss) = Some sid -> flag (Some (SessionId_getParentId sid)) s = Some b ->
  sends (doRestoreConsumers ss) tt (map (snapshot_consumer version b) (ConcurrentStlMap.values (SessionState.consumers ss))).
Proof.
  intros (sid' & S1 & S2 & S3 & S4 & S5 & S6 & S7) Hsid Hb. rewrite Hsid in S1. injection S1 as <-.
  apply sends_catch. rewrite Hsid. change (map ?f ?l) with ([] ++ map f l).
  intros s1 log Hs1. destruct (same_get (Some (SessionId_getParentId sid)) b s1 S3 Hs1 Hb) as (cs & E & _ & Hcb & _).
  unfold xbind at 1, tracker. rewrite E, Hcb. cbn [app]. revert s1 log Hs1 E.
  intros s1 log Hs1 _. revert s1 log Hs1.
  replace (map (snapshot_consumer version b) _) with
    (concat (map (fun i => [snapshot_consumer version b i]) (ConcurrentStlMap.values (SessionState.consumers ss))))
    by (induction (ConcurrentStlMap.values (SessionState.consumers ss)); cbn; congruence).
  apply sends_for. intros i Hi. apply list_elem_of_fmap in Hi as ([ck i'] & -> & Hi). cbn [snd].
  destruct (minv_entry _ _ _ _ S7 Hi) as (id & K1 & K2 & K3 & K4).
  apply sends_get. intros s1 log Hs1. cbn [snd]. rewrite accepts_version.
  unfold snapshot_consumer. change (negb b && _ && _) with (recovering version b i').
  destruct (recovering version b i'); [| by apply sends_oneway].
  destruct (same_get (Some (SessionId_getParentId sid)) b s1 S3 Hs1 Hb) as (cs2 & E2 & Hg2 & Hcb2 & Hok2).
  unfold xbind at 1, tracker. rewrite E2. unfold xbind at 1, xlift.
  assert (Hr : ConcurrentStlMap.map_ok (ConnectionState.recoveringPullConsumers cs2)) by (destruct Hok2 as (? & ? & ? & ? & ? & ? & ? & ? & ?); done).
  rewrite K1, ConcurrentStlMap.put_ok by done. unfold xbind at 1, setConnection, xmodify, oneway. cbn [fst snd].
  rewrite accepts_oneway.
  eexists. split; [reflexivity |]. eapply same_setConnection; [done | done | exact Hg2 | done |].
  apply connection_recovering; [done |]. by apply ConcurrentStlMap.insert_ok.
Qed.

Lemma sends_doRestoreSessions cid cs : minv (session_ok (heap s) cid) (ConnectionState.sessions cs) -> ConnectionId_ok cid = true ->
  flag (Some cid) s = Some (ConnectionState.connectionInterruptProcessingComplete cs) ->
  tracker_ok s ->
  sends (doRestoreSessions cs) tt
    (concat (map (snapshot_session s version (ConnectionState.connectionInterruptProcessingComplete cs))
                 (ConcurrentStlMap.values (ConnectionState.sessions cs)))).
Proof.
  intros Hss Hcid Hb Hok. apply sends_catch, sends_get. intros s1 log Hs1.
  assert (Hflags : restoreProducers s1 = restoreProducers s /\ restoreConsumers s1 = restoreConsumers s) by (destruct Hs1; tauto).
  cbn [fst]. destruct Hflags as [-> ->]. revert s1 log Hs1. apply sends_for.
  intros ss Hin. apply list_elem_of_fmap in Hin as ([k ss'] & -> & Hin). cbn [snd].
  pose proof (minv_entry _ _ _ _ Hss Hin) as Hs'. pose proof Hs' as (sid & S1 & S2 & S3 & S4 & _).
  apply (sends_bind _ _ tt tt [DSessionInfo (SessionState.info ss')]); [apply sends_oneway |].
  apply (sends_bind _ _ tt tt); apply sends_when; [apply sends_catch, sends_each |].
  apply (sends_doRestoreConsumers cid k ss' _ sid Hs' S1). rewrite <- Hb. unfold flag. f_equal.
  apply lookup_equivalent; [exact (proj1 (proj1 Hok)) | done | done |]. by apply connection_cmp_sym.
Qed.
End Sends.

Lemma quiet_entry s k cs : quiet s = true -> (k, cs) ∈ connectionStates s -> ConnectionState.transactions cs = [].
Proof.
  unfold quiet. rewrite forallb_forall. intros Hq Hin%list_elem_of_In. specialize (Hq _ Hin). cbn in Hq. by case_match.
Qed.
Lemma same_update s id s1 : key_ok id = true -> same s s1 ->
  same s (snd (updateConnection id (fun cs => ConnectionState.set_info cs (set_failoverReconnect (ConnectionState.info cs))) s1)).
Proof.
  intros Hid (Hs & Hf & Hp & Hc & Hm). split_and!; [| | done..].
  - apply (updateConnection_ok _ id s1); done.
  - intros k Hk. rewrite <- Hf by done. unfold flag. cbn.
    rewrite (lookup_map_values (fun k cs => if ConcurrentStlMap.equivalent id k
      then ConnectionState.set_info cs (set_failoverReconnect (ConnectionState.info cs)) else cs)), lookup_find.
    destruct (List.find _ _) as [[k' cs]|]; [| done]. cbn. by case_match.
Qed.

Lemma restore_sends {T} `{HT : Transport T} at_log version `{!Accepts at_log version} s log : tracker_ok s -> quiet s = true ->
  exists s', restore (s, at_log log) = (Ok tt, (s', at_log (log ++ snapshot s version))) /\ same s s'.
Proof.
  intros Hok Hq.
  assert (Hsame : same s s) by done.
  enough (Hsends : sends s at_log (
    xfor (connectionStates s) (fun '(id, cs) =>
      tracker (updateConnection id (fun cs => ConnectionState.set_info cs (set_failoverReconnect (ConnectionState.info cs)))) ;+
      oneway (DConnectionInfo (set_failoverReconnect (ConnectionState.info cs))) ;+
      doRestoreTempDestinations cs ;+
      when (restoreSessions s) (doRestoreSessions cs) ;+
      when (restoreTransaction s) (doRestoreTransactions cs)) ;+
    xfor (map snd (messageCache s)) (fun m => oneway (DMessage m)) ;+
    xfor (map snd (messagePullCache s)) (fun p => oneway (DMessagePull p))) tt (snapshot s version)).
  { destruct (sends_catch _ _ to_io _ _ _ Hsends s log Hsame) as (s' & E & Hs'). exists s'. split; [exact E | exact Hs']. }
  apply (sends_bind _ _ _ _ tt); [| apply (sends_bind _ _ _ _ tt); apply (sends_each s at_log version)].
  apply sends_for. intros [id cs] Hin. pose proof (minv_entry _ _ _ _ (proj1 Hok) Hin) as (cid & C1 & C2 & C3 & C4 & C5 & C6).
  destruct (lookup_entry _ _ _ (proj1 (proj1 Hok)) Hin) as [Hl Hid].
  apply (sends_bind _ _ _ _ tt tt []); [intros s1 log1 Hs1; eexists; rewrite app_nil_r; split; [reflexivity | by apply same_update] |].
  apply (sends_bind _ _ _ _ tt tt [_]); [apply (sends_oneway s at_log version) |].
  apply (sends_bind _ _ _ _ tt); [apply sends_catch, (sends_each s at_log version) |].
  cbn [snd]. rewrite <- (app_nil_r (if restoreSessions s then _ else _)).
  apply (sends_bind _ _ _ _ tt).
  - apply sends_when, (sends_doRestoreSessions _ _ _ cid); try done. unfold flag. 
    rewrite <- (lookup_equivalent id (Some cid)), Hl by (done || exact (proj1 (proj1 Hok))). done.
  - replace (@nil DataStructure) with (if restoreTransaction s then @nil DataStructure else []) by by destruct (restoreTransaction s).
    apply sends_when, sends_catch. rewrite (quiet_entry _ _ _ Hq Hin). apply (sends_bind _ _ _ _ [] tt [] []); apply sends_ret.
Qed.

(** [restore], on a tracker with no open transaction, succeeds and sends exactly
    the snapshot of the tracker: each connection marked as a reconnect, its temporary
    destinations, its sessions, and with each session its producers and its consumers
    (as pull consumers while the interruption is being handled), then the messages
    and the pull requests that were kept. *)
Theorem restore_sends_snapshot s tr : tracker_ok s -> quiet s = true ->
  exists s', restore (s, tr) =
    (Ok tt, (s', LoggingTransport.mk (LoggingTransport.sent tr ++ snapshot s (LoggingTransport.version tr))
                   (LoggingTransport.received tr) (LoggingTransport.version tr))) /\ tracker_ok s'.
Proof.
  intros Hok Hq. destruct tr as [log received version].
  destruct (restore_sends (fun log => LoggingTransport.mk log received version) version s log Hok Hq) as (s' & E & Hs').
  exists s'. split; [exact E | apply Hs'].
Qed.
Lemma restore_sends_snapshot_witness : exists s', restore (Sample.interrupted, Sample.transport) =
  (Ok tt, (s', LoggingTransport.mk (snapshot Sample.interrupted 10) [] 10)) /\
  map getDataStructureType (snapshot Sample.interrupted 10) = [3; 4; 4; 6; 5].
Proof.
  destruct (restore_sends_snapshot Sample.interrupted Sample.transport) as (s' & E & _);
    [by apply transportInterrupted_ok, shown_ok; [| apply new_ok] | reflexivity |].
  exists s'. split; [exact E | vm_compute; reflexivity].
Defined.
