(* ===== verification/TrackerRegistry.v ===== *)
(** * The state tracker as a registry

    What the nested maps of the tracker mean: a registry of connections, sessions,
    producers and consumers by their identifiers ([view]), in which a command that
    creates or removes something does what one expects, or is refused when what it
    belongs to is not there ([registry]).  [track] refines it, and with it the
    commands that [restore] sends are shown to make the same registry again. *)

From S2P Require Import Prelude DataStreams PrimitiveTypes Support BooleanStreams Wire BaseMarshaller Commands.
From S2P Require Import StringOrder Identifiers StateTracker TrackerLaws TrackerRestore.
Import NaturalOrder ConnectionStateTracker.

(** ** Equality of identifiers *)
Definition is_eq (c : comparison) : bool := match c with Eq => true | _ => false end.
Definition eqc (a b : ConnectionId.t) : bool := is_eq (ConnectionId_cmp a b).
Definition eqs (a b : SessionId.t) : bool := is_eq (SessionId_cmp a b).
Definition eqp (a b : ProducerId.t) : bool := is_eq (ProducerId_cmp a b).
Definition eqk (a b : ConsumerId.t) : bool := is_eq (ConsumerId_cmp a b).
Lemma is_eq_true c : is_eq c = true <-> c = Eq.
Proof. by destruct c. Qed.
Lemma eqc_sym a b : eqc a b = eqc b a.
Proof. unfold eqc. rewrite (order_antisym _ ConnectionId_order b a). by destruct (ConnectionId_cmp b a). Qed.
Lemma eqs_sym a b : eqs a b = eqs b a.
Proof. unfold eqs. rewrite (order_antisym _ SessionId_order b a). by destruct (SessionId_cmp b a). Qed.
Lemma eqc_refl a : eqc a a = true.
Proof. unfold eqc. by rewrite (order_refl _ ConnectionId_order). Qed.
Lemma eqs_refl a : eqs a a = true.
Proof. unfold eqs. by rewrite (order_refl _ SessionId_order). Qed.
Lemma eqc_trans a b c : eqc a b = true -> eqc a c = eqc b c.
Proof. unfold eqc. rewrite is_eq_true. intros E. by rewrite (order_eq _ ConnectionId_order a b c E). Qed.
Lemma eqs_trans a b c : eqs a b = true -> eqs a c = eqs b c.
Proof. unfold eqs. rewrite is_eq_true. intros E. by rewrite (order_eq _ SessionId_order a b c E). Qed.
Lemma eqs_parent a b : eqs a b = true -> eqc (SessionId_getParentId a) (SessionId_getParentId b) = true.
Proof. unfold eqs, eqc. rewrite !is_eq_true. apply session_parent. Qed.
Lemma eqp_parent a b : eqp a b = true -> eqs (ProducerId_getParentId a) (ProducerId_getParentId b) = true.
Proof. unfold eqp, eqs. rewrite !is_eq_true. apply producer_parent. Qed.
Lemma eqk_parent a b : eqk a b = true -> eqs (ConsumerId_getParentId a) (ConsumerId_getParentId b) = true.
Proof. unfold eqk, eqs. rewrite !is_eq_true. apply consumer_parent. Qed.

(** ** The registry *)
Record view := mkView {
  v_connection : ConnectionId.t -> option ConnectionInfo.t;
  v_session : SessionId.t -> option SessionInfo.t;
  v_producer : ProducerId.t -> option ProducerInfo.t;
  v_consumer : ConsumerId.t -> option ConsumerInfo.t
}.
Definition no_view : view := mkView (fun _ => None) (fun _ => None) (fun _ => None) (fun _ => None).

Definition default_session (id : ConnectionId.t) : SessionInfo.t :=
  SessionInfo.mk BaseCommand.default (Some (SessionId.mk (ConnectionId.value id) (-1))).

(** Everything of a connection, of a session, is gone, or replaced by the default. *)
Definition reset_connection (id : ConnectionId.t) (i : option ConnectionInfo.t) (v : view) : view := mkView
  (fun x => if eqc x id then i else v_connection v x)
  (fun x => if eqc (SessionId_getParentId x) id
            then match i with
                 | Some _ => if eqs x (SessionId.mk (ConnectionId.value id) (-1)) then Some (default_session id) else None
                 | None => None
                 end
            else v_session v x)
  (fun x => if eqc (SessionId_getParentId (ProducerId_getParentId x)) id then None else v_producer v x)
  (fun x => if eqc (SessionId_getParentId (ConsumerId_getParentId x)) id then None else v_consumer v x).
Definition reset_session (id : SessionId.t) (i : option SessionInfo.t) (v : view) : view := mkView
  (v_connection v)
  (fun x => if eqs x id then i else v_session v x)
  (fun x => if eqs (ProducerId_getParentId x) id then None else v_producer v x)
  (fun x => if eqs (ConsumerId_getParentId x) id then None else v_consumer v x).
Definition set_producer (id : ProducerId.t) (i : option ProducerInfo.t) (v : view) : view := mkView
  (v_connection v) (v_session v) (fun x => if eqp x id then i else v_producer v x) (v_consumer v).
Definition set_consumer (id : ConsumerId.t) (i : option ConsumerInfo.t) (v : view) : view := mkView
  (v_connection v) (v_session v) (v_producer v) (fun x => if eqk x id then i else v_consumer v x).

(** A command on the registry; [None] when it is refused. *)
Definition require {A B} (o : option A) (b : B) : option B := match o with Some _ => Some b | None => None end.
Definition registry (c : DataStructure) (v : view) : option view :=
  match c with
  | DConnectionInfo i =>
    match ConnectionInfo.connectionId i with Some id => Some (reset_connection id (Some i) v) | None => None end
  | DSessionInfo i =>
    match SessionInfo.sessionId i with
    | Some id => require (v_connection v (SessionId_getParentId id)) (reset_session id (Some i) v)
    | None => None
    end
  | DProducerInfo i =>
    match ProducerInfo.producerId i with
    | Some id => require (v_session v (ProducerId_getParentId id)) (set_producer id (Some i) v)
    | None => Some v
    end
  | DConsumerInfo i =>
    match ConsumerInfo.consumerId i with
    | Some id => require (v_session v (ConsumerId_getParentId id)) (set_consumer id (Some i) v)
    | None => None
    end
  | DRemoveInfo i =>
    match RemoveInfo.objectId i with
    | Some (DConnectionId id) => Some (reset_connection id None v)
    | Some (DSessionId id) => require (v_connection v (SessionId_getParentId id)) (reset_session id None v)
    | Some (DProducerId id) => require (v_session v (ProducerId_getParentId id)) (set_producer id None v)
    | Some (DConsumerId id) => require (v_session v (ConsumerId_getParentId id)) (set_consumer id None v)
    | _ => None
    end
  | DDestinationInfo i =>
    match DestinationInfo.connectionId i, DestinationInfo.destination i with
    | Some id, Some _ => require (v_connection v id) v
    | _, _ => None
    end
  | _ => Some v
  end.
(** The commands the registry is about. *)
Definition registers (c : DataStructure) : bool :=
  match c with
  | DConnectionInfo _ | DSessionInfo _ | DProducerInfo _ | DConsumerInfo _ | DRemoveInfo _ | DDestinationInfo _ => true
  | _ => false
  end.

(** ** The view of a tracker *)
Definition conn (s : t) (x : ConnectionId.t) : option ConnectionState.t := ConcurrentStlMap.lookup (Some x) (connectionStates s).
Definition sess (s : t) (x : SessionId.t) : option SessionState.t :=
  match conn s (SessionId_getParentId x) with
  | Some cs => ConcurrentStlMap.lookup (Some x) (ConnectionState.sessions cs)
  | None => None
  end.
Definition view_of (s : t) : view := mkView
  (fun x => option_map ConnectionState.info (conn s x))
  (fun x => option_map SessionState.info (sess s x))
  (fun x => match sess s (ProducerId_getParentId x) with
            | Some ss => option_map ProducerState.info (ConcurrentStlMap.lookup (Some x) (SessionState.producers ss))
            | None => None
            end)
  (fun x => match sess s (ConsumerId_getParentId x) with
            | Some ss => ConcurrentStlMap.lookup (Some x) (SessionState.consumers ss)
            | None => None
            end).

(** Views are compared at proper identifiers. *)
Definition view_eq (v w : view) : Prop :=
  (forall x, ConnectionId_ok x = true -> v_connection v x = v_connection w x) /\
  (forall x, SessionId_ok x = true -> v_session v x = v_session w x) /\
  (forall x, ProducerId_ok x = true -> v_producer v x = v_producer w x) /\
  (forall x, ConsumerId_ok x = true -> v_consumer v x = v_consumer w x).
#[global] Instance view_eq_equivalence : Equivalence view_eq.
Proof.
  split.
  - by intros v.
  - intros v w (H1 & H2 & H3 & H4). split_and!; intros x Hx; symmetry; auto.
  - intros u v w (H1 & H2 & H3 & H4) (K1 & K2 & K3 & K4). split_and!; intros x Hx; [rewrite H1 | rewrite H2 | rewrite H3 | rewrite H4]; auto.
Qed.

(** ** How the view changes *)
Section Views.
Context (s : t) (Hs : tracker_ok s).

Lemma conn_insert k cs x : ConnectionId_ok k = true -> ConnectionId_ok x = true ->
  conn (set_connectionStates s (ConcurrentStlMap.insert (Some k) cs (connectionStates s))) x =
  if eqc x k then Some cs else conn s x.
Proof.
  intros Hk Hx. unfold conn. cbn [connectionStates set_connectionStates].
  rewrite ConcurrentStlMap.lookup_insert by (done || exact (proj1 (proj1 Hs))). unfold eqc. cbn.
  by destruct (ConnectionId_cmp x k).
Qed.
Lemma conn_equivalent x y : ConnectionId_ok x = true -> ConnectionId_ok y = true -> eqc x y = true -> conn s x = conn s y.
Proof.
  intros Hx Hy E. unfold conn. apply lookup_equivalent; [exact (proj1 (proj1 Hs)) | done | done |]. by apply is_eq_true.
Qed.
Lemma conn_ok x cs : ConnectionId_ok x = true -> conn s x = Some cs -> connection_ok (heap s) (Some x) cs.
Proof. intros Hx. apply (proj2 (proj1 Hs)). done. Qed.
Lemma conn_sessions x cs : ConnectionId_ok x = true -> conn s x = Some cs -> ConcurrentStlMap.map_ok (ConnectionState.sessions cs).
Proof. intros Hx Hc. destruct (conn_ok x cs Hx Hc) as (cid & _ & _ & _ & _ & [Hm _] & _). done. Qed.
Lemma getConnection_conn x : ConnectionId_ok x = true ->
  getConnection (Some x) s = (match conn s x with Some cs => Ok cs | None => throw NoSuchElementException end, s).
Proof.
  intros Hx. unfold getConnection, conn. by rewrite ConcurrentStlMap.get_ok by (done || exact (proj1 (proj1 Hs))).
Qed.
Lemma getSessionState_sess x cs : SessionId_ok x = true -> conn s (SessionId_getParentId x) = Some cs ->
  ConnectionState.getSessionState (Some x) cs = match sess s x with Some ss => Ok ss | None => throw NoSuchElementException end.
Proof.
  intros Hx Hc. unfold ConnectionState.getSessionState, sess. rewrite Hc.
  rewrite ConcurrentStlMap.get_ok by (done || by apply (conn_sessions (SessionId_getParentId x))). done.
Qed.
Lemma sess_ok x ss : SessionId_ok x = true -> sess s x = Some ss -> exists cid, session_ok (heap s) cid (Some x) ss.
Proof.
  intros Hx. unfold sess. destruct (conn s (SessionId_getParentId x)) as [cs|] eqn:E; [| done]. intros Hl.
  destruct (conn_ok _ _ (Hx : ConnectionId_ok (SessionId_getParentId x) = true) E) as (cid & _ & _ & _ & _ & [_ Hm] & _).
  exists cid. by apply Hm.
Qed.

(** A connection whose sessions change: at the sessions of other connections nothing
    does. *)
Lemma sess_insert k cs x : ConnectionId_ok k = true -> SessionId_ok x = true ->
  sess (set_connectionStates s (ConcurrentStlMap.insert (Some k) cs (connectionStates s))) x =
  if eqc (SessionId_getParentId x) k then ConcurrentStlMap.lookup (Some x) (ConnectionState.sessions cs) else sess s x.
Proof. intros Hk Hx. unfold sess. rewrite conn_insert by done. by destruct (eqc _ _). Qed.

(** A session that is put back in its connection. *)
Lemma sess_put y ss cs x : SessionId_ok y = true -> SessionId_ok x = true -> conn s (SessionId_getParentId y) = Some cs ->
  sess (set_connectionStates s (ConcurrentStlMap.insert (Some (SessionId_getParentId y))
         (ConnectionState.setSessionState (Some y) ss cs) (connectionStates s))) x =
  if eqs x y then Some ss else sess s x.
Proof.
  intros Hy Hx Hc. rewrite sess_insert by done. cbn [ConnectionState.setSessionState ConnectionState.set_sessions ConnectionState.sessions].
  rewrite ConcurrentStlMap.lookup_insert by (done || by apply (conn_sessions (SessionId_getParentId y))).
  cbn [key_cmp SessionId_laws pointer_cmp]. destruct (eqs x y) eqn:E.
  - rewrite eqs_parent by done. apply is_eq_true in E. by rewrite E.
  - destruct (eqc (SessionId_getParentId x) (SessionId_getParentId y)) eqn:Ep; [| done].
    unfold sess. rewrite (conn_equivalent (SessionId_getParentId x) (SessionId_getParentId y)), Hc by done.
    unfold eqs in E. by destruct (SessionId_cmp x y).
Qed.
Lemma conn_put y cs cs' x : ConnectionId_ok y = true -> ConnectionId_ok x = true -> conn s y = Some cs ->
  ConnectionState.info cs' = ConnectionState.info cs ->
  option_map ConnectionState.info (conn (set_connectionStates s (ConcurrentStlMap.insert (Some y) cs' (connectionStates s))) x) =
  option_map ConnectionState.info (conn s x).
Proof.
  intros Hy Hx Hc Hi. rewrite conn_insert by done. destruct (eqc x y) eqn:E; [| done].
  rewrite (conn_equivalent x y), Hc by done. cbn. by rewrite Hi.
Qed.
Lemma sess_equivalent x y : SessionId_ok x = true -> SessionId_ok y = true -> eqs x y = true -> sess s x = sess s y.
Proof.
  intros Hx Hy E. unfold sess. rewrite (conn_equivalent (SessionId_getParentId x) (SessionId_getParentId y)) by (done || by apply eqs_parent).
  destruct (conn s (SessionId_getParentId y)) as [cs|] eqn:Ec; [| done].
  apply lookup_equivalent; [by apply (conn_sessions (SessionId_getParentId y)) | done | done |]. by apply is_eq_true.
Qed.

(** The view when a session is put back with other producers and consumers. *)
Lemma view_put y ss ss' cs : SessionId_ok y = true -> conn s (SessionId_getParentId y) = Some cs -> sess s y = Some ss ->
  SessionState.info ss' = SessionState.info ss ->
  view_eq (view_of (set_connectionStates s (ConcurrentStlMap.insert (Some (SessionId_getParentId y))
             (ConnectionState.setSessionState (Some y) ss' cs) (connectionStates s))))
    (mkView (v_connection (view_of s)) (v_session (view_of s))
      (fun x => if eqs (ProducerId_getParentId x) y
                then option_map ProducerState.info (ConcurrentStlMap.lookup (Some x) (SessionState.producers ss'))
                else v_producer (view_of s) x)
      (fun x => if eqs (ConsumerId_getParentId x) y
                then ConcurrentStlMap.lookup (Some x) (SessionState.consumers ss')
                else v_consumer (view_of s) x)).
Proof.
  intros Hy Hc Hss Hi. split_and!; intros x Hx; cbn [v_connection v_session v_producer v_consumer view_of].
  - by apply (conn_put _ cs).
  - rewrite sess_put by done. destruct (eqs x y) eqn:E; [| done]. rewrite (sess_equivalent x y), Hss by done. cbn. by rewrite Hi.
  - rewrite sess_put by done. by destruct (eqs (ProducerId_getParentId x) y).
  - rewrite sess_put by done. by destruct (eqs (ConsumerId_getParentId x) y).
Qed.

(** What a handler is to do. *)
Definition refines (c : DataStructure) (m : X t (option Tracked)) : Prop :=
  match registry c (view_of s) with
  | Some v => exists s', m s = (Ok (Some TRACKED_RESPONSE_MARKER), s') /\ view_eq (view_of s') v
  | None => exists e, m s = (Err (Throw e), s) /\ is_IOException e = false
  end.

(** Finding a session: it is there, or the handler throws. *)
Lemma find_session sid : SessionId_ok sid = true ->
  (sess s sid = None /\ forall B (k : ConnectionState.t -> SessionState.t -> X t B),
    (let+ cs := getConnection (Some (SessionId_getParentId sid)) in
     let+ ss := xlift (ConnectionState.getSessionState (Some sid) cs) in k cs ss) s = (throw NoSuchElementException, s)) \/
  (exists cs ss cid, conn s (SessionId_getParentId sid) = Some cs /\ sess s sid = Some ss /\ session_ok (heap s) cid (Some sid) ss /\
    forall B (k : ConnectionState.t -> SessionState.t -> X t B),
    (let+ cs := getConnection (Some (SessionId_getParentId sid)) in
     let+ ss := xlift (ConnectionState.getSessionState (Some sid) cs) in k cs ss) s = k cs ss s).
Proof.
  intros Hsid. destruct (conn s (SessionId_getParentId sid)) as [cs|] eqn:Ec.
  - destruct (sess s sid) as [ss|] eqn:Ess.
    + destruct (sess_ok sid ss Hsid Ess) as [cid Hok]. right. exists cs, ss, cid. split_and!; try done. intros B k.
      unfold xbind, xlift. rewrite getConnection_conn, Ec, (getSessionState_sess sid cs), Ess by done. done.
    + left. split; [done |]. intros B k. unfold xbind, xlift. rewrite getConnection_conn, Ec, (getSessionState_sess sid cs), Ess by done. done.
  - left. unfold sess. rewrite Ec. split; [done |]. intros B k. unfold xbind. rewrite getConnection_conn, Ec by done. done.
Qed.

Lemma producer_refines i : command_ok (DProducerInfo i) = true -> refines (DProducerInfo i) (processProducerInfo i).
Proof.
  cbn. intros Hi. unfold refines, processProducerInfo, xcatch. cbn [registry].
  destruct (ProducerInfo.producerId i) as [id|] eqn:Eid; [| by exists s].
  set (sid := ProducerId_getParentId id). assert (Hsid : SessionId_ok sid = true) by done. cbn [v_session view_of].
  destruct (find_session sid Hsid) as [[-> Hf]|(cs & ss & cid & Ec & Ess & Hok & Hf)]; rewrite Hf; [by exists ActiveMQException |].
  destruct Hok as (sid' & S1 & S2 & S3 & S4 & S5 & [S6 _] & S7). rewrite Ess. cbn [option_map require].
  unfold xbind at 1, xlift, SessionState.addProducer. rewrite S5, Eid, ConcurrentStlMap.put_ok by done. cbn [rbind].
  eexists. split; [reflexivity |]. etransitivity; [by apply (view_put sid ss) |].
  split_and!; intros x Hx; cbn [v_connection v_session v_producer v_consumer set_producer view_of SessionState.producers SessionState.consumers]; try done.
  - rewrite ConcurrentStlMap.lookup_insert by done. cbn [key_cmp ProducerId_laws pointer_cmp].
    destruct (eqs (ProducerId_getParentId x) sid) eqn:E.
    + rewrite (sess_equivalent _ sid), Ess by done. unfold eqp. by destruct (ProducerId_cmp x id).
    + destruct (eqp x id) eqn:E2; [| done]. apply eqp_parent in E2. unfold sid in E. by rewrite E2 in E.
  - destruct (eqs (ConsumerId_getParentId x) sid) eqn:E; [| done]. by rewrite (sess_equivalent _ sid), Ess by done.
Qed.
Lemma consumer_refines i : command_ok (DConsumerInfo i) = true -> refines (DConsumerInfo i) (processConsumerInfo i).
Proof.
  cbn. intros Hi. unfold refines, processConsumerInfo, xcatch. cbn [registry].
  destruct (ConsumerInfo.consumerId i) as [id|] eqn:Eid; [| by exists ActiveMQException].
  set (sid := ConsumerId_getParentId id). assert (Hsid : SessionId_ok sid = true) by done. cbn [v_session view_of].
  destruct (find_session sid Hsid) as [[-> Hf]|(cs & ss & cid & Ec & Ess & Hok & Hf)]; rewrite Hf; [by exists ActiveMQException |].
  destruct Hok as (sid' & S1 & S2 & S3 & S4 & S5 & S6 & [S7 _]). rewrite Ess. cbn [option_map require].
  unfold xbind at 1, xlift, SessionState.addConsumer. rewrite S5, Eid, ConcurrentStlMap.put_ok by done. cbn [rbind].
  eexists. split; [reflexivity |]. etransitivity; [by apply (view_put sid ss) |].
  split_and!; intros x Hx; cbn [v_connection v_session v_producer v_consumer set_consumer view_of SessionState.producers SessionState.consumers]; try done.
  - destruct (eqs (ProducerId_getParentId x) sid) eqn:E; [| done]. by rewrite (sess_equivalent _ sid), Ess by done.
  - rewrite ConcurrentStlMap.lookup_insert by done. cbn [key_cmp ConsumerId_laws pointer_cmp].
    destruct (eqs (ConsumerId_getParentId x) sid) eqn:E.
    + rewrite (sess_equivalent _ sid), Ess by done. unfold eqk. by destruct (ConsumerId_cmp x id).
    + destruct (eqk x id) eqn:E2; [| done]. apply eqk_parent in E2. unfold sid in E. by rewrite E2 in E.
Qed.

(** Finding a connection. *)
Lemma find_connection id : ConnectionId_ok id = true ->
  (conn s id = None /\ forall B (k : ConnectionState.t -> X t B),
    (let+ cs := getConnection (Some id) in k cs) s = (throw NoSuchElementException, s)) \/
  (exists cs, conn s id = Some cs /\ connection_ok (heap s) (Some id) cs /\
    forall B (k : ConnectionState.t -> X t B), (let+ cs := getConnection (Some id) in k cs) s = k cs s).
Proof.
  intros Hid. destruct (conn s id) as [cs|] eqn:Ec; [right; exists cs | left].
  - split_and!; [done | by apply conn_ok |]. intros B k. unfold xbind. by rewrite getConnection_conn, Ec.
  - split; [done |]. intros B k. unfold xbind. by rewrite getConnection_conn, Ec.
Qed.

(** A session that is added, with nothing in it, and one that is removed. *)
Lemma session_refines i : command_ok (DSessionInfo i) = true -> refines (DSessionInfo i) (processSessionInfo i).
Proof.
  cbn. intros Hi. unfold refines, processSessionInfo, xcatch. cbn [registry].
  destruct (SessionInfo.sessionId i) as [id|] eqn:Eid; [| by exists ActiveMQException]. cbn [v_connection view_of].
  destruct (find_connection (SessionId_getParentId id) Hi) as [[-> Hf]|(cs & Ec & (cid & _ & _ & _ & Hd & [Hm _] & _) & Hf)];
    rewrite Hf; [by exists ActiveMQException |]. rewrite Ec. cbn [option_map require].
  unfold xbind at 1, xlift, ConnectionState.addSession, ConnectionState.checkShutdown.
  rewrite Hd, Eid, ConcurrentStlMap.put_ok by done. cbn [rbind].
  eexists. split; [reflexivity |].
  change (ConnectionState.set_sessions cs _) with (ConnectionState.setSessionState (Some id) (SessionState.new i) cs).
  split_and!; intros x Hx; cbn [v_connection v_session v_producer v_consumer view_of reset_session].
  - by apply (conn_put _ cs).
  - rewrite sess_put by done. by destruct (eqs x id).
  - rewrite sess_put by done. by destruct (eqs _ id).
  - rewrite sess_put by done. by destruct (eqs _ id).
Qed.
Lemma sess_erase y cs x : SessionId_ok y = true -> SessionId_ok x = true -> conn s (SessionId_getParentId y) = Some cs ->
  sess (set_connectionStates s (ConcurrentStlMap.insert (Some (SessionId_getParentId y))
         (ConnectionState.set_sessions cs (ConcurrentStlMap.erase (Some y) (ConnectionState.sessions cs))) (connectionStates s))) x =
  if eqs x y then None else sess s x.
Proof.
  intros Hy Hx Hc. rewrite sess_insert by done. cbn [ConnectionState.set_sessions ConnectionState.sessions].
  rewrite ConcurrentStlMap.lookup_erase by (done || by apply (conn_sessions (SessionId_getParentId y))).
  cbn [key_cmp SessionId_laws pointer_cmp]. destruct (eqs x y) eqn:E.
  - rewrite eqs_parent by done. apply is_eq_true in E. by rewrite E.
  - destruct (eqc (SessionId_getParentId x) (SessionId_getParentId y)) eqn:Ep; [| done].
    unfold sess. rewrite (conn_equivalent (SessionId_getParentId x) (SessionId_getParentId y)), Hc by done.
    unfold eqs in E. by destruct (SessionId_cmp x y).
Qed.
Lemma removeSession_refines b n id : SessionId_ok id = true ->
  refines (DRemoveInfo (RemoveInfo.mk _ b (Some (DSessionId id)) n)) (processRemoveSession id).
Proof.
  intros Hi. unfold refines, processRemoveSession, xcatch. cbn [registry RemoveInfo.objectId v_connection view_of].
  destruct (find_connection (SessionId_getParentId id) Hi) as [[-> Hf]|(cs & Ec & _ & Hf)];
    rewrite Hf; [by exists ActiveMQException |]. rewrite Ec. cbn [option_map require].
  unfold xbind at 1, xlift, ConnectionState.removeSession.
  rewrite ConcurrentStlMap.remove_ok by (done || by apply (conn_sessions (SessionId_getParentId id))). cbn [rbind].
  eexists. split; [reflexivity |].
  split_and!; intros x Hx; cbn [v_connection v_session v_producer v_consumer view_of reset_session].
  - by apply (conn_put _ cs).
  - rewrite sess_erase by done. by destruct (eqs x id).
  - rewrite sess_erase by done. by destruct (eqs _ id).
  - rewrite sess_erase by done. by destruct (eqs _ id).
Qed.

(** A connection that is added has its default session; one that is removed leaves
    nothing. *)
Lemma connection_refines i : command_ok (DConnectionInfo i) = true -> refines (DConnectionInfo i) (processConnectionInfo i).
Proof.
  cbn. intros Hi. unfold refines, processConnectionInfo, xcatch, ConnectionState.new. cbn [registry].
  destruct (ConnectionInfo.connectionId i) as [id|] eqn:Eid; [| done]. cbn in Hi.
  unfold xbind at 1, xlift. cbn [ConnectionState.addSession ConnectionState.checkShutdown ConnectionState.disposed rbind
    SessionInfo.sessionId ConnectionState.sessions].
  unfold ConcurrentStlMap.put at 1. cbn [ConcurrentStlMap.check rbind]. unfold xbind at 1, xget. unfold xbind at 1.
  rewrite ConcurrentStlMap.put_ok by (done || exact (proj1 (proj1 Hs))).
  eexists. split; [reflexivity |].
  assert (Hd : forall x, SessionId_ok x = true ->
    ConcurrentStlMap.lookup (Some x) (ConcurrentStlMap.insert (Some (SessionId.mk (ConnectionId.value id) (-1)))
      (SessionState.new (default_session id)) []) =
    if eqs x (SessionId.mk (ConnectionId.value id) (-1)) then Some (SessionState.new (default_session id)) else None).
  { intros x Hx. rewrite ConcurrentStlMap.lookup_insert by done. cbn [key_cmp SessionId_laws pointer_cmp]. unfold eqs.
    by destruct (SessionId_cmp _ _). }
  split_and!; intros x Hx; cbn [v_connection v_session v_producer v_consumer view_of reset_connection].
  - rewrite conn_insert by done. by destruct (eqc x id).
  - rewrite sess_insert by done. destruct (eqc _ id); [| done]. cbn [ConnectionState.sessions ConnectionState.set_sessions].
    rewrite Hd by done. by destruct (eqs _ _).
  - rewrite sess_insert by done. destruct (eqc _ id); [| done]. cbn [ConnectionState.sessions ConnectionState.set_sessions].
    rewrite Hd by done. by destruct (eqs _ _).
  - rewrite sess_insert by done. destruct (eqc _ id); [| done]. cbn [ConnectionState.sessions ConnectionState.set_sessions].
    rewrite Hd by done. by destruct (eqs _ _).
Qed.
Lemma conn_erase k x : ConnectionId_ok k = true -> ConnectionId_ok x = true ->
  conn (set_connectionStates s (ConcurrentStlMap.erase (Some k) (connectionStates s))) x = if eqc x k then None else conn s x.
Proof.
  intros Hk Hx. unfold conn. cbn [connectionStates set_connectionStates].
  rewrite ConcurrentStlMap.lookup_erase by (done || exact (proj1 (proj1 Hs))). unfold eqc. cbn.
  by destruct (ConnectionId_cmp x k).
Qed.
Lemma removeConnection_refines b n id : ConnectionId_ok id = true ->
  refines (DRemoveInfo (RemoveInfo.mk _ b (Some (DConnectionId id)) n)) (processRemoveConnection id).
Proof.
  intros Hi. unfold refines, processRemoveConnection, xcatch. cbn [registry RemoveInfo.objectId].
  unfold xbind at 1, xget. unfold xbind at 1, xlift. rewrite ConcurrentStlMap.remove_ok by (done || exact (proj1 (proj1 Hs))).
  eexists. split; [reflexivity |].
  split_and!; intros x Hx; cbn [v_connection v_session v_producer v_consumer view_of reset_connection snd]; unfold sess;
    rewrite conn_erase by done; by destruct (eqc _ id).
Qed.

(** A producer, a consumer that is removed.  The transaction of a producer keeps it. *)
Lemma removeProducer_refines b n id : ProducerId_ok id = true ->
  refines (DRemoveInfo (RemoveInfo.mk _ b (Some (DProducerId id)) n)) (processRemoveProducer id).
Proof.
  intros Hi. unfold refines, processRemoveProducer, xcatch. cbn [registry RemoveInfo.objectId v_session view_of].
  set (sid := ProducerId_getParentId id). assert (Hsid : SessionId_ok sid = true) by done.
  destruct (find_session sid Hsid) as [[-> Hf]|(cs & ss & cid & Ec & Ess & Hok & Hf)]; rewrite Hf; [by exists ActiveMQException |].
  destruct Hok as (sid' & S1 & S2 & S3 & S4 & S5 & S6 & S7). rewrite Ess. cbn [option_map require].
  unfold xbind at 1, xlift, SessionState.removeProducer. rewrite ConcurrentStlMap.remove_ok by (done || apply S6). cbn [rbind].
  set (ss' := SessionState.mk _ _ _ _).
  set (s1 := set_connectionStates s (ConcurrentStlMap.insert (Some (SessionId_getParentId sid))
               (ConnectionState.setSessionState (Some sid) ss' cs) (connectionStates s))).
  assert (Hview : view_eq (view_of s1) (set_producer id None (view_of s))).
  { etransitivity; [by apply (view_put sid ss) |].
    split_and!; intros x Hx; cbn [v_connection v_session v_producer v_consumer set_producer view_of ss' SessionState.producers SessionState.consumers]; try done.
    - rewrite ConcurrentStlMap.lookup_erase by (done || apply S6). cbn [key_cmp ProducerId_laws pointer_cmp].
      destruct (eqs (ProducerId_getParentId x) sid) eqn:E.
      + rewrite (sess_equivalent _ sid), Ess by done. unfold eqp. by destruct (ProducerId_cmp x id).
      + destruct (eqp x id) eqn:E2; [| done]. apply eqp_parent in E2. unfold sid in E. by rewrite E2 in E.
    - destruct (eqs (ConsumerId_getParentId x) sid) eqn:E; [| done]. by rewrite (sess_equivalent _ sid), Ess by done. }
  unfold xbind at 1, setConnection, xmodify. fold s1.
  destruct (ConcurrentStlMap.lookup (Some id) (SessionState.producers ss)) as [p|] eqn:El; [| by exists s1].
  destruct (proj2 S6 (Some id) p Hi El) as (pid & P1 & _ & P3 & _ & Hr).
  destruct (ProducerState.transactionState p) as [r|]; [| by exists s1]. cbn in Hr.
  destruct (lookup_lt_is_Some_2 _ _ Hr) as [x Hx]. pose proof (proj1 (Forall_lookup _ _) (proj2 Hs) r x Hx) as [_ Hxp].
  unfold xbind, getTransaction. cbn [s1 heap set_connectionStates]. rewrite Hx. cbn [ProducerState.info].
  unfold TransactionState.addProducerState. cbn [ProducerState.info]. rewrite P1, ConcurrentStlMap.put_ok by done.
  eexists. split; [reflexivity |]. exact Hview.
Qed.
Lemma view_same_sessions k cs cs' m : ConnectionId_ok k = true ->
  ConnectionState.info cs = ConnectionState.info cs' -> ConnectionState.sessions cs = ConnectionState.sessions cs' ->
  view_eq (view_of (set_connectionStates (set_connectionStates s m) (ConcurrentStlMap.insert (Some k) cs (connectionStates s))))
    (view_of (set_connectionStates s (ConcurrentStlMap.insert (Some k) cs' (connectionStates s)))).
Proof.
  intros Hk Hi Hss. change (set_connectionStates (set_connectionStates s m) ?x) with (set_connectionStates s x).
  split_and!; intros x Hx; cbn [v_connection v_session v_producer v_consumer view_of]; unfold sess;
    rewrite !conn_insert by done; destruct (eqc _ _); cbn; by rewrite ?Hi, ?Hss.
Qed.
(** A temporary destination is kept with its connection. *)
Lemma view_put_connection k cs cs' : ConnectionId_ok k = true -> conn s k = Some cs ->
  ConnectionState.info cs' = ConnectionState.info cs -> ConnectionState.sessions cs' = ConnectionState.sessions cs ->
  view_eq (view_of (set_connectionStates s (ConcurrentStlMap.insert (Some k) cs' (connectionStates s)))) (view_of s).
Proof.
  intros Hk Hc Hi Hss. split_and!; intros x Hx; cbn [v_connection v_session v_producer v_consumer view_of]; unfold sess;
    rewrite !conn_insert by done;
    match goal with |- context [eqc ?y k] => destruct (eqc y k) eqn:E; [rewrite (conn_equivalent y k), Hc by done | done] end;
    cbn; by rewrite ?Hi, ?Hss.
Qed.
Lemma destination_refines i : command_ok (DDestinationInfo i) = true -> refines (DDestinationInfo i) (processDestinationInfo i).
Proof.
  cbn. intros Hi. unfold refines, processDestinationInfo, xcatch. cbn [registry].
  destruct (DestinationInfo.connectionId i) as [id|]; [| done]. cbn in Hi. cbn [v_connection view_of].
  destruct (find_connection id Hi) as [[-> Hf]|(cs & Ec & (cid & _ & _ & _ & Hd & _) & Hf)]; rewrite Hf;
    [destruct (DestinationInfo.destination i); by exists ActiveMQException |].
  destruct (DestinationInfo.destination i) as [d|]; [| by exists ActiveMQException]. rewrite Ec. cbn [option_map require].
  destruct (ActiveMQDestination.isTemporary _); [| by exists s].
  unfold ConnectionState.addTempDestination, ConnectionState.checkShutdown. rewrite Hd.
  eexists. split; [reflexivity |]. by apply (view_put_connection id cs).
Qed.
Lemma removeConsumer_refines b n id : ConsumerId_ok id = true ->
  refines (DRemoveInfo (RemoveInfo.mk _ b (Some (DConsumerId id)) n)) (processRemoveConsumer id).
Proof.
  intros Hi. unfold refines, processRemoveConsumer, xcatch. cbn [registry RemoveInfo.objectId v_session view_of].
  set (sid := ConsumerId_getParentId id). assert (Hsid : SessionId_ok sid = true) by done.
  destruct (find_session sid Hsid) as [[-> Hf]|(cs & ss & cid & Ec & Ess & Hok & Hf)]; rewrite Hf; [by exists ActiveMQException |].
  destruct Hok as (sid' & S1 & S2 & S3 & S4 & S5 & S6 & S7). rewrite Ess. cbn [option_map require].
  unfold xbind at 1, xlift, SessionState.removeConsumer. rewrite ConcurrentStlMap.remove_ok by (done || apply S7). cbn [rbind snd].
  set (ss' := SessionState.mk _ _ _ _).
  destruct (conn_ok _ _ (Hsid : ConnectionId_ok (SessionId_getParentId sid) = true) Ec) as (cid' & _ & _ & _ & _ & _ & _ & Hr & _).
  unfold xbind at 1, setConnection, xmodify. unfold xbind at 1.
  cbn [ConnectionState.setSessionState ConnectionState.recoveringPullConsumers ConnectionState.set_sessions].
  rewrite ConcurrentStlMap.remove_ok by done. cbn [snd].
  eexists. split; [reflexivity |]. cbn [connectionStates set_connectionStates].
  rewrite ConcurrentStlMap.insert_insert by (done || exact (proj1 (proj1 (proj1 Hs)))).
  etransitivity; [by apply (view_same_sessions _ _ (ConnectionState.setSessionState (Some sid) ss' cs)) |].
  etransitivity; [by apply (view_put sid ss) |].
  split_and!; intros x Hx; cbn [v_connection v_session v_producer v_consumer set_consumer view_of ss' SessionState.producers SessionState.consumers]; try done.
  - destruct (eqs (ProducerId_getParentId x) sid) eqn:E; [| done]. by rewrite (sess_equivalent _ sid), Ess by done.
  - rewrite ConcurrentStlMap.lookup_erase by (done || apply S7). cbn [key_cmp ConsumerId_laws pointer_cmp].
    destruct (eqs (ConsumerId_getParentId x) sid) eqn:E.
    + rewrite (sess_equivalent _ sid), Ess by done. unfold eqk. by destruct (ConsumerId_cmp x id).
    + destruct (eqk x id) eqn:E2; [| done]. apply eqk_parent in E2. unfold sid in E. by rewrite E2 in E.
Qed.
End Views.

Lemma track_refines a c s : tracker_ok s -> command_ok c = true -> registers c = true ->
  match registry c (view_of s) with
  | Some v => exists s', track a c s = (Ok (Some TRACKED_RESPONSE_MARKER), s') /\ view_eq (view_of s') v
  | None => track a c s = (Err (Throw IOException), s)
  end.
Proof.
  intros Hs Hc Hr. assert (H : refines s c (visit a c)).
  { destruct c; try done; cbn [visit]; 
    auto using connection_refines, session_refines, producer_refines, consumer_refines, destination_refines.
    destruct i as [b [o|] n]; [| by exists NullPointerException].
    destruct o; try (by exists ActiveMQException); cbn [processRemoveInfo RemoveInfo.objectId];
      auto using removeConnection_refines, removeSession_refines, removeProducer_refines, removeConsumer_refines. }
  unfold refines in H. unfold track, xcatch. destruct (registry c (view_of s)) as [v|].
  - destruct H as (s' & -> & H). by exists s'.
  - destruct H as (e & -> & H). unfold to_io. by rewrite H.
Qed.

(** C29. [track] is the registry: shown a command that creates or removes a
    connection, session, producer or consumer, or names a destination, a tracker in a
    proper state files it or removes it with everything below it and returns the marker; or, when what it
    belongs to is not there, throws an IOException and is left as it was. *)
Theorem tracker_refines_registry a c s : tracker_ok s -> command_ok c = true -> registers c = true ->
  match registry c (view_of s) with
  | Some v => exists s', track a c s = (Ok (Some TRACKED_RESPONSE_MARKER), s') /\ view_eq (view_of s') v
  | None => track a c s = (Err (Throw IOException), s)
  end.
Proof. apply track_refines. Qed.
Lemma tracker_refines_registry_witness :
  v_session (view_of Sample.tracker) Sample.sessionId = Some Sample.session /\
  exists s', track 0 (DRemoveInfo (RemoveInfo.mk _ BaseCommand.default (Some (DConnectionId Sample.connectionId)) 0)) Sample.tracker =
    (Ok (Some TRACKED_RESPONSE_MARKER), s') /\ v_session (view_of s') Sample.sessionId = None.
Proof.
  split; [vm_compute; reflexivity |].
  destruct (tracker_refines_registry 0 (DRemoveInfo (RemoveInfo.mk _ BaseCommand.default (Some (DConnectionId Sample.connectionId)) 0)) Sample.tracker)
    as (s' & E & _ & H & _); [by apply shown_ok; [| apply new_ok] | reflexivity.. |].
  exists s'. split; [exact E |]. rewrite H by reflexivity. vm_compute. reflexivity.
Defined.
