(* ===== verification/TrackerReplay.v ===== *)
(** * A tracker that is shown a snapshot

    What [restore] sends describes the connections well enough: a new tracker, as the
    broker's side of the registry, that is shown the commands of a snapshot accepts
    every one of them and comes to the same connections, sessions, producers and
    consumers (TrackerRestore.v, TrackerRegistry.v). *)

From S2P Require Import Prelude DataStreams PrimitiveTypes Support BooleanStreams Wire BaseMarshaller Commands.
From S2P Require Import StringOrder Identifiers StateTracker TrackerLaws TrackerRestore TrackerRegistry.
Import NaturalOrder ConnectionStateTracker.

(** ** Commands that build a registry *)
Fixpoint replay (cs : list DataStructure) (v : view) : option view :=
  match cs with
  | [] => Some v
  | c :: cs => match registry c v with Some v => replay cs v | None => None end
  end.
Definition track_all (cs : list DataStructure) : X t unit := xfor cs (fun c => track 0 c ;+ xret tt).

(** The registry does not tell equal views apart. *)
Definition agree (o o' : option view) : Prop :=
  match o, o' with Some v, Some w => view_eq v w | None, None => True | _, _ => False end.
Lemma require_agree {A} (o o' : option A) v w : o = o' -> view_eq v w -> agree (require o v) (require o' w).
Proof. intros <-. by destruct o. Qed.
Lemma reset_connection_proper id i v w : view_eq v w -> view_eq (reset_connection id i v) (reset_connection id i w).
Proof. intros (H1 & H2 & H3 & H4). split_and!; intros x Hx; cbn; case_match; auto. Qed.
Lemma reset_session_proper id i v w : view_eq v w -> view_eq (reset_session id i v) (reset_session id i w).
Proof. intros (H1 & H2 & H3 & H4). split_and!; intros x Hx; cbn; try case_match; auto. Qed.
Lemma set_producer_proper id i v w : view_eq v w -> view_eq (set_producer id i v) (set_producer id i w).
Proof. intros (H1 & H2 & H3 & H4). split_and!; intros x Hx; cbn; try case_match; auto. Qed.
Lemma set_consumer_proper id i v w : view_eq v w -> view_eq (set_consumer id i v) (set_consumer id i w).
Proof. intros (H1 & H2 & H3 & H4). split_and!; intros x Hx; cbn; try case_match; auto. Qed.
#[export] Hint Resolve reset_connection_proper reset_session_proper set_producer_proper set_consumer_proper require_agree : tracker.

Lemma registry_proper c v w : command_ok c = true -> view_eq v w -> agree (registry c v) (registry c w).
Proof.
  intros Hc Hv. pose proof Hv as (H1 & H2 & H3 & H4). destruct c; try exact Hv; cbn in *.
  all: repeat case_match; cbn in *; auto with tracker.
Qed.

Definition builds (cs : list DataStructure) (v w : view) : Prop :=
  Forall (fun c => command_ok c = true /\ registers c = true) cs /\
  exists w', replay cs v = Some w' /\ view_eq w' w.

Lemma builds_proper cs v v' w w' : view_eq v v' -> view_eq w w' -> builds cs v w -> builds cs v' w'.
Proof.
  intros Hv Hw [Hcs H]. split; [done |]. destruct H as (u & Hu & Huw). rewrite Hw in Huw. clear w Hw.
  revert v v' Hv u Hu Huw. induction cs as [|c cs IH]; cbn; intros v v' Hv u Hu Huw.
  - injection Hu as <-. exists v'. split; [done |]. by rewrite <- Hv.
  - apply Forall_cons_1 in Hcs as [[Hc _] Hcs]. pose proof (registry_proper c v v' Hc Hv) as Ha.
    destruct (registry c v) as [v1|], (registry c v') as [v1'|]; try done. by apply (IH Hcs v1 v1' Ha u).
Qed.
Lemma builds_nil v : builds [] v v.
Proof. split; [constructor | by exists v]. Qed.
Lemma builds_app cs ds u v w : builds cs u v -> builds ds v w -> builds (cs ++ ds) u w.
Proof.
  intros [Hcs (v' & Hr & Hv)] Hds. apply (builds_proper _ v v' w w) in Hds; [| by symmetry | done].
  destruct Hds as [Hds (w' & Hr' & Hw)]. split; [by apply Forall_app |]. exists w'. split; [| done].
  revert u Hr. clear Hcs. induction cs as [|c cs IH]; cbn; intros u; [by intros [= ->] |].
  destruct (registry c u); [apply IH | done].
Qed.
Lemma builds_one c v w : command_ok c = true -> registers c = true -> registry c v = Some w -> builds [c] v w.
Proof. intros Hc Hr Hw. split; [by repeat constructor |]. exists w. cbn. by rewrite Hw. Qed.
Lemma builds_eq cs v w w' : builds cs v w -> view_eq w w' -> builds cs v w'.
Proof. intros H Hw. by apply (builds_proper cs v v w w'). Qed.

(** What builds a registry, a tracker files. *)
Lemma track_all_builds cs s v w : tracker_ok s -> view_eq (view_of s) v -> builds cs v w ->
  exists s', track_all cs s = (Ok tt, s') /\ tracker_ok s' /\ view_eq (view_of s') w.
Proof.
  intros Hs Hv Hb. apply (builds_proper _ _ (view_of s) _ w) in Hb; [| by symmetry | done]. clear v Hv.
  destruct Hb as [Hcs (w' & Hr & Hw)]. revert s w' Hs Hr Hw.
  induction cs as [|c cs IH]; cbn [replay]; intros s w' Hs Hr Hw.
  - injection Hr as <-. by exists s.
  - apply Forall_cons_1 in Hcs as [[Hc Hg] Hcs]. pose proof (track_refines 0 c s Hs Hc Hg) as Ht.
    destruct (registry c (view_of s)) as [v1|]; [| done]. destruct Ht as (s1 & Ht & Hv1).
    assert (Hs1 : tracker_ok s1) by (pose proof (step_ok _ _ (step_track 0 c s Hc) Hs) as Hok; by rewrite Ht in Hok).
    assert (Hb : builds cs (view_of s1) w).
    { apply (builds_proper cs v1 _ w); [by symmetry | done |]. split; [done | by exists w']. }
    destruct Hb as [_ (w2 & Hr2 & Hw2)].
    destruct (IH Hcs s1 w2 Hs1 Hr2 Hw2) as (s' & Hall & Hok & Hview). exists s'. split; [| done].
    unfold track_all. cbn [xfor]. unfold xbind. rewrite Ht. exact Hall.
Qed.

(** ** Maps laid over a view *)
Section Overlay.
Context {K V : Type} `{ComparatorLaws K}.
Lemma lookup_tail (x k : K) (v : V) m : ConcurrentStlMap.map_ok ((k, v) :: m) -> key_ok x = true -> key_cmp x k = Eq ->
  ConcurrentStlMap.lookup x m = None.
Proof.
  intros (Hk & Hb & Hm)%ConcurrentStlMap.map_ok_cons Hx E. rewrite (lookup_equivalent x k) by done.
  apply ConcurrentStlMap.lookup_below; [done | apply Hm | done].
Qed.
Lemma minv_cons (P : K -> V -> Prop) k v m : minv P ((k, v) :: m) -> P k v /\ key_ok k = true /\ minv P m.
Proof.
  intros Hm. split; [apply (minv_entry P k v _ Hm); by left |].
  destruct Hm as [Hok HP]. pose proof Hok as (Hk & Hb & Hm)%ConcurrentStlMap.map_ok_cons. split; [done |]. split; [done |].
  intros k' v' Hk' Hl. apply HP; [done |]. cbn. rewrite ConcurrentStlMap.equivalent_ok by done.
  destruct (key_cmp k' k) eqn:E; [| done..]. by rewrite (lookup_tail k' k v m) in Hl.
Qed.
(** A head that is set, then the rest. *)
Lemma lookup_overlay {B} (f : V -> B) (x k : K) (v : V) m (b : bool) (base : option B) :
  ConcurrentStlMap.map_ok ((k, v) :: m) -> key_ok x = true -> b = is_eq (key_cmp x k) ->
  match ConcurrentStlMap.lookup x m with Some v => Some (f v) | None => if b then Some (f v) else base end =
  match ConcurrentStlMap.lookup x ((k, v) :: m) with Some v => Some (f v) | None => base end.
Proof.
  intros Hm Hx ->. pose proof Hm as (Hk & _)%ConcurrentStlMap.map_ok_cons. cbn. rewrite ConcurrentStlMap.equivalent_ok by done.
  destruct (key_cmp x k) eqn:E; cbn; [by rewrite (lookup_tail x k v m) | by destruct (ConcurrentStlMap.lookup x m)..].
Qed.
(** Identifiers that are equivalent are equivalent to the same. *)
Lemma is_eq_key (x k id : K) : key_cmp k id = Eq -> is_eq (key_cmp x id) = is_eq (key_cmp x k).
Proof.
  intros E. rewrite (order_antisym _ key_order id x), <- (order_eq _ key_order k id x E).
  rewrite (order_antisym _ key_order x k). by destruct (key_cmp x k).
Qed.
End Overlay.

(** ** The parts of a snapshot *)
Lemma builds_producers h sid m v : minv (producer_ok h sid) m ->
  (forall x, SessionId_ok x = true -> SessionId_cmp sid x = Eq -> v_session v x <> None) ->
  builds (map (fun p => DProducerInfo (ProducerState.info p)) (ConcurrentStlMap.values m)) v
    (mkView (v_connection v) (v_session v)
      (fun x => match ConcurrentStlMap.lookup (Some x) m with Some p => Some (ProducerState.info p) | None => v_producer v x end)
      (v_consumer v)).
Proof.
  revert v. induction m as [|[k p] m IH]; intros v Hm Hv; [by apply (builds_eq _ _ v); [apply builds_nil |] |].
  pose proof (minv_cons _ _ _ _ Hm) as ((id & P1 & P2 & P3 & P4 & _) & Hk & Hm').
  apply (builds_app [_] _ _ (set_producer id (Some (ProducerState.info p)) v)).
  - apply builds_one; [cbn; by rewrite P1 | done |]. cbn. rewrite P1.
    specialize (Hv (ProducerId_getParentId id) P3 P4). by destruct (v_session v _).
  - eapply builds_eq; [by apply IH |]. split_and!; intros x Hx; try done. cbn [v_producer set_producer].
    apply (lookup_overlay ProducerState.info (Some x) k p m (eqp x id)); [apply Hm | done |].
    exact (is_eq_key (Some x) k (Some id) P2).
Qed.
Lemma builds_consumers sid f m v : minv (consumer_ok sid) m ->
  (forall i, ConsumerInfo.consumerId (f i) = ConsumerInfo.consumerId i) ->
  (forall x, SessionId_ok x = true -> SessionId_cmp sid x = Eq -> v_session v x <> None) ->
  builds (map (fun i => DConsumerInfo (f i)) (ConcurrentStlMap.values m)) v
    (mkView (v_connection v) (v_session v) (v_producer v)
      (fun x => match ConcurrentStlMap.lookup (Some x) m with Some i => Some (f i) | None => v_consumer v x end)).
Proof.
  intros Hm Hf. revert v Hm. induction m as [|[k i] m IH]; intros v Hm Hv; [by apply (builds_eq _ _ v); [apply builds_nil |] |].
  pose proof (minv_cons _ _ _ _ Hm) as ((id & P1 & P2 & P3 & P4) & Hk & Hm').
  apply (builds_app [_] _ _ (set_consumer id (Some (f i)) v)).
  - apply builds_one; [cbn; by rewrite Hf, P1 | done |]. cbn. rewrite Hf, P1.
    specialize (Hv (ConsumerId_getParentId id) P3 P4). by destruct (v_session v _).
  - eapply builds_eq; [by apply IH |]. split_and!; intros x Hx; try done. cbn [v_consumer set_consumer].
    apply (lookup_overlay f (Some x) k i m (eqk x id)); [apply Hm | done |].
    exact (is_eq_key (Some x) k (Some id) P2).
Qed.
Lemma builds_temps cid l v : Forall (temp_ok cid) l ->
  (forall x, ConnectionId_ok x = true -> ConnectionId_cmp cid x = Eq -> v_connection v x <> None) ->
  builds (map DDestinationInfo l) v v.
Proof.
  intros Hl Hv. induction Hl as [|i l (id & d & D1 & D2 & D3 & D4 & _) _ IH]; [apply builds_nil |].
  apply (builds_app [_] _ _ v); [| done]. apply builds_one; [cbn; by rewrite D1 | done |]. cbn. rewrite D1, D4.
  specialize (Hv id D2 D3). by destruct (v_connection v id).
Qed.

(** A consumer as it is restored. *)
Definition restored_consumer (version : Z) (complete : bool) (i : ConsumerInfo.t) : ConsumerInfo.t :=
  if recovering version complete i then set_prefetchSize i 0 else i.

Section Parts.
Context (s : t) (version : Z).
Context (Hflags : restoreSessions s = true /\ restoreProducers s = true /\ restoreConsumers s = true).

Definition view_session (complete : bool) (sid : SessionId.t) (ss : SessionState.t) (v : view) : view := mkView
  (v_connection v)
  (fun x => if eqs x sid then Some (SessionState.info ss) else v_session v x)
  (fun x => if eqs (ProducerId_getParentId x) sid
            then option_map ProducerState.info (ConcurrentStlMap.lookup (Some x) (SessionState.producers ss))
            else v_producer v x)
  (fun x => if eqs (ConsumerId_getParentId x) sid
            then option_map (restored_consumer version complete) (ConcurrentStlMap.lookup (Some x) (SessionState.consumers ss))
            else v_consumer v x).
Lemma builds_session h cid k ss complete v sid : session_ok h cid k ss -> SessionInfo.sessionId (SessionState.info ss) = Some sid ->
  (forall x, ConnectionId_ok x = true -> ConnectionId_cmp cid x = Eq -> v_connection v x <> None) ->
  builds (snapshot_session s version complete ss) v (view_session complete sid ss v).
Proof.
  intros (sid' & S1 & S2 & S3 & S4 & S5 & S6 & S7) Hsid Hv. rewrite Hsid in S1. injection S1 as <-.
  unfold snapshot_session. destruct Hflags as (_ & -> & ->).
  apply (builds_app [_] _ _ (reset_session sid (Some (SessionState.info ss)) v)).
  { apply builds_one; [cbn; by rewrite Hsid | done |]. cbn. rewrite Hsid.
    specialize (Hv (SessionId_getParentId sid) S3 S4). by destruct (v_connection v _). }
  assert (Hss : forall x, SessionId_ok x = true -> SessionId_cmp sid x = Eq -> (if eqs x sid then Some (SessionState.info ss) else v_session v x) <> None).
  { intros x Hx E. by rewrite eqs_sym, (proj2 (is_eq_true _) E : eqs sid x = true). }
  eapply builds_app; [by apply (builds_producers h sid) |].
  eapply builds_eq; [by apply (builds_consumers sid (restored_consumer version complete)); [| intros i; unfold restored_consumer; case_match |] |].
  split_and!; intros x Hx; cbn; try done.
  - destruct (ConcurrentStlMap.lookup (Some x) (SessionState.producers ss)) as [p|] eqn:El; [| by case_match].
    destruct (proj2 S6 (Some x) p Hx El) as (id & _ & P2 & _ & P4 & _).
    assert (E : eqs (ProducerId_getParentId x) sid = true) by
      (apply is_eq_true; apply (session_cmp_trans _ (ProducerId_getParentId id)); [by apply producer_parent | by apply session_cmp_sym]).
    by rewrite E.
  - destruct (ConcurrentStlMap.lookup (Some x) (SessionState.consumers ss)) as [p|] eqn:El; [| by case_match].
    destruct (proj2 S7 (Some x) p Hx El) as (id & _ & P2 & _ & P4).
    assert (E : eqs (ConsumerId_getParentId x) sid = true) by
      (apply is_eq_true; apply (session_cmp_trans _ (ConsumerId_getParentId id)); [by apply consumer_parent | by apply session_cmp_sym]).
    by rewrite E.
Qed.

(** The sessions of a connection, over a view that has the connection. *)
Definition view_sessions (complete : bool) (m : list (option SessionId.t * SessionState.t)) (v : view) : view := mkView
  (v_connection v)
  (fun x => match ConcurrentStlMap.lookup (Some x) m with Some ss => Some (SessionState.info ss) | None => v_session v x end)
  (fun x => match ConcurrentStlMap.lookup (Some (ProducerId_getParentId x)) m with
            | Some ss => option_map ProducerState.info (ConcurrentStlMap.lookup (Some x) (SessionState.producers ss))
            | None => v_producer v x
            end)
  (fun x => match ConcurrentStlMap.lookup (Some (ConsumerId_getParentId x)) m with
            | Some ss => option_map (restored_consumer version complete) (ConcurrentStlMap.lookup (Some x) (SessionState.consumers ss))
            | None => v_consumer v x
            end).
Lemma builds_sessions h cid m complete v : minv (session_ok h cid) m ->
  (forall x, ConnectionId_ok x = true -> ConnectionId_cmp cid x = Eq -> v_connection v x <> None) ->
  builds (concat (map (snapshot_session s version complete) (ConcurrentStlMap.values m))) v (view_sessions complete m v).
Proof.
  revert v. induction m as [|[k ss] m IH]; intros v Hm Hv; [by apply (builds_eq _ _ v); [apply builds_nil |] |].
  pose proof (minv_cons _ _ _ _ Hm) as (Hss & Hk & Hm'). pose proof Hss as (sid & S1 & S2 & S3 & _).
  eapply builds_app; [by apply (builds_session h cid k ss complete v sid) |].
  eapply builds_eq; [by apply IH |].
  assert (Hl : forall x, SessionId_ok x = true ->
    ConcurrentStlMap.lookup (Some x) ((k, ss) :: m) = if eqs x sid then Some ss else ConcurrentStlMap.lookup (Some x) m).
  { intros x Hx. cbn. rewrite ConcurrentStlMap.equivalent_ok by done.
    rewrite (is_eq_key (Some x) k (Some sid) S2 : eqs x sid = is_eq (key_cmp (Some x) k)). by destruct (key_cmp (Some x) k). }
  assert (Ht : forall x, SessionId_ok x = true -> eqs x sid = true -> ConcurrentStlMap.lookup (Some x) m = None).
  { intros x Hx E. apply (lookup_tail (Some x) k ss); [apply Hm | done |]. apply is_eq_true.
    by rewrite <- (is_eq_key (Some x) k (Some sid) S2). }
  split_and!; intros x Hx; cbn [v_connection v_session v_producer v_consumer view_sessions view_session]; [done | ..];
    rewrite Hl by done; match goal with |- context [eqs ?y sid] => destruct (eqs y sid) eqn:E; [by rewrite (Ht y) | done] end.
Qed.

(** A connection. *)
Definition session_in (id : ConnectionId.t) (cs : ConnectionState.t) (x : SessionId.t) : option SessionInfo.t :=
  match ConcurrentStlMap.lookup (Some x) (ConnectionState.sessions cs) with
  | Some ss => Some (SessionState.info ss)
  | None => if eqs x (SessionId.mk (ConnectionId.value id) (-1)) then Some (default_session id) else None
  end.
Definition producer_in (cs : ConnectionState.t) (x : ProducerId.t) : option ProducerInfo.t :=
  match ConcurrentStlMap.lookup (Some (ProducerId_getParentId x)) (ConnectionState.sessions cs) with
  | Some ss => option_map ProducerState.info (ConcurrentStlMap.lookup (Some x) (SessionState.producers ss))
  | None => None
  end.
Definition consumer_in (cs : ConnectionState.t) (x : ConsumerId.t) : option ConsumerInfo.t :=
  match ConcurrentStlMap.lookup (Some (ConsumerId_getParentId x)) (ConnectionState.sessions cs) with
  | Some ss => option_map (restored_consumer version (ConnectionState.connectionInterruptProcessingComplete cs))
                 (ConcurrentStlMap.lookup (Some x) (SessionState.consumers ss))
  | None => None
  end.
Definition view_connection (id : ConnectionId.t) (cs : ConnectionState.t) (v : view) : view := mkView
  (fun x => if eqc x id then Some (set_failoverReconnect (ConnectionState.info cs)) else v_connection v x)
  (fun x => if eqc (SessionId_getParentId x) id then session_in id cs x else v_session v x)
  (fun x => if eqc (SessionId_getParentId (ProducerId_getParentId x)) id then producer_in cs x else v_producer v x)
  (fun x => if eqc (SessionId_getParentId (ConsumerId_getParentId x)) id then consumer_in cs x else v_consumer v x).
Lemma session_in_connection h cid m x ss : minv (session_ok h cid) m -> SessionId_ok x = true ->
  ConcurrentStlMap.lookup (Some x) m = Some ss -> eqc (SessionId_getParentId x) cid = true.
Proof.
  intros Hm Hx Hl. destruct (proj2 Hm (Some x) ss Hx Hl) as (sid & _ & S2 & _ & S4 & _). apply is_eq_true.
  apply (connection_cmp_trans _ (SessionId_getParentId sid)); [by apply session_parent | by apply connection_cmp_sym].
Qed.
Lemma builds_connection h k cs v id : connection_ok h k cs -> ConnectionInfo.connectionId (ConnectionState.info cs) = Some id ->
  builds (snapshot_connection s version cs) v (view_connection id cs v).
Proof.
  intros (cid & C1 & C2 & C3 & C4 & C5 & C6 & C7 & C8) Hid. rewrite Hid in C1. injection C1 as <-.
  unfold snapshot_connection. destruct Hflags as (-> & _ & _).
  set (i := set_failoverReconnect (ConnectionState.info cs)).
  apply (builds_app [_] _ _ (reset_connection id (Some i) v)).
  { apply builds_one; [cbn; by rewrite Hid | done |]. cbn. by rewrite Hid. }
  assert (Hc : forall x, ConnectionId_ok x = true -> ConnectionId_cmp id x = Eq -> v_connection (reset_connection id (Some i) v) x <> None).
  { intros x Hx E. cbn. by rewrite eqc_sym, (proj2 (is_eq_true _) E : eqc id x = true). }
  eapply builds_app; [by apply (builds_temps id) |].
  eapply builds_eq; [by apply (builds_sessions h id) |].
  split_and!; intros x Hx; cbn [v_connection v_session v_producer v_consumer view_sessions view_connection reset_connection];
    unfold session_in, producer_in, consumer_in; [done | ..];
    (match goal with |- context [ConcurrentStlMap.lookup (Some ?y) (ConnectionState.sessions cs)] =>
       destruct (ConcurrentStlMap.lookup (Some y) (ConnectionState.sessions cs)) as [ss|] eqn:El;
       [by rewrite (session_in_connection h id _ y ss C5 Hx El) | by case_match] end).
Qed.

(** All of them. *)
Definition view_connections (m : list (option ConnectionId.t * ConnectionState.t)) (v : view) : view := mkView
  (fun x => match ConcurrentStlMap.lookup (Some x) m with
            | Some cs => Some (set_failoverReconnect (ConnectionState.info cs))
            | None => v_connection v x
            end)
  (fun x => match ConcurrentStlMap.lookup (Some (SessionId_getParentId x)) m with
            | Some cs => match ConnectionInfo.connectionId (ConnectionState.info cs) with Some id => session_in id cs x | None => None end
            | None => v_session v x
            end)
  (fun x => match ConcurrentStlMap.lookup (Some (SessionId_getParentId (ProducerId_getParentId x))) m with
            | Some cs => producer_in cs x
            | None => v_producer v x
            end)
  (fun x => match ConcurrentStlMap.lookup (Some (SessionId_getParentId (ConsumerId_getParentId x))) m with
            | Some cs => consumer_in cs x
            | None => v_consumer v x
            end).
Lemma builds_connections h m v : minv (connection_ok h) m ->
  builds (concat (map (fun kcs => snapshot_connection s version (snd kcs)) m)) v (view_connections m v).
Proof.
  revert v. induction m as [|[k cs] m IH]; intros v Hm; [by apply (builds_eq _ _ v); [apply builds_nil |] |].
  pose proof (minv_cons _ _ _ _ Hm) as (Hcs & Hk & Hm'). pose proof Hcs as (id & C1 & C2 & C3 & _).
  eapply builds_app; [by apply (builds_connection h k cs v id) |].
  eapply builds_eq; [by apply IH |].
  assert (Hl : forall x, ConnectionId_ok x = true ->
    ConcurrentStlMap.lookup (Some x) ((k, cs) :: m) = if eqc x id then Some cs else ConcurrentStlMap.lookup (Some x) m).
  { intros x Hx. cbn. rewrite ConcurrentStlMap.equivalent_ok by done.
    rewrite (is_eq_key (Some x) k (Some id) C2 : eqc x id = is_eq (key_cmp (Some x) k)). by destruct (key_cmp (Some x) k). }
  assert (Ht : forall x, ConnectionId_ok x = true -> eqc x id = true -> ConcurrentStlMap.lookup (Some x) m = None).
  { intros x Hx E. apply (lookup_tail (Some x) k cs); [apply Hm | done |]. apply is_eq_true.
    by rewrite <- (is_eq_key (Some x) k (Some id) C2). }
  split_and!; intros x Hx; cbn [v_connection v_session v_producer v_consumer view_connections view_connection];
    rewrite Hl by done; match goal with |- context [eqc ?y id] => destruct (eqc y id) eqn:E; [rewrite (Ht y) by done | done] end;
    by rewrite ?C1.
Qed.
End Parts.

(** ** Restoring and tracking

    The registry a broker has after the snapshot: that of the tracker, connections
    marked as reconnects, consumers as they were restored; a connection always has
    its default session. *)
Definition reconnected (s : t) (version : Z) : view := view_connections version (connectionStates s) no_view.

(** C28. Restoring loses nothing.  On a tracker that restores sessions, producers and
    consumers and has no open transaction, over a transport that takes everything,
    [restore] succeeds and sends exactly this, in this order: for each connection its
    ConnectionInfo marked as a reconnect, its temporary destinations and its sessions, each
    followed by its producers and its consumers ([snapshot_connections]); then the messages
    and the pull requests that were kept.  A new tracker that is shown what was sent of the
    connections accepts every command, and then knows the same producers and sessions, the
    same connections marked as reconnects, and the same consumers, with a prefetch of zero
    where the interruption is still being handled. *)
Theorem restore_replays s tr : tracker_ok s -> quiet s = true ->
  restoreSessions s = true -> restoreProducers s = true -> restoreConsumers s = true ->
  let version := LoggingTransport.version tr in
  let commands := snapshot_connections s version in
  let kept := map DMessage (map snd (messageCache s)) ++ map DMessagePull (map snd (messagePullCache s)) in
  (exists s1, restore (s, tr) =
    (Ok tt, (s1, LoggingTransport.mk (LoggingTransport.sent tr ++ commands ++ kept) (LoggingTransport.received tr) version)) /\ tracker_ok s1) /\
  exists s', track_all commands new = (Ok tt, s') /\ tracker_ok s' /\
    (forall x, ConnectionId_ok x = true -> v_connection (view_of s') x = option_map set_failoverReconnect (v_connection (view_of s) x)) /\
    (forall x, SessionId_ok x = true -> v_session (view_of s) x <> None \/ SessionId.value x <> -1 ->
       v_session (view_of s') x = v_session (view_of s) x) /\
    (forall x, ProducerId_ok x = true -> v_producer (view_of s') x = v_producer (view_of s) x) /\
    (forall x, ConsumerId_ok x = true -> v_consumer (view_of s') x =
       option_map (restored_consumer version (default true (flag (Some (SessionId_getParentId (ConsumerId_getParentId x))) s)))
         (v_consumer (view_of s) x)).
Proof.
  intros Hs Hq H1 H2 H3 version commands kept. split.
  { destruct tr as [log received v]. destruct (restore_sends (fun log => LoggingTransport.mk log received v) v s log Hs Hq) as (s1 & E & Hs1).
    exists s1. split; [exact E | apply Hs1]. }
  destruct (track_all_builds commands new no_view (reconnected s version) new_ok) as (s' & E & Hok & V1 & V2 & V3 & V4).
  { by split_and!. }
  { apply (builds_connections s version (conj H1 (conj H2 H3)) (heap s)), Hs. }
  exists s'. split_and!; [done | done | ..]; intros x Hx.
  - rewrite V1 by done. cbn. unfold conn. by destruct (ConcurrentStlMap.lookup _ _).
  - intros Hx1. rewrite V2 by done. revert Hx1. cbn. unfold sess, conn.
    destruct (ConcurrentStlMap.lookup _ (connectionStates s)) as [cs|] eqn:Ec; [| done].
    destruct (conn_ok s Hs (SessionId_getParentId x) cs Hx Ec) as (id & -> & _).
    unfold session_in. destruct (ConcurrentStlMap.lookup (Some x) _) as [ss|]; [done |]. cbn. intros [?|Hv]; [done |].
    destruct (eqs x _) eqn:Ee; [| done]. apply is_eq_true in Ee. unfold SessionId_cmp in Ee. rewrite !thenc_eq in Ee.
    destruct Ee as (_ & Ee & _). by apply Z.compare_eq in Ee.
  - rewrite V3 by done. cbn. unfold sess, conn, producer_in. by destruct (ConcurrentStlMap.lookup _ (connectionStates s)).
  - rewrite V4 by done. cbn. unfold sess, conn, consumer_in, flag.
    destruct (ConcurrentStlMap.lookup _ (connectionStates s)) as [cs|]; [| done]. cbn. by destruct (ConcurrentStlMap.lookup _ _).
Qed.
Lemma restore_replays_witness :
  (exists s1, restore (Sample.interrupted, Sample.transport) = (Ok tt, (s1, LoggingTransport.mk (snapshot_connections Sample.interrupted 10) [] 10))) /\
  map getDataStructureType (snapshot_connections Sample.interrupted 10) = [3; 4; 4; 6; 5] /\
  exists s', track_all (snapshot_connections Sample.interrupted 10) new = (Ok tt, s') /\
    option_map ConsumerInfo.prefetchSize (v_consumer (view_of s') Sample.consumerId) = Some 0.
Proof.
  destruct (restore_replays Sample.interrupted Sample.transport) as [(s1 & E1 & _) (s' & E & _ & _ & _ & _ & H)];
    [by apply transportInterrupted_ok, shown_ok; [| apply new_ok] | reflexivity.. |].
  split; [exists s1; exact E1 |]. split; [vm_compute; reflexivity |].
  exists s'. split; [exact E |]. rewrite H by reflexivity. vm_compute. reflexivity.
Defined.
