(* ===== verification/TrackerFacts.v ===== *)
(** * Transactions, pull consumers and temporary destinations of the tracker

    What [doRestoreTransactions] sends of the transactions that are open and what it
    answers to a commit that is in doubt; and the parts of the tracker whose effect
    is not what their names say: a temporary destination is never forgotten, the
    consumers that wait for their prefetch are told again at every completion, a
    distributed transaction is refused (StateTracker.v). *)

From S2P Require Import Prelude DataStreams PrimitiveTypes Support BooleanStreams Wire BaseMarshaller Commands.
From S2P Require Import StringOrder Identifiers StateTracker TrackerLaws TrackerRestore TrackerRegistry.
Import NaturalOrder ConnectionStateTracker.

(** ** Open transactions *)

(** The commit whose outcome is not known. *)
Definition in_doubt (x : TransactionState.t) : option TransactionInfo.t :=
  match list.last (TransactionState.commands x) with
  | Some (DTransactionInfo i) => if TransactionInfo.type i =? 2 then Some i else None
  | _ => None
  end.
Definition remove_producer (p : ProducerState.t) : DataStructure :=
  let i := ProducerState.info p in
  DRemoveInfo (RemoveInfo.mk _ (BaseCommand.mk 0 (BaseCommand.responseRequired (ProducerInfo.base i)))
    (option_map DProducerId (ProducerInfo.producerId i)) 0).
(** A transaction is replayed between the producers it needs, unless it is in doubt. *)
Definition replayed (x : TransactionState.t) : list DataStructure :=
  match in_doubt x with
  | Some _ => []
  | None =>
    let producers := ConcurrentStlMap.values (TransactionState.producers x) in
    map (fun p => DProducerInfo (ProducerState.info p)) producers ++ TransactionState.commands x ++ map remove_producer producers
  end.
Fixpoint responses (l : list TransactionInfo.t) : result (list DataStructure) :=
  match l with
  | [] => Ok []
  | i :: l => rbind (rollback_response i) (fun r => rbind (responses l) (fun rs => Ok (r :: rs)))
  end.

Section Transactions.
Context (s : t) (version : Z).
Abbreviation logging log received := (s, LoggingTransport.mk log received version).

Lemma oneway_each {A} (xs : list A) (f : A -> DataStructure) log received :
  xfor xs (fun x => oneway (f x)) (logging log received) = (Ok tt, logging (log ++ map f xs) received).
Proof.
  revert log. induction xs as [|x xs IH]; intros log; cbn; [by rewrite app_nil_r |].
  unfold xbind, oneway at 1. cbn. rewrite IH. by rewrite <- app_assoc.
Qed.
Lemma restoreTransactionState_sends r x log received : heap s !! r = Some x -> TransactionState.commands x <> [] ->
  restoreTransactionState r (logging log received) =
  (Ok (match in_doubt x with Some i => [i] | None => [] end), logging (log ++ replayed x) received).
Proof.
  intros Hr Hx. unfold restoreTransactionState, xbind at 1, tracker, getTransaction. rewrite Hr.
  unfold replayed, in_doubt. destruct (list.last (TransactionState.commands x)) as [c|] eqn:El; [| by apply last_None in El].
  set (producers := ConcurrentStlMap.values _).
  assert (Hreplay : (xfor producers (fun p => oneway (DProducerInfo (ProducerState.info p))) ;+
     xfor (TransactionState.commands x) oneway ;+ xfor producers (fun p => oneway (remove_producer p)) ;+ xret (@nil TransactionInfo.t))
       (logging log received) =
     (Ok [], logging (log ++ map (fun p => DProducerInfo (ProducerState.info p)) producers ++ TransactionState.commands x ++
        map remove_producer producers) received)).
  { unfold xbind. rewrite oneway_each. change oneway with (fun c => @oneway _ LoggingTransport.transport c).
    rewrite (oneway_each (TransactionState.commands x) (fun c => c)), oneway_each, map_id. cbn. by rewrite <- !app_assoc. }
  destruct c; try exact Hreplay. case_match; [cbn; by rewrite app_nil_r | exact Hreplay].
Qed.
Lemma restoreTransactionStates_sends rs xs log received :
  Forall2 (fun r x => heap s !! r = Some x /\ TransactionState.commands x <> []) rs xs ->
  restoreTransactionStates rs (logging log received) = (Ok (omap in_doubt xs), logging (log ++ concat (map replayed xs)) received).
Proof.
  intros Hrs. revert log. induction Hrs as [|r x rs xs [Hr Hx] _ IH]; intros log; cbn; [by rewrite app_nil_r |].
  unfold xbind at 1. rewrite (restoreTransactionState_sends r x) by done. unfold xbind at 1. rewrite IH, <- app_assoc.
  unfold xret. by destruct (in_doubt x).
Qed.
Lemma responses_received l rs log received : responses l = Ok rs ->
  xfor l (fun info => let+ response := xlift (rollback_response info) in onCommand response) (logging log received) =
  (Ok tt, logging log (received ++ rs)).
Proof.
  revert rs received. induction l as [|i l IH]; intros rs received; cbn; [intros [= <-]; by rewrite app_nil_r |].
  destruct (rollback_response i) as [r|] eqn:Er; cbn; [| done]. destruct (responses l) as [rs'|]; cbn; [| done]. intros [= <-].
  rewrite (IH rs') by done. by rewrite <- app_assoc.
Qed.
End Transactions.

(** Restoring the transactions of a connection: one that is open is sent again,
    the producers that were closed in it before it and their removal after it; one
    whose commit was sent is not, but its commit is answered with a
    TransactionRolledBackException. *)
Theorem transactions_restored s cs tr xs rs :
  Forall2 (fun r x => heap s !! r = Some x /\ TransactionState.commands x <> []) (ConcurrentStlMap.values (ConnectionState.transactions cs)) xs ->
  responses (omap in_doubt xs) = Ok rs ->
  doRestoreTransactions cs (s, tr) =
    (Ok tt, (s, LoggingTransport.mk (LoggingTransport.sent tr ++ concat (map replayed xs))
                  (LoggingTransport.received tr ++ rs) (LoggingTransport.version tr))).
Proof.
  intros Hxs Hrs. destruct tr as [log received version]. unfold doRestoreTransactions, xcatch, xbind at 1.
  rewrite (restoreTransactionStates_sends s version _ xs) by done. by rewrite (responses_received s version _ rs).
Qed.

(** ** Consumers that wait for their prefetch *)
Definition control (kv : option ConsumerId.t * ConsumerInfo.t) : DataStructure :=
  DConsumerControl (ConsumerControl.mk BaseCommand.default (ConsumerInfo.destination (snd kv)) false (fst kv)
    (ConsumerInfo.prefetchSize (snd kv)) false false false).

(** At the end of an interruption every consumer that was restored as a pull
    consumer is told its prefetch; but the tracker still lists it afterwards: the map
    that is cleared is a copy, and the next completion tells it again. *)
Theorem stalled_consumers_kept s tr id cs : tracker_ok s -> ConnectionId_ok id = true -> conn s id = Some cs ->
  exists s' cs', connectionInterruptProcessingComplete (Some id) (s, tr) =
    (Ok tt, (s', LoggingTransport.mk (LoggingTransport.sent tr ++ map control (ConnectionState.recoveringPullConsumers cs))
                   (LoggingTransport.received tr) (LoggingTransport.version tr))) /\
    conn s' id = Some cs' /\ ConnectionState.connectionInterruptProcessingComplete cs' = true /\
    ConnectionState.recoveringPullConsumers cs' = ConnectionState.recoveringPullConsumers cs.
Proof.
  intros Hs Hid Hc. destruct tr as [log received version].
  set (cs' := ConnectionState.setConnectionInterruptProcessingComplete true cs).
  exists (set_connectionStates s (ConcurrentStlMap.insert (Some id) cs' (connectionStates s))), cs'.
  split; [| split_and!; [rewrite (conn_insert s Hs), eqc_refl by done; done | done..]].
  unfold connectionInterruptProcessingComplete, xbind at 1, tracker. rewrite (getConnection_conn s Hs), Hc by done.
  unfold xbind at 1, setConnection, xmodify. fold cs'. set (s' := set_connectionStates _ _).
  revert log. induction (ConnectionState.recoveringPullConsumers cs) as [|[k i] m IH]; intros log; cbn; [by rewrite app_nil_r |].
  rewrite IH. cbn [LoggingTransport.sent LoggingTransport.received LoggingTransport.version]. by rewrite <- app_assoc.
Qed.

(** ** Temporary destinations *)

(** A temporary destination is never forgotten: a command that removes one
    (operation type 1) is tracked as one that adds it, so that the list of a known
    connection grows by it and the next [restore] sends the removal again. *)
Theorem removed_destination_tracked a s i id d cs : tracker_ok s ->
  DestinationInfo.operationType i = 1 -> DestinationInfo.connectionId i = Some id -> ConnectionId_ok id = true ->
  DestinationInfo.destination i = Some d -> ActiveMQDestination.isTemporary (ActiveMQDestination.destinationType d) = true ->
  conn s id = Some cs ->
  exists s' cs', track a (DDestinationInfo i) s = (Ok (Some TRACKED_RESPONSE_MARKER), s') /\ conn s' id = Some cs' /\
    ConnectionState.tempDestinations cs' = ConnectionState.tempDestinations cs ++ [i].
Proof.
  intros Hs _ Hi Hid Hd Ht Hc. destruct (find_connection s Hs id Hid) as [[E _]|(cs0 & E & Hok & Hf)]; [congruence |].
  rewrite Hc in E. injection E as <-. destruct Hok as (cid & _ & _ & _ & Hdis & _).
  unfold track, visit, processDestinationInfo, xcatch. rewrite Hi, Hf, Hd, Ht.
  unfold ConnectionState.addTempDestination, ConnectionState.checkShutdown. rewrite Hdis.
  eexists _, _. split; [reflexivity |]. split; [rewrite (conn_insert s Hs), eqc_refl by done; done | done].
Qed.

(** ** Distributed transactions *)

(** A tracker that tracks transactions knows local ones only: the begin of a
    distributed transaction on a connection it knows is refused with an IOException
    and leaves the tracker as it was. *)
Theorem xa_transaction_refused a s i id x cs : tracker_ok s -> trackTransactions s = true ->
  TransactionInfo.type i = 0 -> TransactionInfo.connectionId i = Some id -> ConnectionId_ok id = true ->
  TransactionInfo.transactionId i = Some (TransactionId.XATransactionId x) -> conn s id = Some cs ->
  track a (DTransactionInfo i) s = (Err (Throw IOException), s).
Proof.
  intros Hs Ht H0 Hi Hid Hx Hc. destruct (find_connection s Hs id Hid) as [[E _]|(cs0 & E & Hok & Hf)]; [congruence |].
  destruct Hok as (cid & _ & _ & _ & Hdis & _).
  unfold track, visit, processTransactionInfo, processBeginTransaction, xcatch. rewrite H0. cbn [Z.eqb].
  unfold xbind at 1, xget. rewrite Ht. unfold xbind at 1. rewrite Hi, Hf.
  unfold ConnectionState.checkShutdown, ConnectionState.local_id, xbind, xlift. by rewrite Hdis, Hx.
Qed.

(** ** Instances *)
Definition sample_connection (s : t) : ConnectionState.t :=
  match conn s Sample.connectionId with Some cs => cs | None => ConnectionState.mk Sample.connection [] [] [] false false [] end.
Lemma sample_ok : tracker_ok Sample.tracker.
Proof. by apply shown_ok; [| apply new_ok]. Qed.
Lemma transactions_restored_witness :
  let s := Sample.transacted 2 in
  doRestoreTransactions (sample_connection s) (s, Sample.transport) =
    (Ok tt, (s, LoggingTransport.mk []
      (match responses [Sample.transaction 2] with Ok rs => rs | Err _ => [] end) 10)) /\
  let s := Sample.transacted 1 in
  doRestoreTransactions (sample_connection s) (s, Sample.transport) =
    (Ok tt, (s, LoggingTransport.mk [DTransactionInfo (Sample.transaction 0); DTransactionInfo (Sample.transaction 1)] [] 10)).
Proof.
  split; cbv zeta.
  - rewrite (transactions_restored (Sample.transacted 2) _ Sample.transport
      [TransactionState.mk [DTransactionInfo (Sample.transaction 0); DTransactionInfo (Sample.transaction 2)] (Some Sample.transactionId) false []]
      (match responses [Sample.transaction 2] with Ok rs => rs | Err _ => [] end)).
    + by vm_compute.
    + vm_compute; repeat constructor; discriminate.
    + vm_compute; reflexivity.
  - rewrite (transactions_restored (Sample.transacted 1) _ Sample.transport
      [TransactionState.mk [DTransactionInfo (Sample.transaction 0); DTransactionInfo (Sample.transaction 1)] (Some Sample.transactionId) false []] []).
    + by vm_compute.
    + vm_compute; repeat constructor; discriminate.
    + vm_compute; reflexivity.
Defined.
Lemma stalled_consumers_kept_witness : exists s' cs',
  connectionInterruptProcessingComplete (Some Sample.connectionId) (fst (snd (restore (Sample.interrupted, Sample.transport))), Sample.transport) =
    (Ok tt, (s', LoggingTransport.mk [control (Some Sample.consumerId, Sample.consumer)] [] 10)) /\
  conn s' Sample.connectionId = Some cs' /\ map fst (ConnectionState.recoveringPullConsumers cs') = [Some Sample.consumerId].
Proof.
  destruct (stalled_consumers_kept (fst (snd (restore (Sample.interrupted, Sample.transport)))) Sample.transport Sample.connectionId
    (sample_connection (fst (snd (restore (Sample.interrupted, Sample.transport)))))) as (s' & cs' & E & Hc & _ & Hr);
    [apply safe_restore, transportInterrupted_ok, sample_ok | reflexivity | vm_compute; reflexivity |].
  exists s', cs'. split; [| split; [exact Hc | rewrite Hr; vm_compute; reflexivity]].
  rewrite E. vm_compute. reflexivity.
Defined.
Lemma removed_destination_tracked_witness : exists s' cs',
  track 0 (DDestinationInfo (Sample.temporary 1)) Sample.tracker = (Ok (Some TRACKED_RESPONSE_MARKER), s') /\
  conn s' Sample.connectionId = Some cs' /\ ConnectionState.tempDestinations cs' = [Sample.temporary 1].
Proof.
  destruct (removed_destination_tracked 0 Sample.tracker (Sample.temporary 1) Sample.connectionId
    Sample.temporaryQueue (sample_connection Sample.tracker)) as (s' & cs' & H);
    [apply sample_ok | reflexivity.. | vm_compute; reflexivity |].
  exists s', cs'. exact H.
Defined.
Lemma xa_transaction_refused_witness :
  let i := TransactionInfo.mk BaseCommand.default (Some Sample.connectionId)
    (Some (TransactionId.XATransactionId (XATransactionId.mk 1 [1] [2]))) 0 in
  track 0 (DTransactionInfo i) (Sample.transacted 1) = (Err (Throw IOException), Sample.transacted 1).
Proof.
  apply (xa_transaction_refused _ _ _ Sample.connectionId (XATransactionId.mk 1 [1] [2]) (sample_connection (Sample.transacted 1)));
    [by apply shown_ok; [| exact new_ok] | reflexivity.. | vm_compute; reflexivity].
Defined.
