(* ===== verification/Uris.v ===== *)
(** * URIs and the pool the failover transport draws them from

    decaf/net/URI (the components of a parsed URI, [compareTo] with [operator==],
    [equals], decoding) and activemq/transport/failover/URIPool.  Parsing is an
    argument of the code that uses it.

    [compareTo] is shown to be an order on the URIs of brokers (server based, no
    escapes, no white space); the pool is a list without duplicates in it. *)

From S2P Require Import Prelude DataStreams PrimitiveTypes Support Commands StringOrder Identifiers.
Import NaturalOrder.

Definition is_nil (s : list Z) : bool := match s with [] => true | _ => false end.

Module URI.
Record t := mk {
  uriString : list Z;
  scheme : list Z;
  schemeSpecificPart : list Z;
  authority : list Z;
  userinfo : list Z;
  host : list Z;
  port : Z;
  path : list Z;
  query : list Z;
  fragment : list Z;
  opaque : bool
}.
Definition default : t := mk [] [] [] [] [] [] (-1) [] [] [] false.

(** URIEncoderDecoder::decode *)
Fixpoint decode (s : list Z) : result (list Z) :=
  match s with
  | [] => Ok []
  | c :: s' =>
    if c =? 37 then
      match s' with
      | h1 :: h2 :: s'' =>
        let d1 := Character.digit h1 16 in
        let d2 := Character.digit h2 16 in
        if (d1 =? -1) || (d2 =? -1) then throw IllegalArgumentException
        else rbind (decode s'') (fun r => Ok (to_u8 (Z.shiftl d1 4 + d2) :: r))
      | _ => throw IllegalArgumentException
      end
    else rbind (decode s') (fun r => Ok (c :: r))
  end.

(** The steps of [compareTo]: a comparison that decides unless it is zero, and one of
    two parts that may be missing. *)
Definition compare_nz (c : result Z) (k : result Z) : result Z :=
  rbind c (fun ret => if ret =? 0 then k else Ok (if 0 <? ret then 1 else -1)).
Definition compare_part (f : list Z -> list Z -> result Z) (a b : list Z) (k : result Z) : result Z :=
  if is_nil a && negb (is_nil b) then Ok (-1)
  else if negb (is_nil a) && is_nil b then Ok 1
  else if negb (is_nil a) && negb (is_nil b) then compare_nz (f a b) k
  else k.
Definition decoded {A} (a b : list Z) (k : list Z -> list Z -> result A) : result A :=
  rbind (decode a) (fun x => rbind (decode b) (fun y => k x y)).

Definition compareTo (a b : t) : result Z :=
  compare_part StringUtils.compareIgnoreCase (scheme a) (scheme b) (
  let fragments := decoded (fragment a) (fragment b) (fun x y => compare_part StringUtils.compare x y (Ok 0)) in
  if negb (opaque a) && opaque b then Ok (-1)
  else if opaque a && negb (opaque b) then Ok 1
  else if opaque a && opaque b then
    decoded (schemeSpecificPart a) (schemeSpecificPart b) (fun x y => compare_nz (StringUtils.compare x y) fragments)
  else
    let rest :=
      decoded (path a) (path b) (fun x y => compare_nz (StringUtils.compare x y)
      (decoded (query a) (query b) (fun x y => compare_part StringUtils.compare x y fragments))) in
    if negb (is_nil (authority a)) && is_nil (authority b) then Ok 1
    else if is_nil (authority a) && negb (is_nil (authority b)) then Ok (-1)
    else if negb (is_nil (authority a)) && negb (is_nil (authority b)) then
      if negb (is_nil (host a)) && negb (is_nil (host b)) then
        decoded (userinfo a) (userinfo b) (fun x y => compare_part StringUtils.compare x y
        (compare_nz (StringUtils.compareIgnoreCase (host a) (host b))
        (if negb (port a =? port b) then Ok (if 0 <? port a - port b then 1 else -1) else rest)))
      else compare_nz (StringUtils.compare (authority a) (authority b)) rest
    else rest).
(** [operator==] and [operator<] *)
Definition eq (a b : t) : result bool := rbind (compareTo a b) (fun r => Ok (r =? 0)).
Definition lt (a b : t) : result bool := rbind (compareTo a b) (fun r => Ok (r =? -1)).

(** [equalsHexCaseInsensitive]; [fuel] bounds the number of escapes. *)
Definition find (s : list Z) (pos : nat) : option nat := find_from (fun c => c =? 37) s (Some pos).
Fixpoint equalsHex_loop (fuel : nat) (first second : list Z) (previndex : nat) : result bool :=
  match fuel with
  | O => Err NoFuel
  | S fuel =>
    match find first previndex, find second previndex with
    | Some index, Some index' =>
      if (index =? index')%nat then
        rbind (substr first previndex (Some (index - previndex)%nat)) (fun x =>
        rbind (substr second previndex (Some (index - previndex)%nat)) (fun y =>
        if negb (bool_decide (x = y)) then Ok false
        else
          rbind (substr first (index + 1) (Some 3%nat)) (fun x =>
          rbind (substr second (index + 1) (Some 3%nat)) (fun y =>
          rbind (StringUtils.compareIgnoreCase x y) (fun r =>
          if negb (r =? 0) then Ok false else equalsHex_loop fuel first second (index + 3))))))
      else rbind (substr first previndex None) (fun x => rbind (substr second previndex None) (fun y => Ok (bool_decide (x = y))))
    | _, _ => rbind (substr first previndex None) (fun x => rbind (substr second previndex None) (fun y => Ok (bool_decide (x = y))))
    end
  end.
Definition equalsHexCaseInsensitive (first second : list Z) : result bool :=
  if negb (bool_decide (find first 0 = find second 0)) then rbind (StringUtils.compare first second) (fun r => Ok (r =? 0))
  else equalsHex_loop (S (length first)) first second 0.

(** Two parts of which both or none may be missing. *)
Definition both (f : list Z -> list Z -> result bool) (a b : list Z) (k : result bool) : result bool :=
  if xorb (is_nil a) (is_nil b) then Ok false
  else if is_nil a then k else rbind (f a b) (fun e => if e then k else Ok false).
Definition same_ignoring_case (a b : list Z) : result bool := rbind (StringUtils.compareIgnoreCase a b) (fun r => Ok (r =? 0)).
Definition equals (a b : t) : result bool :=
  both equalsHexCaseInsensitive (fragment b) (fragment a) (
  both same_ignoring_case (scheme b) (scheme a) (
  if opaque b && opaque a then equalsHexCaseInsensitive (schemeSpecificPart b) (schemeSpecificPart a)
  else if negb (opaque b) && negb (opaque a) then
    rbind (equalsHexCaseInsensitive (path a) (path b)) (fun e =>
    if negb e then Ok false
    else
      both equalsHexCaseInsensitive (query b) (query a) (
      if xorb (is_nil (authority b)) (is_nil (authority a)) then Ok false
      else if is_nil (authority a) then Ok true
      else if xorb (is_nil (host b)) (is_nil (host a)) then Ok false
      else if is_nil (host b) then equalsHexCaseInsensitive (authority b) (authority a)
      else
        rbind (same_ignoring_case (host b) (host a)) (fun e =>
        if negb e then Ok false
        else if negb (port a =? port b) then Ok false
        else both equalsHexCaseInsensitive (userinfo a) (userinfo b) (Ok true))))
  else Ok false)).

Definition toString (u : t) : list Z :=
  if negb (is_nil (uriString u)) then uriString u
  else
    (if is_nil (scheme u) then [] else scheme u ++ str ":") ++
    (if opaque u then schemeSpecificPart u
     else
       (if is_nil (authority u) then [] else str "//" ++ authority u) ++ path u ++
       (if is_nil (query u) then [] else str "?" ++ query u)) ++
    (if is_nil (fragment u) then [] else str "#" ++ fragment u).
End URI.

(** ** The pool *)
Module URIPool.
Record t := mk { uriPool : list URI.t; priorityURI : URI.t; randomize : bool }.
Definition new : t := mk [] URI.default false.
(** The copy constructor. *)
Definition copy (uris : t) : t :=
  mk (uriPool uris) (match uriPool uris with u :: _ => u | [] => URI.default end) false.

(** LinkedList::indexOf and removeFirstOccurrence with [operator==] *)
Fixpoint list_contains (u : URI.t) (l : list URI.t) : result bool :=
  match l with
  | [] => Ok false
  | v :: l => rbind (URI.eq v u) (fun e => if e then Ok true else list_contains u l)
  end.
Fixpoint list_remove (u : URI.t) (l : list URI.t) : result (list URI.t) :=
  match l with
  | [] => Ok []
  | v :: l => rbind (URI.eq v u) (fun e => if e then Ok l else rbind (list_remove u l) (fun l => Ok (v :: l)))
  end.

(** [getURI]; [draw n] is what [Random::nextInt(n)] answers. *)
Definition getURI (draw : Z -> Z) (p : t) : result (URI.t * t) :=
  match uriPool p with
  | [] => throw NoSuchElementException
  | _ =>
    let index := if randomize p then draw (zlen (uriPool p)) else 0 in
    if index <? 0 then throw IndexOutOfBoundsException
    else match uriPool p !! Z.to_nat index with
         | Some u => Ok (u, mk (delete (Z.to_nat index) (uriPool p)) (priorityURI p) (randomize p))
         | None => throw IndexOutOfBoundsException
         end
  end.
Definition first_priority (u : URI.t) (p : t) : t :=
  if is_nil (URI.toString (priorityURI p)) && negb (is_nil (URI.toString u)) then mk (uriPool p) u (randomize p) else p.
Definition addURI (u : URI.t) (p : t) : result (bool * t) :=
  let p := first_priority u p in
  rbind (list_contains u (uriPool p)) (fun found =>
  if found then Ok (false, p) else Ok (true, mk (uriPool p ++ [u]) (priorityURI p) (randomize p))).
Fixpoint addURIs_loop (us : list URI.t) (added : bool) (p : t) : result (bool * t) :=
  match us with
  | [] => Ok (added, p)
  | u :: us => rbind (addURI u p) (fun '(a, p) => addURIs_loop us (added || a) p)
  end.
Definition addURIs (us : list URI.t) (p : t) : result (bool * t) := addURIs_loop us false p.
Definition removeURI (u : URI.t) (p : t) : result (bool * t) :=
  rbind (list_contains u (uriPool p)) (fun found =>
  if found then rbind (list_remove u (uriPool p)) (fun l => Ok (true, mk l (priorityURI p) (randomize p)))
  else Ok (false, p)).
Definition contains (u : URI.t) (p : t) : result bool := list_contains u (uriPool p).
Definition isPriority (u : URI.t) (p : t) : result bool := URI.equals (priorityURI p) u.
Definition clear (p : t) : t := mk [] (priorityURI p) (randomize p).
Definition isEmpty (p : t) : bool := match uriPool p with [] => true | _ => false end.
(** [mine.equals(others)]: as many, and each of the others is in mine. *)
Fixpoint contains_all (l mine : list URI.t) : result bool :=
  match l with
  | [] => Ok true
  | u :: l => rbind (list_contains u mine) (fun e => if e then contains_all l mine else Ok false)
  end.
Definition equals (p other : t) : result bool :=
  if zlen (uriPool p) =? zlen (uriPool other) then contains_all (uriPool other) (uriPool p) else Ok false.
Definition setRandomize (b : bool) (p : t) : t := mk (uriPool p) (priorityURI p) b.
End URIPool.

(** ** The order of broker URIs *)
Definition plain (s : list Z) : bool := clean s && negb (elem 37 s).
Definition broker_uri (u : URI.t) : bool :=
  negb (URI.opaque u) && negb (is_nil (URI.authority u)) && negb (is_nil (URI.host u)) &&
  clean (URI.scheme u) && clean (URI.host u) && plain (URI.userinfo u) && plain (URI.path u) && plain (URI.query u) && plain (URI.fragment u).

Definition part_cmp (ignoreCase : bool) (a b : list Z) : comparison :=
  thenc (Z.compare (if is_nil a then 0 else 1) (if is_nil b then 0 else 1)) (lex (keys ignoreCase a) (keys ignoreCase b)).
Definition uri_cmp (a b : URI.t) : comparison :=
  thenc (part_cmp true (URI.scheme a) (URI.scheme b))
  (thenc (part_cmp false (URI.userinfo a) (URI.userinfo b))
  (thenc (lex (keys true (URI.host a)) (keys true (URI.host b)))
  (thenc (Z.compare (URI.port a) (URI.port b))
  (thenc (lex (keys false (URI.path a)) (keys false (URI.path b)))
  (thenc (part_cmp false (URI.query a) (URI.query b)) (part_cmp false (URI.fragment a) (URI.fragment b))))))).

Lemma part_order ignoreCase : order (part_cmp ignoreCase).
Proof.
  apply (order_then (fun a b => Z.compare (if is_nil a then 0 else 1) (if is_nil b then 0 else 1))).
  - exact (order_map (fun a => if is_nil a then 0 else 1) _ order_Z).
  - exact (order_map (keys ignoreCase) _ order_lex).
Qed.
Lemma uri_order : order uri_cmp.
Proof.
  exact (order_then _ _ (order_map URI.scheme _ (part_order true))
    (order_then _ _ (order_map URI.userinfo _ (part_order false))
    (order_then _ _ (order_map (fun u => keys true (URI.host u)) _ order_lex)
    (order_then _ _ (order_map URI.port _ order_Z)
    (order_then _ _ (order_map (fun u => keys false (URI.path u)) _ order_lex)
    (order_then _ _ (order_map URI.query _ (part_order false)) (order_map URI.fragment _ (part_order false)))))))).
Qed.

Lemma decode_plain s : plain s = true -> URI.decode s = Ok s.
Proof.
  unfold plain. induction s as [|c s IH]; [done |].
  cbn -[Z.eqb Chars.isWhitespace swrap]. rewrite !andb_true_iff, negb_orb, andb_true_iff, !negb_true_iff.
  intros [[_ Hs] [Hc Hn]]. rewrite (Z.eqb_sym c 37), Hc, IH; [done |]. unfold clean. by rewrite andb_true_iff, negb_true_iff.
Qed.
Lemma decoded_plain {A} a b (k : _ -> _ -> result A) : plain a = true -> plain b = true -> URI.decoded a b k = k a b.
Proof. intros Ha Hb. unfold URI.decoded. by rewrite !decode_plain. Qed.
Lemma compare_nz_ok c d : URI.compare_nz (Ok (of_comparison c)) (Ok (of_comparison d)) = Ok (of_comparison (thenc c d)).
Proof. by destruct c. Qed.
Lemma compare_part_ok ignoreCase a b d : clean a = true -> clean b = true ->
  URI.compare_part (fun x y => StringUtils.doCompare x y ignoreCase) a b (Ok (of_comparison d)) =
  Ok (of_comparison (thenc (part_cmp ignoreCase a b) d)).
Proof.
  intros Ha Hb. unfold URI.compare_part, part_cmp. rewrite doCompare_clean by done.
  destruct a as [|x a], b as [|y b]; try done.
  - by rewrite (order_refl _ order_lex).
  - cbn [is_nil andb negb]. by rewrite compare_nz_ok.
Qed.
Lemma plain_clean s : plain s = true -> clean s = true.
Proof. unfold plain. by rewrite andb_true_iff; intros [? _]. Qed.

Lemma compareTo_broker a b : broker_uri a = true -> broker_uri b = true ->
  URI.compareTo a b = Ok (of_comparison (uri_cmp a b)).
Proof.
  unfold broker_uri. rewrite !andb_true_iff, !negb_true_iff.
  intros ((((((((A1 & A2) & A3) & A4) & A5) & A6) & A7) & A8) & A9) ((((((((B1 & B2) & B3) & B4) & B5) & B6) & B7) & B8) & B9).
  unfold URI.compareTo. rewrite A1, B1, A2, B2, A3, B3. cbn [andb negb]. rewrite !decoded_plain by done.
  unfold StringUtils.compare, StringUtils.compareIgnoreCase.
  change (Ok 0) with (Ok (of_comparison Eq)). rewrite !(doCompare_clean _ _ _) by (done || by apply plain_clean).
  rewrite !(compare_part_ok false) by by apply plain_clean. rewrite compare_nz_ok.
  set (rest := thenc (lex (keys false (URI.path a)) _) _).
  assert (Hport : (if negb (URI.port a =? URI.port b) then Ok (if 0 <? URI.port a - URI.port b then 1 else -1) else Ok (of_comparison rest)) =
    Ok (of_comparison (thenc (Z.compare (URI.port a) (URI.port b)) rest))).
  { destruct (Z.compare_spec (URI.port a) (URI.port b)) as [E|E|E]; cbn [thenc].
    - by rewrite (proj2 (Z.eqb_eq _ _) E).
    - rewrite (proj2 (Z.eqb_neq _ _)) by lia. cbn. by rewrite (proj2 (Z.ltb_ge _ _)) by lia.
    - rewrite (proj2 (Z.eqb_neq _ _)) by lia. cbn. by rewrite (proj2 (Z.ltb_lt _ _)) by lia. }
  rewrite Hport, compare_nz_ok, compare_part_ok by by apply plain_clean. rewrite compare_part_ok by done.
  unfold uri_cmp, rest. by destruct (part_cmp false (URI.fragment a) (URI.fragment b)).
Qed.
