(* ===== verification/Failover.v ===== *)
(** * The failover transport

    activemq/transport/failover: FailoverTransport.cpp with FailoverTransportListener,
    BackupTransportPool, BackupTransport and CloseTransportsTask, and the task runner
    of activemq/threads/CompositeTaskRunner.cpp that drives them.

    The transports below are a parameter, [Network]: a transport is a handle into the
    state of the network.  The code runs under one mutex: an operation is a
    computation of [X] on the state of the transport and of the network.  The one
    place it waits for other threads is [oneway]; it is given what the others do
    while it waits. *)

From S2P Require Import Prelude DataStreams PrimitiveTypes Support BooleanStreams Wire BaseMarshaller Commands.
From S2P Require Import StringOrder Identifiers StateTracker Uris.

(** ** The network: creating, starting, using and closing transports; [net_random] is
    [Random::nextInt]. *)
Class Network (N : Type) := {
  net_create : URI.t -> N -> result nat * N;
  net_start : nat -> N -> result unit * N;
  net_oneway : nat -> DataStructure -> N -> result unit * N;
  net_version : nat -> N -> Z;
  net_stop : nat -> N -> N;
  net_close : nat -> N -> N;
  net_random : Z -> N -> Z
}.

(** ** What the transport asks of a command *)
Definition command_base (c : DataStructure) : BaseCommand.t :=
  match c with
  | DMessage m => Message.base m
  | DBrokerInfo i => BrokerInfo.base i
  | DConnectionControl i => ConnectionControl.base i
  | DConnectionError i => ConnectionError.base i
  | DConnectionInfo i => ConnectionInfo.base i
  | DConsumerControl i => ConsumerControl.base i
  | DConsumerInfo i => ConsumerInfo.base i
  | DControlCommand i => ControlCommand.base i
  | DDataArrayResponse i => Response.base (DataArrayResponse.base i)
  | DDataResponse i => Response.base (DataResponse.base i)
  | DDestinationInfo i => DestinationInfo.base i
  | DExceptionResponse i => Response.base (ExceptionResponse.base i)
  | DFlushCommand i => FlushCommand.base i
  | DIntegerResponse i => Response.base (IntegerResponse.base i)
  | DKeepAliveInfo i => KeepAliveInfo.base i
  | DMessageAck i => MessageAck.base i
  | DMessageDispatch i => MessageDispatch.base i
  | DMessageDispatchNotification i => MessageDispatchNotification.base i
  | DMessagePull i => MessagePull.base i
  | DProducerAck i => ProducerAck.base i
  | DProducerInfo i => ProducerInfo.base i
  | DRemoveInfo i => RemoveInfo.base i
  | DRemoveSubscriptionInfo i => RemoveSubscriptionInfo.base i
  | DReplayCommand i => ReplayCommand.base i
  | DResponse i => Response.base i
  | DSessionInfo i => SessionInfo.base i
  | DShutdownInfo i => ShutdownInfo.base i
  | DTransactionInfo i => TransactionInfo.base i
  | DWireFormatInfo i => WireFormatInfo.base i
  | _ => BaseCommand.default
  end.
Definition getCommandId (c : DataStructure) : Z := BaseCommand.commandId (command_base c).
Definition isResponseRequired (c : DataStructure) : bool := BaseCommand.responseRequired (command_base c).
(** The correlation id of a command that is a Response. *)
Definition response_id (c : DataStructure) : option Z :=
  match c with
  | DResponse r => Some (Response.correlationId r)
  | DDataArrayResponse i => Some (Response.correlationId (DataArrayResponse.base i))
  | DDataResponse i => Some (Response.correlationId (DataResponse.base i))
  | DExceptionResponse i => Some (Response.correlationId (ExceptionResponse.base i))
  | DIntegerResponse i => Some (Response.correlationId (IntegerResponse.base i))
  | _ => None
  end.
Definition isMessage (c : DataStructure) : bool := match c with DMessage _ => true | _ => false end.
Definition isShutdownInfo (c : DataStructure) : bool := match c with DShutdownInfo _ => true | _ => false end.

(** The maps with [int] keys. *)
#[global] Instance Z_comparator : Comparator Z := fun a b => Ok (NaturalOrder.of_comparison (Z.compare a b)).
#[global, refine] Instance Z_laws : ComparatorLaws Z := {| key_ok _ := true; key_cmp := Z.compare |}.
Proof. - exact order_Z. - done. Defined.

(** ** The backups *)
Module BackupTransport.
Record t := mk { transport : nat; uri : URI.t; priority : bool }.
End BackupTransport.

Module BackupTransportPool.
Record t := mk {
  backups : list BackupTransport.t;
  pending : bool;
  closed : bool;
  priorityBackups : Z;
  backupPoolSize : Z;
  enabled : bool
}.
Definition new : t := mk [] false false 0 1 false.
Definition close (p : t) : t :=
  if closed p then p else mk [] (pending p) true (priorityBackups p) (backupPoolSize p) false.
(** [setEnabled] without the wake up of the task runner. *)
Definition setEnabled (value : bool) (p : t) : t :=
  if closed p then p
  else mk (if value then backups p else []) (pending p) (closed p) (priorityBackups p) (backupPoolSize p) value.
Definition getBackup (p : t) : result (option BackupTransport.t * t) :=
  if negb (enabled p) then throw IllegalStateException
  else Ok (head (backups p), mk (tail (backups p)) true (closed p) (priorityBackups p) (backupPoolSize p) (enabled p)).
Definition isPending (p : t) : bool := enabled p && pending p.
Definition isPriorityBackupAvailable (p : t) : bool := 0 <? priorityBackups p.
Definition setBackupPoolSize (n : Z) (p : t) : t :=
  mk (backups p) (pending p) (closed p) (priorityBackups p) n (enabled p).
End BackupTransportPool.

Module FailoverTransport.
Module Options.
Record t := mk {
  timeout : Z;
  initialReconnectDelay : Z;
  maxReconnectDelay : Z;
  backOffMultiplier : Z;
  useExponentialBackOff : bool;
  maxReconnectAttempts : Z;
  startupMaxReconnectAttempts : Z;
  trackMessages : bool;
  trackTransactionProducers : bool;
  maxCacheSize : Z;
  maxPullCacheSize : Z;
  updateURIsSupported : bool;
  reconnectSupported : bool;
  priorityBackup : bool;
  backupsEnabled : bool
}.
Definition default : t := mk (-1) 10 30000 2 true (-1) (-1) false true (128 * 1024) 10 true true false false.
End Options.

(** A request that waits for its response: the command, or the action of the tracker. *)
Inductive request :=
| Command (c : DataStructure)
| Waiting (tracked : Tracked).
(** What the listener of the transport is told. *)
Inductive event :=
| onCommand (c : DataStructure)
| onException (e : exn)
| transportInterrupted
| transportResumed.

Record t := mk {
  options : Options.t;
  closed : bool;
  connected : bool;
  started : bool;
  initialized : bool;
  shutdown : bool;
  firstConnection : bool;
  doRebalance : bool;
  connectedToPriority : bool;
  connectFailures : Z;
  reconnectDelay : Z;
  requestMap : list (Z * request);
  uris : URIPool.t;
  priorityUris : URIPool.t;
  updated : URIPool.t;
  connectedTransportURI : option URI.t;
  connectedTransport : option nat;
  connectionFailure : option exn;
  backups : BackupTransportPool.t;
  closeTask : list nat;
  stateTracker : ConnectionStateTracker.t;
  transportListener : bool;
  wakeup : bool;
  events : list event
}.
Definition set_options (v : Options.t) (s : t) : t := mk v (closed s) (connected s) (started s) (initialized s)
  (shutdown s) (firstConnection s) (doRebalance s) (connectedToPriority s) (connectFailures s) (reconnectDelay s)
  (requestMap s) (uris s) (priorityUris s) (updated s) (connectedTransportURI s) (connectedTransport s)
  (connectionFailure s) (backups s) (closeTask s) (stateTracker s) (transportListener s) (wakeup s) (events s).
Definition set_closed (v : bool) (s : t) : t := mk (options s) v (connected s) (started s) (initialized s) (shutdown
  s) (firstConnection s) (doRebalance s) (connectedToPriority s) (connectFailures s) (reconnectDelay s) (requestMap s)
  (uris s) (priorityUris s) (updated s) (connectedTransportURI s) (connectedTransport s) (connectionFailure s)
  (backups s) (closeTask s) (stateTracker s) (transportListener s) (wakeup s) (events s).
Definition set_connected (v : bool) (s : t) : t := mk (options s) (closed s) v (started s) (initialized s) (shutdown
  s) (firstConnection s) (doRebalance s) (connectedToPriority s) (connectFailures s) (reconnectDelay s) (requestMap s)
  (uris s) (priorityUris s) (updated s) (connectedTransportURI s) (connectedTransport s) (connectionFailure s)
  (backups s) (closeTask s) (stateTracker s) (transportListener s) (wakeup s) (events s).
Definition set_started (v : bool) (s : t) : t := mk (options s) (closed s) (connected s) v (initialized s) (shutdown
  s) (firstConnection s) (doRebalance s) (connectedToPriority s) (connectFailures s) (reconnectDelay s) (requestMap s)
  (uris s) (priorityUris s) (updated s) (connectedTransportURI s) (connectedTransport s) (connectionFailure s)
  (backups s) (closeTask s) (stateTracker s) (transportListener s) (wakeup s) (events s).
Definition set_initialized (v : bool) (s : t) : t := mk (options s) (closed s) (connected s) (started s) v (shutdown
  s) (firstConnection s) (doRebalance s) (connectedToPriority s) (connectFailures s) (reconnectDelay s) (requestMap s)
  (uris s) (priorityUris s) (updated s) (connectedTransportURI s) (connectedTransport s) (connectionFailure s)
  (backups s) (closeTask s) (stateTracker s) (transportListener s) (wakeup s) (events s).
Definition set_shutdown (v : bool) (s : t) : t := mk (options s) (closed s) (connected s) (started s) (initialized s)
  v (firstConnection s) (doRebalance s) (connectedToPriority s) (connectFailures s) (reconnectDelay s) (requestMap s)
  (uris s) (priorityUris s) (updated s) (connectedTransportURI s) (connectedTransport s) (connectionFailure s)
  (backups s) (closeTask s) (stateTracker s) (transportListener s) (wakeup s) (events s).
Definition set_firstConnection (v : bool) (s : t) : t := mk (options s) (closed s) (connected s) (started s)
  (initialized s) (shutdown s) v (doRebalance s) (connectedToPriority s) (connectFailures s) (reconnectDelay s)
  (requestMap s) (uris s) (priorityUris s) (updated s) (connectedTransportURI s) (connectedTransport s)
  (connectionFailure s) (backups s) (closeTask s) (stateTracker s) (transportListener s) (wakeup s) (events s).
Definition set_doRebalance (v : bool) (s : t) : t := mk (options s) (closed s) (connected s) (started s) (initialized
  s) (shutdown s) (firstConnection s) v (connectedToPriority s) (connectFailures s) (reconnectDelay s) (requestMap s)
  (uris s) (priorityUris s) (updated s) (connectedTransportURI s) (connectedTransport s) (connectionFailure s)
  (backups s) (closeTask s) (stateTracker s) (transportListener s) (wakeup s) (events s).
Definition set_connectedToPriority (v : bool) (s : t) : t := mk (options s) (closed s) (connected s) (started s)
  (initialized s) (shutdown s) (firstConnection s) (doRebalance s) v (connectFailures s) (reconnectDelay s)
  (requestMap s) (uris s) (priorityUris s) (updated s) (connectedTransportURI s) (connectedTransport s)
  (connectionFailure s) (backups s) (closeTask s) (stateTracker s) (transportListener s) (wakeup s) (events s).
Definition set_connectFailures (v : Z) (s : t) : t := mk (options s) (closed s) (connected s) (started s) (initialized
  s) (shutdown s) (firstConnection s) (doRebalance s) (connectedToPriority s) v (reconnectDelay s) (requestMap s)
  (uris s) (priorityUris s) (updated s) (connectedTransportURI s) (connectedTransport s) (connectionFailure s)
  (backups s) (closeTask s) (stateTracker s) (transportListener s) (wakeup s) (events s).
Definition set_reconnectDelay (v : Z) (s : t) : t := mk (options s) (closed s) (connected s) (started s) (initialized
  s) (shutdown s) (firstConnection s) (doRebalance s) (connectedToPriority s) (connectFailures s) v (requestMap s)
  (uris s) (priorityUris s) (updated s) (connectedTransportURI s) (connectedTransport s) (connectionFailure s)
  (backups s) (closeTask s) (stateTracker s) (transportListener s) (wakeup s) (events s).
Definition set_requestMap (v : list (Z * request)) (s : t) : t := mk (options s) (closed s) (connected s) (started s)
  (initialized s) (shutdown s) (firstConnection s) (doRebalance s) (connectedToPriority s) (connectFailures s)
  (reconnectDelay s) v (uris s) (priorityUris s) (updated s) (connectedTransportURI s) (connectedTransport s)
  (connectionFailure s) (backups s) (closeTask s) (stateTracker s) (transportListener s) (wakeup s) (events s).
Definition set_uris (v : URIPool.t) (s : t) : t := mk (options s) (closed s) (connected s) (started s) (initialized s)
  (shutdown s) (firstConnection s) (doRebalance s) (connectedToPriority s) (connectFailures s) (reconnectDelay s)
  (requestMap s) v (priorityUris s) (updated s) (connectedTransportURI s) (connectedTransport s) (connectionFailure s)
  (backups s) (closeTask s) (stateTracker s) (transportListener s) (wakeup s) (events s).
Definition set_priorityUris (v : URIPool.t) (s : t) : t := mk (options s) (closed s) (connected s) (started s)
  (initialized s) (shutdown s) (firstConnection s) (doRebalance s) (connectedToPriority s) (connectFailures s)
  (reconnectDelay s) (requestMap s) (uris s) v (updated s) (connectedTransportURI s) (connectedTransport s)
  (connectionFailure s) (backups s) (closeTask s) (stateTracker s) (transportListener s) (wakeup s) (events s).
Definition set_updated (v : URIPool.t) (s : t) : t := mk (options s) (closed s) (connected s) (started s) (initialized
  s) (shutdown s) (firstConnection s) (doRebalance s) (connectedToPriority s) (connectFailures s) (reconnectDelay s)
  (requestMap s) (uris s) (priorityUris s) v (connectedTransportURI s) (connectedTransport s) (connectionFailure s)
  (backups s) (closeTask s) (stateTracker s) (transportListener s) (wakeup s) (events s).
Definition set_connectedTransportURI (v : option URI.t) (s : t) : t := mk (options s) (closed s) (connected s)
  (started s) (initialized s) (shutdown s) (firstConnection s) (doRebalance s) (connectedToPriority s)
  (connectFailures s) (reconnectDelay s) (requestMap s) (uris s) (priorityUris s) (updated s) v (connectedTransport s)
  (connectionFailure s) (backups s) (closeTask s) (stateTracker s) (transportListener s) (wakeup s) (events s).
Definition set_connectedTransport (v : option nat) (s : t) : t := mk (options s) (closed s) (connected s) (started s)
  (initialized s) (shutdown s) (firstConnection s) (doRebalance s) (connectedToPriority s) (connectFailures s)
  (reconnectDelay s) (requestMap s) (uris s) (priorityUris s) (updated s) (connectedTransportURI s) v
  (connectionFailure s) (backups s) (closeTask s) (stateTracker s) (transportListener s) (wakeup s) (events s).
Definition set_connectionFailure (v : option exn) (s : t) : t := mk (options s) (closed s) (connected s) (started s)
  (initialized s) (shutdown s) (firstConnection s) (doRebalance s) (connectedToPriority s) (connectFailures s)
  (reconnectDelay s) (requestMap s) (uris s) (priorityUris s) (updated s) (connectedTransportURI s)
  (connectedTransport s) v (backups s) (closeTask s) (stateTracker s) (transportListener s) (wakeup s) (events s).
Definition set_backups (v : BackupTransportPool.t) (s : t) : t := mk (options s) (closed s) (connected s) (started s)
  (initialized s) (shutdown s) (firstConnection s) (doRebalance s) (connectedToPriority s) (connectFailures s)
  (reconnectDelay s) (requestMap s) (uris s) (priorityUris s) (updated s) (connectedTransportURI s)
  (connectedTransport s) (connectionFailure s) v (closeTask s) (stateTracker s) (transportListener s) (wakeup s)
  (events s).
Definition set_closeTask (v : list nat) (s : t) : t := mk (options s) (closed s) (connected s) (started s)
  (initialized s) (shutdown s) (firstConnection s) (doRebalance s) (connectedToPriority s) (connectFailures s)
  (reconnectDelay s) (requestMap s) (uris s) (priorityUris s) (updated s) (connectedTransportURI s)
  (connectedTransport s) (connectionFailure s) (backups s) v (stateTracker s) (transportListener s) (wakeup s) (events
  s).
Definition set_stateTracker (v : ConnectionStateTracker.t) (s : t) : t := mk (options s) (closed s) (connected s)
  (started s) (initialized s) (shutdown s) (firstConnection s) (doRebalance s) (connectedToPriority s)
  (connectFailures s) (reconnectDelay s) (requestMap s) (uris s) (priorityUris s) (updated s) (connectedTransportURI
  s) (connectedTransport s) (connectionFailure s) (backups s) (closeTask s) v (transportListener s) (wakeup s) (events
  s).
Definition set_transportListener (v : bool) (s : t) : t := mk (options s) (closed s) (connected s) (started s)
  (initialized s) (shutdown s) (firstConnection s) (doRebalance s) (connectedToPriority s) (connectFailures s)
  (reconnectDelay s) (requestMap s) (uris s) (priorityUris s) (updated s) (connectedTransportURI s)
  (connectedTransport s) (connectionFailure s) (backups s) (closeTask s) (stateTracker s) v (wakeup s) (events s).
Definition set_wakeup (v : bool) (s : t) : t := mk (options s) (closed s) (connected s) (started s) (initialized s)
  (shutdown s) (firstConnection s) (doRebalance s) (connectedToPriority s) (connectFailures s) (reconnectDelay s)
  (requestMap s) (uris s) (priorityUris s) (updated s) (connectedTransportURI s) (connectedTransport s)
  (connectionFailure s) (backups s) (closeTask s) (stateTracker s) (transportListener s) v (events s).
Definition set_events (v : list event) (s : t) : t := mk (options s) (closed s) (connected s) (started s) (initialized
  s) (shutdown s) (firstConnection s) (doRebalance s) (connectedToPriority s) (connectFailures s) (reconnectDelay s)
  (requestMap s) (uris s) (priorityUris s) (updated s) (connectedTransportURI s) (connectedTransport s)
  (connectionFailure s) (backups s) (closeTask s) (stateTracker s) (transportListener s) (wakeup s) v.


Definition DEFAULT_INITIAL_RECONNECT_DELAY : Z := 10.
Definition INFINITE_WAIT : Z := -1.

Definition new : t := mk Options.default false false false false false true false false 0 DEFAULT_INITIAL_RECONNECT_DELAY []
  URIPool.new URIPool.new URIPool.new None None None BackupTransportPool.new []
  (ConnectionStateTracker.configure (ConnectionStateTracker.setTrackTransactions true) ConnectionStateTracker.new)
  false false [].

(** ** The predicates of FailoverTransportImpl *)
Definition calculateReconnectAttemptLimit (s : t) : Z :=
  if firstConnection s && negb (Options.startupMaxReconnectAttempts (options s) =? INFINITE_WAIT)
  then Options.startupMaxReconnectAttempts (options s) else Options.maxReconnectAttempts (options s).
Definition canReconnect (s : t) : bool := started s && negb (0 =? calculateReconnectAttemptLimit s).
Definition willReconnect (s : t) : bool := firstConnection s || negb (0 =? calculateReconnectAttemptLimit s).
Definition isClosedOrFailed (s : t) : bool := closed s || match connectionFailure s with Some _ => true | None => false end.
Definition isConnected_ (s : t) : bool := match connectedTransport s with Some _ => true | None => false end.
Definition isConnectionStateValid (s : t) : bool :=
  isConnected_ s && negb (doRebalance s) && negb (BackupTransportPool.isPriorityBackupAvailable (backups s)).
(** [getConnectList] answers one of two shared pools; [true] is [updated]. *)
Definition getConnectList (s : t) : bool := Options.updateURIsSupported (options s) && negb (URIPool.isEmpty (updated s)).
Definition pool (which : bool) (s : t) : URIPool.t := if which then updated s else uris s.
Definition set_pool (which : bool) (p : URIPool.t) (s : t) : t := if which then set_updated p s else set_uris p s.
Definition resetReconnectDelay (s : t) : t :=
  if negb (Options.useExponentialBackOff (options s)) || (reconnectDelay s =? DEFAULT_INITIAL_RECONNECT_DELAY)
  then set_reconnectDelay (Options.initialReconnectDelay (options s)) s else s.
(** [doDelay] after its wait. *)
Definition doDelay (s : t) : t :=
  if Options.useExponentialBackOff (options s) then
    let d := to_s64 (reconnectDelay s * Options.backOffMultiplier (options s)) in
    set_reconnectDelay (if Options.maxReconnectDelay (options s) <? d then Options.maxReconnectDelay (options s) else d) s
  else s.
Definition isPending (s : t) : bool :=
  if negb (isConnectionStateValid s) && started s && negb (isClosedOrFailed s) then
    let maxReconnectAttempts := calculateReconnectAttemptLimit s in
    if firstConnection s && (connectFailures s =? 0) then true
    else if negb (maxReconnectAttempts =? -1) && (maxReconnectAttempts <? connectFailures s) then false
    else true
  else false.

Definition setRandomize (value : bool) (s : t) : t := set_uris (URIPool.setRandomize value (uris s)) s.
Definition setBackupPoolSize (value : Z) (s : t) : t := set_backups (BackupTransportPool.setBackupPoolSize value (backups s)) s.

(** The listener of the user, when there is one. *)
Definition notify (e : event) (s : t) : t := if transportListener s then set_events (events s ++ [e]) s else s.

Section Operations.
Context {N : Type} `{Network N}.
(** [URI(string)], the parser *)
Context (parse : list Z -> result URI.t).
Abbreviation world := (t * N)%type.

Definition state : X world t := fun st => (Ok (fst st), st).
Definition modify (f : t -> t) : X world unit := xmodify (fun '(s, n) => (f s, n)).
Definition tracker {A} (m : X ConnectionStateTracker.t A) : X world A :=
  fun '(s, n) => let '(r, tr) := m (stateTracker s) in (r, (set_stateTracker tr s, n)).
Definition network {A} (m : N -> result A * N) : X world A := fun '(s, n) => let '(r, n') := m n in (r, (s, n')).
Definition when (b : bool) (m : X world unit) : X world unit := if b then m else xret tt.
(** A change of a pool that answers something. *)
Definition in_pool (which : bool) (f : URIPool.t -> result (bool * URIPool.t)) : X world bool :=
  let+ s := state in
  let+ r := xlift (f (pool which s)) in
  modify (set_pool which (snd r)) ;+
  xret (fst r).
(** Exceptions that are caught and dropped. *)
Definition nothrow (m : X world unit) : X world unit :=
  fun st => match m st with (Err (Throw _), st') => (Ok tt, st') | r => r end.

Definition propagateFailureToExceptionListener : X world unit :=
  let+ s := state in
  if transportListener s then
    match connectionFailure s with
    | Some e => modify (notify (onException (if is_IOException e then e else IOException)))
    | None => xlift (throw NullPointerException)
    end
  else xret tt.

Definition disconnect : X world unit :=
  let+ s := state in
  match connectedTransport s with
  | None => xret tt
  | Some h =>
    modify (fun s => set_closeTask (closeTask s ++ [h]) (set_connectedTransport None s)) ;+
    match connectedTransportURI s with
    | Some u => let+ _ := in_pool false (URIPool.addURI u) in modify (set_connectedTransportURI None)
    | None => xret tt
    end ;+
    modify (notify transportInterrupted)
  end.

Definition reconnect (rebalance : bool) : X world unit :=
  modify (fun s => if started s then set_wakeup true (if rebalance then set_doRebalance true s else s) else s).

(** ** Responses *)
Definition processResponse (correlationId : Z) : X world unit :=
  let+ s := state in
  match ConcurrentStlMap.lookup correlationId (requestMap s) with
  | None => xret tt
  | Some r =>
    modify (fun s => set_requestMap (ConcurrentStlMap.erase correlationId (requestMap s)) s) ;+
    match r with
    | Waiting tracked => tracker (ConnectionStateTracker.onResponse tracked)
    | Command _ => xret tt
    end
  end.

(** ** Failures *)
Definition handleTransportFailure (error : exn) : X world unit :=
  let+ s := state in
  if shutdown s then xret tt
  else
    match connectedTransport s with
    | None => xret tt
    | Some h =>
      modify (fun s => set_closeTask (closeTask s ++ [h]) (set_connectedTransport None s)) ;+
      let reconnectOk := canReconnect s in
      match connectedTransportURI s with
      | None => xlift (throw NullPointerException)
      | Some failedUri =>
        modify (set_initialized false) ;+
        let+ _ := in_pool false (URIPool.addURI failedUri) in
        modify (fun s => set_connectedToPriority false (set_connected false (set_connectedTransportURI None s))) ;+
        tracker ConnectionStateTracker.transportInterrupted ;+
        if reconnectOk then
          modify (notify transportInterrupted) ;+
          let+ _ := in_pool true (URIPool.removeURI failedUri) in
          modify (set_wakeup true)
        else if negb (closed s) then
          modify (set_connectionFailure (Some error)) ;+ propagateFailureToExceptionListener
        else xret tt
      end
    end.

(** ** The lists of brokers *)
(** [std::remove] of the spaces: the characters that stay are moved to the front and
    the length is what it was. *)
Definition remove_spaces (s : list Z) : list Z :=
  let kept := filter (fun c => c <> 32) s in kept ++ drop (length kept) s.

Definition reconnectTo (u : URI.t) : X world unit :=
  xcatch to_io (let+ added := in_pool false (URIPool.addURI u) in when added (reconnect true)).
(** [add] and [addURI] *)
Definition add (rebalance : bool) (uri : list Z) : X world unit :=
  nothrow (let+ u := xlift (parse uri) in let+ added := in_pool false (URIPool.addURI u) in when added (reconnect rebalance)).
Fixpoint add_each (us : list URI.t) (newUri : bool) : X world bool :=
  match us with
  | [] => xret newUri
  | u :: us => let+ added := in_pool false (URIPool.addURI u) in add_each us (newUri || added)
  end.
Definition addURI (rebalance : bool) (us : list URI.t) : X world unit :=
  let+ newUri := add_each us false in when newUri (reconnect rebalance).
Fixpoint remove_each (us : list URI.t) (changed : bool) : X world bool :=
  match us with
  | [] => xret changed
  | u :: us => let+ removed := in_pool false (URIPool.removeURI u) in remove_each us (changed || removed)
  end.
Definition removeURI (rebalance : bool) (us : list URI.t) : X world unit :=
  let+ changed := remove_each us false in when changed (reconnect rebalance).

(** StlSet::add with [operator<] *)
Fixpoint set_add (u : URI.t) (l : list URI.t) : result (list URI.t) :=
  match l with
  | [] => Ok [u]
  | v :: l' =>
    rbind (URI.lt u v) (fun below =>
    if below then Ok (u :: l)
    else rbind (URI.lt v u) (fun above => if above then rbind (set_add u l') (fun l => Ok (v :: l)) else Ok l))
  end.
Fixpoint set_of (us : list URI.t) (l : list URI.t) : result (list URI.t) :=
  match us with [] => Ok l | u :: us => rbind (set_add u l) (set_of us) end.
Definition updateURIs (rebalance : bool) (updatedURIs : list URI.t) : X world unit :=
  let+ s := state in
  if Options.updateURIsSupported (options s) then
    let copy := URIPool.copy (updated s) in
    modify (fun s => set_updated (URIPool.clear (updated s)) s) ;+
    match updatedURIs with
    | [] => xret tt
    | _ =>
      let+ values := xlift (set_of updatedURIs []) in
      xfor values (fun u => let+ _ := in_pool true (URIPool.addURI u) in xret tt) ;+
      let+ s := state in
      let+ same := xlift (URIPool.equals copy (updated s)) in
      when (negb (URIPool.isEmpty copy && URIPool.isEmpty (updated s)) && negb same) (reconnect rebalance)
    end
  else xret tt.
Fixpoint parse_each (tokens : list (list Z)) : result (list URI.t) :=
  match tokens with
  | [] => Ok []
  | s :: tokens =>
    rbind (parse_each tokens) (fun us =>
    match parse s with Ok u => Ok (u :: us) | Err (Throw _) => Ok us | Err f => Err f end)
  end.
Definition processNewTransports (rebalance : bool) (newTransports : list Z) : X world unit :=
  let+ s := state in
  if negb (is_nil newTransports) && Options.updateURIsSupported (options s) then
    let+ tokens := xlift (rbind (StringTokenizer.toArray (StringTokenizer.init (remove_spaces newTransports) (str ","))) (fun r => Ok (fst r))) in
    let+ us := xlift (parse_each tokens) in
    match us with
    | [] => xret tt
    | _ => fun st => match updateURIs rebalance us st with
                     | (Err (Throw e), st') => if is_IOException e then (Ok tt, st') else (Err (Throw e), st')
                     | r => r
                     end
    end
  else xret tt.
Definition setPriorityURIs (priorityURIs : list Z) : X world unit :=
  let+ tokens := xlift (rbind (StringTokenizer.toArray (StringTokenizer.init priorityURIs (str ","))) (fun r => Ok (fst r))) in
  xfor tokens (fun uri => nothrow (
    let+ u := xlift (parse uri) in
    let+ s := state in
    let+ r := xlift (URIPool.addURI u (priorityUris s)) in
    modify (set_priorityUris (snd r)))).
Definition handleConnectionControl (c : ConnectionControl.t) : X world unit :=
  let+ s := state in
  let reconnectStr := remove_spaces (ConnectionControl.reconnectTo c) in
  (if negb (is_nil (ConnectionControl.reconnectTo c))
   then when (Options.reconnectSupported (options s)) (nothrow (let+ u := xlift (parse reconnectStr) in reconnectTo u))
   else xret tt) ;+
  processNewTransports (ConnectionControl.rebalanceConnection c) (ConnectionControl.connectedBrokers c).

(** FailoverTransportListener::onCommand *)
Definition listener_onCommand (c : DataStructure) : X world unit :=
  match response_id c with Some id => processResponse id | None => xret tt end ;+
  modify (set_initialized true) ;+
  match c with DConnectionControl i => handleConnectionControl i | _ => xret tt end ;+
  modify (notify (onCommand c)).
(** FailoverTransportListener::onException *)
Definition listener_onException (e : exn) : X world unit :=
  fun st => match handleTransportFailure e st with
            | (Err (Throw e'), (s', n')) => (Ok tt, (notify (onException e') s', n'))
            | r => r
            end.

(** ** Restoring a transport *)

(** A transport as the tracker uses it; what it is to receive is kept. *)
Definition link (h : nat) : Transport (N * list DataStructure) := {|
  tr_oneway c l := let '(r, n) := net_oneway h c (fst l) in (r, (n, snd l));
  tr_onCommand c l := (fst l, snd l ++ [c]);
  tr_getVersion l := net_version h (fst l)
|}.
(** The responses the tracker makes up reach the listener. *)
Definition restore_tracker (h : nat) : X world unit :=
  fun '(s, n) =>
    let '(r, (tr, (n', received))) := @ConnectionStateTracker.restore _ (link h) (stateTracker s, (n, [])) in
    match xfor received listener_onCommand (set_stateTracker tr s, n') with
    | (Ok _, st) => (r, st)
    | (Err f, st) => (Err f, st)
    end.
(** A Tracked is a Response of its own. *)
Definition request_command (r : request) : DataStructure :=
  match r with Command c => c | Waiting _ => DResponse Response.default end.
Definition restoreTransport (h : nat) : X world unit :=
  xcatch to_io (
  network (net_start h) ;+
  network (net_oneway h (DConnectionControl (ConnectionControl.mk BaseCommand.default false false true false false [] [] false []))) ;+
  restore_tracker h ;+
  let+ s := state in
  xfor (map snd (requestMap s)) (fun r => network (net_oneway h (request_command r)))).

(** ** Connecting *)

(** A transport is started, restored and becomes the connected one. *)
Definition establish (which : bool) (failures : list URI.t) (h : nat) (uri : URI.t) : X world unit :=
  network (net_start h) ;+
  let+ s := state in
  when (started s && negb (firstConnection s)) (restoreTransport h) ;+
  modify (fun s => set_connected true (set_connectFailures 0 (set_connectedTransport (Some h)
    (set_connectedTransportURI (Some uri) (set_reconnectDelay (Options.initialReconnectDelay (options s)) s))))) ;+
  let+ s := state in
  let+ priority := (if Options.priorityBackup (options s) then
     let+ e := xlift (URI.equals (URIPool.priorityURI (pool which s)) uri) in
     if e then xret true else xlift (URIPool.contains uri (priorityUris s))
   else xret false) in
  modify (set_connectedToPriority priority) ;+
  modify (notify transportResumed) ;+
  modify (set_firstConnection false) ;+
  let+ _ := in_pool which (URIPool.addURIs failures) in
  modify (set_connected true).
(** One attempt, with a transport that was a backup or to the next URI of the list:
    the outcome, with the transport and the URI it was for. *)
Definition attempt (which : bool) (failures : list URI.t) (transport : option nat) (uri : URI.t) :
    world -> result unit * world * (option nat * URI.t) :=
  fun '(s, n) =>
    match transport with
    | Some h => (establish which failures h uri (s, n), (Some h, uri))
    | None =>
      match URIPool.getURI (fun k => net_random k n) (pool which s) with
      | Err f => (Err f, (s, n), (None, uri))
      | Ok (u, p) =>
        match net_create u n with
        | (Err f, n) => (Err f, (set_pool which p s, n), (None, u))
        | (Ok h, n) => (establish which failures h u (set_pool which p s, n), (Some h, u))
        end
      end
    end.
(** The failed transport is closed by another task. *)
Definition abandon (transport : option nat) : X world unit :=
  match transport with
  | Some h =>
    xmodify (fun '(s, n) => (s, net_stop h n)) ;+
    modify (fun s => set_wakeup true (set_closeTask (closeTask s ++ [h]) (set_connected false s)))
  | None => xret tt
  end.
(** The loop: [Some tt] when it has connected; the failures and the last of them
    otherwise. *)
Fixpoint connect_loop (fuel : nat) (which : bool) (failures : list URI.t) (failure : option exn)
    (transport : option nat) (uri : URI.t) : X world (option unit * list URI.t * option exn) :=
  fun '(s, n) =>
    if (match transport with Some _ => true | None => negb (URIPool.isEmpty (pool which s)) end)
       && negb (isConnected_ s) && negb (closed s)
    then
      match fuel with
      | O => (Err NoFuel, (s, n))
      | S fuel =>
        match attempt which failures transport uri (s, n) with
        | (Ok _, st, _) => (Ok (Some tt, failures, failure), st)
        | (Err (Throw e), st, (h, u)) =>
          (abandon h ;+ connect_loop fuel which (failures ++ [u]) (Some e) None u) st
        | (Err f, st, _) => (Err f, st)
        end
      end
    else (Ok (None, failures, failure), (s, n)).

(** The end of [iterate] when it did not connect. *)
Definition give_up_or_delay (failure : option exn) : X world bool :=
  let+ s := state in
  let reconnectAttempts := calculateReconnectAttemptLimit s in
  if 0 <=? reconnectAttempts then
    modify (fun s => set_connectFailures (to_s32 (connectFailures s + 1)) s) ;+
    let+ s := state in
    if reconnectAttempts <=? connectFailures s then
      modify (set_connectionFailure failure) ;+ propagateFailureToExceptionListener ;+ xret false
    else modify (fun s => if closed s then s else doDelay s) ;+ xret (negb (closed s))
  else modify (fun s => if closed s then s else doDelay s) ;+ xret (negb (closed s)).

(** The first part of [iterate]: rebalancing and the backups. *)
Definition iterate_rebalance (which : bool) : X world bool :=
  let+ s := state in
  if doRebalance s then
    let+ already := (if connectedToPriority s then xret true
      else match connectedTransportURI s with
           | Some u => xlift (URI.equals (URIPool.priorityURI (pool which s)) u)
           | None => xlift (throw NullPointerException)
           end) in
    if already then modify (set_doRebalance false) ;+ xret true
    else disconnect ;+ modify (set_doRebalance false) ;+ xret false
  else xret false.
Definition iterate_backup : X world (option nat * URI.t) :=
  let+ s := state in
  if BackupTransportPool.enabled (backups s) then
    let+ r := xlift (BackupTransportPool.getBackup (backups s)) in
    modify (fun s => set_wakeup true (set_backups (snd r) s)) ;+
    match fst r with
    | Some b =>
      let+ s := state in
      when (Options.priorityBackup (options s) && BackupTransportPool.isPriorityBackupAvailable (backups s)) disconnect ;+
      xret (Some (BackupTransport.transport b), BackupTransport.uri b)
    | None => xret (None, URI.default)
    end
  else xret (None, URI.default).

Definition iterate : X world bool :=
  let+ s := state in
  if isConnectionStateValid s || isClosedOrFailed s then xret false
  else
    let which := getConnectList s in
    if URIPool.isEmpty (pool which s) && negb (BackupTransportPool.enabled (backups s))
    then give_up_or_delay (Some IOException)
    else
      let+ done := iterate_rebalance which in
      if done then xret false
      else
        modify resetReconnectDelay ;+
        let+ b := iterate_backup in
        let+ s := state in
        let+ r := connect_loop (2 + length (URIPool.uriPool (pool which s))) which [] None (fst b) (snd b) in
        let '(connected, failures, failure) := r in
        match connected with
        | Some _ => xret false
        | None => let+ _ := in_pool which (URIPool.addURIs failures) in give_up_or_delay failure
        end.

(** ** Sending *)

(** How waiting for a connection ends; [Blocked]: it has not. *)
Inductive waited := Ready (h : nat) | Gone (timedout : bool) | Blocked.
(** Each wait: the time since the start of the wait, and what the others did. *)
Abbreviation interference := (list (Z * (world -> world))).
Fixpoint await (c : DataStructure) (env : interference) (st : world) : waited * interference * world :=
  let s := fst st in
  match connectedTransport s with
  | Some h => (Ready h, env, st)
  | None =>
    if closed s || match connectionFailure s with Some _ => true | None => false end || negb (willReconnect s)
    then (Gone false, env, st)
    else
      match env with
      | [] => (Blocked, [], st)
      | (elapsed, others) :: env =>
        if isMessage c && (0 <? Options.timeout (options s)) && (Options.timeout (options s) <? elapsed)
        then (Gone true, env, st) else await c env (others st)
      end
  end.

(** The outcome of a round: the method returns, goes on with an error, retries, or is
    still waiting. *)
Inductive round := Returned | Failed (e : exn) | Retry | Waits.

(** Tracking and the request map; the marker needs no entry. *)
Definition register (address : Z) (c : DataStructure) : X world (option Tracked) :=
  let+ tracked := tracker (ConnectionStateTracker.track address c) in
  match tracked with
  | Some (RemoveTransactionAction i) =>
    modify (fun s => set_requestMap (ConcurrentStlMap.insert (getCommandId c) (Waiting (RemoveTransactionAction i)) (requestMap s)) s)
  | Some TRACKED_RESPONSE_MARKER => xret tt
  | None =>
    when (isResponseRequired c)
      (modify (fun s => set_requestMap (ConcurrentStlMap.insert (getCommandId c) (Command c) (requestMap s)) s))
  end ;+
  xret tracked.
Definition send (h : nat) (c : DataStructure) : X world unit :=
  network (net_oneway h c) ;+
  tracker (ConnectionStateTracker.trackBack c) ;+
  when (isShutdownInfo c) (modify (set_shutdown true)).
(** A round with a transport. *)
Definition deliver (address : Z) (h : nat) (c : DataStructure) : X world round :=
  fun st =>
    match register address c st with
    | (Err (Throw e), st) => (Ok (Failed e), st)
    | (Err f, st) => (Err f, st)
    | (Ok tracked, st) =>
      match send h c st with
      | (Ok _, st) => (Ok Returned, st)
      | (Err (Throw e), (s, n)) =>
        if is_IOException e then
          if match tracked with None => canReconnect s | Some _ => false end then
            (when (isResponseRequired c)
               (modify (fun s => set_requestMap (ConcurrentStlMap.erase (getCommandId c) (requestMap s)) s)) ;+
             handleTransportFailure e ;+ xret Retry) (s, n)
          else (handleTransportFailure e ;+ xret Returned) (s, n)
        else (Err (Throw e), (s, n))
      | (Err f, st) => (Err f, st)
      end
    end.
Fixpoint oneway_loop (fuel : nat) (address : Z) (c : DataStructure) (env : interference) : X world round :=
  fun st =>
    if closed (fst st) then (Ok Returned, st)
    else
      match fuel with
      | O => (Err NoFuel, st)
      | S fuel =>
        let '(w, env, st) := await c env st in
        match w with
        | Blocked => (Ok Waits, st)
        | Gone timedout =>
          let s := fst st in
          (Ok (Failed (match connectionFailure s with
                       | Some e => if closed s then IOException else e
                       | None => IOException
                       end)), st)
        | Ready h =>
          match deliver address h c st with
          | (Ok Retry, st) => oneway_loop fuel address c env st
          | r => r
          end
        end
      end.

(** A command that is not sent while there is no connection; [true]: that is all. *)
Definition stale (address : Z) (c : DataStructure) : X world bool :=
  let+ s := state in
  match connectedTransport s, c with
  | Some _, _ => xret false
  | None, DShutdownInfo _ => xret true
  | None, DRemoveInfo _ | None, DMessageAck _ =>
    let+ _ := tracker (ConnectionStateTracker.track address c) in
    when (isResponseRequired c) (listener_onCommand (DResponse (Response.mk BaseCommand.default (getCommandId c)))) ;+
    xret true
  | None, DMessagePull p =>
    when (negb (MessagePull.timeout p =? 0))
      (listener_onCommand (DMessageDispatch (MessageDispatch.mk _ BaseCommand.default (MessagePull.consumerId p) (MessagePull.destination p) None 0))) ;+
    xret true
  | None, _ => xret false
  end.
Definition oneway (fuel : nat) (address : Z) (c : DataStructure) (env : interference) : X world round :=
  fun st =>
    let outcome :=
      (let+ s := stale address c in if s then xret Returned else oneway_loop fuel address c env) st in
    match outcome with
    | (Err (Throw _), st) => (Ok Returned, st)
    | (Ok (Failed e), st) => if closed (fst st) then (Ok Returned, st) else (throw IOException, st)
    | r => r
    end.

(** ** Starting and closing *)
Definition start : X world unit :=
  xcatch to_io (
  let+ s := state in
  if started s then xret tt
  else
    modify (set_started true) ;+
    modify (fun s => if Options.backupsEnabled (options s) || Options.priorityBackup (options s)
      then set_backups (BackupTransportPool.setEnabled true (backups s)) s else s) ;+
    modify (set_wakeup true) ;+
    modify (fun s =>
      let o := options s in
      set_stateTracker
        (ConnectionStateTracker.configure (ConnectionStateTracker.setTrackTransactionProducers (Options.trackTransactionProducers o))
        (ConnectionStateTracker.configure (ConnectionStateTracker.setTrackMessages (Options.trackMessages o))
        (ConnectionStateTracker.configure (ConnectionStateTracker.setMaxMessagePullCacheSize (Options.maxPullCacheSize o))
        (ConnectionStateTracker.configure (ConnectionStateTracker.setMaxMessageCacheSize (Options.maxCacheSize o)) (stateTracker s))))) s) ;+
    match connectedTransport s with
    | Some h => restore_tracker h
    | None => reconnect false
    end).
Definition stop : X world unit :=
  modify (fun s => set_backups (BackupTransportPool.setEnabled false (backups s)) (set_started false s)).
Definition close : X world unit :=
  let+ s := state in
  if closed s then xret tt
  else
    modify (fun s => set_connectedTransport None (set_requestMap []
      (set_backups (BackupTransportPool.close (BackupTransportPool.setEnabled false (backups s)))
      (set_connected false (set_closed true (set_started false s)))))) ;+
    match connectedTransport s with
    | Some h => xmodify (fun '(s, n) => (s, net_close h n))
    | None => xret tt
    end.
(** [this] is the transport the tracker sends on. *)
Definition setConnectionInterruptProcessingComplete (fuel : nat) (env : interference) (id : option ConnectionId.t) : X world unit :=
  let+ s := state in
  let+ cs := xlift (ConcurrentStlMap.get id (ConnectionStateTracker.connectionStates (stateTracker s))) in
  tracker (ConnectionStateTracker.setConnection id (ConnectionState.setConnectionInterruptProcessingComplete true cs)) ;+
  xfor (ConnectionState.recoveringPullConsumers cs) (fun '(key, info) =>
    nothrow (oneway fuel 0 (DConsumerControl (ConsumerControl.mk BaseCommand.default (ConsumerInfo.destination info) false key
      (ConsumerInfo.prefetchSize info) false false false)) env ;+ xret tt)).
(** ** The other tasks *)

(** BackupTransportPool::iterate; [failures] go back to the list they came from. *)
Definition shouldBuildBackup (s : t) : bool :=
  let p := backups s in
  BackupTransportPool.enabled p &&
  ((Options.priorityBackup (options s) && negb (connectedToPriority s) && (BackupTransportPool.priorityBackups p =? 0)) ||
   (zlen (BackupTransportPool.backups p) <? BackupTransportPool.backupPoolSize p)).
Definition add_backup (b : BackupTransport.t) (s : t) : t :=
  let p := backups s in
  set_backups (BackupTransportPool.mk
    (if BackupTransport.priority b then b :: BackupTransportPool.backups p else BackupTransportPool.backups p ++ [b])
    (BackupTransportPool.pending p) (BackupTransportPool.closed p)
    (if BackupTransport.priority b then to_s32 (BackupTransportPool.priorityBackups p + 1) else BackupTransportPool.priorityBackups p)
    (BackupTransportPool.backupPoolSize p) (BackupTransportPool.enabled p)) s.
(** Whether the URI is one of the preferred ones. *)
Definition priority_uri (which : bool) (u : URI.t) (s : t) : result bool :=
  rbind (URIPool.contains u (priorityUris s)) (fun c =>
  if c then Ok true
  else if URIPool.isEmpty (priorityUris s) then URIPool.isPriority u (pool which s) else Ok false).
Fixpoint backup_loop (fuel : nat) (which : bool) (failures : list URI.t) : X world (list URI.t) :=
  fun '(s, n) =>
    if shouldBuildBackup s then
      match fuel with
      | O => (Err NoFuel, (s, n))
      | S fuel =>
        match URIPool.getURI (fun k => net_random k n) (pool which s) with
        | Err (Throw NoSuchElementException) => (Ok failures, (s, n))
        | Err f => (Err f, (s, n))
        | Ok (u, p) =>
          let s := set_pool which p s in
          let built : X world bool :=
            let+ h := network (net_create u) in
            network (net_start h) ;+
            let+ s := state in
            let+ priority := xlift (priority_uri which u s) in
            modify (add_backup (BackupTransport.mk h u priority)) ;+
            xret (priority && negb (connectedToPriority s)) in
          match built (s, n) with
          | (Ok true, st) => (reconnect false ;+ xret failures) st
          | (Ok false, st) => backup_loop fuel which failures st
          | (Err (Throw _), st) => backup_loop fuel which (failures ++ [u]) st
          | (Err f, st) => (Err f, st)
          end
        end
      end
    else (Ok failures, (s, n)).
Definition backup_iterate : X world bool :=
  let+ s := state in
  let which := negb (URIPool.isEmpty (updated s)) in
  let+ failures := backup_loop (1 + length (URIPool.uriPool (pool which s))) which [] in
  let+ _ := in_pool which (URIPool.addURIs failures) in
  modify (fun s => let p := backups s in set_backups (BackupTransportPool.mk (BackupTransportPool.backups p) false
    (BackupTransportPool.closed p) (BackupTransportPool.priorityBackups p) (BackupTransportPool.backupPoolSize p)
    (BackupTransportPool.enabled p)) s) ;+
  xret false.
(** BackupTransportPool::onBackupTransportFailure: everything after the removal is in
    the loop over the backups. *)
Fixpoint failure_loop (failed : BackupTransport.t) (l kept : list BackupTransport.t) : X world unit :=
  match l with
  | [] =>
    modify (fun s => let p := backups s in set_backups (BackupTransportPool.mk kept (BackupTransportPool.pending p)
      (BackupTransportPool.closed p) (BackupTransportPool.priorityBackups p) (BackupTransportPool.backupPoolSize p)
      (BackupTransportPool.enabled p)) s)
  | b :: l =>
    modify (fun s => let p := backups s in
      if BackupTransport.priority failed && (0 <? BackupTransportPool.priorityBackups p) then
        set_backups (BackupTransportPool.mk (BackupTransportPool.backups p) (BackupTransportPool.pending p) (BackupTransportPool.closed p)
          (BackupTransportPool.priorityBackups p - 1) (BackupTransportPool.backupPoolSize p) (BackupTransportPool.enabled p)) s
      else s) ;+
    let+ _ := in_pool false (URIPool.addURI (BackupTransport.uri failed)) in
    modify (fun s => set_wakeup true (set_closeTask (closeTask s ++ [BackupTransport.transport failed]) s)) ;+
    failure_loop failed l (if (BackupTransport.transport b =? BackupTransport.transport failed)%nat then kept else kept ++ [b])
  end.
Definition onBackupTransportFailure (failed : BackupTransport.t) : X world unit :=
  let+ s := state in failure_loop failed (BackupTransportPool.backups (backups s)) [].

(** CloseTransportsTask::iterate *)
Definition close_iterate : X world bool :=
  xmodify (fun '(s, n) => (set_closeTask [] s, fold_left (fun n h => net_close h n) (closeTask s) n)) ;+ xret false.

(** CompositeTaskRunner::iterate: the first task of the queue that is pending is run
    and goes to the end. *)
Inductive task := BackupTask | FailoverTask | CloseTask.
Definition task_pending (k : task) (s : t) : bool :=
  match k with
  | BackupTask => BackupTransportPool.isPending (backups s)
  | FailoverTask => isPending s
  | CloseTask => match closeTask s with [] => false | _ => true end
  end.
Definition task_iterate (k : task) : X world bool :=
  match k with BackupTask => backup_iterate | FailoverTask => iterate | CloseTask => close_iterate end.
Fixpoint next_task (n : nat) (tasks : list task) (s : t) : option (task * list task) :=
  match n, tasks with
  | S n, k :: rest => if task_pending k s then Some (k, rest) else next_task n (rest ++ [k]) s
  | _, _ => None
  end.
Definition runner_iterate (tasks : list task) : X world (option (list task)) :=
  let+ s := state in
  match next_task (length tasks) tasks s with
  | Some (k, rest) => let+ _ := task_iterate k in xret (Some (rest ++ [k]))
  | None => xret None
  end.
(** CompositeTaskRunner::run until it waits: the queue, or [None] when an exception has
    ended the thread. *)
Fixpoint run (fuel : nat) (tasks : list task) : X world (option (list task)) :=
  fun st =>
    match fuel with
    | O => (Err NoFuel, st)
    | S fuel =>
      match runner_iterate tasks st with
      | (Ok (Some tasks), st) => run fuel tasks st
      | (Ok None, st) => (Ok (Some tasks), st)
      | (Err (Throw _), st) => (Ok None, st)
      | (Err f, st) => (Err f, st)
      end
    end.
End Operations.
End FailoverTransport.
