(* ===== verification/FailoverSending.v ===== *)
(** * Sending over the failover transport

    Theorems about [oneway] of Failover.v: a command is sent exactly once, also when the
    transport it was to be sent on fails and another thread reconnects, and requests are
    kept for the reconnection exactly while they wait for their response. *)

From S2P Require Import Prelude DataStreams PrimitiveTypes Support BooleanStreams Wire BaseMarshaller Commands.
From S2P Require Import StringOrder Identifiers StateTracker TrackerLaws TrackerRestore TrackerRegistry Uris Failover FailoverLaws.
Import NaturalOrder FailoverTransport.

(** Commands the state tracker takes no notice of, messages outside of transactions
    among them when messages are not tracked. *)
Definition untracked (messages : bool) (c : DataStructure) : bool :=
  match c with
  | DMessage m => bool_decide (Message.transactionId m = None) && negb messages
  | DDestinationInfo _ | DProducerInfo _ | DConsumerInfo _ | DSessionInfo _ | DConnectionInfo _
  | DRemoveInfo _ | DMessagePull _ | DTransactionInfo _ => false
  | _ => true
  end.
Lemma untracked_track address c tr : untracked (ConnectionStateTracker.trackMessages tr) c = true ->
  ConnectionStateTracker.track address c tr = (Ok None, tr) /\ ConnectionStateTracker.trackBack c tr = (Ok tt, tr).
Proof.
  destruct c; try done. cbn. intros [Htx Htm]%andb_true_iff. apply bool_decide_eq_true in Htx. apply negb_true_iff in Htm.
  unfold ConnectionStateTracker.track, ConnectionStateTracker.trackBack, ConnectionStateTracker.visit, ConnectionStateTracker.processMessage, xcatch, xbind, xget, xmodify.
  by rewrite Htx, Htm.
Qed.

(** The request map, and what is remembered of a command that was sent. *)
Definition requested (c : DataStructure) (s : t) : t :=
  if isResponseRequired c then set_requestMap (ConcurrentStlMap.insert (getCommandId c) (Command c) (requestMap s)) s else s.
Definition sent_last (c : DataStructure) (s : t) : t := if isShutdownInfo c then set_shutdown true s else s.

Section Sending.
Context (parse : list Z -> result URI.t) (up : URI.t -> bool) (works : nat -> bool) (version : Z).
Abbreviation net := (Brokers.network up works version).
Abbreviation sending n h cs := (Brokers.mk (Brokers.opened n) (Brokers.sent n ++ map (pair h) cs) (Brokers.closed n)).
Abbreviation plain s c := (untracked (ConnectionStateTracker.trackMessages (stateTracker s)) c = true).

Lemma set_stateTracker_same s : set_stateTracker (stateTracker s) s = s.
Proof. by destruct s. Qed.
Lemma register_plain address c s (n : Brokers.t) : plain s c -> register address c (s, n) = (Ok None, (requested c s, n)).
Proof.
  intros Hc. destruct (untracked_track address c _ Hc) as [Ht _]. unfold register, xbind, tracker. rewrite Ht, set_stateTracker_same.
  unfold requested, when. by destruct (isResponseRequired c).
Qed.
Lemma send_works c s n h : plain s c -> works h = true -> @send _ net h c (s, n) = (Ok tt, (sent_last c s, sending n h [c])).
Proof.
  intros Hc Hw. destruct (untracked_track 0 c _ Hc) as [_ Hb]. unfold send, xbind at 1. rewrite network_oneway by done.
  unfold xbind, tracker. rewrite Hb, set_stateTracker_same. unfold sent_last, when. by destruct (isShutdownInfo c).
Qed.
Lemma plain_requested s c c' : plain s c -> plain (requested c' s) c.
Proof. unfold requested. by case_match. Qed.
Lemma deliver_works address c s n h : plain s c -> works h = true ->
  @deliver _ net address h c (s, n) = (Ok Returned, (sent_last c (requested c s), sending n h [c])).
Proof. intros Hc Hw. unfold deliver. rewrite register_plain, send_works by (done || by apply plain_requested). done. Qed.

(** [oneway] with a connection is its loop; a round of the loop. *)
Definition outcome (r : result round * (t * Brokers.t)) : result round * (t * Brokers.t) :=
  match r with
  | (Err (Throw _), st) => (Ok Returned, st)
  | (Ok (Failed e), st) => if closed (fst st) then (Ok Returned, st) else (throw IOException, st)
  | r => r
  end.
Lemma oneway_connected fuel address c env s n h : connectedTransport s = Some h ->
  @oneway _ net parse fuel address c env (s, n) = outcome (@oneway_loop _ net fuel address c env (s, n)).
Proof.
  intros Hh. unfold oneway, xbind, stale, state, xbind. cbn [fst]. rewrite Hh. unfold xret, outcome.
  by destruct (oneway_loop fuel address c env (s, n)) as [[[]|[]] ?].
Qed.
Lemma await_connected c env s (n : Brokers.t) h : connectedTransport s = Some h -> await c env (s, n) = (Ready h, env, (s, n)).
Proof. intros Hh. destruct env; cbn; by rewrite Hh. Qed.
Lemma loop_round fuel address c env s n h : connectedTransport s = Some h -> closed s = false ->
  @oneway_loop _ net (S fuel) address c env (s, n) =
  match @deliver _ net address h c (s, n) with
  | (Ok Retry, st) => @oneway_loop _ net fuel address c env st
  | r => r
  end.
Proof. intros Hh Hc. cbn [oneway_loop fst]. by rewrite Hc, await_connected with (h := h). Qed.

(** A command the tracker does not follow is sent on a transport that works exactly
    once, and nothing else is sent; it is remembered as a request when it asks for a
    response. *)
Theorem oneway_sends_once fuel address c env s n h : connectedTransport s = Some h -> closed s = false -> plain s c -> works h = true ->
  @oneway _ net parse (S fuel) address c env (s, n) = (Ok Returned, (sent_last c (requested c s), sending n h [c])).
Proof. intros Hh Hc Hp Hw. by rewrite (oneway_connected _ _ _ _ _ _ h), (loop_round _ _ _ _ _ _ h), deliver_works. Qed.

(** ** A transport that fails *)
Abbreviation interrupted_tracker s := (snd (ConnectionStateTracker.transportInterrupted (stateTracker s))).

(** The state after the connection [h] to [f] was lost. *)
Record interrupted (s s1 : t) (h : nat) (f : URI.t) : Prop := {
  in_transport : connectedTransport s1 = None;
  in_closing : closeTask s1 = closeTask s ++ [h];
  in_list : URIPool.uriPool (uris s1) = URIPool.uriPool (uris s) ++ [f];
  in_order : URIPool.randomize (uris s1) = URIPool.randomize (uris s);
  in_updated : updated s1 = updated s;
  in_tracker : stateTracker s1 = interrupted_tracker s;
  in_requests : requestMap s1 = requestMap s;
  in_events : events s1 = events s ++ (if transportListener s then [transportInterrupted] else []);
  in_rest : options s1 = options s /\ started s1 = started s /\ firstConnection s1 = firstConnection s /\ closed s1 = closed s /\
    connectionFailure s1 = connectionFailure s /\ doRebalance s1 = doRebalance s /\ backups s1 = backups s /\
    transportListener s1 = transportListener s
}.
Lemma notify_keeps e s : notify e s = s \/ notify e s = set_events (events s ++ [e]) s.
Proof. unfold notify. case_match; tauto. Qed.
Lemma handleTransportFailure_interrupts e s (n : Brokers.t) h f : connectedTransport s = Some h -> connectedTransportURI s = Some f ->
  shutdown s = false -> canReconnect s = true -> URIPool.uriPool (updated s) = [] -> uris_ok (URIPool.uriPool (uris s) ++ [f]) = true ->
  exists s1, handleTransportFailure e (s, n) = (Ok tt, (s1, n)) /\ interrupted s s1 h f.
Proof.
  intros Hh Hf Hsd Hcan Hu Hok. unfold handleTransportFailure. rewrite bind_state, Hsd, Hh, Hf, Hcan.
  destruct (addURIs_new [f] false (uris s) Hok) as (b & p & E & Hp & Hr). cbn in E.
  destruct (URIPool.addURI f (uris s)) as [[b1 p1]|] eqn:E1; [| done]. cbn in E. injection E as <- <-.
  assert (Hrm : forall u, u = updated s -> URIPool.removeURI f u = Ok (false, u)) by (intros u ->; unfold URIPool.removeURI; by rewrite Hu).
  rewrite !bind_modify, (bind_in_pool _ _ _ _ _ b1 p1), bind_modify by exact E1.
  rewrite (bind_tracker _ _ _ _ tt (interrupted_tracker s)), bind_modify by done.
  match goal with |- context [notify transportInterrupted ?x] => set (s2 := x) end.
  assert (Hev : events (notify transportInterrupted s2) = events s ++ (if transportListener s then [transportInterrupted] else []) /\
    updated (notify transportInterrupted s2) = updated s).
  { unfold notify. change (transportListener s2) with (transportListener s). destruct (transportListener s); [done |]. by rewrite app_nil_r. }
  rewrite (bind_in_pool _ _ _ _ _ false (updated (notify transportInterrupted s2))) by exact (Hrm _ (proj2 Hev)).
  eexists. split; [reflexivity |]. destruct Hev as [He Hup]. split; [| | | | done | | | done |]; clear He Hup; unfold notify; by destruct (transportListener s2).
Qed.

(** The round on a failed transport leaves the request map as it was. *)
Lemma deliver_retries address c s n h : plain s c -> works h = false -> canReconnect s = true ->
  ConcurrentStlMap.lookup (getCommandId c) (requestMap s) = None ->
  @deliver _ net address h c (s, n) = (handleTransportFailure IOException ;+ xret Retry) (s, n).
Proof.
  intros Hc Hw Hcan Hfresh. unfold deliver. rewrite register_plain by done.
  assert (Hsend : @send _ net h c (requested c s, n) = (throw IOException, (requested c s, n))).
  { unfold send, xbind, FailoverTransport.network, net_oneway, Brokers.network. by rewrite Hw. }
  rewrite Hsend. unfold throw. cbn [is_IOException]. replace (canReconnect (requested c s)) with true by (unfold requested; by case_match).
  unfold xbind at 1. assert (Hwhen : when (isResponseRequired c) (modify (fun s => set_requestMap (ConcurrentStlMap.erase (getCommandId c) (requestMap s)) s))
    (requested c s, n) = (Ok tt, (s, n))).
  { unfold when, requested, modify, xmodify, xret. destruct (isResponseRequired c); [| done]. cbn.
    rewrite ConcurrentStlMap.erase_insert by (done || by apply forallb_forall). by destruct s. }
  by rewrite Hwhen.
Qed.
Lemma deliver_fails address c s n h f : plain s c -> works h = false -> connectedTransport s = Some h -> connectedTransportURI s = Some f ->
  shutdown s = false -> canReconnect s = true -> URIPool.uriPool (updated s) = [] -> uris_ok (URIPool.uriPool (uris s) ++ [f]) = true ->
  ConcurrentStlMap.lookup (getCommandId c) (requestMap s) = None ->
  exists s1, @deliver _ net address h c (s, n) = (Ok Retry, (s1, n)) /\ interrupted s s1 h f.
Proof.
  intros Hc Hw Hh Hf Hsd Hcan Hu Hok Hfresh. rewrite deliver_retries by done.
  destruct (handleTransportFailure_interrupts IOException s n h f) as (s1 & E & Hs1); try done.
  exists s1. split; [| done]. unfold xbind. by rewrite E.
Qed.

(** A connection that is lost leaves the tracker sound and a list to connect with. *)
Lemma interrupted_ready s s1 h f : interrupted s s1 h f -> isClosedOrFailed s = false -> doRebalance s = false ->
  BackupTransportPool.enabled (backups s) = false -> BackupTransportPool.priorityBackups (backups s) = 0 ->
  Options.priorityBackup (options s) = false -> ready s1.
Proof.
  intros [I1 _ _ _ _ _ _ _ (F1 & _ & _ & F4 & F5 & F6 & F7 & _)] H1 H2 H3 H4 H5.
  unfold ready, isClosedOrFailed in *. by rewrite I1, F1, F4, F5, F6, F7.
Qed.
Lemma interrupted_tracker_ok s : tracker_ok (stateTracker s) -> quiet (stateTracker s) = true ->
  tracker_ok (interrupted_tracker s) /\ quiet (interrupted_tracker s) = true.
Proof.
  intros Hok Hq. split; [by apply transportInterrupted_ok |]. unfold quiet in *. cbn. rewrite forallb_forall in *.
  intros [k cs] Hin. apply in_map_iff in Hin as ([k' cs'] & [= <- <-] & Hin). exact (Hq _ Hin).
Qed.

(** What another thread does while [oneway] waits: one run of the failover task. *)
Definition reconnecting (elapsed : Z) : list (Z * (t * Brokers.t -> t * Brokers.t)) := [(elapsed, fun st => snd (@iterate _ net parse st))].

(** A transport connected through [h] to [f], which has failed, with the list of the
    other brokers. *)
Record losing (s : t) (h : nat) (f : URI.t) (l : list URI.t) : Prop := {
  lo_transport : connectedTransport s = Some h;
  lo_uri : connectedTransportURI s = Some f;
  lo_open : isClosedOrFailed s = false /\ shutdown s = false /\ canReconnect s = true;
  lo_plain : doRebalance s = false /\ BackupTransportPool.enabled (backups s) = false /\
    BackupTransportPool.priorityBackups (backups s) = 0 /\ Options.priorityBackup (options s) = false;
  lo_tracker : tracker_ok (stateTracker s) /\ quiet (stateTracker s) = true;
  lo_updated : URIPool.uriPool (updated s) = [];
  lo_list : URIPool.uriPool (uris s) ++ [f] = l /\ uris_ok l = true /\ URIPool.randomize (uris s) = false;
  lo_first : firstConnection s = false
}.

(** Waiting while the failover task runs. *)
Lemma await_reconnecting c s1 n elapsed s2 n2 h : connectedTransport s1 = None -> isClosedOrFailed s1 = false -> willReconnect s1 = true ->
  isMessage c && (0 <? Options.timeout (options s1)) && (Options.timeout (options s1) <? elapsed) = false ->
  snd (@iterate _ net parse (s1, n)) = (s2, n2) -> connectedTransport s2 = Some h ->
  await c (reconnecting elapsed) (s1, n) = (Ready h, [], (s2, n2)).
Proof.
  intros Hn Ho Hw Ht Hi Hh. unfold reconnecting. cbn [await fst]. rewrite Hn. apply orb_false_iff in Ho as [-> ->]. rewrite Hw, Ht, Hi.
  cbn [fst orb negb]. by rewrite Hh.
Qed.

(** C25. A command that the tracker takes no notice of survives the failure of its
    transport, with no transaction open, a list of brokers that is not shuffled, no backups
    and no priority.  The send on [h] fails; the request is taken out of the request map,
    the list of brokers gets the lost one, the transport is left to the close task; and
    while [oneway] waits, and within its time limit, the failover task runs once.  It
    connects to the first broker [u] that can be reached and sends it a ConnectionControl,
    the state and the other requests; and then the command is sent to it, exactly once,
    and remembered as a request when it asks for a response. *)
Theorem oneway_survives_failure fuel address c s n h f down u rest elapsed :
  losing s h f (down ++ u :: rest) -> works h = false ->
  forallb (fun v => negb (up v)) down = true -> up u = true -> works (length (Brokers.opened n) + length down)%nat = true ->
  plain s c -> ConcurrentStlMap.lookup (getCommandId c) (requestMap s) = None ->
  isMessage c && (0 <? Options.timeout (options s)) && (Options.timeout (options s) <? elapsed) = false ->
  let h' := (length (Brokers.opened n) + length down)%nat in
  exists s', @oneway _ net parse (S (S fuel)) address c (reconnecting elapsed) (s, n) =
    (Ok Returned, (s', Brokers.mk (Brokers.opened n ++ down ++ [u]) (Brokers.sent n ++ map (pair h')
      (fault_tolerant :: snapshot (interrupted_tracker s) version ++ map request_command (map snd (requestMap s)) ++ [c])) (Brokers.closed n))) /\
    connectedTransport s' = Some h' /\ connectedTransportURI s' = Some u /\ closeTask s' = closeTask s ++ [h] ++ seq ((length (Brokers.opened n))) (length down) /\
    requestMap s' = (if isResponseRequired c then ConcurrentStlMap.insert (getCommandId c) (Command c) (requestMap s) else requestMap s).
Proof.
  intros [L1 L2 (L3 & L4 & L5) (L6 & L7 & L8 & L9) [Hok Hq] L10 (L11 & L12 & L13) L14] Hw Hdown Hup Hw' Hc Hfresh Htime h'.
  destruct (deliver_fails address c s n h f Hc Hw L1 L2 L4 L5 L10) as (s1 & Ed & Hi); [by rewrite L11 | done |].
  pose proof (interrupted_ready s s1 h f Hi L3 L6 L7 L8 L9) as Hr. destruct (interrupted_tracker_ok s Hok Hq) as [Hok1 Hq1].
  destruct Hi as [I1 I2 I3 I4 I5 I6 I7 I8 (F1 & F2 & F3 & F4 & F5 & F6 & F7 & F8)].
  assert (Hcl : closed s = false /\ closed s1 = false) by (rewrite F4; apply orb_false_iff in L3 as [-> _]; done). destruct Hcl as [Hcl Hcl1].
  rewrite (oneway_connected _ _ _ _ _ _ h), (loop_round _ _ _ _ _ _ h), Ed by done.
  assert (Hlist : getConnectList s1 = false).
  { unfold getConnectList, URIPool.isEmpty. rewrite I5, L10. apply andb_false_r. }
  destruct (iterate_reconnects parse up works version s1 n down u rest) as (s2 & Ei & Hct); try done; rewrite ?I6, ?Hlist; cbn [pool]; rewrite ?I3, ?I4; try done.
  rewrite Hlist in Hct. destruct Hct as [C1 C2 _ C3 _ _ C6 _ _ _ C10 _ _]. fold h' in C1, Ei.
  assert (Hrest : restored version s1 = fault_tolerant :: snapshot (interrupted_tracker s) version ++ map request_command (map snd (requestMap s))).
  { unfold restored. apply andb_true_iff in L5 as [L5 _]. by rewrite F2, F3, L5, L14, I6, I7. }
  assert (Hwill : willReconnect s1 = true).
  { unfold willReconnect, canReconnect, calculateReconnectAttemptLimit in *. rewrite F1, F3. apply andb_true_iff in L5 as [_ ->]. apply orb_true_r. }
  cbn [oneway_loop fst]. rewrite Hcl1. erewrite await_reconnecting; [| done | by destruct Hr | done | by rewrite F1 | by rewrite Ei | done].
  assert (Hc2 : plain s2 c) by (rewrite C10, I6; exact Hc).
  rewrite deliver_works by done. eexists. split; [| split_and!].
  - cbn [outcome]. rewrite Hrest. cbn [Brokers.opened Brokers.sent Brokers.closed]. do 3 f_equal. rewrite <- app_assoc, <- map_app. cbn. by rewrite <- app_assoc.
  - unfold sent_last, requested. by destruct (isResponseRequired c), (isShutdownInfo c).
  - unfold sent_last, requested. by destruct (isResponseRequired c), (isShutdownInfo c).
  - unfold sent_last, requested. rewrite I2, <- app_assoc in C3. by destruct (isResponseRequired c), (isShutdownInfo c).
  - unfold sent_last, requested. rewrite <- I7, <- C6. by destruct (isResponseRequired c), (isShutdownInfo c).
Qed.

(** ** After the shutdown *)

(** Once a ShutdownInfo was sent a failing transport is no longer given up, and a
    send of any other command the tracker does not follow on it never returns: it tries
    the same transport again and again, with the mutex of the transport held. *)
Theorem send_after_shutdown_spins fuel address c env s n h : connectedTransport s = Some h -> closed s = false -> shutdown s = true ->
  canReconnect s = true -> works h = false -> plain s c -> ConcurrentStlMap.lookup (getCommandId c) (requestMap s) = None ->
  @oneway _ net parse fuel address c env (s, n) = (Err NoFuel, (s, n)).
Proof.
  intros Hh Hc Hsd Hcan Hw Hp Hfresh. rewrite (oneway_connected _ _ _ _ _ _ h) by done.
  assert (Hd : @deliver _ net address h c (s, n) = (Ok Retry, (s, n))).
  { rewrite deliver_retries by done. unfold xbind, handleTransportFailure, xbind, state. cbn [fst]. by rewrite Hsd. }
  enough (Hl : @oneway_loop _ net fuel address c env (s, n) = (Err NoFuel, (s, n))) by (by rewrite Hl).
  induction fuel as [|fuel IH]; [cbn; by rewrite Hc |]. by rewrite (loop_round _ _ _ _ _ _ h), Hd by done.
Qed.
End Sending.

(** ** An example: connected to the first of two brokers, whose transport has failed *)
Import FailoverSample.
Definition keepAlive : DataStructure := DKeepAliveInfo (KeepAliveInfo.mk (BaseCommand.mk 7 true)).
Definition online : t :=
  set_stateTracker Sample.tracker (set_uris (URIPool.mk [b] a false)
    (set_connectedTransportURI (Some a) (set_connectedTransport (Some 0%nat) transport))).
Definition only_first (h : nat) : bool := (h =? 0)%nat.
Definition but_first (h : nat) : bool := negb (h =? 0)%nat.
Definition one : Brokers.t := Brokers.mk [a] [] [].

Lemma oneway_sends_once_witness : exists s',
  @oneway _ (Brokers.network none only_first 10) no_parser 1 0 keepAlive [] (online, one) = (Ok Returned, (s', Brokers.mk [a] [(0%nat, keepAlive)] [])) /\
  requestMap s' = [(7, Command keepAlive)].
Proof. eexists. split; [apply (oneway_sends_once no_parser none only_first 10 0 0 keepAlive [] online one 0); reflexivity | reflexivity]. Defined.
Lemma oneway_survives_failure_witness : exists s',
  @oneway _ (Brokers.network only_b but_first 10) no_parser 2 0 keepAlive (reconnecting no_parser only_b but_first 10 5) (online, one) =
    (Ok Returned, (s', Brokers.mk [a; b] (map (pair 1%nat) (fault_tolerant :: snapshot Sample.interrupted 10 ++ [keepAlive])) [])) /\
  requestMap s' = [(7, Command keepAlive)].
Proof.
  destruct (oneway_survives_failure no_parser only_b but_first 10 0 0 keepAlive online one 0 a [] b [a] 5) as (s' & E & _ & _ & _ & Hr);
    [| by vm_compute.. |].
  - split; [by vm_compute.. | | by vm_compute | by vm_compute | by vm_compute]. split; [by apply shown_ok; [| apply new_ok] | by vm_compute].
  - exists s'. split; [exact E | exact Hr].
Defined.
Lemma send_after_shutdown_spins_witness :
  @oneway _ (Brokers.network none but_first 10) no_parser 100 0 keepAlive [] (set_shutdown true online, one) = (Err NoFuel, (set_shutdown true online, one)).
Proof. apply (send_after_shutdown_spins no_parser none but_first 10 100 0 keepAlive [] (set_shutdown true online) one 0); reflexivity. Defined.
