(* ===== verification/FailoverInvariant.v ===== *)
(** * The invariant of the failover transport

    The operations of Failover.v as a transition system, over any network: [step] is an
    operation that runs, and [oneway] with what other threads do while it waits.
    [transport_invariant] holds in every state that can be reached. *)

From S2P Require Import Prelude DataStreams PrimitiveTypes Support BooleanStreams Wire BaseMarshaller Commands.
From S2P Require Import StringOrder Identifiers StateTracker TrackerLaws Uris Failover FailoverLaws.
Import NaturalOrder FailoverTransport.

(** Delays that make sense: the first is at most the last, and the back off does not
    overflow. *)
Definition delays_ok (o : Options.t) : bool :=
  (0 <=? Options.initialReconnectDelay o) && (Options.initialReconnectDelay o <=? Options.maxReconnectDelay o) &&
  (DEFAULT_INITIAL_RECONNECT_DELAY <=? Options.maxReconnectDelay o) && (0 <=? Options.backOffMultiplier o) &&
  (Options.maxReconnectDelay o * Options.backOffMultiplier o <? 2 ^ 63).
(** An entry of the request map is at the id of its command. *)
Definition request_ok (key : Z) (r : request) : Prop := match r with Command c => getCommandId c = key | Waiting _ => True end.

Record transport_ok (o : Options.t) (s : t) : Prop := {
  ok_options : options s = o;
  ok_uri : connectedTransport s <> None -> connectedTransportURI s <> None;
  ok_closed : closed s = true -> connectedTransport s = None /\ requestMap s = [];
  ok_delay : 0 <= reconnectDelay s <= Options.maxReconnectDelay o;
  ok_requests : minv request_ok (requestMap s)
}.

(** Lemmas that a computation keeps the invariant. *)
Create HintDb keeps.

(** ** Computations that keep a property of the transport *)
Section Keeps.
Context {N : Type} (I : t -> Prop).
Abbreviation world := (t * N)%type.
Definition keeps {A} (m : X world A) : Prop := forall s n, I s -> I (fst (snd (m (s, n)))).

Lemma keeps_ret {A} (a : A) : keeps (xret a).
Proof. by intros s n Hs. Qed.
Lemma keeps_lift {A} (r : result A) : keeps (xlift r).
Proof. by intros s n Hs. Qed.
Lemma keeps_state : keeps (@state N).
Proof. by intros s n Hs. Qed.
Lemma keeps_bind {A B} (m : X world A) (k : A -> X world B) : keeps m -> (forall a, keeps (k a)) -> keeps (xbind m k).
Proof.
  intros Hm Hk s n Hs. unfold xbind. specialize (Hm s n Hs). destruct (m (s, n)) as [[a|f] [s1 n1]]; [| done]. by apply Hk.
Qed.
(** The state that is read is one of the property. *)
Lemma keeps_with_state {B} (k : t -> X world B) : (forall s0, I s0 -> forall s n, I s -> s = s0 -> I (fst (snd (k s0 (s, n))))) -> keeps (xbind state k).
Proof. intros Hk s n Hs. by apply Hk. Qed.
Lemma keeps_modify (g : t -> t) : (forall s, I s -> I (g s)) -> keeps (@modify N g).
Proof. intros Hg s n Hs. by apply Hg. Qed.
Lemma keeps_network {A} (m : N -> result A * N) : keeps (FailoverTransport.network m).
Proof. intros s n Hs. unfold FailoverTransport.network. by destruct (m n). Qed.
Lemma keeps_when b (m : X world unit) : keeps m -> keeps (when b m).
Proof. intros Hm. destruct b; [exact Hm | apply keeps_ret]. Qed.
Lemma keeps_nothrow (m : X world unit) : keeps m -> keeps (nothrow m).
Proof. intros Hm s n Hs. specialize (Hm s n Hs). unfold nothrow. by destruct (m (s, n)) as [[|[]] [s1 n1]]. Qed.
Lemma keeps_catch {A} f (m : X world A) : keeps m -> keeps (xcatch f m).
Proof. intros Hm s n Hs. specialize (Hm s n Hs). unfold xcatch. by destruct (m (s, n)) as [[|[]] [s1 n1]]. Qed.
Lemma keeps_for {A} (l : list A) (f : A -> X world unit) : (forall x, keeps (f x)) -> keeps (xfor l f).
Proof. intros Hf. induction l as [|x l IH]; [apply keeps_ret | by apply keeps_bind; [| intros _]]. Qed.

(** Properties the tracker and the lists of brokers have no part in. *)
Context (I_tracker : forall tr s, I s -> I (set_stateTracker tr s)) (I_pool : forall which p s, I s -> I (set_pool which p s)).
Lemma keeps_tracker {A} (m : X ConnectionStateTracker.t A) : keeps (tracker m).
Proof. intros s n Hs. unfold tracker. destruct (m (stateTracker s)). by apply I_tracker. Qed.
Lemma keeps_in_pool which f : keeps (in_pool which f).
Proof.
  apply keeps_bind; [apply keeps_state | intros s]. apply keeps_bind; [apply keeps_lift | intros r].
  apply keeps_bind; [| intros _; apply keeps_ret]. apply keeps_modify. by intros s1; apply I_pool.
Qed.
End Keeps.
(** A change after which more is known. *)
Lemma keeps_modify_then {N B} (I J : t -> Prop) (g : t -> t) (k : unit -> X (t * N) B) :
  (forall s, I s -> J (g s)) -> (forall s, J s -> I s) -> keeps J (k tt) -> keeps I (xbind (modify g) k).
Proof. intros Hg HJ Hk s n Hs. apply HJ, Hk, Hg, Hs. Qed.

(** ** The operations keep the invariant *)
Section Operations.
Context {N : Type} `{Network N} (parse : list Z -> result URI.t) (o : Options.t) (Ho : delays_ok o = true).

(** The invariant, of a transport that is closed ([c]) or of one that is not: only
    [close] takes from one to the other; and ([d]) that it is known to be disconnected. *)
Definition ok (c d : bool) (s : t) : Prop := transport_ok o s /\ closed s = c /\ (d = true -> connectedTransport s = None).
Abbreviation keep c d m := (@keeps N (ok c d) _ m).
Lemma ok_known c d s : ok c true s -> ok c d s.
Proof. intros (H1 & H2 & H3). split_and!; try done. intros _. by apply H3. Qed.

Ltac by_fields := let s := fresh "s" in intros s ([? ? ? ? ?] & ? & ?); split_and!; [split | |]; cbn in *; try done; try tauto.

Lemma ok_tracker c d tr s : ok c d s -> ok c d (set_stateTracker tr s).
Proof. revert s. by_fields. Qed.
Lemma ok_pool c d which p s : ok c d s -> ok c d (set_pool which p s).
Proof. revert s. destruct which; by_fields. Qed.
Lemma ok_notify c d e s : ok c d s -> ok c d (notify e s).
Proof. intros Hs. unfold notify. destruct (transportListener s); [| done]. revert s Hs. by_fields. Qed.
Lemma keep_tracker c d {A} (m : X ConnectionStateTracker.t A) : keep c d (tracker m).
Proof. apply keeps_tracker, ok_tracker. Qed.
Lemma keep_in_pool c d which f : keep c d (in_pool which f).
Proof. apply keeps_in_pool, ok_pool. Qed.
Lemma keep_notify c d e : keep c d (modify (notify e)).
Proof. apply keeps_modify, ok_notify. Qed.

(** A step of the code; a change of fields is left when it needs an argument. *)
Ltac keep_step :=
  match goal with
  | |- keeps _ (xret _) => apply keeps_ret
  | |- keeps _ (xlift _) => apply keeps_lift
  | |- keeps _ state => apply keeps_state
  | |- keeps _ (xbind _ _) => apply keeps_bind; [| intros ?]
  | |- keeps _ (tracker _) => apply keep_tracker
  | |- keeps _ (in_pool _ _) => apply keep_in_pool
  | |- keeps _ (modify (notify _)) => apply keep_notify
  | |- keeps _ (FailoverTransport.network _) => apply keeps_network
  | |- keeps _ (when _ _) => apply keeps_when
  | |- keeps _ (nothrow _) => apply keeps_nothrow
  | |- keeps _ (xcatch _ _) => apply keeps_catch
  | |- keeps _ (xfor _ _) => apply keeps_for; intros ?
  | |- keeps _ (match _ with _ => _ end) => case_match
  | |- keeps _ (if _ then _ else _) => case_match
  | |- keeps _ (let _ := _ in _) => cbv zeta
  | |- keeps _ (modify _) => apply keeps_modify; try (solve [by_fields])
  end.
Ltac keep := repeat (first [eassumption | progress auto with keeps nocore | keep_step]).

Lemma keep_propagate c d : keep c d propagateFailureToExceptionListener.
Proof. unfold propagateFailureToExceptionListener. keep. Qed.
Lemma keep_disconnect c d : keep c d disconnect.
Proof.
  unfold disconnect. keep_step; [keep |]. keep_step; [| keep].
  apply (keeps_modify_then _ (ok c true)); [by_fields | apply ok_known | keep].
Qed.
Hint Resolve keep_propagate keep_disconnect : keeps.
Lemma keep_reconnect c d b : keep c d (reconnect b).
Proof. unfold reconnect. apply keeps_modify. intros s Hs. destruct (started s); [| done]. destruct b; revert s Hs; by_fields. Qed.
Hint Resolve keep_reconnect : keeps.
Lemma ok_erase key s : minv request_ok (requestMap s) -> minv request_ok (ConcurrentStlMap.erase key (requestMap s)).
Proof. by apply minv_erase. Qed.
Hint Resolve ok_erase : keeps.
Lemma keep_erase c d key : keep c d (modify (fun s => set_requestMap (ConcurrentStlMap.erase key (requestMap s)) s)).
Proof.
  apply keeps_modify. intros s ([O1 O2 O3 O4 O5] & Hc & Hd). split_and!; [split | |]; cbn; try done; [| by apply ok_erase].
  intros Hcl. destruct (O3 Hcl) as [-> ->]. done.
Qed.
Hint Resolve keep_erase : keeps.
Lemma keep_processResponse c d id : keep c d (processResponse id).
Proof. unfold processResponse. keep. Qed.
Hint Resolve keep_processResponse : keeps.
Lemma keep_handleTransportFailure c d e : keep c d (handleTransportFailure e).
Proof.
  unfold handleTransportFailure. do 3 (keep_step; try by keep).
  apply (keeps_modify_then _ (ok c true)); [by_fields | apply ok_known | keep].
Qed.
Hint Resolve keep_handleTransportFailure : keeps.

(** *** The lists of brokers *)
Lemma keep_reconnectTo c d u : keep c d (reconnectTo u).
Proof. unfold reconnectTo. keep. Qed.
Lemma keep_add c d b u : keep c d (add parse b u).
Proof. unfold add. keep. Qed.
Lemma keep_add_each c d us b : keep c d (add_each us b).
Proof. revert b. induction us as [|u us IH]; intros b; cbn; keep; apply IH. Qed.
Lemma keep_remove_each c d us b : keep c d (remove_each us b).
Proof. revert b. induction us as [|u us IH]; intros b; cbn; keep; apply IH. Qed.
Hint Resolve keep_reconnectTo keep_add keep_add_each keep_remove_each : keeps.
Lemma keep_addURI c d b us : keep c d (addURI b us).
Proof. unfold addURI. keep. Qed.
Lemma keep_removeURI c d b us : keep c d (removeURI b us).
Proof. unfold removeURI. keep. Qed.
Lemma keep_updateURIs c d b us : keep c d (updateURIs b us).
Proof. unfold updateURIs. keep. Qed.
Hint Resolve keep_addURI keep_removeURI keep_updateURIs : keeps.
Lemma keep_processNewTransports c d b l : keep c d (processNewTransports parse b l).
Proof.
  unfold processNewTransports. keep. intros s n Hs. match goal with |- context [updateURIs b ?us (s, n)] =>
    pose proof (keep_updateURIs c d b us s n Hs) as Hk; destruct (updateURIs b us (s, n)) as [[|[]] [s1 n1]]; try done end. by case_match.
Qed.
Hint Resolve keep_processNewTransports : keeps.
Lemma keep_setPriorityURIs c d l : keep c d (setPriorityURIs parse l).
Proof. unfold setPriorityURIs. keep. Qed.
Hint Resolve keep_setPriorityURIs : keeps.
Lemma keep_handleConnectionControl c d i : keep c d (handleConnectionControl parse i).
Proof. unfold handleConnectionControl. keep. Qed.
Hint Resolve keep_handleConnectionControl : keeps.
Lemma keep_onCommand c d x : keep c d (listener_onCommand parse x).
Proof. unfold listener_onCommand. keep. Qed.
Lemma keep_onException c d e : keep c d (listener_onException e).
Proof.
  intros s n Hs. pose proof (keep_handleTransportFailure c d e s n Hs) as Hk. unfold listener_onException.
  destruct (handleTransportFailure e (s, n)) as [[|[]] [s1 n1]]; try done. by apply ok_notify.
Qed.
Hint Resolve keep_onCommand keep_onException : keeps.

(** *** Connecting *)
Lemma keep_restore_tracker c d h : keep c d (restore_tracker parse h).
Proof.
  intros s n Hs. unfold restore_tracker. destruct (ConnectionStateTracker.restore _) as [r [tr [n' received]]].
  assert (Hk : keep c d (xfor received (listener_onCommand parse))) by keep.
  specialize (Hk (set_stateTracker tr s) n' (ok_tracker _ _ tr s Hs)).
  by destruct (xfor received (listener_onCommand parse) (set_stateTracker tr s, n')) as [[|] [s1 n1]].
Qed.
Hint Resolve keep_restore_tracker : keeps.
Lemma keep_restoreTransport c d h : keep c d (restoreTransport parse h).
Proof. unfold restoreTransport. keep. Qed.
Hint Resolve keep_restoreTransport : keeps.

Lemma delays : 0 <= Options.initialReconnectDelay o <= Options.maxReconnectDelay o /\ 0 <= Options.backOffMultiplier o /\
  10 <= Options.maxReconnectDelay o /\ Options.maxReconnectDelay o * Options.backOffMultiplier o < 2 ^ 63.
Proof. pose proof Ho as Hd. unfold delays_ok, DEFAULT_INITIAL_RECONNECT_DELAY in Hd. rewrite !andb_true_iff in Hd. lia. Qed.
Lemma ok_initial c d s : ok c d s -> ok c d (set_reconnectDelay (Options.initialReconnectDelay (options s)) s).
Proof. pose proof delays. revert s. by_fields. subst. lia. Qed.
Lemma ok_reset c d s : ok c d s -> ok c d (resetReconnectDelay s).
Proof. intros Hs. unfold resetReconnectDelay. case_match; [by apply ok_initial | done]. Qed.
Lemma ok_doDelay c d s : ok c d s -> ok c d (doDelay s).
Proof.
  pose proof delays as Hd. intros ([O1 O2 O3 O4 O5] & Hc & Hdd). unfold doDelay. case_match; [| done].
  split_and!; [split | |]; cbn; try done. rewrite O1 in *.
  assert (0 <= reconnectDelay s * Options.backOffMultiplier o <= Options.maxReconnectDelay o * Options.backOffMultiplier o) by nia.
  rewrite swrap_small by lia. case_match; lia.
Qed.
Lemma keep_doDelay c d : keep c d (modify (fun s => if closed s then s else doDelay s)).
Proof. apply keeps_modify. intros s Hs. destruct (closed s); [done | by apply ok_doDelay]. Qed.
Hint Resolve keep_doDelay : keeps.
Lemma keep_give_up c d e : keep c d (give_up_or_delay e).
Proof. unfold give_up_or_delay. keep. Qed.
Lemma keep_rebalance c d which : keep c d (iterate_rebalance which).
Proof. unfold iterate_rebalance. keep. Qed.
Lemma keep_iterate_backup c d : keep c d iterate_backup.
Proof. unfold iterate_backup. keep. Qed.
Hint Resolve keep_give_up keep_rebalance keep_iterate_backup : keeps.

(** A connection is made while the transport is open. *)
Lemma keep_establish which failures h u : keep false false (establish parse which failures h u).
Proof.
  unfold establish. keep. intros s Hs. apply ok_initial in Hs. revert Hs. generalize (Options.initialReconnectDelay (options s)). intros z Hs.
  destruct Hs as ([O1 O2 O3 O4 O5] & Hc & Hd). split_and!; [split | |]; cbn in *; try done. by rewrite Hc.
Qed.
Lemma keep_abandon c d h : keep c d (abandon h).
Proof. unfold abandon. keep. by intros s m Hs. Qed.
Lemma keep_attempt which failures h u s n : ok false false s -> ok false false (fst (snd (fst (attempt parse which failures h u (s, n))))).
Proof.
  intros Hs. unfold attempt. destruct h as [h|]; [by apply keep_establish |].
  destruct (URIPool.getURI _ _) as [[u1 p]|]; [| done]. apply (ok_pool _ _ which p) in Hs.
  destruct (net_create u1 n) as [[h|] n1]; [by apply keep_establish | done].
Qed.
Lemma keep_connect_loop fuel which failures e h u : keep false false (connect_loop parse fuel which failures e h u).
Proof.
  revert failures e h u. induction fuel as [|fuel IH]; intros failures e h u s n Hs; cbn [connect_loop]; case_match; try done.
  pose proof (keep_attempt which failures h u s n Hs) as Ha.
  destruct (attempt parse which failures h u (s, n)) as [[[|[]] [s1 n1]] [h1 u1]]; try done.
  by apply (keeps_bind (ok false false)); [apply keep_abandon | intros _; apply IH |].
Qed.
Hint Resolve keep_connect_loop : keeps.
Lemma keep_iterate c : keep c false (iterate parse).
Proof.
  destruct c; [| unfold iterate; keep; apply ok_reset].
  intros s n Hs. unfold iterate, xbind, state, isClosedOrFailed. cbn [fst]. by rewrite (proj1 (proj2 Hs)), orb_true_r.
Qed.

(** *** The other tasks *)
Lemma keep_backup_loop c d fuel which failures : keep c d (backup_loop fuel which failures).
Proof.
  revert failures. induction fuel as [|fuel IH]; intros failures s n Hs; cbn [backup_loop]; case_match; try done.
  destruct (URIPool.getURI _ _) as [[u p]|[[]| |]]; try done. apply (ok_pool _ _ which p) in Hs.
  match goal with |- context [?m (set_pool which p s, n)] => assert (Hb : keep c d m) by keep; specialize (Hb _ n Hs);
    destruct (m (set_pool which p s, n)) as [[[]|[]] [s1 n1]] end; try done; try by apply IH.
  assert (Hr : keep c d (reconnect false ;+ xret failures)) by keep. by apply Hr.
Qed.
Hint Resolve keep_backup_loop : keeps.
Lemma keep_backup_iterate c d : keep c d backup_iterate.
Proof. unfold backup_iterate. keep. Qed.
Lemma keep_failure_loop c d b l kept : keep c d (failure_loop b l kept).
Proof.
  revert kept. induction l as [|x l IH]; intros kept; cbn [failure_loop]; keep; try apply IH.
  intros s Hs. case_match; [| done]. revert s Hs H0. intros s Hs _. revert s Hs. by_fields.
Qed.
Lemma keep_onBackupTransportFailure c d b : keep c d (onBackupTransportFailure b).
Proof. unfold onBackupTransportFailure. keep. apply keep_failure_loop. Qed.
Lemma keep_close_iterate c d : keep c d close_iterate.
Proof. unfold close_iterate. keep. intros s n Hs. revert s Hs. cbn. by_fields. Qed.

(** *** Starting and closing *)
Lemma keep_start c d : keep c d (start parse).
Proof. unfold start. keep. intros s Hs. case_match; [| done]. revert s Hs H1. intros s Hs _. revert s Hs. by_fields. Qed.
Lemma keep_stop c d : keep c d stop.
Proof. unfold stop. keep. Qed.
Lemma close_ok c s n : ok c false s -> transport_ok o (fst (snd (close (s, n)))).
Proof.
  intros (Hs & Hc & _). unfold close, xbind, state. cbn [fst]. destruct (closed s) eqn:E; [done |].
  unfold modify, xmodify. destruct Hs as [O1 O2 O3 O4 O5].
  assert (Hr : transport_ok o (set_connectedTransport None (set_requestMap []
      (set_backups (BackupTransportPool.close (BackupTransportPool.setEnabled false (backups s)))
      (set_connected false (set_closed true (set_started false s))))))) by (split; cbn; try done; apply minv_nil).
  by destruct (connectedTransport s).
Qed.

(** *** Sending *)
Lemma keeps_any {A} (m : X (t * N) A) : (forall c, keep c false m) -> keeps (transport_ok o) m.
Proof. intros Hm s n Hs. by apply (Hm (closed s) s n). Qed.
Lemma request_keyed : keyed request_ok.
Proof. intros a b r E Hr; destruct r; cbn in *; [| done]. apply Z.compare_eq in E. congruence. Qed.
Lemma ok_request c r s : request_ok (getCommandId c) r -> ok false false s ->
  ok false false (set_requestMap (ConcurrentStlMap.insert (getCommandId c) r (requestMap s)) s).
Proof.
  intros Hr ([O1 O2 O3 O4 O5] & Hc & Hd). split_and!; [split | |]; cbn; try done; [by rewrite Hc |].
  by apply minv_insert; [apply request_keyed | | |].
Qed.
Lemma keep_register address c : keep false false (register address c).
Proof. unfold register. keep; intros s; by apply ok_request. Qed.
Lemma keep_send h c : keep false false (send h c).
Proof. unfold send. keep. Qed.
Lemma keep_deliver address h c : keep false false (deliver address h c).
Proof.
  intros s n Hs. unfold deliver. pose proof (keep_register address c s n Hs) as Hr.
  destruct (register address c (s, n)) as [[tracked|[]] [s1 n1]]; try done. pose proof (keep_send h c s1 n1 Hr) as Hsd.
  destruct (send h c (s1, n1)) as [[[]|[]] [s2 n2]]; try done. destruct (is_IOException e); [| done].
  case_match; match goal with |- ok _ _ (fst (snd (?m (s2, n2)))) => assert (Hm : keep false false m) by keep; by apply Hm end.
Qed.

(** What the other threads do keeps the invariant. *)
Abbreviation interference := (list (Z * (t * N -> t * N))).
Definition harmless (env : interference) : Prop :=
  Forall (fun e => forall st, transport_ok o (fst st) -> transport_ok o (fst (snd e st))) env.
Lemma await_ok c env st : harmless env -> transport_ok o (fst st) ->
  let '(w, env', st') := await c env st in
  harmless env' /\ transport_ok o (fst st') /\ forall h, w = Ready h -> connectedTransport (fst st') = Some h.
Proof.
  revert st. induction env as [|[elapsed others] env IH]; intros st He Hs; cbn [await].
  all: destruct (connectedTransport (fst st)) as [h|] eqn:Eh; [split; [exact He | split; [exact Hs | by intros ? [= <-]]] |].
  all: destruct (closed (fst st) || _ || _); [by split; [exact He |] |].
  - by split; [exact He |].
  - apply Forall_cons_1 in He as [Hx He]. destruct (isMessage c && _ && _); [by split; [exact He |] |]. apply IH; [exact He |]. by apply Hx.
Qed.
Lemma loop_ok fuel address c env s n : harmless env -> transport_ok o s -> transport_ok o (fst (snd (oneway_loop fuel address c env (s, n)))).
Proof.
  revert env s n. induction fuel as [|fuel IH]; intros env s n He Hs; cbn [oneway_loop fst]; destruct (closed s) eqn:Ec; try done.
  pose proof (await_ok c env (s, n) He Hs) as Ha. destruct (await c env (s, n)) as [[w env1] [s1 n1]]. destruct Ha as (He1 & Hs1 & Hw).
  destruct w as [h| |]; [| done..]. specialize (Hw h eq_refl). cbn in Hw, Hs1.
  assert (Hok : ok false false s1).
  { split_and!; [done | | done]. destruct (closed s1) eqn:E; [| done]. destruct (ok_closed _ _ Hs1 E). congruence. }
  pose proof (keep_deliver address h c s1 n1 Hok) as Hd. destruct (deliver address h c (s1, n1)) as [[[]|] [s2 n2]]; try apply Hd.
  apply IH; [done | apply Hd].
Qed.
Lemma keep_stale c d address x : keep c d (stale parse address x).
Proof. unfold stale. keep. Qed.
Lemma keep_oneway fuel address c env : harmless env -> keeps (transport_ok o) (oneway parse fuel address c env).
Proof.
  intros He s n Hs. unfold oneway.
  match goal with |- context [?m (s, n)] => assert (Hm : keeps (transport_ok o) m) end.
  { apply keeps_bind; [apply keeps_any; intros c0; apply keep_stale | intros []; [apply keeps_ret |]]. intros s1 n1 Hs1. by apply loop_ok. }
  specialize (Hm s n Hs). match goal with |- context [?m (s, n)] => destruct (m (s, n)) as [[[]|[]] [s1 n1]] end; try apply Hm.
  cbn. by case_match.
Qed.
Lemma keep_complete fuel env id : harmless env -> keeps (transport_ok o) (setConnectionInterruptProcessingComplete parse fuel env id).
Proof.
  intros He. unfold setConnectionInterruptProcessingComplete. repeat (apply keeps_bind; [| intros ?]).
  - apply keeps_state.
  - apply keeps_lift.
  - apply keeps_any. intros c. apply keep_tracker.
  - apply keeps_for. intros [key info]. apply keeps_nothrow, keeps_bind; [by apply keep_oneway | intros _; apply keeps_ret].
Qed.

(** ** The transition system *)
Inductive operation :=
| Start | Stop | Close | Iterate | BackupIterate | CloseIterate
| Received (c : DataStructure) | Broken (e : exn) | BackupBroken (b : BackupTransport.t)
| Reconnect (rebalance : bool) | ReconnectTo (u : URI.t) | Add (rebalance : bool) (u : list Z)
| AddURIs (rebalance : bool) (us : list URI.t) | RemoveURIs (rebalance : bool) (us : list URI.t) | UpdateURIs (rebalance : bool) (us : list URI.t)
| SetPriorityURIs (us : list Z).
Definition exec (op : operation) (st : t * N) : t * N :=
  match op with
  | Start => snd (start parse st) | Stop => snd (stop st) | Close => snd (close st) | Iterate => snd (iterate parse st)
  | BackupIterate => snd (backup_iterate st) | CloseIterate => snd (close_iterate st)
  | Received c => snd (listener_onCommand parse c st) | Broken e => snd (listener_onException e st)
  | BackupBroken b => snd (onBackupTransportFailure b st) | Reconnect b => snd (reconnect b st) | ReconnectTo u => snd (reconnectTo u st)
  | Add b u => snd (add parse b u st) | AddURIs b us => snd (addURI b us st) | RemoveURIs b us => snd (removeURI b us st)
  | UpdateURIs b us => snd (updateURIs b us st) | SetPriorityURIs us => snd (setPriorityURIs parse us st)
  end.
(** The waits of [oneway]: the time and the operations of the others. *)
Definition waits (w : list (Z * list operation)) : interference :=
  map (fun e => (fst e, fun st => fold_left (fun st op => exec op st) (snd e) st)) w.
Inductive step : t * N -> t * N -> Prop :=
| step_exec op st : step st (exec op st)
| step_oneway fuel address c w st : step st (snd (oneway parse fuel address c (waits w) st))
| step_complete fuel w id st : step st (snd (setConnectionInterruptProcessingComplete parse fuel (waits w) id st)).

Lemma exec_ok op st : transport_ok o (fst st) -> transport_ok o (fst (exec op st)).
Proof.
  destruct st as [s n]. intros Hs. assert (Hk : ok (closed s) false s) by done.
  destruct op; cbn [exec]; [| | by apply (close_ok (closed s)) | | | | | | | | | | | | |].
  all: match goal with |- transport_ok _ (fst (snd (?m (?s, ?n)))) => enough (Hm : keep (closed s) false m) by (by apply (Hm s n)) end.
  all: auto using keep_start, keep_stop, keep_iterate, keep_backup_iterate, keep_close_iterate, keep_onBackupTransportFailure with keeps.
Qed.
Lemma waits_harmless w : harmless (waits w).
Proof.
  unfold harmless, waits. apply Forall_map, Forall_true. intros [z ops] st Hs. cbn. revert st Hs.
  induction ops as [|op ops IH]; intros st Hs; [done |]. by apply IH, exec_ok.
Qed.
Lemma step_keeps st st' : step st st' -> transport_ok o (fst st) -> transport_ok o (fst st').
Proof.
  intros [op [s n]|fuel address c w [s n]|fuel w id [s n]] Hs; [by apply exec_ok | |].
  - by apply keep_oneway; [apply waits_harmless |].
  - by apply keep_complete; [apply waits_harmless |].
Qed.

Lemma run_reaches ops st : Relation_Operators.clos_refl_trans_1n _ step st (fold_left (fun st op => exec op st) ops st).
Proof.
  revert st. induction ops as [|op ops IH]; intros st; [apply Relation_Operators.rt1n_refl |].
  exact (Relation_Operators.rt1n_trans _ _ _ _ _ (step_exec op st) (IH _)).
Qed.

(** C26. The invariant of the failover transport, in every state that can be reached over
    any network: while a transport is connected its URI is known (so that a failure is
    never handled with a null URI), a closed transport has no connection and no request,
    the delay before the next attempt is never negative and never above the maximum, and
    the request map is sorted, with every command at its own id. *)
Theorem transport_invariant n st : Relation_Operators.clos_refl_trans_1n _ step (set_options o new, n) st -> transport_ok o (fst st).
Proof.
  intros Hr. assert (Hn : transport_ok o (fst (set_options o new, n))).
  { pose proof delays. split; cbn; try done. unfold DEFAULT_INITIAL_RECONNECT_DELAY. lia. }
  revert Hn. induction Hr as [|st1 st2 st3 Hs _ IH]; intros Hn; [done | by apply IH, (step_keeps st1)].
Qed.
End Operations.
(** Adding a broker, starting and connecting. *)
Lemma transport_invariant_witness :
  let net := Brokers.network FailoverSample.only_b (fun _ => true) 10 in
  let st := fold_left (fun st op => @exec _ net FailoverSample.no_parser op st) [AddURIs false [FailoverSample.b]; Start; Iterate]
    (set_options Options.default new, FailoverSample.nothing) in
  transport_ok Options.default (fst st) /\ connectedTransport (fst st) = Some 0%nat.
Proof.
  intros net st. split; [| vm_compute; reflexivity].
  exact (@transport_invariant _ net FailoverSample.no_parser Options.default eq_refl FailoverSample.nothing st
    (@run_reaches _ net FailoverSample.no_parser _ _)).
Defined.
