(* ===== verification/FailoverFacts.v ===== *)
(** * Corner cases of the failover transport

    What Failover.v shows about rebalancing without a connection, priority backups and
    the lists of brokers a broker sends. *)

From S2P Require Import Prelude DataStreams PrimitiveTypes Support BooleanStreams Wire BaseMarshaller Commands.
From S2P Require Import StringOrder Identifiers StateTracker TrackerLaws Uris Failover FailoverLaws.
Import NaturalOrder FailoverTransport.

Section Facts.
Context {N : Type} `{Network N} (parse : list Z -> result URI.t).

(** Rebalancing looks at the URI of a connection that is not there. *)
Lemma iterate_rebalance_null s (n : N) : isClosedOrFailed s = false -> doRebalance s = true -> connectedToPriority s = false ->
  connectedTransportURI s = None -> URIPool.uriPool (pool (getConnectList s) s) <> [] ->
  iterate parse (s, n) = (throw NullPointerException, (s, n)).
Proof.
  intros Ho Hr Hp Hu Hl. unfold iterate. rewrite bind_state, Ho. unfold isConnectionStateValid. rewrite Hr. cbn [negb andb orb]. rewrite andb_false_r. cbn [orb andb].
  unfold URIPool.isEmpty. destruct (URIPool.uriPool (pool (getConnectList s) s)); [done |]. cbn [andb].
  unfold xbind at 1, iterate_rebalance. rewrite bind_state, Hr, Hp, Hu. done.
Qed.

(** A rebalance that is asked for while there is no connection ends the task thread:
    [iterate] throws a NullPointerException that nothing catches, and no transport is
    made any more. *)
Theorem rebalance_ends_task_thread s (n : N) tasks fuel : isPending s = true -> doRebalance s = true -> connectedToPriority s = false ->
  connectedTransportURI s = None -> URIPool.uriPool (pool (getConnectList s) s) <> [] ->
  task_pending BackupTask s = false -> closeTask s = [] -> FailoverTask ∈ tasks ->
  run parse (S fuel) tasks (s, n) = (Ok None, (s, n)).
Proof.
  intros Hpend Hr Hp Hu Hl Hb Hc Hin. assert (E : exists rest, next_task (length tasks) tasks s = Some (FailoverTask, rest)).
  { pose proof (next_task_spec s (length tasks) tasks (le_n _)) as Hn. destruct (next_task (length tasks) tasks s) as [[[] rest]|]; [| by exists rest | |].
    - destruct Hn as [Hn _]. congruence.
    - destruct Hn as [Hn _]. cbn in Hn. by rewrite Hc in Hn.
    - specialize (Hn _ Hin). cbn in Hn. congruence. }
  destruct E as (rest & E).
  assert (Ho : isClosedOrFailed s = false).
  { unfold isPending in Hpend. destruct (isClosedOrFailed s); [| done]. by rewrite !andb_false_r in Hpend. }
  cbn [run]. unfold runner_iterate. rewrite bind_state, E. cbn [task_iterate]. unfold xbind. by rewrite iterate_rebalance_null.
Qed.

(** A priority backup that was taken is never counted off: the connection that uses
    it is not taken for a valid one, and [iterate] goes on as if there were none.  It
    counts a failed attempt each time and keeps the connection, until the limit is
    reached; then it throws a NullPointerException for want of a failure to report. *)
Theorem priority_backup_never_settles s (n : N) h k : connectedTransport s = Some h -> isClosedOrFailed s = false -> doRebalance s = false ->
  0 < BackupTransportPool.priorityBackups (backups s) -> BackupTransportPool.enabled (backups s) = true ->
  BackupTransportPool.backups (backups s) = [] -> transportListener s = true ->
  calculateReconnectAttemptLimit s = k -> 0 <= connectFailures s < k -> k < 2 ^ 31 ->
  isConnectionStateValid s = false /\
  exists s', iterate parse (s, n) = ((if connectFailures s + 1 <? k then Ok true else throw NullPointerException), (s', n)) /\
    connectedTransport s' = Some h /\ connectFailures s' = connectFailures s + 1.
Proof.
  intros Hh Ho Hr Hpb Hen Hbs Hl Hk Hf Hk2. assert (Hv : isConnectionStateValid s = false).
  { unfold isConnectionStateValid, BackupTransportPool.isPriorityBackupAvailable. rewrite (proj2 (Z.ltb_lt _ _)) by done. apply andb_false_r. }
  split; [done |]. unfold iterate. rewrite bind_state, Hv, Ho, Hen. cbn [orb]. rewrite andb_false_r.
  unfold xbind at 1, iterate_rebalance. rewrite bind_state, Hr. cbn [xret]. rewrite bind_modify.
  destruct (reset_keeps s) as [d ->]. unfold xbind at 1, iterate_backup. rewrite bind_state. cbn [backups set_reconnectDelay]. rewrite Hen.
  unfold BackupTransportPool.getBackup. rewrite Hen, Hbs. cbn [negb]. unfold xbind at 1, xlift. rewrite bind_modify. cbn [fst snd head tail].
  set (s1 := set_wakeup true _). unfold xret at 1. rewrite bind_state. cbn [fst snd].
  assert (E1 : connectedTransport s1 = Some h /\ transportListener s1 = true /\ calculateReconnectAttemptLimit s1 = k /\ connectFailures s1 = connectFailures s /\ closed s1 = closed s).
  { by split_and!. } destruct E1 as (E1 & E2 & E3 & E4 & E5). clearbody s1.
  unfold xbind at 1. cbn [plus connect_loop]. unfold isConnected_. rewrite E1. cbn [negb]. rewrite andb_false_r. cbn [andb].
  assert (Hadd : URIPool.addURIs [] (pool (getConnectList s) s1) = Ok (false, pool (getConnectList s) s1)) by done.
  rewrite (bind_in_pool _ _ _ _ _ _ _ Hadd). set (s2 := set_pool _ _ s1).
  assert (F : connectedTransport s2 = Some h /\ transportListener s2 = true /\ calculateReconnectAttemptLimit s2 = k /\ connectFailures s2 = connectFailures s /\ closed s2 = closed s).
  { unfold s2. by destruct (getConnectList s); split_and!. } destruct F as (F1 & F2 & F3 & F4 & F5). clearbody s2.
  unfold give_up_or_delay. rewrite bind_state, F3, (proj2 (Z.leb_le 0 k)) by lia. rewrite bind_modify, bind_state, F4, swrap_small by lia.
  set (s3 := set_connectFailures _ s2). change (connectFailures s3) with (connectFailures s + 1).
  destruct (Z.ltb_spec (connectFailures s + 1) k) as [Hlt|Hge].
  - rewrite (proj2 (Z.leb_gt k _)) by lia. rewrite bind_modify. change (closed s3) with (closed s2). rewrite F5.
    apply orb_false_iff in Ho as [-> _]. eexists. split; [done |]. unfold doDelay. by case_match.
  - rewrite (proj2 (Z.leb_le k _)) by lia. rewrite bind_modify. unfold xbind at 1, propagateFailureToExceptionListener. rewrite bind_state.
    change (transportListener _) with (transportListener s2). rewrite F2. eexists. by split.
Qed.

(** [std::remove] without [erase]: a list with spaces keeps its length, and its last
    characters are there twice. *)
Lemma remove_spaces_length s : length (remove_spaces s) = length s.
Proof.
  unfold remove_spaces. rewrite length_app, length_drop. pose proof (length_filter (fun c => c <> 32) s). lia.
Qed.
Lemma remove_spaces_example : remove_spaces (str "tcp://a:1, tcp://b:2") = str "tcp://a:1,tcp://b:22".
Proof. reflexivity. Qed.
End Facts.

(** ** Examples *)
Import FailoverSample.
Lemma rebalance_ends_task_thread_witness :
  run no_parser (H := Brokers.network only_b (fun _ => true) 10) 9 tasks (set_doRebalance true transport, nothing) =
  (Ok None, (set_doRebalance true transport, nothing)).
Proof.
  apply (rebalance_ends_task_thread (H := Brokers.network only_b (fun _ => true) 10) no_parser);
    [reflexivity | reflexivity | reflexivity | reflexivity | discriminate | reflexivity | reflexivity | by repeat constructor].
Defined.
(** A backup of a preferred broker is waiting, and one attempt is allowed; [iterate]
    connects through it, and the next [iterate] throws. *)
Definition with_backup : t :=
  set_backups (BackupTransportPool.mk [BackupTransport.mk 0 b true] false false 1 1 true)
    (set_options (Options.mk (-1) 10 30000 2 true 1 (-1) false true 1024 10 true true true true) transport).
Lemma priority_backup_never_settles_witness :
  let net := Brokers.network only_b (fun _ => true) 10 in
  let s := fst (snd (@iterate _ net no_parser (with_backup, Brokers.mk [b] [] []))) in
  connectedTransport s = Some 0%nat /\ fst (@iterate _ net no_parser (s, nothing)) = throw NullPointerException.
Proof.
  intros net s. split; [vm_compute; reflexivity |].
  destruct (@priority_backup_never_settles _ net no_parser s nothing 0 1) as (_ & s' & E & _); [by vm_compute.. |].
  rewrite E. vm_compute. reflexivity.
Defined.
