(* ===== verification/BitSets.v ===== *)
(** * Bit sets

    decaf/util/BitSet.cpp: a set of non-negative integers in an array of 64-bit words. *)

From S2P Require Import Prelude.

Module BitSet.
Definition OFFSET : Z := 6.
Definition ELM_SIZE : Z := 64.
Definition RIGHT_BITS : Z := 63.
Definition TWO_N_ARRAY : list Z := Eval vm_compute in map (fun k => 2 ^ Z.of_nat k) (seq 0 64).
Definition all_ones : Z := 2 ^ 64 - 1.

(** [bits] is the array, [bitsSize] the size the object has noted. *)
Record t := mk { bits : list Z; bitsSize : Z; needClear : bool; actualArrayLength : Z; isLengthActual : bool }.

(** Reading and writing the array; outside of it the behaviour is undefined. *)
Definition read (l : list Z) (i : Z) : result Z :=
  if i <? 0 then Err Undefined else match l !! Z.to_nat i with Some w => Ok w | None => Err Undefined end.
Definition write (l : list Z) (i w : Z) : result (list Z) :=
  let! _ := read l i in Ok (<[Z.to_nat i := w]> l).
Definition two_n (index : Z) : result Z := read TWO_N_ARRAY (Z.land index RIGHT_BITS).
(** for (i = from; n times; i++) l[i] = f(i, l[i]) *)
Fixpoint for_words (n : nat) (from : Z) (f : Z -> Z -> result Z) (l : list Z) : result (list Z) :=
  match n with
  | O => Ok l
  | S n => let! w := read l from in let! w' := f from w in let! l' := write l from w' in for_words n (from + 1) f l'
  end.
Definition with_bits (l : list Z) (s : t) : t := mk l (bitsSize s) (needClear s) (actualArrayLength s) (isLengthActual s).
Definition with_length (n : Z) (actual : bool) (s : t) : t := mk (bits s) (bitsSize s) (needClear s) n actual.
Definition with_needClear (s : t) : t := mk (bits s) (bitsSize s) true (actualArrayLength s) (isLengthActual s).
(** isLengthActual = !((actualArrayLength > 0) && (bits[actualArrayLength - 1] == 0)) *)
Definition top_zero (s : t) : result bool :=
  if 0 <? actualArrayLength s then let! w := read (bits s) (actualArrayLength s - 1) in Ok (w =? 0) else Ok false.
Definition check_length (s : t) : result t :=
  let! z := top_zero s in Ok (with_length (actualArrayLength s) (negb z) s).

Definition new : t := mk [0] 1 false 0 true.
Definition init (bitCount : Z) : result t :=
  if bitCount <? 0 then throw NegativeArraySizeException
  else
    let bitsSize := Z.shiftr bitCount OFFSET + (if 0 <? Z.land bitCount RIGHT_BITS then 1 else 0) in
    Ok (mk (replicate (Z.to_nat bitsSize) 0) bitsSize false 0 true).

(** The new array has the old words and is zero beyond. *)
Definition ensureCapacity (length : Z) (s : t) : result t :=
  let newSize := Z.max length (to_s32 (bitsSize s * 2)) in
  let n := Z.to_nat (actualArrayLength s) in
  if (newSize <? actualArrayLength s) || (zlen (bits s) <? actualArrayLength s) then Err Undefined
  else Ok (mk (take n (bits s) ++ replicate (Z.to_nat newSize - n) 0) newSize (needClear s) (actualArrayLength s) (isLengthActual s)).
Definition ensure (len : Z) (s : t) : result t := if bitsSize s <? len then ensureCapacity len s else Ok s.

(** The last word that is not zero. *)
Fixpoint last_word (n : nat) (l : list Z) : result Z :=
  match n with
  | O => Ok (-1)
  | S n => let! w := read l (Z.of_nat n) in if w =? 0 then last_word n l else Ok (Z.of_nat n)
  end.
Definition getActualArrayLength (s : t) : result (Z * t) :=
  if isLengthActual s then Ok (actualArrayLength s, s)
  else let! idx := last_word (Z.to_nat (actualArrayLength s)) (bits s) in Ok (idx + 1, with_length (idx + 1) true s).

(** ** One bit *)
Definition get (index : Z) (s : t) : result bool :=
  if index <? 0 then throw IndexOutOfBoundsException
  else
    let arrayPos := Z.shiftr index OFFSET in
    if arrayPos <? actualArrayLength s
    then let! w := read (bits s) arrayPos in let! b := two_n index in Ok (negb (Z.land w b =? 0))
    else Ok false.
Definition set (index : Z) (s : t) : result t :=
  if index <? 0 then throw IndexOutOfBoundsException
  else
    let len := Z.shiftr index OFFSET + 1 in
    let! s := ensure len s in
    let! w := read (bits s) (len - 1) in
    let! b := two_n index in
    let! l := write (bits s) (len - 1) (Z.lor w b) in
    let s := with_bits l s in
    Ok (with_needClear (if actualArrayLength s <? len then with_length len true s else s)).
Definition clear (index : Z) (s : t) : result t :=
  if index <? 0 then throw IndexOutOfBoundsException
  else if negb (needClear s) then Ok s
  else
    let arrayPos := Z.shiftr index OFFSET in
    if arrayPos <? actualArrayLength s then
      let! w := read (bits s) arrayPos in
      let! b := two_n index in
      let! l := write (bits s) arrayPos (Z.ldiff w b) in
      let! top := read l (actualArrayLength s - 1) in
      Ok (with_length (actualArrayLength s) (if top =? 0 then false else isLengthActual s) (with_bits l s))
    else Ok s.
Definition set_to (index : Z) (value : bool) (s : t) : result t := if value then set index s else clear index s.
Definition flip (index : Z) (s : t) : result t :=
  if index <? 0 then throw IndexOutOfBoundsException
  else
    let len := Z.shiftr index OFFSET + 1 in
    let! s := ensure len s in
    let! w := read (bits s) (len - 1) in
    let! b := two_n index in
    let! l := write (bits s) (len - 1) (Z.lxor w b) in
    let s := with_bits l s in
    let! s := check_length (if actualArrayLength s <? len then with_length len (isLengthActual s) s else s) in
    Ok (with_needClear s).

(** ** Ranges *)
Definition bad_range (fromIndex toIndex : Z) : bool := (fromIndex <? 0) || (toIndex <? 0) || (toIndex <? fromIndex).
(** The words between two indices, changed by [op] with the bits of the range. *)
Definition on_range (op : Z -> Z -> Z) (fromIndex toIndex : Z) (l : list Z) : result (list Z) :=
  let idx1 := Z.shiftr fromIndex OFFSET in
  let idx2 := Z.shiftr (toIndex - 1) OFFSET in
  let factor1 := to_u64 (Z.shiftl all_ones (Z.land fromIndex RIGHT_BITS)) in
  let shift := ELM_SIZE - Z.land toIndex RIGHT_BITS in
  let factor2 := if shift <? 64 then Z.shiftr all_ones shift else all_ones in
  if idx1 =? idx2 then let! w := read l idx1 in write l idx1 (op w (Z.land factor1 factor2))
  else
    let! w1 := read l idx1 in
    let! l := write l idx1 (op w1 factor1) in
    let! w2 := read l idx2 in
    let! l := write l idx2 (op w2 factor2) in
    for_words (Z.to_nat (idx2 - (idx1 + 1))) (idx1 + 1) (fun _ w => Ok (op w all_ones)) l.
Definition set_range (fromIndex toIndex : Z) (s : t) : result t :=
  if bad_range fromIndex toIndex then throw IndexOutOfBoundsException
  else if fromIndex =? toIndex then Ok s
  else
    let len2 := Z.shiftr (toIndex - 1) OFFSET + 1 in
    let! s := ensure len2 s in
    let! l := on_range Z.lor fromIndex toIndex (bits s) in
    let s := with_bits l s in
    Ok (with_needClear (if actualArrayLength s <? len2 then with_length len2 true s else s)).
Definition clear_range (fromIndex toIndex : Z) (s : t) : result t :=
  if bad_range fromIndex toIndex then throw IndexOutOfBoundsException
  else if negb (needClear s) then Ok s
  else
    let last := to_s32 (Z.shiftl (actualArrayLength s) OFFSET) in
    if (last <=? fromIndex) || (fromIndex =? toIndex) then Ok s
    else
      let toIndex := if last <? toIndex then last else toIndex in
      let! l := on_range Z.ldiff fromIndex toIndex (bits s) in
      let s := with_bits l s in
      let! z := top_zero s in
      Ok (if z then with_length (actualArrayLength s) false s else s).
Definition flip_range (fromIndex toIndex : Z) (s : t) : result t :=
  if bad_range fromIndex toIndex then throw IndexOutOfBoundsException
  else if fromIndex =? toIndex then Ok s
  else
    let len2 := Z.shiftr (toIndex - 1) OFFSET + 1 in
    let! s := ensure len2 s in
    let! l := on_range Z.lxor fromIndex toIndex (bits s) in
    let s := with_bits l s in
    let! s := check_length (if actualArrayLength s <? len2 then with_length len2 (isLengthActual s) s else s) in
    Ok (with_needClear s).
Definition clear_all (s : t) : t :=
  if needClear s then mk (replicate (Z.to_nat (bitsSize s)) 0 ++ drop (Z.to_nat (bitsSize s)) (bits s)) (bitsSize s) false 0 true else s.

(** ** Two sets *)
Definition AND (set s : t) : result t :=
  if negb (needClear s) then Ok s
  else
    let length1 := actualArrayLength s in
    let length2 := actualArrayLength set in
    let! s :=
      (if length1 <=? length2
       then let! l := for_words (Z.to_nat length1) 0 (fun i w => let! v := read (bits set) i in Ok (Z.land w v)) (bits s) in Ok (with_bits l s)
       else
         let! l := for_words (Z.to_nat length2) 0 (fun i w => let! v := read (bits set) i in Ok (Z.land w v)) (bits s) in
         let! l := for_words (Z.to_nat (length1 - length2)) length2 (fun _ _ => Ok 0) l in
         Ok (with_length length2 (isLengthActual s) (with_bits l s))) in
    check_length s.
Definition andNot (set s : t) : result t :=
  if negb (needClear s) then Ok s
  else
    let range := if actualArrayLength s <? actualArrayLength set then actualArrayLength s else actualArrayLength set in
    let! l := for_words (Z.to_nat range) 0 (fun i w => let! v := read (bits set) i in Ok (Z.ldiff w v)) (bits s) in
    let s := with_bits l s in
    check_length (if actualArrayLength s <? range then with_length range (isLengthActual s) s else s).
(** The first words of an array, in a new one. *)
Definition copy_words (n : Z) (l : list Z) : result (list Z) := if zlen l <? n then Err Undefined else Ok (take (Z.to_nat n) l).
(** [OR] and [XOR]: the larger array replaces the smaller one, and [bitsSize] stays. *)
Definition OR (set s : t) : result t :=
  let! r := getActualArrayLength set in
  let setActualLen := fst r in
  let set := snd r in
  if bitsSize s <? setActualLen then
    let! l := copy_words setActualLen (bits set) in
    let! l := for_words (Z.to_nat (actualArrayLength s)) 0 (fun i w => let! v := read (bits s) i in Ok (Z.lor w v)) l in
    Ok (with_needClear (with_length setActualLen true (with_bits l s)))
  else
    let! l := for_words (Z.to_nat setActualLen) 0 (fun i w => let! v := read (bits set) i in Ok (Z.lor w v)) (bits s) in
    let s := with_bits l s in
    Ok (with_needClear (if actualArrayLength s <? setActualLen then with_length setActualLen true s else s)).
Definition XOR (set s : t) : result t :=
  let! r := getActualArrayLength set in
  let setActualLen := fst r in
  let set := snd r in
  if bitsSize s <? setActualLen then
    let! l := copy_words setActualLen (bits set) in
    let! l := for_words (Z.to_nat (actualArrayLength s)) 0 (fun i w => let! v := read (bits s) i in Ok (Z.lxor w v)) l in
    let! s := check_length (with_length setActualLen (isLengthActual s) (with_bits l s)) in
    Ok (with_needClear s)
  else
    let! l := for_words (Z.to_nat setActualLen) 0 (fun i w => let! v := read (bits set) i in Ok (Z.lxor w v)) (bits s) in
    let s := with_bits l s in
    Ok (with_needClear (if actualArrayLength s <? setActualLen then with_length setActualLen true s else s)).

(** ** Questions *)
Fixpoint any_word (n : nat) (i : Z) (p : Z -> Z -> result bool) (l : list Z) : result bool :=
  match n with
  | O => Ok false
  | S n => let! w := read l i in let! b := p i w in if b then Ok true else any_word n (i + 1) p l
  end.
Definition intersects (set s : t) : result bool :=
  any_word (Z.to_nat (Z.min (actualArrayLength s) (actualArrayLength set))) 0
    (fun i w => let! v := read (bits set) i in Ok (negb (Z.land w v =? 0))) (bits s).
Definition isEmpty (s : t) : result bool :=
  if negb (needClear s) then Ok true
  else let! b := any_word (Z.to_nat (bitsSize s)) 0 (fun _ w => Ok (negb (w =? 0))) (bits s) in Ok (negb b).
Definition equals (set s : t) : result bool :=
  let length1 := actualArrayLength s in
  let length2 := actualArrayLength set in
  if isLengthActual s && isLengthActual set && negb (length1 =? length2) then Ok false
  else
    let m := Z.min length1 length2 in
    let! differ := any_word (Z.to_nat m) 0 (fun i w => let! v := read (bits set) i in Ok (negb (w =? v))) (bits s) in
    if differ then Ok false
    else if length1 <=? length2
    then let! b := any_word (Z.to_nat (length2 - m)) m (fun _ w => Ok (negb (w =? 0))) (bits set) in Ok (negb b)
    else let! b := any_word (Z.to_nat (length1 - m)) m (fun _ w => Ok (negb (w =? 0))) (bits s) in Ok (negb b).
(** The highest bit of a word, as the loop of [length] finds it. *)
Fixpoint high_bit (i : nat) (w : Z) : nat :=
  match i with O => O | S j => if Z.land w (default 0 (TWO_N_ARRAY !! i)) =? 0 then high_bit j w else i end.
Definition length (s : t) : result (Z * t) :=
  let! idx := last_word (Z.to_nat (actualArrayLength s)) (bits s) in
  let s := with_length (idx + 1) (isLengthActual s) s in
  if idx =? -1 then Ok (0, s)
  else let! val := read (bits s) idx in Ok (to_s32 (Z.shiftl idx OFFSET + Z.of_nat (high_bit 63 val) + 1), s).
(** The first bit of a word from [j] on that is set ([b]) or not. *)
Fixpoint find_bit (n : nat) (j : Z) (b : bool) (w : Z) : result (option Z) :=
  match n with
  | O => Ok None
  | S n => let! m := read TWO_N_ARRAY j in if eqb (negb (Z.land w m =? 0)) b then Ok (Some j) else find_bit n (j + 1) b w
  end.
(** The first word from [idx] on that is not [skip]. *)
Fixpoint find_word (n : nat) (idx : Z) (skip : Z) (l : list Z) : result Z :=
  match n with
  | O => Ok idx
  | S n => let! w := read l idx in if w =? skip then find_word n (idx + 1) skip l else Ok idx
  end.
(** [nextSetBit] and [nextClearBit]: the word of the index, then the following ones. *)
Definition next (b : bool) (index none : Z) (s : t) : result Z :=
  let skip := if b then 0 else all_ones in
  let idx := Z.shiftr index OFFSET in
  let j := Z.land index RIGHT_BITS in
  let! w := read (bits s) idx in
  let! here := (if negb (w =? skip) then find_bit (Z.to_nat (ELM_SIZE - j)) j b w else Ok None) in
  match here with
  | Some j => Ok (to_s32 (Z.shiftl idx OFFSET + j))
  | None =>
    let! idx := find_word (Z.to_nat (actualArrayLength s - (idx + 1))) (idx + 1) skip (bits s) in
    if idx =? actualArrayLength s then Ok none
    else
      let! w := read (bits s) idx in
      let! found := find_bit (Z.to_nat ELM_SIZE) 0 b w in
      match found with Some j => Ok (to_s32 (Z.shiftl idx OFFSET + j)) | None => Ok none end
  end.
Definition nextSetBit (index : Z) (s : t) : result Z :=
  if index <? 0 then throw IndexOutOfBoundsException
  else if to_s32 (Z.shiftl (actualArrayLength s) OFFSET) <=? index then Ok (-1) else next true index (-1) s.
Definition nextClearBit (index : Z) (s : t) : result Z :=
  if index <? 0 then throw IndexOutOfBoundsException
  else
    let bssize := to_s32 (Z.shiftl (actualArrayLength s) OFFSET) in
    if bssize <=? index then Ok index else next false index bssize s.
Definition size (s : t) : Z := to_s32 (Z.shiftl (bitsSize s) OFFSET).
End BitSet.
