(* ===== verification/BitSetLaws.v ===== *)
(** * Bit sets as integers

    [value] reads the words of a BitSet as one integer; every operation of BitSets.v is
    shown to be a bit operation of Z on it ([bitset_refines]). *)

From S2P Require Import Prelude BitSets.

(** ** Words and bits *)
Import BitSet.

(** The array as one integer. *)
Fixpoint value (l : list Z) : Z := match l with [] => 0 | w :: l => Z.lor w (Z.shiftl (value l) 64) end.
Definition word (l : list Z) (i : Z) : Z := default 0 (l !! Z.to_nat i).
Abbreviation u64 w := (0 <= w < 2 ^ 64).
Definition words_ok (l : list Z) : Prop := Forall (fun w => u64 w) l.

Lemma value_nonneg l : words_ok l -> 0 <= value l.
Proof.
  induction 1 as [|w l Hw Hl IH]; [done |]. cbn [value]. apply Z.lor_nonneg. split; [lia | by apply Z.shiftl_nonneg].
Qed.
Lemma u64_high w i : u64 w -> 64 <= i -> Z.testbit w i = false.
Proof.
  intros Hw Hi. destruct (Z.eq_dec w 0) as [->|Hne]; [apply Z.bits_0 |]. apply Z.bits_above_log2; [lia |].
  apply Z.lt_le_trans with 64; [apply Z.log2_lt_pow2; lia | done].
Qed.
Lemma word_cons w l i : 64 <= i -> word (w :: l) (i / 64) = word l ((i - 64) / 64).
Proof.
  intros Hi. unfold word. replace (Z.to_nat (i / 64)) with (S (Z.to_nat ((i - 64) / 64))); [done |].
  pose proof (Z.div_add_l 1 64 (i - 64) ltac:(lia)) as E. replace (1 * 64 + (i - 64)) with i in E by lia.
  pose proof (Z.div_pos (i - 64) 64). lia.
Qed.
(** A bit of the integer is a bit of a word. *)
Lemma testbit_value l i : words_ok l -> 0 <= i -> Z.testbit (value l) i = Z.testbit (word l (i / 64)) (i mod 64).
Proof.
  intros Hl. revert i. induction Hl as [|w l Hw Hl IH]; intros i Hi; [unfold word; by rewrite lookup_nil, !Z.bits_0 |].
  cbn [value]. rewrite Z.lor_spec, Z.shiftl_spec by done. destruct (Z.lt_ge_cases i 64) as [Hlt|Hge].
  - rewrite (Z.testbit_neg_r (value l)), orb_false_r by lia. rewrite Z.div_small, Z.mod_small by lia. done.
  - rewrite u64_high, IH, word_cons by (done || lia). cbn [orb]. f_equal.
    rewrite <- (Z.mod_add (i - 64) 1 64) by lia. f_equal. lia.
Qed.
Lemma word_u64 l i : words_ok l -> u64 (word l i).
Proof. intros Hl. unfold word. destruct (l !! Z.to_nat i) eqn:E; cbn; [exact (Forall_lookup_1 _ _ _ _ Hl E) | lia]. Qed.
Lemma div_64 i : Z.shiftr i OFFSET = i / 64.
Proof. unfold OFFSET. by rewrite Z.shiftr_div_pow2. Qed.
Lemma mod_64 i : Z.land i RIGHT_BITS = i mod 64.
Proof. unfold RIGHT_BITS. change 63 with (Z.ones 6). by rewrite Z.land_ones. Qed.
(** Integers with the same words are the same. *)
Lemma value_ext l (v : Z) : words_ok l -> 0 <= v ->
  (forall k j, 0 <= k -> 0 <= j < 64 -> Z.testbit (word l k) j = Z.testbit v (64 * k + j)) -> value l = v.
Proof.
  intros Hl Hv Hw. apply Z.bits_inj'. intros i Hi. rewrite testbit_value by done.
  rewrite Hw by (apply Z.div_pos || apply Z.mod_pos_bound; lia). f_equal. symmetry. by apply Z_div_mod_eq_full.
Qed.
Lemma value_word l k j : words_ok l -> 0 <= k -> 0 <= j < 64 -> Z.testbit (value l) (64 * k + j) = Z.testbit (word l k) j.
Proof.
  intros Hl Hk Hj. rewrite testbit_value by (done || lia). f_equal.
  - f_equal. rewrite Z.mul_comm, Z.div_add_l, Z.div_small by lia. lia.
  - by rewrite Z.add_comm, Z.mul_comm, Z.mod_add, Z.mod_small by lia.
Qed.

Lemma value_words l l' : words_ok l -> words_ok l' -> (forall k, 0 <= k -> word l k = word l' k) -> value l = value l'.
Proof. intros Hl Hl' Hw. apply value_ext; [done | by apply value_nonneg |]. intros k j Hk Hj. by rewrite value_word, Hw. Qed.

(** *** Reading and writing *)
Lemma read_ok l i : 0 <= i < zlen l -> read l i = Ok (word l i).
Proof.
  intros Hi. unfold read, word, zlen in *. rewrite (proj2 (Z.ltb_ge i 0)) by lia.
  destruct (lookup_lt_is_Some_2 l (Z.to_nat i)) as [w ->]; [lia | done].
Qed.
Lemma write_ok l i w : 0 <= i < zlen l -> write l i w = Ok (<[Z.to_nat i := w]> l).
Proof. intros Hi. unfold write. by rewrite read_ok. Qed.
Lemma word_insert l i k w : 0 <= i < zlen l -> 0 <= k -> word (<[Z.to_nat i := w]> l) k = if k =? i then w else word l k.
Proof.
  intros Hi Hk. unfold word, zlen in *. destruct (Z.eqb_spec k i) as [->|Hne].
  - by rewrite list_lookup_insert_eq by lia.
  - by rewrite list_lookup_insert_ne by lia.
Qed.
Lemma zlen_insert (l : list Z) i w : zlen (<[i := w]> l) = zlen l.
Proof. unfold zlen. by rewrite length_insert. Qed.
Lemma words_insert l i w : words_ok l -> u64 w -> words_ok (<[i := w]> l).
Proof. intros Hl Hw. by apply Forall_insert. Qed.
Lemma two_n_ok index : 0 <= index -> two_n index = Ok (2 ^ (index mod 64)).
Proof.
  intros Hi. unfold two_n. rewrite mod_64. pose proof (Z.mod_pos_bound index 64 ltac:(lia)) as Hm. rewrite read_ok by (unfold zlen; cbn; lia).
  f_equal. unfold word. generalize (index mod 64), Hm. clear. intros k Hk.
  assert (Hn : forall n, (n < 64)%nat -> default 0 (TWO_N_ARRAY !! n) = 2 ^ Z.of_nat n).
  { intros n Hn. do 64 (destruct n as [|n]; [reflexivity |]). lia. }
  rewrite Hn by lia. f_equal. lia.
Qed.
Lemma land_pow2 w j : 0 <= j -> negb (Z.land w (2 ^ j) =? 0) = Z.testbit w j.
Proof.
  intros Hj. destruct (Z.testbit w j) eqn:E.
  - apply negb_true_iff, Z.eqb_neq. intros Hz. assert (Hb : Z.testbit (Z.land w (2 ^ j)) j = false) by (by rewrite Hz, Z.bits_0).
    by rewrite Z.land_spec, E, Z.pow2_bits_true in Hb.
  - apply negb_false_iff, Z.eqb_eq. apply Z.bits_inj'. intros i Hi. rewrite Z.land_spec, Z.bits_0.
    rewrite Z.pow2_bits_eqb by done. destruct (Z.eqb_spec j i) as [<-|]; [by rewrite E | apply andb_false_r].
Qed.

(** *** Loops over words *)
Lemma for_words_ok f g n : forall from l, 0 <= from -> from + Z.of_nat n <= zlen l -> words_ok l ->
  (forall i, from <= i < from + Z.of_nat n -> f i (word l i) = Ok (g i (word l i)) /\ u64 (g i (word l i))) ->
  exists l', for_words n from f l = Ok l' /\ zlen l' = zlen l /\ words_ok l' /\
    forall k, 0 <= k -> word l' k = if (from <=? k) && (k <? from + Z.of_nat n) then g k (word l k) else word l k.
Proof.
  induction n as [|n IH]; intros from l Hfrom Hlen Hl Hf.
  - exists l. split_and!; try done. intros k Hk. destruct (Z.leb_spec from k), (Z.ltb_spec k (from + Z.of_nat 0)); cbn; done || lia.
  - cbn [for_words]. rewrite read_ok by lia. cbn [rbind]. destruct (Hf from ltac:(lia)) as [-> Hu]. cbn [rbind].
    rewrite write_ok by lia. cbn [rbind]. set (l1 := <[Z.to_nat from := g from (word l from)]> l).
    assert (Hw1 : forall k, 0 <= k -> word l1 k = if k =? from then g from (word l from) else word l k) by (intros k Hk; unfold l1; rewrite word_insert by lia; done).
    destruct (IH (from + 1) l1) as (l' & E & Hz & Hl' & Hw); [lia | unfold l1; rewrite zlen_insert; lia | by apply words_insert | |].
    { intros i Hi. rewrite Hw1, (proj2 (Z.eqb_neq i from)) by lia. apply Hf. lia. }
    exists l'. split_and!; [done | unfold l1 in Hz; by rewrite Hz, zlen_insert | done |]. intros k Hk. rewrite Hw by done. rewrite !Hw1 by done.
    destruct (Z.eqb_spec k from) as [Ek|], (Z.leb_spec (from + 1) k), (Z.leb_spec from k),
      (Z.ltb_spec k (from + 1 + Z.of_nat n)), (Z.ltb_spec k (from + Z.of_nat (S n))); cbn [andb]; try lia; try done; by rewrite Ek.
Qed.
Lemma any_word_ok p q n : forall from l, 0 <= from -> from + Z.of_nat n <= zlen l ->
  (forall i, from <= i < from + Z.of_nat n -> p i (word l i) = Ok (q i)) ->
  exists b, any_word n from p l = Ok b /\ (b = true <-> exists i, from <= i < from + Z.of_nat n /\ q i = true).
Proof.
  induction n as [|n IH]; intros from l Hfrom Hlen Hp; [exists false; split; [done | split; [done | intros (i & Hi & _); lia]] |].
  cbn [any_word]. rewrite read_ok by lia. cbn [rbind]. rewrite Hp by lia. cbn [rbind]. destruct (q from) eqn:E.
  - exists true. split; [done |]. split; [| done]. intros _. exists from. split; [lia | done].
  - destruct (IH (from + 1) l) as (b & Eb & Hb); [lia | lia | intros i Hi; apply Hp; lia |]. exists b. split; [done |]. rewrite Hb.
    split; intros (i & Hi & Hq); exists i; (split; [| done]); [lia |]. destruct (Z.eq_dec i from) as [->|]; [congruence | lia].
Qed.

(** ** The invariant *)
Record bitset_ok (s : t) : Prop := {
  bo_words : words_ok (bits s);
  bo_size : zlen (bits s) = bitsSize s;
  bo_length : 0 <= actualArrayLength s <= bitsSize s;
  bo_bound : bitsSize s <= 2 ^ 26 /\ actualArrayLength s < 2 ^ 25;
  bo_zero : forall k, actualArrayLength s <= k -> word (bits s) k = 0;
  bo_clear : needClear s = false -> forall k, 0 <= k -> word (bits s) k = 0
}.
(** The set as an integer. *)
Definition val (s : t) : Z := value (bits s).

Lemma val_nonneg s : bitset_ok s -> 0 <= val s.
Proof. intros Hs. apply value_nonneg, Hs. Qed.
Lemma val_bit s i : bitset_ok s -> 0 <= i -> Z.testbit (val s) i = Z.testbit (word (bits s) (i / 64)) (i mod 64).
Proof. intros Hs. apply testbit_value, Hs. Qed.
Lemma val_above s i : bitset_ok s -> actualArrayLength s * 64 <= i -> Z.testbit (val s) i = false.
Proof.
  intros Hs Hi. pose proof (bo_length s Hs). rewrite val_bit, bo_zero by (done || lia || (apply Z.div_le_lower_bound; lia)). apply Z.bits_0.
Qed.

(** Room for a word. *)
Lemma word_take_replicate l n m k : (n <= Datatypes.length l)%nat -> 0 <= k ->
  word (take n l ++ replicate m 0) k = if k <? Z.of_nat n then word l k else 0.
Proof.
  intros Hn Hk. unfold word. destruct (Z.ltb_spec k (Z.of_nat n)).
  - by rewrite lookup_app_l, lookup_take_lt by (rewrite ?length_take; lia).
  - rewrite lookup_app_r by (rewrite length_take; lia). destruct (replicate m 0 !! _) eqn:E; [| done]. by apply lookup_replicate in E as [-> _].
Qed.
Lemma ensure_ok len s : bitset_ok s -> 0 <= len < 2 ^ 25 -> exists s', ensure len s = Ok s' /\ bitset_ok s' /\ len <= bitsSize s' /\
  (forall k, 0 <= k -> word (bits s') k = word (bits s) k) /\ actualArrayLength s' = actualArrayLength s /\
  isLengthActual s' = isLengthActual s /\ needClear s' = needClear s /\ val s' = val s.
Proof.
  intros [W S L B Z0 C] Hlen. unfold ensure. destruct (Z.ltb_spec (bitsSize s) len); [| by exists s].
  unfold ensureCapacity. rewrite swrap_small by lia. rewrite S, (proj2 (Z.ltb_ge (Z.max len _) _)), (proj2 (Z.ltb_ge (bitsSize s) _)) by lia. cbn [orb].
  set (n := Z.to_nat (actualArrayLength s)). assert (Hn : (n <= Datatypes.length (bits s))%nat) by (unfold n, zlen in *; lia).
  assert (Hw : forall k, 0 <= k -> word (take n (bits s) ++ replicate (Z.to_nat (Z.max len (bitsSize s * 2)) - n) 0) k = word (bits s) k).
  { intros k Hk. rewrite word_take_replicate by done. destruct (Z.ltb_spec k (Z.of_nat n)); [done |]. rewrite Z0; [done | unfold n in *; lia]. }
  assert (Hwo : words_ok (take n (bits s) ++ replicate (Z.to_nat (Z.max len (bitsSize s * 2)) - n) 0))
    by (apply Forall_app_2; [by apply Forall_take | apply Forall_replicate; lia]).
  eexists. split; [done |]. cbn [bitsSize bits actualArrayLength isLengthActual needClear]. split_and!; try done; [| lia | by apply value_words]. split; cbn; try done; try lia.
  - unfold zlen. rewrite length_app, length_take, length_replicate. unfold n in *. lia.
  - intros k Hk. rewrite Hw by lia. by apply Z0.
  - intros Hc k Hk. rewrite Hw by done. by apply C.
Qed.

(** ** One bit *)
Lemma index_split i k j : 0 <= j < 64 -> (i =? 64 * k + j) = (k =? i / 64) && (j =? i mod 64).
Proof.
  intros Hj. apply eq_true_iff_eq. rewrite andb_true_iff, !Z.eqb_eq. Z.div_mod_to_equations. lia.
Qed.
Lemma lor_u64 a b : u64 a -> u64 b -> u64 (Z.lor a b).
Proof.
  intros Ha Hb. split; [apply Z.lor_nonneg; lia |]. apply Z.log2_lt_cancel. rewrite Z.log2_lor by lia. rewrite Z.log2_pow2 by lia.
  apply Z.max_lub_lt; [destruct (Z.eq_dec a 0) as [->|] | destruct (Z.eq_dec b 0) as [->|]]; try (cbn; lia); apply Z.log2_lt_pow2; lia.
Qed.
(** A value whose high bits are clear. *)
Lemma u64_bits a : 0 <= a -> (forall i, 64 <= i -> Z.testbit a i = false) -> u64 a.
Proof.
  intros Ha Hb. split; [done |]. apply Z.log2_lt_cancel. rewrite Z.log2_pow2 by lia. apply Z.nle_gt. intros Hge.
  destruct (Z.eq_dec a 0) as [->|Hne]; [cbn in Hge; lia |]. pose proof (Z.bit_log2 a ltac:(lia)) as E. by rewrite Hb in E.
Qed.
(** The bitwise operations of the code. *)
Class BitOp (op : Z -> Z -> Z) (f : bool -> bool -> bool) : Prop := {
  op_spec a b i : 0 <= i -> Z.testbit (op a b) i = f (Z.testbit a i) (Z.testbit b i);
  op_nonneg a b : 0 <= a -> 0 <= b -> 0 <= op a b;
  op_false x : f x false = x
}.
#[global] Instance lor_op : BitOp Z.lor orb.
Proof. split; [by intros; apply Z.lor_spec | intros; apply Z.lor_nonneg; lia | apply orb_false_r]. Qed.
#[global] Instance lxor_op : BitOp Z.lxor xorb.
Proof. split; [by intros; apply Z.lxor_spec | intros; apply Z.lxor_nonneg; lia | apply xorb_false_r]. Qed.
#[global] Instance ldiff_op : BitOp Z.ldiff (fun a b => a && negb b).
Proof. split; [by intros; apply Z.ldiff_spec | intros; apply Z.ldiff_nonneg; lia | apply andb_true_r]. Qed.

Section Op.
Context {op : Z -> Z -> Z} {f : bool -> bool -> bool} `{!BitOp op f}.
Lemma op_u64 a b : u64 a -> u64 b -> u64 (op a b).
Proof.
  intros Ha Hb. apply u64_bits; [apply op_nonneg; lia |]. intros i Hi. by rewrite op_spec, !u64_high, op_false by lia.
Qed.

(** A bit of a word is changed. *)
Lemma change_bit l i : words_ok l -> 0 <= i -> i / 64 < zlen l ->
  let l' := <[Z.to_nat (i / 64) := op (word l (i / 64)) (2 ^ (i mod 64))]> l in
  words_ok l' /\ value l' = op (value l) (2 ^ i) /\ forall k, 0 <= k -> k <> i / 64 -> word l' k = word l k.
Proof.
  intros Hl Hi Hlen l'. assert (Hq : 0 <= i / 64 < zlen l) by (split; [by apply Z.div_pos | done]).
  pose proof (Z.mod_pos_bound i 64 ltac:(lia)) as Hm.
  assert (Hp : u64 (2 ^ (i mod 64))) by (split; [lia | apply Z.pow_lt_mono_r; lia]).
  assert (Hl' : words_ok l') by (apply words_insert; [done |]; apply op_u64; [by apply word_u64 | done]).
  split; [done |]. split; [| intros k Hk Hne; unfold l'; by rewrite word_insert, (proj2 (Z.eqb_neq k _)) by done].
  apply value_ext; [done | apply op_nonneg; [by apply value_nonneg | lia] |]. intros k j Hk Hj.
  rewrite op_spec, value_word, Z.pow2_bits_eqb, index_split by (done || lia). unfold l'. rewrite word_insert by done.
  destruct (Z.eqb_spec k (i / 64)) as [->|]; cbn [andb]; [| by rewrite op_false].
  rewrite op_spec, Z.pow2_bits_eqb by lia. f_equal. apply Z.eqb_sym.
Qed.
End Op.

Lemma bitset_get_ok i s : bitset_ok s -> 0 <= i -> get i s = Ok (Z.testbit (val s) i).
Proof.
  intros Hs Hi. unfold get. rewrite (proj2 (Z.ltb_ge i 0)), div_64 by lia. pose proof (Z.div_pos i 64 Hi ltac:(lia)). pose proof (bo_length s Hs).
  destruct (Z.ltb_spec (i / 64) (actualArrayLength s)).
  - rewrite read_ok, two_n_ok by (done || rewrite (bo_size s Hs); lia). cbn [rbind]. rewrite land_pow2, val_bit by (done || apply Z.mod_pos_bound; lia). done.
  - rewrite val_bit, bo_zero, Z.bits_0 by done. done.
Qed.

(** What is left to show of a set with new words. *)
Lemma ok_words s s' : bitset_ok s -> words_ok (bits s') -> zlen (bits s') = zlen (bits s) -> bitsSize s' = bitsSize s ->
  0 <= actualArrayLength s' <= bitsSize s -> actualArrayLength s' < 2 ^ 25 ->
  (forall k, actualArrayLength s' <= k -> word (bits s') k = 0) -> needClear s' = true -> bitset_ok s'.
Proof. intros [W S L B Z0 C] H1 H2 H3 H4 H5 H6 H7. split; try done; rewrite ?H2, ?H3; try done; try lia. by rewrite H7. Qed.

Lemma index_word i : 0 <= i < 2 ^ 31 - 64 -> 0 <= i / 64 /\ i / 64 + 1 < 2 ^ 25.
Proof. intros Hi. Z.div_mod_to_equations. lia. Qed.

Lemma set_ok i s : bitset_ok s -> 0 <= i < 2 ^ 31 - 64 -> exists s', set i s = Ok s' /\ bitset_ok s' /\ val s' = Z.lor (val s) (2 ^ i).
Proof.
  intros Hs Hi. unfold set. rewrite (proj2 (Z.ltb_ge i 0)), div_64 by lia. pose proof (index_word i Hi) as [H0 H1].
  destruct (ensure_ok (i / 64 + 1) s Hs) as (s1 & -> & Hs1 & Hsz & _ & _ & _ & _ & Hval); [lia |]. cbn [rbind].
  replace (i / 64 + 1 - 1) with (i / 64) by lia. pose proof (bo_size s1 Hs1) as Hz. rewrite read_ok, two_n_ok by lia. cbn [rbind]. rewrite write_ok by lia. cbn [rbind].
  destruct (change_bit (op := Z.lor) (bits s1) i) as (W1 & W2 & W3); [apply Hs1 | lia | lia |].
  set (l := <[Z.to_nat (i / 64) := _]> (bits s1)) in *. cbn [actualArrayLength with_bits].
  eexists. split; [reflexivity |]. pose proof (bo_length s1 Hs1). pose proof (bo_bound s1 Hs1).
  destruct (Z.ltb_spec (actualArrayLength s1) (i / 64 + 1)) as [Hlt|Hge].
  all: split; [apply (ok_words s1); cbn; try done; try lia; [unfold l; apply zlen_insert |] | unfold val in *; cbn; by rewrite W2, Hval].
  all: intros k Hk; rewrite W3 by lia; apply (bo_zero s1 Hs1); lia.
Qed.

Lemma top_word s : bitset_ok s -> 0 < actualArrayLength s -> read (bits s) (actualArrayLength s - 1) = Ok (word (bits s) (actualArrayLength s - 1)).
Proof. intros Hs Hp. apply read_ok. pose proof (bo_length s Hs). rewrite (bo_size s Hs). lia. Qed.
Lemma top_zero_ok s : zlen (bits s) = bitsSize s -> 0 <= actualArrayLength s <= bitsSize s -> exists b, top_zero s = Ok b.
Proof.
  intros Hz Hl. unfold top_zero. destruct (Z.ltb_spec 0 (actualArrayLength s)); [| by eexists]. rewrite read_ok by lia. by eexists.
Qed.
(** [check_length] only changes the flag. *)
Lemma check_length_ok s : zlen (bits s) = bitsSize s -> 0 <= actualArrayLength s <= bitsSize s ->
  exists b, check_length s = Ok (with_length (actualArrayLength s) b s).
Proof. intros Hz Hl. unfold check_length. destruct (top_zero_ok s Hz Hl) as [b ->]. by eexists. Qed.

Lemma needClear_val s : bitset_ok s -> needClear s = false -> val s = 0.
Proof.
  intros Hs Hc. apply value_ext; [apply Hs | done |]. intros k j Hk Hj. by rewrite (bo_clear s Hs Hc), !Z.bits_0.
Qed.
Lemma ldiff_above s i : bitset_ok s -> 0 <= i -> actualArrayLength s <= i / 64 -> Z.ldiff (val s) (2 ^ i) = val s.
Proof.
  intros Hs Hi Ha. apply Z.bits_inj'. intros j Hj. rewrite Z.ldiff_spec, Z.pow2_bits_eqb by done. destruct (Z.eqb_spec i j) as [<-|]; [| apply andb_true_r].
  rewrite val_above by (done || (Z.div_mod_to_equations; lia)). done.
Qed.
Lemma clear_ok i s : bitset_ok s -> 0 <= i -> exists s', clear i s = Ok s' /\ bitset_ok s' /\ val s' = Z.ldiff (val s) (2 ^ i).
Proof.
  intros Hs Hi. unfold clear. rewrite (proj2 (Z.ltb_ge i 0)), div_64 by lia. destruct (needClear s) eqn:Ec; cbn [negb].
  2: { exists s. split_and!; try done. by rewrite needClear_val, Z.ldiff_0_l. }
  pose proof (Z.div_pos i 64 Hi ltac:(lia)). pose proof (bo_length s Hs). pose proof (bo_bound s Hs). pose proof (bo_size s Hs).
  destruct (Z.ltb_spec (i / 64) (actualArrayLength s)); [| exists s; split_and!; try done; by rewrite ldiff_above].
  rewrite read_ok, two_n_ok by lia. cbn [rbind]. rewrite write_ok by lia. cbn [rbind].
  destruct (change_bit (op := Z.ldiff) (bits s) i) as (W1 & W2 & W3); [apply Hs | lia | lia |]. set (l := <[_ := _]> (bits s)) in *.
  rewrite read_ok by (unfold l; rewrite zlen_insert; lia). cbn [rbind]. eexists. split; [reflexivity |]. split; [| unfold val; cbn; by rewrite W2].
  apply (ok_words s); cbn; try done; try lia; [unfold l; apply zlen_insert |]. intros k Hk. rewrite W3 by lia. by apply (bo_zero s Hs).
Qed.
Lemma flip_ok i s : bitset_ok s -> 0 <= i < 2 ^ 31 - 64 -> exists s', flip i s = Ok s' /\ bitset_ok s' /\ val s' = Z.lxor (val s) (2 ^ i).
Proof.
  intros Hs Hi. unfold flip. rewrite (proj2 (Z.ltb_ge i 0)), div_64 by lia. pose proof (index_word i Hi) as [H0 H1].
  destruct (ensure_ok (i / 64 + 1) s Hs) as (s1 & -> & Hs1 & Hsz & _ & _ & _ & _ & Hval); [lia |]. cbn [rbind].
  replace (i / 64 + 1 - 1) with (i / 64) by lia. pose proof (bo_size s1 Hs1) as Hz. rewrite read_ok, two_n_ok by lia. cbn [rbind]. rewrite write_ok by lia. cbn [rbind].
  destruct (change_bit (op := Z.lxor) (bits s1) i) as (W1 & W2 & W3); [apply Hs1 | lia | lia |].
  set (l := <[Z.to_nat (i / 64) := _]> (bits s1)) in *. cbn [actualArrayLength with_bits]. pose proof (bo_length s1 Hs1). pose proof (bo_bound s1 Hs1).
  match goal with |- context [check_length ?x] => destruct (check_length_ok x) as [b ->] end; [by case_match; cbn; unfold l; rewrite zlen_insert | case_match; cbn; lia |].
  cbn [rbind]. eexists. split; [reflexivity |]. split; [| unfold val in *; case_match; cbn; by rewrite W2, Hval].
  destruct (Z.ltb_spec (actualArrayLength s1) (i / 64 + 1)) as [Hlt|Hge].
  all: apply (ok_words s1); cbn; try done; try lia; [unfold l; apply zlen_insert |].
  all: intros k Hk; rewrite W3 by lia; apply (bo_zero s1 Hs1); lia.
Qed.

(** ** Ranges *)

(** The integers from [a] to [b] - 1 as bits. *)
Definition range (a b : Z) : Z := Z.shiftl (Z.ones (b - a)) a.
Lemma range_spec a b i : 0 <= a <= b -> 0 <= i -> Z.testbit (range a b) i = (a <=? i) && (i <? b).
Proof.
  intros Hab Hi. unfold range. rewrite Z.shiftl_spec by done. destruct (Z.leb_spec a i).
  - rewrite Z.testbit_ones_nonneg by lia. cbn. apply eq_true_iff_eq. rewrite !Z.ltb_lt. lia.
  - by rewrite Z.testbit_neg_r by lia.
Qed.
Lemma range_nonneg a b : 0 <= a <= b -> 0 <= range a b.
Proof. intros Hab. apply Z.shiftl_nonneg. rewrite Z.ones_equiv. pose proof (Z.pow_pos_nonneg 2 (b - a)). lia. Qed.
Lemma all_ones_spec j : 0 <= j -> Z.testbit all_ones j = (j <? 64).
Proof. intros Hj. change all_ones with (Z.ones 64). by rewrite Z.testbit_ones_nonneg. Qed.
Lemma factor1_spec a j : 0 <= a -> 0 <= j < 64 -> Z.testbit (to_u64 (Z.shiftl all_ones (Z.land a RIGHT_BITS))) j = (a mod 64 <=? j).
Proof.
  intros Ha Hj. unfold uwrap. rewrite mod_64, Z.mod_pow2_bits_low, Z.shiftl_spec by lia. pose proof (Z.mod_pos_bound a 64 ltac:(lia)).
  destruct (Z.leb_spec (a mod 64) j); [rewrite all_ones_spec by lia; apply Z.ltb_lt; lia | by rewrite Z.testbit_neg_r by lia].
Qed.
Lemma factor2_spec b j : 0 < b -> 0 <= j < 64 ->
  Z.testbit (if ELM_SIZE - Z.land b RIGHT_BITS <? 64 then Z.shiftr all_ones (ELM_SIZE - Z.land b RIGHT_BITS) else all_ones) j = (j <=? (b - 1) mod 64).
Proof.
  intros Hb Hj. unfold ELM_SIZE. rewrite mod_64. pose proof (Z.mod_pos_bound b 64 ltac:(lia)). destruct (Z.ltb_spec (64 - b mod 64) 64).
  - rewrite Z.shiftr_spec, all_ones_spec by lia. apply eq_true_iff_eq. rewrite Z.ltb_lt, Z.leb_le. Z.div_mod_to_equations. lia.
  - rewrite all_ones_spec by lia. apply eq_true_iff_eq. rewrite Z.ltb_lt, Z.leb_le. Z.div_mod_to_equations. lia.
Qed.
Lemma all_ones_u64 : u64 all_ones.
Proof. done. Qed.
Lemma factor2_u64 b : u64 (if ELM_SIZE - Z.land b RIGHT_BITS <? 64 then Z.shiftr all_ones (ELM_SIZE - Z.land b RIGHT_BITS) else all_ones).
Proof.
  case_match; [| apply all_ones_u64]. unfold ELM_SIZE in *. rewrite mod_64 in *. apply Z.ltb_lt in H.
  pose proof (Z.mod_pos_bound b 64 ltac:(lia)). apply u64_bits; [by apply Z.shiftr_nonneg |]. intros i Hi.
  rewrite Z.shiftr_spec, all_ones_spec by lia. apply Z.ltb_ge. lia.
Qed.

Section OnRange.
Context {op : Z -> Z -> Z} {f : bool -> bool -> bool} `{!BitOp op f}.
Lemma on_range_ok a b l : words_ok l -> 0 <= a < b -> (b - 1) / 64 < zlen l ->
  exists l', on_range op a b l = Ok l' /\ zlen l' = zlen l /\ words_ok l' /\ value l' = op (value l) (range a b) /\
    forall k, (b - 1) / 64 < k -> word l' k = word l k.
Proof.
  intros Hl Hab Hlen. unfold on_range. rewrite !div_64.
  set (f1 := to_u64 _).
  match goal with |- context [if ?c then Z.shiftr all_ones ?n else all_ones] => set (f2 := if c then Z.shiftr all_ones n else all_ones) end. set (p := a / 64). set (q := (b - 1) / 64) in *.
  assert (Hf1 : u64 f1) by (apply uwrap_bound; lia). assert (Hf2 : u64 f2) by apply factor2_u64.
  assert (Hpq : 0 <= p <= q) by (unfold p, q; Z.div_mod_to_equations; lia).
  assert (Hop : forall k m, u64 m -> u64 (op (word l k) m)) by (intros k m Hm; apply op_u64; [by apply word_u64 | done]).
  enough (Hx : exists l', (if p =? q then let! w := read l p in write l p (op w (Z.land f1 f2))
      else let! w1 := read l p in let! l := write l p (op w1 f1) in let! w2 := read l q in let! l := write l q (op w2 f2) in
        for_words (Z.to_nat (q - (p + 1))) (p + 1) (fun _ w => Ok (op w all_ones)) l) = Ok l' /\ zlen l' = zlen l /\ words_ok l' /\
    forall k, 0 <= k -> word l' k = if (k <? p) || (q <? k) then word l k else
      op (word l k) (if p =? q then Z.land f1 f2 else if k =? p then f1 else if k =? q then f2 else all_ones)).
  { destruct Hx as (l' & E & Hz & Hl' & Hw). exists l'. split_and!; try done.
    2: { intros k Hk. rewrite Hw, (proj2 (Z.ltb_lt q k)), orb_true_r by lia. done. }
    apply value_ext; [done | apply op_nonneg; [by apply value_nonneg | apply range_nonneg; lia] |]. intros k j Hk Hj.
    rewrite op_spec, value_word, range_spec, Hw by (done || lia).
    pose proof (factor1_spec a j ltac:(lia) Hj) as B1. pose proof (factor2_spec b j ltac:(lia) Hj) as B2. fold f1 in B1. fold f2 in B2.
    assert (B3 : Z.testbit all_ones j = true) by (rewrite all_ones_spec by lia; apply Z.ltb_lt; lia).
    destruct ((k <? p) || (q <? k)) eqn:Eout.
    - replace ((a <=? 64 * k + j) && (64 * k + j <? b)) with false; [by rewrite op_false |]. symmetry. apply andb_false_iff.
      rewrite orb_true_iff, !Z.ltb_lt in Eout. rewrite Z.leb_gt, Z.ltb_ge. unfold p, q in Eout. Z.div_mod_to_equations. lia.
    - rewrite op_spec by lia. f_equal. apply orb_false_iff in Eout as [E1 E2]. apply Z.ltb_ge in E1, E2.
      destruct (Z.eqb_spec p q), (Z.eqb_spec k p), (Z.eqb_spec k q); rewrite ?Z.land_spec, ?B1, ?B2, ?B3; apply eq_true_iff_eq;
        rewrite ?andb_true_iff, ?Z.leb_le, ?Z.ltb_lt; unfold p, q in *; Z.div_mod_to_equations; lia. }
  destruct (Z.eqb_spec p q) as [Epq|Hne].
  - rewrite read_ok by lia. cbn [rbind]. rewrite write_ok by lia. eexists. split; [done |]. rewrite zlen_insert. assert (Hm : u64 (Z.land f1 f2)).
    { apply u64_bits; [apply Z.land_nonneg; lia |]. intros i Hi. by rewrite Z.land_spec, u64_high. }
    split_and!; [done | by apply words_insert; [| apply Hop] |]. intros k Hk. rewrite word_insert by lia.
    destruct (Z.eqb_spec k p) as [Ek|], (Z.ltb_spec k p), (Z.ltb_spec q k); cbn; try lia; try done. by rewrite Ek.
  - rewrite read_ok by lia. cbn [rbind]. rewrite write_ok by lia. cbn [rbind]. rewrite read_ok by (rewrite zlen_insert; lia). cbn [rbind].
    rewrite write_ok by (rewrite zlen_insert; lia). cbn [rbind].
    set (l1 := <[Z.to_nat p := op (word l p) f1]> l). set (l2 := <[Z.to_nat q := op (word l1 q) f2]> l1).
    assert (Hw1 : forall k, 0 <= k -> word l1 k = if k =? p then op (word l p) f1 else word l k) by (intros; apply word_insert; lia).
    assert (Hz1 : zlen l1 = zlen l) by apply zlen_insert. assert (Hz2 : zlen l2 = zlen l) by (unfold l2; by rewrite zlen_insert).
    assert (Hw2 : forall k, 0 <= k -> word l2 k = if k =? q then op (word l q) f2 else word l1 k).
    { intros k Hk. unfold l2. rewrite word_insert by lia. rewrite Hw1, (proj2 (Z.eqb_neq q p)) by lia. done. }
    assert (Hl1 : words_ok l1) by (apply words_insert; [done | by apply Hop]).
    assert (Hl2 : words_ok l2) by (apply words_insert; [done |]; rewrite Hw1, (proj2 (Z.eqb_neq q p)) by lia; by apply Hop).
    destruct (for_words_ok (fun _ w => Ok (op w all_ones)) (fun _ w => op w all_ones) (Z.to_nat (q - (p + 1))) (p + 1) l2) as (l' & -> & Hz & Hl' & Hw);
      [lia | lia | done | intros i Hi; split; [done | apply op_u64; [by apply word_u64 | done]] |].
    exists l'. split_and!; [done | lia | done |]. intros k Hk. rewrite Hw, Hw2, Hw1 by done.
    destruct (Z.eqb_spec k q), (Z.eqb_spec k p), (Z.ltb_spec k p), (Z.ltb_spec q k), (Z.leb_spec (p + 1) k), (Z.ltb_spec k (p + 1 + Z.of_nat (Z.to_nat (q - (p + 1)))));
      cbn; subst; try lia; done.
Qed.
End OnRange.

(** The empty range, and one that ends beyond the words. *)
Lemma range_empty a : range a a = 0.
Proof. unfold range. by rewrite Z.sub_diag, Z.shiftl_0_l. Qed.
Lemma set_range_ok a b s : bitset_ok s -> 0 <= a <= b -> b <= 2 ^ 31 - 64 ->
  exists s', set_range a b s = Ok s' /\ bitset_ok s' /\ val s' = Z.lor (val s) (range a b).
Proof.
  intros Hs Hab Hb. unfold set_range, bad_range. rewrite !(proj2 (Z.ltb_ge _ _)) by lia. cbn [orb]. destruct (Z.eqb_spec a b) as [->|Hne].
  { exists s. by rewrite range_empty, Z.lor_0_r. }
  rewrite div_64. pose proof (index_word (b - 1) ltac:(lia)) as [H0 H1].
  destruct (ensure_ok ((b - 1) / 64 + 1) s Hs) as (s1 & -> & Hs1 & Hsz & _ & _ & _ & _ & Hval); [lia |]. cbn [rbind].
  pose proof (bo_size s1 Hs1) as Hz. destruct (on_range_ok (op := Z.lor) a b (bits s1)) as (l & -> & Hl & W1 & W2 & W3); [apply Hs1 | lia | lia |].
  cbn [rbind actualArrayLength with_bits]. eexists. split; [reflexivity |]. pose proof (bo_length s1 Hs1). pose proof (bo_bound s1 Hs1).
  destruct (Z.ltb_spec (actualArrayLength s1) ((b - 1) / 64 + 1)).
  all: split; [apply (ok_words s1); cbn; try done; try lia | unfold val in *; cbn; by rewrite W2, Hval].
  all: intros k Hk; rewrite W3 by lia; apply (bo_zero s1 Hs1); lia.
Qed.
Lemma flip_range_ok a b s : bitset_ok s -> 0 <= a <= b -> b <= 2 ^ 31 - 64 ->
  exists s', flip_range a b s = Ok s' /\ bitset_ok s' /\ val s' = Z.lxor (val s) (range a b).
Proof.
  intros Hs Hab Hb. unfold flip_range, bad_range. rewrite !(proj2 (Z.ltb_ge _ _)) by lia. cbn [orb]. destruct (Z.eqb_spec a b) as [->|Hne].
  { exists s. by rewrite range_empty, Z.lxor_0_r. }
  rewrite div_64. pose proof (index_word (b - 1) ltac:(lia)) as [H0 H1].
  destruct (ensure_ok ((b - 1) / 64 + 1) s Hs) as (s1 & -> & Hs1 & Hsz & _ & _ & _ & _ & Hval); [lia |]. cbn [rbind].
  pose proof (bo_size s1 Hs1) as Hz. destruct (on_range_ok (op := Z.lxor) a b (bits s1)) as (l & -> & Hl & W1 & W2 & W3); [apply Hs1 | lia | lia |].
  cbn [rbind actualArrayLength with_bits]. pose proof (bo_length s1 Hs1). pose proof (bo_bound s1 Hs1).
  match goal with |- context [check_length ?x] => destruct (check_length_ok x) as [c ->] end; [case_match; cbn; lia | case_match; cbn; lia |].
  cbn [rbind]. eexists. split; [reflexivity |]. split; [| unfold val in *; case_match; cbn; by rewrite W2, Hval].
  destruct (Z.ltb_spec (actualArrayLength s1) ((b - 1) / 64 + 1)); apply (ok_words s1); cbn; try done; try lia.
  all: intros k Hk; rewrite W3 by lia; apply (bo_zero s1 Hs1); lia.
Qed.
(** Bits that are not there need not be cleared. *)
Lemma ldiff_range s a b c : bitset_ok s -> 0 <= a -> b = Z.max a (Z.min c (actualArrayLength s * 64)) -> a <= c ->
  Z.ldiff (val s) (range a b) = Z.ldiff (val s) (range a c).
Proof.
  intros Hs Ha Hb Hc. apply Z.bits_inj'. intros i Hi. rewrite !Z.ldiff_spec, !range_spec by lia.
  destruct (Z.le_gt_cases (actualArrayLength s * 64) i); [by rewrite val_above |]. do 2 f_equal. f_equal. apply eq_true_iff_eq. rewrite !Z.ltb_lt. lia.
Qed.
Lemma clear_range_ok a b s : bitset_ok s -> 0 <= a <= b ->
  exists s', clear_range a b s = Ok s' /\ bitset_ok s' /\ val s' = Z.ldiff (val s) (range a b).
Proof.
  intros Hs Hab. unfold clear_range, bad_range. rewrite !(proj2 (Z.ltb_ge _ _)) by lia. cbn [orb]. destruct (needClear s) eqn:Ec; cbn [negb].
  2: { exists s. by rewrite needClear_val, Z.ldiff_0_l. }
  pose proof (bo_length s Hs). pose proof (bo_bound s Hs). pose proof (bo_size s Hs) as Hz. unfold OFFSET. rewrite Z.shiftl_mul_pow2 by lia.
  change (2 ^ 6) with 64. rewrite swrap_small by lia. set (last := actualArrayLength s * 64).
  destruct (Z.leb_spec last a) as [Hla|Hla]; cbn [orb].
  { exists s. split_and!; try done. rewrite <- (ldiff_range s a a b), range_empty, Z.ldiff_0_r by (done || fold last; lia). done. }
  destruct (Z.eqb_spec a b) as [->|Hne]; [exists s; by rewrite range_empty, Z.ldiff_0_r |].
  set (c := if last <? b then last else b). assert (Hc : c = Z.min b last) by (unfold c; destruct (Z.ltb_spec last b); lia).
  rewrite <- (ldiff_range s a c b) by (done || fold last; lia).
  destruct (on_range_ok (op := Z.ldiff) a c (bits s)) as (l & -> & Hl & W1 & W2 & W3); [apply Hs | lia | unfold last in *; Z.div_mod_to_equations; lia |].
  cbn [rbind]. destruct (top_zero_ok (with_bits l s)) as [z ->]; [cbn; lia | done |]. cbn [rbind]. eexists. split; [reflexivity |].
  split; [| unfold val; destruct z; exact W2]. apply (ok_words s); try (destruct z; cbn; done || lia).
  all: destruct z; cbn; try done; try lia; intros k Hk; rewrite W3 by (unfold last in *; Z.div_mod_to_equations; lia); by apply (bo_zero s Hs).
Qed.

(** ** Two sets *)

(** The loop that combines the first [n] words with those of another set. *)
Lemma combine_ok (op : Z -> Z -> Z) (other s : t) n : bitset_ok s -> bitset_ok other -> (forall a b, u64 a -> u64 b -> u64 (op a b)) ->
  0 <= n <= bitsSize s -> n <= bitsSize other ->
  exists l, for_words (Z.to_nat n) 0 (fun i w => let! v := read (bits other) i in Ok (op w v)) (bits s) = Ok l /\ zlen l = zlen (bits s) /\ words_ok l /\
    forall k, 0 <= k -> word l k = if k <? n then op (word (bits s) k) (word (bits other) k) else word (bits s) k.
Proof.
  intros Hs Ho Hop Hn Hn2. pose proof (bo_size s Hs). pose proof (bo_size other Ho).
  destruct (for_words_ok (fun i w => let! v := read (bits other) i in Ok (op w v)) (fun i w => op w (word (bits other) i)) (Z.to_nat n) 0 (bits s))
    as (l & E & Hz & Hl & Hw); [lia | lia | apply Hs | |].
  { intros i Hi. rewrite read_ok by lia. split; [done |]. apply Hop; apply word_u64; [apply Hs | apply Ho]. }
  exists l. split_and!; try done. intros k Hk. rewrite Hw by done. rewrite (proj2 (Z.leb_le 0 k)) by done. replace (0 + Z.of_nat (Z.to_nat n)) with n by lia. done.
Qed.
Lemma land_u64 a b : u64 a -> u64 b -> u64 (Z.land a b).
Proof. intros Ha Hb. apply u64_bits; [apply Z.land_nonneg; lia |]. intros i Hi. by rewrite Z.land_spec, u64_high. Qed.

Lemma AND_ok other s : bitset_ok s -> bitset_ok other -> exists s', AND other s = Ok s' /\ bitset_ok s' /\ val s' = Z.land (val s) (val other).
Proof.
  intros Hs Ho. unfold AND. destruct (needClear s) eqn:Ec; cbn [negb].
  2: { exists s. by rewrite (needClear_val s Hs Ec), Z.land_0_l. }
  pose proof (bo_length s Hs). pose proof (bo_bound s Hs). pose proof (bo_length other Ho). pose proof (bo_bound other Ho). pose proof (bo_size s Hs).
  enough (Hx : exists s1, (if actualArrayLength s <=? actualArrayLength other
       then let! l := for_words (Z.to_nat (actualArrayLength s)) 0 (fun i w => let! v := read (bits other) i in Ok (Z.land w v)) (bits s) in Ok (with_bits l s)
       else
         let! l := for_words (Z.to_nat (actualArrayLength other)) 0 (fun i w => let! v := read (bits other) i in Ok (Z.land w v)) (bits s) in
         let! l := for_words (Z.to_nat (actualArrayLength s - actualArrayLength other)) (actualArrayLength other) (fun _ _ => Ok 0) l in
         Ok (with_length (actualArrayLength other) (isLengthActual s) (with_bits l s))) = Ok s1 /\ words_ok (bits s1) /\ zlen (bits s1) = zlen (bits s) /\
     bitsSize s1 = bitsSize s /\ needClear s1 = true /\ actualArrayLength s1 = Z.min (actualArrayLength s) (actualArrayLength other) /\
     forall k, 0 <= k -> word (bits s1) k = Z.land (word (bits s) k) (word (bits other) k)).
  { destruct Hx as (s1 & -> & X1 & X2 & X3 & X4 & X5 & X6). cbn [rbind]. destruct (check_length_ok s1) as [b ->]; [lia | lia |].
    eexists. split; [reflexivity |]. split.
    - apply (ok_words s); cbn; try done; try lia. intros k Hk. rewrite X6 by lia.
      destruct (Z.le_gt_cases (actualArrayLength s) k); [by rewrite (bo_zero s Hs) | rewrite (bo_zero other Ho), Z.land_0_r by lia; done].
    - apply value_ext; [done | apply Z.land_nonneg; left; by apply val_nonneg |]. intros k j Hk Hj. cbn. rewrite X6, !Z.land_spec by done.
      unfold val. by rewrite !value_word by (done || apply Hs || apply Ho). }
  destruct (Z.leb_spec (actualArrayLength s) (actualArrayLength other)).
  - destruct (combine_ok Z.land other s (actualArrayLength s) Hs Ho land_u64) as (l & -> & Hz & Hl & Hw); [lia | lia |]. cbn [rbind].
    eexists. split; [done |]. cbn. split_and!; try done; [lia |]. intros k Hk. rewrite Hw by done. destruct (Z.ltb_spec k (actualArrayLength s)); [done |].
    by rewrite (bo_zero s Hs), Z.land_0_l.
  - destruct (combine_ok Z.land other s (actualArrayLength other) Hs Ho land_u64) as (l & -> & Hz & Hl & Hw); [lia | lia |]. cbn [rbind].
    destruct (for_words_ok (fun _ _ => Ok 0) (fun _ _ => 0) (Z.to_nat (actualArrayLength s - actualArrayLength other)) (actualArrayLength other) l) as (l2 & -> & Hz2 & Hl2 & Hw2);
      [lia | lia | done | by intros i Hi; split; [| lia] |]. cbn [rbind]. eexists. split; [done |]. cbn. split_and!; try done; [lia | lia |].
    intros k Hk. rewrite Hw2, Hw by done.
    destruct (Z.ltb_spec k (actualArrayLength other)), (Z.leb_spec (actualArrayLength other) k),
      (Z.ltb_spec k (actualArrayLength other + Z.of_nat (Z.to_nat (actualArrayLength s - actualArrayLength other)))); cbn [andb]; try lia; try done.
    + by rewrite (bo_zero other Ho), Z.land_0_r.
    + by rewrite (bo_zero s Hs), Z.land_0_l by lia.
Qed.

Lemma andNot_ok other s : bitset_ok s -> bitset_ok other -> exists s', andNot other s = Ok s' /\ bitset_ok s' /\ val s' = Z.ldiff (val s) (val other).
Proof.
  intros Hs Ho. unfold andNot. destruct (needClear s) eqn:Ec; cbn [negb].
  2: { exists s. by rewrite (needClear_val s Hs Ec), Z.ldiff_0_l. }
  pose proof (bo_length s Hs). pose proof (bo_bound s Hs). pose proof (bo_length other Ho). pose proof (bo_size s Hs).
  set (n := if _ <? _ then _ else _). assert (Hn : n = Z.min (actualArrayLength s) (actualArrayLength other)) by (unfold n; destruct (Z.ltb_spec (actualArrayLength s) (actualArrayLength other)); lia).
  destruct (combine_ok Z.ldiff other s n Hs Ho op_u64) as (l & -> & Hz & Hl & Hw); [lia | lia |]. cbn [rbind actualArrayLength with_bits].
  rewrite (proj2 (Z.ltb_ge (actualArrayLength s) n)) by lia. destruct (check_length_ok (with_bits l s)) as [b ->]; [cbn; lia | done |].
  eexists. split; [reflexivity |]. split.
  - apply (ok_words s); cbn; try done; try lia. intros k Hk. rewrite Hw by lia. rewrite (proj2 (Z.ltb_ge k n)) by lia. by apply (bo_zero s Hs).
  - apply value_ext; [done | apply (op_nonneg (op := Z.ldiff)); by apply val_nonneg |]. intros k j Hk Hj. cbn. rewrite Hw, Z.ldiff_spec by done.
    unfold val. rewrite !value_word by (done || apply Hs || apply Ho). destruct (Z.ltb_spec k n); [by rewrite Z.ldiff_spec |].
    destruct (Z.le_gt_cases (actualArrayLength s) k); [by rewrite (bo_zero s Hs), Z.bits_0 |]. rewrite (bo_zero other Ho), Z.bits_0, andb_true_r by lia. done.
Qed.

(** *** The length of a set *)
Lemma last_word_ok n l : Z.of_nat n <= zlen l ->
  exists idx, last_word n l = Ok idx /\ -1 <= idx < Z.of_nat n /\ (0 <= idx -> word l idx <> 0) /\ forall k, idx < k < Z.of_nat n -> word l k = 0.
Proof.
  induction n as [|n IH]; intros Hn; [exists (-1); cbn; split_and!; try done; lia |]. cbn [last_word]. rewrite read_ok by lia. cbn [rbind].
  destruct (Z.eqb_spec (word l (Z.of_nat n)) 0) as [Hz|Hnz].
  - destruct IH as (idx & E & H1 & H2 & H3); [lia |]. exists idx. split_and!; try done; try lia. intros k Hk.
    destruct (Z.eq_dec k (Z.of_nat n)) as [->|]; [done | apply H3; lia].
  - exists (Z.of_nat n). split_and!; try done; try lia; intros k Hk; lia.
Qed.
Lemma getActualArrayLength_ok s : bitset_ok s -> exists n s', getActualArrayLength s = Ok (n, s') /\ bitset_ok s' /\ bits s' = bits s /\
  actualArrayLength s' = n /\ n <= actualArrayLength s.
Proof.
  intros Hs. unfold getActualArrayLength. destruct (isLengthActual s); [by eexists _, s |]. pose proof (bo_length s Hs). pose proof (bo_bound s Hs).
  destruct (last_word_ok (Z.to_nat (actualArrayLength s)) (bits s)) as (idx & -> & H1 & H2 & H3); [rewrite (bo_size s Hs); lia |]. cbn [rbind].
  eexists _, _. split; [done |]. cbn. split_and!; try done; [| lia]. destruct Hs as [W S L B Z0 C]. split; cbn; try done; try lia.
  intros k Hk. destruct (Z.le_gt_cases (actualArrayLength s) k); [by apply Z0 | apply H3; lia].
Qed.

(** [OR] and [XOR] of a set that has no more words than there is room for. *)
Lemma combine_larger op f `{!BitOp op f} other s n : bitset_ok s -> bitset_ok other -> n = actualArrayLength other -> n <= bitsSize s ->
  exists l, for_words (Z.to_nat n) 0 (fun i w => let! v := read (bits other) i in Ok (op w v)) (bits s) = Ok l /\ forall b,
    let s' := with_needClear (if actualArrayLength s <? n then with_length n b (with_bits l s) else with_bits l s) in
    bitset_ok s' /\ val s' = op (val s) (val other).
Proof.
  intros Hs Ho -> Hn. pose proof (bo_length s Hs). pose proof (bo_bound s Hs). pose proof (bo_length other Ho). pose proof (bo_bound other Ho). pose proof (bo_size s Hs).
  destruct (combine_ok op other s (actualArrayLength other) Hs Ho op_u64) as (l & -> & Hz & Hl & Hw); [lia | lia |]. eexists. split; [done |].
  intros b. destruct (Z.ltb_spec (actualArrayLength s) (actualArrayLength other)) as [Hlt|Hge].
  all: split; [apply (ok_words s); cbn; try done; try lia; intros k Hk; rewrite Hw, (proj2 (Z.ltb_ge k _)) by lia; apply (bo_zero s Hs); lia |].
  all: apply value_ext; [done | apply op_nonneg; by apply val_nonneg |]; intros k j Hk Hj; cbn; rewrite Hw, (op_spec (val s)) by lia.
  all: unfold val; rewrite !value_word by (done || apply Hs || apply Ho); destruct (Z.ltb_spec k (actualArrayLength other)); [by rewrite op_spec by lia |].
  all: by rewrite (bo_zero other Ho), Z.bits_0, op_false by lia.
Qed.
Lemma OR_ok other s : bitset_ok s -> bitset_ok other -> actualArrayLength other <= bitsSize s ->
  exists s', OR other s = Ok s' /\ bitset_ok s' /\ val s' = Z.lor (val s) (val other).
Proof.
  intros Hs Ho Hn. unfold OR. destruct (getActualArrayLength_ok other Ho) as (n & o' & -> & Ho' & Hb & Ha & Hle). cbn [rbind fst snd].
  rewrite (proj2 (Z.ltb_ge (bitsSize s) n)) by lia. destruct (combine_larger Z.lor orb o' s n) as (l & -> & Hl); try done; [lia |]. cbn [rbind].
  eexists. split; [reflexivity |]. destruct (Hl true) as [H1 H2]. split; [exact H1 |]. cbv zeta in H2. unfold val in *. rewrite Hb in H2. exact H2.
Qed.
Lemma XOR_ok other s : bitset_ok s -> bitset_ok other -> actualArrayLength other <= bitsSize s ->
  exists s', XOR other s = Ok s' /\ bitset_ok s' /\ val s' = Z.lxor (val s) (val other).
Proof.
  intros Hs Ho Hn. unfold XOR. destruct (getActualArrayLength_ok other Ho) as (n & o' & -> & Ho' & Hb & Ha & Hle). cbn [rbind fst snd].
  rewrite (proj2 (Z.ltb_ge (bitsSize s) n)) by lia. destruct (combine_larger Z.lxor xorb o' s n) as (l & -> & Hl); try done; [lia |]. cbn [rbind].
  eexists. split; [reflexivity |]. destruct (Hl true) as [H1 H2]. split; [exact H1 |]. cbv zeta in H2. unfold val in *. rewrite Hb in H2. exact H2.
Qed.

(** ** Questions *)
Lemma val_zero s : bitset_ok s -> val s = 0 <-> forall k, 0 <= k < bitsSize s -> word (bits s) k = 0.
Proof.
  intros Hs. split.
  - intros Hv k Hk. apply Z.bits_inj'. intros j Hj. rewrite Z.bits_0. destruct (Z.lt_ge_cases j 64); [| apply u64_high; [apply word_u64, Hs | done]].
    rewrite <- value_word by (apply Hs || lia). fold (val s). by rewrite Hv, Z.bits_0.
  - intros Hw. apply value_ext; [apply Hs | done |]. intros k j Hk Hj. rewrite Z.bits_0. destruct (Z.lt_ge_cases k (bitsSize s)); [by rewrite Hw, Z.bits_0 |].
    rewrite (bo_zero s Hs), Z.bits_0; [done |]. pose proof (bo_length s Hs). lia.
Qed.
Lemma isEmpty_ok s : bitset_ok s -> isEmpty s = Ok (val s =? 0).
Proof.
  intros Hs. unfold isEmpty. destruct (needClear s) eqn:Ec; cbn [negb]; [| by rewrite needClear_val]. pose proof (bo_length s Hs).
  destruct (any_word_ok (fun _ w => Ok (negb (w =? 0))) (fun i => negb (word (bits s) i =? 0)) (Z.to_nat (bitsSize s)) 0 (bits s)) as (b & -> & Hb);
    [lia | rewrite (bo_size s Hs); lia | done |].
  cbn [rbind]. f_equal. apply eq_true_iff_eq. rewrite Z.eqb_eq, val_zero, negb_true_iff by done. split.
  - intros -> k Hk. apply Z.eqb_eq, negb_false_iff, not_true_iff_false. intros Hn. enough (false = true) by done. apply Hb. exists k. split; [lia | done].
  - intros Hw. apply not_true_iff_false. rewrite Hb. intros (i & Hi & Hn). rewrite Hw in Hn by lia. done.
Qed.
Lemma intersects_ok other s : bitset_ok s -> bitset_ok other -> intersects other s = Ok (negb (Z.land (val s) (val other) =? 0)).
Proof.
  intros Hs Ho. unfold intersects. pose proof (bo_length s Hs). pose proof (bo_length other Ho). pose proof (bo_size s Hs). pose proof (bo_size other Ho).
  set (n := Z.min (actualArrayLength s) (actualArrayLength other)).
  destruct (any_word_ok (fun i w => let! v := read (bits other) i in Ok (negb (Z.land w v =? 0)))
    (fun i => negb (Z.land (word (bits s) i) (word (bits other) i) =? 0)) (Z.to_nat n) 0 (bits s)) as (b & -> & Hb); [lia | lia | intros i Hi; rewrite read_ok by lia; done |].
  f_equal. destruct b; symmetry.
  - destruct (proj1 Hb eq_refl) as (i & Hi & Hn). apply negb_true_iff, Z.eqb_neq. intros Hz. apply negb_true_iff, Z.eqb_neq in Hn. apply Hn, Z.bits_inj'. intros j Hj. rewrite Z.bits_0, Z.land_spec.
    destruct (Z.lt_ge_cases j 64); [| rewrite u64_high; [done | apply word_u64, Hs | done]].
    rewrite <- (value_word (bits s)), <- (value_word (bits other)), <- Z.land_spec by (apply Hs || apply Ho || lia). fold (val s) (val other). by rewrite Hz, Z.bits_0.
  - apply negb_false_iff, Z.eqb_eq, Z.bits_inj'. intros i Hi. rewrite Z.land_spec, Z.bits_0, !val_bit by done.
    destruct (Z.lt_ge_cases (i / 64) n) as [Hlt|Hge].
    + rewrite <- Z.land_spec. replace (Z.land (word (bits s) (i / 64)) (word (bits other) (i / 64))) with 0; [apply Z.bits_0 |].
      apply dec_stable. intros Hz. enough (false = true) by done. apply Hb. exists (i / 64). pose proof (Z.div_pos i 64 Hi). split; [lia |]. apply negb_true_iff, Z.eqb_neq. congruence.
    + destruct (Z.le_gt_cases (actualArrayLength s) (i / 64)); [by rewrite (bo_zero s Hs), Z.bits_0 | rewrite (bo_zero other Ho), Z.bits_0, andb_false_r by lia; done].
Qed.

(** *** The highest bit *)
Lemma log2_bits v n : 0 <= v -> 0 <= n -> Z.testbit v n = true -> (forall m, n < m -> Z.testbit v m = false) -> Z.log2 v = n.
Proof.
  intros Hv Hn Hb Ha. destruct (Z.eq_dec v 0) as [->|Hne]; [by rewrite Z.bits_0 in Hb |]. pose proof (Z.bit_log2 v ltac:(lia)) as Hl.
  destruct (Z.lt_trichotomy (Z.log2 v) n) as [Hlt|[Heq|Hgt]]; [| done |]; [by rewrite Z.bits_above_log2 in Hb by lia | by rewrite Ha in Hl].
Qed.
Lemma two_n_entry i : (i < 64)%nat -> default 0 (TWO_N_ARRAY !! i) = 2 ^ Z.of_nat i.
Proof. intros Hi. do 64 (destruct i as [|i]; [reflexivity |]). lia. Qed.
Lemma high_bit_ok i w : (i < 64)%nat -> let h := high_bit i w in (h <= i)%nat /\ ((0 < h)%nat -> Z.testbit w (Z.of_nat h) = true) /\
  forall j, Z.of_nat h < j <= Z.of_nat i -> Z.testbit w j = false.
Proof.
  induction i as [|i IH]; intros Hi; [cbn; split_and!; intros; lia |]. cbn [high_bit]. rewrite two_n_entry by done.
  pose proof (land_pow2 w (Z.of_nat (S i)) ltac:(lia)) as Hb. destruct (Z.land w (2 ^ Z.of_nat (S i)) =? 0).
  - destruct IH as (H1 & H2 & H3); [lia |]. split_and!; [lia | done |]. intros j Hj. destruct (Z.eq_dec j (Z.of_nat (S i))) as [->|]; [done | apply H3; lia].
  - split_and!; [lia | done |]. intros j Hj. lia.
Qed.
Lemma high_bit_log2 w : u64 w -> w <> 0 -> Z.of_nat (high_bit 63 w) = Z.log2 w.
Proof.
  intros Hw Hne. destruct (high_bit_ok 63 w) as (H1 & H2 & H3); [lia |]. symmetry. apply log2_bits; [lia | lia | |].
  - destruct (high_bit 63 w) as [|h]; [| apply H2; lia]. destruct (Z.testbit w 0) eqn:E; [done |]. exfalso. apply Hne, Z.bits_inj'. intros i Hi. rewrite Z.bits_0.
    destruct (Z.eq_dec i 0) as [->|]; [done |]. destruct (Z.le_gt_cases i 63); [apply H3; lia | apply u64_high; [done | lia]].
  - intros m Hm. destruct (Z.le_gt_cases m 63); [apply H3; lia | apply u64_high; [done | lia]].
Qed.
Lemma length_ok s : bitset_ok s -> exists s', length s = Ok ((if val s =? 0 then 0 else Z.log2 (val s) + 1), s') /\ bitset_ok s' /\ bits s' = bits s.
Proof.
  intros Hs. unfold length. pose proof (bo_length s Hs). pose proof (bo_bound s Hs). pose proof (bo_size s Hs).
  destruct (last_word_ok (Z.to_nat (actualArrayLength s)) (bits s)) as (idx & -> & I1 & I2 & I3); [lia |]. cbn [rbind].
  assert (I4 : forall k, idx < k -> word (bits s) k = 0) by (intros k Hk; destruct (Z.le_gt_cases (actualArrayLength s) k); [by apply (bo_zero s Hs) | apply I3; lia]).
  assert (Hok : bitset_ok (with_length (idx + 1) (isLengthActual s) s)).
  { destruct Hs as [W S L B Z0 C]. split; cbn; try done; try lia. intros k Hk. apply I4. lia. }
  destruct (Z.eqb_spec idx (-1)) as [->|Hne].
  - assert (Hz : val s = 0) by (apply val_zero; [done |]; intros k Hk; apply I4; lia). rewrite Hz. eexists. by split.
  - cbn [bits with_length]. rewrite read_ok by lia. cbn [rbind]. assert (Hw : word (bits s) idx <> 0) by (apply I2; lia). pose proof (word_u64 (bits s) idx (bo_words s Hs)) as Hu.
    rewrite high_bit_log2 by done. pose proof (Z.log2_lt_pow2 (word (bits s) idx) 64 ltac:(lia)) as Hlt. pose proof (Z.log2_nonneg (word (bits s) idx)).
    assert (Hlog : Z.log2 (val s) = 64 * idx + Z.log2 (word (bits s) idx)).
    { apply log2_bits; [by apply val_nonneg | lia | |].
      - unfold val. rewrite value_word by (apply Hs || lia). apply Z.bit_log2. lia.
      - intros m Hm. rewrite val_bit by (done || lia). destruct (Z.eq_dec (m / 64) idx) as [E|].
        + rewrite E. apply Z.bits_above_log2; [lia |]. Z.div_mod_to_equations. lia.
        + rewrite I4, Z.bits_0; [done |]. Z.div_mod_to_equations. lia. }
    unfold OFFSET. rewrite Z.shiftl_mul_pow2 by lia. change (2 ^ 6) with 64. rewrite swrap_small by lia.
    assert (Hv : val s <> 0) by (intros Hv; apply Hw; apply (proj1 (val_zero s Hs) Hv); lia). rewrite (proj2 (Z.eqb_neq _ _) Hv). eexists. split; [do 3 f_equal; lia | done].
Qed.

(** *** The next bit *)
Lemma find_bit_ok b w n : forall j, 0 <= j -> j + Z.of_nat n <= 64 -> exists r, find_bit n j b w = Ok r /\
  match r with
  | Some k => j <= k < j + Z.of_nat n /\ Z.testbit w k = b /\ forall i, j <= i < k -> Z.testbit w i = negb b
  | None => forall i, j <= i < j + Z.of_nat n -> Z.testbit w i = negb b
  end.
Proof.
  induction n as [|n IH]; intros j Hj Hn; [exists None; split; [done | intros i Hi; lia] |]. cbn [find_bit].
  assert (Hr : read TWO_N_ARRAY j = Ok (2 ^ j)).
  { rewrite read_ok by (unfold zlen; cbn; lia). f_equal. unfold word. rewrite two_n_entry by lia. f_equal. lia. }
  rewrite Hr. cbn [rbind]. rewrite land_pow2 by done. destruct (eqb (Z.testbit w j) b) eqn:E.
  - apply eqb_prop in E. exists (Some j). split; [done |]. split_and!; [lia | lia | done |]. intros i Hi. lia.
  - apply eqb_false_iff in E. destruct (IH (j + 1)) as (r & -> & Hr2); [lia | lia |]. exists r. split; [done |].
    assert (Hj2 : Z.testbit w j = negb b) by (destruct (Z.testbit w j), b; done).
    destruct r as [k|].
    + destruct Hr2 as (R1 & R2 & R3). split_and!; [lia | lia | done |]. intros i Hi. destruct (Z.eq_dec i j) as [->|]; [done | apply R3; lia].
    + intros i Hi. destruct (Z.eq_dec i j) as [->|]; [done | apply Hr2; lia].
Qed.
Lemma find_word_ok skip n l : forall idx, 0 <= idx -> idx + Z.of_nat n <= zlen l -> exists r, find_word n idx skip l = Ok r /\ idx <= r <= idx + Z.of_nat n /\
  (forall k, idx <= k < r -> word l k = skip) /\ (r < idx + Z.of_nat n -> word l r <> skip).
Proof.
  induction n as [|n IH]; intros idx Hi Hn; [exists idx; split_and!; (done || lia || intros; lia) |]. cbn [find_word]. rewrite read_ok by lia. cbn [rbind].
  destruct (Z.eqb_spec (word l idx) skip) as [E|E].
  - destruct (IH (idx + 1)) as (r & -> & H1 & H2 & H3); [lia | lia |]. exists r. split_and!; [done | lia | lia | | intros; apply H3; lia].
    intros k Hk. destruct (Z.eq_dec k idx) as [->|]; [done | apply H2; lia].
  - exists idx. split_and!; [done | lia | lia | intros; lia | done].
Qed.
Definition skipped (b : bool) : Z := if b then 0 else all_ones.
Lemma skipped_bit b j : 0 <= j < 64 -> Z.testbit (skipped b) j = negb b.
Proof. intros Hj. destruct b; cbn [skipped negb]; [apply Z.bits_0 |]. rewrite all_ones_spec by lia. apply Z.ltb_lt. lia. Qed.
Lemma skipped_word b w : u64 w -> (forall j, 0 <= j < 64 -> Z.testbit w j = negb b) -> w = skipped b.
Proof.
  intros Hw Hb. apply Z.bits_inj'. intros i Hi. destruct (Z.lt_ge_cases i 64); [by rewrite Hb, skipped_bit |].
  rewrite !u64_high by (done || destruct b; done). done.
Qed.
(** [z] is the first index from [i] on at which the bit is [b]. *)
Definition first_from (v : Z) (b : bool) (i z : Z) : Prop := i <= z /\ Z.testbit v z = b /\ forall j, i <= j < z -> Z.testbit v j = negb b.

(** The first word with such a bit, and the words before it. *)
Lemma next_bit_ok b i none s : bitset_ok s -> 0 <= i < actualArrayLength s * 64 ->
  exists z, next b i none s = Ok z /\
    (first_from (val s) b i z \/ z = none /\ forall j, i <= j < actualArrayLength s * 64 -> Z.testbit (val s) j = negb b).
Proof.
  intros Hs Hi. unfold next. rewrite div_64, mod_64. fold (skipped b). unfold ELM_SIZE. pose proof (bo_length s Hs). pose proof (bo_bound s Hs). pose proof (bo_size s Hs) as Hz.
  pose proof (Z.mod_pos_bound i 64 ltac:(lia)) as Hm. assert (Hq : 0 <= i / 64 < actualArrayLength s) by (Z.div_mod_to_equations; lia).
  set (p := i / 64) in *. set (m := i mod 64) in *. assert (Hi2 : i = 64 * p + m) by (unfold p, m; Z.div_mod_to_equations; lia).
  assert (Hpos : forall k j, 0 <= k < actualArrayLength s -> 0 <= j < 64 -> to_s32 (Z.shiftl k OFFSET + j) = 64 * k + j).
  { intros k j Hk Hj. unfold OFFSET. rewrite Z.shiftl_mul_pow2 by lia. change (2 ^ 6) with 64. rewrite swrap_small by lia. lia. }
  assert (Hbit : forall k j, 0 <= k -> 0 <= j < 64 -> Z.testbit (val s) (64 * k + j) = Z.testbit (word (bits s) k) j) by (intros; apply value_word; [apply Hs | done..]).
  rewrite read_ok by lia. cbn [rbind].
  assert (Hhere : exists r, (if negb (word (bits s) p =? skipped b) then find_bit (Z.to_nat (64 - m)) m b (word (bits s) p) else Ok None) = Ok r /\
    match r with Some k => m <= k < 64 /\ Z.testbit (word (bits s) p) k = b /\ forall j, m <= j < k -> Z.testbit (word (bits s) p) j = negb b
    | None => forall j, m <= j < 64 -> Z.testbit (word (bits s) p) j = negb b end).
  { destruct (Z.eqb_spec (word (bits s) p) (skipped b)) as [E|E]; cbn [negb]; [exists None; split; [done |]; intros j Hj; rewrite E; apply skipped_bit; lia |].
    destruct (find_bit_ok b (word (bits s) p) (Z.to_nat (64 - m)) m) as (r & -> & Hr); [lia | lia |]. exists r. split; [done |].
    replace (m + Z.of_nat (Z.to_nat (64 - m))) with 64 in Hr by lia. done. }
  destruct Hhere as (r & -> & Hr). cbn [rbind]. destruct r as [k|].
  { destruct Hr as (R1 & R2 & R3). rewrite Hpos by lia. eexists. split; [done |]. left. split_and!; [lia | by rewrite Hbit by lia |].
    intros j Hj. replace j with (64 * p + (j - 64 * p)) by lia. rewrite Hbit by lia. apply R3. lia. }
  destruct (find_word_ok (skipped b) (Z.to_nat (actualArrayLength s - (p + 1))) (bits s) (p + 1)) as (q & -> & Q1 & Q2 & Q3); [lia | lia |]. cbn [rbind].
  assert (Hbefore : forall j, i <= j < 64 * q -> Z.testbit (val s) j = negb b).
  { intros j Hj. rewrite val_bit by (done || lia). pose proof (Z.mod_pos_bound j 64 ltac:(lia)). assert (Hjq : p <= j / 64 < q) by (Z.div_mod_to_equations; lia).
    destruct (Z.eq_dec (j / 64) p) as [E|]; [rewrite E; apply Hr; Z.div_mod_to_equations; lia | rewrite Q2 by lia; by apply skipped_bit]. }
  destruct (Z.eqb_spec q (actualArrayLength s)) as [->|Hne]; [eexists; split; [done |]; right; split; [done |]; intros j Hj; apply Hbefore; lia |].
  rewrite read_ok by lia. cbn [rbind]. destruct (find_bit_ok b (word (bits s) q) (Z.to_nat 64) 0) as (r & -> & Hr2); [lia | lia |]. cbn [rbind].
  destruct r as [k|]; [| exfalso; apply Q3; [lia |]; apply skipped_word; [apply word_u64, Hs | intros j Hj; apply Hr2; lia]].
  destruct Hr2 as (R1 & R2 & R3). rewrite Hpos by lia. eexists. split; [done |]. left. split_and!; [lia | by rewrite Hbit by lia |].
  intros j Hj. destruct (Z.lt_ge_cases j (64 * q)); [apply Hbefore; lia |]. replace j with (64 * q + (j - 64 * q)) by lia. rewrite Hbit by lia. apply R3. lia.
Qed.
Lemma size_shift s : bitset_ok s -> to_s32 (Z.shiftl (actualArrayLength s) OFFSET) = actualArrayLength s * 64.
Proof.
  intros Hs. pose proof (bo_length s Hs). pose proof (bo_bound s Hs). unfold OFFSET. rewrite Z.shiftl_mul_pow2 by lia. apply swrap_small; lia.
Qed.
Lemma nextSetBit_ok i s : bitset_ok s -> 0 <= i ->
  exists z, nextSetBit i s = Ok z /\ (first_from (val s) true i z \/ z = -1 /\ forall j, i <= j -> Z.testbit (val s) j = false).
Proof.
  intros Hs Hi. unfold nextSetBit. rewrite (proj2 (Z.ltb_ge i 0)), size_shift by done. destruct (Z.leb_spec (actualArrayLength s * 64) i).
  - eexists. split; [done |]. right. split; [done |]. intros j Hj. apply val_above; [done | lia].
  - destruct (next_bit_ok true i (-1) s Hs) as (z & -> & [Hz|[-> Hz]]); [done | exists z; tauto |]. eexists. split; [done |]. right. split; [done |].
    intros j Hj. destruct (Z.lt_ge_cases j (actualArrayLength s * 64)); [apply Hz; lia | apply val_above; [done | lia]].
Qed.
Lemma nextClearBit_ok i s : bitset_ok s -> 0 <= i -> exists z, nextClearBit i s = Ok z /\ first_from (val s) false i z.
Proof.
  intros Hs Hi. unfold nextClearBit. rewrite (proj2 (Z.ltb_ge i 0)), size_shift by done. destruct (Z.leb_spec (actualArrayLength s * 64) i).
  - eexists. split; [done |]. split_and!; [lia | by apply val_above |]. intros j Hj. lia.
  - destruct (next_bit_ok false i (actualArrayLength s * 64) s Hs) as (z & -> & [Hz|[-> Hz]]); [done | by exists z |]. eexists. split; [done |].
    split_and!; [lia | by apply val_above | done].
Qed.

(** ** A bit set refines an integer *)
Inductive op :=
| Get (i : Z) | Set_ (i : Z) (b : bool) | Flip (i : Z) | SetRange (a b : Z) | ClearRange (a b : Z) | FlipRange (a b : Z) | ClearAll
| And (other : t) | AndNot (other : t) | Or (other : t) | Xor (other : t)
| Intersects (other : t) | IsEmpty | Length | NextSet (i : Z) | NextClear (i : Z).
Inductive answer := Nothing | Bool (b : bool) | Int (z : Z).

Definition run_op (o : op) (s : t) : result (answer * t) :=
  match o with
  | Get i => let! b := get i s in Ok (Bool b, s)
  | Set_ i b => let! s := set_to i b s in Ok (Nothing, s)
  | Flip i => let! s := flip i s in Ok (Nothing, s)
  | SetRange a b => let! s := set_range a b s in Ok (Nothing, s)
  | ClearRange a b => let! s := clear_range a b s in Ok (Nothing, s)
  | FlipRange a b => let! s := flip_range a b s in Ok (Nothing, s)
  | ClearAll => Ok (Nothing, clear_all s)
  | And x => let! s := AND x s in Ok (Nothing, s)
  | AndNot x => let! s := andNot x s in Ok (Nothing, s)
  | Or x => let! s := OR x s in Ok (Nothing, s)
  | Xor x => let! s := XOR x s in Ok (Nothing, s)
  | Intersects x => let! b := intersects x s in Ok (Bool b, s)
  | IsEmpty => let! b := isEmpty s in Ok (Bool b, s)
  | Length => let! r := length s in Ok (Int (fst r), snd r)
  | NextSet i => let! z := nextSetBit i s in Ok (Int z, s)
  | NextClear i => let! z := nextClearBit i s in Ok (Int z, s)
  end.
(** What an operation answers on the integer [v], and the integer it leaves. *)
Definition spec (o : op) (v : Z) (a : answer) (v' : Z) : Prop :=
  match o with
  | Get i => a = Bool (Z.testbit v i) /\ v' = v
  | Set_ i b => a = Nothing /\ v' = if b then Z.setbit v i else Z.clearbit v i
  | Flip i => a = Nothing /\ v' = Z.lxor v (2 ^ i)
  | SetRange i j => a = Nothing /\ v' = Z.lor v (range i j)
  | ClearRange i j => a = Nothing /\ v' = Z.ldiff v (range i j)
  | FlipRange i j => a = Nothing /\ v' = Z.lxor v (range i j)
  | ClearAll => a = Nothing /\ v' = 0
  | And x => a = Nothing /\ v' = Z.land v (val x)
  | AndNot x => a = Nothing /\ v' = Z.ldiff v (val x)
  | Or x => a = Nothing /\ v' = Z.lor v (val x)
  | Xor x => a = Nothing /\ v' = Z.lxor v (val x)
  | Intersects x => a = Bool (negb (Z.land v (val x) =? 0)) /\ v' = v
  | IsEmpty => a = Bool (v =? 0) /\ v' = v
  | Length => a = Int (if v =? 0 then 0 else Z.log2 v + 1) /\ v' = v
  | NextSet i => (exists z, a = Int z /\ (first_from v true i z \/ z = -1 /\ forall j, i <= j -> Z.testbit v j = false)) /\ v' = v
  | NextClear i => (exists z, a = Int z /\ first_from v false i z) /\ v' = v
  end.
(** Indices that are not negative and leave room for the arithmetic of int, and sets
    that need no larger array. *)
Definition op_ok (o : op) (s : t) : Prop :=
  match o with
  | Get i | NextSet i | NextClear i => 0 <= i
  | Set_ i _ | Flip i => 0 <= i < 2 ^ 31 - 64
  | SetRange a b | ClearRange a b | FlipRange a b => 0 <= a <= b /\ b <= 2 ^ 31 - 64
  | And x | AndNot x | Intersects x => bitset_ok x
  | Or x | Xor x => bitset_ok x /\ actualArrayLength x <= bitsSize s
  | ClearAll | IsEmpty | Length => True
  end.
Lemma clear_all_ok s : bitset_ok s -> bitset_ok (clear_all s) /\ val (clear_all s) = 0.
Proof.
  intros Hs. unfold clear_all. destruct (needClear s) eqn:Ec; [| split; [done | by apply needClear_val]]. pose proof (bo_length s Hs). pose proof (bo_bound s Hs).
  pose proof (bo_size s Hs) as Hz. rewrite drop_ge, app_nil_r by (unfold zlen in Hz; lia).
  assert (Hw : forall n k, word (replicate n 0) k = 0) by (intros n k; unfold word; destruct (replicate n 0 !! _) eqn:E; [by apply lookup_replicate in E as [-> _] | done]).
  assert (Hok : bitset_ok (mk (replicate (Z.to_nat (bitsSize s)) 0) (bitsSize s) false 0 true)).
  { split; cbn; try done; try lia; [apply Forall_replicate; lia | unfold zlen; rewrite length_replicate; lia]. }
  split; [done |]. by apply (needClear_val _ Hok).
Qed.

(** C35. A BitSet is an integer.  On a well-formed set each of get, set, flip and clear of
    an index below 2^31 - 64, set, clear and flip of a range up to that, clear, AND, andNot,
    OR, XOR, intersects, isEmpty, length, nextSetBit and nextClearBit succeeds, answers what
    the bit operation of Z answers on the integer its words spell, and leaves a well-formed
    set of the integer that operation leaves; the argument of AND, andNot and intersects is
    any well-formed set, that of OR and XOR one whose words in use fit into the words the
    set has, since otherwise these two leave a malformed set (or_keeps_old_size).  [setbit],
    [clearbit], [land], [lor], [lxor] and [ldiff] are those of Z, the length is one more
    than the highest bit, and the next set or clear bit is the first one. *)
Theorem bitset_refines o s : bitset_ok s -> op_ok o s ->
  exists a s', run_op o s = Ok (a, s') /\ bitset_ok s' /\ spec o (val s) a (val s').
Proof.
  intros Hs Ho. destruct o; cbn [op_ok run_op spec] in *.
  - rewrite bitset_get_ok by done. by eexists _, s.
  - unfold set_to. destruct b; [destruct (set_ok i s Hs Ho) as (s' & -> & H1 & H2) | destruct (clear_ok i s Hs) as (s' & -> & H1 & H2); [lia |]];
      (eexists _, s'; split_and!; [done | done | done |]); by rewrite H2, ?Z.setbit_spec', ?Z.clearbit_spec'.
  - destruct (flip_ok i s Hs Ho) as (s' & -> & H1 & H2). by eexists _, s'.
  - destruct (set_range_ok a b s Hs (proj1 Ho) (proj2 Ho)) as (s' & -> & H1 & H2). by eexists _, s'.
  - destruct (clear_range_ok a b s Hs (proj1 Ho)) as (s' & -> & H1 & H2). by eexists _, s'.
  - destruct (flip_range_ok a b s Hs (proj1 Ho) (proj2 Ho)) as (s' & -> & H1 & H2). by eexists _, s'.
  - destruct (clear_all_ok s Hs) as [H1 H2]. by eexists _, _.
  - destruct (AND_ok other s Hs Ho) as (s' & -> & H1 & H2). by eexists _, s'.
  - destruct (andNot_ok other s Hs Ho) as (s' & -> & H1 & H2). by eexists _, s'.
  - destruct (OR_ok other s Hs (proj1 Ho) (proj2 Ho)) as (s' & -> & H1 & H2). by eexists _, s'.
  - destruct (XOR_ok other s Hs (proj1 Ho) (proj2 Ho)) as (s' & -> & H1 & H2). by eexists _, s'.
  - rewrite intersects_ok by done. by eexists _, s.
  - rewrite isEmpty_ok by done. by eexists _, s.
  - destruct (length_ok s Hs) as (s' & -> & H1 & H2). eexists _, s'. split_and!; try done. unfold val. by rewrite H2.
  - destruct (nextSetBit_ok i s Hs Ho) as (z & -> & Hz). eexists _, s. split_and!; try done. by exists z.
  - destruct (nextClearBit_ok i s Hs Ho) as (z & -> & Hz). eexists _, s. split_and!; try done. by exists z.
Qed.

(** ** Beginnings and deviations *)
Lemma init_ok n : 0 <= n < 2 ^ 31 -> exists s, init n = Ok s /\ bitset_ok s /\ val s = 0.
Proof.
  intros Hn. unfold init. rewrite (proj2 (Z.ltb_ge n 0)), div_64, mod_64 by lia. set (k := n / 64 + _).
  assert (Hk : 0 <= k <= 2 ^ 26).
  { unfold k. pose proof (Z.mod_pos_bound n 64 ltac:(lia)). destruct (Z.ltb_spec 0 (n mod 64)); Z.div_mod_to_equations; lia. }
  assert (Hw : forall m i, word (replicate m 0) i = 0) by (intros m i; unfold word; destruct (replicate m 0 !! _) eqn:E; [by apply lookup_replicate in E as [-> _] | done]).
  eexists. split; [done |]. assert (Hok : bitset_ok (mk (replicate (Z.to_nat k) 0) k false 0 true)).
  { split; cbn; try done; try lia; [apply Forall_replicate; lia | unfold zlen; rewrite length_replicate; lia]. }
  split; [done |]. by apply (needClear_val _ Hok).
Qed.

(** [OR] with a set that has more words than there is room for takes over the larger
    array and keeps the old size, so that a later [set] beyond that size copies the
    words into an array that is too small for them: its behaviour is undefined. *)
Theorem or_keeps_old_size other s i : bitset_ok s -> bitset_ok other -> isLengthActual other = true -> 0 <= i < 2 ^ 31 - 64 ->
  bitsSize s <= i / 64 -> i / 64 + 1 < actualArrayLength other -> bitsSize s * 2 < actualArrayLength other ->
  exists s', OR other s = Ok s' /\ bitsSize s' = bitsSize s /\ zlen (bits s') = actualArrayLength other /\ set i s' = Err Undefined.
Proof.
  intros Hs Ho Ha Hi H1 H2 H3. pose proof (bo_length s Hs). pose proof (bo_bound s Hs). pose proof (bo_length other Ho). pose proof (bo_size s Hs). pose proof (bo_size other Ho) as Hz.
  unfold OR, getActualArrayLength. rewrite Ha. cbn [rbind fst snd]. rewrite (proj2 (Z.ltb_lt (bitsSize s) _)) by lia.
  unfold copy_words. rewrite (proj2 (Z.ltb_ge (zlen (bits other)) _)) by lia. cbn [rbind]. set (l := take _ (bits other)).
  assert (Hl : zlen l = actualArrayLength other) by (unfold l, zlen in *; rewrite length_take; lia).
  destruct (for_words_ok (fun i w => let! v := read (bits s) i in Ok (Z.lor w v)) (fun i w => Z.lor w (word (bits s) i)) (Z.to_nat (actualArrayLength s)) 0 l)
    as (l' & -> & Hl' & _ & _); [lia | lia | apply Forall_take, Ho | |].
  { intros k Hk. rewrite read_ok by lia. split; [done |]. apply op_u64; apply word_u64; [apply Forall_take, Ho | apply Hs]. }
  cbn [rbind]. eexists. split; [reflexivity |]. cbn. split_and!; [done | lia |]. unfold set. rewrite (proj2 (Z.ltb_ge i 0)), div_64 by lia.
  unfold ensure. cbn [bitsSize with_needClear with_length with_bits]. rewrite (proj2 (Z.ltb_lt _ (i / 64 + 1))) by lia. unfold ensureCapacity.
  cbn [bitsSize actualArrayLength bits with_needClear with_length with_bits]. rewrite swrap_small by lia. rewrite (proj2 (Z.ltb_lt (Z.max _ _) _)) by lia. done.
Qed.

(** [XOR] of a set with itself is empty, and [equals] takes it for another set than the
    empty one. *)
Lemma xor_self_not_equal : exists s x, set 5 new = Ok s /\ XOR s s = Ok x /\ val x = 0 /\ equals new x = Ok false.
Proof. eexists _, _. split; [reflexivity |]. split; [reflexivity |]. by split. Qed.

Lemma bitset_new_ok : bitset_ok new.
Proof. split; cbn; try done; try lia; [apply Forall_cons_2; [lia | apply Forall_nil_2] | |]; intros; unfold word; destruct (Z.to_nat _) as [|n]; cbn; by rewrite ?lookup_nil. Qed.
Lemma bitset_refines_witness : exists a s', run_op (SetRange 60 70) new = Ok (a, s') /\ val s' = range 60 70 /\ nextClearBit 61 s' = Ok 70.
Proof.
  destruct (bitset_refines (SetRange 60 70) new bitset_new_ok) as (a & s' & E & Hs' & _ & Hv); [split; lia |].
  exists a, s'. split; [exact E |]. split; [by rewrite Hv |]. vm_compute in E. injection E as <- <-. reflexivity.
Defined.
Lemma or_keeps_old_size_witness : exists other s', set 639 new = Ok other /\ OR other new = Ok s' /\ set 128 s' = Err Undefined.
Proof.
  destruct (set_ok 639 new bitset_new_ok) as (other & E & Ho & _); [lia |]. assert (Ha : actualArrayLength other = 10 /\ isLengthActual other = true).
  { vm_compute in E. by injection E as <-. }
  destruct (or_keeps_old_size other new 128 bitset_new_ok Ho) as (s' & E2 & _ & _ & E3); [apply Ha | lia | rewrite ?(proj1 Ha); vm_compute; done.. |].
  by exists other, s'.
Defined.
