(* ===== verification/HashMaps.v ===== *)
(** * Hash maps

    decaf/util/HashMap.h: a table of chained buckets.  The table is a list of buckets, a
    bucket the list of the entries its chain links, first entry first.  The key of an
    entry never changes and no two entries of a map have the same, so a pointer to an
    entry is modelled by the key of the entry; using a pointer to an entry that was
    deleted is [Undefined]. *)

From S2P Require Import Prelude.

(** decaf/util/HashCode.h; the characters of a string are signed. *)
Module HashCode.
Definition bool (arg : Datatypes.bool) : Z := if arg then 1231 else 1237.
Definition int (arg : Z) : Z := arg.
Definition unsigned_int (arg : Z) : Z := to_s32 arg.
Definition long_long (arg : Z) : Z := to_s32 (Z.lxor (to_u64 arg) (Z.shiftr (to_u64 arg) 32)).
Definition string (arg : list Z) : Z := fold_left (fun h c => to_s32 (31 * h + to_s8 c)) arg 0.
End HashCode.

Module HashMap.
Section Def.
Context {K V : Type} `{!EqDecision K} (hashFunc : K -> Z) (V0 : V).

Record entry := Entry { key : K; value : V; origKeyHash : Z }.
(** [loadFactor] is the float as a fraction. *)
Record t := mk { elementCount : Z; elementData : list (list entry); modCount : Z; loadFactor : Z * Z; threshold : Z }.

Definition length (m : t) : Z := zlen (elementData m).
Definition with_data (d : list (list entry)) (m : t) : t := mk (elementCount m) d (modCount m) (loadFactor m) (threshold m).
Definition with_count (n : Z) (m : t) : t := mk n (elementData m) (modCount m) (loadFactor m) (threshold m).
Definition touch (m : t) : t := mk (elementCount m) (elementData m) (to_s32 (modCount m + 1)) (loadFactor m) (threshold m).

(** ArrayPointer::operator[] *)
Definition bucket (i : Z) (d : list (list entry)) : result (list entry) :=
  if (i <? 0) || (zlen d <=? i) then throw IndexOutOfBoundsException else Ok (default [] (d !! Z.to_nat i)).
Definition set_bucket (i : Z) (b : list entry) (d : list (list entry)) : result (list (list entry)) :=
  let! _ := bucket i d in Ok (<[Z.to_nat i := b]> d).
Definition index_of (hash len : Z) : Z := Z.land hash (len - 1).

(** ** Capacity *)
(** The length is a power of two, so that the product of the floats is exact. *)
Definition computeThreshold (m : t) : t :=
  mk (elementCount m) (elementData m) (modCount m) (loadFactor m) (length m * fst (loadFactor m) / snd (loadFactor m)).
Definition calculateCapacity (x : Z) : Z :=
  if 2 ^ 30 <=? x then 2 ^ 30
  else if x =? 0 then 16
  else
    let x := x - 1 in
    let x := Z.lor x (Z.shiftr x 1) in
    let x := Z.lor x (Z.shiftr x 2) in
    let x := Z.lor x (Z.shiftr x 4) in
    let x := Z.lor x (Z.shiftr x 8) in
    let x := Z.lor x (Z.shiftr x 16) in
    x + 1.
Definition make (capacity : Z) (lf : Z * Z) : t := computeThreshold (mk 0 (replicate (Z.to_nat capacity) []) 0 lf 0).
Definition new : t := make (calculateCapacity 12) (3, 4).
Definition init (capacity : Z) : result t :=
  if 0 <=? capacity then Ok (make (calculateCapacity capacity) (3, 4)) else throw IllegalArgumentException.
Definition init_load (capacity : Z) (lf : Z * Z) : result t :=
  if (0 <=? capacity) && (0 <? fst lf) then Ok (make (calculateCapacity capacity) lf) else throw IllegalArgumentException.

(** The entries of the old table, each put at the front of its new bucket. *)
Fixpoint rehash_each (len : Z) (es : list entry) (newData : list (list entry)) : result (list (list entry)) :=
  match es with
  | [] => Ok newData
  | e :: es =>
    let index := index_of (origKeyHash e) len in
    let! b := bucket index newData in
    let! newData := set_bucket index (e :: b) newData in
    rehash_each len es newData
  end.
(** The shift of an int is undefined when it overflows. *)
Definition rehash_to (capacity : Z) (m : t) : result t :=
  if 2 ^ 30 <=? capacity then Err Undefined
  else
    let len := calculateCapacity (if capacity =? 0 then 1 else Z.shiftl capacity 1) in
    let! d := rehash_each len (concat (elementData m)) (replicate (Z.to_nat len) []) in
    Ok (computeThreshold (with_data d m)).
Definition rehash (m : t) : result t := rehash_to (length m) m.

(** ** Entries *)
Fixpoint find_entry (k : K) (keyHash : Z) (b : list entry) : option entry :=
  match b with
  | [] => None
  | e :: b => if negb (origKeyHash e =? keyHash) || negb (bool_decide (k = key e)) then find_entry k keyHash b else Some e
  end.
Definition findKeyEntry (k : K) (index keyHash : Z) (m : t) : result (option entry) :=
  let! b := bucket index (elementData m) in Ok (find_entry k keyHash b).
Definition getEntry (k : K) (m : t) : result (option entry) :=
  let hash := hashFunc k in findKeyEntry k (index_of hash (length m)) hash m.
Definition createHashedEntry (k : K) (index hash : Z) (m : t) : result t :=
  let! b := bucket index (elementData m) in
  let! d := set_bucket index (Entry k V0 hash :: b) (elementData m) in
  Ok (with_data d m).
(** entry->setValue(v) for the entry of a key. *)
Definition setValue (k : K) (v : V) (m : t) : t :=
  with_data (map (map (fun e => if bool_decide (key e = k) then Entry (key e) v (origKeyHash e) else e)) (elementData m)) m.

(** ** Lookup *)
Definition isEmpty (m : t) : bool := elementCount m =? 0.
Definition size (m : t) : Z := elementCount m.
Definition containsKey (k : K) (m : t) : result bool :=
  let! e := getEntry k m in Ok (match e with Some _ => true | None => false end).
Definition containsValue `{!EqDecision V} (v : V) (m : t) : bool :=
  existsb (existsb (fun e => bool_decide (v = value e))) (elementData m).
Definition get (k : K) (m : t) : result V :=
  let! e := getEntry k m in match e with Some e => Ok (value e) | None => throw NoSuchElementException end.

(** ** Update

    [putImpl] answers whether it replaced a value, and the value. *)
Definition putImpl (k : K) (v : V) (m : t) : result (bool * option V * t) :=
  let hash := hashFunc k in
  let index := index_of hash (length m) in
  let! e := findKeyEntry k index hash m in
  match e with
  | None =>
    let! m := createHashedEntry k index hash (touch m) in
    let m := with_count (elementCount m + 1) m in
    let! m := (if threshold m <? elementCount m then rehash m else Ok m) in
    Ok (false, None, setValue k v m)
  | Some e => Ok (true, Some (value e), setValue k v m)
  end.
Definition put (k : K) (v : V) (m : t) : result (bool * option V * t) := putImpl k v m.
Fixpoint put_each (es : list (K * V)) (m : t) : result t :=
  match es with
  | [] => Ok m
  | (k, v) :: es => let! r := putImpl k v m in put_each es (snd r)
  end.
(** The entries of the other map in the order of its iterator. *)
Definition putAllImpl (es : list (K * V)) (m : t) : result t :=
  let capacity := elementCount m + zlen es in
  let! m := (if threshold m <? capacity then rehash_to capacity m else Ok m) in
  put_each es m.
Definition putAll (es : list (K * V)) (m : t) : result t := match es with [] => Ok m | _ => putAllImpl es m end.
(** The chain of a bucket without the entry of the key. *)
Fixpoint unchain (k : K) (hash : Z) (b : list entry) : option (entry * list entry) :=
  match b with
  | [] => None
  | e :: b => if (origKeyHash e =? hash) && bool_decide (k = key e) then Some (e, b) else option_map (fun '(x, b) => (x, e :: b)) (unchain k hash b)
  end.
Definition removeEntry (k : K) (m : t) : result (option entry * t) :=
  let hash := hashFunc k in
  let index := index_of hash (length m) in
  let! b := bucket index (elementData m) in
  match unchain k hash b with
  | None => Ok (None, m)
  | Some (e, b) => let! d := set_bucket index b (elementData m) in Ok (Some e, with_count (elementCount m - 1) (touch (with_data d m)))
  end.
(** The entry itself is given; current->next is NULL at the end of the chain. *)
Fixpoint unchain_ptr (k : K) (b : list entry) : option (list entry) :=
  match b with
  | [] => None
  | e :: b => if bool_decide (key e = k) then Some b else option_map (cons e) (unchain_ptr k b)
  end.
Definition deref (k : K) (m : t) : result entry :=
  match List.find (fun e => bool_decide (key e = k)) (concat (elementData m)) with Some e => Ok e | None => Err Undefined end.
Definition removeEntry_ptr (k : K) (m : t) : result t :=
  let! e := deref k m in
  let index := index_of (origKeyHash e) (length m) in
  let! b := bucket index (elementData m) in
  match unchain_ptr k b with
  | None => Err Undefined
  | Some b => let! d := set_bucket index b (elementData m) in Ok (with_count (elementCount m - 1) (touch (with_data d m)))
  end.
Definition remove (k : K) (m : t) : result (V * t) :=
  let! r := removeEntry k m in
  match r with (Some e, m) => Ok (value e, m) | (None, _) => throw NoSuchElementException end.
Definition clear (m : t) : t :=
  if 0 <? elementCount m then touch (with_data (map (fun _ => []) (elementData m)) (with_count 0 m)) else m.

(** ** Iterators *)
Record iterator := Iterator { position : Z; expectedModCount : Z; futureEntry : option K; currentEntry : option K; prevEntry : option K }.
Definition iterate (m : t) : iterator := Iterator 0 (modCount m) None None None.
Definition with_position (p : Z) (it : iterator) : iterator := Iterator p (expectedModCount it) (futureEntry it) (currentEntry it) (prevEntry it).
(** entry->next, for an entry of the map *)
Fixpoint next_in (k : K) (b : list entry) : option (option K) :=
  match b with
  | [] => None
  | e :: b => if bool_decide (key e = k) then Some (key <$> head b) else next_in k b
  end.
Fixpoint next_of (k : K) (d : list (list entry)) : result (option K) :=
  match d with
  | [] => Err Undefined
  | b :: d => match next_in k b with Some n => Ok n | None => next_of k d end
  end.
Fixpoint scan (n : nat) (p : Z) (m : t) : result (bool * Z) :=
  match n with
  | O => Ok (false, p)
  | S n => let! b := bucket p (elementData m) in match b with [] => scan n (p + 1) m | _ => Ok (true, p) end
  end.
Definition checkHasNext (it : iterator) (m : t) : result (bool * iterator) :=
  match futureEntry it with
  | Some _ => Ok (true, it)
  | None => let! r := scan (Z.to_nat (length m - position it)) (position it) m in Ok (fst r, with_position (snd r) it)
  end.
Definition checkConcurrentMod (it : iterator) (m : t) : result unit :=
  if expectedModCount it =? modCount m then Ok tt else throw ConcurrentModificationException.
Definition makeNext (it : iterator) (m : t) : result iterator :=
  let! _ := checkConcurrentMod it m in
  let! r := checkHasNext it m in
  let it := snd r in
  if negb (fst r) then throw NoSuchElementException
  else match futureEntry it with
  | None =>
    let! b := bucket (position it) (elementData m) in
    match b with
    | [] => Err Undefined
    | e :: b => Ok (Iterator (position it + 1) (expectedModCount it) (key <$> head b) (Some (key e)) None)
    end
  | Some f =>
    let prev := match currentEntry it with Some c => Some c | None => prevEntry it end in
    let! n := next_of f (elementData m) in
    Ok (Iterator (position it) (expectedModCount it) n (Some f) prev)
  end.
Definition next (it : iterator) (m : t) : result (entry * iterator) :=
  let! it := makeNext it m in
  match currentEntry it with Some c => let! e := deref c m in Ok (e, it) | None => Err Undefined end.
(** The entries linked after the one of a key. *)
Fixpoint rest_in (k : K) (b : list entry) : option (list entry) :=
  match b with
  | [] => None
  | e :: b => if bool_decide (key e = k) then Some b else rest_in k b
  end.
Fixpoint rest_of (k : K) (d : list (list entry)) : result (list entry) :=
  match d with
  | [] => Err Undefined
  | b :: d => match rest_in k b with Some r => Ok r | None => rest_of k d end
  end.
(** prev->next = the entry [r] starts with *)
Fixpoint relink (p : K) (r : list entry) (b : list entry) : list entry :=
  match b with
  | [] => []
  | e :: b => if bool_decide (key e = p) then e :: r else e :: relink p r b
  end.
(** The table without the current entry. *)
Definition unlink (c : K) (prev : option K) (m : t) : result (list (list entry)) :=
  match prev with
  | None =>
    let! e := deref c m in
    let index := index_of (origKeyHash e) (length m) in
    let! b := bucket index (elementData m) in
    match b with [] => Err Undefined | _ :: b => set_bucket index b (elementData m) end
  | Some p => let! _ := deref p m in let! r := rest_of c (elementData m) in Ok (map (relink p r) (elementData m))
  end.
Definition doRemove (it : iterator) (m : t) : result (iterator * t) :=
  let! _ := checkConcurrentMod it m in
  match currentEntry it with
  | None => throw IllegalStateException
  | Some c =>
    let! d := unlink c (prevEntry it) m in
    Ok (Iterator (position it) (to_s32 (expectedModCount it + 1)) (futureEntry it) None (prevEntry it), with_count (elementCount m - 1) (touch (with_data d m)))
  end.

(** ** Whole maps *)
Fixpoint equals_each `{!EqDecision V} (es : list entry) (source : t) : result bool :=
  match es with
  | [] => Ok true
  | e :: es =>
    let! b := containsKey (key e) source in
    if negb b then Ok false
    else let! v := get (key e) source in if negb (bool_decide (v = value e)) then Ok false else equals_each es source
  end.
(** The entries are visited in the order of the iterator. *)
Definition equals `{!EqDecision V} (source m : t) : result bool :=
  if negb (size m =? size source) then Ok false else equals_each (concat (elementData m)) source.
Definition copy (source : list (K * V)) (m : t) : result t :=
  let capacity := calculateCapacity (zlen source) in
  let m := clear m in
  let m := (if length m <? capacity then with_data (replicate (Z.to_nat capacity) []) m else m) in
  putAll source (computeThreshold m).
End Def.
Arguments entry : clear implicits.
Arguments t : clear implicits.
Arguments iterator : clear implicits.
End HashMap.
