(* ===== verification/HashMapLaws.v ===== *)
(** * Hash maps refine finite maps

    The invariant of HashMap, its contents as a finite map, and what its operations and
    iterators do to the contents. *)

From stdpp Require Import gmap.
From S2P Require Import Prelude HashMaps.
Import HashMap.

(** ** The capacity is the next power of two *)
Definition smeared (s y z : Z) : Prop :=
  forall i, 0 <= i -> Z.testbit z i = true <-> exists j, 0 <= j < s /\ Z.testbit y (i + j) = true.
Lemma smear_start y : smeared 1 y y.
Proof. intros i Hi. split; [intros H; exists 0; by rewrite Z.add_0_r | intros (j & Hj & H); by replace (i + j) with i in H by lia]. Qed.
Lemma smear_step s y z : 0 < s -> smeared s y z -> smeared (s + s) y (Z.lor z (Z.shiftr z s)).
Proof.
  intros Hs Hz i Hi. rewrite Z.lor_spec, Z.shiftr_spec, orb_true_iff, (Hz i), (Hz (i + s)) by lia. split.
  - intros [(j & Hj & H) | (j & Hj & H)]; [exists j | exists (s + j)]; (split; [lia | first [done | by replace (i + s + j) with (i + (s + j)) in H by lia]]).
  - intros (j & Hj & H). destruct (Z.ltb_spec j s); [left; exists j; split; [lia | done] | right; exists (j - s)]. split; [lia | by replace (i + s + (j - s)) with (i + j) by lia].
Qed.
Lemma smeared_ones y z : 0 < y < 2 ^ 30 -> 0 <= z -> smeared 32 y z -> z + 1 = 2 ^ (Z.log2 y + 1).
Proof.
  intros Hy Hz H. pose proof (Z.log2_nonneg y). assert (Z.log2 y < 30) by (apply Z.log2_lt_pow2; lia).
  enough (z = Z.ones (Z.log2 y + 1)) as -> by (rewrite Z.ones_equiv; lia). apply Z.bits_inj'. intros i Hi.
  apply eq_true_iff_eq. rewrite (H i), Z.ones_spec_iff by lia. split.
  - intros (j & Hj & Ht). destruct (Z.ltb_spec i (Z.log2 y + 1)); [lia |]. by rewrite Z.bits_above_log2 in Ht by lia.
  - intros Hlt. exists (Z.log2 y - i). split; [lia |]. replace (i + (Z.log2 y - i)) with (Z.log2 y) by lia. apply Z.bit_log2; lia.
Qed.
Lemma calculateCapacity_log2_up x : 0 < x <= 2 ^ 30 -> calculateCapacity x = 2 ^ Z.log2_up x.
Proof.
  intros Hx. unfold calculateCapacity. destruct (Z.leb_spec (2 ^ 30) x) as [|Hlt]; [by replace x with (2 ^ 30) by lia |].
  rewrite (proj2 (Z.eqb_neq x 0)) by lia. destruct (decide (x = 1)) as [-> | Hx1]; [done |].
  cbv zeta. set (y := x - 1). assert (Hy : 0 < y < 2 ^ 30) by lia.
  assert (Hn : forall z s, 0 <= z -> 0 <= Z.lor z (Z.shiftr z s)) by (intros z s ?; apply Z.lor_nonneg; split; [done | by apply Z.shiftr_nonneg]).
  rewrite (smeared_ones y); [| done | repeat apply Hn; lia | exact (smear_step 16 y _ ltac:(lia) (smear_step 8 y _ ltac:(lia) (smear_step 4 y _ ltac:(lia) (smear_step 2 y _ ltac:(lia) (smear_step 1 y _ ltac:(lia) (smear_start y))))))].
  f_equal. unfold Z.log2_up. rewrite (proj2 (Z.compare_lt_iff 1 x)) by lia. unfold y. rewrite <- Z.sub_1_r. lia.
Qed.
Lemma calculateCapacity_pow2 x : 0 <= x -> exists n, 0 <= n <= 30 /\ calculateCapacity x = 2 ^ n /\ Z.min x (2 ^ 30) <= 2 ^ n.
Proof.
  intros Hx. destruct (Z.leb_spec (2 ^ 30) x).
  - exists 30. unfold calculateCapacity. rewrite (proj2 (Z.leb_le _ x)) by lia. lia.
  - destruct (decide (x = 0)) as [-> | ?]; [exists 4; split; [lia | split; [reflexivity | lia]] |]. rewrite calculateCapacity_log2_up by lia. exists (Z.log2_up x).
    pose proof (Z.log2_up_nonneg x). split; [|split; [done |]].
    + split; [lia |]. apply Z.log2_up_le_pow2; lia.
    + pose proof (Z.log2_up_spec x). destruct (decide (x = 1)) as [-> |]; [done | lia].
Qed.

(** ** The table *)
Section Laws.
Context {K V : Type} `{Countable K} (hashFunc : K -> Z) (V0 : V).
Implicit Types (d : list (list (entry K V))) (m : t K V) (e : entry K V) (k : K) (v : V).

Definition entries m : list (entry K V) := concat (elementData m).
Definition pair_of e : K * V := (key e, value e).
Definition contents m : gmap K V := list_to_map (pair_of <$> entries m).

Record table_ok d : Prop := {
  ok_length : exists n, 0 <= n <= 30 /\ zlen d = 2 ^ n;
  ok_place : forall i b e, d !! i = Some b -> e ∈ b -> Z.of_nat i = index_of (origKeyHash e) (zlen d);
  ok_hash : forall e, e ∈ concat d -> origKeyHash e = hashFunc (key e);
  ok_keys : NoDup (key <$> concat d) }.
(** The load factor all maps of the code have. *)
Definition loaded m : Prop := loadFactor m = (3, 4) /\ threshold m = length m * 3 / 4.
Record map_ok m : Prop := { ok_table : table_ok (elementData m); ok_count : elementCount m = zlen (entries m); ok_load : loaded m }.

Lemma index_range h n : 0 <= n -> 0 <= index_of h (2 ^ n) < 2 ^ n.
Proof. intros Hn. unfold index_of. rewrite Z.sub_1_r, <- Z.ones_equiv, Z.land_ones by done. apply Z.mod_pos_bound. lia. Qed.
Lemma table_index d h : table_ok d -> 0 <= index_of h (zlen d) < zlen d.
Proof. intros (n & Hn & ->)%ok_length. apply index_range. lia. Qed.
Lemma bucket_in d i : 0 <= i < zlen d -> exists b, d !! Z.to_nat i = Some b /\ bucket i d = Ok b.
Proof.
  intros Hi. unfold bucket. rewrite (proj2 (Z.ltb_ge i 0)), (proj2 (Z.leb_gt (zlen d) i)) by lia.
  destruct (lookup_lt_is_Some_2 d (Z.to_nat i)) as [b Hb]; [unfold zlen in *; lia |]. exists b. by rewrite Hb.
Qed.
Lemma set_bucket_in d i b : 0 <= i < zlen d -> set_bucket i b d = Ok (<[Z.to_nat i := b]> d).
Proof. intros Hi. unfold set_bucket. by destruct (bucket_in d i Hi) as (b' & _ & ->). Qed.
Lemma concat_insert d i b b' : d !! i = Some b ->
  exists l r, concat d = l ++ b ++ r /\ concat (<[i := b']> d) = l ++ b' ++ r.
Proof.
  intros Hb. exists (concat (take i d)), (concat (drop (S i) d)). rewrite <- (take_drop_middle d i b Hb) at 1.
  rewrite insert_take_drop by (by eapply lookup_lt_Some). by rewrite !concat_app.
Qed.
Lemma elem_of_concat_1 d i b e : d !! i = Some b -> e ∈ b -> e ∈ concat d.
Proof. intros Hb He. apply list_elem_of_In, in_concat. exists b. split; apply list_elem_of_In; [by eapply list_elem_of_lookup_2 | done]. Qed.
Lemma elem_of_concat_2 d e : e ∈ concat d -> exists i b, d !! i = Some b /\ e ∈ b.
Proof. intros (b & Hb%list_elem_of_In & He%list_elem_of_In)%list_elem_of_In%in_concat. apply list_elem_of_lookup in Hb as [i Hi]. by exists i, b. Qed.
Lemma key_inj d e e' : NoDup (key <$> concat d) -> e ∈ concat d -> e' ∈ concat d -> key e = key e' -> e = e'.
Proof.
  intros Hn [i Hi]%list_elem_of_lookup [j Hj]%list_elem_of_lookup Hk. enough (i = j) by congruence.
  apply (NoDup_lookup _ i j (key e) Hn); rewrite list_lookup_fmap; [by rewrite Hi | by rewrite Hj, Hk].
Qed.

(** ** Finding an entry *)
Lemma find_entry_some k h (b : list (entry K V)) e : find_entry k h b = Some e -> e ∈ b /\ key e = k /\ origKeyHash e = h.
Proof.
  induction b as [|x b IH]; cbn; [done |]. case_bool_decide; destruct (Z.eqb_spec (origKeyHash x) h); cbn;
  try (intros (? & ?)%IH; split; [by right | done]). intros [= ->]. split_and!; [by left | done..].
Qed.
Lemma find_entry_none k h (b : list (entry K V)) e : find_entry k h b = None -> e ∈ b -> key e = k -> origKeyHash e <> h.
Proof.
  induction b as [|x b IH]; cbn; [by intros _ ?%elem_of_nil |]. intros Hf [-> | He]%elem_of_cons Hk.
  - intros Hh. rewrite Hh, Z.eqb_refl, bool_decide_eq_true_2 in Hf by done. done.
  - apply IH; [|done..]. revert Hf. by destruct (_ || _).
Qed.
Lemma own_bucket d k e : table_ok d -> e ∈ concat d -> key e = k -> exists b, d !! Z.to_nat (index_of (hashFunc k) (zlen d)) = Some b /\ e ∈ b.
Proof.
  intros Ht He <-. destruct (elem_of_concat_2 d e He) as (i & b & Hi & Hb). exists b. split; [|done].
  pose proof (ok_place d Ht i b e Hi Hb) as Hp. rewrite (ok_hash d Ht e He) in Hp. by rewrite <- Hp, Nat2Z.id.
Qed.
Lemma findKeyEntry_ok m k : table_ok (elementData m) ->
  exists r, findKeyEntry k (index_of (hashFunc k) (length m)) (hashFunc k) m = Ok r /\
    match r with Some e => e ∈ entries m /\ key e = k | None => k ∉ key <$> entries m end.
Proof.
  intros Ht. unfold findKeyEntry, length. destruct (bucket_in _ _ (table_index _ (hashFunc k) Ht)) as (b & Hb & ->). cbn [rbind].
  eexists. split; [done |]. destruct (find_entry _ _ _) as [e|] eqn:E.
  - apply find_entry_some in E as (He & Hk & _). split; [by eapply elem_of_concat_1 | done].
  - intros (e & -> & He)%list_elem_of_fmap. destruct (own_bucket _ (key e) e Ht He) as (b' & Hb' & Hin); [done |].
    simplify_eq. apply (find_entry_none _ _ _ e E); [done | done |]. by apply (ok_hash _ Ht).
Qed.

(** ** Changing the table *)
(** A bucket that gains, keeps or loses entries. *)
Lemma table_insert d i b b' : table_ok d -> d !! i = Some b ->
  (forall e, e ∈ b' -> e ∈ b \/ (Z.of_nat i = index_of (origKeyHash e) (zlen d) /\ origKeyHash e = hashFunc (key e))) ->
  NoDup (key <$> concat (<[i := b']> d)) -> table_ok (<[i := b']> d).
Proof.
  intros Ht Hb Hnew Hn. destruct (concat_insert d i b b' Hb) as (l & r & E & E'). split; [| | |done].
  - unfold zlen. rewrite length_insert. apply Ht.
  - intros j c e Hj He. unfold zlen in *. rewrite length_insert. destruct (decide (i = j)) as [<- | Hij].
    + rewrite list_lookup_insert_eq in Hj by (by eapply lookup_lt_Some). simplify_eq. destruct (Hnew e He) as [He' | [? _]]; [|done]. by eapply (ok_place _ Ht).
    + rewrite list_lookup_insert_ne in Hj by done. by eapply (ok_place _ Ht).
  - intros e. rewrite E', !elem_of_app. intros [He | [He | He]]; [apply (ok_hash _ Ht); rewrite E; set_solver | | apply (ok_hash _ Ht); rewrite E; set_solver].
    destruct (Hnew e He) as [He' | [_ ?]]; [apply (ok_hash _ Ht); rewrite E; set_solver | done].
Qed.

Lemma nodup_perm (l l' : list (entry K V)) : l ≡ₚ l' -> NoDup (key <$> l') -> NoDup (key <$> l).
Proof. by intros ->. Qed.
(** An entry put at the front of its bucket. *)
Lemma push_ok d e : table_ok d -> origKeyHash e = hashFunc (key e) -> key e ∉ key <$> concat d ->
  exists b, bucket (index_of (origKeyHash e) (zlen d)) d = Ok b /\
    let d' := <[Z.to_nat (index_of (origKeyHash e) (zlen d)) := e :: b]> d in
    set_bucket (index_of (origKeyHash e) (zlen d)) (e :: b) d = Ok d' /\ table_ok d' /\ zlen d' = zlen d /\ concat d' ≡ₚ e :: concat d.
Proof.
  intros Ht Hh Hk. pose proof (table_index d (origKeyHash e) Ht) as Hi. destruct (bucket_in d _ Hi) as (b & Hb & E). exists b. split; [done |].
  cbv zeta. rewrite set_bucket_in by done. split; [done |]. destruct (concat_insert d _ b (e :: b) Hb) as (l & r & E1 & E2).
  assert (Hp : concat (<[Z.to_nat (index_of (origKeyHash e) (zlen d)) := e :: b]> d) ≡ₚ e :: concat d) by (rewrite E2, E1; cbn; by rewrite <- Permutation_middle).
  split_and!; [|unfold zlen; by rewrite length_insert | done]. eapply table_insert; [done | done | |].
  - intros x [-> | Hx]%elem_of_cons; [right | by left]. split; [lia | done].
  - eapply nodup_perm; [done |]. cbn. constructor; [done | apply Ht].
Qed.
Lemma empty_table n : 0 <= n <= 30 -> table_ok (replicate (Z.to_nat (2 ^ n)) []) /\ zlen (replicate (Z.to_nat (2 ^ n)) ([] : list (entry K V))) = 2 ^ n /\
  concat (replicate (Z.to_nat (2 ^ n)) ([] : list (entry K V))) = [].
Proof.
  intros Hn. assert (Hc : forall j, concat (replicate j ([] : list (entry K V))) = []) by (induction j; by cbn).
  assert (Hl : zlen (replicate (Z.to_nat (2 ^ n)) ([] : list (entry K V))) = 2 ^ n) by (unfold zlen; rewrite length_replicate; lia).
  split_and!; [split | done | apply Hc].
  - by exists n.
  - intros i b e [-> _]%lookup_replicate He. by apply elem_of_nil in He.
  - intros e. rewrite Hc. by intros ?%elem_of_nil.
  - rewrite Hc. constructor.
Qed.
Lemma rehash_each_ok (es : list (entry K V)) : forall d, table_ok d -> (forall e, e ∈ es -> origKeyHash e = hashFunc (key e)) -> NoDup (key <$> es ++ concat d) ->
  exists d', rehash_each (zlen d) es d = Ok d' /\ table_ok d' /\ concat d' ≡ₚ es ++ concat d.
Proof.
  induction es as [|e es IH]; intros d Ht Hh Hn; cbn; [by exists d |]. cbn in Hn. pose proof (NoDup_cons_1_1 _ _ Hn) as Hk; apply NoDup_cons_1_2 in Hn.
  destruct (push_ok d e Ht) as (b & -> & E & Ht' & Hl & Hp); [apply Hh; by left | intros ?; apply Hk; rewrite fmap_app; apply elem_of_app; by right |]. cbn [rbind]. rewrite E. cbn [rbind].
  destruct (IH _ Ht') as (d' & E' & Hd' & Hp').
  - intros x Hx. apply Hh. by right.
  - eapply nodup_perm; [by rewrite Hp, <- Permutation_middle |]. cbn. by constructor.
  - rewrite Hl in E'. exists d'. split_and!; [done..|]. by rewrite Hp', Hp, Permutation_middle.
Qed.
Lemma rehash_to_ok m c : table_ok (elementData m) -> 0 <= c < 2 ^ 30 ->
  exists m', rehash_to c m = Ok m' /\ table_ok (elementData m') /\ entries m' ≡ₚ entries m /\ elementCount m' = elementCount m /\ modCount m' = modCount m /\ (loaded m -> loaded m').
Proof.
  intros Ht Hc. unfold rehash_to. rewrite (proj2 (Z.leb_gt (2 ^ 30) c)) by lia.
  destruct (calculateCapacity_pow2 (if c =? 0 then 1 else Z.shiftl c 1)) as (n & Hn & -> & _); [destruct (c =? 0); [lia | rewrite Z.shiftl_mul_pow2; lia] |].
  destruct (empty_table n Hn) as (He & Hl & Hemp).
  destruct (rehash_each_ok (concat (elementData m)) _ He) as (d & E & Hd & Hp); [apply Ht | rewrite Hemp, app_nil_r; apply Ht |].
  rewrite Hl in E. rewrite E. cbn [rbind]. eexists. split; [done |]. unfold entries. cbn. split_and!; [done | by rewrite Hp, Hemp, app_nil_r | done | done |]. intros [Hlf _]. unfold loaded. cbn. by rewrite Hlf.
Qed.
(** ** The contents *)
Lemma contents_perm m m' : NoDup (key <$> entries m) -> entries m' ≡ₚ entries m -> contents m' = contents m.
Proof.
  intros Hn Hp. unfold contents. symmetry. apply list_to_map_proper; [|by rewrite Hp]. by rewrite <- list_fmap_compose.
Qed.
Lemma lookup_contents m k v : NoDup (key <$> entries m) -> contents m !! k = Some v <-> exists e, e ∈ entries m /\ key e = k /\ value e = v.
Proof.
  intros Hn. unfold contents. rewrite <- elem_of_list_to_map by (by rewrite <- list_fmap_compose). rewrite list_elem_of_fmap. unfold pair_of. split.
  - intros (e & [= -> ->] & He). by exists e.
  - intros (e & He & <- & <-). by exists e.
Qed.
Lemma lookup_contents_none m k : contents m !! k = None <-> k ∉ key <$> entries m.
Proof. unfold contents. rewrite <- not_elem_of_list_to_map, <- list_fmap_compose. done. Qed.
Lemma contents_entry m e : NoDup (key <$> entries m) -> e ∈ entries m -> contents m !! key e = Some (value e).
Proof. intros Hn He. apply lookup_contents; [done |]. by exists e. Qed.
Definition updated k v e : entry K V := if bool_decide (key e = k) then Entry (key e) v (origKeyHash e) else e.
Lemma updated_key k v e : key (updated k v e) = key e.
Proof. unfold updated. by case_bool_decide. Qed.
Lemma updated_hash k v e : origKeyHash (updated k v e) = origKeyHash e.
Proof. unfold updated. by case_bool_decide. Qed.
Lemma updated_keys k v (l : list (entry K V)) : key <$> (updated k v <$> l) = key <$> l.
Proof. rewrite <- list_fmap_compose. apply list_fmap_ext. intros i e _. apply updated_key. Qed.
Lemma setValue_ok m k v : table_ok (elementData m) -> k ∈ key <$> entries m ->
  table_ok (elementData (setValue k v m)) /\ entries (setValue k v m) = updated k v <$> entries m /\ contents (setValue k v m) = <[k := v]> (contents m).
Proof.
  intros Ht Hk. assert (E : entries (setValue k v m) = updated k v <$> entries m) by (unfold entries, setValue; cbn; by rewrite concat_map).
  assert (Hn : NoDup (key <$> entries (setValue k v m))) by (rewrite E, updated_keys; apply Ht). split_and!; [| done |].
  - split; cbn; [| | |exact Hn].
    + unfold zlen. rewrite length_map. apply Ht.
    + intros i b e Hi He. unfold zlen. rewrite length_map. apply list_lookup_fmap_Some in Hi as (b0 & -> & Hi). apply list_elem_of_fmap in He as (e0 & -> & He).
      change (if bool_decide (key e0 = k) then _ else _) with (updated k v e0). rewrite updated_hash. by eapply (ok_place _ Ht).
    + intros e He. fold (updated k v) in He. change (e ∈ entries (setValue k v m)) in He. rewrite E in He. apply list_elem_of_fmap in He as (e0 & -> & He). rewrite updated_key, updated_hash. by apply (ok_hash _ Ht).
  - apply map_eq. intros k'. apply option_eq. intros w. rewrite lookup_contents, E by done. rewrite lookup_insert_Some, lookup_contents by apply Ht. split.
    + intros (e & (e0 & -> & He)%list_elem_of_fmap & Hk' & Hw). unfold updated in *. case_bool_decide; cbn in *; [left; by simplify_eq | right]. split; [congruence |]. by exists e0.
    + intros [[<- <-] | [Hne (e & He & <- & <-)]].
      * apply list_elem_of_fmap in Hk as (e & -> & He). exists (updated (key e) v e). split_and!; [by apply list_elem_of_fmap_2 | apply updated_key |]. unfold updated. by rewrite bool_decide_eq_true_2.
      * exists e. split_and!; [|done..]. apply list_elem_of_fmap. exists e. split; [|done]. unfold updated. by rewrite bool_decide_eq_false_2.
Qed.

(** ** Operations *)
Lemma getEntry_ok m k : table_ok (elementData m) ->
  exists r, getEntry hashFunc k m = Ok r /\ value <$> r = contents m !! k /\ (forall e, r = Some e -> e ∈ entries m /\ key e = k).
Proof.
  intros Ht. unfold getEntry. destruct (findKeyEntry_ok m k Ht) as (r & -> & Hr). exists r. split; [done |]. destruct r as [e|].
  - destruct Hr as [He <-]. split; [symmetry; by apply contents_entry; [apply Ht |] | by intros ? [= <-]].
  - split; [symmetry; by apply lookup_contents_none | done].
Qed.
Lemma containsKey_ok m k : table_ok (elementData m) -> containsKey hashFunc k m = Ok (bool_decide (is_Some (contents m !! k))).
Proof.
  intros Ht. unfold containsKey. destruct (getEntry_ok m k Ht) as (r & -> & <- & _). cbn. f_equal. symmetry. destruct r; [by apply bool_decide_eq_true_2 | apply bool_decide_eq_false_2; by intros [? [=]]].
Qed.
Lemma map_get_ok m k : table_ok (elementData m) ->
  get hashFunc k m = match contents m !! k with Some v => Ok v | None => throw NoSuchElementException end.
Proof. intros Ht. unfold get. destruct (getEntry_ok m k Ht) as (r & -> & <- & _). by destruct r. Qed.
Lemma containsValue_ok `{!EqDecision V} m v : NoDup (key <$> entries m) -> containsValue v m = bool_decide (v ∈ (map_to_list (contents m)).*2).
Proof.
  intros Hn. unfold containsValue. apply eq_true_iff_eq. rewrite existsb_exists, bool_decide_eq_true. split.
  - intros (b & Hb%list_elem_of_In & (e & He%list_elem_of_In & ->%bool_decide_eq_true)%existsb_exists). apply list_elem_of_lookup in Hb as [i Hi].
    apply list_elem_of_fmap. exists (key e, value e). split; [done |]. apply elem_of_map_to_list, contents_entry; [done |]. by eapply elem_of_concat_1.
  - intros ([k w] & -> & Hw%elem_of_map_to_list)%list_elem_of_fmap. apply lookup_contents in Hw as (e & (i & b & Hi & Hb)%elem_of_concat_2 & _ & <-); [|done]. exists b. split; [apply list_elem_of_In; by eapply list_elem_of_lookup_2 |].
    apply existsb_exists. exists e. split; [by apply list_elem_of_In | by apply bool_decide_eq_true_2].
Qed.

Lemma zlen_perm {A} (l l' : list A) : l ≡ₚ l' -> zlen l = zlen l'.
Proof. intros Hp. unfold zlen. by rewrite (Permutation_length Hp). Qed.
(** The value of an entry that was just made. *)
Lemma fill_ok m m2 k v : table_ok (elementData m) -> elementCount m = zlen (entries m) -> k ∉ key <$> entries m ->
  table_ok (elementData m2) -> entries m2 ≡ₚ Entry k V0 (hashFunc k) :: entries m -> elementCount m2 = elementCount m + 1 -> loaded m2 ->
  map_ok (setValue k v m2) /\ contents (setValue k v m2) = <[k := v]> (contents m) /\ entries (setValue k v m2) ≡ₚ Entry k v (hashFunc k) :: entries m.
Proof.
  intros Ht Hc Hr Ht2 Hp2 Hc2 Hld2. destruct (setValue_ok m2 k v Ht2) as (Ht3 & E3 & Hv3); [rewrite Hp2; by left |].
  assert (Hp3 : entries (setValue k v m2) ≡ₚ Entry k v (hashFunc k) :: entries m).
  { rewrite E3, Hp2. cbn. unfold updated at 1. rewrite bool_decide_eq_true_2 by done. cbn. apply Permutation_skip. enough (updated k v <$> entries m = entries m) as -> by done. rewrite <- (list_fmap_id (entries m)) at 2.
    apply list_fmap_ext. intros i e He. unfold updated. rewrite bool_decide_eq_false_2; [done |]. intros <-. apply Hr. apply list_elem_of_fmap_2. by eapply list_elem_of_lookup_2. }
  split_and!; [split; [done | |] | | done].
  - change (elementCount m2 = zlen (entries (setValue k v m2))). rewrite Hc2, Hc, (zlen_perm _ _ Hp3). unfold zlen. cbn. lia.
  - unfold loaded, length, zlen in *. cbn. by rewrite length_map.
  - rewrite Hv3. assert (Hn2 : NoDup (key <$> entries m2)) by apply Ht2. apply map_eq. intros k'. destruct (decide (k = k')) as [<- |]; [by rewrite !lookup_insert_eq |].
    rewrite !lookup_insert_ne by done. apply option_eq. intros w. rewrite !lookup_contents by (done || apply Ht).
    split; intros (e & He & Hk' & Hw); exists e; (split; [|done]); [| rewrite Hp2; by right]. rewrite Hp2 in He. apply elem_of_cons in He as [-> | He]; [by cbn in Hk' | done].
Qed.
Lemma putImpl_ok m k v : map_ok m -> elementCount m < 2 ^ 29 ->
  exists m', putImpl hashFunc V0 k v m = Ok (bool_decide (is_Some (contents m !! k)), contents m !! k, m') /\ map_ok m' /\ contents m' = <[k := v]> (contents m) /\
    (contents m !! k = None -> modCount m' = to_s32 (modCount m + 1) /\ entries m' ≡ₚ Entry k v (hashFunc k) :: entries m).
Proof.
  intros [Ht Hc Hld] Hlen. unfold putImpl. destruct (findKeyEntry_ok m k Ht) as (r & -> & Hr). cbn [rbind]. destruct r as [e|].
  - destruct Hr as [He <-]. rewrite (contents_entry m e) by (done || apply Ht). destruct (setValue_ok m (key e) v Ht) as (Ht' & E & Hv); [by apply list_elem_of_fmap_2 |].
    eexists. split; [rewrite bool_decide_eq_true_2 by done; reflexivity |]. split_and!; [split; [done | |] | done | done].
    + rewrite E. cbn. unfold zlen. by rewrite length_fmap.
    + unfold loaded, length, zlen. cbn. by rewrite length_map.
  - rewrite (proj2 (lookup_contents_none m k) Hr). rewrite bool_decide_eq_false_2 by (by intros [? [=]]).
    unfold createHashedEntry. cbn [elementData touch]. destruct (push_ok (elementData m) (Entry k V0 (hashFunc k)) Ht) as (b & Eb & Es & Ht1 & Hl1 & Hp1); [done | done |].
    cbn [origKeyHash] in Eb, Es, Ht1, Hl1, Hp1. unfold length. rewrite Eb. cbn [rbind]. rewrite Es. cbn [rbind]. set (m1 := with_count _ _).
    assert (Hm1 : table_ok (elementData m1) /\ entries m1 ≡ₚ Entry k V0 (hashFunc k) :: entries m /\ elementCount m1 = elementCount m + 1 /\ modCount m1 = to_s32 (modCount m + 1) /\ loaded m1).
    { split_and!; [done.. |]. unfold loaded, length in *. cbn [m1 elementData loadFactor threshold with_count with_data touch]. by rewrite Hl1. }
    assert (Hl : length m1 = length m) by done. clearbody m1. clear Ht1 Hl1 Hp1 Es Eb b.
    assert (exists m2, (if threshold m1 <? elementCount m1 then rehash m1 else Ok m1) = Ok m2 /\ table_ok (elementData m2) /\ entries m2 ≡ₚ entries m1 /\ elementCount m2 = elementCount m1 /\ modCount m2 = modCount m1 /\ loaded m2)
      as (m2 & -> & Ht2 & Hp2 & Hc2 & Hmc2 & Hld2).
    { destruct Hm1 as (Ht1 & _ & Hc1 & _ & Hld1). destruct (Z.ltb_spec (threshold m1) (elementCount m1)) as [Hlt | _]; [|by exists m1]. destruct (rehash_to_ok m1 (length m1) Ht1) as (m2 & ? & ? & ? & ? & ? & ?).
      - split; [unfold length, zlen; lia |]. rewrite (proj2 Hld1) in Hlt. Z.div_mod_to_equations. lia.
      - exists m2. auto 10. }
    cbn [rbind]. destruct Hm1 as (_ & Hp1 & Hc1 & Hmc1 & _). rewrite Hp1 in Hp2. rewrite Hc1 in Hc2. rewrite Hmc1 in Hmc2. eexists. split; [reflexivity |].
    destruct (fill_ok m m2 k v Ht Hc Hr Ht2 Hp2 Hc2 Hld2) as (? & ? & ?). by split_and!.
Qed.
Lemma unchain_some k h (b : list (entry K V)) e b' : unchain k h b = Some (e, b') -> key e = k /\ exists l r, b = l ++ e :: r /\ b' = l ++ r.
Proof.
  revert b'. induction b as [|x b IH]; intros b'; cbn; [done |]. case_bool_decide; destruct (Z.eqb_spec (origKeyHash x) h); cbn.
  1: { intros [= -> ->]. split; [done |]. by exists [], b'. }
  all: destruct (unchain k h b) as [[y c]|]; cbn; intros [= -> <-]; destruct (IH c eq_refl) as (? & l & r & -> & ->); split; [done |]; by exists (x :: l), r.
Qed.
Lemma unchain_none k h (b : list (entry K V)) e : unchain k h b = None -> e ∈ b -> key e = k -> origKeyHash e <> h.
Proof.
  induction b as [|x b IH]; cbn; [by intros _ ?%elem_of_nil |]. intros Hu He Hk Hh. apply elem_of_cons in He as [-> | He].
  - by rewrite Hh, Z.eqb_refl, bool_decide_eq_true_2 in Hu.
  - eapply IH; [|done..]. revert Hu. destruct (_ && _); [done |]. by destruct (unchain k h b) as [[]|].
Qed.
(** The map without one entry of a bucket. *)
Definition without i (b : list (entry K V)) m : t K V := with_count (elementCount m - 1) (touch (with_data (<[i := b]> (elementData m)) m)).
Lemma without_ok m i l e r : map_ok m -> elementData m !! i = Some (l ++ e :: r) ->
  let m' := without i (l ++ r) m in map_ok m' /\ entries m ≡ₚ e :: entries m' /\ contents m' = delete (key e) (contents m).
Proof.
  intros [Ht Hc Hld] Hb m'. assert (Hp : entries m ≡ₚ e :: entries m').
  { unfold entries, m'. cbn. destruct (concat_insert _ _ _ (l ++ r) Hb) as (l1 & r1 & -> & ->). rewrite <- !app_assoc. cbn. by rewrite !Permutation_middle. }
  pose proof (ok_keys _ Ht) as Hn. fold (entries m) in Hn. pose proof Hn as Hn'. rewrite Hp in Hn'. apply NoDup_cons_1_1 in Hn' as Hnk. apply NoDup_cons_1_2 in Hn'.
  assert (Ht' : table_ok (elementData m')) by (eapply table_insert; [done | done | intros x Hx; left; revert Hx; rewrite !elem_of_app, elem_of_cons; tauto | exact Hn']).
  split_and!; [split; [done | |] | done |].
  - cbn [m' without with_count elementCount touch with_data]. rewrite Hc, (zlen_perm _ _ Hp). unfold zlen. cbn. lia.
  - unfold loaded, length, zlen in *. cbn. by rewrite length_insert.
  - apply map_eq. intros k'. apply option_eq. intros w. rewrite lookup_delete_Some, !lookup_contents by (done || apply Ht'). split.
    + intros (x & Hx & Hkx & Hw). split; [intros E; apply Hnk; rewrite E, <- Hkx; by apply list_elem_of_fmap_2 |]. exists x. split; [rewrite Hp; by right | done].
    + intros [Hne (x & Hx & Hkx & Hw)]. rewrite Hp in Hx. apply elem_of_cons in Hx as [-> | Hx]; [congruence |]. by exists x.
Qed.
Lemma removeEntry_ok m k : map_ok m ->
  exists r m', removeEntry hashFunc k m = Ok (r, m') /\ value <$> r = contents m !! k /\ map_ok m' /\ contents m' = delete k (contents m) /\
    match r with Some e => key e = k /\ entries m ≡ₚ e :: entries m' /\ modCount m' = to_s32 (modCount m + 1) | None => m' = m end.
Proof.
  intros Hm. pose proof (ok_table m Hm) as Ht. unfold removeEntry. destruct (bucket_in _ _ (table_index _ (hashFunc k) Ht)) as (b & Hb & E).
  unfold length. rewrite E. cbn [rbind]. destruct (unchain k (hashFunc k) b) as [[e b']|] eqn:Eu.
  - apply unchain_some in Eu as (<- & l & r & -> & ->). rewrite set_bucket_in by (by apply table_index). cbn [rbind].
    destruct (without_ok m _ l e r Hm Hb) as (Hm' & Hp & Hd). eexists (Some e), _. split; [reflexivity |]. split_and!; [| done | done | done | done | done].
    cbn. symmetry. apply contents_entry; [apply Ht |]. rewrite Hp. by left.
  - assert (Hnone : k ∉ key <$> entries m).
    { intros (e & -> & He)%list_elem_of_fmap. destruct (own_bucket _ (key e) e Ht He) as (b' & Hb' & Hin); [done |]. simplify_eq.
      apply (unchain_none _ _ _ e Eu); [done | done |]. by apply (ok_hash _ Ht). }
    apply lookup_contents_none in Hnone. exists None, m. by split_and!; [| | | rewrite delete_id | ].
Qed.

Lemma new_table c : 0 <= c -> let d := replicate (Z.to_nat (calculateCapacity c)) [] in table_ok d /\ concat d = [].
Proof. intros Hc. destruct (calculateCapacity_pow2 c Hc) as (n & Hn & -> & _). cbv zeta. destruct (empty_table n Hn) as (? & ? & ?). by split. Qed.
Lemma init_map_ok c : 0 <= c -> exists m, init (K:=K) (V:=V) c = Ok m /\ map_ok m /\ contents m = ∅.
Proof.
  intros Hc. unfold init. rewrite (proj2 (Z.leb_le 0 c)) by lia. eexists. split; [done |]. destruct (new_table c Hc) as [Ht E].
  split; [split; [done | |] |]; unfold contents, entries, loaded; cbn; by rewrite ?E.
Qed.
Lemma concat_nils d : concat (map (fun _ => ([] : list (entry K V))) d) = [].
Proof. induction d; by cbn. Qed.
Lemma clear_map_ok m : map_ok m -> map_ok (clear m) /\ contents (clear m) = ∅.
Proof.
  intros [Ht Hc Hld]. unfold clear. destruct (Z.ltb_spec 0 (elementCount m)) as [_ | H0].
  - pose proof (concat_nils (elementData m)) as E.
    split; [split; [split; cbn | |] |]; unfold contents, entries, loaded, length, zlen in *; cbn; rewrite ?E, ?length_map; try done.
    + apply Ht.
    + intros i b e. rewrite list_lookup_fmap. destruct (elementData m !! i); [intros [= <-] ?%elem_of_nil; done | done].
    + by intros e ?%elem_of_nil.
    + constructor.
  - split; [done |]. unfold contents. destruct (entries m) eqn:E; [done |]. rewrite Hc in H0. unfold zlen in H0. cbn in H0. lia.
Qed.
Lemma size_ok m : map_ok m -> size m = Z.of_nat (base.size (contents m)).
Proof.
  intros [Ht Hc _]. unfold size. rewrite Hc. unfold zlen. f_equal. rewrite <- (length_map_to_list (contents m)). unfold contents. rewrite map_to_list_to_map.
  - by rewrite length_fmap.
  - rewrite <- list_fmap_compose. apply Ht.
Qed.
Lemma put_size m m' k v : map_ok m -> map_ok m' -> contents m' = <[k := v]> (contents m) -> elementCount m' <= elementCount m + 1.
Proof.
  intros H1 H2 E. pose proof (size_ok m H1) as S1. pose proof (size_ok m' H2) as S2. unfold size in *. rewrite S1, S2, E.
  destruct (contents m !! k) eqn:Ek; [rewrite map_size_insert_Some by (by rewrite Ek); lia | rewrite map_size_insert_None by done; lia].
Qed.
Lemma put_each_ok (es : list (K * V)) : forall m, map_ok m -> elementCount m + zlen es < 2 ^ 29 -> NoDup es.*1 ->
  exists m', put_each hashFunc V0 es m = Ok m' /\ map_ok m' /\ contents m' = list_to_map es ∪ contents m.
Proof.
  induction es as [|[k v] es IH]; intros m Hm Hs Hn; cbn [put_each]; [exists m; split_and!; [done.. | cbn; by rewrite map_empty_union] |].
  unfold zlen in Hs. cbn [Datatypes.length] in Hs. destruct (putImpl_ok m k v Hm) as (m' & -> & Hm' & Hc & _); [lia |]. cbn [rbind snd].
  pose proof (put_size m m' k v Hm Hm' Hc). destruct (IH m' Hm') as (m'' & E & Hm'' & Hc''); [unfold zlen; lia | by apply NoDup_cons_1_2 in Hn |].
  exists m''. split_and!; [done..|]. rewrite Hc'', Hc. cbn. rewrite <- insert_union_r by (apply not_elem_of_list_to_map; by apply NoDup_cons_1_1 in Hn). by rewrite insert_union_l.
Qed.
Lemma putAll_ok (es : list (K * V)) m : map_ok m -> elementCount m + zlen es < 2 ^ 29 -> NoDup es.*1 ->
  exists m', putAll hashFunc V0 es m = Ok m' /\ map_ok m' /\ contents m' = list_to_map es ∪ contents m.
Proof.
  intros Hm Hs Hn. unfold putAll. destruct es as [|x es]; [exists m; split_and!; [done.. | cbn; by rewrite map_empty_union] |]. unfold putAllImpl. revert Hs Hn. generalize (x :: es). intros l Hs Hn.
  assert (exists m1, (if threshold m <? elementCount m + zlen l then rehash_to (elementCount m + zlen l) m else Ok m) = Ok m1 /\ map_ok m1 /\ contents m1 = contents m /\ elementCount m1 = elementCount m)
    as (m1 & -> & Hm1 & Hc1 & Hs1).
  { destruct (_ <? _); [|by exists m]. destruct Hm as [Ht Hc Hld]. destruct (rehash_to_ok m (elementCount m + zlen l) Ht) as (m1 & -> & Ht1 & Hp & Hc1 & _ & Hl1); [rewrite Hc in *; unfold zlen in *; lia |].
    exists m1. split_and!; [done | split; [done | by rewrite Hc1, Hc, (zlen_perm _ _ Hp) | auto] | apply contents_perm; [apply Ht | done] | done]. }
  cbn [rbind]. rewrite <- Hc1. apply put_each_ok; [done | by rewrite Hs1 | done].
Qed.
Lemma equals_each_ok `{!EqDecision V} (es : list (entry K V)) m : table_ok (elementData m) ->
  equals_each hashFunc es m = Ok (bool_decide (Forall (fun e => contents m !! key e = Some (value e)) es)).
Proof.
  intros Ht. induction es as [|e es IH]; cbn [equals_each]; [by rewrite bool_decide_eq_true_2 |]. rewrite containsKey_ok, map_get_ok by done. cbn [rbind].
  destruct (contents m !! key e) as [v|] eqn:E.
  - rewrite bool_decide_eq_true_2 by done. cbn [negb rbind]. destruct (decide (v = value e)) as [Hv | Hv].
    + rewrite (bool_decide_eq_true_2 (v = value e)) by done. cbn [negb]. rewrite IH. f_equal. apply bool_decide_ext. rewrite Forall_cons_iff, E, Hv. split; [by split | by intros [_ ?]].
    + rewrite (bool_decide_eq_false_2 (v = value e)) by done. cbn [negb]. rewrite bool_decide_eq_false_2; [done |]. rewrite Forall_cons_iff, E. by intros [[=] _].
  - rewrite bool_decide_eq_false_2 by (by intros [? [=]]). cbn. rewrite bool_decide_eq_false_2; [done |]. rewrite Forall_cons_iff, E. by intros [[=] _].
Qed.
Lemma equals_ok `{!EqDecision V} m m' : map_ok m -> map_ok m' -> equals hashFunc m' m = Ok (bool_decide (contents m = contents m')).
Proof.
  intros H1 H2. unfold equals. rewrite !size_ok by done. destruct (Z.eqb_spec (Z.of_nat (base.size (contents m))) (Z.of_nat (base.size (contents m')))) as [Hs | Hs]; cbn.
  - rewrite equals_each_ok by apply H2. f_equal. apply bool_decide_ext. split; [|intros <-; apply Forall_forall; intros e He; apply contents_entry; [apply H1 | by apply list_elem_of_In]].
    intros Hall. assert (Hsub : contents m ⊆ contents m').
    { apply map_subseteq_spec. intros k v (e & He & <- & <-)%lookup_contents; [|apply H1]. rewrite Forall_forall in Hall. by apply Hall, list_elem_of_In. }
    apply (map_subseteq_size_eq _ _ Hsub). lia.
  - rewrite bool_decide_eq_false_2; [done |]. intros E. by rewrite E in Hs.
Qed.

(** ** Calls, and what they do to a finite map *)
Context `{!EqDecision V}.
Inductive op := Put (k : K) (v : V) | PutAll (es : list (K * V)) | Remove (k : K) | Clear | Copy (es : list (K * V))
              | Get (k : K) | ContainsKey (k : K) | ContainsValue (v : V) | Size | IsEmpty.
Inductive answer := Unit | Flag (b : bool) | Number (n : Z) | Value (v : V) | Old (replaced : bool) (v : option V) | Thrown (f : failure).
Definition answered {A} (r : result A) (k : A -> answer * t K V) (m : t K V) : answer * t K V := match r with Ok a => k a | Err f => (Thrown f, m) end.
Definition call (o : op) m : answer * t K V :=
  match o with
  | Put k v => answered (put hashFunc V0 k v m) (fun r => (Old (fst (fst r)) (snd (fst r)), snd r)) m
  | PutAll es => answered (putAll hashFunc V0 es m) (fun m' => (Unit, m')) m
  | Remove k => answered (remove hashFunc k m) (fun r => (Value (fst r), snd r)) m
  | Clear => (Unit, clear m)
  | Copy es => answered (copy hashFunc V0 es m) (fun m' => (Unit, m')) m
  | Get k => answered (get hashFunc k m) (fun v => (Value v, m)) m
  | ContainsKey k => answered (containsKey hashFunc k m) (fun b => (Flag b, m)) m
  | ContainsValue v => (Flag (containsValue v m), m)
  | Size => (Number (size m), m)
  | IsEmpty => (Flag (isEmpty m), m)
  end.
Definition abstract_call (o : op) (c : gmap K V) : answer * gmap K V :=
  match o with
  | Put k v => (Old (bool_decide (is_Some (c !! k))) (c !! k), <[k := v]> c)
  | PutAll es => (Unit, list_to_map es ∪ c)
  | Remove k => match c !! k with Some v => (Value v, delete k c) | None => (Thrown (Throw NoSuchElementException), c) end
  | Clear => (Unit, ∅)
  | Copy es => (Unit, list_to_map es)
  | Get k => (match c !! k with Some v => Value v | None => Thrown (Throw NoSuchElementException) end, c)
  | ContainsKey k => (Flag (bool_decide (is_Some (c !! k))), c)
  | ContainsValue v => (Flag (bool_decide (v ∈ (map_to_list c).*2)), c)
  | Size => (Number (Z.of_nat (base.size c)), c)
  | IsEmpty => (Flag (bool_decide (c = ∅)), c)
  end.
Fixpoint run {S} (f : op -> S -> answer * S) (os : list op) (s : S) : list answer * S :=
  match os with
  | [] => ([], s)
  | o :: os => let r := f o s in let rs := run f os (snd r) in (fst r :: fst rs, snd rs)
  end.
(** The entries a call can add, and that the keys of another map are distinct. *)
Definition growth (o : op) : Z := match o with Put _ _ => 1 | PutAll es | Copy es => zlen es | _ => 0 end.
Definition op_ok (o : op) : Prop := match o with PutAll es | Copy es => NoDup es.*1 | _ => True end.

Lemma union_size (es : list (K * V)) (c : gmap K V) : (base.size (list_to_map es ∪ c) <= Datatypes.length es + base.size c)%nat.
Proof.
  induction es as [|[k v] es IH]; cbn; [by rewrite map_empty_union |]. rewrite <- insert_union_l.
  destruct ((list_to_map es ∪ c) !! k) eqn:E; [rewrite map_size_insert_Some by (by rewrite E) | rewrite map_size_insert_None by done]; lia.
Qed.
(** The emptied table, with room for a number of entries. *)
Definition emptied (n : Z) m : t K V :=
  let m := clear m in computeThreshold (if length m <? calculateCapacity n then with_data (replicate (Z.to_nat (calculateCapacity n)) []) m else m).
Lemma emptied_ok n m : map_ok m -> 0 <= n -> map_ok (emptied n m) /\ contents (emptied n m) = ∅ /\ elementCount (emptied n m) = 0.
Proof.
  intros Hm Hn. destruct (clear_map_ok m Hm) as [Hm' E]. pose proof (size_ok (clear m) Hm') as Hlen. unfold size in Hlen. rewrite E, map_size_empty in Hlen. destruct Hm' as [Ht Hc [Hlf _]].
  destruct (new_table n Hn) as [Ht' E']. unfold emptied, length.
  destruct (zlen (elementData (clear m)) <? _); (split; [split |]); unfold contents, entries, loaded, length in *; cbn in *; rewrite ?E', ?Hlf; try done; by rewrite Hlen.
Qed.
Lemma copy_ok es m : map_ok m -> zlen es < 2 ^ 29 -> NoDup es.*1 ->
  exists m', copy hashFunc V0 es m = Ok m' /\ map_ok m' /\ contents m' = list_to_map es.
Proof.
  intros Hm Hs Hn. unfold copy. change (computeThreshold _) with (emptied (zlen es) m). destruct (emptied_ok (zlen es) m Hm) as (Hm1 & E1 & H0); [unfold zlen; lia |].
  destruct (putAll_ok es _ Hm1) as (m2 & -> & Hm2 & E2); [lia | done |]. exists m2. split_and!; [done..|]. by rewrite E2, E1, map_union_empty.
Qed.
Lemma call_refines o m : map_ok m -> elementCount m + growth o < 2 ^ 29 -> op_ok o ->
  map_ok (snd (call o m)) /\ abstract_call o (contents m) = (fst (call o m), contents (snd (call o m))) /\ elementCount (snd (call o m)) <= elementCount m + growth o.
Proof.
  intros Hm Hs Ho. pose proof (size_ok m Hm) as Hsz. pose proof (ok_table m Hm) as Ht. assert (0 <= elementCount m) by (unfold size in Hsz; lia).
  destruct o as [k v|es|k| |es|k|k|v| |]; cbn [call abstract_call growth] in *; unfold answered.
  - unfold put. destruct (putImpl_ok m k v Hm) as (m' & -> & Hm' & E & _); [lia |]. cbn. rewrite E. split_and!; [done.. | by eapply put_size].
  - destruct (putAll_ok es m Hm Hs Ho) as (m' & -> & Hm' & E). cbn. split_and!; [done | by rewrite E |]. pose proof (size_ok m' Hm') as Hsz'. unfold size in *. rewrite Hsz, Hsz', E.
    pose proof (union_size es (contents m)). unfold zlen. lia.
  - unfold remove. destruct (removeEntry_ok m k Hm) as (r & m' & -> & <- & Hm' & E & Hr). cbn. destruct r as [e|]; cbn; [|by subst; split_and!; [| |lia]].
    split_and!; [done | by rewrite E |]. destruct Hr as (_ & Hp & _). rewrite (ok_count m' Hm'), (ok_count m Hm), (zlen_perm _ _ Hp). unfold zlen. cbn. lia.
  - destruct (clear_map_ok m Hm) as [Hm' E]. cbn. split_and!; [done | by rewrite E |]. pose proof (size_ok _ Hm') as Hsz'. unfold size in *. rewrite Hsz', E, map_size_empty. lia.
  - destruct (copy_ok es m Hm) as (m' & -> & Hm' & E); [lia | done |]. cbn. split_and!; [done | by rewrite E |]. pose proof (size_ok _ Hm') as Hsz'. unfold size in *. rewrite Hsz', E, map_size_list_to_map by done. unfold zlen. lia.
  - rewrite map_get_ok by done. destruct (contents m !! k); cbn; split_and!; done || lia.
  - rewrite containsKey_ok by done. cbn. split_and!; done || lia.
  - cbn. rewrite containsValue_ok by apply Ht. split_and!; done || lia.
  - cbn. rewrite Hsz. split_and!; done || lia.
  - cbn. unfold isEmpty. split_and!; [done | | lia]. do 2 f_equal. unfold size in Hsz. rewrite Hsz. apply eq_true_iff_eq. rewrite bool_decide_eq_true, Z.eqb_eq, <- map_size_empty_iff. lia.
Qed.

(** C36. Any sequence of put, putAll, remove, clear, copy, get, containsKey, containsValue,
    size and isEmpty calls on a well formed HashMap gives the answers and exceptions the
    same calls on a finite map give, leaves a map with the same contents and keeps the
    invariant of the table (a power of two of buckets, every entry in the bucket of its
    hash code, keys distinct, the count right), whatever the hash function; the bound is
    the size at which the capacity is an int. *)
Theorem hashmap_refines os m : map_ok m -> elementCount m + foldr (fun o n => growth o + n) 0 os < 2 ^ 29 -> Forall op_ok os ->
  map_ok (snd (run call os m)) /\ run abstract_call os (contents m) = (fst (run call os m), contents (snd (run call os m))).
Proof.
  revert m. induction os as [|o os IH]; intros m Hm Hs Ho; cbn; [done |]. cbn in Hs. apply Forall_cons_iff in Ho as [Ho Hos].
  assert (0 <= foldr (fun o n => growth o + n) 0 os) by (clear; induction os as [|[]]; cbn; unfold zlen; lia).
  destruct (call_refines o m Hm) as (Hm' & E & Hs'); [lia | done |]. rewrite E. cbn [fst snd].
  destruct (IH _ Hm') as [Hm'' ->]; [lia | done |]. done.
Qed.
End Laws.
Lemma fst_eq {A B} (x : A * B) a b : x = (a, b) -> fst x = a.
Proof. by intros ->. Qed.
Lemma small_map_ok : map_ok HashCode.int (make (K:=Z) (V:=Z) 16 (3, 4)) /\ contents (make (K:=Z) (V:=Z) 16 (3, 4)) = ∅.
Proof.
  destruct (init_map_ok HashCode.int (K:=Z) (V:=Z) 16) as (m & E & Hm & Hc); [lia |]. unfold init in E. cbn [Z.leb Z.compare] in E.
  replace (calculateCapacity 16) with 16 in E by done. by injection E as <-.
Qed.
(** Three entries, two of them in one bucket. *)
Definition sample : t Z Z := Eval vm_compute in snd (run (call HashCode.int 0) [Put 1 10; Put 17 21; Put 2 30] (make 16 (3, 4))).
Lemma sample_map_ok : map_ok HashCode.int sample.
Proof.
  assert (E : sample = snd (call HashCode.int 0 (Put 2 30) (snd (call HashCode.int 0 (Put 17 21) (snd (call HashCode.int 0 (Put 1 10) (make 16 (3, 4)))))))) by (vm_compute; reflexivity).
  rewrite E. clear E. do 3 (apply call_refines; [|done | done]). apply small_map_ok.
Qed.
Lemma hashmap_refines_witness :
  fst (run (call HashCode.int 0) [Put 1 10; Put 17 20; Put 1 30; Remove 17; Get 17; Get 1; Size] (make 16 (3, 4)))
  = [Old false None; Old false None; Old true (Some 10); Value 20; Thrown (Throw NoSuchElementException); Value 30; Number 1].
Proof.
  pose proof (hashmap_refines HashCode.int 0 [Put 1 10; Put 17 20; Put 1 30; Remove 17; Get 17; Get 1; Size] (make 16 (3, 4)) (proj1 small_map_ok)) as H.
  destruct H as [_ E]; [done | repeat constructor |].
  rewrite (proj2 small_map_ok) in E. rewrite <- (fst_eq _ _ _ E). vm_compute. reflexivity.
Defined.
