(* ===== verification/HashMapIterators.v ===== *)
(** * Iterators of hash maps

    The iterators of decaf/util/HashMap.h visit every entry once, in the order of the
    table, also when the entries they are at are removed on the way. *)

From stdpp Require Import gmap.
From S2P Require Import Prelude HashMaps HashMapLaws.
Import HashMap.

Section Iterators.
Context {K V : Type} `{Countable K} (hashFunc : K -> Z).
Implicit Types (d : list (list (entry K V))) (m : t K V) (e : entry K V) (it : iterator K).

Definition head_key (l : list (entry K V)) : option K := key <$> head l.
Definition last_key (l : list (entry K V)) : option K := key <$> list.last l.

(** Between two entries: the entries of the current bucket that were kept, the ones that
    follow, and all that are still to come. *)
Definition between m it (rest : list (entry K V)) : Prop := exists kept fut,
  0 <= position it <= length m /\ (position it = 0 -> kept ++ fut = []) /\ (0 < position it -> elementData m !! Z.to_nat (position it - 1) = Some (kept ++ fut)) /\
  futureEntry it = head_key fut /\ match currentEntry it with Some c => Some c | None => prevEntry it end = last_key kept /\
  rest = fut ++ concat (drop (Z.to_nat (position it)) (elementData m)) /\ expectedModCount it = modCount m.
(** At an entry. *)
Definition at_entry m it e (rest : list (entry K V)) : Prop := exists kept fut,
  0 < position it <= length m /\ elementData m !! Z.to_nat (position it - 1) = Some (kept ++ e :: fut) /\
  futureEntry it = head_key fut /\ currentEntry it = Some (key e) /\ prevEntry it = last_key kept /\
  rest = fut ++ concat (drop (Z.to_nat (position it)) (elementData m)) /\ expectedModCount it = modCount m.

Lemma iterate_between m : between m (iterate m) (entries m).
Proof. exists [], []. cbn. unfold length, zlen. split_and!; try done; lia. Qed.
Lemma at_entry_keep m it e rest : at_entry m it e rest -> between m it rest.
Proof.
  intros (kept & fut & Hp & Hb & Hf & Hc & _ & Hr & Hm). exists (kept ++ [e]), fut. split_and!; try done; try lia.
  - intros _. by rewrite <- app_assoc.
  - rewrite Hc. unfold last_key. by rewrite last_snoc.
Qed.
Lemma scan_ok m n : forall p, 0 <= p -> p + Z.of_nat n = length m ->
  exists r, scan n p m = Ok r /\ p <= snd r <= length m /\ concat (drop (Z.to_nat p) (elementData m)) = concat (drop (Z.to_nat (snd r)) (elementData m)) /\
    (if fst r then exists e b, elementData m !! Z.to_nat (snd r) = Some (e :: b) else snd r = length m).
Proof.
  induction n as [|n IH]; intros p Hp Hn; cbn [scan]; [exists (false, p); cbn; split_and!; [done | lia | lia | done | lia] |].
  destruct (bucket_in (elementData m) p) as (b & Hb & ->); [unfold length in Hn; lia |]. cbn [rbind]. destruct b as [|e b].
  - destruct (IH (p + 1)) as (r & -> & Hr & Ec & Hf); [lia | lia |]. exists r. split_and!; [done | lia | lia | | done].
    rewrite <- Ec. rewrite (drop_S _ _ _ Hb). cbn. by replace (Z.to_nat (p + 1)) with (S (Z.to_nat p)) by lia.
  - exists (true, p). cbn. split_and!; [done | lia | lia | done |]. by exists e, b.
Qed.
Lemma hasNext_end m it : between m it [] -> exists it', checkHasNext it m = Ok (false, it').
Proof.
  intros (kept & fut & Hp & _ & _ & Hf & _ & Hr & _). destruct fut; [|done]. unfold checkHasNext. rewrite Hf. cbn.
  destruct (scan_ok m (Z.to_nat (length m - position it)) (position it)) as ([f p] & -> & Hp' & Ec & Hf'); [lia | lia |]. cbn in *.
  destruct f; [|by eexists]. destruct Hf' as (e & b & Hb). rewrite Ec, (drop_S _ _ _ Hb) in Hr. done.
Qed.
Lemma next_in_split e (l r : list (entry K V)) : key e ∉ key <$> l -> next_in (key e) (l ++ e :: r) = Some (head_key r) /\ rest_in (key e) (l ++ e :: r) = Some r.
Proof.
  induction l as [|x l IH]; cbn; intros Hn; [by rewrite bool_decide_eq_true_2 |]. rewrite bool_decide_eq_false_2 by (intros Hx; apply Hn; rewrite Hx; by left).
  apply IH. intros ?. apply Hn. by right.
Qed.
Lemma next_in_none k (l : list (entry K V)) : k ∉ key <$> l -> next_in k l = None /\ rest_in k l = None.
Proof.
  induction l as [|x l IH]; cbn; intros Hn; [done |]. rewrite bool_decide_eq_false_2 by (intros Hx; apply Hn; rewrite Hx; by left).
  apply IH. intros ?. apply Hn. by right.
Qed.
(** A chain is found by the key of one of its entries. *)
Lemma chain_of d i l e r : d !! i = Some (l ++ e :: r) -> NoDup (key <$> concat d) -> next_of (key e) d = Ok (head_key r) /\ rest_of (key e) d = Ok r.
Proof.
  revert i. induction d as [|b d IH]; intros i Hi Hn; [done |]. cbn in Hn. rewrite fmap_app in Hn. apply list.NoDup_app in Hn as (Hn1 & Hd & Hn2). cbn. destruct i as [|i].
  - injection Hi as ->. rewrite fmap_app in Hn1. apply list.NoDup_app in Hn1 as (_ & Hx & _).
    destruct (next_in_split e l r) as [-> ->]; [|done]. intros Hl. apply (Hx _ Hl). by left.
  - destruct (next_in_none (key e) b) as [-> ->]; [|by apply (IH i)]. intros Hb. apply (Hd _ Hb). apply list_elem_of_fmap_2.
    cbn in Hi. eapply elem_of_concat_1; [exact Hi |]. apply elem_of_app. right. by left.
Qed.
Lemma deref_ok m e : NoDup (key <$> entries m) -> e ∈ entries m -> deref (key e) m = Ok e.
Proof.
  intros Hn He. unfold deref. fold (entries m). destruct (List.find _ _) as [e'|] eqn:E.
  - apply find_some in E as [He' Hk%bool_decide_eq_true]. f_equal. apply (key_inj (elementData m)); [done | by apply list_elem_of_In | done | done].
  - pose proof (find_none _ _ E e ltac:(by apply list_elem_of_In)) as Hk. by apply bool_decide_eq_false in Hk.
Qed.
Lemma at_entry_in m it e rest : at_entry m it e rest -> e ∈ entries m.
Proof. intros (l & r & _ & Hb & _). eapply elem_of_concat_1; [done |]. apply elem_of_app. right. by left. Qed.
Lemma iterator_next_ok m it e rest : NoDup (key <$> entries m) -> between m it (e :: rest) ->
  exists it0 it', checkHasNext it m = Ok (true, it0) /\ next it0 m = Ok (e, it') /\ at_entry m it' e rest.
Proof.
  intros Hn (kept & fut & Hp & H0 & Hb & Hf & Hc & Hr & Hmc). unfold checkHasNext.
  enough (exists it0 it', match futureEntry it with Some _ => Ok (true, it) | None => let! r := scan (Z.to_nat (length m - position it)) (position it) m in Ok (fst r, with_position (snd r) it) end = Ok (true, it0) /\
    makeNext it0 m = Ok it' /\ at_entry m it' e rest) as (it0 & it' & E0 & E1 & Ha).
  { exists it0, it'. split_and!; [done | | done]. unfold next. rewrite E1. cbn [rbind]. pose proof (at_entry_in m it' e rest Ha) as Hin.
    destruct Ha as (l & r & _ & _ & _ & Hcur & _). rewrite Hcur. by rewrite deref_ok. }
  rewrite Hf. destruct fut as [|f fut]; unfold head_key in Hf; cbn [head fmap option_fmap option_map] in Hf.
  - destruct (scan_ok m (Z.to_nat (length m - position it)) (position it)) as ([b p] & -> & Hp' & Ec & Hf'); [lia | lia |]. cbn in Hr, Hp', Ec, Hf'. cbn [rbind fst snd].
    rewrite Ec in Hr. destruct b; [|subst p; rewrite drop_ge in Hr; [done | unfold length, zlen; lia]]. destruct Hf' as (f & b & Hb'). rewrite (drop_S _ _ _ Hb') in Hr. cbn in Hr. injection Hr as <- Hr.
    eexists _, _. split; [reflexivity |]. unfold makeNext, checkConcurrentMod, checkHasNext. cbn [expectedModCount with_position futureEntry position]. rewrite Hmc, Z.eqb_refl, Hf. cbn [rbind].
    assert (Hpl : p < length m) by (apply lookup_lt_Some in Hb'; unfold length, zlen; lia).
    replace (Z.to_nat (length m - p)) with (S (Z.to_nat (length m - p - 1))) by lia. cbn [scan]. destruct (bucket_in (elementData m) p) as (b' & Hb2 & Eb); [unfold length in Hpl; lia |].
    rewrite Hb' in Hb2. injection Hb2 as <-. rewrite Eb. cbn [rbind fst snd negb futureEntry with_position position]. rewrite Hf, Eb. cbn [rbind]. split; [reflexivity |].
    exists [], b. cbn [position futureEntry currentEntry prevEntry expectedModCount]. split_and!; try done; try lia.
    + replace (Z.to_nat (p + 1 - 1)) with (Z.to_nat p) by lia. done.
    + rewrite Hr. by replace (Z.to_nat (p + 1)) with (S (Z.to_nat p)) by lia.
  - cbn in Hr. injection Hr as <- Hr. assert (Hpos : 0 < position it) by (destruct (decide (position it = 0)) as [E | ?]; [by apply H0 in E; destruct kept | lia]).
    specialize (Hb Hpos). destruct (chain_of _ _ _ _ _ Hb Hn) as [En _]. eexists _, _. split; [reflexivity |]. unfold makeNext, checkConcurrentMod, checkHasNext.
    rewrite Hmc, Z.eqb_refl, Hf. cbn [rbind fst snd negb]. rewrite Hf, En. cbn [rbind]. split; [reflexivity |]. exists kept, fut. cbn. split_and!; try done; lia.
Qed.

(** ** Removing the entry an iterator is at *)
Lemma relink_none k (r l : list (entry K V)) : k ∉ key <$> l -> relink k r l = l.
Proof. induction l as [|x l IH]; cbn; intros Hn; [done |]. rewrite bool_decide_eq_false_2 by (intros Hx; apply Hn; rewrite Hx; by left). f_equal. apply IH. intros ?. apply Hn. by right. Qed.
Lemma relink_split q (l x r : list (entry K V)) : key q ∉ key <$> l -> relink (key q) r (l ++ q :: x) = l ++ q :: r.
Proof.
  induction l as [|y l IH]; cbn; intros Hn; [by rewrite bool_decide_eq_true_2 |]. rewrite bool_decide_eq_false_2 by (intros Hx; apply Hn; rewrite Hx; by left).
  f_equal. apply IH. intros ?. apply Hn. by right.
Qed.
Lemma map_one {A} (f : A -> A) (d : list A) i b : d !! i = Some b -> (forall j b', j <> i -> d !! j = Some b' -> f b' = b') -> map f d = <[i := f b]> d.
Proof.
  intros Hb Hf. apply list_eq. intros j. change (map f d) with (f <$> d). rewrite list_lookup_fmap. destruct (decide (j = i)) as [-> |].
  - by rewrite Hb, list_lookup_insert_eq by (by eapply lookup_lt_Some).
  - rewrite list_lookup_insert_ne by done. destruct (d !! j) eqn:E; cbn; [|done]. f_equal. by eapply Hf.
Qed.
Lemma other_bucket d i j b b' e : NoDup (key <$> concat d) -> d !! i = Some b -> e ∈ b -> d !! j = Some b' -> j <> i -> key e ∉ key <$> b'.
Proof.
  revert i j. induction d as [|x d IH]; intros i j Hn Hi He Hj Hne; [done |]. cbn in Hn. rewrite fmap_app in Hn. apply list.NoDup_app in Hn as (_ & Hd & Hn).
  destruct i as [|i], j as [|j]; [done | | |]; cbn in Hi, Hj.
  - injection Hi as ->. intros (e' & Hk & He')%list_elem_of_fmap. apply (Hd (key e)); [by apply list_elem_of_fmap_2 |]. rewrite Hk. apply list_elem_of_fmap_2. by eapply elem_of_concat_1.
  - injection Hj as ->. intros Hb. apply (Hd _ Hb). apply list_elem_of_fmap_2. by eapply elem_of_concat_1.
  - apply (IH i j); [done.. | lia].
Qed.
Lemma unlink_ok m it e rest : map_ok hashFunc m -> at_entry m it e rest -> exists kept fut, elementData m !! Z.to_nat (position it - 1) = Some (kept ++ e :: fut) /\
  rest = fut ++ concat (drop (Z.to_nat (position it)) (elementData m)) /\ prevEntry it = last_key kept /\ futureEntry it = head_key fut /\
  unlink (key e) (prevEntry it) m = Ok (<[Z.to_nat (position it - 1) := kept ++ fut]> (elementData m)).
Proof.
  intros Hm Ha. pose proof (ok_table _ m Hm) as Ht. pose proof (ok_keys _ _ Ht) as Hn. pose proof (at_entry_in m it e rest Ha) as Hin. destruct Ha as (kept & fut & Hp & Hb & Hf & _ & Hprev & Hr & _).
  exists kept, fut. split_and!; [done..|]. rewrite Hprev. unfold unlink. destruct kept as [|q l _] using rev_ind.
  - cbn. rewrite deref_ok by done. cbn [rbind]. cbn in Hb. assert (He : e ∈ e :: fut) by (by left).
    pose proof (ok_place _ _ Ht _ _ e Hb He) as Hi. unfold length. rewrite <- Hi, Z2Nat.id by lia. destruct (bucket_in (elementData m) (position it - 1)) as (b & Hb' & ->); [unfold length in Hp; lia |].
    rewrite Hb in Hb'. injection Hb' as <-. cbn [rbind]. apply set_bucket_in. unfold length in Hp. lia.
  - unfold last_key. rewrite last_snoc. cbn [fmap option_fmap option_map]. rewrite <- app_assoc in Hb. cbn in Hb. assert (Hq : q ∈ l ++ q :: e :: fut) by (apply elem_of_app; right; by left).
    rewrite (deref_ok m q Hn) by (by eapply elem_of_concat_1). cbn [rbind]. destruct (chain_of (elementData m) (Z.to_nat (position it - 1)) (l ++ [q]) e fut) as [_ ->]; [by rewrite <- app_assoc | done |]. cbn [rbind]. f_equal.
    rewrite (map_one _ _ _ _ Hb).
    + f_equal. rewrite relink_split; [by rewrite <- app_assoc |]. assert (Hnb : NoDup (key <$> l ++ q :: e :: fut)).
      { destruct (concat_insert _ _ _ [] Hb) as (l1 & r1 & E & _). rewrite E, !fmap_app in Hn. apply list.NoDup_app in Hn as (_ & _ & Hn). apply list.NoDup_app in Hn as (Hn & _). by rewrite fmap_app. }
      rewrite fmap_app in Hnb. apply list.NoDup_app in Hnb as (_ & Hx & _). intros Hl. apply (Hx _ Hl). by left.
    + intros j b' Hne Hj. apply relink_none. eapply (other_bucket _ (Z.to_nat (position it - 1)) j); [exact Hn | exact Hb | exact Hq | exact Hj | done].
Qed.
Lemma doRemove_ok m it e rest : map_ok hashFunc m -> at_entry m it e rest ->
  exists it' m', doRemove it m = Ok (it', m') /\ map_ok hashFunc m' /\ contents m' = delete (key e) (contents m) /\ entries m ≡ₚ e :: entries m' /\ between m' it' rest.
Proof.
  intros Hm Ha. destruct (unlink_ok m it e rest Hm Ha) as (kept & fut & Hb & Hr & Hprev & Hf & E). destruct Ha as (_ & _ & Hp & _ & _ & Hc & _ & _ & Hmc).
  unfold doRemove, checkConcurrentMod. rewrite Hmc, Z.eqb_refl, Hc. cbn [rbind]. rewrite E. cbn [rbind].
  destruct (without_ok hashFunc m _ kept e fut Hm Hb) as (Hm' & Hperm & Hd). eexists _, _. split; [reflexivity |]. split_and!; [done..|].
  exists kept, fut. cbn. unfold length, zlen in *. cbn. rewrite length_insert. split_and!; try done; try lia.
  - intros _. apply list_lookup_insert_eq. by eapply lookup_lt_Some.
  - rewrite Hr. f_equal. f_equal. by rewrite list.drop_insert_lt by lia.
Qed.

(** ** The loop of a client that removes some of the entries *)
Fixpoint visit (fuel : nat) (p : K * V -> bool) it m : result (list (K * V) * t K V) :=
  match fuel with
  | O => Err NoFuel
  | S fuel =>
    let! r := checkHasNext it m in
    if negb (fst r) then Ok ([], m)
    else
      let! n := next (snd r) m in
      let! s := (if p (pair_of (fst n)) then doRemove (snd n) m else Ok (snd n, m)) in
      let! rs := visit fuel p (fst s) (snd s) in
      Ok (pair_of (fst n) :: fst rs, snd rs)
  end.
Lemma iterator_visit_ok p rest : forall it m, map_ok hashFunc m -> between m it rest -> NoDup (key <$> rest) -> exists m', visit (S (Datatypes.length rest)) p it m = Ok (pair_of <$> rest, m') /\ map_ok hashFunc m' /\
  forall k, contents m' !! k = (if existsb (fun e => p (pair_of e) && bool_decide (key e = k)) rest then None else contents m !! k).
Proof.
  induction rest as [|e rest IH]; intros it m Hm Hb Hnd.
  - destruct (hasNext_end m it Hb) as [it' E]. exists m. cbn. by rewrite E.
  - pose proof (ok_keys _ _ (ok_table _ m Hm)) as Hn. destruct (iterator_next_ok m it e rest Hn Hb) as (it0 & it1 & E0 & E1 & Ha). cbn [visit Datatypes.length]. rewrite E0. cbn [rbind fst snd negb]. rewrite E1. cbn [rbind fst snd].
    apply NoDup_cons_1_2 in Hnd as Hnd'. destruct (p (pair_of e)) eqn:Ep.
    + destruct (doRemove_ok m it1 e rest Hm Ha) as (it2 & m2 & -> & Hm2 & Hd & _ & Hb2). cbn [rbind fst snd]. destruct (IH it2 m2 Hm2 Hb2 Hnd') as (m' & E & Hm' & Hl). cbn [visit] in E. rewrite E. cbn [rbind fst snd].
      exists m'. split_and!; [done..|]. intros k. rewrite Hl, Hd. cbn. rewrite Ep. cbn. case_bool_decide as Hk; cbn; [subst; rewrite lookup_delete_eq; by destruct (existsb _ _) | by rewrite lookup_delete_ne].
    + cbn [rbind fst snd]. destruct (IH it1 m Hm (at_entry_keep _ _ _ _ Ha) Hnd') as (m' & E & Hm' & Hl). cbn [visit] in E. rewrite E. cbn [rbind fst snd]. exists m'. split_and!; [done..|]. intros k. rewrite Hl. cbn. by rewrite Ep.
Qed.

(** A loop over the iterator of a well formed HashMap that removes the entries it
    chooses ends after one round per entry: it visits every entry exactly once, in the
    order of the table, removes exactly the chosen ones and leaves a well formed map. *)
Theorem iterator_visits_once p m : map_ok hashFunc m -> exists l m',
  visit (S (Z.to_nat (elementCount m))) p (iterate m) m = Ok (l, m') /\ l ≡ₚ map_to_list (contents m) /\ map_ok hashFunc m' /\
  contents m' = filter (fun kv => p kv = false) (contents m).
Proof.
  intros Hm. pose proof (ok_keys _ _ (ok_table _ m Hm)) as Hn. destruct (iterator_visit_ok p (entries m) (iterate m) m Hm (iterate_between m) Hn) as (m' & E & Hm' & Hl).
  exists (pair_of <$> entries m), m'. rewrite (ok_count _ m Hm). unfold zlen. rewrite Nat2Z.id. split_and!; [done | | done |].
  - unfold contents. rewrite map_to_list_to_map; [done |]. by rewrite <- list_fmap_compose.
  - apply map_eq. intros k. rewrite Hl. apply option_eq. intros v. rewrite map_lookup_filter_Some. destruct (existsb _ _) eqn:Ex.
    + apply existsb_exists in Ex as (e & He%list_elem_of_In & [Hp Hk%bool_decide_eq_true]%andb_true_iff). split; [done |]. intros [Hv Hf]. subst k.
      rewrite (contents_entry m e Hn He) in Hv. injection Hv as <-. unfold pair_of in Hp. congruence.
    + split; [|by intros [? _]]. intros Hv. split; [done |]. apply lookup_contents in Hv as (e & He & <- & <-); [|done]. destruct (p (key e, value e)) eqn:Hp; [|done].
      assert (existsb (fun x => p (pair_of x) && bool_decide (key x = key e)) (entries m) = true); [|congruence].
      apply existsb_exists. exists e. split; [by apply list_elem_of_In |]. unfold pair_of. by rewrite Hp, bool_decide_eq_true_2.
Qed.

(** An entry added behind the back of an iterator is noticed, with an exception, at the
    next step; a new value for a key that is there is not. *)
Lemma modification_noticed (V0 : V) m k v : map_ok hashFunc m -> elementCount m < 2 ^ 29 -> contents m !! k = None -> is_s 32 (modCount m) = true ->
  exists m', putImpl hashFunc V0 k v m = Ok (false, None, m') /\ next (iterate m) m' = throw ConcurrentModificationException.
Proof.
  intros Hm Hs Hk Hmc. destruct (putImpl_ok hashFunc V0 m k v Hm Hs) as (m' & E & _ & _ & H1). rewrite Hk in E, H1. rewrite bool_decide_eq_false_2 in E by (by intros [? [=]]). exists m'. split; [done |].
  unfold next, makeNext, checkConcurrentMod. cbn [expectedModCount iterate]. rewrite (proj1 (H1 eq_refl)). destruct (Z.eqb_spec (modCount m) (to_s32 (modCount m + 1))) as [He | _]; [|done].
  unfold is_s in Hmc. apply andb_true_iff in Hmc as [H2%Z.leb_le H3%Z.ltb_lt]. unfold swrap in He. Z.div_mod_to_equations. lia.
Qed.
End Iterators.
Lemma iterator_visits_once_witness : exists m', visit 4 (fun kv => Z.odd (snd kv)) (iterate sample) sample = Ok ([(17, 21); (1, 10); (2, 30)], m') /\ contents m' = {[1 := 10; 2 := 30]}.
Proof.
  destruct (iterator_visits_once HashCode.int (fun kv => Z.odd (snd kv)) sample sample_map_ok) as (l & m' & E & _ & _ & Hc).
  exists m'. split; [vm_compute in E |- *; injection E as _ <-; reflexivity |]. rewrite Hc. vm_compute. reflexivity.
Defined.
