(* ===== verification/LinkedHashMaps.v ===== *)
(** * Linked hash maps and LRU caches

    decaf/util/LinkedHashMap.h and decaf/util/LRUCache.h: a hash map whose entries are
    also in a doubly linked chain, in the order in which they were put or, in access
    order, last used.  As in HashMaps.v a pointer to an entry is the key of the entry;
    [chain] has the two links of every entry that was made by this class. *)

From stdpp Require Import gmap.
From S2P Require Import Prelude HashMaps.

Module LinkedHashMap.
Section Def.
Context {K V : Type} `{Countable K} (hashFunc : K -> Z) (V0 : V).

Record link := Link { chainForward : option K; chainBackward : option K }.
Record t := mk { base : HashMap.t K V; accessOrder : bool; head : option K; tail : option K; chain : gmap K link }.
Definition get_base : M t (HashMap.t K V) := fun m => Ok (base m, m).
Definition set_base (b : HashMap.t K V) : M t unit := fun m => Ok (tt, mk b (accessOrder m) (head m) (tail m) (chain m)).
Definition set_head (p : option K) : M t unit := fun m => Ok (tt, mk (base m) (accessOrder m) p (tail m) (chain m)).
Definition set_tail (p : option K) : M t unit := fun m => Ok (tt, mk (base m) (accessOrder m) (head m) p (chain m)).
Definition set_chain (c : gmap K link) : M t unit := fun m => Ok (tt, mk (base m) (accessOrder m) (head m) (tail m) c).
(** The members of an entry; using NULL or a deleted entry is undefined. *)
Definition link_of (p : option K) : M t link :=
  fun m => match p with Some k => match chain m !! k with Some l => Ok (l, m) | None => Err Undefined end | None => Err Undefined end.
Definition forward (p : option K) : M t (option K) := let* l := link_of p in ret (chainForward l).
Definition backward (p : option K) : M t (option K) := let* l := link_of p in ret (chainBackward l).
Definition set_link (p : option K) (l : link) : M t unit :=
  fun m => match p with Some k => set_chain (<[k := l]> (chain m)) m | None => Err Undefined end.
Definition set_forward (p n : option K) : M t unit := let* l := link_of p in set_link p (Link n (chainBackward l)).
Definition set_backward (p n : option K) : M t unit := let* l := link_of p in set_link p (Link (chainForward l) n).
Definition liftR {A} (r : result A) : M t A := fun m => match r with Ok a => Ok (a, m) | Err f => Err f end.
Definition get_head : M t (option K) := fun m => Ok (head m, m).
Definition get_tail : M t (option K) := fun m => Ok (tail m, m).
Definition is_accessOrder : M t bool := fun m => Ok (accessOrder m, m).

(** ** Construction *)
Definition make (b : HashMap.t K V) (order : bool) : t := mk b order None None ∅.
Definition new : t := make HashMap.new false.
Definition init (capacity : Z) : result t := let! b := HashMap.init capacity in Ok (make b false).
Definition init_order (capacity : Z) (load : Z * Z) (order : bool) : result t := let! b := HashMap.init_load capacity load in Ok (make b order).
(** The entries are made by the constructor of HashMap, which calls its own functions. *)
Definition of_HashMap (map : list (K * V)) : result t :=
  let! b := HashMap.putAll hashFunc V0 map (HashMap.make (HashMap.calculateCapacity (zlen map)) (3, 4)) in Ok (make b false).

(** ** The chain *)
Definition linkEntry (entry : option K) : M t unit :=
  let* tl := get_tail in
  let* hd := get_head in
  let* order := is_accessOrder in
  if bool_decide (tl = entry) then ret tt
  else if bool_decide (hd = None) then set_head entry ;;; set_tail entry
  else
    let* prev := backward entry in
    let* next := forward entry in
    match prev with
    | None =>
      match next with
      | Some _ =>
        if order then
          set_head next ;;;
          set_backward next None ;;;
          set_backward entry tl ;;;
          set_forward entry None ;;;
          set_forward tl entry ;;;
          set_tail entry
        else ret tt
      | None =>
        set_backward entry tl ;;;
        set_forward entry None ;;;
        set_forward tl entry ;;;
        set_tail entry
      end
    | Some _ =>
      match next with
      | None => ret tt
      | Some _ =>
        if order then
          set_forward prev next ;;;
          set_backward next prev ;;;
          set_forward entry None ;;;
          set_backward entry tl ;;;
          set_forward tl entry ;;;
          set_tail entry
        else ret tt
      end
    end.
Definition createHashedEntry (k : K) (index hash : Z) : M t unit :=
  let* b := get_base in
  let* b := liftR (HashMap.createHashedEntry V0 k index hash b) in
  set_base b ;;;
  set_link (Some k) (Link None None) ;;;
  linkEntry (Some k).

(** ** Lookup *)
(** The entry moves to the end of the chain. *)
Definition use_entry (k : K) : M t unit :=
  let* tl := get_tail in
  let* prev := backward (Some k) in
  let* next := forward (Some k) in
  set_backward next prev ;;;
  (match prev with Some _ => set_forward prev next | None => set_head next end) ;;;
  set_forward (Some k) None ;;;
  set_backward (Some k) tl ;;;
  set_forward tl (Some k) ;;;
  set_tail (Some k).
Definition getEntry (k : K) : M t (option (HashMap.entry K V)) :=
  let* b := get_base in
  let hash := hashFunc k in
  let* result := liftR (HashMap.findKeyEntry k (HashMap.index_of hash (HashMap.length b)) hash b) in
  let* order := is_accessOrder in
  let* tl := get_tail in
  (if bool_decide (is_Some result) && order && negb (bool_decide (tl = Some k)) then use_entry k else ret tt) ;;;
  ret result.
Definition get (k : K) : M t V :=
  let* e := getEntry k in match e with Some e => ret (HashMap.value e) | None => raise NoSuchElementException end.
Definition containsKey (k : K) : M t bool := let* e := getEntry k in ret (bool_decide (is_Some e)).
Definition size (m : t) : Z := HashMap.size (base m).
Definition value_at (k : K) : M t V := let* b := get_base in let* e := liftR (HashMap.deref k b) in ret (HashMap.value e).
(** The chain holds at most [elementCount] entries, which bounds the loop. *)
Fixpoint contains_from `{!EqDecision V} (fuel : nat) (entry : option K) (v : V) : M t bool :=
  match entry with
  | None => ret false
  | Some k =>
    match fuel with
    | O => fun _ => Err NoFuel
    | S fuel => let* w := value_at k in if bool_decide (v = w) then ret true else let* n := forward entry in contains_from fuel n v
    end
  end.
Definition containsValue `{!EqDecision V} (v : V) : M t bool := fun m => contains_from (Z.to_nat (size m)) (head m) v m.

(** ** Update *)
Definition putImpl (k : K) (v : V) : M t (bool * option V) :=
  let* b := get_base in
  (if HashMap.elementCount b =? 0 then set_head None ;;; set_tail None else ret tt) ;;;
  let hash := hashFunc k in
  let index := HashMap.index_of hash (HashMap.length b) in
  let* e := liftR (HashMap.findKeyEntry k index hash b) in
  match e with
  | None =>
    let b := HashMap.with_count (HashMap.elementCount b + 1) (HashMap.touch b) in
    let* b := liftR (if HashMap.threshold b <? HashMap.elementCount b then HashMap.rehash b else Ok b) in
    set_base b ;;;
    createHashedEntry k (HashMap.index_of hash (HashMap.length b)) hash ;;;
    let* b := get_base in
    set_base (HashMap.setValue k v b) ;;;
    ret (false, None)
  | Some e =>
    linkEntry (Some k) ;;;
    let* b := get_base in
    set_base (HashMap.setValue k v b) ;;;
    ret (true, Some (HashMap.value e))
  end.
(** The neighbours of an entry are linked with each other. *)
Definition bypass (k : K) : M t unit :=
  let* prev := backward (Some k) in
  let* next := forward (Some k) in
  (match prev with Some _ => set_forward prev next | None => set_head next end) ;;;
  (match next with Some _ => set_backward next prev | None => set_tail prev end).
Definition remove (k : K) : M t V :=
  let* b := get_base in
  let* r := liftR (HashMap.removeEntry hashFunc k b) in
  set_base (snd r) ;;;
  match fst r with
  | None => raise NoSuchElementException
  | Some e =>
    bypass k ;;;
    (fun m => set_chain (delete k (chain m)) m) ;;;
    ret (HashMap.value e)
  end.
(** [removeEldestEntry] is overridden by the subclasses; onEviction does nothing. *)
Definition put (removeEldestEntry : t -> bool) (k : K) (v : V) : M t (bool * option V) :=
  let* result := putImpl k v in
  let* hd := get_head in
  (fun m => if removeEldestEntry m then (match hd with Some h => remove h ;;; ret tt | None => undef end) m else Ok (tt, m)) ;;;
  ret result.
Fixpoint put_each (es : list (K * V)) : M t unit :=
  match es with
  | [] => ret tt
  | (k, v) :: es => putImpl k v ;;; put_each es
  end.
(** HashMap::putAll calls the putImpl of this class. *)
Definition putAll (es : list (K * V)) : M t unit :=
  match es with
  | [] => ret tt
  | _ =>
    let* b := get_base in
    let capacity := HashMap.elementCount b + zlen es in
    let* b := liftR (if HashMap.threshold b <? capacity then HashMap.rehash_to capacity b else Ok b) in
    set_base b ;;;
    put_each es
  end.
Definition clear (m : t) : t :=
  mk (HashMap.clear (base m)) (accessOrder m) None None (if 0 <? HashMap.elementCount (base m) then ∅ else chain m).
(** HashMap::copy calls the clear and the putAll of this class. *)
Definition copy (source : list (K * V)) (m : t) : result (unit * t) :=
  let capacity := HashMap.calculateCapacity (zlen source) in
  let m := clear m in
  let b := (if HashMap.length (base m) <? capacity then HashMap.with_data (replicate (Z.to_nat capacity) []) (base m) else base m) in
  putAll source (mk (HashMap.computeThreshold b) (accessOrder m) (head m) (tail m) (chain m)).

(** ** Iterators *)
Record iterator := Iterator { expectedModCount : Z; futureEntry : option K; currentEntry : option K }.
Definition iterate (m : t) : iterator := Iterator (HashMap.modCount (base m)) (head m) None.
Definition hasNext (it : iterator) : bool := bool_decide (is_Some (futureEntry it)).
Definition checkConcurrentMod (it : iterator) : M t unit :=
  let* b := get_base in if expectedModCount it =? HashMap.modCount b then ret tt else raise ConcurrentModificationException.
Definition makeNext (it : iterator) : M t iterator :=
  checkConcurrentMod it ;;;
  if negb (hasNext it) then raise NoSuchElementException
  else let* n := forward (futureEntry it) in ret (Iterator (expectedModCount it) n (futureEntry it)).
Definition next (it : iterator) : M t (K * V * iterator) :=
  let* it := makeNext it in
  match currentEntry it with Some c => let* v := value_at c in ret (c, v, it) | None => undef end.
Definition doRemove (it : iterator) : M t iterator :=
  checkConcurrentMod it ;;;
  match currentEntry it with
  | None => raise IllegalStateException
  | Some c =>
    let* prev := backward (Some c) in
    let* next := forward (Some c) in
    let* b := get_base in
    let* b := liftR (HashMap.removeEntry_ptr c b) in
    set_base b ;;;
    (fun m => set_chain (delete c (chain m)) m) ;;;
    (match prev with
     | Some _ => set_forward prev next ;;; (match next with Some _ => set_backward next prev | None => set_tail prev end)
     | None => set_head next ;;; (match next with Some _ => set_backward next None | None => set_tail None end)
     end) ;;;
    ret (Iterator (to_s32 (expectedModCount it + 1)) (futureEntry it) None)
  end.
(** The loop of a client that removes some of the entries. *)
Fixpoint linked_visit (fuel : nat) (p : K * V -> bool) (it : iterator) : M t (list (K * V)) :=
  match fuel with
  | O => fun _ => Err NoFuel
  | S fuel =>
    if negb (hasNext it) then ret []
    else
      let* n := next it in
      let* it := (if p (fst n) then doRemove (snd n) else ret (snd n)) in
      let* rest := linked_visit fuel p it in
      ret (fst n :: rest)
  end.
(** The entries in the order of the iterator. *)
Definition entry_list (m : t) : result (list (K * V)) :=
  let! r := linked_visit (S (Z.to_nat (size m))) (fun _ => false) (iterate m) m in Ok (fst r).
End Def.
Arguments t K V {_ _}.
Arguments iterator : clear implicits.
Arguments link : clear implicits.
End LinkedHashMap.

Module LRUCache.
Section Def.
Context {K V : Type} `{Countable K} (hashFunc : K -> Z) (V0 : V).
Record t := mk { super : LinkedHashMap.t K V; maxCacheSize : Z }.
Definition new : result t := let! m := LinkedHashMap.init_order 0 (3, 4) true in Ok (mk m 10000).
Definition init (maximumCacheSize : Z) : result t :=
  let! m := LinkedHashMap.init_order 0 (3, 4) true in
  if maximumCacheSize <=? 0 then throw IllegalArgumentException else Ok (mk m maximumCacheSize).
Definition init_order (initialCapacity maximumCacheSize : Z) (loadFactor : Z * Z) (accessOrder : bool) : result t :=
  let! m := LinkedHashMap.init_order initialCapacity loadFactor accessOrder in
  if maximumCacheSize <=? 0 then throw IllegalArgumentException else Ok (mk m maximumCacheSize).
Definition setMaxCacheSize (size : Z) (c : t) : result t :=
  if size <=? 0 then throw IllegalArgumentException else Ok (mk (super c) size).
Definition removeEldestEntry (maxCacheSize : Z) (m : LinkedHashMap.t K V) : bool := maxCacheSize <? LinkedHashMap.size m.
(** The operations of LinkedHashMap on a cache. *)
Definition on_super {A} (f : M (LinkedHashMap.t K V) A) : M t A :=
  fun c => match f (super c) with Ok (a, m) => Ok (a, mk m (maxCacheSize c)) | Err e => Err e end.
Definition get (k : K) : M t V := on_super (LinkedHashMap.get hashFunc k).
Definition put (k : K) (v : V) : M t (bool * option V) := fun c => on_super (LinkedHashMap.put hashFunc V0 (removeEldestEntry (maxCacheSize c)) k v) c.
Definition remove (k : K) : M t V := on_super (LinkedHashMap.remove hashFunc k).
Definition putAll (es : list (K * V)) : M t unit := on_super (LinkedHashMap.putAll hashFunc V0 es).
Definition clear (c : t) : t := mk (LinkedHashMap.clear (super c)) (maxCacheSize c).
Definition size (c : t) : Z := LinkedHashMap.size (super c).
End Def.
Arguments t K V {_ _}.
End LRUCache.
