(* ===== verification/LinkedLaws.v ===== *)
(** * Linked hash maps refine lists of entries

    The doubly linked chain of LinkedHashMap, against the list of its entries in order:
    the oldest, or least recently used, first. *)

From stdpp Require Import gmap.
From S2P Require Import Prelude HashMaps HashMapLaws HashMapIterators LinkedHashMaps.
Import LinkedHashMap.

Section Chain.
Context {K V : Type} `{Countable K}.
Implicit Types (c : gmap K (link K)) (k p n : K) (a b ks : list K).

(** A segment of the chain: the entries [ks], the entry before and the one after them. *)
Fixpoint dseg (prev : option K) ks (next : option K) c : Prop :=
  match ks with
  | [] => True
  | k :: ks => c !! k = Some (Link (match list.head ks with Some n => Some n | None => next end) prev) /\ dseg (Some k) ks next c
  end.
Definition first_or ks (o : option K) : option K := match list.head ks with Some k => Some k | None => o end.
Definition last_or ks (o : option K) : option K := match list.last ks with Some k => Some k | None => o end.

Lemma first_or_app a b o : first_or (a ++ b) o = first_or a (first_or b o).
Proof. by destruct a. Qed.
Lemma last_or_snoc a k o : last_or (a ++ [k]) o = Some k.
Proof. unfold last_or. by rewrite last_snoc. Qed.
Lemma last_or_app a b o : last_or (a ++ b) o = last_or b (last_or a o).
Proof. destruct b as [|k b _] using rev_ind; [by rewrite app_nil_r |]. by rewrite app_assoc, !last_or_snoc. Qed.
Lemma last_or_cons k b o : last_or (k :: b) o = last_or b (Some k).
Proof. exact (last_or_app [k] b o). Qed.
Lemma dseg_app a b prev next c : dseg prev (a ++ b) next c <-> dseg prev a (first_or b next) c /\ dseg (last_or a prev) b next c.
Proof.
  revert prev. induction a as [|k a IH]; intros prev; cbn; [tauto |]. rewrite IH, last_or_cons. destruct a; cbn; [unfold first_or |]; tauto.
Qed.
Lemma dseg_frame ks prev next c k lk : k ∉ ks -> dseg prev ks next c -> dseg prev ks next (<[k := lk]> c).
Proof.
  revert prev. induction ks as [|x ks IH]; intros prev Hk; [done |]. cbn. intros [Hx Hs]. apply not_elem_of_cons in Hk as [Hne Hk]. split; [by rewrite lookup_insert_ne | auto].
Qed.
Lemma dseg_frame_delete ks prev next c k : k ∉ ks -> dseg prev ks next c -> dseg prev ks next (delete k c).
Proof.
  revert prev. induction ks as [|x ks IH]; intros prev Hk; [done |]. cbn. intros [Hx Hs]. apply not_elem_of_cons in Hk as [Hne Hk]. split; [by rewrite lookup_delete_ne | auto].
Qed.
(** The links at the ends of a segment can be redirected. *)
Lemma dseg_set_next ks p prev next next' c : NoDup (ks ++ [p]) -> dseg prev (ks ++ [p]) next c ->
  exists lk, c !! p = Some lk /\ dseg prev (ks ++ [p]) next' (<[p := Link next' (chainBackward lk)]> c).
Proof.
  intros Hn [H1 H2]%dseg_app. cbn in H2. exists (Link next (last_or ks prev)). split; [apply H2 |]. apply dseg_app. cbn. rewrite lookup_insert_eq. split_and!; [|done..].
  apply list.NoDup_app in Hn as (_ & Hd & _). apply dseg_frame; [|done]. intros Hp. apply (Hd _ Hp). by left.
Qed.
Lemma dseg_set_prev ks n prev prev' next c : NoDup (n :: ks) -> dseg prev (n :: ks) next c ->
  exists lk, c !! n = Some lk /\ dseg prev' (n :: ks) next (<[n := Link (chainForward lk) prev']> c).
Proof.
  intros Hn [H1 H2]. eexists. split; [exact H1 |]. cbn. rewrite lookup_insert_eq. split; [done |]. apply dseg_frame; [by apply NoDup_cons_1_1 in Hn | done].
Qed.

(** ** An entry and the segments around it *)
Definition parts a k b (na : option K) (lk : option (link K)) (pb nb : option K) c : Prop := dseg None a na c /\ c !! k = lk /\ dseg pb b nb c.
Lemma parts_of a k b c : dseg None (a ++ k :: b) None c -> parts a k b (Some k) (Some (Link (first_or b None) (last_or a None))) (Some k) None c.
Proof. intros [H1 [H2 H3]]%dseg_app. by split_and!. Qed.
Context {a : list K} {k : K} {b : list K} (Hnd : NoDup (a ++ k :: b)).
Lemma nd_parts : NoDup a /\ NoDup b /\ (k ∉ a) /\ (k ∉ b) /\ (forall x, x ∈ a -> x ∉ b).
Proof.
  apply list.NoDup_app in Hnd as (H1 & H2 & H3). apply NoDup_cons_1_1 in H3 as H4. apply NoDup_cons_1_2 in H3. split_and!; [done.. | | done |].
  - intros Hk. apply (H2 _ Hk). by left.
  - intros x Hx Hb. apply (H2 _ Hx). by right.
Qed.
Lemma parts_self na lk lk' pb nb c : parts a k b na lk pb nb c -> parts a k b na (Some lk') pb nb (<[k := lk']> c).
Proof. destruct nd_parts as (_ & _ & Hka & Hkb & _). intros (H1 & _ & H3). split_and!; [by apply dseg_frame | apply lookup_insert_eq | by apply dseg_frame]. Qed.
Lemma parts_delete na lk pb nb c : parts a k b na lk pb nb c -> parts a k b na None pb nb (delete k c).
Proof. destruct nd_parts as (_ & _ & Hka & Hkb & _). intros (H1 & _ & H3). split_and!; [by apply dseg_frame_delete | apply lookup_delete_eq | by apply dseg_frame_delete]. Qed.
Lemma parts_before p a' na na' lk pb nb c : a = a' ++ [p] -> parts a k b na lk pb nb c ->
  exists lp, c !! p = Some lp /\ parts a k b na' lk pb nb (<[p := Link na' (chainBackward lp)]> c).
Proof.
  intros Ea (H1 & H2 & H3). destruct nd_parts as (Hna & _ & Hka & _ & Hab). assert (Hp : p ∈ a) by (rewrite Ea; apply elem_of_app; right; by left). rewrite Ea in H1, Hna.
  destruct (dseg_set_next a' p None na na' c Hna H1) as (lp & Hlp & H1'). exists lp. split; [done |]. split_and!; [by rewrite Ea | rewrite lookup_insert_ne; [done | intros ->; done] | apply dseg_frame; [by apply Hab | done]].
Qed.
Lemma parts_after x b' na lk pb pb' nb c : b = x :: b' -> parts a k b na lk pb nb c ->
  exists lx, c !! x = Some lx /\ parts a k b na lk pb' nb (<[x := Link (chainForward lx) pb']> c).
Proof.
  intros Eb (H1 & H2 & H3). destruct nd_parts as (_ & Hnb & _ & Hkb & Hab). assert (Hx : x ∈ b) by (rewrite Eb; by left). rewrite Eb in H3, Hnb.
  destruct (dseg_set_prev b' x pb pb' nb c Hnb H3) as (lx & Hlx & H3'). exists lx. split; [done |]. split_and!; [apply dseg_frame; [intros Ha; by apply (Hab x) | done] | rewrite lookup_insert_ne; [done | intros ->; done] | by rewrite Eb].
Qed.
Lemma parts_end y b' na lk pb nb nb' c : b = b' ++ [y] -> parts a k b na lk pb nb c ->
  exists ly, c !! y = Some ly /\ parts a k b na lk pb nb' (<[y := Link nb' (chainBackward ly)]> c).
Proof.
  intros Eb (H1 & H2 & H3). destruct nd_parts as (_ & Hnb & _ & Hkb & Hab). assert (Hy : y ∈ b) by (rewrite Eb; apply elem_of_app; right; by left). rewrite Eb in H3, Hnb.
  destruct (dseg_set_next b' y pb nb nb' c Hnb H3) as (ly & Hly & H3'). exists ly. split; [done |]. split_and!; [apply dseg_frame; [intros Ha; by apply (Hab y) | done] | rewrite lookup_insert_ne; [done | intros ->; done] | by rewrite Eb].
Qed.
(** The entry taken out, and the entry put at the end. *)
Lemma parts_join lk c : parts a k b (first_or b None) lk (last_or a None) None c -> dseg None (a ++ b) None c.
Proof. intros (H1 & _ & H3). apply dseg_app. by split. Qed.
Lemma parts_last c : b <> [] -> parts a k b (first_or b None) (Some (Link None (list.last b))) (last_or a None) (Some k) c -> dseg None (a ++ b ++ [k]) None c.
Proof.
  intros Hb (H1 & H2 & H3). apply dseg_app. split; [destruct b; [done | exact H1] |]. apply dseg_app. split; [done |]. cbn. split; [|done]. rewrite H2. do 2 f_equal.
  destruct b as [|y b0 _] using rev_ind; [done |]. unfold last_or. by rewrite last_snoc.
Qed.
End Chain.

(** ** Moving and removing an entry *)
Lemma bind_ok {S A B} (f : M S A) (g : A -> M S B) s x s' : f s = Ok (x, s') -> bind f g s = g x s'.
Proof. intros E. unfold bind. by rewrite E. Qed.

Section Moves.
Context {K V : Type} `{Countable K}.
Implicit Types (B : HashMap.t K V) (o : bool) (h tl : option K) (c : gmap K (link K)) (k : K).
Lemma set_forward_ok B o h tl c k n lk : c !! k = Some lk -> set_forward (Some k) n (mk B o h tl c) = Ok (tt, mk B o h tl (<[k := Link n (chainBackward lk)]> c)).
Proof. intros E. unfold set_forward, bind, link_of. cbn. by rewrite E. Qed.
Lemma set_backward_ok B o h tl c k n lk : c !! k = Some lk -> set_backward (Some k) n (mk B o h tl c) = Ok (tt, mk B o h tl (<[k := Link (chainForward lk) n]> c)).
Proof. intros E. unfold set_backward, bind, link_of. cbn. by rewrite E. Qed.
Lemma forward_ok B o h tl c k lk : c !! k = Some lk -> forward (Some k) (mk B o h tl c) = Ok (chainForward lk, mk B o h tl c).
Proof. intros E. unfold forward, bind, link_of. cbn. by rewrite E. Qed.
Lemma backward_ok B o h tl c k lk : c !! k = Some lk -> backward (Some k) (mk B o h tl c) = Ok (chainBackward lk, mk B o h tl c).
Proof. intros E. unfold backward, bind, link_of. cbn. by rewrite E. Qed.
Lemma get_tail_ok B o h tl c : get_tail (mk B o h tl c) = Ok (tl, mk B o h tl c).
Proof. done. Qed.
Lemma set_head_ok B o h tl c n : set_head n (mk B o h tl c) = Ok (tt, mk B o n tl c).
Proof. done. Qed.

(** A list is empty or has a last element. *)
Lemma last_cases {A} (l : list A) : (l = [] /\ list.last l = None) \/ exists l' x, l = l' ++ [x] /\ list.last l = Some x.
Proof. destruct l as [|x l _] using rev_ind; [by left | right]. exists l, x. by rewrite last_snoc. Qed.

(** The neighbours of an entry are linked to other entries. *)
Lemma relink_prev_ok a k b na lk pb nb B o h tl c n : NoDup (a ++ k :: b) -> parts a k b na lk pb nb c ->
  exists c', (match last_or a None with Some _ => set_forward (last_or a None) n | None => set_head n end) (mk B o h tl c) = Ok (tt, mk B o (match a with [] => n | _ => h end) tl c') /\ parts a k b n lk pb nb c'.
Proof.
  intros Hn Hp. destruct (last_cases a) as [[-> _] | (a' & p & Ea & Ep)].
  - eexists. split; [reflexivity |]. destruct Hp as (_ & ? & ?). by split_and!.
  - assert (Elp : last_or a None = Some p) by (unfold last_or; by rewrite Ep). rewrite Elp. destruct (parts_before Hn p a' _ n _ _ _ _ Ea Hp) as (lp & Hlp & H2).
    eexists. split; [rewrite (set_forward_ok _ _ _ _ _ _ _ _ Hlp); by destruct a | done].
Qed.
Lemma relink_next_ok a k b na lk pb nb B o h tl c q : NoDup (a ++ k :: b) -> parts a k b na lk pb nb c ->
  exists c', (match first_or b None with Some _ => set_backward (first_or b None) q | None => set_tail q end) (mk B o h tl c) = Ok (tt, mk B o h (match b with [] => q | _ => tl end) c') /\ parts a k b na lk q nb c'.
Proof.
  intros Hn Hp. destruct b as [|x b].
  - eexists. split; [reflexivity |]. destruct Hp as (? & ? & _). by split_and!.
  - destruct (parts_after Hn x b _ _ _ q _ _ eq_refl Hp) as (lx & Hx & H2). eexists. split; [apply (set_backward_ok _ _ _ _ _ _ _ _ Hx) | done].
Qed.
(** The entry becomes the last one. *)
Lemma append_ok a k b y b' lk B o h c : NoDup (a ++ k :: b) -> b = b' ++ [y] -> parts a k b (first_or b None) (Some lk) (last_or a None) None c ->
  exists c', (set_forward (Some k) None ;;; set_backward (Some k) (Some y) ;;; set_forward (Some y) (Some k) ;;; set_tail (Some k)) (mk B o h (Some y) c) = Ok (tt, mk B o h (Some k) c') /\ dseg None (a ++ b ++ [k]) None c' /\
    (set_backward (Some k) (Some y) ;;; set_forward (Some k) None ;;; set_forward (Some y) (Some k) ;;; set_tail (Some k)) (mk B o h (Some y) c) = Ok (tt, mk B o h (Some k) c').
Proof.
  intros Hn Eb H2. pose proof H2 as (_ & Hk & _). rewrite (bind_ok _ _ _ _ _ (set_forward_ok _ _ _ _ _ _ _ _ Hk)), (bind_ok (set_backward _ _) _ _ _ _ (set_backward_ok _ _ _ _ _ _ _ _ Hk)).
  set (c1 := <[k:=Link None _]> c). assert (H3 := parts_self Hn _ _ (Link None (chainBackward lk)) _ _ _ H2). fold c1 in H3. pose proof H3 as (_ & Hk2 & _).
  set (c2 := <[k:=Link _ (Some y)]> c). assert (Hk3 : c2 !! k = Some (Link (chainForward lk) (Some y))) by apply lookup_insert_eq.
  rewrite (bind_ok _ _ _ _ _ (set_backward_ok _ _ _ _ _ _ _ _ Hk2)), (bind_ok (set_forward (Some k) None) _ _ _ _ (set_forward_ok _ _ _ _ _ _ _ _ Hk3)). cbn [chainForward chainBackward].
  unfold c1, c2. rewrite !insert_insert_eq. apply (parts_self Hn _ _ (Link None (Some y))) in H2. destruct (parts_end Hn y b' _ _ _ _ (Some k) _ Eb H2) as (ly & Hy & H4).
  rewrite (bind_ok _ _ _ _ _ (set_forward_ok _ _ _ _ _ _ _ _ Hy)). eexists. split_and!; [reflexivity | | reflexivity]. apply (parts_last Hn); [by rewrite Eb; destruct b' |]. assert (list.last b = Some y) as -> by (rewrite Eb; apply last_snoc). exact H4.
Qed.
Lemma head_without a b k : b <> [] -> match a with [] => first_or b None | _ => list.head (a ++ k :: b) end = list.head (a ++ b).
Proof. destruct a; [|done]. by destruct b. Qed.
Lemma use_entry_ok a k b B o c : NoDup (a ++ k :: b) -> b <> [] -> dseg None (a ++ k :: b) None c ->
  exists c', use_entry k (mk B o (list.head (a ++ k :: b)) (list.last b) c) = Ok (tt, mk B o (list.head (a ++ b)) (Some k) c') /\ dseg None (a ++ b ++ [k]) None c'.
Proof.
  intros Hn Hb Hd. apply parts_of in Hd. destruct (last_cases b) as [[E _] | (b' & y & Eb & El)]; [done |]. rewrite El. pose proof Hd as (_ & Hk & _).
  unfold use_entry. rewrite (bind_ok _ _ _ _ _ (get_tail_ok _ _ _ _ _)), (bind_ok _ _ _ _ _ (backward_ok _ _ _ _ _ _ _ Hk)), (bind_ok _ _ _ _ _ (forward_ok _ _ _ _ _ _ _ Hk)). cbn [chainForward chainBackward].
  destruct (relink_next_ok a k b _ _ _ _ B o (list.head (a ++ k :: b)) (Some y) c (last_or a None) Hn Hd) as (c1 & E1 & H1). destruct b as [|x b0]; [done |]. cbn [first_or list.head] in E1 |- *. rewrite (bind_ok _ _ _ _ _ E1).
  destruct (relink_prev_ok a k (x :: b0) _ _ _ _ B o (list.head (a ++ k :: x :: b0)) (Some y) c1 (Some x) Hn H1) as (c2 & E2 & H2). rewrite (bind_ok _ _ _ _ _ E2).
  change (Some x) with (first_or (x :: b0) None). rewrite head_without by done. destruct (append_ok a k (x :: b0) y b' _ B o (list.head (a ++ x :: b0)) c2 Hn Eb H2) as (c3 & E3 & H3 & _). by exists c3.
Qed.
Lemma bypass_ok a k b B o c : NoDup (a ++ k :: b) -> dseg None (a ++ k :: b) None c ->
  exists c', bypass k (mk B o (list.head (a ++ k :: b)) (list.last (a ++ k :: b)) c) = Ok (tt, mk B o (list.head (a ++ b)) (list.last (a ++ b)) c') /\ dseg None (a ++ b) None c'.
Proof.
  intros Hn Hd. apply parts_of in Hd. pose proof Hd as (_ & Hk & _). unfold bypass. rewrite (bind_ok _ _ _ _ _ (backward_ok _ _ _ _ _ _ _ Hk)), (bind_ok _ _ _ _ _ (forward_ok _ _ _ _ _ _ _ Hk)). cbn [chainForward chainBackward].
  destruct (relink_prev_ok a k b _ _ _ _ B o (list.head (a ++ k :: b)) (list.last (a ++ k :: b)) c (first_or b None) Hn Hd) as (c1 & E1 & H1). rewrite (bind_ok _ _ _ _ _ E1).
  match goal with |- context [mk B o ?h ?tl c1] => destruct (relink_next_ok a k b _ _ _ _ B o h tl c1 (last_or a None) Hn H1) as (c2 & E2 & H2) end. rewrite E2. exists c2. split; [|by eapply parts_join].
  do 3 f_equal.
  - destruct a; [by destruct b | done].
  - destruct (last_cases b) as [[-> _] | (b' & y & -> & _)]; [rewrite app_nil_r; by unfold last_or; destruct (list.last a) |].
    rewrite (app_comm_cons b'), !app_assoc, !last_snoc. by destruct b'.
Qed.
Lemma linkEntry_ok a k b B o c : NoDup (a ++ k :: b) -> dseg None (a ++ k :: b) None c -> let ks := if o then a ++ b ++ [k] else a ++ k :: b in
  exists c', linkEntry (Some k) (mk B o (list.head (a ++ k :: b)) (list.last (a ++ k :: b)) c) = Ok (tt, mk B o (list.head ks) (list.last ks) c') /\ dseg None ks None c'.
Proof.
  intros Hn Hd ks. unfold linkEntry. rewrite (bind_ok _ _ _ _ _ (get_tail_ok _ _ _ _ _)). cbn [get_head is_accessOrder bind head accessOrder].
  destruct (last_cases b) as [[-> _] | (b' & y & Eb & El)].
  { rewrite last_snoc, bool_decide_eq_true_2 by done. exists c. unfold ks. rewrite app_nil_l. destruct o; by rewrite last_snoc. }
  assert (Hy : list.last (a ++ k :: b) = Some y) by (rewrite Eb, (app_comm_cons b'), app_assoc; apply last_snoc). rewrite Hy.
  assert (Hky : y <> k) by (intros ->; destruct (nd_parts Hn) as (_ & _ & _ & Hkb & _); apply Hkb; rewrite Eb; apply elem_of_app; right; by left).
  rewrite bool_decide_eq_false_2 by congruence. rewrite bool_decide_eq_false_2 by (by destruct a). pose proof (parts_of _ _ _ _ Hd) as Hp. pose proof Hp as (_ & Hk & _).
  rewrite (bind_ok _ _ _ _ _ (backward_ok _ _ _ _ _ _ _ Hk)), (bind_ok _ _ _ _ _ (forward_ok _ _ _ _ _ _ _ Hk)). cbn [chainForward chainBackward].
  destruct o; [|exists c; unfold ks; rewrite Hy; destruct (last_or a None), (first_or b None) eqn:Ef; try done; by rewrite Eb in Ef; destruct b'].
  assert (list.head ks = list.head (a ++ b) /\ list.last ks = Some k) as [-> ->].
  { unfold ks. split; [rewrite Eb; destruct a; [by destruct b' | done] | by rewrite app_assoc, last_snoc]. }
  assert (Hb : b <> []) by (rewrite Eb; by destruct b'). assert (exists x, first_or b None = Some x) as [x Ex] by (destruct b; [done | by eexists]). rewrite Ex.
  destruct (last_cases a) as [[-> _] | (a' & p & Ea & Ep)].
  - change (last_or [] None) with (@None K). cbv iota. rewrite (bind_ok _ _ _ _ _ (set_head_ok _ _ _ _ _ _)). destruct (relink_next_ok [] k b _ _ _ _ B true (Some x) (Some y) c None Hn Hp) as (c1 & E1 & H1).
    rewrite Ex in E1. destruct b as [|x' b]; [done |]. rewrite (bind_ok _ _ _ _ _ E1). destruct (append_ok [] k (x' :: b) y b' _ B true (Some x) c1 Hn Eb H1) as (c2 & _ & H2 & E2). exists c2. rewrite E2. cbn in Ex. by injection Ex as <-.
  - assert (Elp : last_or a None = Some p) by (unfold last_or; by rewrite Ep). rewrite Elp. cbv iota. destruct (relink_prev_ok a k b _ _ _ _ B true (list.head (a ++ k :: b)) (Some y) c (Some x) Hn Hp) as (c1 & E1 & H1).
    rewrite Elp in E1. rewrite (bind_ok _ _ _ _ _ E1). match goal with |- context [mk B true ?h ?tl c1] => destruct (relink_next_ok a k b _ _ _ _ B true h tl c1 (Some p) Hn H1) as (c2 & E2 & H2) end.
    rewrite Ex in E2. destruct b as [|x' b]; [done |]. rewrite (bind_ok _ _ _ _ _ E2). rewrite <- Elp, <- Ex in H2. match goal with |- context [mk B true ?h _ c2] => destruct (append_ok a k (x' :: b) y b' _ B true h c2 Hn Eb H2) as (c3 & E3 & H3 & _) end.
    exists c3. rewrite E3. split; [|done]. by destruct a.
Qed.
Lemma linkEntry_new ks k B o c : NoDup ks -> k ∉ ks -> dseg None ks None c -> c !! k = Some (Link None None) ->
  exists c', linkEntry (Some k) (mk B o (list.head ks) (list.last ks) c) = Ok (tt, mk B o (list.head (ks ++ [k])) (Some k) c') /\ dseg None (ks ++ [k]) None c'.
Proof.
  intros Hn Hk Hd Hc. unfold linkEntry. rewrite (bind_ok _ _ _ _ _ (get_tail_ok _ _ _ _ _)). cbn [get_head is_accessOrder bind head accessOrder].
  destruct (last_cases ks) as [[-> _] | (b & y & Eb & El)].
  - rewrite bool_decide_eq_false_2 by done. rewrite bool_decide_eq_true_2 by done. eexists. split; [reflexivity |]. by split.
  - rewrite El. rewrite bool_decide_eq_false_2 by (intros [= ->]; apply Hk; rewrite Eb; apply elem_of_app; right; by left). rewrite bool_decide_eq_false_2 by (rewrite Eb; by destruct b).
    rewrite (bind_ok _ _ _ _ _ (backward_ok _ _ _ _ _ _ _ Hc)), (bind_ok _ _ _ _ _ (forward_ok _ _ _ _ _ _ _ Hc)). cbn [chainForward chainBackward].
    destruct (append_ok [] k ks y b (Link None None) B o (list.head ks) c) as (c' & _ & H2 & E2); [by constructor | done | by split_and! |]. exists c'. rewrite E2. split; [|done]. rewrite Eb. by destruct b.
Qed.
End Moves.
