(* ===== verification/LinkedRefinement.v ===== *)
(** * What linked hash maps and LRU caches promise

    Every operation of LinkedHashMap against the list of its entries in chain order, and
    LRUCache as the cache that drops the least recently used entry. *)

From stdpp Require Import gmap.
From S2P Require Import Prelude HashMaps HashMapLaws HashMapIterators LinkedHashMaps LinkedLaws.
Import LinkedHashMap.

(** ** Lists of entries *)
Section Lists.
Context {K V : Type} `{Countable K}.
Implicit Types (l : list (K * V)) (k : K) (v : V).
Definition lookup_in k l : option V := (list_to_map l : gmap K V) !! k.
Definition drop_key k l : list (K * V) := filter (fun x => x.1 <> k) l.
Definition used (order : bool) k l : list (K * V) :=
  match lookup_in k l with Some v => if order then drop_key k l ++ [(k, v)] else l | None => l end.
Definition stored (order : bool) k v l : list (K * V) :=
  match lookup_in k l with
  | Some _ => if order then drop_key k l ++ [(k, v)] else map (fun x => if bool_decide (x.1 = k) then (k, v) else x) l
  | None => l ++ [(k, v)]
  end.
Lemma drop_key_none k l : k ∉ l.*1 -> drop_key k l = l.
Proof.
  induction l as [|[x w] l IH]; intros Hk; [done |]. cbn in Hk. apply not_elem_of_cons in Hk as [Hne Hk]. unfold drop_key in *. rewrite filter_cons_True by done. f_equal. auto.
Qed.
Lemma drop_key_split l1 k v l2 : NoDup (l1 ++ (k, v) :: l2).*1 -> drop_key k (l1 ++ (k, v) :: l2) = l1 ++ l2 /\ (k ∉ l1.*1) /\ (k ∉ l2.*1).
Proof.
  rewrite fmap_app. cbn. intros (_ & Hd & Hn)%list.NoDup_app. apply NoDup_cons_1_1 in Hn. assert (Hk : k ∉ l1.*1) by (intros Hk; apply (Hd _ Hk); by left).
  split; [|done]. unfold drop_key. rewrite list.filter_app, filter_cons_False by (cbn; tauto). f_equal; by apply drop_key_none.
Qed.
Lemma lookup_split k v l : NoDup l.*1 -> lookup_in k l = Some v -> exists l1 l2, l = l1 ++ (k, v) :: l2 /\ drop_key k l = l1 ++ l2.
Proof.
  intros Hn Hl. unfold lookup_in in Hl. apply elem_of_list_to_map_2 in Hl. apply list_elem_of_split in Hl as (l1 & l2 & ->). exists l1, l2. split; [done |]. by apply drop_key_split in Hn as [-> _].
Qed.
Lemma lookup_absent k l : lookup_in k l = None <-> k ∉ l.*1.
Proof. unfold lookup_in. by rewrite <- not_elem_of_list_to_map. Qed.
Lemma move_perm (l1 l2 : list (K * V)) x : l1 ++ l2 ++ [x] ≡ₚ l1 ++ x :: l2.
Proof. apply Permutation_app_head. by rewrite Permutation_app_comm. Qed.
Lemma map_perm l l' : NoDup l.*1 -> l' ≡ₚ l -> (list_to_map l' : gmap K V) = list_to_map l.
Proof. intros Hn Hp. symmetry. by apply list_to_map_proper. Qed.
Lemma keys_perm l l' : l' ≡ₚ l -> NoDup l.*1 -> NoDup l'.*1.
Proof. by intros ->. Qed.
Lemma stored_keys o k v l : NoDup l.*1 -> NoDup (stored o k v l).*1.
Proof.
  intros Hn. unfold stored. destruct (lookup_in k l) as [w|] eqn:E.
  - destruct (lookup_split k w l Hn E) as (l1 & l2 & -> & ->). destruct o.
    + rewrite <- app_assoc. rewrite fmap_app in Hn. cbn in Hn. assert (Hp : (l1 ++ l2 ++ [(k, v)]).*1 ≡ₚ l1.*1 ++ k :: l2.*1) by (rewrite (move_perm l1 l2 (k, v)), fmap_app; done). by rewrite Hp.
    + enough ((map (fun x => if bool_decide (x.1 = k) then (k, v) else x) (l1 ++ (k, w) :: l2)).*1 = (l1 ++ (k, w) :: l2).*1) as -> by done.
      generalize (l1 ++ (k, w) :: l2). intros l. induction l as [|[x u] l IH]; cbn; [done |]. rewrite IH. case_bool_decide; by cbn in *; subst.
  - apply lookup_absent in E. rewrite fmap_app. cbn. apply list.NoDup_app. split_and!; [done | | apply NoDup_singleton]. intros x Hx ->%list_elem_of_singleton. done.
Qed.
Lemma stored_map o k v l : NoDup l.*1 -> (list_to_map (stored o k v l) : gmap K V) = <[k := v]> (list_to_map l).
Proof.
  intros Hn. unfold stored. destruct (lookup_in k l) as [w|] eqn:E.
  - destruct (lookup_split k w l Hn E) as (l1 & l2 & -> & ->). apply drop_key_split in Hn as Hs. destruct Hs as (_ & H1 & H2).
    assert (E2 : (list_to_map (l1 ++ (k, v) :: l2) : gmap K V) = <[k := v]> (list_to_map (l1 ++ (k, w) :: l2))).
    { clear E Hn. induction l1 as [|[x u] l1 IH]; cbn; [by rewrite insert_insert_eq |]. apply not_elem_of_cons in H1 as [Hne H1]. cbn in Hne. rewrite IH by done. by rewrite insert_insert_ne. }
    rewrite <- E2. rewrite fmap_app in Hn. destruct o.
    + rewrite <- app_assoc. apply map_perm; [by rewrite fmap_app | apply move_perm].
    + f_equal. rewrite map_app. cbn. rewrite bool_decide_eq_true_2 by done. assert (Hid : forall l, k ∉ l.*1 -> map (fun x : K * V => if bool_decide (x.1 = k) then (k, v) else x) l = l).
      { clear. induction l as [|[x u] l IH]; cbn; intros Hk; [done |]. apply not_elem_of_cons in Hk as [Hne Hk]. rewrite bool_decide_eq_false_2 by (cbn; congruence). f_equal. auto. }
      by rewrite !Hid.
  - apply lookup_absent in E. rewrite (map_perm ((k, v) :: l)); [done | | by rewrite Permutation_app_comm]. cbn. by constructor.
Qed.
Lemma drop_key_map k l : NoDup l.*1 -> (list_to_map (drop_key k l) : gmap K V) = delete k (list_to_map l).
Proof.
  intros Hn. destruct (lookup_in k l) as [v|] eqn:E.
  - destruct (lookup_split k v l Hn E) as (l1 & l2 & -> & ->). apply drop_key_split in Hn as Hs. destruct Hs as (_ & H1 & H2).
    assert (E2 : (list_to_map (l1 ++ (k, v) :: l2) : gmap K V) = list_to_map ((k, v) :: l1 ++ l2)) by (apply map_perm; [eapply keys_perm; [apply Permutation_middle | done] | by rewrite Permutation_middle]).
    rewrite E2. cbn. rewrite delete_insert_id; [done |]. apply not_elem_of_list_to_map. rewrite fmap_app. by intros [?|?]%elem_of_app.
  - rewrite drop_key_none by (by apply lookup_absent). symmetry. by apply delete_id.
Qed.
Definition evicted (limit : option Z) l : list (K * V) := match limit with Some n => if n <? zlen l then List.tl l else l | None => l end.
Lemma stored_length o k v l : NoDup l.*1 -> zlen l <= zlen (stored o k v l) <= zlen l + 1 /\ 0 < zlen (stored o k v l).
Proof.
  intros Hn. unfold stored, zlen. destruct (lookup_in k l) as [w|] eqn:E.
  - destruct (lookup_split k w l Hn E) as (l1 & l2 & -> & ->). destruct o; rewrite ?length_map, ?length_app; cbn; rewrite ?length_app; cbn; lia.
  - rewrite length_app. cbn. lia.
Qed.
Definition stored_all (o : bool) (es l : list (K * V)) : list (K * V) := fold_left (fun l '(k, v) => stored o k v l) es l.
Lemma stored_all_length o es : forall l, NoDup l.*1 -> zlen (stored_all o es l) <= zlen l + zlen es.
Proof.
  induction es as [|[k v] es IH]; intros l Hn; [unfold zlen; cbn; lia |]. cbn [stored_all fold_left]. change (zlen (stored_all o es (stored o k v l)) <= zlen l + zlen ((k, v) :: es)).
  pose proof (IH _ (stored_keys o k v l Hn)). pose proof (stored_length o k v l Hn) as [? _]. unfold zlen in *. cbn. lia.
Qed.
Lemma drop_key_length k l : zlen (drop_key k l) <= zlen l.
Proof. unfold zlen, drop_key. pose proof (length_filter (fun x => x.1 <> k) l). lia. Qed.
Lemma used_length o k l : NoDup l.*1 -> zlen (used o k l) = zlen l.
Proof.
  intros Hn. unfold used. destruct (lookup_in k l) as [v|] eqn:E; [|done]. destruct o; [|done]. destruct (lookup_split k v l Hn E) as (l1 & l2 & -> & ->). unfold zlen. rewrite !length_app. cbn. lia.
Qed.
Lemma evicted_length limit l : zlen (evicted limit l) <= zlen l.
Proof. destruct limit as [n|]; [|done]. cbn. destruct (_ <? _); [|done]. destruct l; unfold zlen; cbn; lia. Qed.
End Lists.

Section Rep.
Context {K V : Type} `{Countable K} (hashFunc : K -> Z) (V0 : V).
Implicit Types (m : t K V) (l : list (K * V)) (k : K) (v : V).

Lemma bind_base {A} (g : HashMap.t K V -> M (t K V) A) m : bind get_base g m = g (base m) m.
Proof. done. Qed.
Lemma bind_head {A} (g : option K -> M (t K V) A) m : bind get_head g m = g (head m) m.
Proof. done. Qed.
Record rep m l : Prop := {
  rep_base : map_ok hashFunc (base m);
  rep_contents : contents (base m) = list_to_map l;
  rep_keys : NoDup l.*1;
  rep_chain : dseg None l.*1 None (chain m);
  rep_head : head m = list.head l.*1;
  rep_tail : tail m = list.last l.*1 }.



(** A move of the entry of a key in the chain is a move in the list. *)
Lemma rep_move m m' l1 k v l2 : rep m (l1 ++ (k, v) :: l2) -> base m' = base m -> dseg None (l1.*1 ++ l2.*1 ++ [k]) None (chain m') ->
  head m' = list.head (l1.*1 ++ l2.*1 ++ [k]) -> tail m' = Some k -> rep m' (l1 ++ l2 ++ [(k, v)]).
Proof.
  intros [Hb Hc Hn Hd _ _] Eb Hd' Hh Ht. split.
  - by rewrite Eb.
  - rewrite Eb, Hc. symmetry. apply map_perm; [done | apply move_perm].
  - eapply keys_perm; [apply move_perm | done].
  - by rewrite !fmap_app.
  - by rewrite !fmap_app.
  - rewrite Ht, app_assoc, fmap_app. symmetry. apply last_snoc.
Qed.

Lemma getEntry_rep m l k : rep m l -> exists r m', getEntry hashFunc k m = Ok (r, m') /\ HashMap.value <$> r = lookup_in k l /\ rep m' (used (accessOrder m) k l) /\ base m' = base m /\ accessOrder m' = accessOrder m.
Proof.
  intros Hr. pose proof Hr as [Hb Hc Hn Hd Hh Ht]. unfold getEntry. unfold get_base. cbn [bind]. destruct (getEntry_ok hashFunc (base m) k (ok_table _ _ Hb)) as (r & E & Hv & _).
  unfold HashMap.getEntry in E. rewrite E. cbn [liftR bind is_accessOrder get_tail]. rewrite Hc in Hv. fold (lookup_in k l) in Hv. unfold bind, ret. destruct r as [e|]; cbn in Hv.
  - rewrite bool_decide_eq_true_2 by done. destruct (accessOrder m) eqn:Eo; cbn [andb].
    + symmetry in Hv. destruct (lookup_split k _ l Hn Hv) as (l1 & l2 & -> & Edr). unfold used. rewrite Hv, Edr. rewrite !fmap_app in *. cbn in Hd, Hh, Ht, Hn. destruct (last_cases l2) as [[-> _] | (l2' & y & El & _)].
      * cbn in Ht. rewrite Ht, last_snoc, bool_decide_eq_true_2 by done. cbn. eexists _, m. split; [reflexivity |]. split_and!; [done | | done | done]. by rewrite app_nil_r.
      * assert (Hy : list.last l2.*1 = Some y.1) by (rewrite El, fmap_app; apply last_snoc). assert (Hl2 : l2.*1 <> []) by (rewrite El, fmap_app; by destruct l2'.*1).
        assert (Htl : tail m = list.last l2.*1) by (rewrite Ht, Hy, El, fmap_app, (app_comm_cons (l2'.*1)), app_assoc; apply last_snoc).
        assert (Hky : tail m <> Some k). { rewrite Htl, Hy. intros [= Hk]. destruct (nd_parts Hn) as (_ & _ & _ & Hkb & _). apply Hkb. rewrite <- Hk, El, fmap_app. apply elem_of_app. right. by left. }
        rewrite bool_decide_eq_false_2 by done. cbn [negb]. destruct (use_entry_ok l1.*1 k l2.*1 (base m) true (chain m) Hn Hl2 Hd) as (c' & E' & Hd').
        assert (Em : m = mk (base m) true (list.head (l1.*1 ++ k :: l2.*1)) (list.last l2.*1) (chain m)) by (destruct m; cbn in *; congruence). rewrite <- Em in E'. rewrite E'. eexists _, _. split; [reflexivity |]. split_and!; [done | | done | done].
        rewrite <- app_assoc. eapply rep_move; [exact Hr | done | done | | done]. cbn. rewrite app_assoc. rewrite El, fmap_app, app_assoc. by destruct (l1.*1 ++ l2'.*1).
    + eexists _, m. split; [reflexivity |]. split_and!; [done | | done | done]. unfold used. by destruct (lookup_in k l).
  - rewrite bool_decide_eq_false_2 by (by intros [? [=]]). cbn. eexists _, m. split; [reflexivity |]. split_and!; [done | | done | done]. unfold used. by rewrite <- Hv.
Qed.

Lemma get_rep m l k : rep m l -> match lookup_in k l with
  | Some v => exists m', get hashFunc k m = Ok (v, m') /\ rep m' (used (accessOrder m) k l) /\ accessOrder m' = accessOrder m
  | None => get hashFunc k m = Err (Throw NoSuchElementException) end.
Proof.
  intros Hr. destruct (getEntry_rep m l k Hr) as (r & m' & E & Hv & Hr' & _ & Ho). unfold get. rewrite (bind_ok _ _ _ _ _ E). rewrite <- Hv. destruct r; [by exists m' | done].
Qed.
(** ** Storing *)
(** A new entry in the table. *)
Lemma create_ok (B : HashMap.t K V) k v : map_ok hashFunc B -> HashMap.elementCount B < 2 ^ 29 -> contents B !! k = None ->
  let B1 := HashMap.with_count (HashMap.elementCount B + 1) (HashMap.touch B) in
  exists B2 B3, (if HashMap.threshold B1 <? HashMap.elementCount B1 then HashMap.rehash B1 else Ok B1) = Ok B2 /\
    HashMap.createHashedEntry V0 k (HashMap.index_of (hashFunc k) (HashMap.length B2)) (hashFunc k) B2 = Ok B3 /\ map_ok hashFunc (HashMap.setValue k v B3) /\ contents (HashMap.setValue k v B3) = <[k := v]> (contents B).
Proof.
  intros [Ht Hc Hld] Hs Hk B1. assert (Hk' : k ∉ HashMap.key <$> entries B) by (by apply lookup_contents_none).
  assert (exists B2, (if HashMap.threshold B1 <? HashMap.elementCount B1 then HashMap.rehash B1 else Ok B1) = Ok B2 /\ table_ok hashFunc (HashMap.elementData B2) /\ entries B2 ≡ₚ entries B /\
    HashMap.elementCount B2 = HashMap.elementCount B + 1 /\ loaded B2) as (B2 & -> & Ht2 & Hp2 & Hc2 & Hl2).
  { destruct (Z.ltb_spec (HashMap.threshold B1) (HashMap.elementCount B1)) as [Hlt | _]; [|by exists B1]. destruct (rehash_to_ok hashFunc B1 (HashMap.length B1) Ht) as (B2 & ? & ? & ? & ? & _ & Hl).
    - split; [unfold HashMap.length, zlen; lia |]. change (HashMap.threshold B1) with (HashMap.threshold B) in Hlt. change (HashMap.length B1) with (HashMap.length B). change (HashMap.elementCount B1) with (HashMap.elementCount B + 1) in Hlt. rewrite (proj2 Hld) in Hlt. Z.div_mod_to_equations. lia.
    - exists B2. split_and!; [done | done | done | done | by apply Hl]. }
  exists B2. unfold HashMap.createHashedEntry. destruct (push_ok hashFunc (HashMap.elementData B2) (HashMap.Entry k V0 (hashFunc k)) Ht2) as (b & Eb & Es & Ht3 & Hl3 & Hp3); [done | change (concat (HashMap.elementData B2)) with (entries B2); by rewrite Hp2 |].
  cbn [HashMap.origKeyHash] in Eb, Es, Ht3, Hl3, Hp3. unfold HashMap.length. rewrite Eb. cbn [rbind]. rewrite Es. cbn [rbind]. eexists. split; [done |]. split; [reflexivity |].
  destruct (fill_ok hashFunc V0 B (HashMap.with_data _ B2) k v Ht Hc Hk' Ht3) as (H1 & H2 & _); [| done | | by split].
  - unfold entries at 1. cbn. rewrite Hp3. by apply Permutation_skip.
  - unfold loaded, HashMap.length in *. cbn. by rewrite Hl3.
Qed.
Lemma rep_size m l : rep m l -> size m = zlen l.
Proof.
  intros [Hb Hc Hn _ _ _]. unfold size, HashMap.size. pose proof (size_ok _ _ Hb) as E. unfold HashMap.size in E. rewrite E, Hc, map_size_list_to_map by done. done.
Qed.
Lemma create_links (B B' : HashMap.t K V) o h tl (c : gmap K (link K)) k i hash : HashMap.createHashedEntry V0 k i hash B = Ok B' ->
  createHashedEntry V0 k i hash (mk B o h tl c) = linkEntry (Some k) (mk B' o h tl (<[k := Link None None]> c)).
Proof. intros E. unfold createHashedEntry, get_base, liftR, set_base, set_link, set_chain, bind. cbn [base accessOrder head tail chain]. by rewrite E. Qed.
Lemma putImpl_rep m l k v : rep m l -> zlen l < 2 ^ 29 ->
  exists m', putImpl hashFunc V0 k v m = Ok ((bool_decide (is_Some (lookup_in k l)), lookup_in k l), m') /\ rep m' (stored (accessOrder m) k v l) /\ accessOrder m' = accessOrder m.
Proof.
  intros Hr Hs. pose proof (rep_size m l Hr) as Hsz. destruct Hr as [Hb Hc Hn Hd Hh Ht]. destruct m as [B o h tl c]. cbn in *. unfold putImpl. cbn [get_base bind base].
  assert (E0 : (if HashMap.elementCount B =? 0 then set_head None ;;; set_tail None else ret tt) (mk B o h tl c) = Ok (tt, mk B o h tl c)).
  { destruct (Z.eqb_spec (HashMap.elementCount B) 0) as [E|]; [|done]. unfold size, HashMap.size in Hsz. cbn in Hsz. rewrite E in Hsz. destruct l; [|unfold zlen in Hsz; cbn in Hsz; lia]. subst h tl. done. }
  rewrite (bind_ok _ _ _ _ _ E0). pose proof (ok_table _ _ Hb) as Htab. destruct (findKeyEntry_ok hashFunc B k Htab) as (r & E & Hr). rewrite E. cbn [liftR bind]. destruct r as [e|].
  - destruct Hr as [He <-]. assert (Hl : lookup_in (HashMap.key e) l = Some (HashMap.value e)) by (unfold lookup_in; rewrite <- Hc; apply contents_entry; [apply Htab | done]).
    rewrite Hl, bool_decide_eq_true_2 by done. destruct (lookup_split _ _ l Hn Hl) as (l1 & l2 & El & Edr). assert (Hks : l.*1 = l1.*1 ++ HashMap.key e :: l2.*1) by (by rewrite El, fmap_app).
    rewrite Hks in Hd, Hn, Hh, Ht. subst h tl. destruct (linkEntry_ok l1.*1 (HashMap.key e) l2.*1 B o c Hn Hd) as (c' & E' & Hd'). rewrite (bind_ok _ _ _ _ _ E'). cbn. eexists. split; [reflexivity |]. split; [|done].
    destruct (setValue_ok hashFunc B (HashMap.key e) v Htab) as (Ht' & Ee & Hv); [by apply list_elem_of_fmap_2 |].
    assert (Hkeys : (stored o (HashMap.key e) v l).*1 = if o then l1.*1 ++ l2.*1 ++ [HashMap.key e] else l1.*1 ++ HashMap.key e :: l2.*1).
    { unfold stored. rewrite Hl, Edr. destruct o; [by rewrite <- app_assoc, !fmap_app |]. rewrite <- Hks. generalize l. clear. induction l as [|[x u] l IH]; cbn; [done |]. rewrite IH. case_bool_decide; by cbn in *; subst. }
    rewrite <- Hks in Hn. split; cbn [base chain head tail]; [split; [done | |] | | by apply stored_keys | by rewrite Hkeys | by rewrite Hkeys | by rewrite Hkeys].
    + rewrite Ee. cbn. unfold zlen. rewrite length_fmap. apply Hb.
    + destruct Hb as [_ _ Hld]. unfold loaded, HashMap.length, zlen in *. cbn. by rewrite length_map.
    + by rewrite Hv, Hc, stored_map.
  - assert (Hk : contents B !! k = None) by (by apply lookup_contents_none). assert (Hl : lookup_in k l = None) by (unfold lookup_in; by rewrite <- Hc). rewrite Hl. rewrite bool_decide_eq_false_2 by (by intros [? [=]]).
    destruct (create_ok B k v Hb) as (B2 & B3 & E2 & E3 & Hm & Hcont); [unfold size, HashMap.size in Hsz; cbn in Hsz; lia | done |].
    change (HashMap.threshold (HashMap.with_count (HashMap.elementCount B + 1) (HashMap.touch B))) with (HashMap.threshold B) in E2. change (HashMap.elementCount (HashMap.with_count (HashMap.elementCount B + 1) (HashMap.touch B))) with (HashMap.elementCount B + 1) in E2.
    rewrite E2. rewrite (bind_ok (liftR (Ok B2)) _ _ _ _ eq_refl), (bind_ok (set_base B2) _ _ _ _ eq_refl). apply lookup_absent in Hl as Hlk.
    destruct (linkEntry_new l.*1 k B3 o (<[k:=Link None None]> c) Hn Hlk) as (c' & E' & Hd'); [by apply dseg_frame | apply lookup_insert_eq |]. rewrite <- Hh, <- Ht, <- (create_links _ _ _ _ _ _ _ _ _ E3) in E'.
    cbn [base accessOrder head tail chain]. rewrite (bind_ok _ _ _ _ _ E'). eexists. split; [reflexivity |]. split; [|done]. assert (Hst : stored o k v l = l ++ [(k, v)]) by (unfold stored; by rewrite Hl).
    split; cbn [base chain head tail]; [done | by rewrite Hcont, Hc, stored_map | by apply stored_keys | by rewrite Hst, fmap_app | by rewrite Hst, fmap_app |]. rewrite Hst, fmap_app. symmetry. apply last_snoc.
Qed.

(** ** Removing *)
Lemma remove_rep m l k : rep m l -> match lookup_in k l with
  | Some v => exists m', remove hashFunc k m = Ok (v, m') /\ rep m' (drop_key k l) /\ accessOrder m' = accessOrder m
  | None => remove hashFunc k m = Err (Throw NoSuchElementException) end.
Proof.
  intros [Hb Hc Hn Hd Hh Ht]. destruct m as [B o h tl c]. cbn [base chain head tail accessOrder] in *. unfold remove. rewrite bind_base. cbn [base].
  destruct (removeEntry_ok hashFunc B k Hb) as (r & B' & E & Hv & Hb' & Hc' & Hr). rewrite E. rewrite (bind_ok (liftR (Ok (r, B'))) _ _ _ _ eq_refl). cbn [fst snd]. rewrite (bind_ok (set_base B') _ _ _ _ eq_refl). cbn [base chain head tail accessOrder].
  rewrite Hc in Hv, Hc'. fold (lookup_in k l) in Hv. destruct r as [e|]; cbn in Hv; rewrite <- Hv; [|done]. symmetry in Hv. destruct (lookup_split k _ l Hn Hv) as (l1 & l2 & El & Edr).
  assert (Hks : l.*1 = l1.*1 ++ k :: l2.*1) by (by rewrite El, fmap_app). pose proof Hn as Hn0. rewrite Hks in Hd, Hn0, Hh, Ht. subst h tl. destruct (bypass_ok l1.*1 k l2.*1 B' o c Hn0 Hd) as (c' & E' & Hd').
  rewrite (bind_ok _ _ _ _ _ E'). unfold set_chain. cbn. eexists. split; [reflexivity |]. split; [|done]. pose proof (drop_key_map k l Hn) as Hmap. rewrite Edr in *.
  apply nd_parts in Hn0 as (Hna & Hnb & Hka & Hkb & Hab). split; cbn [base chain head tail]; rewrite ?fmap_app; [done | by rewrite Hc', Hmap | by apply list.NoDup_app | | done | done].
  apply dseg_frame_delete; [|done]. by intros [?|?]%elem_of_app.
Qed.
Lemma clear_rep m l : rep m l -> rep (clear m) [].
Proof. intros [Hb _ _ _ _ _]. destruct (clear_map_ok hashFunc _ Hb) as [H1 H2]. by split; cbn; [| | constructor | | |]. Qed.
Lemma make_rep (B : HashMap.t K V) o : map_ok hashFunc B -> contents B = ∅ -> rep (make B o) [].
Proof. intros H1 H2. by split; cbn; [| | constructor | | |]. Qed.

(** ** Storing with eviction *)
Definition eldest (limit : option Z) m : bool := match limit with Some n => LRUCache.removeEldestEntry n m | None => false end.
Lemma put_rep limit m l k v : rep m l -> zlen l < 2 ^ 29 -> exists m',
  put hashFunc V0 (eldest limit) k v m = Ok ((bool_decide (is_Some (lookup_in k l)), lookup_in k l), m') /\ rep m' (evicted limit (stored (accessOrder m) k v l)) /\ accessOrder m' = accessOrder m.
Proof.
  intros Hr Hs. destruct (putImpl_rep m l k v Hr Hs) as (m1 & E & Hr1 & Ho). unfold put. rewrite (bind_ok _ _ _ _ _ E). rewrite bind_head.
  pose proof (stored_length (accessOrder m) k v l (rep_keys _ _ Hr)) as [_ Hpos]. destruct (stored (accessOrder m) k v l) as [|[k0 v0] l1] eqn:Est; [unfold zlen in Hpos; cbn in Hpos; lia |].
  rewrite (rep_head _ _ Hr1). cbn [fmap list_fmap list.head fst]. destruct (eldest limit m1) eqn:Eld.
  - assert (Hev : evicted limit ((k0, v0) :: l1) = l1) by (destruct limit as [n|]; [|done]; unfold eldest, LRUCache.removeEldestEntry in Eld; unfold evicted; rewrite (rep_size _ _ Hr1) in Eld; by rewrite Eld). rewrite Hev.
    pose proof (remove_rep m1 _ k0 Hr1) as Hrem. assert (lookup_in k0 ((k0, v0) :: l1) = Some v0) as Hl by (unfold lookup_in; cbn; apply lookup_insert_eq). rewrite Hl in Hrem.
    destruct Hrem as (m2 & E2 & Hr2 & Ho2). exists m2. assert (Hd : drop_key k0 ((k0, v0) :: l1) = l1) by (exact (proj1 (drop_key_split [] k0 v0 l1 (rep_keys _ _ Hr1)))). rewrite Hd in Hr2.
    split_and!; [|done | congruence]. unfold bind at 1. rewrite Eld. by rewrite (bind_ok _ _ _ _ _ E2).
  - exists m1. split_and!; [unfold bind; by rewrite Eld | | done]. destruct limit as [n|]; [|done]. unfold eldest, LRUCache.removeEldestEntry in Eld. unfold evicted. rewrite (rep_size _ _ Hr1) in Eld. by rewrite Eld.
Qed.
Lemma put_each_rep es : forall m l, rep m l -> zlen l + zlen es < 2 ^ 29 -> exists m', put_each hashFunc V0 es m = Ok (tt, m') /\ rep m' (stored_all (accessOrder m) es l) /\ accessOrder m' = accessOrder m.
Proof.
  induction es as [|[k v] es IH]; intros m l Hr Hs; cbn [put_each]; [by exists m |]. pose proof (stored_length (accessOrder m) k v l (rep_keys _ _ Hr)) as [Hl _]. unfold zlen in Hs. cbn [Datatypes.length] in Hs.
  destruct (putImpl_rep m l k v Hr) as (m1 & E & Hr1 & Ho); [unfold zlen; lia |]. rewrite (bind_ok _ _ _ _ _ E). destruct (IH m1 _ Hr1) as (m2 & E2 & Hr2 & Ho2); [unfold zlen in *; lia |].
  exists m2. rewrite Ho in Hr2, Ho2. by split_and!.
Qed.
Lemma rep_rebase m B l : rep m l -> map_ok hashFunc B -> contents B = contents (base m) -> rep (mk B (accessOrder m) (head m) (tail m) (chain m)) l.
Proof. intros [? ? ? ? ? ?] Hb Hc. split; cbn; [done | congruence | done..]. Qed.
Lemma putAll_rep es m l : rep m l -> zlen l + zlen es < 2 ^ 29 -> exists m', putAll hashFunc V0 es m = Ok (tt, m') /\ rep m' (stored_all (accessOrder m) es l) /\ accessOrder m' = accessOrder m.
Proof.
  intros Hr Hs. pose proof (rep_size m l Hr) as Hsz. pose proof (rep_base _ _ Hr) as Hb. unfold putAll. destruct es as [|x es]; [by exists m |]. revert Hs. generalize (x :: es). intros l0 Hs. rewrite bind_base. cbv zeta.
  assert (exists B, (if HashMap.threshold (base m) <? HashMap.elementCount (base m) + zlen l0 then HashMap.rehash_to (HashMap.elementCount (base m) + zlen l0) (base m) else Ok (base m)) = Ok B /\ map_ok hashFunc B /\ contents B = contents (base m)) as (B & -> & HB & HcB).
  { destruct (_ <? _); [|by exists (base m)]. destruct Hb as [Ht Hc Hld]. destruct (rehash_to_ok hashFunc (base m) (HashMap.elementCount (base m) + zlen l0) Ht) as (B & E & Ht' & Hp & Hc' & _ & Hl').
    - unfold size, HashMap.size in Hsz. unfold zlen in *. lia.
    - exists B. split_and!; [done | split; [done | by rewrite Hc', Hc, (zlen_perm _ _ Hp) | auto] |]. apply contents_perm; [apply Ht | done]. }
  rewrite (bind_ok (liftR (Ok B)) _ _ _ _ eq_refl), (bind_ok (set_base B) _ _ _ _ eq_refl). exact (put_each_rep l0 _ _ (rep_rebase m B l Hr HB HcB) Hs).
Qed.

Lemma copy_rep es m l : rep m l -> zlen es < 2 ^ 29 -> exists m', copy hashFunc V0 es m = Ok (tt, m') /\ rep m' (stored_all (accessOrder m) es []) /\ accessOrder m' = accessOrder m.
Proof.
  intros Hr Hs. unfold copy. destruct (emptied_ok hashFunc (zlen es) (base m) (rep_base _ _ Hr)) as (HB & Hc & _); [unfold zlen; lia |].
  apply (putAll_rep es (mk (emptied (zlen es) (base m)) (accessOrder m) None None (chain (clear m)))); [|unfold zlen in *; cbn [Datatypes.length]; lia]. by split; cbn [base chain head tail]; [| | constructor | | |].
Qed.
(** ** Walking along the chain *)
Lemma value_at_rep m l k v : rep m l -> lookup_in k l = Some v -> value_at k m = Ok (v, m).
Proof.
  intros Hr Hl. unfold value_at. rewrite bind_base. unfold lookup_in in Hl. rewrite <- (rep_contents _ _ Hr) in Hl. pose proof (ok_table _ _ (rep_base _ _ Hr)) as Ht.
  apply lookup_contents in Hl as (e & He & <- & <-); [|apply Ht]. by rewrite deref_ok by (done || apply Ht).
Qed.
Lemma contains_from_rep `{!EqDecision V} m l v : rep m l -> forall l2 l1, l = l1 ++ l2 -> forall fuel, (Datatypes.length l2 <= fuel)%nat ->
  contains_from fuel (list.head l2.*1) v m = Ok (bool_decide (v ∈ l2.*2), m).
Proof.
  intros Hr l2. induction l2 as [|[k w] l2 IH]; intros l1 El fuel Hf; [destruct fuel; cbn; by rewrite bool_decide_eq_false_2 by apply not_elem_of_nil |].
  destruct fuel as [|fuel]; [cbn in Hf; lia |]. change (list.head ((k, w) :: l2).*1) with (Some k). change (((k, w) :: l2).*2) with (w :: l2.*2). cbn [contains_from].
  assert (Hl : lookup_in k l = Some w) by (apply elem_of_list_to_map_1; [apply Hr | rewrite El; apply elem_of_app; right; by left]).
  rewrite (bind_ok _ _ _ _ _ (value_at_rep m l k w Hr Hl)). destruct (decide (v = w)) as [<- | Hne].
  - rewrite (bool_decide_eq_true_2 (v = v)) by done. rewrite bool_decide_eq_true_2 by (by left). done.
  - rewrite (bool_decide_eq_false_2 (v = w)) by done. pose proof (rep_chain _ _ Hr) as Hd. rewrite El, fmap_app in Hd. apply dseg_app in Hd as [_ [Hk _]]. change (list_fmap _ _ fst l2) with l2.*1 in Hk. change ((k, w).1) with k in Hk.
    destruct m as [B o h tl c]. rewrite (bind_ok _ _ _ _ _ (forward_ok B o h tl c k _ Hk)). cbn [chainForward]. replace (match list.head l2.*1 with Some n => Some n | None => None end) with (list.head l2.*1) by (destruct l2; reflexivity).
    cbn [Datatypes.length] in Hf. rewrite (IH (l1 ++ [(k, w)])); [|rewrite <- app_assoc; exact El | lia]. do 2 f_equal. apply bool_decide_ext. rewrite elem_of_cons. tauto.
Qed.

(** ** Calls *)
Context `{!EqDecision V}.
Definition linked_call (limit : option Z) (o : op) m : answer * t K V :=
  let answered {A} (r : result (A * t K V)) (f : A -> answer) := match r with Ok (x, m') => (f x, m') | Err e => (Thrown e, m) end in
  match o with
  | Put k v => answered (put hashFunc V0 (eldest limit) k v m) (fun r => Old (fst r) (snd r))
  | PutAll es => answered (putAll hashFunc V0 es m) (fun _ => Unit)
  | Remove k => answered (remove hashFunc k m) Value
  | Clear => (Unit, clear m)
  | Copy es => answered (copy hashFunc V0 es m) (fun _ => Unit)
  | Get k => answered (get hashFunc k m) Value
  | ContainsKey k => answered (containsKey hashFunc k m) Flag
  | ContainsValue v => answered (containsValue v m) Flag
  | Size => (Number (size m), m)
  | IsEmpty => (Flag (HashMap.isEmpty (base m)), m)
  end.
Definition list_call (limit : option Z) (order : bool) (o : op) l : answer * list (K * V) :=
  match o with
  | Put k v => (Old (bool_decide (is_Some (lookup_in k l))) (lookup_in k l), evicted limit (stored order k v l))
  | PutAll es => (Unit, stored_all order es l)
  | Remove k => (match lookup_in k l with Some v => Value v | None => Thrown (Throw NoSuchElementException) end, drop_key k l)
  | Clear => (Unit, [])
  | Copy es => (Unit, stored_all order es [])
  | Get k => (match lookup_in k l with Some v => Value v | None => Thrown (Throw NoSuchElementException) end, used order k l)
  | ContainsKey k => (Flag (bool_decide (is_Some (lookup_in k l))), used order k l)
  | ContainsValue v => (Flag (bool_decide (v ∈ l.*2)), l)
  | Size => (Number (zlen l), l)
  | IsEmpty => (Flag (bool_decide (l = [])), l)
  end.
Lemma linked_call_refines limit o m l : rep m l -> zlen l + growth o < 2 ^ 29 ->
  exists m', linked_call limit o m = (fst (list_call limit (accessOrder m) o l), m') /\ rep m' (snd (list_call limit (accessOrder m) o l)) /\ accessOrder m' = accessOrder m /\ zlen (snd (list_call limit (accessOrder m) o l)) <= zlen l + growth o.
Proof.
  intros Hr Hs. pose proof (rep_keys _ _ Hr) as Hn. destruct o as [k v|es|k| |es|k|k|v| |]; cbn [linked_call list_call fst snd growth] in *.
  - destruct (put_rep limit m l k v Hr) as (m' & -> & ? & ?); [lia |]. exists m'. split_and!; [done..|]. pose proof (evicted_length limit (stored (accessOrder m) k v l)). pose proof (stored_length (accessOrder m) k v l Hn). lia.
  - destruct (putAll_rep es m l Hr Hs) as (m' & -> & ? & ?). exists m'. split_and!; [done..|]. by apply stored_all_length.
  - pose proof (remove_rep m l k Hr) as H1. destruct (lookup_in k l) eqn:E.
    + destruct H1 as (m' & -> & ? & ?). exists m'. split_and!; [done..|]. pose proof (drop_key_length k l). lia.
    + rewrite H1. exists m. rewrite drop_key_none by (by apply lookup_absent). split_and!; [done..|lia].
  - exists (clear m). split_and!; [done | by eapply clear_rep | done | unfold zlen; cbn; lia].
  - destruct (copy_rep es m l Hr) as (m' & -> & ? & ?); [unfold zlen in *; lia |]. exists m'. split_and!; [done..|]. pose proof (stored_all_length (accessOrder m) es []) as Hl. cbn in Hl. specialize (Hl ltac:(constructor)). unfold zlen in *. cbn in Hl. lia.
  - pose proof (get_rep m l k Hr) as H1. pose proof (used_length (accessOrder m) k l Hn). destruct (lookup_in k l) eqn:E.
    + destruct H1 as (m' & -> & ? & ?). exists m'. split_and!; [done..|lia].
    + rewrite H1. exists m. unfold used in *. rewrite E in *. split_and!; [done..|lia].
  - destruct (getEntry_rep m l k Hr) as (r & m' & E & Hv & Hr' & _ & Ho). unfold containsKey. rewrite (bind_ok _ _ _ _ _ E). cbn. exists m'. pose proof (used_length (accessOrder m) k l Hn). split_and!; [|done | done | lia]. do 2 f_equal. apply bool_decide_ext. rewrite <- Hv. by rewrite fmap_is_Some.
  - unfold containsValue. rewrite (rep_head _ _ Hr). rewrite (contains_from_rep m l v Hr l []) by (done || (rewrite (rep_size _ _ Hr); unfold zlen; lia)). exists m. split_and!; [done..|lia].
  - exists m. rewrite (rep_size _ _ Hr). split_and!; [done..|lia].
  - exists m. split_and!; [|done | done | lia]. do 2 f_equal. pose proof (rep_size _ _ Hr) as Hz. unfold HashMap.isEmpty. unfold size, HashMap.size in Hz. rewrite Hz. apply eq_true_iff_eq. rewrite bool_decide_eq_true, Z.eqb_eq. unfold zlen. destruct l; cbn; [done |]. split; [lia | done].
Qed.
End Rep.
