(* ===== verification/LinkedCaches.v ===== *)
(** * Sequences of calls, iterators and caches

    What a client of LinkedHashMap and LRUCache sees: any sequence of calls against the
    list of entries, the order of iteration, the bound on the size of a cache. *)

From stdpp Require Import gmap.
From S2P Require Import Prelude HashMaps HashMapLaws HashMapIterators LinkedHashMaps LinkedLaws LinkedRefinement.
Import LinkedHashMap.

Section Sequences.
Context {K V : Type} `{Countable K} (hashFunc : K -> Z) (V0 : V) `{!EqDecision V}.
Implicit Types (m : t K V) (l : list (K * V)) (k : K) (v : V).

(** What LinkedHashMap.h promises: put, get and putAll, one entry after the other, and
    nothing else, are accesses, and put and putAll ask removeEldestEntry about each entry. *)
Definition documented_call (limit : option Z) (order : bool) (o : op) l : answer * list (K * V) :=
  match o with
  | PutAll es => (Unit, fold_left (fun l '(k, v) => evicted limit (stored order k v l)) es l)
  | ContainsKey k => (Flag (bool_decide (is_Some (lookup_in k l))), l)
  | _ => list_call limit order o l
  end.
(** The calls that do what the header promises: all but containsKey in access order and
    putAll on a map with a limit. *)
Definition as_documented (limit : option Z) (order : bool) (o : op (K:=K) (V:=V)) : bool :=
  match o with
  | ContainsKey _ => negb order
  | PutAll _ => match limit with None => true | Some _ => false end
  | _ => true
  end.
Lemma documented_same limit order o l : as_documented limit order o = true -> list_call limit order o l = documented_call limit order o l.
Proof.
  destruct o as [k v|es|k| |es|k|k|v| |]; cbn [as_documented documented_call list_call]; try done.
  - by destruct limit.
  - intros Ho%negb_true_iff. unfold used. rewrite Ho. by destruct (lookup_in k l).
Qed.
Lemma run_documented limit order os l : forallb (as_documented limit order) os = true ->
  run (list_call limit order) os l = run (documented_call limit order) os l.
Proof.
  revert l. induction os as [|o os IH]; intros l; [done |]. cbn [forallb run]. intros [Ho Hos]%andb_true_iff.
  by rewrite (documented_same _ _ _ _ Ho), (IH _ Hos).
Qed.

Lemma linked_run limit os m l : rep hashFunc m l -> zlen l + foldr (fun o n => growth o + n) 0 os < 2 ^ 29 ->
  exists m', run (linked_call hashFunc V0 limit) os m = (fst (run (list_call limit (accessOrder m)) os l), m') /\ rep hashFunc m' (snd (run (list_call limit (accessOrder m)) os l)).
Proof.
  revert m l. induction os as [|o os IH]; intros m l Hr Hs; cbn; [by exists m |]. cbn in Hs.
  assert (0 <= foldr (fun o n => growth o + n) 0 os) by (clear; induction os as [|[]]; cbn; unfold zlen; lia).
  destruct (linked_call_refines hashFunc V0 limit o m l Hr) as (m1 & E & Hr1 & Ho & Hl); [lia |]. rewrite E. cbn [fst snd]. rewrite <- Ho in *.
  destruct (IH m1 _ Hr1) as (m' & E' & Hr'); [lia |]. rewrite E'. by exists m'.
Qed.


(** ** Iterators *)
(** Between two entries: those that were kept and those to come. *)
Definition passing m (it : iterator K) (kept fut : list (K * V)) : Prop :=
  rep hashFunc m (kept ++ fut) /\ futureEntry it = list.head fut.*1 /\ expectedModCount it = HashMap.modCount (base m).
Lemma lookup_next m kept k v fut : rep hashFunc m (kept ++ (k, v) :: fut) ->
  lookup_in k (kept ++ (k, v) :: fut) = Some v /\ chain m !! k = Some (Link (list.head fut.*1) (list.last kept.*1)) /\ NoDup (kept.*1 ++ k :: fut.*1).
Proof.
  intros Hr. pose proof (rep_keys _ _ _ Hr) as Hn. pose proof (rep_chain _ _ _ Hr) as Hd. rewrite fmap_app in Hd, Hn. split_and!.
  - apply elem_of_list_to_map_1; [by rewrite fmap_app |]. apply elem_of_app. right. by left.
  - apply dseg_app in Hd as [_ [Hk _]]. change (list_fmap _ _ fst fut) with fut.*1 in Hk. change ((k, v).1) with k in Hk. rewrite Hk. do 2 f_equal; [by destruct fut | unfold last_or; by destruct (list.last kept.*1)].
  - done.
Qed.
Lemma next_rep m it kept k v fut : passing m it kept ((k, v) :: fut) -> hasNext it = true /\
  exists it', next it m = Ok (k, v, it', m) /\ currentEntry it' = Some k /\ passing m it' (kept ++ [(k, v)]) fut.
Proof.
  intros (Hr & Hf & Hm). destruct (lookup_next m kept k v fut Hr) as (Hl & Hk & _). unfold hasNext. rewrite Hf. split; [by apply bool_decide_eq_true_2 |].
  exists (Iterator (expectedModCount it) (list.head fut.*1) (Some k)). unfold next, makeNext, checkConcurrentMod, hasNext. rewrite Hf. change (list.head ((k, v) :: fut).*1) with (Some k). rewrite (bool_decide_eq_true_2 (is_Some (Some k))) by done.
  cbn [negb]. unfold bind at 1 2 3. cbn [get_base bind]. rewrite Hm, Z.eqb_refl. cbn [ret bind]. destruct m as [B o h tl c]. rewrite (bind_ok _ _ _ _ _ (forward_ok B o h tl c k _ Hk)). cbn [ret chainForward currentEntry].
  rewrite (bind_ok _ _ _ _ _ (value_at_rep hashFunc _ _ k v Hr Hl)). split_and!; [done | done |]. split_and!; [by rewrite <- app_assoc | done | done].
Qed.
Lemma unchain_ptr_split (e : HashMap.entry K V) (l1 l2 : list (HashMap.entry K V)) : HashMap.key e ∉ HashMap.key <$> l1 -> HashMap.unchain_ptr (HashMap.key e) (l1 ++ e :: l2) = Some (l1 ++ l2).
Proof.
  induction l1 as [|x l1 IH]; cbn; intros Hn; [by rewrite bool_decide_eq_true_2 |]. rewrite bool_decide_eq_false_2 by (intros E; apply Hn; rewrite E; by left).
  rewrite IH; [done |]. intros ?. apply Hn. by right.
Qed.
Lemma removeEntry_ptr_ok (B : HashMap.t K V) k v : map_ok hashFunc B -> contents B !! k = Some v ->
  exists B', HashMap.removeEntry_ptr k B = Ok B' /\ map_ok hashFunc B' /\ contents B' = delete k (contents B) /\ HashMap.modCount B' = to_s32 (HashMap.modCount B + 1).
Proof.
  intros Hb Hl. pose proof (ok_table _ _ Hb) as Ht. pose proof (ok_keys _ _ Ht) as Hn. apply lookup_contents in Hl as (e & He & <- & _); [|done]. unfold HashMap.removeEntry_ptr. rewrite deref_ok by done. cbn [rbind].
  destruct (own_bucket hashFunc _ (HashMap.key e) e Ht He) as (b & Eb & Hin); [done |]. rewrite (ok_hash _ _ Ht e He). destruct (bucket_in (HashMap.elementData B) _ (table_index hashFunc _ (hashFunc (HashMap.key e)) Ht)) as (b' & Eb' & E).
  rewrite Eb in Eb'. injection Eb' as <-. unfold HashMap.length. rewrite E. cbn [rbind]. apply list_elem_of_split in Hin as (l1 & l2 & ->).
  rewrite unchain_ptr_split.
  - rewrite set_bucket_in by (by apply (table_index hashFunc)). cbn [rbind]. eexists. split; [reflexivity |]. destruct (without_ok hashFunc B _ l1 e l2 Hb Eb) as (H1 & _ & H2). by split_and!.
  - destruct (concat_insert _ _ _ [] Eb) as (x & y & Ec & _). rewrite Ec, !fmap_app in Hn. apply list.NoDup_app in Hn as (_ & _ & Hn). apply list.NoDup_app in Hn as (Hn & _). apply list.NoDup_app in Hn as (_ & Hx & _). intros Hl. apply (Hx _ Hl). by left.
Qed.
Lemma doRemove_rep m it kept k v fut : passing m it (kept ++ [(k, v)]) fut -> currentEntry it = Some k ->
  exists it' m', doRemove it m = Ok (it', m') /\ passing m' it' kept fut.
Proof.
  intros (Hr & Hf & Hm) Hc. rewrite <- app_assoc in Hr. cbn in Hr. destruct (lookup_next m kept k v fut Hr) as (Hl & Hk & Hn). pose proof Hr as [Hb Hcon Hnl Hd Hh Ht]. rewrite fmap_app in Hd, Hh, Ht. change (((k, v) :: fut).*1) with (k :: fut.*1) in *.
  unfold lookup_in in Hl. rewrite <- Hcon in Hl. destruct (removeEntry_ptr_ok (base m) k v Hb Hl) as (B' & E & Hb' & Hc' & Hmc). destruct m as [B o h tl c]. cbn [base chain head tail] in *. subst h tl.
  unfold doRemove, checkConcurrentMod. rewrite Hc. unfold bind at 1 2. cbn [get_base base]. rewrite Hm, Z.eqb_refl. cbn [ret].
  rewrite (bind_ok _ _ _ _ _ (backward_ok _ _ _ _ _ _ _ Hk)), (bind_ok _ _ _ _ _ (forward_ok _ _ _ _ _ _ _ Hk)). cbn [chainForward chainBackward]. rewrite bind_base. cbn [base]. rewrite E.
  rewrite (bind_ok (liftR (Ok B')) _ _ _ _ eq_refl), (bind_ok (set_base B') _ _ _ _ eq_refl). cbn [base accessOrder head tail chain]. unfold bind at 1. unfold set_chain. cbn [base accessOrder head tail chain].
  pose proof (parts_delete Hn _ _ _ _ _ (parts_of _ _ _ _ Hd)) as Hp.
  destruct (relink_prev_ok _ _ _ _ _ _ _ B' o (list.head (kept.*1 ++ k :: fut.*1)) (list.last (kept.*1 ++ k :: fut.*1)) _ (first_or fut.*1 None) Hn Hp) as (c1 & E1 & H1).
  match type of E1 with _ = Ok (_, mk _ _ ?h ?tl c1) => destruct (relink_next_ok _ _ _ _ _ _ _ B' o h tl c1 (last_or kept.*1 None) Hn H1) as (c2 & E2 & H2) end.
  assert (Ef : first_or fut.*1 None = list.head fut.*1) by (by destruct fut). assert (El : last_or kept.*1 None = list.last kept.*1) by (unfold last_or; by destruct (list.last kept.*1)). rewrite Ef, El in *.
  assert (exists m', (match list.last kept.*1 with
     | Some _ => set_forward (list.last kept.*1) (list.head fut.*1) ;;; match list.head fut.*1 with Some _ => set_backward (list.head fut.*1) (list.last kept.*1) | None => set_tail (list.last kept.*1) end
     | None => set_head (list.head fut.*1) ;;; match list.head fut.*1 with Some _ => set_backward (list.head fut.*1) None | None => set_tail None end end)
     (mk B' o (list.head (kept.*1 ++ k :: fut.*1)) (list.last (kept.*1 ++ k :: fut.*1)) (delete k c)) = Ok (tt, m') /\ rep hashFunc m' (kept ++ fut) /\ base m' = B') as (m' & E3 & Hr' & Eb').
  { match type of E2 with _ = Ok (_, ?x) => exists x end. split; [destruct (list.last kept.*1) eqn:Ek; rewrite (bind_ok _ _ _ _ _ E1); exact E2 |]. split; [|done]. rewrite <- Ef, <- El in H2. apply parts_join in H2 as Hd2.
    pose proof (drop_key_map k (kept ++ (k, v) :: fut) Hnl) as Hdk. destruct (drop_key_split kept k v fut Hnl) as (Eds & _). rewrite Eds in Hdk. apply nd_parts in Hn as (Hna & Hnb & _ & _ & Hab).
    split; cbn [base chain head tail]; rewrite ?fmap_app; [done | by rewrite Hc', Hcon, Hdk | by apply list.NoDup_app | done | |].
    - destruct kept; [by destruct fut | done].
    - destruct (last_cases fut.*1) as [[Efu _] | (b' & y & Efu & _)]; rewrite Efu; [by rewrite app_nil_r |]. rewrite (app_comm_cons b'), !app_assoc, !last_snoc. by destruct b'. }
  rewrite (bind_ok _ _ _ _ _ E3). eexists _, m'. split; [reflexivity |]. split_and!; [done | done |]. cbn. by rewrite Eb', Hmc.
Qed.

Lemma linked_visit_ok p fut : forall kept it m, passing m it kept fut ->
  exists m', linked_visit (S (length fut)) p it m = Ok (fut, m') /\ rep hashFunc m' (kept ++ filter (fun x => p x = false) fut).
Proof.
  induction fut as [|[k v] fut IH]; intros kept it m Hp.
  - destruct Hp as (Hr & Hf & _). exists m. cbn. unfold hasNext. rewrite Hf. by rewrite bool_decide_eq_false_2 by (by intros [? [=]]).
  - destruct (next_rep m it kept k v fut Hp) as (Hh & it1 & E1 & Hcur & Hp1). cbn [linked_visit length]. rewrite Hh. cbn [negb]. rewrite (bind_ok _ _ _ _ _ E1). cbn [fst snd]. destruct (p (k, v)) eqn:Ep.
    + destruct (doRemove_rep m it1 kept k v fut Hp1 Hcur) as (it2 & m2 & E2 & Hp2). rewrite (bind_ok _ _ _ _ _ E2). destruct (IH kept it2 m2 Hp2) as (m' & E & Hr'). rewrite (bind_ok _ _ _ _ _ E). exists m'. split; [done |].
      rewrite filter_cons_False by (by rewrite Ep). done.
    + rewrite (bind_ok (ret it1) _ _ it1 m eq_refl). destruct (IH _ it1 m Hp1) as (m' & E & Hr'). rewrite (bind_ok _ _ _ _ _ E). exists m'. split; [done |]. rewrite filter_cons_True by done. by rewrite <- app_assoc in Hr'.
Qed.

(** A loop over the iterator of a LinkedHashMap visits the entries in the order of the
    chain and ends after one round per entry; the entries it removes on the way, and no
    others, are gone from the chain and from the table afterwards. *)
Theorem linked_iteration p m l : rep hashFunc m l ->
  exists m', linked_visit (S (Z.to_nat (size m))) p (iterate m) m = Ok (l, m') /\ rep hashFunc m' (filter (fun x => p x = false) l).
Proof.
  intros Hr. rewrite (rep_size _ _ _ Hr). unfold zlen. rewrite Nat2Z.id. apply (linked_visit_ok p l []). split_and!; [done | apply (rep_head _ _ _ Hr) | done].
Qed.

(** ** The size of a cache *)
Definition single (o : op (K:=K) (V:=V)) : bool := match o with PutAll _ | Copy _ => false | _ => true end.
Lemma list_call_bounded n o l : NoDup l.*1 -> 0 < n -> zlen l <= n -> single o = true -> zlen (snd (list_call (Some n) true o l)) <= n.
Proof.
  intros Hn H0 Hl Ho. destruct o as [k v|es|k| |es|k|k|v| |]; cbn [list_call snd]; try done.
  - pose proof (stored_length true k v l Hn) as [Hs _]. cbn [evicted]. destruct (Z.ltb_spec n (zlen (stored true k v l))); [|done].
    destruct (stored true k v l) as [|x l1]; [unfold zlen; cbn; lia |]. unfold zlen in *. cbn in *. lia.
  - pose proof (drop_key_length k l). lia.
  - unfold zlen. cbn. lia.
  - by rewrite (used_length true k l Hn).
  - by rewrite (used_length true k l Hn).
Qed.

(** Without putAll and copy a cache in access order with a maximum never holds more
    entries than the maximum, whatever calls are made. *)
Theorem lru_bounded n os m l : rep hashFunc m l -> accessOrder m = true -> 0 < n -> zlen l <= n -> n + foldr (fun o n => growth o + n) 0 os < 2 ^ 29 -> forallb single os = true ->
  size (snd (run (linked_call hashFunc V0 (Some n)) os m)) <= n.
Proof.
  revert m l. induction os as [|o os IH]; intros m l Hr Ho H0 Hl Hs Hos; cbn [run snd]; [by rewrite (rep_size _ _ _ Hr) |]. cbn in Hs, Hos. apply andb_true_iff in Hos as [Hop Hos].
  assert (0 <= foldr (fun o n => growth o + n) 0 os) by (clear; induction os as [|[]]; cbn; unfold zlen; lia). assert (0 <= growth o) by (destruct o; cbn; unfold zlen; lia).
  destruct (linked_call_refines hashFunc V0 (Some n) o m l Hr) as (m1 & E & Hr1 & Ho1 & _); [lia |]. rewrite E. cbn [fst snd]. rewrite Ho in Hr1, Ho1.
  apply (IH m1 _ Hr1 Ho1 H0); [|lia | done]. apply list_call_bounded; [apply Hr | done..].
Qed.
(** putAll stores without evicting, and a put evicts one entry: a cache that has grown
    beyond its maximum stays so. *)
Lemma putAll_exceeds n es m l : rep hashFunc m l -> accessOrder m = true -> zlen l + zlen es < 2 ^ 29 - 1 -> (forall k, k ∈ es.*1 -> k ∉ l.*1) -> NoDup es.*1 -> n < zlen l + zlen es ->
  exists m', linked_call hashFunc V0 (Some n) (PutAll es) m = (Unit, m') /\ size m' = zlen l + zlen es.
Proof.
  intros Hr Ho Hs Hd Hn He. destruct (linked_call_refines hashFunc V0 (Some n) (PutAll es) m l Hr) as (m' & E & Hr' & _); [cbn; lia |]. exists m'. split; [done |]. rewrite (rep_size _ _ _ Hr'). cbn [list_call snd].
  clear - Hd Hn. revert l Hd. generalize (accessOrder m). intros o. induction es as [|[k v] es IH]; intros l Hd; [unfold zlen; cbn; lia |]. cbn [stored_all fold_left]. fold (stored_all o es (stored o k v l)).
  assert (Ek : stored o k v l = l ++ [(k, v)]) by (unfold stored; rewrite (proj2 (lookup_absent k l)); [done | apply Hd; by left]). rewrite Ek, IH.
  - unfold zlen. rewrite length_app. cbn. lia.
  - by apply NoDup_cons_1_2 in Hn.
  - intros x Hx. rewrite fmap_app. intros [Hl | ->%list_elem_of_singleton]%elem_of_app; [apply (Hd x); [by right | done] | by apply NoDup_cons_1_1 in Hn].
Qed.
End Sequences.

(** A LinkedHashMap constructed from a HashMap has the entries of HashMap, which have
    no links: removing any of its keys uses members that are not there. *)
Theorem copied_remove_undefined {K V : Type} `{Countable K} (hashFunc : K -> Z) (V0 : V) (es : list (K * V)) k v :
  NoDup es.*1 -> zlen es < 2 ^ 29 -> (k, v) ∈ es -> exists m, of_HashMap hashFunc V0 es = Ok m /\ size m = zlen es /\ remove hashFunc k m = Err Undefined.
Proof.
  intros Hn Hs Hk. unfold of_HashMap. destruct (init_map_ok hashFunc (K:=K) (V:=V) (zlen es)) as (B0 & E0 & Hb0 & Hc0); [unfold zlen; lia |]. unfold HashMap.init in E0.
  rewrite (proj2 (Z.leb_le 0 (zlen es))) in E0 by (unfold zlen; lia). injection E0 as E0. rewrite E0.
  assert (H0 : HashMap.elementCount B0 = 0) by (by rewrite <- E0).
  destruct (putAll_ok hashFunc V0 es B0 Hb0) as (B & -> & Hb & Hc); [lia | done |]. rewrite Hc0, map_union_empty in Hc. cbn [rbind]. eexists. split; [reflexivity |]. split.
  - unfold size. cbn. pose proof (size_ok _ _ Hb) as Hz. rewrite Hz, Hc, map_size_list_to_map by done. done.
  - unfold remove. rewrite bind_base. cbn [make base]. destruct (removeEntry_ok hashFunc B k Hb) as (r & B' & E & Hv & _). rewrite E, (bind_ok (liftR (Ok (r, B'))) _ _ _ _ eq_refl). cbn [fst snd]. rewrite (bind_ok (set_base B') _ _ _ _ eq_refl).
    rewrite Hc in Hv. rewrite (elem_of_list_to_map_1 es k v Hn Hk) in Hv. destruct r as [e|]; [|done]. unfold bypass, backward, link_of, bind. cbn. done.
Qed.

(** ** Witnesses *)
Definition empty_cache : t Z Z := make (HashMap.make 16 (3, 4)) true.
Lemma empty_cache_rep : rep HashCode.int empty_cache [].
Proof. apply make_rep; apply small_map_ok. Qed.
(** The two calls that differ. *)
Lemma containsKey_is_access : snd (list_call (K:=Z) (V:=Z) None true (ContainsKey 1) [(1, 10); (2, 20)]) = [(2, 20); (1, 10)] /\
  snd (documented_call None true (ContainsKey 1) [(1, 10); (2, 20)]) = [(1, 10); (2, 20)].
Proof. done. Qed.
Lemma putAll_evicts_nothing : snd (list_call (Some 1) true (PutAll [(2, 20); (3, 30)]) [(1, 10)]) = [(1, 10); (2, 20); (3, 30)] /\
  snd (documented_call (Some 1) true (PutAll [(2, 20); (3, 30)]) [(1, 10)]) = [(3, 30)].
Proof. done. Qed.
Definition two_entries : t Z Z := Eval vm_compute in snd (run (linked_call HashCode.int 0 None) [Put 1 10; Put 2 21] empty_cache).
Lemma two_entries_rep : rep HashCode.int two_entries [(1, 10); (2, 21)].
Proof.
  destruct (linked_call_refines HashCode.int 0 None (Put 1 10) empty_cache [] empty_cache_rep) as (m1 & E1 & Hr1 & _); [done |].
  destruct (linked_call_refines HashCode.int 0 None (Put 2 21) m1 _ Hr1) as (m2 & E2 & Hr2 & _); [vm_compute; done |]. vm_compute in E1. injection E1 as <-. vm_compute in E2. injection E2 as <-. exact Hr2.
Qed.
Lemma linked_iteration_witness : exists m', linked_visit 3 (fun kv => Z.odd (snd kv)) (iterate two_entries) two_entries = Ok ([(1, 10); (2, 21)], m') /\ rep HashCode.int m' [(1, 10)].
Proof. destruct (linked_iteration HashCode.int (fun kv => Z.odd (snd kv)) two_entries _ two_entries_rep) as (m' & E & Hr). exists m'. split; [exact E | exact Hr]. Defined.
Lemma lru_bounded_witness : size (snd (run (linked_call HashCode.int 0 (Some 1)) [Put 1 10; Put 2 20; Put 3 30] empty_cache)) <= 1.
Proof. apply (lru_bounded HashCode.int 0 1 _ empty_cache [] empty_cache_rep); done. Defined.
Lemma copied_remove_undefined_witness : exists m, of_HashMap HashCode.int 0 [(7, 70)] = Ok m /\ size m = 1 /\ remove HashCode.int 7 m = Err Undefined.
Proof. apply (copied_remove_undefined HashCode.int 0 [(7, 70)] 7 70); [apply NoDup_singleton | done | by left]. Defined.
