(* ===== verification/MessageAudit.v ===== *)
(** * Duplicate detection

    activemq/core/ActiveMQMessageAudit and ConnectionAudit: for every producer a bit set
    of the sequence numbers that were seen, the producers in an LRU cache.  The bit sets
    and the audits are objects behind shared pointers; [heap] holds them and a pointer is
    an index into it. *)

From stdpp Require Import gmap pretty.
From S2P Require Import Prelude Support Commands StringOrder Identifiers StateTracker BitSets HashMaps LinkedHashMaps.

Module IdGenerator.
(** [:] is 58. *)
Definition getSeedFromId (id : list Z) : list Z :=
  match find_last 58 id with
  | Some index => if (index + 1 <? length id)%nat then take (index + 1) id else id
  | None => id
  end.
Definition getSequenceFromId (id : list Z) : result Z :=
  match find_last 58 id with
  | Some index => if (index + 1 <? length id)%nat then Long.parseLong (drop (index + 1) id) else Ok (-1)
  | None => Ok (-1)
  end.
End IdGenerator.

Definition ProducerId_toString (i : ProducerId.t) : list Z :=
  ProducerId.connectionId i ++ str ":" ++ str (pretty (ProducerId.sessionId i)) ++ str ":" ++ str (pretty (ProducerId.value i)).

Module ActiveMQMessageAudit.
Definition DEFAULT_WINDOW_SIZE : Z := 2048.
Definition MAXIMUM_PRODUCER_COUNT : Z := 64.
(** Pointer<BitSet> *)
Abbreviation bits_ptr := (option nat).
Abbreviation cache := (LRUCache.t (list Z) bits_ptr).
Record t := mk { auditDepth : Z; maximumNumberOfProducersToTrack : Z; map : cache; heap : list BitSet.t }.

Definition with_map (m : cache) (a : t) : t := mk (auditDepth a) (maximumNumberOfProducersToTrack a) m (heap a).
Definition with_heap (h : list BitSet.t) (a : t) : t := mk (auditDepth a) (maximumNumberOfProducersToTrack a) (map a) h.
Definition with_depth (d : Z) (a : t) : t := mk d (maximumNumberOfProducersToTrack a) (map a) (heap a).
Definition with_max (n : Z) (a : t) : t := mk (auditDepth a) n (map a) (heap a).

Definition init (auditDepth maximumNumberOfProducersToTrack : Z) : result t :=
  let! m := LRUCache.new in Ok (mk auditDepth maximumNumberOfProducersToTrack m []).
Definition new : result t := init 2048 64.
Definition setAuditDepth (value : Z) (a : t) : t := with_depth value a.

(** try { bits = map.get(seed); } catch (NoSuchElementException&) {} *)
Definition find_bits (seed : list Z) : X t bits_ptr := fun a =>
  match LRUCache.get HashCode.string seed (map a) with
  | Ok (p, m) => (Ok p, with_map m a)
  | Err (Throw NoSuchElementException) => (Ok None, a)
  | Err f => (Err f, a)
  end.
(** bits.reset(new BitSet(auditDepth)); map.put(seed, bits); *)
Definition new_bits (seed : list Z) : X t bits_ptr := fun a =>
  match BitSet.init (auditDepth a) with
  | Err f => (Err f, a)
  | Ok b =>
    let p := Some (length (heap a)) in
    let a := with_heap (heap a ++ [b]) a in
    match LRUCache.put HashCode.string None seed p (map a) with
    | Ok (_, m) => (Ok p, with_map m a)
    | Err f => (Err f, a)
    end
  end.
Definition bits_for (seed : list Z) : X t bits_ptr :=
  let+ p := find_bits seed in match p with Some _ => xret p | None => new_bits seed end.
(** A call on the bit set behind a pointer. *)
Definition on_bits {A} (p : bits_ptr) (f : BitSet.t -> result (A * BitSet.t)) : X t A := fun a =>
  match p with
  | None => (Err (Throw NullPointerException), a)
  | Some i =>
    match heap a !! i with
    | None => (Err Undefined, a)
    | Some b => match f b with Ok (x, b) => (Ok x, with_heap (<[i := b]> (heap a)) a) | Err e => (Err e, a) end
    end
  end.
Definition INT_MAX : Z := 2147483647.
Definition scaledIndex (index : Z) : Z := if INT_MAX <? index then to_s32 (index - INT_MAX) else to_s32 index.

(** ** The three questions, with the index the message id has *)
Definition test_and_set (p : bits_ptr) (index : Z) : X t bool :=
  if 0 <=? index then
    let+ answer := on_bits p (fun b => let! x := BitSet.get (scaledIndex index) b in Ok (x, b)) in
    (if answer then xret tt else on_bits p (fun b => let! b := BitSet.set_to (scaledIndex index) true b in Ok (tt, b))) ;+
    xret answer
  else xret false.
Definition reset_bit (p : bits_ptr) (index : Z) : X t unit :=
  if 0 <=? index then on_bits p (fun b => let! b := BitSet.set_to (scaledIndex index) false b in Ok (tt, b)) else xret tt.
Definition is_last (p : bits_ptr) (index : Z) (otherwise : bool) : X t bool :=
  if 0 <=? index then on_bits p (fun b => let! r := BitSet.length b in Ok (fst r - 1 =? scaledIndex index, snd r)) else xret otherwise.

Definition isDuplicate_string (id : list Z) : X t bool :=
  match IdGenerator.getSeedFromId id with
  | [] => xret false
  | seed =>
    let+ bits := bits_for seed in
    let+ index := xlift (IdGenerator.getSequenceFromId id) in
    test_and_set bits index
  end.
(** The seed of a message id. *)
Definition seed_of (msgId : option MessageId.t) : option (list Z * Z) :=
  match msgId with
  | Some i =>
    match MessageId.producerId i with
    | Some pid => match ProducerId_toString pid with [] => None | seed => Some (seed, MessageId.producerSequenceId i) end
    | None => None
    end
  | None => None
  end.
Definition isDuplicate (msgId : option MessageId.t) : X t bool :=
  match seed_of msgId with
  | None => xret false
  | Some (seed, index) => let+ bits := bits_for seed in test_and_set bits index
  end.
Definition rollback_string (msgId : list Z) : X t unit :=
  match IdGenerator.getSeedFromId msgId with
  | [] => xret tt
  | seed =>
    let+ bits := find_bits seed in
    match bits with
    | None => xret tt
    | Some _ => let+ index := xlift (IdGenerator.getSequenceFromId msgId) in reset_bit bits index
    end
  end.
Definition rollback (msgId : option MessageId.t) : X t unit :=
  match seed_of msgId with
  | None => xret tt
  | Some (seed, index) =>
    let+ bits := find_bits seed in
    match bits with None => xret tt | Some _ => reset_bit bits index end
  end.
Definition isInOrder_string (msgId : list Z) : X t bool :=
  match msgId with
  | [] => xret true
  | _ =>
    match IdGenerator.getSeedFromId msgId with
    | [] => xret true
    | seed =>
      let+ bits := bits_for seed in
      let+ index := xlift (IdGenerator.getSequenceFromId msgId) in
      is_last bits index true
    end
  end.
Definition isInOrder (msgId : option MessageId.t) : X t bool :=
  match seed_of msgId with
  | None => xret false
  | Some (seed, index) => let+ bits := bits_for seed in is_last bits index false
  end.
Definition getLastSeqId (id : option ProducerId.t) : X t Z :=
  match id with
  | None => xret (-1)
  | Some pid =>
    match ProducerId_toString pid with
    | [] => xret (-1)
    | seed =>
      let+ bits := find_bits seed in
      match bits with
      | None => xret (-1)
      | Some _ => on_bits bits (fun b => let! r := BitSet.length b in Ok (fst r - 1, snd r))
      end
    end
  end.
Definition clear (a : t) : t := with_map (LRUCache.clear (map a)) a.

(** getMaximumNumberOfProducersToTrack(int value) *)
Definition adjustMaxProducersToTrack (value : Z) : X t unit := fun a =>
  let moved :=
    if value <? maximumNumberOfProducersToTrack a then
      let! newMap := LRUCache.init_order 0 value (3, 4) true in
      let! es := LinkedHashMap.entry_list (LRUCache.super (map a)) in
      let! r := LRUCache.putAll HashCode.string None es newMap in
      let! es := LinkedHashMap.entry_list (LRUCache.super (snd r)) in
      let! r := LRUCache.putAll HashCode.string None es (LRUCache.clear (map a)) in
      Ok (snd r)
    else Ok (map a) in
  match moved with
  | Err f => (Err f, a)
  | Ok m =>
    match LRUCache.setMaxCacheSize value m with
    | Err f => (Err f, with_map m a)
    | Ok m => (Ok tt, with_max value (with_map m a))
    end
  end.
End ActiveMQMessageAudit.

Module ConnectionAudit.
Abbreviation audit_ptr := (option nat).
Definition isTopic (d : ActiveMQDestination.t) : bool :=
  match ActiveMQDestination.destinationType d with ActiveMQDestination.Topic | ActiveMQDestination.TempTopic => true | _ => false end.
Definition isQueue (d : ActiveMQDestination.t) : bool := negb (isTopic d).
#[export] Instance ActiveMQDestination_compareTo : Comparator ActiveMQDestination.t :=
  fun a b => StringUtils.compare (ActiveMQDestination.physicalName a) (ActiveMQDestination.physicalName b).

Section Dispatchers.
(** Dispatcher::getHashCode is virtual; a dispatcher is known by its address. *)
Context (getHashCode : nat -> Z).
Record t := mk {
  destinations : list (ActiveMQDestination.t * audit_ptr);
  dispatchers : LinkedHashMap.t nat audit_ptr;
  checkForDuplicates : bool;
  auditDepth : Z;
  auditMaximumProducerNumber : Z;
  heap : list ActiveMQMessageAudit.t
}.
Definition init (auditDepth maxProducers : Z) : result t :=
  let! d := LinkedHashMap.init 1000 in Ok (mk [] d true auditDepth maxProducers []).
Definition new : result t := init ActiveMQMessageAudit.DEFAULT_WINDOW_SIZE ActiveMQMessageAudit.MAXIMUM_PRODUCER_COUNT.
Definition with_destinations (m : list (ActiveMQDestination.t * audit_ptr)) (c : t) : t := mk m (dispatchers c) (checkForDuplicates c) (auditDepth c) (auditMaximumProducerNumber c) (heap c).
Definition with_dispatchers (m : LinkedHashMap.t nat audit_ptr) (c : t) : t := mk (destinations c) m (checkForDuplicates c) (auditDepth c) (auditMaximumProducerNumber c) (heap c).
Definition with_heap (h : list ActiveMQMessageAudit.t) (c : t) : t := mk (destinations c) (dispatchers c) (checkForDuplicates c) (auditDepth c) (auditMaximumProducerNumber c) h.
Definition setCheckForDuplicates (value : bool) (c : t) : t := mk (destinations c) (dispatchers c) value (auditDepth c) (auditMaximumProducerNumber c) (heap c).

Definition removeDispatcher (dispatcher : nat) : X t unit := fun c =>
  match LinkedHashMap.remove getHashCode dispatcher (dispatchers c) with
  | Ok (_, m) => (Ok tt, with_dispatchers m c)
  | Err (Throw NoSuchElementException) => (Ok tt, c)
  | Err f => (Err f, c)
  end.
Definition new_audit : X t audit_ptr := fun c =>
  match ActiveMQMessageAudit.init (auditDepth c) (auditMaximumProducerNumber c) with
  | Ok a => (Ok (Some (length (heap c))), with_heap (heap c ++ [a]) c)
  | Err f => (Err f, c)
  end.
Definition find_destination (d : ActiveMQDestination.t) : X t audit_ptr := fun c =>
  match ConcurrentStlMap.get d (destinations c) with
  | Ok p => (Ok p, c)
  | Err (Throw NoSuchElementException) => (Ok None, c)
  | Err f => (Err f, c)
  end.
Definition find_dispatcher (d : nat) : X t audit_ptr := fun c =>
  match LinkedHashMap.get getHashCode d (dispatchers c) with
  | Ok (p, m) => (Ok p, with_dispatchers m c)
  | Err (Throw NoSuchElementException) => (Ok None, c)
  | Err f => (Err f, c)
  end.
Definition put_destination (d : ActiveMQDestination.t) (p : audit_ptr) : X t unit := fun c =>
  match ConcurrentStlMap.put d p (destinations c) with Ok m => (Ok tt, with_destinations m c) | Err f => (Err f, c) end.
Definition put_dispatcher (d : nat) (p : audit_ptr) : X t unit := fun c =>
  match LinkedHashMap.put getHashCode None (fun _ => false) d p (dispatchers c) with Ok (_, m) => (Ok tt, with_dispatchers m c) | Err f => (Err f, c) end.
(** A call on the audit behind a pointer. *)
Definition on_audit {A} (p : audit_ptr) (f : X ActiveMQMessageAudit.t A) : X t A := fun c =>
  match p with
  | None => (Err (Throw NullPointerException), c)
  | Some i => match heap c !! i with None => (Err Undefined, c) | Some a => let r := f a in (fst r, with_heap (<[i := snd r]> (heap c)) c) end
  end.
Definition audit_for_destination (d : ActiveMQDestination.t) : X t audit_ptr :=
  let+ p := find_destination d in
  match p with
  | Some _ => xret p
  | None => let+ p := new_audit in put_destination d p ;+ xret p
  end.
Definition audit_for_dispatcher (d : nat) : X t audit_ptr :=
  let+ p := find_dispatcher d in
  match p with
  | Some _ => xret p
  | None => let+ p := new_audit in put_dispatcher d p ;+ xret p
  end.
Definition isDuplicate (dispatcher : nat) (message : option (Message.t DataStructure)) : X t bool :=
  let+ c := xget in
  match (if checkForDuplicates c then message else None) with
  | None => xret false
  | Some m =>
    match Message.destination m with
    | None => xret false
    | Some d =>
      if isQueue d then let+ audit := audit_for_destination d in on_audit audit (ActiveMQMessageAudit.isDuplicate (Message.messageId m))
      else let+ audit := audit_for_dispatcher dispatcher in on_audit audit (ActiveMQMessageAudit.isDuplicate (Message.messageId m))
    end
  end.
(** A NoSuchElementException of the whole branch is swallowed. *)
Definition rollbackDuplicate (dispatcher : nat) (message : option (Message.t DataStructure)) : X t unit :=
  let+ c := xget in
  match (if checkForDuplicates c then message else None) with
  | None => xret tt
  | Some m =>
    match Message.destination m with
    | None => xret tt
    | Some d =>
      let+ audit := (if isQueue d then find_destination d else find_dispatcher dispatcher) in
      match audit with None => xret tt | Some _ => on_audit audit (ActiveMQMessageAudit.rollback (Message.messageId m)) end
    end
  end.
End Dispatchers.
End ConnectionAudit.
