(* ===== verification/MessageAuditLaws.v ===== *)
(** * What the message audit promises

    ActiveMQMessageAudit against the set of the (producer, sequence number) pairs it has
    seen, and where the two part. *)

From stdpp Require Import gmap.
From S2P Require Import Prelude Commands BitSets BitSetLaws HashMaps HashMapLaws LinkedHashMaps LinkedLaws LinkedRefinement LinkedCaches MessageAudit.
Import ActiveMQMessageAudit.

Section Objects.
Implicit Types (a : t) (l : list (list Z * bits_ptr)) (seed : list Z).

(** The cache as a list, every producer with a bit set of its own. *)
Record audit_ok a l : Prop := {
  ao_rep : rep HashCode.string (LRUCache.super (map a)) l;
  ao_order : LinkedHashMap.accessOrder (LRUCache.super (map a)) = true;
  ao_bits : forall s p, (s, p) ∈ l -> exists i b, p = Some i /\ heap a !! i = Some b /\ bitset_ok b;
  ao_own : NoDup l.*2;
  ao_depth : 0 <= auditDepth a < 2 ^ 31;
  ao_size : zlen l < 2 ^ 28 }.
Definition seen a l seed (n : Z) : bool :=
  match lookup_in seed l with
  | Some (Some i) => match heap a !! i with Some b => Z.testbit (val b) n | None => false end
  | _ => false
  end.

Lemma lookup_elem seed p l : lookup_in seed l = Some p -> (seed, p) ∈ l.
Proof. apply elem_of_list_to_map_2. Qed.
Lemma ao_pointer a l seed p : audit_ok a l -> lookup_in seed l = Some p -> exists i b, p = Some i /\ heap a !! i = Some b /\ bitset_ok b.
Proof. intros Ha Hl. eapply ao_bits; [done |]. by apply lookup_elem. Qed.
Lemma own_pointer l s s' p : NoDup l.*2 -> lookup_in s l = Some p -> lookup_in s' l = Some p -> s = s'.
Proof.
  intros Hn [i Hi]%lookup_elem%list_elem_of_lookup [j Hj]%lookup_elem%list_elem_of_lookup. assert (i = j) as ->; [|congruence].
  apply (NoDup_lookup _ i j p Hn); rewrite list_lookup_fmap; [by rewrite Hi | by rewrite Hj].
Qed.
Lemma used_perm k l : NoDup l.*1 -> used true k l ≡ₚ l.
Proof.
  intros Hn. unfold used. destruct (lookup_in k l) as [v|] eqn:E; [|done]. destruct (lookup_split k v l Hn E) as (l1 & l2 & -> & ->). rewrite <- app_assoc. apply move_perm.
Qed.
Lemma lookup_perm l l' s : NoDup l.*1 -> l' ≡ₚ l -> lookup_in s l' = lookup_in s l.
Proof. intros Hn Hp. unfold lookup_in. by rewrite (map_perm l l'). Qed.
Lemma audit_perm a a' l l' : audit_ok a l -> l' ≡ₚ l -> heap a' = heap a -> auditDepth a' = auditDepth a ->
  rep HashCode.string (LRUCache.super (map a')) l' -> LinkedHashMap.accessOrder (LRUCache.super (map a')) = true -> audit_ok a' l' /\ forall s n, seen a' l' s n = seen a l s n.
Proof.
  intros Ha Hp Hh Hdp Hr Ho. split.
  - split; [done | done | | | by rewrite Hdp; apply Ha | unfold zlen; rewrite (Permutation_length Hp); apply Ha].
    + intros s p Hin. rewrite Hh. eapply (ao_bits a l Ha s). by rewrite <- Hp.
    + rewrite Hp. apply Ha.
  - intros s n. unfold seen. rewrite (lookup_perm l l' s), Hh by (done || apply Ha). done.
Qed.

(** ** Finding the bits of a producer *)
Lemma find_bits_ok a l seed : audit_ok a l -> exists a' l', find_bits seed a = (Ok (match lookup_in seed l with Some p => p | None => None end), a') /\
  audit_ok a' l' /\ l' ≡ₚ l /\ (forall s n, seen a' l' s n = seen a l s n) /\ LRUCache.maxCacheSize (map a') = LRUCache.maxCacheSize (map a) /\ heap a' = heap a.
Proof.
  intros Ha. pose proof (get_rep HashCode.string _ l seed (ao_rep _ _ Ha)) as Hg. unfold find_bits, LRUCache.get, LRUCache.on_super. pose proof (rep_keys _ _ _ (ao_rep _ _ Ha)) as Hn. destruct (lookup_in seed l) as [p|] eqn:E.
  - destruct Hg as (m & -> & Hr & Ho). rewrite (ao_order _ _ Ha) in Hr, Ho. eexists _, (used true seed l). split; [reflexivity |].
    destruct (audit_perm a (with_map (LRUCache.mk m (LRUCache.maxCacheSize (map a))) a) l (used true seed l) Ha (used_perm seed l Hn) eq_refl eq_refl Hr Ho) as [H1 H2]. split_and!; [done | by apply used_perm | done | done | done].
  - rewrite Hg. exists a, l. by split_and!.
Qed.
Lemma stored_new k (v : bits_ptr) l : lookup_in k l = None -> stored true k v l = l ++ [(k, v)].
Proof. intros E. unfold stored. by rewrite E. Qed.
Lemma lookup_snoc s k (v : bits_ptr) l : NoDup l.*1 -> lookup_in k l = None -> lookup_in s (l ++ [(k, v)]) = if bool_decide (s = k) then Some v else lookup_in s l.
Proof.
  intros Hn Hk. pose proof (stored_map true k v l Hn) as E. rewrite stored_new in E by done. unfold lookup_in. rewrite E. case_bool_decide as Hs; [subst; apply lookup_insert_eq | by rewrite lookup_insert_ne].
Qed.
Lemma new_bits_ok a l seed : audit_ok a l -> lookup_in seed l = None -> zlen l < LRUCache.maxCacheSize (map a) -> zlen l + 1 < 2 ^ 28 -> exists a', new_bits seed a = (Ok (Some (length (heap a))), a') /\
  audit_ok a' (l ++ [(seed, Some (length (heap a)))]) /\ (forall s n, 0 <= n -> seen a' (l ++ [(seed, Some (length (heap a)))]) s n = seen a l s n) /\ LRUCache.maxCacheSize (map a') = LRUCache.maxCacheSize (map a).
Proof.
  intros Ha Hl Hmax Hs. pose proof (rep_keys _ _ _ (ao_rep _ _ Ha)) as Hn. unfold new_bits. destruct (init_ok (auditDepth a) (ao_depth _ _ Ha)) as (b & -> & Hb & Hv).
  set (p := Some (length (heap a))). unfold LRUCache.put, LRUCache.on_super. cbn [with_heap map].
  destruct (put_rep HashCode.string None (Some (LRUCache.maxCacheSize (map a))) _ l seed p (ao_rep _ _ Ha)) as (m & E & Hr & Ho); [pose proof (ao_size _ _ Ha) as Hz; change (zlen l < 2 ^ 29); lia |].
  change (eldest (Some (LRUCache.maxCacheSize (map a)))) with (LRUCache.removeEldestEntry (K:=list Z) (V:=bits_ptr) (LRUCache.maxCacheSize (map a))) in E. rewrite E. rewrite (ao_order _ _ Ha), stored_new in Hr by done.
  unfold evicted in Hr. rewrite (proj2 (Z.ltb_ge _ _)) in Hr by (unfold zlen in *; rewrite length_app; cbn; lia). rewrite (ao_order _ _ Ha) in Ho. eexists. split; [reflexivity |].
  assert (Hold : forall i x, heap a !! i = Some x -> (heap a ++ [b]) !! i = Some x) by (intros i x Hx; apply lookup_app_l_Some; done).
  split_and!; [split; [exact Hr | exact Ho | | | apply Ha | unfold zlen in *; rewrite length_app; cbn; lia] | | done].
  - intros s q [Hin | Hin]%elem_of_app.
    + destruct (ao_bits _ _ Ha s q Hin) as (i & x & -> & Hx & Hok). exists i, x. split_and!; [done | by apply Hold | done].
    + apply list_elem_of_singleton in Hin as [= -> ->]. exists (length (heap a)), b. split_and!; [done | | done]. cbn. by rewrite lookup_app_r, Nat.sub_diag by done.
  - rewrite fmap_app. apply list.NoDup_app. split_and!; [apply Ha | | apply NoDup_singleton]. intros q ([s q'] & -> & Hin)%list_elem_of_fmap Hq. apply list_elem_of_singleton in Hq. cbn in Hq. subst q'.
    destruct (ao_bits _ _ Ha s p Hin) as (i & x & [= <-] & Hx & _). apply lookup_lt_Some in Hx. lia.
  - intros s n Hn0. unfold seen. rewrite lookup_snoc by done. destruct (decide (s = seed)) as [-> | Hsd]; [rewrite (bool_decide_eq_true_2 (seed = seed)) by done | rewrite (bool_decide_eq_false_2 (s = seed)) by done].
    + rewrite Hl. unfold p. cbn. rewrite lookup_app_r, Nat.sub_diag by done. cbn. by rewrite Hv, Z.bits_0.
    + destruct (lookup_in s l) as [q|] eqn:Eq; [|done]. destruct (ao_pointer a l s q Ha Eq) as (i & x & -> & Hx & _). cbn. by rewrite (Hold i x Hx), Hx.
Qed.
Lemma bits_for_ok a l seed : audit_ok a l -> (lookup_in seed l = None -> zlen l < LRUCache.maxCacheSize (map a) /\ zlen l + 1 < 2 ^ 28) -> exists i a' l', bits_for seed a = (Ok (Some i), a') /\
  audit_ok a' l' /\ lookup_in seed l' = Some (Some i) /\ (forall s, s ∈ l'.*1 -> s = seed \/ s ∈ l.*1) /\ (forall s n, 0 <= n -> seen a' l' s n = seen a l s n) /\ LRUCache.maxCacheSize (map a') = LRUCache.maxCacheSize (map a).
Proof.
  intros Ha Hroom. destruct (find_bits_ok a l seed Ha) as (a1 & l1 & E1 & Ha1 & Hp1 & Hs1 & Hm1 & Hh1). pose proof (rep_keys _ _ _ (ao_rep _ _ Ha)) as Hn. unfold bits_for, xbind. rewrite E1. destruct (lookup_in seed l) as [p|] eqn:E.
  - destruct (ao_pointer a l seed p Ha E) as (i & b & -> & _). exists i, a1, l1. split_and!; [done | done | by rewrite (lookup_perm l l1) | intros s; rewrite Hp1; by right | intros; apply Hs1 | done].
  - destruct (Hroom eq_refl) as [H1 H2]. assert (E' : lookup_in seed l1 = None) by (by rewrite (lookup_perm l l1)). assert (Hz : zlen l1 = zlen l) by (unfold zlen; by rewrite (Permutation_length Hp1)).
    destruct (new_bits_ok a1 l1 seed Ha1 E') as (a2 & E2 & Ha2 & Hs2 & Hm2); [lia | lia |]. eexists _, a2, _. split; [exact E2 |]. split_and!; [done | | | intros s n H0; by rewrite Hs2, Hs1 | congruence].
    + rewrite lookup_snoc by (done || apply Ha1). by rewrite bool_decide_eq_true_2.
    + intros s. rewrite fmap_app. intros [Hin | Hin]%elem_of_app; [right; by rewrite <- Hp1 | left; by apply list_elem_of_singleton in Hin].
Qed.
(** ** Using them *)
Lemma on_bits_ok {A} (f : BitSet.t -> result (A * BitSet.t)) a l seed i b x b' : audit_ok a l -> lookup_in seed l = Some (Some i) -> heap a !! i = Some b -> f b = Ok (x, b') -> bitset_ok b' -> exists a',
  on_bits (Some i) f a = (Ok x, a') /\ audit_ok a' l /\ heap a' !! i = Some b' /\ (forall s n, seen a' l s n = if bool_decide (s = seed) then Z.testbit (val b') n else seen a l s n) /\ map a' = map a.
Proof.
  intros Ha Hl Hi Hf Hb'. unfold on_bits. rewrite Hi, Hf. eexists. split; [reflexivity |]. pose proof (lookup_lt_Some _ _ _ Hi) as Hlt. split_and!; [|cbn; by rewrite list_lookup_insert_eq | | done].
  - split; try apply Ha. intros s p Hin. destruct (ao_bits _ _ Ha s p Hin) as (j & c & -> & Hj & Hok). exists j. cbn. destruct (decide (i = j)) as [<- |]; [exists b'; by rewrite list_lookup_insert_eq | exists c; by rewrite list_lookup_insert_ne].
  - intros s n. unfold seen. case_bool_decide as Hs; [subst s; rewrite Hl; cbn; by rewrite list_lookup_insert_eq |]. destruct (lookup_in s l) as [p|] eqn:E; [|done]. destruct (ao_pointer a l s p Ha E) as (j & c & -> & _).
    cbn. rewrite list_lookup_insert_ne; [done |]. intros <-. apply Hs. apply (own_pointer l s seed (Some i)); [apply Ha | done | done].
Qed.

Lemma small_index n : 0 <= n < 2 ^ 31 - 64 -> scaledIndex n = n.
Proof. intros Hn. unfold scaledIndex, INT_MAX. rewrite (proj2 (Z.ltb_ge _ n)) by lia. apply swrap_small; lia. Qed.
Lemma bits_behind a l seed i : audit_ok a l -> lookup_in seed l = Some (Some i) -> exists b, heap a !! i = Some b /\ bitset_ok b /\ forall n, seen a l seed n = Z.testbit (val b) n.
Proof.
  intros Ha Hl. destruct (ao_pointer a l seed _ Ha Hl) as (j & b & [= <-] & Hb & Hok). exists b. split_and!; [done..|]. intros n. unfold seen. by rewrite Hl, Hb.
Qed.
Definition is_pair (seed s : list Z) (index n : Z) : bool := bool_decide (s = seed) && (n =? index).
Lemma get_bit_ok a l seed i index : audit_ok a l -> lookup_in seed l = Some (Some i) -> 0 <= index < 2 ^ 31 - 64 -> exists a', 
  on_bits (Some i) (fun b => let! x := BitSet.get (scaledIndex index) b in Ok (x, b)) a = (Ok (seen a l seed index), a') /\ audit_ok a' l /\ map a' = map a /\ forall s n, seen a' l s n = seen a l s n.
Proof.
  intros Ha Hl Hi. destruct (bits_behind a l seed i Ha Hl) as (b & Hb & Hok & Hs). rewrite small_index by done.
  destruct (on_bits_ok (fun b => let! x := BitSet.get index b in Ok (x, b)) a l seed i b (Z.testbit (val b) index) b Ha Hl Hb) as (a' & E & Ha' & _ & Hs' & Hm); [by rewrite bitset_get_ok by (done || lia) | done |].
  exists a'. rewrite Hs. split_and!; [done..|]. intros s n. rewrite Hs'. case_bool_decide as Hse; [by rewrite Hse, Hs | done].
Qed.
(** Bits are set and cleared one at a time. *)
Lemma set_bit_ok a l seed i index (v : bool) : audit_ok a l -> lookup_in seed l = Some (Some i) -> 0 <= index < 2 ^ 31 - 64 -> exists a',
  on_bits (Some i) (fun b => let! b := BitSet.set_to (scaledIndex index) v b in Ok (tt, b)) a = (Ok tt, a') /\ audit_ok a' l /\ map a' = map a /\
  forall s n, 0 <= n -> seen a' l s n = if is_pair seed s index n then v else seen a l s n.
Proof.
  intros Ha Hl Hi. destruct (bits_behind a l seed i Ha Hl) as (b & Hb & Hok & Hs). rewrite small_index by done.
  assert (exists b', BitSet.set_to index v b = Ok b' /\ bitset_ok b' /\ forall n, 0 <= n -> Z.testbit (val b') n = if n =? index then v else Z.testbit (val b) n) as (b' & E & Hok' & Hv).
  { destruct v; cbn [BitSet.set_to]; [destruct (set_ok index b Hok Hi) as (b' & E & Hok' & Hv) | destruct (clear_ok index b Hok (proj1 Hi)) as (b' & E & Hok' & Hv)]; exists b'; split_and!; try done; intros n Hn; rewrite Hv, ?Z.lor_spec, ?Z.ldiff_spec, Z.pow2_bits_eqb by lia;
      rewrite (Z.eqb_sym index n); destruct (n =? index); cbn; rewrite ?orb_true_r, ?orb_false_r, ?andb_false_r, ?andb_true_r; done. }
  destruct (on_bits_ok (fun b => let! b := BitSet.set_to index v b in Ok (tt, b)) a l seed i b tt b' Ha Hl Hb) as (a' & E' & Ha' & _ & Hs' & Hm); [by rewrite E | done |].
  exists a'. split_and!; [done..|]. intros s n Hn. rewrite Hs'. unfold is_pair. case_bool_decide as Hse; cbn; [|done]. rewrite Hv by done. by rewrite Hse, Hs.
Qed.
Lemma test_and_set_ok a l seed i index : audit_ok a l -> lookup_in seed l = Some (Some i) -> 0 <= index < 2 ^ 31 - 64 -> exists a',
  test_and_set (Some i) index a = (Ok (seen a l seed index), a') /\ audit_ok a' l /\ map a' = map a /\ forall s n, 0 <= n -> seen a' l s n = is_pair seed s index n || seen a l s n.
Proof.
  intros Ha Hl Hi. unfold test_and_set. rewrite (proj2 (Z.leb_le 0 index)) by lia. destruct (get_bit_ok a l seed i index Ha Hl Hi) as (a1 & E1 & Ha1 & Hm1 & Hs1). unfold xbind at 1. rewrite E1. destruct (seen a l seed index) eqn:Ese.
  - exists a1. split_and!; [done..|]. intros s n Hn. rewrite Hs1. unfold is_pair. case_bool_decide as Hse; [|done]. destruct (Z.eqb_spec n index) as [-> |]; cbn; [by rewrite Hse, Ese | done].
  - destruct (set_bit_ok a1 l seed i index true Ha1 Hl Hi) as (a2 & E2 & Ha2 & Hm2 & Hs2). unfold xbind. rewrite E2. exists a2. split_and!; [done | done | congruence |].
    intros s n Hn. rewrite Hs2, Hs1 by done. by destruct (is_pair seed s index n).
Qed.
Lemma is_last_ok a l seed i index o : audit_ok a l -> lookup_in seed l = Some (Some i) -> 0 <= index < 2 ^ 31 - 64 -> exists a' r,
  is_last (Some i) index o a = (Ok r, a') /\ (r = true <-> seen a l seed index = true /\ forall n, index < n -> seen a l seed n = false) /\ audit_ok a' l /\ map a' = map a /\ forall s n, seen a' l s n = seen a l s n.
Proof.
  intros Ha Hl Hi. destruct (bits_behind a l seed i Ha Hl) as (b & Hb & Hok & Hs). unfold is_last. rewrite (proj2 (Z.leb_le 0 index)), small_index by lia. destruct (length_ok b Hok) as (b' & E & Hok' & Hbits).
  assert (Hval : val b' = val b) by (unfold val; by rewrite Hbits).
  destruct (on_bits_ok (fun b => let! r := BitSet.length b in Ok (fst r - 1 =? index, snd r)) a l seed i b ((if val b =? 0 then 0 else Z.log2 (val b) + 1) - 1 =? index) b' Ha Hl Hb) as (a' & E' & Ha' & _ & Hs' & Hm); [by rewrite E | done |].
  eexists a', _. split_and!; [exact E' | | done | done | intros s n; rewrite Hs', Hval; case_bool_decide as Hse; [by rewrite Hse, Hs | done]].
  pose proof (val_nonneg b Hok). rewrite Z.eqb_eq, Hs. destruct (Z.eqb_spec (val b) 0) as [H0 | H0].
  - rewrite H0, Z.bits_0. split; [lia | by intros [? _]].
  - split.
    + intros <-. split; [replace (Z.log2 (val b) + 1 - 1) with (Z.log2 (val b)) by lia; apply Z.bit_log2; lia |]. intros n Hn. rewrite Hs. apply Z.bits_above_log2; lia.
    + intros [H1 H2]. assert (Z.log2 (val b) = index); [|lia]. apply log2_bits; [lia | lia | done |]. intros n Hn. rewrite <- Hs. by apply H2.
Qed.
End Objects.

(** ** The audit as a set *)
Abbreviation pairs := (gset (list Z * Z)).
Inductive call := IsDuplicate (id : MessageId.t) | Rollback (id : MessageId.t) | IsInOrder (id : MessageId.t).
Definition id_of (c : call) : MessageId.t := match c with IsDuplicate i | Rollback i | IsInOrder i => i end.
Definition do_call (c : call) : X t (option bool) :=
  match c with
  | IsDuplicate i => let+ b := isDuplicate (Some i) in xret (Some b)
  | Rollback i => rollback (Some i) ;+ xret None
  | IsInOrder i => let+ b := isInOrder (Some i) in xret (Some b)
  end.
Fixpoint do_calls (cs : list call) : X t (list (option bool)) :=
  match cs with
  | [] => xret []
  | c :: cs => let+ r := do_call c in let+ rs := do_calls cs in xret (r :: rs)
  end.
(** The producer and the sequence number of a message. *)
Definition pair_of_id (i : MessageId.t) : option (list Z * Z) :=
  match MessageId.producerId i with Some pid => Some (ProducerId_toString pid, MessageId.producerSequenceId i) | None => None end.
Definition abstract_call (c : call) (S : pairs) : option bool * pairs :=
  match pair_of_id (id_of c) with
  | None => (None, S)
  | Some p =>
    match c with
    | IsDuplicate _ => (Some (bool_decide (p ∈ S)), {[p]} ∪ S)
    | Rollback _ => (None, S ∖ {[p]})
    | IsInOrder _ => (Some (bool_decide (p ∈ S /\ set_Forall (fun q => q.1 = p.1 -> q.2 <= p.2) S)), S)
    end
  end.
Fixpoint abstract_calls (cs : list call) (S : pairs) : list (option bool) * pairs :=
  match cs with
  | [] => ([], S)
  | c :: cs => let r := abstract_call c S in let rs := abstract_calls cs (snd r) in (fst r :: fst rs, snd rs)
  end.

Section Tracking.
Context (producers : list (list Z)) (Hsmall : zlen producers < 2 ^ 28).
Definition tracks (a : t) (S : pairs) : Prop := exists l, audit_ok a l /\ zlen producers <= LRUCache.maxCacheSize (map a) /\ (forall s, s ∈ l.*1 -> s ∈ producers) /\
  forall s n, (s, n) ∈ S <-> 0 <= n /\ seen a l s n = true.
(** Messages of the producers, with sequence numbers a bit set has room for. *)
Definition id_ok (i : MessageId.t) : Prop := match pair_of_id i with Some (s, n) => s ∈ producers /\ 0 <= n < 2 ^ 31 - 64 | None => False end.

Lemma room l seed : NoDup l.*1 -> (forall s, s ∈ l.*1 -> s ∈ producers) -> seed ∈ producers -> lookup_in (V:=bits_ptr) seed l = None -> zlen l < zlen producers.
Proof.
  intros Hn Hsub Hs Hl. apply lookup_absent in Hl. assert (Hp : seed :: l.*1 ⊆+ producers).
  { apply NoDup_submseteq; [by constructor |]. intros x [-> | Hx]%elem_of_cons; [done | by apply Hsub]. }
  apply submseteq_length in Hp. cbn in Hp. rewrite length_fmap in Hp. unfold zlen. lia.
Qed.
Lemma seed_of_id i s n : pair_of_id i = Some (s, n) -> seed_of (Some i) = Some (s, n).
Proof. unfold pair_of_id, seed_of. destruct (MessageId.producerId i) as [pid|]; [|done]. intros [= <- <-]. unfold ProducerId_toString. by destruct (ProducerId.connectionId pid). Qed.
Lemma bits_for_tracked a l seed : audit_ok a l -> zlen producers <= LRUCache.maxCacheSize (map a) -> (forall s, s ∈ l.*1 -> s ∈ producers) -> seed ∈ producers -> exists i a' l', bits_for seed a = (Ok (Some i), a') /\
  audit_ok a' l' /\ lookup_in seed l' = Some (Some i) /\ (forall s, s ∈ l'.*1 -> s ∈ producers) /\ (forall s n, 0 <= n -> seen a' l' s n = seen a l s n) /\ LRUCache.maxCacheSize (map a') = LRUCache.maxCacheSize (map a).
Proof.
  intros Ha Hmax Hsub Hs. destruct (bits_for_ok a l seed Ha) as (i & a' & l' & E & Ha' & Hl & Hk & Hse & Hm).
  - intros Hl. pose proof (room l seed (rep_keys _ _ _ (ao_rep _ _ Ha)) Hsub Hs Hl). lia.
  - exists i, a', l'. split_and!; [done.. | | done | done]. intros s [-> | ?]%Hk; auto.
Qed.
Lemma isDuplicate_tracks a S i s n : tracks a S -> pair_of_id i = Some (s, n) -> s ∈ producers -> 0 <= n < 2 ^ 31 - 64 ->
  exists a', isDuplicate (Some i) a = (Ok (bool_decide ((s, n) ∈ S)), a') /\ tracks a' ({[(s, n)]} ∪ S).
Proof.
  intros (l & Ha & Hmax & Hsub & HS) Hp Hs Hn. unfold isDuplicate. rewrite (seed_of_id _ _ _ Hp). destruct (bits_for_tracked a l s Ha Hmax Hsub Hs) as (j & a1 & l1 & E1 & Ha1 & Hl1 & Hsub1 & Hse1 & Hm1).
  unfold xbind. rewrite E1. destruct (test_and_set_ok a1 l1 s j n Ha1 Hl1 Hn) as (a2 & E2 & Ha2 & Hm2 & Hse2). exists a2. rewrite E2. split.
  - do 2 f_equal. apply eq_true_iff_eq. rewrite bool_decide_eq_true, HS, Hse1 by lia. split; [intros ?; split; [lia | done] | by intros [_ ?]].
  - exists l1. split_and!; [done | by rewrite Hm2, Hm1 | done |]. intros s' n'. rewrite elem_of_union, elem_of_singleton, HS. split.
    + intros [[= -> ->] | [H0 H1]]; [split; [lia |]; rewrite Hse2 by lia; unfold is_pair; by rewrite bool_decide_eq_true_2, Z.eqb_refl |]. split; [done |]. rewrite Hse2, Hse1, H1 by done. apply orb_true_r.
    + intros [H0 H1]. rewrite Hse2, Hse1 in H1 by done. apply orb_true_iff in H1 as [[->%bool_decide_eq_true ->%Z.eqb_eq]%andb_true_iff | H1]; [by left | by right].
Qed.
Lemma rollback_tracks a S i s n : tracks a S -> pair_of_id i = Some (s, n) -> 0 <= n < 2 ^ 31 - 64 ->
  exists a', rollback (Some i) a = (Ok tt, a') /\ tracks a' (S ∖ {[(s, n)]}).
Proof.
  intros (l & Ha & Hmax & Hsub & HS) Hp Hn. unfold rollback. rewrite (seed_of_id _ _ _ Hp). destruct (find_bits_ok a l s Ha) as (a1 & l1 & E1 & Ha1 & Hp1 & Hse1 & Hm1 & Hh1). unfold xbind. rewrite E1.
  assert (Hsub1 : forall s', s' ∈ l1.*1 -> s' ∈ producers) by (intros s'; rewrite Hp1; apply Hsub). pose proof (rep_keys _ _ _ (ao_rep _ _ Ha)) as Hnk. destruct (lookup_in s l) as [q|] eqn:El.
  - destruct (ao_pointer a l s q Ha El) as (j & b & -> & _). assert (Hl1 : lookup_in s l1 = Some (Some j)) by (by rewrite (lookup_perm l l1)). unfold reset_bit. rewrite (proj2 (Z.leb_le 0 n)) by lia.
    destruct (set_bit_ok a1 l1 s j n false Ha1 Hl1 Hn) as (a2 & E2 & Ha2 & Hm2 & Hse2). exists a2. split; [done |]. exists l1. split_and!; [done | by rewrite Hm2, Hm1 | done |].
    intros s' n'. rewrite elem_of_difference, elem_of_singleton, HS. split.
    + intros [[H0 H1] Hne]. split; [done |]. rewrite Hse2, Hse1 by done. destruct (is_pair s s' n n') eqn:Ep; [|done]. apply andb_true_iff in Ep as [->%bool_decide_eq_true ->%Z.eqb_eq]. done.
    + intros [H0 H1]. rewrite Hse2, Hse1 in H1 by done. destruct (is_pair s s' n n') eqn:Ep; [done |]. split; [done |]. intros [= -> ->]. unfold is_pair in Ep. by rewrite bool_decide_eq_true_2, Z.eqb_refl in Ep.
  - exists a1. split; [done |]. exists l1. split_and!; [done | by rewrite Hm1 | done |]. intros s' n'. rewrite elem_of_difference, elem_of_singleton, HS, Hse1. split; [by intros [? _] |].
    intros [H0 H1]. split; [done |]. intros [= -> ->]. unfold seen in H1. by rewrite El in H1.
Qed.
Lemma isInOrder_tracks a S i s n : tracks a S -> pair_of_id i = Some (s, n) -> s ∈ producers -> 0 <= n < 2 ^ 31 - 64 ->
  exists a', isInOrder (Some i) a = (Ok (bool_decide ((s, n) ∈ S /\ set_Forall (fun q => q.1 = s -> q.2 <= n) S)), a') /\ tracks a' S.
Proof.
  intros (l & Ha & Hmax & Hsub & HS) Hp Hs Hn. unfold isInOrder. rewrite (seed_of_id _ _ _ Hp). destruct (bits_for_tracked a l s Ha Hmax Hsub Hs) as (j & a1 & l1 & E1 & Ha1 & Hl1 & Hsub1 & Hse1 & Hm1).
  unfold xbind. rewrite E1. destruct (is_last_ok a1 l1 s j n false Ha1 Hl1 Hn) as (a2 & r & E2 & Hr & Ha2 & Hm2 & Hse2). exists a2. rewrite E2. split.
  - do 2 f_equal. apply eq_true_iff_eq. rewrite bool_decide_eq_true, HS, Hr, Hse1 by lia. split.
    + intros [H1 H2]. split_and!; [lia | done |]. intros [s' n'] [H0 H3]%HS. cbn. intros ->. destruct (Z.leb_spec n' n); [done |]. rewrite <- Hse1, H2 in H3 by lia. done.
    + intros [[_ H1] H2]. split; [done |]. intros n' Hn'. rewrite Hse1 by lia. destruct (seen a l s n') eqn:E; [|done]. assert (Hin : (s, n') ∈ S) by (apply HS; split; [lia | done]). specialize (H2 _ Hin eq_refl). cbn in H2. lia.
  - exists l1. split_and!; [done | by rewrite Hm2, Hm1 | done |]. intros s' n'. rewrite HS, Hse2. split; intros [H0 H1]; (split; [done |]); [by rewrite Hse1 | by rewrite Hse1 in H1].
Qed.

Lemma do_call_tracks c a S : tracks a S -> id_ok (id_of c) -> exists a1, do_call c a = (Ok (fst (abstract_call c S)), a1) /\ tracks a1 (snd (abstract_call c S)).
Proof.
  intros Ht Hc. unfold id_ok in Hc. unfold abstract_call. destruct (pair_of_id (id_of c)) as [[s n]|] eqn:Ep; [|done]. destruct Hc as [Hs Hn]. destruct c as [i|i|i]; cbn [id_of do_call fst snd] in *; unfold xbind.
  - destruct (isDuplicate_tracks a S i s n Ht Ep Hs Hn) as (a1 & -> & Ht1). by exists a1.
  - destruct (rollback_tracks a S i s n Ht Ep Hn) as (a1 & -> & Ht1). by exists a1.
  - destruct (isInOrder_tracks a S i s n Ht Ep Hs Hn) as (a1 & -> & Ht1). by exists a1.
Qed.

(** C33. ActiveMQMessageAudit implements a set: for any sequence of isDuplicate, rollback
    and isInOrder calls with message ids of as many producers as the cache holds and
    sequence numbers below 2^31 - 64, isDuplicate answers whether the pair of producer and
    sequence number was seen and not rolled back since, isInOrder whether it is the
    highest one seen of its producer, and no call fails. *)
Theorem audit_refines cs a S : tracks a S -> Forall (fun c => id_ok (id_of c)) cs ->
  exists a', do_calls cs a = (Ok (fst (abstract_calls cs S)), a') /\ tracks a' (snd (abstract_calls cs S)).
Proof.
  revert a S. induction cs as [|c cs IH]; intros a S Ht Hok; [by exists a |]. apply Forall_cons_iff in Hok as [Hc Hcs]. cbn [do_calls abstract_calls fst snd].
  destruct (do_call_tracks c a S Ht Hc) as (a1 & E1 & Ht1). unfold xbind at 1. rewrite E1. destruct (IH a1 _ Ht1 Hcs) as (a2 & E2 & Ht2). unfold xbind. rewrite E2. by exists a2.
Qed.
End Tracking.

(** A new audit; the number of producers it was asked to track plays no role. *)
Lemma new_cache_ok : exists c, LRUCache.new (K:=list Z) (V:=bits_ptr) = Ok c /\ rep HashCode.string (LRUCache.super c) [] /\ LinkedHashMap.accessOrder (LRUCache.super c) = true /\ LRUCache.maxCacheSize c = 10000.
Proof.
  destruct (new_table HashCode.string (K:=list Z) (V:=bits_ptr) 0) as [Ht E]; [lia |]. eexists. split; [reflexivity |]. split_and!; [|done | done]. apply make_rep; [|unfold contents, entries; cbn; by rewrite E].
  split; [exact Ht | unfold entries; cbn; by rewrite E | done].
Qed.
Lemma init_tracks producers depth max : 0 <= depth < 2 ^ 31 -> zlen producers <= 10000 -> exists a, init depth max = Ok a /\ tracks producers a ∅.
Proof.
  intros Hd Hp. unfold init. destruct new_cache_ok as (c & -> & Hr & Ho & Hm). cbn [rbind]. eexists. split; [reflexivity |]. exists []. split_and!; [split; cbn; try done; [by intros s p ?%elem_of_nil | constructor] | cbn; lia | by intros s ?%elem_of_nil |].
  intros s n. split; [by intros ?%elem_of_empty | by intros [_ ?]].
Qed.

(** Sequence numbers from 2^31 on share the bits of small ones: a message whose number
    is the number of an earlier message of its producer plus 2147483647 is taken for a
    duplicate although it was never seen. *)
Theorem late_sequence_taken_for_duplicate producers a S i i' s n : zlen producers < 2 ^ 28 -> tracks producers a S -> pair_of_id i = Some (s, n) -> pair_of_id i' = Some (s, n + INT_MAX) ->
  s ∈ producers -> 1 <= n < 2 ^ 31 - 64 -> (s, n) ∈ S -> exists a', isDuplicate (Some i') a = (Ok true, a').
Proof.
  intros Hs Ht Hp Hp' Hin Hn HS. destruct (isDuplicate_tracks producers Hs a S i s n Ht Hp Hin) as (a' & E & _); [lia |]. exists a'. rewrite bool_decide_eq_true_2 in E by done. rewrite <- E.
  unfold isDuplicate. rewrite (seed_of_id _ _ _ Hp), (seed_of_id _ _ _ Hp'). unfold xbind at 1 2. destruct (bits_for s a) as [[b|] a1]; [|done]. unfold test_and_set. assert (scaledIndex (n + INT_MAX) = scaledIndex n) as ->.
  { rewrite (small_index n) by lia. unfold scaledIndex, INT_MAX in *. rewrite (proj2 (Z.ltb_lt _ _)) by lia. rewrite Z.add_simpl_r. apply swrap_small; lia. }
  unfold INT_MAX. rewrite !(proj2 (Z.leb_le 0 _)) by lia. done.
Qed.

(** ** The maximum number of producers *)
Lemma entry_list_ok {K V} `{Countable K} (hashFunc : K -> Z) (m : LinkedHashMap.t K V) l : rep hashFunc m l -> LinkedHashMap.entry_list m = Ok l.
Proof.
  intros Hr. unfold LinkedHashMap.entry_list. rewrite (rep_size _ _ _ Hr). unfold zlen. rewrite Nat2Z.id.
  destruct (linked_visit_ok hashFunc (fun _ => false) l [] (LinkedHashMap.iterate m) m) as (m' & E & _); [split_and!; [done | apply (rep_head _ _ _ Hr) | done] |]. by rewrite E.
Qed.
Lemma stored_all_new (es l : list (list Z * bits_ptr)) : NoDup (l ++ es).*1 -> stored_all true es l = l ++ es.
Proof.
  revert l. induction es as [|[k v] es IH]; intros l Hn; [by rewrite app_nil_r |]. cbn [stored_all fold_left]. rewrite stored_new.
  - change (stored_all true es (l ++ [(k, v)]) = l ++ (k, v) :: es). rewrite IH; rewrite <- app_assoc; done.
  - apply lookup_absent. rewrite fmap_app in Hn. apply list.NoDup_app in Hn as (_ & Hd & _). intros Hk. apply (Hd _ Hk). by left.
Qed.

(** Lowering the maximum number of producers does not drop any: putAll copies the
    entries without evicting, so the audit keeps every producer it knows, however small the
    new maximum is, and in the same order. *)
Theorem adjust_keeps_all a l value : audit_ok a l -> 0 < value ->
  exists a', adjustMaxProducersToTrack value a = (Ok tt, a') /\ audit_ok a' l /\ (forall s n, seen a' l s n = seen a l s n) /\
    LRUCache.maxCacheSize (map a') = value /\ maximumNumberOfProducersToTrack a' = value /\ LRUCache.size (map a') = zlen l.
Proof.
  intros Ha Hv. pose proof (ao_rep _ _ Ha) as Hr. pose proof (rep_keys _ _ _ Hr) as Hn. pose proof (ao_size _ _ Ha) as Hs. unfold adjustMaxProducersToTrack.
  enough (exists m, (if value <? maximumNumberOfProducersToTrack a then
      let! newMap := LRUCache.init_order 0 value (3, 4) true in let! es := LinkedHashMap.entry_list (LRUCache.super (map a)) in let! r := LRUCache.putAll HashCode.string None es newMap in
      let! es := LinkedHashMap.entry_list (LRUCache.super (snd r)) in let! r := LRUCache.putAll HashCode.string None es (LRUCache.clear (map a)) in Ok (snd r) else Ok (map a)) = Ok m /\
    rep HashCode.string (LRUCache.super m) l /\ LinkedHashMap.accessOrder (LRUCache.super m) = true) as (m & -> & Hrm & Hom).
  { unfold LRUCache.setMaxCacheSize. rewrite (proj2 (Z.leb_gt value 0)) by lia. eexists. split; [reflexivity |].
    destruct (audit_perm a (with_max value (with_map (LRUCache.mk (LRUCache.super m) value) a)) l l Ha) as [H1 H2]; [done.. |]. split_and!; [done | done | done | done |]. exact (rep_size _ _ _ Hrm). }
  destruct (value <? _); [|exists (map a); by split_and!; [| | apply Ha]]. destruct new_cache_ok as (c & Ec & Hrc & Hoc & _). unfold LRUCache.new in Ec. unfold LRUCache.init_order.
  destruct (LinkedHashMap.init_order 0 (3, 4) true) as [m0|]; [|done]. cbn [rbind] in *. rewrite (proj2 (Z.leb_gt value 0)) by lia. injection Ec as <-. cbn [rbind LRUCache.super] in *. rewrite (entry_list_ok HashCode.string _ l Hr). cbn [rbind].
  unfold LRUCache.putAll, LRUCache.on_super. cbn [LRUCache.super]. destruct (putAll_rep HashCode.string None l m0 [] Hrc) as (m1 & -> & Hr1 & Ho1); [unfold zlen in *; cbn; lia |]. rewrite Hoc, stored_all_new in Hr1 by done. cbn [rbind snd LRUCache.super]. rewrite (entry_list_ok HashCode.string _ l Hr1). cbn [rbind].
  destruct (putAll_rep HashCode.string None l (LinkedHashMap.clear (LRUCache.super (map a))) [] (clear_rep _ _ _ Hr)) as (m2 & E2 & Hr2 & Ho2); [unfold zlen in *; cbn; lia |].
  change (LRUCache.super (LRUCache.clear (map a))) with (LinkedHashMap.clear (LRUCache.super (map a))). rewrite E2. cbn [rbind snd]. eexists. split; [reflexivity |]. cbn [LRUCache.super].
  change (LinkedHashMap.accessOrder (LinkedHashMap.clear (LRUCache.super (map a)))) with (LinkedHashMap.accessOrder (LRUCache.super (map a))) in *. rewrite (ao_order _ _ Ha) in Hr2, Ho2. by rewrite stored_all_new in Hr2.
Qed.

(** ** Witnesses *)
Definition sample_id (session n : Z) : MessageId.t := MessageId.mk [] (Some (ProducerId.mk (str "ID:client-1") 1 session)) n 0.
Definition sample_producers : list (list Z) := Eval vm_compute in [ProducerId_toString (ProducerId.mk (str "ID:client-1") 1 1); ProducerId_toString (ProducerId.mk (str "ID:client-1") 1 2)].
Definition sample_audit : t := Eval vm_compute in match new with Ok a => a | Err _ => mk 0 0 (LRUCache.mk (LinkedHashMap.make (HashMap.make 1 (3, 4)) true) 1) [] end.
Lemma sample_tracks : tracks sample_producers sample_audit ∅.
Proof. destruct (init_tracks sample_producers 2048 64) as (a & E & Ht); [lia | vm_compute; done |]. vm_compute in E. injection E as <-. exact Ht. Qed.
Definition sample_calls : list call := [IsDuplicate (sample_id 1 5); IsDuplicate (sample_id 2 5); IsDuplicate (sample_id 1 5); Rollback (sample_id 1 5); IsInOrder (sample_id 2 5); IsDuplicate (sample_id 1 5)].
Lemma in_sample session n : session = 1 \/ session = 2 -> 0 <= n < 2 ^ 31 - 64 -> id_ok sample_producers (sample_id session n).
Proof. intros [-> | ->] Hn; (split; [|exact Hn]); [by left | by right; left]. Qed.
Lemma sample_calls_ok : Forall (fun c => id_ok sample_producers (id_of c)) sample_calls.
Proof. repeat (apply Forall_cons_iff; split; [apply in_sample; lia |]). by constructor. Qed.
Lemma few_producers : zlen sample_producers < 2 ^ 28.
Proof. done. Qed.
Lemma audit_refines_witness : exists a', do_calls sample_calls sample_audit = (Ok [Some false; Some false; Some true; None; Some true; Some false], a').
Proof.
  destruct (audit_refines sample_producers few_producers sample_calls sample_audit ∅ sample_tracks sample_calls_ok) as (a' & E & _). exists a'.
  enough (Ef : fst (abstract_calls sample_calls ∅) = [Some false; Some false; Some true; None; Some true; Some false]) by (rewrite <- Ef; exact E). vm_compute. reflexivity.
Defined.
Lemma late_sequence_taken_for_duplicate_witness : exists a a', isDuplicate (Some (sample_id 1 5)) sample_audit = (Ok false, a) /\ isDuplicate (Some (sample_id 1 2147483652)) a = (Ok true, a').
Proof.
  destruct (isDuplicate_tracks sample_producers few_producers sample_audit ∅ (sample_id 1 5) _ 5 sample_tracks eq_refl) as (a & E & Ht); [by left | lia |]. exists a.
  destruct (late_sequence_taken_for_duplicate sample_producers a _ (sample_id 1 5) (sample_id 1 2147483652) _ 5 few_producers Ht eq_refl eq_refl) as (a' & E'); [by left | lia | by apply elem_of_union_l, elem_of_singleton |]. exists a'.
  split; [|exact E']. rewrite bool_decide_eq_false_2 in E by apply not_elem_of_empty. exact E.
Defined.
Lemma adjust_keeps_all_witness : exists a1 a2 a3, do_call (IsDuplicate (sample_id 1 5)) sample_audit = (Ok (Some false), a1) /\ do_call (IsDuplicate (sample_id 2 5)) a1 = (Ok (Some false), a2) /\
  adjustMaxProducersToTrack 1 a2 = (Ok tt, a3) /\ LRUCache.maxCacheSize (map a3) = 1 /\ LRUCache.size (map a3) = 2.
Proof.
  destruct (do_call_tracks sample_producers few_producers (IsDuplicate (sample_id 1 5)) sample_audit ∅ sample_tracks) as (a1 & E1 & Ht1); [apply in_sample; lia |].
  destruct (do_call_tracks sample_producers few_producers (IsDuplicate (sample_id 2 5)) a1 _ Ht1) as (a2 & E2 & (l & Ha & _)); [apply in_sample; lia |].
  destruct (adjust_keeps_all a2 l 1 Ha) as (a3 & E3 & _ & _ & Hm & _ & Hl); [lia |]. exists a1, a2, a3. vm_compute in E1. injection E1 as <-. vm_compute in E2. injection E2 as <-.
  split_and!; [vm_compute; reflexivity | vm_compute; reflexivity | exact E3 | exact Hm |]. rewrite Hl. exact (eq_sym (rep_size _ _ _ (ao_rep _ _ Ha))).
Defined.
