(* ===== verification/Correlator.v ===== *)
(** * The response correlator

    activemq/transport/correlator/ResponseCorrelator.cpp on top of
    activemq/transport/TransportFilter.cpp, with activemq/transport/FutureResponse.cpp.

    Any number of threads call the correlator at once: the session threads send
    requests, the thread of the transport below delivers responses and failures.
    A call is a thread; between two of its atomic actions (an access to an
    AtomicBoolean or AtomicInteger, a section synchronized on mapMutex, a call of
    the next transport, a wait) any other thread may run.  [pc] names the points a
    thread can be at, [advance] is its next action, [perform] lets one thread of a
    configuration act or a new call begin.  The next transport is not part of the
    model: what a call of it returns is a [choice] of the environment. *)

From stdpp Require Import gmap.
From S2P Require Import Prelude BaseMarshaller Commands Failover.

(** ** Members of BaseCommand
    A Command is changed through the setters of its base class. *)
Definition set_response_base (b : BaseCommand.t) (r : Response.t) : Response.t := Response.mk b (Response.correlationId r).
Definition set_command_base (b : BaseCommand.t) (c : DataStructure) : DataStructure :=
  match c with
  | DMessage m => DMessage (let 'Message.mk _ x0 _ x2 x3 x4 x5 x6 x7 x8 x9 x10 x11 x12 x13 x14 x15 x16 x17 x18 x19 x20 x21 x22 x23 x24 x25 x26 x27 x28 x29 x30 x31 x32 x33 x34 := m in Message.mk _ x0 b x2 x3 x4 x5 x6 x7 x8 x9 x10 x11 x12 x13 x14 x15 x16 x17 x18 x19 x20 x21 x22 x23 x24 x25 x26 x27 x28 x29 x30 x31 x32 x33 x34)
  | DBrokerInfo i => DBrokerInfo (let 'BrokerInfo.mk _ x1 x2 x3 x4 x5 x6 x7 x8 x9 x10 x11 x12 := i in BrokerInfo.mk b x1 x2 x3 x4 x5 x6 x7 x8 x9 x10 x11 x12)
  | DConnectionControl i => DConnectionControl (let 'ConnectionControl.mk _ x1 x2 x3 x4 x5 x6 x7 x8 x9 := i in ConnectionControl.mk b x1 x2 x3 x4 x5 x6 x7 x8 x9)
  | DConnectionError i => DConnectionError (let 'ConnectionError.mk _ x1 x2 := i in ConnectionError.mk b x1 x2)
  | DConnectionInfo i => DConnectionInfo (let 'ConnectionInfo.mk _ x1 x2 x3 x4 x5 x6 x7 x8 x9 x10 x11 := i in ConnectionInfo.mk b x1 x2 x3 x4 x5 x6 x7 x8 x9 x10 x11)
  | DConsumerControl i => DConsumerControl (let 'ConsumerControl.mk _ x1 x2 x3 x4 x5 x6 x7 := i in ConsumerControl.mk b x1 x2 x3 x4 x5 x6 x7)
  | DConsumerInfo i => DConsumerInfo (let 'ConsumerInfo.mk _ x1 x2 x3 x4 x5 x6 x7 x8 x9 x10 x11 x12 x13 x14 x15 x16 x17 x18 x19 := i in ConsumerInfo.mk b x1 x2 x3 x4 x5 x6 x7 x8 x9 x10 x11 x12 x13 x14 x15 x16 x17 x18 x19)
  | DControlCommand i => DControlCommand (let 'ControlCommand.mk _ x1 := i in ControlCommand.mk b x1)
  | DDataArrayResponse i => DDataArrayResponse (let 'DataArrayResponse.mk _ r x1 := i in DataArrayResponse.mk _ (set_response_base b r) x1)
  | DDataResponse i => DDataResponse (let 'DataResponse.mk _ r x1 := i in DataResponse.mk _ (set_response_base b r) x1)
  | DDestinationInfo i => DDestinationInfo (let 'DestinationInfo.mk _ x1 x2 x3 x4 x5 := i in DestinationInfo.mk b x1 x2 x3 x4 x5)
  | DExceptionResponse i => DExceptionResponse (let 'ExceptionResponse.mk r x1 := i in ExceptionResponse.mk (set_response_base b r) x1)
  | DFlushCommand i => DFlushCommand (let 'FlushCommand.mk _ := i in FlushCommand.mk b)
  | DIntegerResponse i => DIntegerResponse (let 'IntegerResponse.mk r x1 := i in IntegerResponse.mk (set_response_base b r) x1)
  | DKeepAliveInfo i => DKeepAliveInfo (let 'KeepAliveInfo.mk _ := i in KeepAliveInfo.mk b)
  | DMessageAck i => DMessageAck (let 'MessageAck.mk _ x1 x2 x3 x4 x5 x6 x7 x8 := i in MessageAck.mk b x1 x2 x3 x4 x5 x6 x7 x8)
  | DMessageDispatch i => DMessageDispatch (let 'MessageDispatch.mk _ _ x1 x2 x3 x4 := i in MessageDispatch.mk _ b x1 x2 x3 x4)
  | DMessageDispatchNotification i => DMessageDispatchNotification (let 'MessageDispatchNotification.mk _ x1 x2 x3 x4 := i in MessageDispatchNotification.mk b x1 x2 x3 x4)
  | DMessagePull i => DMessagePull (let 'MessagePull.mk _ x1 x2 x3 x4 x5 := i in MessagePull.mk b x1 x2 x3 x4 x5)
  | DProducerAck i => DProducerAck (let 'ProducerAck.mk _ x1 x2 := i in ProducerAck.mk b x1 x2)
  | DProducerInfo i => DProducerInfo (let 'ProducerInfo.mk _ x1 x2 x3 x4 x5 := i in ProducerInfo.mk b x1 x2 x3 x4 x5)
  | DRemoveInfo i => DRemoveInfo (let 'RemoveInfo.mk _ _ x1 x2 := i in RemoveInfo.mk _ b x1 x2)
  | DRemoveSubscriptionInfo i => DRemoveSubscriptionInfo (let 'RemoveSubscriptionInfo.mk _ x1 x2 x3 := i in RemoveSubscriptionInfo.mk b x1 x2 x3)
  | DReplayCommand i => DReplayCommand (let 'ReplayCommand.mk _ x1 x2 := i in ReplayCommand.mk b x1 x2)
  | DResponse i => DResponse (set_response_base b i)
  | DSessionInfo i => DSessionInfo (let 'SessionInfo.mk _ x1 := i in SessionInfo.mk b x1)
  | DShutdownInfo i => DShutdownInfo (let 'ShutdownInfo.mk _ := i in ShutdownInfo.mk b)
  | DTransactionInfo i => DTransactionInfo (let 'TransactionInfo.mk _ x1 x2 x3 := i in TransactionInfo.mk b x1 x2 x3)
  | DWireFormatInfo i => DWireFormatInfo (let 'WireFormatInfo.mk _ x1 x2 x3 x4 := i in WireFormatInfo.mk b x1 x2 x3 x4)
  | _ => c
  end.

Definition setCommandId (id : Z) (c : DataStructure) : DataStructure :=
  set_command_base (BaseCommand.mk id (isResponseRequired c)) c.
Definition setResponseRequired (required : bool) (c : DataStructure) : DataStructure :=
  set_command_base (BaseCommand.mk (getCommandId c) required) c.
Definition is_response (c : DataStructure) : bool := match response_id c with Some _ => true | None => false end.

Module FutureResponse.
(** The latch counts from one to zero; [responseCallback] names the callback. *)
Record t := mk {
  responseLatch : Z;
  response : option DataStructure;
  responseCallback : option nat
}.
Definition new (responseCallback : option nat) : t := mk 1 None responseCallback.
(** The call of the callback, if there is one, is left to the caller. *)
Definition setResponse (r : DataStructure) (f : t) : t :=
  mk (if 0 <? responseLatch f then responseLatch f - 1 else responseLatch f) (Some r) (responseCallback f).
(** Whether getResponse returns without waiting. *)
Definition released (f : t) : bool := responseLatch f =? 0.
End FutureResponse.

Module ResponseCorrelator.
(** An exception with its message. *)
Record error := mkError { cls : exn; message : list Z }.

(** What others see the correlator do: calls of the listener and of callbacks, and
    what it hands to the next transport. *)
Inductive event :=
| Sent (c : DataStructure)
| NextStarted
| NextStopped
| NextListenerCleared
| NextClosed
| Forwarded (c : DataStructure)
| Reported (e : error)
| Interrupted
| Resumed
| Completed (f cb : nat) (r : DataStructure).

(** A FutureResponse is an index into [futures]. *)
Record t := mk {
  closed : bool;
  started : bool;
  listener : bool;
  nextCommandId : Z;
  requestMap : gmap Z nat;
  priorError : option error;
  futures : list FutureResponse.t;
  events : list event
}.
Definition new : t := mk false false false 1 ∅ None [] [].
Definition set_closed (v : bool) (s : t) : t := mk v (started s) (listener s) (nextCommandId s) (requestMap s) (priorError s) (futures s) (events s).
Definition set_started (v : bool) (s : t) : t := mk (closed s) v (listener s) (nextCommandId s) (requestMap s) (priorError s) (futures s) (events s).
Definition set_listener (v : bool) (s : t) : t := mk (closed s) (started s) v (nextCommandId s) (requestMap s) (priorError s) (futures s) (events s).
Definition set_nextCommandId (v : Z) (s : t) : t := mk (closed s) (started s) (listener s) v (requestMap s) (priorError s) (futures s) (events s).
Definition set_requestMap (v : gmap Z nat) (s : t) : t := mk (closed s) (started s) (listener s) (nextCommandId s) v (priorError s) (futures s) (events s).
Definition set_priorError (v : option error) (s : t) : t := mk (closed s) (started s) (listener s) (nextCommandId s) (requestMap s) v (futures s) (events s).
Definition set_futures (v : list FutureResponse.t) (s : t) : t := mk (closed s) (started s) (listener s) (nextCommandId s) (requestMap s) (priorError s) v (events s).
Definition log (e : event) (s : t) : t := mk (closed s) (started s) (listener s) (nextCommandId s) (requestMap s) (priorError s) (futures s) (events s ++ [e]).

(** ** Threads *)
(** The three ways to send a request: asyncRequest with its callback, request, and
    request with a timeout. *)
Inductive kind := Async (responseCallback : option nat) | Sync | Timed.

(** What a TransportFilter passes to its listener. *)
Inductive notice := NCommand (c : DataStructure) | NException (e : error) | NInterrupted | NResumed.

Inductive call :=
| Oneway (c : DataStructure)
| Request (k : kind) (c : DataStructure)
| OnCommand (c : DataStructure)
| OnException (e : error)
| TransportInterrupted
| TransportResumed
| SetTransportListener (present : bool)
| Start
| Stop
| Close.

(** What a call returns. *)
Inductive answer := Void | Future (f : nat) | Answer (r : DataStructure).

(** What follows dispose: the end of close, with the exception it has kept, or the
    rest of onException. *)
Inductive after := AfterClose (failed : bool) | AfterException (e : error).

Inductive pc :=
| OnewayCheck | OnewayId | OnewaySend
| RequestCheck | RequestId | RequestRegister | RequestRejected | RequestSend
| RequestCleanup (e : exn) | RequestWait | RequestFinish (r : result answer)
| CommandReceived
| Dispose (e : error) (k : after) | DisposeAnswer (e : error) (requests : list nat) (k : after)
| FilterStarted (n : notice) | FilterClosed (n : notice) | FilterNotify (n : notice)
| Listening (present : bool)
| StartCheck | StartListener | StartFlag | StartNext
| StopCheck (closing : bool) | StopFlag (closing : bool) | StopNext (closing : bool)
| CloseCheck | CloseFlag (failed : bool) | CloseListener (failed : bool) | CloseNext (failed : bool)
| Done (r : result answer).

(** A thread: the call, the command it works on (whose id the call sets), its
    FutureResponse, and where it is. *)
Record thread := mkThread {
  what : call;
  command : option DataStructure;
  future : option nat;
  at_ : pc
}.
Definition goto (p : pc) (th : thread) : thread := mkThread (what th) (command th) (future th) p.
Definition with_command (c : DataStructure) (th : thread) : thread := mkThread (what th) (Some c) (future th) (at_ th).
Definition with_future (f : nat) (th : thread) : thread := mkThread (what th) (command th) (Some f) (at_ th).

Definition entry (c : call) : pc :=
  match c with
  | Oneway _ => OnewayCheck
  | Request _ _ => RequestCheck
  | OnCommand _ => CommandReceived
  | OnException e => Dispose e (AfterException e)
  | TransportInterrupted => FilterStarted NInterrupted
  | TransportResumed => FilterStarted NResumed
  | SetTransportListener b => Listening b
  | Start => StartCheck
  | Stop => StopCheck false
  | Close => CloseCheck
  end.
Definition argument (c : call) : option DataStructure :=
  match c with Oneway c | Request _ c => Some c | _ => None end.
Definition spawn (c : call) : thread := mkThread c (argument c) None (entry c).

(** What the environment decides in an action: that a call of the next transport
    throws, that a wait times out or is interrupted. *)
Inductive choice := Normal | Fails (e : exn) | TimesOut | IsInterrupted.

(** ** The actions *)
(** The catch clauses of oneway, asyncRequest and request. *)
Definition to_request (e : exn) : exn :=
  if is_IOException e || bool_decide (e = UnsupportedOperationException) then e else IOException.
(** The id a command is sent with is the key of its request. *)
Definition key (c : DataStructure) : Z := to_u32 (getCommandId c).

Definition getAndIncrement (s : t) : Z * t := (nextCommandId s, set_nextCommandId (to_s32 (nextCommandId s + 1)) s).

(** futureResponse->setResponse(r) *)
Definition setResponse (f : nat) (r : DataStructure) (s : t) : t :=
  match futures s !! f with
  | None => s
  | Some fu =>
    let s := set_futures (<[f := FutureResponse.setResponse r fu]> (futures s)) s in
    match FutureResponse.responseCallback fu with
    | Some cb => log (Completed f cb r) s
    | None => s
    end
  end.

(** The answers made up here.  A BrokerError made from a local exception carries it
    in a member that is not part of the data of the command. *)
Definition rejected_response : DataStructure :=
  DExceptionResponse (ExceptionResponse.mk Response.default (Some (BrokerError.mk [] [] [] None))).
Definition error_response (e : error) : DataStructure :=
  DExceptionResponse (ExceptionResponse.mk Response.default (Some (BrokerError.mk (str "java.io.IOException") (message e) [] None))).
Definition transport_stopped : error := mkError IOException (str "Transport Stopped").

Definition callback_of (k : kind) : option nat := match k with Async cb => cb | _ => None end.
(** The new FutureResponse and the section that registers it. *)
Definition register (k : kind) (id : Z) (s : t) : nat * bool * t :=
  let f := length (futures s) in
  let s := set_futures (futures s ++ [FutureResponse.new (callback_of k)]) s in
  match priorError s with
  | None => (f, true, set_requestMap (<[id := f]> (requestMap s)) s)
  | Some _ => (f, false, s)
  end.

(** The end of request, once the latch is released or the wait is over. *)
Definition received (f : nat) (s : t) : result answer :=
  match futures s !! f with
  | Some fu => match FutureResponse.response fu with Some r => Ok (Answer r) | None => throw IOException end
  | None => throw IOException
  end.
Definition latch_open (f : nat) (s : t) : bool :=
  match futures s !! f with Some fu => FutureResponse.released fu | None => false end.

(** The synchronized section of onCommand. *)
Definition correlate (r : DataStructure) (correlationId : Z) (s : t) : t :=
  match requestMap s !! to_u32 correlationId with
  | None => s
  | Some f => setResponse f r (set_requestMap (delete (to_u32 correlationId) (requestMap s)) s)
  end.

(** The synchronized section of dispose: the requests to answer, in the order of the
    map of the model, which need not be that of the HashMap. *)
Definition dispose_section (e : error) (s : t) : list nat * t :=
  match priorError s with
  | None => ((map_to_list (requestMap s)).*2, set_requestMap ∅ (set_priorError (Some e) s))
  | Some _ => ([], s)
  end.

Definition notify (n : notice) (s : t) : t :=
  if listener s then
    log (match n with NCommand c => Forwarded c | NException e => Reported e | NInterrupted => Interrupted | NResumed => Resumed end) s
  else s.

Definition after_dispose (k : after) : pc :=
  match k with
  | AfterClose failed => Done (if failed then throw IOException else Ok Void)
  | AfterException e => FilterStarted (NException e)
  end.

(** stop is called by the application or by close, which keeps its exception. *)
Definition stopped (closing failed : bool) : pc :=
  if closing then CloseFlag failed else Done (if failed then throw IOException else Ok Void).

Definition next_call (o : choice) (ok : pc) (failed : exn -> pc) : pc :=
  match o with Fails e => failed e | _ => ok end.

(** The next action of a thread, or None while it cannot act. *)
Definition advance_oneway (o : choice) (p : pc) (th : thread) (s : t) : option (thread * t) :=
  match p, command th with
  | OnewayCheck, _ => Some (goto (if closed s then Done (throw IOException) else OnewayId) th, s)
  | OnewayId, Some c =>
    let '(id, s) := getAndIncrement s in
    Some (goto OnewaySend (with_command (setResponseRequired false (setCommandId id c)) th), s)
  | OnewaySend, Some c => Some (goto (next_call o (Done (Ok Void)) (fun e => Done (throw (to_request e)))) th, log (Sent c) s)
  | _, _ => None
  end.

Definition advance_request (k : kind) (o : choice) (p : pc) (th : thread) (s : t) : option (thread * t) :=
  match p, command th, future th with
  | RequestCheck, _, _ => Some (goto (if closed s then Done (throw IOException) else RequestId) th, s)
  | RequestId, Some c, _ =>
    let '(id, s) := getAndIncrement s in
    Some (goto RequestRegister (with_command (setResponseRequired true (setCommandId id c)) th), s)
  | RequestRegister, Some c, _ =>
    let '(f, accepted, s) := register k (key c) s in
    Some (goto (if accepted then RequestSend else match k with Async _ => RequestRejected | _ => Done (throw IOException) end)
            (with_future f th), s)
  | RequestRejected, _, Some f => Some (goto (Done (throw IOException)) th, setResponse f rejected_response s)
  | RequestSend, Some c, Some f =>
    Some (goto (next_call o (match k with Async _ => Done (Ok (Future f)) | _ => RequestWait end)
                  (fun e => match k with Async _ => RequestCleanup e | _ => RequestFinish (throw e) end)) th, log (Sent c) s)
  | RequestCleanup e, Some c, _ =>
    Some (goto (Done (throw (to_request match requestMap s !! key c with Some _ => e | None => NoSuchElementException end))) th,
          set_requestMap (delete (key c) (requestMap s)) s)
  | RequestWait, _, Some f =>
    match o, k with
    | IsInterrupted, _ => Some (goto (RequestFinish (throw IOException)) th, s)
    | TimesOut, Timed => Some (goto (RequestFinish (received f s)) th, s)
    | _, _ => if latch_open f s then Some (goto (RequestFinish (received f s)) th, s) else None
    end
  | RequestFinish r, Some c, _ =>
    Some (goto (Done match r with Err (Throw e) => throw (to_request e) | r => r end) th,
          set_requestMap (delete (key c) (requestMap s)) s)
  | _, _, _ => None
  end.

Definition advance_filter (p : pc) (th : thread) (s : t) : option (thread * t) :=
  match p with
  | FilterStarted n => Some (goto (if started s then FilterClosed n else Done (Ok Void)) th, s)
  | FilterClosed n => Some (goto (if closed s then Done (Ok Void) else FilterNotify n) th, s)
  | FilterNotify n => Some (goto (Done (Ok Void)) th, notify n s)
  | Dispose e k => let '(requests, s) := dispose_section e s in Some (goto (DisposeAnswer e requests k) th, s)
  | DisposeAnswer e [] k => Some (goto (after_dispose k) th, s)
  | DisposeAnswer e (f :: requests) k => Some (goto (DisposeAnswer e requests k) th, setResponse f (error_response e) s)
  | Listening b => Some (goto (Done (Ok Void)) th, set_listener b s)
  | _ => None
  end.

Definition advance_lifecycle (o : choice) (p : pc) (th : thread) (s : t) : option (thread * t) :=
  match p with
  | StartCheck => Some (goto (if closed s then Done (Ok Void) else StartListener) th, s)
  | StartListener => Some (goto (if listener s then StartFlag else Done (throw IOException)) th, s)
  | StartFlag => Some (goto (if started s then Done (Ok Void) else StartNext) th, set_started true s)
  | StartNext => Some (goto (next_call o (Done (Ok Void)) (fun e => Done (throw (to_io e)))) th, log NextStarted s)
  | StopCheck closing => Some (goto (if closed s then stopped closing false else StopFlag closing) th, s)
  | StopFlag closing => Some (goto (if started s then StopNext closing else stopped closing false) th, set_started false s)
  | StopNext closing => Some (goto (next_call o (stopped closing false) (fun _ => stopped closing true)) th, log NextStopped s)
  | CloseCheck => Some (goto (if closed s then Done (Ok Void) else StopCheck true) th, s)
  | CloseFlag failed =>
    Some (goto (if closed s then Done (if failed then throw IOException else Ok Void) else CloseListener failed) th, set_closed true s)
  | CloseListener failed => Some (goto (CloseNext failed) th, log NextListenerCleared s)
  | CloseNext failed =>
    Some (goto (next_call o (Dispose transport_stopped (AfterClose failed))
                  (fun e => if is_IOException e then Dispose transport_stopped (AfterClose true) else Done (throw IOException))) th,
          log NextClosed s)
  | _ => None
  end.

Definition advance (o : choice) (th : thread) (s : t) : option (thread * t) :=
  match at_ th, what th with
  | (OnewayCheck | OnewayId | OnewaySend) as p, _ => advance_oneway o p th s
  | (RequestCheck | RequestId | RequestRegister | RequestRejected | RequestSend | RequestCleanup _ | RequestWait | RequestFinish _) as p, Request k _ =>
    advance_request k o p th s
  | CommandReceived, OnCommand c =>
    match response_id c with
    | None => Some (goto (FilterStarted (NCommand c)) th, s)
    | Some correlationId => Some (goto (Done (Ok Void)) th, correlate c correlationId s)
    end
  | (FilterStarted _ | FilterClosed _ | FilterNotify _ | Dispose _ _ | DisposeAnswer _ _ _ | Listening _) as p, _ => advance_filter p th s
  | p, _ => advance_lifecycle o p th s
  end.

(** ** Configurations *)
Definition config : Type := list thread * t.
Definition initial : config := ([], new).
Inductive label := Call (c : call) | Run (i : nat) (o : choice).

Definition perform (l : label) (cfg : config) : option config :=
  let '(ths, s) := cfg in
  match l with
  | Call c => Some (ths ++ [spawn c], s)
  | Run i o =>
    match ths !! i with
    | None => None
    | Some th => match advance o th s with Some (th', s') => Some (<[i := th']> ths, s') | None => None end
    end
  end.
Fixpoint runs (ls : list label) (cfg : config) : option config :=
  match ls with
  | [] => Some cfg
  | l :: ls => match perform l cfg with Some cfg => runs ls cfg | None => None end
  end.

Definition finished (th : thread) : bool := match at_ th with Done _ => true | _ => false end.
End ResponseCorrelator.
