(* ===== verification/CorrelatorLaws.v ===== *)
(** * The invariant of the response correlator

    What holds of every configuration the threads of Correlator.v can reach: ids are
    not shared, the request map holds exactly the requests that wait for an answer,
    a FutureResponse is answered once, by a response to its own command or because
    the transport failed. *)

From stdpp Require Import gmap.
From S2P Require Import Prelude BaseMarshaller Commands Failover Correlator.
Import ResponseCorrelator.

Implicit Types (th : thread) (ths : list thread) (s : t) (i j f : nat) (k : Z) (r : DataStructure).

(** ** Commands *)
Definition is_command (c : DataStructure) : bool :=
  match c with
  | DMessage _ | DBrokerInfo _ | DConnectionControl _ | DConnectionError _ | DConnectionInfo _ | DConsumerControl _
  | DConsumerInfo _ | DControlCommand _ | DDataArrayResponse _ | DDataResponse _ | DDestinationInfo _ | DExceptionResponse _
  | DFlushCommand _ | DIntegerResponse _ | DKeepAliveInfo _ | DMessageAck _ | DMessageDispatch _
  | DMessageDispatchNotification _ | DMessagePull _ | DProducerAck _ | DProducerInfo _ | DRemoveInfo _
  | DRemoveSubscriptionInfo _ | DReplayCommand _ | DResponse _ | DSessionInfo _ | DShutdownInfo _ | DTransactionInfo _
  | DWireFormatInfo _ => true
  | _ => false
  end.

Lemma command_base_set b c : is_command c = true -> command_base (set_command_base b c) = b.
Proof. by destruct c as [| |[]|[]|[]|[]|[]|[]|[]|[]|[]|[]|[]|[]|[]|[]|[]|[]|[]|[]|[]|[]|[]|[]|[]|[]|[]|[]|[]|[]|[]|[]|[]|[]|[]|[]|[]|[]|[]|[]|[]|[]|[]|[]|[]|[]]. Qed.
Lemma is_command_set b c : is_command (set_command_base b c) = is_command c.
Proof. by destruct c. Qed.
Lemma key_set required id c : is_command c = true -> key (setResponseRequired required (setCommandId id c)) = to_u32 id.
Proof.
  intros H. unfold key, setResponseRequired, setCommandId, getCommandId. rewrite command_base_set by by rewrite is_command_set.
  cbn. by rewrite command_base_set.
Qed.
Lemma is_command_numbered required id c : is_command (setResponseRequired required (setCommandId id c)) = is_command c.
Proof. unfold setResponseRequired, setCommandId. by rewrite !is_command_set. Qed.

Definition call_ok (c : call) : bool := match argument c with Some d => is_command d | None => true end.
Definition label_ok (l : label) : bool := match l with Call c => call_ok c | Run _ _ => true end.

(** ** What the invariant sees of a thread *)
(** The key of the request of a thread, from the moment it has its id. *)
Definition ticket th : option Z :=
  match at_ th, future th with
  | RequestRegister, _ | _, Some _ => key <$> command th
  | _, None => None
  end.
(** Whether the thread can still take an id. *)
Definition budget th : nat := match at_ th with OnewayCheck | OnewayId | RequestCheck | RequestId => 1 | _ => 0 end.
Definition rejected th : bool := match at_ th with RequestRejected => true | _ => false end.
(** Whether the request of a thread may be in the map. *)
Definition live th : bool :=
  match at_ th, what th with
  | RequestSend, _ | RequestCleanup _, _ | RequestWait, _ | RequestFinish _, _ => true
  | Done (Ok _), Request (Async _) _ => true
  | _, _ => false
  end.
(** Whether the request of a thread is still to be answered, or was. *)
Definition waiting th : bool := match at_ th with RequestSend | RequestWait | Done (Ok (Future _)) => true | _ => false end.
(** The FutureResponses a thread has still to answer, and the error it answers with. *)
Definition to_answer th : list nat := match at_ th with DisposeAnswer _ l _ => l | _ => [] end.
Definition cause th : option error := match at_ th with DisposeAnswer e _ _ => Some e | _ => None end.

(** The answer a thread returns. *)
Definition result_of th : option DataStructure :=
  match at_ th with RequestFinish (Ok (Answer r)) | Done (Ok (Answer r)) => Some r | _ => None end.

Definition thread_ok th : Prop :=
  match at_ th with
  | OnewayCheck | OnewayId | OnewaySend => exists c, command th = Some c /\ is_command c = true /\ future th = None
  | RequestCheck | RequestId | RequestRegister =>
    exists q c0 c, what th = Request q c0 /\ command th = Some c /\ is_command c = true /\ future th = None
  | RequestRejected | RequestCleanup _ =>
    exists cb c0 c f, what th = Request (Async cb) c0 /\ command th = Some c /\ future th = Some f
  | RequestSend => exists q c0 c f, what th = Request q c0 /\ command th = Some c /\ future th = Some f
  | RequestWait => exists q c0 c f, what th = Request q c0 /\ (forall cb, q <> Async cb) /\ command th = Some c /\ future th = Some f
  | RequestFinish r => exists q c0 c f, match r with Ok (Answer _) | Err _ => True | _ => False end /\
    what th = Request q c0 /\ (forall cb, q <> Async cb) /\ command th = Some c /\ future th = Some f
  | CommandReceived => (exists c, what th = OnCommand c) /\ future th = None
  | Done (Ok (Answer r)) => exists c f, command th = Some c /\ future th = Some f
  | Done (Ok (Future f)) => exists c, command th = Some c /\ future th = Some f
  | Done _ => True
  | _ => future th = None
  end.

(** ** The FutureResponses *)
Definition answered s f : option DataStructure := fu ← futures s !! f; FutureResponse.response fu.
Definition completions f (l : list event) : list event :=
  List.filter (fun e => match e with Completed g _ _ => Nat.eqb g f | _ => false end) l.
Definition completed_once s f : list event :=
  match futures s !! f with
  | Some fu => match FutureResponse.response fu, FutureResponse.responseCallback fu with
    | Some r, Some cb => [Completed f cb r]
    | _, _ => []
    end
  | None => []
  end.

Definition owner ths f k : Prop := exists i th, ths !! i = Some th /\ future th = Some f /\ ticket th = Some k.
(** The answers a request with key [k] may get. *)
Definition answer_ok ths s k r : Prop :=
  (exists i th n, ths !! i = Some th /\ what th = OnCommand r /\ response_id r = Some n /\ to_u32 n = k) \/
  (exists e, priorError s = Some e /\ r = error_response e) \/
  (priorError s <> None /\ r = rejected_response /\ exists f i th cb c, ths !! i = Some th /\ what th = Request (Async cb) c /\ future th = Some f /\ ticket th = Some k).

Definition taken ths : nat := sum_list_with budget ths.

Record inv (cfg : config) : Prop := {
  inv_threads i th : fst cfg !! i = Some th -> thread_ok th;
  (** the ids taken so far are the first [n] *)
  inv_ids : exists n : nat, nextCommandId (snd cfg) = to_s32 (1 + Z.of_nat n) /\ (n + taken (fst cfg) <= length (fst cfg))%nat /\
    forall i th k, fst cfg !! i = Some th -> ticket th = Some k -> exists j, (j < n)%nat /\ k = to_u32 (1 + Z.of_nat j);
  inv_tickets i j th th' k : fst cfg !! i = Some th -> fst cfg !! j = Some th' -> ticket th = Some k -> ticket th' = Some k -> i = j;
  inv_futures i th f : fst cfg !! i = Some th -> future th = Some f -> exists fu q c, futures (snd cfg) !! f = Some fu /\
    what th = Request q c /\ FutureResponse.responseCallback fu = callback_of q;
  inv_owners i j th th' f : fst cfg !! i = Some th -> fst cfg !! j = Some th' -> future th = Some f -> future th' = Some f -> i = j;
  inv_map k f : requestMap (snd cfg) !! k = Some f -> answered (snd cfg) f = None /\
    exists i th, fst cfg !! i = Some th /\ future th = Some f /\ ticket th = Some k /\ live th = true;
  inv_answers f r : answered (snd cfg) f = Some r -> exists k, owner (fst cfg) f k /\ answer_ok (fst cfg) (snd cfg) k r;
  inv_lists i th f : fst cfg !! i = Some th -> f ∈ to_answer th ->
    answered (snd cfg) f = None /\ cause th = priorError (snd cfg) /\
    exists j th' k, fst cfg !! j = Some th' /\ future th' = Some f /\ ticket th' = Some k /\ rejected th' = false;
  inv_nodup i th : fst cfg !! i = Some th -> NoDup (to_answer th);
  inv_single i j th th' : fst cfg !! i = Some th -> fst cfg !! j = Some th' -> to_answer th <> [] -> to_answer th' <> [] -> i = j;
  inv_rejected i th f : fst cfg !! i = Some th -> rejected th = true -> future th = Some f ->
    answered (snd cfg) f = None /\ priorError (snd cfg) <> None;
  inv_disposed : priorError (snd cfg) <> None -> requestMap (snd cfg) = ∅;
  inv_latches f fu : futures (snd cfg) !! f = Some fu ->
    FutureResponse.responseLatch fu = match FutureResponse.response fu with Some _ => 0 | None => 1 end;
  inv_waiting i th f : fst cfg !! i = Some th -> waiting th = true -> future th = Some f ->
    answered (snd cfg) f <> None \/ (exists k, ticket th = Some k /\ requestMap (snd cfg) !! k = Some f) \/
    exists j th', fst cfg !! j = Some th' /\ f ∈ to_answer th';
  inv_results i th r : fst cfg !! i = Some th -> result_of th = Some r ->
    exists f, future th = Some f /\ answered (snd cfg) f = Some r;
  inv_completions f : completions f (events (snd cfg)) = completed_once (snd cfg) f
}.

(** ** Lists of threads *)
Lemma thread_at ths i th' j t : <[i := th']> ths !! j = Some t -> (j = i /\ t = th') \/ (j <> i /\ ths !! j = Some t).
Proof. intros H. apply list_lookup_insert_Some in H as [(-> & -> & _)|[? ?]]; [by left | right; split; [congruence | done]]. Qed.

Lemma sum_insert (F : thread -> nat) ths i th th' : ths !! i = Some th ->
  (sum_list_with F (<[i := th']> ths) + F th = sum_list_with F ths + F th')%nat.
Proof. revert i. induction ths as [|x ths IH]; intros [|i] H; simpl in *; simplify_eq; [lia | specialize (IH i H); lia]. Qed.

Lemma sum_snoc (F : thread -> nat) ths th : sum_list_with F (ths ++ [th]) = (sum_list_with F ths + F th)%nat.
Proof. rewrite sum_list_with_app. cbn. lia. Qed.

Lemma lift_ne ths i th' j t : j <> i -> ths !! j = Some t -> <[i := th']> ths !! j = Some t.
Proof. intros. by rewrite list_lookup_insert_ne by done. Qed.
Lemma lift_eq ths i th th' : ths !! i = Some th -> <[i := th']> ths !! i = Some th'.
Proof. intros. apply list_lookup_insert_eq. by eapply lookup_lt_Some. Qed.

(** ** Transferring facts about the other threads *)
(** A thread that acts keeps its call and its request. *)
Definition same_request th th' : Prop :=
  what th' = what th /\ (forall f, future th = Some f -> future th' = Some f) /\
  (forall k f, future th = Some f -> ticket th = Some k -> ticket th' = Some k).

Lemma owner_keep ths i th th' f k : ths !! i = Some th -> same_request th th' -> owner ths f k -> owner (<[i := th']> ths) f k.
Proof.
  intros Hi (_ & Hf & Ht) (j & t & Hj & ? & ?). destruct (decide (j = i)) as [->|].
  - simplify_eq. exists i, th'. split; [by eapply lift_eq | eauto].
  - exists j, t. split; [by apply lift_ne | done].
Qed.
Lemma answer_ok_keep ths i th th' s s' k r : ths !! i = Some th -> same_request th th' ->
  (forall e, priorError s = Some e -> priorError s' = Some e) -> answer_ok ths s k r -> answer_ok (<[i := th']> ths) s' k r.
Proof.
  intros Hi (Hw & Hf & Ht) He [(j & t & n & Hj & ? & ?)|[(e & ? & ?)|(? & ? & f & j & t & cb & c & Hj & ? & ? & ?)]]; [left | right; left; eauto | right; right].
  - destruct (decide (j = i)) as [->|]; [exists i, th', n; split; [by eapply lift_eq | split; [congruence | done]] | exists j, t, n; split; [by apply lift_ne | done]].
  - split; [destruct (priorError s) as [e|]; [by rewrite (He e) | done] |]. split; [done |]. destruct (decide (j = i)) as [->|].
    + simplify_eq. exists f, i, th', cb, c. split_and!; [by eapply lift_eq | congruence | auto | eauto].
    + exists f, j, t, cb, c. split; [by apply lift_ne | done].
Qed.

Lemma future_lt ths s i th f : inv (ths, s) -> ths !! i = Some th -> future th = Some f -> (f < length (futures s))%nat.
Proof. intros I Hi Hf. destruct (inv_futures _ I i th f Hi Hf) as (fu & _ & _ & E & _). by eapply lookup_lt_Some. Qed.

(** ** Actions the invariant does not see *)
(** [calm th th']: the thread keeps its request, and the steps of its own that the
    invariant counts. *)
Record calm th th' : Prop := {
  calm_what : what th' = what th;
  calm_future : future th' = future th;
  calm_ticket : ticket th' = ticket th;
  calm_budget : (budget th' <= budget th)%nat;
  calm_rejected : rejected th' = rejected th;
  calm_live : live th = true -> live th' = true;
  calm_waiting : waiting th' = true -> waiting th = true;
  calm_answer : to_answer th' = to_answer th;
  calm_cause : to_answer th <> [] -> cause th' = cause th
}.
(** [still s s']: the parts of the state the invariant is about are unchanged. *)
Record still s s' : Prop := {
  still_next : nextCommandId s' = nextCommandId s;
  still_map : requestMap s' = requestMap s;
  still_error : priorError s' = priorError s;
  still_futures : futures s' = futures s;
  still_completions f : completions f (events s') = completions f (events s)
}.

(** The thread at [j] in the new list, and the one it was. *)
Lemma calm_at ths i th th' j t : ths !! i = Some th -> calm th th' -> <[i := th']> ths !! j = Some t ->
  exists t0, ths !! j = Some t0 /\ calm t0 t.
Proof.
  intros Hi C [[-> ->]|[_ H]]%thread_at; [by exists th|]. exists t. split; [done |]. by constructor.
Qed.
Lemma calm_from ths i th th' j t0 : ths !! i = Some th -> calm th th' -> ths !! j = Some t0 ->
  exists t, <[i := th']> ths !! j = Some t /\ calm t0 t.
Proof.
  intros Hi C H. destruct (decide (j = i)) as [->|Hn].
  - simplify_eq. exists th'. split; [| done]. apply list_lookup_insert_eq. by eapply lookup_lt_Some.
  - exists t0. rewrite list_lookup_insert_ne by done. split; [done | by constructor].
Qed.

Ltac calm_all Hi C :=
  repeat match goal with
  | H : <[_ := _]> _ !! _ = Some _ |- _ => destruct (calm_at _ _ _ _ _ _ Hi C H) as (? & ? & []); clear H
  end.

Lemma calm_inv ths s i th th' s' : inv (ths, s) -> ths !! i = Some th -> calm th th' -> thread_ok th' -> still s s' ->
  (forall r, result_of th' = Some r -> exists f, future th' = Some f /\ answered s f = Some r) ->
  inv (<[i := th']> ths, s').
Proof.
  intros I Hi C Hok [] Hres. assert (Han : forall f, answered s' f = answered s f) by (intros; unfold answered; congruence).
  constructor; cbn [fst snd]; intros.
  - apply thread_at in H as [[-> ->]|[_ H]]; [done | exact (inv_threads _ I _ _ H)].
  - destruct (inv_ids _ I) as (n & E & Hn & Hk). exists n. cbn [fst snd] in *. rewrite length_insert, still_next0. split_and!; [done | |].
    + pose proof (sum_insert budget _ _ _ th' Hi). pose proof (calm_budget _ _ C). unfold taken in *. lia.
    + intros j t k Hj Ht. calm_all Hi C. eapply Hk; [done | congruence].
  - calm_all Hi C. eapply (inv_tickets _ I _ _ _ _ k); cbn [fst snd]; [done | done | congruence | congruence].
  - calm_all Hi C. rewrite still_futures0, calm_what0. eapply (inv_futures _ I _ _ f); [done | congruence].
  - calm_all Hi C. eapply (inv_owners _ I _ _ _ _ f); cbn [fst snd]; [done | done | congruence | congruence].
  - rewrite still_map0 in H. destruct (inv_map _ I k f H) as (E & j & t & Hj & ? & ? & ?). split; [by rewrite Han |].
    destruct (calm_from _ _ _ _ _ _ Hi C Hj) as (t' & Hj' & []). exists j, t'. split_and!; [done | congruence | congruence | auto].
  - rewrite Han in H. destruct (inv_answers _ I f r H) as (k & (j & t & Hj & ? & ?) & Hr). exists k. split.
    + destruct (calm_from _ _ _ _ _ _ Hi C Hj) as (t' & Hj' & []). exists j, t'. split_and!; [done | congruence | congruence].
    + eapply (answer_ok_keep _ _ _ _ s); [done | destruct C; split_and!; [done | congruence | congruence] | by rewrite still_error0 | done].
  - calm_all Hi C. rewrite calm_answer0 in H0. destruct (inv_lists _ I i0 x f) as (E & Ec & j & t & k & Hj & ? & ? & ?); [done | done |].
    rewrite Han. split; [done |]. split; [rewrite calm_cause0 by (by intros En; rewrite En in H0; apply elem_of_nil in H0); cbn in *; congruence |].
    destruct (calm_from _ _ _ _ _ _ Hi C Hj) as (t' & Hj' & []). exists j, t', k. split_and!; [done | congruence | congruence | congruence].
  - calm_all Hi C. rewrite calm_answer0. eapply (inv_nodup _ I); done.
  - calm_all Hi C. eapply (inv_single _ I); cbn [fst snd]; [done | done | congruence | congruence].
  - calm_all Hi C. rewrite Han, still_error0. eapply (inv_rejected _ I _ _ f); cbn [fst snd]; [done | congruence | congruence].
  - rewrite still_map0. apply (inv_disposed _ I). cbn. congruence.
  - rewrite still_futures0 in H. exact (inv_latches _ I f fu H).
  - calm_all Hi C. rewrite Han, still_map0. destruct (inv_waiting _ I i0 x f) as [?|[(k & ? & ?)|(j & t & Hj & ?)]]; [done | auto | congruence | by left | right; left; exists k; split; [congruence | done] |].
    right; right. destruct (calm_from _ _ _ _ _ _ Hi C Hj) as (t' & Hj' & []). exists j, t'. split; [done | congruence].
  - setoid_rewrite Han. apply thread_at in H as [[-> ->]|[? H]]; [by apply Hres | by eapply (inv_results _ I)].
  - rewrite still_completions0. pose proof (inv_completions _ I f) as E. cbn [snd] in E. rewrite E. unfold completed_once. by rewrite still_futures0.
Qed.

(** ** New calls *)
Lemma owner_snoc ths th f k : owner ths f k -> owner (ths ++ [th]) f k.
Proof. intros (i & t & H & ?). exists i, t. split; [| done]. by apply lookup_app_l_Some. Qed.
Lemma answer_ok_snoc ths th s k r : answer_ok ths s k r -> answer_ok (ths ++ [th]) s k r.
Proof.
  intros [(i & t & n & H & ?)|[?|(? & ? & f & i & t & cb & c & H & ?)]]; [left; exists i, t, n | by right; left | right; right; split_and!; [done | done |]; exists f, i, t, cb, c];
    (split; [by apply lookup_app_l_Some | done]).
Qed.

Lemma spawn_view c : future (spawn c) = None /\ ticket (spawn c) = None /\ rejected (spawn c) = false /\ to_answer (spawn c) = [] /\ result_of (spawn c) = None /\
  waiting (spawn c) = false /\ (budget (spawn c) <= 1)%nat.
Proof. destruct c; cbn; split_and!; done || lia. Qed.
Lemma spawn_ok c : call_ok c = true -> thread_ok (spawn c).
Proof. unfold call_ok. destruct c; cbn; eauto 10. Qed.

Lemma thread_snoc ths c j t : (ths ++ [spawn c]) !! j = Some t -> ths !! j = Some t \/ t = spawn c.
Proof. intros [H|[_ [_ H]%list_lookup_singleton_Some]]%lookup_app_Some; [by left | by right]. Qed.

Ltac old_thread :=
  repeat match goal with
  | H : (_ ++ [spawn ?c]) !! _ = Some ?t |- _ =>
    let Va := fresh "Va" in destruct (spawn_view c) as (? & ? & ? & Va & ? & ? & ?);
    apply thread_snoc in H; destruct H as [H| ->]; [| try congruence]
  end.

Lemma spawn_inv ths s c : inv (ths, s) -> call_ok c = true -> inv (ths ++ [spawn c], s).
Proof.
  intros I Hc. constructor; cbn [fst snd]; intros.
  - apply thread_snoc in H as [H| ->]; [exact (inv_threads _ I _ _ H) | by apply spawn_ok].
  - destruct (inv_ids _ I) as (n & E & Hn & Hk). exists n. cbn [fst snd] in *. split_and!; [done | |].
    + unfold taken in *. rewrite sum_snoc, length_app. pose proof (spawn_view c). cbn [length]. lia.
    + intros j t k Hj Ht. old_thread. by eapply Hk.
  - old_thread. eapply (inv_tickets _ I); done.
  - old_thread. eapply (inv_futures _ I); done.
  - old_thread. eapply (inv_owners _ I); done.
  - destruct (inv_map _ I k f H) as (? & i & t & ? & ?). split; [done |]. exists i, t. split; [by apply lookup_app_l_Some | done].
  - destruct (inv_answers _ I f r H) as (k & ? & ?). exists k. split; [by apply owner_snoc | by apply answer_ok_snoc].
  - old_thread; [| rewrite Va in H0; by apply elem_of_nil in H0].
    destruct (inv_lists _ I _ _ _ H H0) as (? & ? & j & t & k & ? & ?). split_and!; [done | done |]. exists j, t, k.
    split; [by apply lookup_app_l_Some | done].
  - old_thread; [by eapply (inv_nodup _ I) | rewrite Va; constructor].
  - old_thread. by eapply (inv_single _ I).
  - old_thread. by eapply (inv_rejected _ I).
  - exact (inv_disposed _ I H).
  - exact (inv_latches _ I f fu H).
  - old_thread. destruct (inv_waiting _ I _ _ _ H H0 H1) as [?|[?|(j & t & ? & ?)]]; [by left | by right; left | right; right].
    exists j, t. split; [by apply lookup_app_l_Some | done].
  - old_thread. by eapply (inv_results _ I).
  - exact (inv_completions _ I f).
Qed.

(** ** Taking an id *)
Lemma to_u32_inj (a b : nat) : Z.of_nat a < 2 ^ 32 -> Z.of_nat b < 2 ^ 32 -> to_u32 (1 + Z.of_nat a) = to_u32 (1 + Z.of_nat b) -> a = b.
Proof.
  intros Ha Hb H. unfold uwrap in H. apply Nat2Z.inj. rewrite <- (Z.mod_small (Z.of_nat a) (2 ^ 32)), <- (Z.mod_small (Z.of_nat b) (2 ^ 32)) by lia.
  replace (Z.of_nat a) with (1 + Z.of_nat a + -1) by lia. replace (Z.of_nat b) with (1 + Z.of_nat b + -1) by lia.
  by rewrite <- Z.add_mod_idemp_l, H, Z.add_mod_idemp_l by lia.
Qed.

Lemma swrap_succ w a : swrap w (swrap w a + 1) = swrap w (a + 1).
Proof.
  unfold swrap. f_equal. replace ((a + 2 ^ (w - 1)) mod 2 ^ w - 2 ^ (w - 1) + 1 + 2 ^ (w - 1)) with ((a + 2 ^ (w - 1)) mod 2 ^ w + 1) by lia.
  rewrite Zplus_mod_idemp_l. f_equal. lia.
Qed.

Lemma number_inv ths s i th th' : inv (ths, s) -> Z.of_nat (length ths) <= 2 ^ 32 -> ths !! i = Some th -> thread_ok th' ->
  what th' = what th -> future th = None -> future th' = None -> ticket th = None -> budget th = 1%nat -> budget th' = 0%nat ->
  rejected th' = false -> live th = false -> waiting th' = false -> to_answer th = [] -> to_answer th' = [] ->
  (ticket th' = None \/ ticket th' = Some (to_u32 (nextCommandId s))) -> result_of th' = None ->
  inv (<[i := th']> ths, snd (getAndIncrement s)).
Proof.
  intros I Hlen Hi Hok Hw Hf Hf' Ht Hb Hb' Hr Hl Hwt Ha Ha' Ht' Hres.
  destruct (inv_ids _ I) as (n & E & Hn & Hk). cbn [fst snd] in *.
  pose proof (sum_insert budget _ _ _ th' Hi) as Hs. unfold taken in *.
  assert (Hold : forall j t k, ths !! j = Some t -> ticket t = Some k -> Some k <> ticket th').
  { intros j t k Hj Hjt Hkk. destruct Ht' as [Ht'|Ht']; [congruence |]. rewrite Ht', E in Hkk. rewrite uwrap_swrap in Hkk by lia.
    destruct (Hk j t k Hj Hjt) as (m & Hm & ->). injection Hkk as Hkk. apply to_u32_inj in Hkk; lia. }
  assert (Hstill : forall j t, ths !! j = Some t -> j <> i \/ future t = None) by (intros j t Hj; destruct (decide (j = i)); [right; congruence | by left]).
  constructor; cbn [fst snd getAndIncrement set_nextCommandId nextCommandId requestMap priorError futures events]; intros.
  - apply thread_at in H as [[-> ->]|[_ H]]; [done | exact (inv_threads _ I _ _ H)].
  - exists (S n). rewrite length_insert. unfold taken. split_and!; [| lia |].
    + rewrite E, swrap_succ. f_equal. lia.
    + intros j t k [[-> ->]|[_ Hj]]%thread_at Hjt; [| destruct (Hk _ _ _ Hj Hjt) as (m & ? & ?); exists m; split; [lia | done]].
      exists n. split; [lia |]. destruct Ht' as [Ht'|Ht']; [congruence |]. rewrite Ht', E, uwrap_swrap in Hjt by lia. congruence.
  - apply thread_at in H as [[-> ->]|[? H]]; apply thread_at in H0 as [[-> ->]|[? H0]]; [done | exfalso; eapply Hold; eauto; congruence .. | by eapply (inv_tickets _ I)].
  - apply thread_at in H as [[-> ->]|[? H]]; [congruence | by eapply (inv_futures _ I)].
  - apply thread_at in H as [[-> ->]|[? H]]; apply thread_at in H0 as [[-> ->]|[? H0]]; [done | congruence .. | by eapply (inv_owners _ I)].
  - destruct (inv_map _ I k f H) as (? & j & t & Hj & ? & ?). split; [done |]. exists j, t. destruct (Hstill j t Hj); [| congruence]. split; [by apply lift_ne | done].
  - destruct (inv_answers _ I f r H) as (k & (j & t & Hj & Hjf & ?) & Hr'). exists k. split.
    + exists j, t. destruct (Hstill j t Hj); [| congruence]. split; [by apply lift_ne | done].
    + eapply (answer_ok_keep _ _ _ _ s); [done | split_and!; [done | congruence | congruence] | done | done].
  - apply thread_at in H as [[-> ->]|[? H]]; [rewrite Ha' in H0; by apply elem_of_nil in H0 |].
    destruct (inv_lists _ I _ _ _ H H0) as (? & ? & j & t & k & Hj & ? & ?). split_and!; [done | done |]. exists j, t, k.
    destruct (Hstill j t Hj); [| congruence]. split; [by apply lift_ne | done].
  - apply thread_at in H as [[-> ->]|[? H]]; [rewrite Ha'; constructor | by eapply (inv_nodup _ I)].
  - apply thread_at in H as [[-> ->]|[? H]]; apply thread_at in H0 as [[-> ->]|[? H0]]; [done | congruence .. | by eapply (inv_single _ I)].
  - apply thread_at in H as [[-> ->]|[? H]]; [congruence | by eapply (inv_rejected _ I)].
  - exact (inv_disposed _ I H).
  - exact (inv_latches _ I f fu H).
  - apply thread_at in H as [[-> ->]|[? H]]; [congruence |].
    destruct (inv_waiting _ I _ _ _ H H0 H1) as [?|[?|(j & t & Hj & Hin)]]; [by left | by right; left | right; right].
    exists j, t. split; [| done]. apply lift_ne; [| done]. intros ->. cbn [fst] in Hj. rewrite Hi in Hj. injection Hj as <-.
    rewrite Ha in Hin. by apply elem_of_nil in Hin.
  - apply thread_at in H as [[-> ->]|[? H]]; [congruence | by eapply (inv_results _ I)].
  - exact (inv_completions _ I f).
Qed.

(** ** Registering a request *)
Lemma completions_none ths s f : inv (ths, s) -> (length (futures s) <= f)%nat -> completions f (events s) = [].
Proof. intros I Hf. pose proof (inv_completions _ I f) as E. cbn [snd] in E. rewrite E. unfold completed_once. by rewrite lookup_ge_None_2. Qed.

Lemma register_inv ths s i th th' q c k m : inv (ths, s) -> ths !! i = Some th -> thread_ok th' -> what th = Request q c ->
  what th' = what th -> future th = None -> future th' = Some (length (futures s)) -> ticket th = Some k -> ticket th' = Some k ->
  live th = false -> budget th' = 0%nat -> to_answer th = [] -> to_answer th' = [] -> (rejected th' = true -> priorError s <> None) ->
  match priorError s with
  | None => live th' = true /\ m = <[k := length (futures s)]> (requestMap s)
  | Some _ => waiting th' = false /\ m = requestMap s
  end -> result_of th' = None ->
  inv (<[i := th']> ths, set_requestMap m (set_futures (futures s ++ [FutureResponse.new (callback_of q)]) s)).
Proof.
  intros I Hi Hok Hq Hw Hf Hf' Ht Ht' Hl Hb Ha Ha' Hr Hm Hres.
  set (F := length (futures s)) in *. pose proof (sum_insert budget _ _ _ th' Hi) as Hs.
  assert (Han : forall f, answered (set_requestMap m (set_futures (futures s ++ [FutureResponse.new (callback_of q)]) s)) f = answered s f).
  { intros f. unfold answered. cbn [futures set_requestMap set_futures]. destruct (decide (f < F)%nat); [by rewrite lookup_app_l|].
    rewrite (lookup_ge_None_2 (futures s)) by lia. rewrite lookup_app_r by lia. by destruct (f - length (futures s))%nat as [|[]]. }
  assert (Hkeep : same_request th th') by (split_and!; [done | congruence | congruence]).
  assert (Hother : forall j t f, ths !! j = Some t -> future t = Some f -> j <> i /\ f <> F).
  { intros j t f Hj Hjf. pose proof (future_lt _ _ j t f I Hj Hjf). split; [congruence | lia]. }
  assert (Hmap : forall j t g, ths !! j = Some t -> ticket t = Some g -> j <> i -> m !! g = requestMap s !! g).
  { intros j t g Hj Hg Hn. destruct (priorError s); destruct Hm as [_ ->]; [done |]. apply lookup_insert_ne. intros <-. apply Hn. by eapply (inv_tickets _ I). }
  constructor; cbn [fst snd nextCommandId requestMap priorError futures events set_requestMap set_futures]; intros.
  - apply thread_at in H as [[-> ->]|[_ H]]; [done | exact (inv_threads _ I _ _ H)].
  - destruct (inv_ids _ I) as (n & E & Hn & Hk). exists n. rewrite length_insert. cbn [fst snd] in *. unfold taken in *. split_and!; [done | lia |].
    intros j t g [[-> ->]|[_ Hj]]%thread_at Hg; [eapply Hk; [done | congruence] | by eapply Hk].
  - apply thread_at in H as [[-> ->]|[? H]]; apply thread_at in H0 as [[-> ->]|[? H0]];
      [done | symmetry | |]; eapply (inv_tickets _ I _ _ _ _ k0); cbn [fst]; (done || congruence).
  - apply thread_at in H as [[-> ->]|[? H]].
    + rewrite Hf' in H0. injection H0 as <-. eexists _, q, c. split_and!; [by apply list_lookup_middle | congruence | done].
    + destruct (inv_futures _ I _ _ _ H H0) as (fu & q' & c' & E & ?). exists fu, q', c'. split; [by apply lookup_app_l_Some | done].
  - apply thread_at in H as [[-> ->]|[? H]]; apply thread_at in H0 as [[-> ->]|[? H0]];
      [done | exfalso; destruct (Hother _ _ _ H0 H2); congruence | exfalso; destruct (Hother _ _ _ H H1); congruence | by eapply (inv_owners _ I)].
  - rewrite Han. assert (C : requestMap s !! k0 = Some f \/ (k0 = k /\ f = F /\ live th' = true)).
    { destruct (priorError s); destruct Hm as [? ->]; [by left |]. apply lookup_insert_Some in H as [[<- <-]|[_ H]]; [right; done | by left]. }
    destruct C as [C|(-> & -> & ?)].
    + destruct (inv_map _ I k0 f C) as (? & j & t & Hj & Hjf & ?). split; [done |]. exists j, t. split; [| done].
      apply lift_ne; [| done]. by destruct (Hother _ _ _ Hj Hjf).
    + split; [unfold answered; by rewrite lookup_ge_None_2 | exists i, th'; split_and!; [by eapply lift_eq | done..]].
  - rewrite Han in H. destruct (inv_answers _ I f r H) as (g & Ho & Hr'). exists g. split; [by eapply owner_keep | by eapply (answer_ok_keep _ _ _ _ s)].
  - apply thread_at in H as [[-> ->]|[? H]]; [rewrite Ha' in H0; by apply elem_of_nil in H0 |]. rewrite Han.
    destruct (inv_lists _ I _ _ _ H H0) as (? & ? & j & t & g & Hj & Hjf & ?). split_and!; [done | done |]. exists j, t, g.
    split; [| done]. apply lift_ne; [| done]. by destruct (Hother _ _ _ Hj Hjf).
  - apply thread_at in H as [[-> ->]|[? H]]; [rewrite Ha'; constructor | by eapply (inv_nodup _ I)].
  - apply thread_at in H as [[-> ->]|[? H]]; apply thread_at in H0 as [[-> ->]|[? H0]]; [done | congruence .. | by eapply (inv_single _ I)].
  - rewrite Han. apply thread_at in H as [[-> ->]|[? H]]; [| by eapply (inv_rejected _ I)]. split; [| auto].
    rewrite Hf' in H1. injection H1 as <-. unfold answered. by rewrite lookup_ge_None_2.
  - destruct (priorError s) eqn:E; [| done]. destruct Hm as [_ ->]. apply (inv_disposed _ I). cbn. by rewrite E.
  - apply lookup_app_Some in H as [H|[? H]]; [exact (inv_latches _ I f fu H) | by apply list_lookup_singleton_Some in H as [_ <-]].
  - rewrite Han. apply thread_at in H as [[-> ->]|[Hn H]].
    + right; left. exists k. rewrite Ht'. split; [done |]. destruct (priorError s); destruct Hm as [? ->]; [congruence |]. rewrite lookup_insert_eq. congruence.
    + destruct (inv_waiting _ I _ _ _ H H0 H1) as [?|[(g & ? & ?)|(j & t & Hj & Hin)]]; [by left | right; left; exists g; split; [done |] | right; right].
      * by rewrite (Hmap i0 th0).
      * exists j, t. split; [| done]. apply lift_ne; [| done]. intros ->. cbn [fst] in Hj. rewrite Hi in Hj. injection Hj as <-.
        rewrite Ha in Hin. by apply elem_of_nil in Hin.
  - setoid_rewrite Han. apply thread_at in H as [[-> ->]|[? H]]; [congruence | by eapply (inv_results _ I)].
  - pose proof (inv_completions _ I f) as E. cbn [snd] in E. destruct (decide (f < F)%nat).
    + rewrite E. unfold completed_once. cbn. by rewrite lookup_app_l by done.
    + rewrite (completions_none ths s f I) by (fold F; lia). unfold completed_once. cbn. rewrite lookup_app_r by (fold F; lia). by destruct (f - length (futures s))%nat as [|[]].
Qed.

(** ** Forgetting a request *)
Lemma forget_inv ths s i th th' k : inv (ths, s) -> ths !! i = Some th -> thread_ok th' ->
  what th' = what th -> future th' = future th -> ticket th = Some k -> ticket th' = Some k -> budget th' = budget th ->
  to_answer th = [] -> to_answer th' = [] -> rejected th' = false -> waiting th' = false -> result_of th' = result_of th ->
  inv (<[i := th']> ths, set_requestMap (delete k (requestMap s)) s).
Proof.
  intros I Hi Hok Hw Hf Ht Ht' Hb Ha Ha' Hr Hwt Hres. pose proof (sum_insert budget _ _ _ th' Hi) as Hs.
  assert (Hkeep : same_request th th') by (split_and!; [done | congruence | congruence]).
  constructor; cbn [fst snd nextCommandId requestMap priorError futures events set_requestMap]; intros.
  - apply thread_at in H as [[-> ->]|[_ H]]; [done | exact (inv_threads _ I _ _ H)].
  - destruct (inv_ids _ I) as (n & E & Hn & Hk). exists n. rewrite length_insert. cbn [fst snd] in *. unfold taken in *. split_and!; [done | lia |].
    intros j t g [[-> ->]|[_ Hj]]%thread_at Hg; [eapply Hk; [done | congruence] | by eapply Hk].
  - apply thread_at in H as [[-> ->]|[? H]]; apply thread_at in H0 as [[-> ->]|[? H0]];
      [done | symmetry | |]; eapply (inv_tickets _ I _ _ _ _ k0); cbn [fst]; (done || congruence).
  - apply thread_at in H as [[-> ->]|[? H]]; [rewrite Hw |]; eapply (inv_futures _ I _ _ f); cbn [fst]; (done || congruence).
  - apply thread_at in H as [[-> ->]|[? H]]; apply thread_at in H0 as [[-> ->]|[? H0]];
      [done | symmetry | |]; eapply (inv_owners _ I _ _ _ _ f); cbn [fst]; (done || congruence).
  - apply lookup_delete_Some in H as [Hn H]. destruct (inv_map _ I k0 f H) as (? & j & t & Hj & ? & ? & ?). split; [done |]. exists j, t.
    split; [| done]. apply lift_ne; [| done]. intros ->. cbn [fst] in Hj. congruence.
  - destruct (inv_answers _ I f r H) as (g & Ho & Hr'). exists g. split; [by eapply owner_keep | by eapply (answer_ok_keep _ _ _ _ s)].
  - apply thread_at in H as [[-> ->]|[? H]]; [rewrite Ha' in H0; by apply elem_of_nil in H0 |].
    destruct (inv_lists _ I _ _ _ H H0) as (? & ? & j & t & g & Hj & ? & ? & ?). split_and!; [done | done |].
    destruct (decide (j = i)) as [->|]; [| exists j, t, g; split; [by apply lift_ne | done]].
    exists i, th', g. cbn [fst] in Hj. rewrite Hi in Hj. injection Hj as <-. split_and!; [by eapply lift_eq | congruence | congruence | done].
  - apply thread_at in H as [[-> ->]|[? H]]; [rewrite Ha'; constructor | by eapply (inv_nodup _ I)].
  - apply thread_at in H as [[-> ->]|[? H]]; apply thread_at in H0 as [[-> ->]|[? H0]]; [done | congruence .. | by eapply (inv_single _ I)].
  - apply thread_at in H as [[-> ->]|[? H]]; [congruence | by eapply (inv_rejected _ I)].
  - pose proof (inv_disposed _ I H) as E. cbn [snd] in E. rewrite E. apply delete_empty.
  - exact (inv_latches _ I f fu H).
  - apply thread_at in H as [[-> ->]|[Hn H]]; [congruence |].
    destruct (inv_waiting _ I _ _ _ H H0 H1) as [?|[(g & Hg & ?)|(j & t & Hj & Hin)]]; [by left | right; left; exists g; split; [done |] | right; right].
    + apply lookup_delete_Some. split; [| done]. intros <-. apply Hn. by eapply (inv_tickets _ I).
    + exists j, t. split; [| done]. apply lift_ne; [| done]. intros ->. cbn [fst] in Hj. rewrite Hi in Hj. injection Hj as <-.
      rewrite Ha in Hin. by apply elem_of_nil in Hin.
  - apply thread_at in H as [[-> ->]|[? H]]; [rewrite Hf; rewrite Hres in H0 | ]; by eapply (inv_results _ I).
  - exact (inv_completions _ I f).
Qed.

(** ** Answering a request *)
Lemma setResponse_view f r s : (f < length (futures s))%nat ->
  exists fu, futures s !! f = Some fu /\ futures (setResponse f r s) = <[f := FutureResponse.setResponse r fu]> (futures s) /\
  requestMap (setResponse f r s) = requestMap s /\ priorError (setResponse f r s) = priorError s /\
  nextCommandId (setResponse f r s) = nextCommandId s /\
  events (setResponse f r s) = events s ++ match FutureResponse.responseCallback fu with Some cb => [Completed f cb r] | None => [] end.
Proof.
  intros Hf. destruct (lookup_lt_is_Some_2 _ _ Hf) as [fu E]. exists fu. unfold setResponse. rewrite E.
  split; [done |]. destruct (FutureResponse.responseCallback fu); cbn; rewrite ?app_nil_r; done.
Qed.

Lemma answered_set f r s g : (f < length (futures s))%nat -> answered (setResponse f r s) g = if decide (g = f) then Some r else answered s g.
Proof.
  intros Hf. destruct (setResponse_view f r s Hf) as (fu & E & Ef & _). unfold answered. rewrite Ef. case_decide.
  - subst. by rewrite list_lookup_insert_eq.
  - by rewrite list_lookup_insert_ne.
Qed.

Lemma completions_app g l l' : completions g (l ++ l') = completions g l ++ completions g l'.
Proof. unfold completions. apply filter_app. Qed.

Lemma answer_inv ths s i th th' m f r : inv (ths, s) -> ths !! i = Some th -> thread_ok th' ->
  what th' = what th -> future th' = future th -> ticket th' = ticket th -> budget th' = budget th -> (live th = true -> live th' = true) ->
  (rejected th' = true -> False) -> (rejected th = true -> future th = Some f) -> waiting th' = false ->
  answered s f = None -> (exists k, owner ths f k /\ answer_ok ths s k r) ->
  (forall k g, m !! k = Some g <-> requestMap s !! k = Some g /\ g <> f) ->
  (forall j t, <[i := th']> ths !! j = Some t -> f ∉ to_answer t) -> (forall j t, <[i := th']> ths !! j = Some t -> rejected t = true -> future t <> Some f) ->
  NoDup (to_answer th') -> (forall g, g ∈ to_answer th -> g = f \/ g ∈ to_answer th') -> (forall g, g ∈ to_answer th' -> g ∈ to_answer th) ->
  (to_answer th' <> [] -> cause th' = cause th) -> result_of th' = None ->
  inv (<[i := th']> ths, setResponse f r (set_requestMap m s)).
Proof.
  intros I Hi Hok Hw Hf Ht Hb Hl Hr' Hr Hwt Hun Hgood Hm Hfree Hfree' Hnd Hsub Hsub' Hc Hres.
  pose proof (sum_insert budget _ _ _ th' Hi) as Hs.
  assert (Hkeep : same_request th th') by (split_and!; [done | congruence | congruence]).
  assert (Hlen : (f < length (futures (set_requestMap m s)))%nat).
  { destruct Hgood as (k & (j & t & Hj & Hjf & _) & _). exact (future_lt _ _ j t f I Hj Hjf). }
  destruct (setResponse_view f r _ Hlen) as (fu & E & Ef & Em & Ep & En & Ee). pose proof (fun g => answered_set f r _ g Hlen) as Han.
  cbn [futures requestMap priorError nextCommandId events set_requestMap] in E, Ef, Em, Ep, En, Ee, Hlen.
  assert (Hany : forall g, answered (set_requestMap m s) g = answered s g) by done.
  assert (Hun' : FutureResponse.response fu = None) by (unfold answered in Hun; by rewrite E in Hun).
  constructor; cbn [fst snd]; intros.
  - apply thread_at in H as [[-> ->]|[_ H]]; [done | exact (inv_threads _ I _ _ H)].
  - destruct (inv_ids _ I) as (n & Eid & Hn & Hk). exists n. rewrite length_insert, En. cbn [fst snd] in *. unfold taken in *. split_and!; [done | lia |].
    intros j t g [[-> ->]|[_ Hj]]%thread_at Hg; [eapply Hk; [done | congruence] | by eapply Hk].
  - apply thread_at in H as [[-> ->]|[? H]]; apply thread_at in H0 as [[-> ->]|[? H0]];
      [done | symmetry | |]; eapply (inv_tickets _ I _ _ _ _ k); cbn [fst]; (done || congruence).
  - assert (Hq : exists fu q c, futures s !! f0 = Some fu /\ what th0 = Request q c /\ FutureResponse.responseCallback fu = callback_of q).
    { apply thread_at in H as [[-> ->]|[? H]]; [rewrite Hw |]; eapply (inv_futures _ I _ _ f0); cbn [fst]; (done || congruence). }
    destruct Hq as (fu0 & q & c & E0 & ? & ?). rewrite Ef. destruct (decide (f0 = f)) as [->|].
    + rewrite list_lookup_insert_eq by done. exists (FutureResponse.setResponse r fu), q, c. split_and!; [done | done | cbn; congruence].
    + rewrite list_lookup_insert_ne by done. by exists fu0, q, c.
  - apply thread_at in H as [[-> ->]|[? H]]; apply thread_at in H0 as [[-> ->]|[? H0]];
      [done | symmetry | |]; eapply (inv_owners _ I _ _ _ _ f0); cbn [fst]; (done || congruence).
  - rewrite Em in H. apply Hm in H as [H Hne]. rewrite Han, decide_False, Hany by done. destruct (inv_map _ I k f0 H) as (? & j & t & Hj & ? & ? & ?).
    split; [done |]. destruct (decide (j = i)) as [->|]; [| exists j, t; split; [by apply lift_ne | done]].
    cbn [fst] in Hj. rewrite Hi in Hj. injection Hj as <-. exists i, th'. split_and!; [by eapply lift_eq | congruence | congruence | auto].
  - rewrite Han in H. case_decide.
    + subst f0. simplify_eq. destruct Hgood as (k & ? & ?). exists k. split; [by eapply owner_keep | eapply (answer_ok_keep _ _ _ _ s); try done; by rewrite Ep].
    + destruct (inv_answers _ I f0 r0 H) as (g & Ho & Hg). exists g. split; [by eapply owner_keep | eapply (answer_ok_keep _ _ _ _ s); try done; by rewrite Ep].
  - rewrite Ep. assert (f0 <> f) by (intros ->; by eapply Hfree). rewrite Han, decide_False, Hany by done.
    assert (Hq : exists t0, ths !! i0 = Some t0 /\ f0 ∈ to_answer t0 /\ cause th0 = cause t0).
    { apply thread_at in H as [[-> ->]|[? H]]; [exists th; split_and!; [done | auto |] | by exists th0]. apply Hc. intros En'. rewrite En' in H0. by apply elem_of_nil in H0. }
    destruct Hq as (t0 & Ht0 & Hin & Hcause). destruct (inv_lists _ I _ _ _ Ht0 Hin) as (? & ? & j & t & g & Hj & ? & ? & ?). split_and!; [done | cbn [snd] in *; congruence |].
    destruct (decide (j = i)) as [->|]; [| exists j, t, g; split; [by apply lift_ne | done]].
    cbn [fst] in Hj. rewrite Hi in Hj. injection Hj as <-. exists i, th', g. split_and!; [by eapply lift_eq | congruence | congruence |].
    by destruct (rejected th'); [destruct (Hr' eq_refl) |].
  - apply thread_at in H as [[-> ->]|[? H]]; [done | by eapply (inv_nodup _ I)].
  - assert (Hne : to_answer th' <> [] -> to_answer th <> []).
    { intros Hx Ey. destruct (to_answer th') as [|y l]; [done |]. assert (Hy : y ∈ to_answer th) by (apply Hsub'; left).
      rewrite Ey in Hy. by apply elem_of_nil in Hy. }
    apply thread_at in H as [[-> ->]|[? H]]; apply thread_at in H0 as [[-> ->]|[? H0]]; [done | symmetry | |]; eapply (inv_single _ I); cbn [fst]; eauto.
  - rewrite Ep. rewrite Han, decide_False, Hany by (intros ->; by eapply Hfree'). apply thread_at in H as [[-> ->]|[? H]]; [by destruct (Hr' H0) | by eapply (inv_rejected _ I)].
  - rewrite Em. rewrite Ep in H. pose proof (inv_disposed _ I H) as Ed. cbn [snd] in Ed. apply map_eq. intros k. rewrite lookup_empty.
    destruct (m !! k) eqn:Ek; [| done]. apply Hm in Ek as [Ek _]. by rewrite Ed in Ek.
  - rewrite Ef in H. apply list_lookup_insert_Some in H as [(<- & <- & _)|[_ H]]; [| exact (inv_latches _ I _ _ H)].
    pose proof (inv_latches _ I f fu E) as L. rewrite Hun' in L. cbn. by rewrite L.
  - apply thread_at in H as [[-> ->]|[Hn H]]; [congruence |]. rewrite Han, Em. case_decide; [by left |]. rewrite Hany.
    destruct (inv_waiting _ I _ _ _ H H0 H1) as [?|[(g & Hg & ?)|(j & t & Hj & Hin)]]; [by left | right; left; exists g; split; [done | by apply Hm] | right; right].
    destruct (decide (j = i)) as [->|]; [| exists j, t; split; [by apply lift_ne | done]].
    cbn [fst] in Hj. rewrite Hi in Hj. injection Hj as <-. exists i, th'. split; [by eapply lift_eq |]. by destruct (Hsub _ Hin).
  - apply thread_at in H as [[-> ->]|[? H]]; [congruence |]. destruct (inv_results _ I _ _ _ H H0) as (g & ? & Hg). exists g. split; [done |].
    rewrite Han. case_decide; [| done]. subst. cbn [snd] in Hg. congruence.
  - rewrite Ee, completions_app. pose proof (inv_completions _ I f0) as Ec. cbn [snd] in Ec. rewrite Ec. unfold completed_once. rewrite Ef.
    destruct (decide (f0 = f)) as [->|Hn].
    + rewrite E, Hun', list_lookup_insert_eq by done. cbn. destruct (FutureResponse.responseCallback fu); cbn; [| done]. by rewrite Nat.eqb_refl.
    + rewrite list_lookup_insert_ne by done. destruct (FutureResponse.responseCallback fu); cbn; [| by rewrite app_nil_r].
      rewrite (proj2 (Nat.eqb_neq f f0)) by done. by rewrite app_nil_r.
Qed.

(** ** Disposing *)
Lemma dispose_inv ths s i th th' e : inv (ths, s) -> ths !! i = Some th -> thread_ok th' -> priorError s = None ->
  what th' = what th -> future th = None -> future th' = None -> ticket th = None -> ticket th' = None -> budget th' = budget th ->
  rejected th' = false -> waiting th' = false -> to_answer th' = (map_to_list (requestMap s)).*2 -> cause th' = Some e -> result_of th' = None ->
  inv (<[i := th']> ths, set_requestMap ∅ (set_priorError (Some e) s)).
Proof.
  intros I Hi Hok Hp Hw Hf Hf' Ht Ht' Hb Hr Hwt Ha Hc Hres. pose proof (sum_insert budget _ _ _ th' Hi) as Hs.
  assert (Hother : forall j t f, ths !! j = Some t -> future t = Some f -> j <> i) by (intros; congruence).
  assert (Hempty : forall j t, ths !! j = Some t -> to_answer t = []).
  { intros j t Hj. destruct (to_answer t) as [|f l] eqn:E; [done |]. exfalso.
    destruct (inv_lists _ I j t f Hj) as (_ & Hx & _); [rewrite E; left |]. cbn [snd] in Hx. rewrite Hp in Hx.
    unfold cause in Hx. unfold to_answer in E. by destruct (at_ t). }
  assert (Hin : forall f, f ∈ (map_to_list (requestMap s)).*2 <-> exists k, requestMap s !! k = Some f).
  { intros f. rewrite list_elem_of_fmap. split; [intros ([k g] & -> & E%elem_of_map_to_list); by exists k | intros [k E]; exists (k, f); split; [done | by apply elem_of_map_to_list]]. }
  constructor; cbn [fst snd nextCommandId requestMap priorError futures events set_requestMap set_priorError]; intros.
  - apply thread_at in H as [[-> ->]|[_ H]]; [done | exact (inv_threads _ I _ _ H)].
  - destruct (inv_ids _ I) as (n & E & Hn & Hk). exists n. rewrite length_insert. cbn [fst snd] in *. unfold taken in *. split_and!; [done | lia |].
    intros j t g [[-> ->]|[_ Hj]]%thread_at Hg; [congruence | by eapply Hk].
  - apply thread_at in H as [[-> ->]|[? H]]; apply thread_at in H0 as [[-> ->]|[? H0]]; [congruence .. | by eapply (inv_tickets _ I)].
  - apply thread_at in H as [[-> ->]|[? H]]; [congruence | by eapply (inv_futures _ I)].
  - apply thread_at in H as [[-> ->]|[? H]]; apply thread_at in H0 as [[-> ->]|[? H0]]; [congruence .. | by eapply (inv_owners _ I)].
  - by rewrite lookup_empty in H.
  - destruct (inv_answers _ I f r H) as (k & (j & t & Hj & Hjf & ?) & Hr'). exists k. split.
    + exists j, t. split; [apply lift_ne; [by eapply Hother | done] | done].
    + eapply (answer_ok_keep _ _ _ _ s); try done; [split_and!; [done | congruence | congruence] | by rewrite Hp].
  - apply thread_at in H as [[-> ->]|[? H]]; [| rewrite (Hempty _ _ H) in H0; by apply elem_of_nil in H0].
    rewrite Ha in H0. apply Hin in H0 as [k E]. destruct (inv_map _ I k f E) as (Hun & j & t & Hj & Hjf & ? & Hl). split; [done |]. split; [done |].
    exists j, t, k. split_and!; [apply lift_ne; [by eapply Hother | done] | done | done |]. unfold live in Hl. unfold rejected. by destruct (at_ t).
  - apply thread_at in H as [[-> ->]|[? H]]; [| rewrite (Hempty _ _ H); constructor]. rewrite Ha.
    apply NoDup_fmap_2_strong; [| apply NoDup_map_to_list]. intros [k f] [k' f'] E E' [= <-].
    apply elem_of_map_to_list in E, E'. destruct (inv_map _ I _ _ E) as (_ & j & t & Hj & Hjf & Hk & _). destruct (inv_map _ I _ _ E') as (_ & j' & t' & Hj' & Hjf' & Hk' & _).
    assert (j = j') as <- by (by eapply (inv_owners _ I)). congruence.
  - apply thread_at in H as [[-> ->]|[? H]]; apply thread_at in H0 as [[-> ->]|[? H0]]; [done | rewrite (Hempty _ _ H0) in H2; done | rewrite (Hempty _ _ H) in H1; done | rewrite (Hempty _ _ H) in H1; done].
  - apply thread_at in H as [[-> ->]|[? H]]; [congruence |]. split; [by eapply (inv_rejected _ I) | done].
  - done.
  - exact (inv_latches _ I f fu H).
  - apply thread_at in H as [[-> ->]|[? H]]; [congruence |].
    destruct (inv_waiting _ I _ _ _ H H0 H1) as [?|[(k & _ & E)|(j & t & Hj & Hjn)]]; [by left | right; right | rewrite (Hempty _ _ Hj) in Hjn; by apply elem_of_nil in Hjn].
    exists i, th'. split; [by eapply lift_eq |]. rewrite Ha. apply Hin. by exists k.
  - apply thread_at in H as [[-> ->]|[? H]]; [congruence | by eapply (inv_results _ I)].
  - exact (inv_completions _ I f).
Qed.

(** ** Every step keeps the invariant *)
Lemma initial_inv : inv initial.
Proof.
  constructor; cbn; try done; intros; try by rewrite lookup_nil in *.
  exists 0%nat. split_and!; [done | done |]. intros j t k H. by rewrite lookup_nil in H.
Qed.

Lemma still_refl s : still s s.
Proof. by constructor. Qed.
Lemma still_log e s : (forall f cb r, e <> Completed f cb r) -> still s (log e s).
Proof.
  intros He. constructor; try done. intros f. cbn [log events]. rewrite completions_app. destruct e; cbn; rewrite ?app_nil_r; try done.
  by destruct (He f0 cb r).
Qed.
Lemma still_notify n s : still s (notify n s).
Proof. unfold notify. destruct (listener s); [| apply still_refl]. apply still_log. by destruct n. Qed.
Lemma still_closed s v : still s (set_closed v s).
Proof. by constructor. Qed.
Lemma still_started s v : still s (set_started v s).
Proof. by constructor. Qed.
Lemma still_listener s v : still s (set_listener v s).
Proof. by constructor. Qed.
Create HintDb calm.
#[local] Hint Resolve still_refl still_notify still_closed still_started still_listener : calm.
#[local] Hint Extern 1 (still _ (log _ _)) => apply still_log; discriminate : calm.

(** A quiet step: the thread moves between points the invariant does not tell apart. *)
Ltac quiet I Hi :=
  eapply calm_inv; [exact I | exact Hi |
    constructor; cbn; repeat (case_match; cbn); (done || lia || eauto) |
    cbn; repeat (case_match; cbn); eauto 10 | eauto with calm | cbn; repeat (case_match; cbn); (done || eauto)].

Lemma set_requestMap_same s : set_requestMap (requestMap s) s = s.
Proof. by destruct s. Qed.

(** The owner of a FutureResponse is one thread. *)
Lemma owner_is ths s i th f j t : inv (ths, s) -> ths !! i = Some th -> future th = Some f -> ths !! j = Some t -> future t = Some f -> j = i /\ t = th.
Proof. intros I Hi Hf Hj Hjf. assert (j = i) as -> by (by eapply (inv_owners _ I)). split; [done | congruence]. Qed.

(** The request that is refused answers its own FutureResponse. *)
Lemma reject_inv ths s i th th' f : inv (ths, s) -> ths !! i = Some th -> thread_ok th' -> at_ th = RequestRejected ->
  what th' = what th -> future th = Some f -> future th' = Some f -> command th' = command th -> is_Some (command th) ->
  (exists e, at_ th' = Done (throw e)) -> inv (<[i := th']> ths, setResponse f rejected_response s).
Proof.
  intros I Hi Hok Hat Hw Hf Hf' Hc [c Hcs] [e He].
  destruct (inv_rejected _ I i th f Hi) as [Hun Hp]; [unfold rejected; by rewrite Hat | done |]. cbn [snd] in *.
  pose proof (inv_disposed _ I Hp) as Hm. cbn [snd] in Hm.
  assert (Ht : ticket th = Some (key c)) by (unfold ticket; by rewrite Hat, Hf, Hcs).
  rewrite <- (set_requestMap_same s). eapply (answer_inv _ _ _ th th' (requestMap s) f); try done; try (unfold to_answer, rejected, live, waiting, budget, result_of; by rewrite ?Hat, ?He).
  - congruence.
  - unfold ticket. by rewrite Hat, He, Hf, Hf', Hc.
  - exists (key c). split; [by exists i, th |]. right; right. split_and!; [done | done |]. exists f, i, th. pose proof (inv_threads _ I i th Hi) as Ho. unfold thread_ok in Ho. rewrite Hat in Ho. destruct Ho as (cb & c0 & _ & _ & ? & _). by exists cb, c0.
  - intros k g. rewrite Hm, lookup_empty. split; [done | by intros [? _]].
  - intros j t [[-> ->]|[Hn Hj]]%thread_at Hin; [unfold to_answer in Hin; rewrite He in Hin; by apply elem_of_nil in Hin |].
    destruct (inv_lists _ I j t f Hj Hin) as (_ & _ & l & u & k & Hl & Hlf & _ & Hr).
    destruct (owner_is _ _ _ _ _ _ _ I Hi Hf Hl Hlf) as [-> ->]. unfold rejected in Hr. by rewrite Hat in Hr.
  - intros j t [[-> ->]|[Hn Hj]]%thread_at Hr; [unfold rejected in Hr; by rewrite He in Hr |]. intros Hjf.
    by destruct (owner_is _ _ _ _ _ _ _ I Hi Hf Hj Hjf) as [-> _].
  - unfold to_answer. rewrite He. constructor.
  - intros g. unfold to_answer. rewrite Hat. intros Hg. by apply elem_of_nil in Hg.
Qed.

Lemma dispose_answer_inv ths s i th th' e f l a : inv (ths, s) -> ths !! i = Some th -> at_ th = DisposeAnswer e (f :: l) a ->
  th' = goto (DisposeAnswer e l a) th -> inv (<[i := th']> ths, setResponse f (error_response e) s).
Proof.
  intros I Hi Hat ->. assert (Ha : to_answer th = f :: l) by (unfold to_answer; by rewrite Hat).
  pose proof (inv_threads _ I i th Hi) as Hok. unfold thread_ok in Hok. rewrite Hat in Hok.
  destruct (inv_lists _ I i th f Hi) as (Hun & Hc & j & t & k' & Hj & Hjf & Hk & Hr); [rewrite Ha; left |]. cbn [fst snd] in *.
  assert (Hp : priorError s = Some e) by (unfold cause in Hc; rewrite Hat in Hc; done).
  pose proof (inv_disposed _ I) as Hm. cbn [snd] in Hm. rewrite Hp in Hm. specialize (Hm ltac:(done)).
  pose proof (inv_nodup _ I i th Hi) as Hnd. rewrite Ha in Hnd. apply list.NoDup_cons in Hnd as [Hf Hl].
  rewrite <- (set_requestMap_same s). eapply (answer_inv _ _ _ th _ (requestMap s) f); try done.
  - unfold ticket. cbn. by rewrite Hat, Hok.
  - unfold budget. cbn. by rewrite Hat.
  - unfold live. cbn. by rewrite Hat.
  - unfold rejected. by rewrite Hat.
  - exists k'. split; [by exists j, t |]. right; left. by exists e.
  - intros g h. rewrite Hm, lookup_empty. split; [done | by intros [? _]].
  - intros l' u [[-> ->]|[Hn Hl']]%thread_at Hin; [done |]. apply Hn. eapply (inv_single _ I); [done | done | | rewrite Ha; done].
    intros E. rewrite E in Hin. by apply elem_of_nil in Hin.
  - intros l' u [[-> ->]|[Hn Hl']]%thread_at Hru; [done |]. intros Hu. destruct (owner_is _ _ _ _ _ _ _ I Hj Hjf Hl' Hu) as [-> ->]. congruence.
  - intros g. rewrite Ha. rewrite elem_of_cons. done.
  - intros g Hg. rewrite Ha. by right.
  - intros _. unfold cause. by rewrite Hat.
Qed.

Lemma correlate_inv ths s i th r n : inv (ths, s) -> ths !! i = Some th -> at_ th = CommandReceived -> what th = OnCommand r -> response_id r = Some n ->
  inv (<[i := goto (Done (Ok Void)) th]> ths, correlate r n s).
Proof.
  intros I Hi Hat Hw Hn. pose proof (inv_threads _ I i th Hi) as Hok. unfold thread_ok in Hok. rewrite Hat in Hok. destruct Hok as [_ Hf].
  unfold correlate. destruct (requestMap s !! to_u32 n) as [f|] eqn:E.
  - destruct (inv_map _ I _ _ E) as (Hun & j & t & Hj & Hjf & Hk & Hl). cbn [fst snd] in *.
    assert (Hp : priorError s = None).
    { destruct (priorError s) eqn:Ep; [| done]. pose proof (inv_disposed _ I) as Hm. cbn [snd] in Hm. rewrite Ep in Hm. by rewrite Hm in E. }
    assert (Hj' : j <> i) by congruence.
    eapply (answer_inv _ _ _ th _ _ f); try done; try (unfold ticket, budget, live, rejected, to_answer; cbn; by rewrite ?Hat, ?Hf).
    + exists (to_u32 n). split; [by exists j, t |]. left. exists i, th, n. done.
    + intros k g. rewrite lookup_delete_Some. split; [| intros [Hkg Hne]; split; [intros <-; congruence | done]].
      intros [Hne Hkg]. split; [done |]. intros ->. destruct (inv_map _ I _ _ Hkg) as (_ & j' & t' & Hj2 & Hjf2 & Hk2 & _).
      destruct (owner_is _ _ _ _ _ _ _ I Hj Hjf Hj2 Hjf2) as [-> ->]. congruence.
    + intros l u [[-> ->]|[_ Hu]]%thread_at Hin; [by apply elem_of_nil in Hin |]. destruct (inv_lists _ I _ _ _ Hu Hin) as (_ & Hx & _).
      cbn [snd] in Hx. rewrite Hp in Hx. unfold cause in Hx. unfold to_answer in Hin. destruct (at_ u); try discriminate; by apply elem_of_nil in Hin.
    + intros l u [[-> ->]|[_ Hu]]%thread_at Hru; [done |]. intros Huf. destruct (owner_is _ _ _ _ _ _ _ I Hj Hjf Hu Huf) as [-> ->].
      unfold rejected in Hru. unfold live in Hl. by destruct (at_ t).
    + constructor.
    + intros g. unfold to_answer. rewrite Hat. intros Hg. by apply elem_of_nil in Hg.
  - eapply calm_inv; [exact I | exact Hi | | done | apply still_refl | done]. constructor; try done; unfold ticket, budget, rejected, live, to_answer, waiting, cause; cbn; rewrite ?Hat, ?Hf; done || lia.
Qed.

Section Steps.
Context (ths : list thread) (s : t) (i : nat) (w : call) (oc : option DataStructure) (fo : option nat) (p : pc) (o : choice).
Let th := mkThread w oc fo p.
Context (I : inv (ths, s)) (Hi : ths !! i = Some th) (Hlen : Z.of_nat (length ths) <= 2 ^ 32).

Lemma advance_oneway_inv th' s' : advance_oneway o p th s = Some (th', s') -> inv (<[i := th']> ths, s').
Proof.
  pose proof (inv_threads _ I i th Hi) as Hok. unfold th in *. clear th. intros H. destruct p; try discriminate H; cbn in H, Hok.
  - destruct Hok as (c & -> & Hc & ->). injection H as <- <-. unfold goto; cbn. destruct (closed s); quiet I Hi.
  - destruct Hok as (c & -> & Hc & ->). injection H as <- <-. eapply number_inv; try done; [| by left]. cbn. eauto using is_command_numbered.
  - destruct Hok as (c & -> & Hc & ->). injection H as <- <-. unfold goto, next_call; cbn. destruct o; quiet I Hi.
Qed.

Lemma advance_request_inv q c0 th' s' : w = Request q c0 -> advance_request q o p th s = Some (th', s') -> inv (<[i := th']> ths, s').
Proof.
  pose proof (inv_threads _ I i th Hi) as Hok. unfold th in *. clear th. intros -> H. destruct p; try discriminate H; cbn in H, Hok.
  - destruct Hok as (? & ? & c & [= <- <-] & -> & Hc & ->). injection H as <- <-. unfold goto; cbn. destruct (closed s); quiet I Hi.
  - destruct Hok as (? & ? & c & [= <- <-] & -> & Hc & ->). injection H as <- <-. eapply number_inv; try done.
    + cbn. eauto 10 using is_command_numbered.
    + right. cbn. by rewrite key_set.
  - destruct Hok as (? & ? & c & [= <- <-] & -> & Hc & ->). unfold register in H. cbn [priorError set_futures futures requestMap] in H.
    destruct (priorError s) eqn:E; injection H as <- <-.
    + assert (R : inv (<[i := mkThread (Request q c0) (Some c) (Some (length (futures s))) match q with Async _ => RequestRejected | _ => Done (throw IOException) end]> ths,
        set_requestMap (requestMap s) (set_futures (futures s ++ [FutureResponse.new (callback_of q)]) s))); [| destruct s; exact R].
      eapply (register_inv _ _ _ _ _ q c0 (key c)); try done; destruct q; cbn; rewrite ?E; try done; eauto 10.
    + eapply (register_inv _ _ _ _ _ q c0 (key c)); try done; [cbn; eauto 10 | by rewrite E].
  - destruct Hok as (cb & ? & c & f & [= -> <-] & -> & ->). injection H as <- <-. eapply reject_inv; try done. by eexists.
  - destruct Hok as (? & ? & c & f & [= <- <-] & -> & ->). injection H as <- <-. unfold goto, next_call; cbn. destruct o, q; quiet I Hi.
  - destruct Hok as (cb & ? & c & f & [= -> <-] & -> & ->). injection H as <- <-. eapply forget_inv; done.
  - destruct Hok as (? & ? & c & f & [= <- <-] & Hq & -> & ->).
    assert (Hr : forall r, received f s = Ok (Answer r) -> answered s f = Some r).
    { intros r. unfold received, answered. destruct (futures s !! f) as [fu|]; [| done]. cbn. destruct (FutureResponse.response fu); [by intros [= ->] | done]. }
    assert (Hs : match received f s with Ok (Answer _) | Err _ => True | _ => False end).
    { unfold received. repeat case_match; simplify_eq; done. }
    assert (E : th' = mkThread (Request q c0) (Some c) (Some f) (RequestFinish (throw IOException)) \/
      th' = mkThread (Request q c0) (Some c) (Some f) (RequestFinish (received f s))).
    { clear Hr Hs. destruct q as [cb| |]; [by destruct (Hq cb) | |]; destruct o, (latch_open f s); try discriminate H; injection H as <- <-; (by left) || by right. }
    assert (s' = s) as -> by (clear Hr Hs; destruct q, o, (latch_open f s); try discriminate H; by injection H). clear H.
    destruct E as [-> | ->]; quiet I Hi. intros ? [= <-]. eauto.
  - destruct Hok as (? & ? & c & f & Hr & [= <- <-] & Hq & -> & ->). injection H as <- <-.
    destruct r as [[| |]|[]]; try done; eapply forget_inv; try done. by eexists _, _.
Qed.

Lemma advance_filter_inv th' s' : advance_filter p th s = Some (th', s') -> inv (<[i := th']> ths, s').
Proof.
  pose proof (inv_threads _ I i th Hi) as Hok. unfold th in *. clear th. intros H. destruct p; try discriminate H; cbn in H, Hok; try subst fo.
  - unfold dispose_section in H. destruct (priorError s) as [x|] eqn:E; injection H as <- <-; [quiet I Hi |].
    eapply dispose_inv; done.
  - destruct requests as [|f requests]; injection H as <- <-; [unfold after_dispose; destruct k as [[]|]; quiet I Hi |].
    by eapply dispose_answer_inv.
  - injection H as <- <-. unfold goto; cbn. destruct (started s); quiet I Hi.
  - injection H as <- <-. unfold goto; cbn. destruct (closed s); quiet I Hi.
  - injection H as <- <-. quiet I Hi.
  - injection H as <- <-. quiet I Hi.
Qed.

Lemma advance_lifecycle_inv th' s' : advance_lifecycle o p th s = Some (th', s') -> inv (<[i := th']> ths, s').
Proof.
  pose proof (inv_threads _ I i th Hi) as Hok. unfold th in *. clear th. intros H. destruct p; try discriminate H; cbn in H, Hok; try subst fo;
    injection H as <- <-; unfold goto, stopped, next_call; cbn; repeat (case_match; cbn); quiet I Hi.
Qed.
End Steps.
