(* ===== verification/CorrelatorFacts.v ===== *)
(** * What the response correlator promises

    For any number of threads, in any interleaving: a request returns the response to
    its own command, a callback is called once, and once the transport has failed
    every request returns. *)

From stdpp Require Import gmap.
From S2P Require Import Prelude BaseMarshaller Commands Failover Correlator CorrelatorLaws.
Import ResponseCorrelator.

Implicit Types (th : thread) (ths : list thread) (s : t) (i j f : nat) (k : Z) (r : DataStructure) (ls : list label).

(** ** Runs *)
Lemma advance_inv ths s i o th th' s' : inv (ths, s) -> ths !! i = Some th -> Z.of_nat (length ths) <= 2 ^ 32 ->
  advance o th s = Some (th', s') -> inv (<[i := th']> ths, s').
Proof.
  intros I Hi Hlen H. destruct th as [w oc fo p]. unfold advance in H. cbn [at_ what] in H.
  destruct p; try (destruct w; try discriminate H); try (eapply advance_oneway_inv; [exact I | exact Hi | exact Hlen | exact H]);
    try (eapply advance_request_inv; [exact I | exact Hi | exact Hlen | reflexivity | exact H]); try (eapply advance_filter_inv; [exact I | exact Hi | exact H]);
    try (eapply advance_lifecycle_inv; [exact I | exact Hi | exact H]).
  destruct (response_id c) eqn:E; injection H as <- <-; [by eapply correlate_inv |].
  pose proof (inv_threads _ I i _ Hi) as Hok. cbn in Hok. destruct Hok as [_ ->]. unfold goto; cbn.
  eapply calm_inv; [exact I | exact Hi | constructor; cbn; done || lia | done | apply still_refl | done].
Qed.

Lemma perform_inv l cfg cfg' : inv cfg -> label_ok l = true -> Z.of_nat (length (fst cfg)) <= 2 ^ 32 -> perform l cfg = Some cfg' -> inv cfg'.
Proof.
  destruct cfg as [ths s]. intros I Hl Hlen H. destruct l as [c|i o]; cbn in H.
  - injection H as <-. by apply spawn_inv.
  - destruct (ths !! i) as [th|] eqn:Hi; [| done]. destruct (advance o th s) as [[th' s']|] eqn:E; [| done]. injection H as <-. by eapply advance_inv.
Qed.

Lemma perform_length l cfg cfg' : perform l cfg = Some cfg' -> (length (fst cfg) <= length (fst cfg'))%nat.
Proof.
  destruct cfg as [ths s]. intros H. destruct l as [c|i o]; cbn in H.
  - injection H as <-. cbn. rewrite length_app. lia.
  - destruct (ths !! i) as [th|]; [| done]. destruct (advance o th s) as [[th' s']|]; [| done]. injection H as <-. cbn. by rewrite length_insert.
Qed.
Lemma runs_length ls cfg cfg' : runs ls cfg = Some cfg' -> (length (fst cfg) <= length (fst cfg'))%nat.
Proof.
  revert cfg. induction ls as [|l ls IH]; intros cfg H; cbn in H; [by injection H as <- |].
  destruct (perform l cfg) as [c|] eqn:E; [| done]. apply perform_length in E. apply IH in H. lia.
Qed.
Lemma runs_inv ls cfg cfg' : inv cfg -> forallb label_ok ls = true -> runs ls cfg = Some cfg' -> Z.of_nat (length (fst cfg')) <= 2 ^ 32 -> inv cfg'.
Proof.
  revert cfg. induction ls as [|l ls IH]; intros cfg I Hok H Hlen; cbn in H, Hok; [by injection H as <- |].
  apply andb_true_iff in Hok as [? ?]. destruct (perform l cfg) as [c|] eqn:E; [| done].
  eapply IH; [| done | exact H | done]. eapply perform_inv; [exact I | done | | exact E].
  apply perform_length in E. apply runs_length in H. lia.
Qed.

(** ** Termination *)
Definition rank_of (p : pc) : nat :=
  match p with
  | Done _ => 0
  | FilterNotify _ | OnewaySend | RequestFinish _ | RequestCleanup _ | RequestRejected | Listening _ | StartNext => 1
  | FilterClosed _ | OnewayId | RequestWait | StartFlag => 2
  | FilterStarted _ | OnewayCheck | RequestSend | StartListener => 3
  | CommandReceived | StartCheck => 4
  | DisposeAnswer _ l _ => 4 + length l
  | RequestRegister | Dispose _ _ => 5
  | RequestId | CloseNext _ => 6
  | RequestCheck | CloseListener _ => 7
  | CloseFlag _ => 8
  | StopNext _ => 9 | StopFlag _ => 10 | StopCheck _ => 11 | CloseCheck => 12
  end.
Definition rank th : nat := rank_of (at_ th).
Definition measure (cfg : config) : nat := sum_list_with rank (fst cfg) + size (requestMap (snd cfg)).

Lemma map_setResponse f r s : requestMap (setResponse f r s) = requestMap s.
Proof. unfold setResponse. destruct (futures s !! f) as [fu|]; [| done]. by destruct (FutureResponse.responseCallback fu). Qed.
Lemma size_delete_le (m : gmap Z nat) k : (size (delete k m) <= size m)%nat.
Proof. destruct (m !! k) eqn:E; [rewrite map_size_delete_Some by eauto; lia | by rewrite delete_id]. Qed.

Lemma size_correlate r n s : (size (requestMap (correlate r n s)) <= size (requestMap s))%nat.
Proof. unfold correlate. destruct (requestMap s !! to_u32 n) as [f|] eqn:E; [rewrite map_setResponse; apply size_delete_le | done]. Qed.
Lemma size_register q k s f b s' : register q k s = (f, b, s') -> (size (requestMap s') <= size (requestMap s) + if b then 1 else 0)%nat.
Proof.
  unfold register. cbn. destruct (priorError s); intros [= <- <- <-]; cbn; [lia |]. rewrite map_size_insert. destruct (requestMap s !! k); cbn; lia.
Qed.
Lemma size_dispose e s l s' : dispose_section e s = (l, s') -> (length l + size (requestMap s') <= size (requestMap s))%nat.
Proof. unfold dispose_section. destruct (priorError s); intros [= <- <-]; cbn; [lia |]. rewrite length_fmap, length_map_to_list, map_size_empty. lia. Qed.

Definition descends th s (a : option (thread * t)) : Prop :=
  match a with Some (th', s') => (rank th' + size (requestMap s') < rank th + size (requestMap s))%nat | None => True end.

Ltac descend := unfold descends; cbn; unfold rank, goto, with_command, with_future, next_call, stopped, after_dispose; cbn; repeat (case_match; simplify_eq; cbn); try done; rewrite ?map_setResponse; try lia.

Lemma oneway_descends w oc fo p o s : descends (mkThread w oc fo p) s (advance_oneway o p (mkThread w oc fo p) s).
Proof. destruct p; try done; destruct oc; try done; descend. Qed.
Lemma request_descends w oc fo p q o s : descends (mkThread w oc fo p) s (advance_request q o p (mkThread w oc fo p) s).
Proof.
  destruct p; try done; cbn [advance_request command future].
  - descend.
  - destruct oc; descend.
  - destruct oc as [c|]; [| done]. destruct (register q (key c) s) as [[f b] s'] eqn:E. apply size_register in E. destruct b, q; descend.
  - destruct oc, fo; descend.
  - destruct oc, fo; try done; destruct q, o; descend.
  - destruct oc as [c|]; [| done]. pose proof (size_delete_le (requestMap s) (key c)). unfold descends, rank; cbn; lia.
  - destruct oc, fo; try done; destruct q, o; descend.
  - destruct oc as [c|]; [| done]. pose proof (size_delete_le (requestMap s) (key c)). unfold descends, rank; cbn; lia.
Qed.
Lemma filter_descends w oc fo p s : descends (mkThread w oc fo p) s (advance_filter p (mkThread w oc fo p) s).
Proof.
  destruct p; try done; cbn [advance_filter]; try (by descend).
  - destruct (dispose_section e s) as [l s'] eqn:E. apply size_dispose in E. unfold descends, rank; cbn; lia.
  - unfold notify. descend.
Qed.
Lemma lifecycle_descends w oc fo p o s : descends (mkThread w oc fo p) s (advance_lifecycle o p (mkThread w oc fo p) s).
Proof. destruct p; try done; descend. Qed.

Lemma advance_descends o th s : descends th s (advance o th s).
Proof.
  destruct th as [w oc fo p]. unfold advance. cbn [at_ what].
  destruct p; try apply oneway_descends; try apply filter_descends; try apply lifecycle_descends; destruct w; try done; try apply request_descends.
  destruct (response_id c) as [n|]; [pose proof (size_correlate c n s); unfold descends, rank; cbn; lia | descend].
Qed.

Definition is_run (l : label) : bool := match l with Run _ _ => true | Call _ => false end.
Lemma run_measure l cfg cfg' : is_run l = true -> perform l cfg = Some cfg' -> (measure cfg' < measure cfg)%nat.
Proof.
  destruct l as [|i o]; [done |]. intros _. destruct cfg as [ths s]. cbn. destruct (ths !! i) as [th|] eqn:Hi; [| done].
  pose proof (advance_descends o th s) as D. destruct (advance o th s) as [[th' s']|]; [| done]. intros [= <-]. cbn in D. unfold measure. cbn [fst snd].
  pose proof (sum_insert rank _ _ _ th' Hi). lia.
Qed.
Lemma runs_measure ls cfg cfg' : forallb is_run ls = true -> runs ls cfg = Some cfg' -> (length ls + measure cfg' <= measure cfg)%nat.
Proof.
  revert cfg. induction ls as [|l ls IH]; intros cfg Hl H; cbn in H, Hl; [by injection H as <- |].
  apply andb_true_iff in Hl as [Hl Hls]. destruct (perform l cfg) as [c|] eqn:E; [| done]. pose proof (IH _ Hls H). apply run_measure in E; [| done]. cbn. lia.
Qed.

(** A thread that cannot act waits for an answer that has not come. *)
Lemma blocked th s : thread_ok th -> finished th = false -> advance Normal th s = None ->
  exists f, at_ th = RequestWait /\ future th = Some f /\ latch_open f s = false.
Proof.
  destruct th as [w oc fo p]. unfold advance, finished. cbn [at_ what]. intros Hok Hf H.
  destruct p; cbn in Hok, Hf, H; try discriminate; repeat match goal with
  | H : exists _, _ |- _ => destruct H
  | H : _ /\ _ |- _ => destruct H
  end; subst; cbn in H; try discriminate.
  - destruct (register x _ s) as [[? ?] ?]. discriminate.
  - exists x2. split_and!; [done | done |]. destruct x; destruct (latch_open x2 s); done.
  - destruct (response_id x); discriminate.
  - destruct (dispose_section e s). discriminate.
  - destruct requests; discriminate.
Qed.

(** ** The properties *)
Definition few ths : Prop := Z.of_nat (length ths) <= 2 ^ 32.

Lemma reachable_inv ls ths s : forallb label_ok ls = true -> runs ls initial = Some (ths, s) -> few ths -> inv (ths, s).
Proof. intros Hl H Hf. exact (runs_inv ls _ _ initial_inv Hl H Hf). Qed.

Lemma setResponse_error f r s : priorError (setResponse f r s) = priorError s.
Proof. unfold setResponse. destruct (futures s !! f) as [fu|]; [| done]. by destruct (FutureResponse.responseCallback fu). Qed.

(** The first failure is kept. *)
Lemma advance_error o th s th' s' e : advance o th s = Some (th', s') -> priorError s = Some e -> priorError s' = Some e.
Proof.
  destruct th as [w oc fo p]. unfold advance. cbn [at_ what]. intros H He.
  assert (R : forall q, advance_request q o p (mkThread w oc fo p) s = Some (th', s') -> priorError s' = Some e).
  { intros q Hq. destruct p, oc, fo; try discriminate Hq; cbn in Hq; unfold register in Hq; cbn in Hq; rewrite ?He in Hq; repeat case_match; simplify_eq; cbn; rewrite ?setResponse_error; done. }
  destruct p; try (destruct w; try discriminate H; by eapply R); try (cbn in H; unfold dispose_section, notify in H; rewrite ?He in H; repeat case_match; simplify_eq; cbn; rewrite ?setResponse_error; done).
  destruct w; try discriminate H. destruct (response_id c); injection H as <- <-; [| done]. unfold correlate. destruct (requestMap s !! to_u32 z); rewrite ?setResponse_error; done.
Qed.

Lemma runs_keep ls cfg cfg' : inv cfg -> forallb is_run ls = true -> few (fst cfg) -> runs ls cfg = Some cfg' ->
  inv cfg' /\ (priorError (snd cfg) <> None -> priorError (snd cfg') <> None).
Proof.
  revert cfg. induction ls as [|l ls IH]; intros cfg I Hl Hf H; cbn in H, Hl; [by injection H as <- |].
  apply andb_true_iff in Hl as [Hl Hls]. destruct (perform l cfg) as [c|] eqn:E; [| done].
  assert (Ic : inv c) by (eapply (perform_inv l cfg); [exact I | by destruct l | exact Hf | exact E]).
  destruct l as [|i o]; [done |]. destruct cfg as [ths s]. cbn in E. destruct (ths !! i) as [th|]; [| done].
  destruct (advance o th s) as [[th' s']|] eqn:Ea; [| done]. injection E as <-.
  destruct (IH _ Ic Hls) as [I' Hp]; [unfold few in *; cbn in *; by rewrite length_insert | done |]. split; [done |]. intros He. apply Hp. cbn in *.
  destruct (priorError s) as [e|] eqn:Ee; [| done]. by rewrite (advance_error _ _ _ _ _ e Ea).
Qed.

(** A disposed correlator where nothing can run has nothing left to do. *)
Lemma stuck_finished ths s : inv (ths, s) -> priorError s <> None -> (forall i, perform (Run i Normal) (ths, s) = None) ->
  forall i th, ths !! i = Some th -> finished th = true.
Proof.
  intros I Hp Hstuck i th Hi. destruct (finished th) eqn:Hf; [done |]. exfalso.
  assert (Hno : forall j t, ths !! j = Some t -> advance Normal t s = None).
  { intros j t Hj. specialize (Hstuck j). cbn in Hstuck. rewrite Hj in Hstuck. by destruct (advance Normal t s) as [[]|]. }
  destruct (blocked th s (inv_threads _ I i th Hi) Hf (Hno _ _ Hi)) as (f & Hat & Hff & Hl).
  destruct (inv_waiting _ I i th f Hi) as [Ha|[(k & _ & Hm)|(j & t & Hj & Hin)]]; [unfold waiting; by rewrite Hat | done | | |]; cbn [fst snd] in *.
  - unfold answered, latch_open, FutureResponse.released in *. destruct (futures s !! f) as [fu|] eqn:E; [| done]. cbn in Ha.
    pose proof (inv_latches _ I f fu E) as L. destruct (FutureResponse.response fu); [| done]. by rewrite L in Hl.
  - pose proof (inv_disposed _ I Hp) as E. cbn [snd] in E. by rewrite E in Hm.
  - unfold to_answer in Hin. destruct t as [w oc fo p]. cbn in Hin. destruct p; try (by apply elem_of_nil in Hin).
    specialize (Hno j _ Hj). destruct requests; [by apply elem_of_nil in Hin | done].
Qed.

(** C31. A request returns its own response: what a call of request returns is a
    response the transport delivered with the id of the command it sent, or the
    response made from the failure of the transport; no other request has that id.
    This holds for any interleaving of at most 2^32 calls. *)
Theorem own_response ls ths s i th r :
  forallb label_ok ls = true -> runs ls initial = Some (ths, s) -> few ths ->
  ths !! i = Some th -> at_ th = Done (Ok (Answer r)) -> (forall cb c, what th <> Request (Async cb) c) ->
  exists c, command th = Some c /\
    ((exists j th' n, ths !! j = Some th' /\ what th' = OnCommand r /\ response_id r = Some n /\ to_u32 n = key c) \/
     (exists e, priorError s = Some e /\ r = error_response e)) /\
    (forall j th' c', ths !! j = Some th' -> j <> i -> future th' <> None -> command th' = Some c' -> key c' <> key c).
Proof.
  intros Hl H Hf Hi Hat Hsync. pose proof (reachable_inv ls ths s Hl H Hf) as I.
  destruct (inv_results _ I i th r Hi) as (f & Hff & Ha); [unfold result_of; by rewrite Hat |].
  pose proof (inv_threads _ I i th Hi) as Hok. unfold thread_ok in Hok. rewrite Hat in Hok. destruct Hok as (c & _ & Hc & _).
  assert (Ht : ticket th = Some (key c)) by (unfold ticket; by rewrite Hat, Hff, Hc).
  exists c. split; [done |]. split.
  - destruct (inv_answers _ I f r Ha) as (k & (j & t & Hj & Hjf & Hk) & Hr). cbn [fst snd] in *.
    destruct (owner_is _ _ _ _ _ _ _ I Hi Hff Hj Hjf) as [-> ->]. rewrite Ht in Hk. injection Hk as <-.
    destruct Hr as [?|[?|(_ & _ & f' & j & t & cb & c0 & Hj' & Hw & _ & Hk)]]; [by left | by right |].
    assert (j = i) as -> by (by eapply (inv_tickets _ I)). destruct (Hsync cb c0). congruence.
  - intros j th' c' Hj Hn Hfut Hc' Hk. apply Hn. eapply (inv_tickets _ I); [exact Hj | exact Hi | | exact Ht]. rewrite <- Hk.
    unfold ticket. destruct (future th') as [f'|]; [| done]. rewrite Hc'. by destruct (at_ th').
Qed.

(** C32. No request waits for ever: once the correlator is disposed, by close or by a
    failure of the transport, the threads take at most [measure] more actions in
    whatever order they run, and when none can act every call has returned and
    every FutureResponse that asyncRequest returned has its response. *)
Theorem disposed_all_return ls ths s :
  forallb label_ok ls = true -> runs ls initial = Some (ths, s) -> few ths -> priorError s <> None ->
  forall more ths' s', forallb is_run more = true -> runs more (ths, s) = Some (ths', s') ->
  (length more <= measure (ths, s))%nat /\
  ((forall i, perform (Run i Normal) (ths', s') = None) ->
   forall i th, ths' !! i = Some th -> finished th = true /\ (forall f, at_ th = Done (Ok (Future f)) -> answered s' f <> None)).
Proof.
  intros Hl H Hf Hp more ths' s' Hm Hr. pose proof (reachable_inv ls ths s Hl H Hf) as I.
  split; [apply runs_measure in Hr; [lia | done] |]. intros Hstuck.
  destruct (runs_keep more (ths, s) (ths', s') I Hm Hf Hr) as [I' Hp']. cbn [fst snd] in *.
  pose proof (stuck_finished ths' s' I' (Hp' Hp) Hstuck) as Hfin. intros i th Hi. split; [by eapply Hfin |].
  intros f Hat. pose proof (inv_threads _ I' i th Hi) as Hok. unfold thread_ok in Hok. rewrite Hat in Hok. destruct Hok as (c & _ & Hff).
  destruct (inv_waiting _ I' i th f Hi) as [Ha|[(k & _ & E)|(j & t & Hj & Hin)]]; [unfold waiting; by rewrite Hat | done | done | |]; cbn [fst snd] in *.
  - pose proof (inv_disposed _ I' (Hp' Hp)) as Em. cbn [snd] in Em. by rewrite Em in E.
  - specialize (Hfin j t Hj). unfold finished in Hfin. unfold to_answer in Hin. destruct (at_ t); try done; by apply elem_of_nil in Hin.
Qed.

(** A callback given to asyncRequest is called at most once, and when its
    FutureResponse has a response it has been called with that response. *)
Theorem callback_once ls ths s i th f cb c :
  forallb label_ok ls = true -> runs ls initial = Some (ths, s) -> few ths ->
  ths !! i = Some th -> what th = Request (Async (Some cb)) c -> future th = Some f ->
  completions f (events s) = match answered s f with Some r => [Completed f cb r] | None => [] end.
Proof.
  intros Hl H Hf Hi Hw Hff. pose proof (reachable_inv ls ths s Hl H Hf) as I.
  pose proof (inv_completions _ I f) as E. cbn [snd] in E. rewrite E. unfold completed_once, answered.
  destruct (inv_futures _ I i th f Hi Hff) as (fu & q & c' & Ef & Hq & Hcb). cbn [snd] in *. rewrite Ef. cbn.
  rewrite Hw in Hq. injection Hq as <- <-. rewrite Hcb. cbn. done.
Qed.

(** ** Examples *)
Definition ping : DataStructure := DKeepAliveInfo KeepAliveInfo.default.
Definition pong (id : Z) : DataStructure := DResponse (Response.mk BaseCommand.default id).
Definition steps (i n : nat) : list label := replicate n (Run i Normal).
(** Two requests, answered in the other order. *)
Definition crossed : list label :=
  [Call (Request Sync ping); Call (Request Sync ping)] ++ steps 0 4 ++ steps 1 4 ++
  [Call (OnCommand (pong 2)); Run 2 Normal; Call (OnCommand (pong 1)); Run 3 Normal] ++ steps 1 2 ++ steps 0 2.
(** A request, an asynchronous one and one that has not begun when the transport fails. *)
Definition failing : list label :=
  [Call (Request Sync ping); Call (Request (Async (Some 7%nat)) ping); Call (Request Timed ping)] ++ steps 0 4 ++ steps 1 4 ++
  [Call (OnException (mkError IOException (str "lost"))); Run 3 Normal].
Definition after_runs (ls : list label) : config := default initial (runs ls initial).

Lemma own_response_witness : exists ths s th, runs crossed initial = Some (ths, s) /\ ths !! 0%nat = Some th /\
  at_ th = Done (Ok (Answer (pong 1))) /\ exists c, command th = Some c /\ getCommandId c = 1 /\
  ((exists j th' n, ths !! j = Some th' /\ what th' = OnCommand (pong 1) /\ response_id (pong 1) = Some n /\ to_u32 n = key c) \/
   (exists e, priorError s = Some e /\ pong 1 = error_response e)).
Proof.
  assert (E : runs crossed initial = Some (after_runs crossed)) by (vm_compute; reflexivity).
  assert (Ei : exists th, fst (after_runs crossed) !! 0%nat = Some th /\ at_ th = Done (Ok (Answer (pong 1))) /\ what th = Request Sync ping /\
    command th = Some (setResponseRequired true (setCommandId 1 ping))) by (eexists; vm_compute; split_and!; reflexivity).
  destruct (after_runs crossed) as [ths s] eqn:Ea. destruct Ei as (th & Hi & Hat & Hw & Hc). exists ths, s, th.
  destruct (own_response crossed ths s 0 th (pong 1)) as (c & Hc' & H & _); [vm_compute; reflexivity | done | | done | done | congruence |].
  { assert (El : length ths = 4%nat) by (replace ths with (fst (after_runs crossed)) by (by rewrite Ea); vm_compute; reflexivity). unfold few. lia. }
  split_and!; [done | done | done |]. exists c. split_and!; [done | | done]. rewrite Hc in Hc'. by injection Hc' as <-.
Defined.

Lemma disposed_all_return_witness : exists cfg, runs failing initial = Some cfg /\ priorError (snd cfg) <> None /\
  forall more ths' s', forallb is_run more = true -> runs more cfg = Some (ths', s') -> (length more <= measure cfg)%nat.
Proof.
  assert (E : runs failing initial = Some (after_runs failing)) by (vm_compute; reflexivity).
  assert (El : length (fst (after_runs failing)) = 4%nat) by (vm_compute; reflexivity).
  assert (Ep : priorError (snd (after_runs failing)) = Some (mkError IOException (str "lost"))) by (vm_compute; reflexivity).
  destruct (after_runs failing) as [ths s] eqn:Ea. exists (ths, s). cbn [fst snd] in *. split_and!; [done | by rewrite Ep |].
  intros more ths' s' Hm Hr. destruct (disposed_all_return failing ths s) with (more := more) (ths' := ths') (s' := s') as [H _];
    [vm_compute; reflexivity | done | unfold few; lia | by rewrite Ep | done | done | done].
Defined.

Lemma callback_once_witness : exists ths s th, runs (failing ++ steps 3 2) initial = Some (ths, s) /\ ths !! 1%nat = Some th /\
  completions 1 (events s) = [Completed 1 7 (error_response (mkError IOException (str "lost")))].
Proof.
  assert (E : runs (failing ++ steps 3 2) initial = Some (after_runs (failing ++ steps 3 2))) by (vm_compute; reflexivity).
  assert (El : length (fst (after_runs (failing ++ steps 3 2))) = 4%nat) by (vm_compute; reflexivity).
  assert (Ei : exists th, fst (after_runs (failing ++ steps 3 2)) !! 1%nat = Some th /\ what th = Request (Async (Some 7%nat)) ping /\ future th = Some 1%nat)
    by (eexists; vm_compute; split_and!; reflexivity).
  assert (Er : answered (snd (after_runs (failing ++ steps 3 2))) 1 = Some (error_response (mkError IOException (str "lost")))) by (vm_compute; reflexivity).
  destruct (after_runs (failing ++ steps 3 2)) as [ths s] eqn:Ea. destruct Ei as (th & Hi & Hw & Hf). exists ths, s, th. cbn [fst snd] in *.
  split_and!; [done | done |]. rewrite (callback_once (failing ++ steps 3 2) ths s 1 th 1 7 ping); [by rewrite Er | vm_compute; reflexivity | done | unfold few; lia | done | done | done].
Defined.

(** Where the send of asyncRequest throws after the correlator was disposed, the
    request is no longer in the map, the clean-up throws and the caller sees an
    IOException instead of the exception of the send. *)
Lemma cleanup_masks_exception : exists ths s th,
  runs ([Call (Request (Async None) ping)] ++ steps 0 3 ++ [Call (OnException (mkError IOException [])); Run 1 Normal] ++
        [Run 0 (Fails UnsupportedOperationException); Run 0 Normal]) initial = Some (ths, s) /\
  ths !! 0%nat = Some th /\ at_ th = Done (throw IOException) /\ to_request UnsupportedOperationException = UnsupportedOperationException.
Proof. eexists _, _, _. vm_compute. split_and!; reflexivity. Qed.

(** An exception of the next transport's close that is not an IOException leaves
    close before the requests are answered: a request that waits stays blocked. *)
Lemma close_strands_request : exists ths s th,
  runs ([Call (Request Sync ping)] ++ steps 0 4 ++ [Call Close] ++ steps 1 5 ++ [Run 1 (Fails NullPointerException)]) initial = Some (ths, s) /\
  closed s = true /\ priorError s = None /\ ths !! 0%nat = Some th /\ at_ th = RequestWait /\ (forall i, perform (Run i Normal) (ths, s) = None).
Proof.
  eexists _, _, _. split; [vm_compute; reflexivity |]. split; [reflexivity |]. split; [reflexivity |]. split; [reflexivity |].
  split; [reflexivity |]. intros [|[|i]]; vm_compute; reflexivity.
Qed.
