(* ===== verification/Consumer.v ===== *)
(** * Consumers: delivery, acknowledgement and redelivery

    activemq/core/kernels/ActiveMQConsumerKernel.cpp with what it uses of
    ActiveMQSessionKernel.cpp, of activemq/core/ActiveMQTransactionContext.cpp (local
    transactions), of commands/MessageAck and of core/policies/DefaultRedeliveryPolicy.

    The broker sends messages to the consumer ([dispatch]); they wait in a channel, are
    handed to the application (receive, or a listener) and are acknowledged in the way
    of the session's acknowledge mode.  A rollback gives them back to the channel, or
    to the broker once they were delivered too often.

    Below the consumer are the connection and the application, [Surroundings], a
    parameter: sending commands, the detection of duplicates, the clock, the listener.
    An operation is a computation of [X] on the states of the consumer, of its session
    and of the surroundings; the code runs it under the locks of the consumer.  Where it
    waits it is given what the other threads do meanwhile.  Counters are int in the
    code; they are bounded by the number of messages and are not wrapped. *)

From stdpp Require Import pretty.
From S2P Require Import Prelude DataStreams PrimitiveTypes Support BooleanStreams Wire BaseMarshaller Commands.
From S2P Require Import StringOrder Identifiers StateTracker DispatchChannels MessageAudit.

(** ** Acknowledgements: activemq/core/ActiveMQConstants.h and commands/MessageAck.cpp *)
Definition ACK_TYPE_DELIVERED : Z := 0.
Definition ACK_TYPE_POISON : Z := 1.
Definition ACK_TYPE_CONSUMED : Z := 2.
Definition ACK_TYPE_REDELIVERED : Z := 3.
Definition ACK_TYPE_INDIVIDUAL : Z := 4.
Definition ACK_TYPE_EXPIRED : Z := 6.
Definition TRANSACTION_STATE_BEGIN : Z := 0.
Definition TRANSACTION_STATE_COMMITONEPHASE : Z := 2.
Definition TRANSACTION_STATE_ROLLBACK : Z := 4.

(** A Pointer that is NULL throws when it is followed. *)
Definition follow {A} (p : option A) : result A := match p with Some a => Ok a | None => throw NullPointerException end.
Definition getMessage (d : Dispatch) : result (Message.t DataStructure) := follow (MessageDispatch.message (body d)).
(** getMessage()->getMessageId(), which may be NULL. *)
Definition getMessageId (d : Dispatch) : result (option MessageId.t) := let! m := getMessage d in Ok (Message.messageId m).
Definition getRedeliveryCounter (d : Dispatch) : result Z := let! m := getMessage d in Ok (Message.redeliveryCounter m).

Definition set_redeliveryCounter {D} (n : Z) (m : Message.t D) : Message.t D :=
  let 'Message.mk _ x0 x1 x2 x3 x4 x5 x6 x7 x8 x9 x10 x11 x12 x13 x14 x15 x16 x17 x18 x19 x20 x21 _ x23 x24 x25 x26 x27 x28 x29 x30 x31 x32 x33 x34 := m in
  Message.mk _ x0 x1 x2 x3 x4 x5 x6 x7 x8 x9 x10 x11 x12 x13 x14 x15 x16 x17 x18 x19 x20 x21 n x23 x24 x25 x26 x27 x28 x29 x30 x31 x32 x33 x34.
Definition map_message (f : Message.t DataStructure -> Message.t DataStructure) (d : Dispatch) : Dispatch :=
  let b := body d in
  mkDispatch (address d) (MessageDispatch.mk _ (MessageDispatch.base b) (MessageDispatch.consumerId b) (MessageDispatch.destination b)
    (option_map f (MessageDispatch.message b)) (MessageDispatch.redeliveryCounter b)) (rollbackCause d).
Definition setRollbackCause (cause : list Z) (d : Dispatch) : Dispatch := mkDispatch (address d) (body d) cause.

(** Message::isExpired *)
Definition isExpired (now : Z) (m : Message.t DataStructure) : bool :=
  (0 <? Message.expiration m) && (Message.expiration m <? now).

Definition ProducerId_equals (a b : ProducerId.t) : bool :=
  bool_decide (ProducerId.connectionId a = ProducerId.connectionId b) && (ProducerId.value a =? ProducerId.value b) &&
  (ProducerId.sessionId a =? ProducerId.sessionId b).
Definition ConsumerId_equals (a b : option ConsumerId.t) : bool :=
  match a, b with
  | Some a, Some b => bool_decide (ConsumerId.connectionId a = ConsumerId.connectionId b) && (ConsumerId.sessionId a =? ConsumerId.sessionId b) &&
                      (ConsumerId.value a =? ConsumerId.value b)
  | _, _ => false
  end.
Definition MessageId_equals (a : MessageId.t) (b : option MessageId.t) : bool :=
  match b with
  | None => false
  | Some b =>
    bool_decide (MessageId.textView a = MessageId.textView b) &&
    match MessageId.producerId a, MessageId.producerId b with
    | Some p, Some q => ProducerId_equals p q | None, None => true | _, _ => false
    end && (MessageId.producerSequenceId a =? MessageId.producerSequenceId b) && (MessageId.brokerSequenceId a =? MessageId.brokerSequenceId b)
  end.

Module Ack.
(** MessageAck(dispatch, ackType, messageCount) *)
Definition of_dispatch (d : Dispatch) (ackType count : Z) : result MessageAck.t :=
  let! id := getMessageId d in
  Ok (MessageAck.mk BaseCommand.default (MessageDispatch.destination (body d)) None (MessageDispatch.consumerId (body d))
        (to_u8 ackType) None id count None).
Definition setFirstMessageId (id : option MessageId.t) (a : MessageAck.t) : MessageAck.t :=
  MessageAck.mk (MessageAck.base a) (MessageAck.destination a) (MessageAck.transactionId a) (MessageAck.consumerId a) (MessageAck.ackType a)
    id (MessageAck.lastMessageId a) (MessageAck.messageCount a) (MessageAck.poisonCause a).
Definition setTransactionId (id : option TransactionId.t) (a : MessageAck.t) : MessageAck.t :=
  MessageAck.mk (MessageAck.base a) (MessageAck.destination a) id (MessageAck.consumerId a) (MessageAck.ackType a)
    (MessageAck.firstMessageId a) (MessageAck.lastMessageId a) (MessageAck.messageCount a) (MessageAck.poisonCause a).
Definition setPoisonCause (cause : BrokerError.t) (a : MessageAck.t) : MessageAck.t :=
  MessageAck.mk (MessageAck.base a) (MessageAck.destination a) (MessageAck.transactionId a) (MessageAck.consumerId a) (MessageAck.ackType a)
    (MessageAck.firstMessageId a) (MessageAck.lastMessageId a) (MessageAck.messageCount a) (Some cause).
Definition isStandardAck (a : MessageAck.t) : bool := MessageAck.ackType a =? ACK_TYPE_CONSUMED.
Definition isDeliveredAck (a : MessageAck.t) : bool := MessageAck.ackType a =? ACK_TYPE_DELIVERED.
Definition isExpiredAck (a : MessageAck.t) : bool := MessageAck.ackType a =? ACK_TYPE_EXPIRED.
End Ack.

(** ** Redelivery policies
    Arithmetic on double is not modelled: [times] is what
    (long long)((double) previousDelay * backOffMultiplier) evaluates to. *)
Module RedeliveryPolicy.
Record t := mk {
  times : Z -> Z;
  multiplierAboveOne : bool;
  initialRedeliveryDelay : Z;
  maximumRedeliveries : Z;
  useCollisionAvoidance : bool;
  useExponentialBackOff : bool;
  redeliveryDelay : Z;
  maximumRedeliveryDelay : Z
}.
Definition NO_MAXIMUM_REDELIVERIES : Z := -1.
(** The default multiplier is 5.0. *)
Definition default : t := mk (fun d => 5 * d) true 1000 6 false false 1000 (-1).
(** [variance] is the random part, (long long)((double) nextDelay * variance). *)
Definition getNextRedeliveryDelay (variance : Z -> Z) (previousDelay : Z) (p : t) : Z :=
  let nextDelay :=
    if (0 <? previousDelay) && useExponentialBackOff p && multiplierAboveOne p then
      let d := times p previousDelay in
      if negb (maximumRedeliveryDelay p =? -1) && (maximumRedeliveryDelay p <? d) then Z.max (maximumRedeliveryDelay p) (redeliveryDelay p) else d
    else redeliveryDelay p in
  if useCollisionAvoidance p then nextDelay + variance nextDelay else nextDelay.
End RedeliveryPolicy.

(** ** The session *)
Inductive mode := AUTO_ACKNOWLEDGE | DUPS_OK_ACKNOWLEDGE | CLIENT_ACKNOWLEDGE | SESSION_TRANSACTED | INDIVIDUAL_ACKNOWLEDGE.
#[global] Instance mode_eq_dec : EqDecision mode.
Proof. solve_decision. Defined.
(** The Synchronizations a consumer registers with the transaction. *)
Inductive sync := TransactionSynchronization | CloseSynchronization.
(** The tasks a consumer gives to the scheduler. *)
Inductive task := StartConsumerTask | NonBlockingRedeliveryTask (redeliveries : list Dispatch).

(** ** The connection, the clock and the application *)
Class Surroundings (N : Type) := {
  conn_oneway : DataStructure -> N -> result unit * N;
  conn_syncRequest : DataStructure -> N -> result unit * N;
  conn_isDuplicate : Dispatch -> N -> result bool * N;
  conn_rollbackDuplicate : Dispatch -> N -> result unit * N;
  conn_interruptionProcessed : N -> N;
  (** the consumer is no longer a dispatcher of the connection, nor audited *)
  conn_removeDispatcher : N -> N;
  (** the thread of the session is woken up *)
  session_wakeup : N -> N;
  (** per session of the connection, per consumer: isRedeliveryExpectedInCurrentTransaction *)
  conn_consumers : N -> list (list (Dispatch -> bool));
  env_now : N -> Z;
  env_variance : N -> Z -> Z;
  (** the listener returns, or throws a RuntimeException with a message *)
  app_onMessage : Message.t DataStructure -> N -> option (list Z) * N;
  app_onMessageAvailable : N -> N
}.

Module Session.
Section Session.
Context {C : Type}.
Record t := mk {
  ackMode : mode;
  transactionId : option TransactionId.t;
  synchronizations : list sync;
  sendAcksAsync : bool;
  sessionAsyncDispatch : bool;
  connectionId : option ConnectionId.t;
  nextLocalTransactionId : Z;
  registered : bool;
  messageQueue : C;
  scheduled : list (task * Z)
}.
Definition set_ackMode (v : mode) (s : t) : t := mk v (transactionId s) (synchronizations s) (sendAcksAsync s) (sessionAsyncDispatch s) (connectionId s) (nextLocalTransactionId s) (registered s) (messageQueue s) (scheduled s).
Definition set_transactionId (v : option TransactionId.t) (s : t) : t := mk (ackMode s) v (synchronizations s) (sendAcksAsync s) (sessionAsyncDispatch s) (connectionId s) (nextLocalTransactionId s) (registered s) (messageQueue s) (scheduled s).
Definition set_synchronizations (v : list sync) (s : t) : t := mk (ackMode s) (transactionId s) v (sendAcksAsync s) (sessionAsyncDispatch s) (connectionId s) (nextLocalTransactionId s) (registered s) (messageQueue s) (scheduled s).
Definition set_sendAcksAsync (v : bool) (s : t) : t := mk (ackMode s) (transactionId s) (synchronizations s) v (sessionAsyncDispatch s) (connectionId s) (nextLocalTransactionId s) (registered s) (messageQueue s) (scheduled s).
Definition set_sessionAsyncDispatch (v : bool) (s : t) : t := mk (ackMode s) (transactionId s) (synchronizations s) (sendAcksAsync s) v (connectionId s) (nextLocalTransactionId s) (registered s) (messageQueue s) (scheduled s).
Definition set_connectionId (v : option ConnectionId.t) (s : t) : t := mk (ackMode s) (transactionId s) (synchronizations s) (sendAcksAsync s) (sessionAsyncDispatch s) v (nextLocalTransactionId s) (registered s) (messageQueue s) (scheduled s).
Definition set_nextLocalTransactionId (v : Z) (s : t) : t := mk (ackMode s) (transactionId s) (synchronizations s) (sendAcksAsync s) (sessionAsyncDispatch s) (connectionId s) v (registered s) (messageQueue s) (scheduled s).
Definition set_registered (v : bool) (s : t) : t := mk (ackMode s) (transactionId s) (synchronizations s) (sendAcksAsync s) (sessionAsyncDispatch s) (connectionId s) (nextLocalTransactionId s) v (messageQueue s) (scheduled s).
Definition set_messageQueue (v : C) (s : t) : t := mk (ackMode s) (transactionId s) (synchronizations s) (sendAcksAsync s) (sessionAsyncDispatch s) (connectionId s) (nextLocalTransactionId s) (registered s) v (scheduled s).
Definition set_scheduled (v : list (task * Z)) (s : t) : t := mk (ackMode s) (transactionId s) (synchronizations s) (sendAcksAsync s) (sessionAsyncDispatch s) (connectionId s) (nextLocalTransactionId s) (registered s) (messageQueue s) v.
Definition isInTransaction (s : t) : bool := match transactionId s with Some _ => true | None => false end.
Definition isInXATransaction (s : t) : bool := match transactionId s with Some (TransactionId.XATransactionId _) => true | _ => false end.
Definition isAutoAcknowledge (s : t) : bool := bool_decide (ackMode s = AUTO_ACKNOWLEDGE).
Definition isDupsOkAcknowledge (s : t) : bool := bool_decide (ackMode s = DUPS_OK_ACKNOWLEDGE).
Definition isClientAcknowledge (s : t) : bool := bool_decide (ackMode s = CLIENT_ACKNOWLEDGE).
Definition isIndividualAcknowledge (s : t) : bool := bool_decide (ackMode s = INDIVIDUAL_ACKNOWLEDGE).
Definition isTransacted (s : t) : bool := bool_decide (ackMode s = SESSION_TRANSACTED) || isInXATransaction s.
End Session.
#[global] Arguments t C : clear implicits.
End Session.

(** The messages delivered before a failover: the MessageId object and whether it was
    delivered again.  HashMap compares its keys with ==, which for a Pointer compares
    addresses; a dispatch has a MessageId object of its own. *)
Module PreviouslyDeliveredMap.
Record entry := mkEntry { key : nat; id : option MessageId.t; redelivered : bool }.
Record t := mk { transactionId : option TransactionId.t; entries : list entry }.
Definition containsKey (k : nat) (m : t) : bool := existsb (fun e => Nat.eqb (key e) k) (entries m).
Definition put (k : nat) (i : option MessageId.t) (v : bool) (m : t) : t :=
  mk (transactionId m)
    (if containsKey k m then map (fun e => if Nat.eqb (key e) k then mkEntry (key e) (id e) v else e) (entries m) else entries m ++ [mkEntry k i v]).
Definition notReplayed (m : t) : Z := zlen (List.filter (fun e => negb (redelivered e)) (entries m)).
End PreviouslyDeliveredMap.

Module ActiveMQConsumerKernel.
Section Consumer.
Context {C : Type} `{MessageDispatchChannel C} {N : Type} `{Surroundings N}.

Record t := mk {
  listener : bool;
  messageAvailableListener : bool;
  deliveringAcks : bool;
  started : bool;
  closeSyncRegistered : bool;
  unconsumedMessages : C;
  deliveredMessages : list Dispatch;
  lastDeliveredSequenceId : Z;
  pendingAck : option MessageAck.t;
  deliveredCounter : Z;
  additionalWindowSize : Z;
  synchronizationRegistered : bool;
  isClearDeliveredList : bool;
  inProgressClearRequiredFlag : Z;
  redeliveryDelay : Z;
  redeliveryPolicy : RedeliveryPolicy.t;
  failureError : option exn;
  previouslyDeliveredMessages : option PreviouslyDeliveredMap.t;
  failoverRedeliveryWaitPeriod : Z;
  transactedIndividualAck : bool;
  nonBlockingRedelivery : bool;
  consumerExpiryCheckEnabled : bool;
  optimizeAcknowledge : bool;
  optimizeAckTimestamp : Z;
  optimizeAcknowledgeTimeOut : Z;
  ackCounter : Z;
  dispatchedCount : Z;
  executor : option (list MessageAck.t);
  info : ConsumerInfo.t
}.
Definition set_listener (v : bool) (s : t) : t := mk v (messageAvailableListener s) (deliveringAcks s) (started s) (closeSyncRegistered s) (unconsumedMessages s) (deliveredMessages s) (lastDeliveredSequenceId s) (pendingAck s) (deliveredCounter s) (additionalWindowSize s) (synchronizationRegistered s) (isClearDeliveredList s) (inProgressClearRequiredFlag s) (redeliveryDelay s) (redeliveryPolicy s) (failureError s) (previouslyDeliveredMessages s) (failoverRedeliveryWaitPeriod s) (transactedIndividualAck s) (nonBlockingRedelivery s) (consumerExpiryCheckEnabled s) (optimizeAcknowledge s) (optimizeAckTimestamp s) (optimizeAcknowledgeTimeOut s) (ackCounter s) (dispatchedCount s) (executor s) (info s).
Definition set_messageAvailableListener (v : bool) (s : t) : t := mk (listener s) v (deliveringAcks s) (started s) (closeSyncRegistered s) (unconsumedMessages s) (deliveredMessages s) (lastDeliveredSequenceId s) (pendingAck s) (deliveredCounter s) (additionalWindowSize s) (synchronizationRegistered s) (isClearDeliveredList s) (inProgressClearRequiredFlag s) (redeliveryDelay s) (redeliveryPolicy s) (failureError s) (previouslyDeliveredMessages s) (failoverRedeliveryWaitPeriod s) (transactedIndividualAck s) (nonBlockingRedelivery s) (consumerExpiryCheckEnabled s) (optimizeAcknowledge s) (optimizeAckTimestamp s) (optimizeAcknowledgeTimeOut s) (ackCounter s) (dispatchedCount s) (executor s) (info s).
Definition set_deliveringAcks (v : bool) (s : t) : t := mk (listener s) (messageAvailableListener s) v (started s) (closeSyncRegistered s) (unconsumedMessages s) (deliveredMessages s) (lastDeliveredSequenceId s) (pendingAck s) (deliveredCounter s) (additionalWindowSize s) (synchronizationRegistered s) (isClearDeliveredList s) (inProgressClearRequiredFlag s) (redeliveryDelay s) (redeliveryPolicy s) (failureError s) (previouslyDeliveredMessages s) (failoverRedeliveryWaitPeriod s) (transactedIndividualAck s) (nonBlockingRedelivery s) (consumerExpiryCheckEnabled s) (optimizeAcknowledge s) (optimizeAckTimestamp s) (optimizeAcknowledgeTimeOut s) (ackCounter s) (dispatchedCount s) (executor s) (info s).
Definition set_started (v : bool) (s : t) : t := mk (listener s) (messageAvailableListener s) (deliveringAcks s) v (closeSyncRegistered s) (unconsumedMessages s) (deliveredMessages s) (lastDeliveredSequenceId s) (pendingAck s) (deliveredCounter s) (additionalWindowSize s) (synchronizationRegistered s) (isClearDeliveredList s) (inProgressClearRequiredFlag s) (redeliveryDelay s) (redeliveryPolicy s) (failureError s) (previouslyDeliveredMessages s) (failoverRedeliveryWaitPeriod s) (transactedIndividualAck s) (nonBlockingRedelivery s) (consumerExpiryCheckEnabled s) (optimizeAcknowledge s) (optimizeAckTimestamp s) (optimizeAcknowledgeTimeOut s) (ackCounter s) (dispatchedCount s) (executor s) (info s).
Definition set_closeSyncRegistered (v : bool) (s : t) : t := mk (listener s) (messageAvailableListener s) (deliveringAcks s) (started s) v (unconsumedMessages s) (deliveredMessages s) (lastDeliveredSequenceId s) (pendingAck s) (deliveredCounter s) (additionalWindowSize s) (synchronizationRegistered s) (isClearDeliveredList s) (inProgressClearRequiredFlag s) (redeliveryDelay s) (redeliveryPolicy s) (failureError s) (previouslyDeliveredMessages s) (failoverRedeliveryWaitPeriod s) (transactedIndividualAck s) (nonBlockingRedelivery s) (consumerExpiryCheckEnabled s) (optimizeAcknowledge s) (optimizeAckTimestamp s) (optimizeAcknowledgeTimeOut s) (ackCounter s) (dispatchedCount s) (executor s) (info s).
Definition set_unconsumedMessages (v : C) (s : t) : t := mk (listener s) (messageAvailableListener s) (deliveringAcks s) (started s) (closeSyncRegistered s) v (deliveredMessages s) (lastDeliveredSequenceId s) (pendingAck s) (deliveredCounter s) (additionalWindowSize s) (synchronizationRegistered s) (isClearDeliveredList s) (inProgressClearRequiredFlag s) (redeliveryDelay s) (redeliveryPolicy s) (failureError s) (previouslyDeliveredMessages s) (failoverRedeliveryWaitPeriod s) (transactedIndividualAck s) (nonBlockingRedelivery s) (consumerExpiryCheckEnabled s) (optimizeAcknowledge s) (optimizeAckTimestamp s) (optimizeAcknowledgeTimeOut s) (ackCounter s) (dispatchedCount s) (executor s) (info s).
Definition set_deliveredMessages (v : list Dispatch) (s : t) : t := mk (listener s) (messageAvailableListener s) (deliveringAcks s) (started s) (closeSyncRegistered s) (unconsumedMessages s) v (lastDeliveredSequenceId s) (pendingAck s) (deliveredCounter s) (additionalWindowSize s) (synchronizationRegistered s) (isClearDeliveredList s) (inProgressClearRequiredFlag s) (redeliveryDelay s) (redeliveryPolicy s) (failureError s) (previouslyDeliveredMessages s) (failoverRedeliveryWaitPeriod s) (transactedIndividualAck s) (nonBlockingRedelivery s) (consumerExpiryCheckEnabled s) (optimizeAcknowledge s) (optimizeAckTimestamp s) (optimizeAcknowledgeTimeOut s) (ackCounter s) (dispatchedCount s) (executor s) (info s).
Definition set_lastDeliveredSequenceId (v : Z) (s : t) : t := mk (listener s) (messageAvailableListener s) (deliveringAcks s) (started s) (closeSyncRegistered s) (unconsumedMessages s) (deliveredMessages s) v (pendingAck s) (deliveredCounter s) (additionalWindowSize s) (synchronizationRegistered s) (isClearDeliveredList s) (inProgressClearRequiredFlag s) (redeliveryDelay s) (redeliveryPolicy s) (failureError s) (previouslyDeliveredMessages s) (failoverRedeliveryWaitPeriod s) (transactedIndividualAck s) (nonBlockingRedelivery s) (consumerExpiryCheckEnabled s) (optimizeAcknowledge s) (optimizeAckTimestamp s) (optimizeAcknowledgeTimeOut s) (ackCounter s) (dispatchedCount s) (executor s) (info s).
Definition set_pendingAck (v : option MessageAck.t) (s : t) : t := mk (listener s) (messageAvailableListener s) (deliveringAcks s) (started s) (closeSyncRegistered s) (unconsumedMessages s) (deliveredMessages s) (lastDeliveredSequenceId s) v (deliveredCounter s) (additionalWindowSize s) (synchronizationRegistered s) (isClearDeliveredList s) (inProgressClearRequiredFlag s) (redeliveryDelay s) (redeliveryPolicy s) (failureError s) (previouslyDeliveredMessages s) (failoverRedeliveryWaitPeriod s) (transactedIndividualAck s) (nonBlockingRedelivery s) (consumerExpiryCheckEnabled s) (optimizeAcknowledge s) (optimizeAckTimestamp s) (optimizeAcknowledgeTimeOut s) (ackCounter s) (dispatchedCount s) (executor s) (info s).
Definition set_deliveredCounter (v : Z) (s : t) : t := mk (listener s) (messageAvailableListener s) (deliveringAcks s) (started s) (closeSyncRegistered s) (unconsumedMessages s) (deliveredMessages s) (lastDeliveredSequenceId s) (pendingAck s) v (additionalWindowSize s) (synchronizationRegistered s) (isClearDeliveredList s) (inProgressClearRequiredFlag s) (redeliveryDelay s) (redeliveryPolicy s) (failureError s) (previouslyDeliveredMessages s) (failoverRedeliveryWaitPeriod s) (transactedIndividualAck s) (nonBlockingRedelivery s) (consumerExpiryCheckEnabled s) (optimizeAcknowledge s) (optimizeAckTimestamp s) (optimizeAcknowledgeTimeOut s) (ackCounter s) (dispatchedCount s) (executor s) (info s).
Definition set_additionalWindowSize (v : Z) (s : t) : t := mk (listener s) (messageAvailableListener s) (deliveringAcks s) (started s) (closeSyncRegistered s) (unconsumedMessages s) (deliveredMessages s) (lastDeliveredSequenceId s) (pendingAck s) (deliveredCounter s) v (synchronizationRegistered s) (isClearDeliveredList s) (inProgressClearRequiredFlag s) (redeliveryDelay s) (redeliveryPolicy s) (failureError s) (previouslyDeliveredMessages s) (failoverRedeliveryWaitPeriod s) (transactedIndividualAck s) (nonBlockingRedelivery s) (consumerExpiryCheckEnabled s) (optimizeAcknowledge s) (optimizeAckTimestamp s) (optimizeAcknowledgeTimeOut s) (ackCounter s) (dispatchedCount s) (executor s) (info s).
Definition set_synchronizationRegistered (v : bool) (s : t) : t := mk (listener s) (messageAvailableListener s) (deliveringAcks s) (started s) (closeSyncRegistered s) (unconsumedMessages s) (deliveredMessages s) (lastDeliveredSequenceId s) (pendingAck s) (deliveredCounter s) (additionalWindowSize s) v (isClearDeliveredList s) (inProgressClearRequiredFlag s) (redeliveryDelay s) (redeliveryPolicy s) (failureError s) (previouslyDeliveredMessages s) (failoverRedeliveryWaitPeriod s) (transactedIndividualAck s) (nonBlockingRedelivery s) (consumerExpiryCheckEnabled s) (optimizeAcknowledge s) (optimizeAckTimestamp s) (optimizeAcknowledgeTimeOut s) (ackCounter s) (dispatchedCount s) (executor s) (info s).
Definition set_isClearDeliveredList (v : bool) (s : t) : t := mk (listener s) (messageAvailableListener s) (deliveringAcks s) (started s) (closeSyncRegistered s) (unconsumedMessages s) (deliveredMessages s) (lastDeliveredSequenceId s) (pendingAck s) (deliveredCounter s) (additionalWindowSize s) (synchronizationRegistered s) v (inProgressClearRequiredFlag s) (redeliveryDelay s) (redeliveryPolicy s) (failureError s) (previouslyDeliveredMessages s) (failoverRedeliveryWaitPeriod s) (transactedIndividualAck s) (nonBlockingRedelivery s) (consumerExpiryCheckEnabled s) (optimizeAcknowledge s) (optimizeAckTimestamp s) (optimizeAcknowledgeTimeOut s) (ackCounter s) (dispatchedCount s) (executor s) (info s).
Definition set_inProgressClearRequiredFlag (v : Z) (s : t) : t := mk (listener s) (messageAvailableListener s) (deliveringAcks s) (started s) (closeSyncRegistered s) (unconsumedMessages s) (deliveredMessages s) (lastDeliveredSequenceId s) (pendingAck s) (deliveredCounter s) (additionalWindowSize s) (synchronizationRegistered s) (isClearDeliveredList s) v (redeliveryDelay s) (redeliveryPolicy s) (failureError s) (previouslyDeliveredMessages s) (failoverRedeliveryWaitPeriod s) (transactedIndividualAck s) (nonBlockingRedelivery s) (consumerExpiryCheckEnabled s) (optimizeAcknowledge s) (optimizeAckTimestamp s) (optimizeAcknowledgeTimeOut s) (ackCounter s) (dispatchedCount s) (executor s) (info s).
Definition set_redeliveryDelay (v : Z) (s : t) : t := mk (listener s) (messageAvailableListener s) (deliveringAcks s) (started s) (closeSyncRegistered s) (unconsumedMessages s) (deliveredMessages s) (lastDeliveredSequenceId s) (pendingAck s) (deliveredCounter s) (additionalWindowSize s) (synchronizationRegistered s) (isClearDeliveredList s) (inProgressClearRequiredFlag s) v (redeliveryPolicy s) (failureError s) (previouslyDeliveredMessages s) (failoverRedeliveryWaitPeriod s) (transactedIndividualAck s) (nonBlockingRedelivery s) (consumerExpiryCheckEnabled s) (optimizeAcknowledge s) (optimizeAckTimestamp s) (optimizeAcknowledgeTimeOut s) (ackCounter s) (dispatchedCount s) (executor s) (info s).
Definition set_redeliveryPolicy (v : RedeliveryPolicy.t) (s : t) : t := mk (listener s) (messageAvailableListener s) (deliveringAcks s) (started s) (closeSyncRegistered s) (unconsumedMessages s) (deliveredMessages s) (lastDeliveredSequenceId s) (pendingAck s) (deliveredCounter s) (additionalWindowSize s) (synchronizationRegistered s) (isClearDeliveredList s) (inProgressClearRequiredFlag s) (redeliveryDelay s) v (failureError s) (previouslyDeliveredMessages s) (failoverRedeliveryWaitPeriod s) (transactedIndividualAck s) (nonBlockingRedelivery s) (consumerExpiryCheckEnabled s) (optimizeAcknowledge s) (optimizeAckTimestamp s) (optimizeAcknowledgeTimeOut s) (ackCounter s) (dispatchedCount s) (executor s) (info s).
Definition set_failureError (v : option exn) (s : t) : t := mk (listener s) (messageAvailableListener s) (deliveringAcks s) (started s) (closeSyncRegistered s) (unconsumedMessages s) (deliveredMessages s) (lastDeliveredSequenceId s) (pendingAck s) (deliveredCounter s) (additionalWindowSize s) (synchronizationRegistered s) (isClearDeliveredList s) (inProgressClearRequiredFlag s) (redeliveryDelay s) (redeliveryPolicy s) v (previouslyDeliveredMessages s) (failoverRedeliveryWaitPeriod s) (transactedIndividualAck s) (nonBlockingRedelivery s) (consumerExpiryCheckEnabled s) (optimizeAcknowledge s) (optimizeAckTimestamp s) (optimizeAcknowledgeTimeOut s) (ackCounter s) (dispatchedCount s) (executor s) (info s).
Definition set_previouslyDeliveredMessages (v : option PreviouslyDeliveredMap.t) (s : t) : t := mk (listener s) (messageAvailableListener s) (deliveringAcks s) (started s) (closeSyncRegistered s) (unconsumedMessages s) (deliveredMessages s) (lastDeliveredSequenceId s) (pendingAck s) (deliveredCounter s) (additionalWindowSize s) (synchronizationRegistered s) (isClearDeliveredList s) (inProgressClearRequiredFlag s) (redeliveryDelay s) (redeliveryPolicy s) (failureError s) v (failoverRedeliveryWaitPeriod s) (transactedIndividualAck s) (nonBlockingRedelivery s) (consumerExpiryCheckEnabled s) (optimizeAcknowledge s) (optimizeAckTimestamp s) (optimizeAcknowledgeTimeOut s) (ackCounter s) (dispatchedCount s) (executor s) (info s).
Definition set_failoverRedeliveryWaitPeriod (v : Z) (s : t) : t := mk (listener s) (messageAvailableListener s) (deliveringAcks s) (started s) (closeSyncRegistered s) (unconsumedMessages s) (deliveredMessages s) (lastDeliveredSequenceId s) (pendingAck s) (deliveredCounter s) (additionalWindowSize s) (synchronizationRegistered s) (isClearDeliveredList s) (inProgressClearRequiredFlag s) (redeliveryDelay s) (redeliveryPolicy s) (failureError s) (previouslyDeliveredMessages s) v (transactedIndividualAck s) (nonBlockingRedelivery s) (consumerExpiryCheckEnabled s) (optimizeAcknowledge s) (optimizeAckTimestamp s) (optimizeAcknowledgeTimeOut s) (ackCounter s) (dispatchedCount s) (executor s) (info s).
Definition set_transactedIndividualAck (v : bool) (s : t) : t := mk (listener s) (messageAvailableListener s) (deliveringAcks s) (started s) (closeSyncRegistered s) (unconsumedMessages s) (deliveredMessages s) (lastDeliveredSequenceId s) (pendingAck s) (deliveredCounter s) (additionalWindowSize s) (synchronizationRegistered s) (isClearDeliveredList s) (inProgressClearRequiredFlag s) (redeliveryDelay s) (redeliveryPolicy s) (failureError s) (previouslyDeliveredMessages s) (failoverRedeliveryWaitPeriod s) v (nonBlockingRedelivery s) (consumerExpiryCheckEnabled s) (optimizeAcknowledge s) (optimizeAckTimestamp s) (optimizeAcknowledgeTimeOut s) (ackCounter s) (dispatchedCount s) (executor s) (info s).
Definition set_nonBlockingRedelivery (v : bool) (s : t) : t := mk (listener s) (messageAvailableListener s) (deliveringAcks s) (started s) (closeSyncRegistered s) (unconsumedMessages s) (deliveredMessages s) (lastDeliveredSequenceId s) (pendingAck s) (deliveredCounter s) (additionalWindowSize s) (synchronizationRegistered s) (isClearDeliveredList s) (inProgressClearRequiredFlag s) (redeliveryDelay s) (redeliveryPolicy s) (failureError s) (previouslyDeliveredMessages s) (failoverRedeliveryWaitPeriod s) (transactedIndividualAck s) v (consumerExpiryCheckEnabled s) (optimizeAcknowledge s) (optimizeAckTimestamp s) (optimizeAcknowledgeTimeOut s) (ackCounter s) (dispatchedCount s) (executor s) (info s).
Definition set_consumerExpiryCheckEnabled (v : bool) (s : t) : t := mk (listener s) (messageAvailableListener s) (deliveringAcks s) (started s) (closeSyncRegistered s) (unconsumedMessages s) (deliveredMessages s) (lastDeliveredSequenceId s) (pendingAck s) (deliveredCounter s) (additionalWindowSize s) (synchronizationRegistered s) (isClearDeliveredList s) (inProgressClearRequiredFlag s) (redeliveryDelay s) (redeliveryPolicy s) (failureError s) (previouslyDeliveredMessages s) (failoverRedeliveryWaitPeriod s) (transactedIndividualAck s) (nonBlockingRedelivery s) v (optimizeAcknowledge s) (optimizeAckTimestamp s) (optimizeAcknowledgeTimeOut s) (ackCounter s) (dispatchedCount s) (executor s) (info s).
Definition set_optimizeAcknowledge (v : bool) (s : t) : t := mk (listener s) (messageAvailableListener s) (deliveringAcks s) (started s) (closeSyncRegistered s) (unconsumedMessages s) (deliveredMessages s) (lastDeliveredSequenceId s) (pendingAck s) (deliveredCounter s) (additionalWindowSize s) (synchronizationRegistered s) (isClearDeliveredList s) (inProgressClearRequiredFlag s) (redeliveryDelay s) (redeliveryPolicy s) (failureError s) (previouslyDeliveredMessages s) (failoverRedeliveryWaitPeriod s) (transactedIndividualAck s) (nonBlockingRedelivery s) (consumerExpiryCheckEnabled s) v (optimizeAckTimestamp s) (optimizeAcknowledgeTimeOut s) (ackCounter s) (dispatchedCount s) (executor s) (info s).
Definition set_optimizeAckTimestamp (v : Z) (s : t) : t := mk (listener s) (messageAvailableListener s) (deliveringAcks s) (started s) (closeSyncRegistered s) (unconsumedMessages s) (deliveredMessages s) (lastDeliveredSequenceId s) (pendingAck s) (deliveredCounter s) (additionalWindowSize s) (synchronizationRegistered s) (isClearDeliveredList s) (inProgressClearRequiredFlag s) (redeliveryDelay s) (redeliveryPolicy s) (failureError s) (previouslyDeliveredMessages s) (failoverRedeliveryWaitPeriod s) (transactedIndividualAck s) (nonBlockingRedelivery s) (consumerExpiryCheckEnabled s) (optimizeAcknowledge s) v (optimizeAcknowledgeTimeOut s) (ackCounter s) (dispatchedCount s) (executor s) (info s).
Definition set_optimizeAcknowledgeTimeOut (v : Z) (s : t) : t := mk (listener s) (messageAvailableListener s) (deliveringAcks s) (started s) (closeSyncRegistered s) (unconsumedMessages s) (deliveredMessages s) (lastDeliveredSequenceId s) (pendingAck s) (deliveredCounter s) (additionalWindowSize s) (synchronizationRegistered s) (isClearDeliveredList s) (inProgressClearRequiredFlag s) (redeliveryDelay s) (redeliveryPolicy s) (failureError s) (previouslyDeliveredMessages s) (failoverRedeliveryWaitPeriod s) (transactedIndividualAck s) (nonBlockingRedelivery s) (consumerExpiryCheckEnabled s) (optimizeAcknowledge s) (optimizeAckTimestamp s) v (ackCounter s) (dispatchedCount s) (executor s) (info s).
Definition set_ackCounter (v : Z) (s : t) : t := mk (listener s) (messageAvailableListener s) (deliveringAcks s) (started s) (closeSyncRegistered s) (unconsumedMessages s) (deliveredMessages s) (lastDeliveredSequenceId s) (pendingAck s) (deliveredCounter s) (additionalWindowSize s) (synchronizationRegistered s) (isClearDeliveredList s) (inProgressClearRequiredFlag s) (redeliveryDelay s) (redeliveryPolicy s) (failureError s) (previouslyDeliveredMessages s) (failoverRedeliveryWaitPeriod s) (transactedIndividualAck s) (nonBlockingRedelivery s) (consumerExpiryCheckEnabled s) (optimizeAcknowledge s) (optimizeAckTimestamp s) (optimizeAcknowledgeTimeOut s) v (dispatchedCount s) (executor s) (info s).
Definition set_dispatchedCount (v : Z) (s : t) : t := mk (listener s) (messageAvailableListener s) (deliveringAcks s) (started s) (closeSyncRegistered s) (unconsumedMessages s) (deliveredMessages s) (lastDeliveredSequenceId s) (pendingAck s) (deliveredCounter s) (additionalWindowSize s) (synchronizationRegistered s) (isClearDeliveredList s) (inProgressClearRequiredFlag s) (redeliveryDelay s) (redeliveryPolicy s) (failureError s) (previouslyDeliveredMessages s) (failoverRedeliveryWaitPeriod s) (transactedIndividualAck s) (nonBlockingRedelivery s) (consumerExpiryCheckEnabled s) (optimizeAcknowledge s) (optimizeAckTimestamp s) (optimizeAcknowledgeTimeOut s) (ackCounter s) v (executor s) (info s).
Definition set_executor (v : option (list MessageAck.t)) (s : t) : t := mk (listener s) (messageAvailableListener s) (deliveringAcks s) (started s) (closeSyncRegistered s) (unconsumedMessages s) (deliveredMessages s) (lastDeliveredSequenceId s) (pendingAck s) (deliveredCounter s) (additionalWindowSize s) (synchronizationRegistered s) (isClearDeliveredList s) (inProgressClearRequiredFlag s) (redeliveryDelay s) (redeliveryPolicy s) (failureError s) (previouslyDeliveredMessages s) (failoverRedeliveryWaitPeriod s) (transactedIndividualAck s) (nonBlockingRedelivery s) (consumerExpiryCheckEnabled s) (optimizeAcknowledge s) (optimizeAckTimestamp s) (optimizeAcknowledgeTimeOut s) (ackCounter s) (dispatchedCount s) v (info s).
Definition set_info (v : ConsumerInfo.t) (s : t) : t := mk (listener s) (messageAvailableListener s) (deliveringAcks s) (started s) (closeSyncRegistered s) (unconsumedMessages s) (deliveredMessages s) (lastDeliveredSequenceId s) (pendingAck s) (deliveredCounter s) (additionalWindowSize s) (synchronizationRegistered s) (isClearDeliveredList s) (inProgressClearRequiredFlag s) (redeliveryDelay s) (redeliveryPolicy s) (failureError s) (previouslyDeliveredMessages s) (failoverRedeliveryWaitPeriod s) (transactedIndividualAck s) (nonBlockingRedelivery s) (consumerExpiryCheckEnabled s) (optimizeAcknowledge s) (optimizeAckTimestamp s) (optimizeAcknowledgeTimeOut s) (ackCounter s) (dispatchedCount s) (executor s) v.
Definition world : Type := t * Session.t C * N.

(** *** State and surroundings *)
Definition self : X world t := fun w => (Ok (fst (fst w)), w).
Definition modify (f : t -> t) : X world unit := xmodify (fun '(s, e, n) => (f s, e, n)).
Definition session : X world (Session.t C) := fun w => (Ok (snd (fst w)), w).
Definition modify_session (f : Session.t C -> Session.t C) : X world unit := xmodify (fun '(s, e, n) => (s, f e, n)).
Definition ask {A} (f : N -> A) : X world A := fun w => (Ok (f (snd w)), w).
Definition surround {A} (f : N -> result A * N) : X world A := fun '(s, e, n) => let '(r, n) := f n in (r, (s, e, n)).
Definition effect (f : N -> N) : X world unit := xmodify (fun '(s, e, n) => (s, e, f n)).
Definition when (b : bool) (m : X world unit) : X world unit := if b then m else xret tt.
Definition oneway (c : DataStructure) : X world unit := surround (conn_oneway c).
Definition syncRequest (c : DataStructure) : X world unit := surround (conn_syncRequest c).
Definition isDuplicate (d : Dispatch) : X world bool := surround (conn_isDuplicate d).
Definition rollbackDuplicate (d : Dispatch) : X world unit := surround (conn_rollbackDuplicate d).
Definition onChannel (f : C -> C) : X world unit := modify (fun s => set_unconsumedMessages (f (unconsumedMessages s)) s).
Definition isClosed (s : t) : bool := ch_isClosed (unconsumedMessages s).
Definition isBrowser (s : t) : bool := ConsumerInfo.browser (info s).
Definition getPrefetchSize (s : t) : Z := ConsumerInfo.prefetchSize (info s).
Definition isQueueConsumer (s : t) : result bool := let! d := follow (ConsumerInfo.destination (info s)) in Ok (ConnectionAudit.isQueue d).

(** *** ActiveMQSessionKernel and ActiveMQTransactionContext *)
(** begin: starting a transaction that is begun does nothing. *)
Definition begin : X world unit :=
  xcatch (fun e => if is_cms e then e else ActiveMQException)
    (let+ e := session in
     if Session.isInXATransaction e then xlift (throw TransactionInProgressException)
     else if Session.isInTransaction e then xret tt
     else
       modify_session (Session.set_synchronizations []) ;+
       let id := TransactionId.LocalTransactionId (LocalTransactionId.mk (Session.nextLocalTransactionId e) (Session.connectionId e)) in
       modify_session (Session.set_nextLocalTransactionId (Session.nextLocalTransactionId e + 1)) ;+
       oneway (DTransactionInfo (TransactionInfo.mk BaseCommand.default (Session.connectionId e) (Some id) TRANSACTION_STATE_BEGIN)) ;+
       modify_session (Session.set_transactionId (Some id))).
Definition doStartTransaction : X world unit :=
  let+ e := session in when (Session.isTransacted e && negb (Session.isInXATransaction e)) begin.
Definition sendAck (ack : MessageAck.t) (async : bool) : X world unit :=
  let+ e := session in
  if async || Session.sendAcksAsync e || Session.isTransacted e then oneway (DMessageAck ack) else syncRequest (DMessageAck ack).
(** Synchronizations are kept in a set of pointers, so their order is not fixed; the
    consumer has one of each kind at most. *)
Definition addSynchronization (y : sync) : X world unit :=
  modify_session (fun e => Session.set_synchronizations (Session.synchronizations e ++ [y]) e).
(** lookupConsumerKernel: NULL once the session has removed the consumer; the
    constructors that get it throw then. *)
Definition lookupConsumerKernel : X world unit :=
  let+ e := session in xlift (if Session.registered e then Ok tt else throw NullPointerException).
Definition schedule (k : task) (delay : Z) : X world unit :=
  modify_session (fun e => Session.set_scheduled (Session.scheduled e ++ [(k, delay)]) e).
(** *** ActiveMQSessionExecutor: the queue of the session's thread
    The thread is there while the queue runs. *)
Definition onQueue (f : C -> C) : X world unit := modify_session (fun e => Session.set_messageQueue (f (Session.messageQueue e)) e).
Definition wakeup : X world unit :=
  let+ e := session in when (Session.sessionAsyncDispatch e && ch_isRunning (Session.messageQueue e)) (effect session_wakeup).
Definition executeFirst (d : Dispatch) : X world unit := onQueue (ch_enqueueFirst d) ;+ wakeup.
Definition executor_start : X world unit :=
  let+ e := session in
  when (negb (ch_isRunning (Session.messageQueue e)))
    (onQueue ch_start ;+
     let+ e := session in
     let q := Session.messageQueue e in
     when (negb (ch_isClosed q) && ch_isRunning q && negb (ch_isEmpty q)) wakeup).
Definition executor_stop : X world unit :=
  let+ e := session in when (ch_isRunning (Session.messageQueue e)) (onQueue ch_stop).
Definition redispatch : X world unit :=
  let+ s := self in
  let '(l, c) := ch_removeAll (unconsumedMessages s) in
  modify (set_unconsumedMessages c) ;+
  xfor (rev l) executeFirst.

(** *** Modes *)
Definition isAutoAcknowledgeEach : X world bool :=
  let+ e := session in
  if Session.isAutoAcknowledge e then xret true
  else if Session.isDupsOkAcknowledge e then let+ s := self in xlift (isQueueConsumer s)
  else xret false.
Definition isAutoAcknowledgeBatch : X world bool :=
  let+ e := session in
  if Session.isDupsOkAcknowledge e then let+ s := self in let+ q := xlift (isQueueConsumer s) in xret (negb q)
  else xret false.

(** *** Bookkeeping of failovers *)
Definition mark_delivered (d : Dispatch) : X world unit :=
  let+ i := xlift (getMessageId d) in
  modify (fun s => match previouslyDeliveredMessages s with
                   | Some m => set_previouslyDeliveredMessages (Some (PreviouslyDeliveredMap.put (address d) i false m)) s
                   | None => s end).
Definition clearDeliveredList : X world unit :=
  let+ s := self in
  when (isClearDeliveredList s)
    ((match deliveredMessages s with
      | [] => xret tt
      | _ =>
        let+ e := session in
        if Session.isTransacted e then
          modify (fun s => match previouslyDeliveredMessages s with
                           | None => set_previouslyDeliveredMessages (Some (PreviouslyDeliveredMap.mk (Session.transactionId e) [])) s
                           | Some _ => s end) ;+
          xfor (deliveredMessages s) mark_delivered
        else
          when ((Session.isClientAcknowledge e || Session.isIndividualAcknowledge e) && negb (isBrowser s))
            (xfor (deliveredMessages s) rollbackDuplicate) ;+
          modify (set_deliveredMessages []) ;+
          modify (set_pendingAck None)
      end) ;+
     modify (set_isClearDeliveredList false)).
Definition clearPreviouslyDelivered : X world unit := modify (set_previouslyDeliveredMessages None).

(** The first delivered message with the id, and the others. *)
Fixpoint find_delivered (key : MessageId.t) (l : list Dispatch) : result (option (Dispatch * list Dispatch)) :=
  match l with
  | [] => Ok None
  | d :: l =>
    let! i := getMessageId d in
    if MessageId_equals key i then Ok (Some (d, l))
    else let! r := find_delivered key l in Ok (match r with Some (x, rest) => Some (x, d :: rest) | None => None end)
  end.
Definition removeFromDeliveredMessages (key : option MessageId.t) : X world unit :=
  let+ s := self in
  match deliveredMessages s with
  | [] => xret tt
  | _ =>
    let+ k := xlift (follow key) in
    let+ r := xlift (find_delivered k (deliveredMessages s)) in
    match r with
    | Some (d, rest) => rollbackDuplicate d ;+ modify (set_deliveredMessages rest)
    | None => xret tt
    end
  end.
Definition rollbackPreviouslyDeliveredAndNotRedelivered : X world unit :=
  let+ s := self in
  match previouslyDeliveredMessages s with
  | None => xret tt
  | Some m =>
    xfor (PreviouslyDeliveredMap.entries m) (fun e =>
      if PreviouslyDeliveredMap.redelivered e then xret tt else removeFromDeliveredMessages (PreviouslyDeliveredMap.id e)) ;+
    clearPreviouslyDelivered
  end.
Definition rollbackOnFailedRecoveryRedelivery : X world unit :=
  let+ s := self in
  match previouslyDeliveredMessages s with
  | Some m => if 0 <? PreviouslyDeliveredMap.notReplayed m then xlift (throw TransactionRolledBackException) else xret tt
  | None => xret tt
  end.
(** waitForRedeliveries: each element of [sleeps] is what the other threads do while
    the thread sleeps once; the computation has not ended when they are used up. *)
Fixpoint wait_each (expiry : Z) (sleeps : list (world -> world)) : X world unit :=
  let+ s := self in
  let n := match previouslyDeliveredMessages s with Some m => PreviouslyDeliveredMap.notReplayed m | None => 0 end in
  if 0 <? n then
    match sleeps with
    | [] => xlift (Err NoFuel)
    | f :: sleeps =>
      xmodify f ;+
      let+ now := ask env_now in
      if expiry <? now then wait_each expiry sleeps else xret tt
    end
  else xret tt.
Definition waitForRedeliveries (sleeps : list (world -> world)) : X world unit :=
  let+ s := self in
  match previouslyDeliveredMessages s with
  | Some _ =>
    if 0 <? failoverRedeliveryWaitPeriod s then let+ now := ask env_now in wait_each (now + failoverRedeliveryWaitPeriod s) sleeps
    else xret tt
  | None => xret tt
  end.
Definition redeliveryExpectedInCurrentTransaction (d : Dispatch) (markReceipt : bool) : X world bool :=
  let+ e := session in
  let+ s := self in
  if Session.isTransacted e then
    match previouslyDeliveredMessages s with
    | Some m =>
      let+ i := xlift (getMessageId d) in
      if PreviouslyDeliveredMap.containsKey (address d) m then
        when markReceipt (modify (set_previouslyDeliveredMessages (Some (PreviouslyDeliveredMap.put (address d) i true m)))) ;+
        xret true
      else xret false
    | None => xret false
    end
  else xret false.
(** The loops return at the first consumer of the first session that has one. *)
Fixpoint redeliveryPendingInCompetingTransaction (d : Dispatch) (sessions : list (list (Dispatch -> bool))) : bool :=
  match sessions with
  | [] => false
  | [] :: sessions => redeliveryPendingInCompetingTransaction d sessions
  | (expected :: _) :: _ => expected d
  end.

Definition consumeExpiredMessage (d : Dispatch) : X world bool :=
  let+ m := xlift (getMessage d) in
  let+ now := ask env_now in
  let+ s := self in
  xret (if isExpired now m then negb (isBrowser s) && consumerExpiryCheckEnabled s else false).
(** Exceptions count as false. *)
Definition redeliveryExceeded (d : Dispatch) : X world bool :=
  let+ e := session in
  let+ s := self in
  let p := redeliveryPolicy s in
  xret (Session.isTransacted e && negb (RedeliveryPolicy.maximumRedeliveries p =? RedeliveryPolicy.NO_MAXIMUM_REDELIVERIES) &&
        (RedeliveryPolicy.maximumRedeliveries p <? MessageDispatch.redeliveryCounter (body d)) &&
        match MessageDispatch.message (body d) with
        | Some m => negb (existsb (fun kv => bool_decide (fst kv = str "redeliveryDelay")) (Message.properties m))
        | None => false
        end).
Definition createBrokerError (message : list Z) : BrokerError.t := BrokerError.mk (str "javax.jms.JMSException") message [] None.
Definition posionAck (d : Dispatch) (cause : list Z) : X world unit :=
  let+ ack := xlift (Ack.of_dispatch d ACK_TYPE_POISON 1) in
  let+ i := xlift (getMessageId d) in
  sendAck (Ack.setPoisonCause (createBrokerError cause) (Ack.setFirstMessageId i ack)) false.

(** *** Acknowledging *)
(** ackCounter + deliveredCounter >= prefetchSize * 0.65 *)
Definition isTimeForOptimizedAck (now : Z) (s : t) : bool :=
  (65 * getPrefetchSize s <=? 100 * (ackCounter s + deliveredCounter s)) ||
  ((0 <? optimizeAcknowledgeTimeOut s) && (optimizeAckTimestamp s + optimizeAcknowledgeTimeOut s <=? now)).
Definition makeAckForAllDeliveredMessages (type : Z) : X world (option MessageAck.t) :=
  let+ s := self in
  match deliveredMessages s, list.last (deliveredMessages s) with
  | d :: _, Some l =>
    let+ ack := xlift (Ack.of_dispatch d type (zlen (deliveredMessages s))) in
    let+ i := xlift (getMessageId l) in
    xret (Some (Ack.setFirstMessageId i ack))
  | _, _ => xret None
  end.
(** A TransactionSynchronization is registered once per transaction. *)
Definition registerSync : X world unit :=
  doStartTransaction ;+
  let+ s := self in
  when (negb (synchronizationRegistered s))
    (modify (set_synchronizationRegistered true) ;+ lookupConsumerKernel ;+ addSynchronization TransactionSynchronization).
Definition immediateIndividualTransactedAck (d : Dispatch) : X world unit :=
  registerSync ;+
  let+ ack := xlift (Ack.of_dispatch d ACK_TYPE_INDIVIDUAL 1) in
  let+ e := session in
  syncRequest (DMessageAck (Ack.setTransactionId (Session.transactionId e) ack)).
Definition ackLater (d : Dispatch) (ackType : Z) : X world unit :=
  let+ e := session in
  when (Session.isTransacted e) registerSync ;+
  modify (fun s => set_deliveredCounter (deliveredCounter s + 1) s) ;+
  let+ s := self in
  let oldPendingAck := pendingAck s in
  let+ ack := xlift (Ack.of_dispatch d ackType (deliveredCounter s)) in
  modify (set_pendingAck (Some ack)) ;+
  (match oldPendingAck with
   | None => modify (set_pendingAck (Some (Ack.setFirstMessageId (MessageAck.lastMessageId ack) ack)))
   | Some old =>
     if MessageAck.ackType old =? MessageAck.ackType ack then
       modify (set_pendingAck (Some (Ack.setFirstMessageId (MessageAck.firstMessageId old) ack)))
     else when (negb (Ack.isDeliveredAck old)) (sendAck old false)
   end) ;+
  let+ e := session in
  when (Session.isTransacted e)
    (modify (fun s => set_pendingAck (option_map (Ack.setTransactionId (Session.transactionId e)) (pendingAck s)) s)) ;+
  let+ s := self in
  let pendingAcks := deliveredCounter s + ackCounter s - additionalWindowSize s in
  match pendingAck s with
  | Some ack =>
    when (getPrefetchSize s <=? 2 * pendingAcks)
      (sendAck ack false ;+
       modify (set_pendingAck None) ;+ modify (set_deliveredCounter 0) ;+ modify (set_additionalWindowSize 0))
  | None => xret tt
  end.
(** LinkedList::remove: the first element that is the same pointer. *)
Fixpoint remove_pointer (a : nat) (l : list Dispatch) : list Dispatch :=
  match l with
  | [] => []
  | d :: l => if Nat.eqb (address d) a then l else d :: remove_pointer a l
  end.
Definition acknowledge_dispatch (d : Dispatch) (ackType : Z) : X world unit :=
  xcatch to_cms
    (let+ ack := xlift (Ack.of_dispatch d ackType 1) in
     let ack := if Ack.isExpiredAck ack then Ack.setFirstMessageId (MessageAck.lastMessageId ack) ack else ack in
     sendAck ack false ;+
     modify (fun s => set_deliveredMessages (remove_pointer (address d) (deliveredMessages s)) s)).
Definition acknowledge_individual (d : Dispatch) : X world unit := acknowledge_dispatch d ACK_TYPE_INDIVIDUAL.
Definition acknowledge (sleeps : list (world -> world)) : X world unit :=
  xcatch to_cms
    (clearDeliveredList ;+
     waitForRedeliveries sleeps ;+
     let+ ack := makeAckForAllDeliveredMessages ACK_TYPE_CONSUMED in
     match ack with
     | None => xret tt
     | Some ack =>
       let+ e := session in
       let+ ack := (if Session.isTransacted e then
                      rollbackOnFailedRecoveryRedelivery ;+ doStartTransaction ;+
                      let+ e := session in xret (Ack.setTransactionId (Session.transactionId e) ack)
                    else xret ack) in
       modify (set_pendingAck None) ;+
       sendAck ack false ;+
       modify (fun s => set_deliveredCounter (Z.max 0 (deliveredCounter s - zlen (deliveredMessages s))) s) ;+
       modify (fun s => set_additionalWindowSize (Z.max 0 (additionalWindowSize s - zlen (deliveredMessages s))) s) ;+
       let+ e := session in
       when (negb (Session.isTransacted e)) (modify (set_deliveredMessages []))
     end).
(** deliverAcks: the acknowledgement goes to a task of the consumer's executor. *)
Definition deliverAcks : X world unit :=
  xcatch to_amq
    (let+ s := self in
     if deliveringAcks s then xret tt
     else
       modify (set_deliveringAcks true) ;+
       let+ each := isAutoAcknowledgeEach in
       let+ ack :=
         (if each then
            let+ ack := makeAckForAllDeliveredMessages ACK_TYPE_CONSUMED in
            match ack with
            | Some a => modify (set_deliveredMessages []) ;+ modify (set_ackCounter 0) ;+ xret (Some a)
            | None => modify (set_pendingAck None) ;+ xret (pendingAck s)
            end
          else match pendingAck s with
               | Some a => if Ack.isStandardAck a then modify (set_pendingAck None) ;+ xret (Some a) else xret None
               | None => xret None
               end) in
       match ack with
       | Some a => modify (fun s => set_executor (Some (default [] (executor s) ++ [a])) s)
       | None => modify (set_deliveringAcks false)
       end).
(** AsyncMessageAckTask::run, for the next task of the executor; what the send throws
    is swallowed. *)
Definition run_ackTask : X world bool :=
  let+ s := self in
  match executor s with
  | Some (a :: tasks) =>
    modify (set_executor (Some tasks)) ;+
    (fun w => match sendAck a true w with
              | (Err (Throw _), w) => (Ok tt, w)
              | r => r
              end) ;+
    modify (set_deliveringAcks false) ;+ xret true
  | _ => xret false
  end.

(** *** Delivery to the application *)
Definition beforeMessageIsConsumed (d : Dispatch) : X world unit :=
  let+ i := xlift (getMessageId d) in
  let+ i := xlift (follow i) in
  modify (set_lastDeliveredSequenceId (MessageId.brokerSequenceId i)) ;+
  let+ batch := isAutoAcknowledgeBatch in
  when (negb batch)
    (modify (fun s => set_deliveredMessages (d :: deliveredMessages s) s) ;+
     let+ e := session in
     let+ s := self in
     when (Session.isTransacted e)
       (if transactedIndividualAck s then immediateIndividualTransactedAck d else ackLater d ACK_TYPE_DELIVERED)).
Definition contains_pointer (a : nat) (l : list Dispatch) : bool := existsb (fun d => Nat.eqb (address d) a) l.
(** The acknowledgement of the messages delivered in an automatic mode. *)
Definition ack_each : X world unit :=
  let+ s := self in
  match deliveredMessages s with
  | [] => xret tt
  | _ =>
    if optimizeAcknowledge s then
      modify (fun s => set_ackCounter (ackCounter s + 1) s) ;+
      let+ s := self in
      let+ now := ask env_now in
      when (isTimeForOptimizedAck now s)
        (let+ ack := makeAckForAllDeliveredMessages ACK_TYPE_CONSUMED in
         (match ack with
          | Some a =>
            modify (set_deliveredMessages []) ;+ modify (set_ackCounter 0) ;+ sendAck a false ;+
            let+ now := ask env_now in modify (set_optimizeAckTimestamp now)
          | None => xret tt
          end) ;+
         let+ s := self in
         match pendingAck s with
         | Some a => when (0 <? deliveredCounter s) (sendAck a false ;+ modify (set_pendingAck None) ;+ modify (set_deliveredCounter 0))
         | None => xret tt
         end)
    else
      let+ ack := makeAckForAllDeliveredMessages ACK_TYPE_CONSUMED in
      match ack with
      | Some a => modify (set_deliveredMessages []) ;+ sendAck a false
      | None => xret tt
      end
  end.
Definition afterMessageIsConsumed (d : Dispatch) (messageExpired : bool) : X world unit :=
  xcatch to_amq
    (let+ s := self in
     let+ e := session in
     if isClosed s then xret tt
     else if messageExpired then acknowledge_dispatch d ACK_TYPE_EXPIRED
     else if Session.isTransacted e then xret tt
     else
       let+ each := isAutoAcknowledgeEach in
       let+ batch := isAutoAcknowledgeBatch in
       if each then
         if deliveringAcks s then xret tt
         else modify (set_deliveringAcks true) ;+ ack_each ;+ modify (set_deliveringAcks false)
       else if batch then ackLater d ACK_TYPE_CONSUMED
       else if Session.isClientAcknowledge e || Session.isIndividualAcknowledge e then
         when (contains_pointer (address d) (deliveredMessages s)) (ackLater d ACK_TYPE_DELIVERED)
       else xlift (throw IllegalStateException)).
(** What the acknowledge method of a message does. *)
Inductive handler := ClientAckHandler | IndividualAckHandler (d : option Dispatch) | NoOpAckHandler.
Record received := mkReceived { message : Message.t DataStructure; ackHandler : handler }.
(** Message transformers are not modelled. *)
Definition createCMSMessage (d : Dispatch) : X world received :=
  xcatch (fun e => if is_cms e then e else ActiveMQException)
    (let+ m := xlift (getMessage d) in
     let+ e := session in
     xret (mkReceived (cloneMessage m)
             (if Session.isClientAcknowledge e then ClientAckHandler
              else if Session.isIndividualAcknowledge e then IndividualAckHandler (Some d) else NoOpAckHandler))).
Definition sendPullRequest (timeout : Z) : X world unit :=
  xcatch to_amq
    (clearDeliveredList ;+
     let+ s := self in
     if negb (ch_isEmpty (unconsumedMessages s)) then xret tt
     else when (getPrefetchSize s =? 0)
       (oneway (DMessagePull (MessagePull.mk BaseCommand.default (ConsumerInfo.consumerId (info s)) (ConsumerInfo.destination (info s)) timeout [] None)))).

(** *** Starting and stopping *)
Definition start : X world unit :=
  let+ s := self in
  if isClosed s then xret tt else modify (set_started true) ;+ onChannel ch_start ;+ wakeup.
Definition stop : X world unit := modify (set_started false) ;+ onChannel ch_stop.

(** *** Rolling back *)
Definition commit : X world unit :=
  modify (set_deliveredMessages []) ;+ clearPreviouslyDelivered ;+ modify (set_redeliveryDelay 0).
(** The loop compares the index with the size of the list it shortens. *)
Fixpoint drop_read (fuel : nat) (i : Z) : X world unit :=
  match fuel with
  | O => xret tt
  | S fuel =>
    let+ s := self in
    match list.last (deliveredMessages s) with
    | Some d =>
      if (i <? zlen (deliveredMessages s)) && (i <? ackCounter s) then
        modify (fun s => set_deliveredMessages (removelast (deliveredMessages s)) s) ;+
        rollbackDuplicate d ;+ drop_read fuel (i + 1)
      else xret tt
    | None => xret tt
    end
  end.
Definition redeliver_again (d : Dispatch) : Dispatch := map_message (fun m => set_redeliveryCounter (Message.redeliveryCounter m + 1) m) d.
Definition poison_cause (s : t) (lastMsg : Dispatch) : list Z :=
  str "Exceeded RedeliveryPolicy max redelivery limit: " ++ str (pretty (RedeliveryPolicy.maximumRedeliveries (redeliveryPolicy s))) ++
  match rollbackCause lastMsg with [] => [] | cause => str " cause: Exception -> " ++ cause end.
Definition forget_delivered : X world unit :=
  modify (fun s => set_deliveredCounter (deliveredCounter s - zlen (deliveredMessages s)) s) ;+ modify (set_deliveredMessages []).
(** The messages go back to the consumer's channel, or to a task of the scheduler. *)
Definition requeue : X world unit :=
  let+ s := self in
  if nonBlockingRedelivery s then
    when (negb (isClosed s))
      (lookupConsumerKernel ;+ forget_delivered ;+
       schedule (NonBlockingRedeliveryTask (rev (deliveredMessages s))) (redeliveryDelay s))
  else
    onChannel ch_stop ;+
    xfor (deliveredMessages s) (fun d => onChannel (ch_enqueueFirst d)) ;+
    forget_delivered ;+
    let+ s := self in
    if (0 <? redeliveryDelay s) && negb (isClosed s) then lookupConsumerKernel ;+ schedule StartConsumerTask (redeliveryDelay s)
    else start.
(** The part of rollback under the locks, for a list that is not empty, whose head is
    the message delivered last. *)
Definition redeliver (first : Dispatch) (last : Dispatch) : X world unit :=
  let+ currentRedeliveryCount := xlift (getRedeliveryCounter first) in
  let+ variance := ask env_variance in
  modify (fun s => set_redeliveryDelay
    (if 0 <? currentRedeliveryCount then RedeliveryPolicy.getNextRedeliveryDelay variance (redeliveryDelay s) (redeliveryPolicy s)
     else RedeliveryPolicy.initialRedeliveryDelay (redeliveryPolicy s)) s) ;+
  let+ firstMsgId := xlift (getMessageId last) in
  let+ s := self in
  xfor (deliveredMessages s) (fun d => let+ _ := xlift (getMessage d) in rollbackDuplicate (redeliver_again d)) ;+
  modify (fun s => set_deliveredMessages (map redeliver_again (deliveredMessages s)) s) ;+
  let+ s := self in
  let lastMsg := redeliver_again first in
  let+ count := xlift (getRedeliveryCounter lastMsg) in
  let max := RedeliveryPolicy.maximumRedeliveries (redeliveryPolicy s) in
  if negb (max =? RedeliveryPolicy.NO_MAXIMUM_REDELIVERIES) && (max <? count) then
    let+ ack := xlift (Ack.of_dispatch lastMsg ACK_TYPE_POISON (zlen (deliveredMessages s))) in
    sendAck (Ack.setPoisonCause (createBrokerError (poison_cause s lastMsg)) (Ack.setFirstMessageId firstMsgId ack)) true ;+
    modify (fun s => set_additionalWindowSize (Z.max 0 (additionalWindowSize s - zlen (deliveredMessages s))) s) ;+
    modify (set_redeliveryDelay 0) ;+ forget_delivered
  else
    when (0 <? currentRedeliveryCount)
      (let+ ack := xlift (Ack.of_dispatch lastMsg ACK_TYPE_REDELIVERED (zlen (deliveredMessages s))) in
       sendAck (Ack.setFirstMessageId firstMsgId ack) false) ;+
    requeue.
Definition rollback : X world unit :=
  clearDeliveredList ;+
  let+ s := self in
  when (optimizeAcknowledge s && negb (isBrowser s)) (drop_read (length (deliveredMessages s)) 0) ;+
  rollbackPreviouslyDeliveredAndNotRedelivered ;+
  let+ s := self in
  match deliveredMessages s, list.last (deliveredMessages s) with
  | first :: _, Some last =>
    redeliver first last ;+
    let+ s := self in
    when (listener s) redispatch
  | _, _ => xret tt
  end.

(** *** The end of a transaction *)
Definition sync_beforeEnd (sleeps : list (world -> world)) (y : sync) : X world unit :=
  match y with
  | TransactionSynchronization =>
    let+ s := self in
    (if transactedIndividualAck s then clearDeliveredList ;+ waitForRedeliveries sleeps ;+ rollbackOnFailedRecoveryRedelivery
     else acknowledge sleeps) ;+
    modify (set_synchronizationRegistered false)
  | CloseSynchronization => xret tt
  end.

(** *** Closing *)
Fixpoint run_ackTasks (n : nat) : X world unit :=
  match n with O => xret tt | S n => let+ more := run_ackTask in if more then run_ackTasks n else xret tt end.
(** removeConsumer of the session: the consumer can no longer be looked up. *)
Definition removeConsumer : X world unit := modify_session (Session.set_registered false) ;+ effect conn_removeDispatcher.
Definition dispose (sleeps : list (world -> world)) : X world unit :=
  xcatch to_amq
    (let+ s := self in
     when (negb (isClosed s))
       (let+ e := session in
        when (negb (Session.isTransacted e)) (deliverAcks ;+ let+ batch := isAutoAcknowledgeBatch in when batch (acknowledge sleeps)) ;+
        modify (set_started false) ;+
        let+ s := self in
        run_ackTasks (length (default [] (executor s))) ;+ modify (set_executor None) ;+
        let+ s := self in
        when ((Session.isClientAcknowledge e || Session.isIndividualAcknowledge e) && negb (isBrowser s))
          (xfor (deliveredMessages s) rollbackDuplicate) ;+
        when (negb (Session.isTransacted e)) (modify (set_deliveredMessages [])) ;+
        onChannel ch_close ;+
        removeConsumer ;+
        let+ s := self in
        let '(l, c) := ch_removeAll (unconsumedMessages s) in
        modify (set_unconsumedMessages c) ;+
        when (negb (isBrowser s)) (xfor l rollbackDuplicate))).
Definition doClose (sleeps : list (world -> world)) : X world unit :=
  xcatch to_amq
    (dispose sleeps ;+
     let+ s := self in
     oneway (DRemoveInfo (RemoveInfo.mk _ BaseCommand.default (option_map DConsumerId (ConsumerInfo.consumerId (info s))) (lastDeliveredSequenceId s)))).
Definition close (sleeps : list (world -> world)) : X world unit :=
  xcatch to_cms
    (let+ s := self in
     let+ e := session in
     if isClosed s then xret tt
     else if negb (match deliveredMessages s with [] => true | _ => false end) && Session.isInTransaction e && negb (closeSyncRegistered s) then
       modify (set_closeSyncRegistered true) ;+ lookupConsumerKernel ;+ addSynchronization CloseSynchronization
     else doClose sleeps).
Definition sync_afterCommit (sleeps : list (world -> world)) (y : sync) : X world unit :=
  match y with
  | TransactionSynchronization => commit ;+ modify (set_synchronizationRegistered false)
  | CloseSynchronization => doClose sleeps
  end.
Definition sync_afterRollback (sleeps : list (world -> world)) (y : sync) : X world unit :=
  match y with
  | TransactionSynchronization => rollback ;+ modify (set_synchronizationRegistered false)
  | CloseSynchronization => doClose sleeps
  end.

(** *** ActiveMQTransactionContext: commit and rollback of a local transaction *)
(** [finally]: the destructor of a Finally runs however the block is left. *)
Definition finally (m fin : X world unit) : X world unit := fun w => let '(r, w) := m w in let '(_, w) := fin w in (r, w).
Definition catch_cms (p : exn -> bool) (m : X world unit) (handle : exn -> X world unit) : X world unit :=
  fun w => match m w with
           | (Err (Throw e), w') => if p e then handle e w' else (Err (Throw e), w')
           | r => r
           end.
Definition tx_beforeEnd (sleeps : list (world -> world)) : X world unit :=
  let+ e := session in xfor (Session.synchronizations e) (sync_beforeEnd sleeps).
Definition tx_afterCommit (sleeps : list (world -> world)) : X world unit :=
  finally (let+ e := session in xfor (Session.synchronizations e) (sync_afterCommit sleeps)) (modify_session (Session.set_synchronizations [])).
Definition tx_afterRollback (sleeps : list (world -> world)) : X world unit :=
  finally (let+ e := session in xfor (Session.synchronizations e) (sync_afterRollback sleeps)) (modify_session (Session.set_synchronizations [])).
Definition rethrow_amq (e : exn) : exn := if is_cms e then e else ActiveMQException.
Definition transaction_info (e : Session.t C) (type : Z) : DataStructure :=
  DTransactionInfo (TransactionInfo.mk BaseCommand.default (Session.connectionId e) (Session.transactionId e) type).
Definition tx_rollback (sleeps : list (world -> world)) : X world unit :=
  xcatch rethrow_amq
    (let+ e := session in
     if Session.isInXATransaction e then xlift (throw TransactionInProgressException)
     else
       catch_cms (fun e => bool_decide (e = TransactionRolledBackException)) (tx_beforeEnd sleeps) (fun _ => xret tt) ;+
       let+ e := session in
       when (Session.isInTransaction e)
         (modify_session (Session.set_transactionId None) ;+
          syncRequest (transaction_info e TRANSACTION_STATE_ROLLBACK) ;+
          tx_afterRollback sleeps)).
Definition tx_commit (sleeps : list (world -> world)) : X world unit :=
  xcatch rethrow_amq
    (let+ e := session in
     if Session.isInXATransaction e then xlift (throw TransactionInProgressException)
     else
       catch_cms is_cms (tx_beforeEnd sleeps) (fun e => tx_rollback sleeps ;+ xlift (throw e)) ;+
       let+ e := session in
       when (Session.isInTransaction e)
         (modify_session (Session.set_transactionId None) ;+
          catch_cms is_cms (syncRequest (transaction_info e TRANSACTION_STATE_COMMITONEPHASE) ;+ tx_afterCommit sleeps)
            (fun e => tx_afterRollback sleeps ;+ xlift (throw e)))).

(** *** Failovers *)
Definition inProgressClearRequired : X world unit :=
  modify (fun s => set_inProgressClearRequiredFlag (inProgressClearRequiredFlag s + 1) s) ;+ modify (set_isClearDeliveredList true).
Definition clearMessagesInProgress : X world unit :=
  let+ s := self in
  when (0 <? inProgressClearRequiredFlag s)
    (let '(l, c) := ch_removeAll (unconsumedMessages s) in
     modify (set_unconsumedMessages c) ;+
     when (negb (isBrowser s)) (xfor l rollbackDuplicate) ;+
     effect conn_interruptionProcessed ;+
     modify (fun s => set_inProgressClearRequiredFlag (inProgressClearRequiredFlag s - 1) s)).

(** *** Messages from the broker *)
Definition exceeds (s : t) (limit : list Z) : list Z :=
  str "dispatch to " ++ match ConsumerInfo.consumerId (info s) with Some i => ConsumerId_toString i | None => [] end ++ limit ++
  str (pretty (RedeliveryPolicy.maximumRedeliveries (redeliveryPolicy s))).
Definition set_cause (a : nat) (cause : list Z) (l : list Dispatch) : list Dispatch :=
  map (fun d => if Nat.eqb (address d) a then setRollbackCause cause d else d) l.
(** The listener is called; a RuntimeException of its is a reason to redeliver. *)
Definition deliver_to_listener (d : Dispatch) : X world unit :=
  let+ m := createCMSMessage d in
  beforeMessageIsConsumed d ;+
  let+ s := self in
  let+ now := ask env_now in
  let+ original := xlift (getMessage d) in
  let expired := consumerExpiryCheckEnabled s && isExpired now original in
  let+ failed := (if expired then xret None else surround (fun n => let '(r, n) := app_onMessage (message m) n in (Ok r, n))) in
  match failed with
  | None => afterMessageIsConsumed d expired
  | Some cause =>
    modify (fun s => set_deliveredMessages (set_cause (address d) cause (deliveredMessages s)) s) ;+
    let+ batch := isAutoAcknowledgeBatch in
    let+ each := isAutoAcknowledgeEach in
    let+ e := session in
    if batch || each || Session.isIndividualAcknowledge e then rollback else afterMessageIsConsumed d false
  end.
(** [calls] bounds the calls of dispatch by itself. *)
Fixpoint dispatch (calls : nat) (d : Dispatch) : X world unit :=
  xcatch to_amq
    (clearMessagesInProgress ;+
     clearDeliveredList ;+
     let+ s := self in
     let+ finished :=
       (if isClosed s then xret false
        else
          let+ duplicate := (if isBrowser s then xret false else isDuplicate d) in
          if negb duplicate then
            let+ s := self in
            if listener s && ch_isRunning (unconsumedMessages s) then
              let+ exceeded := redeliveryExceeded d in
              if exceeded then posionAck d (exceeds s (str " exceeds redelivery policy limit:")) ;+ xret true
              else deliver_to_listener d ;+ xret false
            else
              when (negb (ch_isRunning (unconsumedMessages s))) (rollbackDuplicate d) ;+
              onChannel (ch_enqueue d) ;+
              when (messageAvailableListener s) (effect app_onMessageAvailable) ;+ xret false
          else
            let+ expected := redeliveryExpectedInCurrentTransaction d true in
            let+ s := self in
            (if expected then
               if transactedIndividualAck s then immediateIndividualTransactedAck d
               else let+ ack := xlift (Ack.of_dispatch d ACK_TYPE_DELIVERED 1) in sendAck ack false
             else
               let+ sessions := ask conn_consumers in
               if redeliveryPendingInCompetingTransaction d sessions then
                 rollbackDuplicate d ;+
                 match calls with O => xlift (Err NoFuel) | S calls => dispatch calls d end
               else
                 posionAck d (str "Suppressing duplicate delivery on connection, consumer " ++
                              match ConsumerInfo.consumerId (info s) with Some i => ConsumerId_toString i | None => [] end)) ;+
            xret false) in
     when (negb finished)
       (modify (fun s => set_dispatchedCount (if (dispatchedCount s + 1) mod 1000 =? 0 then 0 else dispatchedCount s + 1) s))).
(** The session's thread gives waiting messages to the listener. *)
Definition iterate (calls : nat) : X world bool :=
  let+ s := self in
  if listener s then
    match ch_dequeueNoWait (unconsumedMessages s) with
    | (Some d, c) => modify (set_unconsumedMessages c) ;+ dispatch calls d ;+ xret true
    | (None, c) => modify (set_unconsumedMessages c) ;+ xret false
    end
  else xret false.
(** The session's executor gives the message to the consumer it is for; exceptions are
    swallowed. *)
Definition executor_dispatch (calls : nat) (d : Dispatch) : X world unit :=
  let+ e := session in
  let+ s := self in
  when (Session.registered e && ConsumerId_equals (ConsumerInfo.consumerId (info s)) (MessageDispatch.consumerId (body d)))
    (fun w => match dispatch calls d w with
              | (Err (Throw _), w) => (Ok tt, w)
              | r => r
              end).
Definition execute (calls : nat) (d : Dispatch) : X world unit :=
  let+ e := session in
  if Session.sessionAsyncDispatch e then onQueue (ch_enqueue d) ;+ wakeup else executor_dispatch calls d.
(** A step of the executor's thread: whether there is more to do. *)
Definition executor_iterate (calls : nat) : X world bool :=
  let+ e := session in
  let+ more := (if Session.registered e then iterate calls else xret false) in
  if more then xret true
  else
    let+ e := session in
    let '(m, q) := ch_dequeueNoWait (Session.messageQueue e) in
    onQueue (fun _ => q) ;+
    match m with
    | Some d => executor_dispatch calls d ;+ let+ e := session in xret (negb (ch_isEmpty (Session.messageQueue e)))
    | None => xret false
    end.
(** The tasks of the scheduler. *)
Definition run_task (calls : nat) (k : task) : X world unit :=
  let+ s := self in
  match k with
  | StartConsumerTask => when (negb (isClosed s)) start
  | NonBlockingRedeliveryTask redeliveries =>
    when (negb (isClosed s))
      (xfor redeliveries (fun d =>
        let+ s := self in
        when (negb (isClosed s)) (execute calls d)))
  end.

(** *** Messages to the application *)
(** The channel's dequeue: each element of [env] is what the other threads do before a
    wait returns. *)
Fixpoint wait_dequeue (timeout : Z) (env : list (world -> world)) : X world (option Dispatch * list (world -> world)) :=
  let+ s := self in
  let c := unconsumedMessages s in
  let take (env : list (world -> world)) : X world (option Dispatch * list (world -> world)) :=
    let+ s := self in
    let '(m, c) := ch_dequeueNoWait (unconsumedMessages s) in
    modify (set_unconsumedMessages c) ;+ xret (m, env) in
  if negb (timeout =? 0) && negb (ch_isClosed c) && (ch_isEmpty c || negb (ch_isRunning c)) then
    match env with
    | [] => xlift (Err NoFuel)
    | f :: env => xmodify f ;+ if timeout =? -1 then wait_dequeue timeout env else take env
    end
  else take env.
Fixpoint dequeue_loop (rounds : nat) (timeout deadline : Z) (env : list (world -> world)) : X world (option Dispatch) :=
  match rounds with
  | O => xlift (Err NoFuel)
  | S rounds =>
    let+ r := wait_dequeue timeout env in
    let '(m, env) := r in
    let+ s := self in
    let remaining : X world Z := (let+ now := ask env_now in xret (if 0 <? timeout then Z.max (deadline - now) 0 else timeout)) in
    match m with
    | None =>
      if (0 <? timeout) && negb (isClosed s) then let+ timeout := remaining in dequeue_loop rounds timeout deadline env
      else match failureError s with Some e => xlift (throw (to_cms e)) | None => xret None end
    | Some d =>
      match MessageDispatch.message (body d) with
      | None => xret None
      | Some _ =>
        let+ expired := consumeExpiredMessage d in
        let+ exceeded := (if expired then xret false else redeliveryExceeded d) in
        if expired then
          beforeMessageIsConsumed d ;+ afterMessageIsConsumed d true ;+
          let+ timeout := remaining in sendPullRequest timeout ;+ dequeue_loop rounds timeout deadline env
        else if exceeded then
          posionAck d (exceeds s (str " exceeds RedeliveryPolicy limit: ")) ;+
          let+ timeout := remaining in sendPullRequest timeout ;+ dequeue_loop rounds timeout deadline env
        else xret (Some d)
      end
    end
  end.
Definition dequeue (rounds : nat) (timeout : Z) (env : list (world -> world)) : X world (option Dispatch) :=
  xcatch to_cms (let+ now := ask env_now in dequeue_loop rounds timeout (if 0 <? timeout then now + timeout else 0) env).
Definition checkClosed : X world unit := let+ s := self in if isClosed s then xlift (throw CMSIllegalStateException) else xret tt.
(** The session's checkMessageListener asks the other consumers of the session too. *)
Definition checkMessageListener : X world unit := let+ s := self in if listener s then xlift (throw CMSIllegalStateException) else xret tt.
Definition consume (d : option Dispatch) : X world (option received) :=
  match d with
  | None => xret None
  | Some d => beforeMessageIsConsumed d ;+ afterMessageIsConsumed d false ;+ let+ m := createCMSMessage d in xret (Some m)
  end.
Definition receive (rounds : nat) (env : list (world -> world)) : X world (option received) :=
  xcatch to_cms (checkClosed ;+ checkMessageListener ;+ sendPullRequest 0 ;+ let+ d := dequeue rounds (-1) env in consume d).
Definition receive_timeout (rounds : nat) (timeout : Z) (env : list (world -> world)) : X world (option received) :=
  xcatch to_cms
    (checkClosed ;+ checkMessageListener ;+
     if timeout =? 0 then receive rounds env
     else
       sendPullRequest timeout ;+
       let+ s := self in
       let+ d := dequeue rounds (if getPrefetchSize s =? 0 then -1 else timeout) env in consume d).
Definition receiveNoWait (rounds : nat) (env : list (world -> world)) : X world (option received) :=
  xcatch to_cms
    (checkClosed ;+ checkMessageListener ;+ sendPullRequest (-1) ;+
     let+ s := self in
     let+ d := dequeue rounds (if getPrefetchSize s =? 0 then -1 else 0) env in consume d).
(** The session's start and stop, for its consumer. *)
Definition session_start : X world unit := let+ e := session in when (Session.registered e) start ;+ executor_start.
Definition session_stop : X world unit := let+ e := session in when (Session.registered e) stop ;+ executor_stop.
Definition setMessageListener (present : bool) : X world unit :=
  xcatch to_cms
    (checkClosed ;+
     let+ s := self in
     let+ e := session in
     if (getPrefetchSize s =? 0) && present then xlift (throw ActiveMQException)
     else if present then
       let wasStarted := ch_isRunning (Session.messageQueue e) in
       when wasStarted session_stop ;+
       modify (set_listener true) ;+
       redispatch ;+
       when wasStarted session_start
     else modify (set_listener false)).
Definition setPrefetchSize : X world unit := deliverAcks.
Definition setOptimizeAcknowledge (value : bool) : X world unit :=
  let+ s := self in
  when (optimizeAcknowledge s && negb value) deliverAcks ;+ modify (set_optimizeAcknowledge value).
Definition setFailureError (e : option exn) : X world unit := modify (fun s => match e with Some _ => set_failureError e s | None => s end).

(** The ack handler of a message, called by its acknowledge method, and what it is
    afterwards.  The session acknowledges for each of its consumers. *)
Definition acknowledge_message (sleeps : list (world -> world)) (h : handler) : X world handler :=
  xcatch to_cms
    match h with
    | ClientAckHandler => (let+ e := session in when (Session.registered e) (acknowledge sleeps)) ;+ xret h
    | IndividualAckHandler (Some d) => acknowledge_individual d ;+ xret (IndividualAckHandler None)
    | _ => xret h
    end.

(** *** Construction *)
(** What the constructor reads of the connection. *)
Record options := mkOptions {
  opt_clientID : list Z; opt_connectionId : list Z; opt_isDeleted : ActiveMQDestination.t -> bool; opt_exclusiveConsumer : bool; opt_useRetroactiveConsumer : bool;
  messagePrioritySupported : bool; opt_optimizeAcknowledge : bool; opt_optimizeAcknowledgeTimeOut : Z; opt_nonBlockingRedelivery : bool;
  opt_transactedIndividualAck : bool; opt_consumerExpiryCheckEnabled : bool; consumerFailoverRedeliveryWaitPeriod : Z
}.
(** The arguments of the constructor. *)
Record arguments := mkArguments {
  arg_id : ConsumerId.t; arg_destination : option ActiveMQDestination.t; arg_name : list Z; arg_selector : list Z; arg_prefetch : Z;
  arg_maxPendingMessageCount : Z; arg_noLocal : bool; arg_browser : bool; arg_dispatchAsync : bool
}.
Definition option_of (d : ActiveMQDestination.t) (k : list Z) : option (list Z) :=
  snd <$> List.find (fun kv => bool_decide (fst kv = k)) (ActiveMQDestination.options d).
Definition boolean_option (d : ActiveMQDestination.t) (k : list Z) (missing : bool) : bool :=
  match option_of d k with Some v => WireFormatInfo.parseBoolean v | None => missing end.
Definition int_option (d : ActiveMQDestination.t) (k : list Z) (missing : Z) : result Z :=
  match option_of d k with Some v => Integer.parseInt v | None => Ok missing end.
(** The options of the destination: those of the ConsumerInfo, then the consumer's. *)
Definition info_options (d : ActiveMQDestination.t) (i : ConsumerInfo.t) : result ConsumerInfo.t :=
  let! priority := int_option d (str "consumer.priority") (ConsumerInfo.priority i) in
  let! maximumPendingMessageLimit := int_option d (str "consumer.maximumPendingMessageLimit") (ConsumerInfo.maximumPendingMessageLimit i) in
  let! prefetchSize := int_option d (str "consumer.prefetchSize") (ConsumerInfo.prefetchSize i) in
  Ok (ConsumerInfo.mk (ConsumerInfo.base i) (ConsumerInfo.consumerId i) (ConsumerInfo.browser i) (ConsumerInfo.destination i)
        prefetchSize maximumPendingMessageLimit (boolean_option d (str "consumer.dispatchAsync") (ConsumerInfo.dispatchAsync i))
        (default (ConsumerInfo.selector i) (option_of d (str "consumer.selector"))) (ConsumerInfo.clientId i) (ConsumerInfo.subscriptionName i)
        (boolean_option d (str "consumer.noLocal") (ConsumerInfo.noLocal i)) (boolean_option d (str "consumer.exclusive") (ConsumerInfo.exclusive i))
        (boolean_option d (str "consumer.retroactive") (ConsumerInfo.retroactive i)) (to_u8 priority) (ConsumerInfo.brokerPath i)
        (ConsumerInfo.additionalPredicate i) (ConsumerInfo.networkSubscription i) (ConsumerInfo.optimizedAcknowledge i)
        (ConsumerInfo.noRangeAcks i) (ConsumerInfo.networkConsumerPath i)).
Definition applyDestinationOptions (d : ActiveMQDestination.t) (s : t) : result t :=
  let! i := info_options d (info s) in
  Ok (set_consumerExpiryCheckEnabled (boolean_option d (str "consumer.consumerExpiryCheckEnabled") true)
       (set_transactedIndividualAck (boolean_option d (str "consumer.transactedIndividualAck") false)
         (set_nonBlockingRedelivery (boolean_option d (str "consumer.nonBlockingRedelivery") false) (set_info i s)))).
Definition initial (policy : RedeliveryPolicy.t) (i : ConsumerInfo.t) (now : Z) : t :=
  mk false false false false false ch_new [] (-1) None 0 0 false false 0 0 policy None None 0 false false true false now 0 0 0 None i.
(** std::string::find finds the string. *)
Fixpoint contains_string (key s : list Z) : bool :=
  bool_decide (take (length key) s = key) || match s with [] => false | _ :: s => contains_string key s end.
Definition check_destination (o : options) (d : option ActiveMQDestination.t) : result ActiveMQDestination.t :=
  match d with
  | None => throw InvalidDestinationException
  | Some d =>
    let name := ActiveMQDestination.physicalName d in
    if bool_decide (name = []) then throw InvalidDestinationException
    else if ActiveMQDestination.isTemporary (ActiveMQDestination.destinationType d) &&
            (negb (contains_string (opt_connectionId o) name) || opt_isDeleted o d) then throw InvalidDestinationException
    else Ok d
  end.
(** What the connection sets in the consumer, after the options of the destination. *)
Definition connection_options (o : options) (e : Session.t C) (s : t) : t :=
  let s := if opt_optimizeAcknowledge o && Session.isAutoAcknowledge e && negb (isBrowser s) then set_optimizeAcknowledge true s else s in
  let s := if optimizeAcknowledge s then set_optimizeAcknowledgeTimeOut (opt_optimizeAcknowledgeTimeOut o) s else s in
  let s := set_failoverRedeliveryWaitPeriod (consumerFailoverRedeliveryWaitPeriod o) s in
  let s := set_nonBlockingRedelivery (opt_nonBlockingRedelivery o) s in
  let s := set_transactedIndividualAck (opt_transactedIndividualAck o || nonBlockingRedelivery s || messagePrioritySupported o) s in
  set_consumerExpiryCheckEnabled (opt_consumerExpiryCheckEnabled o) s.
Definition set_optimizedAcknowledge (v : bool) (i : ConsumerInfo.t) : ConsumerInfo.t :=
  ConsumerInfo.mk (ConsumerInfo.base i) (ConsumerInfo.consumerId i) (ConsumerInfo.browser i) (ConsumerInfo.destination i)
    (ConsumerInfo.prefetchSize i) (ConsumerInfo.maximumPendingMessageLimit i) (ConsumerInfo.dispatchAsync i) (ConsumerInfo.selector i)
    (ConsumerInfo.clientId i) (ConsumerInfo.subscriptionName i) (ConsumerInfo.noLocal i) (ConsumerInfo.exclusive i) (ConsumerInfo.retroactive i)
    (ConsumerInfo.priority i) (ConsumerInfo.brokerPath i) (ConsumerInfo.additionalPredicate i) (ConsumerInfo.networkSubscription i) v
    (ConsumerInfo.noRangeAcks i) (ConsumerInfo.networkConsumerPath i).
(** The constructor of a consumer without a listener; the timer of optimized
    acknowledgements is not modelled. *)
Definition new (o : options) (policy : RedeliveryPolicy.t) (a : arguments) (e : Session.t C) (now : Z) : result t :=
  let! d := check_destination o (arg_destination a) in
  if arg_prefetch a <? 0 then throw CMSException
  else
    let i := ConsumerInfo.mk BaseCommand.default (Some (arg_id a)) (arg_browser a) (Some d) (arg_prefetch a) (arg_maxPendingMessageCount a)
               (arg_dispatchAsync a) (arg_selector a) (opt_clientID o) (arg_name a) (arg_noLocal a) (opt_exclusiveConsumer o)
               (opt_useRetroactiveConsumer o) 0 [] None false false false [] in
    let! s := applyDestinationOptions d (initial policy i now) in
    let s := connection_options o e s in
    let s := set_info (set_optimizedAcknowledge (optimizeAcknowledge s) (info s)) s in
    if getPrefetchSize s <? 0 then throw IllegalArgumentException else Ok s.
End Consumer.
#[global] Arguments t C : clear implicits.
#[global] Arguments world C N : clear implicits.
End ActiveMQConsumerKernel.
