(* ===== verification/ConsumerLaws.v ===== *)
(** * What a consumer acknowledges

    The laws of the connection that the theorems on consumers use, and the batches in
    which a consumer acknowledges messages: the code of ackLater against a list of
    windows. *)

From S2P Require Import Prelude BaseMarshaller Commands StateTracker DispatchChannels MessageAudit Consumer.
Import ActiveMQConsumerKernel.

(** ** The connection accepts what is sent *)
Class SurroundingsLaws (N : Type) `{Surroundings N} := {
  sent : N -> list DataStructure;
  sl_oneway c n : fst (conn_oneway c n) = Ok tt /\ sent (snd (conn_oneway c n)) = sent n ++ [c];
  sl_syncRequest c n : fst (conn_syncRequest c n) = Ok tt /\ sent (snd (conn_syncRequest c n)) = sent n ++ [c];
  sl_rollbackDuplicate d n : fst (conn_rollbackDuplicate d n) = Ok tt /\ sent (snd (conn_rollbackDuplicate d n)) = sent n;
  sl_wakeup n : sent (session_wakeup n) = sent n
}.

(** ** Batches *)
(** A list cut into pieces of [k], after a piece that is begun. *)
Fixpoint windows {A} (k : nat) (begun l : list A) : list (list A) * list A :=
  match l with
  | [] => ([], begun)
  | x :: l =>
    let begun := begun ++ [x] in
    if (k <=? length begun)%nat then let '(ws, rest) := windows k [] l in (begun :: ws, rest) else windows k begun l
  end.
Lemma windows_spec {A} k (l : list A) : forall begun, (length begun < k)%nat ->
  let '(ws, rest) := windows k begun l in
  concat ws ++ rest = begun ++ l /\ Forall (fun w => length w = k) ws /\ (length rest < k)%nat.
Proof.
  induction l as [|x l IH]; intros begun Hk; cbn [windows]; [by rewrite app_nil_r |].
  destruct (Nat.leb_spec k (length (begun ++ [x]))) as [Hle|Hlt].
  - specialize (IH [] ltac:(cbn; lia)). destruct (windows k [] l) as [ws rest]. destruct IH as (H1 & H2 & H3).
    rewrite length_app in Hle; cbn in Hle. split_and!; [| constructor; [rewrite length_app; cbn; lia | done] | done].
    cbn. by rewrite <- app_assoc, H1, <- app_assoc.
  - specialize (IH (begun ++ [x]) ltac:(lia)). destruct (windows k (begun ++ [x]) l) as [ws rest].
    by rewrite <- app_assoc in IH.
Qed.

(** The number of messages after which half of the prefetch is reached. *)
Definition window (prefetch : Z) : nat := Z.to_nat (Z.max 1 ((prefetch + 1) / 2)).
Lemma window_pos p : (0 < window p)%nat. Proof. unfold window. lia. Qed.
Lemma window_reached p k : (p <=? 2 * Z.of_nat (S k)) = (window p <=? S k)%nat.
Proof.
  unfold window. apply Bool.eq_iff_eq_true. rewrite Z.leb_le, Nat.leb_le.
  pose proof (Z.div_mod (p + 1) 2). pose proof (Z.mod_pos_bound (p + 1) 2). lia.
Qed.

(** An acknowledgement of the messages from [first] to [last]. *)
Definition id_of (d : Dispatch) : option MessageId.t :=
  match MessageDispatch.message (body d) with Some m => Message.messageId m | None => None end.
Definition range_ack (tx : option TransactionId.t) (type : Z) (first last : Dispatch) (count : Z) : MessageAck.t :=
  MessageAck.mk BaseCommand.default (MessageDispatch.destination (body last)) tx (MessageDispatch.consumerId (body last)) (to_u8 type)
    (id_of first) (id_of last) count None.
Definition batch_ack (tx : option TransactionId.t) (type : Z) (l : list Dispatch) : option MessageAck.t :=
  match head l, list.last l with
  | Some first, Some last => Some (range_ack tx type first last (zlen l))
  | _, _ => None
  end.
Definition batch_acks tx type (ws : list (list Dispatch)) : list DataStructure := map DMessageAck (omap (batch_ack tx type) ws).
Lemma batch_acks_app tx type a b : batch_acks tx type (a ++ b) = batch_acks tx type a ++ batch_acks tx type b.
Proof. unfold batch_acks. by rewrite omap_app, map_app. Qed.
Definition has_message (d : Dispatch) : bool := match MessageDispatch.message (body d) with Some _ => true | None => false end.

Lemma of_dispatch_ok d type count : has_message d = true ->
  Ack.of_dispatch d type count = Ok (MessageAck.mk BaseCommand.default (MessageDispatch.destination (body d)) None (MessageDispatch.consumerId (body d))
    (to_u8 type) None (id_of d) count None).
Proof. unfold has_message, Ack.of_dispatch, getMessageId, getMessage, id_of, follow. by destruct (MessageDispatch.message (body d)). Qed.
Lemma getMessageId_ok d : has_message d = true -> getMessageId d = Ok (id_of d).
Proof. unfold has_message, getMessageId, getMessage, id_of, follow. by destruct (MessageDispatch.message (body d)). Qed.

(** ** Running a computation
    One equation per primitive operation, for the states that are triples. *)
Section Running.
Context {C : Type} `{MessageDispatchChannel C} {N : Type} `{Surroundings N}.
Implicit Types (s : ActiveMQConsumerKernel.t C) (e : Session.t C) (n : N).
Lemma bind_self {A} (k : _ -> X (world C N) A) s e n : xbind self k (s, e, n) = k s (s, e, n). Proof. done. Qed.
Lemma bind_session {A} (k : _ -> X (world C N) A) s e n : xbind session k (s, e, n) = k e (s, e, n). Proof. done. Qed.
Lemma bind_ask {A B} (f : N -> B) (k : _ -> X (world C N) A) s e n : xbind (ask f) k (s, e, n) = k (f n) (s, e, n). Proof. done. Qed.
Lemma bind_modify_consumer {A} f (k : _ -> X (world C N) A) s e n : xbind (modify f) k (s, e, n) = k tt (f s, e, n). Proof. done. Qed.
Lemma bind_modify_session {A} f (k : _ -> X (world C N) A) s e n : xbind (modify_session f) k (s, e, n) = k tt (s, f e, n). Proof. done. Qed.
Lemma bind_effect {A} f (k : _ -> X (world C N) A) s e n : xbind (effect f) k (s, e, n) = k tt (s, e, f n). Proof. done. Qed.
Lemma bind_onChannel {A} f (k : _ -> X (world C N) A) s e n :
  xbind (onChannel f) k (s, e, n) = k tt (set_unconsumedMessages (f (unconsumedMessages s)) s, e, n).
Proof. done. Qed.
Lemma ret_eq {S A} (a : A) (w : S) : xret a w = (Ok a, w). Proof. done. Qed.
Lemma modify_eq f s e n : modify f (s, e, n) = (Ok tt, (f s, e, n)). Proof. done. Qed.
Lemma modify_session_eq f s e n : modify_session f (s, e, n) = (Ok tt, (s, f e, n)). Proof. done. Qed.
Lemma effect_eq f s e n : effect f (s, e, n) = (Ok tt, (s, e, f n)). Proof. done. Qed.
Lemma when_eq b (m : X (world C N) unit) w : when b m w = if b then m w else (Ok tt, w). Proof. by destruct b. Qed.
Lemma bind_when {A} b m (k : unit -> X (world C N) A) w : xbind (when b m) k w = if b then xbind m k w else k tt w. Proof. by destruct b. Qed.
Lemma bind_if {S A B} (b : bool) (m1 m2 : X S A) (k : A -> X S B) w : xbind (if b then m1 else m2) k w = if b then xbind m1 k w else xbind m2 k w.
Proof. by destruct b. Qed.
Lemma if_eq {S A} (b : bool) (m1 m2 : X S A) w : (if b then m1 else m2) w = if b then m1 w else m2 w. Proof. by destruct b. Qed.
End Running.
Create Rewrite HintDb consumer.
#[export] Hint Rewrite @bind_assoc @bind_ret @bind_lift @bind_self @bind_session @bind_ask @bind_modify_consumer @bind_modify_session @bind_effect
  @bind_onChannel @ret_eq @modify_eq @modify_session_eq @effect_eq @when_eq @bind_when @bind_if @if_eq : consumer.
Ltac step := repeat (progress (autorewrite with consumer; cbv beta iota)).

(** Fields of a state that is a record. *)
Ltac flat := cbn [
    listener messageAvailableListener deliveringAcks started closeSyncRegistered unconsumedMessages deliveredMessages
    lastDeliveredSequenceId pendingAck deliveredCounter additionalWindowSize synchronizationRegistered isClearDeliveredList
    inProgressClearRequiredFlag redeliveryDelay redeliveryPolicy failureError previouslyDeliveredMessages failoverRedeliveryWaitPeriod
    transactedIndividualAck nonBlockingRedelivery consumerExpiryCheckEnabled optimizeAcknowledge optimizeAckTimestamp
    optimizeAcknowledgeTimeOut ackCounter dispatchedCount executor info set_listener set_messageAvailableListener set_deliveringAcks
    set_started set_closeSyncRegistered set_unconsumedMessages set_deliveredMessages set_lastDeliveredSequenceId set_pendingAck
    set_deliveredCounter set_additionalWindowSize set_synchronizationRegistered set_isClearDeliveredList
    set_inProgressClearRequiredFlag set_redeliveryDelay set_redeliveryPolicy set_failureError set_previouslyDeliveredMessages
    set_failoverRedeliveryWaitPeriod set_transactedIndividualAck set_nonBlockingRedelivery set_consumerExpiryCheckEnabled
    set_optimizeAcknowledge set_optimizeAckTimestamp set_optimizeAcknowledgeTimeOut set_ackCounter set_dispatchedCount set_executor
    set_info Session.ackMode Session.transactionId Session.synchronizations Session.sendAcksAsync Session.sessionAsyncDispatch
    Session.connectionId Session.nextLocalTransactionId Session.registered Session.messageQueue Session.scheduled Session.set_ackMode
    Session.set_transactionId Session.set_synchronizations Session.set_sendAcksAsync Session.set_sessionAsyncDispatch
    Session.set_connectionId Session.set_nextLocalTransactionId Session.set_registered Session.set_messageQueue Session.set_scheduled].

Section Laws.
Context {C : Type} `{MessageDispatchChannel C} {N : Type} `{SurroundingsLaws N}.
Implicit Types (s : ActiveMQConsumerKernel.t C) (e : Session.t C) (n : N) (d : Dispatch) (l : list Dispatch).

(** ** Sending *)
Definition tx_of e : option TransactionId.t := if Session.isTransacted e then Session.transactionId e else None.
Definition after_ack e (a : MessageAck.t) n : N :=
  if Session.sendAcksAsync e || Session.isTransacted e then snd (conn_oneway (DMessageAck a) n) else snd (conn_syncRequest (DMessageAck a) n).
Lemma sendAck_ok a s e n : sendAck a false (s, e, n) = (Ok tt, (s, e, after_ack e a n)).
Proof.
  unfold sendAck, after_ack. step. cbn [orb]. unfold oneway, syncRequest, surround.
  destruct (Session.sendAcksAsync e || Session.isTransacted e).
  - destruct (sl_oneway (DMessageAck a) n) as [E _], (conn_oneway (DMessageAck a) n). cbn in E. by subst.
  - destruct (sl_syncRequest (DMessageAck a) n) as [E _], (conn_syncRequest (DMessageAck a) n). cbn in E. by subst.
Qed.
Lemma bind_sendAck {A} a (k : _ -> X (world C N) A) s e n : xbind (sendAck a false) k (s, e, n) = k tt (s, e, after_ack e a n).
Proof. by rewrite (xbind_ok _ _ _ _ _ (sendAck_ok a s e n)). Qed.
Lemma sent_ack e a n : sent (after_ack e a n) = sent n ++ [DMessageAck a].
Proof. unfold after_ack. case_match; [apply sl_oneway | apply sl_syncRequest]. Qed.
Lemma oneway_ok c s e n : oneway c (s, e, n) = (Ok tt, (s, e, snd (conn_oneway c n))).
Proof. unfold oneway, surround. destruct (sl_oneway c n) as [E _], (conn_oneway c n). cbn in E. by subst. Qed.
Lemma syncRequest_ok c s e n : syncRequest c (s, e, n) = (Ok tt, (s, e, snd (conn_syncRequest c n))).
Proof. unfold syncRequest, surround. destruct (sl_syncRequest c n) as [E _], (conn_syncRequest c n). cbn in E. by subst. Qed.
Lemma bind_oneway {A} c (k : _ -> X (world C N) A) s e n : xbind (oneway c) k (s, e, n) = k tt (s, e, snd (conn_oneway c n)).
Proof. by rewrite (xbind_ok _ _ _ _ _ (oneway_ok c s e n)). Qed.
Lemma bind_syncRequest {A} c (k : _ -> X (world C N) A) s e n : xbind (syncRequest c) k (s, e, n) = k tt (s, e, snd (conn_syncRequest c n)).
Proof. by rewrite (xbind_ok _ _ _ _ _ (syncRequest_ok c s e n)). Qed.
Lemma sent_oneway c n : sent (snd (conn_oneway c n)) = sent n ++ [c]. Proof. apply sl_oneway. Qed.
Lemma sent_syncRequest c n : sent (snd (conn_syncRequest c n)) = sent n ++ [c]. Proof. apply sl_syncRequest. Qed.

#[local] Hint Rewrite @bind_sendAck @sendAck_ok @oneway_ok @syncRequest_ok @bind_oneway @bind_syncRequest : consumer.

(** ** Transactions that are begun *)
Definition settled s e : Prop :=
  Session.isTransacted e = true -> Session.isInTransaction e = true /\ synchronizationRegistered s = true.
Lemma bind_doStartTransaction {A} (k : unit -> X (world C N) A) s e n : (Session.isTransacted e = true -> Session.isInTransaction e = true) ->
  xbind doStartTransaction k (s, e, n) = k tt (s, e, n).
Proof.
  intros Hs. unfold doStartTransaction. step. destruct (Session.isTransacted e); [| done]. specialize (Hs eq_refl).
  destruct (Session.isInXATransaction e) eqn:Hx; cbn [andb negb]; [done |].
  by erewrite xbind_ok by (unfold begin; apply xcatch_ok; step; by rewrite Hx, Hs).
Qed.
Lemma registerSync_settled s e n : settled s e -> Session.isTransacted e = true -> registerSync (s, e, n) = (Ok tt, (s, e, n)).
Proof.
  intros Hs Ht. destruct (Hs Ht) as [Hi Hr]. unfold registerSync. rewrite bind_doStartTransaction by done. step. by rewrite Hr.
Qed.
Lemma bind_registerSync {A} (k : unit -> X (world C N) A) s e n : settled s e ->
  xbind (when (Session.isTransacted e) registerSync) k (s, e, n) = k tt (s, e, n).
Proof.
  intros Hs. destruct (Session.isTransacted e) eqn:Ht; [| done].
  by rewrite (xbind_ok _ _ _ _ _ (registerSync_settled s e n Hs Ht)).
Qed.

(** ** ackLater *)
(** The messages [c] wait to be acknowledged. *)
Definition with_pending tx type (c : list Dispatch) s : ActiveMQConsumerKernel.t C :=
  set_pendingAck (batch_ack tx type c) (set_deliveredCounter (zlen c) s).
Lemma batch_ack_snoc tx type c d :
  batch_ack tx type (c ++ [d]) = Some (range_ack tx type (match c with [] => d | first :: _ => first end) d (zlen c + 1)).
Proof.
  unfold batch_ack. rewrite last_snoc. unfold zlen. rewrite length_app. cbn [length].
  replace (Z.of_nat (length c + 1)) with (Z.of_nat (length c) + 1) by lia. by destruct c.
Qed.
Lemma batch_ack_spec c : c <> [] -> exists first last, (forall tx type, batch_ack tx type c = Some (range_ack tx type first last (zlen c))) /\ head c = Some first.
Proof.
  intros Hc. unfold batch_ack. destruct c as [|x c]; [done |]. cbn [head]. destruct (list.last (x :: c)) as [y|] eqn:E; [by eauto |].
  by apply last_None in E.
Qed.
Lemma ackLater_step type c d s e n : settled s e -> has_message d = true -> ackCounter s = 0 -> additionalWindowSize s = 0 ->
  ackLater d type (with_pending (tx_of e) type c s, e, n) =
    if (window (getPrefetchSize s) <=? length (c ++ [d]))%nat
    then (Ok tt, (with_pending (tx_of e) type [] s, e, after_ack e (range_ack (tx_of e) type (match c with [] => d | f :: _ => f end) d (zlen c + 1)) n))
    else (Ok tt, (with_pending (tx_of e) type (c ++ [d]) s, e, n)).
Proof.
  intros Hs Hm Ha Hw. unfold ackLater. rewrite bind_session, bind_registerSync by by destruct s. step. rewrite (of_dispatch_ok d) by done. step.
  clear Hs. assert (Hr := window_reached (getPrefetchSize s) (length c)). replace (S (length c)) with (length (c ++ [d])) in Hr by (rewrite length_app; cbn; lia).
  rewrite <- Hr. destruct s. unfold with_pending, getPrefetchSize in *. revert Ha Hw. flat. intros -> ->. rewrite batch_ack_snoc.
  replace (zlen (c ++ [d])) with (zlen c + 1) by (unfold zlen; rewrite length_app; cbn; lia).
  assert (Hlen : 2 * (zlen c + 1 + 0 - 0) = 2 * Z.of_nat (length (c ++ [d]))) by (unfold zlen; rewrite length_app; cbn; lia).
  assert (Ht : Session.isTransacted e = true \/ Session.isTransacted e = false) by (destruct (Session.isTransacted e); auto).
  destruct c as [|x c].
  - cbn [batch_ack head]. unfold tx_of. step. flat. destruct Ht as [Ht|Ht]; rewrite Ht; step; flat; cbn [option_map]; rewrite Hlen; case_match; step; done.
  - destruct (batch_ack_spec (x :: c) ltac:(done)) as (f & la & -> & [= ->]).
    cbn [range_ack MessageAck.ackType]. rewrite Z.eqb_refl. unfold tx_of. step. flat.
    destruct Ht as [Ht|Ht]; rewrite Ht; step; flat; cbn [option_map]; rewrite Hlen; case_match; step; done.
Qed.


(** ** Consuming messages
    The modes in which messages are acknowledged by ackLater: the type of the
    acknowledgement, and whether the messages are not kept. *)
Definition later_mode s e : option (Z * bool) :=
  match Session.ackMode e with
  | SESSION_TRANSACTED => if transactedIndividualAck s then None else Some (ACK_TYPE_DELIVERED, false)
  | CLIENT_ACKNOWLEDGE | INDIVIDUAL_ACKNOWLEDGE => Some (ACK_TYPE_DELIVERED, false)
  | DUPS_OK_ACKNOWLEDGE =>
    match ConsumerInfo.destination (info s) with
    | Some dest => if ConnectionAudit.isQueue dest then None else Some (ACK_TYPE_CONSUMED, true)
    | None => None
    end
  | AUTO_ACKNOWLEDGE => None
  end.
Definition has_id d : bool := match id_of d with Some _ => true | None => false end.
Definition sequence_of d : Z := match id_of d with Some i => MessageId.brokerSequenceId i | None => -1 end.
Definition message_of e d : option received :=
  match MessageDispatch.message (body d) with
  | Some m => Some (mkReceived (cloneMessage m)
                (if Session.isClientAcknowledge e then ClientAckHandler else if Session.isIndividualAcknowledge e then IndividualAckHandler (Some d) else NoOpAckHandler))
  | None => None
  end.
Definition handed_over (batch : bool) d s : ActiveMQConsumerKernel.t C :=
  set_deliveredMessages (if batch then deliveredMessages s else d :: deliveredMessages s) (set_lastDeliveredSequenceId (sequence_of d) s).
Definition open s e : Prop :=
  ch_isClosed (unconsumedMessages s) = false /\ ackCounter s = 0 /\ additionalWindowSize s = 0 /\ Session.isInXATransaction e = false.

Lemma has_id_message d : has_id d = true -> has_message d = true.
Proof. unfold has_id, id_of, has_message. by destruct (MessageDispatch.message (body d)). Qed.
Lemma follow_id d : has_id d = true -> exists i, follow (id_of d) = Ok i /\ MessageId.brokerSequenceId i = sequence_of d.
Proof. unfold has_id, sequence_of. destruct (id_of d) as [i|]; [by exists i | done]. Qed.
Lemma createCMSMessage_ok d s e n : has_id d = true -> exists m, message_of e d = Some m /\ createCMSMessage d (s, e, n) = (Ok m, (s, e, n)).
Proof.
  intros Hd%has_id_message. unfold has_message in Hd. unfold createCMSMessage, message_of, getMessage, xcatch.
  destruct (MessageDispatch.message (body d)) as [m|]; [| done]. eexists. split; [done |]. cbn [follow]. by step.
Qed.
Lemma batch_mode s e n ty batch : later_mode s e = Some (ty, batch) -> isAutoAcknowledgeBatch (s, e, n) = (Ok batch, (s, e, n)) /\ isAutoAcknowledgeEach (s, e, n) = (Ok false, (s, e, n)).
Proof.
  unfold later_mode, isAutoAcknowledgeBatch, isAutoAcknowledgeEach, Session.isDupsOkAcknowledge, Session.isAutoAcknowledge, isQueueConsumer.
  intros Hm. step. destruct (Session.ackMode e); try done; cbn; [| by case_match; simplify_eq ..].
  step. unfold follow. destruct (ConsumerInfo.destination (info s)) as [x|]; [| done]. cbn [rbind].
  destruct (ConnectionAudit.isQueue x); [done | by simplify_eq].
Qed.


(** What is left of the pending messages once [d] is among them, and what is sent. *)
Definition left_pending (prefetch : Z) (c : list Dispatch) d : list Dispatch :=
  if (window prefetch <=? length (c ++ [d]))%nat then [] else c ++ [d].
Definition after_later e type (prefetch : Z) (c : list Dispatch) d n : N :=
  if (window prefetch <=? length (c ++ [d]))%nat
  then after_ack e (range_ack (tx_of e) type (match c with [] => d | f :: _ => f end) d (zlen c + 1)) n else n.
Lemma transacted_mode e : Session.isInXATransaction e = false ->
  Session.isTransacted e = bool_decide (Session.ackMode e = SESSION_TRANSACTED).
Proof. unfold Session.isTransacted. intros ->. by rewrite orb_false_r. Qed.
Lemma later_mode_transacted s e ty batch : later_mode s e = Some (ty, batch) -> Session.ackMode e = SESSION_TRANSACTED ->
  transactedIndividualAck s = false /\ ty = ACK_TYPE_DELIVERED /\ batch = false.
Proof. unfold later_mode. intros Hm E. rewrite E in Hm. case_match; by simplify_eq. Qed.

Lemma before_step ty batch c d s e n : later_mode s e = Some (ty, batch) -> has_id d = true -> Session.isInXATransaction e = false ->
  beforeMessageIsConsumed d (with_pending (tx_of e) ty c s, e, n) =
    (if Session.isTransacted e then ackLater d ty else xret tt) (with_pending (tx_of e) ty c (handed_over batch d s), e, n).
Proof.
  intros Hm Hd Hx. unfold beforeMessageIsConsumed.
  rewrite getMessageId_ok by by apply has_id_message. destruct (follow_id d Hd) as (i & Hi & Hq). rewrite bind_lift, Hi. step. rewrite Hq.
  assert (Hm' : later_mode (set_lastDeliveredSequenceId (sequence_of d) (with_pending (tx_of e) ty c s)) e = Some (ty, batch)) by by destruct s.
  rewrite (xbind_ok _ _ _ _ _ (proj1 (batch_mode _ e n _ _ Hm'))). step. rewrite (transacted_mode e Hx).
  destruct batch; cbn [negb].
  - rewrite bool_decide_eq_false_2; [destruct s; reflexivity |]. intros E. by destruct (later_mode_transacted _ _ _ _ Hm E) as (_ & _ & [=]).
  - case_bool_decide as E; [| by destruct s].
    destruct (later_mode_transacted _ _ _ _ Hm E) as (Hi' & -> & _). destruct s. unfold handed_over, with_pending. revert Hi'. flat. by intros ->.
Qed.
Lemma after_step ty batch c d s e n : later_mode s e = Some (ty, batch) -> open s e -> settled s e -> has_id d = true ->
  (batch = false -> exists l, deliveredMessages s = d :: l) ->
  afterMessageIsConsumed d false (with_pending (tx_of e) ty c s, e, n) =
    if Session.isTransacted e then (Ok tt, (with_pending (tx_of e) ty c s, e, n))
    else (Ok tt, (with_pending (tx_of e) ty (left_pending (getPrefetchSize s) c d) s, e, after_later e ty (getPrefetchSize s) c d n)).
Proof.
  intros Hm (Hc & Ha & Hw & Hx) Hs Hd%has_id_message Hin. unfold afterMessageIsConsumed.
  assert (Hb := batch_mode (with_pending (tx_of e) ty c s) e n ty batch ltac:(by destruct s)).
  assert (Hstep := ackLater_step ty c d s e n Hs Hd Ha Hw).
  assert (Hlater : forall m : X (world C N) unit, m (with_pending (tx_of e) ty c s, e, n) = ackLater d ty (with_pending (tx_of e) ty c s, e, n) ->
    xcatch to_amq m (with_pending (tx_of e) ty c s, e, n) =
    (Ok tt, (with_pending (tx_of e) ty (left_pending (getPrefetchSize s) c d) s, e, after_later e ty (getPrefetchSize s) c d n))).
  { intros m E. apply xcatch_ok. rewrite E, Hstep. unfold left_pending, after_later. by case_match. }
  rewrite (transacted_mode e Hx). destruct (bool_decide (Session.ackMode e = SESSION_TRANSACTED)) eqn:Ht.
  { apply xcatch_ok. step. rewrite (transacted_mode e Hx), Ht. unfold isClosed. replace (unconsumedMessages _) with (unconsumedMessages s) by by destruct s. by rewrite Hc. }
  apply Hlater. step. unfold isClosed. replace (unconsumedMessages _) with (unconsumedMessages s) by by destruct s. rewrite Hc, (transacted_mode e Hx), Ht.
  rewrite (xbind_ok _ _ _ _ _ (proj2 Hb)), (xbind_ok _ _ _ _ _ (proj1 Hb)). step.
  replace (deliveredMessages (with_pending _ _ _ _)) with (deliveredMessages s) by by destruct s.
  unfold later_mode, Session.isClientAcknowledge, Session.isIndividualAcknowledge in *.
  destruct (Session.ackMode e); try done; cbn [bool_decide orb].
  - repeat case_match; by simplify_eq.
  - injection Hm as <- <-. destruct (Hin eq_refl) as (l & ->). cbn. by rewrite Nat.eqb_refl.
  - injection Hm as <- <-. destruct (Hin eq_refl) as (l & ->). cbn. by rewrite Nat.eqb_refl.
Qed.
Lemma consume_step ty batch c d s e n : later_mode s e = Some (ty, batch) -> open s e -> settled s e -> has_id d = true ->
  exists m, message_of e d = Some m /\
  consume (Some d) (with_pending (tx_of e) ty c s, e, n) =
    (Ok (Some m), (with_pending (tx_of e) ty (left_pending (getPrefetchSize s) c d) (handed_over batch d s), e, after_later e ty (getPrefetchSize s) c d n)).
Proof.
  intros Hm Ho Hs Hd. set (s' := handed_over batch d s).
  assert (Hp : getPrefetchSize s' = getPrefetchSize s) by by destruct s.
  assert (Hm' : later_mode s' e = Some (ty, batch)) by by destruct s.
  assert (Ho' : open s' e) by by destruct s.
  assert (Hs' : settled s' e) by by destruct s.
  assert (Hin : batch = false -> exists l, deliveredMessages s' = d :: l) by (intros ->; destruct s; by eexists).
  assert (Hboth : exists c1 n1, beforeMessageIsConsumed d (with_pending (tx_of e) ty c s, e, n) = (Ok tt, (with_pending (tx_of e) ty c1 s', e, n1)) /\
    afterMessageIsConsumed d false (with_pending (tx_of e) ty c1 s', e, n1) =
      (Ok tt, (with_pending (tx_of e) ty (left_pending (getPrefetchSize s) c d) s', e, after_later e ty (getPrefetchSize s) c d n))).
  { rewrite (before_step ty batch) by (done || apply Ho). fold s'. destruct (Session.isTransacted e) eqn:Ht.
    - destruct Ho' as (_ & Ha & Hw & _). rewrite (ackLater_step ty c d s' e n) by (done || by apply has_id_message). rewrite Hp.
      unfold left_pending, after_later. case_match; (eexists _, _; split; [done |]);
        rewrite (after_step ty batch) by done; by rewrite Ht.
    - exists c, n. split; [done |]. rewrite (after_step ty batch) by done. by rewrite Ht, Hp. }
  destruct Hboth as (c1 & n1 & E1 & E2). unfold consume. rewrite (xbind_ok _ _ _ _ _ E1), (xbind_ok _ _ _ _ _ E2).
  destruct (createCMSMessage_ok d (with_pending (tx_of e) ty (left_pending (getPrefetchSize s) c d) s') e (after_later e ty (getPrefetchSize s) c d n) Hd) as (m & Hmm & E3).
  exists m. split; [done |]. by rewrite (xbind_ok _ _ _ _ _ E3).
Qed.


(** ** Consuming a list of messages *)
Definition consume_all (l : list Dispatch) : X (world C N) unit := xfor l (fun d => consume (Some d) ;+ xret tt).
Definition handed_all (batch : bool) l s : ActiveMQConsumerKernel.t C := fold_left (fun s d => handed_over batch d s) l s.
Lemma handed_all_eq batch l : forall s, handed_all batch l s =
  set_deliveredMessages (if batch then deliveredMessages s else rev l ++ deliveredMessages s)
    (set_lastDeliveredSequenceId (match list.last l with Some d => sequence_of d | None => lastDeliveredSequenceId s end) s).
Proof.
  induction l as [|d l IH]; intros s; cbn [handed_all fold_left]; [by destruct batch, s |].
  change (fold_left _ l _) with (handed_all batch l (handed_over batch d s)). rewrite IH. cbn [rev]. rewrite <- app_assoc.
  replace (match list.last (d :: l) with Some d => sequence_of d | None => _ end) with (match list.last l with Some d => sequence_of d | None => sequence_of d end).
  - by destruct batch, s.
  - destruct l as [|x l]; [done |]. by rewrite last_cons_cons; destruct (list.last (x :: l)) eqn:E; [| apply last_None in E].
Qed.
Lemma sent_later e type p c d n :
  sent (after_later e type p c d n) = sent n ++ if (window p <=? length (c ++ [d]))%nat then batch_acks (tx_of e) type [c ++ [d]] else [].
Proof.
  unfold after_later. case_match; [| by rewrite app_nil_r]. rewrite sent_ack. unfold batch_acks. cbn [omap list_omap].
  by rewrite batch_ack_snoc.
Qed.
Lemma consume_all_ok ty batch l e : forall c s n, later_mode s e = Some (ty, batch) -> open s e -> settled s e -> Forall (fun d => has_id d = true) l ->
  let '(ws, rest) := windows (window (getPrefetchSize s)) c l in
  exists n', consume_all l (with_pending (tx_of e) ty c s, e, n) = (Ok tt, (with_pending (tx_of e) ty rest (handed_all batch l s), e, n')) /\
    sent n' = sent n ++ batch_acks (tx_of e) ty ws.
Proof.
  induction l as [|d l IH]; intros c s n Hm Ho Hs Hl.
  { cbn. exists n. by rewrite app_nil_r. }
  apply Forall_cons_iff in Hl as [Hd Hl]. destruct (consume_step ty batch c d s e n Hm Ho Hs Hd) as (m & _ & E).
  specialize (IH (left_pending (getPrefetchSize s) c d) (handed_over batch d s) (after_later e ty (getPrefetchSize s) c d n)
    ltac:(by destruct s) ltac:(by destruct s) ltac:(by destruct s) Hl).
  replace (getPrefetchSize (handed_over batch d s)) with (getPrefetchSize s) in IH by by destruct s.
  unfold left_pending in IH. cbn [windows]. set (b := (window (getPrefetchSize s) <=? length (c ++ [d]))%nat) in *.
  assert (Hrun : consume_all (d :: l) (with_pending (tx_of e) ty c s, e, n) =
    consume_all l (with_pending (tx_of e) ty (if b then [] else c ++ [d]) (handed_over batch d s), e, after_later e ty (getPrefetchSize s) c d n)).
  { unfold consume_all at 1. cbn [xfor]. rewrite bind_assoc, (xbind_ok _ _ _ _ _ E). by step. }
  rewrite Hrun. pose proof (sent_later e ty (getPrefetchSize s) c d n) as Hsent. fold b in Hsent.
  destruct b.
  - destruct (windows _ [] l) as [ws rest]. destruct IH as (n' & E' & Hn'). exists n'. split; [done |].
    rewrite Hn', Hsent, <- app_assoc. change ((c ++ [d]) :: ws) with ([c ++ [d]] ++ ws). by rewrite batch_acks_app.
  - destruct (windows _ (c ++ [d]) l) as [ws rest]. destruct IH as (n' & E' & Hn'). exists n'. split; [done |].
    by rewrite Hn', Hsent, app_nil_r.
Qed.


(** ** Acknowledging all that was delivered *)
Definition calm s : Prop := isClearDeliveredList s = false /\ previouslyDeliveredMessages s = None.
Lemma bind_clearDeliveredList {A} (k : _ -> X (world C N) A) s e n : isClearDeliveredList s = false -> xbind clearDeliveredList k (s, e, n) = k tt (s, e, n).
Proof. intros E. unfold clearDeliveredList. step. by rewrite E. Qed.
Lemma bind_waitForRedeliveries {A} sleeps (k : _ -> X (world C N) A) s e n : previouslyDeliveredMessages s = None ->
  xbind (waitForRedeliveries sleeps) k (s, e, n) = k tt (s, e, n).
Proof. intros E. unfold waitForRedeliveries. step. rewrite E. by step. Qed.
Lemma bind_rollbackOnFailedRecoveryRedelivery {A} (k : _ -> X (world C N) A) s e n : previouslyDeliveredMessages s = None ->
  xbind rollbackOnFailedRecoveryRedelivery k (s, e, n) = k tt (s, e, n).
Proof. intros E. unfold rollbackOnFailedRecoveryRedelivery. step. rewrite E. by step. Qed.
Lemma bind_makeAck {A} type (k : _ -> X (world C N) A) l s e n : deliveredMessages s = rev l -> Forall (fun d => has_message d = true) l ->
  xbind (makeAckForAllDeliveredMessages type) k (s, e, n) = k (batch_ack None type l) (s, e, n).
Proof.
  intros Hl Hm. unfold makeAckForAllDeliveredMessages. step. rewrite Hl. destruct l as [|x l]; [by step |].
  destruct (list.last (x :: l)) as [y|] eqn:Ey; [| by apply last_None in Ey].
  pose proof Ey as Ey'. apply last_Some in Ey as [l' Ey]. assert (Hr : rev (x :: l) = y :: rev l') by by rewrite Ey, rev_app_distr.
  assert (Hy : has_message y = true /\ has_message x = true).
  { rewrite Ey in Hm at 1. split; [by apply Forall_app in Hm as [_ Hm%Forall_cons_iff]; destruct Hm |]. rewrite <- Ey in Hm. by apply Forall_cons_iff in Hm as [? _]. }
  rewrite Hr. assert (Hlast : list.last (y :: rev l') = Some x) by (rewrite <- Hr; cbn [rev]; apply last_snoc). rewrite Hlast.
  rewrite (of_dispatch_ok y), (getMessageId_ok x) by apply Hy. step.
  unfold batch_ack. rewrite Ey' . cbn [head]. rewrite <- Hr. unfold zlen. by rewrite length_rev.
Qed.
Definition settle s e l : ActiveMQConsumerKernel.t C := set_deliveredMessages (if Session.isTransacted e then rev l else []) (with_pending None 0 [] s).
Lemma acknowledge_ok sleeps type c l s e n : calm s -> open s e -> settled s e -> deliveredMessages s = rev l -> l <> [] ->
  Forall (fun d => has_message d = true) l -> (length c <= length l)%nat ->
  exists n', acknowledge sleeps (with_pending (tx_of e) type c s, e, n) = (Ok tt, (settle s e l, e, n')) /\
    sent n' = sent n ++ batch_acks (tx_of e) ACK_TYPE_CONSUMED [l].
Proof.
  intros [Hcl Hpd] (_ & _ & Hw & Hx) Hs Hdel Hne Hm Hlen. unfold acknowledge.
  destruct (batch_ack_spec l Hne) as (f & la & Hb & Hf).
  exists (after_ack e (Ack.setTransactionId (tx_of e) (range_ack None ACK_TYPE_CONSUMED f la (zlen l))) n).
  split; [| by rewrite sent_ack; unfold batch_acks; cbn [omap list_omap]; rewrite Hb].
  apply xcatch_ok. rewrite bind_clearDeliveredList, bind_waitForRedeliveries by by destruct s.
  rewrite (bind_makeAck _ _ l) by (by destruct s). rewrite Hb. step.
  assert (Hstart : Session.isTransacted e = true -> Session.isInTransaction e = true) by (intros Ht; by apply Hs).
  assert (H1' : Z.max 0 (zlen c - zlen (rev l)) = 0) by (unfold zlen; rewrite length_rev; lia).
  assert (H2' : Z.max 0 (0 - zlen (rev l)) = 0) by (unfold zlen; lia).
  unfold settle, with_pending, tx_of. clear Hs. destruct s. revert Hcl Hpd Hw Hdel. flat. intros -> -> -> ->.
  destruct (Session.isTransacted e) eqn:Ht; step.
  - rewrite bind_rollbackOnFailedRecoveryRedelivery by done. step. rewrite bind_doStartTransaction by (intros _; by apply Hstart). step. flat. rewrite Ht. by rewrite H1', H2'.
  - flat. by rewrite H1', H2'.
Qed.
End Laws.
