(* ===== verification/ConsumerFacts.v ===== *)
(** * What the broker hears from a consumer

    The theorems on consumers, with a concrete connection for their witnesses. *)

From stdpp Require Import pretty.
From S2P Require Import Prelude BaseMarshaller Commands StateTracker DispatchChannels MessageAudit Consumer ConsumerLaws.
Import ActiveMQConsumerKernel.

Section Facts.
Context {C : Type} `{MessageDispatchChannel C} {N : Type} `{SurroundingsLaws N}.
Implicit Types (s : ActiveMQConsumerKernel.t C) (e : Session.t C) (n : N) (d : Dispatch) (l : list Dispatch).

(** ** A consumer with nothing to acknowledge *)
Definition fresh s e : Prop :=
  calm s /\ open s e /\ deliveredMessages s = [] /\ pendingAck s = None /\ deliveredCounter s = 0.
Lemma fresh_pending tx ty s e : fresh s e -> s = with_pending tx ty [] s.
Proof. intros (_ & _ & _ & Hp & Hc). destruct s. revert Hp Hc. cbn. by intros -> ->. Qed.
Lemma fresh_sequence q s e : fresh s e -> fresh (set_lastDeliveredSequenceId q s) e.
Proof. by destruct s. Qed.
Definition last_sequence l s : Z := match list.last l with Some d => sequence_of d | None => lastDeliveredSequenceId s end.

(** C19. Client acknowledgement: when the application has received the messages [l] and
    acknowledges, the broker has been told of whole windows of half the prefetch as
    they were received, in order and without a gap, and then that all of [l], from the
    first to the last, are consumed; the consumer has nothing left to acknowledge. *)
Theorem client_acknowledge_covers sleeps l s e n :
  fresh s e -> Session.ackMode e = CLIENT_ACKNOWLEDGE -> l <> [] -> Forall (fun d => has_id d = true) l ->
  exists ws rest n', (consume_all l ;+ acknowledge sleeps) (s, e, n) = (Ok tt, (set_lastDeliveredSequenceId (last_sequence l s) s, e, n')) /\
    sent n' = sent n ++ batch_acks None ACK_TYPE_DELIVERED ws ++ batch_acks None ACK_TYPE_CONSUMED [l] /\
    concat ws ++ rest = l /\ Forall (fun w => length w = window (getPrefetchSize s)) ws /\ (length rest < window (getPrefetchSize s))%nat /\
    fresh (set_lastDeliveredSequenceId (last_sequence l s) s) e.
Proof.
  intros Hf Hmode Hne Hl. pose proof Hf as (Hcalm & Ho & Hdel & _).
  assert (Ht : Session.isTransacted e = false) by (rewrite (transacted_mode e) by apply Ho; by rewrite Hmode).
  assert (Hs : forall s, settled s e) by (intros s' E; congruence).
  assert (Htx : tx_of e = None) by (unfold tx_of; by rewrite Ht).
  pose proof (consume_all_ok ACK_TYPE_DELIVERED false l e [] s n ltac:(unfold later_mode; by rewrite Hmode) Ho (Hs s) Hl) as Hall.
  pose proof (windows_spec (window (getPrefetchSize s)) l [] (window_pos _)) as Hws.
  destruct (windows _ [] l) as [ws rest]. change ([] ++ l) with l in Hws. destruct Hws as (Hcat & Hfull & Hrest), Hall as (n1 & E1 & Hn1).
  rewrite Htx in *. rewrite <- (fresh_pending _ _ s e Hf) in E1.
  destruct (acknowledge_ok sleeps ACK_TYPE_DELIVERED rest l (handed_all false l s) e n1) as (n2 & E2 & Hn2);
    [rewrite handed_all_eq; by destruct s .. | rewrite handed_all_eq, Hdel, app_nil_r; by destruct s | done | | |].
  { revert Hl. apply Forall_impl. intros d. apply has_id_message. }
  { rewrite <- Hcat, length_app. cbn. lia. }
  exists ws, rest, n2. rewrite Htx in *.
  refine (conj _ (conj _ (conj Hcat (conj Hfull (conj Hrest (fresh_sequence _ _ _ Hf)))))); [| by rewrite Hn2, Hn1, app_assoc].
  rewrite (xbind_ok _ _ _ _ _ E1), E2. do 3 f_equal. rewrite handed_all_eq. unfold settle, last_sequence. rewrite Ht.
  destruct Hf as (_ & _ & _ & Hp & Hc). clear -Hdel Hp Hc. destruct s. revert Hdel Hp Hc. cbn. by intros -> -> ->.
Qed.

(** ** Automatic acknowledgement *)
Definition each_mode s e : Prop :=
  Session.isInXATransaction e = false /\
  (Session.ackMode e = AUTO_ACKNOWLEDGE \/
   Session.ackMode e = DUPS_OK_ACKNOWLEDGE /\ (ConnectionAudit.isQueue <$> ConsumerInfo.destination (info s)) = Some true).
Lemma each_mode_runs s e n : each_mode s e -> Session.isTransacted e = false /\
  isAutoAcknowledgeEach (s, e, n) = (Ok true, (s, e, n)) /\ isAutoAcknowledgeBatch (s, e, n) = (Ok false, (s, e, n)).
Proof.
  intros [Hx Hm]. rewrite (transacted_mode e Hx).
  unfold isAutoAcknowledgeEach, isAutoAcknowledgeBatch, Session.isAutoAcknowledge, Session.isDupsOkAcknowledge, isQueueConsumer. step.
  destruct Hm as [-> | [-> Hq]]; [done |]. cbn. step. unfold follow. destruct (ConsumerInfo.destination (info s)) as [x|]; [| done].
  cbn in *. injection Hq as ->. done.
Qed.
Lemma each_before d s e n : each_mode s e -> has_id d = true -> beforeMessageIsConsumed d (s, e, n) = (Ok tt, (handed_over false d s, e, n)).
Proof.
  intros Hm Hd. unfold beforeMessageIsConsumed. rewrite getMessageId_ok by by apply has_id_message.
  destruct (follow_id d Hd) as (i & Hi & Hq). rewrite bind_lift, Hi. step. rewrite Hq.
  destruct (each_mode_runs (set_lastDeliveredSequenceId (sequence_of d) s) e n) as (Ht & _ & Hb); [by destruct s |].
  rewrite (xbind_ok _ _ _ _ _ Hb). step. rewrite Ht. by destruct s.
Qed.
(** What the consumer does with a message in these modes. *)
Definition prompt s e : Prop := each_mode s e /\ ch_isClosed (unconsumedMessages s) = false /\ optimizeAcknowledge s = false.
Lemma each_after d s e n : prompt s e -> deliveringAcks s = false -> deliveredMessages s = [d] -> has_message d = true ->
  afterMessageIsConsumed d false (s, e, n) =
    xcatch to_amq (sendAck (range_ack None ACK_TYPE_CONSUMED d d 1) false ;+ modify (set_deliveringAcks false))
      (set_deliveredMessages [] (set_deliveringAcks true s), e, n).
Proof.
  intros (Hm & Hc & Ho) Hd Hl Hmes. unfold afterMessageIsConsumed. unfold xcatch at 1 2. step.
  destruct (each_mode_runs s e n Hm) as (Ht & He & Hb). unfold isClosed. rewrite Hc, Ht.
  rewrite (xbind_ok _ _ _ _ _ He), (xbind_ok _ _ _ _ _ Hb). cbv beta iota. rewrite Hd. step. unfold ack_each. step.
  assert (Hl' : deliveredMessages (set_deliveringAcks true s) = [d]) by (by destruct s).
  assert (Ho' : optimizeAcknowledge (set_deliveringAcks true s) = false) by (by destruct s).
  rewrite Hl', bind_if, Ho'. step. rewrite (bind_makeAck _ _ [d]) by (done || by repeat constructor). cbn [batch_ack head list.last]. by step.
Qed.
Lemma acknowledged_at_once d s e n : prompt s e -> deliveringAcks s = false -> deliveredMessages s = [] -> has_id d = true ->
  exists m, message_of e d = Some m /\ consume (Some d) (s, e, n) =
    (Ok (Some m), (set_lastDeliveredSequenceId (sequence_of d) s, e, after_ack e (range_ack None ACK_TYPE_CONSUMED d d 1) n)).
Proof.
  intros Hp Hd Hl Hid. unfold consume. rewrite (xbind_ok _ _ _ _ _ (each_before d s e n ltac:(apply Hp) Hid)).
  assert (Hst : set_deliveringAcks false (set_deliveredMessages [] (set_deliveringAcks true (handed_over false d s))) = set_lastDeliveredSequenceId (sequence_of d) s).
  { clear -Hd Hl. destruct s. revert Hd Hl. cbn. by intros -> ->. }
  assert (Ha : afterMessageIsConsumed d false (handed_over false d s, e, n) =
    (Ok tt, (set_lastDeliveredSequenceId (sequence_of d) s, e, after_ack e (range_ack None ACK_TYPE_CONSUMED d d 1) n))).
  { rewrite each_after; [| by destruct s | by destruct s | | by apply has_id_message].
    - apply xcatch_ok. rewrite bind_sendAck, modify_eq. by rewrite Hst.
    - unfold handed_over. rewrite Hl. by destruct s. }
  rewrite (xbind_ok _ _ _ _ _ Ha).
  destruct (createCMSMessage_ok d (set_lastDeliveredSequenceId (sequence_of d) s) e (after_ack e (range_ack None ACK_TYPE_CONSUMED d d 1) n) Hid) as (m & Hmm & E).
  exists m. split; [done |]. by rewrite (xbind_ok _ _ _ _ _ E).
Qed.

(** Automatic acknowledgement: receiving the messages [l] one after the other sends
    one acknowledgement for each, in their order and for that message only, and leaves
    nothing unacknowledged. *)
Theorem auto_acknowledges_each l : forall s e n,
  prompt s e -> deliveringAcks s = false -> deliveredMessages s = [] -> Forall (fun d => has_id d = true) l ->
  exists n', consume_all l (s, e, n) = (Ok tt, (set_lastDeliveredSequenceId (last_sequence l s) s, e, n')) /\
    sent n' = sent n ++ map (fun d => DMessageAck (range_ack None ACK_TYPE_CONSUMED d d 1)) l.
Proof.
  induction l as [|d l IH]; intros s e n Hp Hd Hl Hf; [exists n; split; [by destruct s | by rewrite app_nil_r] |].
  apply Forall_cons_iff in Hf as [Hid Hf]. destruct (acknowledged_at_once d s e n Hp Hd Hl Hid) as (m & _ & E).
  destruct (IH (set_lastDeliveredSequenceId (sequence_of d) s) e (after_ack e (range_ack None ACK_TYPE_CONSUMED d d 1) n)) as (n' & E' & Hn'); [by destruct s .. | done |].
  exists n'. split; [| by rewrite Hn', sent_ack, <- app_assoc].
  unfold consume_all in *. cbn [xfor]. rewrite bind_assoc, (xbind_ok _ _ _ _ _ E). step. rewrite E'. unfold last_sequence.
  destruct l as [|x l]; [by destruct s |]. rewrite last_cons_cons. destruct (list.last (x :: l)) eqn:El; [by destruct s | by apply last_None in El].
Qed.

End Facts.

(** ** An acknowledgement that cannot be sent *)
Section Failing.
Context {C : Type} `{MessageDispatchChannel C} {N : Type} `{Surroundings N}.
Implicit Types (s : ActiveMQConsumerKernel.t C) (e : Session.t C) (n : N) (d : Dispatch) (l : list Dispatch).

Definition send e (a : MessageAck.t) n : result unit * N :=
  if Session.sendAcksAsync e || Session.isTransacted e then conn_oneway (DMessageAck a) n else conn_syncRequest (DMessageAck a) n.
Lemma sendAck_send a s e n : sendAck a false (s, e, n) = let '(r, n) := send e a n in (r, (s, e, n)).
Proof. unfold sendAck, send. step. cbn [orb]. by case_match. Qed.
(** While the flag is set nothing is acknowledged. *)
Lemma not_acknowledged d s e n : prompt s e -> deliveringAcks s = true -> has_id d = true ->
  exists m, consume (Some d) (s, e, n) = (Ok (Some m), (handed_over false d s, e, n)).
Proof.
  intros (Hm & Hc & _) Hd Hid. unfold consume. rewrite (xbind_ok _ _ _ _ _ (each_before d s e n Hm Hid)).
  assert (Ha : afterMessageIsConsumed d false (handed_over false d s, e, n) = (Ok tt, (handed_over false d s, e, n))).
  { unfold afterMessageIsConsumed. apply xcatch_ok. step.
    destruct (each_mode_runs (handed_over false d s) e n) as (Ht & He & Hb); [by destruct s |].
    assert (Hc' : isClosed (handed_over false d s) = false) by by destruct s. rewrite Hc', Ht.
    rewrite (xbind_ok _ _ _ _ _ He), (xbind_ok _ _ _ _ _ Hb). cbv beta iota.
    assert (Hd' : deliveringAcks (handed_over false d s) = true) by by destruct s. by rewrite Hd'. }
  rewrite (xbind_ok _ _ _ _ _ Ha).
  destruct (createCMSMessage_ok d (handed_over false d s) e n Hid) as (m & _ & E). exists m. by rewrite (xbind_ok _ _ _ _ _ E).
Qed.
Lemma none_acknowledged l : forall s e n, prompt s e -> deliveringAcks s = true -> Forall (fun d => has_id d = true) l ->
  consume_all l (s, e, n) = (Ok tt, (handed_all false l s, e, n)).
Proof.
  induction l as [|d l IH]; intros s e n Hp Hd Hf; [done |]. apply Forall_cons_iff in Hf as [Hid Hf].
  destruct (not_acknowledged d s e n Hp Hd Hid) as (m & E). unfold consume_all in *. cbn [xfor].
  rewrite bind_assoc, (xbind_ok _ _ _ _ _ E). step. rewrite IH; [done | by destruct s .. | done].
Qed.

(** An acknowledgement that fails in automatic mode throws, and leaves the flag that
    acknowledgements are being delivered set: from then on the consumer hands messages
    out and never acknowledges one, not even when it is told to deliver what is due. *)
Theorem failed_ack_silences d l s e n n1 x :
  prompt s e -> deliveringAcks s = false -> deliveredMessages s = [] -> has_id d = true -> Forall (fun d => has_id d = true) l ->
  send e (range_ack None ACK_TYPE_CONSUMED d d 1) n = (Err (Throw x), n1) ->
  exists s1 s2, consume (Some d) (s, e, n) = (Err (Throw ActiveMQException), (s1, e, n1)) /\
    (consume_all l ;+ deliverAcks) (s1, e, n1) = (Ok tt, (s2, e, n1)) /\
    deliveredMessages s2 = rev l /\ executor s2 = executor s.
Proof.
  intros Hp Hd Hl Hid Hf Hsend.
  set (s1 := set_deliveredMessages [] (set_deliveringAcks true (handed_over false d s))).
  assert (Hd1 : deliveringAcks s1 = true) by by destruct s.
  assert (Hp1 : prompt s1 e) by by destruct s.
  exists s1, (handed_all false l s1).
  refine (conj _ (conj _ (conj _ _))).
  - unfold consume. rewrite (xbind_ok _ _ _ _ _ (each_before d s e n ltac:(apply Hp) Hid)).
    unfold xbind at 1. rewrite each_after; [| by destruct s | by destruct s | | by apply has_id_message].
    + fold s1. unfold xcatch, xbind. by rewrite sendAck_send, Hsend.
    + unfold handed_over. rewrite Hl. by destruct s.
  - rewrite (xbind_ok _ _ _ _ _ (none_acknowledged l s1 e n1 Hp1 Hd1 Hf)). unfold deliverAcks. apply xcatch_ok. step.
    assert (E : deliveringAcks (handed_all false l s1) = true) by (rewrite handed_all_eq; by destruct s). by rewrite E.
  - rewrite handed_all_eq. unfold s1. destruct s. cbn. by rewrite app_nil_r.
  - rewrite handed_all_eq. by destruct s.
Qed.
End Failing.


(** ** A connection that accepts what is sent, and one that is broken *)
Module Sample.
(** [heard] was sent, [audited] are the addresses of the messages the audit has seen,
    [listened] the calls of the listener. *)
Record line := mkLine { heard : list DataStructure; audited : list nat; listened : nat }.
Definition hear (c : DataStructure) (n : line) : result unit * line := (Ok tt, mkLine (heard n ++ [c]) (audited n) (listened n)).
#[export] Instance line_surroundings : Surroundings line := {
  conn_oneway := hear; conn_syncRequest := hear;
  conn_isDuplicate d n := (Ok (existsb (Nat.eqb (address d)) (audited n)), mkLine (heard n) (address d :: audited n) (listened n));
  conn_rollbackDuplicate d n := (Ok tt, mkLine (heard n) (List.filter (fun a => negb (Nat.eqb a (address d))) (audited n)) (listened n));
  conn_interruptionProcessed n := n; conn_removeDispatcher n := n; session_wakeup n := n; conn_consumers _ := []; env_now _ := 0; env_variance _ _ := 0;
  app_onMessage _ n := (None, mkLine (heard n) (audited n) (S (listened n))); app_onMessageAvailable n := n
}.
#[export] Program Instance line_laws : SurroundingsLaws line := { sent := heard }.
Solve All Obligations with done.
Definition silent : line := mkLine [] [] 0.

(** Every request that waits for an answer fails. *)
Inductive broken := Broken.
#[export] Instance broken_surroundings : Surroundings broken := {
  conn_oneway _ n := (Ok tt, n); conn_syncRequest _ n := (throw ActiveMQException, n);
  conn_isDuplicate _ n := (Ok false, n); conn_rollbackDuplicate _ n := (Ok tt, n);
  conn_interruptionProcessed n := n; conn_removeDispatcher n := n; session_wakeup n := n; conn_consumers _ := []; env_now _ := 0; env_variance _ _ := 0;
  app_onMessage _ n := (None, n); app_onMessageAvailable n := n
}.

Definition queue : ActiveMQDestination.t := ActiveMQDestination.default ActiveMQDestination.Queue.
Definition consumer_id : ConsumerId.t := ConsumerId.mk (str "ID:client") 1 1.
Definition message_with (dest : ActiveMQDestination.t) (id : MessageId.t) (count : Z) : Message.t DataStructure :=
  let 'Message.mk _ x0 x1 x2 _ x4 x5 _ x7 x8 x9 x10 x11 x12 x13 x14 x15 x16 x17 x18 x19 x20 x21 _ x23 x24 x25 x26 x27 x28 x29 x30 x31 x32 x33 x34 := Message.default (Message.ActiveMQTextMessage (Some (str "hello"))) in
  Message.mk _ x0 x1 x2 (Some dest) x4 x5 (Some id) x7 x8 x9 x10 x11 x12 x13 x14 x15 x16 x17 x18 x19 x20 x21 count x23 x24 x25 x26 x27 x28 x29 x30 x31 x32 x33 x34.
(** The message number [i], delivered [count] times before. *)
Definition dispatch_of (i : Z) (count : Z) : Dispatch :=
  mkDispatch (Z.to_nat i) (MessageDispatch.mk _ BaseCommand.default (Some consumer_id) (Some queue)
    (Some (message_with queue (MessageId.mk [] None i i) count)) 0) [].
Definition consumer_info : ConsumerInfo.t :=
  let 'ConsumerInfo.mk b _ br _ _ m da se cl su no ex re pr bp ad ne oa nr np := ConsumerInfo.default in
  ConsumerInfo.mk b (Some consumer_id) br (Some queue) 4 m da se cl su no ex re pr bp ad ne oa nr np.
Definition waiting (l : list Dispatch) : FifoMessageDispatchChannel.t := FifoMessageDispatchChannel.mk false true l.
Definition consumer (l : list Dispatch) : ActiveMQConsumerKernel.t FifoMessageDispatchChannel.t :=
  set_unconsumedMessages (waiting l) (set_started true (initial RedeliveryPolicy.default consumer_info 0)).
Definition session_in (m : mode) : Session.t FifoMessageDispatchChannel.t :=
  Session.mk m None [] false true (Some (ConnectionId.mk (str "ID:client"))) 1 true (waiting []) [].
Definition three : list Dispatch := [dispatch_of 1 0; dispatch_of 2 0; dispatch_of 3 0].
End Sample.
Import Sample.

Lemma client_acknowledge_covers_witness : exists ws rest n',
  (consume_all three ;+ acknowledge []) (consumer [], session_in CLIENT_ACKNOWLEDGE, silent) =
    (Ok tt, (set_lastDeliveredSequenceId 3 (consumer []), session_in CLIENT_ACKNOWLEDGE, n')) /\
  heard n' = batch_acks None ACK_TYPE_DELIVERED ws ++ batch_acks None ACK_TYPE_CONSUMED [three] /\ concat ws ++ rest = three.
Proof.
  destruct (client_acknowledge_covers (C := FifoMessageDispatchChannel.t) [] three (consumer []) (session_in CLIENT_ACKNOWLEDGE) silent)
    as (ws & rest & n' & H1 & H2 & H3 & _); [by repeat split | done | done | by repeat constructor |].
  exists ws, rest, n'. split; [exact H1 | split; [exact H2 | exact H3]].
Defined.
Lemma auto_acknowledges_each_witness : exists n',
  consume_all three (consumer [], session_in AUTO_ACKNOWLEDGE, silent) = (Ok tt, (set_lastDeliveredSequenceId 3 (consumer []), session_in AUTO_ACKNOWLEDGE, n')) /\
  heard n' = map (fun d => DMessageAck (range_ack None ACK_TYPE_CONSUMED d d 1)) three.
Proof.
  destruct (auto_acknowledges_each (C := FifoMessageDispatchChannel.t) three (consumer []) (session_in AUTO_ACKNOWLEDGE) silent)
    as (n' & H1 & H2); [split; [by repeat (done || split || left) | done]  | done | done | by repeat constructor |].
  exists n'. split; [exact H1 | exact H2].
Defined.
Lemma failed_ack_silences_witness : exists s1 s2,
  consume (Some (dispatch_of 1 0)) (consumer [], session_in AUTO_ACKNOWLEDGE, Broken) = (Err (Throw ActiveMQException), (s1, session_in AUTO_ACKNOWLEDGE, Broken)) /\
  (consume_all [dispatch_of 2 0] ;+ deliverAcks) (s1, session_in AUTO_ACKNOWLEDGE, Broken) = (Ok tt, (s2, session_in AUTO_ACKNOWLEDGE, Broken)) /\
  deliveredMessages s2 = [dispatch_of 2 0].
Proof.
  destruct (failed_ack_silences (C := FifoMessageDispatchChannel.t) (dispatch_of 1 0) [dispatch_of 2 0] (consumer []) (session_in AUTO_ACKNOWLEDGE) Broken Broken ActiveMQException)
    as (s1 & s2 & H1 & H2 & H3 & _); [split; [by repeat (done || split || left) | done]  | done | done | done | by repeat constructor | done |].
  exists s1, s2. split; [exact H1 | split; [exact H2 | exact H3]].
Defined.
