(* ===== verification/ConsumerRollback.v ===== *)
(** * Rolling back: redelivery by the consumer, and transactions

    What rollback does with the messages that were delivered, and how the commit and
    the rollback of a local transaction end for the consumer and for the broker. *)

From stdpp Require Import pretty.
From S2P Require Import Prelude BaseMarshaller Commands StateTracker DispatchChannels MessageAudit Consumer ConsumerLaws ConsumerFacts.
Import ActiveMQConsumerKernel.

Section Redelivery.
Context {C : Type} `{ChannelLaws C} {N : Type} `{SurroundingsLaws N}.
Implicit Types (s : ActiveMQConsumerKernel.t C) (e : Session.t C) (n : N) (d : Dispatch) (l : list Dispatch) (c : C).
#[local] Hint Rewrite (fun A => bind_sendAck (C:=C) (N:=N) (A:=A)) (sendAck_ok (C:=C) (N:=N)) (fun A => bind_oneway (C:=C) (N:=N) (A:=A)) (oneway_ok (C:=C) (N:=N))
  (fun A => bind_syncRequest (C:=C) (N:=N) (A:=A)) (syncRequest_ok (C:=C) (N:=N)) : consumer.

(** ** Messages that are put back in front *)
Definition put_back l c : C := fold_left (fun c d => ch_enqueueFirst d c) l c.
Lemma insertFirst_rank (rank : Dispatch -> nat) p m q :
  filter (fun x => rank x = p) (Spec.insertFirst rank m q) = filter (fun x => rank x = p) [m] ++ filter (fun x => rank x = p) q.
Proof.
  unfold Spec.insertFirst. rewrite list.filter_app, filter_cons. rewrite (filter_cons _ m []). cbn [filter list_filter].
  rewrite !list_filter_filter.
  destruct (decide (rank m = p)) as [<-|Hne].
  - rewrite (filter_none _ q) by (intros; lia). cbn [app]. do 2 f_equal. apply list_filter_iff. intros x. lia.
  - cbn [app]. destruct (decide (rank m < p)%nat).
    + rewrite (filter_none (fun x => rank x = p /\ rank x <= rank m)%nat) by (intros; lia). rewrite app_nil_r. apply list_filter_iff. intros x. lia.
    + rewrite (filter_none (fun x => rank x = p /\ rank m < rank x)%nat) by (intros; lia). apply list_filter_iff. intros x. lia.
Qed.
Lemma put_back_ok l : forall c, cl_ok c -> cl_ok (put_back l c) /\
  Spec.closed (cl_abs (put_back l c)) = Spec.closed (cl_abs c) /\ Spec.running (cl_abs (put_back l c)) = Spec.running (cl_abs c) /\
  forall p, filter (fun d => cl_rank d = p) (Spec.queue (cl_abs (put_back l c))) =
    filter (fun d => cl_rank d = p) (rev l) ++ filter (fun d => cl_rank d = p) (Spec.queue (cl_abs c)).
Proof.
  induction l as [|d l IH]; intros c Hok; [done |]. destruct (cl_enqueueFirst c d Hok) as [Hok' Habs].
  destruct (IH _ Hok') as (H1' & H2' & H3' & H4'). cbn [put_back fold_left] in *. fold (put_back l (ch_enqueueFirst d c)).
  destruct (cl_observers c Hok) as (Hc & Hr & _). split_and!; [done | by rewrite H2', Habs, Hc | by rewrite H3', Habs, Hr |].
  intros p. rewrite H4', Habs. cbn [Spec.queue rev]. rewrite insertFirst_rank, list.filter_app. by rewrite <- app_assoc.
Qed.

(** ** What rollback does with each message *)
Definition forgotten l n : N := fold_left (fun n d => snd (conn_rollbackDuplicate d n)) l n.
Lemma sent_forgotten l : forall n, sent (forgotten l n) = sent n.
Proof. induction l as [|d l IH]; intros n; [done |]. cbn. fold (forgotten l (snd (conn_rollbackDuplicate d n))). rewrite IH. apply sl_rollbackDuplicate. Qed.
Lemma bind_forget {A} l (k : _ -> X (world C N) A) s e : forall n, Forall (fun d => has_message d = true) l ->
  xbind (xfor l (fun d => let+ _ := xlift (getMessage d) in rollbackDuplicate (redeliver_again d))) k (s, e, n) = k tt (s, e, forgotten (map redeliver_again l) n).
Proof.
  induction l as [|d l IH]; intros n Hf; [done |]. apply Forall_cons_iff in Hf as [Hd Hf]. cbn [xfor map forgotten fold_left].
  rewrite bind_assoc. unfold has_message in Hd. unfold getMessage at 1. destruct (MessageDispatch.message (body d)) as [m|]; [| done].
  cbn [follow]. rewrite bind_assoc, bind_lift. unfold rollbackDuplicate at 1, surround at 1.
  destruct (sl_rollbackDuplicate (redeliver_again d) n) as [E _]. unfold xbind at 1. destruct (conn_rollbackDuplicate (redeliver_again d) n) as [r n1].
  cbn [fst snd] in *. subst r. by apply IH.
Qed.
Lemma bind_put_back {A} l (k : _ -> X (world C N) A) e n : forall s,
  xbind (xfor l (fun d => onChannel (ch_enqueueFirst d))) k (s, e, n) = k tt (set_unconsumedMessages (put_back l (unconsumedMessages s)) s, e, n).
Proof.
  induction l as [|d l IH]; intros s; cbn [xfor]; [by destruct s |]. rewrite bind_assoc, bind_onChannel, IH. by destruct s.
Qed.
Lemma redelivered_message d : has_message d = true -> has_message (redeliver_again d) = true /\ id_of (redeliver_again d) = id_of d.
Proof. unfold has_message, redeliver_again, map_message, id_of. cbn. destruct (MessageDispatch.message (body d)) as [[]|]; done. Qed.
Definition counter_of d : Z := match MessageDispatch.message (body d) with Some m => Message.redeliveryCounter m | None => 0 end.
Lemma getRedeliveryCounter_ok d : has_message d = true -> getRedeliveryCounter d = Ok (counter_of d) /\ counter_of (redeliver_again d) = counter_of d + 1.
Proof.
  unfold has_message, getRedeliveryCounter, getMessage, counter_of, redeliver_again, map_message. cbn.
  destruct (MessageDispatch.message (body d)) as [[]|]; done.
Qed.

(** ** rollback *)
(** [l] are the messages delivered, in their order, and [newest] the last of them. *)
Definition next_delay newest s n : Z :=
  if 0 <? counter_of newest then RedeliveryPolicy.getNextRedeliveryDelay (env_variance n) (redeliveryDelay s) (redeliveryPolicy s)
  else RedeliveryPolicy.initialRedeliveryDelay (redeliveryPolicy s).
Definition exceeded newest s : bool :=
  let max := RedeliveryPolicy.maximumRedeliveries (redeliveryPolicy s) in
  negb (max =? RedeliveryPolicy.NO_MAXIMUM_REDELIVERIES) && (max <? counter_of newest + 1).
Definition rolled l newest s n : ActiveMQConsumerKernel.t C :=
  set_deliveredMessages (map redeliver_again (rev l)) (set_redeliveryDelay (next_delay newest s n) s).
Definition finish_rollback newest oldest s1 : X (world C N) unit :=
  let lastMsg := redeliver_again newest in
  if exceeded newest s1 then
    let+ ack := xlift (Ack.of_dispatch lastMsg ACK_TYPE_POISON (zlen (deliveredMessages s1))) in
    sendAck (Ack.setPoisonCause (createBrokerError (poison_cause s1 lastMsg)) (Ack.setFirstMessageId (id_of oldest) ack)) true ;+
    modify (fun s => set_additionalWindowSize (Z.max 0 (additionalWindowSize s - zlen (deliveredMessages s))) s) ;+
    modify (set_redeliveryDelay 0) ;+ forget_delivered
  else
    when (0 <? counter_of newest)
      (let+ ack := xlift (Ack.of_dispatch lastMsg ACK_TYPE_REDELIVERED (zlen (deliveredMessages s1))) in
       sendAck (Ack.setFirstMessageId (id_of oldest) ack) false) ;+
    requeue.
Lemma bind_rollbackPrevious {A} (k : _ -> X (world C N) A) s e n : previouslyDeliveredMessages s = None ->
  xbind rollbackPreviouslyDeliveredAndNotRedelivered k (s, e, n) = k tt (s, e, n).
Proof. intros E. unfold rollbackPreviouslyDeliveredAndNotRedelivered. step. rewrite E. by step. Qed.
Lemma redeliver_starts {A} l newest oldest (k : _ -> X (world C N) A) s e n :
  deliveredMessages s = rev l -> Forall (fun d => has_message d = true) l -> newest ∈ l -> oldest ∈ l ->
  xbind (redeliver newest oldest) k (s, e, n) =
  xbind (finish_rollback newest oldest (rolled l newest s n)) k (rolled l newest s n, e, forgotten (map redeliver_again (rev l)) n).
Proof.
  intros Hl Hall Hn Ho. assert (Hf : forall d, d ∈ l -> has_message d = true) by (intros d Hd; revert d Hd; by apply list.Forall_forall). destruct (getRedeliveryCounter_ok newest (Hf _ Hn)) as [Hc1 Hc2].
  assert (Hc3 : getRedeliveryCounter (redeliver_again newest) = Ok (counter_of newest + 1)).
  { rewrite <- Hc2. apply getRedeliveryCounter_ok, redelivered_message. by apply Hf. }
  unfold redeliver. step. rewrite Hc1, bind_lift. step. rewrite getMessageId_ok by by apply Hf. rewrite bind_lift. step.
  rewrite Hc3. fold (next_delay newest s n).
  assert (Hl' : forall q, deliveredMessages (set_redeliveryDelay q s) = rev l) by (intros q; by destruct s). rewrite !Hl'.
  rewrite bind_forget by (by apply Forall_rev). step. unfold rolled, finish_rollback, exceeded.
  step. by rewrite !Hl'.
Qed.
(** A consumer that may roll back: no failover is being recovered, acknowledgements are
    not optimized, and there is no listener. *)
Definition may_roll_back s e : Prop :=
  calm s /\ optimizeAcknowledge s = false /\ listener s = false /\ ch_isClosed (unconsumedMessages s) = false /\ Session.registered e = true.
Lemma rollback_starts l newest oldest s e n :
  may_roll_back s e -> deliveredMessages s = rev l -> Forall (fun d => has_message d = true) l -> head l = Some oldest -> list.last l = Some newest ->
  rollback (s, e, n) = xbind (finish_rollback newest oldest (rolled l newest s n)) (fun _ => let+ s := self in when (listener s) redispatch)
    (rolled l newest s n, e, forgotten (map redeliver_again (rev l)) n).
Proof.
  intros ((Hc & Hp) & Ho & _) Hl Hf Hhead Hlast. unfold rollback. rewrite bind_clearDeliveredList by done. step. rewrite Ho. cbn [andb].
  rewrite bind_rollbackPrevious by done. step. rewrite Hl.
  destruct l as [|x l]; [done |]. injection Hhead as ->. pose proof Hlast as [l' E]%last_Some.
  assert (Hr : rev (oldest :: l) = newest :: rev l') by by rewrite E, rev_app_distr. assert (Hrl : list.last (newest :: rev l') = Some oldest) by (rewrite <- Hr; apply last_snoc).
  rewrite Hr, Hrl. rewrite (redeliver_starts (oldest :: l)); [by rewrite Hr | by rewrite Hl | done | | by left].
  rewrite E. apply list_elem_of_In, in_or_app. right. by left.
Qed.
Lemma bind_poison {A} a (k : _ -> X (world C N) A) s e n : xbind (sendAck a true) k (s, e, n) = k tt (s, e, snd (conn_oneway (DMessageAck a) n)).
Proof. unfold sendAck. rewrite bind_assoc, bind_session. cbn [orb]. by rewrite bind_oneway. Qed.
Lemma zlen_redelivered l : zlen (map redeliver_again (rev l)) = zlen l.
Proof. unfold zlen. by rewrite length_map, length_rev. Qed.

(** Messages that were delivered too often: rolling back sends the broker a single
    poison acknowledgement for all the messages delivered, with the reason; none is
    given back to the channel and the consumer holds none. *)
Theorem rollback_poisons l newest oldest s e n :
  may_roll_back s e -> deliveredMessages s = rev l -> Forall (fun d => has_message d = true) l ->
  head l = Some oldest -> list.last l = Some newest -> exceeded newest s = true ->
  exists s' n', rollback (s, e, n) = (Ok tt, (s', e, n')) /\
    sent n' = sent n ++ [DMessageAck (Ack.setPoisonCause (createBrokerError (poison_cause s newest)) (range_ack None ACK_TYPE_POISON oldest newest (zlen l)))] /\
    deliveredMessages s' = [] /\ unconsumedMessages s' = unconsumedMessages s /\ redeliveryDelay s' = 0 /\
    deliveredCounter s' = deliveredCounter s - zlen l.
Proof.
  intros Hr Hl Hf Hh Hla Hex. rewrite (rollback_starts l newest oldest) by done. destruct Hr as (_ & _ & Hlis & _).
  assert (Hnm : has_message newest = true). { apply last_Some in Hla as [l' ->]. apply Forall_app in Hf as [_ Hf%Forall_cons_iff]. apply Hf. }
  destruct (redelivered_message newest Hnm) as [Hm' Hid]. set (s1 := rolled l newest s n).
  assert (Hex1 : exceeded newest s1 = true) by (unfold s1; by destruct s). unfold finish_rollback. rewrite bind_if, Hex1, !bind_assoc.
  rewrite (of_dispatch_ok (redeliver_again newest)) by done. rewrite bind_lift, !bind_assoc, bind_poison. unfold forget_delivered. step.
  assert (Hlis1 : listener s1 = false) by (unfold s1; by destruct s).
  match goal with |- context [listener ?x] => replace (listener x) with false by (symmetry; exact Hlis1) end.
  eexists _, _. split; [done |]. rewrite sent_oneway, sent_forgotten. rewrite Hid.
  assert (Hz : zlen (deliveredMessages s1) = zlen l) by apply zlen_redelivered.
  refine (conj _ (conj _ (conj _ (conj _ _)))); [| done | done | done | ].
  - unfold range_ack. rewrite Hz. done.
  - etransitivity; [| rewrite <- Hz; done]. done.
Qed.
(** ** Redelivery by the consumer *)
Lemma finish_redelivers newest oldest s1 : exceeded newest s1 = false -> has_message newest = true ->
  forall {A} (k : _ -> X (world C N) A) e n, xbind (finish_rollback newest oldest s1) k (s1, e, n) =
  xbind requeue k (s1, e, if 0 <? counter_of newest then after_ack e (range_ack None ACK_TYPE_REDELIVERED oldest newest (zlen (deliveredMessages s1))) n else n).
Proof.
  intros Hex Hm A k e n. destruct (redelivered_message newest Hm) as [Hm' Hid].
  unfold finish_rollback. rewrite bind_if, Hex, bind_assoc, bind_when. case_match; [| done].
  rewrite (of_dispatch_ok (redeliver_again newest)), !bind_assoc, bind_lift, bind_sendAck by done. unfold range_ack. by rewrite Hid.
Qed.
Definition requeued s : ActiveMQConsumerKernel.t C :=
  set_unconsumedMessages (put_back (deliveredMessages s) (ch_stop (unconsumedMessages s)))
    (set_deliveredMessages [] (set_deliveredCounter (deliveredCounter s - zlen (deliveredMessages s)) s)).
Lemma requeue_ok {A} (k : _ -> X (world C N) A) s e n : nonBlockingRedelivery s = false -> Session.registered e = true ->
  ch_isClosed (put_back (deliveredMessages s) (ch_stop (unconsumedMessages s))) = false ->
  exists s' e' n', xbind requeue k (s, e, n) = k tt (s', e', n') /\ sent n' = sent n /\
    deliveredMessages s' = [] /\ deliveredCounter s' = deliveredCounter s - zlen (deliveredMessages s) /\ redeliveryDelay s' = redeliveryDelay s /\
    listener s' = listener s /\ Session.transactionId e' = Session.transactionId e /\
    let c := put_back (deliveredMessages s) (ch_stop (unconsumedMessages s)) in
    if 0 <? redeliveryDelay s
    then unconsumedMessages s' = c /\ Session.scheduled e' = Session.scheduled e ++ [(StartConsumerTask, redeliveryDelay s)]
    else unconsumedMessages s' = ch_start c /\ Session.scheduled e' = Session.scheduled e.
Proof.
  intros Hnb Hreg Hc. set (c := put_back _ _) in *. unfold requeue. rewrite bind_assoc, bind_self. cbv beta iota. rewrite Hnb, !bind_assoc, bind_onChannel.
  rewrite !bind_assoc, bind_put_back. unfold forget_delivered. step.
  assert (Hst : forall q, set_deliveredMessages [] (set_deliveredCounter q (set_unconsumedMessages (put_back (deliveredMessages s) (unconsumedMessages (set_unconsumedMessages (ch_stop (unconsumedMessages s)) s))) (set_unconsumedMessages (ch_stop (unconsumedMessages s)) s))) =
    set_deliveredMessages [] (set_deliveredCounter q (set_unconsumedMessages c s))) by done. rewrite Hst. clear Hst.
  set (s1 := set_deliveredMessages [] _).
  assert (Hd : redeliveryDelay s1 = redeliveryDelay s) by (unfold s1; by destruct s).
  assert (Hu : unconsumedMessages s1 = c) by (unfold s1; by destruct s).
  rewrite Hd. unfold isClosed. rewrite Hu, Hc, andb_true_r. destruct (0 <? redeliveryDelay s) eqn:Hpos.
  - unfold lookupConsumerKernel, schedule. step. rewrite Hreg. step. eexists _, _, _. split; [done |]. unfold s1. destruct s. by cbn.
  - unfold start, wakeup. step. unfold isClosed. rewrite Hu, Hc. step.
    match goal with |- context [if ?b then _ else _] => destruct b end; (eexists _, _, _; split; [done |]; unfold s1; rewrite ?sl_wakeup; destruct s; cbn; by auto 10).
Qed.

(** The messages [l] are in front of those of the first channel, for each priority. *)
Definition in_front l c c' : Prop :=
  forall p, filter (fun d => cl_rank d = p) (Spec.queue (cl_abs c')) =
    filter (fun d => cl_rank d = p) l ++ filter (fun d => cl_rank d = p) (Spec.queue (cl_abs c)).
Lemma rollback_puts_back l newest oldest s e n :
  may_roll_back s e -> nonBlockingRedelivery s = false -> cl_ok (unconsumedMessages s) ->
  deliveredMessages s = rev l -> Forall (fun d => has_message d = true) l ->
  head l = Some oldest -> list.last l = Some newest -> exceeded newest s = false ->
  exists s' e' n', rollback (s, e, n) = (Ok tt, (s', e', n')) /\
    sent n' = sent n ++ (if 0 <? counter_of newest then [DMessageAck (range_ack None ACK_TYPE_REDELIVERED oldest newest (zlen l))] else []) /\
    (deliveredMessages s' = [] /\ deliveredCounter s' = deliveredCounter s - zlen l /\ redeliveryDelay s' = next_delay newest s n) /\
    in_front (map redeliver_again l) (unconsumedMessages s) (unconsumedMessages s') /\
    Spec.running (cl_abs (unconsumedMessages s')) = negb (0 <? next_delay newest s n) /\
    Session.scheduled e' = Session.scheduled e ++ (if 0 <? next_delay newest s n then [(StartConsumerTask, next_delay newest s n)] else []) /\
    Session.transactionId e' = Session.transactionId e.
Proof.
  intros Hr Hnb Hok Hl Hf Hh Hla Hex. rewrite (rollback_starts l newest oldest) by done. destruct Hr as (_ & _ & Hlis & Hc & Hreg).
  assert (Hnm : has_message newest = true). { apply last_Some in Hla as [l' ->]. apply Forall_app in Hf as [_ Hf%Forall_cons_iff]. apply Hf. }
  set (s1 := rolled l newest s n). assert (Hex1 : exceeded newest s1 = false) by (unfold s1; by destruct s).
  rewrite finish_redelivers by done. set (n1 := if 0 <? counter_of newest then _ else _).
  assert (Hz : zlen (deliveredMessages s1) = zlen l) by apply zlen_redelivered.
  assert (Hdel : deliveredMessages s1 = map redeliver_again (rev l)) by done.
  assert (Hu : unconsumedMessages s1 = unconsumedMessages s) by done.
  destruct (cl_switch _ Hok) as (Hok1 & Hok2 & _ & _ & Habs2 & _).
  destruct (put_back_ok (deliveredMessages s1) _ Hok2) as (Hok3 & Hc3 & Hr3 & Hq3).
  destruct (cl_observers _ Hok3) as (Hcl & Hrn & _). destruct (cl_observers _ Hok) as (Hcl0 & _).
  assert (Hc' : ch_isClosed (put_back (deliveredMessages s1) (ch_stop (unconsumedMessages s1))) = false).
  { rewrite Hu, Hcl, Hc3, Habs2. exact Hc. }
  destruct (requeue_ok (fun _ => let+ s := self in when (listener s) redispatch) s1 e n1 ltac:(unfold s1; by destruct s) Hreg Hc')
    as (s' & e' & n' & E & Hn' & Hd' & Hcnt & Hdelay & Hlis' & Htx & Hrest).
  exists s', e', n'. rewrite E. step. rewrite Hlis'. replace (listener s1) with false by (unfold s1; by destruct s). split; [done |].
  assert (Hdl : redeliveryDelay s1 = next_delay newest s n) by done. rewrite Hdl in *. rewrite Hz, Hn' in *.
  destruct (cl_switch _ Hok3) as (_ & _ & _ & Hstart & _).
  assert (Hq : Spec.queue (cl_abs (unconsumedMessages s')) = Spec.queue (cl_abs (put_back (deliveredMessages s1) (ch_stop (unconsumedMessages s)))) /\
    Spec.running (cl_abs (unconsumedMessages s')) = negb (0 <? next_delay newest s n)).
  { cbv zeta in Hrest. rewrite Hu in *. destruct (0 <? next_delay newest s n).
    - destruct Hrest as [-> _]. rewrite Hr3, Habs2. done.
    - destruct Hrest as [-> _]. rewrite Hstart, Hc'. done. }
  destruct Hq as [Hq Hrun]. split_and!; try done.
  - unfold n1. destruct (0 <? counter_of newest); [rewrite sent_ack, sent_forgotten, Hz; done | by rewrite sent_forgotten, app_nil_r].
  - intros p. rewrite Hq, Hq3, Hdel, Habs2, map_rev, rev_involutive. done.
  - cbv zeta in Hrest. case_match; [apply Hrest | rewrite app_nil_r; apply Hrest].
Qed.

(** C24. Rolling back messages that may be delivered again, in a consumer that is not
    closed, has no listener and no non-blocking redelivery, when the last one was not
    delivered more often than the policy allows: their counters are one higher, they are in
    front of the waiting messages in the order they were delivered in (within each
    priority), the broker is told if the last one was redelivered before, and the channel
    runs again at once or is to be started when the redelivery delay is over. *)
Theorem rollback_redelivers l newest oldest s e n :
  may_roll_back s e -> nonBlockingRedelivery s = false -> cl_ok (unconsumedMessages s) ->
  deliveredMessages s = rev l -> Forall (fun d => has_message d = true) l ->
  head l = Some oldest -> list.last l = Some newest -> exceeded newest s = false ->
  exists s' e' n', rollback (s, e, n) = (Ok tt, (s', e', n')) /\
    sent n' = sent n ++ (if 0 <? counter_of newest then [DMessageAck (range_ack None ACK_TYPE_REDELIVERED oldest newest (zlen l))] else []) /\
    deliveredMessages s' = [] /\ in_front (map redeliver_again l) (unconsumedMessages s) (unconsumedMessages s') /\
    Spec.running (cl_abs (unconsumedMessages s')) = negb (0 <? next_delay newest s n) /\
    Session.scheduled e' = Session.scheduled e ++ if 0 <? next_delay newest s n then [(StartConsumerTask, next_delay newest s n)] else [].
Proof.
  intros H1' H2' H3' H4' H5' H6' H7' H8'. destruct (rollback_puts_back l newest oldest s e n) as (s' & e' & n' & E & Hn & (Hd & _) & Hq & Hr & Hs & _); try done.
  by exists s', e', n'.
Qed.

(** ** Local transactions *)
Definition next_tx e : TransactionId.t := TransactionId.LocalTransactionId (LocalTransactionId.mk (Session.nextLocalTransactionId e) (Session.connectionId e)).
Definition begun e : Session.t C :=
  Session.set_synchronizations [TransactionSynchronization]
    (Session.set_transactionId (Some (next_tx e)) (Session.set_nextLocalTransactionId (Session.nextLocalTransactionId e + 1) e)).
Definition info_of e (type : Z) : DataStructure := DTransactionInfo (TransactionInfo.mk BaseCommand.default (Session.connectionId e) (Some (next_tx e)) type).
Definition transacted s e : Prop :=
  Session.ackMode e = SESSION_TRANSACTED /\ Session.transactionId e = None /\ Session.synchronizations e = [] /\ Session.registered e = true /\
  synchronizationRegistered s = false /\ transactedIndividualAck s = false.

Lemma transacted_flags s e : transacted s e ->
  Session.isTransacted e = true /\ Session.isInXATransaction e = false /\ Session.isInTransaction e = false /\
  Session.isTransacted (begun e) = true /\ Session.isInXATransaction (begun e) = false /\ Session.isInTransaction (begun e) = true /\
  tx_of (begun e) = Some (next_tx e).
Proof.
  intros (Hm & Ht & _). unfold tx_of, Session.isTransacted, Session.isInXATransaction, Session.isInTransaction. rewrite Ht.
  assert (Hm' : Session.ackMode (begun e) = SESSION_TRANSACTED) by done. rewrite Hm, Hm'. done.
Qed.
Lemma registerSync_begins {A} (k : unit -> X (world C N) A) s e n : transacted s e ->
  xbind registerSync k (s, e, n) = k tt (set_synchronizationRegistered true s, begun e, snd (conn_oneway (info_of e TRANSACTION_STATE_BEGIN) n)).
Proof.
  intros Htr. destruct (transacted_flags s e Htr) as (Hf1 & Hf2 & Hf3 & _). destruct Htr as (_ & _ & Hsy & Hreg & Hs & _).
  assert (E : doStartTransaction (s, e, n) = (Ok tt, (s, Session.set_synchronizations [] (begun e), snd (conn_oneway (info_of e TRANSACTION_STATE_BEGIN) n)))).
  { unfold doStartTransaction. step. rewrite Hf1, Hf2. cbn [andb negb]. unfold begin. apply xcatch_ok. step. rewrite Hf2, Hf3. cbv zeta. step. by destruct e. }
  unfold registerSync. rewrite bind_assoc, (xbind_ok _ _ _ _ _ E). step. rewrite Hs. unfold lookupConsumerKernel, addSynchronization. step.
  assert (Hreg' : Session.registered (Session.set_synchronizations [] (begun e)) = true) by done. rewrite Hreg'. step. done.
Qed.
Lemma ackLater_begins d ty s e n : transacted s e ->
  ackLater d ty (s, e, n) = ackLater d ty (set_synchronizationRegistered true s, begun e, snd (conn_oneway (info_of e TRANSACTION_STATE_BEGIN) n)).
Proof.
  intros Htr. destruct (transacted_flags s e Htr) as (Hf1 & _ & _ & Hf4 & _ & Hf6 & _). unfold ackLater. rewrite !bind_session.
  rewrite (bind_registerSync _ (set_synchronizationRegistered true s)) by (intros _; split; [exact Hf6 | by destruct s]). rewrite bind_when, Hf1. by rewrite registerSync_begins.
Qed.
Lemma bind_same {S A B} (m : X S A) (k : A -> X S B) w w' : m w = m w' -> xbind m k w = xbind m k w'.
Proof. unfold xbind. by intros ->. Qed.
Lemma batch_transacted s e n : Session.ackMode e = SESSION_TRANSACTED -> isAutoAcknowledgeBatch (s, e, n) = (Ok false, (s, e, n)).
Proof. intros Hm. unfold isAutoAcknowledgeBatch, Session.isDupsOkAcknowledge. rewrite bind_session, Hm. done. Qed.
Lemma before_transacted d s e n : Session.ackMode e = SESSION_TRANSACTED -> transactedIndividualAck s = false -> has_id d = true ->
  beforeMessageIsConsumed d (s, e, n) = ackLater d ACK_TYPE_DELIVERED (handed_over false d s, e, n).
Proof.
  intros Hm Hi Hd. unfold beforeMessageIsConsumed. rewrite getMessageId_ok by by apply has_id_message.
  destruct (follow_id d Hd) as (i & Hf & Hq). rewrite bind_lift, Hf. step. rewrite (xbind_ok _ _ _ _ _ (batch_transacted _ e n Hm)). step. rewrite Hq.
  assert (Ht : Session.isTransacted e = true) by (unfold Session.isTransacted; by rewrite Hm). rewrite Ht.
  destruct s. revert Hi. unfold handed_over. flat. by intros ->.
Qed.
Lemma consume_begins d s e n : transacted s e -> has_id d = true ->
  consume (Some d) (s, e, n) =
  consume (Some d) (set_synchronizationRegistered true s, begun e, snd (conn_oneway (info_of e TRANSACTION_STATE_BEGIN) n)).
Proof.
  intros Htr Hid. pose proof Htr as (Hm & _ & _ & _ & _ & Hi). unfold consume. apply bind_same.
  rewrite (before_transacted d s), (before_transacted d (set_synchronizationRegistered true s)); [| exact Hm | by destruct s | done | done | done | done].
  rewrite ackLater_begins; [by destruct s |]. by destruct s.
Qed.
Definition held l s : ActiveMQConsumerKernel.t C := set_deliveredMessages (rev l) (set_lastDeliveredSequenceId (last_sequence l s) s).
Definition in_windows (p : Z) (ws : list (list Dispatch)) (rest l : list Dispatch) : Prop :=
  concat ws ++ rest = l /\ Forall (fun w => length w = window p) ws /\ (length rest < window p)%nat.
Lemma windows_in p l : let '(ws, rest) := windows (window p) [] l in in_windows p ws rest l.
Proof. pose proof (windows_spec (window p) l [] (window_pos p)) as Hw. by destruct (windows _ [] l). Qed.

(** The messages are received and the transaction is about to end. *)
Lemma until_end sleeps l s e n : transacted s e -> fresh s e -> l <> [] -> Forall (fun d => has_id d = true) l ->
  exists ws rest n1 n2 s1,
    consume_all l (s, e, n) = (Ok tt, (s1, begun e, n1)) /\ tx_beforeEnd sleeps (s1, begun e, n1) = (Ok tt, (held l s, begun e, n2)) /\
    sent n2 = sent n ++ [info_of e TRANSACTION_STATE_BEGIN] ++ batch_acks (Some (next_tx e)) ACK_TYPE_DELIVERED ws ++ batch_acks (Some (next_tx e)) ACK_TYPE_CONSUMED [l] /\
    in_windows (getPrefetchSize s) ws rest l.
Proof.
  intros Htr Hf Hne Hl. destruct (transacted_flags s e Htr) as (_ & _ & _ & Hf4 & Hf5 & Hf6 & Hf7).
  pose proof Hf as (Hcalm & (Ho1 & Ho2 & Ho3 & _) & Hdel & _). pose proof Htr as (Hm & _ & _ & _ & _ & Hi).
  set (s0 := set_synchronizationRegistered true s). set (n0 := snd (conn_oneway (info_of e TRANSACTION_STATE_BEGIN) n)).
  assert (Hstart : consume_all l (s, e, n) = consume_all l (s0, begun e, n0)).
  { destruct l as [|d l]; [done |]. apply Forall_cons_iff in Hl as [Hd _]. unfold consume_all. cbn [xfor]. rewrite !bind_assoc.
    apply bind_same. by apply consume_begins. }
  assert (Ho : open s0 (begun e)) by (split_and!; unfold s0; by destruct s).
  assert (Hs : settled s0 (begun e)) by (intros _; split; [done | by destruct s]).
  assert (Hf0 : fresh s0 (begun e)) by (split_and!; [by destruct s, Hcalm | by destruct s, Hcalm | apply Ho .. | |  |]; destruct s; by apply Hf).
  assert (Hmode : later_mode s0 (begun e) = Some (ACK_TYPE_DELIVERED, false)).
  { unfold later_mode. replace (Session.ackMode (begun e)) with SESSION_TRANSACTED by done. replace (transactedIndividualAck s0) with false by (by destruct s). done. }
  pose proof (consume_all_ok ACK_TYPE_DELIVERED false l (begun e) [] s0 n0 Hmode Ho Hs Hl) as Hall.
  replace (getPrefetchSize s0) with (getPrefetchSize s) in Hall by by destruct s.
  pose proof (windows_in (getPrefetchSize s) l) as Hws. destruct (windows _ [] l) as [ws rest]. destruct Hall as (n1 & E1 & Hn1).
  rewrite Hf7, <- (fresh_pending _ _ s0 (begun e) Hf0) in E1.
  destruct (acknowledge_ok sleeps ACK_TYPE_DELIVERED rest l (handed_all false l s0) (begun e) n1) as (n2 & E2 & Hn2);
    [rewrite handed_all_eq; by destruct s .. | rewrite handed_all_eq; unfold s0; destruct s; cbn in Hdel |- *; by rewrite Hdel, app_nil_r | done | | |].
  { revert Hl. apply Forall_impl. intros d. apply has_id_message. }
  { destruct Hws as (<- & _). rewrite length_app. lia. }
  exists ws, rest, n1, n2, (with_pending (Some (next_tx e)) ACK_TYPE_DELIVERED rest (handed_all false l s0)).
  refine (conj _ (conj _ (conj _ Hws))); [by rewrite Hstart | |].
  - unfold tx_beforeEnd. rewrite bind_session. replace (Session.synchronizations (begun e)) with [TransactionSynchronization] by done.
    cbn [xfor sync_beforeEnd]. rewrite !bind_assoc, bind_self. cbv beta.
    replace (transactedIndividualAck _) with false by (rewrite handed_all_eq; by destruct s). cbv iota. rewrite Hf7 in E2.
    rewrite !bind_assoc, (xbind_ok _ _ _ _ _ E2). step. rewrite handed_all_eq. unfold settle, held. rewrite Hf4.
    destruct Hf as (_ & _ & _ & Hp & Hc). destruct Htr as (_ & _ & _ & _ & Hsy & _). unfold s0. clear -Hp Hc Hsy. destruct s. revert Hp Hc Hsy. cbn. by intros -> -> ->.
  - rewrite Hn2, Hn1, Hf7. unfold n0. rewrite sent_oneway. by rewrite <- !app_assoc.
Qed.
Lemma catch_cms_ok p (m : X (world C N) unit) h w w' : m w = (Ok tt, w') -> catch_cms p m h w = (Ok tt, w').
Proof. intros E. unfold catch_cms. by rewrite E. Qed.
Lemma finally_ok (m fin : X (world C N) unit) w w' w'' r : m w = (Ok tt, w') -> fin w' = (r, w'') -> finally m fin w = (Ok tt, w'').
Proof. intros E E'. unfold finally. by rewrite E, E'. Qed.
Lemma fresh_settings l s e : fresh s e -> synchronizationRegistered s = false ->
  set_synchronizationRegistered false (set_redeliveryDelay 0 (set_previouslyDeliveredMessages None (set_deliveredMessages [] (held l s)))) =
  set_redeliveryDelay 0 (set_lastDeliveredSequenceId (last_sequence l s) s).
Proof.
  intros ([_ Hp] & _ & Hd & _) Hs. unfold held. clear -Hp Hd Hs. destruct s. revert Hp Hd Hs. cbn. by intros -> -> ->.
Qed.
(** The session when the transaction is over. *)
Definition ended e : Session.t C := Session.set_nextLocalTransactionId (Session.nextLocalTransactionId e + 1) e.
Lemma ended_session s e : transacted s e -> Session.set_synchronizations [] (Session.set_transactionId None (begun e)) = ended e.
Proof. intros (_ & Ht & Hsy & _). unfold begun, ended. clear -Ht Hsy. destruct e. cbn in *. by subst. Qed.

(** C21. A local transaction that is committed: the broker hears of its begin, of the
    messages as they are received, that all of them are consumed in the transaction, and
    of the commit, in this order and with the transaction's id; the consumer has no
    message left and the session no transaction. *)
Theorem commit_consumes sleeps l s e n :
  transacted s e -> fresh s e -> l <> [] -> Forall (fun d => has_id d = true) l ->
  exists ws rest n', (consume_all l ;+ tx_commit sleeps) (s, e, n) =
      (Ok tt, (set_redeliveryDelay 0 (set_lastDeliveredSequenceId (last_sequence l s) s), ended e, n')) /\
    sent n' = sent n ++ [info_of e TRANSACTION_STATE_BEGIN] ++ batch_acks (Some (next_tx e)) ACK_TYPE_DELIVERED ws ++
      batch_acks (Some (next_tx e)) ACK_TYPE_CONSUMED [l] ++ [info_of e TRANSACTION_STATE_COMMITONEPHASE] /\
    in_windows (getPrefetchSize s) ws rest l.
Proof.
  intros Htr Hf Hne Hl. destruct (until_end sleeps l s e n Htr Hf Hne Hl) as (ws & rest & n1 & n2 & s1 & E1 & E2 & Hn2 & Hw).
  destruct (transacted_flags s e Htr) as (_ & _ & _ & _ & Hf5 & Hf6 & _).
  exists ws, rest, (snd (conn_syncRequest (info_of e TRANSACTION_STATE_COMMITONEPHASE) n2)).
  refine (conj _ (conj _ Hw)); [| rewrite sent_syncRequest, Hn2; by rewrite <- !app_assoc].
  rewrite (xbind_ok _ _ _ _ _ E1). unfold tx_commit. apply xcatch_ok. rewrite bind_session, Hf5.
  rewrite (xbind_ok _ _ _ _ _ (catch_cms_ok _ _ _ _ _ E2)), bind_session, Hf6. cbn [when]. rewrite bind_modify_session.
  apply catch_cms_ok. replace (transaction_info (begun e) TRANSACTION_STATE_COMMITONEPHASE) with (info_of e TRANSACTION_STATE_COMMITONEPHASE) by done.
  rewrite bind_syncRequest. unfold tx_afterCommit. eapply finally_ok.
  - rewrite bind_session. replace (Session.synchronizations _) with [TransactionSynchronization] by done. cbn [xfor sync_afterCommit]. unfold commit, clearPreviouslyDelivered. by step.
  - rewrite modify_session_eq, <- (ended_session s e Htr), <- (fresh_settings l s e Hf) by apply Htr. done.
Qed.

(** C23. A local transaction that is rolled back by a consumer that is not closed, has no
    listener and no non-blocking redelivery, in a session that does not optimize
    acknowledgements, when the messages were not delivered more often than the policy
    allows: the broker hears of the begin, of the messages, of the roll back and, if they
    were redelivered before, of the redelivery; the messages are in front of the
    consumer's channel again, those of each priority in their order, with their counters
    one higher, and the session has no transaction. *)
Theorem transaction_rolls_back sleeps l newest oldest s e n :
  transacted s e -> fresh s e -> l <> [] -> Forall (fun d => has_id d = true) l ->
  may_roll_back s e -> nonBlockingRedelivery s = false -> cl_ok (unconsumedMessages s) ->
  head l = Some oldest -> list.last l = Some newest -> exceeded newest s = false ->
  exists ws rest s' e' n', (consume_all l ;+ tx_rollback sleeps) (s, e, n) = (Ok tt, (s', e', n')) /\
    sent n' = sent n ++ [info_of e TRANSACTION_STATE_BEGIN] ++ batch_acks (Some (next_tx e)) ACK_TYPE_DELIVERED ws ++
      batch_acks (Some (next_tx e)) ACK_TYPE_CONSUMED [l] ++ [info_of e TRANSACTION_STATE_ROLLBACK] ++
      (if 0 <? counter_of newest then [DMessageAck (range_ack None ACK_TYPE_REDELIVERED oldest newest (zlen l))] else []) /\
    in_windows (getPrefetchSize s) ws rest l /\
    deliveredMessages s' = [] /\ Session.transactionId e' = None /\ synchronizationRegistered s' = false /\
    in_front (map redeliver_again l) (unconsumedMessages s) (unconsumedMessages s').
Proof.
  intros Htr Hf Hne Hl Hr Hnb Hok Hh Hla Hex. destruct (until_end sleeps l s e n Htr Hf Hne Hl) as (ws & rest & n1 & n2 & s1 & E1 & E2 & Hn2 & Hw).
  destruct (transacted_flags s e Htr) as (_ & _ & _ & _ & Hf5 & Hf6 & _).
  set (n3 := snd (conn_syncRequest (info_of e TRANSACTION_STATE_ROLLBACK) n2)). set (e3 := Session.set_transactionId None (begun e)).
  assert (Hm : Forall (fun d => has_message d = true) l) by (revert Hl; apply Forall_impl; intros d; apply has_id_message).
  destruct (rollback_puts_back l newest oldest (held l s) e3 n3) as (s' & e' & n' & E3 & Hn' & (Hd' & _) & Hq & _ & _ & Htx);
    [by destruct s | by destruct s | by destruct s | by destruct s | done | done | done | by destruct s |].
  exists ws, rest, (set_synchronizationRegistered false s'), (Session.set_synchronizations [] e'), n'.
  refine (conj _ (conj _ (conj Hw (conj Hd' (conj Htx (conj eq_refl Hq)))))).
  - rewrite (xbind_ok _ _ _ _ _ E1). unfold tx_rollback. apply xcatch_ok. rewrite bind_session, Hf5.
    rewrite (xbind_ok _ _ _ _ _ (catch_cms_ok _ _ _ _ _ E2)), bind_session, Hf6. cbn [when]. rewrite bind_modify_session.
    replace (transaction_info (begun e) TRANSACTION_STATE_ROLLBACK) with (info_of e TRANSACTION_STATE_ROLLBACK) by done.
    rewrite bind_syncRequest. fold e3 n3. unfold tx_afterRollback. eapply finally_ok.
    + rewrite bind_session. replace (Session.synchronizations e3) with [TransactionSynchronization] by done. cbn [xfor sync_afterRollback].
      rewrite !bind_assoc, (xbind_ok _ _ _ _ _ E3). by step.
    + done.
  - rewrite Hn'. unfold n3. rewrite sent_syncRequest, Hn2. by rewrite <- !app_assoc.
Qed.
End Redelivery.

(** ** Witnesses *)
Import Sample.
#[local] Abbreviation fifo := FifoMessageDispatchChannel.t.
Definition two (count : Z) : list Dispatch := [dispatch_of 1 count; dispatch_of 2 count].
Definition holding (l : list Dispatch) : ActiveMQConsumerKernel.t fifo := set_deliveredMessages (rev l) (consumer [dispatch_of 3 0]).

Lemma rollback_poisons_witness : exists s' n', rollback (holding (two 6), session_in CLIENT_ACKNOWLEDGE, silent) = (Ok tt, (s', session_in CLIENT_ACKNOWLEDGE, n')) /\
  length (heard n') = 1%nat /\ deliveredMessages s' = [].
Proof.
  destruct (rollback_poisons (C := fifo) (two 6) (dispatch_of 2 6) (dispatch_of 1 6) (holding (two 6)) (session_in CLIENT_ACKNOWLEDGE) silent)
    as (s' & n' & H1 & H2 & H3 & _); [by repeat split | done | by repeat constructor | done | done | done |].
  exists s', n'. split; [exact H1 | split; [|exact H3]]. change (sent n') with (heard n') in H2. by rewrite H2.
Defined.
Lemma rollback_redelivers_witness : exists s' e' n', rollback (holding (two 1), session_in CLIENT_ACKNOWLEDGE, silent) = (Ok tt, (s', e', n')) /\
  heard n' = [DMessageAck (range_ack None ACK_TYPE_REDELIVERED (dispatch_of 1 1) (dispatch_of 2 1) 2)] /\ deliveredMessages s' = [] /\
  Session.scheduled e' = [(StartConsumerTask, 1000)].
Proof.
  destruct (rollback_redelivers (C := fifo) (two 1) (dispatch_of 2 1) (dispatch_of 1 1) (holding (two 1)) (session_in CLIENT_ACKNOWLEDGE) silent)
    as (s' & e' & n' & H1 & H2 & H3 & _ & _ & H6); [by repeat split | done | done | done | by repeat constructor | done | done | done |].
  exists s', e', n'. split; [exact H1 | split; [exact H2 | split; [exact H3 | exact H6]]].
Defined.
Lemma sample_transacted : transacted (consumer []) (session_in SESSION_TRANSACTED). Proof. by repeat split. Qed.
Lemma sample_fresh m : fresh (consumer []) (session_in m). Proof. by repeat split. Qed.
Lemma commit_consumes_witness : exists ws rest n', (consume_all three ;+ tx_commit []) (consumer [], session_in SESSION_TRANSACTED, silent) =
    (Ok tt, (set_redeliveryDelay 0 (set_lastDeliveredSequenceId 3 (consumer [])), ended (session_in SESSION_TRANSACTED), n')) /\
  in_windows 4 ws rest three.
Proof.
  destruct (commit_consumes (C := fifo) [] three (consumer []) (session_in SESSION_TRANSACTED) silent) as (ws & rest & n' & H1 & _ & H3);
    [apply sample_transacted | apply sample_fresh | done | by repeat constructor |].
  exists ws, rest, n'. split; [exact H1 | exact H3].
Defined.
Lemma transaction_rolls_back_witness : exists s' e' n', (consume_all three ;+ tx_rollback []) (consumer [], session_in SESSION_TRANSACTED, silent) = (Ok tt, (s', e', n')) /\
  Session.transactionId e' = None /\ deliveredMessages s' = [].
Proof.
  destruct (transaction_rolls_back (C := fifo) [] three (dispatch_of 3 0) (dispatch_of 1 0) (consumer []) (session_in SESSION_TRANSACTED) silent)
    as (ws & rest & s' & e' & n' & H1 & _ & _ & H4 & H5 & _);
    [apply sample_transacted | apply sample_fresh | done | by repeat constructor | by repeat split | done | done | done | done | done |].
  exists s', e', n'. split; [exact H1 | split; [exact H5 | exact H4]].
Defined.
