(* ===== verification/ConsumerDeviations.v ===== *)
(** * Deliveries that go wrong

    Three behaviours of consumers that the theorems below describe as the code has
    them: a listener that is set when messages are waiting, the recovery of a
    transaction after a failover, and the options of a destination. *)

From stdpp Require Import pretty.
From S2P Require Import Prelude BaseMarshaller Commands StateTracker DispatchChannels MessageAudit Consumer ConsumerLaws ConsumerFacts.
Import ActiveMQConsumerKernel.

(** ** The audit of the connection *)
(** A message is a duplicate once it was asked for, until it is rolled back. *)
Class AuditLaws (N : Type) `{SurroundingsLaws N} := {
  seen : Dispatch -> N -> bool;
  given : N -> nat;
  al_isDuplicate d n : fst (conn_isDuplicate d n) = Ok (seen d n) /\ seen d (snd (conn_isDuplicate d n)) = true /\
    sent (snd (conn_isDuplicate d n)) = sent n /\ given (snd (conn_isDuplicate d n)) = given n;
  al_wakeup d n : seen d (session_wakeup n) = seen d n /\ given (session_wakeup n) = given n;
  al_send c n : given (snd (conn_oneway c n)) = given n /\ given (snd (conn_syncRequest c n)) = given n
}.

Section Late.
Context {N : Type} `{AuditLaws N}.
Abbreviation channel := FifoMessageDispatchChannel.t.
Implicit Types (s : ActiveMQConsumerKernel.t channel) (e : Session.t channel) (n : N) (d : Dispatch).
#[local] Hint Rewrite (fun A => bind_sendAck (C:=channel) (N:=N) (A:=A)) (sendAck_ok (C:=channel) (N:=N)) : consumer.

Lemma bind_isDuplicate {A} d (k : bool -> X (world channel N) A) s e n :
  xbind (isDuplicate d) k (s, e, n) = k (seen d n) (s, e, snd (conn_isDuplicate d n)).
Proof. unfold isDuplicate, surround, xbind. destruct (al_isDuplicate d n) as [E _], (conn_isDuplicate d n). cbn in E. by subst. Qed.

(** A started consumer without a listener, in a session whose thread dispatches. *)
Definition waiting_consumer s e : Prop :=
  calm s /\ listener s = false /\ messageAvailableListener s = false /\ inProgressClearRequiredFlag s = 0 /\
  unconsumedMessages s = FifoMessageDispatchChannel.mk false true [] /\ isBrowser s = false /\ getPrefetchSize s <> 0 /\
  Session.isTransacted e = false /\ Session.registered e = true /\ Session.sessionAsyncDispatch e = true /\
  Session.messageQueue e = FifoMessageDispatchChannel.mk false true [].
Lemma bind_clearInProgress {A} (k : unit -> X (world channel N) A) s e n : inProgressClearRequiredFlag s = 0 ->
  xbind clearMessagesInProgress k (s, e, n) = k tt (s, e, n).
Proof. intros E. unfold clearMessagesInProgress. step. by rewrite E. Qed.
Definition count_dispatch s := set_dispatchedCount (if (dispatchedCount s + 1) mod 1000 =? 0 then 0 else dispatchedCount s + 1) s.

(** The message waits in the channel. *)
Lemma dispatch_waits d s e n : waiting_consumer s e -> seen d n = false ->
  dispatch 0 d (s, e, n) = (Ok tt, (count_dispatch (set_unconsumedMessages (FifoMessageDispatchChannel.mk false true [d]) s), e, snd (conn_isDuplicate d n))).
Proof.
  intros ((Hcl & _) & Hli & Hma & Hip & Hu & Hb & _) Hs. unfold dispatch. apply xcatch_ok.
  rewrite bind_clearInProgress by done. cbv beta. rewrite bind_clearDeliveredList by done. step. unfold isClosed. rewrite Hu. cbn [ch_isClosed FifoMessageDispatchChannel.interface FifoMessageDispatchChannel.closed].
  step. rewrite Hb. step. rewrite bind_isDuplicate, Hs. cbn [negb]. step. rewrite Hli. cbn [andb]. step. rewrite Hu. 
  match goal with |- context [messageAvailableListener ?x] => replace (messageAvailableListener x) with false by (by destruct s) end. done.
Qed.
(** A session that is stopped and started wakes its thread. *)
Lemma set_listener_redispatches d s e n : waiting_consumer s e ->
  exists s' e' n', setMessageListener true (set_unconsumedMessages (FifoMessageDispatchChannel.mk false true [d]) s, e, n) = (Ok tt, (s', e', n')) /\
    (exists st, s' = set_started st (set_listener true s)) /\ e' = Session.set_messageQueue (FifoMessageDispatchChannel.mk false true [d]) e /\
    (sent n' = sent n /\ given n' = given n /\ forall x, seen x n' = seen x n).
Proof.
  intros (_ & Hli & _ & _ & Hu & _ & Hp & _ & Hreg & Has & Hq).
  apply Z.eqb_neq in Hp. unfold getPrefetchSize in Hp. destruct e, s. cbn in Hreg, Has, Hq, Hli, Hu, Hp. subst. eexists _, _, _. split.
  { unfold setMessageListener, getPrefetchSize. apply xcatch_ok. cbv -[Z.eqb session_wakeup ConsumerInfo.prefetchSize]. rewrite Hp. reflexivity. }
  split; [by eexists |]. split; [done |]. split; [apply sl_wakeup | split; [by apply (al_wakeup d) | intros x; by apply al_wakeup]].
Qed.
Definition poison_ack d (cause : list Z) : MessageAck.t := Ack.setPoisonCause (createBrokerError cause) (range_ack None ACK_TYPE_POISON d d 1).
Lemma bind_posionAck {A} d cause (k : unit -> X (world channel N) A) s e n : has_message d = true ->
  xbind (posionAck d cause) k (s, e, n) = k tt (s, e, after_ack e (poison_ack d cause) n).
Proof.
  intros Hm. unfold posionAck. rewrite (of_dispatch_ok d), getMessageId_ok by done. step. done.
Qed.
Definition suppressed s : list Z :=
  str "Suppressing duplicate delivery on connection, consumer " ++ match ConsumerInfo.consumerId (info s) with Some i => ConsumerId_toString i | None => [] end.
(** A message the audit has seen is not delivered again, outside a transaction. *)
Lemma duplicate_poisoned d s e n : calm s -> inProgressClearRequiredFlag s = 0 -> isClosed s = false -> isBrowser s = false -> Session.isTransacted e = false ->
  has_message d = true -> seen d n = true -> (forall n, redeliveryPendingInCompetingTransaction d (conn_consumers n) = false) ->
  dispatch 0 d (s, e, n) = (Ok tt, (count_dispatch s, e, after_ack e (poison_ack d (suppressed s)) (snd (conn_isDuplicate d n)))).
Proof.
  intros [Hcl Hpd] Hip Hc Hb Ht Hm Hs Hcomp. unfold dispatch. apply xcatch_ok.
  rewrite bind_clearInProgress by done. cbv beta. rewrite bind_clearDeliveredList by done. step. rewrite Hc. step. rewrite Hb. step.
  rewrite bind_isDuplicate, Hs. cbn [negb]. unfold redeliveryExpectedInCurrentTransaction. step. rewrite Ht. step. rewrite Hcomp. step.
  rewrite bind_posionAck by done. by step.
Qed.

(** A listener that is set while a message waits: the message was audited when the
    broker dispatched it and the redispatch does not roll it back, so that it counts
    as a duplicate; it is acknowledged as poison and never handed to the listener. *)
Theorem late_listener_poisons d s e n :
  waiting_consumer s e -> has_message d = true -> seen d n = false ->
  ConsumerId_equals (ConsumerInfo.consumerId (info s)) (MessageDispatch.consumerId (body d)) = true ->
  (forall n, redeliveryPendingInCompetingTransaction d (conn_consumers n) = false) ->
  exists s' e' n', (dispatch 0 d ;+ setMessageListener true ;+ executor_iterate 0) (s, e, n) = (Ok false, (s', e', n')) /\
    sent n' = sent n ++ [DMessageAck (poison_ack d (suppressed s))] /\ given n' = given n /\
    FifoMessageDispatchChannel.channel (unconsumedMessages s') = [] /\ FifoMessageDispatchChannel.channel (Session.messageQueue e') = [].
Proof.
  intros Hw Hm Hs Hid Hcomp. set (n1 := snd (conn_isDuplicate d n)). destruct (al_isDuplicate d n) as (_ & Hn1 & Hn2 & Hn3). fold n1 in Hn1, Hn2, Hn3.
  assert (Hw' : waiting_consumer (count_dispatch s) e) by by destruct s.
  destruct (set_listener_redispatches d (count_dispatch s) e n1 Hw') as (s2 & e2 & n2 & E2 & (st & ->) & -> & Hn4 & Hn5 & Hn6).
  pose proof Hw as ([Hcl Hpd] & _ & _ & Hip & Hu & Hb & _ & Ht & Hreg & _ & Hq).
  set (s2 := set_started st (set_listener true (count_dispatch s))) in *.
  set (s3 := set_unconsumedMessages (FifoMessageDispatchChannel.mk false true []) s2).
  set (e3 := Session.set_messageQueue (FifoMessageDispatchChannel.mk false true []) (Session.set_messageQueue (FifoMessageDispatchChannel.mk false true [d]) e)).
  assert (E3 : dispatch 0 d (s3, e3, n2) = (Ok tt, (count_dispatch s3, e3, after_ack e3 (poison_ack d (suppressed s3)) (snd (conn_isDuplicate d n2))))).
  { apply duplicate_poisoned; try done; [by destruct s .. | by rewrite Hn6]. }
  exists (count_dispatch s3), e3, (after_ack e3 (poison_ack d (suppressed s3)) (snd (conn_isDuplicate d n2))).
  destruct (al_isDuplicate d n2) as (_ & _ & Hn7 & Hn8).
  split; [| split; [by rewrite sent_ack, Hn7, Hn4, Hn2 | split; [| done]]].
  - rewrite (xbind_ok _ _ _ _ _ (dispatch_waits d s e n Hw Hs)).
    fold n1. replace (count_dispatch (set_unconsumedMessages _ s)) with (set_unconsumedMessages (FifoMessageDispatchChannel.mk false true [d]) (count_dispatch s)) by (by destruct s).
    rewrite (xbind_ok _ _ _ _ _ E2). unfold executor_iterate. step.
    assert (Hreg' : Session.registered (Session.set_messageQueue (FifoMessageDispatchChannel.mk false true [d]) e) = true) by by destruct e.
    assert (Hli : listener s2 = true) by by destruct s.
    assert (Hu2 : unconsumedMessages s2 = FifoMessageDispatchChannel.mk false true []) by (unfold s2; by destruct s).
    rewrite Hreg'. unfold iterate. step. rewrite Hli, Hu2. cbn [ch_dequeueNoWait FifoMessageDispatchChannel.interface FifoMessageDispatchChannel.dequeueNoWait
      FifoMessageDispatchChannel.closed FifoMessageDispatchChannel.running negb orb FifoMessageDispatchChannel.isEmpty FifoMessageDispatchChannel.channel].
    step. fold s3.
    replace (FifoMessageDispatchChannel.dequeueNoWait _) with (Some d, FifoMessageDispatchChannel.mk false true []) by (by destruct e). cbv beta iota.
    unfold onQueue. rewrite bind_modify_session. fold e3.
    assert (Hdis : executor_dispatch 0 d (s3, e3, n2) = (Ok tt, (count_dispatch s3, e3, after_ack e3 (poison_ack d (suppressed s3)) (snd (conn_isDuplicate d n2))))).
    { unfold executor_dispatch. step. replace (Session.registered e3) with true by (by destruct e). replace (info s3) with (info s) by (by destruct s).
      rewrite Hid. cbn [andb]. by rewrite E3. }
    rewrite (xbind_ok _ _ _ _ _ Hdis). by step.
  - unfold after_ack. case_match; destruct (al_send (DMessageAck (poison_ack d (suppressed s3))) (snd (conn_isDuplicate d n2))) as [Hg1 Hg2]; by rewrite ?Hg1, ?Hg2, Hn8, Hn5, Hn3.
Qed.
End Late.

(** ** The recovery of a transaction after a failover *)
Section Failover.
Context {C : Type} `{MessageDispatchChannel C} {N : Type} `{SurroundingsLaws N}.
Implicit Types (s : ActiveMQConsumerKernel.t C) (e : Session.t C) (n : N) (d : Dispatch) (l : list Dispatch) (m : PreviouslyDeliveredMap.t).

Lemma xbind_err {S A B} (p : X S A) (k : A -> X S B) w f w' : p w = (Err f, w') -> xbind p k w = (Err f, w').
Proof. intros E. unfold xbind. by rewrite E. Qed.

(** None of the messages was delivered again, and the keys are among those of [l]. *)
Definition pending_redelivery l m : Prop :=
  Forall (fun x => PreviouslyDeliveredMap.redelivered x = false /\ In (PreviouslyDeliveredMap.key x) (map address l)) (PreviouslyDeliveredMap.entries m).
Lemma put_pending l d m i : pending_redelivery l m -> In d l ->
  pending_redelivery l (PreviouslyDeliveredMap.put (address d) i false m) /\ PreviouslyDeliveredMap.entries (PreviouslyDeliveredMap.put (address d) i false m) <> [].
Proof.
  intros Hp Hd. unfold PreviouslyDeliveredMap.put, PreviouslyDeliveredMap.containsKey, pending_redelivery in *. cbn [PreviouslyDeliveredMap.entries].
  destruct (existsb _ _) eqn:E.
  - split; [| intros Hnil%map_eq_nil; by rewrite Hnil in E]. apply Forall_map. revert Hp. apply Forall_impl. intros x [H1' H2'].
    cbn. by destruct (Nat.eqb _ _).
  - split; [| by destruct (PreviouslyDeliveredMap.entries m)]. apply Forall_app. split; [done |]. constructor; [| constructor]. cbn.
    split; [done |]. by apply in_map.
Qed.
Lemma mark_all l q : forall s e n m, Forall (fun d => has_message d = true /\ In d l) q -> pending_redelivery l m ->
  (q <> [] \/ PreviouslyDeliveredMap.entries m <> []) ->
  exists m', xfor q mark_delivered (set_previouslyDeliveredMessages (Some m) s, e, n) = (Ok tt, (set_previouslyDeliveredMessages (Some m') s, e, n)) /\
    pending_redelivery l m' /\ PreviouslyDeliveredMap.entries m' <> [].
Proof.
  induction q as [|d q IH]; intros s e n m Hq Hm Hne; [exists m; by destruct Hne |]. apply Forall_cons_iff in Hq as [[Hd Hin] Hq].
  destruct (put_pending l d m (id_of d) Hm Hin) as [Hp Hn].
  destruct (IH s e n (PreviouslyDeliveredMap.put (address d) (id_of d) false m) Hq Hp (or_intror Hn)) as (m' & E & Hm' & Hne').
  exists m'. split; [| done]. cbn [xfor]. unfold mark_delivered at 1. rewrite bind_assoc, getMessageId_ok, bind_lift, bind_modify_consumer by done.
  replace (match previouslyDeliveredMessages (set_previouslyDeliveredMessages (Some m) s) with Some m => _ | None => _ end) with
    (set_previouslyDeliveredMessages (Some (PreviouslyDeliveredMap.put (address d) (id_of d) false m)) s) by (by destruct s). done.
Qed.
Lemma pending_count l m : pending_redelivery l m -> PreviouslyDeliveredMap.entries m <> [] -> 0 < PreviouslyDeliveredMap.notReplayed m.
Proof.
  unfold pending_redelivery, PreviouslyDeliveredMap.notReplayed, zlen. intros Hp. destruct (PreviouslyDeliveredMap.entries m) as [|x q]; [done |]. intros _.
  apply Forall_cons_iff in Hp as [[Hx _] _]. cbn [List.filter]. rewrite Hx. cbn [negb length]. lia.
Qed.
Lemma not_contained l d m : pending_redelivery l m -> ~ In (address d) (map address l) -> PreviouslyDeliveredMap.containsKey (address d) m = false.
Proof.
  intros Hp Hd. unfold PreviouslyDeliveredMap.containsKey. apply Bool.not_true_iff_false. intros (x & Hx & E%Nat.eqb_eq)%existsb_exists.
  unfold pending_redelivery in Hp. rewrite List.Forall_forall in Hp. apply Hp in Hx as [_ Hx]. by rewrite E in Hx.
Qed.

(** After a failover in a transaction: the messages [l] that were delivered before it
    are remembered by the addresses of their ids, so that a dispatch with an object of
    its own, which every dispatch from the broker is, is never recognised as a
    redelivery; the end of the transaction then always throws that it was rolled back. *)
Theorem failover_redelivery_unrecognised sleeps l ds s e n :
  Session.isTransacted e = true -> Session.synchronizations e = [TransactionSynchronization] -> transactedIndividualAck s = false ->
  isClearDeliveredList s = true -> previouslyDeliveredMessages s = None -> failoverRedeliveryWaitPeriod s = 0 ->
  deliveredMessages s = rev l -> l <> [] -> Forall (fun d => has_message d = true) l ->
  Forall (fun d => has_message d = true /\ ~ In (address d) (map address l)) ds ->
  exists s', clearDeliveredList (s, e, n) = (Ok tt, (s', e, n)) /\
    Forall (fun d => redeliveryExpectedInCurrentTransaction d true (s', e, n) = (Ok false, (s', e, n))) ds /\
    tx_beforeEnd sleeps (s', e, n) = (Err (Throw TransactionRolledBackException), (s', e, n)).
Proof.
  intros Ht Hsy Hi Hc Hp Hw Hl Hne Hm Hds.
  assert (Hq : Forall (fun d => has_message d = true /\ In d l) (rev l)).
  { apply Forall_rev, List.Forall_forall. rewrite List.Forall_forall in Hm. auto. }
  set (m0 := PreviouslyDeliveredMap.mk (Session.transactionId e) []).
  destruct (mark_all l (rev l) s e n m0 Hq ltac:(by constructor)) as (m & E & Hpm & Hnem).
  { left. intros Hnil. apply Hne. by rewrite <- (rev_involutive l), Hnil. }
  set (s' := set_isClearDeliveredList false (set_previouslyDeliveredMessages (Some m) s)). exists s'.
  assert (Hprev : previouslyDeliveredMessages s' = Some m) by (unfold s'; by destruct s).
  split; [| split].
  - unfold clearDeliveredList. step. rewrite Hc. rewrite Hl at 1.
    destruct (rev l) as [|x q] eqn:Er; [by apply (f_equal (@rev _)) in Er; rewrite rev_involutive in Er |]. rewrite bind_assoc, bind_session. cbv beta. rewrite Ht.
    rewrite bind_assoc, bind_modify_consumer. cbv beta. rewrite Hp, Hl. fold m0. rewrite (xbind_ok _ _ _ _ _ E). by step.
  - revert Hds. apply Forall_impl. intros d [Hd Hnot]. unfold redeliveryExpectedInCurrentTransaction. step. rewrite Ht, Hprev.
    rewrite getMessageId_ok by done. step. by rewrite (not_contained l d m Hpm Hnot).
  - unfold tx_beforeEnd. rewrite bind_session, Hsy. cbn [xfor sync_beforeEnd]. rewrite !bind_assoc, bind_self. cbv beta.
    replace (transactedIndividualAck s') with false by (unfold s'; by destruct s). cbv iota. rewrite !bind_assoc.
    apply xbind_err. unfold acknowledge. unfold xcatch at 1. rewrite bind_clearDeliveredList by by destruct s. cbv beta.
    assert (Hwait : forall A (k : unit -> X (world C N) A), xbind (waitForRedeliveries sleeps) k (s', e, n) = k tt (s', e, n)).
    { intros A k. unfold waitForRedeliveries. rewrite bind_assoc, bind_self. cbv beta. rewrite Hprev.
      replace (failoverRedeliveryWaitPeriod s') with 0 by (unfold s'; by destruct s). by step. }
    rewrite Hwait, (bind_makeAck _ _ l) by (done || unfold s'; by destruct s).
    destruct (batch_ack_spec l Hne) as (f & la & Hb & _). rewrite Hb, bind_session. cbv beta. rewrite Ht, !bind_assoc.
    rewrite (xbind_err _ _ _ (Throw TransactionRolledBackException) (s', e, n)); [reflexivity |]. unfold rollbackOnFailedRecoveryRedelivery. rewrite bind_self, Hprev.
    apply pending_count, Z.ltb_lt in Hpm; [| done]. by rewrite Hpm.
Qed.
End Failover.

(** ** Waiting for redeliveries *)
Section Waiting.
Context {C : Type} `{MessageDispatchChannel C} {N : Type} `{Surroundings N}.
Implicit Types (s : ActiveMQConsumerKernel.t C) (e : Session.t C) (n : N).

(** The wait for redeliveries is over after one sleep while its period has not
    passed, whatever is still missing: the condition of the loop has the two times the
    wrong way round. *)
Theorem wait_for_redeliveries_gives_up f sleeps m s e n :
  previouslyDeliveredMessages s = Some m -> 0 < PreviouslyDeliveredMap.notReplayed m -> 0 < failoverRedeliveryWaitPeriod s ->
  env_now (snd (f (s, e, n))) <= env_now n + failoverRedeliveryWaitPeriod s ->
  waitForRedeliveries (f :: sleeps) (s, e, n) = (Ok tt, f (s, e, n)).
Proof.
  intros Hm Hn Hp Hnow. unfold waitForRedeliveries. rewrite bind_self, Hm, (proj2 (Z.ltb_lt _ _) Hp), bind_ask. cbn [wait_each].
  rewrite bind_self, Hm, (proj2 (Z.ltb_lt _ _) Hn). unfold xmodify at 1, xbind at 1. destruct (f (s, e, n)) as [[s1 e1] n1]. cbn in Hnow.
  rewrite bind_ask. by rewrite (proj2 (Z.ltb_ge _ _) Hnow).
Qed.

(** ** A commit that fails *)
(** A commit that the connection cannot send, or that the broker refuses: the
    exception is none of cms, so the transaction is neither committed nor rolled back
    for the consumer; its messages stay delivered, and the session is out of the
    transaction with the synchronizations still registered. *)
Theorem failed_commit_keeps_messages sleeps s e n s1 e1 n1 n2 x :
  Session.isInXATransaction e = false -> tx_beforeEnd sleeps (s, e, n) = (Ok tt, (s1, e1, n1)) -> Session.isInTransaction e1 = true ->
  conn_syncRequest (transaction_info e1 TRANSACTION_STATE_COMMITONEPHASE) n1 = (Err (Throw x), n2) -> is_cms x = false ->
  tx_commit sleeps (s, e, n) = (Err (Throw ActiveMQException), (s1, Session.set_transactionId None e1, n2)).
Proof.
  intros Hx Hb Hi Hc Hcms. unfold tx_commit. unfold xcatch at 1. rewrite bind_session, Hx.
  rewrite (xbind_ok _ _ _ tt (s1, e1, n1)) by (unfold catch_cms; by rewrite Hb). rewrite bind_session, Hi. cbn [when]. rewrite bind_modify_session.
  unfold catch_cms, xbind, syncRequest, surround. rewrite Hc. cbv beta iota. rewrite Hcms. cbv beta iota. unfold rethrow_amq. by rewrite Hcms.
Qed.

(** ** The options of a destination *)
(** Three options of the destination have no effect: a consumer that is created has
    the connection's values of them, whatever the destination says. *)
Theorem connection_overrides_options (o : options) policy (a : arguments) e now s : new (C := C) o policy a e now = Ok s ->
  nonBlockingRedelivery s = opt_nonBlockingRedelivery o /\ consumerExpiryCheckEnabled s = opt_consumerExpiryCheckEnabled o /\
  transactedIndividualAck s = opt_transactedIndividualAck o || opt_nonBlockingRedelivery o || messagePrioritySupported o.
Proof.
  unfold new. destruct (check_destination o (arg_destination a)) as [d|]; [| done]. cbn [rbind]. case_match; [done |].
  match goal with |- context [applyDestinationOptions d ?i] => destruct (applyDestinationOptions d i) as [s0|] eqn:E end; [| done]. cbn [rbind].
  case_match; [done |]. intros [= <-]. unfold connection_options. clear. destruct s0. cbv zeta. repeat case_match; done.
Qed.
End Waiting.

(** ** Witnesses *)
Import Sample.
#[local] Abbreviation fifo := FifoMessageDispatchChannel.t.
#[export] Program Instance line_audit : AuditLaws line := { seen d n := existsb (Nat.eqb (address d)) (audited n); given := listened }.
Next Obligation. intros. cbn. by rewrite Nat.eqb_refl. Qed.
Solve All Obligations with done.
Lemma late_listener_poisons_witness : exists s' e' n',
  (dispatch 0 (dispatch_of 1 0) ;+ setMessageListener true ;+ executor_iterate 0) (consumer [], session_in AUTO_ACKNOWLEDGE, silent) = (Ok false, (s', e', n')) /\
  heard n' = [DMessageAck (poison_ack (dispatch_of 1 0) (suppressed (consumer [])))] /\ listened n' = 0%nat.
Proof.
  destruct (late_listener_poisons (dispatch_of 1 0) (consumer []) (session_in AUTO_ACKNOWLEDGE) silent)
    as (s' & e' & n' & H1 & H2 & H3 & _); [by repeat split | done | done | done | done |].
  exists s', e', n'. split; [exact H1 | split; [exact H2 | exact H3]].
Defined.
Definition after_failover : ActiveMQConsumerKernel.t fifo := set_isClearDeliveredList true (set_deliveredMessages [dispatch_of 1 0] (consumer [])).
Definition in_transaction : Session.t fifo :=
  Session.set_synchronizations [TransactionSynchronization] (Session.set_transactionId (Some (TransactionId.LocalTransactionId LocalTransactionId.default)) (session_in SESSION_TRANSACTED)).
Definition again : Dispatch := mkDispatch 7 (body (dispatch_of 1 0)) [].
Lemma failover_redelivery_unrecognised_witness : exists s', clearDeliveredList (after_failover, in_transaction, silent) = (Ok tt, (s', in_transaction, silent)) /\
  tx_beforeEnd [] (s', in_transaction, silent) = (Err (Throw TransactionRolledBackException), (s', in_transaction, silent)).
Proof.
  destruct (failover_redelivery_unrecognised (C := fifo) [] [dispatch_of 1 0] [again] after_failover in_transaction silent)
    as (s' & H1 & _ & H3); [done | done | done | done | done | done | done | done | by repeat constructor | |].
  { constructor; [| constructor]. split; [done |]. cbn. lia. }
  exists s'. split; [exact H1 | exact H3].
Defined.
Definition waiting_for : ActiveMQConsumerKernel.t fifo :=
  set_failoverRedeliveryWaitPeriod 100 (set_previouslyDeliveredMessages (Some (PreviouslyDeliveredMap.mk None [PreviouslyDeliveredMap.mkEntry 1 None false])) (consumer [])).
Lemma wait_for_redeliveries_gives_up_witness :
  waitForRedeliveries [fun w => w] (waiting_for, in_transaction, silent) = (Ok tt, (waiting_for, in_transaction, silent)).
Proof. apply (wait_for_redeliveries_gives_up (fun w => w) [] (PreviouslyDeliveredMap.mk None [PreviouslyDeliveredMap.mkEntry 1 None false])); done. Defined.
Definition half_way : ActiveMQConsumerKernel.t fifo := set_synchronizationRegistered true (set_deliveredMessages [dispatch_of 1 0] (consumer [])).
Lemma failed_commit_keeps_messages_witness : exists s1 e1, tx_commit [] (half_way, in_transaction, Broken) = (Err (Throw ActiveMQException), (s1, e1, Broken)) /\
  deliveredMessages s1 = [dispatch_of 1 0] /\ synchronizationRegistered s1 = false /\ Session.transactionId e1 = None.
Proof.
  set (s1 := fst (fst (snd (tx_beforeEnd [] (half_way, in_transaction, Broken))))).
  exists s1, (Session.set_transactionId None in_transaction). split; [| by vm_compute].
  apply (failed_commit_keeps_messages [] half_way in_transaction Broken s1 in_transaction Broken Broken ActiveMQException); vm_compute; reflexivity.
Defined.
Definition defaults : options := mkOptions [] [] (fun _ => false) false false false false 0 false false true 0.
Definition with_option : ActiveMQDestination.t :=
  ActiveMQDestination.mk ActiveMQDestination.Queue (str "orders") false [(str "consumer.nonBlockingRedelivery", str "true")] [] 0.
Definition created := mkArguments consumer_id (Some with_option) [] [] 1000 0 false false false.
Lemma connection_overrides_options_witness :
  match new (C := fifo) defaults RedeliveryPolicy.default created (session_in AUTO_ACKNOWLEDGE) 0 with Ok s => nonBlockingRedelivery s = false | Err _ => False end.
Proof.
  destruct (new defaults RedeliveryPolicy.default created (session_in AUTO_ACKNOWLEDGE) 0) as [s|] eqn:E; [| vm_compute in E; discriminate E].
  exact (proj1 (connection_overrides_options defaults RedeliveryPolicy.default created (session_in AUTO_ACKNOWLEDGE) 0 s E)).
Defined.

(** ** With the connection's audit of MessageAudit.v *)
Record audited_line := mkAudited { told : list DataStructure; audit : ConnectionAudit.t; calls : nat }.
Definition tell (c : DataStructure) (n : audited_line) : result unit * audited_line := (Ok tt, mkAudited (told n ++ [c]) (audit n) (calls n)).
#[export] Instance audited_surroundings : Surroundings audited_line := {
  conn_oneway := tell; conn_syncRequest := tell;
  conn_isDuplicate d n := let '(r, a) := ConnectionAudit.isDuplicate Z.of_nat 0 (MessageDispatch.message (body d)) (audit n) in (r, mkAudited (told n) a (calls n));
  conn_rollbackDuplicate d n := let '(r, a) := ConnectionAudit.rollbackDuplicate Z.of_nat 0 (MessageDispatch.message (body d)) (audit n) in (r, mkAudited (told n) a (calls n));
  conn_interruptionProcessed n := n; conn_removeDispatcher n := n; session_wakeup n := n; conn_consumers _ := []; env_now _ := 0; env_variance _ _ := 0;
  app_onMessage _ n := (None, mkAudited (told n) (audit n) (S (calls n))); app_onMessageAvailable n := n
}.
Definition identified : Dispatch :=
  mkDispatch 1 (MessageDispatch.mk _ BaseCommand.default (Some consumer_id) (Some queue)
    (Some (message_with queue (MessageId.mk [] (Some (ProducerId.mk (str "ID:other") 1 1)) 5 5) 0)) 0) [].
(** The message number 5 of a producer: what the broker was told, whether the listener
    was called. *)
Definition outcome_with (scenario : X (world fifo audited_line) bool) : option (list DataStructure * nat) :=
  match ConnectionAudit.new with
  | Ok a => let '(r, (_, _, n)) := scenario (consumer [], session_in AUTO_ACKNOWLEDGE, mkAudited [] a 0) in
            match r with Ok _ => Some (told n, calls n) | Err _ => None end
  | Err _ => None
  end.
Example listener_before_message : option_map snd (outcome_with (setMessageListener true ;+ dispatch 0 identified ;+ xret true)) = Some 1%nat.
Proof. vm_compute. reflexivity. Qed.
Example listener_after_message : outcome_with (dispatch 0 identified ;+ setMessageListener true ;+ executor_iterate 0) =
  Some ([DMessageAck (poison_ack identified (suppressed (consumer [])))], 0%nat).
Proof. vm_compute. reflexivity. Qed.
