(* ===== verification/Numbers.v ===== *)
(** * The text of numbers, and conversions between primitive values

    decaf/lang/Integer and Long: [toString] and [parse] are inverse to each other.
    decaf/lang/Byte, Short and Boolean on top of them.  activemq/util
    PrimitiveValueConverter: what the getters of a PrimitiveMap make of a value of
    another type.  The text of floating point numbers is that of a C++
    ostringstream, a parameter. *)

From S2P Require Import Prelude DataStreams PrimitiveTypes Support Destinations Commands.

(** ** Integer::toString and Long::toString
    The digits are taken from a number that is never positive, from the last to the
    first; [count] counts them beforehand. *)
Definition digit_char (ch : Z) : Z := if 9 <? ch then ch - 10 + 97 else ch + 48.

Fixpoint to_chars (fuel : nat) (radix j : Z) (buffer : list Z) : list Z :=
  match fuel with
  | O => buffer
  | S fuel =>
    let buffer := digit_char (0 - Z.rem j radix) :: buffer in
    let j := Z.quot j radix in
    if j =? 0 then buffer else to_chars fuel radix j buffer
  end.

(** [fuel]: a number of [w] bits has at most [w] digits in any radix. *)
Definition toString_radix (w : nat) (value radix : Z) : list Z :=
  let radix := if (radix <? 2) || (36 <? radix) then 10 else radix in
  if value =? 0 then str "0"
  else if value <? 0 then 45 :: to_chars w radix value []
  else to_chars w radix (- value) [].

Definition Integer_toString (value : Z) : list Z := toString_radix 32 value 10.
Definition Long_toString (value : Z) : list Z := toString_radix 64 value 10.
Definition Boolean_toString (value : bool) : list Z := if value then str "true" else str "false".
(** [Byte] is unsigned. *)
Definition Byte_toString (value : Z) : list Z := Integer_toString (to_u8 value).
Definition Short_toString (value : Z) : list Z := Integer_toString value.
Definition parseByte (s : list Z) : result Z :=
  rbind (Integer.parseInt s) (fun v => if to_u8 v =? v then Ok (to_u8 v) else throw NumberFormatException).
Definition parseShort (s : list Z) : result Z :=
  rbind (Integer.parseInt s) (fun v => if to_s16 v =? v then Ok (to_s16 v) else throw NumberFormatException).

(** ** Digits *)
(** The digits of [- j], in front of [buffer]. *)
Lemma to_chars_digits fuel : forall j buffer, - 2 ^ Z.of_nat fuel < j < 0 ->
  exists l, to_chars fuel 10 j buffer = l ++ buffer /\ l <> [] /\ forallb is_digit l = true /\
    forall r, fold_left (fun a c => a * 10 + (c - 48)) l r = r * 10 ^ zlen l + - j.
Proof.
  induction fuel as [|fuel IH]; intros j buffer Hj; [cbn in Hj; lia |]. cbn [to_chars].
  rewrite Nat2Z.inj_succ, Z.pow_succ_r in Hj by lia.
  pose proof (Z.quot_rem' j 10) as Hqr. assert (Hj0 : j <= 0) by (clear - Hj; lia).
  pose proof (Z.rem_bound_pos_neg j 10 eq_refl Hj0) as Hr.
  assert (Hd : digit_char (0 - Z.rem j 10) = 48 - Z.rem j 10).
  { unfold digit_char. rewrite (proj2 (Z.ltb_ge 9 _)) by lia. lia. }
  assert (Hdig : is_digit (48 - Z.rem j 10) = true) by (unfold is_digit; rewrite andb_true_iff, !Z.leb_le; lia).
  rewrite Hd. destruct (Z.eqb_spec (Z.quot j 10) 0) as [E|E].
  - exists [48 - Z.rem j 10]. split; [done |]. split; [done |]. cbn [forallb]. rewrite Hdig. split; [done |].
    intros r. cbn [fold_left]. change (zlen [48 - Z.rem j 10]) with 1. rewrite Z.pow_1_r. lia.
  - destruct (IH (Z.quot j 10) ((48 - Z.rem j 10) :: buffer)) as (l & El & Hne & Hl & Hf); [lia |].
    exists (l ++ [48 - Z.rem j 10]). rewrite El, <- app_assoc. split; [done |]. split; [by destruct l |].
    rewrite forallb_app, Hl. cbn [forallb]. rewrite Hdig. split; [done |]. intros r. rewrite fold_left_app, Hf. cbn [fold_left].
    rewrite zlen_app. change (zlen [48 - Z.rem j 10]) with 1. rewrite Z.pow_add_r by (pose proof (zlen_nonneg l); lia). lia.
Qed.

Lemma toString_text (w : nat) value : (1 <= w)%nat -> - 2 ^ (Z.of_nat w - 1) <= value < 2 ^ (Z.of_nat w - 1) ->
  exists l, l <> [] /\ forallb is_digit l = true /\ decimal l = Z.abs value /\
    toString_radix w value 10 = if value <? 0 then 45 :: l else l.
Proof.
  intros Hw Hv. unfold toString_radix. change ((10 <? 2) || (36 <? 10)) with false. cbv iota zeta.
  assert (Hp : 2 ^ Z.of_nat w = 2 * 2 ^ (Z.of_nat w - 1)) by (rewrite <- Z.pow_succ_r by lia; f_equal; lia).
  pose proof (Z.pow_pos_nonneg 2 (Z.of_nat w - 1) ltac:(lia) ltac:(lia)).
  destruct (Z.eqb_spec value 0) as [->|Hne]; [by exists (str "0") |].
  destruct (to_chars_digits w (- Z.abs value) []) as (l & El & Hl & Hd & Hf); [lia |].
  exists l. rewrite app_nil_r in El. split; [done |]. split; [done |]. split; [unfold decimal; rewrite Hf; lia |].
  destruct (Z.ltb_spec value 0).
  - replace value with (- Z.abs value) at 1 by lia. by rewrite El.
  - replace (- value) with (- Z.abs value) by lia. exact El.
Qed.

(** ** Parsing, for any width
    [Integer::parse] and [Long::parse] are the same code at two widths. *)
Fixpoint parse_width (w : Z) (value : list Z) (radix max r : Z) : result Z :=
  match value with
  | [] => Ok r
  | c :: value =>
    let digit := Character.digit c radix in
    if digit =? -1 then throw NumberFormatException
    else if r <? max then throw NumberFormatException
    else
      let next := swrap w (r * radix - digit) in
      if r <? next then throw NumberFormatException else parse_width w value radix max next
  end.
Lemma long_parse_width value radix max : forall r, Long.parse_loop value radix max r = parse_width 64 value radix max r.
Proof. induction value as [|c value IH]; intros r; [done |]. cbn. by rewrite IH. Qed.

Lemma parse_width_decimal w l : 8 <= w -> forall r, forallb is_digit l = true -> - 2 ^ (w - 1) <= r <= 0 ->
  parse_width w l 10 (Z.quot (- 2 ^ (w - 1)) 10) r = if - 2 ^ (w - 1) <=? neg_acc l r then Ok (neg_acc l r) else throw NumberFormatException.
Proof.
  intros Hw. set (m := 2 ^ (w - 1)). assert (Hm : 128 <= m).
  { subst m. change 128 with (2 ^ 7). apply Z.pow_le_mono_r; lia. }
  assert (Hp : 2 ^ w = 2 * m) by (subst m; rewrite <- Z.pow_succ_r by lia; f_equal; lia).
  assert (Hq : Z.quot (- m) 10 = - (m / 10)) by (rewrite Z.quot_opp_l, Z.quot_div_nonneg by lia; done).
  rewrite Hq. pose proof (Z.div_mod m 10 ltac:(lia)) as Hdm. pose proof (Z.mod_pos_bound m 10 ltac:(lia)) as Hmb.
  induction l as [|c l IH]; intros r Hl Hr.
  { change (neg_acc [] r) with r. by destruct (Z.leb_spec (- m) r); [|lia]. }
  cbn [forallb] in Hl. apply andb_true_iff in Hl as [Hc Hl]. cbn [parse_width]. rewrite digit_decimal by done.
  unfold is_digit in Hc. rewrite andb_true_iff, !Z.leb_le in Hc.
  destruct (Z.eqb_spec (c - 48) (-1)); [lia |].
  pose proof (neg_acc_le l (r * 10 - (c - 48)) Hl ltac:(lia)) as Hle.
  change (neg_acc (c :: l) r) with (neg_acc l (r * 10 - (c - 48))).
  destruct (Z.ltb_spec r (- (m / 10))); [destruct (Z.leb_spec (- m) (neg_acc l (r * 10 - (c - 48)))); [lia | done] |].
  destruct (Z.le_gt_cases (- m) (r * 10 - (c - 48))) as [Hin | Hout]; cbv zeta.
  - rewrite swrap_small by lia. destruct (Z.ltb_spec r (r * 10 - (c - 48))); [lia |]. apply IH; [done | lia].
  - destruct (Z.leb_spec (- m) (neg_acc l (r * 10 - (c - 48)))); [lia |].
    assert (Hs : swrap w (r * 10 - (c - 48)) = r * 10 - (c - 48) + 2 * m).
    { unfold swrap. fold m. rewrite Hp. rewrite <- (Z.mod_unique (r * 10 - (c - 48) + m) (2 * m) (-1) (r * 10 - (c - 48) + m + 2 * m)) by lia. lia. }
    rewrite Hs. by destruct (Z.ltb_spec r (r * 10 - (c - 48) + 2 * m)); [|lia].
Qed.

Lemma parseLong_value (negative : bool) l : l <> [] -> forallb is_digit l = true ->
  let v := if negative then - decimal l else decimal l in
  Long.parseLong (if negative then 45 :: l else l) = if is_s 64 v then Ok v else throw NumberFormatException.
Proof.
  intros Hne Hl v. unfold Long.parseLong, Long.parseLong_radix. change ((10 <? 2) || (36 <? 10)) with false. cbv iota.
  pose proof (neg_acc_decimal l 0) as Hacc. change (- 0) with 0 in Hacc. fold (decimal l) in Hacc.
  pose proof (neg_acc_le l 0 Hl ltac:(lia)) as Hle.
  assert (Hp : Long.parse_loop l 10 (Z.quot Long.MIN_VALUE 10) 0 = if - 2 ^ 63 <=? - decimal l then Ok (- decimal l) else throw NumberFormatException).
  { rewrite long_parse_width. unfold Long.MIN_VALUE. by rewrite (parse_width_decimal 64), Hacc by (done || lia). }
  destruct l as [|c l']; [done |].
  destruct negative; cbn [Z.eqb Pos.eqb].
  - unfold Long.parse. cbn [drop]. cbv zeta. rewrite Hp. subst v. unfold is_s.
    destruct (Z.leb_spec (- 2 ^ 63) (- decimal (c :: l'))); cbn [rbind];
      destruct (Z.leb_spec (- 2 ^ (64 - 1)) (- decimal (c :: l'))), (Z.ltb_spec (- decimal (c :: l')) (2 ^ (64 - 1))); cbn [andb]; try lia; done.
  - destruct (Z.eqb_spec c 45) as [->|_]; [by cbn in Hl |].
    unfold Long.parse. cbn [drop]. cbv zeta. rewrite Hp. subst v. set (n := decimal (c :: l')) in *. unfold is_s.
    destruct (Z.leb_spec (- 2 ^ 63) (- n)); cbn [rbind].
    + rewrite Z.opp_involutive. destruct (Z.eq_dec n (2 ^ 63)) as [-> | Hn]; [done |].
      rewrite swrap_small by lia. destruct (Z.ltb_spec n 0); [lia |].
      destruct (Z.leb_spec (- 2 ^ (64 - 1)) n), (Z.ltb_spec n (2 ^ (64 - 1))); cbn [andb]; try lia; done.
    + destruct (Z.leb_spec (- 2 ^ (64 - 1)) n), (Z.ltb_spec n (2 ^ (64 - 1))); cbn [andb]; try lia; done.
Qed.

(** What is printed is read back. *)
Lemma parseInt_toString v : is_s 32 v = true -> Integer.parseInt (Integer_toString v) = Ok v.
Proof.
  intros Hs. pose proof (proj1 (is_s_spec 32 v) Hs) as Hv.
  destruct (toString_text 32 v) as (l & Hne & Hd & Ha & E); [lia | exact Hv |]. unfold Integer_toString. rewrite E.
  pose proof (parseInt_value (v <? 0) l Hne Hd) as Hp. cbv zeta in Hp.
  replace (if v <? 0 then - decimal l else decimal l) with v in Hp by (rewrite Ha; destruct (Z.ltb_spec v 0); lia). by rewrite Hp, Hs.
Qed.
Lemma parseLong_toString v : is_s 64 v = true -> Long.parseLong (Long_toString v) = Ok v.
Proof.
  intros Hs. pose proof (proj1 (is_s_spec 64 v) Hs) as Hv.
  destruct (toString_text 64 v) as (l & Hne & Hd & Ha & E); [lia | exact Hv |]. unfold Long_toString. rewrite E.
  pose proof (parseLong_value (v <? 0) l Hne Hd) as Hp. cbv zeta in Hp.
  replace (if v <? 0 then - decimal l else decimal l) with v in Hp by (rewrite Ha; destruct (Z.ltb_spec v 0); lia). by rewrite Hp, Hs.
Qed.

Lemma toString_chars (w : nat) value : (1 <= w)%nat -> - 2 ^ (Z.of_nat w - 1) <= value < 2 ^ (Z.of_nat w - 1) ->
  forallb (fun c => is_digit c || (c =? 45)) (toString_radix w value 10) = true /\ toString_radix w value 10 <> [].
Proof.
  intros Hw Hv. destruct (toString_text w value Hw Hv) as (l & Hne & Hd & _ & ->).
  assert (Hl : forallb (fun c => is_digit c || (c =? 45)) l = true).
  { rewrite forallb_forall in *. intros c Hc. by rewrite (Hd c Hc). }
  by destruct (value <? 0).
Qed.

(** ** PrimitiveValueConverter *)
(** The text of floating point numbers, by their bits. *)
Class FloatText := { Float_toString : Z -> list Z; Double_toString : Z -> list Z }.

Module PrimitiveValueConverter.
Definition unsupported {A} : result A := throw UnsupportedOperationException.
(** A string that does not parse falls through to the default case. *)
Definition parsed {A} (r : result A) : result A := match r with Err (Throw _) => unsupported | r => r end.

Definition convert_bool (value : PrimitiveValueNode) : result bool :=
  match value with
  | BOOLEAN_TYPE b => Ok b
  | STRING_TYPE s => Ok (WireFormatInfo.parseBoolean s)
  | _ => unsupported
  end.
Definition convert_uchar (value : PrimitiveValueNode) : result Z :=
  match value with BYTE_TYPE v => Ok (to_u8 v) | STRING_TYPE s => parsed (parseByte s) | _ => unsupported end.
Definition convert_char (value : PrimitiveValueNode) : result Z :=
  match value with CHAR_TYPE v => Ok v | STRING_TYPE s => parsed (rbind (parseByte s) (fun v => Ok (to_s8 v))) | _ => unsupported end.
Definition convert_short (value : PrimitiveValueNode) : result Z :=
  match value with
  | BYTE_TYPE v => Ok (to_u8 v)
  | SHORT_TYPE v => Ok v
  | STRING_TYPE s => parsed (parseShort s)
  | _ => unsupported
  end.
Definition convert_int (value : PrimitiveValueNode) : result Z :=
  match value with
  | BYTE_TYPE v => Ok (to_u8 v)
  | SHORT_TYPE v | INTEGER_TYPE v => Ok v
  | STRING_TYPE s => parsed (Integer.parseInt s)
  | _ => unsupported
  end.
Definition convert_long (value : PrimitiveValueNode) : result Z :=
  match value with
  | BYTE_TYPE v => Ok (to_u8 v)
  | SHORT_TYPE v | INTEGER_TYPE v | LONG_TYPE v => Ok v
  | STRING_TYPE s => parsed (Long.parseLong s)
  | _ => unsupported
  end.
Definition convert_string `{FloatText} (value : PrimitiveValueNode) : result (list Z) :=
  match value with
  | NULL_TYPE => Ok []
  | BOOLEAN_TYPE b => Ok (Boolean_toString b)
  | BYTE_TYPE v => Ok (Byte_toString v)
  | CHAR_TYPE v => Ok [to_u8 v]
  | SHORT_TYPE v => Ok (Short_toString v)
  | INTEGER_TYPE v => Ok (Integer_toString v)
  | LONG_TYPE v => Ok (Long_toString v)
  | FLOAT_TYPE v => Ok (Float_toString v)
  | DOUBLE_TYPE v => Ok (Double_toString v)
  | STRING_TYPE s => Ok s
  | _ => unsupported
  end.
Definition convert_bytes (value : PrimitiveValueNode) : result (list Z) :=
  match value with BYTE_ARRAY_TYPE b => Ok b | _ => unsupported end.
End PrimitiveValueConverter.

(** The getters of PrimitiveMap. *)
Definition getString `{FloatText} (m : PrimitiveMap) (key : list Z) : result (list Z) :=
  rbind (StlMap.get key m) PrimitiveValueConverter.convert_string.

(** An integral value that went through its text is the one it was. *)
Lemma convert_text `{FloatText} value s v : PrimitiveValueConverter.convert_string value = Ok s ->
  match value with
  | BYTE_TYPE b => v = to_u8 b | SHORT_TYPE i | INTEGER_TYPE i => v = i /\ is_s 32 i = true | _ => False
  end -> PrimitiveValueConverter.convert_int (STRING_TYPE s) = Ok v.
Proof.
  destruct value; try done; cbn [PrimitiveValueConverter.convert_string]; intros [= <-] Hv; unfold PrimitiveValueConverter.convert_int, Byte_toString, Short_toString.
  - subst v. rewrite parseInt_toString; [done |]. apply is_s_spec. pose proof (uwrap_bound 8 byteValue ltac:(lia)).
    change (2 ^ 8) with 256 in *. lia.
  - destruct Hv as [-> Hv]. by rewrite parseInt_toString.
  - destruct Hv as [-> Hv]. by rewrite parseInt_toString.
Qed.
