(* ===== verification/StompFrames.v ===== *)
(** * Stomp frames

    activemq/wireformat/stomp/StompFrame: a command, its headers and a body, how
    a frame is written to a stream and read back.  The headers are a
    decaf/util/Properties, which is a StlMap ordered by the names.  The file
    shows that a sequence of well-formed frames survives any stream, what happens
    to the others, and that reading ends on every input. *)

From S2P Require Import Prelude DataStreams PrimitiveTypes Support Destinations.

Module StompCommandConstants.
Definition CONNECT := str "CONNECT".
Definition CONNECTED := str "CONNECTED".
Definition DISCONNECT := str "DISCONNECT".
Definition SUBSCRIBE := str "SUBSCRIBE".
Definition UNSUBSCRIBE := str "UNSUBSCRIBE".
Definition MESSAGE := str "MESSAGE".
Definition SEND := str "SEND".
Definition BEGIN := str "BEGIN".
Definition COMMIT := str "COMMIT".
Definition ABORT := str "ABORT".
Definition ACK := str "ACK".
Definition ERROR_CMD := str "ERROR".
Definition RECEIPT := str "RECEIPT".
Definition HEADER_DESTINATION := str "destination".
Definition HEADER_TRANSACTIONID := str "transaction".
Definition HEADER_CONTENTLENGTH := str "content-length".
Definition HEADER_RECEIPT_REQUIRED := str "receipt".
Definition HEADER_RECEIPTID := str "receipt-id".
Definition HEADER_MESSAGEID := str "message-id".
Definition HEADER_ACK := str "ack".
Definition HEADER_LOGIN := str "login".
Definition HEADER_PASSWORD := str "passcode".
Definition HEADER_CLIENT_ID := str "client-id".
Definition HEADER_MESSAGE := str "message".
Definition HEADER_CORRELATIONID := str "correlation-id".
Definition HEADER_EXPIRES := str "expires".
Definition HEADER_PERSISTENT := str "persistent".
Definition HEADER_REPLYTO := str "reply-to".
Definition HEADER_TYPE := str "type".
Definition HEADER_DISPATCH_ASYNC := str "activemq.dispatchAsync".
Definition HEADER_EXCLUSIVE := str "activemq.exclusive".
Definition HEADER_MAXPENDINGMSGLIMIT := str "activemq.maximumPendingMessageLimit".
Definition HEADER_NOLOCAL := str "activemq.noLocal".
Definition HEADER_PREFETCHSIZE := str "activemq.prefetchSize".
Definition HEADER_JMSPRIORITY := str "priority".
Definition HEADER_CONSUMERPRIORITY := str "activemq.priority".
Definition HEADER_RETROACTIVE := str "activemq.retroactive".
Definition HEADER_SUBSCRIPTIONNAME := str "activemq.subscriptionName".
Definition HEADER_OLDSUBSCRIPTIONNAME := str "activemq.subcriptionName".
Definition HEADER_TIMESTAMP := str "timestamp".
Definition HEADER_REDELIVERED := str "redelivered".
Definition HEADER_SELECTOR := str "selector".
Definition HEADER_ID := str "id".
Definition HEADER_SUBSCRIPTION := str "subscription".
End StompCommandConstants.
Import StompCommandConstants.

(** The string a [const char*] stands for. *)
Fixpoint c_string (s : list Z) : list Z :=
  match s with [] => [] | c :: s => if c =? 0 then [] else c :: c_string s end.

(** [Character::isWhitespace] *)
Definition isWhitespace (c : Z) : bool := (c =? 10) || (c =? 9) || (c =? 13) || (c =? 12) || (c =? 32).

Module StompFrame.
Record t := mk { command : list Z; properties : list (list Z * list Z); body : list Z }.
Definition empty : t := {| command := []; properties := []; body := [] |}.

Definition setCommand (f : t) (cmd : list Z) : t := {| command := cmd; properties := properties f; body := body f |}.
Definition setBody (f : t) (bytes : list Z) : t := {| command := command f; properties := properties f; body := bytes |}.
Definition setProperty (f : t) (name value : list Z) : t :=
  {| command := command f; properties := StlMap.put name value (properties f); body := body f |}.
Definition hasProperty (f : t) (name : list Z) : bool := StlMap.containsKey name (properties f).
(** [getProperty(name, "")] *)
Definition getProperty (f : t) (name : list Z) : list Z :=
  match StlMap.find name (properties f) with Some v => v | None => [] end.
(** [removeProperty] reads the property, and leaves it where it is. *)
Definition removeProperty (f : t) (name : list Z) : list Z := getProperty f name.

(** ** Writing *)
Definition write_string (s : list Z) : M (list Z) unit :=
  DataOutputStream.writeArray s (to_s32 (zlen s)) 0 (to_s32 (zlen s)).

Fixpoint write_headers (headers : list (list Z * list Z)) : M (list Z) unit :=
  match headers with
  | [] => ret ()
  | (name, value) :: headers =>
    write_string name ;;; DataOutputStream.write 58 ;;; write_string value ;;; DataOutputStream.write 10 ;;;
    write_headers headers
  end.

Definition toStream (f : t) : M (list Z) unit :=
  write_string (command f) ;;; DataOutputStream.write 10 ;;;
  write_headers (properties f) ;;;
  DataOutputStream.write 10 ;;;
  (if 0 <? zlen (body f) then write_string (body f) else ret ()) ;;;
  (if (zlen (body f) =? 0) || negb (bool_decide (getProperty f HEADER_CONTENTLENGTH = []))
   then DataOutputStream.write 0 else ret ()) ;;;
  DataOutputStream.write 10.

(** ** Reading
    [fuel] bounds the bytes of a line, the lines and the bytes of a body. *)
Section Reading.
Context {St : Type} `{InputStream St}.

(** The terminator of the line is overwritten by a NUL. *)
Fixpoint readHeaderLine_loop (fuel : nat) (buffer : list Z) : M St (list Z) :=
  match fuel with
  | O => fun _ => Err NoFuel
  | S fuel =>
    let* byte := DataInputStream.readByte in
    if to_u8 byte =? 10 then ret (buffer ++ [0]) else readHeaderLine_loop fuel (buffer ++ [to_u8 byte])
  end.
Definition readHeaderLine (fuel : nat) : M St (list Z) := catch_io (readHeaderLine_loop fuel []).

(** The search of the first character that is not white space leaves out the
    last one. *)
Fixpoint readCommandHeader_loop (lines fuel : nat) : M St (list Z) :=
  match lines with
  | O => fun _ => Err NoFuel
  | S lines =>
    let* buffer := readHeaderLine fuel in
    match find_index (fun c => negb (isWhitespace c)) (take (length buffer - 1) buffer) with
    | Some offset => ret (c_string (drop offset buffer))
    | None => readCommandHeader_loop lines fuel
    end
  end.
Definition readCommandHeader (fuel : nat) : M St (list Z) := catch_io (readCommandHeader_loop fuel fuel).

(** A line of the headers: the key ends at the first colon.  The first value of
    a key is kept, a line without a colon is dropped. *)
Definition add_header (buffer : list Z) (headers : list (list Z * list Z)) : list (list Z * list Z) :=
  match find_index (Z.eqb 58) buffer with
  | None => headers
  | Some ix =>
    let key := c_string (take ix buffer) in
    let value := c_string (drop (ix + 1) buffer) in
    if StlMap.containsKey key headers then headers else StlMap.put key value headers
  end.

Fixpoint readHeaders_loop (lines fuel : nat) (headers : list (list Z * list Z)) : M St (list (list Z * list Z)) :=
  match lines with
  | O => fun _ => Err NoFuel
  | S lines =>
    let* buffer := readHeaderLine fuel in
    if bool_decide (buffer = []) then raise IOException
    else if bool_decide (buffer = [0]) then ret headers
    else readHeaders_loop lines fuel (add_header buffer headers)
  end.
Definition readHeaders (fuel : nat) (headers : list (list Z * list Z)) : M St (list (list Z * list Z)) :=
  catch_io (readHeaders_loop fuel fuel headers).

Fixpoint readBody_loop (fuel : nat) (buffer : list Z) : M St (list Z) :=
  match fuel with
  | O => fun _ => Err NoFuel
  | S fuel =>
    let* byte := DataInputStream.readByte in
    if byte =? 0 then ret (buffer ++ [to_u8 byte]) else readBody_loop fuel (buffer ++ [to_u8 byte])
  end.

(** A length that is not positive as an int is refused when the body is read. *)
Definition readBody (fuel : nat) (headers : list (list Z * list Z)) : M St (list Z) :=
  catch_io (
    let* content_length := (fun s =>
      match StlMap.find HEADER_CONTENTLENGTH headers with
      | Some length => rbind (Integer.parseInt length) (fun n => Ok (to_u32 n, s))
      | None => Ok (0, s)
      end) in
    if negb (content_length =? 0) then
      let* body := DataInputStream.readFully (to_s32 content_length) in
      let* terminator := DataInputStream.readByte in
      if negb (terminator =? 0) then raise IOException else ret body
    else readBody_loop fuel []).

Definition fromStream (fuel : nat) : M St t :=
  catch_io (
    let* command := readCommandHeader fuel in
    let* headers := readHeaders fuel [] in
    let* body := readBody fuel headers in
    ret {| command := command; properties := headers; body := body |}).
End Reading.

(** ** The bytes of a frame *)
Definition header_bytes (h : list Z * list Z) : list Z := fst h ++ 58 :: snd h ++ [10].
Definition head_bytes (f : t) : list Z := command f ++ 10 :: concat (map header_bytes (properties f)) ++ [10].
Definition terminator (f : t) : list Z :=
  if (zlen (body f) =? 0) || negb (bool_decide (getProperty f HEADER_CONTENTLENGTH = [])) then [0] else [].
Definition bytes (f : t) : list Z := head_bytes f ++ body f ++ terminator f ++ [10].

(** The frames that can be told apart in a stream. *)
Definition without (bad s : list Z) : bool := forallb (fun c => is_byte c && negb (elem c bad)) s.
Definition header_ok (h : list Z * list Z) : bool := without [0; 10; 58] (fst h) && without [0; 10] (snd h).
Definition command_ok (s : list Z) : bool :=
  without [0; 10] s && match s with c :: _ => negb (isWhitespace c) | [] => false end.
Definition body_ok (f : t) : bool :=
  match StlMap.find HEADER_CONTENTLENGTH (properties f) with
  | Some length => bool_decide (Integer.parseInt length = Ok (zlen (body f))) && is_bytes (body f)
  | None => match rev (body f) with
            | [] => true
            | c :: l => (c =? 0) && without [0] l
            end
  end.
Definition short (s : list Z) : bool := zlen s <? 2 ^ 31.
Definition frame_ok (f : t) : bool :=
  command_ok (command f) && StlMap.sorted (properties f) && forallb header_ok (properties f) && body_ok f &&
  (short (command f) && forallb (fun h => short (fst h) && short (snd h)) (properties f) && short (body f)).

(** What the other side reads: an empty body arrives as its terminator. *)
Definition received (f : t) : t := match body f with [] => setBody f [0] | _ => f end.

(** ** Writing a frame *)
Lemma write_string_writes s : short s = true -> writes (write_string s) s.
Proof.
  unfold short. rewrite Z.ltb_lt. intros Hs. pose proof (zlen_nonneg s). unfold write_string.
  rewrite swrap_small by lia. apply writeArray_all.
Qed.
Lemma write_byte_writes c : is_byte c = true -> writes (DataOutputStream.write c) [c].
Proof. intros Hc%is_u_spec out. unfold DataOutputStream.write. by rewrite uwrap_small. Qed.

Lemma write_headers_writes l : forallb (fun h => short (fst h) && short (snd h)) l = true ->
  writes (write_headers l) (concat (map header_bytes l)).
Proof.
  induction l as [|[name value] l IH]; cbn [forallb write_headers map concat]; [intros _; apply writes_ret |].
  rewrite !andb_true_iff. cbn [fst snd]. intros [[Hn Hv] Hl]. unfold header_bytes at 1. cbn [fst snd].
  change (58 :: value ++ [10]) with ([58] ++ value ++ [10]). rewrite <- !app_assoc.
  apply writes_seq; [by apply write_string_writes |]. apply writes_seq; [by apply write_byte_writes |].
  apply writes_seq; [by apply write_string_writes |]. apply writes_seq; [by apply write_byte_writes | auto].
Qed.

Lemma toStream_writes f : short (command f) = true -> forallb (fun h => short (fst h) && short (snd h)) (properties f) = true ->
  short (body f) = true -> writes (toStream f) (bytes f).
Proof.
  intros Hc Hp Hb. unfold toStream, bytes, head_bytes. rewrite <- !app_assoc.
  change (10 :: concat (map header_bytes (properties f)) ++ [10]) with ([10] ++ concat (map header_bytes (properties f)) ++ [10]).
  rewrite <- !app_assoc.
  apply writes_seq; [by apply write_string_writes |]. apply writes_seq; [by apply write_byte_writes |].
  apply writes_seq; [by apply write_headers_writes |]. apply writes_seq; [by apply write_byte_writes |].
  apply writes_seq.
  { destruct (Z.ltb_spec 0 (zlen (body f))); [by apply write_string_writes |].
    destruct (body f); [apply writes_ret | len]. }
  apply writes_seq; [|by apply write_byte_writes]. unfold terminator.
  destruct (_ || _); [by apply write_byte_writes | apply writes_ret].
Qed.

(** ** Strings without some characters *)
Lemma without_app bad s t : without bad (s ++ t) = without bad s && without bad t.
Proof. apply forallb_app. Qed.
Lemma without_find bad s c : without bad s = true -> elem c bad = true -> find_index (Z.eqb c) s = None.
Proof.
  intros Hs Hc. apply find_index_none. revert Hs. unfold without. rewrite !forallb_forall. intros Hs x Hx.
  specialize (Hs x Hx). apply andb_true_iff in Hs as [_ Hs]. destruct (Z.eqb_spec c x) as [->|]; [by rewrite Hc in Hs | done].
Qed.
Lemma without_bytes bad s : without bad s = true -> is_bytes s = true.
Proof. unfold without, is_bytes. rewrite !forallb_forall. intros Hs x Hx. specialize (Hs x Hx). by apply andb_true_iff in Hs as [? _]. Qed.
Lemma without_neq bad s c : without bad s = true -> elem c bad = true -> forallb (fun x => negb (x =? c)) s = true.
Proof.
  unfold without. rewrite !forallb_forall. intros Hs Hc x Hx. specialize (Hs x Hx). apply andb_true_iff in Hs as [_ Hs].
  destruct (Z.eqb_spec x c) as [->|]; [by rewrite Hc in Hs | done].
Qed.

Lemma c_string_nul s r : forallb (fun x => negb (x =? 0)) s = true -> c_string (s ++ 0 :: r) = s.
Proof.
  induction s as [|c s IH]; [done |]. cbn [forallb app c_string]. intros [Hc Hs]%andb_true_iff.
  apply negb_true_iff in Hc. rewrite Hc. f_equal. auto.
Qed.
Lemma c_string_id s : forallb (fun x => negb (x =? 0)) s = true -> c_string s = s.
Proof.
  induction s as [|c s IH]; [done |]. cbn [forallb c_string]. intros [Hc Hs]%andb_true_iff.
  apply negb_true_iff in Hc. rewrite Hc. f_equal. auto.
Qed.

Lemma find_index_first p s t i : find_index p s = Some i -> find_index p (s ++ t) = Some i.
Proof.
  revert i. induction s as [|c s IH]; [done |]. intros i. cbn [find_index app]. destruct (p c); [done |].
  destruct (find_index p s) as [j|]; [|done]. by rewrite (IH j eq_refl).
Qed.
Lemma find_index_after p s c t : find_index p s = None -> p c = true -> find_index p (s ++ c :: t) = Some (length s).
Proof.
  intros Hs Hc. induction s as [|x s IH]; cbn [find_index app length] in *; [by rewrite Hc |].
  destruct (p x); [done |]. destruct (find_index p s); [done |]. by rewrite IH.
Qed.

(** ** Headers that are read back in the order of the map *)
Lemma sorted_app_last {V} (k : list Z) (v : V) l acc : StlMap.sorted (acc ++ (k, v) :: l) = true ->
  forallb (fun kv => match StlMap.compare (fst kv) k with Lt => true | _ => false end) acc = true.
Proof.
  induction acc as [|[k' v'] acc IH]; [done |]. cbn [app StlMap.sorted forallb fst]. intros [Hb Hs]%andb_true_iff.
  unfold StlMap.below in Hb. rewrite forallb_app in Hb. cbn [forallb fst] in Hb.
  apply andb_true_iff in Hb as [_ [Hb _]%andb_true_iff]. rewrite IH by done. by destruct (StlMap.compare k' k).
Qed.
Lemma before_not_contained {V} (k : list Z) (acc : list (list Z * V)) :
  forallb (fun kv => match StlMap.compare (fst kv) k with Lt => true | _ => false end) acc = true ->
  StlMap.containsKey k acc = false.
Proof.
  intros Hacc. unfold StlMap.containsKey. assert (E : StlMap.find k acc = None); [|by rewrite E].
  induction acc as [|[k' v] acc IH]; [done |]. cbn [forallb fst StlMap.find] in *. apply andb_true_iff in Hacc as [H1 H2].
  rewrite StlMap.compare_antisym. destruct (StlMap.compare k' k); try done. by apply IH.
Qed.

Lemma add_header_last h acc l : header_ok h = true -> StlMap.sorted (acc ++ h :: l) = true ->
  add_header (fst h ++ 58 :: snd h ++ [0]) acc = acc ++ [h].
Proof.
  destruct h as [k v]. unfold header_ok. cbn [fst snd]. intros [Hk Hv]%andb_true_iff Hs. unfold add_header.
  rewrite (find_index_after _ k 58) by (done || by apply (without_find [0; 10; 58])).
  rewrite take_app_length, drop_app_ge, Nat.add_sub_swap, Nat.sub_diag by lia. change (drop (0 + 1) (58 :: v ++ [0])) with (v ++ [0]).
  rewrite c_string_id by (by apply (without_neq [0; 10; 58])). rewrite c_string_nul by (by apply (without_neq [0; 10])).
  apply sorted_app_last in Hs. rewrite before_not_contained by done. by apply StlMap.put_last.
Qed.

(** ** Reading a frame *)
Section Reads.
Context {St : Type} `{InputStreamLaws St}.

Lemma read_byte (k : Z -> M St (list Z)) b rest v : is_byte b = true ->
  (forall s, to_u8 s = b -> (s =? 0) = (b =? 0) -> reads (k s) rest v) ->
  reads (let* byte := DataInputStream.readByte in k byte) (b :: rest) v.
Proof.
  intros Hb Hk. change (b :: rest) with ([b] ++ rest). eapply reads_bind; [apply readByte_reads |]. apply is_u_spec in Hb.
  apply Hk; [by rewrite uwrap_swrap, uwrap_small by lia |].
  unfold swrap. destruct (Z.eqb_spec b 0) as [->|]; [done |]. apply Z.eqb_neq. change (2 ^ 8) with 256 in *. change (2 ^ (8 - 1)) with 128.
  intros E. assert (E' : (b + 128) mod 256 = 128) by lia. 
  pose proof (Z.div_mod (b + 128) 256 ltac:(lia)). lia.
Qed.

Lemma line_reads fuel : forall buf l, without [10] l = true -> (length l < fuel)%nat ->
  reads (readHeaderLine_loop fuel buf) (l ++ [10]) (buf ++ l ++ [0]).
Proof.
  induction fuel as [|fuel IH]; intros buf l Hl Hf; [lia |]. cbn [readHeaderLine_loop].
  destruct l as [|b l]; cbn [app].
  { apply read_byte; [done |]. intros s -> _. change (10 =? 10) with true. cbv iota. apply reads_ret. }
  cbn [without forallb] in Hl. apply andb_true_iff in Hl as [[Hb Hb10]%andb_true_iff Hl]. cbn in Hb10. rewrite orb_false_r in Hb10.
  apply read_byte; [done |]. intros s -> _. apply negb_true_iff in Hb10. rewrite Hb10.
  rewrite (snoc_app buf b (l ++ [0])). apply IH; [done | cbn in Hf; lia].
Qed.
Lemma readHeaderLine_reads fuel l : without [10] l = true -> (length l < fuel)%nat -> reads (readHeaderLine fuel) (l ++ [10]) (l ++ [0]).
Proof. intros Hl Hf. apply reads_catch. by apply (line_reads fuel []). Qed.

Lemma without_weaken bad bad' s : (forall c, elem c bad' = true -> elem c bad = true) -> without bad s = true -> without bad' s = true.
Proof.
  intros Hb. unfold without. rewrite !forallb_forall. intros Hs x Hx. specialize (Hs x Hx). apply andb_true_iff in Hs as [-> Hs].
  destruct (elem x bad') eqn:E; [|done]. by rewrite (Hb x E) in Hs.
Qed.

(** The line feed that ends a frame is skipped before the next one. *)
Lemma readCommandHeader_reads fuel pad cmd : command_ok cmd = true -> (pad + length cmd < fuel)%nat ->
  reads (readCommandHeader fuel) (repeat 10 pad ++ cmd ++ [10]) cmd.
Proof.
  intros Hc Hf. apply reads_catch.
  enough (Hg : forall lines, (pad < lines)%nat -> reads (readCommandHeader_loop lines fuel) (repeat 10 pad ++ cmd ++ [10]) cmd) by (apply Hg; lia).
  assert (Hfl : (length cmd < fuel)%nat) by lia. clear Hf.
  induction pad as [|pad IH]; intros [|lines] Hl; try lia; cbn [readCommandHeader_loop].
  - unfold command_ok in Hc. apply andb_true_iff in Hc as [Hc Hw]. change (repeat 10 0 ++ cmd ++ [10]) with (cmd ++ [10]).
    rewrite <- (app_nil_r (cmd ++ [10])).
    eapply reads_bind; [apply readHeaderLine_reads; [|done]; apply (without_weaken [0; 10]); [|done]; intros c; cbn; destruct (c =? 10); [by rewrite orb_true_r | done] |].
    rewrite length_app, Nat.add_sub, take_app_length. destruct cmd as [|c cmd]; [done |]. cbn [find_index]. rewrite Hw, drop_0.
    rewrite c_string_nul by (by apply (without_neq [0; 10])). apply reads_ret.
  - change (repeat 10 (S pad) ++ cmd ++ [10]) with (([] ++ [10]) ++ repeat 10 pad ++ cmd ++ [10]).
    eapply reads_bind; [apply readHeaderLine_reads; [done | cbn; lia] |]. cbn [app length take find_index Nat.sub]. apply IH. lia.
Qed.

Lemma readHeaders_reads fuel lines : forall l acc, forallb header_ok l = true -> StlMap.sorted (acc ++ l) = true ->
  forallb (fun h => (length (header_bytes h) <? fuel)%nat) l = true -> (0 < fuel)%nat -> (length l < lines)%nat ->
  reads (readHeaders_loop lines fuel acc) (concat (map header_bytes l) ++ [10]) (acc ++ l).
Proof.
  induction lines as [|lines IH]; intros l acc Hok Hs Hf H1 Hl; [lia |]. cbn [readHeaders_loop].
  destruct l as [|h l]; cbn [map concat app].
  - change [10] with (([] ++ [10]) ++ @nil Z). eapply reads_bind; [by apply readHeaderLine_reads |].
    rewrite app_nil_r. apply reads_ret.
  - cbn [forallb] in Hok, Hf. apply andb_true_iff in Hok as [Hh Hok]. apply andb_true_iff in Hf as [Hfh Hf].
    apply Nat.ltb_lt in Hfh. unfold header_bytes at 1. rewrite <- (app_assoc _ _ [10]).
    change (58 :: snd h ++ [10]) with ((58 :: snd h) ++ [10]). rewrite (app_assoc (fst h)).
    eapply reads_bind; [apply readHeaderLine_reads|].
    + unfold header_ok in Hh. apply andb_true_iff in Hh as [Hk Hv]. rewrite without_app. cbn [without forallb]. apply andb_true_iff; split.
      * apply (without_weaken [0; 10; 58]); [|done]. intros c. cbn. destruct (c =? 10); [by rewrite orb_true_r | done].
      * apply (without_weaken [0; 10]); [|done]. intros c. cbn. destruct (c =? 10); [by rewrite orb_true_r | done].
    + unfold header_bytes in Hfh. rewrite !length_app in *. cbn [length] in *. rewrite length_app in Hfh. lia.
    + replace ((fst h ++ 58 :: snd h) ++ [0]) with (fst h ++ 58 :: snd h ++ [0]) by (by rewrite <- app_assoc).
      rewrite !bool_decide_eq_false_2 by (by destruct (fst h) as [|? [|]]).
      rewrite (add_header_last h acc l) by done. rewrite (snoc_app acc h l) in Hs. rewrite (snoc_app acc h l).
      apply IH; try done. cbn in Hl. lia.
Qed.

Lemma readBody_loop_reads fuel : forall buf l, without [0] l = true -> (length l < fuel)%nat ->
  reads (readBody_loop fuel buf) (l ++ [0]) (buf ++ l ++ [0]).
Proof.
  induction fuel as [|fuel IH]; intros buf l Hl Hf; [lia |]. cbn [readBody_loop].
  destruct l as [|b l]; cbn [app].
  { apply read_byte; [done |]. intros s -> ->. apply reads_ret. }
  cbn [without forallb] in Hl. apply andb_true_iff in Hl as [[Hb Hb0]%andb_true_iff Hl]. cbn in Hb0. rewrite orb_false_r in Hb0.
  apply read_byte; [done |]. intros s -> ->. apply negb_true_iff in Hb0. rewrite Hb0.
  rewrite (snoc_app buf b (l ++ [0])). apply IH; [done | cbn in Hf; lia].
Qed.

(** The bytes after the headers, up to the end of the body. *)
Lemma readBody_reads fuel f : body_ok f = true -> short (body f) = true -> (S (length (body f)) < fuel)%nat ->
  reads (readBody fuel (properties f)) (body f ++ terminator f) (body (received f)).
Proof.
  intros Hb Hs Hf. apply reads_catch. unfold body_ok in Hb. unfold terminator, getProperty, short in *. apply Z.ltb_lt in Hs.
  pose proof (zlen_nonneg (body f)) as Hz. rewrite <- (app_nil_l (body f ++ _)).
  destruct (StlMap.find HEADER_CONTENTLENGTH (properties f)) as [len|] eqn:E.
  - apply andb_true_iff in Hb as [Hp%bool_decide_eq_true Hby]. eapply reads_bind.
    { intros rest s Hst. exists s. rewrite Hp. cbn [rbind]. done. }
    rewrite uwrap_small by lia. destruct (body f) as [|b l] eqn:Eb.
    + cbn [app]. unfold received. rewrite Eb. by apply (readBody_loop_reads fuel [] []); [|lia].
    + destruct (Z.eqb_spec (zlen (b :: l)) 0) as [E0|_]; [len |]. cbn [negb orb].
      assert (Hne : len <> []) by (intros ->; done). rewrite bool_decide_eq_false_2 by done. cbn [negb].
      rewrite swrap_small by lia. eapply reads_bind; [apply readFully_reads |]. unfold received. rewrite Eb.
      change [0] with ([0] ++ @nil Z). eapply reads_bind; [apply readByte_reads |]. rewrite Eb. apply reads_ret.
  - eapply reads_bind; [intros rest s Hst; by exists s |]. change (0 =? 0) with true. cbn [negb]. cbv iota.
    rewrite bool_decide_eq_true_2 by done. cbn [negb]. rewrite orb_false_r.
    destruct (rev (body f)) as [|c l] eqn:Er; apply (f_equal (@rev Z)) in Er; rewrite rev_involutive in Er; cbn [rev] in Er.
    + unfold received. rewrite Er. apply (readBody_loop_reads fuel [] []); [done |]. cbn [length]. lia.
    + apply andb_true_iff in Hb as [->%Z.eqb_eq Hl].
      assert (Hr : received f = f) by (unfold received; rewrite Er; by destruct (rev l)). rewrite Hr, Er.
      rewrite (proj2 (Z.eqb_neq (zlen (rev l ++ [0])) 0)) by (rewrite zlen_app; pose proof (zlen_nonneg (rev l)); change (zlen [0]) with 1; lia). rewrite app_nil_r.
      apply (readBody_loop_reads fuel []).
      * unfold without in *. rewrite forallb_forall in *. intros x Hx%in_rev. by apply Hl.
      * rewrite Er, length_app in Hf. cbn in Hf. lia.
Qed.

Lemma length_concat_in {A B} (g : A -> list B) x l : In x l -> (length (g x) <= length (concat (map g l)))%nat.
Proof. induction l as [|y l IH]; [done |]. cbn [In map concat]. rewrite length_app. intros [->|Hx]; [lia |]. specialize (IH Hx). lia. Qed.
Lemma length_headers l : (length l <= length (concat (map header_bytes l)))%nat.
Proof. induction l as [|h l IH]; [done |]. cbn [map concat]. unfold header_bytes at 1. rewrite !length_app. cbn [length]. rewrite length_app. cbn [length]. lia. Qed.

Lemma fromStream_reads fuel pad f : frame_ok f = true -> (pad + length (bytes f) < fuel)%nat ->
  reads (fromStream fuel) (repeat 10 pad ++ head_bytes f ++ body f ++ terminator f) (received f).
Proof.
  unfold frame_ok. rewrite !andb_true_iff. intros [[[[Hc Hs] Hh] Hb] [[_ _] Hsh]] Hf.
  unfold bytes, head_bytes in Hf. rewrite !length_app in Hf. cbn [length] in Hf. rewrite length_app in Hf. cbn [length] in Hf.
  apply reads_catch. unfold head_bytes. pose proof (length_headers (properties f)).
  replace (repeat 10 pad ++ (command f ++ 10 :: concat (map header_bytes (properties f)) ++ [10]) ++ body f ++ terminator f)
    with ((repeat 10 pad ++ command f ++ [10]) ++ (concat (map header_bytes (properties f)) ++ [10]) ++ (body f ++ terminator f) ++ [])
    by (by rewrite app_nil_r, <- !app_assoc; cbn [app]; rewrite <- !app_assoc).
  eapply reads_bind; [apply readCommandHeader_reads; [done | lia] |].
  eapply reads_bind.
  { apply reads_catch. apply (readHeaders_reads fuel fuel (properties f) []); try done; [|lia..].
    apply forallb_forall. intros h Hin. apply Nat.ltb_lt. pose proof (length_concat_in header_bytes h (properties f) Hin). lia. }
  cbn [app]. eapply reads_bind; [apply readBody_reads; [done.. | lia] |].
  replace (received f) with {| command := command f; properties := properties f; body := body (received f) |}; [apply reads_ret |].
  unfold received. destruct f as [? ? []]; done.
Qed.
End Reads.

(** ** Sequences of frames *)
Fixpoint write_frames (fs : list t) : M (list Z) unit :=
  match fs with [] => ret () | f :: fs => toStream f ;;; write_frames fs end.

Lemma frame_ok_writes f : frame_ok f = true -> writes (toStream f) (bytes f).
Proof. unfold frame_ok. rewrite !andb_true_iff. intros (_ & (? & ?) & ?). by apply toStream_writes. Qed.
Lemma write_frames_writes fs : forallb frame_ok fs = true -> writes (write_frames fs) (concat (map bytes fs)).
Proof.
  induction fs as [|f fs IH]; cbn [forallb write_frames map concat]; [intros _; apply writes_ret |].
  intros [Hf Hfs]%andb_true_iff. apply writes_seq; [by apply frame_ok_writes | auto].
Qed.

Section Streams.
Context {St : Type} `{InputStreamLaws St}.

(** The line feed of the last frame stays in the stream. *)
Lemma frames_reads fuel : forall fs pad, forallb frame_ok fs = true -> fs <> [] -> (pad <= 1)%nat ->
  (forall f, In f fs -> (1 + length (bytes f) < fuel)%nat) ->
  forall rest, exec (fun s => stream_at s (repeat 10 pad ++ concat (map bytes fs) ++ rest)) (repeatM (length fs) (fromStream fuel))
    (map received fs) (fun s => stream_at s (10 :: rest)).
Proof.
  induction fs as [|f fs IH]; intros pad Hok Hne Hpad Hf rest; [done |]. cbn [forallb length repeatM map concat] in *.
  apply andb_true_iff in Hok as [Hok1 Hok]. clear Hne.
  eapply (exec_bind _ (fun s => stream_at s (10 :: concat (map bytes fs) ++ rest))).
  { eapply exec_conseq; [| |apply (fromStream_reads fuel pad f Hok1 ltac:(specialize (Hf f ltac:(left; done)); lia) (10 :: concat (map bytes fs) ++ rest))]; cbn beta; [|done].
    intros s Hs. unfold bytes in Hs. rewrite <- !app_assoc in *. exact Hs. }
  destruct fs as [|f2 fs].
  { cbn [length repeatM map concat app]. eapply exec_bind; [apply exec_ret |]. apply exec_ret. }
  eapply exec_bind; [apply (IH 1%nat); [done | done | done |] | apply exec_ret].
  intros g Hg. specialize (Hf g ltac:(right; done)). lia.
Qed.

(** C14. A sequence of well-formed frames, written one after the other, is read back
    as the same frames by a receiver, however the bytes are fragmented, and
    nothing but a line feed is left of them in the stream. *)
Theorem stomp_frames_roundtrip fs : forallb frame_ok fs = true -> fs <> [] ->
  exists out, write_frames fs [] = Ok (tt, out) /\
    forall fuel rest s, (S (length out) < fuel)%nat -> stream_at s (out ++ rest) ->
      exists s', repeatM (length fs) (fromStream fuel) s = Ok (map received fs, s') /\ stream_at s' (10 :: rest).
Proof.
  intros Hok Hne. exists (concat (map bytes fs)). split; [by rewrite (write_frames_writes fs Hok []) |].
  intros fuel rest s Hf Hs. eapply (frames_reads fuel fs 0); [done | done | lia | | exact Hs].
  intros f Hin. pose proof (length_concat_in bytes f fs Hin). lia.
Qed.

(** ** Reading ends on every input *)
(** The result is a value, with less than [m] bytes left in the stream, or an
    exception. *)
Definition outcome {A} (r : result (A * St)) (m : nat) : Prop :=
  match r with
  | Ok (_, s') => exists l', stream_at s' l' /\ (length l' < m)%nat
  | Err (Throw _) => True
  | Err _ => False
  end.

Lemma outcome_le {A} (r : result (A * St)) m m' : outcome r m -> (m <= m')%nat -> outcome r m'.
Proof. unfold outcome. intros Hr Hm. destruct r as [[a s']|[]]; try done. destruct Hr as (l' & ? & ?). exists l'. split; [done | lia]. Qed.
Lemma outcome_bind {A B} (m : M St A) (k : A -> M St B) s n n' : outcome (m s) n ->
  (forall a s' l', m s = Ok (a, s') -> stream_at s' l' -> (length l' < n)%nat -> outcome (k a s') n') -> outcome (bind m k s) n'.
Proof. unfold bind. intros Hm Hk. destruct (m s) as [[a s']|[]]; try done. destruct Hm as (l' & ? & ?). eauto. Qed.
Lemma outcome_catch {A} (m : M St A) s n : outcome (m s) n -> outcome (catch_io m s) n.
Proof. unfold catch_io. by destruct (m s) as [[]|[]]. Qed.
Lemma outcome_ret {A} (a : A) s l n : stream_at s l -> (length l < n)%nat -> outcome (ret a s) n.
Proof. intros Hs Hl. by exists l. Qed.

Lemma readByte_outcome s l : stream_at s l -> outcome (DataInputStream.readByte s) (length l).
Proof.
  intros Hs. destruct l as [|b l].
  - unfold DataInputStream.readByte, bind. by rewrite (readAllData_eof 1 [] s Hs).
  - destruct (readByte_reads b l s Hs) as (s' & -> & Hs'). exists l. split; [done | cbn; lia].
Qed.
Lemma readFully_outcome n s l : stream_at s l -> outcome (DataInputStream.readFully n s) (S (length l)).
Proof.
  intros Hs. destruct (Z.lt_ge_cases (zlen l) n) as [Hn | Hn]; [by rewrite (readFully_eof n l s Hs)|].
  destruct (Z.lt_ge_cases n 0) as [Hneg | Hpos].
  { unfold DataInputStream.readFully, DataInputStream.readFully_at. destruct (Z.eqb_spec n 0); [lia |].
    by rewrite (proj2 (Z.ltb_lt n 0)). }
  rewrite <- (take_drop (Z.to_nat n) l) in Hs.
  destruct (readFully_reads_n n (take (Z.to_nat n) l)) with (rest := drop (Z.to_nat n) l) (s := s) as (s' & -> & Hs'); [|exact Hs|].
  - unfold zlen in *. rewrite length_take. lia.
  - exists (drop (Z.to_nat n) l). split; [done |]. rewrite length_drop. lia.
Qed.

Lemma line_outcome fuel : forall buf s l, stream_at s l -> (length l < fuel)%nat -> outcome (readHeaderLine_loop fuel buf s) (length l).
Proof.
  induction fuel as [|fuel IH]; intros buf s l Hs Hl; [lia |]. cbn [readHeaderLine_loop].
  eapply outcome_bind; [by apply readByte_outcome |]. intros v s' l' _ Hs' Hl'. cbv beta.
  destruct (_ =? 10); [by apply (outcome_ret _ _ l') |]. apply (outcome_le _ (length l')); [apply IH; [done | lia] | lia].
Qed.
Lemma header_line_outcome fuel s l : stream_at s l -> (length l < fuel)%nat -> outcome (readHeaderLine fuel s) (length l).
Proof. intros Hs Hl. by apply outcome_catch, line_outcome. Qed.

Lemma command_outcome fuel lines : forall s l, stream_at s l -> (length l < lines)%nat -> (length l < fuel)%nat ->
  outcome (readCommandHeader_loop lines fuel s) (length l).
Proof.
  induction lines as [|lines IH]; intros s l Hs Hl Hf; [lia |]. cbn [readCommandHeader_loop].
  eapply outcome_bind; [by apply header_line_outcome |]. intros buffer s' l' _ Hs' Hl'. cbv beta.
  destruct (find_index _ _); [by apply (outcome_ret _ _ l') |]. apply (outcome_le _ (length l')); [apply IH; [done | lia..] | lia].
Qed.
Lemma headers_outcome fuel lines : forall acc s l, stream_at s l -> (length l < lines)%nat -> (length l < fuel)%nat ->
  outcome (readHeaders_loop lines fuel acc s) (length l).
Proof.
  induction lines as [|lines IH]; intros acc s l Hs Hl Hf; [lia |]. cbn [readHeaders_loop].
  eapply outcome_bind; [by apply header_line_outcome |]. intros buffer s' l' _ Hs' Hl'. cbv beta.
  case_bool_decide; [done |]. case_bool_decide; [by apply (outcome_ret _ _ l') |].
  apply (outcome_le _ (length l')); [apply IH; [done | lia..] | lia].
Qed.
Lemma body_loop_outcome fuel : forall buf s l, stream_at s l -> (length l < fuel)%nat -> outcome (readBody_loop fuel buf s) (length l).
Proof.
  induction fuel as [|fuel IH]; intros buf s l Hs Hl; [lia |]. cbn [readBody_loop].
  eapply outcome_bind; [by apply readByte_outcome |]. intros v s' l' _ Hs' Hl'. cbv beta.
  destruct (_ =? 0); [by apply (outcome_ret _ _ l') |]. apply (outcome_le _ (length l')); [apply IH; [done | lia] | lia].
Qed.
Lemma body_outcome fuel headers s l : stream_at s l -> (length l < fuel)%nat -> outcome (readBody fuel headers s) (length l).
Proof.
  intros Hs Hl. apply outcome_catch. apply (outcome_bind _ _ _ (S (length l))).
  { destruct (StlMap.find _ _) as [length|]; [|exists l; split; [done | lia]].
    destruct (parseInt_cases length) as [[n ->]| ->]; [exists l; split; [done | lia] | done]. }
  intros n s1 l1 _ Hs1 Hl1. cbv beta. destruct (negb _); [|apply (outcome_le _ (length l1)); [apply body_loop_outcome; [done | lia] | lia]].
  eapply outcome_bind; [by apply readFully_outcome |]. intros body s2 l2 _ Hs2 Hl2. cbv beta.
  apply (outcome_bind _ _ _ (length l2)); [by apply readByte_outcome |]. intros v s3 l3 _ Hs3 Hl3. cbv beta.
  destruct (negb _); [done | apply (outcome_ret _ _ l3); [done | lia]].
Qed.

(** C15. Reading a frame ends on every input, however long and however malformed: with
    as much fuel as there are bytes in the stream it returns a frame, having
    consumed something, or throws an IOException. *)
Theorem frame_reading_ends fuel s l : stream_at s l -> (length l < fuel)%nat ->
  (exists f s' l', fromStream fuel s = Ok (f, s') /\ stream_at s' l' /\ (length l' < length l)%nat) \/
  (exists e, fromStream fuel s = Err (Throw e) /\ is_IOException e = true).
Proof.
  intros Hs Hl. assert (Ho : outcome (fromStream fuel s) (length l)).
  { apply outcome_catch. eapply outcome_bind; [by apply outcome_catch, command_outcome |]. intros cmd s1 l1 _ Hs1 Hl1. cbv beta.
    eapply outcome_bind; [apply outcome_catch, (headers_outcome _ _ _ _ l1); [done | lia..] |]. intros hs s2 l2 _ Hs2 Hl2. cbv beta.
    eapply outcome_bind; [apply (body_outcome _ _ _ l2); [done | lia] |]. intros b s3 l3 _ Hs3 Hl3. cbv beta.
    apply (outcome_ret _ _ l3); [done | lia]. }
  destruct (fromStream fuel s) as [[f s']|[e| |]] eqn:E; try done; [left | right].
  - destruct Ho as (l' & Hs' & Hl'). by exists f, s', l'.
  - exists e. split; [done |]. by apply catch_io_only_io in E.
Qed.
End Streams.

(** ** Values are not escaped *)
Definition no_length (f : t) : bool := negb (hasProperty f HEADER_CONTENTLENGTH).
Lemma no_length_terminator f : no_length f = true -> terminator f = if zlen (body f) =? 0 then [0] else [].
Proof.
  unfold no_length, hasProperty, StlMap.containsKey, terminator, getProperty. intros Hn.
  destruct (StlMap.find _ _); [done |]. rewrite bool_decide_eq_true_2 by done. by rewrite orb_false_r.
Qed.
Definition lengths_ok (f : t) : bool :=
  short (command f) && forallb (fun h => short (fst h) && short (snd h)) (properties f) && short (body f).
Lemma lengths_ok_writes f : lengths_ok f = true -> writes (toStream f) (bytes f).
Proof. unfold lengths_ok. rewrite !andb_true_iff. intros [[? ?] ?]. by apply toStream_writes. Qed.
Lemma short_le s s' : short s = true -> zlen s' <= zlen s -> short s' = true.
Proof. unfold short. rewrite !Z.ltb_lt. lia. Qed.
Lemma zlen_header_le h l : In h l -> zlen (fst h) + zlen (snd h) + 2 <= zlen (concat (map header_bytes l)).
Proof.
  intros Hin. pose proof (length_concat_in header_bytes h l Hin) as Hl. unfold header_bytes at 1 in Hl.
  rewrite length_app in Hl. cbn [length] in Hl. rewrite length_app in Hl. cbn [length] in Hl. unfold zlen. lia.
Qed.

(** The text that, as the value of a header, ends its frame with the body [b] and
    starts the frame of the command [cmd] and the headers [gs] and [(k, v)]. *)
Definition smuggle (value b cmd : list Z) (gs : list (list Z * list Z)) (k v : list Z) : list Z :=
  value ++ [10; 10] ++ b ++ [0; 10] ++ cmd ++ [10] ++ concat (map header_bytes gs) ++ k ++ [58] ++ v.

Lemma smuggle_bytes cmd hs1 hs2 key value b cmd2 gs k v body2 :
  let f := {| command := cmd; properties := hs1 ++ (key, smuggle value b cmd2 gs k v) :: hs2; body := body2 |} in
  let f1 := {| command := cmd; properties := hs1 ++ [(key, value)]; body := b ++ [0] |} in
  let f2 := {| command := cmd2; properties := gs ++ (k, v) :: hs2; body := body2 |} in
  no_length f = true -> no_length f1 = true -> no_length f2 = true -> bytes f = bytes f1 ++ bytes f2.
Proof.
  intros f f1 f2 H0 H1 H2. unfold bytes. rewrite !no_length_terminator by done. subst f f1 f2. cbn [command properties body].
  rewrite (proj2 (Z.eqb_neq (zlen (b ++ [0])) 0)) by (pose proof (zlen_nonneg b); rewrite zlen_app; change (zlen [0]) with 1; lia).
  unfold head_bytes, smuggle. cbn [command properties]. rewrite !map_app, !concat_app. cbn [map concat].
  assert (Hb : forall a c, header_bytes (a, c) = a ++ 58 :: c ++ [10]) by done. rewrite !Hb. repeat (rewrite <- !app_assoc; cbn [app]). done.
Qed.

(** The values of headers are written as they are: with a line feed in a value,
    what is written for one frame is what would be written for two, the second of
    which, its command, its headers and its body, is the choice of whoever
    chose the value. *)
Theorem unescaped_header_smuggles cmd hs1 hs2 key value b cmd2 gs k v body2 out :
  let f := {| command := cmd; properties := hs1 ++ (key, smuggle value b cmd2 gs k v) :: hs2; body := body2 |} in
  let f1 := {| command := cmd; properties := hs1 ++ [(key, value)]; body := b ++ [0] |} in
  let f2 := {| command := cmd2; properties := gs ++ (k, v) :: hs2; body := body2 |} in
  no_length f = true -> no_length f1 = true -> no_length f2 = true -> lengths_ok f = true ->
  toStream f out = (toStream f1 ;;; toStream f2) out.
Proof.
  intros f f1 f2 H0 H1 H2 Hf. pose proof Hf as Hl. unfold lengths_ok in Hl. cbn [command properties body f] in Hl.
  rewrite forallb_app in Hl. cbn [forallb fst snd] in Hl. rewrite !andb_true_iff in Hl. destruct Hl as [[Hc (Hh1 & [Hk Hw] & Hh2)] Hb].
  assert (Hz : zlen (smuggle value b cmd2 gs k v) = zlen value + zlen b + zlen cmd2 + zlen (concat (map header_bytes gs)) + zlen k + zlen v + 6).
  { unfold smuggle. rewrite !zlen_app. change (zlen [10; 10]) with 2. change (zlen [0; 10]) with 2. change (zlen [10]) with 1. change (zlen [58]) with 1. lia. }
  pose proof (zlen_nonneg value). pose proof (zlen_nonneg b). pose proof (zlen_nonneg cmd2). pose proof (zlen_nonneg k). pose proof (zlen_nonneg v).
  pose proof (zlen_nonneg (concat (map header_bytes gs))).
  assert (Hle : forall s, zlen s <= zlen (smuggle value b cmd2 gs k v) -> short s = true) by (intros s; by apply short_le).
  assert (H1' : lengths_ok f1 = true).
  { unfold lengths_ok, f1. cbn [command properties body]. rewrite forallb_app, Hc, Hh1. cbn [forallb fst snd]. rewrite Hk, (Hle value), (Hle (b ++ [0])); [done | | lia].
    rewrite zlen_app. change (zlen [0]) with 1. lia. }
  assert (H2' : lengths_ok f2 = true).
  { unfold lengths_ok, f2. cbn [command properties body]. rewrite forallb_app, Hb. cbn [forallb fst snd]. rewrite Hh2, (Hle cmd2), (Hle k), (Hle v) by lia.
    cbn [andb]. rewrite !andb_true_r. apply forallb_forall. intros h Hin. pose proof (zlen_header_le h gs Hin) as Hhz.
    pose proof (zlen_nonneg (fst h)). pose proof (zlen_nonneg (snd h)). rewrite !Hle by lia. done. }
  rewrite (lengths_ok_writes f Hf out). unfold bind. rewrite (lengths_ok_writes f1 H1' out), (lengths_ok_writes f2 H2' _).
  pose proof (smuggle_bytes cmd hs1 hs2 key value b cmd2 gs k v body2 H0 H1 H2) as E. cbv zeta in E. fold f f1 f2 in E.
  by rewrite E, app_assoc.
Qed.
End StompFrame.

(** ** Instances *)
Section Instances.
Import StompFrame.
Definition ack_frame : t := {| command := ACK; properties := [(HEADER_MESSAGEID, str "ID:h-1:2:1:1:7")]; body := [] |}.
Definition send_frame : t :=
  {| command := SEND; properties := [(HEADER_CONTENTLENGTH, str "3"); (HEADER_DESTINATION, str "/queue/A")]; body := [0; 10; 0] |}.

Lemma stomp_frames_roundtrip_witness :
  exists out, write_frames [send_frame; ack_frame] [] = Ok (tt, out) /\
    exists s', repeatM 2 (fromStream (length out + 2)) (ByteArrayInputStream.over out) = Ok ([send_frame; setBody ack_frame [0]], s').
Proof.
  destruct (stomp_frames_roundtrip (St := ByteArrayInputStream.t) [send_frame; ack_frame] eq_refl ltac:(discriminate)) as (out & Ho & Hr).
  exists out. split; [exact Ho |].
  destruct (Hr (length out + 2)%nat [] (ByteArrayInputStream.over out)) as (s' & Es & _); [lia | | by exists s'].
  rewrite app_nil_r. apply ByteArrayInputStream.over_at.
Defined.

Lemma frame_reading_ends_witness :
  (exists f s' l', fromStream 9 (ByteArrayInputStream.over (str "SEND")) = Ok (f, s') /\ stream_at s' l' /\ (length l' < 4)%nat) \/
  (exists e, fromStream 9 (ByteArrayInputStream.over (str "SEND")) = Err (Throw e) /\ is_IOException e = true).
Proof. exact (frame_reading_ends 9 _ (str "SEND") (ByteArrayInputStream.over_at _) ltac:(cbn; lia)). Defined.

(** A type chosen by the application sends a message to another queue. *)
Lemma unescaped_header_smuggles_witness :
  toStream {| command := SEND; properties := [(HEADER_DESTINATION, str "/queue/A")] ++
     (HEADER_TYPE, smuggle (str "t") (str "x") SEND [] HEADER_DESTINATION (str "/queue/B")) :: []; body := str "hello" ++ [0] |} [] =
  (toStream {| command := SEND; properties := [(HEADER_DESTINATION, str "/queue/A")] ++ [(HEADER_TYPE, str "t")]; body := str "x" ++ [0] |} ;;;
   toStream {| command := SEND; properties := [] ++ (HEADER_DESTINATION, str "/queue/B") :: []; body := str "hello" ++ [0] |}) [].
Proof.
  exact (unescaped_header_smuggles SEND [(HEADER_DESTINATION, str "/queue/A")] [] HEADER_TYPE (str "t") (str "x") SEND [] HEADER_DESTINATION
    (str "/queue/B") (str "hello" ++ [0]) [] eq_refl eq_refl eq_refl eq_refl).
Defined.
End Instances.
