(* ===== verification/Stomp.v ===== *)
(** * The Stomp wire format

    activemq/wireformat/stomp StompHelper (names of destinations, identifiers and
    the headers of messages), StompWireFormat (commands to frames and frames to
    commands) and StompWireFormatFactory, and what they use of
    activemq/commands/ActiveMQDestination.cpp (createDestination, composite
    destinations) and ActiveMQBytesMessage.cpp (getBodyBytes).  The frames are those
    of StompFrames.v.  The flag [receiving] is left out. *)

From S2P Require Import Prelude DataStreams PrimitiveTypes Support BooleanStreams Wire BaseMarshaller Commands Layouts.
From S2P Require Import MarshallerBase IdMarshallers MessageMarshallers MessageBodies Failover Consumer Numbers StompFrames.
Import StompCommandConstants.

Definition starts_with (p s : list Z) : bool := bool_decide (take (length p) s = p).

(** ** ActiveMQDestination *)
Module Destination.
Import ActiveMQDestination.
Section Env.
Context `{Platform}.

(** The constructors with a name, which call [ActiveMQDestination::setPhysicalName]
    even for the temporary destinations. *)
Definition create (k : kind) (name : list Z) : result t := setPhysicalName_base (default k) name.

(** cms::Destination::DestinationType *)
Definition TOPIC : Z := 0.
Definition QUEUE : Z := 1.
Definition TEMPORARY_TOPIC : Z := 2.
Definition TEMPORARY_QUEUE : Z := 3.
Definition getDestinationType (k : kind) : Z :=
  match k with Topic => TOPIC | Queue => QUEUE | TempTopic => TEMPORARY_TOPIC | TempQueue => TEMPORARY_QUEUE end.

Definition createDestination (type : Z) (name : list Z) : result t :=
  let after p := drop (length (str p)) name in
  if starts_with (str "queue://") name then create Queue (after "queue://")
  else if starts_with (str "topic://") name then create Topic (after "topic://")
  else if starts_with (str "temp-queue://") name then create TempQueue (after "temp-queue://")
  else if starts_with (str "temp-topic://") name then create TempTopic (after "temp-topic://")
  else if type =? QUEUE then create Queue name
  else if type =? TOPIC then create Topic name
  else if type =? TEMPORARY_QUEUE then create TempQueue name
  else if type =? TEMPORARY_TOPIC then create TempTopic name
  else throw IllegalArgumentException.

Definition isComposite (d : t) : bool := elem 44 (physicalName d).

(** [trim] of spaces and tabs. *)
Definition trim (input : list Z) : list Z :=
  let blank c := (c =? 32) || (c =? 9) in
  let fix skip s := match s with c :: s' => if blank c then skip s' else s | [] => [] end in
  rev (skip (rev (skip input))).

(** The components are the names in the order of a StlSet, without duplicates. *)
Definition component_names (names : list (list Z)) : list (list Z) :=
  map fst (fold_left (fun components name =>
    match trim name with [] => components | name => StlMap.put name tt components end) names []).
Fixpoint create_all (type : Z) (names : list (list Z)) : result (list t) :=
  match names with
  | [] => Ok []
  | name :: names => let! d := createDestination type name in let! ds := create_all type names in Ok (d :: ds)
  end.
Definition getCompositeDestinations (d : t) : result (list t) :=
  let! tokens := StringTokenizer.toArray (StringTokenizer.init (physicalName d) (str ",")) in
  create_all (getDestinationType (destinationType d)) (component_names (fst tokens)).
End Env.
End Destination.

(** ** ActiveMQBytesMessage: reading the whole body *)
Section BytesMessage.
Context (inflate : list Z -> result (list Z)).

(** [AMQ_CATCH_ALL_THROW_CMSEXCEPTION] *)
Definition as_cms {A} (r : result A) : result A := match r with Err (Throw e) => throw (to_cms e) | r => r end.

(** The length and the bytes of the body; a compressed body starts with its length. *)
Definition getBodyBytes {D} (m : Message.t D) : result (list Z) :=
  if negb (Message.readOnlyBody m) then throw CMSException
  else if Message.compressed m then as_cms (
    let! r := read_all (let* length := DataInputStream.readInt in fun s => Ok ((length, ByteArrayInputStream.pos s), s)) (Message.content m) in
    let '(length, pos) := r in
    if length =? 0 then Ok []
    else if length <? 0 then throw CMSException
    else
      let! bytes := inflate (drop (Z.to_nat pos) (Message.content m)) in
      if zlen bytes <? length then Err Undefined else Ok (take (Z.to_nat length) bytes))
  else Ok (Message.content m).
End BytesMessage.

(** The setters of a Message that the headers go through. *)
Definition set_headers {D} (dest : option ActiveMQDestination.t) (id : option MessageId.t) (correlation : list Z) (expiration priority : Z)
    (type : list Z) (replyTo : option ActiveMQDestination.t) (persistent : bool) (tx : option TransactionId.t) (redelivery : Z)
    (group : list Z) (seq : Z) (m : Message.t D) : Message.t D :=
  let 'Message.mk _ kind base prod _ _ odest _ otx _ _ _ _ _ _ _ ts _ content mp ds target compressed _ path arrival user df drp cluster bin bout first props ro conn := m in
  Message.mk _ kind base prod dest tx odest id otx group seq correlation persistent expiration priority replyTo ts type content mp ds target compressed
    redelivery path arrival user df drp cluster bin bout first props ro conn.
Definition set_content {D} (content : list Z) (m : Message.t D) : Message.t D :=
  Message.set_body m (Message.messageKind m) content (Message.compressed m) (Message.readOnlyBody m).

Module StompWireFormat.
Record t := mk {
  connectResponseId : Z;
  topicPrefix : list Z;
  queuePrefix : list Z;
  tempTopicPrefix : list Z;
  tempQueuePrefix : list Z;
  clientId : list Z;
  (** of the helper: messageIdGenerator *)
  lastSequenceId : Z
}.
Definition init : t := {| connectResponseId := -1; topicPrefix := str "/topic/"; queuePrefix := str "/queue/";
  tempTopicPrefix := str "/temp-topic/"; tempQueuePrefix := str "/temp-queue/"; clientId := []; lastSequenceId := 0 |}.

(** StompWireFormatFactory::createWireFormat *)
Definition createWireFormat (properties : list (list Z * list Z)) : t :=
  let get name default := match StlMap.find (str name) properties with Some v => v | None => str default end in
  {| connectResponseId := -1; topicPrefix := get "wireFormat.topicPrefix"%string "/topic/"%string;
     queuePrefix := get "wireFormat.queuePrefix"%string "/queue/"%string;
     tempTopicPrefix := get "wireFormat.tempTopicPrefix"%string "/temp-topic/"%string;
     tempQueuePrefix := get "wireFormat.tempQueuePrefix"%string "/temp-queue/"%string; clientId := []; lastSequenceId := 0 |}.

Definition connected (id : Z) (client : list Z) (w : t) : t :=
  {| connectResponseId := id; topicPrefix := topicPrefix w; queuePrefix := queuePrefix w; tempTopicPrefix := tempTopicPrefix w;
     tempQueuePrefix := tempQueuePrefix w; clientId := client; lastSequenceId := lastSequenceId w |}.
Definition set_lastSequenceId (n : Z) (w : t) : t :=
  {| connectResponseId := connectResponseId w; topicPrefix := topicPrefix w; queuePrefix := queuePrefix w; tempTopicPrefix := tempTopicPrefix w;
     tempQueuePrefix := tempQueuePrefix w; clientId := clientId w; lastSequenceId := n |}.
Definition getNextSequenceId : M t Z := fun w =>
  let n := to_s64 (lastSequenceId w + 1) in Ok (n, set_lastSequenceId n w).
Definition lift {A} (r : result A) : M t A := fun w => let! a := r in Ok (a, w).
End StompWireFormat.

(** ** StompHelper *)
Module StompHelper.
Import StompWireFormat.
Section Helper.
Context `{Platform} `{FloatText}.

Definition doConvertDestination (w : t) (d : ActiveMQDestination.t) : list Z :=
  let name := ActiveMQDestination.physicalName d in
  match ActiveMQDestination.destinationType d with
  | ActiveMQDestination.Topic => topicPrefix w ++ name
  | ActiveMQDestination.TempTopic => if starts_with (str "/remote-temp-topic/") name then name else tempTopicPrefix w ++ name
  | ActiveMQDestination.TempQueue => if starts_with (str "/remote-temp-queue/") name then name else tempQueuePrefix w ++ name
  | ActiveMQDestination.Queue => queuePrefix w ++ name
  end.

Definition convertDestination_out (w : t) (destination : option ActiveMQDestination.t) : result (list Z) :=
  match destination with
  | None => Ok []
  | Some d =>
    if Destination.isComposite d then
      let! ds := Destination.getCompositeDestinations d in
      Ok (fold_left (fun result composite =>
        (match result with [] => [] | _ => result ++ str "," end) ++ doConvertDestination w composite) ds [])
    else Ok (doConvertDestination w d)
  end.

Definition convertDestination_in (w : t) (destination : list Z) : result (option ActiveMQDestination.t) :=
  match destination with
  | [] => Ok None
  | _ =>
    let after p := drop (length p) destination in
    let '(type, dest) :=
      if starts_with (queuePrefix w) destination then (Destination.QUEUE, after (queuePrefix w))
      else if starts_with (topicPrefix w) destination then (Destination.TOPIC, after (topicPrefix w))
      else if starts_with (tempTopicPrefix w) destination then (Destination.TEMPORARY_TOPIC, after (tempTopicPrefix w))
      else if starts_with (tempQueuePrefix w) destination then (Destination.TEMPORARY_QUEUE, after (tempQueuePrefix w))
      else if starts_with (str "/remote-temp-topic/") destination then (Destination.TEMPORARY_TOPIC, [])
      else if starts_with (str "/remote-temp-queue/") destination then (Destination.TEMPORARY_QUEUE, [])
      else (0, []) in
    let! d := Destination.createDestination type dest in Ok (Some d)
  end.

Definition convertProducerId_out (id : option ProducerId.t) : result (list Z) :=
  let! id := follow id in Ok (ProducerId.connectionId id).
Definition convertProducerId_in (s : list Z) : option ProducerId.t :=
  match s with [] => None | _ => Some {| ProducerId.connectionId := s; ProducerId.value := -1; ProducerId.sessionId := -1 |} end.

Definition convertMessageId_out (id : option MessageId.t) : result (list Z) :=
  let! id := follow id in convertProducerId_out (MessageId.producerId id).
Definition convertMessageId_in (s : list Z) : M t (option MessageId.t) :=
  match s with
  | [] => ret None
  | _ => let* n := getNextSequenceId in
         ret (Some {| MessageId.textView := []; MessageId.producerId := convertProducerId_in s; MessageId.producerSequenceId := n; MessageId.brokerSequenceId := 0 |})
  end.

Definition convertConsumerId_out (id : option ConsumerId.t) : result (list Z) :=
  let! id := follow id in
  Ok (ConsumerId.connectionId id ++ str ":" ++ Long_toString (ConsumerId.sessionId id) ++ str ":" ++ Long_toString (ConsumerId.value id)).

(** The loop over the tokens that are left: the last one is the value, each of the
    others the session. *)
Fixpoint consumer_tokens (fuel : nat) (session value : Z) : M StringTokenizer.t (Z * Z) := fun tok =>
  match fuel with
  | O => Err NoFuel
  | S fuel =>
    if StringTokenizer.hasMoreTokens tok then
      (let* text := StringTokenizer.nextToken in
       fun tok => let! n := Long.parseLong text in
         if StringTokenizer.hasMoreTokens tok then consumer_tokens fuel n value tok else consumer_tokens fuel session n tok) tok
    else Ok ((session, value), tok)
  end.
Definition convertConsumerId_in (s : list Z) : result (option ConsumerId.t) :=
  match s with
  | [] => Ok None
  | _ =>
    let! r := (let* a := StringTokenizer.nextToken in let* b := StringTokenizer.nextToken in let* c := StringTokenizer.nextToken in
               let* '(session, value) := consumer_tokens (S (length s)) 0 0 in
               ret {| ConsumerId.connectionId := a ++ str ":" ++ b ++ str ":" ++ c; ConsumerId.sessionId := session; ConsumerId.value := value |})
              (StringTokenizer.init s (str ":")) in
    Ok (Some (fst r))
  end.

(** [dynamicCast<LocalTransactionId>] *)
Definition local_id (id : option TransactionId.t) : result LocalTransactionId.t :=
  match id with Some (TransactionId.LocalTransactionId id) => Ok id | _ => throw ClassCastException end.
Definition convertTransactionId_out (id : option TransactionId.t) : result (list Z) :=
  let! id := local_id id in
  let! c := follow (LocalTransactionId.connectionId id) in
  Ok (ConnectionId.value c ++ str ":" ++ Long_toString (LocalTransactionId.value id)).

(** Every token that is left is taken for the value. *)
Fixpoint transaction_tokens (fuel : nat) (value : Z) : M StringTokenizer.t Z := fun tok =>
  match fuel with
  | O => Err NoFuel
  | S fuel =>
    if StringTokenizer.hasMoreTokens tok then
      (let* text := StringTokenizer.nextToken in fun tok => let! n := Long.parseLong text in transaction_tokens fuel n tok) tok
    else Ok (value, tok)
  end.
Definition convertTransactionId_in (s : list Z) : result (option TransactionId.t) :=
  match s with
  | [] => Ok None
  | _ =>
    let! r := (let* a := StringTokenizer.nextToken in let* b := StringTokenizer.nextToken in
               let* value := transaction_tokens (S (length s)) 0 in
               ret {| LocalTransactionId.value := value; LocalTransactionId.connectionId := Some {| ConnectionId.value := a ++ str ":" ++ b |} |})
              (StringTokenizer.init s (str ":")) in
    Ok (Some (TransactionId.LocalTransactionId (fst r)))
  end.

(** A header that may be missing. *)
Definition header {A} (frame : StompFrame.t) (name : list Z) (convert : list Z -> result A) (default : A) : result A :=
  if StompFrame.hasProperty frame name then convert (StompFrame.removeProperty frame name) else Ok default.

(** [convertProperties(frame, message)]: the general headers, those just read among
    them, become properties of the message. *)
Definition convertProperties_in {D} (frame : StompFrame.t) (m : Message.t D) : M t (Message.t D) := fun w =>
  let! dest := convertDestination_in w (StompFrame.removeProperty frame HEADER_DESTINATION) in
  let! r := convertMessageId_in (StompFrame.removeProperty frame HEADER_MESSAGEID) w in
  let '(id, w) := r in
  let! correlation := header frame HEADER_CORRELATIONID (fun s => Ok s) (Message.correlationId m) in
  let! expiration := header frame HEADER_EXPIRES Long.parseLong (Message.expiration m) in
  let! priority := header frame HEADER_JMSPRIORITY (fun s => let! n := Integer.parseInt s in Ok (to_u8 n)) (Message.priority m) in
  let! type := header frame HEADER_TYPE (fun s => Ok s) (Message.type m) in
  let! reply := header frame HEADER_REPLYTO (convertDestination_in w) (Message.replyTo m) in
  let! persistent := header frame HEADER_PERSISTENT (fun s => Ok (WireFormatInfo.parseBoolean s)) (Message.persistent m) in
  let! tx := header frame HEADER_TRANSACTIONID convertTransactionId_in (Message.transactionId m) in
  let! redelivery := header frame (str "JMSXDeliveryCount") Integer.parseInt (Message.redeliveryCounter m) in
  let! group := header frame (str "JMSXGroupID") (fun s => Ok s) (Message.groupID m) in
  let! seq := header frame (str "JMSXGroupSeq") Integer.parseInt (Message.groupSequence m) in
  let m := set_headers dest id correlation expiration priority type reply persistent tx redelivery group seq m in
  Ok (Message.set_properties m (fold_left (fun p '(name, value) => StlMap.put name (STRING_TYPE value) p) (StompFrame.properties frame) (Message.properties m)), w).

Definition set_when (b : bool) (name value : list Z) (f : StompFrame.t) : StompFrame.t := if b then StompFrame.setProperty f name value else f.

(** The properties of the application are set last. *)
Fixpoint set_properties (entries all : PrimitiveMap) (f : StompFrame.t) : result StompFrame.t :=
  match entries with
  | [] => Ok f
  | (key, _) :: entries => let! value := getString all key in set_properties entries all (StompFrame.setProperty f key value)
  end.

(** [convertProperties(message, frame)] *)
Definition convertProperties_out {D} (w : t) (m : Message.t D) (f : StompFrame.t) : result StompFrame.t :=
  let! dest := convertDestination_out w (Message.destination m) in
  let f := StompFrame.setProperty f HEADER_DESTINATION dest in
  let f := set_when (nonempty (Message.correlationId m)) HEADER_CORRELATIONID (Message.correlationId m) f in
  let f := StompFrame.setProperty f HEADER_EXPIRES (Long_toString (Message.expiration m)) in
  let f := StompFrame.setProperty f HEADER_PERSISTENT (Boolean_toString (Message.persistent m)) in
  let f := set_when (negb (Message.redeliveryCounter m =? 0)) HEADER_REDELIVERED (str "true") f in
  let f := StompFrame.setProperty f HEADER_JMSPRIORITY (Integer_toString (Message.priority m)) in
  let! f := match Message.replyTo m with
            | None => Ok f
            | Some r => let! s := convertDestination_out w (Some r) in Ok (StompFrame.setProperty f HEADER_REPLYTO s)
            end in
  let f := StompFrame.setProperty f HEADER_TIMESTAMP (Long_toString (Message.timestamp m)) in
  let f := set_when (nonempty (Message.type m)) HEADER_TYPE (Message.type m) f in
  let! f := match Message.transactionId m with
            | None => Ok f
            | Some id => let! s := convertTransactionId_out (Some id) in Ok (StompFrame.setProperty f HEADER_TRANSACTIONID s)
            end in
  let f := StompFrame.setProperty f (str "JMSXDeliveryCount") (Integer_toString (Message.redeliveryCounter m)) in
  let f := StompFrame.setProperty f (str "JMSXGroupSeq") (Integer_toString (Message.groupSequence m)) in
  let f := set_when (nonempty (Message.groupID m)) (str "JMSXGroupID") (Message.groupID m) f in
  set_properties (Message.properties m) (Message.properties m) f.
End Helper.
End StompHelper.

(** ** StompWireFormat: commands to frames *)
Section WireFormat.
Import StompWireFormat StompHelper.
Context `{Platform} `{FloatText} (inflate : list Z -> result (list Z)).

Definition named (cmd : list Z) : StompFrame.t := StompFrame.setCommand StompFrame.empty cmd.
Definition receipt (prefix : list Z) (b : BaseCommand.t) (f : StompFrame.t) : StompFrame.t :=
  set_when (BaseCommand.responseRequired b) HEADER_RECEIPT_REQUIRED (prefix ++ Integer_toString (BaseCommand.commandId b)) f.

Definition marshalMessage (w : t) (m : Message.t DataStructure) : result StompFrame.t :=
  let! f := convertProperties_out w m (receipt [] (Message.base m) (named SEND)) in
  match Message.messageKind m with
  | Message.ActiveMQTextMessage _ => let! text := as_cms (getText inflate m) in Ok (StompFrame.setBody f (text ++ [0]))
  | Message.ActiveMQBytesMessage =>
    let! bytes := getBodyBytes inflate m in
    Ok (StompFrame.setProperty (StompFrame.setBody f bytes) HEADER_CONTENTLENGTH (Long_toString (zlen bytes)))
  | _ => throw UnsupportedOperationException
  end.

Definition marshalAck (ack : MessageAck.t) : result StompFrame.t :=
  let f := receipt (str "ignore:") (MessageAck.base ack) (named ACK) in
  let! id := convertMessageId_out (MessageAck.lastMessageId ack) in
  let f := StompFrame.setProperty f HEADER_MESSAGEID id in
  match MessageAck.transactionId ack with
  | None => Ok f
  | Some tx => let! s := convertTransactionId_out (Some tx) in Ok (StompFrame.setProperty f HEADER_TRANSACTIONID s)
  end.

Definition marshalConnectionInfo (info : ConnectionInfo.t) : M t StompFrame.t := fun w =>
  let f := StompFrame.setProperty (named CONNECT) HEADER_CLIENT_ID (ConnectionInfo.clientId info) in
  let f := StompFrame.setProperty f HEADER_LOGIN (ConnectionInfo.userName info) in
  let f := StompFrame.setProperty f HEADER_PASSWORD (ConnectionInfo.password info) in
  Ok (f, connected (BaseCommand.commandId (ConnectionInfo.base info)) (ConnectionInfo.clientId info) w).

Definition marshalTransactionInfo (info : TransactionInfo.t) : result StompFrame.t :=
  let! _ := local_id (TransactionInfo.transactionId info) in
  let type := TransactionInfo.type info in
  let f := if type =? TRANSACTION_STATE_BEGIN then named BEGIN
           else if type =? TRANSACTION_STATE_ROLLBACK then named ABORT
           else if type =? TRANSACTION_STATE_COMMITONEPHASE then named COMMIT
           else StompFrame.empty in
  let f := receipt [] (TransactionInfo.base info) f in
  let! tx := convertTransactionId_out (TransactionInfo.transactionId info) in
  Ok (StompFrame.setProperty f HEADER_TRANSACTIONID tx).

Definition marshalShutdownInfo (info : ShutdownInfo.t) : StompFrame.t := receipt [] (ShutdownInfo.base info) (named DISCONNECT).

(** Only the removal of a consumer has a frame. *)
Definition marshalRemoveInfo (info : RemoveInfo.t DataStructure) : result (option StompFrame.t) :=
  match RemoveInfo.objectId info with
  | Some (DConsumerId id) =>
    let! s := convertConsumerId_out (Some id) in
    Ok (Some (StompFrame.setProperty (receipt [] (RemoveInfo.base info) (named UNSUBSCRIBE)) HEADER_ID s))
  | _ => Ok None
  end.

Definition marshalConsumerInfo (w : t) (info : ConsumerInfo.t) : result StompFrame.t :=
  let f := receipt [] (ConsumerInfo.base info) (named SUBSCRIBE) in
  let! dest := convertDestination_out w (ConsumerInfo.destination info) in
  let f := StompFrame.setProperty f HEADER_DESTINATION dest in
  let! id := convertConsumerId_out (ConsumerInfo.consumerId info) in
  let f := StompFrame.setProperty f HEADER_ID id in
  let name := ConsumerInfo.subscriptionName info in
  let! f := if nonempty name then
      if negb (bool_decide (clientId w = name)) then throw UnsupportedOperationException
      else Ok (StompFrame.setProperty (StompFrame.setProperty f HEADER_SUBSCRIPTIONNAME name) HEADER_OLDSUBSCRIPTIONNAME name)
    else Ok f in
  let f := set_when (nonempty (ConsumerInfo.selector info)) HEADER_SELECTOR (ConsumerInfo.selector info) f in
  let f := StompFrame.setProperty f HEADER_ACK (str "client") in
  let f := set_when (ConsumerInfo.noLocal info) HEADER_NOLOCAL (str "true") f in
  let f := StompFrame.setProperty f HEADER_DISPATCH_ASYNC (Boolean_toString (ConsumerInfo.dispatchAsync info)) in
  let f := set_when (ConsumerInfo.exclusive info) HEADER_EXCLUSIVE (str "true") f in
  let f := StompFrame.setProperty f HEADER_MAXPENDINGMSGLIMIT (Integer_toString (ConsumerInfo.maximumPendingMessageLimit info)) in
  let f := StompFrame.setProperty f HEADER_PREFETCHSIZE (Integer_toString (ConsumerInfo.prefetchSize info)) in
  let f := StompFrame.setProperty f HEADER_CONSUMERPRIORITY (Integer_toString (ConsumerInfo.priority info)) in
  Ok (set_when (ConsumerInfo.retroactive info) HEADER_RETROACTIVE (str "true") f).

Definition marshalRemoveSubscriptionInfo (info : RemoveSubscriptionInfo.t) : StompFrame.t :=
  let f := receipt (str "ignore:") (RemoveSubscriptionInfo.base info) (named UNSUBSCRIBE) in
  let client := RemoveSubscriptionInfo.clientId info in
  StompFrame.setProperty (StompFrame.setProperty (StompFrame.setProperty f HEADER_ID client) HEADER_SUBSCRIPTIONNAME client)
    HEADER_OLDSUBSCRIPTIONNAME client.

(** The frame of a command, if it has one. *)
Definition frame_of (command : DataStructure) : M t (option StompFrame.t) := fun w =>
  match command with
  | DMessage m => let! f := marshalMessage w m in Ok (Some f, w)
  | DRemoveInfo info => let! f := marshalRemoveInfo info in Ok (f, w)
  | DShutdownInfo info => Ok (Some (marshalShutdownInfo info), w)
  | DMessageAck ack => let! f := marshalAck ack in Ok (Some f, w)
  | DConnectionInfo info => let! r := marshalConnectionInfo info w in Ok (Some (fst r), snd r)
  | DTransactionInfo info => let! f := marshalTransactionInfo info in Ok (Some f, w)
  | DConsumerInfo info => let! f := marshalConsumerInfo w info in Ok (Some f, w)
  | DRemoveSubscriptionInfo info => Ok (Some (marshalRemoveSubscriptionInfo info), w)
  | _ => Ok (None, w)
  end.

(** [marshal]: a command without a frame is dropped; when it wants a response, the
    listener of the transport, if there is one, is given one at once.  The state is
    that of the wire format and the bytes written. *)
Definition marshal (listening : bool) (command : DataStructure) : M (t * list Z) (option Response.t) :=
  catch_io (fun '(w, out) =>
    let! r := frame_of command w in
    let '(frame, w) := r in
    match frame with
    | None =>
      Ok (if isResponseRequired command && listening
          then Some {| Response.base := BaseCommand.default; Response.correlationId := getCommandId command |} else None, (w, out))
    | Some f => let! r := StompFrame.toStream f out in Ok (None, (w, snd r))
    end).

(** ** Frames to commands *)
Inductive unmarshalled :=
| Command (command : DataStructure)
| BrokerFailure (error : BrokerError.t).

Definition unmarshalMessage (f : StompFrame.t) : M t unmarshalled := fun w =>
  let! consumerId := convertConsumerId_in (StompFrame.removeProperty f HEADER_SUBSCRIPTION) in
  let dispatch (m : Message.t DataStructure) : unmarshalled :=
    Command (DMessageDispatch (MessageDispatch.mk _ BaseCommand.default consumerId (Message.destination m) (Some m) 0)) in
  if StompFrame.hasProperty f HEADER_CONTENTLENGTH then
    let! r := convertProperties_in f (Message.default Message.ActiveMQBytesMessage) w in
    Ok (dispatch (set_content (StompFrame.body f) (fst r)), snd r)
  else
    let! r := convertProperties_in f (Message.default (Message.ActiveMQTextMessage None)) w in
    match StompFrame.body f with
    | [] => Err Undefined
    | body => let m := fst r in
      Ok (dispatch (Message.set_body m (Message.ActiveMQTextMessage (Some (c_string body))) (Message.content m) (Message.compressed m) (Message.readOnlyBody m)), snd r)
    end.

Definition response (id : Z) : Response.t := {| Response.base := BaseCommand.default; Response.correlationId := id |}.
Definition ignored (id : list Z) : bool := starts_with (str "ignore:") id.

Definition unmarshalReceipt (f : StompFrame.t) : result unmarshalled :=
  if StompFrame.hasProperty f HEADER_RECEIPTID then
    let id := StompFrame.getProperty f HEADER_RECEIPTID in
    let! n := Integer.parseInt (if ignored id then drop 7 id else id) in
    Ok (Command (DResponse (response n)))
  else throw IOException.

Definition unmarshalConnected (w : t) : result unmarshalled :=
  if negb (connectResponseId w =? -1) then Ok (Command (DResponse (response (connectResponseId w)))) else throw IOException.

Definition unmarshalError (f : StompFrame.t) : result unmarshalled :=
  let error := {| BrokerError.exceptionClass := []; BrokerError.message := StompFrame.removeProperty f HEADER_MESSAGE;
                  BrokerError.stackTraceElements := []; BrokerError.cause := None |} in
  if StompFrame.hasProperty f HEADER_RECEIPTID then
    let id := StompFrame.removeProperty f HEADER_RECEIPTID in
    if ignored id then let! n := Integer.parseInt (drop 7 id) in Ok (Command (DResponse (response n)))
    else let! n := Integer.parseInt id in
         Ok (Command (DExceptionResponse {| ExceptionResponse.base := response n; ExceptionResponse.exception := Some error |}))
  else Ok (BrokerFailure error).

Definition unmarshalFrame (f : StompFrame.t) : M t unmarshalled := fun w =>
  let cmd := StompFrame.command f in
  if bool_decide (cmd = CONNECTED) then let! r := unmarshalConnected w in Ok (r, w)
  else if bool_decide (cmd = ERROR_CMD) then let! r := unmarshalError f in Ok (r, w)
  else if bool_decide (cmd = RECEIPT) then let! r := unmarshalReceipt f in Ok (r, w)
  else if bool_decide (cmd = MESSAGE) then unmarshalMessage f w
  else throw IOException.

Definition unmarshal {St} `{InputStream St} (fuel : nat) : M (t * St) unmarshalled :=
  catch_io (fun '(w, s) =>
    let! r := StompFrame.fromStream fuel s in
    let '(f, s) := r in
    let! u := unmarshalFrame f w in
    Ok (fst u, (snd u, s))).
End WireFormat.
