(* ===== verification/StompLaws.v ===== *)
(** * Laws of the Stomp wire format

    The headers of a frame as the list of what was set, in order; the tokens of an
    identifier; what becomes of the names of destinations and of the identifiers that
    are written by one client and read by another. *)

From S2P Require Import Prelude DataStreams PrimitiveTypes Support BooleanStreams Wire BaseMarshaller Commands Layouts Destinations.
From S2P Require Import MarshallerBase IdMarshallers MessageMarshallers MessageBodies Failover Consumer Numbers StompFrames Stomp.
Import StompCommandConstants.
Import StompFrame(without, without_app, without_neq, without_weaken, header_ok).

(** ** Headers *)
Definition same (a b : list Z) : bool := match StlMap.compare a b with Eq => true | _ => false end.
Lemma same_spec a b : same a b = true <-> a = b.
Proof.
  unfold same. split.
  - destruct (StlMap.compare a b) eqn:E; [intros _; by apply StlMap.compare_eq | done..].
  - intros ->. by rewrite StlMap.compare_refl.
Qed.
Lemma same_refl a : same a a = true.
Proof. by apply same_spec. Qed.
Lemma same_decide a b : bool_decide (a = b) = same a b.
Proof.
  destruct (same a b) eqn:E; [by apply bool_decide_eq_true_2, same_spec |].
  apply bool_decide_eq_false_2. intros H%same_spec. congruence.
Qed.

(** The value that was set last. *)
Fixpoint assoc {V} (k : list Z) (l : list (list Z * V)) : option V :=
  match l with
  | [] => None
  | (n, v) :: l => match assoc k l with Some w => Some w | None => if same k n then Some v else None end
  end.
Definition puts {V} (l m : list (list Z * V)) : list (list Z * V) := fold_left (fun m '(n, v) => StlMap.put n v m) l m.

Lemma puts_app {V} (a b m : list (list Z * V)) : puts (a ++ b) m = puts b (puts a m).
Proof. apply fold_left_app. Qed.
Lemma puts_sorted {V} l : forall m : list (list Z * V), StlMap.sorted m = true -> StlMap.sorted (puts l m) = true.
Proof. induction l as [|[n v] l IH]; intros m Hm; [done |]. by apply IH, StlMap.put_sorted. Qed.
Lemma find_puts {V} k l : forall m : list (list Z * V), StlMap.sorted m = true ->
  StlMap.find k (puts l m) = match assoc k l with Some v => Some v | None => StlMap.find k m end.
Proof.
  induction l as [|[n v] l IH]; intros m Hm; [done |]. cbn [puts fold_left assoc]. change (fold_left _ l ?x) with (puts l x).
  rewrite IH by (by apply StlMap.put_sorted). rewrite StlMap.find_put, same_decide by done.
  destruct (assoc k l); [done |]. by destruct (same k n).
Qed.
Lemma assoc_app {V} k (a b : list (list Z * V)) : assoc k (a ++ b) = match assoc k b with Some v => Some v | None => assoc k a end.
Proof.
  induction a as [|[n v] a IH]; cbn [app assoc]; [by destruct (assoc k b) |]. rewrite IH. by destruct (assoc k b).
Qed.
Lemma assoc_none {V} k (l : list (list Z * V)) : forallb (fun h => negb (same k (fst h))) l = true -> assoc k l = None.
Proof.
  induction l as [|[n v] l IH]; [done |]. cbn [forallb fst assoc]. intros [Hn Hl]%andb_true_iff.
  rewrite IH by done. apply negb_true_iff in Hn. by rewrite Hn.
Qed.
Lemma forallb_put {V} P k (v : V) m : P (k, v) = true -> forallb P m = true -> forallb P (StlMap.put k v m) = true.
Proof.
  intros Hk. induction m as [|[n w] m IH]; cbn [StlMap.put forallb]; [by rewrite Hk |].
  intros [Hn Hm]%andb_true_iff. destruct (StlMap.compare k n); cbn [forallb]; by rewrite ?Hk, ?Hn, ?Hm, ?IH.
Qed.
Lemma forallb_puts {V} P l : forall m : list (list Z * V), forallb P l = true -> forallb P m = true -> forallb P (puts l m) = true.
Proof.
  induction l as [|[n v] l IH]; intros m Hl Hm; [done |]. cbn [forallb] in Hl. apply andb_true_iff in Hl as [Hn Hl].
  apply IH; [done |]. by apply forallb_put.
Qed.
(** Lookup in a sorted map is lookup in its list of entries. *)
Lemma assoc_sorted {V} k (m : list (list Z * V)) : StlMap.sorted m = true -> assoc k m = StlMap.find k m.
Proof.
  induction m as [|[n v] m IH]; [done |]. cbn [StlMap.sorted assoc StlMap.find]. intros [Hb Hs]%andb_true_iff.
  rewrite IH by done. unfold same. destruct (StlMap.compare k n) eqn:E.
  - apply StlMap.compare_eq in E as ->. by rewrite StlMap.below_find.
  - by destruct (StlMap.find k m).
  - by destruct (StlMap.find k m).
Qed.

(** A frame with headers set. *)
Definition with_headers (l : list (list Z * list Z)) (f : StompFrame.t) : StompFrame.t :=
  {| StompFrame.command := StompFrame.command f; StompFrame.properties := puts l (StompFrame.properties f); StompFrame.body := StompFrame.body f |}.
Lemma with_headers_app a b f : with_headers b (with_headers a f) = with_headers (a ++ b) f.
Proof. unfold with_headers. cbn. by rewrite puts_app. Qed.
Lemma setProperty_headers n v f : StompFrame.setProperty f n v = with_headers [(n, v)] f.
Proof. done. Qed.
Lemma set_when_headers b n v f : StompHelper.set_when b n v f = with_headers (if b then [(n, v)] else []) f.
Proof. destruct b; [done |]. by destruct f. Qed.

(** The properties of the application, as headers. *)
Fixpoint texts `{FloatText} (entries all : PrimitiveMap) : result (list (list Z * list Z)) :=
  match entries with
  | [] => Ok []
  | (key, _) :: entries => let! v := getString all key in let! l := texts entries all in Ok ((key, v) :: l)
  end.
Lemma set_properties_headers `{FloatText} entries all : forall f,
  StompHelper.set_properties entries all f = let! l := texts entries all in Ok (with_headers l f).
Proof.
  induction entries as [|[key v] entries IH]; intros f; cbn [StompHelper.set_properties texts]; [by destruct f |].
  destruct (getString all key) as [s|]; [|done]. cbn [rbind]. rewrite IH, setProperty_headers.
  destruct (texts entries all); [|done]. cbn [rbind]. by rewrite with_headers_app.
Qed.

(** ** Tokens *)
(** What is left of a tokenizer's string, in segments. *)
Definition remaining (tok : StringTokenizer.t) : list (list Z) :=
  match StringTokenizer.pos tok with
  | Some p => segments (StringTokenizer.delim tok) (drop p (StringTokenizer.str tok))
  | None => []
  end.

Lemma hasMoreTokens_remaining tok : StringTokenizer.hasMoreTokens tok = match remaining tok with [] => false | _ => true end.
Proof.
  destruct tok as [s d [p|]]; [|done]. unfold StringTokenizer.hasMoreTokens, remaining, find_first_not_of, find_from.
  cbn [StringTokenizer.str StringTokenizer.delim StringTokenizer.pos].
  destruct (find_index (fun c => negb (elem c d)) (drop p s)) as [j|] eqn:Ej; cbn [fmap option_fmap option_map].
  - destruct (find_index_Some _ _ _ Ej) as (Hj & Hskip & c & r & Hd & Hc).
    rewrite <- (take_drop j (drop p s)), segments_skip.
    2: { rewrite forallb_forall in *. intros x Hx. specialize (Hskip x Hx). by destruct (elem x d). }
    rewrite Hd. destruct (segments d (c :: r)) eqn:E; [|done]. exfalso. apply negb_true_iff in Hc.
    unfold segments in E. cbn [split] in E. rewrite Hc in E. pose proof (split_nonnil d r). by destruct (split d r).
  - apply find_index_None in Ej. rewrite segments_delims; [done |].
    rewrite forallb_forall in *. intros c Hc. specialize (Ej c Hc). by apply negb_true_iff, negb_false_iff in Ej.
Qed.

Lemma nextToken_remaining tok t ts : remaining tok = t :: ts ->
  exists tok', StringTokenizer.nextToken tok = Ok (t, tok') /\ remaining tok' = ts.
Proof.
  intros Hr. destruct tok as [s d [p|]]; [|done]. pose proof (hasMoreTokens_remaining (StringTokenizer.mk s d (Some p))) as Hm.
  rewrite Hr in Hm. unfold StringTokenizer.hasMoreTokens, find_first_not_of, find_from in Hm. unfold remaining in Hr.
  unfold StringTokenizer.nextToken, find_first_not_of, find_first_of, find_from.
  cbn [StringTokenizer.str StringTokenizer.delim StringTokenizer.pos] in *.
  destruct (find_index (fun c => negb (elem c d)) (drop p s)) as [j|] eqn:Ej; [|done]. clear Hm. cbn [fmap option_fmap option_map].
  destruct (find_index_Some _ _ _ Ej) as (Hj & Hskip & c & r & Hd & Hc). rewrite drop_drop in Hd.
  assert (Hseg : segments d (drop p s) = segments d (drop (p + j) s)).
  { rewrite <- (take_drop j (drop p s)), drop_drop. apply segments_skip.
    rewrite forallb_forall in *. intros x Hx. specialize (Hskip x Hx). by destruct (elem x d). }
  rewrite length_drop in Hj. unfold substr. destruct (Nat.ltb_spec (length s) (p + j)); [lia |]. cbn [rbind].
  rewrite Hseg in Hr.
  destruct (find_index (fun c => elem c d) (drop (p + j) s)) as [k|] eqn:Ek; cbn [fmap option_fmap option_map].
  - destruct (find_index_Some _ _ _ Ek) as (Hk & Htok & c' & r' & Hd' & Hc').
    assert (Hk0 : (0 < k)%nat) by (destruct k; [rewrite Hd in Hd'; cbn in Hd'; injection Hd' as <- _; by rewrite Hc' in Hc | lia]).
    replace (p + j + k - (p + j))%nat with k by lia.
    assert (E : segments d (drop (p + j) s) = take k (drop (p + j) s) :: segments d (drop k (drop (p + j) s))).
    { rewrite <- (take_drop k (drop (p + j) s)) at 1. apply segments_token; [done | | by rewrite Hd'].
      intros E'. apply (f_equal length) in E'. rewrite length_take in E'. cbn in E'. lia. }
    rewrite E in Hr. injection Hr as <- <-. eexists. split; [done |]. unfold remaining. cbn. by rewrite drop_drop.
  - apply find_index_None in Ek. pose proof (segments_token d (drop (p + j) s) []) as Ht. rewrite app_nil_r in Ht.
    rewrite Ht in Hr by (done || by rewrite Hd). cbn in Hr. injection Hr as <- <-. by eexists.
Qed.

(** Tokens joined by colons. *)
Definition token_ok (t : list Z) : bool := nonempty t && forallb (fun c => negb (elem c [58])) t.
Lemma segments_colon t s : token_ok t = true -> segments (str ":") (t ++ 58 :: s) = t :: segments (str ":") s.
Proof.
  unfold token_ok. intros [Hn Ht]%andb_true_iff. change (str ":") with [58]. rewrite segments_token; [| done | by destruct t | done].
  by f_equal.
Qed.
Lemma segments_last t : token_ok t = true -> segments (str ":") t = [t].
Proof.
  unfold token_ok. intros [Hn Ht]%andb_true_iff. change (str ":") with [58]. rewrite <- (app_nil_r t) at 1. rewrite segments_token; [done | done | by destruct t | done].
Qed.
Lemma number_token (w : nat) v : (1 <= w)%nat -> - 2 ^ (Z.of_nat w - 1) <= v < 2 ^ (Z.of_nat w - 1) -> token_ok (toString_radix w v 10) = true.
Proof.
  intros Hw Hv. destruct (toString_chars w v Hw Hv) as [Hc Hne]. unfold token_ok. apply andb_true_iff; split; [by destruct (toString_radix w v 10) |].
  rewrite forallb_forall in *. intros c Hin. specialize (Hc c Hin). unfold is_digit in Hc. rewrite orb_true_iff, andb_true_iff, !Z.leb_le, Z.eqb_eq in Hc.
  cbn. destruct (Z.eqb_spec c 58); [lia | done].
Qed.

Lemma init_remaining s : remaining (StringTokenizer.init s (str ":")) = segments (str ":") s.
Proof. done. Qed.

(** ** Identifiers *)
(** The identifier of a connection has three parts. *)
Record parts := { part1 : list Z; part2 : list Z; part3 : list Z }.
Definition parts_ok (p : parts) : bool := token_ok (part1 p) && token_ok (part2 p) && token_ok (part3 p).
Definition joined (p : parts) : list Z := part1 p ++ str ":" ++ part2 p ++ str ":" ++ part3 p.

Lemma bind_returns {S A B} (m : M S A) (k : A -> M S B) s a s' : m s = Ok (a, s') -> bind m k s = k a s'.
Proof. intros E. unfold bind. by rewrite E. Qed.

Lemma joined_length p r : token_ok (part1 p) = true -> (3 <= length (joined p ++ r))%nat.
Proof. unfold token_ok, joined. intros [Hn _]%andb_true_iff. rewrite !length_app. destruct (part1 p); [done |]. cbn. lia. Qed.

Lemma consumer_tokens_two fuel session value tok v1 v2 n1 n2 : remaining tok = [v1; v2] -> (2 < fuel)%nat ->
  Long.parseLong v1 = Ok n1 -> Long.parseLong v2 = Ok n2 ->
  exists tok', StompHelper.consumer_tokens fuel session value tok = Ok ((n1, n2), tok').
Proof.
  intros Hr Hf H1 H2. destruct fuel as [|[|[|fuel]]]; [lia.. |]. cbn [StompHelper.consumer_tokens].
  rewrite hasMoreTokens_remaining, Hr. destruct (nextToken_remaining _ _ _ Hr) as (tok1 & E1 & Hr1). rewrite (bind_returns _ _ _ _ _ E1).
  rewrite H1. cbn [rbind]. rewrite !hasMoreTokens_remaining, Hr1. destruct (nextToken_remaining _ _ _ Hr1) as (tok2 & E2 & Hr2).
  rewrite (bind_returns _ _ _ _ _ E2), H2. cbn [rbind]. rewrite !hasMoreTokens_remaining, Hr2. by eexists.
Qed.

(** The identifier of a consumer survives, when that of its connection has three
    parts. *)
Lemma consumerId_roundtrip p session value : parts_ok p = true -> is_s 64 session = true -> is_s 64 value = true ->
  let id := {| ConsumerId.connectionId := joined p; ConsumerId.sessionId := session; ConsumerId.value := value |} in
  exists s, StompHelper.convertConsumerId_out (Some id) = Ok s /\ StompHelper.convertConsumerId_in s = Ok (Some id).
Proof.
  intros Hp Hs Hv id. unfold parts_ok in Hp. rewrite !andb_true_iff in Hp. destruct Hp as [[H1 H2] H3].
  exists (joined p ++ str ":" ++ Long_toString session ++ str ":" ++ Long_toString value). split; [done |].
  set (s := joined p ++ _).
  assert (Hseg : segments (str ":") s = [part1 p; part2 p; part3 p; Long_toString session; Long_toString value]).
  { assert (Es : s = part1 p ++ 58 :: part2 p ++ 58 :: part3 p ++ 58 :: Long_toString session ++ 58 :: Long_toString value).
    { unfold s, joined. change (str ":") with [58]. repeat (rewrite <- !app_assoc; cbn [app]). done. }
    apply is_s_spec in Hs, Hv. rewrite Es, !segments_colon, segments_last; [done | | | done..]; by apply (number_token 64); [lia |]. }
  assert (Hlen : (3 <= length s)%nat) by by apply joined_length.
  unfold StompHelper.convertConsumerId_in. destruct s as [|c s'] eqn:Es; [by cbn in Hseg |].
  rewrite <- Es in *. rewrite <- init_remaining in Hseg.
  destruct (nextToken_remaining _ _ _ Hseg) as (t1 & E1 & R1). destruct (nextToken_remaining _ _ _ R1) as (t2 & E2 & R2).
  destruct (nextToken_remaining _ _ _ R2) as (t3 & E3 & R3).
  destruct (consumer_tokens_two (S (length s)) 0 0 t3 _ _ session value R3) as (t4 & E4).
  { lia. }
  { by apply parseLong_toString. } { by apply parseLong_toString. }
  rewrite (bind_returns _ _ _ _ _ E1), (bind_returns _ _ _ _ _ E2), (bind_returns _ _ _ _ _ E3), (bind_returns _ _ _ _ _ E4). done.
Qed.

(** The identifier of a transaction loses the third part of its connection. *)
Lemma transactionId_truncated p value : parts_ok p = true -> is_s 64 value = true -> (exists n, Long.parseLong (part3 p) = Ok n) ->
  exists s, StompHelper.convertTransactionId_out (Some (TransactionId.LocalTransactionId
      {| LocalTransactionId.value := value; LocalTransactionId.connectionId := Some {| ConnectionId.value := joined p |} |})) = Ok s /\
    StompHelper.convertTransactionId_in s = Ok (Some (TransactionId.LocalTransactionId
      {| LocalTransactionId.value := value; LocalTransactionId.connectionId := Some {| ConnectionId.value := part1 p ++ str ":" ++ part2 p |} |})).
Proof.
  unfold parts_ok. rewrite !andb_true_iff. intros [[H1 H2] H3] Hv [n Hn].
  exists (joined p ++ str ":" ++ Long_toString value). split; [done |]. set (s := joined p ++ _).
  assert (Hseg : segments (str ":") s = [part1 p; part2 p; part3 p; Long_toString value]).
  { assert (Es : s = part1 p ++ 58 :: part2 p ++ 58 :: part3 p ++ 58 :: Long_toString value).
    { unfold s, joined. change (str ":") with [58]. repeat (rewrite <- !app_assoc; cbn [app]). done. }
    apply is_s_spec in Hv. rewrite Es, !segments_colon, segments_last; [done | | done..]; by apply (number_token 64); [lia |]. }
  assert (Hlen : (3 <= length s)%nat) by by apply joined_length.
  unfold StompHelper.convertTransactionId_in. destruct s as [|c s'] eqn:Es; [by cbn in Hseg |].
  rewrite <- Es in *. rewrite <- init_remaining in Hseg.
  destruct (nextToken_remaining _ _ _ Hseg) as (t1 & E1 & R1). destruct (nextToken_remaining _ _ _ R1) as (t2 & E2 & R2).
  destruct (nextToken_remaining _ _ _ R2) as (t3 & E3 & R3). destruct (nextToken_remaining _ _ _ R3) as (t4 & E4 & R4).
  rewrite (bind_returns _ _ _ _ _ E1), (bind_returns _ _ _ _ _ E2).
  assert (Hl : exists k, S (length s) = S (S (S k))).
  { exists (length s - 2)%nat. lia. }
  destruct Hl as [k Hl]. rewrite Hl.
  assert (Et : StompHelper.transaction_tokens (S (S (S k))) 0 t2 = Ok (value, t4)).
  { cbn [StompHelper.transaction_tokens]. rewrite hasMoreTokens_remaining, R2, (bind_returns _ _ _ _ _ E3), Hn. cbn [rbind].
    rewrite hasMoreTokens_remaining, R3, (bind_returns _ _ _ _ _ E4), (parseLong_toString value Hv). cbn [rbind].
    by rewrite hasMoreTokens_remaining, R4. }
  by rewrite (bind_returns _ _ _ _ _ Et).
Qed.

(** ** Destinations *)
Section Destinations.
Import ActiveMQDestination.
Context `{Platform}.

Definition default_prefixes (w : StompWireFormat.t) : bool :=
  bool_decide (StompWireFormat.topicPrefix w = str "/topic/") && bool_decide (StompWireFormat.queuePrefix w = str "/queue/") &&
  bool_decide (StompWireFormat.tempTopicPrefix w = str "/temp-topic/") && bool_decide (StompWireFormat.tempQueuePrefix w = str "/temp-queue/").
Definition prefix_of (k : kind) : list Z :=
  match k with Topic => str "/topic/" | Queue => str "/queue/" | TempTopic => str "/temp-topic/" | TempQueue => str "/temp-queue/" end.
(** A name that is neither composite nor qualified, has no options and is not that of
    a temporary destination of another broker. *)
Definition local_name (name : list Z) : bool :=
  without [0; 10; 44; 63] name &&
  negb (starts_with (str "queue://") name || starts_with (str "topic://") name || starts_with (str "temp-queue://") name || starts_with (str "temp-topic://") name) &&
  negb (starts_with (str "/remote-temp-topic/") name || starts_with (str "/remote-temp-queue/") name).
(** The destination of that name. *)
Definition named_destination (k : kind) (name : list Z) : t :=
  {| destinationType := k; physicalName := name; advisory := bool_decide (find_first_of name ADVISORY_TOPIC_PREFIX (Some O) = Some O);
     options := []; connectionId := []; sequenceId := 0 |}.

Lemma starts_with_prefix p q name : (length p <= length q)%nat -> starts_with p (q ++ name) = bool_decide (take (length p) q = p).
Proof. intros Hl. unfold starts_with. by rewrite take_app_le. Qed.

Lemma local_name_plain name : local_name name = true -> plain_name name = true /\ elem 44 name = false /\ without [0; 10] name = true.
Proof.
  unfold local_name. rewrite !andb_true_iff. intros [[Hw _] _]. split; [|split].
  - by apply (without_neq [0; 10; 44; 63]).
  - pose proof (without_neq [0; 10; 44; 63] name 44 Hw eq_refl) as Hn. clear Hw. induction name as [|c name IH]; [done |].
    cbn [forallb] in Hn. apply andb_true_iff in Hn as [Hc Hn]. change (elem 44 (c :: name)) with ((44 =? c) || elem 44 name).
    rewrite IH by done. rewrite Z.eqb_sym. apply negb_true_iff in Hc. by rewrite Hc.
  - apply (without_weaken [0; 10; 44; 63]); [|done]. intros c. cbn. destruct (c =? 0), (c =? 10); done.
Qed.

Lemma destination_out w d : default_prefixes w = true -> local_name (physicalName d) = true ->
  StompHelper.convertDestination_out w (Some d) = Ok (prefix_of (destinationType d) ++ physicalName d).
Proof.
  unfold default_prefixes. rewrite !andb_true_iff, !bool_decide_eq_true. intros [[[H1 H2] H3] H4] Hn.
  pose proof Hn as Hr. apply local_name_plain in Hn as (_ & Hc & _). unfold local_name in Hr. apply andb_true_iff in Hr as [_ Hr].
  apply negb_true_iff, orb_false_iff in Hr as [Hr1 Hr2].
  unfold StompHelper.convertDestination_out, Destination.isComposite. rewrite Hc. unfold StompHelper.doConvertDestination, prefix_of.
  destruct (destinationType d); by rewrite ?Hr1, ?Hr2, ?H1, ?H2, ?H3, ?H4.
Qed.

Lemma createDestination_local k name : local_name name = true ->
  Destination.createDestination (Destination.getDestinationType k) name = Ok (named_destination k name).
Proof.
  intros Hn. pose proof Hn as Hq. apply local_name_plain in Hn as (Hp & _ & _). unfold local_name in Hq. rewrite !andb_true_iff in Hq.
  destruct Hq as [[_ Hq] _]. apply negb_true_iff in Hq. rewrite !orb_false_iff in Hq. destruct Hq as [[[Q1 Q2] Q3] Q4].
  unfold Destination.createDestination. rewrite Q1, Q2, Q3, Q4. unfold Destination.create.
  destruct k; cbn [Destination.getDestinationType Destination.QUEUE Destination.TOPIC Destination.TEMPORARY_QUEUE Destination.TEMPORARY_TOPIC Z.eqb Pos.eqb];
    by rewrite setPhysicalName_base_plain.
Qed.

Lemma destination_in w k name : default_prefixes w = true -> local_name name = true ->
  StompHelper.convertDestination_in w (prefix_of k ++ name) = Ok (Some (named_destination k name)).
Proof.
  unfold default_prefixes. rewrite !andb_true_iff, !bool_decide_eq_true. intros [[[H1 H2] H3] H4] Hn.
  unfold StompHelper.convertDestination_in. rewrite H1, H2, H3, H4.
  pose proof (createDestination_local k name Hn) as Hc.
  destruct k; cbn [prefix_of Destination.getDestinationType] in *;
    rewrite !starts_with_prefix by (vm_compute; lia);
    repeat match goal with |- context [bool_decide (take (length (str ?a)) (str ?b) = str ?a)] =>
      let r := eval vm_compute in (bool_decide (take (length (str a)) (str b) = str a)) in
      change (bool_decide (take (length (str a)) (str b) = str a)) with r end;
    cbv iota; rewrite drop_app_length, Hc; done.
Qed.

(** A temporary destination of another broker keeps its type and loses its name. *)
Lemma remote_temp_in w name : default_prefixes w = true ->
  StompHelper.convertDestination_in w (str "/remote-temp-queue/" ++ name) = Ok (Some (named_destination TempQueue [])).
Proof.
  unfold default_prefixes. rewrite !andb_true_iff, !bool_decide_eq_true. intros [[[H1 H2] H3] H4].
  unfold StompHelper.convertDestination_in. rewrite H1, H2, H3, H4, !starts_with_prefix by (vm_compute; lia). done.
Qed.
End Destinations.
