(* ===== verification/StompFacts.v ===== *)
(** * What a client of a Stomp broker can rely on

    A text message from one client to another; requests and their receipts; what
    becomes of the headers of a message that is received and sent again. *)

From S2P Require Import Prelude DataStreams PrimitiveTypes Support BooleanStreams Wire BaseMarshaller Commands Layouts Destinations.
From S2P Require Import MarshallerBase IdMarshallers MessageMarshallers MessageBodies Failover Consumer Numbers StompFrames Stomp StompLaws.
Import StompCommandConstants.
Import StompFrame(without, without_app, without_neq, without_weaken, header_ok, lengths_ok).

(** The names of the headers the protocol uses for a message: those the receiver makes
    something of, and the others. *)
Definition interpreted : list (list Z) :=
  [HEADER_DESTINATION; HEADER_CORRELATIONID; HEADER_EXPIRES; HEADER_JMSPRIORITY; HEADER_TYPE; HEADER_REPLYTO;
   HEADER_PERSISTENT; HEADER_TRANSACTIONID; HEADER_CONTENTLENGTH; str "JMSXDeliveryCount"; str "JMSXGroupID"; str "JMSXGroupSeq"].
Definition reserved : list (list Z) :=
  interpreted ++ [HEADER_MESSAGEID; HEADER_SUBSCRIPTION; HEADER_TIMESTAMP; HEADER_REDELIVERED; HEADER_RECEIPT_REQUIRED].
Definition is_interpreted (k : list Z) : bool := existsb (same k) interpreted.
Definition is_reserved (k : list Z) : bool := existsb (same k) reserved.

(** ** The headers of a message that is sent *)
Section Sending.
Context `{Platform} `{FloatText}.

Definition optional (b : bool) (n v : list Z) : list (list Z * list Z) := if b then [(n, v)] else [].
Definition destination_text (d : ActiveMQDestination.t) : list Z :=
  prefix_of (ActiveMQDestination.destinationType d) ++ ActiveMQDestination.physicalName d.

Definition protocol_headers (m : Message.t DataStructure) (d : ActiveMQDestination.t) : list (list Z * list Z) :=
  optional (BaseCommand.responseRequired (Message.base m)) HEADER_RECEIPT_REQUIRED (Integer_toString (BaseCommand.commandId (Message.base m))) ++
  [(HEADER_DESTINATION, destination_text d)] ++
  optional (nonempty (Message.correlationId m)) HEADER_CORRELATIONID (Message.correlationId m) ++
  [(HEADER_EXPIRES, Long_toString (Message.expiration m)); (HEADER_PERSISTENT, Boolean_toString (Message.persistent m))] ++
  optional (negb (Message.redeliveryCounter m =? 0)) HEADER_REDELIVERED (str "true") ++
  [(HEADER_JMSPRIORITY, Integer_toString (Message.priority m))] ++
  (match Message.replyTo m with None => [] | Some r => [(HEADER_REPLYTO, destination_text r)] end) ++
  [(HEADER_TIMESTAMP, Long_toString (Message.timestamp m))] ++
  optional (nonempty (Message.type m)) HEADER_TYPE (Message.type m) ++
  [(str "JMSXDeliveryCount", Integer_toString (Message.redeliveryCounter m)); (str "JMSXGroupSeq", Integer_toString (Message.groupSequence m))] ++
  optional (nonempty (Message.groupID m)) (str "JMSXGroupID") (Message.groupID m).

(** The message has headers that can be sent: its strings have no line feed and no
    NUL, and its properties, whose texts are [l], no name of the protocol. *)
Record sendable (m : Message.t DataStructure) (d : ActiveMQDestination.t) (l : list (list Z * list Z)) : Prop := {
  sendable_destination : Message.destination m = Some d /\ local_name (ActiveMQDestination.physicalName d) = true;
  sendable_reply : match Message.replyTo m with None => true | Some r => local_name (ActiveMQDestination.physicalName r) end = true;
  sendable_transaction : Message.transactionId m = None;
  sendable_strings : without [0; 10] (Message.correlationId m) && without [0; 10] (Message.type m) && without [0; 10] (Message.groupID m) = true;
  sendable_numbers : is_s 64 (Message.expiration m) && is_s 64 (Message.timestamp m) && is_u 8 (Message.priority m) &&
    is_s 32 (Message.redeliveryCounter m) && is_s 32 (Message.groupSequence m) && is_s 32 (BaseCommand.commandId (Message.base m)) = true;
  sendable_properties : texts (Message.properties m) (Message.properties m) = Ok l;
  sendable_headers : forallb header_ok l && forallb (fun h => negb (is_reserved (fst h))) l = true
}.

Lemma addressed_headers w m d l f : default_prefixes w = true ->
  Message.destination m = Some d -> local_name (ActiveMQDestination.physicalName d) = true ->
  match Message.replyTo m with None => true | Some r => local_name (ActiveMQDestination.physicalName r) end = true ->
  Message.transactionId m = None -> texts (Message.properties m) (Message.properties m) = Ok l ->
  StompHelper.convertProperties_out w m (receipt [] (Message.base m) f) = Ok (with_headers (protocol_headers m d ++ l) f).
Proof.
  intros Hw Hd Hn Hr Htx Hp. unfold StompHelper.convertProperties_out.
  rewrite Hd, (destination_out w d Hw Hn). cbn [rbind]. fold (destination_text d). rewrite Htx.
  unfold receipt. cbn [app]. rewrite !set_when_headers, !setProperty_headers.
  assert (Er : forall f, match Message.replyTo m with
      | Some r => let! s := StompHelper.convertDestination_out w (Some r) in Ok (StompFrame.setProperty f HEADER_REPLYTO s) | None => Ok f end
    = Ok (with_headers (match Message.replyTo m with None => [] | Some r => [(HEADER_REPLYTO, destination_text r)] end) f)).
  { intros f'. destruct (Message.replyTo m) as [r|]; [by rewrite (destination_out w r Hw Hr) | by destruct f']. }
  rewrite Er. cbn [rbind]. rewrite ?set_when_headers, ?setProperty_headers, set_properties_headers, Hp. cbn [rbind].
  rewrite !with_headers_app. unfold protocol_headers, optional. repeat (rewrite <- !app_assoc; cbn [app]). done.
Qed.

Lemma sent_headers w m d l f : default_prefixes w = true -> sendable m d l ->
  StompHelper.convertProperties_out w m (receipt [] (Message.base m) f) = Ok (with_headers (protocol_headers m d ++ l) f).
Proof. intros Hw [[Hd Hn] Hr Htx _ _ Hp _]. by apply addressed_headers. Qed.

(** The frame sent, [size] the text of its content-length, if it has one. *)
Definition extra (size : option (list Z)) : list (list Z * list Z) := match size with Some s => [(HEADER_CONTENTLENGTH, s)] | None => [] end.
Definition sent (m : Message.t DataStructure) (d : ActiveMQDestination.t) (l : list (list Z * list Z)) (size : option (list Z)) (body : list Z) : StompFrame.t :=
  {| StompFrame.command := SEND; StompFrame.properties := puts (protocol_headers m d ++ l ++ extra size) []; StompFrame.body := body |}.

Lemma sent_text inflate w m d l text : default_prefixes w = true -> sendable m d l -> Message.messageKind m = Message.ActiveMQTextMessage (Some text) ->
  frame_of inflate (DMessage m) w = Ok (Some (sent m d l None (text ++ [0])), w).
Proof.
  intros Hw Hm Hk. cbn [frame_of]. unfold marshalMessage. rewrite (sent_headers w m d l) by done. cbn [rbind]. rewrite Hk.
  unfold getText. rewrite Hk. cbn [as_cms rbind]. unfold sent, extra. by rewrite app_nil_r.
Qed.
Lemma sent_bytes inflate w m d l : default_prefixes w = true -> sendable m d l ->
  Message.messageKind m = Message.ActiveMQBytesMessage -> Message.readOnlyBody m = true -> Message.compressed m = false ->
  frame_of inflate (DMessage m) w = Ok (Some (sent m d l (Some (Long_toString (zlen (Message.content m)))) (Message.content m)), w).
Proof.
  intros Hw Hm Hk Hr Hc. cbn [frame_of]. unfold marshalMessage. rewrite (sent_headers w m d l) by done. cbn [rbind]. rewrite Hk.
  unfold getBodyBytes. rewrite Hr, Hc. cbn [negb rbind]. rewrite setProperty_headers. unfold sent, extra, with_headers, StompFrame.setBody.
  cbn [StompFrame.command StompFrame.properties StompFrame.body named StompFrame.setCommand StompFrame.empty]. by rewrite <- puts_app, <- app_assoc.
Qed.
End Sending.

(** ** The message that is received *)
(** [g] is a MESSAGE frame for the frame [f] of a client, as the protocol describes it: it
    names a subscription and has an identifier, and has the headers and the body of [f].
    The broker may add headers, but none that the receiver would take for one the sender
    set. *)
Record message_for (sub id : list Z) (f g : StompFrame.t) : Prop := {
  mf_command : StompFrame.command g = MESSAGE;
  mf_map : StlMap.sorted (StompFrame.properties g) = true;
  mf_subscription : StlMap.find HEADER_SUBSCRIPTION (StompFrame.properties g) = Some sub;
  mf_id : StlMap.find HEADER_MESSAGEID (StompFrame.properties g) = Some id;
  mf_kept k v : same k HEADER_MESSAGEID = false -> same k HEADER_SUBSCRIPTION = false ->
    StlMap.find k (StompFrame.properties f) = Some v -> StlMap.find k (StompFrame.properties g) = Some v;
  mf_added k : is_interpreted k = true -> StlMap.find k (StompFrame.properties f) = None -> StlMap.find k (StompFrame.properties g) = None;
  mf_body : StompFrame.body g = StompFrame.body f
}.

Lemma reserved_not_in k l : forallb (fun h => negb (is_reserved (fst h))) l = true -> is_reserved k = true -> assoc (V := list Z) k l = None.
Proof.
  intros Hl Hk. apply assoc_none. rewrite forallb_forall in *. intros h Hin. specialize (Hl h Hin). apply negb_true_iff in Hl.
  apply negb_true_iff. destruct (same k (fst h)) eqn:E; [|done]. apply same_spec in E as ->. by rewrite Hk in Hl.
Qed.
Lemma existsb_false_forallb {A} (f : A -> bool) l : existsb f l = false <-> forallb (fun x => negb (f x)) l = true.
Proof. induction l as [|x l IH]; [done |]. cbn. rewrite orb_false_iff, andb_true_iff, negb_true_iff. tauto. Qed.
Lemma assoc_optional {b : bool} k n v : assoc k (optional b n v) = if b then (if same k n then Some v else None) else None.
Proof. by destruct b. Qed.

Section Receiving.
Context `{Platform} `{FloatText} (m : Message.t DataStructure) (d : ActiveMQDestination.t) (l : list (list Z * list Z)).
Context (Hm : sendable m d l) (size : option (list Z)) (body sub id : list Z) (kind : Message.kind).

Context (frame : StompFrame.t) (Hframe : message_for sub id (sent m d l size body) frame).

Lemma sent_find k : StlMap.find k (StompFrame.properties (sent m d l size body)) = assoc k (protocol_headers m d ++ l ++ extra size).
Proof. unfold sent. cbn [StompFrame.properties]. rewrite find_puts by done. by destruct (assoc k _). Qed.
Lemma assoc_extra k : same k HEADER_CONTENTLENGTH = false -> assoc k (extra size) = None.
Proof. intros Hk. unfold extra. destruct size; [|done]. cbn [assoc]. by rewrite Hk. Qed.
Lemma interpreted_reserved k : is_interpreted k = true -> is_reserved k = true.
Proof. intros Hk. unfold is_reserved, reserved. rewrite existsb_app. by apply orb_true_iff; left. Qed.
(** A header the receiver makes something of is the one of the frame sent. *)
Lemma frame_find k : is_interpreted k = true -> same k HEADER_MESSAGEID = false -> same k HEADER_SUBSCRIPTION = false ->
  StlMap.find k (StompFrame.properties frame) = assoc k (protocol_headers m d ++ extra size).
Proof.
  intros Hk H1 H2. assert (Hs : assoc k (protocol_headers m d ++ l ++ extra size) = assoc k (protocol_headers m d ++ extra size)).
  { destruct Hm as [_ _ _ _ _ _ Hl]. apply andb_true_iff in Hl as [_ Hl]. rewrite !assoc_app, (reserved_not_in k l) by (done || by apply interpreted_reserved).
    by destruct (assoc k (extra size)). }
  rewrite <- Hs, <- sent_find. destruct (StlMap.find k (StompFrame.properties (sent m d l size body))) eqn:E; [by apply (mf_kept _ _ _ _ Hframe) | by apply (mf_added _ _ _ _ Hframe)].
Qed.
(** A header of the protocol is what the sender set. *)
Lemma frame_header k : is_interpreted k = true -> same k HEADER_CONTENTLENGTH = false -> same k HEADER_MESSAGEID = false -> same k HEADER_SUBSCRIPTION = false ->
  StlMap.find k (StompFrame.properties frame) = assoc k (protocol_headers m d).
Proof. intros Hk H0' H1 H2. by rewrite frame_find, assoc_app, (assoc_extra k) by done. Qed.
Lemma header_find {A} k (f : list Z -> result A) default :
  StompHelper.header frame k f default = match StlMap.find k (StompFrame.properties frame) with Some v => f v | None => Ok default end.
Proof.
  unfold StompHelper.header, StompFrame.hasProperty, StlMap.containsKey, StompFrame.removeProperty, StompFrame.getProperty.
  by destruct (StlMap.find k _).
Qed.

Ltac closed_same := repeat match goal with |- context [same ?a ?b] =>
  let r := eval vm_compute in (same a b) in lazymatch r with true => idtac | false => idtac end; change (same a b) with r end.
Ltac lookup :=
  unfold protocol_headers; rewrite !assoc_app, !assoc_optional; cbn [assoc]; closed_same; cbv iota;
  destruct (Message.replyTo m); cbn [assoc]; closed_same; cbv iota;
  repeat (destruct (negb _) || destruct (nonempty _) || destruct (BaseCommand.responseRequired _)); done.

Lemma header_destination : assoc HEADER_DESTINATION (protocol_headers m d) = Some (destination_text d).
Proof. lookup. Qed.
Lemma header_correlation : assoc HEADER_CORRELATIONID (protocol_headers m d) = if nonempty (Message.correlationId m) then Some (Message.correlationId m) else None.
Proof. lookup. Qed.
Lemma header_expires : assoc HEADER_EXPIRES (protocol_headers m d) = Some (Long_toString (Message.expiration m)).
Proof. lookup. Qed.
Lemma header_priority : assoc HEADER_JMSPRIORITY (protocol_headers m d) = Some (Integer_toString (Message.priority m)).
Proof. lookup. Qed.
Lemma header_type : assoc HEADER_TYPE (protocol_headers m d) = if nonempty (Message.type m) then Some (Message.type m) else None.
Proof. lookup. Qed.
Lemma header_reply : assoc HEADER_REPLYTO (protocol_headers m d) = option_map destination_text (Message.replyTo m).
Proof. lookup. Qed.
Lemma header_persistent : assoc HEADER_PERSISTENT (protocol_headers m d) = Some (Boolean_toString (Message.persistent m)).
Proof. lookup. Qed.
Lemma header_transaction : assoc HEADER_TRANSACTIONID (protocol_headers m d) = None.
Proof. lookup. Qed.
Lemma header_length : assoc HEADER_CONTENTLENGTH (protocol_headers m d) = None.
Proof. lookup. Qed.
Lemma frame_length : StlMap.find HEADER_CONTENTLENGTH (StompFrame.properties frame) = size.
Proof. rewrite frame_find, assoc_app, header_length by done. unfold extra. by destruct size. Qed.
Lemma header_delivery : assoc (str "JMSXDeliveryCount") (protocol_headers m d) = Some (Integer_toString (Message.redeliveryCounter m)).
Proof. lookup. Qed.
Lemma header_group : assoc (str "JMSXGroupID") (protocol_headers m d) = if nonempty (Message.groupID m) then Some (Message.groupID m) else None.
Proof. lookup. Qed.
Lemma header_seq : assoc (str "JMSXGroupSeq") (protocol_headers m d) = Some (Integer_toString (Message.groupSequence m)).
Proof. lookup. Qed.

Lemma optional_text (s : list Z) : match (if nonempty s then Some s else None) with Some v => Ok v | None => Ok [] end = Ok s.
Proof. by destruct s. Qed.
Lemma parseBoolean_toString b : WireFormatInfo.parseBoolean (Boolean_toString b) = b.
Proof. by destruct b. Qed.

(** The message the receiver makes of the frame, [n] the number of its identifier. *)
Definition delivered_properties : PrimitiveMap := puts (map (fun '(k, v) => (k, STRING_TYPE v)) (StompFrame.properties frame)) [].
Definition delivered_id (n : Z) : option MessageId.t :=
  match id with [] => None | _ => Some {| MessageId.textView := []; MessageId.producerId := StompHelper.convertProducerId_in id;
                                        MessageId.producerSequenceId := n; MessageId.brokerSequenceId := 0 |} end.
Definition delivered_destination (d : ActiveMQDestination.t) : ActiveMQDestination.t :=
  named_destination (ActiveMQDestination.destinationType d) (ActiveMQDestination.physicalName d).
Definition delivered (n : Z) : Message.t DataStructure :=
  Message.set_properties
    (set_headers (Some (delivered_destination d)) (delivered_id n) (Message.correlationId m) (Message.expiration m) (Message.priority m) (Message.type m)
      (option_map delivered_destination (Message.replyTo m)) (Message.persistent m) None (Message.redeliveryCounter m) (Message.groupID m)
      (Message.groupSequence m) (Message.default kind)) delivered_properties.

Lemma properties_strings (e : list (list Z * list Z)) : forall p,
  fold_left (fun p '(name, value) => StlMap.put name (STRING_TYPE value) p) e p = puts (map (fun '(k, v) => (k, STRING_TYPE v)) e) p.
Proof. induction e as [|[k v] e IH]; intros p; [done |]. apply IH. Qed.

Lemma received_message w : default_prefixes w = true ->
  exists n w', StompHelper.convertProperties_in frame (Message.default kind) w = Ok (delivered n, w').
Proof.
  intros Hw. pose proof Hm as [[_ Hdn] Hr _ _ Hnum _ _].
  repeat (apply andb_true_iff in Hnum as [Hnum ?]).
  assert (Hid : exists n w', StompHelper.convertMessageId_in id w = Ok (delivered_id n, w')).
  { unfold delivered_id. destruct id; [by exists 0, w | by eexists _, _]. }
  destruct Hid as (n & w' & Eid). exists n, w'.
  assert (Hd' : StompFrame.removeProperty frame HEADER_DESTINATION = destination_text d).
  { unfold StompFrame.removeProperty, StompFrame.getProperty. by rewrite frame_header, header_destination. }
  assert (Hid' : StompFrame.removeProperty frame HEADER_MESSAGEID = id).
  { unfold StompFrame.removeProperty, StompFrame.getProperty. by rewrite (mf_id _ _ _ _ Hframe). }
  assert (Hw' : default_prefixes w' = true).
  { unfold StompHelper.convertMessageId_in in Eid. destruct id; injection Eid as _ <-; done. }
  unfold StompHelper.convertProperties_in. rewrite Hd', Hid'. unfold destination_text at 1. rewrite destination_in by done. cbn [rbind].
  rewrite Eid. cbn [rbind].
  rewrite !header_find, !frame_header by done.
  rewrite header_correlation, header_expires, header_priority, header_type, header_reply, header_persistent, header_transaction, header_delivery, header_group, header_seq.
  rewrite parseBoolean_toString, parseLong_toString, !parseInt_toString by (done || (apply is_s_spec; match goal with Hu : is_u 8 _ = true |- _ => apply is_u_spec in Hu end; lia)).
  change (Message.correlationId (Message.default _)) with (@nil Z). change (Message.type (Message.default _)) with (@nil Z). change (Message.groupID (Message.default _)) with (@nil Z).
  rewrite !optional_text. cbn [rbind]. rewrite uwrap_small by (by apply is_u_spec). unfold delivered.
  destruct (Message.replyTo m) as [r|] eqn:Er; cbn [option_map].
  - unfold destination_text. rewrite destination_in by done. cbn [rbind]. by rewrite properties_strings.
  - cbn [rbind]. by rewrite properties_strings.
Qed.

(** The headers of the frame are strings among the properties. *)
Lemma delivered_find k : StlMap.find k delivered_properties = STRING_TYPE <$> StlMap.find k (StompFrame.properties frame).
Proof.
  unfold delivered_properties. rewrite find_puts by done.
  assert (Ea : forall e : list (list Z * list Z), assoc k (map (fun '(k, v) => (k, STRING_TYPE v)) e) = STRING_TYPE <$> assoc k e).
  { induction e as [|[n v] e IH]; [done |]. cbn [map assoc]. rewrite IH. destruct (assoc k e); [done |]. by destruct (same k n). }
  rewrite Ea, assoc_sorted by apply (mf_map _ _ _ _ Hframe). by destruct (StlMap.find k _).
Qed.
Lemma delivered_header k v : is_interpreted k = true -> same k HEADER_CONTENTLENGTH = false -> same k HEADER_MESSAGEID = false ->
  same k HEADER_SUBSCRIPTION = false -> assoc k (protocol_headers m d) = Some v -> StlMap.find k delivered_properties = Some (STRING_TYPE v).
Proof. intros Hk H1 H2 H3 Ha. by rewrite delivered_find, frame_header, Ha. Qed.
Lemma protocol_reserved k : is_reserved k = false -> assoc k (protocol_headers m d) = None.
Proof.
  intros Hk. apply assoc_none. unfold is_reserved in Hk. rewrite existsb_false_forallb in Hk.
  assert (Hin : forall n, In n reserved -> negb (same k n) = true) by (by apply forallb_forall).
  apply forallb_forall. intros h Hh. apply Hin. unfold protocol_headers, optional in Hh. unfold reserved, interpreted. cbn [app].
  repeat (apply in_app_iff in Hh as [Hh|Hh]); repeat match type of Hh with In _ (if ?b then _ else _) => destruct b | In _ (match ?b with _ => _ end) => destruct b end;
    cbn [In] in Hh; intuition (subst; cbn [fst In]; tauto).
Qed.
(** The properties of the application arrive as strings. *)
Lemma delivered_property k v : is_reserved k = false -> assoc k l = Some v -> StlMap.find k delivered_properties = Some (STRING_TYPE v).
Proof.
  intros Hk Hv. assert (Hn : same k HEADER_CONTENTLENGTH = false /\ same k HEADER_MESSAGEID = false /\ same k HEADER_SUBSCRIPTION = false)
    by (unfold is_reserved in Hk; cbn [existsb reserved interpreted app] in Hk; rewrite !orb_false_iff in Hk; tauto).
  destruct Hn as (H0' & H1 & H2). rewrite delivered_find. rewrite (mf_kept _ _ _ _ Hframe k v H1 H2); [done |].
  by rewrite sent_find, !assoc_app, (assoc_extra k H0'), (protocol_reserved k Hk), Hv.
Qed.
End Receiving.

(** ** The frame can be told apart *)
Lemma number_plain (w : nat) v : (1 <= w)%nat -> - 2 ^ (Z.of_nat w - 1) <= v < 2 ^ (Z.of_nat w - 1) -> without [0; 10] (toString_radix w v 10) = true.
Proof.
  intros Hw Hv. destruct (toString_chars w v Hw Hv) as [Hc _]. unfold without. rewrite forallb_forall in *. intros c Hin.
  specialize (Hc c Hin). unfold is_digit in Hc. rewrite orb_true_iff, andb_true_iff, !Z.leb_le, Z.eqb_eq in Hc.
  rewrite (proj2 (is_u_spec 8 c)) by lia. cbn. destruct (Z.eqb_spec c 0); [lia |]. by destruct (Z.eqb_spec c 10); [lia |].
Qed.
Lemma int_plain v : is_s 32 v = true -> without [0; 10] (Integer_toString v) = true.
Proof. intros Hv%is_s_spec. apply number_plain; [lia | exact Hv]. Qed.
Lemma long_plain v : is_s 64 v = true -> without [0; 10] (Long_toString v) = true.
Proof. intros Hv%is_s_spec. apply number_plain; [lia | exact Hv]. Qed.
Lemma destination_plain d : local_name (ActiveMQDestination.physicalName d) = true -> without [0; 10] (destination_text d) = true.
Proof.
  intros (_ & _ & Hn)%local_name_plain. unfold destination_text. rewrite without_app, Hn, andb_true_r. by destruct (ActiveMQDestination.destinationType d).
Qed.

(** Building a list of headers that can be told apart, piece by piece. *)
Lemma header_plain n v : without [0; 10; 58] n = true -> without [0; 10] v = true -> header_ok (n, v) = true.
Proof. intros Hn Hv. unfold header_ok. cbn [fst snd]. by rewrite Hn, Hv. Qed.
Lemma headers_nil : forallb header_ok [] = true.
Proof. done. Qed.
Lemma headers_cons n v l : without [0; 10; 58] n = true -> without [0; 10] v = true -> forallb header_ok l = true -> forallb header_ok ((n, v) :: l) = true.
Proof. intros Hn Hv Hl. cbn [forallb]. by rewrite header_plain, Hl. Qed.
Lemma headers_app l l' : forallb header_ok l = true -> forallb header_ok l' = true -> forallb header_ok (l ++ l') = true.
Proof. intros Hl Hl'. by rewrite forallb_app, Hl, Hl'. Qed.
Lemma headers_optional b n v : without [0; 10; 58] n = true -> without [0; 10] v = true -> forallb header_ok (optional b n v) = true.
Proof. intros Hn Hv. destruct b; [by apply headers_cons | done]. Qed.
Lemma boolean_plain b : without [0; 10] (Boolean_toString b) = true.
Proof. by destruct b. Qed.
Lemma octet_int v : is_u 8 v = true -> is_s 32 v = true.
Proof. intros Hu%is_u_spec. apply is_s_spec. lia. Qed.

Lemma protocol_headers_ok (m : Message.t DataStructure) d l : forall `{FloatText}, sendable m d l -> forallb header_ok (protocol_headers m d) = true.
Proof.
  intros ? [[_ Hd] Hr _ Hs Hnum _ _]. do 2 (apply andb_true_iff in Hs as [Hs ?]). do 5 (apply andb_true_iff in Hnum as [Hnum ?]).
  assert (Hreply : forallb header_ok (match Message.replyTo m with None => [] | Some r => [(HEADER_REPLYTO, destination_text r)] end) = true).
  { destruct (Message.replyTo m); [apply headers_cons; [done | by apply destination_plain | done] | done]. }
  unfold protocol_headers.
  repeat lazymatch goal with
  | |- forallb _ (_ ++ _) = true => apply headers_app
  | |- forallb _ (optional _ _ _) = true => apply headers_optional
  | |- forallb _ (_ :: _) = true => apply headers_cons
  | |- forallb _ [] = true => apply headers_nil
  | |- forallb _ (match _ with _ => _ end) = true => exact Hreply
  | |- without _ (destination_text _) = true => by apply destination_plain
  | |- without _ (Long_toString _) = true => by apply long_plain
  | |- without _ (Boolean_toString _) = true => by apply boolean_plain
  | |- without _ (Integer_toString (Message.priority _)) = true => by apply int_plain, octet_int
  | |- without _ (Integer_toString _) = true => by apply int_plain
  | |- without _ (_ _ m) = true => assumption
  | |- _ => reflexivity
  end.
Qed.

(** ** End to end *)
Lemma Ok_inj {A} (a b : A) : Ok a = Ok b -> a = b.
Proof. by intros [= ->]. Qed.
Lemma consumer_text_plain cid sub : StompHelper.convertConsumerId_out (Some cid) = Ok sub ->
  without [0; 10] (ConsumerId.connectionId cid) = true -> is_s 64 (ConsumerId.sessionId cid) = true -> is_s 64 (ConsumerId.value cid) = true ->
  without [0; 10] sub = true.
Proof.
  intros Eout Hc Hs Hv. apply Ok_inj in Eout as <-. rewrite !without_app, Hc, (long_plain (ConsumerId.sessionId cid)), (long_plain (ConsumerId.value cid)) by done. done.
Qed.
(** The text of a length, which is read back as an int. *)
Lemma parseInt_long n : 0 <= n < 2 ^ 31 -> Integer.parseInt (Long_toString n) = Ok n.
Proof.
  intros Hn. destruct (toString_text 64 n) as (t & Ht & Hd & Ev & Es); [lia | change (Z.of_nat 64 - 1) with 63; lia |].
  unfold Long_toString. rewrite Es. destruct (Z.ltb_spec n 0); [lia |]. pose proof (parseInt_value false t Ht Hd) as Hp. cbv zeta iota in Hp.
  rewrite Ev, Z.abs_eq, (proj2 (is_s_spec 32 n)) in Hp by lia. exact Hp.
Qed.

Section EndToEnd.
Context `{Platform} `{FloatText} (inflate : list Z -> result (list Z)).

(** The frame that is sent can be told apart. *)
Lemma sent_ok m d l size body : sendable m d l ->
  match size with Some s => s = Long_toString (zlen body) /\ is_bytes body = true | None => exists text, body = text ++ [0] /\ without [0] text = true end ->
  lengths_ok (sent m d l size body) = true -> StompFrame.frame_ok (sent m d l size body) = true.
Proof.
  intros Hm Hbody Hlen. pose proof (protocol_headers_ok m d l Hm) as Hp. pose proof Hm as [_ _ _ _ _ _ Hl]. apply andb_true_iff in Hl as [Hl Hr].
  pose proof Hlen as Hz. unfold lengths_ok in Hz. apply andb_true_iff in Hz as [_ Hz]. apply Z.ltb_lt in Hz. cbn [StompFrame.body sent] in Hz.
  pose proof (zlen_nonneg body) as Hz0.
  assert (Hheaders : forallb header_ok (StompFrame.properties (sent m d l size body)) = true).
  { unfold sent. cbn [StompFrame.properties]. apply forallb_puts; [|done]. apply headers_app; [done |]. apply headers_app; [done |].
    destruct size as [s|]; [|done]. destruct Hbody as [-> _]. apply headers_cons; [done | | done]. apply long_plain, is_s_spec. lia. }
  assert (Hsize : StlMap.find HEADER_CONTENTLENGTH (StompFrame.properties (sent m d l size body)) = size).
  { rewrite sent_find, !assoc_app, header_length, (reserved_not_in HEADER_CONTENTLENGTH l) by done. unfold extra. by destruct size. }
  assert (Hok : StompFrame.body_ok (sent m d l size body) = true).
  { unfold StompFrame.body_ok. rewrite Hsize. cbn [StompFrame.body sent]. destruct size as [s|].
    - destruct Hbody as [-> ->]. rewrite andb_true_r. apply bool_decide_eq_true. apply parseInt_long. lia.
    - destruct Hbody as (text & -> & Ht). rewrite rev_app_distr. cbn [rev app]. change (0 =? 0) with true. cbn [andb].
      unfold without in *. rewrite forallb_forall in *. intros x Hx%in_rev. by apply Ht. }
  assert (Hsorted : StlMap.sorted (StompFrame.properties (sent m d l size body)) = true) by (by apply puts_sorted).
  unfold StompFrame.frame_ok. rewrite Hsorted, Hheaders, Hok. exact Hlen.
Qed.

(** What does not depend on the kind of message: where it goes, what it answers and
    what it is about; the headers of the frame [g], those of the application with the
    texts [l] among them, as strings; and the identifier that an acknowledgement of it is
    given. *)
Definition headers_delivered (m m' : Message.t DataStructure) (d : ActiveMQDestination.t) (l : list (list Z * list Z)) (id : list Z) (g : StompFrame.t) : Prop :=
  Message.destination m' = Some (delivered_destination d) /\ Message.replyTo m' = option_map delivered_destination (Message.replyTo m) /\
  (Message.correlationId m', Message.expiration m', Message.priority m', Message.type m') =
    (Message.correlationId m, Message.expiration m, Message.priority m, Message.type m) /\
  (Message.persistent m', Message.groupID m', Message.groupSequence m', Message.redeliveryCounter m') =
    (Message.persistent m, Message.groupID m, Message.groupSequence m, Message.redeliveryCounter m) /\
  (forall k v, is_reserved k = false -> assoc k l = Some v -> StlMap.find k (Message.properties m') = Some (STRING_TYPE v)) /\
  (forall k, StlMap.find k (Message.properties m') = STRING_TYPE <$> StlMap.find k (StompFrame.properties g)) /\
  (id <> [] -> StompHelper.convertMessageId_out (Message.messageId m') = Ok id).

Lemma headers_delivered_set_body m d l size body sub id g n kind k c z r : message_for sub id (sent m d l size body) g ->
  headers_delivered m (Message.set_body (delivered m d id kind g n) k c z r) d l id g.
Proof.
  intros Hg. unfold headers_delivered. repeat (split; [done |]). split; [intros k' v Hk Hv; by eapply delivered_property |].
  split; [intros k'; by eapply delivered_find |]. intros Hid. by destruct id.
Qed.

Lemma frame_reads {St} `{InputStreamLaws St} fuel f s rest : StompFrame.frame_ok f = true -> (length (StompFrame.bytes f) < fuel)%nat ->
  stream_at s (StompFrame.bytes f ++ rest) -> exists s', StompFrame.fromStream fuel s = Ok (StompFrame.received f, s') /\ stream_at s' (10 :: rest).
Proof.
  intros Hok Hf Hst. apply (StompFrame.fromStream_reads fuel 0 f Hok Hf (10 :: rest) s).
  unfold StompFrame.bytes in Hst. rewrite <- !app_assoc in *. exact Hst.
Qed.
Lemma frame_received f : StompFrame.body f <> [] -> StompFrame.received f = f.
Proof. unfold StompFrame.received. by destruct (StompFrame.body f). Qed.

(** What the receiver makes of the frame. *)
Lemma frame_unmarshals m d l size body cid sub id g w : default_prefixes w = true -> sendable m d l -> message_for sub id (sent m d l size body) g ->
  StompHelper.convertConsumerId_in sub = Ok (Some cid) ->
  forall k, let kind := match size with Some _ => Message.ActiveMQBytesMessage | None => Message.ActiveMQTextMessage None end in
  let body' := match body with [] => [0] | _ => body end in
  k = match size with Some _ => Message.ActiveMQBytesMessage | None => Message.ActiveMQTextMessage (Some (c_string body')) end ->
  exists m' w', unmarshalFrame (StompFrame.received g) w =
      Ok (Command (DMessageDispatch (MessageDispatch.mk _ BaseCommand.default (Some cid) (Message.destination m') (Some m') 0)), w') /\
    Message.messageKind m' = k /\ Message.content m' = match size with Some _ => body' | None => [] end /\
    Message.properties m' = delivered_properties g /\ headers_delivered m m' d l id g.
Proof.
  intros Hw Hm Hg Ein k kind body' Hk.
  assert (Hrec : exists g', StompFrame.received g = g' /\ StompFrame.command g' = MESSAGE /\ StompFrame.properties g' = StompFrame.properties g /\ StompFrame.body g' = body').
  { eexists. split; [reflexivity |]. pose proof (mf_body _ _ _ _ Hg) as Hb. unfold sent in Hb. cbn [StompFrame.body] in Hb. unfold StompFrame.received.
    rewrite Hb. unfold body'. destruct body; cbn; rewrite ?(mf_command _ _ _ _ Hg); done. }
  destruct Hrec as (g' & -> & Hc' & Hp' & Hb').
  destruct (received_message m d l Hm size body sub id kind g Hg w Hw) as (n & w' & Ecv).
  exists (Message.set_body (delivered m d id kind g n) k (match size with Some _ => body' | None => [] end) false false), w'.
  split; [|repeat (split; [done |]); by eapply headers_delivered_set_body].
  unfold unmarshalFrame. rewrite Hc'.
  repeat match goal with |- context [bool_decide (MESSAGE = ?c)] => let r := eval vm_compute in (bool_decide (MESSAGE = c)) in change (bool_decide (MESSAGE = c)) with r end.
  cbv iota. unfold unmarshalMessage.
  assert (Esub : StompFrame.removeProperty g' HEADER_SUBSCRIPTION = sub).
  { unfold StompFrame.removeProperty, StompFrame.getProperty. by rewrite Hp', (mf_subscription _ _ _ _ Hg). }
  rewrite Esub, Ein. cbn [rbind]. unfold StompFrame.hasProperty, StlMap.containsKey. rewrite Hp', (frame_length m d l Hm size body sub id g Hg).
  assert (Ecv' : forall k, StompHelper.convertProperties_in (D := DataStructure) g' (Message.default k) w = StompHelper.convertProperties_in g (Message.default k) w).
  { intros k'. unfold StompHelper.convertProperties_in, StompHelper.header, StompFrame.hasProperty, StompFrame.removeProperty, StompFrame.getProperty. by rewrite Hp'. }
  subst k kind. destruct size as [s|]; rewrite Ecv', Ecv; cbn [rbind fst snd]; rewrite Hb'; [done |]. unfold body'. by destruct body.
Qed.

(** C12. A text message that one client of a Stomp broker sends to another, both with the
    default prefixes.  The message has a destination, and perhaps one to reply to, that is
    not composite or a temporary one of another connection; no transaction; no line
    feed and no zero in its strings, and no zero in its text; and no property with a name
    of the protocol ([sendable]).  The consumer's connection identifier has three parts.
    The frame the sender writes can be told apart from what surrounds it
    (stomp_frames_roundtrip), and from any MESSAGE frame the broker makes of it
    ([message_for]: a subscription and an identifier, every header and the body kept, no
    header added that the receiver would take for one of the sender) the receiver reads a
    dispatch to that consumer; the text, the destination and the one to reply to, the
    correlation, the expiration, the priority, the type, the group, the delivery count and
    the persistence are those of the message sent (the timestamp is not read back), every
    property of the application is there, as a string, and an acknowledgement names the
    message by the broker's identifier. *)
Theorem stomp_text_delivered w w' m d l text p session value id :
  default_prefixes w = true -> default_prefixes w' = true -> sendable m d l ->
  Message.messageKind m = Message.ActiveMQTextMessage (Some text) -> without [0] text = true ->
  parts_ok p = true -> is_s 64 session = true -> is_s 64 value = true ->
  let cid := {| ConsumerId.connectionId := joined p; ConsumerId.sessionId := session; ConsumerId.value := value |} in
  exists f sub, frame_of inflate (DMessage m) w = Ok (Some f, w) /\ StompHelper.convertConsumerId_out (Some cid) = Ok sub /\
    (lengths_ok f = true -> StompFrame.frame_ok f = true) /\
    (forall g, message_for sub id f g -> StompFrame.frame_ok g = true ->
     forall St (I : InputStream St) (L : InputStreamLaws St) fuel s rest,
     (length (StompFrame.bytes g) < fuel)%nat -> stream_at s (StompFrame.bytes g ++ rest) ->
     exists w2 s' m', unmarshal fuel (w', s) =
         Ok (Command (DMessageDispatch (MessageDispatch.mk _ BaseCommand.default (Some cid) (Message.destination m') (Some m') 0)), (w2, s')) /\
       stream_at s' (10 :: rest) /\ getText inflate m' = Ok text /\ headers_delivered m m' d l id g).
Proof.
  intros Hw Hw' Hm Hk Ht Hp Hs Hv cid. destruct (consumerId_roundtrip p session value Hp Hs Hv) as (sub & Eout & Ein). fold cid in Eout, Ein.
  exists (sent m d l None (text ++ [0])), sub. split; [by apply sent_text |]. split; [done |].
  split; [intros Hlen; apply sent_ok; [done | by exists text | done] |]. intros g Hg Hok St I L fuel s rest Hf Hst.
  destruct (frame_unmarshals m d l None (text ++ [0]) cid sub id g w' Hw' Hm Hg Ein _ eq_refl) as (m' & w2 & Eu & Ek & _ & _ & Hh).
  destruct (frame_reads fuel _ s rest Hok Hf Hst) as (s' & Er & Hs').
  exists w2, s', m'. unfold unmarshal, catch_io. rewrite Er. cbn [rbind]. rewrite Eu. split; [done |]. split; [done |]. split; [|done].
  unfold getText. rewrite Ek. f_equal. assert (Hnz : forall x : list Z, match x ++ [0] with [] => [0] | b => b end = x ++ [0]) by (by intros []).
  pose proof (Hnz text) as Eb. destruct (text ++ [0]) eqn:E; [by destruct text |]. rewrite <- E.
  by rewrite StompFrame.c_string_nul by (by apply (StompFrame.without_neq [0])).
Qed.

(** A bytes message that one client of a Stomp broker sends to another arrives with
    every byte of its body, zeros and line feeds among them, unless it has none:
    the receiver of a message without a body finds a body of one zero. *)
Theorem stomp_bytes_delivered w w' m d l p session value id :
  default_prefixes w = true -> default_prefixes w' = true -> sendable m d l ->
  Message.messageKind m = Message.ActiveMQBytesMessage -> Message.readOnlyBody m = true -> Message.compressed m = false -> is_bytes (Message.content m) = true ->
  parts_ok p = true -> is_s 64 session = true -> is_s 64 value = true ->
  let cid := {| ConsumerId.connectionId := joined p; ConsumerId.sessionId := session; ConsumerId.value := value |} in
  exists f sub, frame_of inflate (DMessage m) w = Ok (Some f, w) /\ StompHelper.convertConsumerId_out (Some cid) = Ok sub /\
    (lengths_ok f = true -> StompFrame.frame_ok f = true) /\
    (forall g, message_for sub id f g -> StompFrame.frame_ok g = true ->
     forall St (I : InputStream St) (L : InputStreamLaws St) fuel s rest,
     (length (StompFrame.bytes g) < fuel)%nat -> stream_at s (StompFrame.bytes g ++ rest) ->
     exists w2 s' m', unmarshal fuel (w', s) =
         Ok (Command (DMessageDispatch (MessageDispatch.mk _ BaseCommand.default (Some cid) (Message.destination m') (Some m') 0)), (w2, s')) /\
       stream_at s' (10 :: rest) /\ Message.messageKind m' = Message.ActiveMQBytesMessage /\
       Message.content m' = (match Message.content m with [] => [0] | body => body end) /\ headers_delivered m m' d l id g).
Proof.
  intros Hw Hw' Hm Hk Hro Hc Hby Hp Hs Hv cid. destruct (consumerId_roundtrip p session value Hp Hs Hv) as (sub & Eout & Ein). fold cid in Eout, Ein.
  set (size := Long_toString (zlen (Message.content m))).
  exists (sent m d l (Some size) (Message.content m)), sub. split; [by apply sent_bytes |]. split; [done |].
  split; [intros Hlen; by apply sent_ok |]. intros g Hg Hok St I L fuel s rest Hf Hst.
  destruct (frame_unmarshals m d l (Some size) (Message.content m) cid sub id g w' Hw' Hm Hg Ein _ eq_refl) as (m' & w2 & Eu & Ek & Ec & _ & Hh).
  destruct (frame_reads fuel _ s rest Hok Hf Hst) as (s' & Er & Hs').
  exists w2, s', m'. unfold unmarshal, catch_io. rewrite Er. cbn [rbind]. rewrite Eu. split_and!; try done.
  rewrite Ec. by destruct (Message.content m).
Qed.
End EndToEnd.

(** ** Instances *)
Section Instances.
Definition plain_floats : FloatText := {| Float_toString := fun _ => str "0.5"; Double_toString := fun _ => str "0.5" |}.
#[local] Existing Instance no_environment.
#[local] Existing Instance plain_floats.
Definition stored (content : list Z) : result (list Z) := Ok content.
Definition queue (name : list Z) : ActiveMQDestination.t := named_destination ActiveMQDestination.Queue name.
Definition application : PrimitiveMap := [(str "color", STRING_TYPE (str "red")); (str "n", INTEGER_TYPE (-3))].
Definition message (kind : Message.kind) (content : list Z) : Message.t DataStructure :=
  Message.set_body (Message.set_properties
    (set_headers (Some (queue (str "orders"))) None (str "c-17") 0 4 (str "order") (Some (queue (str "replies"))) true None 0 [] 0 (Message.default kind))
    application) kind content false true.
Definition application_headers : list (list Z * list Z) := [(str "color", str "red"); (str "n", str "-3")].
Definition consumer : parts := {| part1 := str "ID"; part2 := str "host-4711-1"; part3 := str "0" |}.

Lemma message_sendable kind content : sendable (message kind content) (queue (str "orders")) application_headers.
Proof. by split. Qed.

(** A broker that adds the identifier, the subscription and a header of its own. *)
Definition relayed (sub id : list Z) (f : StompFrame.t) : StompFrame.t :=
  {| StompFrame.command := MESSAGE;
     StompFrame.properties := puts [(HEADER_MESSAGEID, id); (HEADER_SUBSCRIPTION, sub)]
       (match StlMap.find (str "broker") (StompFrame.properties f) with None => puts [(str "broker", str "b-1")] (StompFrame.properties f) | Some _ => StompFrame.properties f end);
     StompFrame.body := StompFrame.body f |}.
Lemma relayed_message_for sub id f : StlMap.sorted (StompFrame.properties f) = true -> message_for sub id f (relayed sub id f).
Proof.
  intros Hs. unfold relayed. set (p := match StlMap.find _ _ with None => _ | Some _ => _ end).
  assert (Hp : StlMap.sorted p = true) by (unfold p; case_match; [done | by apply puts_sorted]).
  assert (Hk : forall k v, StlMap.find k (StompFrame.properties f) = Some v -> StlMap.find k p = Some v).
  { intros k v Hv. unfold p. case_match eqn:E; [done |]. rewrite find_puts by done. cbn [assoc]. destruct (same k (str "broker")) eqn:Es; [|done].
    apply same_spec in Es as ->. by rewrite E in Hv. }
  split; cbn [StompFrame.command StompFrame.properties StompFrame.body]; try done.
  - by apply puts_sorted.
  - by rewrite find_puts.
  - by rewrite find_puts.
  - intros k v H1 H2 Hv. rewrite find_puts by done. cbn [assoc]. rewrite H1, H2. by apply Hk.
  - intros k Hi Hn. unfold is_interpreted in Hi. apply existsb_exists in Hi as (k' & Hin & ->%same_spec).
    assert (Hb : same k' HEADER_MESSAGEID = false /\ same k' HEADER_SUBSCRIPTION = false /\ same k' (str "broker") = false)
      by (cbn [In interpreted] in Hin; by repeat destruct Hin as [<-|Hin]).
    destruct Hb as (H1 & H2 & H3). rewrite find_puts by done. cbn [assoc]. rewrite H1, H2. unfold p. case_match; [done |].
    rewrite find_puts by done. cbn [assoc]. by rewrite H3.
Qed.

Lemma stomp_text_delivered_witness :
  let m := message (Message.ActiveMQTextMessage (Some (str "two" ++ [10] ++ str "lines"))) [] in
  exists f sub, frame_of stored (DMessage m) StompWireFormat.init = Ok (Some f, StompWireFormat.init) /\
    exists r (m' : Message.t DataStructure), unmarshal 700 (StompWireFormat.init, ByteArrayInputStream.over (StompFrame.bytes (relayed sub (str "ID:b-1:1:1:1:1") f))) = Ok r /\
      getText stored m' = Ok (str "two" ++ [10] ++ str "lines") /\
      headers_delivered m m' (queue (str "orders")) application_headers (str "ID:b-1:1:1:1:1") (relayed sub (str "ID:b-1:1:1:1:1") f).
Proof.
  intros m.
  destruct (stomp_text_delivered stored StompWireFormat.init StompWireFormat.init m (queue (str "orders")) application_headers (str "two" ++ [10] ++ str "lines")
    consumer 1 1 (str "ID:b-1:1:1:1:1") eq_refl eq_refl (message_sendable _ _) eq_refl eq_refl eq_refl eq_refl eq_refl)
    as (f & sub & Ef & Es & _ & Hr).
  vm_compute in Ef, Es. injection Ef as <-. injection Es as <-. eexists _, _. split; [vm_compute; reflexivity |].
  lazymatch type of Hr with forall g, message_for ?sub ?id ?F g -> _ =>
    specialize (Hr _ (relayed_message_for sub id F eq_refl) eq_refl _ _ _ 700%nat) end.
  lazymatch type of Hr with context [StompFrame.bytes ?F] => destruct (Hr (ByteArrayInputStream.over (StompFrame.bytes F)) [])
    as (w2 & s' & m' & Eu & _ & Et & Hh) end; [vm_compute; lia | rewrite app_nil_r; apply ByteArrayInputStream.over_at |].
  eexists _, m'. split; [exact Eu |]. split; [exact Et | exact Hh].
Defined.

(** The body with zeros arrives; no body arrives as one zero. *)
Lemma stomp_bytes_delivered_witness :
  let sent_and_received content received := exists f sub,
    frame_of stored (DMessage (message Message.ActiveMQBytesMessage content)) StompWireFormat.init = Ok (Some f, StompWireFormat.init) /\
    exists r (m' : Message.t DataStructure), unmarshal 700 (StompWireFormat.init, ByteArrayInputStream.over (StompFrame.bytes (relayed sub (str "ID:b-1:1:1:1:1") f))) = Ok r /\
      Message.content m' = received in
  sent_and_received [0; 10; 0] [0; 10; 0] /\ sent_and_received [] [0].
Proof.
  intros sent_and_received. unfold sent_and_received. clear sent_and_received. split.
  all: match goal with |- context [message _ ?content] =>
    destruct (stomp_bytes_delivered stored StompWireFormat.init StompWireFormat.init (message Message.ActiveMQBytesMessage content) (queue (str "orders")) application_headers
      consumer 1 1 (str "ID:b-1:1:1:1:1") eq_refl eq_refl (message_sendable _ _) eq_refl eq_refl eq_refl eq_refl eq_refl eq_refl eq_refl)
    as (f & sub & Ef & Es & _ & Hr) end.
  all: vm_compute in Ef, Es; injection Ef as <-; injection Es as <-; eexists _, _; split; [vm_compute; reflexivity |].
  all: lazymatch type of Hr with forall g, message_for ?sub ?id ?F g -> _ =>
    specialize (Hr _ (relayed_message_for sub id F eq_refl) eq_refl _ _ _ 700%nat) end.
  all: lazymatch type of Hr with context [StompFrame.bytes ?F] => destruct (Hr (ByteArrayInputStream.over (StompFrame.bytes F)) [])
    as (w2 & s' & m' & Eu & _ & _ & Ec & _) end; [vm_compute; lia | rewrite app_nil_r; apply ByteArrayInputStream.over_at |].
  all: eexists _, m'; split; [exact Eu | exact Ec].
Defined.
End Instances.
