(* ===== verification/StompRequests.v ===== *)
(** * Requests, their receipts, and headers that come back

    What a Stomp connection does for the transports above it: a command that wants a
    response gets one that names it.  What the headers of a received message, which
    stay among its properties, do to the message when it is sent again. *)

From S2P Require Import Prelude DataStreams PrimitiveTypes Support BooleanStreams Wire BaseMarshaller Commands Layouts Destinations.
From S2P Require Import MarshallerBase IdMarshallers MessageMarshallers MessageBodies Failover Consumer Numbers StompFrames Stomp StompLaws StompFacts.
Import StompCommandConstants.

(** ** Frames that grow *)
(** [f'] is [f] with headers set, none of them [k]. *)
Definition adds (k : list Z) (f f' : StompFrame.t) : Prop := exists l, f' = with_headers l f /\ assoc k l = None.

Lemma adds_refl k f : adds k f f.
Proof. exists []. split; [by destruct f | done]. Qed.
Lemma adds_trans k f f' f'' : adds k f f' -> adds k f' f'' -> adds k f f''.
Proof.
  intros (l & -> & Hl) (l' & -> & Hl'). exists (l ++ l'). split; [by rewrite with_headers_app |]. by rewrite assoc_app, Hl, Hl'.
Qed.
Lemma adds_set k n v f f' : adds k f f' -> same k n = false -> adds k f (StompFrame.setProperty f' n v).
Proof.
  intros Ha Hn. eapply adds_trans; [exact Ha |]. exists [(n, v)]. split; [done |]. cbn [assoc]. by rewrite Hn.
Qed.
Lemma adds_when k b n v f f' : adds k f f' -> same k n = false -> adds k f (StompHelper.set_when b n v f').
Proof. intros Ha Hn. destruct b; [by apply adds_set | done]. Qed.
Lemma adds_body k f f' b : adds k f f' -> adds k (StompFrame.setBody f b) (StompFrame.setBody f' b).
Proof. intros (l & -> & Hl). by exists l. Qed.
Create HintDb frames.
#[export] Hint Resolve adds_refl adds_body : frames.
#[export] Hint Extern 2 (adds _ _ (StompFrame.setProperty _ _ _)) => apply adds_set; [|reflexivity] : frames.
#[export] Hint Extern 2 (adds _ _ (StompHelper.set_when _ _ _ _)) => apply adds_when; [|reflexivity] : frames.

Lemma adds_find k f f' : StlMap.sorted (StompFrame.properties f) = true -> adds k f f' ->
  StlMap.find k (StompFrame.properties f') = StlMap.find k (StompFrame.properties f).
Proof. intros Hs (l & -> & Hl). unfold with_headers. cbn [StompFrame.properties]. by rewrite find_puts, Hl. Qed.

(** The results of computations that succeed. *)
Lemma rbind_ok {A B} (r : result A) (k : A -> result B) b : rbind r k = Ok b -> exists a, r = Ok a /\ k a = Ok b.
Proof. destruct r as [a|]; [|done]. by exists a. Qed.
Ltac succeeded :=
  repeat match goal with
  | H : rbind ?r _ = Ok _ |- _ => let a := fresh "a" in let E := fresh "E" in apply rbind_ok in H as (a & E & H); cbv beta zeta in H
  | H : Ok _ = Ok _ |- _ => injection H as H; subst
  end.

Section Requests.
Context `{Platform} `{FloatText} (inflate : list Z -> result (list Z)).

Lemma texts_names entries all : forall l, texts entries all = Ok l -> map fst l = map fst entries.
Proof.
  induction entries as [|[k v] entries IH]; intros l Hl; cbn [texts] in Hl; [by injection Hl as <- |].
  apply rbind_ok in Hl as (a & _ & Hl). apply rbind_ok in Hl as (l' & El & Hl). injection Hl as <-. cbn [map fst]. by rewrite (IH l').
Qed.
Lemma assoc_names {V W} k (l : list (list Z * V)) : forall l' : list (list Z * W), map fst l = map fst l' -> assoc k l' = None -> assoc k l = None.
Proof.
  induction l as [|[n v] l IH]; intros [|[n' v'] l'] Hl Hn; try done. cbn [map fst] in Hl. injection Hl as -> Hl.
  cbn [assoc] in *. destruct (assoc k l') eqn:E; [done |]. rewrite (IH l' Hl E). by destruct (same k n').
Qed.

Lemma texts_value entries all k s : forall l, texts entries all = Ok l -> assoc k l = Some s -> getString all k = Ok s.
Proof.
  induction entries as [|[n v] entries IH]; intros l Hl; cbn [texts] in Hl; [by injection Hl as <- |].
  apply rbind_ok in Hl as (a & Ea & Hl). apply rbind_ok in Hl as (l' & El & Hl). injection Hl as <-. cbn [assoc].
  destruct (assoc k l') eqn:E; [intros [= ->]; by eapply IH |]. destruct (same k n) eqn:Hkn; [|done]. apply same_spec in Hkn as ->. by intros [= <-].
Qed.

(** The headers of the protocol, none of which is [receipt], and then the properties. *)
Lemma convertProperties_adds {D} w (m : Message.t D) f f' : StompHelper.convertProperties_out w m f = Ok f' ->
  exists l f1, texts (Message.properties m) (Message.properties m) = Ok l /\ f' = with_headers l f1 /\ adds HEADER_RECEIPT_REQUIRED f f1.
Proof.
  intros E. unfold StompHelper.convertProperties_out in E. apply rbind_ok in E as (dest & _ & E). cbv zeta in E.
  apply rbind_ok in E as (f1 & E1 & E). apply rbind_ok in E as (f2 & E2 & E). rewrite set_properties_headers in E.
  apply rbind_ok in E as (l & El & E). injection E as <-. eexists l, _. split; [exact El |]. split; [reflexivity |].
  apply adds_when; [|reflexivity]. apply adds_set; [|reflexivity]. apply adds_set; [|reflexivity].
  assert (H2 : adds HEADER_RECEIPT_REQUIRED f f1).
  { destruct (Message.replyTo m); [apply rbind_ok in E1 as (s & _ & E1)|]; injection E1 as <-; auto 12 with frames. }
  destruct (Message.transactionId m); [apply rbind_ok in E2 as (s & _ & E2)|]; injection E2 as <-; auto 12 with frames.
Qed.

(** The [receipt] header of a frame that grew from one that has it. *)
Lemma receipt_find prefix b f f' : BaseCommand.responseRequired b = true -> StompFrame.properties f = [] ->
  adds HEADER_RECEIPT_REQUIRED (receipt prefix b f) f' ->
  StlMap.find HEADER_RECEIPT_REQUIRED (StompFrame.properties f') = Some (prefix ++ Integer_toString (BaseCommand.commandId b)).
Proof.
  intros Hb Hf Ha. unfold receipt in Ha. rewrite Hb in Ha. cbn [StompHelper.set_when] in Ha. unfold StompFrame.setProperty in Ha. rewrite Hf in Ha.
  apply adds_find in Ha; [|done]. by rewrite Ha.
Qed.

(** [receipt] is not the text of a header of the protocol but of a property of the
    application with that name. *)
Definition overridden (c : DataStructure) (receipt : list Z) : Prop :=
  match c with
  | DMessage m => assoc HEADER_RECEIPT_REQUIRED (Message.properties m) <> None /\ getString (Message.properties m) HEADER_RECEIPT_REQUIRED = Ok receipt
  | _ => False
  end.
(** The number [unmarshalReceipt] reads in an identifier. *)
Definition receipt_number (id : list Z) : result Z := Integer.parseInt (if ignored id then drop 7 id else id).
(** The frame carries the identifier of its command. *)
Definition carries_id (c : DataStructure) (f : StompFrame.t) : Prop :=
  exists prefix, In prefix [[]; str "ignore:"] /\
    StlMap.find HEADER_RECEIPT_REQUIRED (StompFrame.properties f) = Some (prefix ++ Integer_toString (getCommandId c)).

Lemma carries c f prefix g : In prefix [[]; str "ignore:"] -> isResponseRequired c = true -> StompFrame.properties g = [] ->
  adds HEADER_RECEIPT_REQUIRED (receipt prefix (command_base c) g) f -> carries_id c f.
Proof. intros Hp Hr Hg Ha. exists prefix. split; [done |]. by apply (receipt_find prefix (command_base c) g). Qed.

Lemma message_carries m w f : marshalMessage inflate w m = Ok f -> BaseCommand.responseRequired (Message.base m) = true ->
  carries_id (DMessage m) f \/
  exists s, StlMap.find HEADER_RECEIPT_REQUIRED (StompFrame.properties f) = Some s /\ overridden (DMessage m) s.
Proof.
  intros E Hr. unfold marshalMessage in E. apply rbind_ok in E as (f0 & E0 & E).
  destruct (convertProperties_adds _ _ _ _ E0) as (l & f1 & El & -> & Ha).
  assert (Hfind : StlMap.find HEADER_RECEIPT_REQUIRED (StompFrame.properties f1) = Some (Integer_toString (BaseCommand.commandId (Message.base m))))
    by (by apply (receipt_find [] (Message.base m) (named SEND))).
  assert (Hs1 : StlMap.sorted (StompFrame.properties f1) = true).
  { destruct Ha as (l1 & -> & _). unfold with_headers. cbn [StompFrame.properties]. apply puts_sorted. unfold receipt. by destruct (BaseCommand.responseRequired _). }
  assert (Hf : StlMap.find HEADER_RECEIPT_REQUIRED (StompFrame.properties f) = StlMap.find HEADER_RECEIPT_REQUIRED (StompFrame.properties (with_headers l f1))).
  { destruct (Message.messageKind m); try discriminate E; apply rbind_ok in E as (b & _ & E); injection E as <-; [|done].
    rewrite setProperty_headers. cbn [StompFrame.setBody StompFrame.properties with_headers]. rewrite (find_puts HEADER_RECEIPT_REQUIRED [_]) by by apply puts_sorted.
    done. }
  unfold with_headers in Hf. cbn [StompFrame.properties] in Hf. rewrite find_puts in Hf by done.
  destruct (assoc HEADER_RECEIPT_REQUIRED l) as [s|] eqn:Es.
  - right. exists s. split; [exact Hf |]. split; [|by eapply texts_value]. intros Hn. symmetry in El.
    assert (Hnames := texts_names _ _ _ (eq_sym El)). pose proof (assoc_names HEADER_RECEIPT_REQUIRED l (Message.properties m) Hnames Hn). congruence.
  - left. exists []. split; [by left |]. rewrite Hf, Hfind. done.
Qed.

Lemma consumer_carries info w f : marshalConsumerInfo w info = Ok f -> BaseCommand.responseRequired (ConsumerInfo.base info) = true ->
  carries_id (DConsumerInfo info) f.
Proof.
  intros E Hr. unfold marshalConsumerInfo in E. cbv zeta in E. apply rbind_ok in E as (dest & _ & E). apply rbind_ok in E as (id & _ & E).
  apply rbind_ok in E as (f0 & E0 & E). injection E as <-. apply (carries _ _ [] (named SUBSCRIBE)); [by left | done | done |].
  assert (Ha : adds HEADER_RECEIPT_REQUIRED (receipt [] (ConsumerInfo.base info) (named SUBSCRIBE)) f0).
  { destruct (nonempty _); [destruct (negb _); [discriminate E0 |]|]; injection E0 as <-; auto 8 with frames. }
  auto 12 with frames.
Qed.

Lemma ack_carries ack f : marshalAck ack = Ok f -> BaseCommand.responseRequired (MessageAck.base ack) = true -> carries_id (DMessageAck ack) f.
Proof.
  intros E Hr. unfold marshalAck in E. apply rbind_ok in E as (id & _ & E). cbv zeta in E.
  apply (carries _ _ (str "ignore:") (named ACK)); [by right; left | done | done |].
  destruct (MessageAck.transactionId ack); [apply rbind_ok in E as (s & _ & E)|]; injection E as <-; auto with frames.
Qed.
Lemma transaction_carries info f : marshalTransactionInfo info = Ok f -> BaseCommand.responseRequired (TransactionInfo.base info) = true ->
  carries_id (DTransactionInfo info) f.
Proof.
  intros E Hr. unfold marshalTransactionInfo in E. apply rbind_ok in E as (id & _ & E). cbv zeta in E. apply rbind_ok in E as (tx & _ & E). injection E as <-.
  eapply (carries _ _ []); [by left | done | | apply adds_set; [apply adds_refl | reflexivity]]. by repeat destruct (_ =? _).
Qed.
Lemma remove_carries info f : marshalRemoveInfo info = Ok (Some f) -> BaseCommand.responseRequired (RemoveInfo.base info) = true ->
  carries_id (DRemoveInfo info) f.
Proof.
  intros E Hr. unfold marshalRemoveInfo in E. destruct (RemoveInfo.objectId info) as [[]|]; try discriminate E.
  apply rbind_ok in E as (s & _ & E). injection E as <-. apply (carries _ _ [] (named UNSUBSCRIBE)); [by left | done | done |]. auto with frames.
Qed.

Lemma frame_carries c w f w' : frame_of inflate c w = Ok (Some f, w') -> isResponseRequired c = true ->
  match c with
  | DConnectionInfo _ => StompWireFormat.connectResponseId w' = getCommandId c
  | _ => carries_id c f \/ exists s, StlMap.find HEADER_RECEIPT_REQUIRED (StompFrame.properties f) = Some s /\ overridden c s
  end.
Proof.
  intros E Hr. destruct c; cbn [frame_of] in E; try discriminate E; try (apply rbind_ok in E as (r & E' & E)); injection E as E1 E2; subst.
  1: by eapply message_carries.
  all: try left.
  - apply Ok_inj in E'. by subst r.
  - by eapply consumer_carries.
  - by apply ack_carries.
  - by apply remove_carries.
  - apply (carries _ _ (str "ignore:") (named UNSUBSCRIBE)); [by right; left | done | done |]. unfold marshalRemoveSubscriptionInfo. auto with frames.
  - apply (carries _ _ [] (named DISCONNECT)); [by left | done | done |]. apply adds_refl.
  - by apply transaction_carries.
Qed.

(** ** The receipt *)
Lemma prefix_parse prefix n : In prefix [[]; str "ignore:"] -> is_s 32 n = true ->
  let id := prefix ++ Integer_toString n in Integer.parseInt (if ignored id then drop 7 id else id) = Ok n.
Proof.
  intros Hp Hn id. destruct Hp as [<- | [<- | []]].
  - assert (Hi : ignored id = false).
    { destruct (ignored id) eqn:Hi; [|done]. unfold ignored, starts_with in Hi. apply bool_decide_eq_true in Hi.
      destruct (toString_chars 32 n) as [Hc _]; [lia | by apply is_s_spec in Hn |]. rewrite forallb_forall in Hc.
      specialize (Hc 105). assert (Hin : In 105 (toString_radix 32 n 10)).
      { change (toString_radix 32 n 10) with id. rewrite <- (firstn_skipn 7 id). apply in_app_iff. left. change (length (str "ignore:")) with 7%nat in Hi. rewrite Hi. by left. }
      by specialize (Hc Hin). }
    rewrite Hi. by apply parseInt_toString.
  - subst id. assert (Hi : ignored (str "ignore:" ++ Integer_toString n) = true) by (unfold ignored; by rewrite starts_with_prefix by (vm_compute; lia)).
    rewrite Hi. by apply parseInt_toString.
Qed.

Lemma receipt_answers g later receipt : StompFrame.command g = RECEIPT -> StlMap.find HEADER_RECEIPTID (StompFrame.properties g) = Some receipt ->
  unmarshalFrame g later = rbind (receipt_number receipt) (fun n => Ok (Command (DResponse (response n)), later)).
Proof.
  intros Hg Hrid. unfold unmarshalFrame. rewrite Hg. unfold unmarshalReceipt.
  unfold StompFrame.hasProperty, StompFrame.getProperty, StlMap.containsKey. rewrite Hrid.
  fold (receipt_number receipt). by destruct (receipt_number receipt).
Qed.
Lemma carries_number c f : is_s 32 (getCommandId c) = true -> carries_id c f ->
  exists receipt, StlMap.find HEADER_RECEIPT_REQUIRED (StompFrame.properties f) = Some receipt /\ receipt_number receipt = Ok (getCommandId c).
Proof.
  intros Hid (prefix & Hin & Hf). exists (prefix ++ Integer_toString (getCommandId c)). split; [done |]. by apply (prefix_parse prefix).
Qed.

(** C13. Nothing that asks for a response on a Stomp connection waits in vain for want
    of a name: a command for which there is no frame is answered at once with a
    response to it, a command whose frame is CONNECT is what the broker's
    CONNECTED is taken to answer, and the frame of any other command has a
    [receipt] header whose echo, in a RECEIPT of the broker, is read as the response to
    the command with the number in it, whatever else went through the wire format in the
    meantime.  The number is the identifier of the command, except for a message with a
    property named [receipt]: the header is the text of the property then, and the
    RECEIPT answers what that text names, or nothing. *)
Theorem stomp_requests_answered c w r w' :
  frame_of inflate c w = Ok (r, w') -> isResponseRequired c = true -> is_s 32 (getCommandId c) = true -> getCommandId c <> -1 ->
  match r with
  | None => forall out, marshal inflate true c (w, out) = Ok (Some (response (getCommandId c)), (w', out))
  | Some f =>
    match c with
    | DConnectionInfo _ => forall g, StompFrame.command g = CONNECTED -> unmarshalFrame g w' = Ok (Command (DResponse (response (getCommandId c))), w')
    | _ => exists receipt, StlMap.find HEADER_RECEIPT_REQUIRED (StompFrame.properties f) = Some receipt /\
      (receipt_number receipt = Ok (getCommandId c) \/ overridden c receipt) /\
      forall g later, StompFrame.command g = RECEIPT -> StlMap.find HEADER_RECEIPTID (StompFrame.properties g) = Some receipt ->
        unmarshalFrame g later = rbind (receipt_number receipt) (fun n => Ok (Command (DResponse (response n)), later))
    end
  end.
Proof.
  intros E Hr Hid Hne. destruct r as [f|]; [|intros out; unfold marshal, catch_io; rewrite E; cbn [rbind]; by rewrite Hr].
  pose proof (frame_carries c w f w' E Hr) as Hc.
  assert (Hgoal : carries_id c f \/ (exists s, StlMap.find HEADER_RECEIPT_REQUIRED (StompFrame.properties f) = Some s /\ overridden c s) ->
    exists receipt, StlMap.find HEADER_RECEIPT_REQUIRED (StompFrame.properties f) = Some receipt /\
      (receipt_number receipt = Ok (getCommandId c) \/ overridden c receipt) /\
      forall g later, StompFrame.command g = RECEIPT -> StlMap.find HEADER_RECEIPTID (StompFrame.properties g) = Some receipt ->
        unmarshalFrame g later = rbind (receipt_number receipt) (fun n => Ok (Command (DResponse (response n)), later))).
  { intros [Hc'|(s & Hs & Ho)]; [destruct (carries_number c f Hid Hc') as (receipt & Hf & Hn); exists receipt | exists s];
      (split; [done |]; split; [by (left + right) | intros g later; apply receipt_answers]). }
  destruct c; try exact (Hgoal Hc).
  intros g Hg. unfold unmarshalFrame. rewrite Hg. unfold unmarshalConnected. rewrite Hc. by rewrite (proj2 (Z.eqb_neq _ _) Hne).
Qed.

(** ** Headers that come back *)
(** The texts of properties that are all strings. *)
Lemma texts_strings entries all : (forall k v, In (k, v) entries -> exists s, StlMap.find k all = Some (STRING_TYPE s)) ->
  exists l, texts entries all = Ok l /\ forall k, (forall s, assoc k l = Some s -> StlMap.find k all = Some (STRING_TYPE s)) /\
    (assoc k l = None -> assoc k entries = None).
Proof.
  induction entries as [|[n v] entries IH]; intros Hall; [by exists [] |].
  destruct IH as (l & El & Hl); [intros k v' Hin; apply (Hall k v'); by right |].
  destruct (Hall n v (or_introl eq_refl)) as (s & Es). exists ((n, s) :: l). cbn [texts]. unfold getString, StlMap.get. rewrite Es. cbn [rbind PrimitiveValueConverter.convert_string].
  rewrite El. split; [done |]. intros k. cbn [assoc]. destruct (Hl k) as [H1 H2]. destruct (assoc k l) as [s'|] eqn:E; [split; [exact H1 | done] |].
  rewrite (H2 eq_refl). destruct (same k n) eqn:Hkn; [apply same_spec in Hkn as ->; split; [by intros ? [= <-] | done] | done].
Qed.
Definition is_string (h : list Z * PrimitiveValueNode) : bool := match snd h with STRING_TYPE _ => true | _ => false end.
Lemma strings_texts p : StlMap.sorted p = true -> forallb is_string p = true ->
  exists l, texts p p = Ok l /\ forall k s, StlMap.find k p = Some (STRING_TYPE s) -> assoc k l = Some s.
Proof.
  intros Hs Hp. destruct (texts_strings p p) as (l & El & Hl).
  - intros k v Hin. rewrite <- assoc_sorted by done. assert (Hk : assoc k p <> None).
    { intros Hn. clear - Hin Hn. induction p as [|[n w] p IH]; [done |]. cbn [assoc] in Hn. destruct (assoc k p); [done |].
      destruct Hin as [[= -> ->]|Hin]; [|by apply IH]. by rewrite (proj2 (same_spec k k) eq_refl) in Hn. }
    destruct (assoc k p) as [v'|] eqn:E; [|done]. assert (Hin' : In (k, v') p).
    { clear - E. induction p as [|[n w] p IH]; [done |]. cbn [assoc] in E. destruct (assoc k p) eqn:E2; [right; by apply IH |].
      destruct (same k n) eqn:Hkn; [|done]. injection E as ->. apply same_spec in Hkn as ->. by left. }
    rewrite forallb_forall in Hp. specialize (Hp _ Hin'). unfold is_string in Hp. cbn [snd] in Hp. destruct v'; try discriminate Hp. by eexists.
  - exists l. split; [done |]. intros k s Hf. destruct (Hl k) as [H1 H2]. destruct (assoc k l) as [s'|] eqn:E.
    + specialize (H1 s' eq_refl). congruence.
    + specialize (H2 eq_refl). rewrite assoc_sorted, Hf in H2 by done. discriminate H2.
Qed.

(** The headers of a message that is received stay among its properties, where the
    one that says where it was sent overrides the destination of any message sent
    with these properties: a text message that a client receives from [d] and
    sends on, whatever it changes but the properties, to [d2], goes to [d] again. *)
Theorem forwarded_message_returns w w' m d l text cid sub id g :
  default_prefixes w = true -> default_prefixes w' = true -> sendable m d l -> StompHelper.convertConsumerId_in sub = Ok (Some cid) ->
  message_for sub id (sent m d l None (text ++ [0])) g ->
  exists m' later, unmarshalFrame (StompFrame.received g) w =
      Ok (Command (DMessageDispatch (MessageDispatch.mk _ BaseCommand.default (Some cid) (Message.destination m') (Some m') 0)), later) /\
    forall m2 d2 text2, Message.properties m2 = Message.properties m' ->
      Message.destination m2 = Some d2 -> local_name (ActiveMQDestination.physicalName d2) = true ->
      Message.replyTo m2 = None -> Message.transactionId m2 = None -> Message.messageKind m2 = Message.ActiveMQTextMessage (Some text2) ->
      exists f2, frame_of inflate (DMessage m2) w' = Ok (Some f2, w') /\
        StlMap.find HEADER_DESTINATION (StompFrame.properties f2) = Some (destination_text d).
Proof.
  intros Hw Hw' Hm Ein Hg.
  destruct (frame_unmarshals m d l None (text ++ [0]) cid sub id g w Hw Hm Hg Ein _ eq_refl) as (m' & later & Eu & _ & _ & Ep & _).
  exists m', later. split; [exact Eu |]. intros m2 d2 text2 Hp2 Hd2 Hn2 Hr2 Htx2 Hk2. rewrite Ep in Hp2.
  set (p := delivered_properties g) in *.
  assert (Hs : StlMap.sorted p = true) by (by apply puts_sorted).
  assert (Hstr : forallb is_string p = true).
  { apply forallb_puts; [|done]. apply forallb_forall. by intros h ([k v] & <- & _)%in_map_iff. }
  destruct (strings_texts p Hs Hstr) as (l2 & El2 & Hl2).
  assert (Hf : StlMap.find HEADER_DESTINATION p = Some (STRING_TYPE (destination_text d))) by (by eapply (delivered_header m d l Hm None), header_destination).
  exists (with_headers (protocol_headers m2 d2 ++ l2) (StompFrame.setBody (named SEND) (text2 ++ [0]))).
  split.
  - cbn [frame_of]. unfold marshalMessage. rewrite (addressed_headers w' m2 d2 l2) by (done || by rewrite ?Hr2, ?Hp2). cbn [rbind]. rewrite Hk2. unfold getText.
    rewrite Hk2. done.
  - unfold with_headers. cbn [StompFrame.properties]. rewrite find_puts, assoc_app by done. by rewrite (Hl2 _ _ Hf).
Qed.
End Requests.

(** ** Instances *)
Section Instances.
#[local] Existing Instance no_environment.
#[local] Existing Instance plain_floats.
Definition disconnect : DataStructure := DShutdownInfo {| ShutdownInfo.base := BaseCommand.mk 41 true |}.
Definition receipt_frame : StompFrame.t :=
  {| StompFrame.command := RECEIPT; StompFrame.properties := [(HEADER_RECEIPTID, str "41")]; StompFrame.body := [0] |}.

Lemma stomp_requests_answered_witness :
  unmarshalFrame receipt_frame StompWireFormat.init = Ok (Command (DResponse (response 41)), StompWireFormat.init).
Proof.
  destruct (stomp_requests_answered stored disconnect StompWireFormat.init (Some (marshalShutdownInfo {| ShutdownInfo.base := BaseCommand.mk 41 true |}))
    StompWireFormat.init eq_refl eq_refl eq_refl ltac:(discriminate)) as (receipt & Er & _ & Hr).
  vm_compute in Er. injection Er as <-. exact (Hr receipt_frame StompWireFormat.init eq_refl eq_refl).
Defined.

(** Received from [orders] and sent to [audit], it goes to [orders]. *)
Lemma forwarded_message_returns_witness :
  let m := message (Message.ActiveMQTextMessage (Some (str "hi"))) [] in
  let g := relayed (str "ID:host-4711-1:0:1:1") (str "ID:b-1:1:1:1:1") (sent m (queue (str "orders")) application_headers None (str "hi" ++ [0])) in
  exists cid m' later f2,
    unmarshalFrame g StompWireFormat.init =
      Ok (Command (DMessageDispatch (MessageDispatch.mk _ BaseCommand.default (Some cid) (Message.destination m') (Some m') 0)), later) /\
    frame_of stored (DMessage (set_headers (Some (queue (str "audit"))) None [] 0 4 [] None true None 0 [] 0
      (Message.set_properties (Message.default (Message.ActiveMQTextMessage (Some (str "hi")))) (Message.properties m')))) StompWireFormat.init = Ok (Some f2, StompWireFormat.init) /\
    StlMap.find HEADER_DESTINATION (StompFrame.properties f2) = Some (str "/queue/orders").
Proof.
  intros m g. assert (Hg : message_for (str "ID:host-4711-1:0:1:1") (str "ID:b-1:1:1:1:1") (sent m (queue (str "orders")) application_headers None (str "hi" ++ [0])) g)
    by by apply relayed_message_for.
  destruct (forwarded_message_returns stored StompWireFormat.init StompWireFormat.init m (queue (str "orders")) application_headers (str "hi")
    {| ConsumerId.connectionId := str "ID:host-4711-1:0"; ConsumerId.sessionId := 1; ConsumerId.value := 1 |}
    (str "ID:host-4711-1:0:1:1") (str "ID:b-1:1:1:1:1") g eq_refl eq_refl (message_sendable _ _) eq_refl Hg) as (m' & later & Eu & Hf).
  destruct (Hf (set_headers (Some (queue (str "audit"))) None [] 0 4 [] None true None 0 [] 0
      (Message.set_properties (Message.default (Message.ActiveMQTextMessage (Some (str "hi")))) (Message.properties m'))) (queue (str "audit")) (str "hi")
      eq_refl eq_refl eq_refl eq_refl eq_refl eq_refl) as (f2 & Ef & Ed).
  exists {| ConsumerId.connectionId := str "ID:host-4711-1:0"; ConsumerId.sessionId := 1; ConsumerId.value := 1 |}, m', later, f2.
  split; [exact Eu |]. split; [exact Ef | exact Ed].
Defined.
End Instances.
