(* ===== verification/BufferedStreams.v ===== *)
(** * Buffered streams

    decaf/io/BufferedInputStream and decaf/io/BufferedOutputStream, which the TCP
    transport puts between its sockets and the data streams.  A buffered stream is
    an input stream again: what is proved of a client of [InputStream] holds over
    it.  Its marks work as long as the buffer need not grow. *)

From S2P Require Import Prelude DataStreams.

(** ** What a buffer asks of its source, besides reading *)
Class Source (St : Type) := {
  is_available : M St Z;
  is_close : M St unit
}.
Class SourceLaws (St : Type) `{InputStreamLaws St} `{!Source St} := {
  available_law s l : stream_at s l -> exists n s', is_available s = Ok (n, s') /\ stream_at s' l
}.

(** [System::arraycopy], into [dest] from [destPos] on. *)
Definition arraycopy {A} (src : list A) (srcPos : Z) (dest : list A) (destPos length : Z) : list A :=
  take (Z.to_nat destPos) dest ++ take (Z.to_nat length) (drop (Z.to_nat srcPos) src) ++ drop (Z.to_nat (destPos + length)) dest.

(** [catch] clauses for IOException, NullPointerException and
    IndexOutOfBoundsException, the others leaving as IOException. *)
Definition catch_read {S A} (m : M S A) : M S A := fun s =>
  match m s with
  | Err (Throw e) =>
    Err (Throw (match e with NullPointerException | IndexOutOfBoundsException => e | _ => to_io e end))
  | r => r
  end.

Module BufferedInputStream.
Section Stream.
Context {St : Type} `{InputStream St} `{!Source St}.

(** The buffer holds [None] where its contents are not determined.  [closed]
    stands for a closed stream and a NULL proxyBuffer. *)
Record t := mk {
  inputStream : St;
  pos : Z;
  count : Z;
  markLimit : Z;
  markPos : Z;
  bufferSize : Z;
  buff : list (option Z);
  closed : bool
}.

(** The exception is thrown by its address, so no handler for its class catches it. *)
Definition new (stream : St) (size : Z) : result t :=
  if size <? 0 then throw IllegalArgumentException
  else Ok {| inputStream := stream; pos := 0; count := 0; markLimit := -1; markPos := -1; bufferSize := size;
             buff := replicate (Z.to_nat size) None; closed := false |}.

Definition set_inputStream (i : St) (s : t) : t := {| inputStream := i; pos := pos s; count := count s; markLimit := markLimit s;
  markPos := markPos s; bufferSize := bufferSize s; buff := buff s; closed := closed s |}.
Definition set_pos (p : Z) (s : t) : t := {| inputStream := inputStream s; pos := p; count := count s; markLimit := markLimit s;
  markPos := markPos s; bufferSize := bufferSize s; buff := buff s; closed := closed s |}.
Definition set_mark (p limit : Z) (s : t) : t := {| inputStream := inputStream s; pos := pos s; count := count s; markLimit := limit;
  markPos := p; bufferSize := bufferSize s; buff := buff s; closed := closed s |}.
Definition set_window (p c : Z) (s : t) : t := {| inputStream := inputStream s; pos := p; count := c; markLimit := markLimit s;
  markPos := markPos s; bufferSize := bufferSize s; buff := buff s; closed := closed s |}.
Definition set_buff (size : Z) (b : list (option Z)) (s : t) : t := {| inputStream := inputStream s; pos := pos s; count := count s;
  markLimit := markLimit s; markPos := markPos s; bufferSize := size; buff := b; closed := closed s |}.
Definition set_closed (b : bool) (s : t) : t := {| inputStream := inputStream s; pos := pos s; count := count s; markLimit := markLimit s;
  markPos := markPos s; bufferSize := bufferSize s; buff := buff s; closed := b |}.

(** A call on the source. *)
Definition inner {A} (m : M St A) : M t A := fun s => let! r := m (inputStream s) in Ok (fst r, set_inputStream (snd r) s).

Definition close : M t unit := catch_io (fun s =>
  (if closed s then ret tt else (inner is_close ;;; fun s => Ok (tt, set_closed true s))) s).
Definition available : M t Z := fun s =>
  if closed s then throw IOException else (let* n := inner is_available in ret (count s - pos s + n)) s.
Definition mark (readLimit : Z) (s : t) : t := if closed s then s else set_mark (pos s) readLimit s.
Definition reset : M t unit := fun s =>
  if closed s then throw IOException
  else if markPos s =? -1 then throw IOException
  else Ok (tt, set_pos (markPos s) s).

(** The buffer grows: the arguments of [arraycopy] are the wrong way round, the
    contents of the old buffer are overwritten with those of the new one. *)
Definition grow (s : t) : result t :=
  let newLength := bufferSize s * 2 in
  if 2 ^ 31 <=? newLength then Err Undefined
  else
    let newLength := if markLimit s <? newLength then markLimit s else newLength in
    let temp := replicate (Z.to_nat newLength) None in
    let buffer := arraycopy temp 0 (buff s) 0 (count s) in
    let '(temp, buffer) := (buffer, temp) in
    Ok (set_buff newLength buffer s).

(** The bytes [read] stored at the offset [o] of the buffer. *)
Definition stored (o : Z) (c : list Z) (s : t) : t := set_buff (bufferSize s) (arraycopy (map Some c) 0 (buff s) o (zlen c)) s.

Definition bufferData : M t Z := catch_io (fun s =>
  if (markPos s =? -1) || (markLimit s <=? pos s - markPos s) then
    (let* result := inner (is_read (bufferSize s) 0 (bufferSize s)) in
     match result with
     | None => ret (-1)
     | Some c => fun s =>
       let s := stored 0 c s in
       Ok (zlen c, if 0 <? zlen c then set_window 0 (zlen c) (set_mark (-1) 0 s) else s)
     end) s
  else
    let! s := if (markPos s =? 0) && (bufferSize s <? markLimit s) then grow s
              else if 0 <? markPos s then Ok (set_buff (bufferSize s) (arraycopy (buff s) (markPos s) (buff s) 0 (bufferSize s - markPos s)) s)
              else Ok s in
    let s := set_mark 0 (markLimit s) (set_window (pos s - markPos s) 0 s) in
    (let* bytesread := inner (is_read (bufferSize s) (pos s) (bufferSize s - pos s)) in
     match bytesread with
     | None => fun s => Ok (-1, set_window (pos s) (pos s) s)
     | Some c => fun s => Ok (zlen c, set_window (pos s) (pos s + zlen c) (stored (pos s) c s))
     end) s).

(** Determined bytes. *)
Fixpoint determined (l : list (option Z)) : option (list Z) :=
  match l with
  | [] => Some []
  | Some b :: l => match determined l with Some c => Some (b :: c) | None => None end
  | None :: _ => None
  end.
(** [n] bytes from the buffer. *)
Definition take_bytes (n : Z) : M t (list Z) := fun s =>
  let w := take (Z.to_nat n) (drop (Z.to_nat (pos s)) (buff s)) in
  if zlen w <? n then Err Undefined
  else match determined w with Some c => Ok (c, set_pos (pos s + n) s) | None => Err Undefined end.

Definition doReadByte : M t (option Z) := catch_io (fun s =>
  if closed s then throw IOException
  else
    (let* r := if count s <=? pos s then bufferData else ret 0 in
     if r =? -1 then ret None
     else fun s =>
       if closed s then throw IOException
       else if negb (pos s =? count s) then (let* c := take_bytes 1 in ret (head c)) s
       else Ok (None, s)) s).

(** The while loop: [acc] is what was stored so far, [required] what is missing. *)
Fixpoint fill (fuel : nat) (size offset required length : Z) (acc : list Z) : M t (option (list Z)) :=
  match fuel with
  | O => fun _ => Err NoFuel
  | S fuel =>
    let* read := (fun s =>
      if (markPos s =? -1) && (bufferSize s <=? required) then inner (is_read size offset required) s
      else
        (let* r := bufferData in
         if r =? -1 then ret None
         else fun s =>
           if closed s then throw IOException
           else (let* c := take_bytes (if required <=? count s - pos s then required else count s - pos s) in ret (Some c)) s) s) in
    match read with
    | None => ret (if required =? length then None else Some acc)
    | Some c =>
      let required := required - zlen c in
      let acc := acc ++ c in
      if required =? 0 then ret (Some acc)
      else
        let* n := inner is_available in
        if n =? 0 then ret (Some acc) else fill fuel size (offset + zlen c) required length acc
    end
  end.

(** [fuel]: every turn of the loop reads a byte. *)
Definition doReadArrayBounded (size offset length : Z) : M t (option (list Z)) := catch_read (fun s =>
  if closed s then throw IOException
  else if (size <? offset) || (offset <? 0) then throw IndexOutOfBoundsException
  else if (length <? 0) || (size - offset <? length) then throw IndexOutOfBoundsException
  else if length =? 0 then Ok (Some [], s)
  else
    let fuel := Z.to_nat length in
    if pos s <? count s then
      let available := count s - pos s in
      let copylength := if length <=? available then length else available in
      (let* c := take_bytes copylength in
       if copylength =? length then ret (Some c)
       else
         let* n := inner is_available in
         if n =? 0 then ret (Some c) else fill fuel size (offset + copylength) (length - copylength) length c) s
    else fill fuel size offset length length [] s).

Definition skip (amount : Z) : M t Z := catch_io (fun s =>
  if amount =? 0 then Ok (0, s)
  else if closed s then throw IOException
  else if amount <=? count s - pos s then Ok (amount, set_pos (pos s + to_s32 amount) s)
  else
    let read := count s - pos s in
    let s := set_pos (count s) s in
    if negb (markPos s =? -1) && (amount <=? markLimit s) then
      (let* r := bufferData in
       if r =? -1 then ret read
       else fun s =>
         if amount - read <=? count s - pos s then Ok (amount, set_pos (pos s + to_s32 (amount - read)) s)
         else Ok (read + (count s - pos s), set_pos (count s) s)) s
    else (let* k := inner (is_skip (amount - read)) in ret (read + k)) s).

#[global] Instance stream : InputStream t := { is_readByte := doReadByte; is_read := doReadArrayBounded; is_skip := skip }.
#[global] Instance source : Source t := { is_available := available; is_close := close }.
End Stream.
Arguments t St : clear implicits.

(** ** The buffer *)
Definition window {A} (a b : Z) (l : list A) : list A := take (Z.to_nat (b - a)) (drop (Z.to_nat a) l).

Lemma zlen_take {A} k (l : list A) : 0 <= k -> zlen (take (Z.to_nat k) l) = Z.min k (zlen l).
Proof. intros. unfold zlen. rewrite length_take. lia. Qed.
Lemma zlen_drop {A} k (l : list A) : 0 <= k -> zlen (drop (Z.to_nat k) l) = Z.max 0 (zlen l - k).
Proof. intros. unfold zlen. rewrite length_drop. lia. Qed.
Lemma zlen_map {A B} (f : A -> B) l : zlen (map f l) = zlen l.
Proof. unfold zlen. by rewrite length_map. Qed.
Lemma zlen_window {A} a b (l : list A) : 0 <= a <= b -> b <= zlen l -> zlen (window a b l) = b - a.
Proof. intros. unfold window. rewrite zlen_take, zlen_drop by lia. lia. Qed.
Lemma window_split {A} a b c (l : list A) : 0 <= a <= b -> b <= c -> window a c l = window a b l ++ window b c l.
Proof.
  intros. unfold window. replace (Z.to_nat (c - a)) with (Z.to_nat (b - a) + Z.to_nat (c - b))%nat by lia.
  rewrite <- take_take_drop, drop_drop. do 2 f_equal. f_equal. lia.
Qed.
Lemma zlen_arraycopy {A} (src dest : list A) sp dp n : 0 <= sp -> 0 <= dp -> 0 <= n -> sp + n <= zlen src -> dp + n <= zlen dest ->
  zlen (arraycopy src sp dest dp n) = zlen dest.
Proof. intros. unfold arraycopy. rewrite !zlen_app, !zlen_take, !zlen_drop by lia. lia. Qed.
Lemma window_arraycopy {A} (src dest : list A) sp dp n : 0 <= sp -> 0 <= dp -> 0 <= n -> sp + n <= zlen src -> dp + n <= zlen dest ->
  window dp (dp + n) (arraycopy src sp dest dp n) = window sp (sp + n) src.
Proof.
  intros. unfold window, arraycopy. rewrite drop_app_ge by (pose proof (zlen_take dp dest ltac:(lia)); unfold zlen in *; lia).
  replace (Z.to_nat dp - length (take (Z.to_nat dp) dest))%nat with O by (pose proof (zlen_take dp dest ltac:(lia)); unfold zlen in *; lia).
  rewrite drop_0, take_app_ge by (pose proof (zlen_take n (drop (Z.to_nat sp) src) ltac:(lia)) as E; rewrite zlen_drop in E by lia; unfold zlen in *; lia).
  replace (Z.to_nat (dp + n - dp) - _)%nat with O by (pose proof (zlen_take n (drop (Z.to_nat sp) src) ltac:(lia)) as E; rewrite zlen_drop in E by lia; unfold zlen in *; lia).
  rewrite take_0, app_nil_r. f_equal. lia.
Qed.
Lemma window_before {A} (src dest : list A) sp dp n : 0 <= dp <= zlen dest -> window 0 dp (arraycopy src sp dest dp n) = window 0 dp dest.
Proof.
  intros. unfold window, arraycopy. rewrite !drop_0, take_app_le, take_take by (pose proof (zlen_take dp dest ltac:(lia)); unfold zlen in *; lia).
  f_equal. lia.
Qed.
Lemma determined_some l : determined (map Some l) = Some l.
Proof. induction l as [|b l IH]; [done |]. cbn [map determined]. by rewrite IH. Qed.

Section Laws.
Context {St : Type} `{SourceLaws St}.
Implicit Types s : t St.

Record sane s : Prop := {
  sane_open : closed s = false;
  sane_size : 0 < bufferSize s <= 2 ^ 30;
  sane_buff : zlen (buff s) = bufferSize s;
  sane_pos : 0 <= pos s <= count s /\ count s <= bufferSize s;
  sane_mark : -1 <= markPos s <= pos s;
  sane_limit : markLimit s <= 2 ^ 30
}.
(** The stream still delivers [l], and the bytes in front of its position are [h]. *)
Definition at_ s (h l : list Z) : Prop :=
  sane s /\ zlen h <= pos s /\
  exists l0 l1, window (pos s - zlen h) (count s) (buff s) = map Some (h ++ l0) /\ stream_at (inputStream s) l1 /\ l = l0 ++ l1.
(** The mark was set [h] ago and lasts for [n] bytes more, without a larger buffer. *)
Definition marked s (limit : Z) (h : list Z) (n : Z) : Prop :=
  markPos s = pos s - zlen h /\ markLimit s = limit /\ limit <= bufferSize s /\ zlen h + n <= limit.
Definition holds (mk : option Z) s (h l : list Z) (n : Z) : Prop :=
  match mk with None => at_ s [] l | Some limit => at_ s h l /\ marked s limit h n end.

Lemma at_forget s h l : at_ s h l -> at_ s [] l.
Proof.
  intros (Hs & Hh & l0 & l1 & Hw & Hi & ->). pose proof (zlen_nonneg h). split; [done |]. split; [change (zlen (@nil Z)) with 0; lia |].
  exists l0, l1. split; [|done]. change (zlen (@nil Z)) with 0. rewrite Z.sub_0_r. cbn [app].
  pose proof (sane_pos s Hs). rewrite (window_split _ (pos s)), map_app in Hw by lia.
  assert (E : length (window (pos s - zlen h) (pos s) (buff s)) = length (map Some h)).
  { rewrite length_map. pose proof (zlen_window (pos s - zlen h) (pos s) (buff s) ltac:(lia) ltac:(rewrite (sane_buff s Hs); lia)). unfold zlen in *. lia. }
  by apply app_inj_1 in Hw as [_ Hw].
Qed.
Lemma holds_at mk s h l n : holds mk s h l n -> at_ s [] l.
Proof. destruct mk; [intros [Ha _]; by eapply at_forget | done]. Qed.
Lemma holds_sane mk s h l n : holds mk s h l n -> sane s.
Proof. by intros (? & _)%holds_at. Qed.
Lemma holds_weaken mk s h l n n' : holds mk s h l n -> n' <= n -> holds mk s h l n'.
Proof. destruct mk; [|done]. intros [Ha (Mp & Ml & Mb & Mn)] Hn. split; [done |]. repeat split; try done. lia. Qed.

(** What is in the buffer is delivered first. *)
Lemma at_buffered s h l : at_ s h l -> count s - pos s <= zlen l.
Proof.
  intros (Hs & _ & l0 & l1 & Hw & _ & ->)%at_forget. apply (f_equal zlen) in Hw. pose proof (sane_pos s Hs). change (zlen (@nil Z)) with 0 in Hw.
  rewrite zlen_window, zlen_map in Hw by (rewrite ?(sane_buff s Hs); lia). cbn [app] in Hw. rewrite zlen_app. pose proof (zlen_nonneg l1). lia.
Qed.

Lemma take_bytes_spec mk s h l n k : holds mk s h l n -> 0 <= k <= count s - pos s -> k <= n ->
  take_bytes k s = Ok (take (Z.to_nat k) l, set_pos (pos s + k) s) /\
  holds mk (set_pos (pos s + k) s) (h ++ take (Z.to_nat k) l) (drop (Z.to_nat k) l) (n - k).
Proof.
  intros Hh Hk Hn. pose proof (holds_at _ _ _ _ _ Hh) as Ha. pose proof (at_buffered _ _ _ Ha) as Hb. pose proof Ha as (Hs & _ & l0 & l1 & Hw & Hi & El).
  pose proof (sane_pos s Hs). pose proof (sane_buff s Hs). change (zlen (@nil Z)) with 0 in Hw. rewrite Z.sub_0_r in Hw. cbn [app] in Hw.
  assert (Hz : zlen l0 = count s - pos s) by (apply (f_equal zlen) in Hw; rewrite zlen_window, zlen_map in Hw by lia; lia).
  assert (Ht : take (Z.to_nat k) l = take (Z.to_nat k) l0) by (subst l; apply take_app_le; unfold zlen in *; lia).
  assert (Hd : drop (Z.to_nat k) l = drop (Z.to_nat k) l0 ++ l1) by (subst l; apply drop_app_le; unfold zlen in *; lia).
  rewrite Ht, Hd.
  assert (Hwk : window (pos s) (pos s + k) (buff s) = map Some (take (Z.to_nat k) l0) /\ window (pos s + k) (count s) (buff s) = map Some (drop (Z.to_nat k) l0)).
  { rewrite (window_split _ (pos s + k)), <- (take_drop (Z.to_nat k) l0), map_app in Hw by lia. apply app_inj_1 in Hw; [done |].
    rewrite length_map. pose proof (zlen_window (pos s) (pos s + k) (buff s) ltac:(lia) ltac:(lia)). pose proof (zlen_take k l0 ltac:(lia)). unfold zlen in *. lia. }
  destruct Hwk as [Hw1 Hw2]. split.
  { unfold take_bytes. unfold window in Hw1. replace (pos s + k - pos s) with k in Hw1 by lia. rewrite Hw1, zlen_map, zlen_take, Z.min_l by lia.
    rewrite Z.ltb_irrefl. by rewrite determined_some. }
  assert (Hs' : sane (set_pos (pos s + k) s)) by (destruct Hs; split; cbn; (done || lia)).
  assert (Hat : forall h', zlen h' <= pos s -> window (pos s - zlen h') (pos s) (buff s) = map Some h' ->
    at_ (set_pos (pos s + k) s) (h' ++ take (Z.to_nat k) l0) (drop (Z.to_nat k) l0 ++ l1)).
  { intros h' Hh' Hwh. pose proof (zlen_nonneg h'). split; [done |]. rewrite zlen_app, zlen_take, Z.min_l by lia. cbn [pos set_pos count buff inputStream]. split; [lia |].
    exists (drop (Z.to_nat k) l0), l1. split; [|done]. replace (pos s + k - (zlen h' + k)) with (pos s - zlen h') by lia.
    rewrite (window_split _ (pos s) (count s)), (window_split (pos s) (pos s + k)) by lia. by rewrite Hwh, Hw1, Hw2, <- !map_app, <- app_assoc. }
  destruct mk as [limit|].
  - destruct Hh as [(_ & Hhp & l0' & l1' & Hw' & _ & _) (Mp & Ml & Mb & Mn)]. pose proof (zlen_nonneg h). split.
    + apply Hat; [done |]. rewrite (window_split _ (pos s)), map_app in Hw' by lia. apply app_inj_1 in Hw' as [E _]; [done |].
      rewrite length_map. pose proof (zlen_window (pos s - zlen h) (pos s) (buff s) ltac:(lia) ltac:(lia)). unfold zlen in *. lia.
    + unfold marked. rewrite zlen_app, zlen_take, Z.min_l by lia. cbn. repeat split; try done; lia.
  - apply (at_forget _ (take (Z.to_nat k) l0)). apply (Hat []); [change (zlen (@nil Z)) with 0; lia |].
    unfold window. change (zlen (@nil Z)) with 0. by replace (Z.to_nat (pos s - (pos s - 0))) with O by lia.
Qed.

Lemma bind_step {S A B} (m : M S A) (k : A -> M S B) (s : S) a (s' : S) : m s = Ok (a, s') -> bind m k s = k a s'.
Proof. intros E. unfold bind. by rewrite E. Qed.

(** ** Filling the buffer *)
Lemma read_source s l1 size off len : stream_at (inputStream s) l1 -> 0 <= off -> 0 < len <= size - off ->
  (l1 = [] /\ exists i, inner (is_read size off len) s = Ok (None, set_inputStream i s) /\ stream_at i []) \/
  (exists c l2 i, l1 = c ++ l2 /\ c <> [] /\ zlen c <= len /\ inner (is_read size off len) s = Ok (Some c, set_inputStream i s) /\ stream_at i l2).
Proof.
  intros Hi Ho Hl. unfold inner. destruct (read_law _ _ size off len Hi Ho Hl) as [(-> & i & E & Hi')|(c & l2 & i & -> & Hc & Hz & E & Hi')].
  - left. split; [done |]. exists i. by rewrite E.
  - right. exists c, l2, i. by rewrite E.
Qed.
Lemma empty_buffer s l : at_ s [] l -> pos s = count s -> stream_at (inputStream s) l.
Proof.
  intros (Hs & _ & l0 & l1 & Hw & Hi & ->) Hp. pose proof (sane_pos s Hs). rewrite Hp in Hw. unfold window in Hw. change (zlen (@nil Z)) with 0 in Hw.
  replace (Z.to_nat (count s - (count s - 0))) with O in Hw by lia. by destruct l0.
Qed.
(** The stream after a read that ended, or delivered [c] to the buffer behind [h]. *)
Lemma at_ended s h i : sane s -> zlen h <= pos s -> pos s = count s -> window (pos s - zlen h) (pos s) (buff s) = map Some h -> stream_at i [] ->
  at_ (set_inputStream i s) h [].
Proof.
  intros Hs Hh Hp Hw Hi. split; [by destruct Hs |]. split; [done |]. exists [], []. cbn [pos count buff inputStream set_inputStream]. rewrite <- Hp, app_nil_r. done.
Qed.
Lemma at_stored s h i c l2 : sane s -> zlen h <= pos s -> pos s = count s -> window (pos s - zlen h) (pos s) (buff s) = map Some h ->
  stream_at i l2 -> pos s + zlen c <= bufferSize s ->
  at_ (set_window (pos s) (pos s + zlen c) (stored (pos s) c (set_inputStream i s))) h (c ++ l2).
Proof.
  intros Hs Hh Hp Hw Hi Hc. pose proof (zlen_nonneg c). pose proof (zlen_nonneg h). pose proof (sane_pos s Hs). pose proof (sane_buff s Hs).
  assert (Hsane : sane (set_window (pos s) (pos s + zlen c) (stored (pos s) c (set_inputStream i s)))).
  { destruct Hs. split; cbn; try (done || lia). rewrite zlen_arraycopy; rewrite ?zlen_map; lia. }
  split; [done |]. split; [done |]. exists c, l2. split; [|done]. cbn [pos count buff set_window stored set_buff bufferSize set_inputStream].
  rewrite map_app, (window_split _ (pos s)) by lia. f_equal; [|rewrite window_arraycopy; rewrite ?zlen_map; try lia].
  - rewrite <- Hw. assert (E : forall b : list (option Z), window 0 (pos s) b = window 0 (pos s) (buff s) -> window (pos s - zlen h) (pos s) b = window (pos s - zlen h) (pos s) (buff s)).
    { intros b Eb. unfold window in *. rewrite !drop_0, Z.sub_0_r in Eb. replace (Z.to_nat (pos s - (pos s - zlen h))) with (Z.to_nat (pos s) - Z.to_nat (pos s - zlen h))%nat by lia.
      rewrite !take_drop_commute. replace (Z.to_nat (pos s - zlen h) + (Z.to_nat (pos s) - Z.to_nat (pos s - zlen h)))%nat with (Z.to_nat (pos s)) by lia. by rewrite Eb. }
    apply E, window_before. lia.
  - unfold window. rewrite drop_0. replace (Z.to_nat (0 + zlen c - 0)) with (length (map (@Some Z) c)) by (rewrite length_map; unfold zlen; lia). apply take_ge. lia.
Qed.

Definition filled mk s (h l : list Z) (n : Z) : Prop :=
  (l = [] /\ exists s', bufferData s = Ok (-1, s') /\ holds mk s' h [] n /\ pos s' = count s') \/
  (exists r s', 0 < r /\ bufferData s = Ok (r, s') /\ holds mk s' h l n /\ pos s' < count s').

Lemma fill_unmarked s l n h : at_ s [] l -> pos s = count s -> (markPos s =? -1) || (markLimit s <=? pos s - markPos s) = true -> filled None s h l n.
Proof.
  intros Ha Hp Hm. pose proof Ha as (Hs & _). pose proof (empty_buffer s l Ha Hp) as Hi. pose proof (sane_size s Hs). pose proof (sane_pos s Hs).
  unfold filled, bufferData, catch_io. rewrite Hm.
  destruct (read_source s l (bufferSize s) 0 (bufferSize s) Hi) as [(-> & i & E & Hi')|(c & l2 & i & -> & Hc & Hz & E & Hi')]; [lia | lia | left | right].
  - split; [done |]. exists (set_inputStream i s). unfold bind. rewrite E. cbn [ret]. split; [done |]. split; [|done].
    apply (at_ended s []); try done; change (zlen (@nil Z)) with 0; [lia |]. unfold window. by replace (Z.to_nat (pos s - (pos s - 0))) with O by lia.
  - pose proof (nonempty_zlen c Hc). unfold bind. rewrite E. eexists _, _. split; [done |]. split; [done |].
    rewrite (proj2 (Z.ltb_lt 0 (zlen c))) by lia. split; [|cbn; lia]. cbn [holds].
    pose (s1 := set_window 0 0 (set_mark (-1) 0 s)). assert (Hs1 : sane s1) by (destruct Hs; split; cbn; (done || lia)).
    exact (at_stored s1 [] i c l2 Hs1 (Z.le_refl 0) eq_refl eq_refl Hi' Hz).
Qed.

(** The buffer made ready for more bytes behind those since the mark. *)
Definition ready s : result (t St) :=
  if (markPos s =? 0) && (bufferSize s <? markLimit s) then grow s
  else if 0 <? markPos s then Ok (set_buff (bufferSize s) (arraycopy (buff s) (markPos s) (buff s) 0 (bufferSize s - markPos s)) s)
  else Ok s.
Lemma ready_spec mk s h l n : holds mk s h l n -> pos s = count s -> 0 <= markPos s -> pos s - markPos s < markLimit s ->
  exists s1 g, ready s = Ok s1 /\ let s2 := set_mark 0 (markLimit s1) (set_window (pos s1 - markPos s1) (pos s1 - markPos s1) s1) in
    sane s2 /\ zlen g <= pos s2 /\ window (pos s2 - zlen g) (pos s2) (buff s2) = map Some g /\ pos s2 < bufferSize s2 /\
    inputStream s2 = inputStream s /\
    match mk with None => g = [] | Some limit => g = h /\ pos s2 = zlen h /\ markLimit s2 = limit /\ limit <= bufferSize s2 end.
Proof.
  intros Hh Hp Hm Hlim. pose proof (holds_sane _ _ _ _ _ Hh) as Hs. pose proof (sane_size s Hs). pose proof (sane_buff s Hs). pose proof (sane_pos s Hs).
  pose proof (sane_mark s Hs). pose proof (sane_limit s Hs). unfold ready.
  destruct ((markPos s =? 0) && (bufferSize s <? markLimit s)) eqn:Hg.
  - apply andb_true_iff in Hg as [Hm0%Z.eqb_eq Hg%Z.ltb_lt].
    unfold grow. rewrite (proj2 (Z.leb_gt (2 ^ 31) (bufferSize s * 2))) by lia. set (nl := if markLimit s <? bufferSize s * 2 then _ else _).
    assert (Hnl : bufferSize s < nl <= 2 ^ 30) by (subst nl; destruct (Z.ltb_spec (markLimit s) (bufferSize s * 2)); lia).
    exists (set_buff nl (replicate (Z.to_nat nl) None) s), []. split; [done |]. cbv zeta.
    cbn [pos bufferSize buff inputStream set_mark set_window set_buff markPos markLimit]. change (zlen (@nil Z)) with 0.
    assert (Hz : zlen (replicate (Z.to_nat nl) (@None Z)) = nl) by (unfold zlen; rewrite length_replicate; lia).
    split; [destruct Hs; split; cbn; (done || lia) |]. split; [lia |]. split; [unfold window; by replace (Z.to_nat (pos s - markPos s - (pos s - markPos s - 0))) with O by lia |].
    split; [lia |]. split; [done |]. destruct mk as [limit|]; [|done]. destruct Hh as [_ (Mp & Ml & Mb & Mn)]. lia.
  - assert (Hwin : forall limit, mk = Some limit -> window (markPos s) (pos s) (buff s) = map Some h /\ pos s - markPos s = zlen h /\ markLimit s = limit /\ limit <= bufferSize s).
    { intros limit ->. destruct Hh as [(_ & _ & l0 & l1 & Hw & _) (Mp & Ml & Mb & Mn)]. split; [|split; [lia | done]]. rewrite Mp.
      pose proof (zlen_nonneg h). rewrite <- Hp in Hw. assert (l0 = []) as ->.
      { apply (f_equal zlen) in Hw. rewrite zlen_window, zlen_map, zlen_app in Hw by lia. destruct l0; [done |]. rewrite zlen_cons in Hw. pose proof (zlen_nonneg l0). lia. }
      by rewrite app_nil_r in Hw. }
    assert (Hnone : forall a b : Z, forall x : list (option Z), window (a - b - 0) (a - b) x = []) by (intros a b x; unfold window; by replace (Z.to_nat (a - b - (a - b - 0))) with O by lia).
    destruct (Z.ltb_spec 0 (markPos s)).
    + set (b := arraycopy _ _ _ _ _). assert (Hz : zlen b = bufferSize s) by (subst b; rewrite zlen_arraycopy; lia).
      exists (set_buff (bufferSize s) b s), (match mk with None => [] | Some _ => h end). split; [done |]. cbv zeta.
      cbn [pos bufferSize buff inputStream set_mark set_window set_buff markPos markLimit].
      split; [destruct Hs; split; cbn; (done || lia) |]. destruct mk as [limit|].
      * destruct (Hwin limit eq_refl) as (Hw & Hz' & Hl' & Hb'). split; [lia |]. split; [|split; [lia | done]].
        rewrite Hz', Z.sub_diag, <- Hw. pose proof (zlen_nonneg h).
        assert (E : window 0 (bufferSize s - markPos s) b = window (markPos s) (bufferSize s) (buff s)).
        { replace (bufferSize s) with (markPos s + (bufferSize s - markPos s)) at 2 by lia. rewrite <- (window_arraycopy (buff s) (buff s) (markPos s) 0) by lia. done. }
        rewrite (window_split 0 (zlen h)), (window_split (markPos s) (pos s)) in E by lia. apply app_inj_1 in E; [by destruct E |].
        pose proof (zlen_window 0 (zlen h) b ltac:(lia) ltac:(lia)). pose proof (zlen_window (markPos s) (pos s) (buff s) ltac:(lia) ltac:(lia)). unfold zlen in *. lia.
      * change (zlen (@nil Z)) with 0. split; [lia |]. split; [apply Hnone | split; [lia | done]].
    + assert (markPos s = 0) as Hm0 by lia. rewrite Hm0 in Hg. change (0 =? 0) with true in Hg. cbn [andb] in Hg. apply Z.ltb_ge in Hg.
      exists s, (match mk with None => [] | Some _ => h end). split; [done |]. cbv zeta.
      cbn [pos bufferSize buff inputStream set_mark set_window markPos markLimit].
      split; [destruct Hs; split; cbn; (done || lia) |]. destruct mk as [limit|].
      * destruct (Hwin limit eq_refl) as (Hw & Hz' & Hl' & Hb'). split; [lia |]. split; [|split; [lia | done]]. rewrite Hz', Z.sub_diag, <- Hw, Hm0. f_equal. lia.
      * change (zlen (@nil Z)) with 0. split; [lia |]. split; [apply Hnone | split; [lia | done]].
Qed.

Lemma fill_marked mk s h l n : holds mk s h l n -> pos s = count s -> (markPos s =? -1) || (markLimit s <=? pos s - markPos s) = false -> filled mk s h l n.
Proof.
  intros Hh Hp Hm. pose proof (holds_sane _ _ _ _ _ Hh) as Hs. pose proof (empty_buffer s l (holds_at _ _ _ _ _ Hh) Hp) as Hi.
  pose proof Hm as Hm'. apply orb_false_iff in Hm' as [Hm1%Z.eqb_neq Hm2%Z.leb_gt]. pose proof (sane_mark s Hs).
  destruct (ready_spec mk s h l n Hh Hp ltac:(lia) ltac:(lia)) as (s1 & g & E1 & Hr). cbv zeta in Hr.
  unfold filled, bufferData, catch_io. rewrite Hm. fold (ready s). rewrite E1. cbn [rbind]. cbv zeta.
  set (s2 := set_mark 0 (markLimit s1) (set_window (pos s1 - markPos s1) (pos s1 - markPos s1) s1)) in *.
  set (s3 := set_mark 0 (markLimit s1) (set_window (pos s1 - markPos s1) 0 s1)).
  destruct Hr as (Hs2 & Hg & Hw & Hroom & Hin & Hk). pose proof (zlen_nonneg g).
  assert (Hi3 : stream_at (inputStream s3) l) by (change (inputStream s3) with (inputStream s2); by rewrite Hin).
  change (pos s3) with (pos s2). change (bufferSize s3) with (bufferSize s2).
  destruct (read_source s3 l (bufferSize s2) (pos s2) (bufferSize s2 - pos s2) Hi3) as [(-> & i & E & Hi')|(c & l2 & i & -> & Hc & Hz & E & Hi')]; [lia | lia | left | right].
  - split; [done |]. exists (set_inputStream i s2). unfold bind. rewrite E. split; [done |]. split; [|done].
    pose proof (at_ended s2 g i Hs2 Hg eq_refl Hw Hi') as Ha. destruct mk as [limit|]; [|by subst g].
    destruct Hk as (-> & Kp & Kl & Kb). split; [done |]. destruct Hh as [_ (_ & _ & _ & Mn)]. split; [cbn in *; lia |]. done.
  - pose proof (nonempty_zlen c Hc). eexists _, (set_window (pos s2) (pos s2 + zlen c) (stored (pos s2) c (set_inputStream i s2))).
    split; [|split; [unfold bind; rewrite E; reflexivity |]]; [done |]. split; [|cbn; lia].
    pose proof (at_stored s2 g i c l2 Hs2 Hg eq_refl Hw Hi' ltac:(lia)) as Ha. destruct mk as [limit|]; [|by subst g].
    destruct Hk as (-> & Kp & Kl & Kb). split; [done |]. destruct Hh as [_ (_ & _ & _ & Mn)]. split; [cbn in *; lia |]. done.
Qed.
Lemma bufferData_spec mk s h l n : holds mk s h l n -> pos s = count s -> 1 <= n -> filled mk s h l n.
Proof.
  intros Hh Hp Hn. destruct ((markPos s =? -1) || (markLimit s <=? pos s - markPos s)) eqn:Hm; [|by apply fill_marked].
  destruct mk as [limit|]; [|by apply fill_unmarked]. destruct Hh as [(Hs & Hz & _) (Mp & Ml & Mb & Mn)]. pose proof (zlen_nonneg h).
  apply orb_true_iff in Hm as [?%Z.eqb_eq|?%Z.leb_le]; lia.
Qed.

(** ** Reading *)
Lemma set_closed_open mk s h l n : holds mk s h l n -> closed s = false.
Proof. intros Hh. apply holds_sane in Hh. by destruct Hh. Qed.
Lemma pos_le_count mk s h l n : holds mk s h l n -> 0 <= pos s <= count s.
Proof. intros Hh%holds_sane. apply (sane_pos s Hh). Qed.
Lemma available_nil mk s h l n : holds mk s h l n -> l = [] -> pos s = count s.
Proof. intros Hh ->. pose proof (pos_le_count _ _ _ _ _ Hh). apply holds_at, at_buffered in Hh. change (zlen (@nil Z)) with 0 in Hh. lia. Qed.

Lemma doReadByte_spec mk s h l n : holds mk s h l n -> 1 <= n ->
  exists s', doReadByte s = Ok (head l, s') /\ holds mk s' (h ++ take 1 l) (tail l) (n - 1).
Proof.
  intros Hh Hn. unfold doReadByte, catch_io. rewrite (set_closed_open _ _ _ _ _ Hh).
  assert (Htake : forall s, holds mk s h l n -> pos s < count s -> exists s',
    (if closed s then throw IOException else if negb (pos s =? count s) then (let* c := take_bytes 1 in ret (head c)) s else Ok (None, s)) = Ok (head l, s') /\
    holds mk s' (h ++ take 1 l) (tail l) (n - 1)).
  { clear s Hh. intros s Hh Hp. rewrite (set_closed_open _ _ _ _ _ Hh). rewrite (proj2 (Z.eqb_neq _ _)) by lia. cbn [negb].
    destruct (take_bytes_spec mk s h l n 1 Hh ltac:(lia) ltac:(lia)) as [E Hh']. unfold bind. rewrite E. exists (set_pos (pos s + 1) s).
    split; [by destruct l |]. exact Hh'. }
  unfold bind at 1. destruct (Z.leb_spec (count s) (pos s)).
  - pose proof (pos_le_count _ _ _ _ _ Hh). destruct (bufferData_spec mk s h l n Hh ltac:(lia) Hn) as [(-> & s' & E & Hh' & _)|(r & s' & Hr & E & Hh' & Hp')]; rewrite E.
    + change (-1 =? -1) with true. cbn [ret]. exists s'. split; [done |]. cbn [take tail]. rewrite app_nil_r. apply (holds_weaken _ _ _ _ n); [done | lia].
    + rewrite (proj2 (Z.eqb_neq r (-1))) by lia. destruct (Htake s' Hh' Hp') as (s'' & E' & Hh''). rewrite E'. by exists s''.
  - unfold ret at 1. change (0 =? -1) with false. cbv iota. destruct (Htake s Hh ltac:(lia)) as (s'' & E' & Hh''). rewrite E'. by exists s''.
Qed.

(** One turn of the loop of a read. *)
Definition turn (size offset required : Z) : M (t St) (option (list Z)) := fun s =>
  if (markPos s =? -1) && (bufferSize s <=? required) then inner (is_read size offset required) s
  else
    (let* r := bufferData in
     if r =? -1 then ret None
     else fun s =>
       if closed s then throw IOException
       else (let* c := take_bytes (if required <=? count s - pos s then required else count s - pos s) in ret (Some c)) s) s.
Lemma turn_spec mk s h l n size offset required : holds mk s h l n -> pos s = count s -> 1 <= required <= n -> 0 <= offset -> required <= size - offset ->
  (l = [] /\ exists s', turn size offset required s = Ok (None, s') /\ holds mk s' h [] n) \/
  (exists c l' s', l = c ++ l' /\ 0 < zlen c <= required /\ turn size offset required s = Ok (Some c, s') /\ holds mk s' (h ++ c) l' (n - zlen c) /\
     (zlen c < required -> pos s' = count s')).
Proof.
  intros Hh Hp Hr Ho Hsz. unfold turn. destruct ((markPos s =? -1) && (bufferSize s <=? required)) eqn:Hd.
  - apply andb_true_iff in Hd as [Hm%Z.eqb_eq _]. destruct mk as [limit|]; [destruct Hh as [(_ & Hz & _) (Mp & _)]; lia |].
    pose proof Hh as (Hs & _). pose proof (sane_pos s Hs). pose proof (empty_buffer s l Hh Hp) as Hi.
    assert (Hn0 : window (pos s - zlen (@nil Z)) (pos s) (buff s) = map Some []) by (change (zlen (@nil Z)) with 0; unfold window; by replace (Z.to_nat (pos s - (pos s - 0))) with O by lia).
    destruct (read_source s l size offset required Hi Ho ltac:(lia)) as [(-> & i & E & Hi')|(c & l2 & i & -> & Hc & Hz & E & Hi')]; [left | right].
    + split; [done |]. exists (set_inputStream i s). split; [done |]. apply (at_ended s []); try done. change (zlen (@nil Z)) with 0. lia.
    + pose proof (nonempty_zlen c Hc). exists c, l2, (set_inputStream i s). split; [done |]. split; [lia |]. split; [done |]. split; [|done].
      split; [by destruct Hs |]. split; [change (zlen (@nil Z)) with 0; cbn; lia |]. exists [], l2. cbn [pos count buff inputStream set_inputStream]. rewrite <- Hp. done.
  - destruct (bufferData_spec mk s h l n Hh Hp ltac:(lia)) as [(-> & s' & E & Hh' & _)|(r & s' & Hr' & E & Hh' & Hp')]; [left | right]; unfold bind; rewrite E.
    + split; [done |]. by exists s'.
    + rewrite (proj2 (Z.eqb_neq r (-1))) by lia. rewrite (set_closed_open _ _ _ _ _ Hh'). set (k := if required <=? count s' - pos s' then _ else _).
      assert (Hk : 0 < k <= required /\ k <= count s' - pos s' /\ (k < required -> k = count s' - pos s')) by (subst k; destruct (Z.leb_spec required (count s' - pos s')); lia).
      destruct Hk as (Hk1 & Hk2 & Hk3). destruct (take_bytes_spec mk s' h l n k Hh' ltac:(lia) ltac:(lia)) as [E' Hh'']. rewrite E'.
      pose proof (at_buffered _ _ _ (holds_at _ _ _ _ _ Hh')). assert (Hz : zlen (take (Z.to_nat k) l) = k) by (rewrite zlen_take; lia).
      eexists _, _, _. rewrite take_drop. split; [done |]. rewrite Hz. split; [lia |]. split; [done |]. split; [done |]. cbn. lia.
Qed.

(** A read delivers a prefix. *)
Definition read_ok mk s (h l : list Z) (n len : Z) (r : result (option (list Z) * t St)) (acc : list Z) : Prop :=
  (l = [] /\ acc = [] /\ exists s', r = Ok (None, s') /\ holds mk s' h [] n) \/
  (exists c l' s', l = c ++ l' /\ 0 < zlen (acc ++ c) <= len /\ zlen c <= n /\ r = Ok (Some (acc ++ c), s') /\ holds mk s' (h ++ c) l' (n - zlen c)).

Lemma inner_available mk s h l n : holds mk s h l n -> exists k s', inner is_available s = Ok (k, s') /\ holds mk s' h l n /\ pos s' = pos s /\ count s' = count s.
Proof.
  intros Hh. assert (Hset : forall s h l, at_ s h l -> exists k i, is_available (inputStream s) = Ok (k, i) /\ at_ (set_inputStream i s) h l).
  { intros s0 h0 l0 (Hs & Hz & b & l1 & Hw & Hi & ->). destruct (available_law _ _ Hi) as (k & i & E & Hi'). exists k, i. split; [done |].
    split; [by destruct Hs |]. split; [done |]. by exists b, l1. }
  unfold inner. destruct mk as [limit|].
  - destruct Hh as [Ha Hm]. destruct (Hset _ _ _ Ha) as (k & i & E & Ha'). exists k, (set_inputStream i s). rewrite E. split; [done |]. split; [by split | done].
  - destruct (Hset _ _ _ Hh) as (k & i & E & Ha'). exists k, (set_inputStream i s). by rewrite E.
Qed.

Lemma fill_spec mk : forall fuel s h l n size offset required len acc,
  holds mk s h l n -> pos s = count s -> 1 <= required <= n -> 0 <= offset -> required <= size - offset -> required = len - zlen acc ->
  (Z.to_nat required <= fuel)%nat -> read_ok mk s h l n len (fill fuel size offset required len acc s) acc \/
  (l = [] /\ acc <> [] /\ exists s', fill fuel size offset required len acc s = Ok (Some acc, s') /\ holds mk s' h [] n).
Proof.
  induction fuel as [|fuel IH]; intros s h l n size offset required len acc Hh Hp Hr Ho Hsz Hreq Hf; [lia |].
  pose proof (zlen_nonneg acc) as Hz0. cbn [fill]. fold (turn size offset required).
  destruct (turn_spec mk s h l n size offset required Hh Hp Hr Ho Hsz) as [(-> & s' & E & Hh')|(c & l' & s' & -> & Hc & E & Hh' & Hp')]; rewrite (bind_step _ _ _ _ _ E).
  - destruct (Z.eqb_spec required len).
    + left. left. split; [done |]. split; [destruct acc; [done |]; rewrite zlen_cons in Hreq; pose proof (zlen_nonneg acc); lia |]. by exists s'.
    + right. split; [done |]. split; [intros ->; change (zlen (@nil Z)) with 0 in Hreq; lia |]. by exists s'.
  - cbv zeta. pose proof (zlen_app acc c).
    assert (Hstop : forall s'', holds mk s'' (h ++ c) l' (n - zlen c) -> read_ok mk s h (c ++ l') n len (Ok (Some (acc ++ c), s'')) acc).
    { intros s'' Hh''. right. exists c, l', s''. split; [done |]. split; [lia |]. split; [lia |]. done. }
    destruct (Z.eqb_spec (required - zlen c) 0); [left; by apply Hstop |].
    destruct (inner_available mk s' _ _ _ Hh') as (k & s'' & Ek & Hh'' & Hps & Hcs). rewrite (bind_step _ _ _ _ _ Ek).
    destruct (Z.eqb_spec k 0); [left; by apply Hstop |]. left.
    destruct (IH s'' (h ++ c) l' (n - zlen c) size (offset + zlen c) (required - zlen c) len (acc ++ c) Hh'') as [[(-> & Hacc & _)|(c' & l2 & s3 & -> & Hc' & Hn' & E3 & Hh3)]|(-> & _ & s3 & E3 & Hh3)]; try lia.
    + apply (f_equal zlen) in Hacc. change (zlen (@nil Z)) with 0 in Hacc. lia.
    + rewrite E3. right. exists (c ++ c'), l2, s3. rewrite <- !app_assoc in *. rewrite !zlen_app in *. split; [done |]. split; [lia |]. split; [lia |]. split; [done |]. by rewrite Z.sub_add_distr.
    + rewrite E3, app_nil_r. right. exists c, [], s3. rewrite app_nil_r. split; [done |]. split; [lia |]. split; [lia |]. done.
Qed.

Lemma doReadArrayBounded_spec mk s h l n size offset len : holds mk s h l n -> 0 <= offset -> 0 < len <= size - offset -> len <= n ->
  (l = [] /\ exists s', doReadArrayBounded size offset len s = Ok (None, s') /\ holds mk s' h [] n) \/
  (exists c l' s', l = c ++ l' /\ 0 < zlen c <= len /\ doReadArrayBounded size offset len s = Ok (Some c, s') /\ holds mk s' (h ++ c) l' (n - zlen c)).
Proof.
  intros Hh Ho Hl Hn. unfold doReadArrayBounded, catch_read. rewrite (set_closed_open _ _ _ _ _ Hh).
  rewrite (proj2 (Z.ltb_ge size offset)), (proj2 (Z.ltb_ge offset 0)), (proj2 (Z.ltb_ge len 0)), (proj2 (Z.ltb_ge (size - offset) len)), (proj2 (Z.eqb_neq len 0)) by lia.
  cbn [orb]. pose proof (pos_le_count _ _ _ _ _ Hh) as Hpc. destruct (Z.ltb_spec (pos s) (count s)) as [Hp|Hp].
  - cbv zeta. set (k := if len <=? count s - pos s then len else count s - pos s).
    assert (Hk : 0 < k <= len /\ k <= count s - pos s /\ (k <> len -> k = count s - pos s)) by (subst k; destruct (Z.leb_spec len (count s - pos s)); lia).
    destruct Hk as (Hk1 & Hk2 & Hk3). destruct (take_bytes_spec mk s h l n k Hh ltac:(lia) ltac:(lia)) as [E Hh'].
    pose proof (at_buffered _ _ _ (holds_at _ _ _ _ _ Hh)). assert (Hz : zlen (take (Z.to_nat k) l) = k) by (rewrite zlen_take; lia).
    set (c := take (Z.to_nat k) l) in *. set (l' := drop (Z.to_nat k) l) in *. assert (El : l = c ++ l') by (subst c l'; by rewrite take_drop).
    right. rewrite (bind_step _ _ _ _ _ E). destruct (Z.eqb_spec k len) as [Ek|Ek].
    { exists c, l', (set_pos (pos s + k) s). rewrite Hz. split; [done |]. split; [lia |]. done. }
    destruct (inner_available mk _ _ _ _ Hh') as (a & s'' & Ea & Hh'' & Hps & Hcs). rewrite (bind_step _ _ _ _ _ Ea).
    destruct (Z.eqb_spec a 0) as [E0|E0].
    { exists c, l', s''. rewrite Hz. split; [done |]. split; [lia |]. done. }
    cbn [pos count set_pos] in Hps, Hcs.
    destruct (fill_spec mk (Z.to_nat len) s'' (h ++ c) l' (n - k) size (offset + k) (len - k) len c Hh'') as [[(_ & Hc & _)|(c' & l2 & s3 & El' & Hc' & Hn' & E3 & Hh3)]|(El' & _ & s3 & E3 & Hh3)]; try lia.
    + rewrite Hc in Hz. change (zlen (@nil Z)) with 0 in Hz. lia.
    + rewrite E3. exists (c ++ c'), l2, s3. rewrite El, El', <- !app_assoc in *. rewrite !zlen_app in *. split; [done |]. split; [lia |]. split; [done |]. rewrite Hz. by rewrite Z.sub_add_distr.
    + rewrite E3. exists c, [], s3. rewrite El, El', Hz. split; [done |]. split; [lia |]. done.
  - destruct (fill_spec mk (Z.to_nat len) s h l n size offset len len [] Hh) as [[(-> & _ & s' & E & Hh')|(c & l' & s' & -> & Hc & Hn' & E & Hh')]|(_ & Hc & _)]; try (change (zlen (@nil Z)) with 0; lia); [| |done].
    + left. split; [done |]. rewrite E. by exists s'.
    + right. exists c, l', s'. rewrite E. cbn [app] in *. split; [done |]. split; [lia |]. done.
Qed.

(** ** Skipping *)
Lemma advance_spec mk s h l n k : holds mk s h l n -> 0 <= k <= count s - pos s -> k <= n ->
  holds mk (set_pos (pos s + k) s) (h ++ take (Z.to_nat k) l) (drop (Z.to_nat k) l) (n - k).
Proof. intros Hh Hk Hn. by apply take_bytes_spec. Qed.
Lemma to_s32_small k s : 0 <= k <= count s - pos s -> sane s -> to_s32 k = k.
Proof. intros Hk Hs. pose proof (sane_pos s Hs). pose proof (sane_size s Hs). apply swrap_small; lia. Qed.

(** What [skip] promises: it passes over [k] of the bytes, which it only does for
    none of them at the end. *)
Definition skipped mk s (h l : list Z) (n amount : Z) : Prop :=
  exists k s', 0 <= k <= amount /\ k <= zlen l /\ (k = 0 -> l = []) /\ skip amount s = Ok (k, s') /\
    holds mk s' (h ++ take (Z.to_nat k) l) (drop (Z.to_nat k) l) (n - k).

Lemma skip_spec mk s h l n amount : holds mk s h l n -> 0 < amount <= n -> skipped mk s h l n amount.
Proof.
  intros Hh Ha. pose proof (holds_sane _ _ _ _ _ Hh) as Hs. pose proof (sane_pos s Hs). pose proof (at_buffered _ _ _ (holds_at _ _ _ _ _ Hh)) as Hb.
  unfold skipped, skip, catch_io. rewrite (proj2 (Z.eqb_neq amount 0)), (set_closed_open _ _ _ _ _ Hh) by lia.
  destruct (Z.leb_spec amount (count s - pos s)) as [Hin|Hin].
  { rewrite (to_s32_small amount s) by (done || lia). exists amount, (set_pos (pos s + amount) s). split; [lia |]. split; [lia |]. split; [lia |]. split; [done |].
    apply advance_spec; (done || lia). }
  cbv zeta. set (r := count s - pos s) in *. pose proof (advance_spec mk s h l n r Hh ltac:(lia) ltac:(lia)) as Hh1.
  replace (pos s + r) with (count s) in Hh1 by (subst r; lia). set (s1 := set_pos (count s) s) in *. set (g := h ++ _) in *. set (l1 := drop _ l) in *.
  assert (Hl1 : zlen l1 = zlen l - r) by (subst l1; rewrite zlen_drop; lia).
  assert (Hr0 : r = 0 -> l1 = l) by (intros E0; subst l1; by rewrite E0).
  assert (Hadd : forall k, 0 <= k -> g ++ take (Z.to_nat k) l1 = h ++ take (Z.to_nat (r + k)) l /\ drop (Z.to_nat k) l1 = drop (Z.to_nat (r + k)) l /\ n - r - k = n - (r + k)).
  { intros k Hk. subst g l1. rewrite <- app_assoc, take_take_drop, drop_drop. rewrite Z2Nat.inj_add by lia. split; [done | split; [done | lia]]. }
  destruct (negb (markPos s1 =? -1) && (amount <=? markLimit s1)) eqn:Hm.
  - destruct (bufferData_spec mk s1 g l1 (n - r) Hh1 eq_refl ltac:(lia)) as [(E1 & s' & E & Hh' & _)|(b & s' & Hb' & E & Hh' & Hp')]; rewrite (bind_step _ _ _ _ _ E).
    + change (-1 =? -1) with true. cbn [ret]. exists r, s'. split; [lia |]. split; [lia |]. split; [intros E0; by rewrite <- Hr0 |]. split; [done |].
      fold g l1. by rewrite E1.
    + rewrite (proj2 (Z.eqb_neq b (-1))) by lia. pose proof (at_buffered _ _ _ (holds_at _ _ _ _ _ Hh')). pose proof (holds_sane _ _ _ _ _ Hh') as Hs'. pose proof (sane_pos s' Hs').
      destruct (Z.leb_spec (amount - r) (count s' - pos s')).
      * rewrite (to_s32_small (amount - r) s') by (done || lia). exists amount, (set_pos (pos s' + (amount - r)) s'). split; [lia |]. split; [lia |]. split; [lia |]. split; [done |].
        destruct (Hadd (amount - r) ltac:(lia)) as (E1 & E2 & E3). replace (r + (amount - r)) with amount in * by lia. rewrite <- E1, <- E2, <- E3. apply advance_spec; (done || lia).
      * set (k := count s' - pos s') in *. exists (r + k), (set_pos (count s') s'). split; [lia |]. split; [lia |]. split; [lia |]. split; [done |].
        destruct (Hadd k ltac:(lia)) as (E1 & E2 & E3). rewrite <- E1, <- E2, <- E3. replace (count s') with (pos s' + k) by (subst k; lia). apply advance_spec; (done || lia).
  - destruct mk as [limit|].
    { destruct Hh1 as [(_ & Hz & _) (Mp & Ml & Mb & Mn)]. pose proof (zlen_nonneg g). apply andb_false_iff in Hm as [Hm%negb_false_iff%Z.eqb_eq|Hm%Z.leb_gt]; [lia |].
      assert (r <= zlen g) by (subst g; rewrite zlen_app, zlen_take by lia; pose proof (zlen_nonneg h); lia). lia. }
    pose proof (empty_buffer s1 l1 Hh1 eq_refl) as Hi. destruct (skip_law _ _ (amount - r) Hi ltac:(lia)) as (k & i & Hk1 & Hk2 & Hk3 & E & Hi').
    unfold bind, inner. rewrite E. cbn [rbind fst snd ret]. exists (r + k), (set_inputStream i s1). split; [lia |]. split; [lia |].
    split; [intros E0; rewrite <- Hr0 by lia; apply Hk3; lia |]. split; [done |]. destruct (Hadd k ltac:(lia)) as (_ & E2 & _). rewrite <- E2.
    pose proof Hh1 as (Hs1 & _). pose proof (sane_pos s1 Hs1). split; [by destruct Hs1 |]. split; [change (zlen (@nil Z)) with 0; cbn in *; lia |].
    exists [], (drop (Z.to_nat k) l1). split; [|done]. change (zlen (@nil Z)) with 0. unfold window. by replace (Z.to_nat (count (set_inputStream i s1) - (pos (set_inputStream i s1) - 0))) with O by (cbn; lia).
Qed.

(** ** A buffered stream is an input stream *)
#[global] Program Instance laws : InputStreamLaws (t St) := { stream_at := fun s l => at_ s [] l }.
Next Obligation.
  intros s l Ha. destruct (doReadByte_spec None s [] l 1 Ha ltac:(lia)) as (s' & E & Ha'). by exists s'.
Qed.
Next Obligation.
  intros s l size off len Ha Ho Hl. destruct (doReadArrayBounded_spec None s [] l len size off len Ha Ho Hl ltac:(lia)) as [(-> & s' & E & Ha')|(c & l' & s' & -> & Hc & E & Ha')].
  - left. split; [done |]. by exists s'.
  - right. exists c, l', s'. split; [done |]. split; [intros ->; change (zlen (@nil Z)) with 0 in Hc; lia |]. split; [lia |]. done.
Qed.
Next Obligation.
  intros s l size off len Ha Hs Ho Hl Hb. cbn [is_read stream]. unfold doReadArrayBounded, catch_read. rewrite (set_closed_open None s [] l 0 Ha).
  destruct (Z.ltb_spec size off); [done |]. rewrite (proj2 (Z.ltb_ge off 0)) by lia. cbn [orb]. rewrite (proj2 (Z.ltb_ge len 0)) by lia. by rewrite (proj2 (Z.ltb_lt (size - off) len)) by lia.
Qed.
Next Obligation.
  intros s l n Ha Hn. destruct (skip_spec None s [] l n n Ha ltac:(lia)) as (k & s' & Hk1 & Hk2 & Hk3 & E & Ha'). by exists k, s'.
Qed.
#[global] Program Instance source_laws : SourceLaws (t St).
Next Obligation.
  intros s l Ha. cbn [is_available source]. unfold available. rewrite (set_closed_open None s [] l 0 Ha).
  destruct (inner_available None s [] l 0 Ha) as (k & s' & E & Ha' & _). rewrite (bind_step _ _ _ _ _ E). by eexists _, _.
Qed.

(** A fresh stream delivers what its source does. *)
Lemma new_at i l size : stream_at i l -> 0 < size <= 2 ^ 30 -> exists s, new i size = Ok s /\ stream_at s l.
Proof.
  intros Hi Hz. unfold new. rewrite (proj2 (Z.ltb_ge size 0)) by lia. eexists. split; [done |].
  assert (Hl : zlen (replicate (Z.to_nat size) (@None Z)) = size) by (unfold zlen; rewrite length_replicate; lia).
  split; [split; cbn; (done || lia) |]. split; [done |]. by exists [], l.
Qed.

(** ** Marks *)
(** What a client does between [mark] and [reset]. *)
Inductive access := Byte | Array (len : Z) | Skip (amount : Z).
Definition cost (a : access) : Z := match a with Byte => 1 | Array n | Skip n => n end.
Definition perform (a : access) : M (t St) unit :=
  match a with
  | Byte => doReadByte ;;; ret tt
  | Array n => doReadArrayBounded n 0 n ;;; ret tt
  | Skip n => skip n ;;; ret tt
  end.
Fixpoint performs (l : list access) : M (t St) unit := match l with [] => ret tt | a :: l => perform a ;;; performs l end.
Definition total (l : list access) : Z := fold_right (fun a n => cost a + n) 0 l.

Lemma perform_spec limit s h l n a : holds (Some limit) s h l n -> 0 < cost a <= n ->
  exists s' c l', perform a s = Ok (tt, s') /\ l = c ++ l' /\ holds (Some limit) s' (h ++ c) l' (n - cost a).
Proof.
  intros Hh Ha. destruct a as [|k|k]; cbn [cost perform] in *.
  - destruct (doReadByte_spec _ _ _ _ _ Hh) as (s' & E & Hh'); [lia |]. exists s', (take 1 l), (tail l). rewrite (bind_step _ _ _ _ _ E). split; [done |]. split; [by destruct l | done].
  - destruct (doReadArrayBounded_spec _ _ _ _ _ k 0 k Hh) as [(-> & s' & E & Hh')|(c & l' & s' & -> & Hc & E & Hh')]; try lia; rewrite (bind_step _ _ _ _ _ E).
    + exists s', [], []. split; [done |]. split; [done |]. rewrite app_nil_r. apply (holds_weaken _ _ _ _ n); [done | lia].
    + exists s', c, l'. split; [done |]. split; [done |]. apply (holds_weaken _ _ _ _ (n - zlen c)); [done | lia].
  - destruct (skip_spec _ _ _ _ _ k Hh) as (k' & s' & Hk & Hk' & _ & E & Hh'); [lia |]. rewrite (bind_step _ _ _ _ _ E).
    exists s', (take (Z.to_nat k') l), (drop (Z.to_nat k') l). rewrite take_drop. split; [done |]. split; [done |]. apply (holds_weaken _ _ _ _ (n - k')); [done | lia].
Qed.
Lemma performs_spec limit : forall ops s h l n, holds (Some limit) s h l n -> Forall (fun a => 0 < cost a) ops -> total ops <= n ->
  exists s' c l', performs ops s = Ok (tt, s') /\ l = c ++ l' /\ holds (Some limit) s' (h ++ c) l' 0.
Proof.
  induction ops as [|a ops IH]; intros s h l n Hh Hc Hn; cbn [performs total fold_right] in *.
  - exists s, [], l. rewrite app_nil_r. split; [done |]. split; [done |]. by apply (holds_weaken _ _ _ _ n).
  - inversion Hc as [|? ? Ha Hc']; subst. assert (Ht : 0 <= total ops).
    { clear - Hc'. induction Hc' as [|a ops Ha _ IH]; [done |]. cbn [total fold_right]. fold (total ops). lia. }
    fold (total ops) in Hn. destruct (perform_spec _ _ _ _ _ a Hh ltac:(lia)) as (s1 & c1 & l1 & E1 & -> & Hh1).
    destruct (IH s1 (h ++ c1) l1 (n - cost a) Hh1 Hc' ltac:(lia)) as (s2 & c2 & l2 & E2 & -> & Hh2).
    exists s2, (c1 ++ c2), l2. rewrite (bind_step _ _ _ _ _ E1), <- !app_assoc in *. done.
Qed.

(** C18. A mark works within the size of the buffer: after [mark], whatever is read or
    skipped, in whatever portions, up to the limit of the mark, [reset] succeeds and
    the stream delivers again everything from the mark on, however the source
    fragments it. *)
Theorem marked_bytes_return s l limit ops : stream_at s l -> 0 <= limit <= bufferSize s -> Forall (fun a => 0 < cost a) ops -> total ops <= limit ->
  exists s1 s2, performs ops (mark limit s) = Ok (tt, s1) /\ reset s1 = Ok (tt, s2) /\ stream_at s2 l.
Proof.
  intros Ha Hl Hc Ht. pose proof Ha as (Hs & _ & l0 & l1 & Hw & Hi & El).
  assert (Hh : holds (Some limit) (mark limit s) [] l limit).
  { unfold mark. rewrite (sane_open s Hs). pose proof (sane_size s Hs). pose proof (sane_pos s Hs).
    split; [split; [destruct Hs; split; cbn; (done || lia) | split; [change (zlen (@nil Z)) with 0; cbn; lia | by exists l0, l1]] |].
    unfold marked. change (zlen (@nil Z)) with 0. cbn. lia. }
  destruct (performs_spec limit ops _ _ _ _ Hh Hc Ht) as (s1 & c & l' & E & -> & [(Hs1 & Hz & b & i & Hw1 & Hi1 & El1) (Mp & Ml & Mb & Mn)]).
  pose proof (zlen_nonneg ([] ++ c)). exists s1, (set_pos (markPos s1) s1). split; [done |].
  pose proof (sane_pos s1 Hs1). pose proof (sane_mark s1 Hs1). split.
  { unfold reset. rewrite (sane_open s1 Hs1). by rewrite (proj2 (Z.eqb_neq _ _)) by lia. }
  split; [destruct Hs1; split; cbn; (done || lia) |]. split; [change (zlen (@nil Z)) with 0; cbn; lia |]. exists (([] ++ c) ++ b), i.
  change (zlen (@nil Z)) with 0. cbn [pos count buff inputStream set_pos]. rewrite Mp, Z.sub_0_r. split; [done |]. split; [done |]. by rewrite El1, app_assoc.
Qed.

Lemma grown s l : stream_at s l -> l <> [] -> markPos s = 0 -> 0 < pos s -> pos s = count s -> pos s < markLimit s -> bufferSize s < markLimit s ->
  exists r s', 0 < r /\ bufferData s = Ok (r, s') /\ at_ s' [] l /\ markPos s' = 0 /\ 0 < pos s' < count s' /\ buff s' !! 0%nat = Some None.
Proof.
  intros Ha Hne Hm Hp Hpc Hpl Hbl. pose proof Ha as (Hs & _). pose proof (sane_size s Hs). pose proof (sane_limit s Hs). pose proof (sane_pos s Hs).
  pose proof (empty_buffer s l Ha Hpc) as Hi. unfold bufferData, catch_io. rewrite Hm, Z.sub_0_r. change (0 =? -1) with false. cbn [orb].
  rewrite (proj2 (Z.leb_gt (markLimit s) (pos s))) by lia. change (0 =? 0) with true. rewrite (proj2 (Z.ltb_lt (bufferSize s) (markLimit s))) by lia.
  cbn [andb]. unfold grow. rewrite (proj2 (Z.leb_gt (2 ^ 31) (bufferSize s * 2))) by lia. cbv zeta. set (nl := if markLimit s <? bufferSize s * 2 then _ else _).
  assert (Hnl : bufferSize s < nl <= 2 ^ 30) by (subst nl; destruct (Z.ltb_spec (markLimit s) (bufferSize s * 2)); lia). cbn [rbind].
  set (s3 := set_mark 0 _ _). assert (Hz : zlen (replicate (Z.to_nat nl) (@None Z)) = nl) by (unfold zlen; rewrite length_replicate; lia).
  set (s2 := set_window (pos s) (pos s) s3).
  assert (Hs2 : sane s2) by (destruct Hs; split; cbn; (done || lia)).
  assert (Hps : pos s3 = pos s) by (cbn; rewrite Hm; lia). change (bufferSize s3) with nl. rewrite Hps.
  destruct (read_source s3 l nl (pos s) (nl - pos s) Hi) as [(-> & _)|(c & l2 & i & -> & Hc & Hcz & E & Hi')]; [lia | lia | done |].
  pose proof (nonempty_zlen c Hc). eexists (zlen c), (set_window (pos s) (pos s + zlen c) (stored (pos s) c (set_inputStream i s2))).
  split; [done |]. split; [unfold bind; rewrite E; cbv beta iota; cbn [pos set_inputStream]; by rewrite Hps |].
  split; [|split; [done | split; [cbn; lia |]]].
  - apply (at_stored s2 []); try done; change (zlen (@nil Z)) with 0; [cbn; lia | | cbn; lia]. unfold window. by replace (Z.to_nat (pos s2 - (pos s2 - 0))) with O by lia.
  - cbn [buff set_window stored set_buff set_inputStream]. change (buff s2) with (replicate (Z.to_nat nl) (@None Z)). unfold arraycopy.
    rewrite lookup_app_l by (rewrite length_take, length_replicate; lia). rewrite lookup_take_lt by lia. apply lookup_replicate_2. lia.
Qed.

(** A mark that outlasts the buffer does not work: when the marked bytes fill the
    buffer from its start and one more is read, the buffer grows and loses them, so
    that after [reset], which succeeds, the next byte is whatever the memory of the
    new buffer holds. *)
Theorem growing_buffer_loses_marked s l : stream_at s l -> l <> [] ->
  markPos s = 0 -> 0 < pos s -> pos s = count s -> pos s < markLimit s -> bufferSize s < markLimit s ->
  exists b s1 s2, doReadByte s = Ok (Some b, s1) /\ reset s1 = Ok (tt, s2) /\ doReadByte s2 = Err Undefined.
Proof.
  intros Ha Hne Hm Hp Hpc Hpl Hbl. pose proof Ha as (Hs & _). pose proof (sane_size s Hs). pose proof (sane_limit s Hs). pose proof (sane_pos s Hs).
  destruct (grown s l Ha Hne Hm Hp Hpc Hpl Hbl) as (r & s1 & Hr & E & Ha1 & Hm1 & Hp1 & Hb1).
  pose proof Ha1 as (Hs1 & _). destruct (take_bytes_spec None s1 [] l 1 1 Ha1 ltac:(lia) ltac:(lia)) as [Et Ha2].
  exists (default 0 (head l)), (set_pos (pos s1 + 1) s1), (set_pos 0 s1). split; [|split].
  - unfold doReadByte, catch_io. rewrite (sane_open s Hs), (proj2 (Z.leb_le (count s) (pos s))) by lia. rewrite (bind_step _ _ _ _ _ E).
    rewrite (proj2 (Z.eqb_neq r (-1))), (sane_open s1 Hs1), (proj2 (Z.eqb_neq (pos s1) (count s1))) by lia. cbn [negb]. rewrite (bind_step _ _ _ _ _ Et). by destruct l.
  - unfold reset. cbn [closed markPos set_pos]. rewrite (sane_open s1 Hs1), Hm1. done.
  - pose proof (sane_pos s1 Hs1). unfold doReadByte, catch_io. cbn [closed count pos set_pos]. rewrite (sane_open s1 Hs1), (proj2 (Z.leb_gt (count s1) 0)) by lia.
    rewrite (bind_step (ret 0) _ (set_pos 0 s1) 0 (set_pos 0 s1) eq_refl). change (0 =? -1) with false. cbv iota beta. cbn [pos count closed set_pos].
    rewrite (sane_open s1 Hs1), (proj2 (Z.eqb_neq 0 (count s1))) by lia.
    cbn [negb]. unfold bind, take_bytes. cbn [buff pos set_pos]. destruct (buff s1) as [|[b|] w]; try discriminate Hb1. done.
Qed.
End Laws.
End BufferedInputStream.
