(* ===== verification/BufferedOutput.v ===== *)
(** * The buffer on the way out

    decaf/io/BufferedOutputStream with what it inherits of FilterOutputStream, over a
    sink that takes every byte.  What is written arrives in order once it is
    flushed; closing the stream does not flush it. *)

From S2P Require Import Prelude DataStreams BufferedStreams.
Import BufferedInputStream(window, determined, determined_some, zlen_take, zlen_drop, zlen_map, zlen_window, window_split, zlen_arraycopy, window_arraycopy, window_before, bind_step).

Module BufferedOutputStream.
(** The buffer holds [None] where its contents are not determined. *)
Record t := mk {
  outputStream : list Z;
  buffer : list (option Z);
  bufferSize : Z;
  head : Z;
  tail : Z;
  closed : bool
}.

(** [init], called by the constructors. *)
Definition init (sink : list Z) (bufSize : Z) : result t :=
  if bufSize <? 0 then throw IllegalArgumentException
  else Ok {| outputStream := sink; buffer := replicate (Z.to_nat bufSize) None; bufferSize := bufSize; head := 0; tail := 0; closed := false |}.

Definition set_sink (l : list Z) (s : t) : t := {| outputStream := l; buffer := buffer s; bufferSize := bufferSize s; head := head s; tail := tail s; closed := closed s |}.
Definition set_buffer (b : list (option Z)) (tl : Z) (s : t) : t := {| outputStream := outputStream s; buffer := b; bufferSize := bufferSize s; head := head s; tail := tl; closed := closed s |}.
Definition rewind (s : t) : t := {| outputStream := outputStream s; buffer := buffer s; bufferSize := bufferSize s; head := 0; tail := 0; closed := closed s |}.
Definition set_closed (s : t) : t := {| outputStream := outputStream s; buffer := buffer s; bufferSize := bufferSize s; head := head s; tail := tail s; closed := true |}.

Definition emptyBuffer : M t unit := catch_io (fun s =>
  let! s := if negb (head s =? tail s) then
      match determined (window (head s) (tail s) (buffer s)) with
      | Some c => Ok (set_sink (outputStream s ++ c) s)
      | None => Err Undefined
      end
    else Ok s in
  Ok (tt, rewind s)).

(** The flush of the sink does nothing. *)
Definition flush : M t unit := catch_io (fun s => if closed s then throw IOException else emptyBuffer s).

Definition doWriteByte (c : Z) : M t unit := catch_io (fun s =>
  if closed s then throw IOException
  else
    ((if bufferSize s <=? tail s then emptyBuffer else ret tt) ;;; fun s =>
       if zlen (buffer s) <=? tail s then Err Undefined
       else Ok (tt, set_buffer (arraycopy [Some c] 0 (buffer s) (tail s) 1) (tail s + 1) s)) s).

(** The loop over the bytes that are left, [l]. *)
Fixpoint write_loop (fuel : nat) (l : list Z) : M t unit :=
  match fuel with
  | O => fun _ => Err NoFuel
  | S fuel =>
    match l with
    | [] => ret tt
    | _ =>
      (fun s => (if bufferSize s <=? tail s then emptyBuffer else ret tt) s) ;;; fun s =>
        let bytesToWrite := Z.min (bufferSize s - tail s) (zlen l) in
        write_loop fuel (drop (Z.to_nat bytesToWrite) l) (set_buffer (arraycopy (map Some l) 0 (buffer s) (tail s) bytesToWrite) (tail s + bytesToWrite) s)
    end
  end.

(** [fuel]: a turn writes at least a byte, if the buffer can hold one. *)
Definition doWriteArrayBounded (buf : option (list Z)) (size offset length : Z) : M t unit := catch_read (fun s =>
  if length =? 0 then Ok (tt, s)
  else if closed s then throw IOException
  else
    match buf with
    | None => throw NullPointerException
    | Some bytes =>
      if size <? 0 then throw IndexOutOfBoundsException
      else if (size <? offset) || (offset <? 0) then throw IndexOutOfBoundsException
      else if (length <? 0) || (size - offset <? length) then throw IndexOutOfBoundsException
      else write_loop (S (Z.to_nat length)) (take (Z.to_nat length) (drop (Z.to_nat offset) bytes)) s
    end).
Definition doWriteArray (buf : option (list Z)) (size : Z) : M t unit := catch_io (fun s =>
  if size =? 0 then Ok (tt, s)
  else if closed s then throw IOException
  else doWriteArrayBounded buf size 0 size s).

(** [FilterOutputStream::close] flushes the sink, not the stream. *)
Definition close : M t unit := catch_io (fun s => Ok (tt, set_closed s)).

(** ** What is in the stream *)
(** [p] waits in the buffer. *)
Definition waiting (s : t) (p : list Z) : Prop :=
  closed s = false /\ 0 < bufferSize s /\ zlen (buffer s) = bufferSize s /\ head s = 0 /\ 0 <= tail s <= bufferSize s /\
  window 0 (tail s) (buffer s) = map Some p.
(** [l] was written. *)
Definition written (s : t) (l : list Z) : Prop := exists p, waiting s p /\ l = outputStream s ++ p.

Lemma waiting_tail s p : waiting s p -> zlen p = tail s.
Proof.
  intros (_ & Hb & Hz & _ & Ht & Hw). apply (f_equal zlen) in Hw. rewrite zlen_window, zlen_map in Hw by lia. lia.
Qed.
Lemma init_written sink size : 0 < size -> exists s, init sink size = Ok s /\ written s sink.
Proof.
  intros Hs. unfold init. rewrite (proj2 (Z.ltb_ge size 0)) by lia. eexists. split; [done |]. exists []. cbn [outputStream]. rewrite app_nil_r. split; [|done].
  split; [done |]. split; [done |]. split; [unfold zlen; cbn; rewrite length_replicate; lia |]. split; [done |]. split; [cbn; lia | done].
Qed.
Lemma emptyBuffer_spec s l : written s l -> exists s', emptyBuffer s = Ok (tt, s') /\ written s' l /\ outputStream s' = l /\ tail s' = 0 /\ bufferSize s' = bufferSize s.
Proof.
  intros (p & Hw & ->). pose proof (waiting_tail s p Hw) as Hp. destruct Hw as (Hc & Hb & Hz & Hh & Ht & Hw). unfold emptyBuffer, catch_io. rewrite Hh, Hw, determined_some.
  assert (Hr : forall l, written (rewind (set_sink l s)) l) by (intros l; exists []; cbn [outputStream rewind set_sink]; rewrite app_nil_r; split; [|done]; unfold waiting; cbn; repeat split; done || lia).
  destruct (Z.eqb_spec 0 (tail s)) as [E|E]; cbn [negb rbind].
  - destruct p; [|rewrite zlen_cons in Hp; pose proof (zlen_nonneg p); lia]. rewrite app_nil_r in *. exists (rewind s).
    specialize (Hr (outputStream s)). by destruct s.
  - eexists. split; [done |]. by split.
Qed.
Lemma room_spec s l : written s l -> exists s', (if bufferSize s <=? tail s then emptyBuffer else ret tt) s = Ok (tt, s') /\ written s' l /\ tail s' < bufferSize s'.
Proof.
  intros Hw. destruct (Z.leb_spec (bufferSize s) (tail s)).
  - destruct (emptyBuffer_spec s l Hw) as (s' & E & Hw' & _ & Ht & Hb). exists s'. split; [done |]. split; [done |]. destruct Hw as (p & (_ & Hbs & _) & _). lia.
  - by exists s.
Qed.
Lemma append_spec s l src k : written s l -> 0 <= k <= bufferSize s - tail s -> k <= zlen src ->
  written (set_buffer (arraycopy (map Some src) 0 (buffer s) (tail s) k) (tail s + k) s) (l ++ take (Z.to_nat k) src).
Proof.
  intros (p & Hw & ->) Hk Hs. exists (p ++ take (Z.to_nat k) src). rewrite <- app_assoc. split; [|done]. destruct Hw as (Hc & Hb & Hz & Hh & Ht & Hw).
  split; [done |]. split; [done |]. split; [cbn; rewrite zlen_arraycopy; rewrite ?zlen_map; lia |]. split; [done |]. split; [cbn; lia |].
  cbn [tail buffer set_buffer]. rewrite (window_split 0 (tail s)), window_before, window_arraycopy, Hw, map_app by (rewrite ?zlen_map; lia). f_equal.
  unfold window. rewrite drop_0, firstn_map. do 2 f_equal. lia.
Qed.

Lemma doWriteByte_spec s l c : written s l -> exists s', doWriteByte c s = Ok (tt, s') /\ written s' (l ++ [c]).
Proof.
  intros Hw. unfold doWriteByte, catch_io. assert (Hc : closed s = false) by (by destruct Hw as (p & (Hc & _) & _)). rewrite Hc.
  destruct (room_spec s l Hw) as (s1 & E & Hw1 & Ht). rewrite (bind_step _ _ _ _ _ E).
  assert (Hz : zlen (buffer s1) = bufferSize s1 /\ 0 <= tail s1) by (destruct Hw1 as (p & (_ & _ & Hz & _ & Htl & _) & _); lia).
  rewrite (proj2 (Z.leb_gt _ _)) by lia. eexists. split; [done |]. apply (append_spec s1 l [c] 1 Hw1); [lia | done].
Qed.
Lemma write_loop_spec fuel : forall l s w, (length l < fuel)%nat -> written s w -> exists s', write_loop fuel l s = Ok (tt, s') /\ written s' (w ++ l).
Proof.
  induction fuel as [|fuel IH]; intros l s w Hf Hw; [lia |]. cbn [write_loop]. destruct l as [|c l]; [exists s; by rewrite app_nil_r |].
  destruct (room_spec s w Hw) as (s1 & E & Hw1 & Ht). rewrite (bind_step _ _ s tt s1) by exact E. cbv zeta. set (k := Z.min _ _).
  assert (Hz : 0 <= tail s1) by (destruct Hw1 as (p & (_ & _ & Hz & _ & Htl & _) & _); lia).
  assert (Hk : 0 < k <= bufferSize s1 - tail s1 /\ k <= zlen (c :: l)) by (subst k; rewrite zlen_cons; pose proof (zlen_nonneg l); lia).
  pose proof (append_spec s1 w (c :: l) k Hw1 ltac:(lia) ltac:(lia)) as Hw2.
  destruct (IH (drop (Z.to_nat k) (c :: l)) _ _ ltac:(rewrite length_drop; cbn [length] in *; lia) Hw2) as (s2 & E2 & Hw3).
  exists s2. split; [done |]. by rewrite <- app_assoc, take_drop in Hw3.
Qed.
Lemma doWriteArrayBounded_spec s w bytes offset length : written s w -> 0 <= offset -> 0 <= length <= zlen bytes - offset ->
  exists s', doWriteArrayBounded (Some bytes) (zlen bytes) offset length s = Ok (tt, s') /\ written s' (w ++ take (Z.to_nat length) (drop (Z.to_nat offset) bytes)).
Proof.
  intros Hw Ho Hl. unfold doWriteArrayBounded, catch_read. destruct (Z.eqb_spec length 0) as [->|Hne]; [exists s; by rewrite Z2Nat.inj_0, take_0, app_nil_r |].
  assert (Hc : closed s = false) by (by destruct Hw as (p & (Hc & _) & _)). rewrite Hc. pose proof (zlen_nonneg bytes).
  rewrite (proj2 (Z.ltb_ge (zlen bytes) 0)), (proj2 (Z.ltb_ge (zlen bytes) offset)), (proj2 (Z.ltb_ge offset 0)), (proj2 (Z.ltb_ge length 0)), (proj2 (Z.ltb_ge (zlen bytes - offset) length)) by lia.
  cbn [orb]. destruct (write_loop_spec (S (Z.to_nat length)) (take (Z.to_nat length) (drop (Z.to_nat offset) bytes)) s w) as (s' & E & Hw'); [rewrite length_take; lia | done |].
  rewrite E. by exists s'.
Qed.
Lemma flush_spec s l : written s l -> exists s', flush s = Ok (tt, s') /\ written s' l /\ outputStream s' = l.
Proof.
  intros Hw. unfold flush, catch_io. assert (Hc : closed s = false) by (by destruct Hw as (p & (Hc & _) & _)). rewrite Hc.
  destruct (emptyBuffer_spec s l Hw) as (s' & E & Hw' & Ho & _). rewrite E. by exists s'.
Qed.

(** ** The two buffers *)
(** What a client does with the stream. *)
Inductive call := Byte (c : Z) | Array (bytes : list Z) (offset length : Z) | Flush.
Definition run (c : call) : M t unit :=
  match c with Byte c => doWriteByte c | Array bytes offset length => doWriteArrayBounded (Some bytes) (zlen bytes) offset length | Flush => flush end.
Fixpoint runs (l : list call) : M t unit := match l with [] => ret tt | c :: l => run c ;;; runs l end.
Definition payload (c : call) : list Z :=
  match c with Byte c => [c] | Array bytes offset length => take (Z.to_nat length) (drop (Z.to_nat offset) bytes) | Flush => [] end.
Definition in_bounds (c : call) : Prop :=
  match c with Array bytes offset length => 0 <= offset /\ 0 <= length <= zlen bytes - offset | _ => True end.

Lemma runs_spec calls : forall s w, written s w -> Forall in_bounds calls -> exists s', runs calls s = Ok (tt, s') /\ written s' (w ++ concat (map payload calls)).
Proof.
  induction calls as [|c calls IH]; intros s w Hw Hb; [exists s; by rewrite app_nil_r |]. inversion Hb as [|? ? Hc Hb']; subst.
  assert (Hr : exists s', run c s = Ok (tt, s') /\ written s' (w ++ payload c)).
  { destruct c; cbn [run payload in_bounds] in *; [by apply doWriteByte_spec | apply doWriteArrayBounded_spec; tauto |].
    destruct (flush_spec s w Hw) as (s' & E & Hw' & _). exists s'. by rewrite app_nil_r. }
  destruct Hr as (s1 & E & Hw1). cbn [runs map concat]. rewrite (bind_step _ _ _ _ _ E), app_assoc. by apply IH.
Qed.

(** C17. The buffers of a connection are transparent, with an output buffer of a positive
    size and an input buffer of a positive size up to 2^30: whatever is written to a
    BufferedOutputStream, byte by byte, in arrays (with an offset and a length within the
    array) and with flushes in between, has been passed on in order after a flush; and a
    BufferedInputStream over a source that delivers it, in fragments of any lengths, lets
    [readFully] read it back, and leaves the rest to the next reader.  The constructors
    take a size of 0 as well, for which this does not hold. *)
Theorem buffers_transparent {St} (I : InputStream St) (L : InputStreamLaws St) (A : Source St) (AL : SourceLaws St) calls outSize inSize :
  0 < outSize -> 0 < inSize <= 2 ^ 30 -> Forall in_bounds calls ->
  let sent := concat (map payload calls) in
  exists o o', init [] outSize = Ok o /\ (runs calls ;;; flush) o = Ok (tt, o') /\ outputStream o' = sent /\
    forall source rest, stream_at source (sent ++ rest) -> exists i i', BufferedInputStream.new source inSize = Ok i /\
      DataInputStream.readFully (zlen sent) i = Ok (sent, i') /\ stream_at i' rest.
Proof.
  intros Ho Hi Hb sent. destruct (init_written [] outSize Ho) as (o & Eo & Hw). destruct (runs_spec calls o [] Hw Hb) as (o1 & E1 & Hw1).
  destruct (flush_spec o1 _ Hw1) as (o2 & E2 & _ & Hs). exists o, o2. split; [done |]. rewrite (bind_step _ _ _ _ _ E1). split; [done |]. split; [done |].
  intros source rest Hsrc. destruct (BufferedInputStream.new_at source _ inSize Hsrc Hi) as (i & Ei & Hat).
  destruct (readFully_reads sent rest i Hat) as (i' & E & Hi'). by exists i, i'.
Qed.

(** As long as there is room nothing is passed on. *)
Definition fits (c : call) : Prop := c <> Flush /\ in_bounds c.
Lemma keep_spec s p src k : waiting s p -> 0 <= k <= zlen src -> zlen p + k <= bufferSize s ->
  waiting (set_buffer (arraycopy (map Some src) 0 (buffer s) (tail s) k) (tail s + k) s) (p ++ take (Z.to_nat k) src).
Proof.
  intros Hw Hk Hr. pose proof (waiting_tail s p Hw). destruct (append_spec (set_sink [] s) p src k) as (q & Hq & Eq); [by exists p | cbn; lia | lia |].
  cbn [outputStream set_buffer set_sink app] in Eq. by subst q.
Qed.
Lemma run_waits c s p : waiting s p -> fits c -> zlen p + zlen (payload c) <= bufferSize s ->
  exists s', run c s = Ok (tt, s') /\ waiting s' (p ++ payload c) /\ outputStream s' = outputStream s /\ bufferSize s' = bufferSize s.
Proof.
  intros Hw [Hf Hin] Hr. pose proof (waiting_tail s p Hw) as Ht. pose proof Hw as (Hc & Hb & Hz & _ & Htl & _). destruct c as [c|bytes o n|]; [| |done]; cbn [run payload in_bounds] in *.
  - unfold doWriteByte, catch_io. change (zlen [c]) with 1 in Hr. rewrite Hc, (proj2 (Z.leb_gt _ _)) by lia. rewrite (bind_step (ret tt) _ s tt s eq_refl).
    rewrite (proj2 (Z.leb_gt _ _)) by lia. eexists. split; [done |]. split; [|done]. by apply (keep_spec s p [c] 1).
  - unfold doWriteArrayBounded, catch_read. destruct (Z.eqb_spec n 0) as [->|Hne]; [exists s; by rewrite Z2Nat.inj_0, take_0, app_nil_r |]. pose proof (zlen_nonneg bytes).
    assert (Hsrc : zlen (take (Z.to_nat n) (drop (Z.to_nat o) bytes)) = n) by (rewrite zlen_take, zlen_drop by lia; lia).
    set (src := take _ _) in *. rewrite Hc, (proj2 (Z.ltb_ge (zlen bytes) 0)), (proj2 (Z.ltb_ge (zlen bytes) o)), (proj2 (Z.ltb_ge o 0)), (proj2 (Z.ltb_ge n 0)), (proj2 (Z.ltb_ge (zlen bytes - o) n)) by lia.
    cbn [orb]. destruct (Z.to_nat n) as [|fuel] eqn:En; [lia |]. destruct src as [|b src'] eqn:Es; [change (zlen (@nil Z)) with 0 in Hsrc; lia |]. rewrite <- Es in *.
    cbn [write_loop]. rewrite Es. rewrite (bind_step _ _ s tt s) by (by rewrite (proj2 (Z.leb_gt _ _)) by lia). rewrite <- Es. cbv zeta.
    rewrite Z.min_r, drop_ge by (unfold zlen in *; lia). eexists. split; [done |]. split; [|done].
    pose proof (keep_spec s p src (zlen src) Hw ltac:(pose proof (zlen_nonneg src); lia) ltac:(lia)) as Hk.
    by rewrite (take_ge src) in Hk by (unfold zlen; lia).
Qed.
Lemma runs_wait calls : forall s p, waiting s p -> Forall fits calls -> zlen p + zlen (concat (map payload calls)) <= bufferSize s ->
  exists s', runs calls s = Ok (tt, s') /\ waiting s' (p ++ concat (map payload calls)) /\ outputStream s' = outputStream s.
Proof.
  induction calls as [|c calls IH]; intros s p Hw Hf Hr; [exists s; by rewrite app_nil_r |]. inversion Hf as [|? ? Hc Hf']; subst.
  cbn [map concat] in *. rewrite zlen_app in Hr. pose proof (zlen_nonneg (concat (map payload calls))).
  destruct (run_waits c s p Hw Hc ltac:(lia)) as (s1 & E & Hw1 & Ho & Hb). destruct (IH s1 _ Hw1 Hf') as (s2 & E2 & Hw2 & Ho2); [rewrite zlen_app; lia |].
  exists s2. cbn [runs]. rewrite (bind_step _ _ _ _ _ E). rewrite app_assoc. by rewrite Ho2, Ho.
Qed.

(** Closing a buffered output stream does not flush it: [close] is inherited and
    flushes the sink instead of the stream.  When what was written fits into the
    buffer and no flush came after it, the close succeeds, none of it has reached
    the sink, and it cannot be flushed any more. *)
Theorem close_drops_waiting calls outSize : 0 < outSize -> Forall fits calls -> zlen (concat (map payload calls)) <= outSize ->
  exists o o', init [] outSize = Ok o /\ (runs calls ;;; close) o = Ok (tt, o') /\ outputStream o' = [] /\ flush o' = Err (Throw IOException).
Proof.
  intros Ho Hf Hz. assert (Hi : exists o, init [] outSize = Ok o /\ waiting o [] /\ outputStream o = [] /\ bufferSize o = outSize).
  { unfold init. rewrite (proj2 (Z.ltb_ge outSize 0)) by lia. eexists. split; [done |]. split; [|done]. unfold waiting. cbn. unfold zlen.
    rewrite length_replicate. repeat split; done || lia. }
  destruct Hi as (o & Eo & Hw & Hs & Hb). destruct (runs_wait calls o [] Hw Hf) as (o1 & E1 & Hw1 & Ho1); [rewrite Hb; done |].
  exists o, (set_closed o1). split; [done |]. rewrite (bind_step _ _ _ _ _ E1). split; [done |]. split; [by rewrite <- Hs, <- Ho1 | done].
Qed.
End BufferedOutputStream.

(** ** Instances *)
Section Instances.
Import BufferedOutputStream.
#[local] Instance array_source : Source ByteArrayInputStream.t :=
  { is_available := fun s => Ok (ByteArrayInputStream.available s, s); is_close := ret tt }.
#[local] Program Instance array_source_laws : SourceLaws ByteArrayInputStream.t.
Next Obligation. intros s l Hs. by eexists _, s. Qed.

Definition two_frames : list call := [Array (str "SEND") 0 4; Byte 10; Flush; Array (str "xACKx") 1 3; Byte 10].

Lemma buffers_transparent_witness :
  exists o o', init [] 2 = Ok o /\ (runs two_frames ;;; flush) o = Ok (tt, o') /\ outputStream o' = str "SEND" ++ 10 :: str "ACK" ++ [10] /\
    exists i i', BufferedInputStream.new (ByteArrayInputStream.over (outputStream o')) 3 = Ok i /\ DataInputStream.readFully 9 i = Ok (outputStream o', i').
Proof.
  destruct (buffers_transparent _ _ array_source _ two_frames 2 3 ltac:(lia) ltac:(lia)) as (o & o' & Eo & Er & Es & Hr).
  { repeat (apply List.Forall_cons; [cbn; (done || lia) |]). apply List.Forall_nil. }
  exists o, o'. split; [exact Eo |]. split; [exact Er |]. split; [exact Es |]. rewrite Es.
  destruct (Hr (ByteArrayInputStream.over (concat (map payload two_frames))) []) as (i & i' & Ei & Ef & _); [rewrite app_nil_r; apply ByteArrayInputStream.over_at |].
  exists i, i'. split; [exact Ei | exact Ef].
Defined.

Lemma close_drops_waiting_witness :
  exists o o', init [] 8192 = Ok o /\ (runs [Array (str "DISCONNECT") 0 10; Byte 10; Byte 10; Byte 0] ;;; close) o = Ok (tt, o') /\ outputStream o' = [] /\ flush o' = Err (Throw IOException).
Proof. apply (close_drops_waiting [Array (str "DISCONNECT") 0 10; Byte 10; Byte 10; Byte 0] 8192); [lia | | vm_compute; discriminate].
  repeat (apply List.Forall_cons; [split; [discriminate | cbn; (done || lia)] |]). apply List.Forall_nil. Defined.

(** A stream of three bytes with a buffer of one: two are read after the mark. *)
Lemma marked_bytes_return_witness :
  exists s s1 s2, BufferedInputStream.new (ByteArrayInputStream.over [7; 8; 9]) 4 = Ok s /\
    BufferedInputStream.performs [BufferedInputStream.Byte; BufferedInputStream.Array 2; BufferedInputStream.Skip 1] (BufferedInputStream.mark 4 s) = Ok (tt, s1) /\
    BufferedInputStream.reset s1 = Ok (tt, s2) /\ stream_at s2 [7; 8; 9].
Proof.
  destruct (BufferedInputStream.new_at (ByteArrayInputStream.over [7; 8; 9]) [7; 8; 9] 4 (ByteArrayInputStream.over_at _) ltac:(lia)) as (s & E & Hs).
  pose proof E as E'. vm_compute in E'. injection E' as Es.
  destruct (BufferedInputStream.marked_bytes_return s [7; 8; 9] 4 [BufferedInputStream.Byte; BufferedInputStream.Array 2; BufferedInputStream.Skip 1] Hs) as (s1 & s2 & E1 & E2 & H2);
    [subst s; cbn; lia | by repeat (apply List.Forall_cons; [done |]); apply List.Forall_nil | cbn; lia |].
  exists s, s1, s2. split; [exact E |]. split; [exact E1 |]. split; [exact E2 | exact H2].
Defined.

(** A buffer of two bytes, a mark for a hundred: the second refill loses the byte at
    the mark. *)
Definition marked_stream : result (BufferedInputStream.t ByteArrayInputStream.t) :=
  let! s := BufferedInputStream.new (ByteArrayInputStream.over [1; 2; 3; 4; 5; 6; 7; 8; 9]) 2 in
  let! r := BufferedInputStream.performs [BufferedInputStream.Array 4] (BufferedInputStream.mark 100 s) in Ok (snd r).
Lemma growing_buffer_loses_marked_witness :
  exists s b s1 s2, marked_stream = Ok s /\ BufferedInputStream.doReadByte s = Ok (Some b, s1) /\ BufferedInputStream.reset s1 = Ok (tt, s2) /\
    BufferedInputStream.doReadByte s2 = Err Undefined.
Proof.
  assert (E : exists s, marked_stream = Ok s) by (eexists; vm_compute; reflexivity). destruct E as (s & E). pose proof E as E'. vm_compute in E'. injection E' as Es.
  destruct (BufferedInputStream.growing_buffer_loses_marked s [5; 6; 7; 8; 9]) as (b & s1 & s2 & E1 & E2 & E3);
    [ | discriminate | subst s; cbn; lia .. |].
  - subst s. split; [split; vm_compute; (repeat split; (reflexivity || discriminate)) |]. split; [vm_compute; discriminate |].
    eexists [], [5; 6; 7; 8; 9]. split; [reflexivity |]. split; [|reflexivity]. vm_compute. repeat split; (reflexivity || discriminate).
  - exists s, b, s1, s2. split; [exact E |]. split; [exact E1 |]. split; [exact E2 | exact E3].
Defined.
End Instances.
