(* ===== verification/Inactivity.v ===== *)
(** * Inactivity monitor

    activemq/transport/inactivity: InactivityMonitor with its two asynchronous tasks,
    ReadChecker and WriteChecker, and what it uses of decaf/util/Timer.  The
    operations first, then the threads that call them as steps: the reader of the
    transport below, the threads that send, the two timers and the task runner. *)

From S2P Require Import Prelude Commands.

(** ** Timers

    What the monitor uses of its two timers; TimerFacts.v shows that those of Timers.v
    do this. *)
Module CheckTimer.
(** The tasks with the time of their next run and their period. *)
Record t := mk { cancelled : bool; heap : list (Z * Z) }.
Definition new : t := mk false [].
(** [scheduleAtFixedRate], for a task that was not scheduled before. *)
Definition scheduleAtFixedRate (now delay period : Z) (s : t) : result t :=
  if delay <? 0 then throw IllegalArgumentException
  else if period <=? 0 then throw IllegalArgumentException
  else if cancelled s then throw IllegalStateException
  else
    let when := delay + now in
    if 2 ^ 63 <=? when then Err Undefined
    else if when <? 0 then throw IllegalArgumentException
    else Ok (mk false ((when, period) :: heap s)).
Definition cancel (s : t) : t := mk true [].
End CheckTimer.

Module InactivityMonitor.
(** A checker and whether it was cancelled as a task of its timer. *)
Record checker := mkChecker { lastRunTime : Z; task_cancelled : bool }.
(** The task runner with AsyncSignalReadErrorkTask and AsyncWriteTask. *)
Record tasks := mkTasks { readTask_failed : bool; writeTask_write : bool; runner_shutdown : bool }.

(** What the monitor hands to the next transport and to its listener. *)
Inductive output := Sent (c : DataStructure) | Delivered (c : DataStructure) | Reported (e : exn).

(** InactivityMonitorData and TransportFilterImpl. *)
Record t := mk {
  closed : bool;
  started : bool;
  listener : bool;
  localWireFormatInfo : option WireFormatInfo.t;
  remoteWireFormatInfo : option WireFormatInfo.t;
  readCheckerTask : option checker;
  writeCheckerTask : option checker;
  readCheckTimer : CheckTimer.t;
  writeCheckTimer : CheckTimer.t;
  asyncTasks : option tasks;
  monitorStarted : bool;
  commandSent : bool;
  commandReceived : bool;
  failed : bool;
  inRead : bool;
  inWrite : bool;
  readCheckTime : Z;
  writeCheckTime : Z;
  initialDelayTime : Z;
  keepAliveResponseRequired : bool;
  outputs : list output
}.
Definition set_started (v : bool) (s : t) : t := mk (closed s) v (listener s) (localWireFormatInfo s) (remoteWireFormatInfo s) (readCheckerTask s) (writeCheckerTask s) (readCheckTimer s) (writeCheckTimer s) (asyncTasks s) (monitorStarted s) (commandSent s) (commandReceived s) (failed s) (inRead s) (inWrite s) (readCheckTime s) (writeCheckTime s) (initialDelayTime s) (keepAliveResponseRequired s) (outputs s).
Definition set_localWireFormatInfo (v : option WireFormatInfo.t) (s : t) : t := mk (closed s) (started s) (listener s) v (remoteWireFormatInfo s) (readCheckerTask s) (writeCheckerTask s) (readCheckTimer s) (writeCheckTimer s) (asyncTasks s) (monitorStarted s) (commandSent s) (commandReceived s) (failed s) (inRead s) (inWrite s) (readCheckTime s) (writeCheckTime s) (initialDelayTime s) (keepAliveResponseRequired s) (outputs s).
Definition set_remoteWireFormatInfo (v : option WireFormatInfo.t) (s : t) : t := mk (closed s) (started s) (listener s) (localWireFormatInfo s) v (readCheckerTask s) (writeCheckerTask s) (readCheckTimer s) (writeCheckTimer s) (asyncTasks s) (monitorStarted s) (commandSent s) (commandReceived s) (failed s) (inRead s) (inWrite s) (readCheckTime s) (writeCheckTime s) (initialDelayTime s) (keepAliveResponseRequired s) (outputs s).
Definition set_readCheckerTask (v : option checker) (s : t) : t := mk (closed s) (started s) (listener s) (localWireFormatInfo s) (remoteWireFormatInfo s) v (writeCheckerTask s) (readCheckTimer s) (writeCheckTimer s) (asyncTasks s) (monitorStarted s) (commandSent s) (commandReceived s) (failed s) (inRead s) (inWrite s) (readCheckTime s) (writeCheckTime s) (initialDelayTime s) (keepAliveResponseRequired s) (outputs s).
Definition set_writeCheckerTask (v : option checker) (s : t) : t := mk (closed s) (started s) (listener s) (localWireFormatInfo s) (remoteWireFormatInfo s) (readCheckerTask s) v (readCheckTimer s) (writeCheckTimer s) (asyncTasks s) (monitorStarted s) (commandSent s) (commandReceived s) (failed s) (inRead s) (inWrite s) (readCheckTime s) (writeCheckTime s) (initialDelayTime s) (keepAliveResponseRequired s) (outputs s).
Definition set_readCheckTimer (v : CheckTimer.t) (s : t) : t := mk (closed s) (started s) (listener s) (localWireFormatInfo s) (remoteWireFormatInfo s) (readCheckerTask s) (writeCheckerTask s) v (writeCheckTimer s) (asyncTasks s) (monitorStarted s) (commandSent s) (commandReceived s) (failed s) (inRead s) (inWrite s) (readCheckTime s) (writeCheckTime s) (initialDelayTime s) (keepAliveResponseRequired s) (outputs s).
Definition set_writeCheckTimer (v : CheckTimer.t) (s : t) : t := mk (closed s) (started s) (listener s) (localWireFormatInfo s) (remoteWireFormatInfo s) (readCheckerTask s) (writeCheckerTask s) (readCheckTimer s) v (asyncTasks s) (monitorStarted s) (commandSent s) (commandReceived s) (failed s) (inRead s) (inWrite s) (readCheckTime s) (writeCheckTime s) (initialDelayTime s) (keepAliveResponseRequired s) (outputs s).
Definition set_asyncTasks (v : option tasks) (s : t) : t := mk (closed s) (started s) (listener s) (localWireFormatInfo s) (remoteWireFormatInfo s) (readCheckerTask s) (writeCheckerTask s) (readCheckTimer s) (writeCheckTimer s) v (monitorStarted s) (commandSent s) (commandReceived s) (failed s) (inRead s) (inWrite s) (readCheckTime s) (writeCheckTime s) (initialDelayTime s) (keepAliveResponseRequired s) (outputs s).
Definition set_monitorStarted (v : bool) (s : t) : t := mk (closed s) (started s) (listener s) (localWireFormatInfo s) (remoteWireFormatInfo s) (readCheckerTask s) (writeCheckerTask s) (readCheckTimer s) (writeCheckTimer s) (asyncTasks s) v (commandSent s) (commandReceived s) (failed s) (inRead s) (inWrite s) (readCheckTime s) (writeCheckTime s) (initialDelayTime s) (keepAliveResponseRequired s) (outputs s).
Definition set_commandSent (v : bool) (s : t) : t := mk (closed s) (started s) (listener s) (localWireFormatInfo s) (remoteWireFormatInfo s) (readCheckerTask s) (writeCheckerTask s) (readCheckTimer s) (writeCheckTimer s) (asyncTasks s) (monitorStarted s) v (commandReceived s) (failed s) (inRead s) (inWrite s) (readCheckTime s) (writeCheckTime s) (initialDelayTime s) (keepAliveResponseRequired s) (outputs s).
Definition set_commandReceived (v : bool) (s : t) : t := mk (closed s) (started s) (listener s) (localWireFormatInfo s) (remoteWireFormatInfo s) (readCheckerTask s) (writeCheckerTask s) (readCheckTimer s) (writeCheckTimer s) (asyncTasks s) (monitorStarted s) (commandSent s) v (failed s) (inRead s) (inWrite s) (readCheckTime s) (writeCheckTime s) (initialDelayTime s) (keepAliveResponseRequired s) (outputs s).
Definition set_failed (v : bool) (s : t) : t := mk (closed s) (started s) (listener s) (localWireFormatInfo s) (remoteWireFormatInfo s) (readCheckerTask s) (writeCheckerTask s) (readCheckTimer s) (writeCheckTimer s) (asyncTasks s) (monitorStarted s) (commandSent s) (commandReceived s) v (inRead s) (inWrite s) (readCheckTime s) (writeCheckTime s) (initialDelayTime s) (keepAliveResponseRequired s) (outputs s).
Definition set_inRead (v : bool) (s : t) : t := mk (closed s) (started s) (listener s) (localWireFormatInfo s) (remoteWireFormatInfo s) (readCheckerTask s) (writeCheckerTask s) (readCheckTimer s) (writeCheckTimer s) (asyncTasks s) (monitorStarted s) (commandSent s) (commandReceived s) (failed s) v (inWrite s) (readCheckTime s) (writeCheckTime s) (initialDelayTime s) (keepAliveResponseRequired s) (outputs s).
Definition set_inWrite (v : bool) (s : t) : t := mk (closed s) (started s) (listener s) (localWireFormatInfo s) (remoteWireFormatInfo s) (readCheckerTask s) (writeCheckerTask s) (readCheckTimer s) (writeCheckTimer s) (asyncTasks s) (monitorStarted s) (commandSent s) (commandReceived s) (failed s) (inRead s) v (readCheckTime s) (writeCheckTime s) (initialDelayTime s) (keepAliveResponseRequired s) (outputs s).
Definition set_readCheckTime (v : Z) (s : t) : t := mk (closed s) (started s) (listener s) (localWireFormatInfo s) (remoteWireFormatInfo s) (readCheckerTask s) (writeCheckerTask s) (readCheckTimer s) (writeCheckTimer s) (asyncTasks s) (monitorStarted s) (commandSent s) (commandReceived s) (failed s) (inRead s) (inWrite s) v (writeCheckTime s) (initialDelayTime s) (keepAliveResponseRequired s) (outputs s).
Definition set_writeCheckTime (v : Z) (s : t) : t := mk (closed s) (started s) (listener s) (localWireFormatInfo s) (remoteWireFormatInfo s) (readCheckerTask s) (writeCheckerTask s) (readCheckTimer s) (writeCheckTimer s) (asyncTasks s) (monitorStarted s) (commandSent s) (commandReceived s) (failed s) (inRead s) (inWrite s) (readCheckTime s) v (initialDelayTime s) (keepAliveResponseRequired s) (outputs s).
Definition set_initialDelayTime (v : Z) (s : t) : t := mk (closed s) (started s) (listener s) (localWireFormatInfo s) (remoteWireFormatInfo s) (readCheckerTask s) (writeCheckerTask s) (readCheckTimer s) (writeCheckTimer s) (asyncTasks s) (monitorStarted s) (commandSent s) (commandReceived s) (failed s) (inRead s) (inWrite s) (readCheckTime s) (writeCheckTime s) v (keepAliveResponseRequired s) (outputs s).
Definition emit (o : output) (s : t) : t := mk (closed s) (started s) (listener s) (localWireFormatInfo s) (remoteWireFormatInfo s) (readCheckerTask s) (writeCheckerTask s) (readCheckTimer s) (writeCheckTimer s) (asyncTasks s) (monitorStarted s) (commandSent s) (commandReceived s) (failed s) (inRead s) (inWrite s) (readCheckTime s) (writeCheckTime s) (initialDelayTime s) (keepAliveResponseRequired s) (outputs s ++ [o]).
Definition new (listener keepAliveResponseRequired : bool) : t :=
  mk false false listener None None None None CheckTimer.new CheckTimer.new None false false true false false false 0 0 0 keepAliveResponseRequired [].

Definition modify (f : t -> t) : X t unit := xmodify f.
(** [catch (IOException& e)]. *)
Definition xcatch_io_with {A} (m : X t A) (h : exn -> X t A) : X t A := fun s =>
  match m s with
  | (Err (Throw e), s) => if is_IOException e then h e s else (Err (Throw e), s)
  | r => r
  end.
(** [catch (Exception& ex)] around [m]: clean up with [f] and throw again. *)
Definition on_exception {A} (f : t -> t) (m : X t A) : X t A := fun s =>
  match m s with
  | (Err (Throw e), s) => (Err (Throw e), f s)
  | r => r
  end.

(** *** TransportFilter *)
Definition passes (s : t) : bool := started s && negb (closed s) && listener s.
(** An exception of the listener is caught and dropped. *)
Definition filter_onCommand (c : DataStructure) (s : t) : t := if passes s then emit (Delivered c) s else s.
Definition filter_onException (e : exn) (s : t) : t := if passes s then emit (Reported e) s else s.

(** *** The monitor threads *)
(** Up to the join in CompositeTaskRunner::shutdown, with whether there is a runner to
    wait for; the thread of the runner does not wait for itself. *)
Definition stopMonitorThreads : X t bool := fun s =>
  if monitorStarted s then
    let s := set_monitorStarted false s in
    let cancel k := mkChecker (lastRunTime k) true in
    match readCheckerTask s, writeCheckerTask s, asyncTasks s with
    | Some r, Some w, Some k =>
      let s := set_writeCheckerTask (Some (cancel w)) (set_readCheckerTask (Some (cancel r)) s) in
      let s := set_writeCheckTimer (CheckTimer.cancel (writeCheckTimer s)) (set_readCheckTimer (CheckTimer.cancel (readCheckTimer s)) s) in
      (Ok true, set_asyncTasks (Some (mkTasks (readTask_failed k) (writeTask_write k) true)) s)
    | _, _, _ => (Err Undefined, s)
    end
  else (Ok false, s).

(** On the thread of the task runner, or once that has ended. *)
Definition onException (e : exn) : X t unit := fun s =>
  if failed s then (Ok tt, s)
  else (stopMonitorThreads ;+ modify (filter_onException e)) (set_failed true s).
(** On another thread, up to the join, with whether there is one; the failure is reported
    after it. *)
Definition onException_enter (e : exn) : X t bool := fun s =>
  if failed s then (Ok false, s)
  else (let+ wait := stopMonitorThreads in if wait then xret true else modify (filter_onException e) ;+ xret false) (set_failed true s).

Definition schedule_write (now : Z) : X t unit := fun s =>
  match CheckTimer.scheduleAtFixedRate now (initialDelayTime s) (writeCheckTime s) (writeCheckTimer s) with
  | Ok k => (Ok tt, set_writeCheckTimer k s)
  | Err f => (Err f, s)
  end.
Definition schedule_read (now : Z) : X t unit := fun s =>
  match CheckTimer.scheduleAtFixedRate now (initialDelayTime s) (readCheckTime s) (readCheckTimer s) with
  | Ok k => (Ok tt, set_readCheckTimer k s)
  | Err f => (Err f, s)
  end.

Definition startMonitorThreads (now : Z) : X t unit := fun s =>
  if monitorStarted s then (Ok tt, s)
  else
    match localWireFormatInfo s, remoteWireFormatInfo s with
    | Some l, Some r =>
      let s := set_asyncTasks (Some (mkTasks false false false)) s in
      let s := set_readCheckTime (Z.min (WireFormatInfo.getMaxInactivityDuration l) (WireFormatInfo.getMaxInactivityDuration r)) s in
      let s := set_initialDelayTime (Z.min (WireFormatInfo.getMaxInactivityDurationInitalDelay l) (WireFormatInfo.getMaxInactivityDurationInitalDelay r)) s in
      if 0 <? readCheckTime s then
        let s := set_monitorStarted true s in
        let s := set_readCheckerTask (Some (mkChecker 0 false)) (set_writeCheckerTask (Some (mkChecker 0 false)) s) in
        let s := set_writeCheckTime (if 3 <? readCheckTime s then readCheckTime s / 3 else readCheckTime s) s in
        (schedule_write now ;+ schedule_read now) s
      else (Ok tt, s)
    | _, _ => (Ok tt, s)
    end.

Definition afterNextIsStarted (now : Z) : X t unit := xcatch to_io (startMonitorThreads now).
(** With a join that ends. *)
Definition beforeNextIsStopped : X t unit := xcatch to_io (stopMonitorThreads ;+ xret tt).
Definition doClose : X t unit := xcatch to_io (stopMonitorThreads ;+ xret tt).

(** TransportFilter::start and stop; [next] is what the call of the next transport
    does. *)
Definition start (now : Z) (next : result unit) : X t unit := fun s =>
  if closed s then (Ok tt, s)
  else if negb (listener s) then (throw IOException, s)
  else if started s then (Ok tt, s)
  else xcatch to_io (xlift next ;+ afterNextIsStarted now) (set_started true s).
Definition stop (next : result unit) : X t unit := fun s =>
  if closed s || negb (started s) then (Ok tt, s)
  else
    match beforeNextIsStopped (set_started false s) with
    | (Err (Throw e), s) => (match next with Ok _ => throw e | Err (Throw e') => throw (to_io e') | Err f => Err f end, s)
    | (Err f, s) => (Err f, s)
    | (Ok _, s) => (match next with Err (Throw e') => throw (to_io e') | r => r end, s)
    end.

(** *** Commands from the broker *)
(** Up to the call of the listener. *)
Definition onCommand_enter (now : Z) (c : DataStructure) : X t unit :=
  modify (set_commandReceived true) ;+ modify (set_inRead true) ;+
  on_exception (set_inRead false) (
    match c with
    | DWireFormatInfo i => modify (set_remoteWireFormatInfo (Some i)) ;+ xcatch_io_with (startMonitorThreads now) onException
    | _ => xret tt
    end).
Definition onCommand_leave : X t unit := modify (set_inRead false).
Definition onCommand (now : Z) (c : DataStructure) : X t unit :=
  onCommand_enter now c ;+ modify (filter_onCommand c) ;+ onCommand_leave.

(** *** Commands to the broker *)
Definition sent (s : t) : t := set_inWrite false (set_commandSent true s).
(** Up to the test of [failed], which another thread may set after it. *)
Definition oneway_enter : X t unit :=
  modify (set_inWrite true) ;+
  on_exception sent (fun s => if failed s then (throw IOException, s) else (Ok tt, s)).
(** Up to the call of the next transport. *)
Definition oneway_hand (now : Z) (c : DataStructure) : X t unit :=
  on_exception sent (
    match c with
    | DWireFormatInfo i => modify (set_localWireFormatInfo (Some i)) ;+ startMonitorThreads now
    | _ => xret tt
    end ;+ modify (emit (Sent c))).
(** [next]: what the call of the next transport does. *)
Definition oneway_leave (next : result unit) : X t unit := on_exception sent (xlift next ;+ modify sent).
(** AMQ_CATCH_RETHROW for IOException and UnsupportedOperationException. *)
Definition to_io_but_unsupported (e : exn) : exn := match e with UnsupportedOperationException => e | _ => to_io e end.
Definition oneway (now : Z) (c : DataStructure) (next : result unit) : X t unit :=
  xcatch to_io_but_unsupported (oneway_enter ;+ oneway_hand now c ;+ oneway_leave next).

(** *** The checks *)
Definition allowReadCheck (elapsed : Z) (s : t) : result bool :=
  if 2 ^ 63 <=? readCheckTime s * 9 then Err Undefined else Ok (readCheckTime s * 9 / 10 <? elapsed).
(** Up to the reset of commandReceived, which is left out when the check returns
    early. *)
Definition readCheck_test (inReceive : bool) : X t bool := fun s =>
  if inRead s || inReceive then (Ok false, s)
  else if negb (commandReceived s) then
    match asyncTasks s with
    | Some k => (Ok true, set_asyncTasks (Some (mkTasks true (writeTask_write k) (runner_shutdown k))) s)
    | None => (Err Undefined, s)
    end
  else (Ok true, s).
Definition readCheck (inReceive : bool) : X t unit :=
  let+ reset := readCheck_test inReceive in if reset then modify (set_commandReceived false) else xret tt.
Definition writeCheck_test : X t bool := fun s =>
  if inWrite s then (Ok false, s)
  else if negb (commandSent s) then
    match asyncTasks s with
    | Some k => (Ok true, set_asyncTasks (Some (mkTasks (readTask_failed k) true (runner_shutdown k))) s)
    | None => (Err Undefined, s)
    end
  else (Ok true, s).
Definition writeCheck : X t unit :=
  let+ reset := writeCheck_test in if reset then modify (set_commandSent false) else xret tt.

(** ReadChecker::run and WriteChecker::run up to the reset. *)
Definition ReadChecker_test (now : Z) (inReceive : bool) : X t bool := fun s =>
  match readCheckerTask s with
  | None => (Err Undefined, s)
  | Some k =>
    match allowReadCheck (now - lastRunTime k) s with
    | Ok true => readCheck_test inReceive (set_readCheckerTask (Some (mkChecker now (task_cancelled k))) s)
    | Ok false => (Ok false, s)
    | Err f => (Err f, s)
    end
  end.
Definition ReadChecker_run (now : Z) (inReceive : bool) : X t unit :=
  let+ reset := ReadChecker_test now inReceive in if reset then modify (set_commandReceived false) else xret tt.
Definition WriteChecker_test (now : Z) : X t bool := fun s =>
  match writeCheckerTask s with
  | None => (Err Undefined, s)
  | Some k => writeCheck_test (set_writeCheckerTask (Some (mkChecker now (task_cancelled k))) s)
  end.
Definition WriteChecker_run (now : Z) : X t unit :=
  let+ reset := WriteChecker_test now in if reset then modify (set_commandSent false) else xret tt.

(** *** The tasks *)
Definition readTask_iterate : X t bool := (fun s =>
  match asyncTasks s with
  | None => (Err Undefined, s)
  | Some k =>
    (if readTask_failed k
     then modify (set_asyncTasks (Some (mkTasks false (writeTask_write k) (runner_shutdown k)))) ;+ onException IOException
     else xret tt) s
  end) ;+ fun s => (Ok (match asyncTasks s with Some k => readTask_failed k | None => false end), s).
Definition keepAlive (s : t) : DataStructure := DKeepAliveInfo (KeepAliveInfo.mk (BaseCommand.mk 0 (keepAliveResponseRequired s))).
(** Whether AsyncWriteTask::iterate sends: the flag is reset, and the monitor runs. *)
Definition writeTask_take : X t bool := fun s =>
  match asyncTasks s with
  | None => (Err Undefined, s)
  | Some k =>
    if writeTask_write k then (Ok (monitorStarted s), set_asyncTasks (Some (mkTasks (readTask_failed k) false (runner_shutdown k))) s)
    else (Ok false, s)
  end.
Definition writeTask_iterate (now : Z) (next : result unit) : X t bool :=
  let+ send := writeTask_take in
  (if send then fun s => xcatch_io_with (oneway now (keepAlive s) next) onException s else xret tt) ;+
  fun s => (Ok (match asyncTasks s with Some k => writeTask_write k | None => false end), s).

(** ** Threads

    The monitor with the threads that are inside of it: the reader of the transport
    below, which handles one command at a time; the thread that holds inWriteMutex,
    with whether it is the task runner, whether the command was handed to the next
    transport, and the command; the timers, each between the test of its check and the
    reset of its flag; the task runner, in a turn that sends a KeepAliveInfo; and the
    thread that stopped the monitor and waits in shutdown for the task runner to end,
    holding the lock of the monitor, with the exception it is to report afterwards, if
    it is in onException. *)
Record sys := mkSys {
  mon : t;
  reader : option DataStructure;
  writer : option (bool * bool * DataStructure);
  reading : bool;
  writing : bool;
  keeping : bool;
  joining : option (option exn)
}.
Definition idle (s : t) : sys := mkSys s None None false false false None.
Definition set_mon (m : t) (s : sys) : sys := mkSys m (reader s) (writer s) (reading s) (writing s) (keeping s) (joining s).
Definition set_reader (c : option DataStructure) (s : sys) : sys := mkSys (mon s) c (writer s) (reading s) (writing s) (keeping s) (joining s).
Definition set_writer (w : option (bool * bool * DataStructure)) (s : sys) : sys := mkSys (mon s) (reader s) w (reading s) (writing s) (keeping s) (joining s).
Definition set_reading (b : bool) (s : sys) : sys := mkSys (mon s) (reader s) (writer s) b (writing s) (keeping s) (joining s).
Definition set_writing (b : bool) (s : sys) : sys := mkSys (mon s) (reader s) (writer s) (reading s) b (keeping s) (joining s).
Definition set_keeping (b : bool) (s : sys) : sys := mkSys (mon s) (reader s) (writer s) (reading s) (writing s) b (joining s).
Definition set_joining (j : option (option exn)) (s : sys) : sys := mkSys (mon s) (reader s) (writer s) (reading s) (writing s) (keeping s) j.

(** [Failure]: a call of onException by the transport below; [Stop]: one of stop or
    close; [Joined]: the end of the wait in either. *)
Inductive event :=
| OnCommand (now : Z) (c : DataStructure)
| Handled
| Oneway (c : DataStructure)
| KeepAlive
| HandOn (now : Z)
| Returned (next : result unit)
| ReadCheck (now : Z) (inReceive : bool)
| ReadChecked
| WriteCheck (now : Z)
| WriteChecked
| ReadTurn
| WriteTurn
| Failure (e : exn)
| Stop
| Joined.

(** A call that ends inside of the monitor; [k] tells its outcome. *)
Definition steps {A} (r : result A * t) (k : A -> t -> sys) (abort : exn -> t -> result (option sys)) : result (option sys) :=
  match r with
  | (Ok a, s) => Ok (Some (k a s))
  | (Err (Throw e), s) => abort e s
  | (Err f, _) => Err f
  end.
Definition ended (s : sys) (e : exn) (m : t) : result (option sys) := Ok (Some (set_mon m s)).
(** The task runner ends. *)
Definition end_runner (m : t) : t :=
  match asyncTasks m with Some k => set_asyncTasks (Some (mkTasks (readTask_failed k) (writeTask_write k) true)) m | None => m end.
(** The task runner leaves oneway with an exception: of class IOException, unless it
    is an UnsupportedOperationException, which ends the thread. *)
Definition keepAlive_failed (s : sys) (e : exn) (m : t) : result (option sys) :=
  let e := to_io_but_unsupported e in
  let free m := set_keeping false (set_writer None (set_mon m s)) in
  if is_IOException e then steps (onException e m) (fun _ => free) (fun _ m => Ok (Some (free m))) else Ok (Some (free (end_runner m))).
(** Another thread leaves it; [s] is the state it was called in. *)
Definition oneway_failed (by_task : bool) (s : sys) (e : exn) (m : t) : result (option sys) :=
  if by_task then keepAlive_failed s e m else ended (set_writer None s) e m.
(** The task runner takes turns until it is shut down, one task at a time. *)
Definition runner_free (s : sys) (pending : tasks -> bool) : bool :=
  negb (keeping s) && match asyncTasks (mon s) with Some k => negb (runner_shutdown k) && pending k | None => false end.
(** The lock of the monitor, which a WireFormatInfo needs, can be had. *)
Definition unlocked (s : sys) (c : DataStructure) : bool :=
  match c with DWireFormatInfo _ => bool_decide (joining s = None) | _ => true end.
(** So does stopMonitorThreads when the monitor runs. *)
Definition can_stop (s : sys) : bool := negb (monitorStarted (mon s)) || bool_decide (joining s = None).

(** [Ok None]: the event cannot happen in this state. *)
Definition step (s : sys) (e : event) : result (option sys) :=
  match e with
  | OnCommand now c =>
    if bool_decide (reader s = None) && unlocked s c then
      steps (onCommand_enter now c (mon s)) (fun _ m => set_reader (Some c) (set_mon (filter_onCommand c m) s)) (ended s)
    else Ok None
  | Handled =>
    if bool_decide (reader s = None) then Ok None
    else steps (onCommand_leave (mon s)) (fun _ m => set_reader None (set_mon m s)) (ended s)
  | Oneway c =>
    if bool_decide (writer s = None) then
      steps (oneway_enter (mon s)) (fun _ m => set_writer (Some (false, false, c)) (set_mon m s)) (ended s)
    else Ok None
  | KeepAlive =>
    if bool_decide (writer s = None) && keeping s then
      steps (oneway_enter (mon s)) (fun _ m => set_writer (Some (true, false, keepAlive (mon s))) (set_mon m s)) (keepAlive_failed s)
    else Ok None
  | HandOn now =>
    match writer s with
    | Some (by_task, false, c) =>
      if unlocked s c then
        steps (oneway_hand now c (mon s)) (fun _ m => set_writer (Some (by_task, true, c)) (set_mon m s)) (oneway_failed by_task s)
      else Ok None
    | _ => Ok None
    end
  | Returned next =>
    match writer s with
    | Some (by_task, true, _) =>
      steps (oneway_leave next (mon s)) (fun _ m => set_keeping (keeping s && negb by_task) (set_writer None (set_mon m s))) (oneway_failed by_task s)
    | _ => Ok None
    end
  | ReadCheck now inReceive =>
    if reading s || bool_decide (readCheckerTask (mon s) = None) then Ok None
    else steps (ReadChecker_test now inReceive (mon s)) (fun reset m => set_reading reset (set_mon m s)) (ended s)
  | ReadChecked => Ok (if reading s then Some (set_reading false (set_mon (set_commandReceived false (mon s)) s)) else None)
  | WriteCheck now =>
    if writing s || bool_decide (writeCheckerTask (mon s) = None) then Ok None
    else steps (WriteChecker_test now (mon s)) (fun reset m => set_writing reset (set_mon m s)) (ended s)
  | WriteChecked => Ok (if writing s then Some (set_writing false (set_mon (set_commandSent false (mon s)) s)) else None)
  | ReadTurn => if runner_free s readTask_failed then steps (readTask_iterate (mon s)) (fun _ m => set_mon m s) (ended s) else Ok None
  | WriteTurn =>
    if runner_free s writeTask_write then steps (writeTask_take (mon s)) (fun send m => set_keeping send (set_mon m s)) (ended s) else Ok None
  | Failure e =>
    if failed (mon s) || can_stop s then
      steps (onException_enter e (mon s)) (fun wait m => set_joining (if wait then Some (Some e) else joining s) (set_mon m s)) (ended s)
    else Ok None
  | Stop =>
    if can_stop s then steps (stopMonitorThreads (mon s)) (fun wait m => set_joining (if wait then Some None else joining s) (set_mon m s)) (ended s)
    else Ok None
  | Joined =>
    match joining s with
    | Some e =>
      if keeping s then Ok None
      else Ok (Some (set_joining None (set_mon (match e with Some e => filter_onException e (mon s) | None => mon s end) s)))
    | None => Ok None
    end
  end.
Fixpoint run (s : sys) (l : list event) : result (option sys) :=
  match l with
  | [] => Ok (Some s)
  | e :: l => let! o := step s e in match o with Some s => run s l | None => Ok None end
  end.
End InactivityMonitor.
