(* ===== verification/InactivityFacts.v ===== *)
(** * What the inactivity monitor detects and reports

    A peer that falls silent is reported, once, and nothing is sent to it any more;
    whatever the threads do, the listener hears of one failure at most.  A monitor
    that was stopped cannot be started again. *)

From S2P Require Import Prelude PrimitiveTypes Commands Inactivity.
Import InactivityMonitor.

(** ** Properties that an operation keeps, however it ends *)
Definition defined {A} (r : result A) : Prop := match r with Ok _ | Err (Throw _) => True | _ => False end.
Definition preserves {A} (P : t -> Prop) (m : X t A) : Prop := forall s r s', m s = (r, s') -> defined r -> P s -> P s'.

Section Keeps.
Context (P : t -> Prop).
Lemma preserves_ret {A} (a : A) : preserves P (xret a). Proof. by intros s r s' [= <- <-]. Qed.
Lemma preserves_lift {A} (a : result A) : preserves P (xlift a). Proof. by intros s r s' [= <- <-]. Qed.
Lemma preserves_modify f : (forall s, P s -> P (f s)) -> preserves P (modify f). Proof. intros Hf s r s' [= <- <-] _. apply Hf. Qed.
Lemma preserves_bind {A B} (m : X t A) (k : A -> X t B) : preserves P m -> (forall a, preserves P (k a)) -> preserves P (xbind m k).
Proof.
  intros Hm Hk s r s'. unfold xbind. destruct (m s) as [[a|f] s1] eqn:E; intros H Hd Hs.
  - eapply Hk; [exact H | done |]. by eapply Hm.
  - injection H as <- <-. by eapply Hm.
Qed.
Lemma preserves_catch {A} f (m : X t A) : preserves P m -> preserves P (xcatch f m).
Proof. intros Hm s r s'. unfold xcatch. destruct (m s) as [[a|[e| |]] s1] eqn:E; intros [= <- <-] Hd; by eapply Hm. Qed.
Lemma preserves_on_exception {A} f (m : X t A) : (forall s, P s -> P (f s)) -> preserves P m -> preserves P (on_exception f m).
Proof. intros Hf Hm s r s'. unfold on_exception. destruct (m s) as [[a|[e| |]] s1] eqn:E; intros [= <- <-] Hd Hs; try apply Hf; by eapply Hm. Qed.
Lemma preserves_catch_io {A} (m : X t A) h : preserves P m -> (forall e, preserves P (h e)) -> preserves P (xcatch_io_with m h).
Proof.
  intros Hm Hh s r s'. unfold xcatch_io_with. destruct (m s) as [[a|[e| |]] s1] eqn:E; [| destruct (is_IOException e); [intros H Hd Hs; eapply Hh; [exact H | done |]; by eapply Hm |] | |];
  intros [= <- <-] Hd Hs; by eapply Hm.
Qed.
End Keeps.
Create HintDb preserves.
#[export] Hint Resolve preserves_ret preserves_lift preserves_modify preserves_bind preserves_catch preserves_on_exception preserves_catch_io : preserves.

(** A property of the fields that only the two failure paths and the calls of the
    neighbours touch. *)
Class Stable (P : t -> Prop) := {
  stable s s' : outputs s' = outputs s -> failed s' = failed s -> passes s' = passes s -> P s -> P s';
  stable_delivered c s : P s -> P (emit (Delivered c) s);
  stable_report e s : failed s = false -> P s -> P (filter_onException e (set_failed true s))
}.

(** What stopping leaves alone; there is a runner to wait for only when the monitor ran. *)
Lemma stop_fields s r s' : stopMonitorThreads s = (r, s') -> outputs s' = outputs s /\ failed s' = failed s /\ passes s' = passes s /\
  (r = Ok true -> monitorStarted s = true).
Proof. unfold stopMonitorThreads. repeat case_match; by intros [= <- <-]. Qed.
Lemma stop_defined s r s' : stopMonitorThreads s = (r, s') -> defined r -> exists b, r = Ok b.
Proof. unfold stopMonitorThreads. repeat case_match; intros [= <- <-]; by (done || eexists). Qed.
Lemma onException_enter_spec e s r s' : onException_enter e s = (r, s') -> defined r ->
  (failed s = true /\ r = Ok false /\ s' = s) \/
  failed s = false /\ exists wait s1, stopMonitorThreads (set_failed true s) = (Ok wait, s1) /\ r = Ok wait /\ s' = (if wait then s1 else filter_onException e s1).
Proof.
  unfold onException_enter. destruct (failed s); [intros [= <- <-]; by left |]. unfold xbind. destruct (stopMonitorThreads (set_failed true s)) as [r1 s1] eqn:E.
  intros H Hd. right. split; [done |]. destruct r1 as [[]|f]; [| |injection H as <- <-; by destruct (stop_defined _ _ _ E Hd)];
    (injection H as <- <-; eexists _, _; repeat split; reflexivity).
Qed.

Section Operations.
Context (P : t -> Prop) `{!Stable P}.

Lemma preserves_stop : preserves P stopMonitorThreads.
Proof. intros s r s' E _. destruct (stop_fields _ _ _ E) as (H1 & H2 & H3 & _). by apply stable. Qed.
Lemma filtered_stable e s s1 : outputs s1 = outputs s -> failed s1 = failed s -> passes s1 = passes s -> P (filter_onException e s) -> P (filter_onException e s1).
Proof. intros H1 H2 H3. unfold filter_onException. rewrite H3. destruct (passes s) eqn:E; [apply stable; [cbn; by rewrite H1 | exact H2 | change (passes s1 = passes s); by rewrite H3, E] | apply stable; [done | done | by rewrite H3, E]]. Qed.
Lemma preserves_onException e : preserves P (onException e).
Proof.
  intros s r s'. unfold onException. destruct (failed s) eqn:Hf; [by intros [= <- <-] |]. unfold xbind.
  destruct (stopMonitorThreads (set_failed true s)) as [[b|f] s1] eqn:E; intros [= <- <-] Hd Hs; destruct (stop_fields _ _ _ E) as (Ho & Hff & Hp & _).
  - eapply filtered_stable; [exact Ho | exact Hff | exact Hp |]. by apply stable_report.
  - by destruct (stop_defined _ _ _ E Hd).
Qed.
Lemma preserves_start now : preserves P (startMonitorThreads now).
Proof.
  intros s r s' E _. revert E. unfold startMonitorThreads. repeat (case_match; [intros [= <- <-]; by apply stable |]). destruct (localWireFormatInfo s); [|intros [= <- <-]; by apply stable].
  destruct (remoteWireFormatInfo s); [|intros [= <- <-]; by apply stable]. case_match; [|intros [= <- <-]; by apply stable].
  unfold xbind, schedule_write, schedule_read. repeat case_match; simplify_eq; intros [= <- <-]; by apply stable.
Qed.
Hint Resolve preserves_stop preserves_onException preserves_start : preserves.
Lemma stable_field f : (forall s, outputs (f s) = outputs s /\ failed (f s) = failed s /\ passes (f s) = passes s) -> forall s, P s -> P (f s).
Proof. intros Hf s. destruct (Hf s) as (? & ? & ?). by apply stable. Qed.
Lemma preserves_field f : (forall s, outputs (f s) = outputs s /\ failed (f s) = failed s /\ passes (f s) = passes s) -> preserves P (modify f).
Proof. intros Hf. by apply preserves_modify, stable_field. Qed.
Hint Resolve preserves_field stable_field : preserves.

Lemma preserves_onCommand_enter now c : preserves P (onCommand_enter now c).
Proof. unfold onCommand_enter. destruct c; auto 10 with preserves. Qed.
Lemma preserves_onCommand_leave : preserves P onCommand_leave.
Proof. unfold onCommand_leave. auto with preserves. Qed.
Lemma preserves_oneway_enter : preserves P oneway_enter.
Proof. unfold oneway_enter. apply preserves_bind; [auto with preserves | intros _]. apply preserves_on_exception; [auto with preserves |]. intros s r s'. by case_match; intros [= <- <-]. Qed.
Lemma preserves_oneway_leave next : preserves P (oneway_leave next).
Proof. unfold oneway_leave. auto 10 with preserves. Qed.
Lemma preserves_oneway_hand now c : (forall s, P s -> P (emit (Sent c) s)) -> preserves P (oneway_hand now c).
Proof. intros Hc. unfold oneway_hand. destruct c; auto 12 with preserves. Qed.
Lemma preserves_tests now inReceive : preserves P (ReadChecker_test now inReceive) /\ preserves P (WriteChecker_test now) /\ preserves P writeTask_take.
Proof.
  split; [|split]; intros s r s' E _; revert E; unfold ReadChecker_test, readCheck_test, WriteChecker_test, writeCheck_test, writeTask_take;
    repeat case_match; intros [= <- <-]; by apply stable.
Qed.
Lemma preserves_readTask : preserves P readTask_iterate.
Proof.
  unfold readTask_iterate. apply preserves_bind; [|by intros _ s r s' [= <- <-]]. intros s r s'. destruct (asyncTasks s) as [k|]; [|by intros [= <- <-]].
  destruct (readTask_failed k); [|by intros [= <- <-]]. apply preserves_bind; auto with preserves.
Qed.
Lemma preserves_delivered c : forall s, P s -> P (filter_onCommand c s).
Proof. intros s. unfold filter_onCommand. destruct (passes s); [apply stable_delivered | done]. Qed.
Lemma preserves_end_runner : forall s, P s -> P (end_runner s).
Proof. intros s. unfold end_runner. case_match; [by apply stable | done]. Qed.

(** A step of a thread that neither hands a command on nor fails, stops or waits for the
    task runner keeps the property, and who waits for it. *)
Lemma steps_keep {A} (m : X t A) s k abort s' : steps (m s) k abort = Ok (Some s') -> preserves P m -> P s ->
  (forall a m1, P m1 -> P (mon (k a m1))) -> (forall e m1 s', P m1 -> abort e m1 = Ok (Some s') -> P (mon s')) -> P (mon s').
Proof.
  intros H Hm Hs Hk Ha. destruct (m s) as [[a|[e| |]] m1] eqn:E; [| |done|done]; (assert (P m1) by by eapply Hm); [injection H as <-; by apply Hk | by eapply Ha].
Qed.
Lemma keepAlive_failed_keeps s e m s' : P m -> keepAlive_failed s e m = Ok (Some s') -> P (mon s').
Proof.
  unfold keepAlive_failed. intros Hm. destruct (is_IOException _); [|intros [= <-]; by apply preserves_end_runner].
  intros H. eapply steps_keep in H; [done | auto with preserves | done | done | by intros ? ? ? ? [= <-]].
Qed.
Lemma oneway_failed_keeps b s e m s' : P m -> oneway_failed b s e m = Ok (Some s') -> P (mon s').
Proof. destruct b; [apply keepAlive_failed_keeps | by intros Hm [= <-]]. Qed.
Definition plain (e : event) : Prop := match e with HandOn _ | Failure _ | Stop | Joined => False | _ => True end.
Lemma event_preserves s e s' : step s e = Ok (Some s') -> plain e -> P (mon s) -> P (mon s').
Proof.
  intros H He Hs. destruct (preserves_tests 0 false) as (_ & _ & Ht).
  assert (Hend : forall e m s0, P m -> ended s e m = Ok (Some s0) -> P (mon s0)) by (by intros ? ? ? ? [= <-]).
  destruct e as [now c| |c| |now|next|now inReceive| |now| | | |e| |]; try done; cbn [step] in H.
  - destruct (_ && _); [|done]. eapply steps_keep in H; [done | apply preserves_onCommand_enter | done | intros; by apply preserves_delivered | done].
  - destruct (bool_decide _); [done |]. eapply steps_keep in H; [done | apply preserves_onCommand_leave | done | done | done].
  - destruct (bool_decide _); [|done]. eapply steps_keep in H; [done | apply preserves_oneway_enter | done | done | done].
  - destruct (_ && _); [|done]. eapply steps_keep in H; [done | apply preserves_oneway_enter | done | done | apply keepAlive_failed_keeps].
  - destruct (writer s) as [[[b []] c]|]; [|done|done]. eapply steps_keep in H; [done | apply preserves_oneway_leave | done | done | apply oneway_failed_keeps].
  - destruct (_ || _); [done |]. eapply steps_keep in H; [done | apply (preserves_tests now inReceive) | done | done | done].
  - destruct (reading s); [|done]. injection H as <-. revert Hs. by apply stable.
  - destruct (_ || _); [done |]. eapply steps_keep in H; [done | apply (preserves_tests now false) | done | done | done].
  - destruct (writing s); [|done]. injection H as <-. revert Hs. by apply stable.
  - destruct (runner_free _ _); [|done]. eapply steps_keep in H; [done | apply preserves_readTask | done | done | done].
  - destruct (runner_free _ _); [|done]. eapply steps_keep in H; [done | exact Ht | done | done | done].
Qed.
Lemma hand_preserves s now s' : step s (HandOn now) = Ok (Some s') -> (forall c s, P s -> P (emit (Sent c) s)) -> P (mon s) -> P (mon s').
Proof.
  intros H Hc Hs. cbn [step] in H. destruct (writer s) as [[[b []] c]|]; [done | | done]. destruct (unlocked s c); [|done].
  eapply steps_keep in H; [done | by apply preserves_oneway_hand; apply Hc | done | done | apply oneway_failed_keeps].
Qed.
End Operations.

(** The threads that a step leaves where they are. *)
Lemma failed_threads b s e m s' : oneway_failed b s e m = Ok (Some s') -> joining s' = joining s /\ writer s' = None.
Proof.
  unfold oneway_failed, keepAlive_failed, ended. destruct b; [|by intros [= <-]]. destruct (is_IOException _); [|by intros [= <-]].
  unfold steps. by destruct (onException _ m) as [[a|[e'| |]] m1]; intros [= <-].
Qed.
Lemma event_joining s e s' : step s e = Ok (Some s') -> match e with Failure _ | Stop | Joined => False | _ => True end -> joining s' = joining s.
Proof.
  intros H He. destruct e; try done; cbn [step] in H; unfold steps, ended in H; repeat case_match; simplify_eq; try done;
    first [by apply failed_threads in H as [-> _] | by apply (failed_threads true) in H as [-> _]].
Qed.

(** ** One report *)
Definition is_report (o : output) : bool := match o with Reported _ => true | _ => false end.
Definition is_sent (o : output) : bool := match o with Sent _ => true | _ => false end.
Definition count (p : output -> bool) (l : list output) : nat := length (List.filter p l).
#[global] Arguments count : simpl never.
Lemma count_snoc p l o : count p (l ++ [o]) = (count p l + if p o then 1 else 0)%nat.
Proof. unfold count. rewrite List.filter_app, length_app. cbn. by destruct (p o). Qed.

(** The reports that were made and the one that waits for the task runner; the calls of
    oneway that have passed the test of [failed] and are still to be handed on. *)
Definition waiting (s : sys) : nat := match joining s with Some (Some _) => 1 | _ => 0 end.
Definition told (s : sys) : nat := (count is_report (outputs (mon s)) + waiting s)%nat.
Definition admitted (s : sys) : nat := match writer s with Some (_, false, _) => 1 | _ => 0 end.
Definition unfailed (m : t) : nat := if failed m then 0 else 1.

(** Reports made and possible: not more than before and, while the listener is told of
    them, as many. *)
Definition balance (k n : nat) (s : t) : Prop := (count is_report (outputs s) + k + unfailed s <= n)%nat.
Definition exact_balance (k n : nat) (s : t) : Prop := passes s = true /\ (count is_report (outputs s) + k + unfailed s = n)%nat.
#[global] Instance balance_stable k n : Stable (balance k n).
Proof.
  split; unfold balance, unfailed.
  - by intros s s' -> -> _.
  - intros c s H. cbn [outputs emit]. rewrite count_snoc. cbn. destruct (failed s); lia.
  - intros e s Hf H. unfold filter_onException. rewrite Hf in H. case_match; cbn [outputs emit set_failed failed]; rewrite ?count_snoc; cbn; lia.
Qed.
#[global] Instance exact_balance_stable k n : Stable (exact_balance k n).
Proof.
  split; unfold exact_balance, unfailed.
  - by intros s s' -> -> ->.
  - intros c s [Hp H]. split; [exact Hp |]. cbn [outputs emit]. rewrite count_snoc. cbn. destruct (failed s); lia.
  - intros e s Hf [Hp H]. unfold filter_onException. change (passes (set_failed true s)) with (passes s). rewrite Hp, Hf in *. split; [exact Hp |].
    cbn [outputs emit set_failed failed]. rewrite count_snoc. cbn. lia.
Qed.
(** A failed monitor hands nothing on. *)
Definition silent (n : nat) (s : t) : Prop := failed s = true /\ count is_sent (outputs s) = n.
#[global] Instance silent_stable n : Stable (silent n).
Proof.
  split; unfold silent.
  - by intros s s' -> -> _.
  - intros c s [H1 H2]. cbn [outputs emit failed]. rewrite count_snoc. cbn. split; [done | lia].
  - intros e s Hf [H1 _]. congruence.
Qed.

(** A step keeps a balance that counts the report that waits. *)
Lemma event_waits s e s' : step s e = Ok (Some s') -> match e with Failure _ | Stop | Joined => False | _ => True end -> waiting s' = waiting s.
Proof. intros H He. unfold waiting. by rewrite (event_joining _ _ _ H He). Qed.
Lemma can_stop_waits s : can_stop s = true -> monitorStarted (mon s) = true -> waiting s = 0%nat.
Proof. unfold can_stop, waiting. intros H Hm. rewrite Hm in H. apply bool_decide_eq_true in H as ->. done. Qed.
Section Balance.
Context (P : nat -> nat -> t -> Prop) `{Hst : !forall k n, Stable (P k n)}
  (Psent : forall k n c s, P k n s -> P k n (emit (Sent c) s))
  (Pfail : forall n s, failed s = false -> P 0%nat n s -> P 1%nat n (set_failed true s))
  (Ptell : forall n e s, P 1%nat n s -> P 0%nat n (filter_onException e s)).
Lemma event_balance n s e s' : step s e = Ok (Some s') -> P (waiting s) n (mon s) -> P (waiting s') n (mon s').
Proof.
  intros H Hs. destruct e as [now c| |c| |now|next|now inReceive| |now| | | |e| |];
    try (rewrite (event_waits _ _ _ H I); by eapply (event_preserves _ _ _ _ H I)).
  - rewrite (event_waits _ _ _ H I). eapply (hand_preserves _ _ _ _ H); [apply Psent | exact Hs].
  - cbn [step] in H. destruct (failed (mon s) || can_stop s) eqn:Hg; [|done]. destruct (onException_enter e (mon s)) as [r m] eqn:E.
    assert (Hd : defined r) by (by destruct r as [|[]]). destruct (onException_enter_spec _ _ _ _ E Hd) as [(_ & -> & ->)|(Hf & wait & m1 & E1 & -> & ->)]; injection H as <-; [exact Hs |].
    destruct (stop_fields _ _ _ E1) as (Ho & Hff & Hp & Hw). rewrite Hf in Hg. cbn [orb] in Hg. destruct wait.
    + cbn [waiting joining set_joining mon set_mon]. rewrite (can_stop_waits s Hg (Hw eq_refl)) in Hs. eapply stable; [exact Ho | exact Hff | exact Hp |]. by apply Pfail.
    + change (waiting (set_joining (joining s) ?x)) with (waiting s). cbn [mon set_joining set_mon]. eapply filtered_stable; [done | exact Ho | exact Hff | exact Hp |]. by apply stable_report.
  - cbn [step] in H. destruct (can_stop s) eqn:Hg; [|done]. destruct (stopMonitorThreads (mon s)) as [r m] eqn:E.
    destruct (stop_fields _ _ _ E) as (Ho & Hff & Hp & Hw). destruct (stop_defined _ _ _ E) as [wait ->]; [by destruct r as [|[]] |]. injection H as <-.
    assert (Hwt : waiting (set_joining (if wait then Some None else joining s) (set_mon m s)) = waiting s).
    { destruct wait; [|done]. by rewrite (can_stop_waits s Hg (Hw eq_refl)). }
    rewrite Hwt. cbn [mon set_joining set_mon]. revert Hs. by apply stable.
  - cbn [step] in H. destruct (joining s) as [e|] eqn:Hj; [|done]. destruct (keeping s); [done |]. injection H as <-. cbn [waiting joining set_joining mon set_mon].
    unfold waiting in Hs. rewrite Hj in Hs. destruct e as [e|]; [by apply Ptell | exact Hs].
Qed.
Lemma run_balance n l : forall s s', run s l = Ok (Some s') -> P (waiting s) n (mon s) -> P (waiting s') n (mon s').
Proof.
  induction l as [|e l IH]; intros s s' H Hs; cbn [run] in H; [by injection H as <- |].
  destruct (step s e) as [[s1|]|] eqn:E; cbn [rbind] in H; [|done|done]. eapply IH; [exact H |]. by eapply event_balance.
Qed.
End Balance.
Lemma run_balanced n l s s' : run s l = Ok (Some s') -> balance (waiting s) n (mon s) -> balance (waiting s') n (mon s').
Proof.
  apply (run_balance balance); unfold balance, unfailed.
  - intros k m c m1 H. cbn [outputs emit failed]. rewrite count_snoc. cbn. lia.
  - intros m m1 Hf. rewrite Hf. cbn [outputs set_failed failed]. lia.
  - intros m e m1 H. unfold filter_onException. destruct (passes m1); cbn [outputs emit failed]; rewrite ?count_snoc; cbn [is_report]; lia.
Qed.
Lemma run_exact n l s s' : run s l = Ok (Some s') -> exact_balance (waiting s) n (mon s) -> exact_balance (waiting s') n (mon s').
Proof.
  apply (run_balance exact_balance); unfold exact_balance, unfailed.
  - intros k m c m1 [Hp H]. split; [exact Hp |]. cbn [outputs emit failed]. rewrite count_snoc. cbn. lia.
  - intros m m1 Hf [Hp H]. split; [exact Hp |]. rewrite Hf in H. cbn [outputs set_failed failed]. lia.
  - intros m e m1 [Hp H]. unfold filter_onException. rewrite Hp. split; [exact Hp |]. cbn [outputs emit failed]. rewrite count_snoc. cbn. destruct (failed m1); lia.
Qed.

(** A failed monitor admits no call. *)
Lemma failed_refuses_call m : failed m = true -> exists m', oneway_enter m = (throw IOException, m').
Proof. intros Hf. unfold oneway_enter, on_exception, xbind, modify, xmodify. cbn [failed set_inWrite]. rewrite Hf. by eexists. Qed.
Lemma event_admitted s e s' : step s e = Ok (Some s') -> failed (mon s) = true -> match e with HandOn _ => False | _ => True end -> (admitted s' <= admitted s)%nat.
Proof.
  intros H Hf He. destruct (failed_refuses_call _ Hf) as (m' & Em). destruct e; try done; cbn [step] in H; rewrite ?Em in H; unfold steps, ended, throw in H; repeat case_match; simplify_eq; try done;
    first [apply le_n | apply Nat.le_0_l | apply failed_threads in H as [_ Hw] | apply (failed_threads true) in H as [_ Hw]]; unfold admitted; rewrite Hw; lia.
Qed.
Lemma hand_sends s now s' : step s (HandOn now) = Ok (Some s') -> failed (mon s) = true ->
  failed (mon s') = true /\ (count is_sent (outputs (mon s')) + admitted s' <= count is_sent (outputs (mon s)) + admitted s)%nat.
Proof.
  intros H Hf. cbn [step] in H. unfold admitted at 2. destruct (writer s) as [[[b []] c]|]; [done | | done]. destruct (unlocked s c); [|done].
  set (start := match c with DWireFormatInfo i => modify (set_localWireFormatInfo (Some i)) ;+ startMonitorThreads now | _ => xret tt end).
  assert (Hst : preserves (silent (count is_sent (outputs (mon s)))) start).
  { unfold start. destruct c; try apply preserves_ret. apply preserves_bind; [apply preserves_field; [apply _ | by intros] | intros []; apply preserves_start, _]. }
  unfold oneway_hand in H. fold start in H. unfold on_exception, xbind in H. destruct (start (mon s)) as [[[]|[e| |]] m1] eqn:E; [| |done|done].
  - destruct (Hst _ _ _ E I (conj Hf eq_refl)) as [H1 H2]. cbn in H. injection H as <-. cbn [mon set_mon set_writer outputs emit failed admitted writer]. rewrite count_snoc. cbn. split; [done | lia].
  - destruct (Hst _ _ _ E I (conj Hf eq_refl)) as [H1 H2]. cbn [steps] in H. pose proof (failed_threads _ _ _ _ _ H) as [_ Hw]. unfold admitted. rewrite Hw.
    eapply (oneway_failed_keeps (silent (count is_sent (outputs (mon s))))) in H; [|by split]. destruct H as [H3 H4]. split; [done | lia].
Qed.
Lemma run_silent l : forall s s', run s l = Ok (Some s') -> failed (mon s) = true ->
  failed (mon s') = true /\ (count is_sent (outputs (mon s')) + admitted s' <= count is_sent (outputs (mon s)) + admitted s)%nat.
Proof.
  induction l as [|e l IH]; intros s s' H Hf; cbn [run] in H; [by injection H as <- |].
  destruct (step s e) as [[s1|]|] eqn:E; cbn [rbind] in H; [|done|done].
  enough (Hs : failed (mon s1) = true /\ (count is_sent (outputs (mon s1)) + admitted s1 <= count is_sent (outputs (mon s)) + admitted s)%nat).
  { destruct Hs as [Hf1 Hs]. destruct (IH _ _ H Hf1) as [H1 H2]. split; [done | lia]. }
  assert (Hplain : plain e -> failed (mon s1) = true /\ (count is_sent (outputs (mon s1)) + admitted s1 <= count is_sent (outputs (mon s)) + admitted s)%nat).
  { intros He. destruct (event_preserves (silent (count is_sent (outputs (mon s)))) _ _ _ E He (conj Hf eq_refl)) as [H1 H2].
    pose proof (event_admitted _ _ _ E Hf ltac:(by destruct e)). split; [done | lia]. }
  destruct e as [now c| |c| |now|next|now inReceive| |now| | | |e| |]; try (by apply Hplain); clear Hplain.
  - by apply (hand_sends _ _ _ E).
  - cbn [step] in E. rewrite Hf in E. unfold onException_enter in E. rewrite Hf in E. by injection E as <-.
  - cbn [step] in E. destruct (can_stop s); [|done]. destruct (stopMonitorThreads (mon s)) as [r m] eqn:Es. destruct (stop_fields _ _ _ Es) as (Ho & Hff & _).
    destruct (stop_defined _ _ _ Es) as [wait ->]; [by destruct r as [|[]] |]. injection E as <-. cbn [mon set_joining set_mon]. rewrite Ho, Hff. done.
  - cbn [step] in E. destruct (joining s) as [o|]; [|done]. destruct (keeping s); [done |]. injection E as <-. cbn [mon set_joining set_mon]. unfold filter_onException.
    destruct o as [e|]; [|done]. case_match; cbn [outputs emit failed]; rewrite ?count_snoc; cbn; rewrite ?Nat.add_0_r; done.
Qed.


(** ** Silence *)
(** A monitor that runs, with nothing being received. *)
Record watching (s : sys) : Prop := {
  watch_started : monitorStarted (mon s) = true;
  watch_failed : failed (mon s) = false;
  watch_passes : passes (mon s) = true;
  watch_reader : reader s = None /\ inRead (mon s) = false;
  watch_tasks : exists k, asyncTasks (mon s) = Some k /\ runner_shutdown k = false;
  watch_checkers : is_Some (readCheckerTask (mon s)) /\ is_Some (writeCheckerTask (mon s));
  watch_time : 0 <= readCheckTime (mon s) /\ readCheckTime (mon s) * 9 < 2 ^ 63
}.
(** What may happen while nothing is received: everything but that a command comes or is
    on its way at a read check, that the monitor is stopped, and that the transport below
    rejects a KeepAliveInfo as unsupported. *)
Definition quiet (e : event) : Prop :=
  match e with
  | OnCommand _ _ | ReadCheck _ true | Stop | Returned (Err (Throw UnsupportedOperationException)) => False
  | _ => True
  end.
(** The alarm of a read check, left to the task runner. *)
Definition alarmed (m : t) : Prop := exists k, asyncTasks m = Some k /\ readTask_failed k = true.
(** The read check at [t1] was the last one, and no command came since; or a later one has
    raised the alarm. *)
Definition unheard (t1 T : Z) (s : sys) : Prop :=
  watching s /\ readCheckTime (mon s) = T /\
  (alarmed (mon s) \/ (commandReceived (mon s) = false \/ reading s = true) /\ exists b, readCheckerTask (mon s) = Some (mkChecker t1 b)).

(** A monitor that runs is changed little by the calls that send. *)
Definition same_watch (m m' : t) : Prop :=
  monitorStarted m' = monitorStarted m /\ failed m' = failed m /\ passes m' = passes m /\ inRead m' = inRead m /\ asyncTasks m' = asyncTasks m /\
  readCheckerTask m' = readCheckerTask m /\ writeCheckerTask m' = writeCheckerTask m /\ readCheckTime m' = readCheckTime m /\ commandReceived m' = commandReceived m.
Lemma enter_watching m : failed m = false -> exists m', oneway_enter m = (Ok tt, m') /\ same_watch m m'.
Proof. intros Hf. unfold oneway_enter, on_exception, xbind, modify, xmodify. cbn [failed set_inWrite]. rewrite Hf. by eexists. Qed.
Lemma hand_watching now c m : monitorStarted m = true -> exists m', oneway_hand now c m = (Ok tt, m') /\ same_watch m m'.
Proof.
  intros Hm. unfold oneway_hand, on_exception, xbind, modify, xmodify, startMonitorThreads.
  destruct c; cbn [monitorStarted set_localWireFormatInfo]; rewrite ?Hm; by eexists.
Qed.
Lemma unheard_same t1 T s s' : unheard t1 T s -> same_watch (mon s) (mon s') -> reader s' = reader s -> reading s' = reading s -> unheard t1 T s'.
Proof.
  intros ([Hms Hf Hp [Hr Hir] Hk [Hc Hw] Ht] & HT & Hh) (E1 & E2 & E3 & E4 & E5 & E6 & E7 & E8 & E9) Er Erd.
  split; [split; rewrite ?E1, ?E2, ?E3, ?E4, ?E5, ?E6, ?E7, ?E8, ?Er; auto |]. unfold alarmed in *. by rewrite E5, E6, E8, E9, Erd.
Qed.
Lemma alarmed_turns m : monitorStarted m = true -> failed m = false -> is_Some (readCheckerTask m) -> is_Some (writeCheckerTask m) -> passes m = true -> alarmed m ->
  exists b m', readTask_iterate m = (Ok b, m') /\ failed m' = true /\ outputs m' = outputs m ++ [Reported IOException] /\ monitorStarted m' = false.
Proof.
  intros Hm Hf [r Hr] [w Hw] Hp (k & Hk & Hkf). unfold readTask_iterate, onException, xbind. rewrite Hk, Hkf. unfold modify, xmodify.
  cbn [failed set_asyncTasks]. rewrite Hf. unfold stopMonitorThreads. cbn [monitorStarted set_asyncTasks set_failed]. rewrite Hm.
  cbn [readCheckerTask writeCheckerTask asyncTasks set_monitorStarted set_asyncTasks set_failed]. rewrite Hr, Hw. unfold filter_onException.
  eexists _, _. split; [reflexivity |]. match goal with |- context [passes ?m] => replace (passes m) with true by (symmetry; exact Hp) end. done.
Qed.
Ltac fields := cbn; first [assumption | reflexivity | split; assumption | eexists; split; [reflexivity |]; assumption | eexists; split; eassumption | eexists; reflexivity | eexists; eassumption | by auto].
Ltac same_fields := unfold same_watch; cbn; repeat split; first [reflexivity | assumption].

(** A read check with nothing being received: when it is not too early, the alarm is
    raised unless a command came since the last one. *)
Lemma read_check_watch s now s' : watching s -> step s (ReadCheck now false) = Ok (Some s') ->
  reading s = false /\ watching s' /\ readCheckTime (mon s') = readCheckTime (mon s) /\ (alarmed (mon s) -> alarmed (mon s')) /\
  forall t0 b, readCheckerTask (mon s) = Some (mkChecker t0 b) ->
    readCheckTime (mon s) * 9 / 10 < now - t0 /\ (commandReceived (mon s) = false -> alarmed (mon s')) /\
      (commandReceived (mon s') = false \/ reading s' = true) /\ readCheckerTask (mon s') = Some (mkChecker now b) \/
    now - t0 <= readCheckTime (mon s) * 9 / 10 /\ commandReceived (mon s') = commandReceived (mon s) /\ readCheckerTask (mon s') = readCheckerTask (mon s).
Proof.
  intros [Hms Hf Hp [Hr Hir] (k & Hk & Hks) [[[lr c] Hc] Hw] Ht]. cbn [step]. rewrite Hc. rewrite bool_decide_false by done. destruct (reading s) eqn:Hrd; [done |]. cbn [orb].
  unfold ReadChecker_test, allowReadCheck. rewrite Hc. cbn [lastRunTime]. rewrite (proj2 (Z.leb_gt _ _)) by lia. destruct (Z.ltb_spec (readCheckTime (mon s) * 9 / 10) (now - lr)) as [Hl|Hl].
  - unfold readCheck_test. cbn [inRead commandReceived asyncTasks set_readCheckerTask]. rewrite Hir, Hk. cbn [orb].
    destruct (commandReceived (mon s)) eqn:Hcr; cbn [negb steps]; intros [= <-]; (split; [done |]); (split; [split; fields |]); (split; [done |]); split.
    + intros (k' & Hk' & Hkf). exists k'. split; [exact Hk' | exact Hkf].
    + intros t0 b [= <- <-]. left. cbn. repeat split; auto; done.
    + intros _. by eexists.
    + intros t0 b [= <- <-]. left. cbn. repeat split; auto. by eexists.
  - intros [= <-]. split; [done |]. split; [split; fields |]. split; [done |]. split; [done |]. intros t0 b [= <- <-]. by right.
Qed.
(** Such an event keeps the watch, unless the monitor fails. *)
Lemma unheard_step t1 T s e s' : unheard t1 T s -> quiet e -> step s e = Ok (Some s') -> failed (mon s') = true \/ unheard t1 T s'.
Proof.
  intros Hu He H. pose proof Hu as ([Hms Hf Hp [Hr Hir] (k & Hk & Hks) [Hc [w Hw]] Ht] & HT & Hh).
  destruct e as [? ?| |c| |now|next|now [|]| |now| | | |e| |]; try done; cbn [step] in H.
  - rewrite bool_decide_true in H by done. done.
  - destruct (bool_decide _); [|done]. destruct (enter_watching _ Hf) as (m & E & Hs). rewrite E in H. injection H as <-. right. by eapply unheard_same.
  - destruct (_ && _); [|done]. destruct (enter_watching _ Hf) as (m & E & Hs). rewrite E in H. injection H as <-. right. by eapply unheard_same.
  - destruct (writer s) as [[[b []] c]|]; [done | | done]. destruct (unlocked s c); [|done]. destruct (hand_watching now c _ Hms) as (m & E & Hs). rewrite E in H. injection H as <-.
    right. by eapply unheard_same.
  - destruct (writer s) as [[[b []] c]|]; [|done|done]. revert H. unfold oneway_leave, on_exception, xbind, modify, xmodify, xlift, steps.
    assert (Hs : same_watch (mon s) (sent (mon s))) by same_fields.
    destruct next as [[]|[e| |]]; [intros [= <-]; right; by eapply unheard_same | | done | done].
    destruct b; cbn [oneway_failed]; [|intros [= <-]; right; by eapply unheard_same]. unfold keepAlive_failed. assert (Hio : is_IOException (to_io_but_unsupported e) = true) by by destruct e.
    rewrite Hio. unfold onException, steps, xbind. replace (failed (sent (mon s))) with false by done.
    destruct (stopMonitorThreads _) as [r m] eqn:E; pose proof (stop_fields _ _ _ E) as (_ & Hff & _). destruct r as [wait|[e'| |]]; [| |done|done]; intros [= <-]; left;
      cbn; [unfold modify, xmodify, filter_onException; case_match; exact Hff | exact Hff].
  - right. destruct (read_check_watch s now s' (proj1 Hu) H) as (Hrd & Hw' & HT' & Hal & Hck). split; [done |]. split; [congruence |]. destruct Hh as [?|[[Hcr|] [b Hb]]]; [by left; apply Hal | | congruence].
    destruct (Hck _ _ Hb) as [(_ & Hr' & _)|(_ & Hcr' & Hck')]; [left; by apply Hr' | right]. rewrite Hcr', Hck'. split; [by left | by eexists].
  - destruct (reading s) eqn:Hrd; [|done]. injection H as <-. right. split; [split; fields |]. split; [done |]. destruct Hh as [?|[_ ?]]; [by left | by right; split; [left |]].
  - destruct (_ || _); [done |]. unfold WriteChecker_test, writeCheck_test in H. rewrite Hw in H. cbn [inWrite commandSent asyncTasks set_writeCheckerTask] in H.
    rewrite Hk in H. destruct (inWrite (mon s)); [|destruct (negb (commandSent (mon s)))]; injection H as <-; right; (split; [split; fields |]; split; [done |]);
      (destruct Hh as [(k' & Hk' & Hkf)|Hh]; [left; eexists; split; [first [reflexivity | exact Hk'] | rewrite Hk in Hk'; injection Hk' as <-; exact Hkf] | by right]).
  - destruct (writing s); [|done]. injection H as <-. right. eapply unheard_same; [exact Hu | same_fields | done | done].
  - destruct (runner_free s readTask_failed) eqn:Hfree; [|done]. unfold runner_free in Hfree. rewrite Hk in Hfree. apply andb_true_iff in Hfree as [_ Hfree]. apply andb_true_iff in Hfree as [_ Hkf].
    destruct (alarmed_turns (mon s)) as (b & m & E & Hfm & _); try done; [by exists k |]. rewrite E in H. injection H as <-. by left.
  - destruct (runner_free s writeTask_write); [|done]. unfold writeTask_take in H. rewrite Hk in H. destruct (writeTask_write k); injection H as <-; right; [|by eapply unheard_same].
    (split; [split; fields |]; split; [done |]). destruct Hh as [(k' & Hk' & Hkf)|Hh]; [left; rewrite Hk in Hk'; injection Hk' as <-; by eexists | by right].
  - destruct (_ || _); [|done]. destruct (onException_enter e (mon s)) as [r m] eqn:E. assert (Hd : defined r) by (by destruct r as [|[]]).
    destruct (onException_enter_spec _ _ _ _ E Hd) as [(? & _)|(_ & wait & m1 & E1 & -> & ->)]; [congruence |]. injection H as <-. left. destruct (stop_fields _ _ _ E1) as (_ & Hff & _).
    destruct wait; cbn; [exact Hff | unfold filter_onException; case_match; exact Hff].
  - destruct (joining s) as [o|]; [|done]. destruct (keeping s); [done |]. injection H as <-. right. destruct o as [e|]; cbn; [|by eapply unheard_same].
    eapply unheard_same; [exact Hu | | done | done]. cbn. unfold filter_onException. case_match; same_fields.
Qed.
Lemma unheard_run t1 T l : forall s s', failed (mon s) = true \/ unheard t1 T s -> Forall quiet l -> run s l = Ok (Some s') -> failed (mon s') = true \/ unheard t1 T s'.
Proof.
  induction l as [|e l IH]; intros s s' Hs Hl H; cbn [run] in H; [by injection H as <- |]. inversion Hl as [|? ? He Hl']; subst.
  destruct Hs as [Hf|Hs]; [left; refine (proj1 (run_silent (e :: l) s s' _ Hf)); exact H |].
  destruct (step s e) as [[s1|]|] eqn:E; cbn [rbind] in H; [|done|done]. eapply IH; [by eapply unheard_step | done | done].
Qed.
Lemma events_app l1 : forall s l2 s', run s (l1 ++ l2) = Ok (Some s') -> exists s1, run s l1 = Ok (Some s1) /\ run s1 l2 = Ok (Some s').
Proof.
  induction l1 as [|e l1 IH]; intros s l2 s' H; cbn [run app] in *; [by exists s |]. destruct (step s e) as [[s1|]|]; cbn [rbind] in *; [|done|done]. by apply IH.
Qed.
Lemma run_one s e s' : run s [e] = Ok (Some s') -> step s e = Ok (Some s').
Proof. cbn [run]. by destruct (step s e) as [[?|]|]. Qed.

Lemma failed_refuses now c next m : failed m = true -> exists m', oneway now c next m = (throw IOException, m') /\ outputs m' = outputs m.
Proof.
  intros Hf. unfold oneway, oneway_enter, on_exception, xcatch, xbind, modify, xmodify. cbn [failed set_inWrite]. rewrite Hf.
  eexists. split; [reflexivity | done].
Qed.
Lemma run_told s l s' : passes (mon s) = true -> failed (mon s) = false -> run s l = Ok (Some s') -> (told s' + unfailed (mon s') = told s + 1)%nat.
Proof. intros Hp Hf H. pose proof (proj2 (run_exact _ _ _ _ H (conj Hp eq_refl))) as E. unfold unfailed in E at 2. rewrite Hf in E. exact E. Qed.

(** C5. A peer that falls silent is found out.  Of two read checks that are not early,
    with nothing being received at either, no command coming in between, the monitor not
    being stopped and no KeepAliveInfo being rejected as unsupported, but with whatever
    else may happen (sending, which may fail, other checks, turns of the task runner,
    failures told by the transport below), after the second one the monitor has failed,
    with one more report made or waiting for the task runner; or the alarm is left to the
    task runner, which was not shut down and, unless it is just sending a KeepAliveInfo,
    reports an IOException in its next turn and stops the monitor.  A monitor that has
    failed refuses to send, without touching the transport below. *)
Theorem silence_detected s t0 b t1 l t2 s1 : watching s -> readCheckerTask (mon s) = Some (mkChecker t0 b) ->
  readCheckTime (mon s) * 9 / 10 < t1 - t0 -> Forall quiet l -> readCheckTime (mon s) * 9 / 10 < t2 - t1 ->
  run s (ReadCheck t1 false :: l ++ [ReadCheck t2 false]) = Ok (Some s1) ->
  (failed (mon s1) = true /\ told s1 = (told s + 1)%nat \/
   told s1 = told s /\ (keeping s1 = false -> exists s2, step s1 ReadTurn = Ok (Some s2) /\ outputs (mon s2) = outputs (mon s1) ++ [Reported IOException] /\
     failed (mon s2) = true /\ monitorStarted (mon s2) = false) /\ exists k, asyncTasks (mon s1) = Some k /\ readTask_failed k = true /\ runner_shutdown k = false) /\
  forall m, failed m = true -> forall now c next, exists m', oneway now c next m = (throw IOException, m') /\ outputs m' = outputs m.
Proof.
  intros Hs Hck Ht1 Hl Ht2 H. split; [|intros m Hm now c next; by apply failed_refuses].
  pose proof (run_told _ _ _ (watch_passes _ Hs) (watch_failed _ Hs) H) as Htold. change (ReadCheck t1 false :: l ++ _) with ([ReadCheck t1 false] ++ l ++ [ReadCheck t2 false]) in H.
  apply events_app in H as (sa & Ha & H). apply events_app in H as (sb & Hb & H). apply run_one in Ha. pose proof (run_one _ _ _ H) as H2.
  assert (Hu : unheard t1 (readCheckTime (mon s)) sa).
  { destruct (read_check_watch s t1 sa Hs Ha) as (_ & Hw & HT & _ & Hc). destruct (Hc _ _ Hck) as [(_ & _ & Hr & Ec)|[? _]]; [|lia].
    split; [done |]. split; [done |]. right. split; [done | by eexists]. }
  destruct (unheard_run _ _ _ _ _ (or_intror Hu) Hl Hb) as [Hfb|(Hwb & HTb & Hhb)].
  { left. destruct (run_silent _ _ _ H Hfb) as [Hf1 _].
    split; [done |]. unfold unfailed in Htold. rewrite Hf1 in Htold. lia. }
  destruct (read_check_watch sb t2 s1 Hwb H2) as (Hrd & Hw1 & _ & Hal & Hc).
  assert (Ha1 : alarmed (mon s1)).
  { destruct Hhb as [?|[[Hcr|] [b1 Hb1]]]; [by apply Hal | | congruence]. destruct (Hc _ _ Hb1) as [(_ & Hr & _)|[? _]]; [by apply Hr | rewrite HTb in *; lia]. }
  right. pose proof Hw1 as [Hms Hf Hp _ (k & Hk & Hks) [Hcr Hcw] _]. split; [unfold unfailed in Htold; rewrite Hf in Htold; lia |].
  pose proof Ha1 as (k' & Hk' & Hkf). rewrite Hk in Hk'. injection Hk' as <-. split; [|by exists k]. intros Hkeep.
  destruct (alarmed_turns (mon s1)) as (b' & m & E & Hfm & Ho & Hmm); try done. cbn [step]. unfold runner_free. rewrite Hkeep, Hk, Hks, Hkf. cbn [negb andb]. rewrite E. by eexists.
Qed.

(** ** The runner that sends *)
(** A failure or an alarm while the runner is in a send that does not return. *)
Definition blocked (s : sys) : Prop := failed (mon s) = false /\ monitorStarted (mon s) = true \/ exists e, failed (mon s) = true /\ joining s = Some (Some e).
(** What other threads do then: they report and send nothing. *)
Definition mute (m m' : t) : Prop :=
  count is_report (outputs m') = count is_report (outputs m) /\ count is_sent (outputs m') = count is_sent (outputs m) /\ failed m' = failed m /\ monitorStarted m' = monitorStarted m.
Lemma mute_delivered c m : mute m (filter_onCommand c m).
Proof. unfold filter_onCommand. case_match; [|done]. unfold mute. cbn [outputs emit failed monitorStarted]. rewrite !count_snoc. cbn. by rewrite !Nat.add_0_r. Qed.
Lemma mute_received now c m : monitorStarted m = true \/ (forall i, c <> DWireFormatInfo i) -> exists m', onCommand_enter now c m = (Ok tt, m') /\ mute m m'.
Proof.
  intros H. unfold onCommand_enter, on_exception, xcatch_io_with, startMonitorThreads, xbind, modify, xmodify.
  destruct c; cbn [monitorStarted set_remoteWireFormatInfo set_inRead set_commandReceived]; try (by eexists). destruct H as [->|H]; [by eexists | by destruct (H i)].
Qed.
Lemma blocked_step s c e s' : blocked s -> keeping s = true -> writer s = Some (true, true, c) -> match e with Returned _ | Stop => False | _ => True end -> step s e = Ok (Some s') ->
  count is_report (outputs (mon s')) = count is_report (outputs (mon s)) /\ count is_sent (outputs (mon s')) = count is_sent (outputs (mon s)) /\
  keeping s' = true /\ writer s' = Some (true, true, c) /\ blocked s'.
Proof.
  intros Hb Hk Hw He H.
  assert (Hsame : forall s1, mute (mon s) (mon s1) -> keeping s1 = keeping s -> writer s1 = writer s -> joining s1 = joining s ->
    count is_report (outputs (mon s1)) = count is_report (outputs (mon s)) /\ count is_sent (outputs (mon s1)) = count is_sent (outputs (mon s)) /\
    keeping s1 = true /\ writer s1 = Some (true, true, c) /\ blocked s1).
  { intros s1 (H1 & H2 & H3 & H4) -> -> Hj. unfold blocked. by rewrite H3, H4, Hj. }
  destruct e as [now d| |d| |now|next|now inReceive| |now| | | |e| |]; try done; cbn [step] in H; unfold runner_free in H; rewrite ?Hk, ?Hw in H; try done.
  - destruct (_ && _) eqn:Hg; [|done]. apply andb_true_iff in Hg as [_ Hg].
    destruct (mute_received now d (mon s)) as (m & E & (H1 & H2 & H3 & H4)).
    { destruct Hb as [[_ ?]|(e & _ & Hj)]; [by left | right]. intros i ->. cbn in Hg. rewrite Hj in Hg. by apply bool_decide_eq_true in Hg. }
    rewrite E in H. injection H as <-. apply Hsame; [|done ..]. destruct (mute_delivered d m) as (G1 & G2 & G3 & G4). unfold mute. cbn [mon set_reader set_mon]. repeat split; congruence.
  - destruct (bool_decide _); [done |]. injection H as <-. by apply Hsame.
  - destruct (_ || _); [done |]. revert H. unfold ReadChecker_test, readCheck_test, allowReadCheck. repeat case_match; simplify_eq/=; intros [= <-]; by apply Hsame.
  - destruct (reading s); [|done]. injection H as <-. by apply Hsame.
  - destruct (_ || _); [done |]. revert H. unfold WriteChecker_test, writeCheck_test. repeat case_match; simplify_eq/=; intros [= <-]; by apply Hsame.
  - destruct (writing s); [|done]. injection H as <-. by apply Hsame.
  - destruct (_ || _); [|done]. destruct (onException_enter e (mon s)) as [r m] eqn:E. assert (Hd : defined r) by (by destruct r as [|[]]).
    destruct (onException_enter_spec _ _ _ _ E Hd) as [(_ & -> & ->)|(Hf & wait & m1 & E1 & -> & ->)]; injection H as <-; [by apply Hsame |].
    destruct Hb as [[_ Hm]|(? & ? & _)]; [|congruence]. destruct (stop_fields _ _ _ E1) as (Ho & Hff & _ & _).
    revert E1. unfold stopMonitorThreads. cbn [monitorStarted set_failed]. rewrite Hm. repeat case_match; intros E1; simplify_eq; cbn; repeat split; try done; right; by exists e.
  - by destruct (joining s).
Qed.

(** C20. The task runner that reports silence is the one that sends KeepAliveInfos, and
    that every failure waits for.  While such a send does not return, as when the peer
    has stopped reading, and unless the monitor is stopped, whatever else happens
    nothing is reported: neither silence, whatever the read checks find, with the
    connection taken for sound and commands still waiting to be sent on it, nor the
    failure of the transport below, whose thread waits for the runner in onException. *)
Theorem blocked_keepalive_hides_silence s c l s' : keeping s = true -> writer s = Some (true, true, c) -> monitorStarted (mon s) = true -> failed (mon s) = false ->
  Forall (fun e => match e with Returned _ | Stop => False | _ => True end) l -> run s l = Ok (Some s') ->
  count is_report (outputs (mon s')) = count is_report (outputs (mon s)) /\ count is_sent (outputs (mon s')) = count is_sent (outputs (mon s)) /\
  (failed (mon s') = false \/ exists e, joining s' = Some (Some e)).
Proof.
  intros Hk Hw Hm Hf Hl. assert (Hc : blocked s) by by left. clear Hm Hf.
  revert s Hk Hw Hc. induction Hl as [|e l He Hl IH]; intros s Hk Hw Hc H; cbn [run] in H.
  { injection H as <-. split; [done |]. split; [done |]. destruct Hc as [[? _]|(e & _ & ?)]; [by left | right; by exists e]. }
  destruct (step s e) as [[s1|]|] eqn:E; cbn [rbind] in H; [|done|done].
  assert (Hi : count is_report (outputs (mon s1)) = count is_report (outputs (mon s)) /\ count is_sent (outputs (mon s1)) = count is_sent (outputs (mon s)) /\
    keeping s1 = true /\ writer s1 = Some (true, true, c) /\ blocked s1).
  { by eapply blocked_step. }
  destruct Hi as (<- & <- & Hk1 & Hw1 & Hc1). by apply IH.
Qed.

(** ** Starting again *)
Lemma cancelled_timer now delay period k : CheckTimer.cancelled k = true -> exists e, CheckTimer.scheduleAtFixedRate now delay period k = throw e /\ to_io e = IOException.
Proof. intros Hk. unfold CheckTimer.scheduleAtFixedRate. rewrite Hk. repeat case_match; by eexists. Qed.
Lemma start_cancelled now m l r : monitorStarted m = false -> CheckTimer.cancelled (writeCheckTimer m) = true -> localWireFormatInfo m = Some l -> remoteWireFormatInfo m = Some r ->
  0 < WireFormatInfo.getMaxInactivityDuration l -> 0 < WireFormatInfo.getMaxInactivityDuration r ->
  exists m', afterNextIsStarted now m = (throw IOException, m') /\ started m' = started m.
Proof.
  intros Hm Hk Hl Hr Hdl Hdr. unfold afterNextIsStarted, xcatch, startMonitorThreads. rewrite Hm, Hl, Hr. cbn [readCheckTime set_initialDelayTime set_readCheckTime].
  rewrite (proj2 (Z.ltb_lt _ _)) by lia. unfold xbind, schedule_write. match goal with |- context [CheckTimer.scheduleAtFixedRate now ?d ?p ?k] => destruct (cancelled_timer now d p k Hk) as (e & -> & He) end.
  eexists. unfold throw. cbv beta iota. rewrite He. by split.
Qed.

(** A monitored transport cannot be started again after it was stopped: the timers
    were cancelled for good, so start fails although the next transport started. *)
Theorem restart_refused s now l r : listener s = true -> closed s = false -> started s = true -> monitorStarted s = true ->
  is_Some (readCheckerTask s) -> is_Some (writeCheckerTask s) -> is_Some (asyncTasks s) -> localWireFormatInfo s = Some l -> remoteWireFormatInfo s = Some r ->
  0 < WireFormatInfo.getMaxInactivityDuration l -> 0 < WireFormatInfo.getMaxInactivityDuration r ->
  exists s1 s2, stop (Ok tt) s = (Ok tt, s1) /\ start now (Ok tt) s1 = (throw IOException, s2) /\ started s2 = true.
Proof.
  intros Hl Hc Hs Hm [rk Hrk] [wk Hwk] [k Hk] Hlo Hre Hdl Hdr. unfold stop. rewrite Hc, Hs. cbn [orb negb]. unfold beforeNextIsStopped, xcatch, xbind, stopMonitorThreads.
  cbn [monitorStarted set_started]. rewrite Hm. cbn [readCheckerTask writeCheckerTask asyncTasks set_monitorStarted set_started]. rewrite Hrk, Hwk, Hk.
  set (m1 := set_asyncTasks _ _). destruct (start_cancelled now (set_started true m1) l r) as (m2 & E & Hst); try done.
  exists m1, m2. split; [done |]. unfold start. change (closed m1) with (closed s). change (listener m1) with (listener s). change (started m1) with false.
  rewrite Hc, Hl. cbn [negb]. unfold xcatch, xlift, xbind. rewrite E. by split.
Qed.

(** ** Instances *)
Section Instances.
Definition wire_info (duration delay : Z) : WireFormatInfo.t :=
  WireFormatInfo.set_properties WireFormatInfo.default
    (StlMap.put (str "MaxInactivityDurationInitalDelay") (LONG_TYPE delay) (StlMap.put (str "MaxInactivityDuration") (LONG_TYPE duration) [])).
(** A monitor after the exchange of the WireFormatInfos. *)
Definition exchange (now : Z) : list event :=
  [Oneway (DWireFormatInfo (wire_info 30000 10000)); HandOn now; Returned (Ok tt); OnCommand now (DWireFormatInfo (wire_info 45000 10000)); Handled].
Definition watched (now : Z) : sys :=
  match run (idle (set_started true (new true false))) (exchange now) with Ok (Some s) => s | _ => idle (new true false) end.
Ltac computed := vm_compute; repeat split; (reflexivity || discriminate || (eexists; split; reflexivity) || (eexists; reflexivity)).

Example exchange_starts : readCheckTime (mon (watched 90000)) = 30000 /\ writeCheckTime (mon (watched 90000)) = 10000 /\
  CheckTimer.heap (readCheckTimer (mon (watched 90000))) = [(100000, 30000)] /\ CheckTimer.heap (writeCheckTimer (mon (watched 90000))) = [(100000, 10000)].
Proof. by vm_compute. Qed.

(** The reader of the transport below fails after a call of oneway has found the monitor
    sound: its command is handed on, the next one is not. *)
Definition failing : list event :=
  let c := keepAlive (mon (watched 90000)) in [Oneway c; Failure IOException; HandOn 90001; Returned (Ok tt); Joined; Failure EOFException; Oneway c].

(** A command is sent in between, and the transport below throws. *)
Definition between : list event := [ReadChecked; Oneway (keepAlive (mon (watched 90000))); HandOn 105000; Returned (Err (Throw IOException)); WriteCheck 110000; WriteChecked].
Lemma silence_detected_witness : exists s1, run (watched 90000) (ReadCheck 100000 false :: between ++ [ReadCheck 130000 false]) = Ok (Some s1) /\
  keeping s1 = false /\ exists s2, step s1 ReadTurn = Ok (Some s2) /\ outputs (mon s2) = outputs (mon s1) ++ [Reported IOException].
Proof.
  destruct (run (watched 90000) (ReadCheck 100000 false :: between ++ [ReadCheck 130000 false])) as [[s1|]|] eqn:E; [|vm_compute in E; discriminate E ..].
  assert (Hw : watching (watched 90000)) by (split; computed).
  assert (Hs1 : failed (mon s1) = false /\ keeping s1 = false) by (vm_compute in E; injection E as <-; split; reflexivity). destruct Hs1 as [Hf1 Hk1].
  exists s1. split; [reflexivity |]. split; [exact Hk1 |].
  destruct (silence_detected (watched 90000) 0 false 100000 between 130000 s1 Hw) as ([[Hf _]|(_ & H & _)] & _).
  - reflexivity.
  - reflexivity.
  - repeat (apply List.Forall_cons; [exact I |]). apply List.Forall_nil.
  - reflexivity.
  - exact E.
  - rewrite Hf1 in Hf. discriminate Hf.
  - destruct (H Hk1) as (s2 & E2 & Ho & _). exists s2. split; [exact E2 | exact Ho].
Defined.

(** The second write check wants a KeepAliveInfo, whose call does not return; the read
    checks go on, the second one raises the alarm, and then the transport below fails. *)
Definition stuck : list event := [WriteCheck 100000; WriteChecked; WriteCheck 110000; WriteChecked; WriteTurn; KeepAlive; HandOn 110000].
Definition unanswered : list event := [ReadCheck 120000 false; ReadChecked; ReadCheck 150000 false; ReadChecked; ReadCheck 180000 false; ReadChecked; Failure IOException].
Lemma blocked_keepalive_hides_silence_witness : exists s s', run (watched 90000) stuck = Ok (Some s) /\ run s unanswered = Ok (Some s') /\
  alarmed (mon s') /\ failed (mon s') = true /\ count is_report (outputs (mon s')) = 0%nat.
Proof.
  destruct (run (watched 90000) stuck) as [[s|]|] eqn:E; [|vm_compute in E; discriminate E ..].
  destruct (run s unanswered) as [[s'|]|] eqn:E'; pose proof E as Es; vm_compute in Es; injection Es as Es; [|rewrite <- Es in E'; vm_compute in E'; discriminate E' ..].
  destruct (blocked_keepalive_hides_silence s (keepAlive (mon (watched 90000))) unanswered s') as (H1 & _);
    [first [rewrite <- Es; reflexivity | exact E' | repeat (apply List.Forall_cons; [exact I |]); apply List.Forall_nil] .. |].
  rewrite <- Es in E'. vm_compute in E'. injection E' as E'. exists s, s'.
  split; [reflexivity |]. split; [rewrite <- Es, <- E'; vm_compute; reflexivity |]. split; [rewrite <- E'; eexists; split; reflexivity |]. split; [rewrite <- E'; reflexivity |].
  rewrite H1, <- Es. reflexivity.
Defined.

Lemma restart_refused_witness : exists s1 s2, stop (Ok tt) (mon (watched 90000)) = (Ok tt, s1) /\ start 95000 (Ok tt) s1 = (throw IOException, s2).
Proof.
  destruct (restart_refused (mon (watched 90000)) 95000 (wire_info 30000 10000) (wire_info 45000 10000)) as (s1 & s2 & E1 & E2 & _);
    [first [reflexivity | eexists; reflexivity] .. |].
  exists s1, s2. split; [exact E1 | exact E2].
Defined.
End Instances.
