(* ===== verification/InactivityTimed.v ===== *)
(** * Keep-alives in time

    Two monitors on the two ends of a connection, with clocks: the timers, the task
    runners, the transports and the listeners act with bounded delays.  If the delays
    fit into the time between two read checks, neither side takes the other for
    dead, however little they have to say. *)

From S2P Require Import Prelude Commands Inactivity InactivityFacts.
Import InactivityMonitor.

Section Timed.
(** The longest time between two write checks, for the task runner to take a turn,
    for a call of oneway, between the test of a read check and its
    reset, for a call of the listener, and between the end of a call of the
    transport and the start of that of the listener on the other side. *)
Context (G dTurn dSend dReset dHandle dNet : Z).

(** A monitor with the time its next write check is due; since when it sends, has a
    KeepAliveInfo to send, and handles a command or handles none; before which there
    is no read check; and when the commands were sent that are on their way to it
    (which they are does not matter). *)
Record node := mkNode {
  sy : sys;
  wdue : Z;
  sbeg : Z;
  ktime : Z;
  rtime : Z;
  rstart : Z;
  inbox : list Z
}.
Definition pending (s : sys) : bool := keeping s || match asyncTasks (mon s) with Some k => writeTask_write k | None => false end.
Definition lastRun (s : sys) : Z := match readCheckerTask (mon s) with Some k => lastRunTime k | None => 0 end.
Definition busy {A} (o : option A) : bool := match o with Some _ => true | None => false end.

(** The time may be [now]: nothing that was due by then is left undone. *)
Definition in_time (now : Z) (n : node) : bool :=
  (now <=? wdue n) &&
  (if busy (writer (sy n)) then now <=? sbeg n + dSend else if pending (sy n) then now <=? ktime n + dTurn else true) &&
  (if reading (sy n) then now <=? lastRun (sy n) + dReset else true) &&
  (if busy (reader (sy n)) then now <=? rtime n + dHandle
   else match inbox n with t :: _ => now <=? Z.max t (rtime n) + dNet | [] => true end).

(** What can happen at the time [now] on a connection that works. *)
Definition happens (now : Z) (e : event) (n : node) : Prop :=
  match e with
  | OnCommand t _ => t = now /\ inbox n <> []
  | HandOn t | WriteCheck t => t = now
  | ReadCheck t _ => t = now /\ rstart n <= now
  | Returned r => r = Ok tt
  | Failure _ | Stop | Joined => False
  | Oneway _ | KeepAlive | Handled | ReadChecked | WriteChecked | ReadTurn | WriteTurn => True
  end.
#[global] Instance happens_dec now e n (P := happens now e n) : Decision P.
Proof. subst P. destruct e; cbn; apply _. Defined.

Definition clocks (now : Z) (e : event) (n : node) (s : sys) : node :=
  let n := mkNode s (wdue n) (sbeg n) (ktime n) (rtime n) (rstart n) (inbox n) in
  match e with
  | OnCommand _ _ => mkNode s (wdue n) (sbeg n) (ktime n) now (rstart n) (tail (inbox n))
  | Handled => mkNode s (wdue n) (sbeg n) (ktime n) now (rstart n) (inbox n)
  | Oneway _ | KeepAlive => mkNode s (wdue n) now (ktime n) (rtime n) (rstart n) (inbox n)
  | Returned _ => mkNode s (wdue n) (sbeg n) now (rtime n) (rstart n) (inbox n)
  | WriteCheck _ => mkNode s (now + G) (sbeg n) (ktime n) (rtime n) (rstart n) (inbox n)
  | _ => n
  end.
(** The time a KeepAliveInfo is first wanted. *)
Definition wanted (now : Z) (before : bool) (n : node) : node :=
  if before then n else mkNode (sy n) (wdue n) (sbeg n) now (rtime n) (rstart n) (inbox n).
(** The transport takes what was sent to the other side. *)
Definition deliver (now : Z) (e : event) (n : node) : node :=
  match e with
  | Returned _ => mkNode (sy n) (wdue n) (sbeg n) (ktime n) (rtime n) (rstart n) (inbox n ++ [now])
  | _ => n
  end.

Record net := mkNet { clock : Z; left : node; right : node }.
Inductive action := Tick (t : Z) | Left (e : event) | Right (e : event).

Definition act_at (now : Z) (e : event) (n p : node) : result (option (node * node)) :=
  if decide (happens now e n) then
    let! o := step (sy n) e in
    Ok (match o with Some s => Some (wanted now (pending (sy n)) (clocks now e n s), deliver now e p) | None => None end)
  else Ok None.
Definition act (w : net) (a : action) : result (option net) :=
  match a with
  | Tick t => Ok (if (clock w <=? t) && in_time t (left w) && in_time t (right w) then Some (mkNet t (left w) (right w)) else None)
  | Left e => let! o := act_at (clock w) e (left w) (right w) in Ok (match o with Some (n, p) => Some (mkNet (clock w) n p) | None => None end)
  | Right e => let! o := act_at (clock w) e (right w) (left w) in Ok (match o with Some (n, p) => Some (mkNet (clock w) p n) | None => None end)
  end.
Fixpoint acts (w : net) (l : list action) : result (option net) :=
  match l with
  | [] => Ok (Some w)
  | a :: l => let! o := act w a in match o with Some w => acts w l | None => Ok None end
  end.

(** ** Invariants *)
(** One end: it watches, and the flags of the monitor are those of the threads. *)
Record fine (s : sys) : Prop := {
  fine_started : monitorStarted (mon s) = true;
  fine_failed : failed (mon s) = false;
  fine_tasks : exists k, asyncTasks (mon s) = Some k /\ readTask_failed k = false /\ runner_shutdown k = false;
  fine_read : exists k, readCheckerTask (mon s) = Some k;
  fine_write : exists k, writeCheckerTask (mon s) = Some k;
  fine_inRead : inRead (mon s) = busy (reader s);
  fine_inWrite : inWrite (mon s) = busy (writer s);
  fine_keeping : forall b c, writer s = Some (true, b, c) -> keeping s = true;
  fine_time : 0 <= readCheckTime (mon s) /\ readCheckTime (mon s) * 9 < 2 ^ 63 /\
    dReset + dHandle + dNet + (2 * G + dTurn + dSend) <= readCheckTime (mon s) * 9 / 10
}.

(** The commands that are on their way were sent at most [2 * G + dTurn + dSend]
    apart, the first of them after [a], the last of them at [z]; times before [b]
    count as [b]. *)
Fixpoint spaced (b a : Z) (q : list Z) (z : Z) : Prop :=
  match q with
  | [] => a = z
  | t :: q => a <= Z.max t b <= a + (2 * G + dTurn + dSend) /\ spaced b (Z.max t b) q z
  end.
(** By when [snd] sends again, counted from its last command at [lc]. *)
Definition sends_again (snd : node) (lc : Z) : Prop :=
  if busy (writer (sy snd)) then sbeg snd <= lc + 2 * G + dTurn
  else if pending (sy snd) then ktime snd <= lc + 2 * G
  else if commandSent (mon (sy snd)) && negb (writing (sy snd)) then wdue snd <= lc + G
  else wdue snd <= lc + 2 * G.
(** [b] is when the first write check was due, less the interval. *)
Definition sender (now b lc : Z) (n : node) : Prop :=
  b <= lc <= Z.max now b /\ wdue n <= Z.max now b + G /\ sends_again n lc.
(** The commands on the way, after the one of [lm] that was the last to arrive. *)
Definition channel (now b lm lc : Z) (q : list Z) : Prop := spaced b lm q lc /\ Forall (fun t => t <= now) q.
(** The last command, sent at [lm], arrived at [la]. *)
Definition receiver (now b lm la : Z) (n : node) : Prop :=
  b <= rstart n /\ b <= lm <= la /\ la <= Z.max now (rstart n) /\ rtime n <= la + (if busy (reader (sy n)) then 0 else dHandle) /\
  (commandReceived (mon (sy n)) = false -> la <= lastRun (sy n) + dReset) /\
  (reading (sy n) = true -> rstart n <= now) /\ lastRun (sy n) <= now.
Definition direction (now : Z) (snd rcv : node) : Prop :=
  exists b lc lm la, sender now b lc snd /\ channel now b lm lc (inbox rcv) /\ receiver now b lm la rcv.
Definition sound (now : Z) (n p : node) : Prop :=
  (fine (sy n) /\ fine (sy p)) /\ (in_time now n = true /\ in_time now p = true) /\ direction now n p /\ direction now p n.

(** ** What an event does to the flags *)
Definition same_send (s s' : sys) : Prop :=
  busy (writer s') = busy (writer s) /\ pending s' = pending s /\ commandSent (mon s') = commandSent (mon s) /\ writing s' = writing s.
Definition same_read (s s' : sys) : Prop :=
  busy (reader s') = busy (reader s) /\ commandReceived (mon s') = commandReceived (mon s) /\ lastRun s' = lastRun s /\ reading s' = reading s.
Definition effect (now : Z) (e : event) (s s' : sys) : Prop :=
  match e with
  | OnCommand _ _ => same_send s s' /\ busy (reader s) = false /\ busy (reader s') = true /\ commandReceived (mon s') = true /\ lastRun s' = lastRun s /\ reading s' = reading s
  | Handled => same_send s s' /\ busy (reader s) = true /\ busy (reader s') = false /\ commandReceived (mon s') = commandReceived (mon s) /\ lastRun s' = lastRun s /\ reading s' = reading s
  | Oneway _ | KeepAlive => same_read s s' /\ busy (writer s) = false /\ busy (writer s') = true
  | Returned _ => same_read s s' /\ busy (writer s) = true /\ busy (writer s') = false /\ commandSent (mon s') = true
  | ReadCheck _ _ => same_send s s' /\ busy (reader s') = busy (reader s) /\ commandReceived (mon s') = commandReceived (mon s) /\
      reading s = false /\ (lastRun s' = now \/ lastRun s' = lastRun s /\ reading s' = false)
  | ReadChecked => same_send s s' /\ busy (reader s') = busy (reader s) /\ reading s = true /\ reading s' = false /\ lastRun s' = lastRun s
  | WriteCheck _ => same_read s s' /\ busy (writer s') = busy (writer s) /\ commandSent (mon s') = commandSent (mon s) /\ writing s = false /\
      if busy (writer s) then True else writing s' = true /\ pending s' = pending s || negb (commandSent (mon s))
  | WriteChecked => same_read s s' /\ busy (writer s') = busy (writer s) /\ commandSent (mon s') = false /\ pending s' = pending s /\ writing s = true
  | HandOn _ | WriteTurn => same_read s s' /\ same_send s s'
  | ReadTurn | Failure _ | Stop | Joined => False
  end.

Lemma enter_started m : failed m = false -> oneway_enter m = (Ok tt, set_inWrite true m).
Proof. intros Hf. unfold oneway_enter, on_exception, xbind, modify, xmodify. cbn [failed set_inWrite]. by rewrite Hf. Qed.
Lemma hand_started now c m : monitorStarted m = true ->
  exists m0, oneway_hand now c m = (Ok tt, emit (Sent c) m0) /\ (m0 = m \/ exists i, m0 = set_localWireFormatInfo (Some i) m).
Proof.
  intros Hm. unfold oneway_hand, on_exception, xbind, modify, xmodify.
  destruct c; unfold startMonitorThreads; cbn [monitorStarted set_localWireFormatInfo]; rewrite ?Hm; eexists; (split; [reflexivity |]); eauto.
Qed.
Lemma passed_on now c m : monitorStarted m = true -> failed m = false -> exists m', (oneway_enter ;+ oneway_hand now c) m = (Ok tt, emit (Sent c) m').
Proof. intros Hm Hf. unfold xbind at 1. rewrite (enter_started m Hf). destruct (hand_started now c (set_inWrite true m) Hm) as (m' & E & _). by exists m'. Qed.
Lemma receive_started now c m : monitorStarted m = true ->
  exists m0, onCommand_enter now c m = (Ok tt, m0) /\ (m0 = set_inRead true (set_commandReceived true m) \/ exists i, m0 = set_remoteWireFormatInfo (Some i) (set_inRead true (set_commandReceived true m))).
Proof.
  intros Hm. unfold onCommand_enter, on_exception, xcatch_io_with, startMonitorThreads, xbind, modify, xmodify.
  destruct c; cbn [monitorStarted set_remoteWireFormatInfo set_inRead set_commandReceived]; rewrite ?Hm; eexists; (split; [reflexivity |]); eauto.
Qed.

Ltac conjs := repeat match goal with |- _ /\ _ => split end.
Ltac view := cbn [effect] in *; unfold same_send, same_read, pending, lastRun in *; cbn in *.
Ltac solve_fine := split; cbn in *; first [assumption | reflexivity | eexists; conjs; first [reflexivity | eassumption] | by auto | congruence].

(** A read check finds no cause for alarm. *)
Definition no_alarm (now : Z) (e : event) (s : sys) : Prop :=
  match e with
  | ReadCheck _ _ => busy (reader s) = false -> readCheckTime (mon s) * 9 / 10 < now - lastRun s -> commandReceived (mon s) = true
  | _ => True
  end.
Lemma step_fine now e n : fine (sy n) -> happens now e n -> no_alarm now e (sy n) ->
  exists o, step (sy n) e = Ok o /\ forall s, o = Some s -> fine s /\ effect now e (sy n) s.
Proof.
  intros [Hm Hf (k & Hk & Hkf & Hks) [r Hr] [w Hw] Hir Hiw Hkeep Ht] He Hna. destruct n as [s ? ? ? ? ? q]. cbn [sy] in *.
  destruct e as [t c| |c| |t|next|t inReceive| |t| | | |e| |]; cbn [happens] in He; cbn [step].
  - destruct (receive_started t c (mon s) Hm) as (m0 & -> & Hm0). case_bool_decide as Hrd; [|by eexists]. destruct (unlocked s c); [|by eexists]. eexists. split; [reflexivity |]. intros s' [= <-].
    assert (E : forall m, filter_onCommand c m = m \/ filter_onCommand c m = emit (Delivered c) m) by (intros; unfold filter_onCommand; destruct (passes m); auto).
    destruct (E m0) as [-> | ->]; destruct Hm0 as [->|[i ->]]; (split; [solve_fine | view; rewrite Hrd; conjs; reflexivity]).
  - case_bool_decide as Hrd; [by eexists |]. eexists. split; [reflexivity |]. intros s' [= <-]. split; [solve_fine |]. view. destruct (reader s); [|done]. conjs; reflexivity.
  - case_bool_decide as Hwr; [|by eexists]. rewrite (enter_started _ Hf). eexists. split; [reflexivity |]. intros s' [= <-].
    split; [solve_fine | view; rewrite Hwr; conjs; reflexivity].
  - case_bool_decide as Hwr; [|by eexists]. destruct (keeping s) eqn:Hkp; [|by eexists]. cbn [andb]. rewrite (enter_started _ Hf).
    eexists. split; [reflexivity |]. intros s' [= <-]. split; [solve_fine | view; rewrite Hwr; conjs; reflexivity].
  - destruct (writer s) as [[[by_task []] c]|] eqn:Hwr; [by eexists | | by eexists]. destruct (unlocked s c); [|by eexists].
    destruct (hand_started t c (mon s) Hm) as (m0 & -> & Hm0). eexists. split; [reflexivity |]. intros s' [= <-].
    destruct Hm0 as [->|[i ->]]; (split; [split; cbn; eauto; intros b' c' [= -> _ _]; by eapply Hkeep | view; rewrite Hwr; conjs; reflexivity]).
  - subst next. destruct (writer s) as [[[by_task []] c]|] eqn:Hwr; [|by eexists ..]. eexists. split; [reflexivity |]. intros s' [= <-].
    split; [solve_fine | view; rewrite Hwr; conjs; reflexivity].
  - destruct He as [-> He]. destruct (reading s) eqn:Hrd; [by eexists |]. rewrite Hr. cbn [orb]. rewrite bool_decide_false by done.
    unfold no_alarm, lastRun in Hna. rewrite Hr in Hna. unfold ReadChecker_test, allowReadCheck. rewrite Hr, (proj2 (Z.leb_gt _ _)) by lia.
    destruct (Z.ltb_spec (readCheckTime (mon s) * 9 / 10) (now - lastRunTime r)) as [Hel|Hel].
    + unfold readCheck_test. cbn [inRead commandReceived set_readCheckerTask]. rewrite Hir. destruct (busy (reader s)) eqn:Hbr; cbn [orb].
      * eexists. split; [reflexivity |]. intros s' [= <-]. split; [solve_fine | view; rewrite Hr; conjs; auto].
      * destruct inReceive; [eexists; split; [reflexivity |]; intros s' [= <-]; split; [solve_fine | view; rewrite Hr; conjs; auto] |].
        rewrite Hna by done. cbn [negb]. eexists. split; [reflexivity |]. intros s' [= <-]. split; [solve_fine | view; rewrite Hr; conjs; auto].
    + eexists. split; [reflexivity |]. intros s' [= <-]. split; [solve_fine | view; rewrite Hr; conjs; auto].
  - destruct (reading s) eqn:Hrd; [|by eexists]. eexists. split; [reflexivity |]. intros s' [= <-]. split; [solve_fine | view; conjs; auto].
  - destruct (writing s) eqn:Hwr; [by eexists |]. rewrite Hw. cbn [orb]. rewrite bool_decide_false by done. unfold WriteChecker_test, writeCheck_test. rewrite Hw.
    cbn [inWrite commandSent asyncTasks set_writeCheckerTask]. rewrite Hiw, Hk. destruct (busy (writer s)) eqn:Hbw; [|destruct (commandSent (mon s)) eqn:Hcs; cbn [negb]];
      (eexists; split; [reflexivity |]; intros s' [= <-]; split; [solve_fine |]; view; rewrite ?Hbw, ?Hk; try rewrite Hcs; cbn; rewrite ?orb_true_r, ?orb_false_r; conjs; auto).
  - destruct (writing s) eqn:Hwr; [|by eexists]. eexists. split; [reflexivity |]. intros s' [= <-]. split; [solve_fine | view; conjs; auto].
  - unfold runner_free. rewrite Hk, Hkf, !andb_false_r. by eexists.
  - destruct (runner_free s writeTask_write) eqn:Hrf; [|by eexists]. unfold runner_free in Hrf. rewrite Hk, Hks in Hrf. cbn [negb andb] in Hrf. apply andb_true_iff in Hrf as [Hkp%negb_true_iff Hww].
    unfold writeTask_take. rewrite Hk, Hww, Hm. eexists. split; [reflexivity |]. intros s' [= <-]. split; [solve_fine | view; rewrite Hk, Hww, orb_true_r; conjs; auto].
  - done.
  - done.
  - done.
Qed.

(** ** Every event keeps the invariants *)
Hypothesis delays : 0 <= G /\ 0 <= dTurn /\ 0 <= dSend /\ 0 <= dReset /\ 0 <= dHandle /\ 0 <= dNet.

Lemma in_time_spec now n : in_time now n = true <->
  now <= wdue n /\
  (if busy (writer (sy n)) then now <= sbeg n + dSend else if pending (sy n) then now <= ktime n + dTurn else True) /\
  (reading (sy n) = true -> now <= lastRun (sy n) + dReset) /\
  (if busy (reader (sy n)) then now <= rtime n + dHandle else match inbox n with t :: _ => now <= Z.max t (rtime n) + dNet | [] => True end).
Proof.
  unfold in_time. rewrite !andb_true_iff, Z.leb_le. destruct (busy (writer (sy n))), (pending (sy n)), (reading (sy n)), (busy (reader (sy n))), (inbox n); rewrite ?Z.leb_le; intuition (auto; discriminate).
Qed.
(** The next command is sent in time. *)
Lemma sends_in_time now snd lc : in_time now snd = true -> sends_again snd lc -> now <= lc + (2 * G + dTurn + dSend).
Proof.
  rewrite in_time_spec. unfold sends_again. intros (H1 & H2 & _) H. destruct (busy (writer (sy snd))); [lia |]. destruct (pending (sy snd)); [lia |].
  destruct (_ && _); lia.
Qed.
Lemma spaced_snoc b now q : forall a z, spaced b a q z -> z <= Z.max now b <= z + (2 * G + dTurn + dSend) -> spaced b a (q ++ [now]) (Z.max now b).
Proof. induction q as [|t q IH]; intros a z Hq Hz; cbn [spaced app] in *; [subst; done |]. destruct Hq as [Hq1 Hq2]. split; [done |]. by eapply IH. Qed.

Lemma no_false_alarm now n p e : fine (sy n) -> in_time now n = true -> in_time now p = true -> direction now p n -> no_alarm now e (sy n).
Proof.
  intros Hf Hn Hp (b & lc & lm & la & (_ & _ & Hs) & [Hq _] & (_ & Hla & _ & Hr & Hc & _)). destruct e; try done. intros Hb Hel. destruct (commandReceived (mon (sy n))); [done |].
  specialize (Hc eq_refl). rewrite Hb in Hr. apply in_time_spec in Hn as (_ & _ & _ & Hn). rewrite Hb in Hn. pose proof (sends_in_time _ _ _ Hp Hs). pose proof (fine_time _ Hf).
  destruct (inbox n) as [|t q]; cbn [spaced] in Hq; lia.
Qed.

Ltac effects He := unfold same_send, same_read in He; decompose [and] He; clear He;
  repeat match goal with
  | H : busy (writer ?s) = _ |- context [busy (writer ?s)] => rewrite H
  | H : busy (reader ?s) = _ |- context [busy (reader ?s)] => rewrite H
  | H : pending ?s = _ |- context [pending ?s] => rewrite H
  | H : reading ?s = _ |- context [reading ?s] => rewrite H
  | H : writing ?s = _ |- context [writing ?s] => rewrite H
  | H : commandSent (mon ?s) = _ |- context [commandSent (mon ?s)] => rewrite H
  | H : commandReceived (mon ?s) = _ |- context [commandReceived (mon ?s)] => rewrite H
  | H : lastRun ?s = _ |- context [lastRun ?s] => rewrite H
  end.
Ltac parts n := destruct n as [? ? ? ? ? ? ?]; cbn [sy wdue sbeg ktime rtime rstart inbox] in *.
Lemma act_in_time now e n s : effect now e (sy n) s -> in_time now n = true -> in_time now (wanted now (pending (sy n)) (clocks now e n s)) = true.
Proof.
  intros He. rewrite !in_time_spec. intros (N1 & N2 & N3 & N4). parts n. unfold wanted, clocks.
  destruct e; cbn [effect] in He; try done; destruct (pending sy0) eqn:Hp0; cbn [sy wdue sbeg ktime rtime rstart inbox]; effects He;
    (split; [try assumption; lia | split; [|split]]); try assumption; try (intros; lia).
  all: try match goal with |- match ?q with _ => _ end => destruct q; [exact I | lia] end. all: try match goal with |- if pending ?z then _ else _ => destruct (pending z); [lia | exact I] end.
  all: try match goal with H : _ \/ _ |- _ => destruct H as [H|[H Hrd]]; [intros _; lia | rewrite Hrd; discriminate] end.
  all: match goal with |- if busy (writer ?z) then _ else if pending ?y then _ else _ => destruct (busy (writer z)); [assumption |]; destruct (pending y); first [assumption | exact I | lia] end.
Qed.
Lemma deliver_in_time now e p : in_time now p = true -> in_time now (deliver now e p) = true.
Proof.
  rewrite !in_time_spec. intros (P1 & P2 & P3 & P4). parts p. destruct e; cbn [deliver sy wdue sbeg ktime rtime rstart inbox]; (split; [done |]; split; [done |]; split; [done |]); try done.
  destruct (busy (reader sy0)); [done |]. destruct inbox0; cbn [app]; [lia | done].
Qed.

(** The side that acts, as the sender. *)
Lemma act_sender now b lc e n s : effect now e (sy n) s -> in_time now n = true -> sender now b lc n ->
  sender now b (match e with Returned _ => Z.max now b | _ => lc end) (wanted now (pending (sy n)) (clocks now e n s)).
Proof.
  intros He Hn (Hc & Hw & Hs). rewrite in_time_spec in Hn. destruct Hn as (N1 & N2 & _). unfold sender, sends_again in *. parts n. unfold wanted, clocks.
  destruct e; cbn [effect] in He; try done; destruct (pending sy0) eqn:Hp0; cbn [sy wdue sbeg ktime rtime rstart inbox]; effects He; (split; [lia |]; split; [lia |]); try assumption.
  all: try (match goal with H : busy (writer ?z) = false |- _ => rewrite H in N2, Hs end; try destruct (_ && _); lia).
  all: try (match goal with |- context [pending ?z] => destruct (pending z), (writing z); cbn [andb negb]; lia end).
  - destruct (busy (writer sy0)); [assumption |]. match goal with H : writing s = true /\ _ |- _ => destruct H as [-> Hp] end. rewrite Hp. cbn [orb]. lia.
  - destruct (busy (writer sy0)); [assumption |]. match goal with H : writing s = true /\ _ |- _ => destruct H as [-> ->] end.
    match goal with H : writing sy0 = false |- _ => rewrite H in Hs end. destruct (commandSent (mon sy0)); cbn [negb andb orb] in *; lia.
  - destruct (busy (writer sy0)); [assumption |]. cbn [andb]. destruct (_ && _); lia.
Qed.
Lemma act_channel now b lm lc e n p : in_time now n = true -> sender now b lc n -> channel now b lm lc (inbox p) ->
  channel now b lm (match e with Returned _ => Z.max now b | _ => lc end) (inbox (deliver now e p)).
Proof.
  intros Hn (Hc & _ & Hs) [Hq Hi]. pose proof (sends_in_time _ _ _ Hn Hs). destruct e; try done. cbn [deliver inbox]. split.
  - eapply spaced_snoc; [exact Hq | lia].
  - apply Forall_app. split; [done |]. repeat constructor. lia.
Qed.
Lemma deliver_keeps now b lc lm la e p : (sender now b lc p -> sender now b lc (deliver now e p)) /\ (receiver now b lm la p -> receiver now b lm la (deliver now e p)).
Proof. parts p. by destruct e. Qed.

(** The side that acts, as the receiver. *)
Lemma act_receiver now b lm lc la e n s : effect now e (sy n) s -> happens now e n -> in_time now n = true -> channel now b lm lc (inbox n) -> receiver now b lm la n ->
  exists lm' la', channel now b lm' lc (inbox (wanted now (pending (sy n)) (clocks now e n s))) /\ receiver now b lm' la' (wanted now (pending (sy n)) (clocks now e n s)).
Proof.
  intros He Hh Hn [Hq Hi] (R1 & R2 & R3 & R4 & R5 & R6 & R7). rewrite in_time_spec in Hn. destruct Hn as (_ & _ & N3 & N4). unfold channel, receiver.
  parts n. unfold wanted, clocks. destruct e as [t c| |?| |?|next|? ?| |?| | | |?| |]; cbn [effect happens] in *; try done.
  1: { destruct inbox0 as [|t0 q]; [by destruct Hh |]. cbn [spaced] in Hq. inversion Hi as [|? ? Ht Hi']; subst. exists (Z.max t0 b), (Z.max now b).
    destruct (pending sy0); cbn [tail sy wdue sbeg ktime rtime rstart inbox]; effects He; (split; [tauto |]); (split; [lia |]; split; [lia |]; split; [lia |]; split; [lia |]; split; [discriminate |]; split; [done | lia]). }
  all: exists lm, la; destruct (pending sy0); cbn [sy wdue sbeg ktime rtime rstart inbox]; effects He; (split; [done |]); (split; [lia |]; split; [lia |]; split; [lia |]).
  all: try (split; [assumption |]; split; [assumption |]; split; [assumption | lia]).
  1, 2: match goal with H : busy (reader ?z) = true |- _ => rewrite H in * end; (split; [lia |]; split; [assumption |]; split; [assumption | lia]).
  1, 2: split; [assumption |]; (split; [intros Hcr; specialize (R5 Hcr); match goal with H : _ \/ _ |- _ => destruct H as [->|[-> _]]; lia end |]; split; [tauto | match goal with H : _ \/ _ |- _ => destruct H as [->|[-> _]]; lia end]).
  all: split; [assumption |]; (split; [intros _; specialize (N3 ltac:(assumption)); specialize (R6 ltac:(assumption)); lia |]; split; [discriminate | lia]).
Qed.

Lemma act_sound now e n p : sound now n p ->
  exists o, act_at now e n p = Ok o /\ forall n' p', o = Some (n', p') -> sound now n' p'.
Proof.
  intros ((Fn & Fp) & (Tn & Tp) & (b1 & lc1 & lm1 & la1 & S1 & C1 & R1) & D2). unfold act_at. case_decide as Hh; [|by eexists].
  pose proof (no_false_alarm now n p e Fn Tn Tp D2) as Hna. destruct (step_fine now e n Fn Hh Hna) as (o & -> & Hs). cbn [rbind]. eexists. split; [reflexivity |].
  intros n' p'. destruct o as [s|]; [|done]. intros [= <- <-]. destruct (Hs s eq_refl) as [Fs He]. destruct D2 as (b2 & lc2 & lm2 & la2 & S2 & C2 & R2).
  destruct (act_receiver now b2 lm2 lc2 la2 e n s He Hh Tn C2 R2) as (lm' & la' & C2' & R2').
  assert (Hsy : sy (wanted now (pending (sy n)) (clocks now e n s)) = s) by (unfold wanted, clocks; destruct (pending (sy n)), e; done).
  assert (Hp : sy (deliver now e p) = sy p) by (by destruct e).
  split; [|split; [|split]].
  - by rewrite Hsy, Hp.
  - split; [by apply act_in_time | by apply deliver_in_time].
  - exists b1, (match e with Returned _ => Z.max now b1 | _ => lc1 end), lm1, la1. split; [by apply act_sender |]. split; [exact (act_channel now b1 lm1 lc1 e n p Tn S1 C1) | by apply (proj2 (deliver_keeps now b1 lc1 lm1 la1 e p))].
  - exists b2, lc2, lm', la'. split; [by apply (proj1 (deliver_keeps now b2 lc2 lm2 la2 e p)) |]. by split.
Qed.
Lemma tick_direction now t n p : now <= t -> direction now n p -> direction t n p.
Proof.
  intros Ht (b & lc & lm & la & (S1 & S2 & S3) & (Q1 & Q2) & (R1 & R2 & R3 & R4 & R5 & R6 & R7)). exists b, lc, lm, la. split; [|split].
  - split; [lia |]. split; [lia | done].
  - split; [done |]. refine (Forall_impl _ _ Q2). cbn. lia.
  - split; [lia |]. split; [lia |]. split; [lia |]. split; [done |]. split; [done |]. split; [|lia]. intros Hr. specialize (R6 Hr). lia.
Qed.
Lemma sound_comm now n p : sound now n p -> sound now p n.
Proof. unfold sound. tauto. Qed.
Lemma acts_sound l : forall w, sound (clock w) (left w) (right w) ->
  exists o, acts w l = Ok o /\ forall w', o = Some w' -> sound (clock w') (left w') (right w').
Proof.
  induction l as [|a l IH]; intros w Hw; cbn [acts]; [eexists; split; [done |]; by intros ? [= <-] |].
  assert (Ha : exists o, act w a = Ok o /\ forall w', o = Some w' -> sound (clock w') (left w') (right w')).
  { destruct a as [t|e|e]; cbn [act].
    - eexists. split; [done |]. intros w'. destruct (_ && _) eqn:E; [|done]. intros [= <-]. rewrite !andb_true_iff, Z.leb_le in E. destruct E as [[Ht Hl] Hr].
      destruct Hw as (F & _ & D1 & D2). cbn. split; [done |]. split; [done |]. split; by eapply tick_direction.
    - destruct (act_sound (clock w) e _ _ Hw) as (o & -> & Ho). cbn [rbind]. eexists. split; [done |]. destruct o as [[n p]|]; [|done]. intros w' [= <-]. by apply Ho.
    - destruct (act_sound (clock w) e _ _ (sound_comm _ _ _ Hw)) as (o & -> & Ho). cbn [rbind]. eexists. split; [done |]. destruct o as [[n p]|]; [|done]. intros w' [= <-].
      apply sound_comm. by apply Ho. }
  destruct Ha as (o & -> & Ho). cbn [rbind]. destruct o as [w1|]; [|by eexists]. apply IH. by apply Ho.
Qed.

(** ** No false alarms *)
(** A side whose monitor has just been started. *)
Record fresh (now : Z) (n : node) : Prop := {
  fresh_fine : fine (sy n);
  fresh_threads : reader (sy n) = None /\ writer (sy n) = None /\ reading (sy n) = false /\ pending (sy n) = false;
  fresh_flags : commandReceived (mon (sy n)) = true /\ inbox n = [];
  fresh_clocks : now <= wdue n /\ rtime n <= now /\ lastRun (sy n) <= now
}.
(** C4. Two sides whose monitors run do not take each other for dead.  Let both be
    started so that the first write check of each is due at most an interval after
    the first read check of the other, and let the delays fit into the time that a
    read check waits.  Then, whatever is sent and however slow the listeners are
    within their bound, at every moment neither side has an alarm or a failure, no
    operation runs into undefined behaviour, and every call of oneway is let
    through to the transport. *)
Theorem keep_alives_prevent_alarm w l : fresh (clock w) (left w) -> fresh (clock w) (right w) ->
  wdue (left w) <= rstart (right w) + G -> wdue (right w) <= rstart (left w) + G ->
  rtime (left w) <= wdue (right w) - G + dHandle -> rtime (right w) <= wdue (left w) - G + dHandle ->
  exists o, acts w l = Ok o /\ forall w', o = Some w' -> Forall (fun n =>
    failed (mon (sy n)) = false /\ (forall k, asyncTasks (mon (sy n)) = Some k -> readTask_failed k = false) /\
    forall now c, exists m, (oneway_enter ;+ oneway_hand now c) (mon (sy n)) = (Ok tt, emit (Sent c) m)) [left w'; right w'].
Proof.
  intros Hl Hr H1 H2 H3 H4. assert (Hd : forall n p, fresh (clock w) n -> fresh (clock w) p -> wdue n <= rstart p + G -> rtime p <= wdue n - G + dHandle -> direction (clock w) n p).
  { intros n p [Fn (A1 & A2 & A3 & A4) [A5 A6] (A7 & A8 & A9)] [Fp (B1 & B2 & B3 & B4) [B5 B6] (B7 & B8 & B9)] Hnp Hrt. exists (wdue n - G), (wdue n - G), (wdue n - G), (wdue n - G).
    split; [|split].
    - split; [lia |]. split; [lia |]. unfold sends_again. rewrite A2, A4. cbn [busy]. destruct (_ && _); lia.
    - rewrite B6. by split.
    - unfold receiver. rewrite B1, B3, B5. cbn [busy]. split; [lia |]. split; [lia |]. split; [lia |]. split; [lia |]. split; [done |]. split; [done | lia]. }
  assert (Ht : forall n, fresh (clock w) n -> in_time (clock w) n = true).
  { intros n [Fn (A1 & A2 & A3 & A4) [A5 A6] (A7 & A8 & A9)]. rewrite in_time_spec, A1, A2, A3, A4, A6. cbn. split; [lia |]. split; [done |]. by split. }
  destruct (acts_sound l w) as (o & E & Ho).
  { split; [split; [apply Hl | apply Hr] |]. split; [split; auto |]. split; auto. }
  exists o. split; [done |]. intros w' ->. specialize (Ho w' eq_refl) as ((Fl & Fr) & _).
  assert (Hn : forall s, fine s -> failed (mon s) = false /\ (forall k, asyncTasks (mon s) = Some k -> readTask_failed k = false) /\ forall now c, exists m, (oneway_enter ;+ oneway_hand now c) (mon s) = (Ok tt, emit (Sent c) m)).
  { intros s [Hm Hf (k & Hk & Hkf & _) _ _ _ _ _ _]. split; [done |]. split; [intros k'; rewrite Hk; by intros [= <-] |].
    intros now c. by apply passed_on. }
  repeat constructor; by apply Hn.
Qed.
End Timed.

(** ** An instance *)
Section Instances.
(** Both sides are silent but for their keep-alives, over two read checks. *)
Definition side : node := mkNode (watched 100000) 110000 0 0 100000 110000 [].
Definition checks (t : Z) : list action := [Tick t; Left (WriteCheck t); Left WriteChecked; Right (WriteCheck t); Right WriteChecked].
Definition reads (t : Z) : list action := [Left (ReadCheck t false); Left ReadChecked; Right (ReadCheck t false); Right ReadChecked].
Definition keep (t : Z) : list action :=
  [Left WriteTurn; Left KeepAlive; Left (HandOn t); Right WriteTurn; Right KeepAlive; Right (HandOn t); Tick (t + 100); Left (Returned (Ok tt)); Right (Returned (Ok tt));
   Tick (t + 1000); Left (OnCommand (t + 1000) (keepAlive (mon (watched 100000)))); Right (OnCommand (t + 1000) (keepAlive (mon (watched 100000)))); Tick (t + 2000); Left Handled; Right Handled].
Definition minute : list action :=
  checks 110000 ++ reads 110000 ++ checks 120000 ++ keep 120000 ++ checks 130000 ++ checks 140000 ++ reads 140000 ++ keep 140000 ++ checks 150000 ++ checks 160000 ++ keep 160000 ++ checks 170000 ++ reads 170000.
Lemma keep_alives_prevent_alarm_witness : exists w', acts 10100 100 100 100 1000 1000 (mkNet 100000 side side) minute = Ok (Some w') /\ clock w' = 170000 /\ failed (mon (sy (left w'))) = false.
Proof.
  assert (Hs : fresh 10100 100 100 100 1000 1000 100000 side).
  { split; [split | ..]; vm_compute; repeat split; (reflexivity || discriminate || (eexists; split; [reflexivity | split; reflexivity]) || (eexists; reflexivity)). }
  destruct (keep_alives_prevent_alarm 10100 100 100 100 1000 1000 ltac:(lia) (mkNet 100000 side side) minute Hs Hs) as (o & E & Ho); [cbn; lia .. |].
  destruct o as [w'|].
  - exists w'. split; [exact E |]. split; [clear - E; vm_compute in E; by simplify_eq |]. pose proof (Ho w' eq_refl) as H. inversion H as [|? ? [H1 _] _]. exact H1.
  - exfalso. vm_compute in E. discriminate E.
Defined.
End Instances.
