(* ===== verification/Negotiator.v ===== *)
(** * The exchange of wire format infos

    activemq/wireformat/openwire/OpenWireFormatNegotiator, the transport filter that
    holds back every command until the peer's WireFormatInfo has arrived.  The calls
    that wait for a latch are threads: a call that sends, and the reader of the
    transport below. *)

From S2P Require Import Prelude DataStreams PrimitiveTypes Commands OpenWire.

Module OpenWireFormatNegotiator.
(** What the negotiator hands on: a command to the next transport, with the wire format
    that marshals it; a command or an exception to its listener; an exception to
    the caller of oneway or request. *)
Inductive output := Sent (c : DataStructure) (w : OpenWireFormat.t) | Delivered (c : DataStructure) | Reported (e : exn) | Refused (c : DataStructure) (e : exn).

(** The latches count from one to zero.  Besides the members: the call of the next
    transport with the own WireFormatInfo, the calls that wait for the wire format,
    and the WireFormatInfo the reader has in hand. *)
Record t := mk {
  closed : bool;
  started : bool;
  listener : bool;
  firstTime : bool;
  wireInfoSentDownLatch : Z;
  readyCountDownLatch : Z;
  openWireFormat : OpenWireFormat.t;
  sending : bool;
  waiting : list DataStructure;
  handling : option WireFormatInfo.t;
  outputs : list output
}.
Definition new (listener : bool) (wireFormat : OpenWireFormat.t) : t := mk false false listener true 1 1 wireFormat false [] None [].

Definition set_closed (v : bool) (s : t) : t := mk v (started s) (listener s) (firstTime s) (wireInfoSentDownLatch s) (readyCountDownLatch s) (openWireFormat s) (sending s) (waiting s) (handling s) (outputs s).
Definition set_started (v : bool) (s : t) : t := mk (closed s) v (listener s) (firstTime s) (wireInfoSentDownLatch s) (readyCountDownLatch s) (openWireFormat s) (sending s) (waiting s) (handling s) (outputs s).
Definition set_firstTime (v : bool) (s : t) : t := mk (closed s) (started s) (listener s) v (wireInfoSentDownLatch s) (readyCountDownLatch s) (openWireFormat s) (sending s) (waiting s) (handling s) (outputs s).
Definition set_wireInfoSent (v : Z) (s : t) : t := mk (closed s) (started s) (listener s) (firstTime s) v (readyCountDownLatch s) (openWireFormat s) (sending s) (waiting s) (handling s) (outputs s).
Definition set_ready (v : Z) (s : t) : t := mk (closed s) (started s) (listener s) (firstTime s) (wireInfoSentDownLatch s) v (openWireFormat s) (sending s) (waiting s) (handling s) (outputs s).
Definition set_openWireFormat (v : OpenWireFormat.t) (s : t) : t := mk (closed s) (started s) (listener s) (firstTime s) (wireInfoSentDownLatch s) (readyCountDownLatch s) v (sending s) (waiting s) (handling s) (outputs s).
Definition set_sending (v : bool) (s : t) : t := mk (closed s) (started s) (listener s) (firstTime s) (wireInfoSentDownLatch s) (readyCountDownLatch s) (openWireFormat s) v (waiting s) (handling s) (outputs s).
Definition set_waiting (v : list DataStructure) (s : t) : t := mk (closed s) (started s) (listener s) (firstTime s) (wireInfoSentDownLatch s) (readyCountDownLatch s) (openWireFormat s) (sending s) v (handling s) (outputs s).
Definition set_handling (v : option WireFormatInfo.t) (s : t) : t := mk (closed s) (started s) (listener s) (firstTime s) (wireInfoSentDownLatch s) (readyCountDownLatch s) (openWireFormat s) (sending s) (waiting s) v (outputs s).
Definition emit (o : output) (s : t) : t := mk (closed s) (started s) (listener s) (firstTime s) (wireInfoSentDownLatch s) (readyCountDownLatch s) (openWireFormat s) (sending s) (waiting s) (handling s) (outputs s ++ [o]).

Definition countDown (latch : Z) : Z := if 0 <? latch then latch - 1 else latch.
Definition ready (s : t) : t := set_ready (countDown (readyCountDownLatch s)) s.
Definition wireInfoSent (s : t) : t := set_wireInfoSent (countDown (wireInfoSentDownLatch s)) s.
Definition passes (s : t) : bool := started s && negb (closed s) && listener s.
Definition filter_onCommand (c : DataStructure) (s : t) : t := if passes s then emit (Delivered c) s else s.
Definition filter_onException (e : exn) (s : t) : t := if passes s then emit (Reported e) s else s.

(** afterNextIsStarted, up to the call of the next transport and after it, whatever it
    did; without a WireFormatInfo of its own the call throws. *)
Definition afterNextIsStarted_enter (s : t) : t :=
  if firstTime s then
    let s := set_firstTime false s in
    match OpenWireFormat.preferedWireFormatInfo (openWireFormat s) with
    | Some i => set_sending true (emit (Sent (DWireFormatInfo i) (openWireFormat s)) s)
    | None => wireInfoSent s
    end
  else s.
Definition afterNextIsStarted_leave (s : t) : t := set_sending false (wireInfoSent s).
Definition afterNextIsStopped (s : t) : t := ready s.
Definition onException (e : exn) (s : t) : t := filter_onException e (ready s).

(** oneway and request, up to the wait for the latch, and when it is over. *)
Definition send_enter (c : DataStructure) (s : t) : t :=
  if closed s then emit (Refused c IOException) s else set_waiting (waiting s ++ [c]) s.
Definition send_leave (k : nat) (c : DataStructure) (awaited : bool) (s : t) : t :=
  let s := set_waiting (delete k (waiting s)) s in
  if awaited then emit (Sent c (openWireFormat s)) s else emit (Refused c IOException) s.

(** onCommand, up to the wait for the own WireFormatInfo to be sent, and when it is
    over.  An exception that leaves onCommand is dropped by the filter below. *)
Definition onCommand_enter (c : DataStructure) (s : t) : result unit * t :=
  match c with
  | DWireFormatInfo info => if WireFormatInfo.isValid info then (Ok tt, set_handling (Some info) s) else (throw IOException, s)
  | _ => (Ok tt, filter_onCommand c s)
  end.
Definition onCommand_leave (info : WireFormatInfo.t) (s : t) : result unit * t :=
  match OpenWireFormat.renegotiateWireFormat (openWireFormat s) info with
  | Ok w => (Ok tt, filter_onCommand (DWireFormatInfo info) (ready (set_openWireFormat w s)))
  | Err (Throw ActiveMQException) => (Ok tt, filter_onCommand (DWireFormatInfo info) (filter_onCommand (DWireFormatInfo info) (ready s)))
  | Err f => (Err f, s)
  end.

(** ** Steps *)
Inductive event :=
| Start
| WireInfoSent
| Send (c : DataStructure)
| Proceed (k : nat)
| Expire (k : nat)
| Receive (c : DataStructure)
| Negotiate (timeout : bool)
| Failure (e : exn)
| Stopped
| Close.

(** [None]: the event cannot happen.  A wait with a timeout may end at any time; it
    succeeds iff the latch is zero. *)
Definition step (s : t) (e : event) : option t :=
  match e with
  | Start => Some (afterNextIsStarted_enter (set_started true s))
  | WireInfoSent => if sending s then Some (afterNextIsStarted_leave s) else None
  | Send c => Some (send_enter c s)
  | Proceed k => if readyCountDownLatch s =? 0 then (fun c => send_leave k c true s) <$> waiting s !! k else None
  | Expire k => if readyCountDownLatch s =? 0 then None else (fun c => send_leave k c false s) <$> waiting s !! k
  | Receive c => match handling s with None => Some (onCommand_enter c s).2 | Some _ => None end
  | Negotiate timeout =>
    match handling s with
    | Some info => if (wireInfoSentDownLatch s =? 0) || timeout then Some (onCommand_leave info (set_handling None s)).2 else None
    | None => None
    end
  | Failure e => Some (onException e s)
  | Stopped => Some (afterNextIsStopped (set_started false s))
  | Close => Some (set_closed true s)
  end.
Fixpoint run (s : t) (l : list event) : option t := match l with [] => Some s | e :: l => match step s e with Some s => run s l | None => None end end.
End OpenWireFormatNegotiator.
Import OpenWireFormatNegotiator.

(** ** Safety *)
(** The events of a connection that works: no wait of the reader times out. *)
Definition works (e : event) : Prop := match e with Negotiate true | Failure _ | Stopped => False | _ => True end.
(** [w] came out of a negotiation with a valid WireFormatInfo out of [infos]. *)
Definition negotiated (infos : list WireFormatInfo.t) (w : OpenWireFormat.t) : Prop :=
  exists w1 info, In info infos /\ WireFormatInfo.isValid info = true /\ OpenWireFormat.renegotiateWireFormat w1 info = Ok w.
(** The WireFormatInfos that are received. *)
Definition received (l : list event) : list WireFormatInfo.t :=
  flat_map (fun e => match e with Receive (DWireFormatInfo i) => [i] | _ => [] end) l.

Record held (w0 : OpenWireFormat.t) (infos : list WireFormatInfo.t) (s : t) : Prop := {
  held_prefered : OpenWireFormat.preferedWireFormatInfo (openWireFormat s) = OpenWireFormat.preferedWireFormatInfo w0;
  held_latch : 0 <= wireInfoSentDownLatch s <= 1 /\ 0 <= readyCountDownLatch s <= 1;
  held_first : (firstTime s || sending s) = true -> wireInfoSentDownLatch s = 1;
  held_once : sending s = true -> firstTime s = false;
  held_format : wireInfoSentDownLatch s = 1 -> openWireFormat s = w0;
  held_ready : readyCountDownLatch s = 0 -> negotiated infos (openWireFormat s);
  held_info : forall i, handling s = Some i -> In i infos /\ WireFormatInfo.isValid i = true;
  held_outputs : Forall (fun o => match o with
    | Sent c w => w = w0 /\ (exists i, OpenWireFormat.preferedWireFormatInfo w0 = Some i /\ c = DWireFormatInfo i) \/ negotiated infos w
    | _ => True end) (outputs s)
}.
Lemma negotiated_more infos infos' w : negotiated infos w -> negotiated (infos ++ infos') w.
Proof. intros (w1 & i & Hi & H). exists w1, i. split; [|done]. apply in_app_iff. by left. Qed.
Lemma held_more w0 infos infos' s : held w0 infos s -> held w0 (infos ++ infos') s.
Proof.
  intros [H1 H2 H3 H3' H4 H5 H6 H7]. split; try done.
  - intros Hr. by apply negotiated_more, H5.
  - intros i Hi. destruct (H6 i Hi). split; [|done]. apply in_app_iff. by left.
  - refine (Forall_impl _ _ H7). intros [c w| | |] Ho; try done. destruct Ho as [Ho|Ho]; [by left | right; by apply negotiated_more].
Qed.

Lemma renegotiate_prefered w info w' : OpenWireFormat.renegotiateWireFormat w info = Ok w' -> OpenWireFormat.preferedWireFormatInfo w' = OpenWireFormat.preferedWireFormatInfo w.
Proof.
  unfold OpenWireFormat.renegotiateWireFormat. destruct (OpenWireFormat.preferedWireFormatInfo w) as [p|] eqn:Hp; [|done].
  destruct (OpenWireFormat.setVersion w _) as [w1|] eqn:E; [|done]. intros [= <-]. apply setVersion_spec in E as (_ & _ & E). by rewrite E.
Qed.
(** The catch clause for ActiveMQException is never reached. *)
Lemma renegotiate_throws w info e : OpenWireFormat.renegotiateWireFormat w info = Err (Throw e) -> e <> ActiveMQException.
Proof. unfold OpenWireFormat.renegotiateWireFormat, OpenWireFormat.setVersion. repeat case_match; simplify_eq/=; by intros [= <-]. Qed.
Lemma leave_result info s : exists w', (onCommand_leave info s).2 = s \/
  OpenWireFormat.renegotiateWireFormat (openWireFormat s) info = Ok w' /\ (onCommand_leave info s).2 = filter_onCommand (DWireFormatInfo info) (ready (set_openWireFormat w' s)).
Proof.
  unfold onCommand_leave. destruct (OpenWireFormat.renegotiateWireFormat (openWireFormat s) info) as [w|[e| |]] eqn:E; [exists w; by right | | exists (openWireFormat s); by left ..].
  pose proof (renegotiate_throws _ _ _ E). exists (openWireFormat s). left. by destruct e.
Qed.
Lemma held_delivered w0 infos c s : held w0 infos s -> held w0 infos (filter_onCommand c s).
Proof. intros H. unfold filter_onCommand. destruct (passes s); [|done]. destruct H. split; try done. cbn. apply Forall_app. split; [done |]. by repeat constructor. Qed.
Lemma countDown_range z : 0 <= z <= 1 -> countDown z = 0.
Proof. unfold countDown. destruct (Z.ltb_spec 0 z); lia. Qed.

Lemma step_held w0 infos s e s' : held w0 infos s -> works e -> step s e = Some s' -> held w0 (infos ++ received [e]) s'.
Proof.
  intros H He Hs. destruct e as [| |c|k|k|c|[]|e| |]; try done; cbn [step received flat_map] in *.
  - apply held_more. injection Hs as <-. destruct H as [H1 [H2 H2'] H3 H3' H4 H5 H6 H7]. unfold afterNextIsStarted_enter. cbn [firstTime set_started].
    destruct (firstTime s) eqn:Hf; [|by split; cbn; rewrite ?Hf]. cbn [orb] in H3. specialize (H3 eq_refl). cbn [openWireFormat set_firstTime set_started].
    destruct (OpenWireFormat.preferedWireFormatInfo (openWireFormat s)) as [i|] eqn:Hp.
    + split; cbn; try done; [congruence |]. apply Forall_app. split; [done |]. constructor; [|constructor]. left. split; [by apply H4 |]. by exists i.
    + assert (Hns : sending s = false) by (destruct (sending s); [|done]; by specialize (H3' eq_refl)).
      split; cbn; rewrite ?(countDown_range _ H2), ?Hns; first [done | congruence | lia].
  - apply held_more. destruct (sending s) eqn:Hse; [|done]. injection Hs as <-. destruct H as [H1 [H2 H2'] H3 H3' H4 H5 H6 H7].
    split; cbn; rewrite ?(countDown_range _ H2), ?(H3' Hse); first [done | congruence | lia].
  - apply held_more. injection Hs as <-. unfold send_enter. destruct (closed s); [|by destruct H; split]. destruct H. split; try done. cbn. apply Forall_app. by repeat constructor.
  - apply held_more. destruct (Z.eqb_spec (readyCountDownLatch s) 0) as [Hr|]; [|done]. destruct (waiting s !! k) as [c|]; [|done]. injection Hs as <-.
    destruct H as [H1 H2 H3 H3' H4 H5 H6 H7]. split; try done. cbn. apply Forall_app. split; [done |]. constructor; [|constructor]. right. by apply H5.
  - apply held_more. destruct (readyCountDownLatch s =? 0); [done |]. destruct (waiting s !! k) as [c|]; [|done]. injection Hs as <-.
    destruct H. split; try done. cbn. apply Forall_app. by repeat constructor.
  - destruct (handling s) eqn:Hh; [done |]. injection Hs as <-. rewrite app_nil_r. unfold onCommand_enter. destruct c; try (rewrite app_nil_r; by apply held_delivered).
    apply held_more with (infos' := [i]) in H. destruct (WireFormatInfo.isValid i) eqn:Hv; [|done]. destruct H. split; try done. cbn. intros j [= <-]. split; [|done]. apply in_app_iff. right. by left.
  - apply held_more. destruct (handling s) as [info|] eqn:Hh; [|done]. rewrite orb_false_r in Hs. destruct (Z.eqb_spec (wireInfoSentDownLatch s) 0) as [Hz|]; [|done]. injection Hs as <-.
    destruct H as [H1 [H2 H2'] H3 H3' H4 H5 H6 H7]. destruct (H6 _ Hh) as [Hin Hv]. destruct (leave_result info (set_handling None s)) as (w' & [->|[E ->]]); [by split|].
    apply held_delivered. cbn [openWireFormat set_handling] in E. split; cbn; rewrite ?(countDown_range _ H2'); try done; [by rewrite (renegotiate_prefered _ _ _ E) | lia |].
    intros _. by exists (openWireFormat s), info.
  - apply held_more. injection Hs as <-. by destruct H.
Qed.
Lemma received_app l1 l2 : received (l1 ++ l2) = received l1 ++ received l2.
Proof. apply flat_map_app. Qed.
Lemma run_held w0 l : forall s infos s', held w0 infos s -> Forall works l -> run s l = Some s' -> held w0 (infos ++ received l) s'.
Proof.
  induction l as [|e l IH]; intros s infos s' H Hl Hr; cbn [run] in Hr; [injection Hr as <-; by rewrite app_nil_r |]. inversion Hl as [|? ? He Hl']; subst.
  destruct (step s e) as [s1|] eqn:E; [|done]. change (e :: l) with ([e] ++ l). rewrite received_app, app_assoc. eapply IH; [by eapply step_held | done | done].
Qed.
Lemma new_held w0 b infos : held w0 infos (new b w0).
Proof. split; cbn; try done; lia. Qed.

(** C6. Nothing gets past the negotiator before the wire format is settled: as long as
    the transport works and its own WireFormatInfo is sent in time, that info is
    all that is handed on in the format the connection starts with, and it is still
    the format while it is being sent; every other command goes out in a format
    that was negotiated with a valid WireFormatInfo received from the peer. *)
Theorem commands_wait_for_format b w0 l s : Forall works l -> run (new b w0) l = Some s ->
  Forall (fun o => match o with
    | Sent c w => w = w0 /\ (exists i, OpenWireFormat.preferedWireFormatInfo w0 = Some i /\ c = DWireFormatInfo i) \/ negotiated (received l) w
    | _ => True end) (outputs s) /\
  (sending s = true -> openWireFormat s = w0) /\ (readyCountDownLatch s = 0 -> negotiated (received l) (openWireFormat s)).
Proof.
  intros Hl Hr. destruct (run_held w0 l (new b w0) [] s (new_held w0 b []) Hl Hr) as [H1 H2 H3 H3' H4 H5 H6 H7].
  split; [done |]. split; [|done]. intros Hs. apply H4, H3. by rewrite Hs, orb_true_r.
Qed.

(** ** The exchange *)
(** With at most one WireFormatInfo received: before it is handled the format is the
    first one, afterwards the one negotiated with it. *)
Definition phase (w0 : OpenWireFormat.t) (infos : list WireFormatInfo.t) (s : t) : Prop :=
  match infos with
  | [] => handling s = None /\ readyCountDownLatch s = 1 /\ openWireFormat s = w0
  | [i] => handling s = Some i /\ readyCountDownLatch s = 1 /\ openWireFormat s = w0 \/
      handling s = None /\ readyCountDownLatch s = 0 /\ OpenWireFormat.renegotiateWireFormat w0 i = Ok (openWireFormat s)
  | _ => True
  end.
Lemma phase_ext w0 infos s s' : handling s' = handling s -> readyCountDownLatch s' = readyCountDownLatch s -> openWireFormat s' = openWireFormat s ->
  phase w0 infos s -> phase w0 infos s'.
Proof. intros H1 H2 H3. unfold phase. by rewrite H1, H2, H3. Qed.
Lemma filter_fields c s : handling (filter_onCommand c s) = handling s /\ readyCountDownLatch (filter_onCommand c s) = readyCountDownLatch s /\ openWireFormat (filter_onCommand c s) = openWireFormat s.
Proof. unfold filter_onCommand. by destruct (passes s). Qed.
Lemma step_phase w0 infos s e s' : (forall i, In i (received [e]) -> WireFormatInfo.isValid i = true) ->
  (forall i, In i infos -> exists w, OpenWireFormat.renegotiateWireFormat w0 i = Ok w) ->
  phase w0 infos s -> works e -> step s e = Some s' -> phase w0 (infos ++ received [e]) s'.
Proof.
  intros Hv Hok Hp He Hs. destruct e as [| |c|k|k|c|[]|e| |]; try done; cbn [step received flat_map] in *; rewrite ?app_nil_r.
  - injection Hs as <-. unfold afterNextIsStarted_enter. repeat case_match; by eapply phase_ext; [..|exact Hp].
  - case_match; [|done]. injection Hs as <-. by eapply phase_ext; [..|exact Hp].
  - injection Hs as <-. unfold send_enter. case_match; by eapply phase_ext; [..|exact Hp].
  - case_match; [|done]. destruct (waiting s !! k); [|done]. injection Hs as <-. by eapply phase_ext; [..|exact Hp].
  - case_match; [done |]. destruct (waiting s !! k); [|done]. injection Hs as <-. by eapply phase_ext; [..|exact Hp].
  - destruct (handling s) eqn:Hh; [done |]. injection Hs as <-. unfold onCommand_enter. destruct (filter_fields c s) as (F1 & F2 & F3).
    destruct c; try (rewrite app_nil_r; by eapply phase_ext; [..|exact Hp]). rewrite (Hv i) by (by left). cbn [app].
    destruct infos as [|j [|? ?]]; cbn [app]; [|done|done]. destruct Hp as (_ & Hr & Hw). left. done.
  - destruct (handling s) as [info|] eqn:Hh; [|done]. rewrite orb_false_r in Hs. case_match; [|done]. injection Hs as <-.
    destruct infos as [|j [|? ?]]; [destruct Hp as (Hh' & _); congruence | | done]. destruct Hp as [(Hh' & Hr & Hw)|(Hh' & _)]; [|congruence].
    rewrite Hh in Hh'. injection Hh' as ->. destruct (Hok j) as [w Ew]; [by left |]. unfold onCommand_leave. cbn [openWireFormat set_handling]. rewrite Hw, Ew. cbn [snd].
    match goal with |- phase _ _ (filter_onCommand ?c ?m) => destruct (filter_fields c m) as (F1 & F2 & F3) end. right. rewrite F1, F2, F3. cbn. by rewrite Hr.
  - injection Hs as <-. by eapply phase_ext; [..|exact Hp].
Qed.
Lemma run_phase w0 l : forall s infos s', (forall i, In i (received l) -> WireFormatInfo.isValid i = true) ->
  (forall i, In i (infos ++ received l) -> exists w, OpenWireFormat.renegotiateWireFormat w0 i = Ok w) ->
  phase w0 infos s -> Forall works l -> run s l = Some s' -> phase w0 (infos ++ received l) s'.
Proof.
  induction l as [|e l IH]; intros s infos s' Hv Hok Hp Hl Hr; cbn [run] in Hr; [injection Hr as <-; by rewrite app_nil_r |]. inversion Hl as [|? ? He Hl']; subst.
  destruct (step s e) as [s1|] eqn:E; [|done]. change (e :: l) with ([e] ++ l) in *. rewrite received_app in *. rewrite app_assoc in *.
  eapply IH; [| exact Hok | eapply step_phase; [| | exact Hp | exact He | exact E] | exact Hl' | exact Hr].
  - intros i Hi. apply Hv, in_app_iff. by right.
  - intros i Hi. apply Hv, in_app_iff. by left.
  - intros i Hi. apply Hok. rewrite <- app_assoc. apply in_app_iff. by left.
Qed.
Lemma renegotiate_ok w info p : OpenWireFormat.preferedWireFormatInfo w = Some p -> WireFormatInfo.version p <= OpenWireFormat.MAX_SUPPORTED_VERSION ->
  exists w', OpenWireFormat.renegotiateWireFormat w info = Ok w'.
Proof.
  intros Hp Hv. unfold OpenWireFormat.renegotiateWireFormat, OpenWireFormat.setVersion. rewrite Hp. destruct (_ =? _); [by eexists |].
  rewrite (proj2 (Z.ltb_ge _ _)) by lia. by eexists.
Qed.
(** One side of the exchange. *)
Lemma exchanged b w p info l s : OpenWireFormat.preferedWireFormatInfo w = Some p -> WireFormatInfo.version p <= OpenWireFormat.MAX_SUPPORTED_VERSION ->
  WireFormatInfo.isValid info = true -> Forall works l -> received l = [info] -> run (new b w) l = Some s -> handling s = None ->
  readyCountDownLatch s = 0 /\ OpenWireFormat.renegotiateWireFormat w info = Ok (openWireFormat s).
Proof.
  intros Hp Hv Hi Hl Hrec Hr Hh. destruct (renegotiate_ok w info p Hp Hv) as [w' E].
  assert (Hph : phase w ([] ++ received l) s).
  { apply (run_phase w l (new b w)); [| | by unfold phase | exact Hl | exact Hr]; rewrite Hrec; intros i [<-|[]]; [done | by exists w']. }
  rewrite Hrec in Hph. destruct Hph as [(Hh' & _)|(_ & H)]; [congruence | done].
Qed.

(** C3. Two peers that exchange their WireFormatInfos agree: whatever else happens on
    the two connections and in whatever order, when each has handled the info of the
    other both use the same options (up to their own preferences, which play no part
    in marshalling), so that each of them reads what the other one writes; the
    version is the lower of the two; and every call that waited goes through. *)
Theorem handshake_agrees a b wa wb pa pb la lb sa sb :
  OpenWireFormat.preferedWireFormatInfo wa = Some pa -> OpenWireFormat.preferedWireFormatInfo wb = Some pb ->
  WireFormatInfo.isValid pa = true -> WireFormatInfo.isValid pb = true ->
  WireFormatInfo.version pa <= OpenWireFormat.MAX_SUPPORTED_VERSION -> WireFormatInfo.version pb <= OpenWireFormat.MAX_SUPPORTED_VERSION ->
  Forall works la -> Forall works lb -> received la = [pb] -> received lb = [pa] ->
  run (new a wa) la = Some sa -> run (new b wb) lb = Some sb -> handling sa = None -> handling sb = None ->
  (forall `{Platform} {St : Type} `{InputStream St} fuel, OpenWireFormat.unmarshal (St := St) (openWireFormat sb) fuel = OpenWireFormat.unmarshal (openWireFormat sa) fuel /\
    OpenWireFormat.marshal (St := St) (openWireFormat sb) fuel = OpenWireFormat.marshal (openWireFormat sa) fuel) /\
  OpenWireFormat.version (openWireFormat sa) = Z.min (WireFormatInfo.version pa) (WireFormatInfo.version pb) /\
  forall k c, waiting sa !! k = Some c -> exists s, step sa (Proceed k) = Some s /\ outputs s = outputs sa ++ [Sent c (openWireFormat sa)].
Proof.
  intros Hpa Hpb Hva Hvb Hma Hmb Hla Hlb Hra Hrb Ha Hb Hha Hhb.
  destruct (exchanged _ _ _ _ _ _ Hpa Hma Hvb Hla Hra Ha Hha) as [Hready Ea]. destruct (exchanged _ _ _ _ _ _ Hpb Hmb Hva Hlb Hrb Hb Hhb) as [_ Eb].
  destruct (negotiation_agrees wa wb pa pb _ _ Hpa Hpb Ea Eb) as (Hsame & Hver & _). split; [|split; [exact Hver |]].
  - intros P St I fuel. split.
    + change (OpenWireFormat.unmarshal (OpenWireFormat.setPreferedWireFormatInfo (openWireFormat sb) None) fuel = OpenWireFormat.unmarshal (OpenWireFormat.setPreferedWireFormatInfo (openWireFormat sa) None) fuel). by rewrite Hsame.
    + change (OpenWireFormat.marshal (OpenWireFormat.setPreferedWireFormatInfo (openWireFormat sb) None) fuel = OpenWireFormat.marshal (OpenWireFormat.setPreferedWireFormatInfo (openWireFormat sa) None) fuel). by rewrite Hsame.
  - intros k c Hk. cbn [step]. rewrite Hready, Hk. cbn. eexists. split; done.
Qed.

(** ** A WireFormatInfo that is not valid *)
(** A WireFormatInfo with the wrong magic leaves no trace: the exception that
    onCommand throws goes to the filter below, which drops it.  Nothing is passed
    on or reported, the format stays, and as long as nothing else arrives every
    call that waits can only run into its timeout. *)
Theorem invalid_magic_dropped s info l s' : WireFormatInfo.isValid info = false -> handling s = None -> readyCountDownLatch s = 1 ->
  Forall (fun e => match e with Receive (DWireFormatInfo i) => i = info | Receive _ | Failure _ | Stopped | Negotiate _ => False | _ => True end) l ->
  run s (Receive (DWireFormatInfo info) :: l) = Some s' ->
  onCommand_enter (DWireFormatInfo info) s = (throw IOException, s) /\ readyCountDownLatch s' = 1 /\ openWireFormat s' = openWireFormat s /\
  forall k, step s' (Proceed k) = None /\ forall c, waiting s' !! k = Some c -> exists s1, step s' (Expire k) = Some s1 /\ outputs s1 = outputs s' ++ [Refused c IOException].
Proof.
  intros Hi Hh Hr Hl H. assert (E : onCommand_enter (DWireFormatInfo info) s = (throw IOException, s)) by (unfold onCommand_enter; by rewrite Hi). split; [done |].
  cbn [run step] in H. rewrite Hh, E in H. cbn [snd] in H.
  assert (Hinv : forall l s s', handling s = None -> readyCountDownLatch s = 1 ->
    Forall (fun e => match e with Receive (DWireFormatInfo i) => i = info | Receive _ | Failure _ | Stopped | Negotiate _ => False | _ => True end) l -> run s l = Some s' ->
    handling s' = None /\ readyCountDownLatch s' = 1 /\ openWireFormat s' = openWireFormat s).
  { clear - Hi. induction l as [|e l IH]; intros s s' Hh Hr Hl H; cbn [run] in H; [by injection H as <- |]. inversion Hl as [|? ? He Hl']; subst. destruct (step s e) as [s1|] eqn:E; [|done].
    assert (H1 : handling s1 = handling s /\ readyCountDownLatch s1 = readyCountDownLatch s /\ openWireFormat s1 = openWireFormat s).
    { destruct e as [| |c|k|k|c| | | |]; try done; cbn [step] in E; rewrite ?Hh, ?Hr in E; cbn in E; try done; try (injection E as <-; done).
      - injection E as <-. unfold afterNextIsStarted_enter. by repeat case_match.
      - case_match; [|done]. by injection E as <-.
      - injection E as <-. unfold send_enter. by case_match.
      - cbn in E. destruct (waiting s !! k); [|done]. by injection E as <-.
      - injection E as <-. destruct c; try done. subst. unfold onCommand_enter. by rewrite Hi. }
    destruct H1 as (H1 & H2 & H3). destruct (IH s1 s') as (H4 & H5 & H6); try congruence. by rewrite H6, H3. }
  destruct (Hinv l s s' Hh Hr Hl H) as (H1 & H2 & H3). split; [done |]. split; [done |]. intros k. cbn [step]. rewrite H2. split; [done |]. intros c Hk. rewrite Hk. cbn. eexists. split; done.
Qed.

(** ** Instances *)
Section Instances.
Definition preference (v : Z) : WireFormatInfo.t :=
  WireFormatInfo.mk BaseCommand.default (str "ActiveMQ") v [] (StlMap.put (str "TightEncodingEnabled") (BOOLEAN_TYPE true) []).
Definition configured (v : Z) : OpenWireFormat.t := OpenWireFormat.setPreferedWireFormatInfo OpenWireFormat.init (Some (preference v)).
Definition command : DataStructure := DKeepAliveInfo KeepAliveInfo.default.
(** The command is sent before the peer's WireFormatInfo arrives. *)
Definition connecting (info : WireFormatInfo.t) : list event := [Start; Send command; Receive (DWireFormatInfo info); WireInfoSent; Negotiate false].

Lemma commands_wait_for_format_witness : exists s, run (new true (configured 11)) (connecting (preference 9) ++ [Proceed 0]) = Some s /\ length (outputs s) = 3%nat /\
  negotiated [preference 9] (openWireFormat s).
Proof.
  destruct (run (new true (configured 11)) (connecting (preference 9) ++ [Proceed 0])) as [s|] eqn:E; [|vm_compute in E; discriminate E].
  destruct (commands_wait_for_format true (configured 11) (connecting (preference 9) ++ [Proceed 0]) s) as (_ & _ & H); [repeat (apply List.Forall_cons; [exact I |]); apply List.Forall_nil | exact E |].
  exists s. split; [reflexivity |]. pose proof E as Es. vm_compute in Es. injection Es as Es. split; [rewrite <- Es; reflexivity |]. apply H. rewrite <- Es. reflexivity.
Defined.

Lemma handshake_agrees_witness : exists sa sb s, run (new true (configured 11)) (connecting (preference 9)) = Some sa /\ run (new true (configured 9)) (connecting (preference 11)) = Some sb /\
  OpenWireFormat.version (openWireFormat sa) = 9 /\ step sa (Proceed 0) = Some s /\ outputs s = outputs sa ++ [Sent command (openWireFormat sa)].
Proof.
  destruct (run (new true (configured 11)) (connecting (preference 9))) as [sa|] eqn:Ea; [|vm_compute in Ea; discriminate Ea].
  destruct (run (new true (configured 9)) (connecting (preference 11))) as [sb|] eqn:Eb; [|vm_compute in Eb; discriminate Eb].
  pose proof Ea as Ca. vm_compute in Ca. injection Ca as Ca. pose proof Eb as Cb. vm_compute in Cb. injection Cb as Cb.
  destruct (handshake_agrees true true (configured 11) (configured 9) (preference 11) (preference 9) (connecting (preference 9)) (connecting (preference 11)) sa sb) as (_ & Hv & Hw);
    [first [reflexivity | exact Ea | exact Eb | rewrite <- Ca; reflexivity | rewrite <- Cb; reflexivity | discriminate | repeat (apply List.Forall_cons; [exact I |]); apply List.Forall_nil] .. |].
  destruct (Hw 0%nat command) as (s & Hs & Ho); [rewrite <- Ca; reflexivity |].
  exists sa, sb, s. split; [reflexivity |]. split; [reflexivity |]. split; [exact Hv |]. split; [exact Hs | exact Ho].
Defined.

Definition strange : WireFormatInfo.t := WireFormatInfo.mk BaseCommand.default (str "ActiveMS") 11 [] [].
Lemma invalid_magic_dropped_witness : exists s s' s1, run (new true (configured 11)) [Start; Send command; WireInfoSent] = Some s /\
  run s (Receive (DWireFormatInfo strange) :: []) = Some s' /\ readyCountDownLatch s' = 1 /\ step s' (Expire 0) = Some s1 /\ outputs s1 = outputs s' ++ [Refused command IOException].
Proof.
  destruct (run (new true (configured 11)) [Start; Send command; WireInfoSent]) as [s|] eqn:E; [|vm_compute in E; discriminate E]. pose proof E as C. vm_compute in C. injection C as C.
  destruct (run s (Receive (DWireFormatInfo strange) :: [])) as [s'|] eqn:E'; [|rewrite <- C in E'; vm_compute in E'; discriminate E']. pose proof E' as C'. rewrite <- C in C'. vm_compute in C'. injection C' as C'.
  destruct (invalid_magic_dropped s strange [] s') as (_ & Hr & _ & Hw); [first [reflexivity | rewrite <- C; reflexivity | apply List.Forall_nil | exact E'] .. |].
  destruct (Hw 0%nat) as [_ Hx]. destruct (Hx command) as (s1 & H1 & H2); [rewrite <- C'; reflexivity |].
  exists s, s', s1. split; [reflexivity |]. split; [exact E' |]. split; [exact Hr |]. split; [exact H1 | exact H2].
Defined.
End Instances.
