(* ===== verification/Heaps.v ===== *)
(** * Binary heaps

    decaf/internal/util/TimerTaskHeap and decaf/util/PriorityQueue share their two
    loops, here over any ordering.  A heap with an element taken out of its middle
    need not be a heap any more. *)

From S2P Require Import Prelude.

(** ** Orderings *)
(** What a comparison must satisfy; equivalent elements may differ. *)
Class StrictWeak {A} (lt : A -> A -> bool) : Prop := {
  lt_asym a b : lt a b = true -> lt b a = false;
  lt_trans a b c : lt b a = false -> lt c b = false -> lt c a = false
}.

Module Heap.
Section Loops.
Context {A : Type} (lt : A -> A -> bool).
Implicit Types h : list A.

Definition swap (i j : nat) h : list A :=
  match h !! i, h !! j with Some x, Some y => <[i := y]> (<[j := x]> h) | _, _ => h end.

(** The loop of upHeap; [fuel]: the position decreases. *)
Fixpoint up (fuel current : nat) h : list A :=
  match fuel with
  | O => h
  | S fuel =>
    let parent := ((current - 1) / 2)%nat in
    match h !! current, h !! parent with
    | Some c, Some p => if negb (current =? 0)%nat && lt c p then up fuel parent (swap current parent h) else h
    | _, _ => h
    end
  end.
Definition upHeap h : list A := up (length h) (length h - 1) h.

(** The child that is compared with its parent. *)
Definition smaller (child : nat) h : nat :=
  match h !! (child + 1)%nat, h !! child with Some r, Some l => if lt r l then (child + 1)%nat else child | _, _ => child end.
(** The loop of downHeap; [fuel]: the position increases. *)
Fixpoint down (fuel current : nat) h : list A :=
  match fuel with
  | O => h
  | S fuel =>
    let child := smaller (2 * current + 1) h in
    match h !! current, h !! child with
    | Some x, Some y => if lt x y then h else down fuel child (swap current child h)
    | _, _ => h
    end
  end.
Definition downHeap (pos : nat) h : list A := down (length h) pos h.

(** [heap.back()] moves to [pos], and the last place goes. *)
Definition replace_by_last (pos : nat) h : list A :=
  match h !! (length h - 1)%nat with Some x => take (length h - 1) (<[pos := x]> h) | None => h end.
Definition remove (pos : nat) h : list A := if (pos <? length h)%nat then downHeap pos (replace_by_last pos h) else h.
Definition insert (x : A) h : list A := upHeap (h ++ [x]).
End Loops.

(** ** The loops restore the order *)
Section Laws.
Context {A : Type} (lt : A -> A -> bool) `{!StrictWeak lt}.
Implicit Types h : list A.

Definition parent (i : nat) : nat := ((i - 1) / 2)%nat.
(** The element at [i] is not smaller than its parent. *)
Definition ok h (i : nat) : Prop := forall x p, (0 < i)%nat -> h !! i = Some x -> h !! parent i = Some p -> lt x p = false.
Definition heap h : Prop := forall i, ok h i.

Lemma parent_lt i : (0 < i)%nat -> (parent i < i)%nat.
Proof. intros. unfold parent. apply Nat.Div0.div_lt_upper_bound. lia. Qed.
Lemma parent_child i : parent (2 * i + 1) = i /\ parent (2 * i + 2) = i.
Proof. unfold parent. split; [replace (2 * i + 1 - 1)%nat with (i * 2)%nat by lia; by apply Nat.div_mul | symmetry; apply (Nat.div_unique _ _ _ 1); lia]. Qed.
Lemma child_parent i j : (0 < j)%nat -> parent j = i -> j = (2 * i + 1)%nat \/ j = (2 * i + 2)%nat.
Proof. unfold parent. intros. pose proof (Nat.div_mod_eq (j - 1) 2). pose proof (Nat.mod_upper_bound (j - 1) 2). lia. Qed.

Lemma swap_lookup i j h x y k : h !! i = Some x -> h !! j = Some y -> i <> j ->
  swap i j h !! k = if decide (k = i) then Some y else if decide (k = j) then Some x else h !! k.
Proof.
  intros Hi Hj Hne. unfold swap. rewrite Hi, Hj. pose proof (lookup_lt_Some _ _ _ Hi). pose proof (lookup_lt_Some _ _ _ Hj).
  destruct (decide (k = i)) as [->|]; [rewrite list_lookup_insert_eq; [done | by rewrite length_insert] |]. rewrite list_lookup_insert_ne by done.
  destruct (decide (k = j)) as [->|]; [by rewrite list_lookup_insert_eq | by rewrite list_lookup_insert_ne].
Qed.
Lemma swap_length i j h : length (swap i j h) = length h.
Proof. unfold swap. repeat case_match; rewrite ?length_insert; done. Qed.
Lemma swap_perm i j h : Permutation (swap i j h) h.
Proof.
  destruct (decide (i = j)) as [->|Hne]; [unfold swap; destruct (h !! j) as [x|] eqn:E; [|done]; by rewrite list_insert_insert_eq, list_insert_id |].
  unfold swap. destruct (h !! i) as [x|] eqn:Ei; [|done]. destruct (h !! j) as [y|] eqn:Ej; [|done]. apply Permutation_inj. split; [by rewrite !length_insert |].
  exists (fun k => if decide (k = i) then j else if decide (k = j) then i else k). split.
  - intros a b. repeat case_decide; congruence.
  - intros k. pose proof (swap_lookup i j h x y k Ei Ej Hne) as Hs. unfold swap in Hs. rewrite Ei, Ej in Hs. rewrite Hs. repeat case_decide; subst; done.
Qed.
Lemma lt_irrefl a : lt a a = false.
Proof. destruct (lt a a) eqn:E; [|done]. pose proof (lt_asym _ _ E). congruence. Qed.

(** Only the element at [cur] may be smaller than its parent. *)
Definition rising cur h : Prop :=
  (forall i, i <> cur -> ok h i) /\ (forall k x g, (0 < cur)%nat -> (0 < k)%nat -> parent k = cur -> h !! k = Some x -> h !! parent cur = Some g -> lt x g = false).
Lemma up_heap fuel : forall cur h, (cur < fuel)%nat -> rising cur h -> heap (up lt fuel cur h).
Proof.
  induction fuel as [|fuel IH]; intros cur h Hf [Hok Hg]; [lia |]. cbn [up]. fold (parent cur).
  destruct (h !! cur) as [c|] eqn:Ec; [|intros i x p Hi Hx Hp; destruct (decide (i = cur)) as [->|Hne]; [congruence | by apply (Hok i Hne x p)]].
  destruct (h !! parent cur) as [p|] eqn:Ep; [|intros i x p Hi Hx Hp; destruct (decide (i = cur)) as [->|Hne]; [congruence | by apply (Hok i Hne x p)]].
  destruct (Nat.eqb_spec cur 0) as [->|Hcur]; cbn [negb andb]; [intros i x q Hi Hx Hp; apply (Hok i ltac:(lia) x q); done |].
  destruct (lt c p) eqn:Hcp; [|intros i x q Hi Hx Hp; destruct (decide (i = cur)) as [->|Hne]; [congruence | by apply (Hok i Hne x q)]].
  pose proof (parent_lt cur ltac:(lia)) as Hpc. apply IH; [lia |]. pose proof (fun k => swap_lookup cur (parent cur) h c p k Ec Ep ltac:(lia)) as Hs. split.
  - intros i Hi x q Hi0 Hx Hq. rewrite Hs in Hx, Hq. pose proof (parent_lt i Hi0). destruct (decide (i = cur)) as [->|Hic].
    + rewrite decide_False, decide_True in Hq by lia. simplify_eq. by apply lt_asym.
    + rewrite (decide_False (P := i = parent cur)) in Hx by done. destruct (decide (parent i = cur)) as [Hpi|Hpi]; [injection Hq as <-; by apply (Hg i x p ltac:(lia) Hi0 Hpi) |].
      destruct (decide (parent i = parent cur)) as [Hpp|]; [|by apply (Hok i Hic x q)]. injection Hq as <-.
      eapply lt_trans; [by apply lt_asym | apply (Hok i Hic x p Hi0 Hx)]. by rewrite Hpp.
  - intros k x g Hp0 Hk Hpk Hx Hgg. rewrite Hs in Hx, Hgg. pose proof (parent_lt (parent cur) Hp0). pose proof (parent_lt k Hk).
    rewrite decide_False, decide_False in Hgg by lia. assert (Hpg : lt p g = false) by by apply (Hok (parent cur) ltac:(lia) p g).
    destruct (decide (k = cur)) as [->|Hkc]; [injection Hx as <-; done |]. rewrite decide_False in Hx by lia.
    eapply lt_trans; [exact Hpg | apply (Hok k Hkc x p Hk Hx)]. by rewrite Hpk.
Qed.
Lemma up_perm fuel : forall cur h, Permutation (up lt fuel cur h) h.
Proof. induction fuel as [|fuel IH]; intros cur h; cbn [up]; [done |]. repeat case_match; try done. rewrite IH. apply swap_perm. Qed.

(** Only the children of [cur] may be smaller than it. *)
Definition sinking cur h : Prop :=
  (forall i, (0 < i)%nat -> parent i <> cur -> ok h i) /\ (forall k x g, (0 < cur)%nat -> (0 < k)%nat -> parent k = cur -> h !! k = Some x -> h !! parent cur = Some g -> lt x g = false).
Lemma smaller_spec cur h y : h !! smaller lt (2 * cur + 1) h = Some y ->
  (smaller lt (2 * cur + 1) h = (2 * cur + 1)%nat \/ smaller lt (2 * cur + 1) h = (2 * cur + 2)%nat) /\
  forall k z, (0 < k)%nat -> parent k = cur -> h !! k = Some z -> lt z y = false.
Proof.
  unfold smaller. replace (2 * cur + 1 + 1)%nat with (2 * cur + 2)%nat by lia. destruct (h !! (2 * cur + 2)%nat) as [r|] eqn:Er.
  - destruct (h !! (2 * cur + 1)%nat) as [l|] eqn:El; [|apply lookup_ge_None in El; apply lookup_lt_Some in Er; lia].
    destruct (lt r l) eqn:Hrl; intros Hy; (split; [auto |]); intros k z Hk Hp Hz; destruct (child_parent cur k Hk Hp) as [->| ->]; simplify_eq; auto using lt_irrefl, lt_asym.
  - intros Hy. split; [by left |]. intros k z Hk Hp Hz. destruct (child_parent cur k Hk Hp) as [->| ->]; simplify_eq. apply lt_irrefl.
Qed.
Lemma down_heap fuel : forall cur h, (length h <= cur + fuel)%nat -> sinking cur h -> heap (down lt fuel cur h).
Proof.
  induction fuel as [|fuel IH]; intros cur h Hf [Hok Hg]; cbn [down].
  - intros i x p Hi Hx Hp. apply (Hok i Hi); try done. intros Epc. apply lookup_lt_Some in Hx. pose proof (parent_lt i Hi). lia.
  - assert (Hleaf : h !! smaller lt (2 * cur + 1) h = None -> heap h).
    { intros Hn i x p Hi Hx Hp. destruct (decide (parent i = cur)) as [Hpi|Hne]; [|by apply (Hok i Hi Hne x p)]. exfalso. apply lookup_ge_None in Hn. apply lookup_lt_Some in Hx.
      assert (length h <= 2 * cur + 1)%nat by (revert Hn; unfold smaller; destruct (h !! (2 * cur + 1 + 1)%nat) eqn:E1; [|done]; destruct (h !! (2 * cur + 1)%nat) eqn:E2; [|done]; case_match; [apply lookup_lt_Some in E1; lia | done]).
      destruct (child_parent cur i Hi Hpi); lia. }
    destruct (h !! smaller lt (2 * cur + 1) h) as [y|] eqn:Ey; [|destruct (h !! cur); by apply Hleaf]. destruct (smaller_spec cur h y Ey) as [Hch Hmin].
    assert (Hcc : parent (smaller lt (2 * cur + 1) h) = cur /\ (cur < smaller lt (2 * cur + 1) h)%nat) by (destruct (parent_child cur), Hch as [->| ->]; split; (done || lia)).
    set (ch := smaller lt (2 * cur + 1) h) in *. destruct Hcc as [Hpch Hlt]. destruct (h !! cur) as [x|] eqn:Ex.
    2: { apply lookup_ge_None in Ex. apply lookup_lt_Some in Ey. lia. }
    destruct (lt x y) eqn:Hxy.
    + intros i z p Hi Hz Hp. destruct (decide (parent i = cur)) as [Hpi|Hne]; [|by apply (Hok i Hi Hne z p)]. rewrite Hpi, Ex in Hp. injection Hp as <-.
      eapply lt_trans; [by apply lt_asym | by apply (Hmin i z)].
    + pose proof (fun k => swap_lookup cur ch h x y k Ex Ey ltac:(lia)) as Hs. apply IH; [rewrite swap_length; lia |]. split.
      * intros i Hi Hpi z p _ Hz Hp. rewrite Hs in Hz, Hp. pose proof (parent_lt i Hi). destruct (decide (i = cur)) as [->|Hic].
        -- rewrite decide_False, decide_False in Hp by (done || lia). injection Hz as <-. by apply (Hg ch y p Hi ltac:(lia) Hpch Ey Hp).
        -- rewrite (decide_False (P := parent i = ch)) in Hp by done. destruct (decide (parent i = cur)) as [Hpi'|Hpi'].
           ++ injection Hp as <-. destruct (decide (i = ch)) as [->|]; [injection Hz as <-; done | by apply (Hmin i z Hi Hpi')].
           ++ destruct (decide (i = ch)) as [->|]; [by destruct Hpi' |]. by apply (Hok i Hi Hpi' z p).
      * intros k z g Hc0 Hk Hpk Hz Hgg. rewrite Hs in Hz, Hgg. rewrite Hpch, decide_True in Hgg by done. injection Hgg as <-. pose proof (parent_lt k Hk).
        rewrite decide_False, decide_False in Hz by lia. apply (Hok k Hk ltac:(lia) z y Hk Hz). by rewrite Hpk.
Qed.
Lemma down_perm fuel : forall cur h, Permutation (down lt fuel cur h) h.
Proof. induction fuel as [|fuel IH]; intros cur h; cbn [down]; [done |]. repeat case_match; try done. rewrite IH. apply swap_perm. Qed.

(** ** Insertion and removal *)
Lemma root_minimal h x : heap h -> h !! 0%nat = Some x -> forall i y, h !! i = Some y -> lt y x = false.
Proof.
  intros Hh Hx i. induction (lt_wf i) as [i _ IH]; intros y Hy. destruct (decide (i = 0%nat)) as [->|Hi]; [simplify_eq; apply lt_irrefl |].
  pose proof (parent_lt i ltac:(lia)) as Hp. destruct (lookup_lt_is_Some_2 h (parent i)) as [p Ep]; [apply lookup_lt_Some in Hy; lia |].
  eapply lt_trans; [exact (IH _ Hp p Ep) | exact (Hh i y p ltac:(lia) Hy Ep)].
Qed.
Lemma heap_nil : heap [].
Proof. by intros i x p _ Hx. Qed.
Lemma insert_heap x h : heap h -> heap (insert lt x h).
Proof.
  intros Hh. unfold insert, upHeap. rewrite length_app. cbn [length]. replace (length h + 1 - 1)%nat with (length h) by lia. apply up_heap; [lia |]. split.
  - intros i Hi y p Hi0 Hy Hp. pose proof (parent_lt i Hi0). assert (i < length h)%nat by (apply lookup_lt_Some in Hy; rewrite length_app in Hy; cbn in Hy; lia).
    rewrite lookup_app_l in Hy, Hp by lia. by apply (Hh i y p).
  - intros k y g _ Hk Hpk Hy. apply lookup_lt_Some in Hy. rewrite length_app in Hy. cbn in Hy. pose proof (parent_lt k Hk). lia.
Qed.
Lemma insert_perm x h : Permutation (insert lt x h) (x :: h).
Proof. unfold insert, upHeap. rewrite up_perm. by rewrite Permutation_app_comm. Qed.

Lemma replace_lookup pos h l i : h !! (length h - 1)%nat = Some l -> (pos < length h)%nat ->
  replace_by_last pos h !! i = if decide (i < length h - 1)%nat then if decide (i = pos) then Some l else h !! i else None.
Proof.
  intros Hl Hp. unfold replace_by_last. rewrite Hl. case_decide as Hi; [|rewrite lookup_take_ge; [done | lia]]. rewrite lookup_take_lt by done.
  case_decide as Hip; [subst; by apply list_lookup_insert_eq | by apply list_lookup_insert_ne].
Qed.
Lemma replace_length pos h : (pos < length h)%nat -> length (replace_by_last pos h) = (length h - 1)%nat.
Proof. intros Hp. unfold replace_by_last. destruct (lookup_lt_is_Some_2 h (length h - 1)) as [l ->]; [lia |]. rewrite length_take, length_insert. lia. Qed.
Lemma replace_perm pos h x : h !! pos = Some x -> Permutation (x :: replace_by_last pos h) h.
Proof.
  intros Hx. pose proof (lookup_lt_Some _ _ _ Hx) as Hp. unfold replace_by_last. destruct (lookup_lt_is_Some_2 h (length h - 1)) as [l Hl]; [lia |]. rewrite Hl.
  destruct (decide (pos = length h - 1)%nat) as [->|Hne].
  - assert (l = x) as -> by congruence. rewrite list_insert_id by done. rewrite <- (take_drop_middle h _ _ Hl) at 3. rewrite drop_ge by lia. apply Permutation_cons_append.
  - rewrite take_insert_lt by lia. assert (Ht : take (length h - 1) h !! pos = Some x) by (rewrite lookup_take_lt; [done | lia]).
    assert (Eh : h = take (length h - 1) h ++ [l]) by (rewrite <- (take_drop_middle h _ _ Hl) at 1; by rewrite drop_ge by lia).
    rewrite Eh at 3. rewrite (insert_take_drop _ pos) by (by eapply lookup_lt_Some). rewrite <- (take_drop_middle _ _ _ Ht) at 3.
    rewrite <- Permutation_cons_append, <- !Permutation_middle. apply perm_swap.
Qed.
Lemma remove_perm pos h x : h !! pos = Some x -> Permutation (x :: remove lt pos h) h.
Proof.
  intros Hx. unfold remove. rewrite (proj2 (Nat.ltb_lt _ _)) by by eapply lookup_lt_Some. unfold downHeap. rewrite down_perm. by apply replace_perm.
Qed.

(** The order is kept when the last element is not smaller than the parent of the place it moves to. *)
Lemma remove_heap pos h : heap h ->
  (forall l p, (0 < pos)%nat -> (pos < length h - 1)%nat -> h !! (length h - 1)%nat = Some l -> h !! parent pos = Some p -> lt l p = false) -> heap (remove lt pos h).
Proof.
  intros Hh Hlast. unfold remove. destruct (Nat.ltb_spec pos (length h)) as [Hp|]; [|done]. destruct (lookup_lt_is_Some_2 h (length h - 1)) as [l Hl]; [lia |].
  pose proof (fun i => replace_lookup pos h l i Hl Hp) as Hr. unfold downHeap. apply down_heap; [lia |]. split.
  - intros i Hi Hpi x p _ Hx Hpx. rewrite Hr in Hx, Hpx. repeat case_decide; simplify_eq; [by apply (Hlast x p Hi) | by apply (Hh i x p)].
  - intros k x g Hp0 Hk Hpk Hx Hg. rewrite Hr in Hx, Hg. pose proof (parent_lt k Hk). pose proof (parent_lt pos Hp0). repeat case_decide; simplify_eq; try lia.
    destruct (lookup_lt_is_Some_2 h (parent k)) as [m Hm]; [lia |]. eapply lt_trans; [exact (Hh _ m g Hp0 Hm Hg) | exact (Hh k x m Hk Hx Hm)].
Qed.
(** And it is lost otherwise: nothing moves the element up. *)
Lemma remove_not_heap pos h l p : heap h -> (0 < pos)%nat -> (pos < length h - 1)%nat -> h !! (length h - 1)%nat = Some l -> h !! parent pos = Some p ->
  lt l p = true -> remove lt pos h = replace_by_last pos h /\ ~ heap (remove lt pos h).
Proof.
  intros Hh Hp0 Hp Hl Hpp Hlt. pose proof (fun i => replace_lookup pos h l i Hl ltac:(lia)) as Hr. pose proof (parent_lt pos Hp0).
  assert (E : remove lt pos h = replace_by_last pos h).
  { unfold remove. rewrite (proj2 (Nat.ltb_lt _ _)) by lia. unfold downHeap. rewrite replace_length by lia. destruct (length h - 1)%nat as [|n]; [lia |]. cbn [down].
    destruct (replace_by_last pos h !! smaller lt (2 * pos + 1) (replace_by_last pos h)) as [y|] eqn:Ey; [|by case_match]. pose proof Ey as Ey'.
    destruct (smaller_spec pos _ y Ey) as [Hch _]. rewrite Hr, decide_True, decide_True by lia.
    assert (Hpc : parent (smaller lt (2 * pos + 1) (replace_by_last pos h)) = pos) by (destruct (parent_child pos), Hch as [->| ->]; done).
    rewrite Hr in Ey'. rewrite (decide_False (P := _ = pos)) in Ey' by (destruct Hch; lia). revert Ey'. case_decide; [|done]. intros Ey'.
    destruct (lookup_lt_is_Some_2 h pos) as [m Hm]; [apply lookup_lt_Some in Hl; lia |].
    assert (Hym : lt y m = false) by (apply (Hh (smaller lt (2 * pos + 1) (replace_by_last pos h)) y m ltac:(destruct Hch; lia) Ey'); by rewrite Hpc).
    assert (Hmp : lt m p = false) by exact (Hh pos m p Hp0 Hm Hpp). destruct (lt l y) eqn:Hly; [done |].
    enough (lt l p = false) by congruence. eapply lt_trans; [eapply lt_trans; [exact Hmp | exact Hym] | exact Hly]. }
  split; [exact E |]. rewrite E. intros Hbad. enough (lt l p = false) by congruence.
  apply (Hbad pos l p Hp0); rewrite Hr; repeat case_decide; (done || lia).
Qed.
End Laws.
End Heap.
