(* ===== verification/Timers.v ===== *)
(** * Timers

    decaf/util/TimerTask.cpp, decaf/internal/util/TimerTaskHeap.cpp and
    decaf/util/Timer.cpp.  A task is an object that its timer and its owner share: the
    heap holds the tasks by reference.  The thread of a timer goes by steps from one
    release of its locks to the next; what other threads do comes in between. *)

From stdpp Require Import gmap.
From S2P Require Import Prelude Heaps.

Module TimerTask.
Record t := mk { fixedRate : bool; cancelled : bool; scheduledTime : Z; when : Z; period : Z }.
Definition new : t := mk false false 0 0 (-1).
Definition cancel (s : t) : bool * t :=
  (negb (cancelled s) && (0 <? when s), mk (fixedRate s) true (scheduledTime s) (when s) (period s)).
Definition scheduledExecutionTime (s : t) : Z := scheduledTime s.
Definition isScheduled (s : t) : bool := (0 <? when s) || (0 <? scheduledTime s).
Definition setScheduledTime (time : Z) (s : t) : t := mk (fixedRate s) (cancelled s) time (when s) (period s).
Definition getWhen (s : t) : Z := when s.
Definition set_when (time : Z) (s : t) : t := mk (fixedRate s) (cancelled s) (scheduledTime s) time (period s).
End TimerTask.

Module TimerTaskHeap.
Section Def.
Context (when : Z -> Z).
Definition before (a b : Z) : bool := when a <? when b.
Definition peek (heap : list Z) : option Z := heap !! 0%nat.
Definition isEmpty (heap : list Z) : bool := match heap with [] => true | _ => false end.
Definition size (heap : list Z) : nat := length heap.
Definition insert (task : Z) (heap : list Z) : list Z := Heap.insert before task heap.
Definition remove (pos : nat) (heap : list Z) : list Z := Heap.remove before pos heap.
Definition reset (heap : list Z) : list Z := [].
Definition adjustMinimum (heap : list Z) : list Z := Heap.downHeap before 0 heap.

(** The loop of deleteIfCancelled; [fuel]: it comes closer to the end of the heap, which
    moves towards it when a task goes. *)
Fixpoint delete_from (cancelled : Z -> bool) (fuel i result : nat) (heap : list Z) : nat * list Z :=
  match fuel with
  | O => (result, heap)
  | S fuel =>
    match heap !! i with
    | None => (result, heap)
    | Some task => if cancelled task then delete_from cancelled fuel i (S result) (remove i heap) else delete_from cancelled fuel (S i) result heap
    end
  end.
Definition deleteIfCancelled (cancelled : Z -> bool) (heap : list Z) : nat * list Z := delete_from cancelled (S (length heap)) 0 0 heap.

(** [None] is the -1, a position past every end. *)
Fixpoint find (task : Z) (heap : list Z) : option nat :=
  match heap with [] => None | x :: heap => if x =? task then Some 0%nat else S <$> find task heap end.
Definition remove_found (pos : option nat) (heap : list Z) : list Z := match pos with Some pos => remove pos heap | None => heap end.
End Def.
End TimerTaskHeap.

Module Timer.
(** Where the thread is: about to take its lock; in wait, until a time or for good; between
    its two looks at a task, the timer still locked; with a task to run; ended; ended by
    an exception that left run. *)
Inductive thread := Looking | Waiting (until : option Z) | Deciding (task currentTime : Z) | Running (task : Z) | Ended | Failed (e : exn).
#[export] Instance thread_eq_dec : EqDecision thread.
Proof. solve_decision. Defined.
(** [runs]: the tasks that were run, each with the time it was scheduled for. *)
Record t := mk { heap : list Z; cancelled : bool; tasks : gmap Z TimerTask.t; state : thread; runs : list (Z * Z) }.
Definition new : t := mk [] false ∅ Looking [].

Definition task (s : t) (id : Z) : TimerTask.t := default TimerTask.new (tasks s !! id).
Definition when_of (s : t) (id : Z) : Z := TimerTask.when (task s id).
Definition set_heap (h : list Z) (s : t) : t := mk h (cancelled s) (tasks s) (state s) (runs s).
Definition set_task (id : Z) (k : TimerTask.t) (s : t) : t := mk (heap s) (cancelled s) (<[id := k]> (tasks s)) (state s) (runs s).
Definition set_state (st : thread) (s : t) : t := mk (heap s) (cancelled s) (tasks s) st (runs s).
Definition notify (s : t) : t := match state s with Waiting _ => set_state Looking s | _ => s end.

(** ** TimerImpl *)
Definition insertTask (id : Z) (s : t) : t := notify (set_heap (TimerTaskHeap.insert (when_of s) id (heap s)) s).
Definition cancel (s : t) : t := notify (mk (TimerTaskHeap.reset (heap s)) true (tasks s) (state s) (runs s)).
Definition purge (s : t) : Z * t :=
  if TimerTaskHeap.isEmpty (heap s) then (0, s)
  else let '(n, h) := TimerTaskHeap.deleteIfCancelled (when_of s) (fun id => TimerTask.cancelled (task s id)) (heap s) in (Z.of_nat n, set_heap h s).

(** run, up to the second look at the task.  [synchronized] is a for loop that is entered
    once: [continue] leaves the innermost synchronized block only, so that a task that
    is found cancelled is removed and then looked at again. *)
Definition look (now : Z) (s : t) : t :=
  if cancelled s then set_state Ended s
  else match TimerTaskHeap.peek (heap s) with
  | None => set_state (Waiting None) s
  | Some id =>
    if TimerTask.cancelled (task s id) then set_state (Deciding id now) (set_heap (TimerTaskHeap.remove (when_of s) 0 (heap s)) s)
    else
      let timeToSleep := when_of s id - now in
      if 0 <? timeToSleep then set_state (Waiting (Some (now + timeToSleep))) s else set_state (Deciding id now) s
  end.
(** Up to the release of the timer; [now] is read again. *)
Definition decide_task (now id : Z) (s : t) : result t :=
  match TimerTaskHeap.peek (heap s) with
  | None => throw NullPointerException
  | Some top =>
    let k := task s id in
    let pos := if negb (when_of s top =? when_of s id) then TimerTaskHeap.find id (heap s) else Some 0%nat in
    if TimerTask.cancelled k then
      Ok (set_state Looking (set_heap (TimerTaskHeap.remove_found (when_of s) (TimerTaskHeap.find id (heap s)) (heap s)) s))
    else
      let k := TimerTask.setScheduledTime (TimerTask.when k) k in
      let s := set_heap (TimerTaskHeap.remove_found (when_of s) pos (heap s)) s in
      if 0 <=? TimerTask.period k then
        let next := if TimerTask.fixedRate k then TimerTask.when k + TimerTask.period k else now + TimerTask.period k in
        if 2 ^ 63 <=? next then Err Undefined
        else Ok (set_state (Running id) (insertTask id (set_task id (TimerTask.set_when next k) s)))
      else Ok (set_state (Running id) (set_task id (TimerTask.set_when 0 k) s))
  end.
Definition run_task (id : Z) (s : t) : t :=
  let s := set_state Looking s in
  if TimerTask.cancelled (task s id) then s
  else mk (heap s) (cancelled s) (tasks s) (state s) (runs s ++ [(id, TimerTask.scheduledExecutionTime (task s id))]).
(** One step of run; the return from wait is one, whatever woke it up. *)
Definition run_step (now : Z) (s : t) : result (option t) :=
  match state s with
  | Looking => Ok (Some (look now s))
  | Waiting _ => Ok (Some (set_state Looking s))
  | Deciding id _ => match decide_task now id s with Ok s => Ok (Some s) | Err (Throw e) => Ok (Some (set_state (Failed e) s)) | Err f => Err f end
  | Running id => Ok (Some (run_task id s))
  | Ended | Failed _ => Ok None
  end.

(** ** Timer; [None] is the NULL pointer *)
Definition scheduleTask (now : Z) (id : option Z) (delay period : Z) (fixed : bool) (s : t) : result t :=
  match id with
  | None => throw NullPointerException
  | Some id =>
    if cancelled s then throw IllegalStateException
    else
      let when := delay + now in
      if 2 ^ 63 <=? when then Err Undefined
      else if when <? 0 then throw IllegalArgumentException
      else
        let k := task s id in
        if TimerTask.isScheduled k then throw IllegalStateException
        else if TimerTask.cancelled k then throw IllegalStateException
        else Ok (insertTask id (set_task id (TimerTask.mk fixed (TimerTask.cancelled k) (TimerTask.scheduledTime k) when period) s))
  end.
Definition schedule (now : Z) (id : option Z) (delay : Z) (s : t) : result t :=
  if delay <? 0 then throw IllegalArgumentException else scheduleTask now id delay (-1) false s.
Definition schedule_date (now : Z) (id : option Z) (when : Z) (s : t) : result t :=
  if when <? 0 then throw IllegalArgumentException
  else let delay := when - now in scheduleTask now id (if delay <? 0 then 0 else delay) (-1) false s.
Definition schedule_repeated (now : Z) (id : option Z) (delay period : Z) (s : t) : result t :=
  if delay <? 0 then throw IllegalArgumentException
  else if period <=? 0 then throw IllegalArgumentException
  else scheduleTask now id delay period false s.
Definition schedule_repeated_date (now : Z) (id : option Z) (when period : Z) (s : t) : result t :=
  if when <? 0 then throw IllegalArgumentException
  else if period <=? 0 then throw IllegalArgumentException
  else let delay := when - now in scheduleTask now id (if delay <? 0 then 0 else delay) period false s.
Definition scheduleAtFixedRate (now : Z) (id : option Z) (delay period : Z) (s : t) : result t :=
  if delay <? 0 then throw IllegalArgumentException
  else if period <=? 0 then throw IllegalArgumentException
  else scheduleTask now id delay period true s.
Definition scheduleAtFixedRate_date (now : Z) (id : option Z) (when period : Z) (s : t) : result t :=
  if when <? 0 then throw IllegalArgumentException
  else if period <=? 0 then throw IllegalArgumentException
  else let delay := when - now in scheduleTask now id (if delay <? 0 then 0 else delay) period true s.
(** awaitTermination, when [alive] tells whether the thread was alive before and after the join. *)
Definition awaitTermination (alive : bool * bool) : bool := if negb (fst alive) then true else snd alive.

(** ** Interleavings *)
Inductive call :=
| Schedule (id : option Z) (delay : Z)
| ScheduleDate (id : option Z) (when : Z)
| ScheduleRepeated (id : option Z) (delay period : Z)
| ScheduleRepeatedDate (id : option Z) (when period : Z)
| ScheduleAtFixedRate (id : option Z) (delay period : Z)
| ScheduleAtFixedRateDate (id : option Z) (when period : Z)
| Cancel
| Purge.
Definition do_call (now : Z) (c : call) (s : t) : result t :=
  match c with
  | Schedule id delay => schedule now id delay s
  | ScheduleDate id when => schedule_date now id when s
  | ScheduleRepeated id delay period => schedule_repeated now id delay period s
  | ScheduleRepeatedDate id when period => schedule_repeated_date now id when period s
  | ScheduleAtFixedRate id delay period => scheduleAtFixedRate now id delay period s
  | ScheduleAtFixedRateDate id when period => scheduleAtFixedRate_date now id when period s
  | Cancel => Ok (cancel s)
  | Purge => Ok (snd (purge s))
  end.
(** A step of the thread, a call on the timer, a call of TimerTask::cancel.  [None]: not
    possible there, as a call while the thread has the lock. *)
Inductive event := Step (now : Z) | Call (now : Z) (c : call) | CancelTask (id : Z).
Definition step (s : t) (e : event) : result (option t) :=
  match e with
  | Step now => run_step now s
  | Call now c =>
    match state s with
    | Deciding _ _ => Ok None
    | _ => match do_call now c s with Ok s => Ok (Some s) | Err (Throw _) => Ok (Some s) | Err f => Err f end
    end
  | CancelTask id => Ok (Some (set_task id (snd (TimerTask.cancel (task s id))) s))
  end.
Fixpoint run (s : t) (l : list event) : result (option t) :=
  match l with
  | [] => Ok (Some s)
  | e :: l => let! o := step s e in match o with Some s => run s l | None => Ok None end
  end.
End Timer.
