(* ===== verification/TimerFacts.v ===== *)
(** * The runs of a timer *)

From S2P Require Import Prelude Heaps Timers TimerLaws Inactivity.
From stdpp Require Import gmap.
Import Timer.
Local Open Scope Z_scope.

(** C9. The thread of a timer that nobody purges takes the task that is due first, not
    before it is due, whatever was scheduled and cancelled in the meantime, and the
    task is told the time it was due. *)
Theorem earliest_first l s id t0 now s' : run new l = Ok (Some s) -> Forall timely l -> state s = Deciding id t0 -> step s (Step now) = Ok (Some s') -> state s' = Running id ->
  when_of s id <= t0 /\ TimerTask.scheduledExecutionTime (task s' id) = when_of s id /\
  forall other, other ∈ heap s -> when_of s id <= when_of s other.
Proof.
  intros H Hl Hs E Hs'. destruct (run_sane l _ _ new_sane Hl H) as [Ho Hr]. unfold resting in Hr. rewrite Hs in Hr.
  cbn [step] in E. unfold run_step in E. rewrite Hs in E. unfold decide_task in E. destruct (TimerTaskHeap.peek (heap s)); [|injection E as <-; done].
  destruct (TimerTask.cancelled (task s id)) eqn:Ec; [injection E as <-; done |]. destruct Hr as [[Hid Ht]|[_ ?]]; [|done].
  split; [exact Ht |]. split; [|exact (first_is_least _ id _ (in_order s Ho) Hid)]. cbn [TimerTask.setScheduledTime TimerTask.period TimerTask.when] in E.
  destruct (0 <=? _); [destruct (2 ^ 63 <=? _); [done |] |]; injection E as <-; unfold TimerTask.scheduledExecutionTime;
    (change (task (set_state ?a ?b) id) with (task b id)); rewrite ?task_insert, task_set, decide_True by done; done.
Qed.

(** The timer does not oversleep: it waits for good only when there is nothing to run, and
    otherwise no longer than until the first task is due. *)
Theorem never_oversleeps l s : run new l = Ok (Some s) -> Forall timely l ->
  match state s with
  | Waiting None => forall id, id ∉ heap s
  | Waiting (Some until) => forall id, id ∈ heap s -> until <= when_of s id
  | _ => True
  end.
Proof.
  intros H Hl. destruct (run_sane l _ _ new_sane Hl H) as [_ Hr]. unfold resting in Hr. destruct (state s) as [|[until|]|id t0|id| |]; try done. intros id. rewrite Hr. by apply not_elem_of_nil.
Qed.

(** ** Tasks at a fixed rate *)
Definition runs_of (id : Z) (s : t) : list Z := omap (fun r => if r.1 =? id then Some r.2 else None) (runs s).

Section FixedRate.
Context (id first period : Z) (Hfirst : 0 < first) (Hperiod : 0 < period).
Definition due (n : nat) : Z := first + Z.of_nat n * period.
(** After [n] runs. *)
Record repeating (s : t) (n : nat) : Prop := {
  keeps_period : TimerTask.period (task s id) = period;
  keeps_rate : TimerTask.fixedRate (task s id) = true;
  stays_scheduled : TimerTask.isScheduled (task s id) = true;
  runs_so_far : runs_of id s = map due (seq 0 n);
  next_run : if decide (state s = Running id) then when_of s id = due (S n) /\ TimerTask.scheduledTime (task s id) = due n
    else TimerTask.cancelled (task s id) = true \/ when_of s id = due n
}.
Lemma due_positive n : 0 < due n. Proof. unfold due. nia. Qed.
Lemma due_S n : due n + period = due (S n). Proof. unfold due. lia. Qed.

Lemma repeating_same s s' n : task s' id = task s id -> runs_of id s' = runs_of id s -> (state s' = Running id <-> state s = Running id) -> repeating s n -> repeating s' n.
Proof.
  intros Ht Hr Hs []. split; unfold runs_of, when_of in *; rewrite ?Ht, ?Hr; try done. by rewrite (decide_ext _ _ _ _ Hs).
Qed.
Lemma repeating_call now c s s' n : repeating s n -> do_call now c s = Ok s' -> repeating s' n.
Proof.
  assert (Hk : forall id' delay p fixed, repeating s n -> scheduleTask now id' delay p fixed s = Ok s' -> repeating s' n).
  { intros id' delay p fixed Hs. unfold scheduleTask. destruct id' as [id'|]; [|done]. repeat (case_match; [done |]). intros [= <-].
    apply (repeating_same s); [| by unfold insertTask, notify; destruct (state _) | |done].
    - rewrite task_insert, task_set, decide_False; [done |]. intros ->. pose proof (stays_scheduled _ _ Hs). congruence.
    - unfold insertTask, notify. cbn. destruct (state s) eqn:E; cbn; rewrite ?E; done. }
  intros Hs. destruct c; cbn [do_call]; unfold schedule, schedule_date, schedule_repeated, schedule_repeated_date, scheduleAtFixedRate, scheduleAtFixedRate_date.
  1-6: repeat (case_match; [done |]); by eapply Hk.
  - intros [= <-]. apply (repeating_same s); [..|done]; unfold cancel, notify; cbn; destruct (state s) eqn:E; cbn; rewrite ?E; done.
  - intros [= <-]. apply (repeating_same s); [..|done]; unfold purge; repeat case_match; done.
Qed.
Lemma repeating_decide now id' t0 s s' n : repeating s n -> state s = Deciding id' t0 -> decide_task now id' s = Ok s' -> repeating s' n.
Proof.
  intros Hs Est. unfold decide_task. destruct (TimerTaskHeap.peek (heap s)); [|done].
  destruct (TimerTask.cancelled (task s id')) eqn:Ec; [intros [= <-]; apply (repeating_same s); [done | done | by cbn; rewrite Est | done] |].
  cbn [TimerTask.setScheduledTime TimerTask.period TimerTask.when TimerTask.fixedRate].
  destruct (decide (id' = id)) as [->|Hne].
  - pose proof Hs as [Hp Hf _ Hr Hn]. rewrite decide_False in Hn by (by rewrite Est). destruct Hn as [?|Hn]; [congruence |].
    unfold when_of in Hn. rewrite Hp, Hf, Hn, (proj2 (Z.leb_le _ _)) by lia. destruct (2 ^ 63 <=? _); [done |]. intros [= <-].
    assert (Ht : forall x, task (set_state (Running id) (insertTask id x)) id = task x id) by (intros x; apply (task_insert x)).
    split; rewrite ?Ht, ?task_set, ?decide_True by done; cbn; try done.
    + unfold TimerTask.isScheduled. cbn. apply orb_true_iff. left. apply Z.ltb_lt. pose proof (due_positive n). lia.
    + unfold insertTask, notify. cbn. rewrite Est. exact Hr.
    + unfold when_of. rewrite Ht, task_set, decide_True by done. cbn. by rewrite due_S.
  - assert (Hgo : forall k s1, task s1 id = task s id -> runs_of id s1 = runs_of id s -> repeating (set_state (Running id') (set_task id' k s1)) n /\ repeating (set_state (Running id') (insertTask id' (set_task id' k s1))) n).
    { intros k s1 Et Er. split; (apply (repeating_same s); [| | cbn; rewrite Est; naive_solver |done]).
      - change (task (set_state ?a ?b) id) with (task b id). rewrite task_set, decide_False; [exact Et | congruence].
      - exact Er.
      - change (task (set_state ?a ?b) id) with (task b id). rewrite task_insert, task_set, decide_False; [exact Et | congruence].
      - rewrite <- Er. unfold runs_of, insertTask, notify. cbn. by destruct (state s1). }
    repeat (case_match; try done); intros [= <-]; by apply Hgo.
Qed.
Lemma repeating_step s e s' n : repeating s n -> step s e = Ok (Some s') -> exists n', repeating s' n'.
Proof.
  intros Hs. destruct e as [now|now c|id']; cbn [step].
  - unfold run_step. destruct (state s) as [|u|id' t0|id'| |e] eqn:Est; [| | | |done|done].
    + intros [= <-]. exists n. apply (repeating_same s); [..|done]; unfold look; repeat case_match; cbn; rewrite ?Est; done.
    + intros [= <-]. exists n. apply (repeating_same s); [done | done | cbn; by rewrite Est | done].
    + destruct (decide_task now id' s) as [s1|[]] eqn:Ed; try done; intros [= <-]; exists n; [by eapply repeating_decide |]. apply (repeating_same s); [done | done | cbn; by rewrite Est | done].
    + intros [= <-]. pose proof Hs as [Hp Hf Hi Hr Hn]. rewrite Est in Hn. unfold run_task. cbv zeta. destruct (decide (id' = id)) as [->|Hne].
      * rewrite decide_True in Hn by done. destruct Hn as [Hw Hd]. destruct (TimerTask.cancelled _) eqn:Ec; [exists n | exists (S n)]; split; try done; cbn [state set_state].
        -- rewrite decide_False by done. by left.
        -- unfold runs_of in *. cbn [runs]. rewrite omap_app. cbn [runs set_state]. rewrite Hr, seq_S, map_app. cbn. by rewrite Z.eqb_refl, <- Hd.
        -- rewrite decide_False by done. by right.
      * exists n. destruct (TimerTask.cancelled (task (set_state Looking s) id')); (apply (repeating_same s); [done | try done | rewrite Est; cbn; split; [done | congruence] | done]).
        unfold runs_of. cbn. rewrite omap_app. cbn. rewrite (proj2 (Z.eqb_neq _ _)) by done. apply app_nil_r.
  - intros H. assert (Hc : forall r : result t, r = do_call now c s -> match r with Ok s1 => Ok (Some s1) | Err (Throw _) => Ok (Some s) | Err f => Err f end = Ok (Some s') -> repeating s' n).
    { intros [s1|[]] Er; intros [= <-]; [by eapply repeating_call | done]. }
    exists n. by destruct (state s); [..|]; try done; eapply Hc.
  - intros [= <-]. exists n. pose proof Hs as [Hp Hf Hi Hr Hn]. destruct (decide (id' = id)) as [->|Hne].
    + split; unfold runs_of, when_of in *; rewrite ?task_set, ?decide_True by done; try done. change (state (set_task ?a ?b s)) with (state s). destruct (decide (state s = Running id)); rewrite ?decide_True by done; [exact Hn | by left].
    + apply (repeating_same s); [|done ..]. by rewrite task_set, decide_False.
Qed.
Lemma repeating_run l : forall s s' n, repeating s n -> run s l = Ok (Some s') -> exists n', repeating s' n'.
Proof.
  induction l as [|e l IH]; intros s s' n Hs; cbn [run]; [intros [= <-]; by exists n |]. destruct (step s e) as [[s1|]|] eqn:E; cbn [rbind]; [|done|done].
  destruct (repeating_step _ _ _ _ Hs E) as [n1 H1]. by apply IH with n1.
Qed.
End FixedRate.

(** C10. A task that is scheduled at a fixed rate runs for the times first, first + period,
    first + 2 * period and so on, none twice and none left out, however late
    the thread is and whatever else is scheduled, cancelled or purged. *)
Theorem fixed_rate_exact now id delay period s s0 l s' : 0 < now -> runs_of id s = [] -> state s <> Running id ->
  scheduleAtFixedRate now (Some id) delay period s = Ok s0 -> run s0 l = Ok (Some s') ->
  exists n, runs_of id s' = map (fun k => delay + now + Z.of_nat k * period) (seq 0 n).
Proof.
  intros Hnow Hr Hs. unfold scheduleAtFixedRate. destruct (Z.ltb_spec delay 0); [done |]. destruct (Z.leb_spec period 0); [done |]. unfold scheduleTask.
  do 5 (case_match; [done |]). intros [= <-] Hrun. eapply (repeating_run id (delay + now) period ltac:(lia) ltac:(lia) l _ s' 0) in Hrun as [n Hn]; [by exists n; apply Hn |].
  split; rewrite ?task_insert, ?task_set, ?decide_True by done; cbn; try done.
  - unfold TimerTask.isScheduled. cbn. apply orb_true_iff. left. apply Z.ltb_lt. lia.
  - rewrite <- Hr. unfold runs_of, insertTask, notify. by destruct (state _).
  - rewrite decide_False; [right; unfold when_of; rewrite task_insert, task_set, decide_True by done; unfold due; cbn; lia |].
    unfold insertTask, notify. cbn. destruct (state s) eqn:E; cbn; rewrite ?E; naive_solver.
Qed.

(** ** Progress *)
Section Progress.
Context (now : Z) (Hnow : 0 < now).
(** What is left to do until everything is later than [now]. *)
Definition weight (s : t) (id : Z) : nat := S (Z.to_nat (now - when_of s id + 1)).
Definition burden (s : t) : nat := sum_list_with (weight s) (heap s).
(** No next run is past the end of time. *)
Definition fits (s : t) : Prop := forall id, id ∈ heap s -> now + TimerTask.period (task s id) < 2 ^ 63.
Record awake (s : t) : Prop := {
  tidy : ordered s;
  looking : state s = Looking;
  alive : cancelled s = false;
  fitting : fits s
}.
Lemma sum_ext (f g : Z -> nat) l : (forall x, x ∈ l -> f x = g x) -> sum_list_with f l = sum_list_with g l.
Proof. intros H. induction l as [|x l IH]; cbn; [done |]. rewrite H by left. f_equal. apply IH. intros y Hy. apply H. by right. Qed.
Lemma head_perm s id : heap s !! 0%nat = Some id -> Permutation (id :: TimerTaskHeap.remove (when_of s) 0 (heap s)) (heap s).
Proof. intros Hid. exact (Heap.remove_perm _ 0 (heap s) id Hid). Qed.
Lemma burden_head s id : heap s !! 0%nat = Some id -> burden s = (weight s id + sum_list_with (weight s) (TimerTaskHeap.remove (when_of s) 0 (heap s)))%nat.
Proof. intros Hid. unfold burden. by rewrite <- (head_perm s id Hid) at 1. Qed.
Lemma elem_remove s id x : heap s !! 0%nat = Some id -> x ∈ TimerTaskHeap.remove (when_of s) 0 (heap s) -> x ∈ heap s.
Proof. intros Hid Hx. rewrite <- (head_perm s id Hid). by right. Qed.

(** One turn of the loop of run, for a task that is cancelled or due. *)
Definition turned (id : Z) (s s1 : t) : Prop :=
  awake s1 /\ (burden s1 < burden s)%nat /\
  (forall x, x ∈ heap s -> x <> id -> x ∈ heap s1 /\ task s1 x = task s x) /\
  (forall x, x ∈ heap s1 -> x ∈ heap s /\ TimerTask.cancelled (task s1 x) = TimerTask.cancelled (task s x)) /\
  exists more, runs s1 = runs s ++ more /\ (TimerTask.cancelled (task s id) = false -> (id, when_of s id) ∈ more).

(** The second look at a cancelled task throws when no other is left. *)
Lemma turn_cancelled s id : awake s -> heap s !! 0%nat = Some id -> TimerTask.cancelled (task s id) = true ->
  exists s1, run s [Step now; Step now] = Ok (Some s1) /\
    (turned id s s1 \/ state s1 = Failed NullPointerException /\ heap s1 = [] /\ runs s1 = runs s /\ heap s = [id]).
Proof.
  intros [Ho Hs Ha Hf] Hid Hc. destruct (ordered_remove s id Ho Hid) as [Hor Hni]. pose proof (burden_head s id Hid) as Hb. pose proof (head_perm s id Hid) as Hp. pose proof (fun x => elem_remove s id x Hid) as Hin.
  set (h := TimerTaskHeap.remove (when_of s) 0 (heap s)) in *.
  cbn [run step]. unfold run_step at 1. rewrite Hs. unfold look, TimerTaskHeap.peek. rewrite Ha, Hid, Hc. fold h. cbn [rbind]. unfold run_step. cbn [state set_state].
  unfold decide_task, TimerTaskHeap.peek. cbn [heap set_state set_heap]. change (task (set_state ?a (set_heap ?b s))) with (task s). rewrite Hc, (find_absent id h) by done.
  destruct (h !! 0%nat) as [top|] eqn:Et; cbn [throw rbind TimerTaskHeap.remove_found]; eexists; (split; [reflexivity |]).
  - left. split_and!.
    + split; [by apply (ordered_fields (set_heap h s)) | done | exact Ha |]. intros x Hx. by apply Hf, Hin.
    + rewrite Hb. change (burden _) with (sum_list_with (weight s) h). unfold weight at 2. lia.
    + intros x Hx Hne. split; [|done]. rewrite <- Hp in Hx. by apply elem_of_cons in Hx as [->|].
    + intros x Hx. split; [by apply Hin | done].
    + exists []. by rewrite app_nil_r, Hc.
  - right. assert (Eh : h = []) by (by destruct h). split_and!; [done | exact Eh | done |]. rewrite Eh in Hp. symmetry in Hp. by apply Permutation_singleton_r in Hp.
Qed.
(** The second look at a task that is due. *)
Lemma decide_due s id : awake s -> heap s !! 0%nat = Some id -> TimerTask.cancelled (task s id) = false -> when_of s id <= now ->
  exists s1 k, decide_task now id (set_state (Deciding id now) s) = Ok s1 /\ ordered s1 /\ state s1 = Running id /\ cancelled s1 = false /\ runs s1 = runs s /\
    (forall x, task s1 x = if decide (x = id) then k else task s x) /\ TimerTask.cancelled k = false /\ TimerTask.scheduledTime k = when_of s id /\ TimerTask.period k = TimerTask.period (task s id) /\
    (heap s1 = TimerTaskHeap.remove (when_of s) 0 (heap s) \/ Permutation (heap s1) (heap s) /\ when_of s id < TimerTask.when k).
Proof.
  intros [Ho Hs Ha Hf] Hid Hc Hw. pose proof (list_elem_of_lookup_2 _ _ _ Hid) as Hin. pose proof (planned s Ho id Hin) as [Hp0 Hpn]. pose proof (Hf id Hin).
  assert (Hd : forall s1, decide_task now id (set_state (Deciding id now) s) = Ok s1 -> ordered s1).
  { intros s1 E. refine (proj1 (decide_sane now id now (set_state (Deciding id now) s) s1 _ eq_refl Hnow E)). split; [by apply ordered_state | by left]. }
  revert Hd. unfold decide_task, TimerTaskHeap.peek. cbn [heap set_state]. rewrite Hid. change (when_of (set_state ?a s)) with (when_of s). change (task (set_state ?a s)) with (task s).
  rewrite Z.eqb_refl, Hc. cbn [negb TimerTaskHeap.remove_found TimerTask.setScheduledTime TimerTask.period TimerTask.when TimerTask.fixedRate].
  destruct (Z.leb_spec 0 (TimerTask.period (task s id))).
  - set (next := if TimerTask.fixedRate (task s id) then _ else _). assert (Hn : when_of s id < next < 2 ^ 63) by (unfold next, when_of in *; case_match; lia).
    rewrite (proj2 (Z.leb_gt _ _)) by lia. intros Hd. eexists _, _. split; [reflexivity |]. split; [by apply Hd |].
    split_and!; [done | exact Ha | done | intros x; exact (eq_trans (task_insert _ id x) (task_set _ id _ x)) | exact Hc | done | done |].
    right. split; [|exact (proj1 Hn)]. unfold insertTask, notify. cbn [state heap set_state set_task set_heap]. unfold TimerTaskHeap.insert. rewrite Heap.insert_perm. by apply head_perm.
  - intros Hd. eexists _, _. split; [reflexivity |]. split; [by apply Hd |].
    split_and!; [done | exact Ha | done | intros x; exact (task_set _ id _ x) | exact Hc | done | done | by left].
Qed.
Lemma turn_due s id : awake s -> heap s !! 0%nat = Some id -> TimerTask.cancelled (task s id) = false -> when_of s id <= now ->
  exists s1, run s [Step now; Step now; Step now] = Ok (Some s1) /\ turned id s s1.
Proof.
  intros Hs Hid Hc Hw. destruct (decide_due s id Hs Hid Hc Hw) as (s1 & k & Ed & Ho1 & Es1 & Ha1 & Er & Ht & Hkc & Hkt & Hkp & Hh). destruct Hs as [Ho Hs Ha Hf].
  cbn [run step]. unfold run_step at 1. rewrite Hs. unfold look, TimerTaskHeap.peek. rewrite Ha, Hid, Hc, (proj2 (Z.ltb_ge _ _)) by lia. cbn [rbind].
  unfold run_step at 1. cbn [state set_state]. rewrite Ed. cbn [rbind]. unfold run_step. rewrite Es1. cbn [rbind]. unfold run_task. change (task (set_state ?a s1)) with (task s1).
  rewrite Ht, decide_True, Hkc by done. eexists. split; [reflexivity |]. unfold TimerTask.scheduledExecutionTime. rewrite Hkt.
  assert (Hw1 : forall x, x <> id -> weight s1 x = weight s x) by (intros x Hx; unfold weight, when_of; by rewrite Ht, decide_False).
  assert (Hin : forall x, x ∈ heap s1 -> x ∈ heap s) by (intros x Hx; destruct Hh as [E|[E _]]; rewrite E in Hx; [by eapply elem_remove | done]).
  destruct (ordered_remove s id Ho Hid) as [_ Hni].
  split_and!; [split; [by apply (ordered_fields s1) | done | exact Ha1 |] | | | |].
  - intros x Hx. change (task _ x) with (task s1 x). rewrite Ht. case_decide; [subst; rewrite Hkp |]; by apply Hf, Hin.
  - rewrite (burden_head s id Hid). change (burden _) with (burden s1). rewrite (sum_ext (weight s) (weight s1)) by (intros x Hx; symmetry; apply Hw1; by intros ->).
    destruct Hh as [E|[E Hlt]]; unfold burden; [rewrite E; unfold weight at 2; lia |].
    rewrite (sum_list_with_Permutation_proper (weight s1) _ _ (Permutation_trans E (Permutation_sym (head_perm s id Hid)))). cbn [sum_list_with].
    enough (weight s1 id < weight s id)%nat by lia. unfold weight, when_of in *. rewrite Ht, decide_True by done. lia.
  - intros x Hx Hne. split; [|refine (eq_trans (Ht x) _); by rewrite decide_False]. cbn [heap set_state].
    destruct Hh as [E|[E _]]; rewrite E; [|done]. rewrite <- (head_perm s id Hid) in Hx. by apply elem_of_cons in Hx as [->|].
  - intros x Hx. split; [by apply Hin |]. refine (eq_trans (f_equal _ (Ht x)) _). case_decide; [subst; congruence | done].
  - cbn. rewrite Er. eexists. split; [reflexivity |]. intros _. by left.
Qed.

Lemma trace_app l1 : forall s l2, run s (l1 ++ l2) = let! o := run s l1 in match o with Some s1 => run s1 l2 | None => Ok None end.
Proof. induction l1 as [|e l1 IH]; intros s l2; cbn [run app]; [done |]. destruct (step s e) as [[s1|]|]; cbn [rbind]; [apply IH | done | done]. Qed.
(** The thread is asleep, and nothing it could run is due; or nothing is left, the last
    task was cancelled, and the thread has ended. *)
Definition rests (s s' : t) : Prop :=
  match state s' with
  | Waiting None => heap s' = []
  | Waiting (Some until) => now < until /\ forall id, id ∈ heap s' -> until <= when_of s' id
  | Failed e => e = NullPointerException /\ heap s' = [] /\ exists id, id ∈ heap s /\ TimerTask.cancelled (task s id) = true
  | _ => False
  end.
Definition caught_up (s : t) : Prop := exists n s', run s (replicate n (Step now)) = Ok (Some s') /\ rests s s' /\
  exists more, runs s' = runs s ++ more /\ forall id, id ∈ heap s -> TimerTask.cancelled (task s id) = false -> when_of s id <= now -> (id, when_of s id) ∈ more.
Lemma turn_on s id k s1 : run s (replicate k (Step now)) = Ok (Some s1) -> turned id s s1 -> caught_up s1 -> caught_up s.
Proof.
  intros E (Hs1 & Hb & Hsame & Hback & more & Er & Hm) (n & s' & E' & Hz & more' & Er' & Hm').
  exists (k + n)%nat, s'. rewrite replicate_add, trace_app, E. split; [exact E' |]. split.
  - unfold rests in *. destruct (state s'); try done. destruct Hz as (-> & -> & x & Hx & Hc). split_and!; [done.. |]. exists x. destruct (Hback x Hx) as [? <-]. done.
  - exists (more ++ more'). rewrite Er', Er, app_assoc. split; [done |]. intros x Hx Hc Hw. apply elem_of_app. destruct (decide (x = id)) as [->|Hne]; [left; auto | right].
    destruct (Hsame x Hx Hne) as [Hx1 Ht]. unfold when_of in *. rewrite <- Ht in *. auto.
Qed.
Lemma catches_up s : awake s -> caught_up s.
Proof.
  remember (burden s) as b eqn:Eb. revert s Eb. induction (lt_wf b) as [b _ IH]. intros s -> Hs.
  pose proof Hs as [Ho Hsl Ha Hf]. destruct (heap s !! 0%nat) as [id|] eqn:Hid.
  - destruct (TimerTask.cancelled (task s id)) eqn:Hc.
    { destruct (turn_cancelled s id Hs Hid Hc) as (s1 & E & [Ht|(Es & Eh & Er & Hh)]); [apply (turn_on s id 2%nat s1); [done | done | by eapply IH; [apply Ht | |apply Ht]] |].
      exists 2%nat, s1. split; [done |]. unfold rests. rewrite Es, Eh, Er. pose proof (list_elem_of_lookup_2 _ _ _ Hid). split; [split_and!; [done | done | by exists id] |].
      exists []. rewrite app_nil_r. split; [done |]. intros x Hx Hcx. rewrite Hh in Hx. apply list_elem_of_singleton in Hx as ->. congruence. }
    destruct (Z.le_gt_cases (when_of s id) now) as [Hw|Hw].
    { destruct (turn_due s id Hs Hid Hc Hw) as (s1 & E & Ht). apply (turn_on s id 3%nat s1); [done | done | by eapply IH; [apply Ht | |apply Ht]]. }
    exists 1%nat, (look now s). cbn [run replicate step]. unfold run_step. rewrite Hsl. split; [done |]. unfold rests, look, TimerTaskHeap.peek. rewrite Ha, Hid, Hc, (proj2 (Z.ltb_lt _ _)) by lia.
    cbn [state set_state heap]. pose proof (first_is_least _ id _ (in_order s Ho) Hid) as Hl. split.
    + split; [lia |]. intros x Hx. specialize (Hl x Hx). change (when_of (set_state ?a s)) with (when_of s). lia.
    + exists []. rewrite app_nil_r. split; [done |]. intros x Hx _ Hwx. specialize (Hl x Hx). lia.
  - exists 1%nat, (look now s). cbn [run replicate step]. unfold run_step. rewrite Hsl. split; [done |]. unfold rests, look, TimerTaskHeap.peek. rewrite Ha, Hid.
    assert (Hn : heap s = []) by (by destruct (heap s)). split; [done |]. exists []. rewrite app_nil_r. split; [done |]. intros x Hx. rewrite Hn in Hx. by apply elem_of_nil in Hx.
Qed.
End Progress.

(** C8. A timer catches up.  A timer that was neither cancelled nor purged and whose
    thread is about to look for a task or waits: when the thread finds the time [now], and
    no time it computes overflows, finitely many of its steps run every task that is due
    and was not cancelled, however many and however late, and end with the thread asleep,
    for good if no task is left or until a later time at which, and not before, the next
    one is due; no task at a fixed rate keeps it from that.  If a cancelled task was on the
    heap and the heap is empty in the end the thread may have ended with the
    NullPointerException of [cancelled_task_ends_thread] instead, every due task run. *)
Theorem timer_catches_up now l s : 0 < now -> run new l = Ok (Some s) -> Forall timely l -> cancelled s = false ->
  match state s with Looking | Waiting _ => True | _ => False end -> (forall id, id ∈ heap s -> now + TimerTask.period (task s id) < 2 ^ 63) ->
  exists n s' more, run s (replicate n (Step now)) = Ok (Some s') /\ runs s' = runs s ++ more /\
    (forall id, id ∈ heap s -> TimerTask.cancelled (task s id) = false -> when_of s id <= now -> (id, when_of s id) ∈ more) /\
    match state s' with
    | Waiting None => heap s' = []
    | Waiting (Some until) => now < until /\ forall id, id ∈ heap s' -> until <= when_of s' id
    | Failed e => e = NullPointerException /\ heap s' = [] /\ exists id, id ∈ heap s /\ TimerTask.cancelled (task s id) = true
    | _ => False
    end.
Proof.
  intros Hnow H Hl Ha Hst Hf. destruct (run_sane l _ _ new_sane Hl H) as [Ho _]. destruct (state s) as [|u|? ?|?| |] eqn:Hs; try done.
  - destruct (catches_up now Hnow s) as (n & s' & E & Hz & more & Er & Hm); [by split |]. by exists n, s', more.
  - destruct (catches_up now Hnow (set_state Looking s)) as (n & s' & E & Hz & more & Er & Hm); [split; [by apply ordered_state | done ..] |].
    exists (S n), s', more. cbn [replicate run step]. unfold run_step. by rewrite Hs.
Qed.

Lemma failed_runs_nothing e l : forall s s', state s = Failed e -> run s l = Ok (Some s') -> state s' = Failed e /\ runs s' = runs s.
Proof.
  assert (Hf : forall s s1, state s = Failed e -> state s1 = state s /\ runs s1 = runs s -> state (notify s1) = Failed e /\ runs (notify s1) = runs s).
  { intros s s1 Hs [E1 E2]. unfold notify. by rewrite E1, Hs, <- Hs. }
  induction l as [|ev l IH]; intros s s' Hs; cbn [run]; [by intros [= <-] |]. destruct (step s ev) as [[s1|]|] eqn:E; cbn [rbind]; [|done|done].
  enough (state s1 = Failed e /\ runs s1 = runs s) as [Hs1 <-] by (by apply IH). clear IH. destruct ev as [now|now c|id]; cbn [step] in E.
  - unfold run_step in E. by rewrite Hs in E.
  - rewrite Hs in E. destruct (do_call now c s) as [s2|[]] eqn:Ec; simplify_eq; [|done].
    assert (Ht : forall id delay p fixed, scheduleTask now id delay p fixed s = Ok s1 -> state s1 = Failed e /\ runs s1 = runs s).
    { intros [id|] delay p fixed; unfold scheduleTask; [|done]. repeat (case_match; [done |]). intros [= <-]. by apply Hf. }
    destruct c; cbn [do_call] in Ec; unfold schedule, schedule_date, schedule_repeated, schedule_repeated_date, scheduleAtFixedRate, scheduleAtFixedRate_date in Ec.
    1-6: repeat (case_match; [done |]); by eapply Ht.
    + injection Ec as <-. by apply Hf.
    + injection Ec as <-. unfold purge. by repeat case_match.
  - by injection E as <-.
Qed.

(** C11. Cancelling the only task of a timer ends the thread of the timer: when it comes to
    that task it removes it and then looks at the first task of the empty heap; what is
    scheduled afterwards is accepted and never runs. *)
Theorem cancelled_task_ends_thread s id now : state s = Looking -> cancelled s = false -> heap s = [id] -> TimerTask.cancelled (task s id) = true ->
  exists s1, run s [Step now; Step now] = Ok (Some s1) /\ state s1 = Failed NullPointerException /\ cancelled s1 = false /\
    forall l s2, run s1 l = Ok (Some s2) -> state s2 = Failed NullPointerException /\ runs s2 = runs s.
Proof.
  intros Hs Ha Hh Hc. cbn [run step]. unfold run_step at 1. rewrite Hs. unfold look, TimerTaskHeap.peek. rewrite Ha, Hh. cbn [lookup list_lookup]. rewrite Hc. cbn [rbind].
  unfold run_step. cbn [state set_state]. eexists. split; [reflexivity |]. split; [done |]. split; [exact Ha |]. intros l s2 H. exact (failed_runs_nothing NullPointerException l (set_state (Failed NullPointerException) _) s2 eq_refl H).
Qed.

(** ** Purging *)
Lemma delete_perm w c fuel : forall i n h, let r := TimerTaskHeap.delete_from w c fuel i n h in
  exists gone, Permutation h (gone ++ snd r) /\ Forall (fun id => c id = true) gone /\ fst r = (n + length gone)%nat.
Proof.
  induction fuel as [|fuel IH]; intros i n h; cbn; [by exists []; rewrite Nat.add_0_r |]. destruct (h !! i) as [id|] eqn:Hid; [|by exists []; rewrite Nat.add_0_r].
  destruct (c id) eqn:Ec; [|apply IH]. destruct (IH i (S n) (TimerTaskHeap.remove w i h)) as (gone & Hp & Hc & Hn). exists (id :: gone). split_and!.
  - exact (Permutation_trans (Permutation_sym (Heap.remove_perm (TimerTaskHeap.before w) i h id Hid)) (perm_skip id Hp)).
  - by constructor.
  - rewrite Hn. cbn. lia.
Qed.
(** Purging takes cancelled tasks only, and tells how many. *)
Lemma purge_spec s : exists gone, Permutation (heap s) (gone ++ heap (snd (purge s))) /\ Forall (fun id => TimerTask.cancelled (task s id) = true) gone /\ fst (purge s) = zlen gone.
Proof.
  unfold purge, TimerTaskHeap.isEmpty, TimerTaskHeap.deleteIfCancelled. destruct (heap s) as [|x h] eqn:Eh; [exists []; cbn; rewrite Eh; by split_and! |].
  destruct (delete_perm (when_of s) (fun id => TimerTask.cancelled (task s id)) (S (length (x :: h))) 0 0 (x :: h)) as (gone & Hp & Hc & Hn).
  exists gone. destruct (TimerTaskHeap.delete_from _ _ _ _ _ _) as [n h']. cbn [fst snd] in *. split_and!; [exact Hp | done |]. rewrite Hn. done.
Qed.

(** Nothing is deleted when nothing is cancelled; what comes before the first cancelled task is passed over. *)
Lemma delete_none w c fuel : forall i n h, (forall x, x ∈ h -> c x = false) -> TimerTaskHeap.delete_from w c fuel i n h = (n, h).
Proof.
  induction fuel as [|fuel IH]; intros i n h Hc; cbn; [done |]. destruct (h !! i) as [x|] eqn:Hx; [|done].
  rewrite (Hc x) by by eapply list_elem_of_lookup_2. by apply IH.
Qed.
Lemma delete_one w c h i id : forall k fuel n, (k <= i)%nat -> (length h < k + fuel)%nat -> h !! i = Some id -> c id = true ->
  (forall j x, (j < i)%nat -> h !! j = Some x -> c x = false) -> (forall x, x ∈ TimerTaskHeap.remove w i h -> c x = false) ->
  TimerTaskHeap.delete_from w c fuel k n h = (S n, TimerTaskHeap.remove w i h).
Proof.
  intros k fuel. revert k. induction fuel as [|fuel IH]; intros k n Hk Hf Hi Hc Hb Ha; [apply lookup_lt_Some in Hi; lia |]. cbn.
  destruct (decide (k = i)) as [->|Hne]; [rewrite Hi, Hc; by apply delete_none |].
  destruct (lookup_lt_is_Some_2 h k) as [x Hx]; [apply lookup_lt_Some in Hi; lia |]. rewrite Hx, (Hb k x) by (done || lia).
  apply IH; (done || lia).
Qed.
Lemma purge_one s i id : NoDup (heap s) -> heap s !! i = Some id ->
  (forall x, x ∈ heap s -> TimerTask.cancelled (task s x) = true <-> x = id) ->
  purge s = (1, set_heap (TimerTaskHeap.remove (when_of s) i (heap s)) s).
Proof.
  intros Hd Hi Hc. unfold purge, TimerTaskHeap.isEmpty, TimerTaskHeap.deleteIfCancelled. destruct (heap s) as [|y h] eqn:Eh; [done |].
  assert (Hp := Heap.remove_perm (TimerTaskHeap.before (when_of s)) i (y :: h) id Hi).
  assert (Hn : forall x, x ∈ y :: h -> x <> id -> TimerTask.cancelled (task s x) = false)
    by (intros x Hx Hne; apply not_true_iff_false; by rewrite (Hc x Hx)).
  rewrite delete_one with (i := i) (id := id); [done | lia | lia | done | | |].
  - apply Hc; [by eapply list_elem_of_lookup_2 | done].
  - intros j x Hj Hx. apply Hn; [by eapply list_elem_of_lookup_2 |]. intros ->. pose proof (NoDup_lookup _ _ _ _ Hd Hx Hi). lia.
  - intros x Hx. rewrite <- Hp in Hd. apply NoDup_cons in Hd as [Hni _]. apply Hn; [|by intros ->].
    rewrite <- Hp. by right.
Qed.

(** C22. A purge does not always keep the heap in order, since the task that takes the
    place of a removed one is only moved down: of a timer that was not purged before and
    has one cancelled task on its heap, purge removes this task and tells so, and leaves
    the heap in order exactly when the task was the first or the last of the heap, or the
    last one is not due before the parent of the place it moves to. *)
Theorem purge_keeps_order l s i id : run new l = Ok (Some s) -> Forall timely l -> heap s !! i = Some id ->
  (forall x, x ∈ heap s -> TimerTask.cancelled (task s x) = true <-> x = id) ->
  fst (purge s) = 1 /\ Permutation (heap s) (id :: heap (snd (purge s))) /\
  (Heap.heap (TimerTaskHeap.before (when_of s)) (heap (snd (purge s))) <->
   i = 0%nat \/ i = (length (heap s) - 1)%nat \/
   forall last parent, heap s !! (length (heap s) - 1)%nat = Some last -> heap s !! Heap.parent i = Some parent ->
     when_of s parent <= when_of s last).
Proof.
  intros H Hl Hi Hc. destruct (run_sane l _ _ new_sane Hl H) as [[Hh Hd _] _].
  rewrite (purge_one s i id Hd Hi Hc). cbn [fst snd heap set_heap]. pose proof (lookup_lt_Some _ _ _ Hi) as Hlt.
  split; [done |]. split; [symmetry; by apply Heap.remove_perm |]. split.
  - intros Ho. destruct (decide (i = 0%nat)) as [|H0]; [by left | right]. destruct (decide (i = length (heap s) - 1)%nat) as [|H1]; [by left | right].
    intros la p Hla Hp. apply Z.nlt_ge. intros Hw.
    eapply (Heap.remove_not_heap (TimerTaskHeap.before (when_of s)) i (heap s) la p Hh ltac:(lia) ltac:(lia) Hla Hp); [|exact Ho]. by apply Z.ltb_lt.
  - intros Hcase. apply (Heap.remove_heap _ i (heap s) Hh). intros la p H0 H1 Hla Hp. destruct Hcase as [?|[?|Hw]]; [lia | lia |].
    apply Z.ltb_ge. by apply Hw.
Qed.

(** A timer whose heap a purge left out of order can sleep past the time a task is due. *)
Theorem purged_timer_oversleeps : exists l s until id, run new l = Ok (Some s) /\ state s = Waiting (Some until) /\ id ∈ heap s /\
  TimerTask.cancelled (task s id) = false /\ when_of s id < until /\ Forall (fun e => timely e \/ e = Call 2 Purge) l.
Proof.
  exists (map (fun i => Call 1 (Schedule (Some i) (100 * i))) [1; 4; 2; 5; 6; 7; 3] ++ [CancelTask 5; Call 2 Purge; Step 101; Step 101; Step 101; Step 201; Step 201; Step 201; Step 202]).
  eexists _, 401, 3. split; [vm_compute; reflexivity |]. split; [reflexivity |]. split; [by apply list_elem_of_In; vm_compute; auto |]. split; [reflexivity |]. split; [by vm_compute |].
  cbn [map app]. repeat (apply Forall_cons; split; [first [by right | left; cbn; (done || lia) | left; split; [lia | done]] |]). by apply Forall_nil.
Qed.

(** ** The timers of the inactivity monitor *)
Definition plans (s : t) : list (Z * Z) := map (fun id => (when_of s id, TimerTask.period (task s id))) (heap s).
Definition serves (s : t) (a : CheckTimer.t) : Prop := cancelled s = CheckTimer.cancelled a /\ Permutation (plans s) (CheckTimer.heap a).
Lemma serves_new : serves new CheckTimer.new.
Proof. done. Qed.
Lemma serves_cancel s a : serves s a -> serves (cancel s) (CheckTimer.cancel a).
Proof. intros _. unfold cancel, notify, serves, plans. cbn. by destruct (state s). Qed.
Lemma serves_schedule now id delay period s a : serves s a -> id ∉ heap s -> TimerTask.isScheduled (task s id) = false -> TimerTask.cancelled (task s id) = false ->
  match scheduleAtFixedRate now (Some id) delay period s, CheckTimer.scheduleAtFixedRate now delay period a with Ok s, Ok a => serves s a | Err e, Err e' => e = e' | _, _ => False end.
Proof.
  intros [Hc Hp] Hid Hs Hk. unfold scheduleAtFixedRate, CheckTimer.scheduleAtFixedRate, scheduleTask. rewrite Hc, Hs, Hk. repeat (case_match; try done); unfold throw in *; simplify_eq; try done.
  split; [unfold insertTask, notify; cbn; by destruct (state s) |]. set (k := TimerTask.mk _ _ _ _ _).
  assert (Hh : Permutation (heap (insertTask id (set_task id k s))) (id :: heap s)).
  { unfold insertTask, notify. cbn [state set_heap set_task heap]. transitivity (TimerTaskHeap.insert (when_of (set_task id k s)) id (heap s)); [by destruct (state s) | apply Heap.insert_perm]. }
  unfold plans. etransitivity; [apply Permutation_map, Hh |]. cbn [map]. unfold when_of. rewrite task_insert, task_set, decide_True by done. cbn. constructor. etransitivity; [|exact Hp].
  unfold plans. erewrite map_ext_in; [reflexivity |]. intros x Hx. cbn. unfold when_of. rewrite task_insert, task_set, decide_False; [done |]. intros ->. by apply Hid, list_elem_of_In.
Qed.

(** ** Witnesses *)
(** A repeated task and one that is due earlier, and what they do until 5150. *)
Definition two_tasks : list event := [Call 1000 (ScheduleAtFixedRate (Some 1) 1000 1500); Step 1000; Call 1001 (Schedule (Some 2) 500)].
Ltac timely_events := repeat (apply Forall_cons; split; [first [done | lia | split; [lia | done]] |]); by apply Forall_nil.
Lemma earliest_first_witness : exists s s', run new (two_tasks ++ [Step 1001; Step 1600; Step 1600]) = Ok (Some s) /\ step s (Step 1600) = Ok (Some s') /\ state s' = Running 2 /\
  when_of s 2 <= 1600 /\ TimerTask.scheduledExecutionTime (task s' 2) = 1501 /\ forall other, other ∈ heap s -> 1501 <= when_of s other.
Proof.
  eexists _, _. split; [vm_compute; reflexivity |]. split; [vm_compute; reflexivity |]. split; [reflexivity |].
  edestruct earliest_first with (l := two_tasks ++ [Step 1001; Step 1600; Step 1600]) (now := 1600) (id := 2) as (A & B & C); [vm_compute; reflexivity | timely_events | reflexivity | vm_compute; reflexivity | reflexivity |].
  exact (conj A (conj B C)).
Defined.
Lemma never_oversleeps_witness : exists s, run new (two_tasks ++ [Step 1001]) = Ok (Some s) /\ state s = Waiting (Some 1501) /\ forall id, id ∈ heap s -> 1501 <= when_of s id.
Proof.
  eexists. split; [vm_compute; reflexivity |]. split; [reflexivity |].
  exact (never_oversleeps (two_tasks ++ [Step 1001]) _ eq_refl ltac:(timely_events)).
Defined.
Lemma timer_catches_up_witness : exists s, run new two_tasks = Ok (Some s) /\ exists n s' more, run s (replicate n (Step 5150)) = Ok (Some s') /\ runs s' = runs s ++ more /\
  (1, 2000) ∈ more /\ (2, 1501) ∈ more /\ match state s' with Waiting None => heap s' = [] | Waiting (Some until) => 5150 < until /\ forall id, id ∈ heap s' -> until <= when_of s' id | _ => False end.
Proof.
  eexists. split; [vm_compute; reflexivity |].
  edestruct (timer_catches_up 5150 two_tasks) as (n & s' & more & E & Er & Hm & Hz); [lia | vm_compute; reflexivity | timely_events | done | done | |].
  - intros id Hid. by repeat (apply elem_of_cons in Hid as [->|Hid]; [vm_compute; reflexivity |]); apply elem_of_nil in Hid.
  - exists n, s', more. split; [exact E |]. split; [exact Er |]. split; [|split; [|destruct (state s'); try exact Hz; destruct Hz as (_ & _ & id & Hid & Hc); by repeat (apply elem_of_cons in Hid as [->|Hid]; [vm_compute in Hc; done |]); apply elem_of_nil in Hid]]; [apply (Hm 1) | apply (Hm 2)]; first [reflexivity | apply list_elem_of_In; vm_compute; auto; fail | vm_compute; discriminate].
Defined.
Lemma fixed_rate_exact_witness : exists s0 s', scheduleAtFixedRate 1000 (Some 1) 1000 1500 new = Ok s0 /\
  run s0 ([Step 1000; Call 1001 (Schedule (Some 2) 500)] ++ replicate 20 (Step 5150)) = Ok (Some s') /\ runs_of 1 s' = [2000; 3500; 5000] /\ exists n, runs_of 1 s' = map (fun k => 1000 + 1000 + Z.of_nat k * 1500) (seq 0 n).
Proof.
  eexists _, _. split; [vm_compute; reflexivity |]. split; [vm_compute; reflexivity |]. split; [reflexivity |].
  edestruct fixed_rate_exact with (now := 1000) (id := 1) (delay := 1000) (period := 1500) (s := new) (l := [Step 1000; Call 1001 (Schedule (Some 2) 500)] ++ replicate 20 (Step 5150)) as [n Hn];
    [lia | reflexivity | done | vm_compute; reflexivity | vm_compute; reflexivity |]. exists n. exact Hn.
Defined.
Lemma cancelled_task_ends_thread_witness : exists s s1, run new [Call 1000 (Schedule (Some 1) 500); CancelTask 1] = Ok (Some s) /\ run s [Step 1600; Step 1600] = Ok (Some s1) /\
  state s1 = Failed NullPointerException /\ forall l s2, run s1 ([Call 1700 (Schedule (Some 2) 300)] ++ l) = Ok (Some s2) -> state s2 = Failed NullPointerException /\ runs s2 = [].
Proof.
  eexists. edestruct cancelled_task_ends_thread as (s1 & E & Es & _ & H); [.. | exists s1; split; [vm_compute; reflexivity |]; split; [exact E |]; split; [exact Es |]; intros l s2; apply H]; reflexivity.
Defined.
(** Task 5 is the fourth of seven, and the seventh is due before the second. *)
Definition seven_tasks : list event := map (fun i => Call 1 (Schedule (Some i) (100 * i))) [1; 4; 2; 5; 6; 7; 3] ++ [CancelTask 5].
Lemma purge_keeps_order_witness : exists s, run new seven_tasks = Ok (Some s) /\ fst (purge s) = 1 /\
  ~ Heap.heap (TimerTaskHeap.before (when_of s)) (heap (snd (purge s))).
Proof.
  eexists. split; [vm_compute; reflexivity |].
  edestruct (purge_keeps_order seven_tasks) with (i := 3%nat) (id := 5) as (Hn & _ & Ho); [vm_compute; reflexivity | timely_events | reflexivity | |].
  - intros x Hx. by repeat (apply elem_of_cons in Hx as [->|Hx]; [vm_compute; split; (done || discriminate) |]); apply elem_of_nil in Hx.
  - split; [exact Hn |]. intros H. apply Ho in H as [H|[H|H]]; [discriminate | vm_compute in H; discriminate |].
    specialize (H 3 4 eq_refl eq_refl). by vm_compute in H.
Defined.
