(* ===== verification/PriorityQueues.v ===== *)
(** * Priority queues

    decaf/util/PriorityQueue.h with what it has from AbstractQueue.h: a binary heap in
    the front of an array that grows.  [elements] is the array, its length the capacity,
    and [e0] the value of the default constructor of the elements. *)

From S2P Require Import Prelude Heaps.
Local Open Scope Z_scope.

(** decaf/util/comparators/Less.h *)
Module Less.
Definition compare (o1 o2 : Z) : Z := if o1 >? o2 then 1 else if o1 <? o2 then -1 else 0.
End Less.

Module PriorityQueue.
Section Def.
Context {E : Type} (e0 : E) (less : E -> E -> Z).

Definition DEFAULT_CAPACITY : Z := 11.
Definition DEFAULT_CAPACITY_RATIO : nat := 2.
Record t := mk { _size : nat; elements : list E; _comparator : E -> E -> Z }.
Definition capacity (q : t) : nat := length (elements q).
Definition size (q : t) : Z := Z.of_nat (_size q).
Definition isEmpty (q : t) : bool := (_size q =? 0)%nat.
Definition set_elements (a : list E) (q : t) : t := mk (_size q) a (_comparator q).
Definition lt (q : t) (a b : E) : bool := _comparator q a b <? 0.

(** Reading and writing the array past its end is [Undefined]. *)
Definition read (i : nat) (q : t) : result E := match elements q !! i with Some x => Ok x | None => Err Undefined end.
Definition write (i : nat) (x : E) (q : t) : result t := if (i <? capacity q)%nat then Ok (set_elements (<[i := x]> (elements q)) q) else Err Undefined.

Definition initQueue (initialSize : Z) (comparator : E -> E -> Z) : result t :=
  if initialSize <? 0 then Err Undefined else Ok (mk 0 (replicate (Z.to_nat initialSize) e0) comparator).
Definition new : result t := initQueue DEFAULT_CAPACITY less.
Definition new_capacity (initialCapacity : Z) : result t := initQueue initialCapacity less.
(** [None] is the NULL comparator. *)
Definition new_comparator (initialCapacity : Z) (comparator : option (E -> E -> Z)) : result t :=
  match comparator with None => throw NullPointerException | Some c => initQueue initialCapacity c end.

(** ** The heap *)
Definition upHeap (q : t) : t := set_elements (Heap.up (lt q) (_size q) (_size q - 1) (elements q)) q.
(** The loop of downHeap; [fuel]: the position grows. *)
Fixpoint down (before : E -> E -> bool) (size fuel current : nat) (a : list E) : list E :=
  match fuel with
  | O => a
  | S fuel =>
    let child := (2 * current + 1)%nat in
    if (child <? size)%nat then
      let child := match a !! (child + 1)%nat, a !! child with
        | Some r, Some l => if (child + 1 <? size)%nat && before r l then (child + 1)%nat else child
        | _, _ => child
        end in
      match a !! current, a !! child with
      | Some x, Some y => if before x y then a else down before size fuel child (Heap.swap current child a)
      | _, _ => a
      end
    else a
  end.
Definition downHeap (pos : nat) (q : t) : t := set_elements (down (lt q) (_size q) (_size q) pos (elements q)) q.

Definition increaseCapacity (n : nat) (q : t) : t :=
  if (capacity q <? n)%nat then set_elements (elements q ++ replicate (n * DEFAULT_CAPACITY_RATIO - capacity q) e0) q else q.
Definition removeAt (index : nat) (q : t) : result t :=
  match _size q with
  | O => Err Undefined
  | S n =>
    let q := mk n (elements q) (_comparator q) in
    let! last := read n q in
    let! q := write index last q in
    write n e0 (downHeap index q)
  end.

(** ** Queue *)
Definition clear (q : t) : t := mk 0 (replicate (Z.to_nat DEFAULT_CAPACITY) e0) (_comparator q).
Definition offer (value : E) (q : t) : result t :=
  let q := increaseCapacity (_size q + 1) q in
  let! q := write (_size q) value q in
  Ok (upHeap (mk (_size q + 1) (elements q) (_comparator q))).
(** The value cannot be refused, so that no exception is converted. *)
Definition add (value : E) (q : t) : result t := offer value q.
Definition poll (q : t) : result (option E * t) :=
  if isEmpty q then Ok (None, q)
  else let! result := read 0 q in let! q := removeAt 0 q in Ok (Some result, q).
Definition peek (q : t) : result (option E) := if isEmpty q then Ok None else let! result := read 0 q in Ok (Some result).
Definition remove (q : t) : result (E * t) :=
  if isEmpty q then throw NoSuchElementException
  else let! result := read 0 q in let! q := removeAt 0 q in Ok (result, q).
Definition element (q : t) : result E := let! r := peek q in match r with Some x => Ok x | None => throw NoSuchElementException end.
(** The place of the first element that compares equal. *)
Fixpoint target (value : E) (comparator : E -> E -> Z) (a : list E) : nat :=
  match a with [] => 0%nat | x :: a => if 0 =? comparator value x then 0%nat else S (target value comparator a) end.
Definition remove_value (value : E) (q : t) : result (bool * t) :=
  let targetIndex := target value (_comparator q) (take (_size q) (elements q)) in
  if (_size q =? 0)%nat || (_size q =? targetIndex)%nat then Ok (false, q)
  else let! q := removeAt targetIndex q in Ok (true, q).
Definition comparator (q : t) : E -> E -> Z := _comparator q.

(** ** Copies

    The source is a function of the queue, as it can be the queue itself. *)
(** Math::ceil of the product of [size] and 1.1 as doubles: 1.1 is 4953959590107546 / 2^52,
    and the product is rounded to 53 bits, halves to even. *)
Definition ceil_1_1 (size : Z) : Z :=
  let p := size * 4953959590107546 in
  let k := Z.max 0 (Z.log2 p - 52) in
  let m := p / 2 ^ k in
  let r := p mod 2 ^ k in
  let m := if (2 ^ k <? 2 * r) || ((2 * r =? 2 ^ k) && Z.odd m) then m + 1 else m in
  - ((- (m * 2 ^ k)) / 2 ^ 52).
Definition initCapacity (size_of_c : t -> Z) (q : t) : t :=
  let q := mk 0 [] (_comparator q) in
  if size_of_c q =? 0 then mk 0 (replicate 1 e0) (_comparator q)
  else mk 0 (replicate (Z.to_nat (ceil_1_1 (size_of_c q))) e0) (_comparator q).
Fixpoint copy_elements (n ix : nat) (c : t -> t) (q : t) : result t :=
  match n with
  | O => Ok q
  | S n => let! x := read ix (c q) in let! q := write ix x q in copy_elements n (S ix) c q
  end.
Definition getFromPriorityQueue (c : t -> t) (q : t) : result t :=
  let q := initCapacity (fun q => size (c q)) q in
  let q := mk (_size q) (elements q) (comparator (c q)) in
  let! q := copy_elements (_size (c q)) 0 c q in
  Ok (mk (_size (c q)) (elements q) (_comparator q)).
Fixpoint offer_all (l : list E) (q : t) : result t :=
  match l with [] => Ok q | x :: l => let! q := offer x q in offer_all l q end.
(** [c]: what the iterator of the collection yields. *)
Definition getFromCollection (c : t -> list E) (q : t) : result t :=
  let q := initCapacity (fun q => zlen (c q)) q in
  let q := mk (_size q) (elements q) less in
  offer_all (c q) q.
Definition copy (q : t) : result t := getFromPriorityQueue (fun _ => q) (mk 0 [] less).
Definition assign (c q : t) : result t := getFromPriorityQueue (fun _ => c) q.
Definition assign_self (q : t) : result t := getFromPriorityQueue (fun q => q) q.

(** ** PriorityQueueIterator *)
Record iter := mkIter { position : nat; allowRemove : bool }.
Definition iterator : iter := mkIter 0 false.
Definition hasNext (i : iter) (q : t) : bool := (position i <? _size q)%nat.
Definition next (i : iter) (q : t) : result (E * iter) :=
  if negb (hasNext i q) then throw NoSuchElementException
  else let! x := read (position i) q in Ok (x, mkIter (position i + 1) true).
Definition remove_next (i : iter) (q : t) : result (iter * t) :=
  if negb (allowRemove i) then throw IllegalStateException
  else let! q := removeAt (position i) q in Ok (mkIter (position i - 1) false, q).
End Def.
End PriorityQueue.
