(* ===== verification/PriorityQueueFacts.v ===== *)
(** * What a priority queue promises

    A queue that is only offered to and polled answers as a bag of its elements from
    which the least is taken.  Taking a given element out of it, or one through an
    iterator, does not. *)

From S2P Require Import Prelude Heaps PriorityQueues.
Import PriorityQueue.
Local Open Scope Z_scope.

Section Laws.
Context {E : Type} (e0 : E) (less : E -> E -> Z).
Implicit Types (h : list E) (q : t (E := E)).

(** ** The loops leave the rest of the array alone *)
Lemma swap_prefix i j h r : (i < length h)%nat -> (j < length h)%nat -> Heap.swap i j (h ++ r) = Heap.swap i j h ++ r.
Proof.
  intros Hi Hj. unfold Heap.swap. rewrite !lookup_app_l by done. destruct (h !! i), (h !! j); try done.
  rewrite insert_app_l, insert_app_l by (rewrite ?length_insert; done). done.
Qed.
Lemma up_prefix before fuel : forall cur h r, (cur < length h)%nat -> Heap.up before fuel cur (h ++ r) = Heap.up before fuel cur h ++ r.
Proof.
  induction fuel as [|fuel IH]; intros cur h r Hc; cbn [Heap.up]; [done |]. assert (Hp : ((cur - 1) / 2 < length h)%nat) by (destruct cur; [done |]; pose proof (Heap.parent_lt (S cur) ltac:(lia)); unfold Heap.parent in *; lia).
  rewrite !lookup_app_l by done. destruct (h !! cur), (h !! ((cur - 1) / 2)%nat); try done. case_match; [|done]. rewrite swap_prefix by done. apply IH. by rewrite Heap.swap_length.
Qed.
Lemma down_prefix before fuel : forall cur h r, down before (length h) fuel cur (h ++ r) = Heap.down before fuel cur h ++ r.
Proof.
  induction fuel as [|fuel IH]; intros cur h r; cbn [Heap.down down]; [done |]. destruct (Nat.ltb_spec (2 * cur + 1) (length h)) as [Hc|Hc].
  - assert (Hs : match (h ++ r) !! (2 * cur + 1 + 1)%nat, (h ++ r) !! (2 * cur + 1)%nat with
        | Some x, Some y => if (2 * cur + 1 + 1 <? length h)%nat && before x y then (2 * cur + 1 + 1)%nat else (2 * cur + 1)%nat | _, _ => (2 * cur + 1)%nat end = Heap.smaller before (2 * cur + 1) h).
    { unfold Heap.smaller. rewrite (lookup_app_l h r (2 * cur + 1)) by done. destruct (Nat.ltb_spec (2 * cur + 1 + 1) (length h)).
      - by rewrite lookup_app_l.
      - rewrite (lookup_ge_None_2 h (2 * cur + 1 + 1)) by lia. by repeat case_match. }
    rewrite Hs. assert (Hch : (Heap.smaller before (2 * cur + 1) h < length h)%nat).
    { unfold Heap.smaller. destruct (h !! (2 * cur + 1 + 1)%nat) eqn:E1; [|done]. apply lookup_lt_Some in E1. repeat case_match; lia. }
    rewrite !lookup_app_l by lia. destruct (h !! cur) as [x|], (h !! Heap.smaller before (2 * cur + 1) h) as [y|]; try done. destruct (before x y); [done |]. rewrite swap_prefix by lia. rewrite <- IH. by rewrite Heap.swap_length.
  - assert (Hn : h !! Heap.smaller before (2 * cur + 1) h = None).
    { apply lookup_ge_None. unfold Heap.smaller. by rewrite (lookup_ge_None_2 h (2 * cur + 1 + 1)) by lia. }
    rewrite Hn. by destruct (h !! cur).
Qed.

(** ** The array and its front *)
Record holds q h : Prop := {
  front : take (_size q) (elements q) = h;
  room : (_size q <= capacity q)%nat
}.
Lemma holds_length q h : holds q h -> length h = _size q.
Proof. intros [<- H]. apply length_take_le, H. Qed.
Lemma holds_elements q h : holds q h -> elements q = h ++ drop (_size q) (elements q).
Proof. intros [<- _]. by rewrite take_drop. Qed.
Lemma holds_read q h i x : holds q h -> h !! i = Some x -> read i q = Ok x.
Proof. intros Hq Hx. unfold read. rewrite (holds_elements q h Hq), lookup_app_l by (by eapply lookup_lt_Some). by rewrite Hx. Qed.

Lemma holds_offer q h x : holds q h -> exists q', offer e0 x q = Ok q' /\ holds q' (Heap.insert (lt q) x h) /\ _comparator q' = _comparator q.
Proof.
  intros Hq. pose proof (holds_length q h Hq) as Hl. set (q1 := increaseCapacity e0 (_size q + 1) q).
  assert (H1 : _size q1 = _size q /\ _comparator q1 = _comparator q /\ (_size q < capacity q1)%nat /\ exists r, elements q1 = h ++ r).
  { pose proof (holds_elements q h Hq) as He. pose proof (room q h Hq). unfold q1, increaseCapacity. destruct (Nat.ltb_spec (capacity q) (_size q + 1)); split_and!; try done; try lia.
    - unfold capacity. cbn. rewrite length_app, length_replicate. unfold capacity, DEFAULT_CAPACITY_RATIO in *. lia.
    - cbn. rewrite He, <- app_assoc. by eexists.
    - by eexists. }
  destruct H1 as (Es & Ec & Hroom & r & Ee). unfold offer. fold q1. unfold write. rewrite Es, (proj2 (Nat.ltb_lt _ _)) by done. cbn [rbind].
  eexists. split; [reflexivity |]. unfold upHeap. cbn [set_elements _size elements _comparator lt]. split; [|done].
  destruct r as [|y r]; [exfalso; unfold capacity in Hroom; rewrite Ee, app_nil_r in Hroom; lia |].
  assert (Hw : <[_size q := x]> (elements q1) = (h ++ [x]) ++ r) by (rewrite Ee, <- Hl; rewrite <- (Nat.add_0_r (length h)) at 1; by rewrite insert_app_r, <- app_assoc).
  unfold lt. cbn [_comparator]. rewrite Ec. fold (lt q). rewrite Hw, up_prefix by (rewrite length_app; cbn; lia).
  assert (Hu : Heap.up (lt q) (_size q + 1) (_size q + 1 - 1) (h ++ [x]) = Heap.insert (lt q) x h) by (unfold Heap.insert, Heap.upHeap; rewrite length_app, Hl; done).
  rewrite !Es, Hu. assert (Hil : length (Heap.insert (lt q) x h) = (_size q + 1)%nat) by (rewrite <- Hu, (Permutation_length (Heap.up_perm _ _ _ _)), length_app, Hl; done).
  split; unfold capacity; cbn [_size elements set_elements]; [by rewrite <- Hil, take_app_length | rewrite length_app; lia].
Qed.
Lemma holds_removeAt q h i : holds q h -> (i < length h)%nat -> exists q', removeAt e0 i q = Ok q' /\ holds q' (Heap.remove (lt q) i h) /\ _comparator q' = _comparator q.
Proof.
  intros Hq Hi. pose proof (holds_length q h Hq) as Hl. pose proof (room q h Hq) as Hr. pose proof (holds_elements q h Hq) as He. unfold removeAt. destruct (_size q) as [|n] eqn:Es; [lia |].
  destruct (lookup_lt_is_Some_2 h n) as [x Hx]; [lia |]. unfold read. cbn [elements]. rewrite He, lookup_app_l, Hx by lia. cbn [rbind]. rewrite <- He.
  unfold write at 1. change (capacity (mk n (elements q) (_comparator q))) with (capacity q). rewrite (proj2 (Nat.ltb_lt i _)) by lia. cbn [rbind].
  set (a := <[i:=x]> (elements q)). assert (Ha : take n a = Heap.replace_by_last i h).
  { unfold Heap.replace_by_last. replace (length h - 1)%nat with n by lia. rewrite Hx. unfold a. rewrite He, insert_app_l by lia. rewrite take_app_le; [done | rewrite length_insert; lia]. }
  unfold downHeap. cbn [set_elements _size elements _comparator lt]. unfold write, capacity. cbn [elements set_elements].
  pose proof (Heap.replace_length i h Hi) as Hrl. assert (Hd : down (lt q) n n i a = Heap.remove (lt q) i h ++ drop n a).
  { unfold Heap.remove. rewrite (proj2 (Nat.ltb_lt i _)) by lia. unfold Heap.downHeap. rewrite Hrl. replace (length h - 1)%nat with n in * by lia. rewrite <- down_prefix, <- Ha, take_drop. by rewrite Ha, Hrl. }
  assert (Hrm : length (Heap.remove (lt q) i h) = n).
  { destruct (lookup_lt_is_Some_2 h i Hi) as [y Hy]. pose proof (Permutation_length (Heap.remove_perm (lt q) i h y Hy)) as Hp. cbn in Hp. lia. }
  fold a. change (lt (set_elements a _)) with (lt q). rewrite Hd.
  assert (Hdl : length (drop n a) = (capacity q - n)%nat) by (unfold a, capacity; by rewrite length_drop, length_insert).
  rewrite (proj2 (Nat.ltb_lt n _)) by (rewrite length_app; unfold capacity in *; lia). eexists. split; [reflexivity |]. split; [|done].
  split; unfold capacity; cbn [_size elements set_elements].
  - rewrite take_insert_ge by lia. by rewrite <- Hrm, take_app_length.
  - rewrite length_insert, length_app. lia.
Qed.

(** ** Sequences of calls *)
Inductive call := Offer (value : E) | Poll | Peek | Remove | Element | Size | Clear.
Inductive answer := Done | Value (x : option E) | Count (n : Z) | Thrown (e : exn).
(** What a call answers and leaves; a call that throws leaves the queue as it was. *)
Definition do_call (c : call) q : result (answer * t) :=
  match c with
  | Offer x => let! q := offer e0 x q in Ok (Done, q)
  | Poll => let! p := poll e0 q in Ok (Value p.1, p.2)
  | Peek => let! r := peek q in Ok (Value r, q)
  | Remove => match remove e0 q with Ok (x, q) => Ok (Value (Some x), q) | Err (Throw e) => Ok (Thrown e, q) | Err f => Err f end
  | Element => match element q with Ok x => Ok (Value (Some x), q) | Err (Throw e) => Ok (Thrown e, q) | Err f => Err f end
  | Size => Ok (Count (size q), q)
  | Clear => Ok (Done, clear e0 q)
  end.
Fixpoint do_calls (l : list call) q : result (list answer * t) :=
  match l with [] => Ok ([], q) | c :: l => let! p := do_call c q in let! p' := do_calls l p.2 in Ok (p.1 :: p'.1, p'.2) end.

Section Spec.
Context (c : E -> E -> Z) `{!StrictWeak (fun a b => c a b <? 0)}.
(** [x] is one of the least elements of the bag [b], the others are [b']. *)
Definition least (x : E) (b b' : list E) : Prop := Permutation b (x :: b') /\ forall y, y ∈ b -> (c y x <? 0) = false.
(** A bag that gives the least. *)
Inductive bag_call : call -> list E -> answer -> list E -> Prop :=
| bag_offer x b : bag_call (Offer x) b Done (x :: b)
| bag_poll x b b' : least x b b' -> bag_call Poll b (Value (Some x)) b'
| bag_poll_empty : bag_call Poll [] (Value None) []
| bag_peek x b b' : least x b b' -> bag_call Peek b (Value (Some x)) b
| bag_peek_empty : bag_call Peek [] (Value None) []
| bag_remove x b b' : least x b b' -> bag_call Remove b (Value (Some x)) b'
| bag_remove_empty : bag_call Remove [] (Thrown NoSuchElementException) []
| bag_element x b b' : least x b b' -> bag_call Element b (Value (Some x)) b
| bag_element_empty : bag_call Element [] (Thrown NoSuchElementException) []
| bag_size b : bag_call Size b (Count (zlen b)) b
| bag_clear b : bag_call Clear b Done [].
Inductive bag_calls : list call -> list E -> list answer -> list E -> Prop :=
| bag_nil b : bag_calls [] b [] b
| bag_cons o l b a b1 r b2 : bag_call o b a b1 -> bag_calls l b1 r b2 -> bag_calls (o :: l) b (a :: r) b2.

(** The queue holds the bag [b]. *)
Definition rep q b : Prop := exists h, holds q h /\ _comparator q = c /\ Heap.heap (fun x y => c x y <? 0) h /\ Permutation h b.

Lemma lt_is q : _comparator q = c -> lt q = (fun x y => c x y <? 0).
Proof. by intros <-. Qed.
Lemma rep_init n q : initQueue e0 n c = Ok q -> rep q [].
Proof.
  unfold initQueue. case_match; [done |]. intros [= <-]. exists []. split_and!; [split; [done | cbn; lia] | done | apply Heap.heap_nil | done].
Qed.
Lemma rep_nil q b : rep q b -> (_size q = 0%nat <-> b = []).
Proof.
  intros (h & Hh & _ & _ & Hp). pose proof (holds_length q h Hh) as Hl. rewrite (Permutation_length Hp) in Hl. destruct b; cbn in Hl; split; intros; (done || lia).
Qed.
(** The first element is one of the least. *)
Lemma rep_first q b n : rep q b -> _size q = S n -> exists x b' q', read 0 q = Ok x /\ removeAt e0 0 q = Ok q' /\ least x b b' /\ rep q' b'.
Proof.
  intros (h & Hh & Hc & Ho & Hp) Hn. pose proof (holds_length q h Hh) as Hl. destruct (lookup_lt_is_Some_2 h 0) as [x Hx]; [lia |].
  destruct (holds_removeAt q h 0 Hh) as (q' & Er & Hh' & Hc'); [lia |]. pose proof (Heap.remove_perm (lt q) 0 h x Hx) as Hpr.
  exists x, (Heap.remove (lt q) 0 h), q'. split; [by eapply holds_read |]. split; [done |]. split.
  - split; [by rewrite <- Hp, Hpr |]. intros y Hy. rewrite <- Hp in Hy. apply list_elem_of_lookup in Hy as [i Hy]. exact (Heap.root_minimal _ h x Ho Hx i y Hy).
  - exists (Heap.remove (lt q) 0 h). rewrite (lt_is q Hc) in *. split_and!; [done | congruence | apply (Heap.remove_heap _ 0 h Ho); intros; lia | done].
Qed.
Lemma queue_call_refines o q b : rep q b -> exists a q' b', do_call o q = Ok (a, q') /\ bag_call o b a b' /\ rep q' b'.
Proof.
  intros Hr. destruct o; cbn [do_call].
  1: { destruct Hr as (h & Hh & Hc & Ho & Hp). destruct (holds_offer q h value Hh) as (q' & E' & Hh' & Hc'). rewrite E'. eexists _, q', (value :: b). split; [reflexivity |]. split; [constructor |].
    exists (Heap.insert (lt q) value h). rewrite (lt_is q Hc) in *. split_and!; [done | congruence | exact (Heap.insert_heap _ value h Ho) |]. rewrite Heap.insert_perm. by constructor. }
  5: { exists (Count (size q)), q, b. split; [done |]. split; [|done]. destruct Hr as (h & Hh & _ & _ & Hp). unfold size. rewrite <- (holds_length q h Hh), (Permutation_length Hp). apply bag_size. }
  5: { exists Done, (clear e0 q), []. split; [done |]. split; [constructor |]. destruct Hr as (h & _ & Hc & _ & _). exists []. split_and!; [by split; cbn; [|lia] | done | apply Heap.heap_nil | done]. }
  all: unfold poll, peek, remove, element, peek, isEmpty; destruct (_size q) as [|n] eqn:En; cbn [Nat.eqb].
  1, 3, 5, 7: assert (b = []) as -> by (by apply (rep_nil q b Hr)); eexists _, q, []; cbn [rbind]; split; [reflexivity |]; split; [first [apply bag_poll_empty | apply bag_peek_empty | apply bag_remove_empty | apply bag_element_empty] | done].
  all: destruct (rep_first q b n Hr En) as (x & b' & q' & Ex & Er & Hl & Hr'); rewrite Ex; cbn [rbind]; rewrite ?Er; cbn [rbind].
  1, 3: exists (Value (Some x)), q', b'; split; [done |]; split; [first [by apply bag_poll | by apply bag_remove] | done].
  all: exists (Value (Some x)), q, b; split; [done |]; split; [first [by eapply bag_peek | by eapply bag_element] | done].
Qed.

(** C39. Any sequence of offer, poll, peek, remove, element, size and clear calls on a
    priority queue answers as on a bag that gives one of its least elements, whatever
    the capacity of its array. *)
Theorem priority_queue_refines l : forall q b, rep q b -> exists r q' b', do_calls l q = Ok (r, q') /\ bag_calls l b r b' /\ rep q' b'.
Proof.
  induction l as [|o l IH]; intros q b Hr; cbn [do_calls]; [by eexists _, q, b; split; [|split; [constructor |]] |].
  destruct (queue_call_refines o q b Hr) as (a & q1 & b1 & E1 & Hb & Hr1). destruct (IH q1 b1 Hr1) as (r & q' & b' & E' & Hbs & Hr'). rewrite E1. cbn [rbind snd]. rewrite E'.
  exists (a :: r), q', b'. split; [done |]. split; [by econstructor | done].
Qed.
End Spec.

(** ** Taking out a given element *)
Lemma target_bound c v h : (target v c h <= length h)%nat.
Proof. induction h as [|x h IH]; cbn; [done |]. case_match; lia. Qed.

(** C40. remove of a value takes out the first element of the array that compares equal to it
    and nothing else; the queue stays in order exactly when the last element of the
    array, which takes its place and is only moved down, is not less than the parent
    of that place: otherwise the next calls of poll do not give the least. *)
Theorem remove_value_order q h v i : StrictWeak (lt q) -> holds q h -> Heap.heap (lt q) h -> target v (_comparator q) h = i -> (i < length h)%nat ->
  exists x q' h', remove_value e0 v q = Ok (true, q') /\ holds q' h' /\ lt q' = lt q /\ h !! i = Some x /\ Permutation h (x :: h') /\
    (Heap.heap (lt q') h' <-> forall l p, (0 < i)%nat -> (i < length h - 1)%nat -> h !! (length h - 1)%nat = Some l -> h !! Heap.parent i = Some p -> lt q l p = false).
Proof.
  intros Hw Hq Ho Hi Hlt. pose proof (holds_length q h Hq) as Hl. destruct (lookup_lt_is_Some_2 h i Hlt) as [x Hx].
  destruct (holds_removeAt q h i Hq Hlt) as (q' & Er & Hq' & Hc). exists x, q', (Heap.remove (lt q) i h).
  assert (El : lt q' = lt q) by (unfold lt; by rewrite Hc). unfold remove_value. rewrite (front q h Hq), Hi, (proj2 (Nat.eqb_neq _ 0)), (proj2 (Nat.eqb_neq _ i)) by lia. cbn [orb]. rewrite Er. cbn [rbind].
  split; [done |]. split; [done |]. split; [done |]. split; [done |]. split; [symmetry; by apply Heap.remove_perm |]. rewrite El. split; [|by apply Heap.remove_heap].
  intros Hh l p H0 Hi1 Hll Hp. destruct (lt q l p) eqn:E1; [|done]. exfalso. by apply (proj2 (Heap.remove_not_heap (lt q) i h l p Ho H0 Hi1 Hll Hp E1)).
Qed.

(** ** Iterators *)
(** Remove of an iterator does not take the element that next returned, but the one
    after it; after the last it writes past the end of the array when that is full. *)
Theorem iterator_removes_next q h i x i1 : holds q h -> next i q = Ok (x, i1) ->
  h !! position i = Some x /\
  (forall y, h !! S (position i) = Some y -> exists q' h', remove_next e0 i1 q = Ok (mkIter (position i) false, q') /\ holds q' h' /\ Permutation h (y :: h')) /\
  (S (position i) = length h -> capacity q = length h -> remove_next e0 i1 q = Err Undefined).
Proof.
  intros Hq. pose proof (holds_length q h Hq) as Hl. unfold next, hasNext. destruct (Nat.ltb_spec (position i) (_size q)) as [Hp|]; [|done]. cbn [negb].
  destruct (lookup_lt_is_Some_2 h (position i)) as [z Hz]; [lia |]. rewrite (holds_read q h _ z Hq Hz). cbn [rbind]. intros [= -> <-]. split; [done |].
  unfold remove_next. cbn [allowRemove negb position]. replace (position i + 1 - 1)%nat with (position i) by lia. replace (position i + 1)%nat with (S (position i)) by lia. split.
  - intros y Hy. destruct (holds_removeAt q h (S (position i)) Hq ltac:(by eapply lookup_lt_Some)) as (q' & Er & Hq' & _). rewrite Er. cbn [rbind].
    eexists q', _. split; [done |]. split; [exact Hq' |]. symmetry. by apply Heap.remove_perm.
  - intros He Hc. unfold removeAt. destruct (_size q) as [|n] eqn:En; [lia |]. unfold read. cbn [elements].
    destruct (elements q !! n); [|done]. cbn [rbind]. unfold write at 1, capacity. cbn [elements]. unfold capacity in Hc. by rewrite (proj2 (Nat.ltb_ge _ _)) by lia.
Qed.

(** ** Copies *)
Lemma ceil_enough n : 0 < n -> n <= ceil_1_1 n.
Proof.
  intros Hn. unfold ceil_1_1. set (p := n * 4953959590107546). set (k := Z.max 0 (Z.log2 p - 52)). assert (Hp : 0 < p) by (unfold p; lia).
  assert (Hk : 2 ^ k <= 2 * n).
  { unfold k. destruct (Z.max_spec 0 (Z.log2 p - 52)) as [[H ->]|[H ->]]; [|lia]. pose proof (Z.log2_spec p Hp) as [Hlog _].
    replace (Z.log2 p) with (52 + (Z.log2 p - 52)) in Hlog by lia. rewrite Z.pow_add_r in Hlog by lia. unfold p in Hlog at 2. change (2 ^ 52) with 4503599627370496 in Hlog. nia. }
  pose proof (Z.pow_pos_nonneg 2 k ltac:(lia) ltac:(unfold k; lia)) as Hk0. pose proof (Z.div_mod p (2 ^ k) ltac:(lia)) as Hd. pose proof (Z.mod_pos_bound p (2 ^ k) Hk0) as Hm.
  set (m := if _ || _ then _ else _). assert (Hmm : p / 2 ^ k <= m) by (unfold m; case_match; lia).
  assert (Hx : n * 2 ^ 52 <= m * 2 ^ k) by (change (2 ^ 52) with 4503599627370496; unfold p in *; nia).
  enough (- (m * 2 ^ k) / 2 ^ 52 <= - n) by lia. apply Z.div_le_upper_bound; [done | lia].
Qed.
Lemma copy_elements_holds src h : holds src h -> forall n ix q, (ix + n = length h)%nat -> (length h <= capacity q)%nat -> take ix (elements q) = take ix h ->
  exists q', copy_elements n ix (fun _ => src) q = Ok q' /\ take (length h) (elements q') = h /\ capacity q' = capacity q /\ _comparator q' = _comparator q.
Proof.
  intros Hs. induction n as [|n IH]; intros ix q Hn Hc Ht; cbn [copy_elements].
  - exists q. split; [done |]. split; [|done]. replace (length h) with ix by lia. rewrite Ht. apply take_ge. lia.
  - destruct (lookup_lt_is_Some_2 h ix) as [x Hx]; [lia |]. rewrite (holds_read src h ix x Hs Hx). cbn [rbind]. unfold write. rewrite (proj2 (Nat.ltb_lt _ _)) by lia. cbn [rbind].
    assert (Hcs : capacity (set_elements (<[ix:=x]> (elements q)) q) = capacity q) by (unfold capacity; cbn; by rewrite length_insert).
    destruct (IH (S ix) (set_elements (<[ix:=x]> (elements q)) q)) as (q' & E' & Ht' & Hc' & Hcmp); [lia | lia | | by exists q'; rewrite E', Hc', Hcs].
    cbn [elements set_elements]. rewrite (take_S_r _ _ x) by (apply list_lookup_insert_eq; unfold capacity in Hc; lia). rewrite take_insert_ge by lia. by rewrite Ht, (take_S_r h _ x).
Qed.

(** A copy of a priority queue, made or assigned, holds the same array front and has the
    same comparator; a queue that is assigned to itself loses everything. *)
Theorem assignment_copies src h q : holds src h ->
  (exists q', assign e0 src q = Ok q' /\ holds q' h /\ comparator q' = comparator src) /\ (exists q', assign_self e0 q = Ok q' /\ holds q' []).
Proof.
  intros Hs. pose proof (holds_length src h Hs) as Hl. split; [|eexists; split; [reflexivity |]; split; [done | apply Nat.le_0_l]].
  unfold assign, getFromPriorityQueue. set (q1 := mk (_size _) _ _). assert (H1 : (length h <= capacity q1)%nat /\ _comparator q1 = comparator src).
  { split; [|done]. unfold q1, initCapacity, capacity, size. destruct (Z.eqb_spec (Z.of_nat (_size src)) 0); cbn [elements]; rewrite length_replicate; [lia |].
    pose proof (ceil_enough (Z.of_nat (_size src)) ltac:(lia)). lia. }
  destruct (copy_elements_holds src h Hs (_size src) 0 q1) as (q' & E' & Ht & Hc & Hcmp); [lia | apply H1 | done |]. rewrite E'. cbn [rbind]. eexists. split; [reflexivity |]. split.
  - split; cbn [_size elements]; [by rewrite <- Hl | unfold capacity in *; cbn [elements]; lia].
  - unfold comparator. cbn. rewrite Hcmp. apply H1.
Qed.
End Laws.

(** ** Witnesses *)
#[export] Instance less_weak : StrictWeak (fun a b => Less.compare a b <? 0).
Proof. unfold Less.compare. split; intros; repeat case_match; lia. Qed.
(** Seven numbers, offered to a queue with room for two. *)
Definition seven : t (E := Z) := Eval vm_compute in
  match initQueue 0 2 Less.compare with
  | Ok q => match offer_all 0 [1; 4; 2; 5; 6; 7; 3] q with Ok q => q | Err _ => mk 0 [] Less.compare end
  | Err _ => mk 0 [] Less.compare
  end.
Lemma seven_holds : holds seven [1; 4; 2; 5; 6; 7; 3].
Proof. split; [reflexivity | cbn; lia]. Qed.
Lemma seven_heap : Heap.heap (lt seven) [1; 4; 2; 5; 6; 7; 3].
Proof. intros i x p Hi Hx Hp. do 7 (destruct i as [|i]; [try lia; injection Hx as <-; injection Hp as <-; reflexivity |]). done. Qed.
Lemma priority_queue_refines_witness : exists r q' b', rep Less.compare (mk 0 (replicate 2 0) Less.compare) [] /\
  do_calls 0 [Offer 5; Offer 3; Offer 4; Peek; Poll; Size; Remove; Poll; Poll; Remove] (mk 0 (replicate 2 0) Less.compare) = Ok (r, q') /\
  r = [Done; Done; Done; Value (Some 3); Value (Some 3); Count 2; Value (Some 4); Value (Some 5); Value None; Thrown NoSuchElementException] /\
  bag_calls Less.compare [Offer 5; Offer 3; Offer 4; Peek; Poll; Size; Remove; Poll; Poll; Remove] [] r b'.
Proof.
  assert (H : rep Less.compare (mk 0 (replicate 2 0) Less.compare) []) by exact (rep_init 0 Less.compare 2 _ eq_refl).
  destruct (priority_queue_refines 0 Less.compare [Offer 5; Offer 3; Offer 4; Peek; Poll; Size; Remove; Poll; Poll; Remove] _ [] H) as (r & q' & b' & E' & Hb & _).
  exists r, q', b'. split; [exact H |]. split; [exact E' |]. split; [|exact Hb]. vm_compute in E'. by injection E' as <- _.
Defined.
(** Without the 5 the queue gives 4 before 3. *)
Lemma remove_value_order_witness : exists x q' h', remove_value 0 5 seven = Ok (true, q') /\ holds q' h' /\ [1; 4; 2; 5; 6; 7; 3] !! 3%nat = Some x /\ Permutation [1; 4; 2; 5; 6; 7; 3] (x :: h') /\ ~ Heap.heap (lt q') h'.
Proof.
  destruct (remove_value_order 0 seven [1; 4; 2; 5; 6; 7; 3] 5 3 less_weak seven_holds seven_heap eq_refl) as (x & q' & h' & E' & Hq' & _ & Hx & Hp & Hiff); [cbn; lia |].
  exists x, q', h'. split; [exact E' |]. split; [exact Hq' |]. split; [exact Hx |]. split; [exact Hp |]. intros Hh. by specialize (proj1 Hiff Hh 3 4 ltac:(lia) ltac:(cbn; lia) eq_refl eq_refl).
Defined.
Example polls_out_of_order : exists q, remove_value 0 5 seven = Ok (true, q) /\ option_map fst (match do_calls 0 [Poll; Poll; Poll; Poll] q with Ok p => Some p | Err _ => None end) =
  Some [Value (Some 1); Value (Some 2); Value (Some 4); Value (Some 3)].
Proof. eexists. split; reflexivity. Qed.
Lemma iterator_removes_next_witness : exists q' h', next iterator seven = Ok (1, mkIter 1 true) /\ remove_next 0 (mkIter 1 true) seven = Ok (mkIter 0 false, q') /\ holds q' h' /\ Permutation [1; 4; 2; 5; 6; 7; 3] (4 :: h').
Proof.
  destruct (iterator_removes_next 0 seven [1; 4; 2; 5; 6; 7; 3] iterator 1 (mkIter 1 true) seven_holds eq_refl) as (_ & H & _).
  destruct (H 4 eq_refl) as (q' & h' & E' & Hq' & Hp). exists q', h'. split; [reflexivity |]. split; [exact E' |]. split; [exact Hq' | exact Hp].
Defined.
Lemma assignment_copies_witness : exists q', assign 0 seven (mk 0 [] Less.compare) = Ok q' /\ holds q' [1; 4; 2; 5; 6; 7; 3].
Proof.
  destruct (assignment_copies 0 seven [1; 4; 2; 5; 6; 7; 3] (mk 0 [] Less.compare) seven_holds) as [(q' & E' & Hq' & _) _]. exists q'. split; [exact E' | exact Hq'].
Defined.
